(* ===== verification/_CoqProject ===== *)
-Q . S2P
Prelude.v
JsString.v
JsRegExp.v
RegExpFacts.v
RegExpCounts.v
Events.v
SlideLexer.v
SlideParser.v
SlideModel.v
Slideshow.v
Navigation.v
Inputs.v
Timer.v
Utils.v
Views.v
SlideView.v
Session.v
Windows.v
Contents.v
Layout.v
Page.v
Theme.v
Extend.v
MarkedGrammar.v
MarkedLexer.v
MarkedInline.v
MarkedParser.v
Converter.v
Startup.v
HljsStreams.v
HljsModes.v
Hljs.v
HljsLanguages.v
HljsFacts.v
HljsTotal.v
HljsBlock.v
Html.v
Resources.v
Styles.v
ChildElements.v
CodeBlocks.v
LanguagesAC.v
LanguagesDH.v
LanguagesIM.v
LanguagesNR.v
LanguagesSZ.v
Bundle.v
SlideElement.v
Program.v
