(* ===== verification/Prelude.v ===== *)
(** * Verification of remark.js

    This development models the slide-show program of the repository, the browserify
    bundle [src/liquidsoap-master/doc/orig/fosdem2020/remark.js], and proves what makes
    its parts correct.  Module numbers are those of the bundle.  One file is about the
    script of the Icecast documentation, [src/Icecast-Server-master/doc/js/theme.js].

    ** The program

    A page holds slides written in markdown.  The API (module 6) reads the source, the
    slide parser (22) with its lexer (16) cuts it into slides with properties, links,
    notes and nested content classes, and the slide show (19) turns the parsed slides
    into numbered view models (18) that inherit from templates.  The navigation (21)
    keeps the current slide and talks over an event emitter (1) to the inputs (7 to 12),
    to the views (26 to 28) and to other windows.  A slide view converts its content to
    HTML with the converter (13), which runs marked (3), and decorates the code blocks
    with the syntax highlighter (15), an engine with 185 language definitions.  A timer
    measures the talk.

    ** Files

    - [Prelude]: results and exceptions, list lemmas, JavaScript objects whose order of
      enumeration matters.
    - [JsString]: strings as sequences of UTF-16 code units and the methods the program
      calls; numbers as text.
    - [JsRegExp]: regular expressions: the parser of patterns, the backtracking matcher of
      ECMAScript, exec, test, match, replace and split.  The patterns of the program
      are parsed from their source text, also those that it assembles at run time.
    - [RegExpFacts], [RegExpCounts]: a declarative relation for which the matcher is
      sound, and complete without groups; static bounds on the length of a match and of
      its captures; groups that every match sets; what replacing does.
    - [Events]: module 1.  A machine whose state is the table of listeners (a function or
      a shared array), the once wrappers and a log of calls; [Class Emitter] is what the
      inputs rely on, and [emitter_Emitter] shows that the machine provides it.
    - [SlideLexer], [SlideParser], [SlideModel], [Slideshow]: modules 16, 22 with 17, 18, 19.
    - [Navigation]: module 21, a state machine with everything it emits and posts.
    - [Inputs]: modules 7 to 12, proved against [Class Emitter].
    - [Timer], [Utils]: the timer, class lists (25) and array polyfills (4).
    - [Views]: modules 20, 26, 28, the show and hide of module 27, page orientation and
      slide numbers.
    - [SlideView]: classes and styles of a slide (27) and the scaler (24).
    - [Session]: module 6, create: deck, navigation, views, timer and controller connected
      by the bus, and the actions of the user and the browser as steps of the whole.
    - [Contents]: what the views and the notes area hold, followed through all sessions.
    - [Windows]: a show and its clone (modules 10, 19, 21): two sessions that exchange
      messages, which arrive in order but at any time.
    - [Startup]: modules 5 and 6, options with their defaults and the ways into create; the
      options of marked (3).
    - [Layout]: the style sheet (styler), printing, full screen, background images.
    - [Page]: the address of the window (14), rescaling, the buttons of the notes (26).
    - [Extend]: module 2, over a store of objects, so that sharing is visible.
    - [Theme]: the script of the Icecast documentation.
    - [MarkedGrammar], [MarkedLexer], [MarkedInline], [MarkedParser]: module 3.
    - [Converter]: module 13, and the conversion and source handling of module 6.
    - [HljsStreams]: module 15, the markup of a block merged into highlighted code.
    - [HljsModes], [Hljs]: module 15, modes as objects of a heap that compilation changes,
      the compiler of languages, and the engine: highlight, sub-languages, detection.
    - [HljsLanguages], [LanguagesAC], [LanguagesDH], [LanguagesIM], [LanguagesNR],
      [LanguagesSZ]: the common modes and the 185 languages, each built as in the source,
      with the lists that they share; long texts of key words are definitions of their own.
    - [HljsFacts], [HljsTotal], [HljsBlock], [Bundle]: the invariant of the engine, the
      languages for which it is exact, blocks of a page, all languages together.
    - [Html]: markup and nodes; [Class Browser] is what the program relies on when it writes
      and reads [innerHTML], and [reader] a browser that provides it.
    - [Resources]: module 23, the style sheet and the layout with readers for both.
    - [Styles]: what the style sheet displays for the classes that the views set, by the
      rules of the cascade; [ChildElements]: the elements that the views look up in the
      layout (26, 28), and its help.
    - [CodeBlocks], [SlideElement]: the code blocks of slides, highlighted line by line, and
      the elements of a deck from its markdown to its nodes.
    - [Program]: sessions whose slides are these elements.

    Definitions carry the names of the functions they translate.  State is passed
    explicitly; an exception is a value of [result]; the highlighter is written in a
    monad [M] over the heap of modes, which keeps what was changed before an exception.

    ** What is proved

    - Termination and totality: the slide lexer and parser, also with nested macros, the
      block lexer, the inline lexer and the parser of marked, [marked] and the converter
      end on every source and with every setting of the options; the only exceptions of
      the slide parser come from macros; highlighting returns for every code in 102
      languages, and so does the detection among them.
    - The whole program: after create and any sequence of actions exactly the current
      slide is visible, with the converted markdown of that slide of the loaded deck, and
      no listener throws; the notes change with the slide; the style sheet displays the
      slide above the others, and a backdrop exactly in the modes that hide the slides; the
      address follows the slides; fading always ends; create opens the slide that the address names.
    - Two windows: whatever the order in which actions and messages interleave, a clone
      that nobody else steers comes to the slide and the blackout of the main window.
    - Invariants and types: nesting of tokens, normal form of content, indices and numbers
      of slides, the range of the current index, well-formed listener tables.
    - Functional behaviour: matching of brackets, removal of indentation, boundaries of
      slides, inheritance, the lines of code blocks, order of listeners, the choice of
      language detection, merging of markup.
    - Refinement: the emitter refines a table of lists; the clone refines the messages it
      is sent; highlighting a block keeps its text and its markup; the elements of a deck
      are its converted markdown with the code shown line by line.
    - Resources: every element that a view looks up is in the layout, and every key that
      the help names emits the event that it promises.
    - Safety: balanced markup of highlighted code for all languages together, once listeners, one
      call of the callback of [marked], escaped text, deep copies that share nothing with
      their sources.
    - Round trips and bounds: location hash, timer text, source markup, elapsed time,
      slide dimensions in double precision.
    - Behaviours that are not what the code intends, each with a concrete input.

    ** Fuel

    Loops that are not structural take fuel, and [OutOfFuel] is a result of its own which
    the totality theorems exclude: the lexers of marked consume at least one character
    that is not a line feed (block) or one character (inline) in every round, and their
    recursive calls are on shorter texts, so the length of the source and two is enough;
    the parser of marked takes the number of tokens; repetition in the matcher takes the
    length of the rest, and [mtch_rep] shows that this is never a restriction.  For the
    highlighter [enough n = 6 n + 12] rounds are enough for a code of length n, because a
    round that consumes nothing enters or leaves a mode and plain languages have no chain
    of such rounds; [compile_fuel] bounds the depth of the modes of one language, and
    loading every language checks it.  Parsing with macros takes one level more than the
    texts of the macros.  Deep copies take the depth of the source.  Listeners can emit
    for ever, so [Events.run] is stated for every fuel.

    ** Parameters

    What is not in the repository is an argument: what the browser does with markup and
    style sheets, the bodies of listeners and macros, the clock, the sequence of
    [Math.random], highlighting functions of users.  Markup is an interface with laws
    ([Class Browser]) where its meaning matters.

    ** Not modelled

    The style sheets of the highlighter, which are data; sending requests, which is a call
    of the browser; a controller of the user in place of the default one; listeners that
    only stop the propagation of an event.  The states of elements that selectors of the
    style sheet ask for are an argument, and elements that a browser adds to tables are left
    out.  Code elements of a slide are not nested, and the text that a
    number in double precision is written as in a style is left as the number. *)

#[export] Set Warnings "-clear-no-such-hyp,-register-all".
From stdpp Require Export base tactics list option numbers strings gmap.

(** ** Results: normal completion or a thrown JavaScript exception *)

(** Strings are sequences of UTF-16 code units. *)
Abbreviation jsstr := (list N).

Inductive exn :=
| TypeError (msg : jsstr)
| Error (msg : jsstr).

(** [OutOfFuel] marks a bound on iterations that was too small; it is not a
    behaviour of the program, and the termination theorems rule it out. *)
Inductive result (A : Type) :=
| Ok (a : A)
| Throw (e : exn)
| OutOfFuel.
Arguments Ok {A} _.
Arguments Throw {A} _.
Arguments OutOfFuel {A}.

Definition rbind {A B} (m : result A) (f : A -> result B) : result B :=
  match m with Ok a => f a | Throw e => Throw e | OutOfFuel => OutOfFuel end.

(** A list processed from left to right in the result monad. *)
Fixpoint rfold {A S} (f : A -> S -> result S) (l : list A) (s : S) : result S :=
  match l with
  | [] => Ok s
  | x :: t => rbind (f x s) (rfold f t)
  end.

Declare Scope js_scope.
Delimit Scope js_scope with js.
Open Scope js_scope.

Notation "'let!' x := c 'in' k" := (rbind c (fun x => k))
  (at level 10, x pattern, c at level 100, k at level 200) : js_scope.

Lemma rfold_inv {A S} (P : S -> Prop) (f : A -> S -> result S) l s s' :
  (forall x s s', P s -> f x s = Ok s' -> P s') -> P s -> rfold f l s = Ok s' -> P s'.
Proof.
  intros Hf. revert s. induction l as [|x l IH]; intros s Hs; simpl.
  - by intros [= <-].
  - destruct (f x s) eqn:E; simpl; try done. eauto.
Qed.

(** Inverts a successful sequence of results. *)
Lemma rbind_ok {A B} (m : result A) (f : A -> result B) b :
  rbind m f = Ok b -> exists a, m = Ok a /\ f a = Ok b.
Proof. destruct m; simpl; try done. eauto. Qed.

Lemma rbind_throw {A B} (m : result A) (f : A -> result B) e :
  rbind m f = Throw e -> m = Throw e \/ exists a, m = Ok a /\ f a = Throw e.
Proof. destruct m; simpl; try done; eauto. intros [= ->]. by left. Qed.

Lemma rfold_app {A S} (f : A -> S -> result S) l1 l2 s :
  rfold f (l1 ++ l2) s = rbind (rfold f l1 s) (rfold f l2).
Proof.
  revert s. induction l1 as [|x l1 IH]; intros s; simpl; [done|].
  destruct (f x s); simpl; auto.
Qed.

(** ** Lists *)

Lemma Forall_bfilter {A} (P : A -> Prop) (f : A -> bool) l :
  Forall P l -> Forall P (List.filter f l).
Proof. induction 1; simpl; [done|]. destruct (f x); [by constructor|done]. Qed.

Lemma last_split {A} (l : list A) x :
  last l = Some x -> l = take (length l - 1) l ++ [x].
Proof.
  destruct l as [|y l _] using rev_ind; [done|]. rewrite last_snoc. intros [= ->].
  by rewrite length_app, Nat.add_sub, take_app_length.
Qed.

(** ** Objects as ordered tables *)

(** A JavaScript object used as a map whose enumeration order matters: its own
    properties in the order in which they were created. *)
Section Objects.
Context {K V : Type} `{EqDecision K}.

Fixpoint oget (k : K) (o : list (K * V)) : option V :=
  match o with
  | [] => None
  | (k', v) :: t => if bool_decide (k' = k) then Some v else oget k t
  end.

(** Assignment keeps the place of an existing property. *)
Fixpoint oset (k : K) (v : V) (o : list (K * V)) : list (K * V) :=
  match o with
  | [] => [(k, v)]
  | (k', v') :: t => if bool_decide (k' = k) then (k, v) :: t else (k', v') :: oset k v t
  end.

Fixpoint odel (k : K) (o : list (K * V)) : list (K * V) :=
  match o with
  | [] => []
  | (k', v) :: t => if bool_decide (k' = k) then odel k t else (k', v) :: odel k t
  end.

Lemma oget_oset_eq k v o : oget k (oset k v o) = Some v.
Proof.
  induction o as [|[k' v'] t IH]; simpl; repeat (case_bool_decide; simpl); done.
Qed.

Lemma oget_oset_ne k k' v o : k' <> k -> oget k' (oset k v o) = oget k' o.
Proof.
  intros Hne. induction o as [|[k1 v1] t IH]; simpl; [by rewrite bool_decide_false|].
  repeat (case_bool_decide; simpl); subst; try done; congruence.
Qed.

Lemma oset_oset k v v' o : oset k v (oset k v' o) = oset k v o.
Proof. induction o as [|[k' w] t IH]; simpl; repeat (case_bool_decide; simpl); congruence. Qed.

Lemma oget_odel_eq k o : oget k (odel k o) = None.
Proof. induction o as [|[k' v'] t IH]; simpl; [done|]. case_bool_decide; simpl; [done|]. by case_bool_decide. Qed.

Lemma oget_odel_ne k k' o : k' <> k -> oget k' (odel k o) = oget k' o.
Proof.
  intros Hne. induction o as [|[k1 v1] t IH]; simpl; [done|].
  repeat (case_bool_decide; simpl); subst; try done; congruence.
Qed.
End Objects.
