(* ===== verification/JsString.v ===== *)
(** * JavaScript strings and numbers as the bundle uses them

    A JavaScript string is a sequence of UTF-16 code units: [jsstr = list N].
    This file models the methods of String, Array.prototype.join, parseInt and
    Number.prototype.toString that the sources call.  Case conversion is the
    Unicode one on the Basic Latin and Latin-1 blocks; code units above U+00FF
    are left unchanged. *)

From S2P Require Import Prelude.

(** ** Literals *)

(** [js] reads a source literal: UTF-8 bytes become code units, and the
    full-width quotation mark (U+FF02) stands for the ASCII double quote, which
    cannot be written inside a literal.  No escape sequence is interpreted, so a
    regular-expression source reads exactly as in the program. *)
Fixpoint utf8 (s : list N) : jsstr :=
  match s with
  | [] => []
  | a :: t =>
      if (a <? 128)%N then a :: utf8 t
      else match t with
           | [] => []
           | b :: t1 =>
               if (a <? 224)%N then ((a - 192) * 64 + (b - 128))%N :: utf8 t1
               else match t1 with
                    | [] => []
                    | c :: t2 =>
                        ((a - 224) * 4096 + (b - 128) * 64 + (c - 128))%N :: utf8 t2
                    end
           end
  end.

Fixpoint bytes (s : string) : list N :=
  match s with
  | EmptyString => []
  | String a t => Ascii.N_of_ascii a :: bytes t
  end.

Definition js (s : string) : jsstr :=
  map (fun c => if (c =? 65282)%N then 34%N else c) (utf8 (bytes s)).

Arguments js _ : simpl never.

(** Named code units. *)
Definition c_tab : N := 9.
Definition c_nl : N := 10.
Definition c_cr : N := 13.
Definition c_sp : N := 32.
Definition c_dq : N := 34.
Definition nl : jsstr := [c_nl].

(** ** Character classes *)

Definition in_range (lo hi c : N) : bool := (lo <=? c)%N && (c <=? hi)%N.

Definition is_digit (c : N) : bool := in_range 48 57 c.
Definition is_upper (c : N) : bool := in_range 65 90 c.
Definition is_lower (c : N) : bool := in_range 97 122 c.

(** [\w] of regular expressions. *)
Definition is_word (c : N) : bool :=
  is_digit c || is_upper c || is_lower c || (c =? 95)%N.

(** WhiteSpace and LineTerminator of ECMAScript: [\s] and what trim removes. *)
Definition is_space (c : N) : bool :=
  in_range 9 13 c || (c =? 32)%N || (c =? 160)%N || (c =? 5760)%N
  || in_range 8192 8202 c || (c =? 8232)%N || (c =? 8233)%N || (c =? 8239)%N
  || (c =? 8287)%N || (c =? 12288)%N || (c =? 65279)%N.

Definition is_line_terminator (c : N) : bool :=
  (c =? 10)%N || (c =? 13)%N || (c =? 8232)%N || (c =? 8233)%N.

Definition lower_char (c : N) : N :=
  if is_upper c then (c + 32)%N
  else if in_range 192 222 c && negb (c =? 215)%N then (c + 32)%N else c.

Definition upper_char (c : N) : N :=
  if is_lower c then (c - 32)%N
  else if in_range 224 254 c && negb (c =? 247)%N then (c - 32)%N else c.

Definition toLowerCase (s : jsstr) : jsstr := map lower_char s.
Definition toUpperCase (s : jsstr) : jsstr := map upper_char s.

(** ** Substrings *)

(** [s.substring(i)] and [s.substr(i)] for [0 <= i]. *)
Definition substring_from (s : jsstr) (i : nat) : jsstr := drop i s.

(** [s.substring(i, j)] for [0 <= i], [0 <= j]: the bounds are clamped and
    swapped when out of order. *)
Definition substring (s : jsstr) (i j : nat) : jsstr :=
  take (Nat.max i j - Nat.min i j) (drop (Nat.min i j) s).

(** [s.substr(i, n)] for [0 <= i]. *)
Definition substr (s : jsstr) (i n : nat) : jsstr := take n (drop i s).

(** [s.charAt(i)]: the empty string out of range. *)
Definition charAt (s : jsstr) (i : nat) : jsstr :=
  match s !! i with Some c => [c] | None => [] end.

(** [s.slice(0, -1)] *)
Definition slice_0_m1 (s : jsstr) : jsstr := take (length s - 1) s.

Fixpoint starts_with (p s : jsstr) : bool :=
  match p, s with
  | [], _ => true
  | _ :: _, [] => false
  | a :: p', b :: s' => (a =? b)%N && starts_with p' s'
  end.

(** [s.indexOf(p)]: [None] is -1. *)
Fixpoint indexOf (s p : jsstr) : option nat :=
  if starts_with p s then Some 0
  else match s with
       | [] => None
       | _ :: t => S <$> indexOf t p
       end.

Fixpoint drop_while (f : N -> bool) (s : jsstr) : jsstr :=
  match s with
  | [] => []
  | c :: t => if f c then drop_while f t else s
  end.

Fixpoint take_while (f : N -> bool) (s : jsstr) : jsstr :=
  match s with
  | [] => []
  | c :: t => if f c then c :: take_while f t else []
  end.

Definition trim (s : jsstr) : jsstr :=
  rev (drop_while is_space (rev (drop_while is_space s))).

(** ** split and join *)

(** [s.split(c)] for a separator of one code unit. *)
Fixpoint split_on (c : N) (s : jsstr) : list jsstr :=
  match s with
  | [] => [[]]
  | x :: t =>
      if (x =? c)%N then [] :: split_on c t
      else match split_on c t with
           | h :: r => (x :: h) :: r
           | [] => [[x]]
           end
  end.

(** [l.join(sep)] *)
Fixpoint join (sep : jsstr) (l : list jsstr) : jsstr :=
  match l with
  | [] => []
  | [x] => x
  | x :: t => x ++ sep ++ join sep t
  end.

(** [s.replace(p, w)] for a string pattern: the first occurrence only. *)
Definition replace_str (s p w : jsstr) : jsstr :=
  match indexOf s p with
  | Some i => take i s ++ w ++ drop (i + length p) s
  | None => s
  end.

(** ** Numbers *)

Fixpoint dec_go (fuel : nat) (n : N) (acc : jsstr) : jsstr :=
  match fuel with
  | O => acc
  | S f =>
      let acc' := (48 + n mod 10)%N :: acc in
      if (n <? 10)%N then acc' else dec_go f (n / 10)%N acc'
  end.

(** [n.toString()] for a natural number. *)
Definition dec (n : N) : jsstr := dec_go (S (N.to_nat (N.log2 n))) n [].

(** [n.toString()] for an integer. *)
Definition decZ (z : Z) : jsstr :=
  match z with
  | Zneg p => 45%N :: dec (Npos p)
  | _ => dec (Z.to_N z)
  end.

Definition digits_val (s : jsstr) : N :=
  fold_left (fun a c => (a * 10 + (c - 48))%N) s 0%N.

(** [parseInt(s, 10)]: leading white space, an optional sign, then the longest
    run of digits; [None] is NaN. *)
Definition parseInt (s : jsstr) : option Z :=
  let s := drop_while is_space s in
  let '(neg, s) :=
    match s with
    | c :: t => if (c =? 45)%N then (true, t) else if (c =? 43)%N then (false, t) else (false, s)
    | [] => (false, s)
    end in
  match take_while is_digit s with
  | [] => None
  | ds => let n := Z.of_N (digits_val ds) in Some (if neg then (- n)%Z else n)
  end.

(** Names every plain object inherits from Object.prototype. *)
Definition object_prototype : list jsstr :=
  [js "constructor"; js "__defineGetter__"; js "__defineSetter__"; js "hasOwnProperty";
   js "__lookupGetter__"; js "__lookupSetter__"; js "isPrototypeOf";
   js "propertyIsEnumerable"; js "toString"; js "valueOf"; js "__proto__"; js "toLocaleString"].

(** ** Facts *)

Lemma join_split c s : join [c] (split_on c s) = s.
Proof.
  induction s as [|x t IH]; [done|]. simpl.
  destruct (split_on c t) as [|h r] eqn:E.
  { destruct t as [|y t]; simpl in E; [done|].
    destruct (y =? c)%N; [done|]. by destruct (split_on c t). }
  destruct (N.eqb_spec x c) as [->|Hx].
  - change (c :: join [c] (h :: r) = c :: t). by rewrite IH.
  - transitivity (x :: join [c] (h :: r)); [by destruct r|by rewrite IH].
Qed.

Lemma split_on_no_sep c s p : p ∈ split_on c s -> c ∉ p.
Proof.
  revert p. induction s as [|x t IH]; simpl; intros p.
  - intros ->%list_elem_of_singleton. apply not_elem_of_nil.
  - destruct (N.eqb_spec x c) as [->|Hx].
    + intros [->|Hp]%elem_of_cons; [apply not_elem_of_nil|by apply IH].
    + destruct (split_on c t) as [|h r] eqn:E.
      * intros ->%list_elem_of_singleton. rewrite list_elem_of_singleton. congruence.
      * intros [->|Hp]%elem_of_cons; [|apply IH; set_solver].
        apply not_elem_of_cons. split; [congruence|apply IH; set_solver].
Qed.

Lemma split_on_single c p : c ∉ p -> split_on c p = [p].
Proof.
  induction p as [|x p IH]; intros Hc; [done|]. apply not_elem_of_cons in Hc as [Hx Hp]. simpl.
  rewrite (proj2 (N.eqb_neq x c)) by congruence. by rewrite IH.
Qed.

Lemma split_on_cons c p s : c ∉ p -> split_on c (p ++ c :: s) = p :: split_on c s.
Proof.
  induction p as [|x p IH]; intros Hc; simpl; [by rewrite N.eqb_refl|].
  apply not_elem_of_cons in Hc as [Hx Hp].
  rewrite (proj2 (N.eqb_neq x c)) by congruence. by rewrite IH.
Qed.

(** Joining pieces that do not contain the separator and splitting again. *)
Lemma split_join c l : l <> [] -> Forall (fun p => c ∉ p) l -> split_on c (join [c] l) = l.
Proof.
  intros Hl H. induction H as [|p l Hp _ IH]; [done|].
  destruct l as [|q l]; [by apply split_on_single|].
  change (join [c] (p :: q :: l)) with (p ++ c :: join [c] (q :: l)).
  by rewrite split_on_cons, IH.
Qed.

Lemma take_while_app f s t :
  Forall (fun c => f c = true) s -> take_while f (s ++ t) = s ++ take_while f t.
Proof. induction 1 as [|c s Hc Hs IH]; simpl; [done|]. by rewrite Hc, IH. Qed.

Lemma digits_val_dec_go fuel n acc :
  (n < 2 ^ N.of_nat fuel)%N ->
  digits_val (dec_go fuel n acc) = fold_left (fun a c => (a * 10 + (c - 48))%N) acc n.
Proof.
  unfold digits_val. revert n acc. induction fuel as [|f IH]; intros n acc Hn.
  - change (2 ^ N.of_nat 0)%N with 1%N in Hn. by replace n with 0%N by lia.
  - cbn [dec_go]. destruct (N.ltb_spec n 10).
    + cbn [fold_left]. rewrite N.mod_small by lia. f_equal. lia.
    + rewrite IH; [cbn [fold_left]; f_equal|].
      * pose proof (N.div_mod n 10 ltac:(done)). rewrite (N.add_comm 48), N.add_sub. lia.
      * rewrite Nat2N.inj_succ, N.pow_succ_r' in Hn.
        apply N.Div0.div_lt_upper_bound. lia.
Qed.

(** Reading back the decimal representation. *)
Lemma digits_val_dec n : digits_val (dec n) = n.
Proof.
  unfold dec. rewrite digits_val_dec_go; [done|].
  rewrite Nat2N.inj_succ, N2Nat.id. destruct n as [|p]; [done|].
  apply N.log2_spec. lia.
Qed.

Lemma dec_go_digits fuel n acc :
  Forall (fun c => is_digit c = true) acc ->
  Forall (fun c => is_digit c = true) (dec_go fuel n acc).
Proof.
  revert n acc. induction fuel as [|f IH]; intros n acc Ha; [done|]. cbn [dec_go].
  assert (is_digit (48 + n mod 10) = true).
  { unfold is_digit, in_range. pose proof (N.mod_lt n 10 ltac:(done)) as Hm.
    revert Hm. generalize (n mod 10)%N. intros k Hk.
    apply andb_true_intro; split; apply N.leb_le; lia. }
  case_match; [by constructor|]. apply IH. by constructor.
Qed.

Lemma dec_digits n : Forall (fun c => is_digit c = true) (dec n).
Proof. apply dec_go_digits. constructor. Qed.

Lemma dec_go_length fuel n acc : length acc <= length (dec_go fuel n acc).
Proof.
  revert n acc. induction fuel as [|f IH]; intros n acc; [done|]. cbn [dec_go].
  case_match; simpl; [lia|]. etransitivity; [|apply IH]. simpl. lia.
Qed.

Lemma dec_nonempty n : dec n <> [].
Proof.
  unfold dec. cbn [dec_go]. case_match; [done|].
  pose proof (dec_go_length (N.to_nat (N.log2 n)) (n / 10) [(48 + n mod 10)%N]) as Hl.
  intros E. rewrite E in Hl. simpl in Hl. lia.
Qed.

Lemma digit_plain c :
  is_digit c = true -> is_space c = false /\ (c =? 45)%N = false /\ (c =? 43)%N = false.
Proof.
  unfold is_digit, in_range. intros [H1%N.leb_le H2%N.leb_le]%andb_prop.
  split_and!; try (apply N.eqb_neq; lia). unfold is_space, in_range.
  repeat (apply orb_false_intro); try (apply N.eqb_neq; lia); apply andb_false_iff;
    rewrite !N.leb_gt; lia.
Qed.

(** A string that starts with a digit has a number. *)
Lemma parseInt_digit c t :
  is_digit c = true ->
  parseInt (c :: t) = Some (Z.of_N (digits_val (take_while is_digit (c :: t)))).
Proof.
  intros H. destruct (digit_plain c H) as (H1 & H2 & H3). unfold parseInt.
  cbn [drop_while]. rewrite H1, H2, H3. cbn [take_while]. by rewrite H.
Qed.

(** [parseInt(n.toString(), 10) === n]. *)
Lemma parseInt_dec n : parseInt (dec n) = Some (Z.of_N n).
Proof.
  pose proof (dec_digits n) as Hd. pose proof (dec_nonempty n) as Hne.
  pose proof (digits_val_dec n) as Hv. destruct (dec n) as [|c t] eqn:E; [done|].
  rewrite parseInt_digit by (by apply Forall_cons in Hd as [? _]).
  rewrite <- (app_nil_r (c :: t)), take_while_app by done. simpl take_while.
  by rewrite app_nil_r, Hv.
Qed.
