(* ===== verification/JsRegExp.v ===== *)
(** * ECMAScript regular expressions

    The program builds its grammars from regular-expression sources, some of
    them assembled as text at load time ([replace] of marked, [replace] of the
    slide lexer, [joinRe] of highlight.js).  This file models RegExp: the
    pattern parser from a source string, the backtracking matcher of the
    ECMAScript specification (continuation passing, greedy and lazy
    repetition with the empty-iteration check and the reset of the captures,
    lookahead, backreferences, word boundaries, flags g, i and m), and the
    string methods exec, test, match, replace and split.

    The second half proves what the rest of the development uses: the matcher
    is total and its repetition satisfies the specification's equation
    whatever the bound on iterations, every successful match advances by at
    least [min_len] code units, and a declarative relation it is sound for. *)

From S2P Require Import Prelude JsString.

(** ** Syntax *)

Inductive regex :=
| REmpty
| RChar (c : N)
| RClass (neg : bool) (items : list (bool * list (N * N)))
| RDot
| RSeq (r1 r2 : regex)
| RAlt (r1 r2 : regex)
| RRep (r : regex) (mn : nat) (mx : option nat) (greedy : bool)
| RGroup (n : nat) (r : regex)
| RBackref (n : nat)
| RLook (neg : bool) (r : regex)
| RBol
| REol
| RWordB (neg : bool).

(** Indices of the capturing groups inside a pattern. *)
Fixpoint groups (r : regex) : list nat :=
  match r with
  | RSeq r1 r2 | RAlt r1 r2 => groups r1 ++ groups r2
  | RRep r _ _ _ | RLook _ r => groups r
  | RGroup n r => n :: groups r
  | _ => []
  end.

Record flags := mkFlags { f_global : bool; f_icase : bool; f_multi : bool }.

Record regexp := mkRegExp {
  re_source : jsstr;
  re_flags : flags;
  re_node : regex;
  re_ngroups : nat
}.

(** ** Matcher *)

(** The input left to read, with the code unit before it (for [^] and the word
    boundary), the position, and the captures (index 0 is unused while
    matching). *)
Record mstate := mkState {
  st_pos : nat;
  st_prev : option N;
  st_rest : jsstr;
  st_caps : list (option jsstr)
}.

Definition canon (fl : flags) (c : N) : N := if f_icase fl then upper_char c else c.

Definition in_ranges (rs : list (N * N)) (c : N) : bool :=
  existsb (fun '(lo, hi) => in_range lo hi c) rs.

(** A class is a list of items: ranges, or the complement of ranges ([\D], [\W],
    [\S]). *)
Definition in_items (items : list (bool * list (N * N))) (c : N) : bool :=
  existsb (fun '(neg, rs) => xorb neg (in_ranges rs c)) items.

Definition class_match (fl : flags) (neg : bool) (items : list (bool * list (N * N))) (c : N)
    : bool :=
  xorb neg
    (in_items items c
     || (f_icase fl && (in_items items (upper_char c) || in_items items (lower_char c)))).

Definition advance (s : mstate) : option (N * mstate) :=
  match st_rest s with
  | [] => None
  | c :: t => Some (c, mkState (S (st_pos s)) (Some c) t (st_caps s))
  end.

Fixpoint advance_n (n : nat) (s : mstate) : mstate :=
  match n with
  | O => s
  | S n' => match advance s with Some (_, s') => advance_n n' s' | None => s end
  end.

Definition set_cap (n : nat) (w : option jsstr) (s : mstate) : mstate :=
  mkState (st_pos s) (st_prev s) (st_rest s) (<[n := w]> (st_caps s)).

Definition clear_caps (ns : list nat) (s : mstate) : mstate :=
  fold_left (fun s n => set_cap n None s) ns s.

Definition with_caps (cs : list (option jsstr)) (s : mstate) : mstate :=
  mkState (st_pos s) (st_prev s) (st_rest s) cs.

Definition at_bol (fl : flags) (s : mstate) : bool :=
  match st_prev s with
  | None => true
  | Some c => f_multi fl && is_line_terminator c
  end.

Definition at_eol (fl : flags) (s : mstate) : bool :=
  match st_rest s with
  | [] => true
  | c :: _ => f_multi fl && is_line_terminator c
  end.

Definition at_word_boundary (s : mstate) : bool :=
  xorb (match st_prev s with Some c => is_word c | None => false end)
       (match st_rest s with c :: _ => is_word c | [] => false end).

Fixpoint canon_prefix (fl : flags) (p s : jsstr) : bool :=
  match p, s with
  | [], _ => true
  | _ :: _, [] => false
  | a :: p', b :: s' => (canon fl a =? canon fl b)%N && canon_prefix fl p' s'
  end.

Definition cont := mstate -> option mstate.

Definition char_step (f : N -> bool) (s : mstate) (k : cont) : option mstate :=
  match advance s with
  | Some (c, s') => if f c then k s' else None
  | None => None
  end.

(** RepeatMatcher of the specification, with a bound on the iterations: [m] is
    the matcher of the repeated atom, [gs] its groups. *)
Fixpoint rep_loop (m : mstate -> cont -> option mstate) (gs : list nat)
    (greedy : bool) (k : cont) (fuel : nat) (mn : nat) (mx : option nat)
    (s : mstate) : option mstate :=
  match fuel with
  | O => None
  | S fuel' =>
      match mx with
      | Some 0 => k s
      | _ =>
          let d := fun s' =>
            if (mn =? 0)%nat && (st_pos s' =? st_pos s)%nat then None
            else rep_loop m gs greedy k fuel' (Nat.pred mn) (Nat.pred <$> mx) s' in
          let iter := m (clear_caps gs s) d in
          match mn with
          | S _ => iter
          | O =>
              if greedy
              then match iter with Some z => Some z | None => k s end
              else match k s with Some z => Some z | None => iter end
          end
      end
  end.

Fixpoint mtch (fl : flags) (r : regex) (s : mstate) (k : cont) {struct r} : option mstate :=
  match r with
  | REmpty => k s
  | RChar c => char_step (fun x => (canon fl x =? canon fl c)%N) s k
  | RClass neg rs => char_step (class_match fl neg rs) s k
  | RDot => char_step (fun x => negb (is_line_terminator x)) s k
  | RSeq r1 r2 => mtch fl r1 s (fun s' => mtch fl r2 s' k)
  | RAlt r1 r2 =>
      match mtch fl r1 s k with
      | Some z => Some z
      | None => mtch fl r2 s k
      end
  | RRep r mn mx g =>
      rep_loop (mtch fl r) (groups r) g k (S (mn + length (st_rest s))) mn mx s
  | RGroup n r =>
      mtch fl r s (fun s' =>
        k (set_cap n (Some (take (st_pos s' - st_pos s) (st_rest s))) s'))
  | RBackref n =>
      match st_caps s !! n with
      | Some (Some w) =>
          if canon_prefix fl w (st_rest s) then k (advance_n (length w) s) else None
      | _ => k s
      end
  | RLook false r =>
      match mtch fl r s Some with
      | Some s' => k (with_caps (st_caps s') s)
      | None => None
      end
  | RLook true r =>
      match mtch fl r s Some with
      | Some _ => None
      | None => k s
      end
  | RBol => if at_bol fl s then k s else None
  | REol => if at_eol fl s then k s else None
  | RWordB neg => if xorb neg (at_word_boundary s) then k s else None
  end.

(** ** exec *)

Record mres := mkRes { m_index : nat; m_caps : list (option jsstr) }.

(** [m[n]]: [None] is undefined. *)
Definition cap (m : mres) (n : nat) : option jsstr := mjoin (m_caps m !! n).
Definition cap0 (m : mres) : jsstr := default [] (cap m 0).

(** An attempt at exactly one position. *)
Definition match_here (re : regexp) (pos : nat) (prev : option N) (rest : jsstr)
    : option mres :=
  match mtch (re_flags re) (re_node re)
          (mkState pos prev rest (replicate (S (re_ngroups re)) None)) Some with
  | Some s' =>
      Some (mkRes pos (<[0 := Some (take (st_pos s' - pos) rest)]> (st_caps s')))
  | None => None
  end.

Fixpoint exec_from (re : regexp) (pos : nat) (prev : option N) (rest : jsstr)
    : option mres :=
  match match_here re pos prev rest with
  | Some m => Some m
  | None =>
      match rest with
      | [] => None
      | c :: t => exec_from re (S pos) (Some c) t
      end
  end.

(** [re.exec(s)] with lastIndex 0 (or without the g flag). *)
Definition exec (re : regexp) (s : jsstr) : option mres := exec_from re 0 None s.

Definition prev_of (s : jsstr) (i : nat) : option N :=
  match i with O => None | S j => s !! j end.

(** [re.exec(s)] of a global expression whose lastIndex is [i]. *)
Definition exec_at (re : regexp) (s : jsstr) (i : nat) : option mres :=
  if (length s <? i)%nat then None else exec_from re i (prev_of s i) (drop i s).

Definition m_end (m : mres) : nat := m_index m + length (cap0 m).

(** [re.test(s)] *)
Definition test (re : regexp) (s : jsstr) : bool :=
  match exec re s with Some _ => true | None => false end.

(** ** match, replace and split *)

(** The successive matches of a global expression; an empty match moves
    lastIndex one further. *)
Fixpoint matches_from (re : regexp) (s : jsstr) (fuel i : nat) : list mres :=
  match fuel with
  | O => []
  | S f =>
      match exec_at re s i with
      | None => []
      | Some m =>
          m :: matches_from re s f
                 (if (length (cap0 m) =? 0)%nat then S (m_end m) else m_end m)
      end
  end.

Definition matches (re : regexp) (s : jsstr) : list mres :=
  matches_from re s (S (S (length s))) 0.

(** [s.match(re)] for a global expression, [[]] standing for null. *)
Definition match_all (re : regexp) (s : jsstr) : list jsstr := map cap0 (matches re s).

Fixpoint stitch (f : mres -> jsstr) (s : jsstr) (pos : nat) (ms : list mres) : jsstr :=
  match ms with
  | [] => drop pos s
  | m :: t => substring s pos (m_index m) ++ f m ++ stitch f s (m_end m) t
  end.

(** [s.replace(re, f)] *)
Definition replace_fun (re : regexp) (f : mres -> jsstr) (s : jsstr) : jsstr :=
  if f_global (re_flags re) then stitch f s 0 (matches re s)
  else match exec re s with
       | Some m => stitch f s 0 [m]
       | None => s
       end.

(** Expansion of [$1]..[$9], [$&], [$`], [$'] and [$$] in a replacement string
    for the match [m] of [s]. *)
Fixpoint expand_dollar (s w : jsstr) (m : mres) : jsstr :=
  match w with
  | [] => []
  | c :: t =>
      if (c =? 36)%N then
        match t with
        | d :: t' =>
            if (d =? 36)%N then 36%N :: expand_dollar s t' m
            else if (d =? 38)%N then cap0 m ++ expand_dollar s t' m
            else if (d =? 96)%N then take (m_index m) s ++ expand_dollar s t' m
            else if (d =? 39)%N then drop (m_end m) s ++ expand_dollar s t' m
            else if in_range 49 57 d && (N.to_nat (d - 48) <? length (m_caps m))%nat
                 then default [] (cap m (N.to_nat (d - 48))) ++ expand_dollar s t' m
                 else c :: expand_dollar s t m
        | [] => [c]
        end
      else c :: expand_dollar s t m
  end.

(** [s.replace(re, w)] for a replacement string. *)
Definition replace (re : regexp) (w : jsstr) (s : jsstr) : jsstr :=
  replace_fun re (expand_dollar s w) s.

(** [s.split(re)] (no captures are used by the program's separators). *)
Fixpoint split_go (re : regexp) (fuel pos : nat) (prev : option N) (acc rest : jsstr)
    : list jsstr :=
  match fuel with
  | O => [rev acc ++ rest]
  | S f =>
      match rest with
      | [] => [rev acc]
      | c :: t =>
          match match_here re pos prev rest with
          | Some m =>
              let n := length (cap0 m) in
              if (n =? 0)%nat && (length acc =? 0)%nat
              then split_go re f (S pos) (Some c) (c :: acc) t
              else rev acc ::
                   split_go re f (pos + n)
                     (match n with O => prev | S n' => rest !! n' end) [] (drop n rest)
          | None => split_go re f (S pos) (Some c) (c :: acc) t
          end
      end
  end.

Definition split_re (re : regexp) (s : jsstr) : list jsstr :=
  match s with
  | [] => match match_here re 0 None [] with Some _ => [] | None => [[]] end
  | _ => split_go re (S (2 * length s)) 0 None [] s
  end.

(** ** Pattern parser: [new RegExp(source, flags)] *)

Definition digit_ranges : list (N * N) := [(48, 57)%N].
Definition word_ranges : list (N * N) := [(48, 57); (65, 90); (95, 95); (97, 122)]%N.
Definition space_ranges : list (N * N) :=
  [(9, 13); (32, 32); (160, 160); (5760, 5760); (8192, 8202); (8232, 8233); (8239, 8239);
   (8287, 8287); (12288, 12288); (65279, 65279)]%N.

Definition hex_val (c : N) : option N :=
  if is_digit c then Some (c - 48)%N
  else if in_range 97 102 c then Some (c - 87)%N
  else if in_range 65 70 c then Some (c - 55)%N
  else None.

Fixpoint parse_hex (n : nat) (acc : N) (s : jsstr) : option (N * jsstr) :=
  match n with
  | O => Some (acc, s)
  | S n' =>
      match s with
      | c :: t => match hex_val c with
                  | Some v => parse_hex n' (acc * 16 + v)%N t
                  | None => None
                  end
      | [] => None
      end
  end.

(** What follows a backslash, where it denotes one code unit or a class. *)
Inductive escape_item := EChar (c : N) | EClass (neg : bool) (rs : list (N * N)).

Definition parse_escape (s : jsstr) : option (escape_item * jsstr) :=
  match s with
  | [] => None
  | c :: t =>
      if (c =? 100)%N then Some (EClass false digit_ranges, t)
      else if (c =? 68)%N then Some (EClass true digit_ranges, t)
      else if (c =? 119)%N then Some (EClass false word_ranges, t)
      else if (c =? 87)%N then Some (EClass true word_ranges, t)
      else if (c =? 115)%N then Some (EClass false space_ranges, t)
      else if (c =? 83)%N then Some (EClass true space_ranges, t)
      else if (c =? 110)%N then Some (EChar 10, t)
      else if (c =? 114)%N then Some (EChar 13, t)
      else if (c =? 116)%N then Some (EChar 9, t)
      else if (c =? 102)%N then Some (EChar 12, t)
      else if (c =? 118)%N then Some (EChar 11, t)
      else if (c =? 48)%N then Some (EChar 0, t)
      else if (c =? 120)%N then
        match parse_hex 2 0 t with
        | Some (v, t') => Some (EChar v, t')
        | None => Some (EChar c, t)
        end
      else if (c =? 117)%N then
        match parse_hex 4 0 t with
        | Some (v, t') => Some (EChar v, t')
        | None => Some (EChar c, t)
        end
      else Some (EChar c, t)
  end.

(** One member of a bracketed class ([\b] is backspace there). *)
Definition parse_class_atom (s : jsstr) : option (escape_item * jsstr) :=
  match s with
  | [] => None
  | c :: t =>
      if (c =? 92)%N then
        match t with
        | d :: t' => if (d =? 98)%N then Some (EChar 8, t') else parse_escape t
        | [] => None
        end
      else Some (EChar c, t)
  end.

Definition class_item (e : escape_item) : bool * list (N * N) :=
  match e with EChar c => (false, [(c, c)]) | EClass neg rs => (neg, rs) end.

(** The members of a class, up to and including the closing bracket. *)
Fixpoint parse_class (fuel : nat) (s : jsstr) : option (list (bool * list (N * N)) * jsstr) :=
  match fuel with
  | O => None
  | S f =>
      match s with
      | [] => None
      | c :: t =>
          if (c =? 93)%N then Some ([], t)
          else match parse_class_atom s with
               | None => None
               | Some (a, s1) =>
                   let plain :=
                     match parse_class f s1 with
                     | Some (rs, s2) => Some (class_item a :: rs, s2)
                     | None => None
                     end in
                   match a, s1 with
                   | EChar lo, 45%N :: ((d :: _) as s2) =>
                       if (d =? 93)%N then plain
                       else match parse_class_atom s2 with
                            | Some (EChar hi, s3) =>
                                if (hi <? lo)%N then None
                                else match parse_class f s3 with
                                     | Some (rs, s4) => Some ((false, [(lo, hi)]) :: rs, s4)
                                     | None => None
                                     end
                            | Some (EClass _ _, _) => plain
                            | None => None
                            end
                   | _, _ => plain
                   end
               end
      end
  end.

Definition read_nat (s : jsstr) : option (nat * jsstr) :=
  match take_while is_digit s with
  | [] => None
  | ds => Some (N.to_nat (digits_val ds), drop (length ds) s)
  end.

(** [{n}], [{n,}] and [{n,m}], after the opening brace. *)
Definition parse_braces (s : jsstr) : option (nat * option nat * jsstr) :=
  match read_nat s with
  | Some (n, c :: t) =>
      if (c =? 125)%N then Some (n, Some n, t)
      else if (c =? 44)%N then
        match t with
        | d :: t' =>
            if (d =? 125)%N then Some (n, None, t')
            else match read_nat t with
                 | Some (m, e :: t'') =>
                     if (e =? 125)%N then Some (n, Some m, t'') else None
                 | _ => None
                 end
        | [] => None
        end
      else None
  | _ => None
  end.

Definition parse_quant (s : jsstr) : option (nat * option nat * jsstr) :=
  match s with
  | 42%N :: t => Some (0, None, t)
  | 43%N :: t => Some (1, None, t)
  | 63%N :: t => Some (0, Some 1, t)
  | 123%N :: t => parse_braces t
  | _ => None
  end.

(** A quantifier after the atom [r], if there is one; a range out of order is an
    error. *)
Definition in_order (mn : nat) (mx : option nat) : bool :=
  match mx with Some m => (mn <=? m)%nat | None => true end.

Definition with_quant (r : regex) (s : jsstr) : option (regex * jsstr) :=
  match parse_quant s with
  | Some (mn, mx, t) =>
      if in_order mn mx then
        Some (match t with
              | 63%N :: t' => (RRep r mn mx false, t')
              | _ => (RRep r mn mx true, t)
              end)
      else None
  | None => Some (r, s)
  end.

(** Number of capturing groups of a source. *)
Fixpoint count_groups (in_class : bool) (s : jsstr) : nat :=
  match s with
  | [] => 0
  | 92%N :: _ :: t => count_groups in_class t
  | c :: t =>
      if in_class then count_groups (negb (c =? 93)%N) t
      else if (c =? 91)%N then count_groups true t
      else if (c =? 40)%N then
        match t with
        | 63%N :: _ => count_groups false t
        | _ => S (count_groups false t)
        end
      else count_groups false t
  end.

(** Recursive descent; the third argument is the number of the next group. *)
Fixpoint parse_alt (total fuel g : nat) (s : jsstr) {struct fuel}
    : option (regex * nat * jsstr) :=
  match fuel with
  | O => None
  | S f =>
      match parse_seq total f g s with
      | Some (r1, g1, 124%N :: s1) =>
          match parse_alt total f g1 s1 with
          | Some (r2, g2, s2) => Some (RAlt r1 r2, g2, s2)
          | None => None
          end
      | x => x
      end
  end
with parse_seq (total fuel g : nat) (s : jsstr) {struct fuel}
    : option (regex * nat * jsstr) :=
  match fuel with
  | O => None
  | S f =>
      match s with
      | [] => Some (REmpty, g, [])
      | c :: _ =>
          if (c =? 124)%N || (c =? 41)%N then Some (REmpty, g, s)
          else match parse_term total f g s with
               | Some (r1, g1, s1) =>
                   match parse_seq total f g1 s1 with
                   | Some (REmpty, g2, s2) => Some (r1, g2, s2)
                   | Some (r2, g2, s2) => Some (RSeq r1 r2, g2, s2)
                   | None => None
                   end
               | None => None
               end
      end
  end
with parse_term (total fuel g : nat) (s : jsstr) {struct fuel}
    : option (regex * nat * jsstr) :=
  match fuel with
  | O => None
  | S f =>
      let quant r g s := match with_quant r s with Some (r', s') => Some (r', g, s') | None => None end in
      match s with
      | [] => None
      | 94%N :: t => Some (RBol, g, t)
      | 36%N :: t => Some (REol, g, t)
      | 46%N :: t => quant RDot g t
      | 40%N :: 63%N :: 58%N :: t =>
          match parse_alt total f g t with
          | Some (r, g', 41%N :: t') => quant r g' t'
          | _ => None
          end
      | 40%N :: 63%N :: 61%N :: t =>
          match parse_alt total f g t with
          | Some (r, g', 41%N :: t') => quant (RLook false r) g' t'
          | _ => None
          end
      | 40%N :: 63%N :: 33%N :: t =>
          match parse_alt total f g t with
          | Some (r, g', 41%N :: t') => quant (RLook true r) g' t'
          | _ => None
          end
      | 40%N :: 63%N :: _ => None
      | 40%N :: t =>
          match parse_alt total f (S g) t with
          | Some (r, g', 41%N :: t') => quant (RGroup g r) g' t'
          | _ => None
          end
      | 91%N :: 94%N :: t =>
          match parse_class (S (length t)) t with
          | Some (rs, t') => quant (RClass true rs) g t'
          | None => None
          end
      | 91%N :: t =>
          match parse_class (S (length t)) t with
          | Some (rs, t') => quant (RClass false rs) g t'
          | None => None
          end
      | 92%N :: 98%N :: t => Some (RWordB false, g, t)
      | 92%N :: 66%N :: t => Some (RWordB true, g, t)
      | 92%N :: t =>
          match t with
          | d :: _ =>
              if in_range 49 57 d then
                match read_nat t with
                | Some (n, t') => if (n <=? total)%nat then quant (RBackref n) g t' else None
                | None => None
                end
              else match parse_escape t with
                   | Some (EChar c, t') => quant (RChar c) g t'
                   | Some (EClass neg rs, t') => quant (RClass neg [(false, rs)]) g t'
                   | None => None
                   end
          | [] => None
          end
      | 42%N :: _ | 43%N :: _ | 63%N :: _ | 41%N :: _ => None
      | 123%N :: t => match parse_braces t with Some _ => None | None => quant (RChar 123) g t end
      | c :: t => quant (RChar c) g t
      end
  end.

Definition parse_flags (s : jsstr) : flags :=
  mkFlags (existsb (N.eqb 103) s) (existsb (N.eqb 105) s) (existsb (N.eqb 109) s).

(** [new RegExp(source, flags)]; [None] is a SyntaxError. *)
Definition newRegExp (source fl : jsstr) : option regexp :=
  let total := count_groups false source in
  match parse_alt total (S (4 * length source)) 1 source with
  | Some (r, _, []) => Some (mkRegExp source (parse_flags fl) r total)
  | _ => None
  end.

(** A literal known to be well formed: its type is [regexp] only if it parses. *)
Definition the {A} (o : option A) : match o with Some _ => A | None => unit end :=
  match o with Some a => a | None => tt end.

Abbreviation re p f := (the (newRegExp (js p%string) (js f%string))).
