(* ===== verification/RegExpFacts.v ===== *)
(** * Facts about the regular-expression matcher

    [Matches fl r s s'] is a declarative account of what [r] may consume from
    [s]; the backtracking matcher [mtch] is sound for it, and complete for the
    patterns without capturing groups.  [min_len] is a static lower bound on
    what a match consumes.  The lexers' termination and totality theorems rest
    on these facts. *)

From S2P Require Import Prelude JsString JsRegExp.

(** ** Declarative matching *)

Inductive Matches (fl : flags) : regex -> mstate -> mstate -> Prop :=
| M_empty s : Matches fl REmpty s s
| M_char c x s s' :
    advance s = Some (x, s') -> canon fl x = canon fl c -> Matches fl (RChar c) s s'
| M_class neg items x s s' :
    advance s = Some (x, s') -> class_match fl neg items x = true ->
    Matches fl (RClass neg items) s s'
| M_dot x s s' :
    advance s = Some (x, s') -> is_line_terminator x = false -> Matches fl RDot s s'
| M_seq r1 r2 s s1 s2 :
    Matches fl r1 s s1 -> Matches fl r2 s1 s2 -> Matches fl (RSeq r1 r2) s s2
| M_alt_l r1 r2 s s' : Matches fl r1 s s' -> Matches fl (RAlt r1 r2) s s'
| M_alt_r r1 r2 s s' : Matches fl r2 s s' -> Matches fl (RAlt r1 r2) s s'
| M_rep_done r mn mx g s :
    mn = 0 \/ mx = Some 0 -> Matches fl (RRep r mn mx g) s s
| M_rep_iter r mn mx g s s1 s2 :
    mx <> Some 0 -> Matches fl r (clear_caps (groups r) s) s1 ->
    (mn = 0 -> st_pos s1 <> st_pos s) ->
    Matches fl (RRep r (Nat.pred mn) (Nat.pred <$> mx) g) s1 s2 ->
    Matches fl (RRep r mn mx g) s s2
| M_group n r s s' :
    Matches fl r s s' ->
    Matches fl (RGroup n r) s
      (set_cap n (Some (take (st_pos s' - st_pos s) (st_rest s))) s')
| M_backref n w s :
    st_caps s !! n = Some (Some w) -> canon_prefix fl w (st_rest s) = true ->
    Matches fl (RBackref n) s (advance_n (length w) s)
| M_backref_undef n s :
    (forall w, st_caps s !! n <> Some (Some w)) -> Matches fl (RBackref n) s s
| M_look r s s' :
    Matches fl r s s' -> Matches fl (RLook false r) s (with_caps (st_caps s') s)
| M_nlook r s : mtch fl r s Some = None -> Matches fl (RLook true r) s s
| M_bol s : at_bol fl s = true -> Matches fl RBol s s
| M_eol s : at_eol fl s = true -> Matches fl REol s s
| M_wordb neg s :
    xorb neg (at_word_boundary s) = true -> Matches fl (RWordB neg) s s.

Create HintDb regex.
#[export] Hint Constructors Matches : regex.

(** ** Soundness *)

Lemma char_step_sound f s k z :
  char_step f s k = Some z ->
  exists x s', advance s = Some (x, s') /\ f x = true /\ k s' = Some z.
Proof.
  unfold char_step. destruct (advance s) as [[x s']|]; [|done].
  destruct (f x) eqn:E; naive_solver.
Qed.

Lemma rep_loop_sound fl r g k fuel :
  (forall s k z, mtch fl r s k = Some z -> exists s', Matches fl r s s' /\ k s' = Some z) ->
  forall mn mx s z,
    rep_loop (mtch fl r) (groups r) g k fuel mn mx s = Some z ->
    exists s', Matches fl (RRep r mn mx g) s s' /\ k s' = Some z.
Proof.
  intros IH. induction fuel as [|fuel IHf]; intros mn mx s z H; [done|].
  cbn [rep_loop] in H.
  assert (Hiter : forall z,
    mx <> Some 0 ->
    mtch fl r (clear_caps (groups r) s) (fun s' =>
      if (mn =? 0)%nat && (st_pos s' =? st_pos s)%nat then None
      else rep_loop (mtch fl r) (groups r) g k fuel (Nat.pred mn) (Nat.pred <$> mx) s')
      = Some z ->
    exists s', Matches fl (RRep r mn mx g) s s' /\ k s' = Some z).
  { intros z' Hmx (s1 & HM & Hk)%IH.
    destruct ((mn =? 0)%nat && (st_pos s1 =? st_pos s)%nat) eqn:E; [done|].
    apply IHf in Hk as (s2 & HM2 & Hk2). exists s2; split; [|done].
    eapply M_rep_iter; eauto. intros -> Heq. rewrite Heq, !Nat.eqb_refl in E. done. }
  destruct mx as [[|m]|]; [eauto with regex| |];
    (destruct mn as [|mn]; [|by eapply Hiter]); destruct g;
    match type of H with
    | match ?x with _ => _ end = _ => destruct x eqn:E
    end; simplify_eq;
    first [ by eapply Hiter | exists s; split; [by eauto with regex|done] ].
Qed.

Theorem mtch_sound fl r : forall s k z,
  mtch fl r s k = Some z -> exists s', Matches fl r s s' /\ k s' = Some z.
Proof.
  induction r; intros s k z H; cbn [mtch] in H.
  - eauto with regex.
  - apply char_step_sound in H as (x & s' & ? & ?%N.eqb_eq & ?). eauto with regex.
  - apply char_step_sound in H as (x & s' & ? & ? & ?). eauto with regex.
  - apply char_step_sound in H as (x & s' & ? & ?%negb_true_iff & ?). eauto with regex.
  - apply IHr1 in H as (s1 & ? & H). apply IHr2 in H as (s2 & ? & ?). eauto with regex.
  - destruct (mtch fl r1 s k) eqn:E; simplify_eq.
    + apply IHr1 in E as (? & ? & ?). eauto with regex.
    + apply IHr2 in H as (? & ? & ?). eauto with regex.
  - by eapply rep_loop_sound.
  - apply IHr in H as (s' & ? & ?). eauto with regex.
  - destruct (st_caps s !! n) as [[w|]|] eqn:E.
    + destruct (canon_prefix fl w (st_rest s)) eqn:?; [|done]. eauto with regex.
    + exists s; split; [apply M_backref_undef; congruence|done].
    + exists s; split; [apply M_backref_undef; congruence|done].
  - destruct neg; destruct (mtch fl r s Some) eqn:E; try done.
    + eauto with regex.
    + apply IHr in E as (s' & ? & [= <-]). eauto with regex.
  - destruct (at_bol fl s) eqn:?; [|done]. eauto with regex.
  - destruct (at_eol fl s) eqn:?; [|done]. eauto with regex.
  - destruct (xorb neg (at_word_boundary s)) eqn:?; [|done]. eauto with regex.
Qed.

(** ** What a match consumes *)

(** [s'] is [s] moved forward by [n] code units. *)
Definition moved (n : nat) (s s' : mstate) : Prop :=
  n <= length (st_rest s) /\
  st_pos s' = st_pos s + n /\
  st_rest s' = drop n (st_rest s) /\
  st_prev s' = match n with O => st_prev s | S m => st_rest s !! m end /\
  length (st_caps s') = length (st_caps s).

Lemma moved_refl s : moved 0 s s.
Proof. repeat split; simpl; lia. Qed.

Lemma moved_trans n m s s1 s2 : moved n s s1 -> moved m s1 s2 -> moved (n + m) s s2.
Proof.
  intros (Hl1 & Hp1 & Hr1 & Hv1 & Hc1) (Hl2 & Hp2 & Hr2 & Hv2 & Hc2).
  rewrite Hr1, length_drop in Hl2. repeat split; try lia.
  - by rewrite Hr2, Hr1, drop_drop.
  - rewrite Hv2. destruct m as [|m].
    + rewrite Nat.add_0_r. done.
    + replace (n + S m) with (S (n + m)) by lia. rewrite Hr1, lookup_drop. done.
Qed.

Lemma moved_set_cap n s s' i w : moved n s s' -> moved n s (set_cap i w s').
Proof. intros (?&?&?&?&?). repeat split; try done. simpl. by rewrite length_insert. Qed.

Lemma moved_clear_caps gs s s' n : moved n (clear_caps gs s) s' -> moved n s s'.
Proof.
  revert s. induction gs as [|i gs IH]; intros s; [done|].
  intros H. apply IH in H. destruct H as (?&?&?&?&?).
  repeat split; try done. simpl in *. by rewrite length_insert in *.
Qed.

Lemma moved_advance s x s' : advance s = Some (x, s') -> moved 1 s s'.
Proof.
  unfold advance. destruct (st_rest s) as [|c t] eqn:E; [done|]. intros [= <- <-].
  unfold moved; rewrite E; simpl. repeat split; try lia.
Qed.

Lemma moved_advance_n n s : n <= length (st_rest s) -> moved n s (advance_n n s).
Proof.
  revert s. induction n as [|n IH]; intros s Hl; simpl; [apply moved_refl|].
  destruct (advance s) as [[x s']|] eqn:E.
  - pose proof (moved_advance _ _ _ E) as Hm. change (S n) with (1 + n).
    eapply moved_trans; [exact Hm|]. apply IH.
    destruct Hm as (_ & _ & -> & _ & _). rewrite length_drop. lia.
  - unfold advance in E. destruct (st_rest s); simpl in *; [lia|done].
Qed.

Lemma canon_prefix_length fl w s : canon_prefix fl w s = true -> length w <= length s.
Proof.
  revert s. induction w as [|a w IH]; intros [|b s]; simpl; try lia; try done.
  intros [_ H]%andb_prop. apply IH in H. lia.
Qed.

(** Static lower bound on the length of a match. *)
Fixpoint min_len (r : regex) : nat :=
  match r with
  | RChar _ | RClass _ _ | RDot => 1
  | RSeq r1 r2 => min_len r1 + min_len r2
  | RAlt r1 r2 => Nat.min (min_len r1) (min_len r2)
  | RRep r mn mx _ => (match mx with Some m => Nat.min mn m | None => mn end) * min_len r
  | RGroup _ r => min_len r
  | _ => 0
  end.

Theorem Matches_moved fl r s s' :
  Matches fl r s s' -> exists n, min_len r <= n /\ moved n s s'.
Proof.
  induction 1; cbn [min_len];
    try (exists 0; split; [lia|apply moved_refl]);
    try (exists 1; split; [lia|by eapply moved_advance]).
  - destruct IHMatches1 as (n1 & ? & ?), IHMatches2 as (n2 & ? & ?).
    exists (n1 + n2); split; [lia|by eapply moved_trans].
  - destruct IHMatches as (n & ? & ?). exists n; split; [lia|done].
  - destruct IHMatches as (n & ? & ?). exists n; split; [lia|done].
  - exists 0; split; [|apply moved_refl]. destruct mx; destruct H as [->|Hm]; simplify_eq; lia.
  - destruct IHMatches1 as (n1 & ? & Hm%moved_clear_caps), IHMatches2 as (n2 & Hn2 & ?).
    exists (n1 + n2); split; [|by eapply moved_trans].
    cbn [min_len] in Hn2. destruct mx as [[|m]|]; simpl in *; [done| |]; destruct mn; nia.
  - destruct IHMatches as (n' & ? & ?). exists n'; split; [done|by apply moved_set_cap].
  - exists (length w). split; [lia|]. apply moved_advance_n.
    by eapply canon_prefix_length.
  - destruct IHMatches as (n & ? & (_&_&_&_&Hc)). exists 0; split; [lia|].
    repeat split; simpl; try lia; done.
Qed.

(** ** Captures *)

Lemma clear_caps_other gs s n : n ∉ gs -> st_caps (clear_caps gs s) !! n = st_caps s !! n.
Proof.
  revert s. induction gs as [|i gs IH]; intros s Hn; [done|].
  apply not_elem_of_cons in Hn as [Hi Hn]. simpl.
  change (fold_left _ gs ?x) with (clear_caps gs x). rewrite IH by done.
  simpl. by rewrite list_lookup_insert_ne by congruence.
Qed.

Lemma clear_caps_in gs s n w : n ∈ gs -> st_caps (clear_caps gs s) !! n <> Some (Some w).
Proof.
  revert s. induction gs as [|i gs IH]; intros s; [by intros ?%not_elem_of_nil|].
  intros [->|Hn]%elem_of_cons; simpl; change (fold_left _ gs ?x) with (clear_caps gs x);
    [|by apply IH].
  destruct (decide (i ∈ gs)) as [Hi|Hi]; [by apply IH|].
  rewrite clear_caps_other by done. simpl.
  destruct (decide (i < length (st_caps s))).
  - by rewrite list_lookup_insert_eq.
  - by rewrite list_insert_ge, lookup_ge_None_2 by lia.
Qed.

Lemma advance_caps s x s' : advance s = Some (x, s') -> st_caps s' = st_caps s.
Proof. unfold advance. destruct (st_rest s); naive_solver. Qed.

Lemma advance_n_caps n s : st_caps (advance_n n s) = st_caps s.
Proof.
  revert s. induction n as [|n IH]; intros s; simpl; [done|].
  destruct (advance s) as [[x s']|] eqn:E; [|done].
  by rewrite IH; eapply advance_caps.
Qed.

Lemma Matches_caps_other fl r s s' n :
  Matches fl r s s' -> n ∉ groups r -> st_caps s' !! n = st_caps s !! n.
Proof.
  induction 1; cbn [groups]; intros Hn;
    rewrite ?not_elem_of_app, ?not_elem_of_cons in Hn; destruct_and?;
    repeat match goal with H : ?P -> _ , H' : ?P |- _ => specialize (H H') end;
    try (by erewrite advance_caps);
    rewrite ?advance_n_caps in *; simpl in *; try congruence.
  - rewrite IHMatches2 by done. rewrite IHMatches1. by apply clear_caps_other.
  - by rewrite list_lookup_insert_ne by congruence.
Qed.

(** Groups inside positive lookaheads, whose captures may lie ahead of the
    match. *)
Fixpoint look_groups (r : regex) : list nat :=
  match r with
  | RSeq r1 r2 | RAlt r1 r2 => look_groups r1 ++ look_groups r2
  | RRep r _ _ _ | RGroup _ r => look_groups r
  | RLook false r => groups r
  | _ => []
  end.

(** Lower bound on the length of a match minus the length of its capture [n],
    when the match sets it. *)
Fixpoint slack (n : nat) (r : regex) : nat :=
  match r with
  | RSeq r1 r2 =>
      if decide (n ∈ groups r2)
      then if decide (n ∈ groups r1) then 0 else min_len r1 + slack n r2
      else slack n r1 + min_len r2
  | RAlt r1 r2 =>
      if decide (n ∈ groups r2)
      then if decide (n ∈ groups r1) then Nat.min (slack n r1) (slack n r2) else slack n r2
      else slack n r1
  | RGroup m r => if decide (n = m) then 0 else slack n r
  | RRep r _ _ _ => slack n r
  | _ => 0
  end.

Definition cap_bound (n : nat) (r : regex) (s s' : mstate) : Prop :=
  forall w, st_caps s' !! n = Some (Some w) ->
    st_caps s !! n = Some (Some w) \/
    (n ∈ groups r /\ st_pos s + length w + slack n r <= st_pos s').

Lemma Matches_pos fl r s s' :
  Matches fl r s s' -> st_pos s + min_len r <= st_pos s'.
Proof. intros (k & ? & (_ & ? & _))%Matches_moved. lia. Qed.

Lemma clear_caps_pos gs s : st_pos (clear_caps gs s) = st_pos s.
Proof. revert s. induction gs as [|i gs IH]; intros s; [done|]. apply (IH (set_cap i None s)). Qed.

Theorem Matches_cap_bound fl r s s' n :
  Matches fl r s s' -> n ∉ look_groups r -> cap_bound n r s s'.
Proof.
  induction 1; cbn [look_groups]; intros Hn w' Hw; cbn [groups slack];
    rewrite ?not_elem_of_app in Hn; destruct_and?;
    try (left; erewrite <- advance_caps by done; done);
    try (left; rewrite ?advance_n_caps in *; done);
    repeat match goal with H : ?P -> _ , H' : ?P |- _ => specialize (H H') end.
  - pose proof (Matches_pos _ _ _ _ H). pose proof (Matches_pos _ _ _ _ H0).
    destruct (IHMatches2 _ Hw) as [Hw1|[Hin Hb]].
    + destruct (IHMatches1 _ Hw1) as [?|[Hin Hb]]; [by left|right].
      split; [set_solver|]. repeat case_decide; try done; lia.
    + destruct (decide (n ∈ groups r1)).
      * right. split; [set_solver|]. rewrite decide_True by done. lia.
      * right. split; [set_solver|]. rewrite decide_True by done. lia.
  - destruct (IHMatches _ Hw) as [?|[Hin Hb]]; [by left|right].
    split; [set_solver|]. repeat case_decide; try done; lia.
  - destruct (IHMatches _ Hw) as [?|[Hin Hb]]; [by left|right].
    split; [set_solver|]. repeat case_decide; try done; lia.
  - pose proof (Matches_pos _ _ _ _ H0). pose proof (Matches_pos _ _ _ _ H2).
    cbn [look_groups] in *.
    destruct (IHMatches2 _ Hw) as [Hw1|[Hin Hb]].
    + destruct (IHMatches1 _ Hw1) as [Hw2|[Hin Hb]].
      * left. destruct (decide (n ∈ groups r)) as [Hg|Hg].
        -- by apply clear_caps_in in Hw2.
        -- by rewrite clear_caps_other in Hw2.
      * right. rewrite clear_caps_pos in Hb. split; [done|lia].
    + cbn [groups slack] in *. rewrite clear_caps_pos in *. right. split; [done|lia].
  - simpl in *. destruct (decide (n0 = n)) as [->|Hne].
    + pose proof (Matches_moved _ _ _ _ H) as (k & _ & (_ & Hp & _ & _ & Hc)).
      destruct (decide (n < length (st_caps s'))).
      * rewrite list_lookup_insert_eq in Hw by done. simplify_eq. right.
        split; [set_solver|]. rewrite decide_True by done. rewrite length_take. lia.
      * rewrite list_insert_ge, lookup_ge_None_2 in Hw by lia. done.
    + rewrite list_lookup_insert_ne in Hw by done.
      destruct (IHMatches _ Hw) as [?|[Hin Hb]]; [by left|right].
      split; [set_solver|]. rewrite decide_False by done. lia.
  - simpl in *. left. rewrite <- Hw. symmetry. by eapply Matches_caps_other.
Qed.

(** ** Completeness for patterns without groups *)

Lemma Matches_no_caps fl r s s' :
  groups r = [] -> Matches fl r s s' -> st_caps s' = st_caps s.
Proof.
  intros Hg HM. apply list_eq. intros i.
  eapply Matches_caps_other; [done|]. rewrite Hg. apply not_elem_of_nil.
Qed.

Lemma rep_loop_complete fl r g k mn mx s s' :
  groups r = [] ->
  (forall s s' k, Matches fl r s s' -> k s' <> None -> mtch fl r s k <> None) ->
  Matches fl (RRep r mn mx g) s s' -> k s' <> None ->
  forall fuel, mn + length (st_rest s) < fuel ->
    rep_loop (mtch fl r) (groups r) g k fuel mn mx s <> None.
Proof.
  intros Hg IH HM Hk. remember (RRep r mn mx g) as rr eqn:Er.
  revert mn mx Er. induction HM; intros mn' mx' [= -> -> -> ->] fuel Hf;
    (destruct fuel as [|fuel]; [lia|]); cbn [rep_loop].
  - destruct H as [-> | ->].
    + destruct mx' as [[|m]|]; [done|destruct g..]; case_match; done.
    + done.
  - assert (Hiter : mtch fl r (clear_caps (groups r) s) (fun s'0 =>
      if (mn' =? 0)%nat && (st_pos s'0 =? st_pos s)%nat then None
      else rep_loop (mtch fl r) (groups r) g k fuel (Nat.pred mn') (Nat.pred <$> mx') s'0)
      <> None).
    { eapply IH; [exact HM1|].
      destruct ((mn' =? 0)%nat && (st_pos s1 =? st_pos s)%nat) eqn:E.
      { apply andb_prop in E as [?%Nat.eqb_eq ?%Nat.eqb_eq]. naive_solver. }
      apply IHHM2; [done|done|].
      pose proof (Matches_moved _ _ _ _ HM1) as (n & _ & Hm%moved_clear_caps).
      destruct Hm as (Hle & Hp & -> & _). rewrite length_drop.
      destruct mn'; [|lia]. destruct n; [|lia]. lia. }
    destruct mx' as [[|m]|]; [done| |]; (destruct mn'; [|exact Hiter]); destruct g;
      repeat match goal with |- match ?x with _ => _ end <> _ => destruct x eqn:? end;
      congruence.
Qed.

(** A pattern without groups matches whenever it can. *)
Theorem mtch_complete fl r : forall s s' k,
  groups r = [] -> Matches fl r s s' -> k s' <> None -> mtch fl r s k <> None.
Proof.
  induction r; intros s s' k Hg HM Hk; cbn [groups] in Hg; cbn [mtch];
    try (apply app_eq_nil in Hg as [Hg1 Hg2]);
    (inversion HM; simplify_eq; unfold char_step;
     repeat match goal with
            | H : advance _ = Some _ |- _ => rewrite H; clear H
            | H : canon _ _ = canon _ _ |- _ => rewrite H, N.eqb_refl; clear H
            | H : ?b = true |- context [if ?b then _ else _] => rewrite H
            | H : ?b = false |- context [negb ?b] => rewrite H
            end; try done).
  - by eauto.
  - destruct (mtch fl r1 s k) eqn:E; [done|]. by eapply IHr1 in E.
  - destruct (mtch fl r1 s k) eqn:E; [done|]. by eapply IHr2.
  - eapply rep_loop_complete; eauto; lia.
  - eapply rep_loop_complete; eauto; lia.
  - repeat match goal with
           | H : st_caps _ !! _ = _ |- _ => rewrite H
           | H : canon_prefix _ _ _ = true |- _ => rewrite H
           end; done.
  - destruct (st_caps s' !! n) as [[w|]|] eqn:E; [exfalso; naive_solver|done|done].
  - destruct (mtch fl r s Some) as [z|] eqn:E; [|by eapply IHr in E].
    pose proof (mtch_sound _ _ _ _ _ E) as (s1 & HM1 & [= ->]).
    rewrite (Matches_no_caps _ _ _ _ Hg HM1).
    by erewrite Matches_no_caps in Hk by done.
  - by case_match.
Qed.

(** ** The repetition loop does not depend on its bound *)

Lemma rep_loop_fuel fl r g k :
  (forall s k1 k2, (forall s', Matches fl r s s' -> k1 s' = k2 s') ->
     mtch fl r s k1 = mtch fl r s k2) ->
  forall f1 f2 mn mx s, mn + length (st_rest s) < f1 -> mn + length (st_rest s) < f2 ->
    rep_loop (mtch fl r) (groups r) g k f1 mn mx s
    = rep_loop (mtch fl r) (groups r) g k f2 mn mx s.
Proof.
  intros Hext. induction f1 as [|f1 IH]; intros [|f2] mn mx s H1 H2; try lia.
  cbn [rep_loop].
  assert (E : mtch fl r (clear_caps (groups r) s) (fun s' =>
      if (mn =? 0)%nat && (st_pos s' =? st_pos s)%nat then None
      else rep_loop (mtch fl r) (groups r) g k f1 (Nat.pred mn) (Nat.pred <$> mx) s')
    = mtch fl r (clear_caps (groups r) s) (fun s' =>
      if (mn =? 0)%nat && (st_pos s' =? st_pos s)%nat then None
      else rep_loop (mtch fl r) (groups r) g k f2 (Nat.pred mn) (Nat.pred <$> mx) s')).
  { apply Hext. intros s1 HM.
    destruct ((mn =? 0)%nat && (st_pos s1 =? st_pos s)%nat) eqn:E; [done|].
    pose proof (Matches_moved _ _ _ _ HM) as (n & _ & Hm%moved_clear_caps).
    destruct Hm as (Hle & Hp & Hr & _).
    assert (Nat.pred mn + length (st_rest s1) < mn + length (st_rest s)).
    { rewrite Hr, length_drop. destruct mn; [|lia]. destruct n; [|lia].
      rewrite Hp, Nat.add_0_r, !Nat.eqb_refl in E. done. }
    apply IH; lia. }
  rewrite E. done.
Qed.

Lemma rep_loop_ext fl r g k1 k2 fuel :
  (forall s c1 c2, (forall s', Matches fl r s s' -> c1 s' = c2 s') ->
     mtch fl r s c1 = mtch fl r s c2) ->
  forall mn mx s, (forall s', Matches fl (RRep r mn mx g) s s' -> k1 s' = k2 s') ->
    rep_loop (mtch fl r) (groups r) g k1 fuel mn mx s
    = rep_loop (mtch fl r) (groups r) g k2 fuel mn mx s.
Proof.
  intros Hext. induction fuel as [|fuel IH]; intros mn mx s Hk; [done|]. cbn [rep_loop].
  assert (E : mx <> Some 0 -> mtch fl r (clear_caps (groups r) s) (fun s' =>
      if (mn =? 0)%nat && (st_pos s' =? st_pos s)%nat then None
      else rep_loop (mtch fl r) (groups r) g k1 fuel (Nat.pred mn) (Nat.pred <$> mx) s')
    = mtch fl r (clear_caps (groups r) s) (fun s' =>
      if (mn =? 0)%nat && (st_pos s' =? st_pos s)%nat then None
      else rep_loop (mtch fl r) (groups r) g k2 fuel (Nat.pred mn) (Nat.pred <$> mx) s')).
  { intros Hmx. apply Hext. intros s1 HM.
    destruct ((mn =? 0)%nat && (st_pos s1 =? st_pos s)%nat) eqn:E; [done|].
    apply IH. intros s2 HM2. apply Hk. eapply M_rep_iter; eauto.
    intros -> Heq. rewrite Heq, !Nat.eqb_refl in E. done. }
  assert (Hs : mn = 0 \/ mx = Some 0 -> k1 s = k2 s) by (intros; apply Hk; by constructor).
  destruct mx as [[|m]|]; [by apply Hs; right| |];
    rewrite E by done; (destruct mn; [|done]); rewrite Hs by (by left); done.
Qed.

Lemma mtch_ext fl r : forall s k1 k2,
  (forall s', Matches fl r s s' -> k1 s' = k2 s') -> mtch fl r s k1 = mtch fl r s k2.
Proof.
  induction r; intros s k1 k2 Hk; cbn [mtch]; try (by apply Hk; constructor).
  - unfold char_step. destruct (advance s) as [[x s']|] eqn:E; [|done].
    destruct (canon fl x =? canon fl c)%N eqn:Ec; [|done].
    apply Hk. apply N.eqb_eq in Ec. eauto with regex.
  - unfold char_step. destruct (advance s) as [[x s']|] eqn:E; [|done].
    destruct (class_match fl neg items x) eqn:Ec; [|done]. eauto with regex.
  - unfold char_step. destruct (advance s) as [[x s']|] eqn:E; [|done].
    destruct (is_line_terminator x) eqn:Ec; simpl; [done|]. eauto with regex.
  - apply IHr1. intros s1 ?. apply IHr2. intros s2 ?. eauto with regex.
  - rewrite (IHr1 s k1 k2), (IHr2 s k1 k2) by eauto with regex. done.
  - by apply rep_loop_ext.
  - apply IHr. intros s' ?. eauto with regex.
  - destruct (st_caps s !! n) as [[w|]|] eqn:E.
    + destruct (canon_prefix fl w (st_rest s)) eqn:?; [|done]. eauto with regex.
    + apply Hk, M_backref_undef. congruence.
    + apply Hk, M_backref_undef. congruence.
  - destruct neg; destruct (mtch fl r s Some) eqn:E; try done.
    + eauto with regex.
    + apply mtch_sound in E as (s' & ? & [= <-]). eauto with regex.
  - destruct (at_bol fl s) eqn:?; [|done]. eauto with regex.
  - destruct (at_eol fl s) eqn:?; [|done]. eauto with regex.
  - destruct (xorb neg (at_word_boundary s)) eqn:?; [|done]. eauto with regex.
Qed.

(** The equation of RepeatMatcher in the specification, without any bound. *)
Theorem mtch_rep fl r mn mx g s k :
  mtch fl (RRep r mn mx g) s k =
  if decide (mx = Some 0) then k s else
  let iter := mtch fl r (clear_caps (groups r) s) (fun s' =>
    if (mn =? 0)%nat && (st_pos s' =? st_pos s)%nat then None
    else mtch fl (RRep r (Nat.pred mn) (Nat.pred <$> mx) g) s' k) in
  match mn with
  | S _ => iter
  | O => if g then match iter with Some z => Some z | None => k s end
         else match k s with Some z => Some z | None => iter end
  end.
Proof.
  cbn [mtch rep_loop]. case_decide as Hmx; [by subst|].
  assert (E : mtch fl r (clear_caps (groups r) s) (fun s' =>
      if (mn =? 0)%nat && (st_pos s' =? st_pos s)%nat then None
      else rep_loop (mtch fl r) (groups r) g k (mn + length (st_rest s))
             (Nat.pred mn) (Nat.pred <$> mx) s')
    = mtch fl r (clear_caps (groups r) s) (fun s' =>
      if (mn =? 0)%nat && (st_pos s' =? st_pos s)%nat then None
      else rep_loop (mtch fl r) (groups r) g k (S (Nat.pred mn + length (st_rest s')))
             (Nat.pred mn) (Nat.pred <$> mx) s')).
  { apply mtch_ext. intros s1 HM.
    destruct ((mn =? 0)%nat && (st_pos s1 =? st_pos s)%nat) eqn:E; [done|].
    pose proof (Matches_moved _ _ _ _ HM) as (n & _ & Hm%moved_clear_caps).
    destruct Hm as (Hle & Hp & Hr & _).
    apply rep_loop_fuel; [intros; by apply mtch_ext| |lia].
    rewrite Hr, length_drop. destruct mn; [|lia]. destruct n; [|lia].
    rewrite Hp, Nat.add_0_r, !Nat.eqb_refl in E. done. }
  rewrite E. destruct mx as [[|m]|]; done.
Qed.

(** A greedy repetition of a character class takes the whole run of such
    characters when the rest of the pattern matches after it. *)
Lemma mtch_run fl neg items rest k z w : forall mn s,
  st_rest s = w ++ rest -> Forall (fun c => class_match fl neg items c = true) w ->
  mn <= length w -> match rest with c :: _ => class_match fl neg items c = false | [] => True end ->
  k (advance_n (length w) s) = Some z ->
  mtch fl (RRep (RClass neg items) mn None true) s k = Some z.
Proof.
  induction w as [|c w IH]; intros mn s Hs Hw Hmn Hr Hk; rewrite mtch_rep, decide_False by done;
    change (clear_caps (groups (RClass neg items)) s) with s; cbv zeta;
    change (mtch fl (RClass neg items) s) with (char_step (class_match fl neg items) s);
    unfold char_step, advance; rewrite Hs; cbn [app].
  - simpl in Hmn. assert (mn = 0) as -> by lia. destruct rest as [|c rest]; [done|].
    by rewrite Hr.
  - apply Forall_cons in Hw as [-> Hw]. cbn [st_pos].
    rewrite (proj2 (Nat.eqb_neq (S (st_pos s)) (st_pos s))), andb_false_r by lia.
    change (Nat.pred <$> None) with (@None nat).
    rewrite (IH (Nat.pred mn) (mkState (S (st_pos s)) (Some c) (w ++ rest) (st_caps s)));
      [by destruct mn|done|done|simpl in Hmn; lia|done|].
    revert Hk. cbn [length advance_n]. unfold advance. rewrite Hs. done.
Qed.

Definition digits_node : regex := RRep (RClass false [(false, [(48%N, 57%N)])]) 1 None true.

(** A string that ends in digits, at those digits: [\d+] takes them all. *)
Lemma mtch_digits fl w s k z :
  st_rest s = w -> w <> [] -> Forall (fun c => is_digit c = true) w ->
  (forall s', moved (length w) s s' -> st_caps s' = st_caps s -> k s' = Some z) ->
  mtch fl digits_node s k = Some z.
Proof.
  intros Hs Hne Hw Hk. apply (mtch_run fl false _ [] k z w).
  - by rewrite app_nil_r.
  - eapply Forall_impl; [exact Hw|]. intros c Hc.
    unfold class_match, in_items, in_ranges. unfold is_digit in Hc. simpl. by rewrite Hc.
  - destruct w; [done|simpl; lia].
  - done.
  - apply Hk; [apply moved_advance_n; by rewrite Hs|apply advance_n_caps].
Qed.

(** ** exec *)

Definition init_state (re : regexp) (pos : nat) (prev : option N) (rest : jsstr) : mstate :=
  mkState pos prev rest (replicate (S (re_ngroups re)) None).

Lemma match_here_inv re pos prev rest m :
  match_here re pos prev rest = Some m ->
  m_index m = pos /\
  exists n s', Matches (re_flags re) (re_node re) (init_state re pos prev rest) s' /\
    moved n (init_state re pos prev rest) s' /\
    min_len (re_node re) <= n <= length rest /\ cap0 m = take n rest /\
    m_caps m = <[0 := Some (take n rest)]> (st_caps s').
Proof.
  unfold match_here. destruct (mtch _ _ _ _) as [s'|] eqn:E; [|done]. intros [= <-].
  apply mtch_sound in E as (s1 & HM & [= ->]). split; [done|].
  destruct (Matches_moved _ _ _ _ HM) as (n & Hn & Hm).
  exists n, s'. pose proof Hm as (Hle & Hp & _ & _ & Hc). simpl in *.
  replace (st_pos s' - pos) with n by lia.
  split_and!; try done.
  unfold cap0, cap. simpl. rewrite list_lookup_insert_eq by (rewrite Hc; simpl; lia). done.
Qed.

(** A match consumes at least [min_len] and lies within the input. *)
Lemma match_here_len re pos prev rest m :
  match_here re pos prev rest = Some m ->
  m_index m = pos /\ min_len (re_node re) <= length (cap0 m) <= length rest /\
  cap0 m = take (length (cap0 m)) rest.
Proof.
  intros (Hi & n & s' & _ & _ & Hn & Hc & _)%match_here_inv.
  rewrite Hc, length_take_le by lia. repeat split; try done; lia.
Qed.

(** A capture is shorter than the match by at least the pattern's slack. *)
Lemma match_here_cap re pos prev rest m n w :
  match_here re pos prev rest = Some m ->
  n <> 0 -> n ∉ look_groups (re_node re) -> cap m n = Some w ->
  length w + slack n (re_node re) <= length (cap0 m).
Proof.
  intros (Hi & k & s' & HM & (_ & Hp & _) & Hn & Hc & Hcaps)%match_here_inv Hn0 Hl Hw.
  unfold cap in Hw. rewrite Hcaps, list_lookup_insert_ne in Hw by done.
  destruct (st_caps s' !! n) as [[w'|]|] eqn:E; simplify_eq/=.
  destruct (Matches_cap_bound _ _ _ _ n HM Hl _ E) as [Hold|[_ Hb]].
  - simpl in Hold. change (None :: ?l) with (replicate (S (re_ngroups re)) (@None jsstr)) in Hold.
    apply lookup_replicate in Hold as [? _]. done.
  - rewrite Hc, length_take_le by lia. simpl in *. lia.
Qed.

Lemma exec_from_inv re pos prev rest m :
  exec_from re pos prev rest = Some m ->
  exists j, j <= length rest /\ m_index m = pos + j /\
    match_here re (pos + j) (match j with O => prev | S i => rest !! i end) (drop j rest)
      = Some m.
Proof.
  revert pos prev. induction rest as [|c t IH]; intros pos prev; cbn [exec_from];
    destruct (match_here re pos prev _) as [m'|] eqn:E; intros H; simplify_eq.
  1,2: exists 0; rewrite Nat.add_0_r; pose proof (match_here_len _ _ _ _ _ E) as [-> _];
       split_and!; [lia|lia|done].
  apply IH in H as (j & Hj & Hi & Hm). exists (S j). simpl.
  replace (pos + S j) with (S pos + j) by lia. split_and!; [lia|lia|].
  rewrite <- Hm. destruct j; done.
Qed.

Lemma exec_inv re s m :
  exec re s = Some m ->
  m_index m + length (cap0 m) <= length s /\
  min_len (re_node re) <= length (cap0 m) /\
  cap0 m = take (length (cap0 m)) (drop (m_index m) s).
Proof.
  intros (j & Hj & Hi & Hm)%exec_from_inv.
  apply match_here_len in Hm as (Hi' & Hl & Hc). rewrite length_drop in Hl.
  simpl in *. subst j. split_and!; [lia|lia|done].
Qed.

Lemma exec_cap re s m n w :
  exec re s = Some m -> n <> 0 -> n ∉ look_groups (re_node re) -> cap m n = Some w ->
  length w + slack n (re_node re) <= length (cap0 m).
Proof. intros (j & _ & _ & Hm)%exec_from_inv. by eapply match_here_cap. Qed.

(** ** Anchored patterns *)

(** Every match starts with [^]. *)
Fixpoint anchored (r : regex) : bool :=
  match r with
  | RBol => true
  | RSeq r1 _ => anchored r1
  | RAlt r1 r2 => anchored r1 && anchored r2
  | RGroup _ r => anchored r
  | _ => false
  end.

Lemma anchored_bol fl r s s' :
  Matches fl r s s' -> anchored r = true -> at_bol fl s = true.
Proof. induction 1; simpl; intros Ha; try done; try apply andb_prop in Ha as [? ?]; auto. Qed.

Lemma match_here_anchored re pos c rest :
  anchored (re_node re) = true -> f_multi (re_flags re) = false ->
  match_here re pos (Some c) rest = None.
Proof.
  intros Ha Hf. destruct (match_here _ _ _ _) as [m|] eqn:E; [|done].
  apply match_here_inv in E as (_ & n & s' & HM & _).
  apply anchored_bol in HM; [|done]. unfold at_bol in HM. simpl in HM. by rewrite Hf in HM.
Qed.

Lemma exec_from_anchored re pos c rest :
  anchored (re_node re) = true -> f_multi (re_flags re) = false ->
  exec_from re pos (Some c) rest = None.
Proof.
  intros Ha Hf. revert pos c. induction rest as [|x t IH]; intros pos c; cbn [exec_from];
    rewrite match_here_anchored by done; [done|apply IH].
Qed.

(** An anchored pattern is tried at the start only. *)
Lemma exec_anchored re s :
  anchored (re_node re) = true -> f_multi (re_flags re) = false ->
  exec re s = match_here re 0 None s.
Proof.
  intros Ha Hf. unfold exec. destruct s as [|c t]; cbn [exec_from];
    destruct (match_here re 0 None _); try done. by apply exec_from_anchored.
Qed.

(** What the lexers use of one anchored rule: the rest is strictly shorter. *)
Lemma exec_anchored_inv re s m :
  anchored (re_node re) = true -> f_multi (re_flags re) = false ->
  exec re s = Some m ->
  m_index m = 0 /\ min_len (re_node re) <= length (cap0 m) <= length s /\
  s = cap0 m ++ drop (length (cap0 m)) s.
Proof.
  intros Ha Hf. rewrite exec_anchored by done.
  intros (Hi & Hl & Hc)%match_here_len. split_and!; try done; try lia.
  rewrite Hc at 1. by rewrite take_drop.
Qed.

(** ** Successive matches and replacement *)

Lemma exec_at_inv re s i m :
  exec_at re s i = Some m ->
  i <= m_index m /\ m_end m <= length s /\ min_len (re_node re) <= length (cap0 m) /\
  cap0 m = take (length (cap0 m)) (drop (m_index m) s).
Proof.
  unfold exec_at, m_end. destruct (Nat.ltb_spec (length s) i); [done|].
  intros (j & Hj & Hi & Hm)%exec_from_inv. apply match_here_len in Hm as (_ & Hl & Hc).
  rewrite !length_drop in Hl. rewrite drop_drop in Hc. rewrite length_drop in Hj.
  rewrite Hi. split_and!; try lia. done.
Qed.

(** Matches in order, without overlap, from position [i] on. *)
Inductive chain (s : jsstr) : nat -> list mres -> Prop :=
| chain_nil i : chain s i []
| chain_cons i m ms :
    i <= m_index m -> m_end m <= length s ->
    cap0 m = take (length (cap0 m)) (drop (m_index m) s) ->
    chain s (m_end m) ms -> chain s i (m :: ms).

Lemma chain_weaken s i j ms : i <= j -> chain s j ms -> chain s i ms.
Proof. intros Hij Hc. destruct Hc; constructor; try done; lia. Qed.

Lemma matches_from_chain re s fuel i : chain s i (matches_from re s fuel i).
Proof.
  revert i. induction fuel as [|f IH]; intros i; simpl; [constructor|].
  destruct (exec_at re s i) as [m|] eqn:E; [|constructor].
  apply exec_at_inv in E as (? & ? & ? & ?). constructor; try done.
  eapply chain_weaken; [|apply IH]. destruct (_ =? _)%nat; lia.
Qed.

Lemma matches_chain re s : chain s 0 (matches re s).
Proof. apply matches_from_chain. Qed.

Lemma matches_min_len re s m :
  m ∈ matches re s -> min_len (re_node re) <= length (cap0 m).
Proof.
  unfold matches. generalize (S (S (length s))) 0. intros fuel.
  induction fuel as [|f IH]; intros i; simpl; [by intros ?%not_elem_of_nil|].
  destruct (exec_at re s i) as [m'|] eqn:E; [|by intros ?%not_elem_of_nil].
  intros [->|Hm]%elem_of_cons; [|by eapply IH].
  by apply exec_at_inv in E as (_ & _ & ? & _).
Qed.

(** A replacement no longer than what it replaces does not lengthen the string. *)
Lemma stitch_length f s i ms :
  chain s i ms -> i <= length s -> (forall m, m ∈ ms -> length (f m) <= length (cap0 m)) ->
  length (stitch f s i ms) <= length s - i.
Proof.
  intros Hc. induction Hc as [i|i m ms Hi He Hcap Hc IH]; intros Hle Hf; simpl.
  - rewrite length_drop. lia.
  - rewrite !length_app. unfold substring. rewrite Nat.max_r, Nat.min_l by lia.
    rewrite length_take, length_drop.
    pose proof (Hf m ltac:(set_solver)).
    specialize (IH He ltac:(set_solver)). unfold m_end in *. lia.
Qed.

Lemma replace_fun_length re f s :
  (forall m, length (f m) <= length (cap0 m)) -> length (replace_fun re f s) <= length s.
Proof.
  intros Hf. unfold replace_fun. destruct (f_global (re_flags re)).
  - rewrite <- (Nat.sub_0_r (length s)).
    apply stitch_length; [apply matches_chain|lia|auto].
  - destruct (exec re s) as [m|] eqn:E; [|done].
    apply exec_inv in E as (? & ? & ?). rewrite <- (Nat.sub_0_r (length s)).
    apply stitch_length; [|lia|auto]. constructor; try done; [lia|constructor].
Qed.

Lemma replace_empty_length re s : length (replace re [] s) <= length s.
Proof. apply replace_fun_length. simpl. lia. Qed.

(** ** Replacing single code units *)

(** Replace by [w] every code unit that [p] selects (given what follows it). *)
Fixpoint subst1 (p : N -> jsstr -> bool) (w : jsstr) (s : jsstr) : jsstr :=
  match s with
  | [] => []
  | x :: t => (if p x t then w else [x]) ++ subst1 p w t
  end.

Lemma stitch_step f s i x ms :
  chain s (S i) ms -> s !! i = Some x -> stitch f s i ms = x :: stitch f s (S i) ms.
Proof.
  intros Hc Hx. inversion Hc as [|i' m ms' Hi He]; subst; cbn [stitch].
  - by apply drop_S.
  - unfold substring. rewrite !Nat.max_r, !Nat.min_l by lia.
    apply drop_S in Hx. rewrite Hx.
    replace (m_index m - i) with (S (m_index m - S i)) by lia. done.
Qed.

Section OneChar.
Context (re : regexp) (p : N -> jsstr -> bool) (f : mres -> jsstr) (w : jsstr).
Hypothesis re_nil : forall pos prev, match_here re pos prev [] = None.
Hypothesis re_hit : forall pos prev x t, p x t = true ->
  exists m, match_here re pos prev (x :: t) = Some m /\ m_index m = pos /\ cap0 m = [x].
Hypothesis re_miss : forall pos prev x t, p x t = false ->
  match_here re pos prev (x :: t) = None.
Hypothesis f_const : forall m, f m = w.

Lemma stitch_subst1 s rest : forall i fuel,
  drop i s = rest -> i <= length s -> length rest < fuel ->
  stitch f s i (matches_from re s fuel i) = subst1 p w rest.
Proof.
  induction rest as [|x t IH]; intros i fuel Hd Hi Hf;
    (destruct fuel as [|fuel]; [lia|]); cbn [matches_from]; unfold exec_at;
    rewrite (proj2 (Nat.ltb_ge _ _)) by lia; rewrite Hd; cbn [exec_from subst1].
  - rewrite re_nil. simpl. done.
  - assert (Hx : s !! i = Some x) by (by rewrite <- (Nat.add_0_r i), <- lookup_drop, Hd).
    assert (Ht : drop (S i) s = t) by (apply drop_S in Hx; congruence).
    assert (Hlt : i < length s) by (by eapply lookup_lt_Some).
    simpl in Hf. destruct (p x t) eqn:Ep.
    + destruct (re_hit i (prev_of s i) x t Ep) as (m & -> & Hmi & Hmc).
      rewrite Hmc. cbn [length Nat.eqb stitch]. unfold m_end. rewrite Hmi, Hmc.
      cbn [length]. rewrite Nat.add_1_r. unfold substring.
      rewrite Nat.max_id, Nat.min_id, Nat.sub_diag, f_const, take_0. cbn [app].
      f_equal. apply IH; [done|lia|lia].
    + rewrite re_miss by done.
      assert (E : exec_from re (S i) (Some x) t = exec_at re s (S i)).
      { unfold exec_at. rewrite (proj2 (Nat.ltb_ge _ _)) by lia. simpl. by rewrite Hx, Ht. }
      rewrite E.
      change (match exec_at re s (S i) with
              | Some m => m :: matches_from re s fuel
                  (if (length (cap0 m) =? 0)%nat then S (m_end m) else m_end m)
              | None => [] end) with (matches_from re s (S fuel) (S i)).
      rewrite (stitch_step _ _ _ x) by (done || apply matches_from_chain).
      rewrite (IH (S i) (S fuel)) by (done || lia). done.
Qed.

Lemma replace_subst1 s :
  f_global (re_flags re) = true -> replace_fun re f s = subst1 p w s.
Proof.
  intros Hg. unfold replace_fun, matches. rewrite Hg.
  apply stitch_subst1; [done|lia|lia].
Qed.
End OneChar.

Lemma expand_dollar_plain s w m : 36%N ∉ w -> expand_dollar s w m = w.
Proof.
  induction w as [|c w IH]; [done|]. intros [Hc Hw]%not_elem_of_cons. simpl.
  destruct (N.eqb_spec c 36); [congruence|]. by rewrite IH.
Qed.

(** [s.replace(/c/g, w)] for a single code unit [c]. *)
Lemma replace_char re c w s :
  re_node re = RChar c -> re_flags re = mkFlags true false false -> 36%N ∉ w ->
  replace re w s = subst1 (fun x _ => (x =? c)%N) w s.
Proof.
  intros Hn Hf Hw. unfold replace. apply replace_subst1.
  - intros. unfold match_here. rewrite Hn. reflexivity.
  - intros pos prev x t ->%N.eqb_eq. unfold match_here. rewrite Hn, Hf. simpl.
    unfold char_step, advance, canon. simpl. rewrite N.eqb_refl. eexists. split; [done|].
    split; [done|]. unfold cap0, cap. cbn [m_caps st_pos list_insert replicate lookup].
    by replace (S pos - pos) with 1 by lia.
  - intros pos prev x t Hx. unfold match_here. rewrite Hn, Hf. simpl.
    unfold char_step, advance, canon. simpl. by rewrite Hx.
  - intros m. by apply expand_dollar_plain.
  - by rewrite Hf.
Qed.

(** The result of exec has one entry per group and one for the whole match. *)
Lemma exec_caps_length re s m :
  exec re s = Some m -> length (m_caps m) = S (re_ngroups re).
Proof.
  intros (j & _ & _ & Hm)%exec_from_inv.
  apply match_here_inv in Hm as (_ & n & s' & _ & (_ & _ & _ & _ & Hc) & _ & _ & ->).
  rewrite length_insert, Hc. simpl. by rewrite length_replicate.
Qed.

Lemma exec_cap_ge re s m n : exec re s = Some m -> re_ngroups re < n -> cap m n = None.
Proof.
  intros He Hn. unfold cap.
  rewrite lookup_ge_None_2; [done|]. rewrite (exec_caps_length _ _ _ He). lia.
Qed.

(** ** Code units every match must contain *)

Fixpoint requires (c : N) (r : regex) : bool :=
  match r with
  | RChar x => (x =? c)%N
  | RSeq r1 r2 => requires c r1 || requires c r2
  | RAlt r1 r2 => requires c r1 && requires c r2
  | RRep r mn mx _ =>
      (0 <? mn)%nat && match mx with Some 0 => false | _ => true end && requires c r
  | RGroup _ r => requires c r
  | _ => false
  end.

Lemma clear_caps_rest gs s : st_rest (clear_caps gs s) = st_rest s.
Proof. revert s. induction gs as [|i gs IH]; intros s; [done|]. apply (IH (set_cap i None s)). Qed.

Lemma Matches_requires fl r s s' c :
  Matches fl r s s' -> f_icase fl = false -> requires c r = true -> c ∈ st_rest s.
Proof.
  intros HM Hi. induction HM; cbn [requires]; intros Hr; try done.
  - unfold canon in *. rewrite Hi in *. apply N.eqb_eq in Hr. simplify_eq.
    unfold advance in *. destruct (st_rest s); [done|]. simplify_eq. set_solver.
  - apply orb_prop in Hr as [Hr|Hr]; [by apply IHHM1|].
    apply IHHM2 in Hr. apply Matches_moved in HM1 as (n & _ & (_ & _ & Hd & _)).
    rewrite Hd in Hr. rewrite <- (take_drop n (st_rest s)). apply elem_of_app. by right.
  - apply andb_prop in Hr as [? ?]. auto.
  - apply andb_prop in Hr as [? ?]. auto.
  - apply andb_prop in Hr as [[Hmn%Nat.ltb_lt Hmx]%andb_prop Hr].
    destruct H as [->| ->]; [lia|done].
  - apply andb_prop in Hr as [_ Hr]. rewrite <- (clear_caps_rest (groups r)). auto.
  - auto.
Qed.

(** A pattern with a required code unit does not match a string without it. *)
Lemma match_here_requires re pos prev rest c :
  f_icase (re_flags re) = false -> requires c (re_node re) = true -> c ∉ rest ->
  match_here re pos prev rest = None.
Proof.
  intros Hi Hr Hc. destruct (match_here re pos prev rest) as [m|] eqn:E; [|done].
  apply match_here_inv in E as (_ & n & s' & HM & _).
  eapply Matches_requires in HM; [|done|done]. done.
Qed.

Lemma exec_requires re s c :
  f_icase (re_flags re) = false -> requires c (re_node re) = true -> c ∉ s ->
  exec re s = None.
Proof.
  intros Hi Hr. unfold exec. generalize 0 (@None N).
  induction s as [|x t IH]; intros pos prev Hc; cbn [exec_from];
    rewrite (match_here_requires _ _ _ _ c) by done; [done|].
  apply IH. set_solver.
Qed.

Lemma matches_requires re s c :
  f_icase (re_flags re) = false -> requires c (re_node re) = true -> c ∉ s ->
  matches re s = [].
Proof.
  intros Hi Hr Hc. unfold matches. cbn [matches_from]. unfold exec_at. simpl.
  rewrite drop_0. fold (exec re s). by rewrite (exec_requires _ _ c).
Qed.

Lemma replace_fun_requires re f s c :
  f_icase (re_flags re) = false -> requires c (re_node re) = true -> c ∉ s ->
  replace_fun re f s = s.
Proof.
  intros Hi Hr Hc. unfold replace_fun.
  rewrite (exec_requires _ _ c), (matches_requires _ _ c) by done.
  by destruct (f_global (re_flags re)).
Qed.
