(* ===== verification/RegExpCounts.v ===== *)
(** * More facts about matching: captures that always participate, line contents

    [sets n r] says statically that group [n] has a value after every match of [r];
    [min_nn] bounds from below the characters other than line feeds that a match
    consumes.  Then: when repetitions of one character find a match, and what
    removing matches does to a string. *)

From S2P Require Import Prelude JsString JsRegExp RegExpFacts.

(** ** Captures *)

Fixpoint sets (n : nat) (r : regex) : bool :=
  match r with
  | RGroup m r => bool_decide (m = n) || sets n r
  | RSeq a b => sets n b || (sets n a && negb (bool_decide (n ∈ groups b)))
  | RAlt a b => sets n a && sets n b
  | RRep r mn mx _ => (1 <=? mn)%nat && negb (bool_decide (mx = Some 0)) && sets n r
  | _ => false
  end.

Definition is_set (n : nat) (s : mstate) : Prop := exists w, st_caps s !! n = Some (Some w).

Lemma moved_caps_length n s s' : moved n s s' -> length (st_caps s') = length (st_caps s).
Proof. by intros (_ & _ & _ & _ & ?). Qed.

Lemma Matches_caps_length fl r s s' :
  Matches fl r s s' -> length (st_caps s') = length (st_caps s).
Proof. intros (n & _ & Hm)%Matches_moved. by eapply moved_caps_length. Qed.

Lemma clear_caps_length gs s : length (st_caps (clear_caps gs s)) = length (st_caps s).
Proof.
  revert s. induction gs as [|g gs IH]; intros s; simpl; [done|]. rewrite IH. simpl.
  apply length_insert.
Qed.

Lemma Matches_sets_gen fl r s s' n :
  Matches fl r s s' -> n < length (st_caps s) ->
  (sets n r = true -> is_set n s') /\
  (forall r0 mn mx g, r = RRep r0 mn mx g -> sets n r0 = true -> is_set n s -> is_set n s').
Proof.
  induction 1; intros Hn; (split; [|intros r0 mn0 mx0 g0 [=]; subst]); simpl; try done.
  - pose proof (Matches_caps_length _ _ _ _ H) as Hl. intros Hs.
    apply orb_prop in Hs as [Hs|[Hs Hg]%andb_prop]; [apply IHMatches2; [lia|done]|].
    apply negb_true_iff, bool_decide_eq_false in Hg. destruct (IHMatches1 Hn) as [H1 _].
    destruct (H1 Hs) as [w Hw]. exists w. by rewrite (Matches_caps_other _ _ _ _ _ H0 Hg).
  - intros [Hs _]%andb_prop. by apply IHMatches.
  - intros [_ Hs]%andb_prop. by apply IHMatches.
  - intros [[H1 H2]%andb_prop _]%andb_prop.
    apply negb_true_iff, bool_decide_eq_false in H2. by destruct H as [->|].
  - assert (Hn1 : n < length (st_caps s1)).
    { rewrite (Matches_caps_length _ _ _ _ H0), clear_caps_length. done. }
    intros [_ Hs]%andb_prop. destruct (IHMatches2 Hn1) as [_ H3].
    eapply H3; [done|done|]. apply IHMatches1; [by rewrite clear_caps_length|done].
  - intros Hs _. assert (Hn1 : n < length (st_caps s1)).
    { rewrite (Matches_caps_length _ _ _ _ H0), clear_caps_length. done. }
    destruct (IHMatches2 Hn1) as [_ H3].
    eapply H3; [done|done|]. apply IHMatches1; [by rewrite clear_caps_length|done].
  - destruct (decide (n0 = n)) as [->|Hne].
    + intros _. eexists. simpl. rewrite list_lookup_insert_eq; [done|].
      by rewrite (Matches_caps_length _ _ _ _ H).
    + rewrite bool_decide_eq_false_2 by done. simpl. intros Hs.
      destruct (IHMatches Hn) as [H1 _]. destruct (H1 Hs) as [w Hw].
      exists w. simpl. by rewrite list_lookup_insert_ne.
Qed.

(** A group that every match sets is not undefined in the result. *)
Lemma match_here_sets re pos prev rest m n :
  match_here re pos prev rest = Some m -> n <> 0 -> n <= re_ngroups re ->
  sets n (re_node re) = true -> exists w, cap m n = Some w.
Proof.
  intros (_ & k & s' & HM & _ & _ & _ & Hc)%match_here_inv Hn Hle Hs.
  destruct (Matches_sets_gen _ _ _ _ n HM) as [H1 _]; [simpl; rewrite length_replicate; lia|].
  destruct (H1 Hs) as [w Hw]. exists w. unfold cap. rewrite Hc, list_lookup_insert_ne by done.
  by rewrite Hw.
Qed.

Lemma exec_sets re s m n :
  exec re s = Some m -> (1 <=? n)%nat && (n <=? re_ngroups re)%nat && sets n (re_node re) = true ->
  exists w, cap m n = Some w.
Proof.
  intros (j & _ & _ & Hm)%exec_from_inv [[H1%Nat.leb_le H2%Nat.leb_le]%andb_prop H3]%andb_prop.
  eapply match_here_sets; [done|lia|done|done].
Qed.

(** ** Characters other than line feeds *)

Definition not_nl (c : N) : bool := negb (c =? 10)%N.
Definition nn (s : jsstr) : nat := length (List.filter not_nl s).

Lemma nn_app a b : nn (a ++ b) = nn a + nn b.
Proof. unfold nn. by rewrite List.filter_app, length_app. Qed.

Lemma nn_take_drop n s : nn s = nn (take n s) + nn (drop n s).
Proof. by rewrite <- nn_app, take_drop. Qed.

Lemma nn_length s : nn s <= length s.
Proof. apply List.filter_length_le. Qed.

Fixpoint min_nn (fl : flags) (r : regex) : nat :=
  match r with
  | RChar c => if not_nl c then 1 else 0
  | RClass neg items => if class_match fl neg items 10 then 0 else 1
  | RDot => 1
  | RSeq a b => min_nn fl a + min_nn fl b
  | RAlt a b => Nat.min (min_nn fl a) (min_nn fl b)
  | RRep r mn mx _ => if bool_decide (mx = Some 0) then 0 else
                      match mx with Some m => Nat.min mn m | None => mn end * min_nn fl r
  | RGroup _ r => min_nn fl r
  | _ => 0
  end.

Lemma moved_take n m s s1 : moved n s s1 -> take (n + m) (st_rest s) = take n (st_rest s) ++ take m (st_rest s1).
Proof. intros (_ & _ & -> & _). rewrite take_take_drop. done. Qed.

Lemma advance_take s x s' : advance s = Some (x, s') -> take 1 (st_rest s) = [x].
Proof. unfold advance. destruct (st_rest s) as [|c t]; [done|]. intros [= -> _]. done. Qed.

Lemma nn_single x : nn [x] = if not_nl x then 1 else 0.
Proof. unfold nn. simpl. by destruct (not_nl x). Qed.

Lemma Matches_nn fl r s s' :
  f_icase fl = false -> Matches fl r s s' ->
  exists n, moved n s s' /\ min_nn fl r <= nn (take n (st_rest s)).
Proof.
  intros Hi. induction 1; simpl.
  - exists 0. split; [apply moved_refl|]. simpl. lia.
  - exists 1. split; [by eapply moved_advance|]. rewrite (advance_take _ _ _ H), nn_single.
    unfold canon in H0. rewrite Hi in H0. by subst.
  - exists 1. split; [by eapply moved_advance|]. rewrite (advance_take _ _ _ H), nn_single.
    unfold not_nl. destruct (N.eqb_spec x 10) as [->|]; simpl.
    + by rewrite H0.
    + case_match; lia.
  - exists 1. split; [by eapply moved_advance|]. rewrite (advance_take _ _ _ H), nn_single.
    unfold not_nl. destruct (N.eqb_spec x 10) as [->|]; simpl; [done|lia].
  - destruct IHMatches1 as (n1 & M1 & L1), IHMatches2 as (n2 & M2 & L2).
    exists (n1 + n2). split; [by eapply moved_trans|]. rewrite (moved_take _ _ _ _ M1), nn_app. lia.
  - destruct IHMatches as (n & M & L). exists n. split; [done|lia].
  - destruct IHMatches as (n & M & L). exists n. split; [done|lia].
  - exists 0. split; [apply moved_refl|]. case_bool_decide as Hx; [simpl; lia|].
    destruct H as [->|E]; [|by destruct (Hx E)]. destruct mx; simpl; lia.
  - destruct IHMatches1 as (n1 & M1%moved_clear_caps & L1), IHMatches2 as (n2 & M2 & L2).
    rewrite clear_caps_rest in L1.
    exists (n1 + n2). split; [by eapply moved_trans|]. rewrite (moved_take _ _ _ _ M1), nn_app.
    cbn [min_nn] in L2. set (X := min_nn fl r) in *.
    destruct mx as [[|mx]|]; [done| |]; cbn [fmap option_fmap option_map Nat.pred] in L2.
    + rewrite bool_decide_eq_false_2 by done.
      assert (L2' : Nat.min (Nat.pred mn) mx * X <= nn (take n2 (st_rest s1))).
      { destruct mx; [rewrite Nat.min_0_r; simpl; lia|]. by rewrite bool_decide_eq_false_2 in L2. }
      destruct mn; simpl in *; lia.
    + rewrite bool_decide_eq_false_2 in L2 |- * by done. destruct mn; simpl in *; lia.
  - destruct IHMatches as (n' & M & L). exists n'. split; [by apply moved_set_cap|done].
  - exists (length w). split; [|lia]. apply moved_advance_n. by eapply canon_prefix_length.
  - exists 0. split; [apply moved_refl|lia].
  - exists 0. split; [|lia]. destruct (Matches_moved _ _ _ _ H) as (n & _ & Hm).
    apply moved_caps_length in Hm. repeat split; simpl; try lia; done.
  - exists 0. split; [apply moved_refl|lia].
  - exists 0. split; [apply moved_refl|lia].
  - exists 0. split; [apply moved_refl|lia].
  - exists 0. split; [apply moved_refl|lia].
Qed.

Lemma match_here_nn re pos prev rest m :
  f_icase (re_flags re) = false -> match_here re pos prev rest = Some m ->
  min_nn (re_flags re) (re_node re) <= nn (cap0 m).
Proof.
  intros Hi (_ & n & s' & HM & Hmv & _ & Hc & _)%match_here_inv.
  destruct (Matches_nn _ _ _ _ Hi HM) as (n' & Hmv' & L). rewrite Hc.
  destruct Hmv as (_ & Hp & _), Hmv' as (_ & Hp' & _). simpl in *.
  assert (n' = n) as -> by lia. done.
Qed.

Lemma exec_nn re s m :
  f_icase (re_flags re) = false -> exec re s = Some m ->
  min_nn (re_flags re) (re_node re) <= nn (cap0 m).
Proof. intros Hi (j & _ & _ & Hm)%exec_from_inv. by eapply match_here_nn. Qed.

(** ** Removing matches *)

Definition nns (ms : list mres) : nat := sum_list_with (fun m => nn (cap0 m)) ms.

Lemma stitch_remove_nn s i ms :
  chain s i ms -> i <= length s ->
  nn (stitch (fun _ => []) s i ms) + nns ms = nn (drop i s).
Proof.
  induction 1 as [i|i m ms Hi He Hcap Hc IH]; intros Hle; simpl; [unfold nns; simpl; lia|].
  rewrite nn_app. unfold substring. rewrite Nat.max_r, Nat.min_l by lia.
  specialize (IH He). unfold nns in *. simpl.
  rewrite (nn_take_drop (m_index m - i) (drop i s)), drop_drop.
  replace (i + (m_index m - i)) with (m_index m) by lia.
  rewrite (nn_take_drop (length (cap0 m)) (drop (m_index m) s)), drop_drop, <- Hcap.
  unfold m_end in *. lia.
Qed.

Lemma replace_remove re s : replace re [] s =
  if f_global (re_flags re) then stitch (fun _ => []) s 0 (matches re s)
  else match exec re s with Some m => stitch (fun _ => []) s 0 [m] | None => s end.
Proof. done. Qed.

Lemma exec_chain re s m : exec re s = Some m -> chain s 0 [m].
Proof. intros (? & ? & ?)%exec_inv. constructor; try done; [lia|constructor]. Qed.

Lemma replace_remove_nn re s : nn (replace re [] s) <= nn s.
Proof.
  rewrite replace_remove. destruct (f_global (re_flags re)).
  - pose proof (stitch_remove_nn s 0 _ (matches_chain re s)). rewrite drop_0 in *. lia.
  - destruct (exec re s) as [m|] eqn:E; [|done].
    pose proof (stitch_remove_nn s 0 _ (exec_chain _ _ _ E)). rewrite drop_0 in *. lia.
Qed.

Lemma exec_at_here re s m : match_here re 0 None s = Some m -> exec_at re s 0 = Some m /\ exec re s = Some m.
Proof.
  intros H. unfold exec_at, exec. simpl. rewrite drop_0.
  destruct s; cbn [exec_from]; by rewrite H.
Qed.

(** A match at the start is removed. *)
Lemma replace_remove_first re s m :
  match_here re 0 None s = Some m -> nn (replace re [] s) + nn (cap0 m) <= nn s.
Proof.
  intros [H1 H2]%exec_at_here. rewrite replace_remove. destruct (f_global (re_flags re)).
  - pose proof (stitch_remove_nn s 0 _ (matches_chain re s)) as H. rewrite drop_0 in H.
    unfold matches in *. cbn [matches_from] in *. rewrite H1 in *. unfold nns in *. simpl in *. lia.
  - rewrite H2. pose proof (stitch_remove_nn s 0 _ (exec_chain _ _ _ H2)) as H.
    rewrite drop_0 in H. unfold nns in H. simpl in *. lia.
Qed.

Lemma matches_nn re s : nns (matches re s) <= nn s.
Proof. pose proof (stitch_remove_nn s 0 _ (matches_chain re s)). rewrite drop_0 in *. lia. Qed.

Lemma matches_here re s m :
  m ∈ matches re s -> exists prev, match_here re (m_index m) prev (drop (m_index m) s) = Some m.
Proof.
  unfold matches. generalize (S (S (length s))) 0. intros fuel.
  induction fuel as [|f IH]; intros i; simpl; [by intros ?%not_elem_of_nil|].
  destruct (exec_at re s i) as [m'|] eqn:E; [|by intros ?%not_elem_of_nil].
  intros [->|Hm]%elem_of_cons; [|by eapply IH].
  unfold exec_at in E. destruct (Nat.ltb_spec (length s) i); [done|].
  apply exec_from_inv in E as (j & Hj & Hi & Hm). eexists. rewrite drop_drop, <- Hi in Hm. exact Hm.
Qed.

Lemma matches_nonempty re s m : match_here re 0 None s = Some m -> matches re s <> [].
Proof. intros [H _]%exec_at_here. unfold matches. cbn [matches_from]. by rewrite H. Qed.

(** ** Finding a match *)

(** A node that reads one character. *)
Definition reads (fl : flags) (r : regex) (f : N -> bool) : Prop :=
  groups r = [] /\ forall s k, mtch fl r s k = char_step f s k.

Lemma reads_char fl c : reads fl (RChar c) (fun x => (canon fl x =? canon fl c)%N).
Proof. done. Qed.
Lemma reads_class fl neg items : reads fl (RClass neg items) (class_match fl neg items).
Proof. done. Qed.

(** A greedy repetition finds a match when the rest of the pattern does after the
    longest run. *)
Lemma mtch_run_found fl r f rest k w : reads fl r f -> forall mn s,
  st_rest s = w ++ rest -> Forall (fun c => f c = true) w -> mn <= length w ->
  match rest with c :: _ => f c = false | [] => True end ->
  (forall s', moved (length w) s s' -> k s' <> None) ->
  mtch fl (RRep r mn None true) s k <> None.
Proof.
  intros [Hg Hr]. induction w as [|c w IH]; intros mn s Hs Hw Hmn Hf Hk;
    rewrite mtch_rep, decide_False by done; rewrite Hg; cbn [clear_caps fold_left]; cbv zeta;
    rewrite Hr; unfold char_step, advance; rewrite Hs; cbn [app].
  - simpl in Hmn. assert (mn = 0) as -> by lia. pose proof (Hk s (moved_refl s)) as Hks.
    destruct rest as [|c rest]; [done|]. by rewrite Hf.
  - apply Forall_cons in Hw as [-> Hw]. cbn [st_pos].
    rewrite (proj2 (Nat.eqb_neq (S (st_pos s)) (st_pos s))), andb_false_r by lia.
    change (Nat.pred <$> None) with (@None nat).
    set (s1 := mkState (S (st_pos s)) (Some c) (w ++ rest) (st_caps s)).
    assert (Ha : moved 1 s s1).
    { apply moved_advance with c. unfold advance. by rewrite Hs. }
    assert (Hn : mtch fl (RRep r (Nat.pred mn) None true) s1 k <> None).
    { apply IH; [done|done|simpl in Hmn; lia|done|]. intros s' Hm. apply Hk.
      by apply (moved_trans 1 (length w) s s1). }
    destruct mn; [|done]. destruct (mtch fl (RRep r (Nat.pred 0) None true) s1 k) eqn:E; congruence.
Qed.

Lemma mtch_char_found fl c s k rest :
  st_rest s = c :: rest -> (forall s', moved 1 s s' -> k s' <> None) -> mtch fl (RChar c) s k <> None.
Proof.
  intros Hs Hk. cbn [mtch]. unfold char_step, advance. rewrite Hs, N.eqb_refl. apply Hk.
  apply moved_advance with c. unfold advance. by rewrite Hs.
Qed.

Lemma mtch_class_found fl neg items c s k rest :
  st_rest s = c :: rest -> class_match fl neg items c = true ->
  (forall s', moved 1 s s' -> k s' <> None) -> mtch fl (RClass neg items) s k <> None.
Proof.
  intros Hs Hc Hk. cbn [mtch]. unfold char_step, advance. rewrite Hs, Hc. apply Hk.
  apply moved_advance with c. unfold advance. by rewrite Hs.
Qed.

(** An optional repetition before a pattern that always matches. *)
Lemma mtch_star_found fl r mx g s k : k s <> None -> mtch fl (RRep r 0 mx g) s k <> None.
Proof.
  intros Hk. rewrite mtch_rep. case_decide; [done|]. cbv zeta.
  destruct g; [|destruct (k s); done]. case_match; done.
Qed.

Lemma match_here_found re pos prev rest :
  mtch (re_flags re) (re_node re) (init_state re pos prev rest) Some <> None ->
  exists m, match_here re pos prev rest = Some m.
Proof.
  unfold match_here, init_state. destruct (mtch _ _ _ _); [eauto|done].
Qed.

Lemma exec_from_found re : forall j pos prev rest m,
  match_here re (pos + j) (match j with O => prev | S i => rest !! i end) (drop j rest) = Some m ->
  j <= length rest -> exec_from re pos prev rest <> None.
Proof.
  induction j as [|j IH]; intros pos prev rest m Hm Hj.
  - rewrite Nat.add_0_r, drop_0 in Hm. destruct rest; cbn [exec_from]; by rewrite Hm.
  - destruct rest as [|c t]; [simpl in Hj; lia|]. cbn [exec_from].
    destruct (match_here re pos prev (c :: t)); [done|].
    apply (IH (S pos) (Some c) t m); [|simpl in Hj; lia].
    rewrite <- Hm. replace (S pos + j) with (pos + S j) by lia. by destruct j.
Qed.

(** What a repetition of one character has read. *)
Lemma Matches_char_run fl c mn mx g s s' :
  f_icase fl = false -> Matches fl (RRep (RChar c) mn mx g) s s' ->
  exists k, moved k s s' /\ take k (st_rest s) = replicate k c /\ (mx = None -> mn <= k).
Proof.
  intros Hi HM. remember (RRep (RChar c) mn mx g) as r eqn:Er. revert mn mx Er.
  induction HM; intros mn' mx' [=]; subst.
  - exists 0. split_and!; [apply moved_refl|done|]. destruct H as [->| ->]; [lia|done].
  - destruct (IHHM2 _ _ eq_refl) as (k & Hm & Ht & Hk).
    inversion HM1 as [|? x ? ? Ha Hx| | | | | | | | | | | | | | |]; subst.
    unfold canon in Hx. rewrite Hi in Hx. subst x. simpl in Ha.
    exists (1 + k). split_and!.
    + eapply moved_trans; [by eapply moved_advance|done].
    + rewrite (moved_take 1 k s s1 (moved_advance _ _ _ Ha)), (advance_take _ _ _ Ha), Ht. done.
    + intros ->. specialize (Hk eq_refl). simpl in *. lia.
Qed.

Lemma Matches_class_run fl neg items mn mx g s s' :
  Matches fl (RRep (RClass neg items) mn mx g) s s' ->
  exists k, moved k s s' /\ Forall (fun c => class_match fl neg items c = true) (take k (st_rest s)) /\
    (mx = None -> mn <= k).
Proof.
  intros HM. remember (RRep (RClass neg items) mn mx g) as r eqn:Er. revert mn mx Er.
  induction HM; intros mn' mx' [=]; subst.
  - exists 0. split_and!; [apply moved_refl|constructor|]. destruct H as [->| ->]; [lia|done].
  - destruct (IHHM2 _ _ eq_refl) as (k & Hm & Ht & Hk).
    inversion HM1 as [| |? ? x ? ? Ha Hx| | | | | | | | | | | | | |]; subst. simpl in Ha.
    exists (1 + k). split_and!.
    + eapply moved_trans; [by eapply moved_advance|done].
    + rewrite (moved_take 1 k s s1 (moved_advance _ _ _ Ha)), (advance_take _ _ _ Ha).
      by constructor.
    + intros ->. specialize (Hk eq_refl). simpl in *. lia.
Qed.

(** What one character has read. *)
Lemma Matches_char fl c s s' :
  f_icase fl = false -> Matches fl (RChar c) s s' -> moved 1 s s' /\ take 1 (st_rest s) = [c].
Proof.
  intros Hi HM. inversion HM as [|? x ? ? Ha Hx| | | | | | | | | | | | | | |]; subst.
  unfold canon in Hx. rewrite Hi in Hx. subst x.
  split; [by eapply moved_advance|by eapply advance_take].
Qed.

Lemma Matches_seq fl a b s s' :
  Matches fl (RSeq a b) s s' -> exists s1, Matches fl a s s1 /\ Matches fl b s1 s'.
Proof. inversion 1; subst; eauto. Qed.

Lemma Matches_group fl n r s s' :
  Matches fl (RGroup n r) s s' ->
  exists s1, Matches fl r s s1 /\ forall k, moved k s s1 -> moved k s s'.
Proof. inversion 1; subst. eexists. split; [done|]. intros k. apply moved_set_cap. Qed.

Lemma mtch_seq fl a b s k : mtch fl (RSeq a b) s k = mtch fl a s (fun s' => mtch fl b s' k).
Proof. done. Qed.

(** A greedy repetition takes exactly the longest run when the rest matches after it. *)
Lemma mtch_run_exact fl r f rest k z w : reads fl r f -> forall mn s,
  st_rest s = w ++ rest -> Forall (fun c => f c = true) w -> mn <= length w ->
  match rest with c :: _ => f c = false | [] => True end ->
  k (advance_n (length w) s) = Some z ->
  mtch fl (RRep r mn None true) s k = Some z.
Proof.
  intros [Hg Hr]. induction w as [|c w IH]; intros mn s Hs Hw Hmn Hf Hk;
    rewrite mtch_rep, decide_False by done; rewrite Hg; cbn [clear_caps fold_left]; cbv zeta;
    rewrite Hr; unfold char_step, advance; rewrite Hs; cbn [app].
  - simpl in Hmn. assert (mn = 0) as -> by lia. destruct rest as [|c rest]; [done|]. by rewrite Hf.
  - apply Forall_cons in Hw as [-> Hw]. cbn [st_pos].
    rewrite (proj2 (Nat.eqb_neq (S (st_pos s)) (st_pos s))), andb_false_r by lia.
    change (Nat.pred <$> None) with (@None nat).
    rewrite (IH (Nat.pred mn) (mkState (S (st_pos s)) (Some c) (w ++ rest) (st_caps s)));
      [by destruct mn|done|done|simpl in Hmn; lia|done|].
    revert Hk. cbn [length advance_n]. unfold advance. rewrite Hs. done.
Qed.

(** Rules of a lexer: anchored, and every match has a character other than a line
    feed. *)
Definition rule_ok (r : regexp) : bool :=
  anchored (re_node r) && negb (f_multi (re_flags r)) && negb (f_icase (re_flags r))
  && (1 <=? min_nn (re_flags r) (re_node r))%nat.

Definition has (n : nat) (r : regexp) : bool :=
  (1 <=? n)%nat && (n <=? re_ngroups r)%nat && sets n (re_node r).

Lemma rule_consumes r src m :
  rule_ok r = true -> exec r src = Some m ->
  src = cap0 m ++ drop (length (cap0 m)) src /\ 1 <= nn (cap0 m) /\
  nn src = nn (cap0 m) + nn (drop (length (cap0 m)) src).
Proof.
  unfold rule_ok. rewrite !andb_true_iff, !negb_true_iff, Nat.leb_le. intros [[[Ha Hm] Hi] Hn] E.
  pose proof (exec_nn _ _ _ Hi E). destruct (exec_anchored_inv _ _ _ Ha Hm E) as (_ & _ & Hs).
  split_and!; [done|lia|]. by rewrite Hs at 1; rewrite nn_app.
Qed.

(** ** Replacing words *)

(** Replace from left to right: where [p] gives a length and a text, that many code
    units are replaced by the text.  [skip] code units are dropped first. *)
Fixpoint subst_at (p : jsstr -> option (nat * jsstr)) (skip : nat) (s : jsstr) : jsstr :=
  match s with
  | [] => []
  | x :: t =>
      match skip with
      | S k => subst_at p k t
      | O => match p s with
             | Some (n, w) => w ++ subst_at p (n - 1) t
             | None => x :: subst_at p 0 t
             end
      end
  end.

Lemma subst_at_drop p k s : subst_at p k s = subst_at p 0 (drop k s).
Proof. revert k. induction s as [|x t IH]; intros [|k]; simpl; auto. Qed.

(** A sequence of nodes that read one character each. *)
Fixpoint seq_node (rs : list regex) : regex :=
  match rs with
  | [] => REmpty
  | [r] => r
  | r :: rs => RSeq r (seq_node rs)
  end.

Fixpoint pre_match (fs : list (N -> bool)) (s : jsstr) : bool :=
  match fs, s with
  | [], _ => true
  | f :: fs, x :: s => f x && pre_match fs s
  | _ :: _, [] => false
  end.

Lemma pre_match_length fs : forall s, pre_match fs s = true -> length fs <= length s.
Proof.
  induction fs as [|f fs IH]; intros [|x s]; simpl; try done; [lia..|].
  intros [_ H]%andb_prop. apply IH in H. lia.
Qed.

Lemma mtch_reads fl rs fs : Forall2 (reads fl) rs fs -> forall s k,
  mtch fl (seq_node rs) s k = if pre_match fs (st_rest s) then k (advance_n (length fs) s) else None.
Proof.
  induction 1 as [|r f rs fs [_ Hr] Hrs IH]; intros s k; [done|].
  assert (E : mtch fl (seq_node (r :: rs)) s k = char_step f s (fun s' => mtch fl (seq_node rs) s' k)).
  { destruct rs; [|by rewrite <- Hr]. rewrite <- Hr. apply mtch_ext. done. }
  rewrite E. unfold char_step, advance. cbn [length advance_n pre_match]. unfold advance.
  destruct (st_rest s) as [|c t] eqn:Es; [done|]. destruct (f c); [|done]. simpl andb. by rewrite IH.
Qed.

Section Words.
Context (re : regexp) (rs : list regex) (fs : list (N -> bool)) (f : mres -> jsstr) (g : jsstr -> jsstr).
Context (Hnode : re_node re = seq_node rs) (Hreads : Forall2 (reads (re_flags re)) rs fs).
Context (Hne : fs <> []) (Hf : forall m, f m = g (cap0 m)).

Definition word_at (s : jsstr) : option (nat * jsstr) :=
  if pre_match fs s then Some (length fs, g (take (length fs) s)) else None.

Lemma match_here_word pos prev rest :
  match match_here re pos prev rest with
  | Some m => pre_match fs rest = true /\ m_index m = pos /\ cap0 m = take (length fs) rest
  | None => pre_match fs rest = false
  end.
Proof.
  unfold match_here. rewrite Hnode, (mtch_reads _ _ _ Hreads). cbn [st_rest].
  destruct (pre_match fs rest) eqn:E; [|done]. split; [done|]. split; [done|].
  destruct (moved_advance_n (length fs) (mkState pos prev rest (replicate (S (re_ngroups re)) None)))
    as (_ & Hp & _ & _ & Hl); [by apply pre_match_length|].
  cbn [st_pos] in Hp. rewrite Hp. unfold cap0, cap. cbn [m_caps].
  rewrite list_lookup_insert_eq by (rewrite Hl; simpl; lia). simpl. f_equal. lia.
Qed.

Lemma stitch_word s : forall n i fuel,
  length (drop i s) <= n -> i <= length s -> length (drop i s) < fuel ->
  stitch f s i (matches_from re s fuel i) = subst_at word_at 0 (drop i s).
Proof.
  induction n as [n IH] using lt_wf_ind; intros i fuel Hn Hi Hfu.
  destruct fuel as [|fuel]; [lia|]. cbn [matches_from]. unfold exec_at.
  rewrite (proj2 (Nat.ltb_ge _ _)) by lia.
  pose proof (match_here_word i (prev_of s i) (drop i s)) as Hm.
  destruct (drop i s) as [|x t] eqn:Hd; cbn [exec_from].
  - destruct (match_here re i (prev_of s i) []) as [m|]; simpl; [|done].
    destruct Hm as [Hp _]. by destruct fs.
  - assert (Hx : s !! i = Some x) by (by rewrite <- (Nat.add_0_r i), <- lookup_drop, Hd).
    assert (Ht : drop (S i) s = t) by (apply drop_S in Hx; congruence).
    assert (Hlt : i < length s) by (by eapply lookup_lt_Some).
    destruct (match_here re i (prev_of s i) (x :: t)) as [m|]; cbn [subst_at]; unfold word_at at 1.
    + destruct Hm as (Hp & Hmi & Hmc). rewrite Hp. pose proof (pre_match_length _ _ Hp) as Hl.
      rewrite Hmc, length_take_le by done.
      assert (1 <= length fs) by (destruct fs; [done|simpl; lia]).
      rewrite (proj2 (Nat.eqb_neq _ _)) by lia. cbn [stitch]. unfold m_end.
      rewrite Hmi, Hmc, length_take_le by done. unfold substring.
      rewrite Nat.max_id, Nat.min_id, Nat.sub_diag, take_0. cbn [app]. rewrite Hf, Hmc. f_equal.
      rewrite subst_at_drop, <- Ht, drop_drop. replace (S i + (length fs - 1)) with (i + length fs) by lia.
      assert (Hls : length fs <= length s - i) by (rewrite <- length_drop, Hd; done).
      simpl in Hn, Hfu. apply (f_equal length) in Hd. rewrite length_drop in Hd. simpl in Hd.
      apply (IH (length s - (i + length fs))); rewrite ?length_drop; lia.
    + rewrite Hm. assert (E : exec_from re (S i) (Some x) t = exec_at re s (S i)).
      { unfold exec_at. rewrite (proj2 (Nat.ltb_ge _ _)) by lia. simpl. by rewrite Hx, Ht. }
      rewrite E.
      change (match exec_at re s (S i) with
              | Some m => m :: matches_from re s fuel
                  (if (length (cap0 m) =? 0)%nat then S (m_end m) else m_end m)
              | None => [] end) with (matches_from re s (S fuel) (S i)).
      rewrite (stitch_step _ _ _ x) by (done || apply matches_from_chain).
      simpl in Hn, Hfu. rewrite (IH (length t) ltac:(lia) (S i) (S fuel)), Ht; rewrite ?Ht; [done|lia..].
Qed.

Lemma replace_word s : f_global (re_flags re) = true -> replace_fun re f s = subst_at word_at 0 s.
Proof.
  intros Hg. unfold replace_fun, matches. rewrite Hg.
  rewrite (stitch_word s (length s)); rewrite ?drop_0; [done|lia..].
Qed.
End Words.
