(* ===== verification/Events.v ===== *)
(** * The event emitter (module 1, events.js)

    Every part of the slide show talks over one EventEmitter.  Listeners run
    synchronously and may themselves emit, register and remove listeners, so the
    emitter is a machine: a stack of pending actions, in the order in which
    JavaScript would perform them, and a state with the table [_events] and a heap
    of listener arrays (the arrays are shared objects that [push], [splice] and
    [length = 0] change in place).  What the body of a listener does to the
    emitter is a parameter.  An inherited member of Object.prototype found under an
    event name counts as a listener without effect on the emitter. *)

From S2P Require Import Prelude JsString.

(** ** Functions, arguments and operations *)

Section Emitter.
(** Identities of the functions of the program. *)
Context {U : Type} `{EqDecision U}.

(** A function of the program by identity; the wrapper [g] that [once] creates; a
    native method of Object.prototype. *)
Inductive fn := FUser (id : U) | FOnce (g : nat) (type : jsstr) (listener : fn) | FNative.

#[global] Instance fn_eq : EqDecision fn.
Proof. solve_decision. Defined.

(** [f.listener] *)
Definition fn_listener (f : fn) : option fn :=
  match f with FOnce _ _ l => Some l | _ => None end.

(** Arguments: values of the program, or what the emitter passes to newListener
    and removeListener. *)
Inductive arg := AVal (v : jsstr) | AType (type : jsstr) | AFn (f : fn).

Inductive op :=
| Emit (type : jsstr) (args : list arg)
| On (type : jsstr) (f : fn)
| Once (type : jsstr) (f : fn)
| RemoveListener (type : jsstr) (f : fn)
| RemoveAllListeners (type : option jsstr).

(** [_events[type]]: a function, or an array of the heap. *)
Inductive slot := SFn (f : fn) | SArr (addr : nat).

(** What can be observed: calls of functions of the program, the wrapped listener
    of a [once] being started, a warning about a leak. *)
Inductive obs := Called (f : fn) (args : list arg) | Fired (g : nat) | Leak (n : nat).

Record emitter := mkEmitter {
  _events : list (jsstr * slot);
  heap : list (list fn);
  warned : list nat;
  _maxListeners : option Z;
  fired : list nat;
  next_g : nat;
  log : list obs
}.

Definition newEmitter : emitter := mkEmitter [] [] [] None [] 0 [].

Definition with_events (ev : list (jsstr * slot)) (st : emitter) : emitter :=
  mkEmitter ev (heap st) (warned st) (_maxListeners st) (fired st) (next_g st) (log st).
Definition with_heap (h : list (list fn)) (st : emitter) : emitter :=
  mkEmitter (_events st) h (warned st) (_maxListeners st) (fired st) (next_g st) (log st).
Definition with_log (o : obs) (st : emitter) : emitter :=
  mkEmitter (_events st) (heap st) (warned st) (_maxListeners st) (fired st) (next_g st)
    (log st ++ [o]).

Definition defaultMaxListeners : Z := 10.

(** [setMaxListeners(n)], for a number *)
Definition setMaxListeners (n : Z) (st : emitter) : result emitter :=
  if (n <? 0)%Z then Throw (TypeError (js "n must be a positive number"))
  else Ok (mkEmitter (_events st) (heap st) (warned st) (Some n) (fired st) (next_g st) (log st)).

(** ** Reading the table *)

(** [this._events[type]] *)
Definition get_slot (st : emitter) (type : jsstr) : option slot :=
  match oget type (_events st) with
  | Some s => Some s
  | None => if bool_decide (type ∈ object_prototype) then Some (SFn FNative) else None
  end.

Definition arr_at (st : emitter) (a : nat) : list fn := default [] (heap st !! a).

(** [listeners(type)] *)
Definition listeners (st : emitter) (type : jsstr) : list fn :=
  match get_slot st type with
  | None => []
  | Some (SFn f) => [f]
  | Some (SArr a) => arr_at st a
  end.

(** [listenerCount(type)] *)
Definition listenerCount (st : emitter) (type : jsstr) : nat :=
  match get_slot st type with
  | None => 0
  | Some (SFn _) => 1
  | Some (SArr a) => length (arr_at st a)
  end.

(** ** The machine *)

Inductive action :=
| AOp (o : op)
| ACall (f : fn) (args : list arg)
(** the rest of [addListener], of a call of [g], and of [removeListener] *)
| AAdd (type : jsstr) (f : fn)
| AFire (g : nat) (f : fn) (args : list arg)
| ANotify (type : jsstr) (f : fn)
(** the loop of [removeAllListeners(type)] over an array, its last [delete], and
    the end of [removeAllListeners()] *)
| ALoop (type : jsstr) (addr : nat)
| ADelete (type : jsstr)
| AReset.

Definition s_error : jsstr := js "error".
Definition s_newListener : jsstr := js "newListener".
Definition s_removeListener : jsstr := js "removeListener".

Definition arg_toString (a : option arg) : jsstr :=
  match a with
  | Some (AVal v) | Some (AType v) => v
  | Some (AFn _) => js "function"
  | None => js "undefined"
  end.

(** [emit(type, ...)]: the calls to make, on a snapshot of the array. *)
Definition emit (st : emitter) (type : jsstr) (args : list arg) : result (list action) :=
  let uncaught := match get_slot st s_error with
                  | None => true
                  | Some (SFn _) => false
                  | Some (SArr a) => bool_decide (arr_at st a = [])
                  end in
  if bool_decide (type = s_error) && uncaught
  then Throw (Error (js "Uncaught, unspecified ＂error＂ event. (" ++ arg_toString (head args)
                     ++ js ")"))
  else
    match get_slot st type with
    | None => Ok []
    | Some (SFn f) => Ok [ACall f args]
    | Some (SArr a) => Ok (map (fun f => ACall f args) (arr_at st a))
    end.

(** [addListener], after newListener has been emitted: one listener is stored as
    it is, more in an array. *)
Definition add_slot (type : jsstr) (f : fn) (st : emitter) : emitter :=
  match get_slot st type with
  | None => with_events (oset type (SFn f) (_events st)) st
  | Some (SArr a) => with_heap (alter (fun l => l ++ [f]) a (heap st)) st
  | Some (SFn f0) =>
      with_events (oset type (SArr (length (heap st))) (_events st))
        (with_heap (heap st ++ [[f0; f]]) st)
  end.

(** The warning about too many listeners, once per array. *)
Definition check_leak (type : jsstr) (st : emitter) : emitter :=
  match get_slot st type with
  | Some (SArr a) =>
      let m := match _maxListeners st with Some m => m | None => defaultMaxListeners end in
      let n := length (arr_at st a) in
      if negb (bool_decide (a ∈ warned st)) && (0 <? m)%Z && (m <? Z.of_nat n)%Z
      then mkEmitter (_events st) (heap st) (a :: warned st) (_maxListeners st) (fired st)
             (next_g st) (log st ++ [Leak n])
      else st
  | _ => st
  end.

Definition add (type : jsstr) (f : fn) (st : emitter) : emitter :=
  check_leak type (add_slot type f st).

Definition is_listener (l f : fn) : bool :=
  bool_decide (f = l) || bool_decide (fn_listener f = Some l).

(** The loop [for (i = length; i-- > 0;)]: the last position that holds the
    listener or a wrapper of it. *)
Fixpoint last_position (l : fn) (fs : list fn) : option nat :=
  match fs with
  | [] => None
  | f :: t =>
      match last_position l t with
      | Some i => Some (S i)
      | None => if is_listener l f then Some 0 else None
      end
  end.

(** [removeListener(type, f)]: the new state, and whether something was removed. *)
Definition removeListener (type : jsstr) (f : fn) (st : emitter) : emitter * bool :=
  match get_slot st type with
  | None => (st, false)
  | Some (SFn f0) =>
      if is_listener f f0 then (with_events (odel type (_events st)) st, true) else (st, false)
  | Some (SArr a) =>
      match last_position f (arr_at st a) with
      | None => (st, false)
      | Some i =>
          if bool_decide (length (arr_at st a) = 1)
          then (with_events (odel type (_events st)) (with_heap (<[a := []]> (heap st)) st), true)
          else (with_heap (alter (delete i) a (heap st)) st, true)
      end
  end.

(** What a function of the program does to the emitter when it is called. *)
Context (body : U -> list arg -> list op).

Definition call (f : fn) (args : list arg) (st : emitter) : list action * emitter :=
  match f with
  | FUser id => (map AOp (body id args), with_log (Called f args) st)
  | FOnce g type l => ([AOp (RemoveListener type f); AFire g l args], with_log (Called f args) st)
  | FNative => ([], with_log (Called f args) st)
  end.

Definition listener_or_self (f : fn) : fn := default f (fn_listener f).

(** One action: what remains to be done before the rest, and the new state. *)
Definition step (a : action) (st : emitter) : result (list action * emitter) :=
  match a with
  | AOp (Emit type args) => let! calls := emit st type args in Ok (calls, st)
  | AOp (On type f) =>
      match get_slot st s_newListener with
      | Some _ =>
          let! calls := emit st s_newListener [AType type; AFn (listener_or_self f)] in
          Ok (calls ++ [AAdd type f], st)
      | None => Ok ([AAdd type f], st)
      end
  | AOp (Once type f) =>
      Ok ([AOp (On type (FOnce (next_g st) type f))],
          mkEmitter (_events st) (heap st) (warned st) (_maxListeners st) (fired st)
            (S (next_g st)) (log st))
  | AOp (RemoveListener type f) =>
      let '(st', removed) := removeListener type f st in
      Ok (if removed then [ANotify type f] else [], st')
  | AOp (RemoveAllListeners None) =>
      match get_slot st s_removeListener with
      | None => Ok ([], with_events [] st)
      | Some _ =>
          Ok (map (fun k => AOp (RemoveAllListeners (Some k)))
                (List.filter (fun k => negb (bool_decide (k = s_removeListener)))
                   (map fst (_events st)))
              ++ [AOp (RemoveAllListeners (Some s_removeListener)); AReset], st)
      end
  | AOp (RemoveAllListeners (Some type)) =>
      match get_slot st s_removeListener with
      | None => Ok ([], with_events (odel type (_events st)) st)
      | Some _ =>
          Ok (match get_slot st type with
              | Some (SFn f) => [AOp (RemoveListener type f)]
              | Some (SArr a) => [ALoop type a]
              | None => []
              end ++ [ADelete type], st)
      end
  | ACall f args => Ok (call f args st)
  | AAdd type f => Ok ([], add type f st)
  | AFire g f args =>
      if bool_decide (g ∈ fired st) then Ok ([], st)
      else Ok ([ACall f args],
               mkEmitter (_events st) (heap st) (warned st) (_maxListeners st) (g :: fired st)
                 (next_g st) (log st ++ [Fired g]))
  | ANotify type f =>
      match get_slot st s_removeListener with
      | Some _ => let! calls := emit st s_removeListener [AType type; AFn f] in Ok (calls, st)
      | None => Ok ([], st)
      end
  | ALoop type addr =>
      match last (arr_at st addr) with
      | Some f => Ok ([AOp (RemoveListener type f); ALoop type addr], st)
      | None => Ok ([], st)
      end
  | ADelete type => Ok ([], with_events (odel type (_events st)) st)
  | AReset => Ok ([], with_events [] st)
  end.

(** Everything that is pending, in order; a listener may re-emit for ever, so the
    number of actions is bounded. *)
Fixpoint run (fuel : nat) (todo : list action) (st : emitter) : result emitter :=
  match todo with
  | [] => Ok st
  | a :: rest =>
      match fuel with
      | O => OutOfFuel
      | S fuel =>
          let! (more, st') := step a st in
          run fuel (more ++ rest) st'
      end
  end.
End Emitter.

Arguments fn : clear implicits.
Arguments arg : clear implicits.
Arguments op : clear implicits.
Arguments slot : clear implicits.
Arguments obs : clear implicits.
Arguments emitter : clear implicits.
Arguments action : clear implicits.

(** ** Invariant and abstract behaviour *)

Section Facts.
Context {U : Type} `{EqDecision U}.
Implicit Types (st : emitter U) (f : fn U).

(** No array in the table is empty, and no array is shared by two events. *)
Record wf (st : emitter U) : Prop := {
  wf_arr : forall t a, oget t (_events st) = Some (SArr a) ->
    exists l, heap st !! a = Some l /\ l <> [];
  wf_inj : forall t1 t2 a, oget t1 (_events st) = Some (SArr a) ->
    oget t2 (_events st) = Some (SArr a) -> t1 = t2
}.

(** The last occurrence of a listener, or of a wrapper of it, taken out. *)
Fixpoint drop_last (l : fn U) (fs : list (fn U)) : list (fn U) :=
  match fs with
  | [] => []
  | f :: t =>
      if existsb (is_listener l) t then f :: drop_last l t
      else if is_listener l f then t else f :: t
  end.

Lemma last_position_spec l fs :
  match last_position l fs with
  | Some i => delete i fs = drop_last l fs /\ i < length fs /\ existsb (is_listener l) fs = true
  | None => drop_last l fs = fs /\ existsb (is_listener l) fs = false
  end.
Proof.
  induction fs as [|f t IH]; simpl; [done|].
  destruct (last_position l t) as [i|].
  - destruct IH as (E & Hi & ->). simpl. rewrite E, orb_true_r. split_and!; [done|lia|done].
  - destruct IH as (E & ->). destruct (is_listener l f); simpl; rewrite ?orb_false_r.
    + split_and!; [done|lia|done].
    + done.
Qed.

Lemma get_slot_heap st h t : get_slot (with_heap h st) t = get_slot st t.
Proof. done. Qed.

(** Own slots of the table; inherited ones are functions. *)
Lemma get_slot_arr st t a : get_slot st t = Some (SArr a) -> oget t (_events st) = Some (SArr a).
Proof. unfold get_slot. destruct (oget t _); [done|]. by case_bool_decide. Qed.

Lemma listeners_slot st st' t :
  get_slot st t = get_slot st' t ->
  (forall a, oget t (_events st) = Some (SArr a) -> heap st !! a = heap st' !! a) ->
  listeners st t = listeners st' t.
Proof.
  intros Hs Hh. unfold listeners. rewrite <- Hs. destruct (get_slot st t) as [[f|a]|] eqn:E; try done.
  unfold arr_at. by rewrite (Hh a (get_slot_arr _ _ _ E)).
Qed.

Lemma get_slot_ext st st' t :
  oget t (_events st) = oget t (_events st') -> get_slot st t = get_slot st' t.
Proof. unfold get_slot. by intros ->. Qed.

Lemma wf_listeners_ne st t a :
  wf st -> get_slot st t = Some (SArr a) -> exists l, heap st !! a = Some l /\ l <> [] /\ listeners st t = l.
Proof.
  intros Hwf E. destruct (wf_arr st Hwf t a (get_slot_arr _ _ _ E)) as (l & Hl & Hne).
  exists l. split_and!; [done|done|]. unfold listeners. rewrite E. unfold arr_at. by rewrite Hl.
Qed.

(** The listeners of [t] become [l] and those of other events stay. *)
Definition updates (t : jsstr) (l : list (fn U)) (st st' : emitter U) : Prop :=
  wf st' /\ forall t', listeners st' t' = if bool_decide (t' = t) then l else listeners st t'.

Lemma updates_fn st t f :
  wf st -> updates t [f] st (with_events (oset t (SFn f) (_events st)) st).
Proof.
  intros Hwf. split; [split; simpl|].
  - intros t1 a. destruct (decide (t1 = t)) as [->|Hne]; [by rewrite oget_oset_eq|].
    rewrite oget_oset_ne by done. apply Hwf.
  - intros t1 t2 a. destruct (decide (t1 = t)) as [->|H1], (decide (t2 = t)) as [->|H2];
      rewrite ?oget_oset_eq, ?oget_oset_ne by done; try done. apply Hwf.
  - intros t'. case_bool_decide as Ht.
    + subst. unfold listeners, get_slot. simpl. by rewrite oget_oset_eq.
    + apply listeners_slot; [|done]. apply get_slot_ext. simpl. by apply oget_oset_ne.
Qed.

Lemma wf_lt st t a : wf st -> oget t (_events st) = Some (SArr a) -> a < length (heap st).
Proof. intros Hwf H. destruct (wf_arr st Hwf t a H) as (l & Hl & _). by eapply lookup_lt_Some. Qed.

Lemma updates_new st t l :
  wf st -> l <> [] ->
  updates t l st (with_events (oset t (SArr (length (heap st))) (_events st))
                    (with_heap (heap st ++ [l]) st)).
Proof.
  intros Hwf Hne. split; [split; simpl|].
  - intros t1 a. destruct (decide (t1 = t)) as [->|Ht].
    + rewrite oget_oset_eq. intros [= <-]. exists l. by rewrite lookup_app_r, Nat.sub_diag.
    + rewrite oget_oset_ne by done. intros H. destruct (wf_arr st Hwf t1 a H) as (l1 & Hl & ?).
      exists l1. split; [|done]. by apply lookup_app_l_Some.
  - intros t1 t2 a. destruct (decide (t1 = t)) as [->|H1], (decide (t2 = t)) as [->|H2];
      rewrite ?oget_oset_eq, ?oget_oset_ne by done; try done.
    + intros [= <-] H%wf_lt; [lia|done].
    + intros H%wf_lt [= <-]; [lia|done].
    + apply Hwf.
  - intros t'. case_bool_decide as Ht.
    + subst. unfold listeners, get_slot. simpl. rewrite oget_oset_eq. unfold arr_at. simpl.
      by rewrite lookup_app_r, Nat.sub_diag.
    + apply listeners_slot; [apply get_slot_ext; simpl; by apply oget_oset_ne|].
      simpl. rewrite oget_oset_ne by done. intros a H%wf_lt; [|done]. by rewrite lookup_app_l.
Qed.

Lemma updates_alter st t a g :
  wf st -> get_slot st t = Some (SArr a) -> g (listeners st t) <> [] ->
  updates t (g (listeners st t)) st (with_heap (alter g a (heap st)) st).
Proof.
  intros Hwf E Hg. destruct (wf_listeners_ne st t a Hwf E) as (l & Hl & Hne & El).
  rewrite El in Hg |- *. pose proof (get_slot_arr _ _ _ E) as Ho. split; [split; simpl; [|apply Hwf]|].
  - intros t1 a1 H. destruct (decide (a1 = a)) as [->|Ha].
    + exists (g l). by rewrite list_lookup_alter_eq, Hl.
    + rewrite list_lookup_alter_ne by done. by apply (wf_arr st Hwf t1).
  - intros t'. case_bool_decide as Ht.
    + subst t'. unfold listeners. rewrite get_slot_heap, E. unfold arr_at. simpl.
      by rewrite list_lookup_alter_eq, Hl.
    + apply listeners_slot; [done|]. simpl. intros a1 H. rewrite list_lookup_alter_ne; [done|].
      intros ->. by apply Ht, (wf_inj st Hwf t' t a1).
Qed.

(** Removing an event; its array, if any, may be emptied as well. *)
Lemma wf_del st t h :
  wf st -> (forall a, oget t (_events st) <> Some (SArr a) -> h !! a = heap st !! a) ->
  wf (with_events (odel t (_events st)) (with_heap h st)).
Proof.
  intros Hwf Hh. split; simpl.
  - intros t1 a. destruct (decide (t1 = t)) as [->|Hne]; [by rewrite oget_odel_eq|].
    rewrite oget_odel_ne by done. intros H. rewrite Hh; [by apply (wf_arr st Hwf t1)|].
    intros H'. by apply Hne, (wf_inj st Hwf t1 t a).
  - intros t1 t2 a. destruct (decide (t1 = t)) as [->|H1], (decide (t2 = t)) as [->|H2];
      rewrite ?oget_odel_eq, ?oget_odel_ne by done; try done. apply Hwf.
Qed.

Lemma updates_del st t h :
  wf st -> t ∉ object_prototype ->
  (forall a, oget t (_events st) <> Some (SArr a) -> h !! a = heap st !! a) ->
  updates t [] st (with_events (odel t (_events st)) (with_heap h st)).
Proof.
  intros Hwf Hp Hh. split; [by apply wf_del|].
  intros t'. case_bool_decide as Ht.
  - subst. unfold listeners, get_slot. simpl. rewrite oget_odel_eq.
    by rewrite bool_decide_eq_false_2.
  - apply listeners_slot; [apply get_slot_ext; simpl; by apply oget_odel_ne|].
    simpl. rewrite oget_odel_ne by done. intros a H. apply Hh. intros H'.
    by apply Ht, (wf_inj st Hwf t' t a).
Qed.

Lemma add_slot_updates st t f : wf st -> updates t (listeners st t ++ [f]) st (add_slot t f st).
Proof.
  intros Hwf. unfold add_slot. destruct (get_slot st t) as [[f0|a]|] eqn:E.
  - replace (listeners st t) with [f0] by (unfold listeners; by rewrite E).
    by apply updates_new.
  - apply (updates_alter st t a (fun l => l ++ [f])); [done|done|]. by destruct (listeners st t).
  - replace (listeners st t) with (@nil (fn U)) by (unfold listeners; by rewrite E).
    by apply updates_fn.
Qed.

Lemma check_leak_same t st :
  _events (check_leak t st) = _events st /\ heap (check_leak t st) = heap st.
Proof. unfold check_leak. by repeat case_match. Qed.

Lemma updates_same st st1 st2 t l :
  _events st2 = _events st1 -> heap st2 = heap st1 -> updates t l st st1 -> updates t l st st2.
Proof.
  intros He Hh [[H1 H2] H3]. split; [split; rewrite He, ?Hh; done|].
  intros t'. rewrite <- H3. apply listeners_slot; [apply get_slot_ext; by rewrite He|].
  by rewrite Hh.
Qed.

Lemma add_updates st t f : wf st -> updates t (listeners st t ++ [f]) st (add t f st).
Proof.
  intros Hwf. destruct (check_leak_same t (add_slot t f st)) as [He Hh].
  eapply updates_same; [done|done|]. by apply add_slot_updates.
Qed.

Lemma updates_refl st t : wf st -> updates t (listeners st t) st st.
Proof. intros Hwf. split; [done|]. intros t'. by case_bool_decide; subst. Qed.

Lemma drop_last_single l f : is_listener l f = true -> drop_last l [f] = [].
Proof. simpl. by intros ->. Qed.

(** The three outcomes of [removeListener]. *)
Lemma removeListener_cases st t f :
  wf st ->
  (removeListener t f st = (st, false) /\ drop_last f (listeners st t) = listeners st t) \/
  (exists h, removeListener t f st = (with_events (odel t (_events st)) (with_heap h st), true) /\
     drop_last f (listeners st t) = [] /\
     forall a, oget t (_events st) <> Some (SArr a) -> h !! a = heap st !! a) \/
  (exists a i, removeListener t f st = (with_heap (alter (delete i) a (heap st)) st, true) /\
     get_slot st t = Some (SArr a) /\ drop_last f (listeners st t) = delete i (listeners st t) /\
     delete i (listeners st t) <> []).
Proof.
  intros Hwf. unfold removeListener. destruct (get_slot st t) as [[f0|a]|] eqn:E.
  - replace (listeners st t) with [f0] by (unfold listeners; by rewrite E). simpl.
    destruct (is_listener f f0); [|by left]. right. left. exists (heap st). split; [|done].
    by destruct st.
  - destruct (wf_listeners_ne st t a Hwf E) as (l & Hl & Hne & El).
    assert (Ha : arr_at st a = l) by (unfold arr_at; by rewrite Hl). rewrite Ha, El.
    pose proof (last_position_spec f l) as Hp. destruct (last_position f l) as [i|];
      [|left; by destruct Hp as [-> _]].
    destruct Hp as (Hd & Hi & _). right. case_bool_decide as H1.
    + left. exists (<[a:=[]]> (heap st)). split; [done|].
      assert (i = 0) as -> by lia. destruct l as [|x [|]]; [done| |done]. split; [done|].
      intros b Hb. apply list_lookup_insert_ne. intros ->. by apply Hb, get_slot_arr.
    + right. exists a, i. split_and!; [done|done|done|]. intros H0. apply (f_equal length) in H0.
      rewrite length_delete in H0 by (by apply lookup_lt_is_Some). simpl in H0. lia.
  - left. split; [done|]. unfold listeners. by rewrite E.
Qed.

Lemma removeListener_wf st t f : wf st -> wf (fst (removeListener t f st)).
Proof.
  intros Hwf. destruct (removeListener_cases st t f Hwf)
    as [[-> _]|[(h & -> & _ & Hh)|(a & i & -> & E & _ & Hne)]]; simpl; [done|by apply wf_del|].
  by apply (updates_alter st t a (delete i)).
Qed.

Lemma removeListener_updates st t f :
  wf st -> t ∉ object_prototype ->
  updates t (drop_last f (listeners st t)) st (fst (removeListener t f st)).
Proof.
  intros Hwf Hp. destruct (removeListener_cases st t f Hwf)
    as [[-> ->]|[(h & -> & -> & Hh)|(a & i & -> & E & -> & Hne)]]; simpl.
  - by apply updates_refl.
  - by apply updates_del.
  - by apply (updates_alter st t a (delete i)).
Qed.

Lemma wf_same st st' : _events st' = _events st -> heap st' = heap st -> wf st -> wf st'.
Proof. intros He Hh [H1 H2]. split; rewrite He, ?Hh; done. Qed.

Lemma wf_no_events st : wf (with_events [] st).
Proof. split; done. Qed.

Lemma wf_delete_event st t : wf st -> wf (with_events (odel t (_events st)) st).
Proof. intros Hwf. by apply (wf_del st t (heap st)). Qed.
End Facts.

Create HintDb events.
#[export] Hint Resolve wf_no_events wf_delete_event removeListener_wf : events.

(** ** Runs *)

Section Runs.
Context {U : Type} `{EqDecision U} (body : U -> list (arg U) -> list (op U)).
Implicit Types (st : emitter U) (f : fn U).

Lemma step_wf a st more st' : wf st -> step body a st = Ok (more, st') -> wf st'.
Proof.
  intros Hwf H.
  destruct a as [[]|f args|t f|g f args|t f|t a|t|]; simpl in H;
    try (apply rbind_ok in H as (calls & _ & H)); repeat case_match; simplify_eq; simpl;
    eauto with events; try (by apply (wf_same st)).
  - apply rbind_ok in H as (calls & _ & H). by simplify_eq.
  - pose proof (removeListener_wf st type f Hwf) as Hr. by rewrite H0 in Hr.
  - pose proof (removeListener_wf st type f Hwf) as Hr. by rewrite H0 in Hr.
  - unfold call in H. destruct f; simplify_eq; by apply (wf_same st).
  - by apply add_updates.
  - apply rbind_ok in H as (calls & _ & H). by simplify_eq.
Qed.

Lemma run_inv (P : emitter U -> Prop) :
  (forall a st more st', P st -> step body a st = Ok (more, st') -> P st') ->
  forall fuel todo st st', P st -> run body fuel todo st = Ok st' -> P st'.
Proof.
  intros Hstep. induction fuel as [|fuel IH]; intros [|a rest] st st' Hst H; simpl in H;
    simplify_eq; try done.
  apply rbind_ok in H as ([more st1] & H1 & H). eauto.
Qed.

(** More fuel does not change a result. *)
Lemma run_more extra : forall fuel todo st st',
  run body fuel todo st = Ok st' -> run body (fuel + extra) todo st = Ok st'.
Proof.
  induction fuel as [|fuel IH]; intros [|a rest] st st' H; simpl in H |- *; simplify_eq; try done.
  - by destruct extra.
  - apply rbind_ok in H as ([more st1] & -> & H). simpl. eauto.
Qed.

(** How often the listener of a wrapper was started. *)
Definition firings (g : nat) (l : list (obs U)) : nat :=
  length (List.filter (fun o => match o with Fired g' => bool_decide (g' = g) | _ => false end) l).

Definition fired_ok st : Prop :=
  forall g, firings g (log st) = if bool_decide (g ∈ fired st) then 1 else 0.

Lemma firings_snoc g l o :
  firings g (l ++ [o])
  = firings g l + match o with Fired g' => if bool_decide (g' = g) then 1 else 0 | _ => 0 end.
Proof.
  unfold firings. rewrite List.filter_app, length_app. simpl. destruct o; simpl; try lia.
  by case_bool_decide.
Qed.

Lemma fired_ok_same st st' :
  fired st' = fired st -> (forall g, firings g (log st') = firings g (log st)) ->
  fired_ok st -> fired_ok st'.
Proof. intros Hf Hl H g. by rewrite Hf, Hl. Qed.

Lemma removeListener_fired_ok t f st : fired_ok st -> fired_ok (fst (removeListener t f st)).
Proof. intros Hok. unfold removeListener. repeat case_match; by apply (fired_ok_same st). Qed.

Lemma add_fired_ok t f st : fired_ok st -> fired_ok (add t f st).
Proof.
  intros Hok. unfold add, check_leak. assert (Hs : fired_ok (add_slot t f st)).
  { unfold add_slot. repeat case_match; by apply (fired_ok_same st). }
  repeat case_match; try done; apply (fired_ok_same (add_slot t f st)); try done;
    intros g; simpl; rewrite firings_snoc; lia.
Qed.

Lemma call_fired_ok f args st : fired_ok st -> fired_ok (snd (call body f args st)).
Proof.
  intros Hok. destruct f; apply (fired_ok_same st); try done;
    intros g'; simpl; rewrite firings_snoc; lia.
Qed.

Lemma step_fired_ok a st more st' : fired_ok st -> step body a st = Ok (more, st') -> fired_ok st'.
Proof.
  intros Hok H.
  pose proof (fun t f => removeListener_fired_ok t f st Hok) as Hrm.
  pose proof (fun f args => call_fired_ok f args st Hok) as Hcall.
  destruct a as [[t args|t f|t f|t f|[t|]]|f args|t f|g f args|t f|t a|t|]; simpl in H.
  - by apply rbind_ok in H as (calls & _ & [= _ <-]).
  - destruct (get_slot _ _); [apply rbind_ok in H as (calls & _ & H)|]; by simplify_eq.
  - injection H as _ <-. by apply (fired_ok_same st).
  - specialize (Hrm t f). destruct (removeListener t f st). by simplify_eq.
  - destruct (get_slot _ _); injection H as _ <-; by apply (fired_ok_same st).
  - destruct (get_slot _ _); injection H as _ <-; by apply (fired_ok_same st).
  - specialize (Hcall f args). destruct (call body f args st). by simplify_eq.
  - simplify_eq. by apply add_fired_ok.
  - case_bool_decide as Hg; simplify_eq; [done|]. intros g'. simpl. rewrite firings_snoc, (Hok g').
    destruct (decide (g = g')) as [<-|Hne].
    + by rewrite (bool_decide_eq_true_2 (g = g)), bool_decide_eq_false_2,
        bool_decide_eq_true_2 by (done || by left).
    + rewrite (bool_decide_eq_false_2 (g = g')) by done. rewrite Nat.add_0_r.
      rewrite (bool_decide_ext (g' ∈ g :: fired st) (g' ∈ fired st)); [done|].
      rewrite elem_of_cons. naive_solver.
  - destruct (get_slot _ _); [apply rbind_ok in H as (calls & _ & H)|]; by simplify_eq.
  - destruct (last _); by simplify_eq.
  - injection H as _ <-. by apply (fired_ok_same st).
  - injection H as _ <-. by apply (fired_ok_same st).
Qed.

(** ** The table, abstractly *)

(** An event name that is neither one of the emitter's own events nor a member of
    Object.prototype. *)
Definition ordinary (t : jsstr) : Prop :=
  t <> s_newListener /\ t <> s_removeListener /\ t ∉ object_prototype.

Definition table := jsstr -> list (fn U).

Definition upd (t : jsstr) (l : list (fn U)) (T : table) : table :=
  fun t' => if bool_decide (t' = t) then l else T t'.

(** What the operations on the table promise. *)
Definition spec (o : op U) (T : table) : table :=
  match o with
  | On t f => upd t (T t ++ [f]) T
  | RemoveListener t f => upd t (drop_last f (T t)) T
  | RemoveAllListeners (Some t) => upd t [] T
  | _ => T
  end.

Definition registers (o : op U) : Prop :=
  match o with
  | On t _ | RemoveListener t _ | RemoveAllListeners (Some t) => ordinary t
  | _ => False
  end.

Definition quiet st : Prop :=
  get_slot st s_newListener = None /\ get_slot st s_removeListener = None.

Lemma quiet_listeners st :
  wf st -> listeners st s_newListener = [] -> listeners st s_removeListener = [] -> quiet st.
Proof.
  intros Hwf. unfold listeners, quiet.
  destruct (get_slot st s_newListener) as [[|a]|] eqn:E1, (get_slot st s_removeListener) as [[|b]|] eqn:E2;
    try done; intros H1 H2.
  all: first [destruct (wf_listeners_ne st _ _ Hwf E1) as (l & Hl & Hne & El)
             |destruct (wf_listeners_ne st _ _ Hwf E2) as (l & Hl & Hne & El)];
    unfold listeners in El; rewrite ?E1, ?E2 in El; congruence.
Qed.

Lemma updates_quiet st st' t l : quiet st -> ordinary t -> updates t l st st' -> quiet st'.
Proof.
  intros [Hq1 Hq2] (H1 & H2 & _) [Hwf Hl].
  apply quiet_listeners; [done|rewrite Hl, bool_decide_false by done..];
    unfold listeners; [by rewrite Hq1|by rewrite Hq2].
Qed.

(** One operation on the table takes at most two actions. *)
Lemma registers_step o st fuel rest :
  wf st -> quiet st -> registers o ->
  exists st' k, k <= 2 /\ run body (k + fuel) (AOp o :: rest) st = run body fuel rest st' /\
    wf st' /\ quiet st' /\ forall t, listeners st' t = spec o (listeners st) t.
Proof.
  intros Hwf Hq Ho. pose proof Hq as [Hq1 Hq2].
  assert (Hfin : forall t l st' , ordinary t -> updates t l st st' ->
    wf st' /\ quiet st' /\ forall t', listeners st' t' = upd t l (listeners st) t').
  { intros t l st' Ht Hu. split_and!; [apply Hu|by eapply updates_quiet|apply Hu]. }
  destruct o as [|t f| |t f|[t|]]; simpl in Ho; try done.
  - exists (add t f st), 2. split; [done|]. split; [|by apply Hfin, add_updates].
    simpl. by rewrite Hq1.
  - pose proof (removeListener_updates st t f Hwf (proj2 (proj2 Ho))) as Hu.
    destruct (removeListener t f st) as [st' rm] eqn:E. simpl in Hu.
    destruct (Hfin _ _ _ Ho Hu) as (Hwf' & Hq' & Hl).
    destruct rm; [exists st', 2|exists st', 1]; (split; [lia|]); (split; [|done]);
      simpl; rewrite E; simpl; [|done]. by rewrite (proj2 Hq').
  - exists (with_events (odel t (_events st)) st), 1. split; [lia|]. split; [simpl; by rewrite Hq2|].
    apply (Hfin t); [done|]. apply (updates_del st t (heap st)); [done|apply Ho|done].
Qed.

Lemma spec_ext o T T' : (forall t, T t = T' t) -> forall t, spec o T t = spec o T' t.
Proof.
  intros H t. destruct o as [|t1 f| |t1 f|[t1|]]; simpl; unfold upd; rewrite ?H; done.
Qed.

Lemma fold_spec_ext os T T' : (forall t, T t = T' t) ->
  forall t, fold_left (fun T o => spec o T) os T t = fold_left (fun T o => spec o T) os T' t.
Proof. revert T T'. induction os as [|o os IH]; intros T T' H; simpl; auto using spec_ext. Qed.
End Runs.

(** ** The interface that the other components rely on *)

(** A table of listeners of type [F] by event, as the inputs use it: they add
    listeners and clear whole events. *)
Class Emitter (E F : Type) := {
  em_ok : E -> Prop;
  em_listeners : E -> jsstr -> list F;
  em_on : jsstr -> F -> E -> E;
  em_removeAll : jsstr -> E -> E;
  em_on_ok : forall t f e, ordinary t -> em_ok e -> em_ok (em_on t f e);
  em_on_listeners : forall t f e t', ordinary t -> em_ok e ->
    em_listeners (em_on t f e) t'
    = if bool_decide (t' = t) then em_listeners e t ++ [f] else em_listeners e t';
  em_removeAll_ok : forall t e, ordinary t -> em_ok e -> em_ok (em_removeAll t e);
  em_removeAll_listeners : forall t e t', ordinary t -> em_ok e ->
    em_listeners (em_removeAll t e) t' = if bool_decide (t' = t) then [] else em_listeners e t'
}.

Definition user_fn {U} (f : fn U) : option U := match f with FUser u => Some u | _ => None end.

Definition user_listeners {U} (st : emitter U) (t : jsstr) : list U := omap user_fn (listeners st t).

Definition removeAll {U} (t : jsstr) (st : emitter U) : emitter U :=
  with_events (odel t (_events st)) st.

(** The event emitter keeps the promise as long as nobody listens to newListener
    and removeListener. *)
#[export] Program Instance emitter_Emitter {U} `{EqDecision U} : Emitter (emitter U) U := {|
  em_ok st := wf st /\ quiet st;
  em_listeners := user_listeners;
  em_on t f := add t (FUser f);
  em_removeAll := removeAll
|}.
Next Obligation.
  intros U ? t f st Ht [Hwf Hq]. pose proof (add_updates st t (FUser f) Hwf) as Hu.
  split; [apply Hu|by eapply updates_quiet].
Qed.
Next Obligation.
  intros U ? t f st t' Ht [Hwf Hq]. pose proof (add_updates st t (FUser f) Hwf) as [_ Hl].
  unfold user_listeners. rewrite Hl. case_bool_decide; [|done]. by rewrite omap_app.
Qed.
Next Obligation.
  intros U ? t st Ht [Hwf Hq].
  pose proof (updates_del st t (heap st) Hwf (proj2 (proj2 Ht)) (fun _ _ => eq_refl)) as Hu.
  split; [apply Hu|by eapply updates_quiet].
Qed.
Next Obligation.
  intros U ? t st t' Ht [Hwf Hq].
  pose proof (updates_del st t (heap st) Hwf (proj2 (proj2 Ht)) (fun _ _ => eq_refl)) as [_ Hl].
  unfold user_listeners, removeAll. simpl in Hl. destruct st. simpl in *. rewrite Hl.
  by case_bool_decide.
Qed.

(** ** Properties *)

(** C3. The table with its two representations (a function, or an array that is
    changed in place) refines the abstract one: from a well-formed emitter, any
    sequence of registrations and removals completes, and leaves for every event
    the list of listeners that the abstract operations give: on appends,
    removeListener takes out the last registration (also of a once wrapper), and
    removeAllListeners empties. *)
Theorem emitter_refines {U : Type} `{EqDecision U} (body : U -> list (arg U) -> list (op U))
    (os : list (op U)) (st : emitter U) :
  wf st -> quiet st -> Forall registers os ->
  exists st', run body (2 * length os) (map AOp os) st = Ok st' /\ wf st' /\
    forall t, listeners st' t = fold_left (fun T o => spec o T) os (listeners st) t.
Proof.
  intros Hwf Hq Hos. revert st Hwf Hq.
  induction Hos as [|o os Ho _ IH]; intros st Hwf Hq; [by exists st|].
  destruct (registers_step body o st (2 * length os) (map AOp os) Hwf Hq Ho)
    as (st1 & k & Hk & Hrun & Hwf1 & Hq1 & Hl1).
  destruct (IH st1 Hwf1 Hq1) as (st' & Hr' & Hwf' & Hl').
  exists st'. split_and!; [|done|].
  - cbn [map]. replace (2 * length (o :: os)) with (k + 2 * length os + (2 - k)) by (simpl; lia).
    apply run_more. by rewrite Hrun.
  - intros t. rewrite Hl'. simpl. by apply fold_spec_ext.
Qed.

(** A program of three functions: 0 registers 1 for the event a and removes
    itself, the others do nothing. *)
Definition sample_body (id : nat) (_ : list (arg nat)) : list (op nat) :=
  match id with
  | O => [On (js "a") (FUser 1); RemoveListener (js "a") (FUser 0)]
  | _ => []
  end.

Lemma newEmitter_wf {U} `{EqDecision U} : wf (@newEmitter U).
Proof. by split. Qed.

Lemma emitter_refines_witness :
  exists st', run sample_body 6
    (map AOp [On (js "a") (FUser 0); On (js "a") (FUser 1); RemoveListener (js "a") (FUser 0)])
    newEmitter = Ok st' /\ listeners st' (js "a") = [FUser 1].
Proof.
  destruct (emitter_refines sample_body
    [On (js "a") (FUser 0); On (js "a") (FUser 1); RemoveListener (js "a") (FUser 0)] newEmitter)
    as (st' & Hr & _ & Hl).
  - exact newEmitter_wf.
  - split; vm_compute; reflexivity.
  - assert (Ho : ordinary (js "a")) by (split_and!; [discriminate|discriminate|];
      apply (bool_decide_eq_false_1 (js "a" ∈ object_prototype)); vm_compute; reflexivity).
    repeat (apply Forall_cons; split; [exact Ho|]). apply Forall_nil. exact I.
  - exists st'. split; [exact Hr|]. rewrite Hl. vm_compute. reflexivity.
Defined.

(** C34. Whatever the listeners do, a well-formed table stays well formed: no event
    keeps an empty array, no two events share one, and listenerCount is the length
    of listeners. *)
Theorem run_well_formed {U : Type} `{EqDecision U} (body : U -> list (arg U) -> list (op U))
    (fuel : nat) (todo : list (action U)) (st st' : emitter U) :
  wf st -> run body fuel todo st = Ok st' ->
  wf st' /\ forall t, listenerCount st' t = length (listeners st' t).
Proof.
  intros Hwf H. split; [by eapply (run_inv body wf); eauto using step_wf|].
  intros t. unfold listenerCount, listeners. by destruct (get_slot st' t) as [[]|].
Qed.

Lemma run_well_formed_witness :
  exists st', run sample_body 20
    [AOp (On (js "a") (FUser 0)); AOp (Emit (js "a") []); AOp (Emit (js "a") [])] newEmitter = Ok st' /\
    wf st' /\ forall t, listenerCount st' t = length (listeners st' t).
Proof.
  eexists. split; [vm_compute; reflexivity|].
  apply (run_well_formed sample_body 20
    [AOp (On (js "a") (FUser 0)); AOp (Emit (js "a") []); AOp (Emit (js "a") [])] newEmitter);
    [exact newEmitter_wf|vm_compute; reflexivity].
Defined.



(** C32. A listener registered with once is started at most once, even when it is
    called again before it is removed (because it emits its own event, or because an
    emit already under way holds a copy of the array). *)
Theorem once_at_most_once {U : Type} `{EqDecision U} (body : U -> list (arg U) -> list (op U))
    (fuel : nat) (todo : list (action U)) (st' : emitter U) (g : nat) :
  run body fuel todo newEmitter = Ok st' -> firings g (log st') <= 1.
Proof.
  intros H. assert (Hok : fired_ok st').
  { eapply (run_inv body fired_ok); [eauto using step_fired_ok| |exact H].
    intros g'. done. }
  rewrite Hok. case_bool_decide; lia.
Qed.

(** Function 2 emits its own event again. *)
Definition reentrant_body (id : nat) (_ : list (arg nat)) : list (op nat) :=
  match id with 2 => [Emit (js "a") []] | _ => [] end.

Lemma once_at_most_once_witness :
  exists st', run reentrant_body 20 [AOp (Once (js "a") (FUser 2)); AOp (Emit (js "a") []);
      AOp (Emit (js "a") [])] newEmitter = Ok st' /\
    firings 0 (log st') <= 1 /\ firings 0 (log st') = 1.
Proof.
  eexists. split; [vm_compute; reflexivity|]. split; [|vm_compute; reflexivity].
  apply (once_at_most_once reentrant_body 20 [AOp (Once (js "a") (FUser 2)); AOp (Emit (js "a") []);
      AOp (Emit (js "a") [])]). vm_compute. reflexivity.
Defined.
