(* ===== verification/SlideLexer.v ===== *)
(** * The slide lexer (module 16 of the bundle, remark/lexer.js)

    Splits slide-show source into text, code, link definitions, macros, slide
    and note separators and content classes.  The two token patterns are
    assembled from named sources exactly as the program does. *)

From S2P Require Import Prelude JsString JsRegExp RegExpFacts.

(** ** Data *)

(** Indices of the capturing groups in the assembled patterns. *)
Definition CODE := 1.
Definition INLINE_CODE := 2.
Definition CONTENT := 3.
Definition FENCES := 4.
Definition DEF := 5.
Definition DEF_HREF := 6.
Definition DEF_TITLE := 7.
Definition MACRO := 8.
Definition MACRO_ARGS := 9.
Definition MACRO_OBJ := 10.
Definition SLIDE_SEPARATOR := 11.
Definition FRAGMENT_SEPARATOR := 12.
Definition NOTES_SEPARATOR := 13.

Inductive token :=
| Text (text : jsstr)
| Code (text : jsstr)
| Fences (text : jsstr)
| Def (id : jsstr) (href : option jsstr) (title : option jsstr)
| Macro (name : jsstr) (args : list jsstr) (obj : option jsstr)
| Separator (text : jsstr)
| NotesSeparator (text : jsstr)
| ContentStart (classes : list jsstr) (block : bool)
| ContentEnd (block : bool).

#[export] Instance token_eq_dec : EqDecision token.
Proof. solve_decision. Defined.

(** ** Patterns *)

Definition regexByName : list (jsstr * jsstr) :=
  [ (js "CODE", js "(?:^|\n\n)( {4}[^\n]+\n*)+");
    (js "INLINE_CODE", js "\`([^\`].*?)\`");
    (js "CONTENT", js "(?:\\)?((?:\.[a-zA-Z_\-][a-zA-Z\-_0-9]*)+)\[");
    (js "FENCES", js "(?:^|\n) *(`{3,}|~{3,}) *(?:\S+)? *\n(?:[\s\S]+?)\s*\4 *(?:\n+|$)");
    (js "DEF", js "(?:^|\n) *\[([^\]]+)\]: *<?([^\s>]+)>?(?: +[＂(]([^\n]+)[＂)])? *(?:\n+|$)");
    (js "MACRO", js "!\[:([^\] ]+)([^\]]*)\](?:\(([^\)]*)\))?");
    (js "SLIDE_SEPARATOR", js "(?:^|\n)(---)(?:\n|$)");
    (js "FRAGMENT_SEPARATOR", js "(?:^|\n)(--)(?![^\n])");
    (js "NOTES_SEPARATOR", js "(?:^|\n)(\?{3})(?:\n|$)") ].

Fixpoint assoc (l : list (jsstr * jsstr)) (k : jsstr) : jsstr :=
  match l with
  | [] => []
  | (k', v) :: t => if decide (k = k') then v else assoc t k
  end.

Definition word_pattern : regexp := Eval vm_compute in re "\w{2,}" "g".

(** [replace(regex, replacements)]: substitutes the named sources. *)
Definition replace_names (source : jsstr) (replacements : list (jsstr * jsstr))
    : option regexp :=
  newRegExp (replace_fun word_pattern (fun m => assoc replacements (cap0 m)) source) [].

Definition block : regexp := Eval vm_compute in
  the (replace_names
    (js "CODE|INLINE_CODE|CONTENT|FENCES|DEF|MACRO|SLIDE_SEPARATOR|FRAGMENT_SEPARATOR|NOTES_SEPARATOR")
    regexByName).

Definition inline : regexp := Eval vm_compute in
  the (replace_names (js "CODE|INLINE_CODE|CONTENT|FENCES|DEF|MACRO") regexByName).

(** ** Operations *)

(** The balance loop of [getTextInBrackets]: [depth] open brackets, [acc] the
    text read so far (reversed); stops when the depth reaches zero. *)
Fixpoint bracket_loop (depth : nat) (acc src : jsstr) : option jsstr :=
  match src with
  | [] => None
  | chr :: t =>
      if (chr =? 91)%N then bracket_loop (S depth) (chr :: acc) t
      else if (chr =? 93)%N then
        match depth with
        | S (S d) => bracket_loop (S d) (chr :: acc) t
        | _ => Some (rev acc)
        end
      else bracket_loop depth (chr :: acc) t
  end.

(** The text up to the bracket closing the one just before [offset]. *)
Definition getTextInBrackets (src : jsstr) (offset : nat) : option jsstr :=
  bracket_loop 1 [] (drop offset src).

(** JavaScript truthiness of a capture. *)
Definition truthy (o : option jsstr) : bool :=
  match o with Some (_ :: _) => true | _ => false end.

Definition has_newline (s : jsstr) : bool :=
  match indexOf s nl with Some _ => true | None => false end.

(** The body of [lex]: [None] means the bound on iterations was too small
    (never the case from [lex_fuel] up, see [lex_total]). *)
Fixpoint lex (fuel : nat) (src : jsstr) (regex : regexp) (tokens : list token)
    : option (list token) :=
  match fuel with
  | O => None
  | S f =>
      match exec regex src with
      | None =>
          Some (match src, tokens with
                | [], _ :: _ => tokens
                | _, _ => tokens ++ [Text src]
                end)
      | Some m =>
          let tokens :=
            if (0 <? m_index m)%nat
            then tokens ++ [Text (substring src 0 (m_index m))] else tokens in
          let next src tokens :=
            lex f (substring_from src (m_index m + length (cap0 m))) regex tokens in
          if truthy (cap m CODE) then next src (tokens ++ [Code (cap0 m)])
          else if truthy (cap m INLINE_CODE) then next src (tokens ++ [Text (cap0 m)])
          else if truthy (cap m FENCES) then next src (tokens ++ [Fences (cap0 m)])
          else if truthy (cap m DEF) then
            next src (tokens ++ [Def (toLowerCase (default [] (cap m DEF)))
                                     (cap m DEF_HREF) (cap m DEF_TITLE)])
          else if truthy (cap m MACRO) then
            next src (tokens ++ [Macro (default [] (cap m MACRO))
                                       (map trim (split_on 44 (default [] (cap m MACRO_ARGS))))
                                       (cap m MACRO_OBJ)])
          else if truthy (cap m SLIDE_SEPARATOR) || truthy (cap m FRAGMENT_SEPARATOR) then
            next src (tokens ++ [Separator
              (if truthy (cap m SLIDE_SEPARATOR) then default [] (cap m SLIDE_SEPARATOR)
               else default [] (cap m FRAGMENT_SEPARATOR))])
          else if truthy (cap m NOTES_SEPARATOR) then
            next src (tokens ++ [NotesSeparator (default [] (cap m NOTES_SEPARATOR))])
          else if truthy (cap m CONTENT) then
            match getTextInBrackets src (m_index m + length (cap0 m)) with
            | Some text =>
                let src := substring_from src (length text + 1) in
                if decide (cap0 m !! 0 = Some 92%N)
                then next src (tokens ++ [Text (substring_from (cap0 m) 1 ++ text ++ [93%N])])
                else
                  let blk := has_newline text in
                  match lex f text inline
                          (tokens ++ [ContentStart
                             (split_on 46 (substring_from (default [] (cap m CONTENT)) 1))
                             blk]) with
                  | Some tokens => next src (tokens ++ [ContentEnd blk])
                  | None => None
                  end
            | None => next src (tokens ++ [Text (cap0 m)])
            end
          else next src tokens
      end
  end.

Definition lex_fuel (src : jsstr) : nat := S (length src).

(** The loop of [Lexer.prototype.lex] that joins adjacent texts, from the last
    pair to the first: [n] is one more than the index it starts from. *)
Fixpoint merge_texts (n : nat) (tokens : list token) : list token :=
  match n with
  | O => tokens
  | S i =>
      merge_texts i
        match tokens !! i, tokens !! S i with
        | Some (Text a), Some (Text b) =>
            take i tokens ++ [Text (a ++ b)] ++ drop (S (S i)) tokens
        | _, _ => tokens
        end
  end.

(** [Lexer.prototype.lex]; only the first carriage return is removed. *)
Definition Lexer_lex (src : jsstr) : option (list token) :=
  let src := replace_str src [c_cr] [] in
  match lex (lex_fuel src) src block [] with
  | Some tokens => Some (merge_texts (length tokens - 1) tokens)
  | None => None
  end.

(** ** Bracket matching *)

(** Bracket depth after reading [s], starting at [d]; [None] once it would drop
    to zero. *)
Fixpoint depth_after (d : nat) (s : jsstr) : option nat :=
  match s with
  | [] => Some d
  | c :: t =>
      if (c =? 91)%N then depth_after (S d) t
      else if (c =? 93)%N then
        match d with S (S d') => depth_after (S d') t | _ => None end
      else depth_after d t
  end.

Lemma bracket_loop_sound d acc s text :
  d <> 0 -> bracket_loop d acc s = Some text ->
  exists u rest, text = rev acc ++ u /\ s = u ++ 93%N :: rest /\ depth_after d u = Some 1.
Proof.
  revert d acc. induction s as [|c t IH]; intros d acc Hd; cbn [bracket_loop]; [done|].
  destruct (N.eqb_spec c 91) as [->|H91]; [|destruct (N.eqb_spec c 93) as [->|H93]].
  - intros (u & rest & -> & -> & Hu)%IH; [|done].
    exists (91%N :: u), rest. simpl. by rewrite <- app_assoc.
  - destruct d as [|[|d]]; [done| |].
    + intros [= <-]. exists [], t. by rewrite app_nil_r.
    + intros (u & rest & -> & -> & Hu)%IH; [|done].
      exists (93%N :: u), rest. simpl. by rewrite <- app_assoc.
  - intros (u & rest & -> & -> & Hu)%IH; [|done].
    exists (c :: u), rest. simpl. rewrite <- app_assoc.
    rewrite (proj2 (N.eqb_neq c 91)), (proj2 (N.eqb_neq c 93)) by done. done.
Qed.

Lemma bracket_loop_complete d acc u rest :
  depth_after d u = Some 1 -> d <> 0 ->
  bracket_loop d acc (u ++ 93%N :: rest) = Some (rev acc ++ u).
Proof.
  revert d acc. induction u as [|c u IH]; intros d acc; cbn [depth_after bracket_loop app].
  - intros [= ->] _. simpl. by rewrite app_nil_r.
  - destruct (c =? 91)%N; [|destruct (c =? 93)%N; [destruct d as [|[|d]]; try done|]];
      intros Hu Hd; rewrite IH by done; simpl; by rewrite <- app_assoc.
Qed.

Lemma getTextInBrackets_length src offset text :
  getTextInBrackets src offset = Some text -> offset + length text < length src.
Proof.
  unfold getTextInBrackets. intros (u & rest & Ht & Hs & _)%bracket_loop_sound; [|done].
  simpl in Ht. subst u. apply (f_equal length) in Hs.
  rewrite length_drop, length_app in Hs. simpl in Hs. lia.
Qed.

(** ** Nesting of content classes *)

(** Runs the tokens over the stack of open content classes (their [block]
    flags); [None] when an end does not match its start or a separator appears
    inside a content class. *)
Fixpoint run_nest (stk : list bool) (ts : list token) : option (list bool) :=
  match ts with
  | [] => Some stk
  | ContentStart _ b :: r => run_nest (b :: stk) r
  | ContentEnd b :: r =>
      match stk with
      | b' :: stk' => if bool_decide (b = b') then run_nest stk' r else None
      | [] => None
      end
  | Separator _ :: r | NotesSeparator _ :: r =>
      match stk with [] => run_nest [] r | _ => None end
  | _ :: r => run_nest stk r
  end.

Lemma run_nest_app stk ts us :
  run_nest stk (ts ++ us) = run_nest stk ts ≫= fun stk' => run_nest stk' us.
Proof.
  revert stk. induction ts as [|t ts IH]; intros stk; [done|].
  destruct t; simpl; rewrite ?IH; repeat case_match; try done; by rewrite IH.
Qed.

(** ** The lexing loop *)

Definition progressive (regex : regexp) : Prop := 1 <= min_len (re_node regex).

Lemma block_progressive : progressive block.
Proof. unfold progressive. vm_compute. lia. Qed.
Lemma inline_progressive : progressive inline.
Proof. unfold progressive. vm_compute. lia. Qed.
#[export] Hint Resolve block_progressive inline_progressive : regex.

Lemma lex_enough fuel : forall src regex tokens,
  progressive regex -> length src < fuel -> exists ts, lex fuel src regex tokens = Some ts.
Proof.
  induction fuel as [|f IH]; intros src regex tokens Hp Hf; [lia|]. cbn [lex].
  destruct (exec regex src) as [m|] eqn:E; [|by eauto].
  apply exec_inv in E as (Hle & Hmin & _). unfold progressive in Hp.
  assert (Hnext : forall src' tokens', length src' <= length src -> exists ts,
    lex f (substring_from src' (m_index m + length (cap0 m))) regex tokens' = Some ts).
  { intros src' tokens' Hl. apply IH; [done|]. unfold substring_from.
    rewrite length_drop. lia. }
  repeat match goal with |- context [if ?b then lex _ _ _ _ else _] =>
    destruct b; [by apply Hnext|] end.
  destruct (truthy (cap m CONTENT)); [|by apply Hnext].
  destruct (getTextInBrackets _ _) as [text|] eqn:Et; [|by apply Hnext].
  apply getTextInBrackets_length in Et.
  case_decide; [apply Hnext; unfold substring_from; rewrite length_drop; lia|].
  edestruct (IH text inline) as [ts ->]; [apply inline_progressive|lia|].
  apply Hnext. unfold substring_from. rewrite length_drop. lia.
Qed.

(** What a call of [lex] adds leaves the stack of open content classes as it
    was; inside a content class (the inline pattern) on any stack. *)
Definition neutral (regex : regexp) (added : list token) : Prop :=
  run_nest [] added = Some [] /\
  (regex = inline -> forall stk, run_nest stk added = Some stk).

Lemma neutral_app regex ts us :
  neutral regex ts -> neutral regex us -> neutral regex (ts ++ us).
Proof.
  intros [H1 H1'] [H2 H2']. split.
  - by rewrite run_nest_app, H1.
  - intros Hr stk. rewrite run_nest_app, H1' by done. simpl. auto.
Qed.

Lemma neutral_simple regex t :
  (forall stk, run_nest stk [t] = Some stk) -> neutral regex [t].
Proof. intros H. split; auto. Qed.

Lemma neutral_nil regex : neutral regex [].
Proof. by split. Qed.

Lemma neutral_content regex classes b added :
  neutral inline added -> neutral regex ([ContentStart classes b] ++ added ++ [ContentEnd b]).
Proof.
  intros [_ H]. specialize (H eq_refl).
  assert (E : forall stk,
    run_nest stk ([ContentStart classes b] ++ added ++ [ContentEnd b]) = Some stk).
  { intros stk. simpl. rewrite run_nest_app, H. simpl. by rewrite bool_decide_true. }
  split; auto.
Qed.

(** A capture that the inline pattern does not have. *)
Lemma inline_no_separator src m n :
  exec inline src = Some m -> 10 < n -> truthy (cap m n) = false.
Proof. intros He Hn. by rewrite (exec_cap_ge _ _ _ _ He Hn). Qed.

#[local] Hint Resolve neutral_app neutral_nil neutral_content : regex.
#[local] Hint Extern 1 (neutral _ [_]) => (apply neutral_simple; intros ?; reflexivity) : regex.

Lemma lex_added fuel : forall src regex tokens ts,
  regex = block \/ regex = inline -> lex fuel src regex tokens = Some ts ->
  exists added, ts = tokens ++ added /\ neutral regex added.
Proof.
  induction fuel as [|f IH]; intros src regex tokens ts Hr H; [done|]. cbn [lex] in H.
  destruct (exec regex src) as [m|] eqn:E; cycle 1.
  { exists (match src, tokens with [], _ :: _ => [] | _, _ => [Text src] end).
    split; [destruct src, tokens; simplify_eq; rewrite ?app_nil_r; done|].
    destruct src, tokens; eauto with regex. }
  set (pre := if (0 <? m_index m)%nat then [Text (substring src 0 (m_index m))] else []).
  assert (Hpre : neutral regex pre) by (unfold pre; destruct (0 <? m_index m)%nat; eauto with regex).
  replace (if (0 <? m_index m)%nat then tokens ++ [Text (substring src 0 (m_index m))]
           else tokens) with (tokens ++ pre) in H
    by (unfold pre; destruct (0 <? m_index m)%nat; rewrite ?app_nil_r; done).
  assert (Hnext : forall src' us,
    neutral regex us ->
    lex f (substring_from src' (m_index m + length (cap0 m))) regex
      ((tokens ++ pre) ++ us) = Some ts ->
    exists added, ts = tokens ++ added /\ neutral regex added).
  { intros src' us Hus (added & -> & Hadd)%IH; [|done].
    exists (pre ++ us ++ added). rewrite <- !app_assoc. eauto with regex. }
  assert (Hsep : forall n, 10 < n -> truthy (cap m n) = true -> regex = block).
  { intros n Hn Ht. destruct Hr as [Hb|Hb]; [done|subst regex].
    by rewrite (inline_no_separator _ _ _ E Hn) in Ht. }
  assert (Hsepn : forall n t, 10 < n -> truthy (cap m n) = true ->
    run_nest [] [t] = Some [] -> neutral regex [t]).
  { intros n t Hn Ht Hrun. pose proof (Hsep n Hn Ht) as ->. split; [done|].
    intros Hb. by apply (f_equal re_ngroups) in Hb. }
  repeat match type of H with (if ?b then lex _ _ _ _ else _) = _ =>
    destruct b eqn:?; [eapply Hnext; [|exact H]; eauto with regex|] end.
  - apply orb_prop in Heqb4 as [Ht|Ht]; eapply Hsepn; try exact Ht;
      unfold SLIDE_SEPARATOR, FRAGMENT_SEPARATOR; (lia || done).
  - destruct (truthy (cap m CONTENT)); cycle 1.
    { eapply Hnext; [apply neutral_nil|]. rewrite app_nil_r. exact H. }
    destruct (getTextInBrackets _ _) as [text|];
      [case_decide|]; try (eapply Hnext; [|exact H]; by eauto with regex).
    destruct (lex f text inline _) as [ts'|] eqn:El; [|done].
    apply IH in El as (added & -> & Hadd); [|by right].
    rewrite <- !(app_assoc (tokens ++ pre)) in H.
    eapply Hnext; [|exact H]. apply neutral_content, Hadd.
Qed.

(** ** Joining adjacent texts *)

(** Prepends a token, joining two texts. *)
Definition glue (t : token) (r : list token) : list token :=
  match t, r with
  | Text a, Text b :: r' => Text (a ++ b) :: r'
  | _, _ => t :: r
  end.

Lemma merge_texts_spec pre x suf :
  merge_texts (length pre) (pre ++ x :: suf) = foldr glue (x :: suf) pre.
Proof.
  revert x suf. induction pre as [|t pre IH] using rev_ind; intros x suf; [done|].
  rewrite length_app, Nat.add_1_r, <- app_assoc, foldr_app. cbn [merge_texts app].
  assert (E1 : (pre ++ t :: x :: suf) !! length pre = Some t)
    by (by apply list_lookup_middle).
  assert (E2 : (pre ++ t :: x :: suf) !! S (length pre) = Some x).
  { rewrite lookup_app_r by lia. by replace (S (length pre) - length pre) with 1 by lia. }
  assert (E3 : drop (S (S (length pre))) (pre ++ t :: x :: suf) = suf).
  { rewrite drop_app_ge by lia. by replace (S (S (length pre)) - length pre) with 2 by lia. }
  rewrite E1, E2, E3, take_app_length.
  destruct t; try apply IH. destruct x; apply IH.
Qed.

Lemma merge_texts_foldr ts : merge_texts (length ts - 1) ts = foldr glue [] ts.
Proof.
  destruct ts as [|x ts _] using rev_ind; [done|].
  rewrite length_app, Nat.add_sub, merge_texts_spec, foldr_app. by destruct x.
Qed.

Lemma run_nest_glue stk t r : run_nest stk (glue t r) = run_nest stk (t :: r).
Proof. destruct t; try done. by destruct r as [|[] ?]. Qed.

Lemma run_nest_foldr_glue ts : forall stk, run_nest stk (foldr glue [] ts) = run_nest stk ts.
Proof.
  induction ts as [|t ts IH]; intros stk; [done|]. cbn [foldr]. rewrite run_nest_glue.
  destruct t; simpl; rewrite ?IH; repeat case_match; done.
Qed.

(** No two texts are adjacent. *)
Fixpoint separated (ts : list token) : bool :=
  match ts with
  | Text _ :: ((Text _ :: _) as r) => false
  | _ :: r => separated r
  | [] => true
  end.

Lemma separated_glue t r : separated r = true -> separated (glue t r) = true.
Proof. destruct t; try done. destruct r as [|[] r]; done. Qed.

Lemma separated_foldr_glue ts : separated (foldr glue [] ts) = true.
Proof. induction ts; simpl; [done|]. by apply separated_glue. Qed.

(** ** Properties *)

Lemma Lexer_lex_ok src :
  exists tokens, Lexer_lex src = Some tokens /\
    run_nest [] tokens = Some [] /\ separated tokens = true.
Proof.
  unfold Lexer_lex. set (src' := replace_str src [c_cr] []).
  destruct (lex_enough (lex_fuel src') src' block []) as [ts Hts];
    [apply block_progressive|unfold lex_fuel; lia|]. rewrite Hts.
  eexists; split; [done|]. rewrite merge_texts_foldr, run_nest_foldr_glue.
  split; [|apply separated_foldr_glue].
  apply lex_added in Hts as (added & -> & [Hn _]); [done|by left].
Qed.

(** C23. The slide lexer terminates on every source and returns tokens in which
    no two texts are adjacent (its loop joins them all). *)
Theorem Lexer_lex_total (src : jsstr) :
  exists tokens, Lexer_lex src = Some tokens /\ separated tokens = true.
Proof. destruct (Lexer_lex_ok src) as (ts & ? & _ & ?). eauto. Qed.

(** C14. The tokens of every source are well nested: each content_end closes a
    content_start with the same block flag, none is left open, and slide and
    note separators never occur inside a content class.  This is what the
    parser's comment "Lexer handles open/close bracket balance" relies on. *)
Theorem Lexer_lex_nested (src : jsstr) :
  exists tokens, Lexer_lex src = Some tokens /\ run_nest [] tokens = Some [].
Proof. destruct (Lexer_lex_ok src) as (ts & ? & ? & _). eauto. Qed.

(** C24. getTextInBrackets returns exactly the text before the bracket that
    closes the one preceding the offset: the text is balanced, and it is
    undefined only when no such bracket exists. *)
Theorem getTextInBrackets_spec (src : jsstr) (offset : nat) (text : jsstr) :
  getTextInBrackets src offset = Some text <->
  exists rest, drop offset src = text ++ 93%N :: rest /\ depth_after 1 text = Some 1.
Proof.
  unfold getTextInBrackets. split.
  - intros (u & rest & -> & -> & Hu)%bracket_loop_sound; [|done]. exists rest. done.
  - intros (rest & -> & Hd). by rewrite bracket_loop_complete.
Qed.
