(* ===== verification/SlideParser.v ===== *)
(** * The slide parser (module 22 of the bundle, remark/parser.js)

    Turns the tokens of the slide lexer into slides: properties, link
    definitions, content (strings and content classes) and notes.  The macros
    are given by the user of the library and are a parameter. *)

From S2P Require Import Prelude JsString JsRegExp RegExpFacts SlideLexer.

(** ** Data *)

(** An element of a content list: a string, or a content class. *)
Inductive item :=
| IStr (s : jsstr)
| IClass (block : bool) (class : jsstr) (content : list item).

Record link := mkLink { l_href : option jsstr; l_title : option jsstr }.

(** A parsed slide; [notes] is undefined until a note separator is met. *)
Record slide := mkSlide {
  content : list item;
  properties : gmap jsstr jsstr;
  links : gmap jsstr link;
  notes : option (list item)
}.

(** A content class being filled (an entry of the stack above the slide). *)
Record frame := mkFrame { fr_class : jsstr; fr_block : bool; fr_content : list item }.

(** The variables of [parse]: the finished slides, [stack[0]], and the rest of
    the stack, innermost content class first. *)
Record pstate := mkPState { slides : list slide; cur : slide; frames : list frame }.

(** What calling a macro gives: a string, undefined, another value (with the
    text of its toString()), or an exception. *)
Inductive mvalue :=
| MString (s : jsstr)
| MUndefined
| MOther (s : jsstr)
| MThrow (e : exn).

(** [macros[name]], applied to [this] and the arguments; [None] when it is not
    a function. *)
Definition macro_env := jsstr -> option (option jsstr -> list jsstr -> mvalue).

(** The macros of the library (module 17); [inherited] are the functions that the object of
    the macros inherits. *)
Definition bundled_macros (inherited : macro_env) : macro_env := fun name =>
  if bool_decide (name = js "hello") then Some (fun _ _ => MString (js "hello!"))
  else if bool_decide (name ∈ object_prototype) then inherited name else None.

Record parse_options := mkPOptions { disableIncrementalSlides : bool }.

(** ** Operations *)

Definition createSlide : slide :=
  mkSlide [] {[ js "continued" := js "false" ]} ∅ None.

Definition createContentClass (classes : list jsstr) (block : bool) : frame :=
  mkFrame (join [c_sp] classes) block [].

(** [target[lastIdx] += content] when both are strings, else [push]. *)
Definition append_item (target : list item) (c : item) : list item :=
  match last target, c with
  | Some (IStr a), IStr b => take (length target - 1) target ++ [IStr (a ++ b)]
  | _, _ => target ++ [c]
  end.

(** [appendTo] a slide: its notes once they exist, else its content. *)
Definition appendTo_slide (s : slide) (c : item) : slide :=
  match notes s with
  | Some n => mkSlide (content s) (properties s) (links s) (Some (append_item n c))
  | None => mkSlide (append_item (content s) c) (properties s) (links s) None
  end.

(** [appendTo] a content class (which never has notes). *)
Definition appendTo_frame (fr : frame) (c : item) : frame :=
  mkFrame (fr_class fr) (fr_block fr) (append_item (fr_content fr) c).

(** [appendTo(stack[stack.length - 1], c)] *)
Definition appendTo_top (st : pstate) (c : item) : pstate :=
  match frames st with
  | [] => mkPState (slides st) (appendTo_slide (cur st) c) []
  | fr :: frs => mkPState (slides st) (cur st) (appendTo_frame fr c :: frs)
  end.

Definition with_cur (st : pstate) (s : slide) : pstate :=
  mkPState (slides st) s (frames st).

Definition propertyFinder : regexp := Eval vm_compute in
  re "^\n*([-\w]+):([^$\n]*)|\n*(?:<!--\s*)([-\w]+):([^$\n]*?)(?:\s*-->)" "i".

(** The loop of [extractProperties], removing one property at a time. *)
Fixpoint extract_loop (fuel : nat) (source : jsstr) (props : gmap jsstr jsstr)
    : result (jsstr * gmap jsstr jsstr) :=
  match fuel with
  | O => OutOfFuel
  | S f =>
      match exec propertyFinder source with
      | None => Ok (source, props)
      | Some m =>
          let source := substr source 0 (m_index m)
                        ++ substring_from source (m_index m + length (cap0 m)) in
          let props :=
            match cap m 1 with
            | Some k => <[trim k := trim (default [] (cap m 2))]> props
            | None => <[trim (default [] (cap m 3)) := trim (default [] (cap m 4))]> props
            end in
          extract_loop f source props
      end
  end.

Definition extractProperties (source : jsstr) (props : gmap jsstr jsstr)
    : result (jsstr * gmap jsstr jsstr) :=
  extract_loop (S (length source)) source props.

(** [slide.content[0] = extractProperties(slide.content[0] || '', slide.properties)].
    A content class is converted to the text "[object Object]", in which the
    pattern finds nothing, and comes back unchanged. *)
Definition extract_slide (s : slide) : result slide :=
  match content s with
  | [] =>
      let! (src, props) := extractProperties [] (properties s) in
      Ok (mkSlide [IStr src] props (links s) (notes s))
  | IStr t :: rest =>
      let! (src, props) := extractProperties t (properties s) in
      Ok (mkSlide (IStr src :: rest) props (links s) (notes s))
  | IClass b c l :: rest =>
      let! (_, props) := extractProperties (js "[object Object]") (properties s) in
      Ok (mkSlide (IClass b c l :: rest) props (links s) (notes s))
  end.

Definition excluded (s : slide) : bool :=
  bool_decide (toLowerCase (default [] (properties s !! js "exclude")) = js "true").

(** *** Input indentation *)

Definition leadingWhitespacePattern : regexp := Eval vm_compute in
  re "^([ \t]*)[^ \t\n]" "gm".

(** [Math.min.apply(Math, l)]: [None] is Infinity. *)
Definition math_min (l : list nat) : option nat :=
  match l with
  | [] => None
  | x :: t => Some (fold_left Nat.min t x)
  end.

Definition getMatchCaptures (source : jsstr) (pattern : regexp) : list jsstr :=
  map (fun m => default [] (cap m 1)) (matches pattern source).

Definition trim_source (minWhitespace : option nat) : jsstr :=
  js "^[ \t]{0," ++ match minWhitespace with
                    | Some n => dec (N.of_nat n)
                    | None => js "Infinity"
                    end ++ js "}".

Definition cleanInput (source : jsstr) : result jsstr :=
  let whitespace := map length (getMatchCaptures source leadingWhitespacePattern) in
  match newRegExp (trim_source (math_min whitespace)) (js "gm") with
  | Some trimWhitespacePattern => Ok (replace trimWhitespacePattern [] source)
  | None => Throw (Error (js "Invalid regular expression"))
  end.

(** *** parse *)

Section Parse.
Context (macros : macro_env).

Definition macro_not_found (name : jsstr) : exn :=
  Error (js "Macro ＂" ++ name ++ js "＂ not found. "
         ++ js "You need to define macro using remark.macros['"
         ++ name ++ js "'] = function () { ... };").

(** One iteration over the tokens; [self_parse] is [self.parse(value, macros)]. *)
Definition parse_token (self_parse : jsstr -> result (list slide)) (opts : parse_options)
    (t : token) (st : pstate) : result pstate :=
  match t with
  | Text text | Code text | Fences text => Ok (appendTo_top st (IStr text))
  | Def id href title =>
      let s := cur st in
      Ok (with_cur st (mkSlide (content s) (properties s)
                         (<[id := mkLink href title]> (links s)) (notes s)))
  | Macro name args obj =>
      match macros name with
      | None => Throw (macro_not_found name)
      | Some f =>
          match f obj args with
          | MThrow e => Throw e
          | MUndefined => Ok (appendTo_top st (IStr []))
          | MOther s => Ok (appendTo_top st (IStr s))
          | MString value =>
              let! parsed := self_parse value in
              match parsed with
              | [] => Throw (TypeError (js "value[0] is undefined"))
              | s :: _ =>
                  match content s with
                  | c :: _ => Ok (appendTo_top st c)
                  | [] => Throw (TypeError (js "content[0] is undefined"))
                  end
              end
          end
      end
  | ContentStart classes blk =>
      Ok (mkPState (slides st) (cur st) (createContentClass classes blk :: frames st))
  | ContentEnd _ =>
      match frames st with
      | [] => Throw (TypeError (js "stack[stack.length - 2] is undefined"))
      | fr :: frs =>
          Ok (appendTo_top (mkPState (slides st) (cur st) frs)
                (IClass (fr_block fr) (fr_class fr) (fr_content fr)))
      end
  | Separator text =>
      if bool_decide (text = js "--") && disableIncrementalSlides opts
      then let s := cur st in
           Ok (with_cur st (mkSlide (content s) (properties s) (links s) None))
      else
        let s := createSlide in
        Ok (mkPState (slides st ++ [cur st])
              (mkSlide (content s)
                 (<[js "continued" :=
                      if bool_decide (text = js "--") then js "true" else js "false"]>
                    (properties s))
                 (links s) (notes s))
              [])
  | NotesSeparator _ =>
      let s := cur st in
      Ok (with_cur st (mkSlide (content s) (properties s) (links s) (Some [])))
  end.

(** [slides.forEach(...)] over the result, then the filter. *)
Fixpoint extract_all (l : list slide) : result (list slide) :=
  match l with
  | [] => Ok []
  | s :: t =>
      let! s' := extract_slide s in
      let! t' := extract_all t in
      Ok (s' :: t')
  end.

(** [Parser.prototype.parse]; [depth] bounds the nesting of macro
    expansions. *)
Fixpoint parse (depth : nat) (src : jsstr) (opts : parse_options) : result (list slide) :=
  match depth with
  | O => OutOfFuel
  | S d =>
      let! clean := cleanInput src in
      match Lexer_lex clean with
      | None => OutOfFuel
      | Some tokens =>
          let! st := rfold (parse_token (fun v => parse d v (mkPOptions false)) opts) tokens
                       (mkPState [] createSlide []) in
          let! all := extract_all (slides st ++ [cur st]) in
          Ok (List.filter (fun s => negb (excluded s)) all)
      end
  end.
End Parse.

(** ** Auxiliary results *)

Lemma extract_loop_ok fuel : forall source props,
  length source < fuel -> exists r, extract_loop fuel source props = Ok r.
Proof.
  induction fuel as [|f IH]; intros source props Hl; [lia|]. cbn [extract_loop].
  destruct (exec propertyFinder source) as [m|] eqn:E; [|by eauto].
  apply exec_inv in E as (Hle & Hmin & _).
  change (min_len (re_node propertyFinder)) with 2 in Hmin.
  apply IH. unfold substr, substring_from.
  rewrite length_app, length_take, !length_drop. lia.
Qed.

Lemma extractProperties_ok source props :
  exists src' props', extractProperties source props = Ok (src', props').
Proof. destruct (extract_loop_ok (S (length source)) source props) as [[? ?] ?]; eauto. Qed.

Lemma extract_slide_ok s : exists s', extract_slide s = Ok s' /\ content s' <> [].
Proof.
  unfold extract_slide. destruct (content s) as [|[t|b c l] rest].
  - destruct (extractProperties_ok [] (properties s)) as (src & props & ->). by eexists.
  - destruct (extractProperties_ok t (properties s)) as (src & props & ->). by eexists.
  - destruct (extractProperties_ok (js "[object Object]") (properties s)) as (src & props & ->).
    by eexists.
Qed.

Lemma extract_all_ok l :
  exists l', extract_all l = Ok l' /\ length l' = length l /\
    Forall (fun s => content s <> []) l'.
Proof.
  induction l as [|s l (l' & IH & Hl & Hc)]; simpl; [by eexists|].
  destruct (extract_slide_ok s) as (s' & -> & Hs). rewrite IH. simpl.
  eexists; split_and!; [done|simpl; lia|by constructor].
Qed.

Lemma fold_min_spec t : forall x,
  (fold_left Nat.min t x = x \/ fold_left Nat.min t x ∈ t) /\ fold_left Nat.min t x <= x /\
  Forall (fun y => fold_left Nat.min t x <= y) t.
Proof.
  induction t as [|y t IH]; intros x; cbn [fold_left]; [by split_and!; [left|lia|]|].
  destruct (IH (Nat.min x y)) as (H1 & H2 & H3). split_and!; [|lia|constructor; [lia|done]].
  destruct H1 as [->|H1]; [|right; by right].
  destruct (Nat.min_spec x y) as [[_ ->]|[_ ->]]; [by left|right; by left].
Qed.

(** [Math.min] of a list that is not empty is its least element. *)
Lemma math_min_spec l : l <> [] -> exists m, math_min l = Some m /\ m ∈ l /\ Forall (fun y => m <= y) l.
Proof.
  destruct l as [|x t]; [done|]. intros _. destruct (fold_min_spec t x) as (H1 & H2 & H3).
  exists (fold_left Nat.min t x). split_and!; [done| |by constructor].
  destruct H1 as [->|H1]; [by left|by right].
Qed.

(** *** The indentation pattern is always well formed *)

Definition trim_node (n : nat) : regex :=
  RSeq RBol (RRep (RClass false [(false, [(32, 32)%N]); (false, [(9, 9)%N])]) 0 (Some n) true).

Lemma read_nat_dec n t :
  read_nat (dec n ++ 125%N :: t) = Some (N.to_nat n, 125%N :: t).
Proof.
  unfold read_nat. rewrite take_while_app by apply dec_digits. simpl. rewrite app_nil_r.
  pose proof (dec_nonempty n). destruct (dec n) as [|c ds] eqn:E; [done|].
  change (Some (N.to_nat (digits_val (c :: ds)), drop (length (c :: ds)) ((c :: ds) ++ 125%N :: t))
          = Some (N.to_nat n, 125%N :: t)).
  by rewrite drop_app_length, <- E, digits_val_dec.
Qed.

Lemma count_groups_digits ds t :
  Forall (fun c => is_digit c = true) ds -> count_groups false (ds ++ t) = count_groups false t.
Proof.
  induction 1 as [|c ds Hc _ IH]; [done|].
  unfold is_digit, in_range in Hc. apply andb_prop in Hc as [?%N.leb_le ?%N.leb_le].
  assert (c = 48 \/ c = 49 \/ c = 50 \/ c = 51 \/ c = 52 \/ c = 53 \/ c = 54 \/ c = 55
          \/ c = 56 \/ c = 57)%N as Hc by lia.
  by repeat (destruct Hc as [->|Hc]; [exact IH|]); subst.
Qed.

Lemma trim_pattern_parse n :
  newRegExp (trim_source (Some n)) (js "gm")
  = Some (mkRegExp (trim_source (Some n)) (mkFlags true false true) (trim_node n) 0).
Proof.
  unfold newRegExp, trim_source. set (ds := dec (N.of_nat n)).
  pose proof (dec_nonempty (N.of_nat n)) as Hne. pose proof (dec_digits (N.of_nat n)) as Hd.
  pose proof (read_nat_dec (N.of_nat n) []) as Hr. rewrite Nat2N.id in Hr.
  fold ds in Hne, Hd, Hr. clearbody ds.
  assert (Hg : count_groups false (js "^[ \t]{0," ++ ds ++ js "}") = 0).
  { change (count_groups false (48%N :: 44%N :: ds ++ [125%N]) = 0).
    change (count_groups false (ds ++ [125%N]) = 0). by rewrite count_groups_digits. }
  rewrite Hg. destruct ds as [|d ds]; [done|].
  assert (Hd125 : (d =? 125)%N = false).
  { apply Forall_cons in Hd as [Hd _]. unfold is_digit, in_range in Hd.
    apply andb_prop in Hd as [_ ?%N.leb_le]. apply N.eqb_neq. lia. }
  assert (Hq : parse_quant (123%N :: 48%N :: 44%N :: (d :: ds) ++ [125%N])
               = Some (0, Some n, [])).
  { unfold parse_quant, parse_braces.
    change (read_nat (48%N :: 44%N :: (d :: ds) ++ [125%N]))
      with (Some (0, 44%N :: (d :: ds) ++ [125%N])).
    cbn [app N.eqb Pos.eqb]. rewrite Hd125. cbn [app] in Hr. by rewrite Hr. }
  set (tail := 123%N :: 48%N :: 44%N :: (d :: ds) ++ [125%N]) in *.
  change (js "^[ \t]{0," ++ (d :: ds) ++ js "}")
    with (94%N :: 91%N :: 32%N :: 92%N :: 116%N :: 93%N :: tail).
  cbn [length]. set (len := length tail). clearbody len.
  replace (S (4 * S (S (S (S (S (S len))))))) with (S (S (S (S (S (S (4 * len + 19))))))) by lia.
  cbn -[parse_quant tail]. unfold with_quant. rewrite Hq. done.
Qed.

Lemma trim_pattern_parse_inf :
  exists r, newRegExp (trim_source None) (js "gm") = Some r.
Proof. eexists. vm_compute. reflexivity. Qed.

Lemma cleanInput_ok source : exists s, cleanInput source = Ok s.
Proof.
  unfold cleanInput. destruct (math_min _) as [n|].
  - rewrite trim_pattern_parse. eauto.
  - destruct trim_pattern_parse_inf as [r ->]. eauto.
Qed.

(** *** What cleanInput removes *)

Definition is_blank (c : N) : bool := (c =? 32)%N || (c =? 9)%N.

(** Number of leading blanks. *)
Fixpoint lead (s : jsstr) : nat :=
  match s with c :: t => if is_blank c then S (lead t) else 0 | [] => 0 end.

Lemma lead_length s : lead s <= length s.
Proof. induction s as [|c t IH]; simpl; [done|]. destruct (is_blank c); lia. Qed.

(** Removes up to [n] blanks at the start of every line; [k] of them may still
    be removed at the current position. *)
Fixpoint strip (n k : nat) (s : jsstr) : jsstr :=
  match s with
  | [] => []
  | c :: t =>
      match k with
      | S k' => if is_blank c then strip n k' t
                else c :: strip n (if is_line_terminator c then n else 0) t
      | O => c :: strip n (if is_line_terminator c then n else 0) t
      end
  end.

Lemma strip_lead n k s : strip n k s = strip n 0 (drop (Nat.min k (lead s)) s).
Proof.
  revert k. induction s as [|c t IH]; intros k.
  { rewrite drop_nil. by destruct k. }
  destruct k as [|k]; [done|]. cbn [strip lead].
  destruct (is_blank c); [apply IH|]. by rewrite Nat.min_0_r.
Qed.

Definition blank_class : regex := RClass false [(false, [(32, 32)%N]); (false, [(9, 9)%N])].

Lemma blank_class_match fl c :
  f_icase fl = false -> class_match fl false [(false, [(32, 32)%N]); (false, [(9, 9)%N])] c
  = is_blank c.
Proof.
  intros Hi. unfold class_match, in_items, in_ranges, is_blank, in_range. rewrite Hi. simpl.
  rewrite !orb_false_r.
  assert (E : forall a, ((a <=? c)%N && (c <=? a)%N) = (c =? a)%N).
  { intros a. apply eq_true_iff_eq.
    rewrite andb_true_iff, !N.leb_le, N.eqb_eq. lia. }
  by rewrite !E.
Qed.

Lemma mtch_blanks fl n : f_icase fl = false -> forall s,
  mtch fl (RRep blank_class 0 (Some n) true) s Some
  = Some (advance_n (Nat.min n (lead (st_rest s))) s).
Proof.
  intros Hi. induction n as [|n IH]; intros s; rewrite mtch_rep.
  - rewrite decide_True by done. done.
  - rewrite decide_False by congruence. cbv zeta.
    change (clear_caps (groups blank_class) s) with s.
    change (mtch fl blank_class s ?k) with (char_step (class_match fl false
      [(false, [(32, 32)%N]); (false, [(9, 9)%N])]) s k).
    unfold char_step, advance. destruct (st_rest s) as [|c t] eqn:Er; cbn [lead]; [done|].
    rewrite blank_class_match by done. destruct (is_blank c); [|by rewrite Nat.min_0_r].
    cbn [st_pos]. rewrite (proj2 (Nat.eqb_neq (S (st_pos s)) (st_pos s))) by lia.
    rewrite andb_false_r.
    change (Nat.pred <$> Some (S n)) with (Some n). change (Nat.pred 0) with 0.
    rewrite IH. cbn [st_rest Nat.min advance_n]. unfold advance. by rewrite Er.
Qed.

Section Trim.
Context (n : nat) (s : jsstr).
Let r := mkRegExp (trim_source (Some n)) (mkFlags true false true) (trim_node n) 0.
Let bol (prev : option N) : bool :=
  match prev with None => true | Some c => is_line_terminator c end.

Lemma trim_here pos prev rest :
  bol prev = true ->
  exists m, match_here r pos prev rest = Some m /\ m_index m = pos /\
    cap0 m = take (Nat.min n (lead rest)) rest.
Proof.
  intros Hb. unfold match_here. set (st0 := mkState pos prev rest _).
  set (j := Nat.min n (lead rest)).
  assert (Hm : mtch (re_flags r) (re_node r) st0 Some = Some (advance_n j st0)).
  { change (mtch (re_flags r) (re_node r) st0 Some)
      with (if at_bol (mkFlags true false true) st0
            then mtch (mkFlags true false true) (RRep blank_class 0 (Some n) true) st0 Some
            else None).
    replace (at_bol (mkFlags true false true) st0) with true by (by destruct prev).
    by apply mtch_blanks. }
  rewrite Hm. assert (Hlead : lead rest <= length rest) by apply lead_length.
  destruct (moved_advance_n j st0 ltac:(simpl; lia)) as (_ & Hp & _ & _ & Hc).
  eexists. split; [done|]. split; [done|]. unfold cap0, cap. cbn [m_caps].
  rewrite list_lookup_insert_eq by (rewrite Hc; simpl; lia). simpl.
  rewrite Hp. simpl. f_equal. lia.
Qed.

Lemma trim_not_here pos prev rest : bol prev = false -> match_here r pos prev rest = None.
Proof.
  intros Hb. unfold match_here. set (st0 := mkState pos prev rest _).
  change (mtch (re_flags r) (re_node r) st0 Some)
    with (if at_bol (mkFlags true false true) st0
          then mtch (mkFlags true false true) (RRep blank_class 0 (Some n) true) st0 Some
          else None).
  destruct prev as [c|]; [|done]. unfold at_bol. cbn [st_prev f_multi st0 andb].
  simpl in Hb. by rewrite Hb.
Qed.

Lemma trim_stitch len : forall i fuel,
  length s - i = len -> i <= length s -> len < fuel ->
  stitch (fun _ => []) s i (matches_from r s fuel i)
  = strip n (if bol (prev_of s i) then n else 0) (drop i s).
Proof.
  induction len as [len IH] using lt_wf_ind; intros i fuel Hlen Hi Hf.
  destruct fuel as [|fuel]; [lia|].
  assert (Hstep : forall x fuel', s !! i = Some x -> len - 1 < fuel' ->
    stitch (fun _ => []) s i (matches_from r s fuel' (S i))
    = x :: strip n (if is_line_terminator x then n else 0) (drop (S i) s)).
  { intros x fuel' Hx Hf'. pose proof (lookup_lt_Some _ _ _ Hx).
    rewrite (stitch_step _ _ _ x) by (done || apply matches_from_chain). f_equal.
    rewrite (IH (len - 1)) by lia. simpl. by rewrite Hx. }
  cbn [matches_from]. unfold exec_at.
  rewrite (proj2 (Nat.ltb_ge _ _)) by lia.
  destruct (bol (prev_of s i)) eqn:Hb.
  - destruct (trim_here i (prev_of s i) (drop i s) Hb) as (m & Hm & Hmi & Hmc).
    assert (He : exec_from r i (prev_of s i) (drop i s) = Some m)
      by (destruct (drop i s); cbn [exec_from]; by rewrite Hm).
    rewrite He. cbn [stitch]. unfold substring.
    rewrite Hmi, Nat.max_id, Nat.min_id, Nat.sub_diag, take_0. cbn [app].
    rewrite strip_lead. unfold m_end. rewrite Hmi.
    set (j := Nat.min n (lead (drop i s))) in *.
    assert (Hj : length (cap0 m) = j).
    { rewrite Hmc, length_take. pose proof (lead_length (drop i s)). lia. }
    rewrite Hj. destruct (Nat.eqb_spec j 0) as [Ej|Ej].
    + rewrite Ej, Nat.add_0_r, drop_0. destruct (drop i s) as [|x t] eqn:Ed.
      * assert (length s <= i) by (apply (f_equal length) in Ed; rewrite length_drop in Ed;
          simpl in Ed; lia).
        destruct fuel; cbn [matches_from]; [by cbn [stitch]; rewrite Ed|].
        unfold exec_at. rewrite (proj2 (Nat.ltb_lt _ _)) by lia. cbn [stitch]. done.
      * assert (Hx : s !! i = Some x) by (by rewrite <- (Nat.add_0_r i), <- lookup_drop, Ed).
        assert (Ht : drop (S i) s = t) by (apply drop_S in Hx; congruence).
        pose proof (lookup_lt_Some _ _ _ Hx).
        rewrite (Hstep x) by (done || lia). rewrite Ht. done.
    + assert (Hlead : lead (drop i s) <> 0) by lia.
      assert (j <= length s - i) by (rewrite <- Hj, Hmc, length_take, length_drop; lia).
      rewrite (IH (len - j)) by lia. rewrite <- drop_drop.
      assert (Hprev : bol (prev_of s (i + j)) = false).
      { destruct j as [|j'] eqn:Ejj; [lia|]. rewrite Nat.add_succ_r. cbn [prev_of].
        rewrite <- lookup_drop.
        assert (Hlt : j' < lead (drop i s)) by lia. revert Hlt. clear.
        generalize (drop i s). intros l. revert j'.
        induction l as [|c t IHl]; simpl; [lia|]. intros j'.
        destruct (is_blank c) eqn:Hc; [|lia]. intros Hlt.
        destruct j' as [|j']; simpl; [|apply IHl; lia].
        unfold is_blank in Hc. apply orb_prop in Hc as [->%N.eqb_eq| ->%N.eqb_eq]; done. }
      by rewrite Hprev.
  - destruct (drop i s) as [|x t] eqn:Ed.
    + cbn [exec_from]. rewrite trim_not_here by done. cbn [stitch]. by rewrite Ed.
    + assert (Hx : s !! i = Some x) by (by rewrite <- (Nat.add_0_r i), <- lookup_drop, Ed).
      assert (Ht : drop (S i) s = t) by (apply drop_S in Hx; congruence).
      pose proof (lookup_lt_Some _ _ _ Hx).
      cbn [exec_from]. rewrite trim_not_here by done.
      assert (E : exec_from r (S i) (Some x) t = exec_at r s (S i)).
      { unfold exec_at. rewrite (proj2 (Nat.ltb_ge _ _)) by lia. simpl. by rewrite Hx, Ht. }
      rewrite E.
      change (match exec_at r s (S i) with
              | Some m => m :: matches_from r s fuel
                  (if (length (cap0 m) =? 0)%nat then S (m_end m) else m_end m)
              | None => [] end) with (matches_from r s (S fuel) (S i)).
      rewrite (Hstep x) by (done || lia). rewrite Ht. done.
Qed.

Lemma trim_replace : replace r [] s = strip n n s.
Proof.
  unfold replace, replace_fun. cbn [re_flags f_global r].
  change (expand_dollar s []) with (fun _ : mres => @nil N).
  unfold matches. rewrite (trim_stitch (length s)) by lia. by rewrite drop_0.
Qed.
End Trim.

(** *** The stack of the parser follows the nesting of the tokens *)

Section ParseFacts.
Context (macros : macro_env).

(** The exceptions that come from the user's macros: one that is missing, one
    that throws, and one whose text has no slide left (all excluded). *)
Inductive macro_exn : exn -> Prop :=
| macro_missing name : macros name = None -> macro_exn (macro_not_found name)
| macro_throws name f obj args e :
    macros name = Some f -> f obj args = MThrow e -> macro_exn e
| macro_no_slide : macro_exn (TypeError (js "value[0] is undefined")).

Definition aligned (stk : list bool) (st : pstate) : Prop := map fr_block (frames st) = stk.

Lemma aligned_appendTo_top stk st c : aligned stk st -> aligned stk (appendTo_top st c).
Proof. unfold aligned, appendTo_top. by destruct (frames st). Qed.

Lemma parse_token_step sp opts t stk stk' st :
  aligned stk st -> run_nest stk [t] = Some stk' ->
  (forall v l, sp v = Ok l -> Forall (fun s => content s <> []) l) ->
  match parse_token macros sp opts t st with
  | Ok st' => aligned stk' st'
  | Throw e => macro_exn e \/ exists v, sp v = Throw e
  | OutOfFuel => exists v, sp v = OutOfFuel
  end.
Proof.
  intros Ha Hrun Hsp. destruct t; simpl in Hrun; simplify_eq; cbn [parse_token];
    try (by apply aligned_appendTo_top); try done.
  - destruct (macros name) as [f|] eqn:Em; [|left; by constructor].
    destruct (f obj args) as [v| |s|e] eqn:Ef;
      try (by apply aligned_appendTo_top); [|left; by econstructor].
    destruct (sp v) as [l|e|] eqn:Ev; cbn [rbind]; [|by eauto|by eauto].
    specialize (Hsp _ _ Ev). destruct l as [|s l]; [left; constructor|].
    apply Forall_cons in Hsp as [Hs _]. destruct (content s) as [|c cs]; [done|].
    by apply aligned_appendTo_top.
  - destruct stk; [|done]. simplify_eq. by destruct (_ && _).
  - destruct stk; [|done]. simplify_eq. done.
  - unfold aligned in *. simpl. by rewrite Ha.
  - unfold aligned in *. destruct stk as [|b stk]; [done|].
    case_bool_decide; simplify_eq/=.
    destruct (frames st) as [|fr frs] eqn:Ef; [done|]. simplify_eq/=.
    by apply aligned_appendTo_top.
Qed.

Lemma parse_tokens_safe sp opts ts : forall stk stk' st,
  aligned stk st -> run_nest stk ts = Some stk' ->
  (forall v l, sp v = Ok l -> Forall (fun s => content s <> []) l) ->
  match rfold (parse_token macros sp opts) ts st with
  | Ok st' => aligned stk' st'
  | Throw e => macro_exn e \/ exists v, sp v = Throw e
  | OutOfFuel => exists v, sp v = OutOfFuel
  end.
Proof.
  induction ts as [|t ts IH]; intros stk stk' st Ha Hrun Hsp; simpl; [by simplify_eq/=|].
  change (t :: ts) with ([t] ++ ts) in Hrun. rewrite run_nest_app in Hrun.
  destruct (run_nest stk [t]) as [stk1|] eqn:E1; [|done]. simpl in Hrun.
  pose proof (parse_token_step sp opts t stk stk1 st Ha E1 Hsp) as Hstep.
  destruct (parse_token macros sp opts t st); simpl; [by eapply IH|done|done].
Qed.

(** Every slide a call of [parse] returns has a first content element. *)
Lemma parse_content d src opts l :
  parse macros d src opts = Ok l -> Forall (fun s => content s <> []) l.
Proof.
  destruct d as [|d]; [done|]. cbn [parse].
  intros (cl & _ & H)%rbind_ok. destruct (Lexer_lex cl); [|done].
  apply rbind_ok in H as (st & _ & H). apply rbind_ok in H as (all & Hall & [= <-]).
  destruct (extract_all_ok (slides st ++ [cur st])) as (l' & Hl' & _ & Hc).
  rewrite Hall in Hl'. injection Hl' as <-. by apply Forall_bfilter.
Qed.

Lemma parse_throws d : forall src opts e,
  parse macros d src opts = Throw e -> macro_exn e.
Proof.
  induction d as [|d IH]; intros src opts e; [done|]. cbn [parse].
  destruct (cleanInput_ok src) as [cl ->]. cbn [rbind].
  destruct (Lexer_lex_ok cl) as (ts & -> & Hn & _).
  pose proof (parse_tokens_safe (fun v => parse macros d v (mkPOptions false)) opts ts [] []
    (mkPState [] createSlide []) eq_refl Hn (fun v l => parse_content d v _ l)) as Hs.
  destruct (rfold _ ts _) as [st|e'|]; cbn [rbind]; [|intros [= ->]; destruct Hs as [?|[v Hv]]; [done|by eapply IH]|done].
  destruct (extract_all_ok (slides st ++ [cur st])) as (l' & -> & _). done.
Qed.

(** What macros expand to is parsed at a depth where this ends. *)
Definition settled (sp : jsstr -> result (list slide)) : Prop :=
  forall name f obj args v, macros name = Some f -> f obj args = MString v -> sp v <> OutOfFuel.

Lemma settled_tokens sp opts ts st :
  settled sp -> rfold (parse_token macros sp opts) ts st <> OutOfFuel.
Proof.
  intros Hs. revert st. induction ts as [|t ts IH]; intros st; simpl; [done|].
  destruct (parse_token macros sp opts t st) eqn:E; simpl; [apply IH|done|].
  destruct t; cbn [parse_token] in E; try done.
  2, 3: by repeat case_match.
  destruct (macros name) as [f|] eqn:Em; [|done].
  destruct (f obj args) as [v| | |] eqn:Ef; try done. pose proof (Hs name f obj args v Em Ef) as Hv.
  destruct (sp v) as [l| |]; [|done|done]. cbn [rbind] in E. by repeat case_match.
Qed.
End ParseFacts.

(** *** Content is kept in normal form *)

Definition is_str (i : item) : bool := match i with IStr _ => true | _ => false end.

(** No two strings in a row. *)
Fixpoint spaced (l : list item) : bool :=
  match l with
  | a :: ((b :: _) as r) => negb (is_str a && is_str b) && spaced r
  | _ => true
  end.

(** ... in a content list and in the content classes inside it. *)
Fixpoint norm_item (i : item) : bool :=
  match i with
  | IStr _ => true
  | IClass _ _ l => spaced l && forallb norm_item l
  end.

Definition norm (l : list item) : bool := spaced l && forallb norm_item l.

Definition norm_slide (s : slide) : Prop :=
  norm (content s) = true /\ (forall n, notes s = Some n -> norm n = true).

Lemma spaced_app l1 l2 :
  spaced (l1 ++ l2) = true <->
  spaced l1 = true /\ spaced l2 = true /\
  (forall a b, last l1 = Some a -> head l2 = Some b -> is_str a && is_str b = false).
Proof.
  induction l1 as [|x l1 IH].
  - simpl. naive_solver.
  - destruct l1 as [|y l1].
    + simpl. destruct l2 as [|b l2]; simpl; [naive_solver|].
      rewrite andb_true_iff, negb_true_iff. naive_solver.
    + change (spaced ((x :: y :: l1) ++ l2))
        with (negb (is_str x && is_str y) && spaced ((y :: l1) ++ l2)).
      change (spaced (x :: y :: l1)) with (negb (is_str x && is_str y) && spaced (y :: l1)).
      change (last (x :: y :: l1)) with (last (y :: l1)).
      rewrite !andb_true_iff, IH. naive_solver.
Qed.

Lemma norm_append l c :
  norm l = true -> norm_item c = true -> norm (append_item l c) = true.
Proof.
  unfold norm, append_item. rewrite !andb_true_iff. intros [Hs Hf] Hc.
  destruct (last l) as [[a|b cl k]|] eqn:El; [destruct c as [s|b cl k]|..].
  - apply last_split in El as El'. rewrite El' in Hs, Hf.
    rewrite spaced_app in *. rewrite forallb_app in *. simpl in *. naive_solver.
  - rewrite spaced_app, forallb_app. simpl in *. rewrite Hf, El. simpl.
    split; [split_and!; [done|done|naive_solver]|by rewrite andb_true_r].
  - rewrite spaced_app, forallb_app. simpl in *. rewrite Hf, Hc, El. simpl.
    split; [split_and!; [done|done|naive_solver]|done].
  - rewrite spaced_app, forallb_app. simpl in *. rewrite Hf, Hc, El. simpl.
    split; [split_and!; [done|done|naive_solver]|done].
Qed.

Definition norm_state (st : pstate) : Prop :=
  Forall norm_slide (slides st) /\ norm_slide (cur st) /\
  Forall (fun fr => norm (fr_content fr) = true) (frames st).

Lemma norm_appendTo_slide s c :
  norm_slide s -> norm_item c = true -> norm_slide (appendTo_slide s c).
Proof.
  intros [Hc Hn] Hi. unfold appendTo_slide. destruct (notes s) as [n|] eqn:E; split; simpl.
  - done.
  - intros n' [= <-]. apply norm_append; auto.
  - by apply norm_append.
  - done.
Qed.

Lemma norm_appendTo_top st c :
  norm_state st -> norm_item c = true -> norm_state (appendTo_top st c).
Proof.
  intros (Hs & Hc & Hf) Hi. unfold appendTo_top, norm_state.
  destruct (frames st) as [|fr frs]; simpl; (split; [done|]).
  - split; [by apply norm_appendTo_slide|constructor].
  - apply Forall_cons in Hf as [Hfr Hfrs]. split; [done|].
    constructor; [by apply norm_append|done].
Qed.

Lemma extract_slide_norm s s' : norm_slide s -> extract_slide s = Ok s' -> norm_slide s'.
Proof.
  intros [Hc Hn]. unfold extract_slide.
  destruct (content s) as [|[t|b c l] rest] eqn:E;
    intros ([src props] & _ & [= <-])%rbind_ok; split; simpl; try done.
Qed.

Lemma extract_all_norm l l' :
  Forall norm_slide l -> extract_all l = Ok l' -> Forall norm_slide l'.
Proof.
  intros Hl. revert l'. induction Hl as [|s l Hs Hl IH]; simpl; intros l'.
  - by intros [= <-].
  - intros (s' & Hs' & H)%rbind_ok. apply rbind_ok in H as (t' & Ht' & [= <-]).
    constructor; [by eapply extract_slide_norm|auto].
Qed.

Section ParseNorm.
Context (macros : macro_env).

Lemma parse_token_norm sp opts t st st' :
  (forall v l, sp v = Ok l -> Forall norm_slide l) ->
  norm_state st -> parse_token macros sp opts t st = Ok st' -> norm_state st'.
Proof.
  intros Hsp Hst. destruct t; cbn [parse_token].
  1-3: intros [= <-]; by apply norm_appendTo_top.
  - intros [= <-]. destruct Hst as (? & [? ?] & ?). split_and!; done.
  - destruct (macros name) as [f|]; [|done].
    destruct (f obj args) as [v| |s|e]; [|intros [= <-]; by apply norm_appendTo_top..|done].
    intros (l & Hl & H)%rbind_ok. apply Hsp in Hl.
    destruct l as [|s l]; [done|]. apply Forall_cons in Hl as [[Hs _] _].
    unfold norm in Hs. destruct (content s) as [|c cs]; [done|].
    injection H as <-. apply norm_appendTo_top; [done|].
    apply andb_prop in Hs as [_ Hs]. simpl in Hs. by apply andb_prop in Hs as [? _].
  - destruct Hst as (? & [? ?] & ?).
    destruct (_ && _); intros [= <-]; split_and!; try done; simpl.
    apply Forall_app. split; [done|]. by constructor.
  - intros [= <-]. destruct Hst as (? & [? ?] & ?). split_and!; try done.
    split; simpl; [done|]. by intros n [= <-].
  - intros [= <-]. destruct Hst as (? & ? & ?). split_and!; try done. by constructor.
  - destruct (frames st) as [|fr frs] eqn:Ef; [done|]. intros [= <-].
    destruct Hst as (? & ? & Hf). rewrite Ef in Hf. apply Forall_cons in Hf as [Hfr Hfrs].
    apply norm_appendTo_top; [by split_and!|exact Hfr].
Qed.

Lemma parse_norm d : forall src opts l,
  parse macros d src opts = Ok l -> Forall norm_slide l.
Proof.
  induction d as [|d IH]; intros src opts l; [done|]. cbn [parse].
  intros (cl & _ & H)%rbind_ok. destruct (Lexer_lex cl) as [ts|]; [|done].
  apply rbind_ok in H as (st & Hst & H). apply rbind_ok in H as (all & Hall & [= <-]).
  apply Forall_bfilter. eapply extract_all_norm; [|exact Hall].
  assert (norm_state st) as (Hs & Hc & _).
  { eapply (rfold_inv norm_state); [|..|exact Hst].
    - intros t s s' Hs Ht. eapply parse_token_norm; [|exact Hs|exact Ht].
      intros v l'. apply IH.
    - split_and!; [constructor|by split|constructor]. }
  apply Forall_app. split; [done|by constructor].
Qed.
End ParseNorm.

(** *** Slide boundaries *)

(** The [continued] marks of the finished slides and of the current one. *)
Definition continued_marks (st : pstate) : list (option jsstr) :=
  map (fun s => properties s !! js "continued") (slides st ++ [cur st]).

(** What a token adds to them. *)
Definition token_mark (opts : parse_options) (t : token) : list (option jsstr) :=
  match t with
  | Separator text =>
      if bool_decide (text = js "--")
      then if disableIncrementalSlides opts then [] else [Some (js "true")]
      else [Some (js "false")]
  | _ => []
  end.

Lemma appendTo_top_marks st c : continued_marks (appendTo_top st c) = continued_marks st.
Proof.
  unfold continued_marks, appendTo_top. destruct (frames st); simpl; [|done].
  rewrite !map_app. f_equal. simpl. f_equal. unfold appendTo_slide.
  by destruct (notes (cur st)).
Qed.

Lemma parse_token_marks macros sp opts t st st' :
  parse_token macros sp opts t st = Ok st' ->
  continued_marks st' = continued_marks st ++ token_mark opts t.
Proof.
  destruct t; cbn [parse_token token_mark]; intros H; rewrite ?app_nil_r.
  1-3: injection H as <-; apply appendTo_top_marks.
  - injection H as <-. unfold continued_marks. simpl. by rewrite !map_app.
  - destruct (macros name) as [f|]; [|done].
    destruct (f obj args) as [v| |s|e];
      [|injection H as <-; apply appendTo_top_marks..|done].
    apply rbind_ok in H as (l & _ & H). destruct l as [|s l]; [done|].
    destruct (content s); [done|]. injection H as <-. apply appendTo_top_marks.
  - case_bool_decide; cbn [andb] in H; [destruct (disableIncrementalSlides opts)|];
      injection H as <-; unfold continued_marks; simpl; rewrite ?map_app, ?app_nil_r; done.
  - injection H as <-. unfold continued_marks. simpl. by rewrite !map_app.
  - by injection H as <-.
  - destruct (frames st) as [|fr frs]; [done|]. injection H as <-.
    by rewrite appendTo_top_marks.
Qed.

Lemma parse_tokens_marks macros sp opts ts : forall st st',
  rfold (parse_token macros sp opts) ts st = Ok st' ->
  continued_marks st' = continued_marks st ++ mjoin (map (token_mark opts) ts).
Proof.
  induction ts as [|t ts IH]; intros st st'; simpl.
  - intros [= <-]. by rewrite app_nil_r.
  - intros (s1 & H1 & H2)%rbind_ok. rewrite (IH _ _ H2), (parse_token_marks _ _ _ _ _ _ H1).
    by rewrite app_assoc.
Qed.

(** ** Properties *)

(** C18. Parsing fails only because of the user's macros: a missing macro, a
    macro that throws, or one whose text has no slide.  In particular the stack
    of content classes never underflows and the indentation pattern built at
    run time is always a valid regular expression. *)
Theorem parse_safe (macros : macro_env) (d : nat) (src : jsstr) (opts : parse_options) (e : exn) :
  parse macros d src opts = Throw e -> macro_exn macros e.
Proof. apply parse_throws. Qed.

Lemma parse_safe_witness :
  macro_exn (fun _ => None) (macro_not_found (js "x")).
Proof.
  apply (parse_safe (fun _ => None) 1 (js "a .b[![:x]]") (mkPOptions false)).
  vm_compute. reflexivity.
Defined.

(** C22. Parsing terminates: when the texts that macros expand to are parsed at some depth
    of nested expansions, every source is parsed one level deeper, and the result is a
    list of slides or an exception of a macro.  Depth 0 covers macros without text. *)
Theorem parse_terminates (macros : macro_env) (d : nat) (src : jsstr) (opts : parse_options) :
  settled macros (fun v => parse macros d v (mkPOptions false)) ->
  (exists l, parse macros (S d) src opts = Ok l) \/
  (exists e, parse macros (S d) src opts = Throw e /\ macro_exn macros e).
Proof.
  intros Hf. destruct (parse macros (S d) src opts) as [l|e|] eqn:E.
  - eauto.
  - right. exists e. split; [done|]. by eapply parse_throws.
  - exfalso. revert E. cbn [parse].
    destruct (cleanInput_ok src) as [cl ->]. cbn [rbind].
    destruct (Lexer_lex_ok cl) as (ts & -> & _).
    pose proof (settled_tokens macros _ opts ts (mkPState [] createSlide []) Hf).
    destruct (rfold _ ts _) as [st| |] eqn:E; cbn [rbind]; [|done|done].
    by destruct (extract_all_ok (slides st ++ [cur st])) as (l' & -> & _).
Qed.

(** The bundled macro, which expands to a text: two levels are enough. *)
Lemma parse_terminates_witness :
  (exists l, parse (bundled_macros (fun _ => None)) 2 (js "# Say ![:hello]") (mkPOptions false) = Ok l) \/
  (exists e, parse (bundled_macros (fun _ => None)) 2 (js "# Say ![:hello]") (mkPOptions false) = Throw e /\
     macro_exn (bundled_macros (fun _ => None)) e).
Proof.
  apply (parse_terminates (bundled_macros (fun _ => None)) 1). intros name f obj args v. unfold bundled_macros.
  case_bool_decide; [|by case_bool_decide]. intros [= <-] [= <-]. vm_compute. discriminate.
Defined.

Example hello_expands : match parse (bundled_macros (fun _ => None)) 2 (js "# Say ![:hello]") (mkPOptions false) with
  | Ok [s] => content s
  | _ => []
  end = [IStr (js "# Say hello!")].
Proof. vm_compute. reflexivity. Qed.

(** C27. Content and notes are in normal form: in the content list of every
    slide, of its notes and of every content class inside them, no two strings
    are adjacent. *)
Theorem parse_normal_form (macros : macro_env) (d : nat) (src : jsstr) (opts : parse_options)
    (l : list slide) :
  parse macros d src opts = Ok l -> Forall norm_slide l.
Proof. apply parse_norm. Qed.

Lemma parse_normal_form_witness :
  exists l, parse (fun _ => None) 1 (js "a .b[c] d") (mkPOptions false) = Ok l /\
    Forall norm_slide l.
Proof.
  eexists. split; [vm_compute; reflexivity|].
  apply (parse_normal_form (fun _ => None) 1 (js "a .b[c] d") (mkPOptions false)).
  vm_compute. reflexivity.
Defined.

(** C28. Slide boundaries follow the separators: the tokens give one slide more
    than they have separators (a [--] counts only when incremental slides are
    enabled), and a slide is marked continued exactly when the separator before
    it is [--]. *)
Theorem parse_boundaries (macros : macro_env) (sp : jsstr -> result (list slide))
    (opts : parse_options) (ts : list token) (st : pstate) :
  rfold (parse_token macros sp opts) ts (mkPState [] createSlide []) = Ok st ->
  continued_marks st = Some (js "false") :: mjoin (map (token_mark opts) ts).
Proof. intros H. by rewrite (parse_tokens_marks _ _ _ _ _ _ H). Qed.

Lemma parse_boundaries_witness :
  exists st, continued_marks st = [Some (js "false"); Some (js "true"); Some (js "false")].
Proof.
  eexists. apply (parse_boundaries (fun _ => None) (fun _ => OutOfFuel) (mkPOptions false)
    [Text (js "a"); Separator (js "--"); Separator (js "---"); Text (js "b")]).
  vm_compute. reflexivity.
Defined.

(** C15. cleanInput removes the same indentation from every line: among the
    indentations that its pattern captures (those of the lines with a non-blank
    character) there is a smallest one, [m], and the result is the source with up to
    [m] blanks removed at the start of each line, and nothing else. *)
Theorem cleanInput_strips (source : jsstr) :
  getMatchCaptures source leadingWhitespacePattern <> [] ->
  exists m,
    m ∈ map length (getMatchCaptures source leadingWhitespacePattern) /\
    Forall (fun w => m <= length w) (getMatchCaptures source leadingWhitespacePattern) /\
    cleanInput source = Ok (strip m m source).
Proof.
  intros Hne. set (ws := getMatchCaptures source leadingWhitespacePattern) in *.
  destruct (math_min_spec (map length ws)) as (m & Hm & Hin & Hle); [by destruct ws|].
  exists m. split; [done|]. split; [exact (proj1 (Forall_map _ _ _) Hle)|].
  unfold cleanInput. fold ws. by rewrite Hm, trim_pattern_parse, trim_replace.
Qed.

Lemma cleanInput_strips_witness :
  exists m, cleanInput (js "    a" ++ nl ++ js "      b" ++ nl ++ nl ++ js "    c")
            = Ok (strip m m (js "    a" ++ nl ++ js "      b" ++ nl ++ nl ++ js "    c")) /\ m <= 4.
Proof.
  destruct (cleanInput_strips (js "    a" ++ nl ++ js "      b" ++ nl ++ nl ++ js "    c"))
    as (m & _ & Hle & H); [vm_compute; discriminate|].
  exists m. split; [exact H|].
  apply (Forall_inv (P := fun w : jsstr => m <= length w) (a := js "    ") (l := [js "      "; js "    "])).
  exact Hle.
Defined.
