(* ===== verification/SlideModel.v ===== *)
(** * Slides (module 18, remark/models/slide.js)

    The view model of one slide: inheritance of properties, content and notes
    from a template slide, and expansion of [{{variable}}] references. *)

From S2P Require Import Prelude JsString JsRegExp RegExpFacts SlideParser.

(** ** Data *)

(** Notes are the parsed list, or a string once absent, dropped or inherited. *)
Inductive notesv := NStr (s : jsstr) | NItems (l : list item).

Record slide_vm := mkVM {
  s_index : nat;
  s_number : nat;
  s_props : gmap jsstr jsstr;
  s_links : gmap jsstr link;
  s_content : list item;
  s_notes : notesv
}.

(** Conversion of an array of content to a string: elements separated by
    commas, objects as "[object Object]". *)
Definition item_toString (i : item) : jsstr :=
  match i with IStr s => s | IClass _ _ _ => js "[object Object]" end.

Definition items_toString (l : list item) : jsstr := join [44%N] (map item_toString l).

Definition notes_toString (n : notesv) : jsstr :=
  match n with NStr s => s | NItems l => items_toString l end.

(** The value [properties[name]]: an own string, the content list stored there
    during inheritance, or an inherited member of Object.prototype. *)
Inductive pval := PStr (s : jsstr) | PItems (l : list item) | PProto (name : jsstr).

Definition pval_toString (v : pval) : jsstr :=
  match v with
  | PStr s => s
  | PItems l => items_toString l
  | PProto name =>
      if bool_decide (name = js "__proto__") then js "[object Object]"
      else js "function " ++ (if bool_decide (name = js "constructor") then js "Object" else name)
           ++ js "() { [native code] }"
  end.

(** [properties[name]]; [cprop] is the list under the key [content] while the
    content is inherited. *)
Definition get_property (props : gmap jsstr jsstr) (cprop : option (list item)) (name : jsstr)
    : option pval :=
  match cprop with
  | Some l =>
      if bool_decide (name = js "content") then Some (PItems l)
      else match props !! name with
           | Some v => Some (PStr v)
           | None => if bool_decide (name ∈ object_prototype) then Some (PProto name) else None
           end
  | None =>
      match props !! name with
      | Some v => Some (PStr v)
      | None => if bool_decide (name ∈ object_prototype) then Some (PProto name) else None
      end
  end.

(** ** Variable expansion *)

Definition variable_pattern : regexp := Eval vm_compute in
  re "(\\)?(\{\{([^\}\n]+)\}\})" "g".

(** The callback [expand]: the replacement, and the name recorded in
    [expandResult], if any. *)
Definition expand (contentOnly : bool) (props : gmap jsstr jsstr) (cprop : option (list item))
    (m : mres) : jsstr * option jsstr :=
  let propertyName := trim (default [] (cap m 3)) in
  let unescapedMatch := default [] (cap m 2) in
  match cap m 1 with
  | Some (_ :: _) => (if contentOnly then charAt (cap0 m) 0 else unescapedMatch, None)
  | _ =>
      if contentOnly && negb (bool_decide (propertyName = js "content"))
      then (cap0 m, None)
      else match get_property props cprop propertyName with
           | Some v => (pval_toString v, Some propertyName)
           | None => (if bool_decide (propertyName = js "content") then [] else unescapedMatch,
                      None)
           end
  end.

Definition expand_string (contentOnly : bool) (props : gmap jsstr jsstr)
    (cprop : option (list item)) (s : jsstr) : jsstr :=
  replace_fun variable_pattern (fun m => fst (expand contentOnly props cprop m)) s.

(** The keys of [expandResult] that one string adds. *)
Definition expanded_names (contentOnly : bool) (props : gmap jsstr jsstr)
    (cprop : option (list item)) (s : jsstr) : list jsstr :=
  omap (fun m => snd (expand contentOnly props cprop m)) (matches variable_pattern s).

Fixpoint expand_item (contentOnly : bool) (props : gmap jsstr jsstr)
    (cprop : option (list item)) (i : item) : item :=
  match i with
  | IStr s => IStr (expand_string contentOnly props cprop s)
  | IClass b c l => IClass b c (map (expand_item contentOnly props cprop) l)
  end.

Fixpoint item_names (contentOnly : bool) (props : gmap jsstr jsstr)
    (cprop : option (list item)) (i : item) : list jsstr :=
  match i with
  | IStr s => expanded_names contentOnly props cprop s
  | IClass _ _ l => flat_map (item_names contentOnly props cprop) l
  end.

(** [slide.expandVariables()], as the slide show calls it on every slide. *)
Definition expandVariables (vm : slide_vm) : slide_vm :=
  mkVM (s_index vm) (s_number vm) (s_props vm) (s_links vm)
    (map (expand_item false (s_props vm) None) (s_content vm)) (s_notes vm).

(** ** Inheritance *)

Definition ignoreProperty (property : jsstr) : bool :=
  bool_decide (property = js "name") || bool_decide (property = js "layout")
  || bool_decide (property = js "count").

(** One iteration of [inheritProperties]. *)
Definition inherit_property (acc : gmap jsstr jsstr) (kv : jsstr * jsstr) : gmap jsstr jsstr :=
  let '(property, tvalue) := kv in
  if ignoreProperty property then acc
  else
    let own := acc !! property in
    let value :=
      if bool_decide (property = js "class")
      then match own with Some ((_ :: _) as c) => [tvalue; c] | _ => [tvalue] end
      else [tvalue] in
    if bool_decide (property = js "class") || bool_decide (own = None)
    then <[property := join (js ", ") value]> acc
    else acc.

Arguments inherit_property : simpl never.

Definition inheritProperties (props tprops : gmap jsstr jsstr) : gmap jsstr jsstr :=
  fold_left inherit_property (map_to_list tprops) props.

(** [inheritContent]: the template's content with [{{content}}] replaced, or the
    slide's own content after it. *)
Definition inheritContent (props : gmap jsstr jsstr) (own tcontent : list item) : list item :=
  let content := map (expand_item true props (Some own)) tcontent in
  if bool_decide (js "content" ∈ flat_map (item_names true props (Some own)) tcontent)
  then content else content ++ own.

Definition notes_truthy (n : notesv) : bool :=
  match n with NStr [] => false | _ => true end.

Definition inheritNotes (own tnotes : notesv) : notesv :=
  if notes_truthy tnotes
  then NStr (notes_toString tnotes ++ nl ++ nl ++ notes_toString own) else own.

Definition inherit (vm template : slide_vm) : slide_vm :=
  let props := inheritProperties (s_props vm) (s_props template) in
  mkVM (s_index vm) (s_number vm) (delete (js "content") props) (s_links vm)
    (inheritContent props (s_content vm) (s_content template))
    (inheritNotes (s_notes vm) (s_notes template)).

(** [new Slide(slideIndex, slideNumber, slide, template)] *)
Definition newSlide (slideIndex slideNumber : nat) (s : slide) (template : option slide_vm)
    : slide_vm :=
  let vm := mkVM slideIndex slideNumber (properties s) (links s) (content s)
              (match notes s with Some n => NItems n | None => NStr [] end) in
  match template with
  | Some t => inherit vm t
  | None => vm
  end.

(** ** Auxiliary results *)

(** What [inheritProperties] leaves under one key. *)
Definition inherited (k : jsstr) (own tvalue : option jsstr) : option jsstr :=
  match tvalue with
  | None => own
  | Some v =>
      if ignoreProperty k then own
      else if bool_decide (k = js "class")
           then Some (match own with
                      | Some ((_ :: _) as c) => v ++ js ", " ++ c
                      | _ => v
                      end)
           else match own with Some x => Some x | None => Some v end
  end.

Lemma inherit_property_same acc k v :
  inherit_property acc (k, v) !! k = inherited k (acc !! k) (Some v).
Proof.
  unfold inherit_property, inherited. destruct (ignoreProperty k); [done|].
  repeat case_bool_decide; simpl; rewrite ?lookup_insert_eq; try done;
    destruct (acc !! k) as [[|c t]|]; done.
Qed.

Lemma inherit_property_other acc k k' v :
  k' <> k -> inherit_property acc (k', v) !! k = acc !! k.
Proof.
  intros Hne. unfold inherit_property. repeat case_match; try done;
    by rewrite lookup_insert_ne.
Qed.

Lemma inherit_fold_other l : forall acc k,
  k ∉ l.*1 -> fold_left inherit_property l acc !! k = acc !! k.
Proof.
  induction l as [|[k' v] l IH]; intros acc k Hk; [done|]. simpl in *.
  apply not_elem_of_cons in Hk as [Hk Hl]. rewrite IH by done.
  by apply inherit_property_other.
Qed.

Lemma inherit_fold_lookup l : forall acc k v,
  NoDup l.*1 -> (k, v) ∈ l ->
  fold_left inherit_property l acc !! k = inherited k (acc !! k) (Some v).
Proof.
  induction l as [|[k' v'] l IH]; intros acc k v Hnd Hin; [by apply not_elem_of_nil in Hin|].
  simpl in *. apply NoDup_cons in Hnd as [Hk' Hnd].
  apply elem_of_cons in Hin as [Heq|Hin].
  - simplify_eq. rewrite inherit_fold_other by done. apply inherit_property_same.
  - rewrite (IH _ _ v) by done. rewrite inherit_property_other; [done|].
    intros ->. apply Hk'. apply list_elem_of_fmap. by exists (k, v).
Qed.

Lemma inheritProperties_lookup props tprops k :
  inheritProperties props tprops !! k = inherited k (props !! k) (tprops !! k).
Proof.
  unfold inheritProperties. destruct (tprops !! k) as [v|] eqn:E.
  - apply inherit_fold_lookup; [apply NoDup_fst_map_to_list|by apply elem_of_map_to_list].
  - apply inherit_fold_other. intros ([k' v] & -> & Hin)%list_elem_of_fmap.
    apply elem_of_map_to_list in Hin. simpl in E. congruence.
Qed.

(** No opening brace in the strings of a content. *)
Fixpoint braceless (i : item) : bool :=
  match i with
  | IStr s => negb (existsb (N.eqb 123) s)
  | IClass _ _ l => forallb braceless l
  end.

Lemma braceless_str s : negb (existsb (N.eqb 123) s) = true -> 123%N ∉ s.
Proof.
  intros H%negb_true_iff Hin. apply list_elem_of_In in Hin.
  assert (existsb (N.eqb 123) s = true) by (apply existsb_exists; by exists 123%N).
  congruence.
Qed.

Lemma expand_string_braceless co props cp s : 123%N ∉ s -> expand_string co props cp s = s.
Proof. apply replace_fun_requires; reflexivity. Qed.

Lemma expanded_names_braceless co props cp s :
  123%N ∉ s -> expanded_names co props cp s = [].
Proof.
  intros H. unfold expanded_names. by rewrite (matches_requires variable_pattern s 123).
Qed.

Fixpoint expand_item_braceless co props cp (i : item) {struct i} :
  braceless i = true -> expand_item co props cp i = i /\ item_names co props cp i = [].
Proof.
  destruct i as [s|b c l]; simpl.
  - intros H%braceless_str. by rewrite expand_string_braceless, expanded_names_braceless.
  - intros H.
    enough (map (expand_item co props cp) l = l /\ flat_map (item_names co props cp) l = [])
      as [-> ->] by done.
    induction l as [|i l IH]; [done|]. simpl in *. apply andb_prop in H as [Hi Hl].
    destruct (expand_item_braceless co props cp i Hi) as [-> ->].
    destruct (IH Hl) as [-> ->]. done.
Qed.

Lemma expand_items_braceless co props cp l :
  forallb braceless l = true ->
  map (expand_item co props cp) l = l /\ flat_map (item_names co props cp) l = [].
Proof.
  induction l as [|i l IH]; simpl; [done|]. intros [Hi Hl]%andb_prop.
  destruct (expand_item_braceless co props cp i Hi) as [-> ->].
  destruct (IH Hl) as [-> ->]. done.
Qed.

Lemma inheritContent_braceless props own tcontent :
  forallb braceless tcontent = true -> inheritContent props own tcontent = tcontent ++ own.
Proof.
  intros H. unfold inheritContent.
  destruct (expand_items_braceless true props (Some own) tcontent H) as [-> ->].
  by rewrite bool_decide_false by apply not_elem_of_nil.
Qed.

(** ** Properties *)

(** inheritProperties, key by key: name, layout and count are never
    inherited; the classes of the template come first and the slide's own
    classes after a comma; every other property of the template is a default
    that the slide's own value overrides. *)
Theorem inheritProperties_spec (props tprops : gmap jsstr jsstr) (k : jsstr) :
  inheritProperties props tprops !! k = inherited k (props !! k) (tprops !! k).
Proof. apply inheritProperties_lookup. Qed.



(** An escaped variable in a template is lost: inheriting from a template
    that contains an escaped reference keeps only the backslash of it, for every
    slide. *)
Theorem inheritContent_escaped (props : gmap jsstr jsstr) (own : list item) :
  inheritContent props own [IStr (js "see \{{name}}!")] = [IStr (js "see \!")] ++ own.
Proof. reflexivity. Qed.
