(* ===== verification/Slideshow.v ===== *)
(** * The slide show (module 19, remark/models/slideshow.js)

    Builds the slides of a presentation from its source: templates, layout
    slides, incremental slides, excluded classes, slide numbers and the indices
    by name and by number.  A slide view model is one object reachable from
    several of these tables, so the model keeps a store of objects and lets the
    tables refer to them by position in the store. *)

From S2P Require Import Prelude JsString JsRegExp RegExpFacts SlideParser SlideModel.

(** ** Data *)

Record show_options := mkOptions {
  o_parse : parse_options;
  countIncrementalSlides : option bool;
  excludedClasses : list jsstr;
  includePresenterNotes : option bool
}.

(** The variables of [createSlides]: [objs] is the store of view models; [arr]
    the array [slides], [byName] and [byNumber] its tables, [tmplByName] the
    local table of the templates. *)
Record cstate := mkC {
  objs : list slide_vm;
  arr : list nat;
  tmplByName : gmap jsstr nat;
  byName : gmap jsstr nat;
  byNumber : gmap nat (list nat);
  layoutSlide : option nat;
  slideNumber : nat
}.

Definition c_init : cstate := mkC [] [] ∅ ∅ ∅ None 0.

Definition prop (s : slide) (k : string) : option jsstr := properties s !! js k.
Definition prop_is (s : slide) (k v : string) : bool := bool_decide (prop s k = Some (js v)).

(** What indexing a table by a name gives: an own entry, a member inherited
    from Object.prototype, or undefined. *)
Inductive entry := Own (id : nat) | Inherited | Undefined.

Definition get_entry (t : gmap jsstr nat) (k : jsstr) : entry :=
  match t !! k with
  | Some id => Own id
  | None => if bool_decide (k ∈ object_prototype) then Inherited else Undefined
  end.

(** ** createSlides *)

(** The template of a slide, and the new value of [layoutSlide]. *)
Definition choose_template (i : nat) (s : slide) (st : cstate) : entry * option nat :=
  if prop_is s "continued" "true" && (0 <? i)%nat
  then (match last (arr st) with Some id => Own id | None => Undefined end, layoutSlide st)
  else match get_entry (tmplByName st) (default (js "undefined") (prop s "template")) with
       | Undefined =>
           if prop_is s "layout" "false" then (Undefined, None)
           else match layoutSlide st with
                | Some id => if prop_is s "layout" "true" then (Undefined, Some id)
                             else (Own id, Some id)
                | None => (Undefined, None)
                end
       | e => (e, layoutSlide st)
       end.

Definition class_separator : regexp := Eval vm_compute in re ",| " "".

Definition slideIsIncluded (opts : show_options) (s : slide) : bool :=
  forallb (fun c => negb (bool_decide (c ∈ excludedClasses opts)))
    (split_re class_separator (default [] (prop s "class"))).

(** [slide.properties.count = 'false'] for an incremental slide that is not
    counted. *)
Definition mark_count (opts : show_options) (s : slide) : slide :=
  if prop_is s "continued" "true" && bool_decide (countIncrementalSlides opts = Some false)
     && bool_decide (prop s "count" = None)
  then mkSlide (content s) (<[js "count" := js "false"]> (properties s)) (links s) (notes s)
  else s.

Definition drop_notes (opts : show_options) (s : slide) : slide :=
  match includePresenterNotes opts with
  | Some false => mkSlide (content s) (properties s) (links s) None
  | _ => s
  end.

Definition truthy_prop (s : slide) (k : string) : option jsstr :=
  match prop s k with Some ((_ :: _) as v) => Some v | _ => None end.

(** The body of [parsedSlides.forEach]. *)
Definition create_step (opts : show_options) (i : nat) (s : slide) (st : cstate)
    : result cstate :=
  let '(tmpl, layout) := choose_template i s st in
  let s := mark_count opts s in
  let included := slideIsIncluded opts s in
  let counted := included && negb (prop_is s "layout" "true")
                 && negb (prop_is s "count" "false") in
  let num := if counted then S (slideNumber st) else slideNumber st in
  let byNum := if counted then <[num := []]> (byNumber st) else byNumber st in
  let s := drop_notes opts s in
  let! template :=
    match tmpl with
    | Own id => Ok (objs st !! id)
    | Undefined => Ok None
    | Inherited => Throw (TypeError (js "Cannot read property 'length' of undefined"))
    end in
  let id := length (objs st) in
  let vm := newSlide (length (arr st)) num s template in
  let objs' := objs st ++ [vm] in
  let tmpls := match truthy_prop s "name" with
               | Some n => <[n := id]> (tmplByName st)
               | None => tmplByName st
               end in
  if prop_is s "layout" "true"
  then Ok (mkC objs' (arr st) tmpls (byName st) byNum (Some id) num)
  else
    Ok (mkC objs'
          (if included then arr st ++ [id] else arr st)
          tmpls
          (match truthy_prop s "name" with
           | Some n => <[n := id]> (byName st)
           | None => byName st
           end)
          (if included
           then match byNum !! num with
                | Some l => <[num := l ++ [id]]> byNum
                | None => byNum
                end
           else byNum)
          layout num).

Fixpoint create_loop (opts : show_options) (i : nat) (l : list slide) (st : cstate)
    : result cstate :=
  match l with
  | [] => Ok st
  | s :: t =>
      let! st' := create_step opts i s st in
      create_loop opts (S i) t st'
  end.

Definition createSlides (macros : macro_env) (depth : nat) (source : jsstr) (opts : show_options)
    : result cstate :=
  let! parsed := parse macros depth source (o_parse opts) in
  create_loop opts 0 parsed c_init.

(** ** The slide show object *)

(** [sh_byNumber] is undefined until a source is loaded. *)
Record slideshow := mkShow {
  sh_objs : list slide_vm;
  sh_slides : list nat;
  sh_byName : gmap jsstr nat;
  sh_byNumber : option (gmap nat (list nat));
  sh_links : gmap jsstr link
}.

Definition newSlideshow : slideshow := mkShow [] [] ∅ None ∅.

(** [expandVariables(slides)]: every slide of the array, in place. *)
Definition expand_all (ids : list nat) (store : list slide_vm) : list slide_vm :=
  fold_left (fun store id => alter expandVariables id store) ids store.

(** The links of all slides; a later definition of an id replaces an earlier
    one. *)
Definition collect_links (store : list slide_vm) (ids : list nat) : gmap jsstr link :=
  fold_left (fun acc id => match store !! id with
                           | Some vm => s_links vm ∪ acc
                           | None => acc
                           end) ids ∅.

(** [loadFromString]; the caller then emits [slidesChanged]. *)
Definition loadFromString (macros : macro_env) (depth : nat) (source : jsstr)
    (opts : show_options) : result slideshow :=
  let! st := createSlides macros depth source opts in
  let store := expand_all (arr st) (objs st) in
  Ok (mkShow store (arr st) (byName st) (Some (byNumber st)) (collect_links store (arr st))).

Definition re_crlf : regexp := Eval vm_compute in re "\r\n" "g".

(** The answer to the request of [loadFromUrl]: nothing until it is complete, then the
    source and the deck, or the error. *)
Definition url_onload (macros : macro_env) (depth : nat) (opts : show_options) (readyState status : N)
    (responseText statusText : jsstr) : result (option (jsstr * slideshow)) :=
  if (readyState =? 4)%N then
    if (status =? 200)%N then
      let source := replace re_crlf nl responseText in
      let! sh := loadFromString macros depth source opts in
      Ok (Some (source, sh))
    else Throw (Error statusText)
  else Ok None.

Definition getSlides (sh : slideshow) : list slide_vm :=
  omap (fun id => sh_objs sh !! id) (sh_slides sh).
Definition getSlideCount (sh : slideshow) : nat := length (sh_slides sh).
Definition getLinks (sh : slideshow) : gmap jsstr link := sh_links sh.
Definition getSlideByName (sh : slideshow) (name : jsstr) : entry := get_entry (sh_byName sh) name.

(** [slides.byNumber[number]] *)
Definition getSlidesByNumber (sh : slideshow) (number : option Z) : result (option (list nat)) :=
  match sh_byNumber sh with
  | None => Throw (TypeError (js "Cannot read property of undefined"))
  | Some t =>
      Ok (match number with
          | Some z => if (z <? 0)%Z then None else t !! Z.to_nat z
          | None => None
          end)
  end.

(** [getOrDefault(key, defaultValue)()] *)
Definition getOrDefault {A} (o : option A) (d : A) : A := match o with Some a => a | None => d end.

(** ** Invariant of the construction *)

Definition slide_num (store : list slide_vm) (id : nat) : option nat := s_number <$> store !! id.

(** The slides of the array that carry the number [n], in order. *)
Definition numbered (store : list slide_vm) (ids : list nat) (n : nat) : list nat :=
  List.filter (fun id => bool_decide (slide_num store id = Some n)) ids.

(** Each number is the one before or the next; [p] comes before the first. *)
Fixpoint climbing (p : nat) (l : list (option nat)) : Prop :=
  match l with
  | [] => True
  | x :: t => exists n, x = Some n /\ (n = p \/ n = S p) /\ climbing n t
  end.

Fixpoint final (p : nat) (l : list (option nat)) : nat :=
  match l with
  | [] => p
  | Some n :: t => final n t
  | None :: t => final p t
  end.

Lemma climbing_snoc p l n :
  climbing p l -> n = final p l \/ n = S (final p l) -> climbing p (l ++ [Some n]).
Proof.
  revert p. induction l as [|x l IH]; intros p; simpl.
  - intros _ H. exists n. eauto.
  - intros (m & -> & Hm & Hc) H. exists m. split_and!; auto.
Qed.

Lemma final_snoc p l n : final p (l ++ [Some n]) = n.
Proof. revert p. induction l as [|[m|] l IH]; intros p; simpl; auto. Qed.

Record create_inv (st : cstate) : Prop := {
  inv_index : forall k id, arr st !! k = Some id ->
    exists vm, objs st !! id = Some vm /\ s_index vm = k;
  inv_climbing : climbing 0 (map (slide_num (objs st)) (arr st));
  inv_final : final 0 (map (slide_num (objs st)) (arr st)) = slideNumber st;
  inv_byNumber : forall n, byNumber st !! n =
    if bool_decide (1 <= n <= slideNumber st)
    then Some (numbered (objs st) (arr st) n) else None
}.

Lemma newSlide_index i n s t : s_index (newSlide i n s t) = i.
Proof. by destruct t. Qed.
Lemma newSlide_number i n s t : s_number (newSlide i n s t) = n.
Proof. by destruct t. Qed.

Section Grow.
(** Adding an object to the store does not change what the array shows. *)
Context (st : cstate) (vm : slide_vm) (Hinv : create_inv st).

Lemma arr_valid id : id ∈ arr st -> id < length (objs st).
Proof.
  intros [k Hk]%list_elem_of_lookup. destruct (inv_index st Hinv k id Hk) as (v & Hv & _).
  by eapply lookup_lt_Some.
Qed.

Lemma grow_num id : id ∈ arr st -> slide_num (objs st ++ [vm]) id = slide_num (objs st) id.
Proof. intros Hid%arr_valid. unfold slide_num. by rewrite lookup_app_l. Qed.

Lemma grow_nums : map (slide_num (objs st ++ [vm])) (arr st) = map (slide_num (objs st)) (arr st).
Proof. apply map_ext_in. intros id Hid. apply grow_num. by apply list_elem_of_In. Qed.

Lemma grow_numbered n : numbered (objs st ++ [vm]) (arr st) n = numbered (objs st) (arr st) n.
Proof.
  apply filter_ext_in. intros id Hid. rewrite grow_num; [done|]. by apply list_elem_of_In.
Qed.

Lemma new_num : slide_num (objs st ++ [vm]) (length (objs st)) = Some (s_number vm).
Proof. unfold slide_num. by rewrite list_lookup_middle. Qed.

Lemma grow_index k id : arr st !! k = Some id ->
  exists v, (objs st ++ [vm]) !! id = Some v /\ s_index v = k.
Proof.
  intros Hk. destruct (inv_index st Hinv k id Hk) as (v & Hv & Hi). exists v.
  by rewrite lookup_app_l by (by eapply lookup_lt_Some).
Qed.

Lemma numbered_snoc n :
  numbered (objs st ++ [vm]) (arr st ++ [length (objs st)]) n
  = numbered (objs st) (arr st) n ++ (if bool_decide (s_number vm = n)
                                      then [length (objs st)] else []).
Proof.
  rewrite <- grow_numbered. unfold numbered at 1. rewrite List.filter_app. f_equal. simpl.
  rewrite new_num. repeat case_bool_decide; congruence.
Qed.

(** Numbers beyond the counter are not used yet. *)
Lemma numbered_beyond n : slideNumber st < n -> numbered (objs st) (arr st) n = [].
Proof.
  intros Hn. pose proof (inv_climbing st Hinv) as Hc. pose proof (inv_final st Hinv) as Hf.
  unfold numbered. revert Hc Hf. generalize 0. induction (arr st) as [|id l IH]; intros p;
    [done|]. simpl. intros (m & Hm & Hp & Hc) Hf. rewrite Hm in *. simpl in Hf.
  rewrite bool_decide_false; [by eapply IH|].
  intros [= ->]. assert (final n (map (slide_num (objs st)) l) >= n); [|lia].
  clear -Hc. revert n Hc. induction l as [|i l IH]; intros n; simpl; [lia|].
  intros (k & -> & Hk & Hc). simpl. apply IH in Hc. lia.
Qed.
End Grow.

(** The three outcomes of a step: the slide is kept aside (a layout slide or an
    excluded one), or added with the current or the next number. *)
Lemma create_step_cases opts i s st st' :
  create_step opts i s st = Ok st' ->
  exists vm, s_index vm = length (arr st) /\ objs st' = objs st ++ [vm] /\
    ((arr st' = arr st /\ byNumber st' = byNumber st /\ slideNumber st' = slideNumber st) \/
     (arr st' = arr st ++ [length (objs st)] /\ s_number vm = slideNumber st' /\
      ((slideNumber st' = slideNumber st /\
        byNumber st' = match byNumber st !! slideNumber st with
                       | Some l => <[slideNumber st := l ++ [length (objs st)]]> (byNumber st)
                       | None => byNumber st
                       end) \/
       (slideNumber st' = S (slideNumber st) /\
        byNumber st' = <[S (slideNumber st) := [length (objs st)]]> (byNumber st))))).
Proof.
  unfold create_step. destruct (choose_template i s st) as [tmpl layout].
  set (s1 := mark_count opts s). set (s2 := drop_notes opts s1).
  assert (Hl : prop_is s2 "layout" "true" = prop_is s1 "layout" "true").
  { unfold s2, drop_notes. by destruct (includePresenterNotes opts) as [[]|]. }
  rewrite Hl. intros (template & _ & H)%rbind_ok.
  destruct (prop_is s1 "layout" "true").
  - rewrite andb_false_r in H. simpl in H. injection H as <-.
    eexists. split; [apply newSlide_index|]. split; [done|]. by left.
  - rewrite andb_true_r in H. destruct (slideIsIncluded opts s1); simpl in H.
    + destruct (prop_is s1 "count" "false"); simpl in H; injection H as <-;
        (eexists; split; [apply newSlide_index|]; split; [done|]; right;
         split; [done|]; split; [apply newSlide_number|]).
      * by left.
      * right. split; [done|]. simpl. by rewrite lookup_insert_eq, insert_insert_eq.
    + injection H as <-. eexists. split; [apply newSlide_index|]. split; [done|]. by left.
Qed.

Lemma create_step_inv opts i s st st' :
  create_inv st -> create_step opts i s st = Ok st' -> create_inv st'.
Proof.
  intros Hinv (vm & Hi & Ho & Hcase)%create_step_cases.
  destruct Hcase as [(Ha & Hb & Hn)|(Ha & Hvn & Hcase)].
  - split; rewrite ?Ho, ?Ha, ?Hb, ?Hn.
    + by apply grow_index.
    + rewrite grow_nums by done. apply Hinv.
    + rewrite grow_nums by done. apply Hinv.
    + intros n. rewrite grow_numbered by done. apply Hinv.
  - assert (Hnum : slideNumber st' = slideNumber st \/ slideNumber st' = S (slideNumber st))
      by (destruct Hcase as [[-> _]|[-> _]]; auto).
    split; rewrite ?Ho, ?Ha.
    + intros k id [[_ Hk]|[Hk Hid]]%lookup_snoc_Some.
      * by apply grow_index.
      * subst. exists vm. by rewrite list_lookup_middle.
    + rewrite map_app, grow_nums by done. simpl. rewrite new_num, Hvn.
      apply climbing_snoc; [apply Hinv|]. by rewrite (inv_final st Hinv).
    + rewrite map_app. simpl. rewrite new_num, Hvn. apply final_snoc.
    + intros n. rewrite numbered_snoc by done. rewrite Hvn.
      destruct Hcase as [[Hn Hb]|[Hn Hb]]; rewrite Hn, Hb.
      * rewrite (inv_byNumber st Hinv (slideNumber st)).
        destruct (decide (slideNumber st = n)) as [<-|Hne].
        -- rewrite (bool_decide_true (slideNumber st = slideNumber st)) by done.
           case_bool_decide; [by rewrite lookup_insert_eq|].
           rewrite (inv_byNumber st Hinv). by rewrite bool_decide_false.
        -- rewrite (bool_decide_false (slideNumber st = n)), app_nil_r by done.
           case_bool_decide; rewrite ?lookup_insert_ne by done; apply Hinv.
      * destruct (decide (S (slideNumber st) = n)) as [<-|Hne].
        -- rewrite lookup_insert_eq, (bool_decide_true (S _ = S _)) by done.
           rewrite bool_decide_true by lia. by rewrite numbered_beyond by (done || lia).
        -- rewrite lookup_insert_ne, (bool_decide_false (S _ = n)), app_nil_r by done.
           rewrite (inv_byNumber st Hinv).
           by repeat case_bool_decide; try lia.
Qed.

Lemma create_loop_inv opts l : forall i st st',
  create_inv st -> create_loop opts i l st = Ok st' -> create_inv st'.
Proof.
  induction l as [|s l IH]; intros i st st' Hinv; simpl.
  - by intros [= <-].
  - intros (s1 & H1 & H2)%rbind_ok. eapply IH; [|exact H2]. by eapply create_step_inv.
Qed.

Lemma create_inv_init : create_inv c_init.
Proof. split; simpl; try done. intros n. rewrite bool_decide_false by lia. done. Qed.

(** ** Properties *)

(** Positions: in a slide show built from any source, the slide at position
    [k] of the array answers [k] to getSlideIndex. *)
Theorem createSlides_index (macros : macro_env) (depth : nat) (source : jsstr)
    (opts : show_options) (st : cstate) (k id : nat) :
  createSlides macros depth source opts = Ok st -> arr st !! k = Some id ->
  exists vm, objs st !! id = Some vm /\ s_index vm = k.
Proof.
  intros (parsed & _ & H)%rbind_ok. apply (create_loop_inv _ _ _ _ _ create_inv_init) in H.
  apply H.
Qed.

(** C16. Slide numbers: along the array they start at 0 or 1 and each is equal
    to the one before or one more; the table by number has exactly the numbers
    from 1 to the last one, each with all the slides that carry it, in order. *)
Theorem createSlides_numbers (macros : macro_env) (depth : nat) (source : jsstr)
    (opts : show_options) (st : cstate) :
  createSlides macros depth source opts = Ok st ->
  climbing 0 (map (slide_num (objs st)) (arr st)) /\
  forall n, byNumber st !! n =
    if bool_decide (1 <= n <= final 0 (map (slide_num (objs st)) (arr st)))
    then Some (numbered (objs st) (arr st) n) else None.
Proof.
  intros (parsed & _ & H)%rbind_ok. apply (create_loop_inv _ _ _ _ _ create_inv_init) in H.
  split; [apply H|]. rewrite (inv_final st H). apply H.
Qed.

(** A presentation of three slides with an incremental and an uncounted one. *)
Definition sample_options : show_options := mkOptions (mkPOptions false) None [] None.
Definition sample_source : jsstr :=
  js "name: a" ++ nl ++ js "A" ++ nl ++ js "--" ++ nl ++ js "B" ++ nl ++ js "---" ++ nl
  ++ js "count: false" ++ nl ++ js "C".

Lemma createSlides_index_witness :
  exists st id vm, createSlides (fun _ => None) 1 sample_source sample_options = Ok st /\
    arr st !! 1 = Some id /\ objs st !! id = Some vm /\ s_index vm = 1.
Proof.
  destruct (createSlides_index (fun _ => None) 1 sample_source sample_options _ 1 1
    ltac:(vm_compute; reflexivity) ltac:(vm_compute; reflexivity)) as (vm & H1 & H2).
  eexists _, 1, vm. split; [vm_compute; reflexivity|]. split; [vm_compute; reflexivity|].
  split; [exact H1|exact H2].
Defined.

Lemma createSlides_numbers_witness :
  exists st, createSlides (fun _ => None) 1 sample_source sample_options = Ok st /\
    climbing 0 (map (slide_num (objs st)) (arr st)) /\ byNumber st !! 2 = Some [1; 2].
Proof.
  destruct (createSlides_numbers (fun _ => None) 1 sample_source sample_options _
    ltac:(vm_compute; reflexivity)) as [H _].
  eexists. split; [vm_compute; reflexivity|]. split; [exact H|vm_compute; reflexivity].
Defined.

(** A slide that names a template inherited from Object.prototype (such as
    toString) makes loading fail with a TypeError, whatever the macros and the
    options: the table of templates is a plain object. *)
Theorem createSlides_prototype_template (macros : macro_env) (depth : nat)
    (opts : show_options) :
  exists msg, createSlides macros (S depth) (js "template: toString") opts
              = Throw (TypeError msg).
Proof. destruct opts as [[[]] [[]|] ex [[]|]]; eexists; vm_compute; reflexivity. Qed.

(** A named slide that is excluded by its class is still found by name, with
    a position that is not its own: here it answers the number of slides, a
    position outside the array. *)
Theorem excluded_slide_by_name :
  exists sh id vm,
    loadFromString (fun _ => None) 1
      (js "A" ++ nl ++ js "---" ++ nl ++ js "name: secret" ++ nl ++ js "class: private" ++ nl
       ++ js "B")
      (mkOptions (mkPOptions false) None [js "private"] None) = Ok sh /\
    getSlideByName sh (js "secret") = Own id /\ sh_objs sh !! id = Some vm /\
    (id ∉ sh_slides sh) /\ s_index vm = getSlideCount sh.
Proof.
  eexists _, 1, _. split; [vm_compute; reflexivity|].
  split; [vm_compute; reflexivity|]. split; [vm_compute; reflexivity|].
  split; [|reflexivity]. change (1 ∉ [0]). rewrite list_elem_of_singleton. discriminate.
Qed.
