(* ===== verification/Navigation.v ===== *)
(** * Navigation (module 21, remark/models/slideshow/navigation.js)

    The state machine of the current slide.  Components talk over one event
    emitter; what a handler emits, posts to another window or asks of the browser
    is recorded as a sequence of outputs, in order. *)

From S2P Require Import Prelude JsString JsRegExp RegExpFacts SlideParser SlideModel Slideshow.

(** ** Events of the bus *)

(** The argument of gotoSlide: a number or a string. *)
Inductive target := TNum (z : Z) | TStr (s : jsstr).

Inductive event :=
| E_gotoSlide (t : target) (noMessage : bool)
| E_gotoSlideNumber (s : jsstr)
| E_gotoPreviousSlide | E_gotoNextSlide | E_gotoFirstSlide | E_gotoLastSlide
| E_hideSlide (i : option Z) | E_showSlide (i : option Z) | E_slideChanged (n : option Z)
| E_start | E_slidesChanged
| E_forcePresenterMode | E_togglePresenterMode | E_toggledPresenter (n : Z)
| E_toggleHelp | E_toggleBlackout (propagate : option bool) | E_toggleMirrored
| E_toggleFullscreen | E_createClone | E_hideOverlay
| E_toggleTimer | E_resetTimer | E_startTimer | E_pauseTimer
| E_pause | E_resume | E_resize | E_tap (x : Z).

Inductive window := CloneWindow | OpenerWindow.

Inductive output :=
| Emit (e : event)
| Post (w : window) (data : jsstr)
| OpenClone
| FocusClone.

(** ** State *)

(** An index is an integer or NaN ([None]).  [clone] is undefined, or a window
    with its [closed] flag; [opener] says whether window.opener exists. *)
Record nav := mkNav {
  currentSlideIndex : option Z;
  started : option bool;
  clone : option bool;
  opener : bool
}.

Definition initial_nav (opener : bool) : nav := mkNav (Some (-1)%Z) None None opener.

Definition idx_sub1 (i : option Z) : option Z := Z.pred <$> i.
Definition idx_add1 (i : option Z) : option Z := Z.succ <$> i.

(** Comparisons with NaN are false. *)
Definition idx_eq (a b : option Z) : bool :=
  match a, b with Some x, Some y => (x =? y)%Z | _, _ => false end.
Definition idx_lt (a : option Z) (b : Z) : bool :=
  match a with Some x => (x <? b)%Z | None => false end.
Definition idx_gt (a : option Z) (b : Z) : bool :=
  match a with Some x => (b <? x)%Z | None => false end.

Definition idx_toString (i : option Z) : jsstr :=
  match i with Some z => decZ z | None => js "NaN" end.

Section Navigation.
Context (sh : slideshow).
Let count : Z := Z.of_nat (getSlideCount sh).

(** ** Operations *)

Definition messages (n : nav) (data : jsstr) : list output :=
  match clone n with Some false => [Post CloneWindow data] | _ => [] end
  ++ (if opener n then [Post OpenerWindow data] else []).

Definition gotoSlideByIndex (slideIndex : option Z) (noMessage : bool) (n : nav)
    : nav * list output :=
  let alreadyOnSlide := idx_eq slideIndex (currentSlideIndex n) in
  let slideOutOfRange := idx_lt slideIndex 0 || idx_gt slideIndex (count - 1) in
  if alreadyOnSlide || slideOutOfRange then (n, [])
  else
    let hide := if idx_eq (currentSlideIndex n) (Some (-1)%Z) then []
                else [Emit (E_hideSlide (currentSlideIndex n))] in
    let '(started', start) :=
      match started n with
      | None => (Some false, [])
      | Some false => (Some true, [Emit E_start])
      | Some true => (Some true, [])
      end in
    let n' := mkNav slideIndex started' (clone n) (opener n) in
    (n', hide ++ start ++ [Emit (E_showSlide slideIndex)]
         ++ [Emit (E_slideChanged (idx_add1 slideIndex))]
         ++ (if noMessage then []
             else messages n' (js "gotoSlide:" ++ idx_toString (idx_add1 slideIndex)))).

Definition presenter_pattern : regexp := Eval vm_compute in re "^p\d+$" "".

(** [getSlideIndex]: the index, and what it emits. *)
Definition getSlideIndex (t : target) : result (option Z * list output) :=
  match t with
  | TNum z => Ok (Some (z - 1)%Z, [])
  | TStr s =>
      let slideNo := parseInt s in
      if bool_decide (idx_toString slideNo = s) then Ok (idx_sub1 slideNo, [])
      else if test presenter_pattern s
      then Ok (idx_sub1 (parseInt (substring_from s 1)), [Emit E_forcePresenterMode])
      else match getSlideByName sh s with
           | Own id =>
               match sh_objs sh !! id with
               | Some vm => Ok (Some (Z.of_nat (s_index vm)), [])
               | None => Ok (Some 0%Z, [])
               end
           | Inherited => Throw (TypeError (js "slide.getSlideIndex is not a function"))
           | Undefined => Ok (Some 0%Z, [])
           end
  end.

Definition gotoSlide (t : target) (noMessage : bool) (n : nav) : result (nav * list output) :=
  let! (i, out) := getSlideIndex t in
  let '(n', out') := gotoSlideByIndex i noMessage n in
  Ok (n', out ++ out').

Definition gotoSlideNumber (slideNumber : jsstr) (noMessage : bool) (n : nav)
    : result (nav * list output) :=
  let! slides := getSlidesByNumber sh (parseInt slideNumber) in
  Ok (match slides with
      | Some (id :: _) =>
          match sh_objs sh !! id with
          | Some vm => gotoSlideByIndex (Some (Z.of_nat (s_index vm))) noMessage n
          | None => (n, [])
          end
      | _ => (n, [])
      end).

Definition gotoPreviousSlide (n : nav) := gotoSlideByIndex (idx_sub1 (currentSlideIndex n)) false n.
Definition gotoNextSlide (n : nav) := gotoSlideByIndex (idx_add1 (currentSlideIndex n)) false n.
Definition gotoFirstSlide (n : nav) := gotoSlideByIndex (Some 0%Z) false n.
Definition gotoLastSlide (n : nav) := gotoSlideByIndex (Some (count - 1)%Z) false n.

(** The handler of slidesChanged. *)
Definition slidesChanged (n : nav) : nav :=
  if idx_gt (currentSlideIndex n) count
  then mkNav (Some count) (started n) (clone n) (opener n) else n.

(** The handler of createClone: open a window, or focus the one that is open. *)
Definition createClone (n : nav) : nav * list output :=
  match clone n with
  | Some false => (n, [FocusClone])
  | _ => (mkNav (currentSlideIndex n) (started n) (Some false) (opener n), [OpenClone])
  end.

Definition resetTimer (n : nav) : nav :=
  mkNav (currentSlideIndex n) (Some false) (clone n) (opener n).

(** The handler of toggleBlackout that Slideshow registers: tell the other
    windows, unless the event comes from one of them. *)
Definition toggleBlackout_handler (propagate : option bool) (n : nav) : list output :=
  match propagate with
  | Some false => []
  | _ => messages n (js "toggleBlackout")
  end.

(** The handlers that Navigation and Slideshow register, by event. *)
Definition handle (e : event) (n : nav) : result (nav * list output) :=
  match e with
  | E_gotoSlide t noMessage => gotoSlide t noMessage n
  | E_gotoSlideNumber s => gotoSlideNumber s false n
  | E_gotoPreviousSlide => Ok (gotoPreviousSlide n)
  | E_gotoNextSlide => Ok (gotoNextSlide n)
  | E_gotoFirstSlide => Ok (gotoFirstSlide n)
  | E_gotoLastSlide => Ok (gotoLastSlide n)
  | E_slidesChanged => Ok (slidesChanged n, [])
  | E_createClone => Ok (createClone n)
  | E_resetTimer => Ok (resetTimer n, [])
  | E_toggleBlackout propagate => Ok (n, toggleBlackout_handler propagate n)
  | _ => Ok (n, [])
  end.

(** Handling a sequence of events, with everything that is output. *)
Fixpoint handle_all (es : list event) (n : nav) : result (nav * list output) :=
  match es with
  | [] => Ok (n, [])
  | e :: t =>
      let! (n1, o1) := handle e n in
      let! (n2, o2) := handle_all t n1 in
      Ok (n2, o1 ++ o2)
  end.

(** A target other than the string NaN denotes an integer index. *)
Definition numeric_target (e : event) : Prop :=
  match e with E_gotoSlide (TStr s) _ => s <> js "NaN" | _ => True end.

(** What the audience sees after a sequence of outputs: at most one slide, which
    must be hidden before the next is shown; [None] when the order is broken. *)
Definition see (shown : option Z) (o : output) : option (option Z) :=
  match o with
  | Emit (E_hideSlide i) => if bool_decide (i = shown /\ i <> None) then Some None else None
  | Emit (E_showSlide i) => if bool_decide (shown = None) then Some i else None
  | _ => Some shown
  end.

Fixpoint see_all (shown : option Z) (os : list output) : option (option Z) :=
  match os with
  | [] => Some shown
  | o :: t => see shown o ≫= fun s => see_all s t
  end.

(** The slide that should be on screen: none before the first navigation. *)
Definition on_screen (n : nav) : option Z :=
  if idx_eq (currentSlideIndex n) (Some (-1)%Z) then None else currentSlideIndex n.

(** ** Auxiliary results *)

(** The current index is -1 (nothing shown yet) or a position of the array. *)
Definition nav_ok (n : nav) : Prop :=
  exists z, currentSlideIndex n = Some z /\ (-1 <= z < Z.max 0 count)%Z.

Definition in_range_idx (i : option Z) : bool :=
  match i with Some z => (0 <=? z)%Z && (z <? count)%Z | None => false end.

Lemma goto_cases i noMessage n :
  i <> None ->
  (gotoSlideByIndex i noMessage n = (n, []) /\
   (idx_eq i (currentSlideIndex n) = true \/ in_range_idx i = false)) \/
  (in_range_idx i = true /\ idx_eq i (currentSlideIndex n) = false /\
   currentSlideIndex (fst (gotoSlideByIndex i noMessage n)) = i).
Proof.
  destruct i as [z|]; [|done]. intros _. unfold gotoSlideByIndex, in_range_idx.
  destruct (idx_eq (Some z) (currentSlideIndex n)) eqn:Eeq; [by left; split; [|left]|].
  simpl. destruct (Z.ltb_spec z 0), (Z.ltb_spec (count - 1) z); simpl.
  1-3: left; split; [done|right]; apply andb_false_iff; rewrite Z.leb_gt, Z.ltb_ge; lia.
  right. split_and!; [|done|by destruct (started n) as [[]|]].
  apply andb_true_iff. rewrite Z.leb_le, Z.ltb_lt. lia.
Qed.

Lemma goto_ok i noMessage n : i <> None -> nav_ok n -> nav_ok (fst (gotoSlideByIndex i noMessage n)).
Proof.
  intros Hi Hn. destruct (goto_cases i noMessage n Hi) as [[-> _]|(Hr & _ & Hc)]; [done|].
  destruct i as [z|]; [|done]. simpl in Hr. apply andb_prop in Hr as [?%Z.leb_le ?%Z.ltb_lt].
  exists z. split; [done|]. lia.
Qed.

Definition starts (os : list output) : nat :=
  length (List.filter (fun o => match o with Emit E_start => true | _ => false end) os).

Lemma starts_app a b : starts (a ++ b) = starts a + starts b.
Proof. unfold starts. by rewrite List.filter_app, length_app. Qed.

Definition may_start (n : nav) : nat := match started n with Some true => 0 | _ => 1 end.

Lemma messages_starts n d : starts (messages n d) = 0.
Proof. unfold messages. by destruct (clone n) as [[]|], (opener n). Qed.

Lemma goto_starts i noMessage n :
  starts (snd (gotoSlideByIndex i noMessage n))
  + may_start (fst (gotoSlideByIndex i noMessage n)) <= may_start n.
Proof.
  unfold gotoSlideByIndex. destruct (_ || _); [simpl; lia|].
  destruct (idx_eq _ (Some (-1)%Z)), (started n) as [[]|] eqn:Es, noMessage;
    cbn [fst snd]; rewrite ?starts_app, ?messages_starts; unfold may_start; rewrite Es;
    simpl; lia.
Qed.

(** A presenter hash is a letter p and digits, so its number is not NaN. *)
Lemma presenter_number s :
  test presenter_pattern s = true -> parseInt (substring_from s 1) <> None.
Proof.
  unfold test. destruct (exec _ _) as [m|] eqn:E; [|done]. intros _.
  rewrite exec_anchored in E by done.
  apply match_here_inv in E as (_ & _ & s' & HM & _). simpl in HM.
  inversion_clear HM as [| | | |? ? ? s1 ? HB HM1| | | | | | | | | | | |].
  inversion HB; subst. clear HB.
  inversion_clear HM1 as [| | | |? ? ? s2 ? HC HM2| | | | | | | | | | | |].
  inversion_clear HC as [|? x ? ? Ha Hx| | | | | | | | | | | | | | |].
  unfold advance in Ha. simpl in Ha. destruct s as [|p t]; [done|]. injection Ha as -> <-.
  inversion_clear HM2 as [| | | |? ? ? s3 ? HR _| | | | | | | | | | | |].
  inversion HR as [| | | | | | |? ? ? ? ? [|]|? ? ? ? ? s4 ? _ HD| | | | | | | |]; subst; try done.
  inversion_clear HD as [| |? ? d ? ? Ha Hd| | | | | | | | | | | | | |].
  unfold advance in Ha. simpl in Ha. destruct t as [|y t]; [done|]. injection Ha as -> _.
  unfold class_match in Hd. simpl in Hd. clear -Hd.
  assert (H : is_digit d = true) by (unfold is_digit; by destruct (in_range 48 57 d)).
  unfold substring_from. simpl. by rewrite parseInt_digit.
Qed.

Lemma getSlideIndex_number t i out :
  getSlideIndex t = Ok (i, out) -> (forall s, t = TStr s -> s <> js "NaN") ->
  i <> None /\ forall shown, see_all shown out = Some shown.
Proof.
  destruct t as [z|s]; simpl; intros H Hn; [by simplify_eq/=|].
  case_bool_decide as Hs; [injection H as <- <-; split; [|done]|].
  - destruct (parseInt s) as [z|]; [done|]. by destruct (Hn s eq_refl).
  - destruct (test presenter_pattern s) eqn:Et; [injection H as <- <-; split; [|done]|].
    + apply presenter_number in Et. unfold idx_sub1. by destruct (parseInt _).
    + destruct (getSlideByName sh s) as [id| |]; [|done|by simplify_eq/=].
      destruct (sh_objs sh !! id); by simplify_eq/=.
Qed.

Lemma see_all_app s a b : see_all s (a ++ b) = see_all s a ≫= fun s' => see_all s' b.
Proof.
  revert s. induction a as [|o a IH]; intros s; simpl; [done|]. destruct (see s o); simpl; auto.
Qed.

Lemma messages_see n d s : see_all s (messages n d) = Some s.
Proof. unfold messages. by destruct (clone n) as [[]|], (opener n). Qed.

Lemma goto_see i noMessage n : i <> None -> nav_ok n ->
  see_all (on_screen n) (snd (gotoSlideByIndex i noMessage n))
  = Some (on_screen (fst (gotoSlideByIndex i noMessage n))).
Proof.
  intros Hi (z & Hz & Hr). destruct i as [y|]; [|done].
  unfold gotoSlideByIndex, on_screen. rewrite Hz.
  destruct (idx_eq (Some y) (Some z) || _) eqn:Eg; [by simpl; rewrite Hz|].
  apply orb_false_iff in Eg as [_ [Hy%Z.ltb_ge _]%orb_false_iff].
  assert (Hhide : see_all (if idx_eq (Some z) (Some (-1)%Z) then None else Some z)
    (if idx_eq (Some z) (Some (-1)%Z) then [] else [Emit (E_hideSlide (Some z))]) = Some None).
  { simpl. destruct (Z.eqb_spec z (-1)) as [->|Hne]; [done|]. simpl.
    by rewrite bool_decide_eq_true_2. }
  assert (Hy1 : idx_eq (Some y) (Some (-1)%Z) = false) by (apply Z.eqb_neq; lia).
  destruct (started n) as [[]|]; cbn [fst snd currentSlideIndex];
    rewrite !see_all_app, Hhide, Hy1; simpl; destruct noMessage; simpl;
    by rewrite ?messages_see.
Qed.

(** One event, in a deck that does not change meanwhile. *)
Lemma handle_step e n n' os :
  nav_ok n -> numeric_target e -> handle e n = Ok (n', os) ->
  nav_ok n' /\ see_all (on_screen n) os = Some (on_screen n').
Proof.
  intros Hok Hnum H.
  assert (Hgoto : forall i b, gotoSlideByIndex i b n = (n', os) -> i <> None ->
      nav_ok n' /\ see_all (on_screen n) os = Some (on_screen n')).
  { intros i b Hg Hi. pose proof (goto_ok i b n Hi Hok) as H1.
    pose proof (goto_see i b n Hi Hok) as H2. by rewrite Hg in H1, H2. }
  assert (Hcur : forall f : Z -> Z, f <$> currentSlideIndex n <> None).
  { destruct Hok as (z & -> & _). done. }
  destruct e; simpl in H; try (injection H as H; by apply (Hgoto _ _ H); first [apply Hcur|done]);
    try (injection H as <- <-; done).
  - unfold gotoSlide in H. apply rbind_ok in H as ([i out] & Hi & H).
    destruct (getSlideIndex_number _ _ _ Hi) as [Hne Hout].
    { intros s ->. exact Hnum. }
    destruct (gotoSlideByIndex i noMessage n) as [n1 o1] eqn:Eg. simplify_eq.
    rewrite see_all_app, Hout. simpl.
    pose proof (goto_ok i noMessage n Hne Hok) as H1.
    pose proof (goto_see i noMessage n Hne Hok) as H2. by rewrite Eg in H1, H2.
  - unfold gotoSlideNumber in H. apply rbind_ok in H as (l & _ & H). injection H as H.
    destruct l as [[|id l]|]; simplify_eq; try done.
    destruct (sh_objs sh !! id); simplify_eq; [by apply (Hgoto _ _ H)|done].
  - injection H as <- <-. unfold slidesChanged. destruct Hok as (z & Hz & Hr).
    rewrite Hz. simpl. rewrite (proj2 (Z.ltb_ge _ _)) by lia. split; [by exists z|done].
  - injection H as <- <-. split; [done|]. unfold toggleBlackout_handler.
    by destruct propagate as [[]|]; rewrite ?messages_see.
  - injection H as H. unfold createClone in H. unfold on_screen.
    destruct (clone n) as [[]|]; simplify_eq; done.
Qed.

Lemma handle_all_step es : forall n n' os,
  nav_ok n -> Forall numeric_target es -> handle_all es n = Ok (n', os) ->
  nav_ok n' /\ see_all (on_screen n) os = Some (on_screen n').
Proof.
  induction es as [|e es IH]; intros n n' os Hok Hnum H; simpl in H; [by simplify_eq|].
  apply Forall_cons in Hnum as [He Hes].
  apply rbind_ok in H as ([n1 o1] & H1 & H). apply rbind_ok in H as ([n2 o2] & H2 & H).
  simplify_eq. destruct (handle_step _ _ _ _ Hok He H1) as [Hok1 Hs1].
  destruct (IH _ _ _ Hok1 Hes H2) as [Hok2 Hs2]. split; [done|].
  by rewrite see_all_app, Hs1.
Qed.

(** A move keeps or sets the index; whatever is set is a position of the array. *)
Lemma handle_index e n n' os :
  currentSlideIndex n <> None -> numeric_target e -> handle e n = Ok (n', os) ->
  currentSlideIndex n' = currentSlideIndex n \/ in_range_idx (currentSlideIndex n') = true \/
  (e = E_slidesChanged /\ n' = slidesChanged n).
Proof.
  intros Hcur Hnum H.
  assert (Hgoto : forall i b o, gotoSlideByIndex i b n = (n', o) -> i <> None ->
      currentSlideIndex n' = currentSlideIndex n \/ in_range_idx (currentSlideIndex n') = true \/
      (e = E_slidesChanged /\ n' = slidesChanged n)).
  { intros i b o Hg Hi. destruct (goto_cases i b n Hi) as [[Hs _]|(Hr & _ & Hc)];
      rewrite Hg in *; [simplify_eq; by left|]. simpl in Hc. rewrite Hc. by right; left. }
  assert (Hf : forall f : Z -> Z, f <$> currentSlideIndex n <> None)
    by by destruct (currentSlideIndex n).
  destruct e; simpl in H;
    try (injection H as H; by apply (Hgoto _ _ _ H); first [apply Hf|done]);
    try (injection H as <- <-; by left).
  - unfold gotoSlide in H. apply rbind_ok in H as ([i out] & Hi & H).
    destruct (getSlideIndex_number _ _ _ Hi) as [Hne _]; [by intros s ->|].
    destruct (gotoSlideByIndex i noMessage n) as [n1 o1] eqn:Eg. simplify_eq. by eapply Hgoto.
  - unfold gotoSlideNumber in H. apply rbind_ok in H as (l & _ & H). injection H as H.
    destruct l as [[|id l]|]; simplify_eq; try (by left).
    destruct (sh_objs sh !! id); simplify_eq; [by apply (Hgoto _ _ _ H)|by left].
  - injection H as <- <-. by right; right.
  - injection H as H. unfold createClone in H.
    destruct (clone n) as [[]|]; simplify_eq; by left.
Qed.

Lemma handle_starts e n n' os :
  e <> E_resetTimer -> handle e n = Ok (n', os) -> starts os + may_start n' <= may_start n.
Proof.
  intros Hr H.
  assert (Hgoto : forall i b, gotoSlideByIndex i b n = (n', os) ->
      starts os + may_start n' <= may_start n).
  { intros i b Hg. pose proof (goto_starts i b n) as H1. by rewrite Hg in H1. }
  destruct e; simpl in H; try done; try (injection H as H; by eapply Hgoto);
    try (injection H as <- <-; simpl; lia).
  - unfold gotoSlide in H. apply rbind_ok in H as ([i out] & Hi & H).
    assert (Ho : starts out = 0).
    { destruct t as [z|s]; simpl in Hi; simplify_eq/=; [done|]. repeat case_match; by simplify_eq. }
    destruct (gotoSlideByIndex i noMessage n) as [n1 o1] eqn:Eg. simplify_eq.
    rewrite starts_app, Ho. pose proof (goto_starts i noMessage n) as H1. by rewrite Eg in H1.
  - unfold gotoSlideNumber in H. apply rbind_ok in H as (l & _ & H). injection H as H.
    repeat case_match; simplify_eq; simpl; eauto; lia.
  - injection H as <- <-. unfold slidesChanged. by case_match.
  - injection H as <- <-. unfold toggleBlackout_handler.
    destruct propagate as [[]|]; rewrite ?messages_starts; simpl; lia.
  - injection H as H. unfold createClone in H.
    destruct (clone n) as [[]|]; simplify_eq; unfold may_start; simpl; lia.
Qed.
End Navigation.

(** States of the navigation of a deck that may be replaced at run time: a load
    is followed by the event slidesChanged. *)
Inductive reachable : slideshow -> nav -> Prop :=
| R_init sh opener : reachable sh (initial_nav opener)
| R_event sh n e n' os :
    reachable sh n -> numeric_target e -> handle sh e n = Ok (n', os) -> reachable sh n'
| R_load sh n sh' : reachable sh n -> reachable sh' (slidesChanged sh' n).

Lemma slidesChanged_index sh n z :
  currentSlideIndex n = Some z -> (-1 <= z)%Z ->
  exists y, currentSlideIndex (slidesChanged sh n) = Some y /\
            (-1 <= y <= Z.of_nat (getSlideCount sh))%Z.
Proof.
  intros Hz Hl. unfold slidesChanged. rewrite Hz. simpl.
  destruct (Z.ltb_spec (Z.of_nat (getSlideCount sh)) z); simpl; eexists; (split; [done|lia]).
Qed.

(** ** Properties *)

(** Whatever the sequence of events and of reloads, the current index is -1
    (nothing shown yet), a position of the current array of slides, or its
    length; it is never NaN as long as no target is the string NaN. *)
Theorem reachable_index (sh : slideshow) (n : nav) :
  reachable sh n ->
  exists z, currentSlideIndex n = Some z /\ (-1 <= z <= Z.of_nat (getSlideCount sh))%Z.
Proof.
  induction 1 as [sh op|sh n e n' os _ (z & Hz & Hr) Hnum H|sh n sh' _ (z & Hz & Hr)].
  - exists (-1)%Z. split; [done|lia].
  - destruct (handle_index sh e n n' os) as [E|[E|[_ ->]]]; [by rewrite Hz|done|done|..].
    + exists z. by rewrite E.
    + destruct (currentSlideIndex n') as [y|]; [|done]. simpl in E.
      apply andb_prop in E as [?%Z.leb_le ?%Z.ltb_lt]. exists y. split; [done|lia].
    + by apply (slidesChanged_index _ _ z); [|lia].
  - by apply (slidesChanged_index _ _ z); [|lia].
Qed.

(** A deck of two slides, the second of them in two steps, and a deck of one. *)
Definition deck (source : jsstr) : slideshow :=
  match loadFromString (fun _ => None) 1 source sample_options with
  | Ok sh => sh
  | _ => newSlideshow
  end.

Definition deck3 : slideshow := Eval vm_compute in deck sample_source.
Definition deck1 : slideshow := Eval vm_compute in deck (js "only").

Definition at_last : nav :=
  Eval vm_compute in fst (gotoLastSlide deck3 (initial_nav false)).

Lemma reachable_at_last : reachable deck3 at_last.
Proof.
  eapply (R_event _ (initial_nav false) E_gotoLastSlide); [constructor|exact I|vm_compute; reflexivity].
Qed.

Lemma reachable_index_witness :
  reachable deck3 at_last /\
  exists z, currentSlideIndex at_last = Some z /\ (-1 <= z <= Z.of_nat (getSlideCount deck3))%Z.
Proof. split; [exact reachable_at_last|apply (reachable_index deck3 at_last); exact reachable_at_last]. Defined.

(** Reloading a shorter deck can leave the current index one past its end:
    the handler of slidesChanged clamps to the number of slides, not to the last
    position. *)
Example slidesChanged_past_end :
  exists sh n z, reachable sh n /\ currentSlideIndex n = Some (Z.of_nat z) /\
    sh_slides sh !! z = None /\ sh_slides sh <> [].
Proof.
  exists deck1, (slidesChanged deck1 at_last), 1.
  split; [apply (R_load deck3), reachable_at_last|].
  split; [vm_compute; reflexivity|]. split; [vm_compute; reflexivity|discriminate].
Qed.

(** While the deck is unchanged, the outputs of any sequence of events show at
    most one slide at a time, hide exactly the slide that is shown before showing
    another, and end with the current slide on screen. *)
Theorem handle_all_screen (sh : slideshow) (opener : bool) (es : list event) (n : nav)
    (os : list output) :
  Forall numeric_target es -> handle_all sh es (initial_nav opener) = Ok (n, os) ->
  see_all None os = Some (on_screen n).
Proof.
  intros Hes H. eapply (handle_all_step sh) in H as [_ H]; [exact H| |done].
  exists (-1)%Z. split; [done|lia].
Qed.

Lemma handle_all_screen_witness :
  exists n os, handle_all deck3 [E_gotoFirstSlide; E_gotoNextSlide; E_gotoLastSlide]
                 (initial_nav true) = Ok (n, os) /\
    see_all None os = Some (on_screen n) /\ on_screen n = Some 2%Z.
Proof.
  eexists _, _. split; [vm_compute; reflexivity|]. split; [|reflexivity].
  apply (handle_all_screen deck3 true [E_gotoFirstSlide; E_gotoNextSlide; E_gotoLastSlide]);
    [repeat constructor|vm_compute; reflexivity].
Defined.

(** The event start, which starts the timer, is emitted at most once between
    two resets of the timer, and no more once the presentation has started. *)
Theorem start_once (sh : slideshow) (es : list event) (n n' : nav) (os : list output) :
  Forall (fun e => e <> E_resetTimer) es -> handle_all sh es n = Ok (n', os) ->
  starts os <= 1 /\ (started n = Some true -> starts os = 0).
Proof.
  intros Hes H.
  assert (Hb : starts os + may_start n' <= may_start n).
  { revert n n' os H. induction Hes as [|e es He _ IH]; intros n n' os H; simpl in H.
    - simplify_eq. simpl. lia.
    - apply rbind_ok in H as ([n1 o1] & H1 & H). apply rbind_ok in H as ([n2 o2] & H2 & H).
      simplify_eq. rewrite starts_app. specialize (IH _ _ _ H2).
      pose proof (handle_starts sh e n n1 o1 He H1). lia. }
  unfold may_start in Hb. split_and!.
  - destruct (started n) as [[]|]; lia.
  - intros E. rewrite E in Hb. lia.
Qed.

Lemma start_once_witness :
  exists n os, handle_all deck3 [E_gotoFirstSlide; E_gotoNextSlide; E_gotoLastSlide]
                 (initial_nav false) = Ok (n, os) /\ starts os <= 1 /\ starts os = 1.
Proof.
  eexists _, _. split; [vm_compute; reflexivity|]. split; [|vm_compute; reflexivity].
  apply (start_once deck3 [E_gotoFirstSlide; E_gotoNextSlide; E_gotoLastSlide] (initial_nav false)
    _ _ ltac:(repeat constructor; discriminate) ltac:(vm_compute; reflexivity)).
Defined.
