(* ===== verification/Inputs.v ===== *)
(** * Inputs (modules 7 to 12: defaultController and its inputs)

    Keyboard, mouse, touch, location hash and window messages, turned into events of
    the bus.  The handlers are registered in an event emitter, of which only the
    interface [Emitter] is used; the controller removes and restores them on pause
    and resume.  What a handler emits or asks of the browser is a list of outputs. *)

From S2P Require Import Prelude JsString JsRegExp RegExpFacts Events Slideshow Navigation.

(** ** Handlers, events, state *)

(** A handler registered by a call of [touch.register] shares the variables of that
    call: [c] says which. *)
Inductive handler :=
| HKeydown | HKeypress | HMessage | HNavigateByHash | HUpdateHash
| HClick | HContextmenu | HScroll
| HTouchstart (c : nat) | HTouchend (c : nat) | HTouchmove
| HPause | HResume.

#[export] Instance handler_eq : EqDecision handler.
Proof. solve_decision. Defined.

Record key_event := mkKey {
  metaKey : bool; ctrlKey : bool; altKey : bool; shiftKey : bool; keyCode : N; which : N
}.

Inductive input :=
| Keydown (e : key_event)
| Keypress (e : key_event)
| Click (nodeName : jsstr) (button : N)
| Contextmenu (nodeName : jsstr)
| Mousewheel (wheelDeltaY detail : option Z)
| DOMMouseScroll (wheelDeltaY detail : option Z)
| Touchstart (clientX : Z)
| Touchend (nodeName : jsstr) (clientX : Z)
| Touchmove
| Message (data : jsstr)
| Hashchange
| SlideChanged (n : option Z)
| ToggledPresenter (n : option Z)
| Pause
| Resume.

(** The name under which the event reaches the emitter. *)
Definition input_name (i : input) : jsstr :=
  match i with
  | Keydown _ => js "keydown" | Keypress _ => js "keypress"
  | Click _ _ => js "click" | Contextmenu _ => js "contextmenu"
  | Mousewheel _ _ => js "mousewheel" | DOMMouseScroll _ _ => js "DOMMouseScroll"
  | Touchstart _ => js "touchstart" | Touchend _ _ => js "touchend" | Touchmove => js "touchmove"
  | Message _ => js "message" | Hashchange => js "hashchange"
  | SlideChanged _ => js "slideChanged" | ToggledPresenter _ => js "toggledPresenter"
  | Pause => js "pause" | Resume => js "resume"
  end.

Inductive iout := IEmit (e : event) | IPreventDefault.

Record nav_options := mkNavOptions {
  o_click : bool;
  o_scroll : option bool;
  o_touch : option bool
}.

(** The variables [startX], [endX] of one registration; undefined at first. *)
Record touch_vars := mkTouch { startX : option Z; endX : option Z }.

Record inputs (E : Type) := mkInputs {
  events : E;
  _gotoSlideNumber : jsstr;
  touches : list touch_vars;
  hash : jsstr;
  presenterMode : bool
}.
Arguments mkInputs {E} _ _ _ _ _.
Arguments events {E} _.
Arguments _gotoSlideNumber {E} _.
Arguments touches {E} _.
Arguments hash {E} _.
Arguments presenterMode {E} _.

(** ** Handlers without access to the table *)

(** The listener of keydown: the new digits and what is emitted. *)
Definition keydown (e : key_event) (digits : jsstr) : jsstr * list iout :=
  if metaKey e || ctrlKey e || altKey e then (digits, [])
  else
    match keyCode e with
    | 33%N | 37%N | 38%N => (digits, [IEmit E_gotoPreviousSlide])
    | 32%N => (digits, [IEmit (if shiftKey e then E_gotoPreviousSlide else E_gotoNextSlide)])
    | 34%N | 39%N | 40%N => (digits, [IEmit E_gotoNextSlide])
    | 36%N => (digits, [IEmit E_gotoFirstSlide])
    | 35%N => (digits, [IEmit E_gotoLastSlide])
    | 27%N => (digits, [IEmit E_hideOverlay])
    | 13%N => match digits with
              | [] => (digits, [])
              | _ => ([], [IEmit (E_gotoSlideNumber digits)])
              end
    | _ => (digits, [])
    end.

(** [String.fromCharCode] takes the code modulo 2^16. *)
Definition fromCharCode (n : N) : jsstr := [(n mod 65536)%N].

(** The listener of keypress. *)
Definition keypress (e : key_event) (digits : jsstr) : jsstr * list iout :=
  if metaKey e || ctrlKey e then (digits, [])
  else
    let key := toLowerCase (fromCharCode (which e)) in
    let key_is (k : string) := bool_decide (key = js k) in
    let emits ev := (digits, [IEmit ev; IPreventDefault]) in
    if key_is "j" then emits E_gotoNextSlide
    else if key_is "k" then emits E_gotoPreviousSlide
    else if key_is "b" then emits (E_toggleBlackout None)
    else if key_is "m" then emits E_toggleMirrored
    else if key_is "c" then emits E_createClone
    else if key_is "p" then emits E_togglePresenterMode
    else if key_is "f" then emits E_toggleFullscreen
    else if key_is "s" then emits E_toggleTimer
    else if key_is "t" then emits E_resetTimer
    else if key_is "1" || key_is "2" || key_is "3" || key_is "4" || key_is "5" || key_is "6" || key_is "7" || key_is "8"
            || key_is "9" || key_is "0"
    then (digits ++ key, [IPreventDefault])
    else if key_is "h" || key_is "?" then emits E_toggleHelp
    else (digits, []).

Definition message_pattern : regexp := Eval vm_compute in re "^gotoSlide:(\d+)$" "".

(** [navigateByMessage(message)] *)
Definition navigateByMessage (data : jsstr) : list event :=
  match exec message_pattern data with
  | Some m =>
      match parseInt (default [] (cap m 1)) with
      | Some z => [E_gotoSlide (TNum z) true]
      | None => []
      end
  | None =>
      if bool_decide (data = js "toggleBlackout") then [E_toggleBlackout (Some false)] else []
  end.

(** [navigateByHash()] *)
Definition navigateByHash (hash : jsstr) : event := E_gotoSlide (TStr (substring_from hash 1)) false.

(** The hash that [updateHash(slideNoOrName)] sets. *)
Definition updateHash (presenterMode : bool) (slideNo : option Z) : jsstr :=
  if presenterMode then js "#p" ++ idx_toString slideNo else js "#" ++ idx_toString slideNo.

Definition gt0 (z : option Z) : bool := match z with Some z => (0 <? z)%Z | None => false end.
Definition lt0 (z : option Z) : bool := match z with Some z => (z <? 0)%Z | None => false end.

Definition click (nodeName : jsstr) (button : N) : list iout :=
  if bool_decide (nodeName = js "A") then []
  else if (button =? 0)%N then [IEmit E_gotoNextSlide] else [].

Definition contextmenu (nodeName : jsstr) : list iout :=
  if bool_decide (nodeName = js "A") then [] else [IPreventDefault; IEmit E_gotoPreviousSlide].

Definition scrollHandler (wheelDeltaY detail : option Z) : list iout :=
  if gt0 wheelDeltaY || lt0 detail then [IEmit E_gotoPreviousSlide]
  else if lt0 wheelDeltaY || gt0 detail then [IEmit E_gotoNextSlide]
  else [].

(** The listener of touchend, with [isTap], [handleTap] and [handleSwipe]; an
    undefined start makes the distance NaN and every comparison false. *)
Definition touchend (nodeName : jsstr) (clientX : Z) (v : touch_vars) : touch_vars * list iout :=
  if bool_decide (toUpperCase nodeName = js "A") then (v, [])
  else
    let v' := mkTouch (startX v) (Some clientX) in
    let isTap := match startX v with Some x => (Z.abs (x - clientX) <? 10)%Z | None => false end in
    let leftwards := match startX v with Some x => (clientX <? x)%Z | None => false end in
    (v', [IEmit (if isTap then E_tap clientX
                 else if leftwards then E_gotoNextSlide else E_gotoPreviousSlide)]).

Definition touchstart (clientX : Z) (v : touch_vars) : touch_vars := mkTouch (Some clientX) (endX v).

(** ** Registration and dispatch *)

Section Inputs.
Context {E : Type} `{Emitter E handler}.
Context (opts : nav_options).

Definition on (t : string) (h : handler) (s : inputs E) : inputs E :=
  mkInputs (em_on (js t) h (events s)) (_gotoSlideNumber s) (touches s) (hash s) (presenterMode s).

Definition removeAllListeners (t : string) (s : inputs E) : inputs E :=
  mkInputs (em_removeAll (js t) (events s)) (_gotoSlideNumber s) (touches s) (hash s)
    (presenterMode s).

Definition with_digits (d : jsstr) (s : inputs E) : inputs E :=
  mkInputs (events s) d (touches s) (hash s) (presenterMode s).
Definition with_touches (t : list touch_vars) (s : inputs E) : inputs E :=
  mkInputs (events s) (_gotoSlideNumber s) t (hash s) (presenterMode s).
Definition with_hash (h : jsstr) (s : inputs E) : inputs E :=
  mkInputs (events s) (_gotoSlideNumber s) (touches s) h (presenterMode s).

Definition keyboard_activate (s : inputs E) : inputs E :=
  on "keypress" HKeypress (on "keydown" HKeydown (with_digits [] s)).

Definition keyboard_deactivate (s : inputs E) : inputs E :=
  removeAllListeners "keypress" (removeAllListeners "keydown" s).

Definition mouse_register (s : inputs E) : inputs E :=
  let s := if o_click opts then on "contextmenu" HContextmenu (on "click" HClick s) else s in
  if bool_decide (o_scroll opts <> Some false)
  then on "DOMMouseScroll" HScroll (on "mousewheel" HScroll s) else s.

Definition mouse_unregister (s : inputs E) : inputs E :=
  removeAllListeners "mousewheel" (removeAllListeners "contextmenu" (removeAllListeners "click" s)).

Definition touch_register (s : inputs E) : inputs E :=
  if bool_decide (o_touch opts = Some false) then s
  else
    let c := length (touches s) in
    on "touchmove" HTouchmove (on "touchend" (HTouchend c) (on "touchstart" (HTouchstart c)
      (with_touches (touches s ++ [mkTouch None None]) s))).

Definition touch_unregister (s : inputs E) : inputs E :=
  removeAllListeners "touchmove" (removeAllListeners "touchend" (removeAllListeners "touchstart" s)).

Definition message_register (s : inputs E) : inputs E := on "message" HMessage s.

(** [location.register]: in an embedded show only the first slide is asked for. *)
Definition location_register (embedded : bool) (s : inputs E) : inputs E * list iout :=
  if embedded then (s, [IEmit (E_gotoSlide (TNum 1) false)])
  else
    let s := on "toggledPresenter" HUpdateHash (on "slideChanged" HUpdateHash
               (on "hashchange" HNavigateByHash s)) in
    (s, [IEmit (navigateByHash (hash s))]).

(** [Controller(events, dom, slideshowView, options)] *)
Definition controller (embedded : bool) (s : inputs E) : inputs E * list iout :=
  let s := keyboard_activate s in
  let s := message_register s in
  let '(s, out) := location_register embedded s in
  let s := touch_register (mouse_register s) in
  (on "resume" HResume (on "pause" HPause s), out).

Definition pause_handler (s : inputs E) : inputs E :=
  touch_unregister (mouse_unregister (keyboard_deactivate s)).
Definition resume_handler (s : inputs E) : inputs E :=
  touch_register (mouse_register (keyboard_activate s)).

(** A call of one listener with one event. *)
Definition call_handler (h : handler) (i : input) (s : inputs E) : inputs E * list iout :=
  match h, i with
  | HKeydown, Keydown e =>
      let '(d, out) := keydown e (_gotoSlideNumber s) in (with_digits d s, out)
  | HKeypress, Keypress e =>
      let '(d, out) := keypress e (_gotoSlideNumber s) in (with_digits d s, out)
  | HMessage, Message data => (s, map IEmit (navigateByMessage data))
  | HNavigateByHash, Hashchange => (s, [IEmit (navigateByHash (hash s))])
  | HUpdateHash, SlideChanged n | HUpdateHash, ToggledPresenter n =>
      (with_hash (updateHash (presenterMode s) n) s, [])
  | HClick, Click nodeName button => (s, click nodeName button)
  | HContextmenu, Contextmenu nodeName => (s, contextmenu nodeName)
  | HScroll, Mousewheel y d | HScroll, DOMMouseScroll y d => (s, scrollHandler y d)
  | HTouchstart c, Touchstart x => (with_touches (alter (touchstart x) c (touches s)) s, [])
  | HTouchend c, Touchend nodeName x =>
      match touches s !! c with
      | Some v => let '(v', out) := touchend nodeName x v in
                  (with_touches (<[c := v']> (touches s)) s, out)
      | None => (s, [])
      end
  | HTouchmove, Touchmove => (s, [IPreventDefault])
  | HPause, Pause => (pause_handler s, [])
  | HResume, Resume => (resume_handler s, [])
  | _, _ => (s, [])
  end.

Fixpoint call_all (hs : list handler) (i : input) (s : inputs E) : inputs E * list iout :=
  match hs with
  | [] => (s, [])
  | h :: t => let '(s1, o1) := call_handler h i s in
              let '(s2, o2) := call_all t i s1 in (s2, o1 ++ o2)
  end.

(** An event reaches the listeners registered for it, in order. *)
Definition dispatch (i : input) (s : inputs E) : inputs E * list iout :=
  call_all (em_listeners (events s) (input_name i)) i s.

Fixpoint dispatch_all (evs : list input) (s : inputs E) : inputs E * list iout :=
  match evs with
  | [] => (s, [])
  | i :: t => let '(s1, o1) := dispatch i s in
              let '(s2, o2) := dispatch_all t s1 in (s2, o1 ++ o2)
  end.
End Inputs.

(** ** Auxiliary results *)

Lemma at_end_moved fl n s s' : moved n s s' -> n = length (st_rest s) -> at_eol fl s' = true.
Proof. intros (_ & _ & Hr & _) ->. unfold at_eol. by rewrite Hr, drop_all. Qed.

Lemma message_exec w :
  w <> [] -> Forall (fun c => is_digit c = true) w ->
  exists m, exec message_pattern (js "gotoSlide:" ++ w) = Some m /\ cap m 1 = Some w.
Proof.
  intros Hne Hw. rewrite exec_anchored by done. unfold match_here.
  set (fl := re_flags message_pattern). set (st0 := mkState 0 None _ _).
  set (st1 := mkState 10 (Some 58%N) w [None; None]).
  set (k := fun s' => let s2 := set_cap 1 (Some (take (st_pos s' - 10) w)) s' in
                      if at_eol fl s2 then Some s2 else None).
  assert (Em : mtch fl (re_node message_pattern) st0 Some = mtch fl digits_node st1 k)
    by reflexivity.
  rewrite Em, (mtch_digits fl w st1 k (set_cap 1 (Some w) (advance_n (length w) st1))); try done.
  - eexists. split; [done|]. unfold cap. cbn [m_caps]. rewrite list_lookup_insert_ne by done.
    simpl. rewrite list_lookup_insert_eq; [done|]. rewrite advance_n_caps. simpl. lia.
  - intros s' Hm Hc. unfold k. pose proof (at_end_moved fl _ _ _ Hm eq_refl) as He.
    pose proof Hm as (_ & Hp & Hr & Hv & _).
    destruct (moved_advance_n (length w) st1 (Nat.le_refl _)) as (_ & Hp' & Hr' & Hv' & _).
    rewrite Hp. change (st_pos st1) with 10. rewrite Nat.add_comm, Nat.add_sub, firstn_all.
    change (at_eol fl (set_cap 1 (Some w) s')) with (at_eol fl s'). rewrite He.
    unfold set_cap. by rewrite Hp, Hp', Hr, Hr', Hv, Hv', Hc, advance_n_caps.
Qed.

Lemma presenter_test w :
  w <> [] -> Forall (fun c => is_digit c = true) w -> test presenter_pattern (js "p" ++ w) = true.
Proof.
  intros Hne Hw. unfold test. rewrite exec_anchored by done. unfold match_here.
  set (fl := re_flags presenter_pattern). set (st0 := mkState 0 None _ _).
  set (st1 := mkState 1 (Some 112%N) w [None]).
  set (k := fun s' => if at_eol fl s' then Some s' else None).
  assert (Em : mtch fl (re_node presenter_pattern) st0 Some = mtch fl digits_node st1 k)
    by reflexivity.
  destruct (mtch fl digits_node st1 k) as [z|] eqn:Ez; [by rewrite Em|].
  enough (mtch fl digits_node st1 k = Some (advance_n (length w) st1)) by congruence.
  apply (mtch_digits fl w); try done. intros s' Hm Hc. unfold k.
  rewrite (at_end_moved fl _ _ _ Hm eq_refl). pose proof Hm as (_ & Hp & Hr & Hv & _).
  destruct (moved_advance_n (length w) st1 (Nat.le_refl _)) as (_ & Hp' & Hr' & Hv' & _).
  f_equal. destruct s', (advance_n (length w) st1) eqn:Ea. simpl in *.
  pose proof (advance_n_caps (length w) st1) as Hc'. rewrite Ea in Hc'. simpl in *. congruence.
Qed.

Definition ordinaryb (t : jsstr) : bool :=
  negb (bool_decide (t = s_newListener)) && negb (bool_decide (t = s_removeListener))
  && negb (bool_decide (t ∈ object_prototype)).

Lemma ordinaryb_ok t : ordinaryb t = true -> ordinary t.
Proof.
  unfold ordinaryb. rewrite !andb_true_iff, !negb_true_iff, !bool_decide_eq_false. by intros [[? ?] ?].
Qed.

(** A literal event name. *)
Ltac event_name := apply ordinaryb_ok; vm_compute; reflexivity.

Section Tables.
Context {E : Type} `{Emitter E handler}.
Implicit Types (s : inputs E).

Definition ok s : Prop := em_ok (events s).
Definition heard s (t : jsstr) : list handler := em_listeners (events s) t.

Lemma on_ok t h s : ordinaryb (js t) = true -> ok s -> ok (on t h s).
Proof. intros Ht%ordinaryb_ok Hs. by apply em_on_ok. Qed.

Lemma removeAll_ok t s : ordinaryb (js t) = true -> ok s -> ok (removeAllListeners t s).
Proof. intros Ht%ordinaryb_ok Hs. by apply em_removeAll_ok. Qed.

Lemma heard_on t h s t' : ordinaryb (js t) = true -> ok s ->
  heard (on t h s) t' = if bool_decide (t' = js t) then heard s (js t) ++ [h] else heard s t'.
Proof. intros Ht%ordinaryb_ok Hs. by apply em_on_listeners. Qed.

Lemma heard_removeAll t s t' : ordinaryb (js t) = true -> ok s ->
  heard (removeAllListeners t s) t' = if bool_decide (t' = js t) then [] else heard s t'.
Proof. intros Ht%ordinaryb_ok Hs. by apply em_removeAll_listeners. Qed.

(** Registrations of [s'] are those of [s] up to fields outside the table. *)
Lemma ok_events s s' : events s' = events s -> ok s -> ok s'.
Proof. unfold ok. by intros ->. Qed.
End Tables.

(** The table stays well formed after literal registrations. *)
Ltac table_ok :=
  repeat lazymatch goal with
  | |- ok (on _ _ _) => apply on_ok; [vm_compute; reflexivity|]
  | |- ok (removeAllListeners _ _) => apply removeAll_ok; [vm_compute; reflexivity|]
  | |- ok (with_digits _ ?s) => change (ok s)
  | |- ok (with_touches _ ?s) => change (ok s)
  end; assumption.

(** Looks up literal events after literal registrations. *)
Ltac hear :=
  repeat first
    [ rewrite heard_on by first [vm_compute; reflexivity|table_ok]
    | rewrite heard_removeAll by first [vm_compute; reflexivity|table_ok]
    | match goal with
      | |- context [heard (with_digits ?d ?s) ?t] => change (heard (with_digits d s) t) with (heard s t)
      | |- context [heard (with_touches ?d ?s) ?t] => change (heard (with_touches d s) t) with (heard s t)
      | |- context [bool_decide (js (String ?a ?a') = js (String ?b ?b'))] =>
          let p := constr:(bool_decide (js (String a a') = js (String b b'))) in
          let r := eval vm_compute in p in change p with r; cbv iota
      end ].

Section Facts.
Context {E : Type} `{Emitter E handler} (opts : nav_options).
Implicit Types (s : inputs E).

(** The events a paused presentation must not react to. *)
Definition silenced (i : input) : bool :=
  match i with
  | Keydown _ | Keypress _ | Click _ _ | Contextmenu _ | Mousewheel _ _ | Touchstart _
  | Touchend _ _ | Touchmove => true
  | _ => false
  end.

Lemma pause_heard s i : ok s -> silenced i = true -> heard (pause_handler s) (input_name i) = [].
Proof.
  intros Hs. unfold pause_handler, touch_unregister, mouse_unregister, keyboard_deactivate.
  destruct i; simpl; try discriminate; intros _; hear; reflexivity.
Qed.

Lemma mouse_register_ok s : ok s -> ok (mouse_register opts s).
Proof. intros Hs. unfold mouse_register. destruct (o_click opts), (bool_decide _); table_ok. Qed.

Lemma touch_register_ok s : ok s -> ok (touch_register opts s).
Proof. intros Hs. unfold touch_register. destruct (bool_decide _); table_ok. Qed.

Lemma mouse_register_heard s (t : string) :
  ok s -> forallb (fun x => negb (bool_decide (js t = js x)))
            ["click"; "contextmenu"; "mousewheel"; "DOMMouseScroll"]%string = true ->
  heard (mouse_register opts s) (js t) = heard s (js t).
Proof.
  simpl forallb. intros Hs Ht. rewrite !andb_true_iff, !negb_true_iff, !bool_decide_eq_false in Ht.
  destruct Ht as (? & ? & ? & ? & _).
  unfold mouse_register. destruct (o_click opts), (bool_decide (_ <> _)); hear;
    by rewrite ?bool_decide_eq_false_2.
Qed.

Lemma mouse_register_scroll s :
  ok s -> o_scroll opts <> Some false ->
  heard (mouse_register opts s) (js "DOMMouseScroll") = heard s (js "DOMMouseScroll") ++ [HScroll].
Proof.
  intros Hs Ho. unfold mouse_register. rewrite (bool_decide_eq_true_2 _ Ho).
  by destruct (o_click opts); hear.
Qed.

Lemma touch_register_heard s (t : string) :
  ok s -> forallb (fun x => negb (bool_decide (js t = js x)))
            ["touchstart"; "touchend"; "touchmove"]%string = true ->
  heard (touch_register opts s) (js t) = heard s (js t).
Proof.
  simpl forallb. intros Hs Ht. rewrite !andb_true_iff, !negb_true_iff, !bool_decide_eq_false in Ht.
  destruct Ht as (? & ? & ? & _).
  unfold touch_register. destruct (bool_decide (_ = Some false)); hear;
    by rewrite ?bool_decide_eq_false_2.
Qed.

(** What the controller has registered once it is built, from an empty table. *)
Definition started_up (embedded : bool) s : Prop :=
  exists s0, ok s0 /\ (forall t, heard s0 t = []) /\ s = fst (controller opts embedded s0).

Lemma location_register_ok embedded s : ok s -> ok (fst (location_register embedded s)).
Proof. intros Hs. destruct embedded; simpl; table_ok. Qed.

Lemma controller_unfold embedded s0 :
  fst (controller opts embedded s0) = on "resume" HResume (on "pause" HPause
    (touch_register opts (mouse_register opts
      (fst (location_register embedded (message_register (keyboard_activate s0))))))).
Proof. unfold controller. by destruct (location_register _ _). Qed.

Lemma startup_ok embedded s0 :
  ok s0 -> ok (fst (location_register embedded (message_register (keyboard_activate s0)))).
Proof. intros Hs. apply location_register_ok. unfold message_register, keyboard_activate. table_ok. Qed.

Lemma started_up_heard embedded s : started_up embedded s ->
  ok s /\ heard s (js "pause") = [HPause] /\ heard s (js "resume") = [HResume] /\
  heard s (js "keydown") = [HKeydown] /\ heard s (js "keypress") = [HKeypress] /\
  (o_scroll opts <> Some false -> heard s (js "DOMMouseScroll") = [HScroll]).
Proof.
  intros (s0 & Hs0 & He & ->). rewrite controller_unfold.
  pose proof (startup_ok embedded s0 Hs0) as H1. pose proof (mouse_register_ok _ H1) as H2.
  pose proof (touch_register_ok _ H2) as H3.
  split; [table_ok|].
  assert (Hb : forall t : string,
    forallb (fun x => negb (bool_decide (js t = js x)))
      ["hashchange"; "slideChanged"; "toggledPresenter"]%string = true ->
    heard (fst (location_register embedded (message_register (keyboard_activate s0)))) (js t)
    = heard (message_register (keyboard_activate s0)) (js t)).
  { simpl forallb. intros t Ht.
    rewrite !andb_true_iff, !negb_true_iff, !bool_decide_eq_false in Ht.
    destruct Ht as (? & ? & ? & _). destruct embedded; [done|].
    assert (Hm : ok (message_register (keyboard_activate s0)))
      by (unfold message_register, keyboard_activate; table_ok).
    unfold location_register. cbn [fst]. hear. by rewrite !bool_decide_eq_false_2. }
  split_and!; hear; rewrite ?touch_register_heard, ?mouse_register_heard, ?mouse_register_scroll, ?Hb
    by first [assumption|vm_compute; reflexivity];
    unfold message_register, keyboard_activate; hear; rewrite ?He; try done.
  intros Ho. rewrite mouse_register_scroll by done.
  rewrite Hb by (vm_compute; reflexivity). unfold message_register, keyboard_activate.
  hear. by rewrite He.
Qed.

Lemma dispatch_heard i s hs : heard s (input_name i) = hs -> dispatch opts i s = call_all opts hs i s.
Proof. unfold dispatch, heard. by intros ->. Qed.

(** A key pressed without modifiers, by character code; and the Return key. *)
Definition plain (c : N) : key_event := mkKey false false false false 0 c.
Definition return_key : key_event := mkKey false false false false 13 13.

Lemma keypress_digit c d : is_digit c = true -> keypress (plain c) d = (d ++ [c], [IPreventDefault]).
Proof.
  unfold is_digit, in_range. intros [H1%N.leb_le H2%N.leb_le]%andb_prop.
  assert (Hc : c = 48%N \/ c = 49%N \/ c = 50%N \/ c = 51%N \/ c = 52%N \/ c = 53%N \/ c = 54%N
    \/ c = 55%N \/ c = 56%N \/ c = 57%N) by lia.
  repeat destruct Hc as [->|Hc]; [reflexivity..|]. subst. reflexivity.
Qed.

Lemma type_digits w : forall s, Forall (fun c => is_digit c = true) w ->
  heard s (js "keypress") = [HKeypress] ->
  dispatch_all opts (map (fun c => Keypress (plain c)) w) s
  = (with_digits (_gotoSlideNumber s ++ w) s, replicate (length w) IPreventDefault).
Proof.
  induction w as [|c w IH]; intros s Hw Hk; simpl.
  - rewrite app_nil_r. by destruct s.
  - apply Forall_cons in Hw as [Hc Hw]. rewrite (dispatch_heard (Keypress (plain c)) s _ Hk). cbn [call_all call_handler].
    rewrite (keypress_digit _ _ Hc), IH by done. simpl. by rewrite <- app_assoc.
Qed.

Lemma dispatch_all_app a b s :
  dispatch_all opts (a ++ b) s
  = let '(s1, o1) := dispatch_all opts a s in
    let '(s2, o2) := dispatch_all opts b s1 in (s2, o1 ++ o2).
Proof.
  revert s. induction a as [|i a IH]; intros s; simpl.
  - by destruct (dispatch_all opts b s).
  - destruct (dispatch opts i s) as [s1 o1]. rewrite IH.
    destruct (dispatch_all opts a s1) as [s2 o2], (dispatch_all opts b s2). by rewrite app_assoc.
Qed.
End Facts.

(** The bus events among the outputs. *)
Definition emitted (os : list iout) : list event :=
  omap (fun o => match o with IEmit e => Some e | IPreventDefault => None end) os.

Definition is_post (o : output) : bool := match o with Post _ _ => true | _ => false end.

Lemma navigateByMessage_number n :
  navigateByMessage (js "gotoSlide:" ++ dec n) = [E_gotoSlide (TNum (Z.of_N n)) true].
Proof.
  unfold navigateByMessage.
  destruct (message_exec (dec n) (dec_nonempty n) (dec_digits n)) as (m & -> & ->). simpl.
  by rewrite parseInt_dec.
Qed.

Lemma idx_toString_N n : idx_toString (Some (Z.of_N n)) = dec n.
Proof. by destruct n. Qed.

Lemma message_not_post n d : forall o, o ∈ messages n d -> exists w, o = Post w d.
Proof.
  unfold messages. intros o. rewrite elem_of_app.
  destruct (clone n) as [[]|], (opener n); rewrite ?elem_of_nil, ?list_elem_of_singleton; naive_solver.
Qed.

Lemma goto_lands sh i b n :
  (0 <= i < Z.of_nat (getSlideCount sh))%Z ->
  currentSlideIndex (fst (gotoSlideByIndex sh (Some i) b n)) = Some i.
Proof.
  intros Hi. destruct (goto_cases sh (Some i) b n) as [[-> [He|He]]|(_ & _ & Hc)]; [done| | |done].
  - simpl. destruct (currentSlideIndex n) as [z|]; [|done]. simpl in He.
    by apply Z.eqb_eq in He as ->.
  - simpl in He. apply andb_false_iff in He. rewrite Z.leb_gt, Z.ltb_ge in He. lia.
Qed.

Lemma goto_posts sh i b n o :
  o ∈ snd (gotoSlideByIndex sh i b n) -> is_post o = true ->
  b = false /\ exists w, o = Post w (js "gotoSlide:" ++ idx_toString (idx_add1 i)).
Proof.
  unfold gotoSlideByIndex. destruct (_ || _); [by rewrite elem_of_nil|].
  destruct (idx_eq (currentSlideIndex n) _), (started n) as [[]|], b; cbn [snd];
    rewrite ?elem_of_app, ?elem_of_cons, ?elem_of_nil; intros Ho Hp;
    destruct_or?; subst; try done; by apply message_not_post in Ho.
Qed.

(** ** Properties *)

(** While the presentation is paused, keys, clicks, wheel and touch events have
    no effect at all. *)
Theorem pause_silent {E : Type} `{Emitter E handler} (opts : nav_options) (s : inputs E) (i : input) :
  ok s -> silenced i = true -> dispatch opts i (pause_handler s) = (pause_handler s, []).
Proof. intros Hs Hi. by rewrite (dispatch_heard opts i _ [] (pause_heard s i Hs Hi)). Qed.

(** The listener of DOMMouseScroll survives a pause, and resuming adds another:
    after one pause and resume, a single scroll event in Firefox moves two slides. *)
Theorem pause_resume_scrolls_twice {E : Type} `{Emitter E handler} (opts : nav_options)
    (embedded : bool) (s : inputs E) :
  started_up opts embedded s -> o_scroll opts <> Some false ->
  emitted (snd (dispatch_all opts [DOMMouseScroll None (Some 1%Z)] s)) = [E_gotoNextSlide] /\
  emitted (snd (dispatch_all opts [Pause; Resume; DOMMouseScroll None (Some 1%Z)] s))
  = [E_gotoNextSlide; E_gotoNextSlide].
Proof.
  intros Hs Ho. destruct (started_up_heard opts embedded s Hs) as (Hok & Hp & Hr & _ & _ & Hd).
  specialize (Hd Ho). cbn [dispatch_all]. rewrite (dispatch_heard opts (DOMMouseScroll _ _) s _ Hd).
  split; [done|]. rewrite (dispatch_heard opts Pause s _ Hp). cbn [call_all call_handler].
  assert (Hpok : ok (pause_handler s)).
  { unfold pause_handler, touch_unregister, mouse_unregister, keyboard_deactivate. table_ok. }
  assert (Hpd : forall t : string, forallb (fun x => negb (bool_decide (js t = js x)))
      ["keydown"; "keypress"; "click"; "contextmenu"; "mousewheel"; "touchstart"; "touchend";
       "touchmove"]%string = true -> heard (pause_handler s) (js t) = heard s (js t)).
  { simpl forallb. intros t Ht. rewrite !andb_true_iff, !negb_true_iff, !bool_decide_eq_false in Ht.
    destruct Ht as (? & ? & ? & ? & ? & ? & ? & ? & _).
    unfold pause_handler, touch_unregister, mouse_unregister, keyboard_deactivate. hear.
    by rewrite !bool_decide_eq_false_2. }
  rewrite (dispatch_heard opts Resume (pause_handler s) [HResume])
    by (change (input_name Resume) with (js "resume"); rewrite Hpd; [done|vm_compute; reflexivity]).
  cbn [call_all call_handler].
  rewrite (dispatch_heard opts (DOMMouseScroll _ _) (resume_handler opts (pause_handler s))
    [HScroll; HScroll]); [done|].
  assert (Hk : ok (keyboard_activate (pause_handler s))) by (unfold keyboard_activate; table_ok).
  unfold resume_handler. change (input_name _) with (js "DOMMouseScroll").
  rewrite touch_register_heard by first [by apply mouse_register_ok|vm_compute; reflexivity].
  rewrite mouse_register_scroll by done. unfold keyboard_activate. hear.
  rewrite Hpd, Hd by (vm_compute; reflexivity). done.
Qed.

(** C31. Typing a slide number and Return shows the first slide that carries this
    number. *)
Theorem typed_number {E : Type} `{Emitter E handler} (opts : nav_options) (embedded : bool)
    (s : inputs E) (sh : slideshow) (n : N) (ids : list nat) (id : nat) (vm : SlideModel.slide_vm)
    (nv : nav) :
  started_up opts embedded s -> _gotoSlideNumber s = [] ->
  getSlidesByNumber sh (Some (Z.of_N n)) = Ok (Some (id :: ids)) ->
  sh_objs sh !! id = Some vm -> SlideModel.s_index vm < getSlideCount sh ->
  exists nv' os,
    handle_all sh (emitted (snd (dispatch_all opts
      (map (fun c => Keypress (plain c)) (dec n) ++ [Keydown return_key]) s))) nv = Ok (nv', os) /\
    currentSlideIndex nv' = Some (Z.of_nat (SlideModel.s_index vm)).
Proof.
  intros Hs Hg Hn Hid Hlt.
  destruct (started_up_heard opts embedded s Hs) as (Hok & _ & _ & Hd & Hp & _).
  rewrite dispatch_all_app, type_digits by (done || apply dec_digits). rewrite Hg. cbn [app].
  cbn [dispatch_all]. rewrite (dispatch_heard opts (Keydown return_key) (with_digits (dec n) s) [HKeydown] Hd).
  cbn [call_all call_handler]. unfold keydown. cbn [metaKey ctrlKey altKey return_key orb keyCode].
  change (_gotoSlideNumber (with_digits (dec n) s)) with (dec n).
  assert (Er : forall k, emitted (replicate k IPreventDefault ++ [IEmit (E_gotoSlideNumber (dec n))])
    = [E_gotoSlideNumber (dec n)]) by (induction k; [done|exact IHk]).
  pose proof (dec_nonempty n) as Hne. destruct (dec n) as [|d ds] eqn:Ed; [done|].
  cbn [snd app]. rewrite Er.
  cbn [handle_all handle]. unfold gotoSlideNumber. rewrite <- Ed, parseInt_dec, Hn. cbn [rbind].
  rewrite Hid. pose proof (goto_lands sh (Z.of_nat (SlideModel.s_index vm)) false nv) as Hl.
  destruct (gotoSlideByIndex sh _ false nv) as [nv' os]. eexists _, _. split; [done|].
  apply Hl. lia.
Qed.

(** Windows stay in step: when a window posts the slide it moved to, any window
    with the same deck that receives the message is on that slide afterwards, and
    posts nothing in turn. *)
Theorem message_sync (sh : slideshow) (i : N) (nA nB : nav) (w : window) (data : jsstr) :
  (Z.of_N i < Z.of_nat (getSlideCount sh))%Z ->
  Post w data ∈ snd (gotoSlideByIndex sh (Some (Z.of_N i)) false nA) ->
  exists nB' os, handle_all sh (navigateByMessage data) nB = Ok (nB', os) /\
    currentSlideIndex nB' = Some (Z.of_N i) /\ Forall (fun o => is_post o = false) os.
Proof.
  intros Hi Hp. destruct (goto_posts _ _ _ _ _ Hp eq_refl) as (_ & w' & Hd).
  assert (data = js "gotoSlide:" ++ idx_toString (Some (Z.succ (Z.of_N i)))) as ->
    by (by inversion Hd).
  rewrite <- N2Z.inj_succ, idx_toString_N, navigateByMessage_number.
  cbn [handle_all handle]. unfold gotoSlide. cbn [getSlideIndex rbind].
  replace (Z.of_N (N.succ i) - 1)%Z with (Z.of_N i) by lia.
  pose proof (goto_lands sh (Z.of_N i) true nB) as Hl.
  pose proof (fun o => goto_posts sh (Some (Z.of_N i)) true nB o) as Ho.
  destruct (gotoSlideByIndex sh _ true nB) as [nB' os]. eexists _, _. split; [done|].
  split; [apply Hl; lia|]. rewrite app_nil_r. apply Forall_forall. intros o Hin.
  destruct (is_post o) eqn:Eo; [|done]. by destruct (Ho o Hin Eo).
Qed.

(** The hash that is set when a slide is shown leads back to that slide when
    the page is opened with it, and to the presenter mode when it was set there. *)
Theorem hash_roundtrip (sh : slideshow) (presenter : bool) (k : N) :
  getSlideIndex sh (TStr (substring_from (updateHash presenter (Some (Z.of_N k))) 1))
  = Ok (Some (Z.of_N k - 1)%Z, if presenter then [Emit E_forcePresenterMode] else []).
Proof.
  unfold updateHash. rewrite idx_toString_N. pose proof (dec_digits k) as Hd.
  pose proof (dec_nonempty k) as Hne. destruct presenter.
  - change (substring_from (js "#p" ++ dec k) 1) with (js "p" ++ dec k).
    cbn [getSlideIndex]. rewrite presenter_test by done. rewrite bool_decide_eq_false_2.
    + change (substring_from (js "p" ++ dec k) 1) with (dec k). by rewrite parseInt_dec.
    + change (parseInt (js "p" ++ dec k)) with (@None Z). discriminate.
  - change (substring_from (js "#" ++ dec k) 1) with (dec k).
    cbn [getSlideIndex]. by rewrite parseInt_dec, idx_toString_N, bool_decide_eq_true_2.
Qed.

(** ** Witnesses *)

Definition inputs0 : inputs (emitter handler) := mkInputs newEmitter [] [] (js "#1") false.
Definition opts0 : nav_options := mkNavOptions true None None.

Lemma inputs0_ok : ok inputs0.
Proof. split; [exact newEmitter_wf|split; vm_compute; reflexivity]. Qed.

Lemma inputs0_started : started_up opts0 false (fst (controller opts0 false inputs0)).
Proof.
  exists inputs0. split; [exact inputs0_ok|]. split; [|reflexivity].
  intros t. unfold heard. cbn. unfold user_listeners, listeners, get_slot. simpl.
  by case_bool_decide.
Qed.

Lemma pause_silent_witness :
  dispatch opts0 (Keypress (plain 106)) (pause_handler inputs0) = (pause_handler inputs0, []).
Proof. apply (pause_silent opts0 inputs0); [exact inputs0_ok|reflexivity]. Defined.

Lemma pause_resume_scrolls_twice_witness :
  emitted (snd (dispatch_all opts0 [Pause; Resume; DOMMouseScroll None (Some 1%Z)]
    (fst (controller opts0 false inputs0)))) = [E_gotoNextSlide; E_gotoNextSlide].
Proof.
  apply (pause_resume_scrolls_twice opts0 false); [exact inputs0_started|discriminate].
Defined.

Lemma typed_number_witness :
  exists nv' os,
    handle_all deck3 (emitted (snd (dispatch_all opts0
      (map (fun c => Keypress (plain c)) (dec 2) ++ [Keydown return_key])
      (fst (controller opts0 false inputs0))))) (initial_nav false) = Ok (nv', os) /\
    currentSlideIndex nv' = Some 1%Z.
Proof.
  set (vm := default (SlideModel.mkVM 0 0 ∅ ∅ [] (SlideModel.NStr [])) (sh_objs deck3 !! 1)).
  change 1%Z with (Z.of_nat (SlideModel.s_index vm)).
  apply (typed_number opts0 false (fst (controller opts0 false inputs0)) deck3 2 [2] 1 vm
    (initial_nav false) inputs0_started eq_refl); vm_compute; first [reflexivity|lia].
Defined.

Lemma message_sync_witness :
  exists nB' os, handle_all deck3 (navigateByMessage (js "gotoSlide:2")) at_last = Ok (nB', os) /\
    currentSlideIndex nB' = Some 1%Z /\ Forall (fun o => is_post o = false) os.
Proof.
  apply (message_sync deck3 1 (initial_nav true) at_last OpenerWindow); [vm_compute; reflexivity|].
  vm_compute. by repeat constructor.
Defined.
