(* ===== verification/Timer.v ===== *)
(** * The presentation timer (component timer.js)

    A stopwatch driven by events of the bus and by a tick every 100 ms.  The clock
    is an input: a tick and a reset carry the value of [new Date().getTime()], an
    integer number of milliseconds. *)

From S2P Require Import Prelude JsString.
Local Open Scope Z_scope.

(** ** State *)

Inductive timer_state := INITIAL | RUNNING | PAUSED.

#[export] Instance timer_state_eq : EqDecision timer_state.
Proof. solve_decision. Defined.

Record chronos := mkChronos { currentTick : Z; lastTick : Z; elapsedTime : Z }.

Record timer_options := mkTimerOptions { enabled : bool; resetable : bool; startOnChange : bool }.

(** The default values, under the options of the user. *)
Definition default_timer_options : timer_options := mkTimerOptions true true true.

Record timer := mkTimer {
  t_chronos : chronos;
  t_state : timer_state;
  (** the text of the element, and whether it is hidden *)
  t_html : jsstr;
  t_hidden : bool
}.

(** ** The formatter *)

(** [Math.floor(n / d)] *)
Definition idiv (n d : Z) : Z := n / d.

Fixpoint padStart_loop (fuel : nat) (result : jsstr) (length : nat) (pad : jsstr) : jsstr :=
  match fuel with
  | O => result
  | S fuel =>
      if (List.length result <? length)%nat then padStart_loop fuel (pad ++ result) length pad
      else result
  end.

(** [padStart(s, length, pad)] for a pad of one character: at most [length] rounds. *)
Definition padStart (s : jsstr) (length : nat) (pad : jsstr) : jsstr :=
  padStart_loop length s length pad.

(** JavaScript's [%] takes the sign of the dividend. *)
Definition defaultFormatter (elapsed : Z) : jsstr :=
  let left := elapsed in
  let left := idiv left 1000 in
  let seconds := Z.rem left 60 in
  let left := idiv left 60 in
  let minutes := Z.rem left 60 in
  let left := idiv left 60 in
  let hours := left in
  decZ hours ++ js ":" ++
  join (js ":") (map (fun d => padStart (decZ d) 2 (js "0")) [minutes; seconds]).

(** ** Operations *)

Definition newChronos (now : Z) : chronos := mkChronos now now 0.

Definition chronos_tick (now : Z) (c : chronos) : chronos := mkChronos now (currentTick c) (elapsedTime c).

Definition addDelta (c : chronos) : chronos :=
  mkChronos (currentTick c) (lastTick c) (elapsedTime c + (currentTick c - lastTick c)).

Definition update (s : timer_state) (c : chronos) : chronos :=
  match s with RUNNING => addDelta c | INITIAL | PAUSED => c end.

Section Timer.
Context (opts : timer_options).

(** [reset()]; the view of a disabled timer hides its element. *)
Definition reset (now : Z) (t : timer) : timer :=
  mkTimer (newChronos now) INITIAL (t_html t) (t_hidden t || negb (enabled opts)).

Definition newTimer (now : Z) : timer := reset now (mkTimer (newChronos now) INITIAL [] false).

Definition tick (now : Z) (t : timer) : timer :=
  let c := update (t_state t) (chronos_tick now (t_chronos t)) in
  mkTimer c (t_state t) (if enabled opts then defaultFormatter (elapsedTime c) else []) (t_hidden t).

Definition with_state (s : timer_state) (t : timer) : timer :=
  mkTimer (t_chronos t) s (t_html t) (t_hidden t).

Definition start (t : timer) : timer := with_state RUNNING t.
Definition pause (t : timer) : timer := with_state PAUSED t.
Definition toggle (t : timer) : timer :=
  match t_state t with RUNNING => with_state PAUSED t | _ => with_state RUNNING t end.

(** What the timer listens to. *)
Inductive tevent :=
| TTick (now : Z) | TStart | TStartTimer | TPauseTimer | TToggleTimer | TResetTimer (now : Z).

Definition on_event (e : tevent) (t : timer) : timer :=
  match e with
  | TTick now => tick now t
  | TStart => if startOnChange opts then start t else t
  | TStartTimer => start t
  | TPauseTimer => pause t
  | TToggleTimer => toggle t
  | TResetTimer now => if resetable opts then reset now t else t
  end.

Definition on_events (es : list tevent) (t : timer) : timer := fold_left (fun t e => on_event e t) es t.

(** ** Auxiliary definitions *)

(** The clock readings of the events are in order, not before [from]. *)
Fixpoint clock_from (from : Z) (es : list tevent) : Prop :=
  match es with
  | [] => True
  | TTick now :: r | TResetTimer now :: r => from <= now /\ clock_from now r
  | _ :: r => clock_from from r
  end.

(** The reading of the last reset. *)
Fixpoint last_reset (t0 : Z) (es : list tevent) : Z :=
  match es with
  | [] => t0
  | TResetTimer now :: r => last_reset (if resetable opts then now else t0) r
  | _ :: r => last_reset t0 r
  end.

Definition in_bounds (t0 : Z) (t : timer) : Prop :=
  t0 <= currentTick (t_chronos t) /\
  0 <= elapsedTime (t_chronos t) <= currentTick (t_chronos t) - t0.

Lemma in_bounds_state t0 s t : in_bounds t0 t -> in_bounds t0 (with_state s t).
Proof. done. Qed.

Lemma on_events_bounds es : forall t0 from t,
  in_bounds t0 t -> currentTick (t_chronos t) <= from -> clock_from from es ->
  in_bounds (last_reset t0 es) (on_events es t).
Proof.
  induction es as [|e es IH]; intros t0 from t Hb Hf Hc; [done|].
  destruct e; cbn [on_events fold_left last_reset on_event] in *; fold (on_events es);
    try (apply (IH _ from); [|done|done]; try apply in_bounds_state; done).
  - destruct Hc as [Hn Hc]. apply (IH _ now); [|simpl; destruct (t_state t); simpl; lia|done].
    destruct t as [[ct lt el] s h hd]. unfold in_bounds in *. simpl in *.
    destruct s; simpl; lia.
  - destruct (startOnChange opts); by apply (IH _ from).
  - unfold toggle. destruct (t_state t); by apply (IH _ from).
  - destruct Hc as [Hn Hc]. apply (IH _ now); destruct (resetable opts); try done.
    + unfold in_bounds. simpl. lia.
    + simpl. lia.
Qed.

Lemma on_events_app a b t : on_events (a ++ b) t = on_events b (on_events a t).
Proof. apply fold_left_app. Qed.
End Timer.

(** What holds of all numbers below 100 can be checked one by one. *)
Lemma below_100 (P : Z -> Prop) `{forall n, Decision (P n)} n :
  forallb (fun k => bool_decide (P (Z.of_nat k))) (seq 0 100) = true -> 0 <= n < 100 -> P n.
Proof.
  intros H1 Hn. rewrite forallb_forall in H1. specialize (H1 (Z.to_nat n)).
  rewrite Z2Nat.id in H1 by lia. apply (bool_decide_eq_true_1 (P n)), H1, in_seq. lia.
Qed.

Lemma padStart2 n : 0 <= n < 100 -> parseInt (padStart (decZ n) 2 (js "0")) = Some n.
Proof.
  apply (below_100 (fun n => parseInt (padStart (decZ n) 2 (js "0")) = Some n)).
  vm_compute. reflexivity.
Qed.

Lemma padStart2_colon n : 0 <= n < 100 ->
  (58%N ∉ padStart (decZ n) 2 (js "0")) /\ length (padStart (decZ n) 2 (js "0")) = 2%nat.
Proof.
  apply (below_100 (fun n => (58%N ∉ padStart (decZ n) 2 (js "0")) /\
    length (padStart (decZ n) 2 (js "0")) = 2%nat)). vm_compute. reflexivity.
Qed.

Lemma decZ_nonneg n : 0 <= n -> decZ n = dec (Z.to_N n).
Proof. by destruct n. Qed.

Lemma dec_no_colon n : 58%N ∉ dec n.
Proof. intros H. pose proof (dec_digits n) as Hd. by eapply Forall_forall in Hd; [|exact H]. Qed.

(** The clock that a text h:mm:ss shows, in seconds. *)
Definition read_clock (s : jsstr) : option Z :=
  match map parseInt (split_on 58%N s) with
  | [Some h; Some m; Some sec] => Some (3600 * h + 60 * m + sec)
  | _ => None
  end.

(** ** Properties *)

(** C39. While the clock does not run backwards, the elapsed time is at least 0 and at
    most the time since the last reset, whatever the sequence of events. *)
Theorem elapsed_bounds (opts : timer_options) (t0 : Z) (es : list tevent) :
  clock_from t0 es ->
  let t := on_events opts es (newTimer opts t0) in
  0 <= elapsedTime (t_chronos t) <= currentTick (t_chronos t) - last_reset opts t0 es.
Proof.
  intros Hc t. apply (on_events_bounds opts es t0 t0); [|done|done].
  unfold in_bounds. simpl. lia.
Qed.

Lemma elapsed_bounds_witness :
  let t := on_events default_timer_options [TStart; TTick 100; TPauseTimer; TTick 230]
             (newTimer default_timer_options 0) in
  0 <= elapsedTime (t_chronos t) <= currentTick (t_chronos t) - 0 /\ elapsedTime (t_chronos t) = 100.
Proof.
  split; [|reflexivity].
  apply (elapsed_bounds default_timer_options 0 [TStart; TTick 100; TPauseTimer; TTick 230]).
  simpl. lia.
Defined.

(** C40. The formatted time, read back, is the elapsed time in whole seconds, and its
    minutes and seconds have two digits. *)
Theorem defaultFormatter_roundtrip (elapsed : Z) :
  0 <= elapsed ->
  read_clock (defaultFormatter elapsed) = Some (elapsed / 1000) /\
  map length (tl (split_on 58%N (defaultFormatter elapsed))) = [2; 2]%nat.
Proof.
  intros H. set (s := elapsed / 1000).
  assert (Hs : 0 <= s) by (apply Z.div_pos; lia).
  assert (Hm : 0 <= Z.rem (s / 60) 60 < 60) by (apply Z.rem_bound_pos; [apply Z.div_pos|]; lia).
  assert (Hsec : 0 <= Z.rem s 60 < 60) by (apply Z.rem_bound_pos; lia).
  assert (Hh : 0 <= s / 60 / 60) by (repeat apply Z.div_pos; lia).
  assert (E : split_on 58%N (defaultFormatter elapsed) =
    [decZ (s / 60 / 60); padStart (decZ (Z.rem (s / 60) 60)) 2 (js "0");
     padStart (decZ (Z.rem s 60)) 2 (js "0")]).
  { apply (split_join 58%N [decZ (s / 60 / 60); padStart (decZ (Z.rem (s / 60) 60)) 2 (js "0");
      padStart (decZ (Z.rem s 60)) 2 (js "0")]); [done|].
    apply Forall_cons. split; [rewrite decZ_nonneg by done; apply dec_no_colon|].
    repeat (apply Forall_cons; split; [apply padStart2_colon; lia|]). apply Forall_nil. exact I. }
  unfold read_clock. rewrite E. cbn [map tl]. rewrite !padStart2 by lia.
  rewrite decZ_nonneg, parseInt_dec, Z2N.id by done.
  split; [|by rewrite !(fun n H => proj2 (padStart2_colon n H)) by lia].
  f_equal. rewrite !Z.rem_mod_nonneg by (try apply Z.div_pos; lia).
  pose proof (Z.div_mod s 60). pose proof (Z.div_mod (s / 60) 60). lia.
Qed.

Lemma defaultFormatter_roundtrip_witness :
  defaultFormatter 3723456 = js "1:02:03" /\ read_clock (defaultFormatter 3723456) = Some 3723.
Proof. split; [reflexivity|]. apply (defaultFormatter_roundtrip 3723456). lia. Defined.
