(* ===== verification/Utils.v ===== *)
(** * Class names of elements (module 25, utils.js) and polyfills (module 4)

    The class attribute is a string; the functions split it at spaces.  Seen as a
    list of names they append, remove every occurrence, and toggle the first. *)

From S2P Require Import Prelude JsString.

(** ** Operations on [element.className] *)

Definition getClasses (className : jsstr) : list jsstr :=
  List.filter (fun s => negb (bool_decide (s = []))) (split_on c_sp className).

Definition addClass (name className : jsstr) : jsstr := join [c_sp] (getClasses className ++ [name]).

Definition removeClass (name className : jsstr) : jsstr :=
  join [c_sp] (List.filter (fun k => negb (bool_decide (k = name))) (getClasses className)).

(** [classes.indexOf(className)] *)
Fixpoint index_of (name : jsstr) (l : list jsstr) : option nat :=
  match l with
  | [] => None
  | x :: t => if bool_decide (x = name) then Some 0 else S <$> index_of name t
  end.

Definition toggleClass (name className : jsstr) : jsstr :=
  let classes := getClasses className in
  join [c_sp] (match index_of name classes with
               | Some i => delete i classes
               | None => classes ++ [name]
               end).

Definition hasClass (name className : jsstr) : bool :=
  match index_of name (getClasses className) with Some _ => true | None => false end.

(** [getPrefixedProperty(element, propertyName)] on an object given by its truthy
    properties. *)
Definition getPrefixedProperty {V} (element : jsstr -> option V) (propertyName : jsstr)
    : result (option V) :=
  match propertyName with
  | [] => Throw (TypeError (js "Cannot read property 'toUpperCase' of undefined"))
  | c :: t =>
      let capitalized := toUpperCase [c] ++ t in
      Ok (match element propertyName with
          | Some v => Some v
          | None => match element (js "moz" ++ capitalized) with
                    | Some v => Some v
                    | None => element (js "webkit" ++ capitalized)
                    end
          end)
  end.

(** ** Polyfills: Array, NodeList and HTMLCollection *)

(** [forEach(list, f)], on a list that [f] does not change. *)
Fixpoint forEach_from {A B} (i : nat) (l : list A) (f : A -> nat -> B -> B) (s : B) : B :=
  match l with [] => s | x :: t => forEach_from (S i) t f (f x i s) end.

(** [filter(f)]: the second argument of [f] is the number of elements kept so far. *)
Definition filter_poly {A} (f : A -> nat -> bool) (l : list A) : list A :=
  forEach_from 0 l (fun x _ res => if f x (length res) then res ++ [x] else res) [].

Definition map_poly {A B} (f : A -> nat -> B) (l : list A) : list B :=
  forEach_from 0 l (fun x _ res => res ++ [f x (length res)]) [].

(** ** Class names as lists *)

(** A single class name. *)
Definition class_name (c : jsstr) : Prop := c <> [] /\ c_sp ∉ c.

#[export] Instance class_name_dec c : Decision (class_name c).
Proof. apply _. Defined.

Lemma getClasses_names cn : Forall class_name (getClasses cn).
Proof.
  apply Forall_forall. intros p Hp. unfold getClasses in Hp.
  apply list_elem_of_In, filter_In in Hp as [Hp%list_elem_of_In Hne].
  split; [|by eapply split_on_no_sep]. apply negb_true_iff, bool_decide_eq_false in Hne. done.
Qed.

Lemma getClasses_join l : Forall class_name l -> getClasses (join [c_sp] l) = l.
Proof.
  intros Hl. unfold getClasses. destruct l as [|c l]; [done|].
  rewrite split_join; [|done|by eapply Forall_impl; [exact Hl|intros ? []]].
  induction Hl as [|x r [Hx _] _ IH]; [done|]. simpl. rewrite bool_decide_eq_false_2 by done.
  simpl. by rewrite IH.
Qed.

Lemma getClasses_addClass c cn : class_name c -> getClasses (addClass c cn) = getClasses cn ++ [c].
Proof.
  intros Hc. apply getClasses_join, Forall_app. split; [apply getClasses_names|]. by constructor.
Qed.

Lemma getClasses_removeClass c cn :
  getClasses (removeClass c cn)
  = List.filter (fun k => negb (bool_decide (k = c))) (getClasses cn).
Proof. apply getClasses_join, Forall_bfilter, getClasses_names. Qed.

Lemma index_of_spec c l :
  match index_of c l with
  | Some i => l !! i = Some c
  | None => c ∉ l
  end.
Proof.
  induction l as [|x l IH]; simpl; [apply not_elem_of_nil|].
  case_bool_decide as E; [by subst|]. destruct (index_of c l); simpl; [done|].
  by apply not_elem_of_cons.
Qed.

Lemma hasClass_elem c cn : hasClass c cn = bool_decide (c ∈ getClasses cn).
Proof.
  unfold hasClass. pose proof (index_of_spec c (getClasses cn)) as H.
  destruct (index_of c (getClasses cn)) as [i|].
  - symmetry. apply bool_decide_eq_true_2. by eapply list_elem_of_lookup_2.
  - symmetry. by apply bool_decide_eq_false_2.
Qed.

Lemma hasClass_add c c' cn :
  class_name c -> hasClass c' (addClass c cn) = bool_decide (c' = c) || hasClass c' cn.
Proof.
  intros Hc. rewrite !hasClass_elem, getClasses_addClass by done.
  apply eq_true_iff_eq. rewrite orb_true_iff, !bool_decide_eq_true, elem_of_app, list_elem_of_singleton.
  naive_solver.
Qed.

Lemma hasClass_remove c c' cn :
  hasClass c' (removeClass c cn) = negb (bool_decide (c' = c)) && hasClass c' cn.
Proof.
  rewrite !hasClass_elem, getClasses_removeClass.
  apply eq_true_iff_eq. rewrite andb_true_iff, !bool_decide_eq_true, !list_elem_of_In, filter_In.
  naive_solver.
Qed.

Lemma getClasses_toggle c cn : class_name c ->
  getClasses (toggleClass c cn)
  = match index_of c (getClasses cn) with
    | Some i => delete i (getClasses cn)
    | None => getClasses cn ++ [c]
    end.
Proof.
  intros Hc. apply getClasses_join. pose proof (getClasses_names cn) as Hn.
  destruct (index_of c (getClasses cn)) as [i|].
  - apply Forall_delete, Hn.
  - apply Forall_app. split; [done|]. by constructor.
Qed.

(** Toggling a class flips its presence and no other, when no name is repeated. *)
Lemma hasClass_toggle c c' cn :
  class_name c -> NoDup (getClasses cn) ->
  hasClass c' (toggleClass c cn) = xorb (bool_decide (c' = c)) (hasClass c' cn).
Proof.
  intros Hc Hn. rewrite !hasClass_elem, getClasses_toggle by done.
  pose proof (index_of_spec c (getClasses cn)) as Hi.
  destruct (index_of c (getClasses cn)) as [i|].
  - apply delete_Permutation in Hi. rewrite Hi in Hn. apply NoDup_cons in Hn as [Hd Hn].
    rewrite (bool_decide_ext (c' ∈ getClasses cn) (c' ∈ c :: delete i (getClasses cn))) by (by rewrite <- Hi).
    case_bool_decide as E1; case_bool_decide as E2; case_bool_decide as E3; try done;
      rewrite elem_of_cons in *; naive_solver.
  - case_bool_decide as E1; case_bool_decide as E2; case_bool_decide as E3; try done;
      rewrite elem_of_app, list_elem_of_singleton in *; naive_solver.
Qed.

(** Other classes stay, whether names are repeated or not. *)
Lemma hasClass_toggle_ne c c' cn : class_name c -> c' <> c -> hasClass c' (toggleClass c cn) = hasClass c' cn.
Proof.
  intros Hc Hne. rewrite !hasClass_elem, getClasses_toggle by done. apply bool_decide_ext.
  pose proof (index_of_spec c (getClasses cn)) as Hi. destruct (index_of c (getClasses cn)) as [i|].
  - apply delete_Permutation in Hi. rewrite Hi at 2. rewrite elem_of_cons. naive_solver.
  - rewrite elem_of_app, list_elem_of_singleton. naive_solver.
Qed.

Lemma toggle_NoDup c cn :
  class_name c -> NoDup (getClasses cn) -> NoDup (getClasses (toggleClass c cn)).
Proof.
  intros Hc Hn. rewrite getClasses_toggle by done.
  pose proof (index_of_spec c (getClasses cn)) as Hi.
  destruct (index_of c (getClasses cn)) as [i|].
  - apply delete_Permutation in Hi. rewrite Hi in Hn. by apply NoDup_cons in Hn as [_ Hn].
  - apply NoDup_app. split_and!; [done| |apply NoDup_singleton].
    intros x Hx ->%list_elem_of_singleton. done.
Qed.

(** A literal class name. *)
Ltac literal_class :=
  lazymatch goal with
  | |- class_name ?c => apply (bool_decide_eq_true_1 (class_name c)); vm_compute; reflexivity
  end.
