(* ===== verification/Views.v ===== *)
(** * The views of the slide show (modules 26 to 28: notesView, slideView,
    slideshowView; printing and slide-number components)

    An element is known by its class names and by the text the code puts into it.
    The HTML of a slide and of its notes, which the browser's parser produces, and
    the element sizes are parameters.  Handlers return the new state or the
    TypeError that the code throws on a missing element. *)

From S2P Require Import Prelude JsString JsRegExp RegExpFacts SlideParser SlideModel Slideshow.
From S2P Require Import Navigation Utils.

(** ** Slide views *)

Definition c_visible : jsstr := js "remark-visible".
Definition c_fading : jsstr := js "remark-fading".
Definition c_presenter : jsstr := js "remark-presenter-mode".
Definition c_help : jsstr := js "remark-help-mode".
Definition c_blackout : jsstr := js "remark-blackout-mode".
Definition c_mirrored : jsstr := js "remark-mirrored-mode".
Definition c_pause : jsstr := js "remark-pause-mode".

(** A slide view: an identity, the class of its container, the HTML of its content
    and of its notes. *)
Record slide_view := mkSlideView {
  sv_id : nat;
  sv_class : jsstr;
  sv_html : jsstr;
  sv_notes : jsstr
}.

Definition with_class (f : jsstr -> jsstr) (v : slide_view) : slide_view :=
  mkSlideView (sv_id v) (f (sv_class v)) (sv_html v) (sv_notes v).

(** [SlideView.prototype.show] *)
Definition show (v : slide_view) : slide_view :=
  with_class (fun c => removeClass c_fading (addClass c_visible c)) v.

(** [SlideView.prototype.hide], without the timeout it sets *)
Definition hide (v : slide_view) : slide_view :=
  with_class (fun c => addClass c_fading (removeClass c_visible c)) v.

Definition unfade (v : slide_view) : slide_view := with_class (removeClass c_fading) v.

(** ** Pages *)

Inductive orientation := Landscape | Portrait.

Definition PAGE_HEIGHT : Z := 681.
Definition PAGE_WIDTH : Z := 908.

Record page := mkPage { _orientation : orientation; _pageHeight : Z; _pageWidth : Z; pageSize : jsstr }.

(** [setPageOrientation(orientation)], with [styler.setPageSize] *)
Definition setPageOrientation (o : orientation) : page :=
  let '(h, w) := match o with
                 | Portrait => (PAGE_WIDTH, PAGE_HEIGHT)
                 | Landscape => (PAGE_HEIGHT, PAGE_WIDTH)
                 end in
  mkPage o h w (decZ w ++ js "px " ++ decZ h ++ js "px").

(** ** The slide show view *)

(** [pending] are the views whose timeout to end fading has not run yet; [preview] is
    the HTML copied from the next slide. *)
Record view := mkView {
  slideViews : list slide_view;
  detached : list slide_view;
  next_id : nat;
  pending : list nat;
  containerClass : jsstr;
  preview : jsstr;
  notesHTML : jsstr;
  notesPreviewHTML : jsstr;
  v_page : page
}.

Definition with_views (l : list slide_view) (v : view) : view :=
  mkView l (detached v) (next_id v) (pending v) (containerClass v) (preview v) (notesHTML v)
    (notesPreviewHTML v) (v_page v).
Definition with_container (f : jsstr -> jsstr) (v : view) : view :=
  mkView (slideViews v) (detached v) (next_id v) (pending v) (f (containerClass v)) (preview v)
    (notesHTML v) (notesPreviewHTML v) (v_page v).
Definition with_page (p : page) (v : view) : view :=
  mkView (slideViews v) (detached v) (next_id v) (pending v) (containerClass v) (preview v)
    (notesHTML v) (notesPreviewHTML v) p.

(** [slideViews[i]] for an index of the navigation *)
Definition view_at (v : view) (i : option Z) : option slide_view :=
  match i with
  | Some z => if (z <? 0)%Z then None else slideViews v !! Z.to_nat z
  | None => None
  end.

(** [NotesView.prototype.showSlide] *)
Definition notes_showSlide (i : option Z) (v : view) : result view :=
  match view_at v i with
  | None => Throw (TypeError (js "Cannot read property 'notesElement' of undefined"))
  | Some sv =>
      Ok (mkView (slideViews v) (detached v) (next_id v) (pending v) (containerClass v) (preview v)
            (sv_notes sv)
            (match view_at v (idx_add1 i) with Some n => sv_notes n | None => [] end)
            (v_page v))
  end.

(** [outerHTML] of the container of a slide view *)
Definition outerHTML (sv : slide_view) : jsstr :=
  js "<div class=＂" ++ sv_class sv ++ js "＂>" ++ sv_html sv ++ sv_notes sv ++ js "</div>".

(** [SlideshowView.prototype.showSlide] *)
Definition showSlide (i : option Z) (v : view) : result view :=
  match i, view_at v i with
  | Some z, Some _ =>
      let l := alter show (Z.to_nat z) (slideViews v) in
      let v := with_views l v in
      Ok (mkView (slideViews v) (detached v) (next_id v) (pending v) (containerClass v)
            (match view_at v (idx_add1 i) with Some n => outerHTML n | None => [] end)
            (notesHTML v) (notesPreviewHTML v) (v_page v))
  | _, _ => Throw (TypeError (js "Cannot read property 'show' of undefined"))
  end.

(** [SlideshowView.prototype.hideSlide] *)
Definition hideSlide (i : option Z) (v : view) : result view :=
  match i, view_at v i with
  | Some z, Some sv =>
      Ok (mkView (alter hide (Z.to_nat z) (slideViews v)) (detached v) (next_id v)
            (pending v ++ [sv_id sv]) (containerClass v) (preview v) (notesHTML v)
            (notesPreviewHTML v) (v_page v))
  | _, _ => Throw (TypeError (js "Cannot read property 'hide' of undefined"))
  end.

(** The positions of the views with the class remark-fading, in document order:
    [getElementsByClassName] is a live collection. *)
Definition fading_positions (l : list slide_view) : list nat :=
  List.filter (fun i => match l !! i with Some sv => hasClass c_fading (sv_class sv) | None => false end)
    (seq 0 (length l)).

(** [forEach(list, f)] over the live collection: the collection shrinks while the
    index grows. *)
Fixpoint unfade_live (fuel i : nat) (l : list slide_view) : list slide_view :=
  match fuel with
  | O => l
  | S fuel =>
      match fading_positions l !! i with
      | Some p => unfade_live fuel (S i) (alter unfade p l)
      | None => l
      end
  end.

(** The listener of hideSlide. *)
Definition on_hideSlide (i : option Z) (v : view) : result view :=
  hideSlide i (with_views (unfade_live (S (length (slideViews v))) 0 (slideViews v)) v).

(** The listeners of showSlide: the notes view is registered first. *)
Definition on_showSlide (i : option Z) (v : view) : result view :=
  let! v := notes_showSlide i v in showSlide i v.

(** The timeout set by [hide], one second later. *)
Definition fade_timeout (v : view) : view :=
  match pending v with
  | [] => v
  | id :: rest =>
      mkView (map (fun sv => if (sv_id sv =? id)%nat then unfade sv else sv) (slideViews v))
        (map (fun sv => if (sv_id sv =? id)%nat then unfade sv else sv) (detached v))
        (next_id v) rest (containerClass v) (preview v) (notesHTML v) (notesPreviewHTML v) (v_page v)
  end.

Section Views.
(** The HTML that the browser and the converter make of a slide and of its notes. *)
Context (render renderNotes : slide_vm -> jsstr).

Definition c_container : jsstr := js "remark-slide-container".

(** [new SlideView(...)] for each slide, as far as the view depends on it *)
Fixpoint create_views (id : nat) (slides : list slide_vm) : list slide_view :=
  match slides with
  | [] => []
  | s :: t => mkSlideView id c_container (render s) (renderNotes s) :: create_views (S id) t
  end.

(** [SlideshowView.prototype.updateSlideViews] *)
Definition updateSlideViews (sh : slideshow) (current : option Z) (v : view) : result view :=
  let slides := getSlides sh in
  let v := mkView (create_views (next_id v) slides) (detached v ++ slideViews v)
             (next_id v + length slides) (pending v) (containerClass v) (preview v) (notesHTML v)
             (notesPreviewHTML v) (v_page v) in
  if idx_gt current (-1) then showSlide current v else Ok v.

(** The listeners of the other events of the bus. *)
Definition on_forcePresenterMode (v : view) : view :=
  if hasClass c_presenter (containerClass v) then v
  else with_page (setPageOrientation Landscape) (with_container (toggleClass c_presenter) v).

Definition on_togglePresenterMode (v : view) : view :=
  let v := with_container (toggleClass c_presenter) v in
  with_page (setPageOrientation
    (if hasClass c_presenter (containerClass v) then Portrait else Landscape)) v.

Definition on_hideOverlay (v : view) : view :=
  with_container (fun c => removeClass c_help (removeClass c_blackout c)) v.

(** An event of the bus, with the deck and the navigation as they are then. *)
Definition view_event (sh : slideshow) (current : option Z) (e : event) (v : view) : result view :=
  match e with
  | E_slidesChanged => updateSlideViews sh current v
  | E_hideSlide i => on_hideSlide i v
  | E_showSlide i => on_showSlide i v
  | E_forcePresenterMode => Ok (on_forcePresenterMode v)
  | E_togglePresenterMode => Ok (on_togglePresenterMode v)
  | E_toggleHelp => Ok (with_container (toggleClass c_help) v)
  | E_toggleBlackout _ => Ok (with_container (toggleClass c_blackout) v)
  | E_toggleMirrored => Ok (with_container (toggleClass c_mirrored) v)
  | E_hideOverlay => Ok (on_hideOverlay v)
  | E_pause => Ok (with_container (toggleClass c_pause) v)
  | E_resume => Ok (with_container (toggleClass c_pause) v)
  | _ => Ok v
  end.

(** The handler of tap: which way to go depends on the half of the container. *)
Definition on_tap (endX clientWidth : Z) : event :=
  if (2 * endX <? clientWidth)%Z then E_gotoPreviousSlide else E_gotoNextSlide.

(** The events of a list of navigation outputs, in order. *)
Fixpoint view_outputs (sh : slideshow) (current : option Z) (os : list output) (v : view) : result view :=
  match os with
  | [] => Ok v
  | Emit e :: t => let! v' := view_event sh current e v in view_outputs sh current t v'
  | _ :: t => view_outputs sh current t v
  end.
End Views.

(** ** Events for the users of the slide show (module 20) *)

(** The events that are passed on, and the slide that is passed: the argument of the
    internal event is taken as an index. *)
Definition external_names : list jsstr :=
  [js "showSlide"; js "hideSlide"; js "beforeShowSlide"; js "afterShowSlide"; js "beforeHideSlide";
   js "afterHideSlide"; js "toggledPresenter"].

Definition external_event (slides : list slide_vm) (name : jsstr) (slideIndex : Z) : option (jsstr * option slide_vm) :=
  if bool_decide (name ∈ external_names)
  then Some (name, if (slideIndex <? 0)%Z then None else slides !! Z.to_nat slideIndex)
  else None.

(** The argument with which the view emits toggledPresenter. *)
Definition toggledPresenter_arg (current : Z) : Z := (current + 1)%Z.

(** ** Slide numbers *)

(** [formatSlideNumber] for a text format; [current] and [total] are the numbers of
    the slide and of the last slide. *)
Definition formatSlideNumber (format : jsstr) (current total : nat) : jsstr :=
  replace_str (replace_str format (js "%current%") (dec (N.of_nat current)))
    (js "%total%") (dec (N.of_nat total)).

(** ** Auxiliary results *)

Definition visible (sv : slide_view) : bool := hasClass c_visible (sv_class sv).
Definition fading (sv : slide_view) : bool := hasClass c_fading (sv_class sv).

Lemma visible_show sv : visible (show sv) = true.
Proof.
  unfold visible, show. simpl. rewrite hasClass_remove, hasClass_add by literal_class.
  by rewrite (bool_decide_eq_true_2 (c_visible = c_visible)).
Qed.

Lemma fading_show sv : fading (show sv) = false.
Proof. unfold fading, show. simpl. rewrite hasClass_remove. by rewrite bool_decide_eq_true_2. Qed.

Lemma visible_hide sv : visible (hide sv) = false.
Proof.
  unfold visible, hide. simpl. rewrite hasClass_add by literal_class.
  rewrite hasClass_remove. by rewrite (bool_decide_eq_true_2 (c_visible = c_visible)).
Qed.

Lemma visible_unfade sv : visible (unfade sv) = visible sv.
Proof. unfold visible, unfade. simpl. by rewrite hasClass_remove. Qed.

Lemma fading_unfade sv : fading (unfade sv) = false.
Proof. unfold fading, unfade. simpl. rewrite hasClass_remove. by rewrite bool_decide_eq_true_2. Qed.

(** At most one view is fading. *)
Definition one_fading (l : list slide_view) : Prop :=
  forall i j vi vj, l !! i = Some vi -> l !! j = Some vj -> fading vi = true -> fading vj = true -> i = j.

Lemma fading_positions_elem l i :
  i ∈ fading_positions l <-> exists sv, l !! i = Some sv /\ fading sv = true.
Proof.
  unfold fading_positions. rewrite list_elem_of_In, filter_In, in_seq. split.
  - intros [_ H]. destruct (l !! i) as [sv|]; [|done]. eauto.
  - intros (sv & E & H). rewrite E. split; [|done]. apply lookup_lt_Some in E. lia.
Qed.

Lemma fading_positions_NoDup l : NoDup (fading_positions l).
Proof. apply NoDup_ListNoDup, List.NoDup_filter, seq_NoDup. Qed.

Definition none_fading (l : list slide_view) : Prop := forall i sv, l !! i = Some sv -> fading sv = false.

Lemma fading_positions_none l : none_fading l -> fading_positions l = [].
Proof.
  intros H. destruct (fading_positions l) as [|p r] eqn:E; [done|].
  assert (p ∈ fading_positions l) as (sv & Hl & Hf)%fading_positions_elem by (rewrite E; by left).
  by rewrite (H p sv Hl) in Hf.
Qed.

Lemma alter_unfade_none l p sv :
  one_fading l -> l !! p = Some sv -> fading sv = true -> none_fading (alter unfade p l).
Proof.
  intros H1 Hp Hf i si Hi. destruct (decide (i = p)) as [->|Hne].
  - rewrite list_lookup_alter_eq, Hp in Hi. simplify_eq/=. apply fading_unfade.
  - rewrite list_lookup_alter_ne in Hi by done. destruct (fading si) eqn:E; [|done].
    by destruct Hne, (H1 i p si sv).
Qed.

(** The loop over the live collection ends all fading, as there is at most one. *)
Lemma unfade_live_spec fuel l :
  one_fading l ->
  none_fading (unfade_live (S (S fuel)) 0 l) /\
  length (unfade_live (S (S fuel)) 0 l) = length l /\
  forall i, visible <$> unfade_live (S (S fuel)) 0 l !! i = visible <$> l !! i.
Proof.
  intros H1. cbn [unfade_live]. destruct (fading_positions l) as [|p r] eqn:E; simpl.
  - split_and!; try done. intros i sv Hi. destruct (fading sv) eqn:Ef; [|done].
    assert (i ∈ fading_positions l) as Hin by (apply fading_positions_elem; eauto).
    rewrite E in Hin. by apply elem_of_nil in Hin.
  - assert (p ∈ fading_positions l) as (sv & Hl & Hf)%fading_positions_elem by (rewrite E; by left).
    pose proof (alter_unfade_none l p sv H1 Hl Hf) as Hn.
    rewrite (fading_positions_none _ Hn). simpl. split_and!; [done|apply length_alter|].
    intros i. destruct (decide (i = p)) as [->|Hne].
    + rewrite list_lookup_alter_eq, Hl. simpl. by rewrite visible_unfade.
    + by rewrite list_lookup_alter_ne.
Qed.

(** ** The views follow the navigation *)

(** Exactly the slide [shown] is visible, and at most one is fading. *)
Definition view_ok (shown : option Z) (v : view) : Prop :=
  (forall i sv, slideViews v !! i = Some sv -> visible sv = bool_decide (shown = Some (Z.of_nat i))) /\
  one_fading (slideViews v).

Lemma view_at_Some v z sv :
  view_at v (Some z) = Some sv <-> (0 <= z)%Z /\ slideViews v !! Z.to_nat z = Some sv.
Proof. simpl. destruct (Z.ltb_spec z 0); split; intros; try done; [lia|]. naive_solver lia. Qed.

Lemma on_hideSlide_ok v z :
  view_ok (Some z) v -> (0 <= z < Z.of_nat (length (slideViews v)))%Z ->
  exists v', on_hideSlide (Some z) v = Ok v' /\ view_ok None v' /\
    length (slideViews v') = length (slideViews v).
Proof.
  intros [Hv H1] Hz. unfold on_hideSlide.
  destruct (slideViews v) as [|s0 l0] eqn:El; [simpl in Hz; lia|]. rewrite <- El in *.
  assert (length (slideViews v) <> 0) as Hlen by (rewrite El; done).
  destruct (length (slideViews v)) as [|n] eqn:En; [done|]. rewrite <- En in *.
  destruct (unfade_live_spec n (slideViews v) H1) as (Hn & Hl & Hs).
  replace (S (length (slideViews v))) with (S (S n)) by lia.
  set (l := unfade_live (S (S n)) 0 (slideViews v)) in *.
  destruct (lookup_lt_is_Some_2 l (Z.to_nat z)) as [sv Hsv]; [lia|].
  assert (Hat : view_at (with_views l v) (Some z) = Some sv) by (apply view_at_Some; split; [lia|done]).
  unfold hideSlide. rewrite Hat. eexists. split; [done|]. simpl. rewrite length_alter. split; [|done].
  split.
  - simpl. intros i si Hi. destruct (decide (i = Z.to_nat z)) as [->|Hne].
    + rewrite list_lookup_alter_eq, Hsv in Hi. simplify_eq/=. apply visible_hide.
    + rewrite list_lookup_alter_ne in Hi by done. specialize (Hs i). rewrite Hi in Hs. simpl in Hs.
      destruct (slideViews v !! i) as [s1|] eqn:E1; [|done]. simpl in Hs. injection Hs as ->.
      rewrite (Hv i s1 E1). rewrite !bool_decide_eq_false_2; try done; intros [= ->]; lia.
  - simpl. intros i j vi vj Hi Hj Fi Fj.
    assert (Hx : forall k vk, alter hide (Z.to_nat z) l !! k = Some vk -> fading vk = true -> k = Z.to_nat z).
    { intros k vk Hk Fk. destruct (decide (k = Z.to_nat z)) as [|Hne]; [done|].
      rewrite list_lookup_alter_ne in Hk by done. by rewrite (Hn k vk Hk) in Fk. }
    by rewrite (Hx i vi Hi Fi), (Hx j vj Hj Fj).
Qed.

Lemma on_showSlide_ok v z :
  view_ok None v -> (0 <= z < Z.of_nat (length (slideViews v)))%Z ->
  exists v', on_showSlide (Some z) v = Ok v' /\ view_ok (Some z) v' /\
    length (slideViews v') = length (slideViews v).
Proof.
  intros [Hv H1] Hz. destruct (lookup_lt_is_Some_2 (slideViews v) (Z.to_nat z)) as [sv Hsv]; [lia|].
  assert (Hat : view_at v (Some z) = Some sv) by (apply view_at_Some; split; [lia|done]).
  unfold on_showSlide, notes_showSlide. rewrite Hat. cbn [rbind]. unfold showSlide.
  set (w := mkView (slideViews v) _ _ _ _ _ _ _ _).
  change (view_at w (Some z)) with (view_at v (Some z)). rewrite Hat.
  eexists. split; [done|]. simpl. rewrite length_alter. split; [|done]. split; simpl.
  - intros i si Hi. destruct (decide (i = Z.to_nat z)) as [->|Hne].
    + rewrite list_lookup_alter_eq, Hsv in Hi. simplify_eq/=. rewrite visible_show, Z2Nat.id by lia.
      by rewrite bool_decide_eq_true_2.
    + rewrite list_lookup_alter_ne in Hi by done. rewrite (Hv i si Hi).
      rewrite !bool_decide_eq_false_2; try done; intros [= ->]; lia.
  - intros i j vi vj Hi Hj Fi Fj.
    assert (Hx : forall k vk, alter show (Z.to_nat z) (slideViews v) !! k = Some vk ->
        fading vk = true -> slideViews v !! k = Some vk).
    { intros k vk Hk Fk. destruct (decide (k = Z.to_nat z)) as [->|Hne].
      - rewrite list_lookup_alter_eq, Hsv in Hk. simplify_eq/=. by rewrite fading_show in Fk.
      - by rewrite list_lookup_alter_ne in Hk. }
    by apply (H1 i j vi vj); eauto.
Qed.

(** What the navigation may put out: it shows slides of the deck only. *)
Definition nav_output (sh : slideshow) (o : output) : Prop :=
  match o with
  | Emit (E_showSlide i) => in_range_idx sh i = true
  | Emit E_slidesChanged => False
  | _ => True
  end.

Lemma messages_outputs sh n d : Forall (nav_output sh) (messages n d).
Proof. unfold messages. destruct (clone n) as [[]|], (opener n); by repeat constructor. Qed.

Lemma goto_outputs sh i b n : i <> None -> Forall (nav_output sh) (snd (gotoSlideByIndex sh i b n)).
Proof.
  intros Hi. destruct (goto_cases sh i b n Hi) as [[-> _]|(Hr & Hne & _)]; [constructor|].
  unfold gotoSlideByIndex. destruct (_ || _); [constructor|].
  destruct (idx_eq (currentSlideIndex n) _), (started n) as [[]|], b; cbn [snd];
    repeat first [apply messages_outputs|exact I|exact Hr|apply List.Forall_nil
                 |apply List.Forall_cons|apply Forall_app; split].
Qed.

Lemma handle_outputs sh e n n' os :
  nav_ok sh n -> numeric_target e -> handle sh e n = Ok (n', os) -> Forall (nav_output sh) os.
Proof.
  intros (z & Hz & _) Hnum H.
  assert (Hgoto : forall i b, gotoSlideByIndex sh i b n = (n', os) -> i <> None ->
      Forall (nav_output sh) os).
  { intros i b Hg Hi. pose proof (goto_outputs sh i b n Hi) as Ho. by rewrite Hg in Ho. }
  destruct e; simpl in H;
    try (injection H as H; apply (Hgoto _ _ H); rewrite ?Hz; done);
    try (injection H as <- <-; constructor).
  - unfold gotoSlide in H. apply rbind_ok in H as ([i out] & Hi & H).
    destruct (getSlideIndex_number _ _ _ _ Hi) as [Hne _]; [by intros s ->|].
    assert (Ho : Forall (nav_output sh) out).
    { destruct t as [y|s]; simpl in Hi; simplify_eq/=; [constructor|].
      repeat case_match; simplify_eq; by repeat constructor. }
    pose proof (goto_outputs sh i noMessage n Hne) as Ho'.
    destruct (gotoSlideByIndex sh i noMessage n). simplify_eq. by apply Forall_app.
  - unfold gotoSlideNumber in H. apply rbind_ok in H as (l & _ & H). injection H as H.
    destruct l as [[|id l]|]; simplify_eq; try constructor.
    destruct (sh_objs sh !! id); simplify_eq; [by apply (Hgoto _ _ H)|constructor].
  - injection H as <- <-. unfold toggleBlackout_handler.
    destruct propagate as [[]|]; try constructor; apply messages_outputs.
  - injection H as H. unfold createClone in H.
    destruct (clone n) as [[]|]; simplify_eq; by repeat constructor.
Qed.

Lemma handle_all_outputs sh es : forall n n' os,
  nav_ok sh n -> Forall numeric_target es -> handle_all sh es n = Ok (n', os) ->
  Forall (nav_output sh) os.
Proof.
  induction es as [|e es IH]; intros n n' os Hok Hnum H; simpl in H; [simplify_eq; constructor|].
  apply Forall_cons in Hnum as [He Hes].
  apply rbind_ok in H as ([n1 o1] & H1 & H). apply rbind_ok in H as ([n2 o2] & H2 & H).
  simplify_eq. apply Forall_app. split; [by eapply handle_outputs|].
  eapply (IH n1); [|done|done]. by destruct (handle_step sh e n n1 o1 Hok He H1).
Qed.

Section Follow.
Context (render renderNotes : slide_vm -> jsstr) (sh : slideshow) (current : option Z).
Let count := (Z.of_nat (getSlideCount sh)).

Lemma view_outputs_ok os : forall shown shown' v,
  see_all shown os = Some shown' -> Forall (nav_output sh) os ->
  view_ok shown v -> length (slideViews v) = getSlideCount sh ->
  (forall z, shown = Some z -> (0 <= z < count)%Z) ->
  exists v', view_outputs render renderNotes sh current os v = Ok v' /\ view_ok shown' v' /\
    length (slideViews v') = getSlideCount sh.
Proof.
  induction os as [|o os IH]; intros shown shown' v Hsee Hos Hv Hlen Hr; simpl in Hsee.
  { simplify_eq. by exists v. }
  apply Forall_cons in Hos as [Ho Hos]. apply bind_Some in Hsee as (s1 & Hs1 & Hsee).
  assert (Hkeep : forall w, s1 = shown -> slideViews w = slideViews v ->
    exists v', view_outputs render renderNotes sh current os w = Ok v' /\ view_ok shown' v' /\
      length (slideViews v') = getSlideCount sh).
  { intros w -> Ew. apply (IH shown); try done; [|by rewrite Ew]. unfold view_ok. by rewrite Ew. }
  destruct o as [e| | |]; [|simpl in Hs1; simplify_eq; by apply Hkeep..].
  destruct e; cbn [view_outputs view_event] in *; simpl in Hs1; simplify_eq;
    try (cbn [rbind]; by apply Hkeep).
  - case_bool_decide as E; [|done]. destruct E as [-> Hne]. simplify_eq.
    destruct shown as [z|]; [|done].
    destruct (on_hideSlide_ok v z) as (w & -> & Hw & Hl); [done|rewrite Hlen; by apply Hr|].
    cbn [rbind]. apply (IH None); try done. by rewrite Hl.
  - case_bool_decide as E; [|done]. simplify_eq. simpl in Ho.
    destruct s1 as [z|]; [|done]. simpl in Ho. apply andb_prop in Ho as [H0%Z.leb_le H1%Z.ltb_lt].
    destruct (on_showSlide_ok v z) as (w & -> & Hw & Hl); [done|rewrite Hlen; lia|].
    cbn [rbind]. apply (IH (Some z)); try done; [by rewrite Hl|]. intros y [= <-]. lia.
  - done.
  - cbn [rbind]. apply Hkeep; [done|]. unfold on_forcePresenterMode. by case_match.
Qed.
End Follow.

Lemma create_views_lookup render renderNotes slides : forall id i sv,
  create_views render renderNotes id slides !! i = Some sv -> sv_class sv = c_container.
Proof.
  induction slides as [|s t IH]; intros id [|i] sv H; simpl in H; simplify_eq/=; eauto.
Qed.

Lemma create_views_length render renderNotes slides id :
  length (create_views render renderNotes id slides) = length slides.
Proof. revert id. induction slides; intros id; simpl; auto. Qed.

(** The view of a deck whose first slide has not been shown yet. *)
Definition initial_view (render renderNotes : slide_vm -> jsstr) (slides : list slide_vm) : view :=
  mkView (create_views render renderNotes 0 slides) [] (length slides) [] (js "remark-container") []
    [] [] (setPageOrientation Landscape).

Lemma initial_view_ok render renderNotes slides :
  view_ok None (initial_view render renderNotes slides).
Proof.
  split; simpl.
  - intros i sv H%create_views_lookup. unfold visible. by rewrite H.
  - intros i j vi vj H%create_views_lookup _ Fi. unfold fading in Fi. by rewrite H in Fi.
Qed.

(** ** Fading ends *)

(** Every fading view has a timeout that is still to come. *)
Definition fade_inv (v : view) : Prop :=
  forall sv, sv ∈ slideViews v ++ detached v -> fading sv = true -> sv_id sv ∈ pending v.

(** The views of [l] that fade are, by their identity, views of [l0] that fade. *)
Definition fades_within (l l0 : list slide_view) : Prop :=
  forall sv, sv ∈ l -> fading sv = true -> exists sv0, sv0 ∈ l0 /\ sv_id sv0 = sv_id sv /\ fading sv0 = true.

Lemma fades_within_refl l : fades_within l l.
Proof. intros sv Hin Hf. by exists sv. Qed.

Lemma fades_within_trans l1 l2 l3 : fades_within l1 l2 -> fades_within l2 l3 -> fades_within l1 l3.
Proof.
  intros H1 H2 sv Hin Hf. destruct (H1 sv Hin Hf) as (s2 & Hin2 & <- & Hf2). by apply H2.
Qed.

(** Changing one view into one that does not fade. *)
Lemma fades_within_alter f i l : (forall sv, fading (f sv) = false) -> fades_within (alter f i l) l.
Proof.
  intros Hf sv (j & Hj)%list_elem_of_lookup Hfd. destruct (decide (j = i)) as [->|Hne].
  - rewrite list_lookup_alter_eq in Hj. apply fmap_Some in Hj as (s0 & _ & ->). by rewrite Hf in Hfd.
  - rewrite list_lookup_alter_ne in Hj by done. exists sv. split; [by eapply list_elem_of_lookup_2|done].
Qed.

Lemma fades_within_unfade_live fuel : forall i l, fades_within (unfade_live fuel i l) l.
Proof.
  induction fuel as [|fuel IH]; intros i l; [apply fades_within_refl|]. cbn [unfade_live].
  destruct (fading_positions l !! i) as [p|]; [|apply fades_within_refl].
  eapply fades_within_trans; [apply IH|apply fades_within_alter, fading_unfade].
Qed.

Lemma fade_inv_within v v' :
  fade_inv v -> fades_within (slideViews v' ++ detached v') (slideViews v ++ detached v) ->
  pending v' = pending v -> fade_inv v'.
Proof.
  intros H Hw Hp sv Hin Hf. rewrite Hp. destruct (Hw sv Hin Hf) as (s0 & Hin0 & <- & Hf0). by apply H.
Qed.

Lemma fades_within_app l l' m : fades_within l l' -> fades_within (l ++ m) (l' ++ m).
Proof.
  intros H sv [Hin|Hin]%elem_of_app Hf; [|by exists sv; rewrite elem_of_app; auto].
  destruct (H sv Hin Hf) as (s0 & ? & ?). exists s0. rewrite elem_of_app. auto.
Qed.

Lemma hideSlide_fade i v v' : fade_inv v -> hideSlide i v = Ok v' -> fade_inv v'.
Proof.
  intros H. unfold hideSlide. destruct i as [z|]; [|done]. destruct (view_at v (Some z)) as [s|] eqn:E; [|done].
  apply view_at_Some in E as [_ E]. intros [= <-] sv. simpl. rewrite elem_of_app. intros Hin Hf.
  apply elem_of_app. destruct Hin as [(j & Hj)%list_elem_of_lookup|Hin]; [|left; apply H; [set_solver|done]].
  destruct (decide (j = Z.to_nat z)) as [->|Hne].
  - rewrite list_lookup_alter_eq, E in Hj. injection Hj as <-. right. by apply list_elem_of_singleton.
  - rewrite list_lookup_alter_ne in Hj by done. left. apply H; [|done]. apply elem_of_app. left.
    by eapply list_elem_of_lookup_2.
Qed.

Lemma showSlide_fade i v v' : fade_inv v -> showSlide i v = Ok v' -> fade_inv v'.
Proof.
  intros H. unfold showSlide. destruct i as [z|]; [|done]. destruct (view_at v (Some z)); [|done]. intros [= <-].
  apply (fade_inv_within v); [done| |done]. apply fades_within_app, fades_within_alter, fading_show.
Qed.

Lemma view_event_fade render renderNotes sh current e v v' :
  fade_inv v -> view_event render renderNotes sh current e v = Ok v' -> fade_inv v'.
Proof.
  intros H. destruct e; cbn [view_event]; try (intros [= <-]; done).
  - apply hideSlide_fade. apply (fade_inv_within v); [done| |done].
    apply fades_within_app, fades_within_unfade_live.
  - unfold on_showSlide. intros (w & Hw & Hs)%rbind_ok. apply (showSlide_fade i w); [|done].
    unfold notes_showSlide in Hw. destruct (view_at v i); [|done]. by injection Hw as <-.
  - unfold updateSlideViews. set (w := mkView _ _ _ _ _ _ _ _ _).
    assert (Hw : fade_inv w).
    { intros sv. subst w. cbn [slideViews detached pending]. rewrite !elem_of_app. intros [Hin|Hin] Hf; [|apply H; set_solver].
      apply list_elem_of_lookup in Hin as (j & Hj%create_views_lookup). unfold fading in Hf. by rewrite Hj in Hf. }
    case_match; [by apply showSlide_fade|by intros [= <-]].
  - intros [= <-]. unfold on_forcePresenterMode. by case_match.
Qed.

Lemma fade_timeout_fade v : fade_inv v -> fade_inv (fade_timeout v).
Proof.
  intros H. unfold fade_timeout. destruct (pending v) as [|id rest] eqn:E; [done|]. intros sv. simpl.
  rewrite <- map_app. intros (s0 & -> & Hin)%list_elem_of_fmap Hf.
  destruct (Nat.eqb_spec (sv_id s0) id) as [Hid|Hid]; [by rewrite fading_unfade in Hf|].
  pose proof (H s0 Hin Hf) as Hp. rewrite E in Hp. apply elem_of_cons in Hp as [|]; done.
Qed.

Lemma fade_timeout_visible v i : visible <$> slideViews (fade_timeout v) !! i = visible <$> slideViews v !! i.
Proof.
  unfold fade_timeout. destruct (pending v) as [|id rest]; [done|]. simpl. rewrite list_lookup_fmap.
  destruct (slideViews v !! i) as [sv|]; [|done]. simpl. by destruct (_ =? _); rewrite ?visible_unfade.
Qed.

(** What happens to the views: an event of the bus, with the deck and the current index at
    that moment, or a timeout. *)
Inductive vstep := VEvent (sh : slideshow) (current : option Z) (e : event) | VTimeout.

Definition do_vstep (render renderNotes : slide_vm -> jsstr) (s : vstep) (v : view) : result view :=
  match s with
  | VEvent sh current e => view_event render renderNotes sh current e v
  | VTimeout => Ok (fade_timeout v)
  end.

Fixpoint run_view (render renderNotes : slide_vm -> jsstr) (ss : list vstep) (v : view) : result view :=
  match ss with
  | [] => Ok v
  | s :: ss => let! v := do_vstep render renderNotes s v in run_view render renderNotes ss v
  end.

Lemma run_view_fade render renderNotes ss : forall v v',
  fade_inv v -> run_view render renderNotes ss v = Ok v' -> fade_inv v'.
Proof.
  induction ss as [|s ss IH]; intros v v' H; cbn [run_view]; [by intros [= <-]|].
  intros (w & Hw & Hr)%rbind_ok. apply (IH w); [|done]. destruct s; cbn [do_vstep] in Hw.
  - by eapply view_event_fade.
  - injection Hw as <-. by apply fade_timeout_fade.
Qed.

Lemma timeouts_end n : forall v, length (pending v) = n -> fade_inv v ->
  pending (Nat.iter n fade_timeout v) = [] /\ fade_inv (Nat.iter n fade_timeout v) /\
  forall i, visible <$> slideViews (Nat.iter n fade_timeout v) !! i = visible <$> slideViews v !! i.
Proof.
  induction n as [|n IH]; intros v Hn H; [by apply nil_length_inv in Hn|].
  rewrite Nat.iter_succ_r. destruct (IH (fade_timeout v)) as (H1 & H2 & H3).
  - unfold fade_timeout. destruct (pending v); simpl in *; lia.
  - by apply fade_timeout_fade.
  - split_and!; [done|done|]. intros i. by rewrite H3, fade_timeout_visible.
Qed.

(** ** Properties *)

(** The views follow the navigation: after any sequence of navigation events in a
    deck, no handler of the view has thrown, exactly the container of the current
    slide has the class remark-visible, and at most one container is fading (although
    the loop that removes the class runs over a live collection). *)
Theorem views_follow (render renderNotes : slide_vm -> jsstr) (sh : slideshow) (opener : bool)
    (current : option Z) (es : list event) (n : nav) (os : list output) :
  length (getSlides sh) = getSlideCount sh -> Forall numeric_target es ->
  handle_all sh es (initial_nav opener) = Ok (n, os) ->
  exists v, view_outputs render renderNotes sh current os
              (initial_view render renderNotes (getSlides sh)) = Ok v /\
    (forall i sv, slideViews v !! i = Some sv ->
       hasClass c_visible (sv_class sv) = bool_decide (on_screen n = Some (Z.of_nat i))) /\
    one_fading (slideViews v).
Proof.
  intros Hlen Hes H.
  assert (Hok : nav_ok sh (initial_nav opener)) by (exists (-1)%Z; split; [done|lia]).
  destruct (handle_all_step sh es _ _ _ Hok Hes H) as [_ Hsee].
  pose proof (handle_all_outputs sh es _ _ _ Hok Hes H) as Hos.
  destruct (view_outputs_ok render renderNotes sh current os None (on_screen n)
    (initial_view render renderNotes (getSlides sh))) as (v & Hv & [H1 H2] & _); try done.
  - apply initial_view_ok.
  - simpl. by rewrite create_views_length.
  - by exists v.
Qed.

Lemma views_follow_witness :
  exists n os v, handle_all deck3 [E_gotoFirstSlide; E_gotoNextSlide] (initial_nav false) = Ok (n, os) /\
    view_outputs (fun _ => []) (fun _ => []) deck3 None os
      (initial_view (fun _ => []) (fun _ => []) (getSlides deck3)) = Ok v /\
    (forall i sv, slideViews v !! i = Some sv ->
       hasClass c_visible (sv_class sv) = bool_decide (on_screen n = Some (Z.of_nat i))).
Proof.
  destruct (views_follow (fun _ => []) (fun _ => []) deck3 false None
    [E_gotoFirstSlide; E_gotoNextSlide] _ _ ltac:(vm_compute; reflexivity)
    ltac:(repeat constructor) ltac:(vm_compute; reflexivity)) as (v & Hv & H1 & _).
  eexists _, _, v. split; [vm_compute; reflexivity|]. split; [exact Hv|exact H1].
Defined.

(** C11. Fading always ends: whatever happened to the views, navigation, reloads and earlier
    timeouts, every fading container has a timeout to come; when the pending timeouts have
    run, no container fades, on screen or removed, and the same slides are visible. *)
Theorem fading_ends (render renderNotes : slide_vm -> jsstr) (slides : list slide_vm) (ss : list vstep) (v : view) :
  run_view render renderNotes ss (initial_view render renderNotes slides) = Ok v ->
  let v' := Nat.iter (length (pending v)) fade_timeout v in
  pending v' = [] /\ Forall (fun sv => hasClass c_fading (sv_class sv) = false) (slideViews v' ++ detached v') /\
  forall i, visible <$> slideViews v' !! i = visible <$> slideViews v !! i.
Proof.
  intros H. apply run_view_fade in H.
  - destruct (timeouts_end (length (pending v)) v eq_refl H) as (H1 & H2 & H3). split_and!; [done| |done].
    apply Forall_forall. intros sv Hin. destruct (hasClass c_fading (sv_class sv)) eqn:E; [|done].
    pose proof (H2 sv Hin E) as Hp. rewrite H1 in Hp. by apply elem_of_nil in Hp.
  - intros sv. simpl. rewrite app_nil_r. intros (i & Hi%create_views_lookup)%list_elem_of_lookup Hf.
    unfold fading in Hf. by rewrite Hi in Hf.
Qed.

(** Two slides are left before the first has faded, and the deck is reloaded. *)
Definition hurried : list vstep :=
  [VEvent deck3 None (E_showSlide (Some 0%Z)); VEvent deck3 None (E_hideSlide (Some 0%Z));
   VEvent deck3 None (E_showSlide (Some 1%Z)); VEvent deck3 None (E_hideSlide (Some 1%Z));
   VEvent deck3 None (E_showSlide (Some 2%Z)); VEvent deck1 (Some 0%Z) E_slidesChanged].

Lemma fading_ends_witness : exists v,
  run_view (fun _ => []) (fun _ => []) hurried (initial_view (fun _ => []) (fun _ => []) (getSlides deck3)) = Ok v /\
  length (pending v) = 2 /\ existsb (fun sv => hasClass c_fading (sv_class sv)) (detached v) = true /\
  Forall (fun sv => hasClass c_fading (sv_class sv) = false)
    (slideViews (Nat.iter (length (pending v)) fade_timeout v) ++ detached (Nat.iter (length (pending v)) fade_timeout v)).
Proof.
  eexists. split; [vm_compute; reflexivity|]. split; [reflexivity|]. split; [vm_compute; reflexivity|].
  apply (fading_ends (fun _ => []) (fun _ => []) (getSlides deck3) hurried). vm_compute. reflexivity.
Defined.

(** Reloading a deck that has become shorter can break the view: the navigation
    clamps the current index to the number of slides, and the view then shows a slide
    that does not exist and throws a TypeError. *)
Theorem reload_shorter_throws (render renderNotes : slide_vm -> jsstr) (v : view) :
  exists sh n msg, reachable sh n /\
    view_event render renderNotes sh (currentSlideIndex n) E_slidesChanged v = Throw (TypeError msg).
Proof.
  exists deck1, (slidesChanged deck1 at_last).
  eexists. split; [apply (R_load deck3), reachable_at_last|].
  cbn [view_event]. unfold updateSlideViews.
  change (currentSlideIndex (slidesChanged deck1 at_last)) with (Some 1%Z).
  cbn. reflexivity.
Qed.

(** The users of the event toggledPresenter get the slide after the current one, because
    the event carries a slide number and the number is taken as an index. *)
Example toggledPresenter_next (slides : list slide_vm) (i : nat) :
  external_event slides (js "toggledPresenter") (toggledPresenter_arg (Z.of_nat i))
  = Some (js "toggledPresenter", slides !! S i).
Proof.
  unfold external_event, toggledPresenter_arg. rewrite bool_decide_eq_true_2 by (by apply (bool_decide_unpack _)).
  rewrite (proj2 (Z.ltb_ge _ _)) by lia. do 2 f_equal. f_equal. lia.
Qed.
