(* ===== verification/SlideView.v ===== *)
(** * The elements of a slide (module 27) and the scaler (module 24)

    The class lists and styles that [SlideView] builds from the properties of a slide, and
    the sizes of slides. *)

From Stdlib Require Import SpecFloat.
From S2P Require Import Prelude JsString JsRegExp RegExpFacts RegExpCounts SlideParser Utils.

(** ** Classes and styles *)

Definition prop (p : gmap jsstr jsstr) (name : jsstr) : jsstr := default [] (p !! name).

(** [createSlideElement(slide)]: its class attribute *)
Definition createSlideElement (p : gmap jsstr jsstr) : jsstr :=
  let c := js "remark-slide" in
  if bool_decide (p !! js "continued" = Some (js "true")) then addClass (js "remark-slide-incremental") c else c.

Definition re_class_sep : regexp := Eval vm_compute in re ",| " "".

Definition setClassFromProperties (p : gmap jsstr jsstr) (c : jsstr) : jsstr :=
  fold_left (fun c k => addClass k c)
    (List.filter (fun s => negb (bool_decide (s = []))) (split_re re_class_sep (prop p (js "class"))))
    (addClass (js "remark-slide-content") c).

Definition setHighlightStyleFromProperties (p : gmap jsstr jsstr) (highlightStyle : jsstr) (c : jsstr) : jsstr :=
  match (match prop p (js "highlight-style") with [] => highlightStyle | s => s end) with
  | [] => c
  | s => addClass (js "hljs-" ++ s) c
  end.

(** The properties of [element.style] that a slide may set. *)
Record style := mkStyle {
  backgroundImage : jsstr;
  backgroundColor : jsstr;
  backgroundSize : jsstr;
  backgroundPosition : jsstr
}.

Definition set_if (v old : jsstr) : jsstr := match v with [] => old | _ => v end.

Definition setBackgroundFromProperties (p : gmap jsstr jsstr) (s : style) : style :=
  mkStyle (set_if (prop p (js "background-image")) (backgroundImage s))
          (set_if (prop p (js "background-color")) (backgroundColor s))
          (set_if (prop p (js "background-size")) (backgroundSize s))
          (set_if (prop p (js "background-position")) (backgroundPosition s)).

(** [styleContentElement(slideshow, element, properties)] *)
Definition styleContentElement (p : gmap jsstr jsstr) (highlightStyle : jsstr) (s : style) : jsstr * style :=
  (setHighlightStyleFromProperties p highlightStyle (setClassFromProperties p []),
   setBackgroundFromProperties p s).

(** The id of the content element, when the slide has a name. *)
Definition content_id (p : gmap jsstr jsstr) : option jsstr :=
  match prop p (js "name") with [] => None | n => Some (js "slide-" ++ n) end.

(** ** The scaler *)

(** Numbers are IEEE 754 double precision. *)
Abbreviation fprec := 53%Z.
Abbreviation femax := 1024%Z.
Definition num (z : Z) : spec_float := binary_normalize fprec femax z 0 false.
Definition fdiv : spec_float -> spec_float -> spec_float := SFdiv fprec femax.
Definition fmul : spec_float -> spec_float -> spec_float := SFmul fprec femax.
Definition fsub : spec_float -> spec_float -> spec_float := SFsub fprec femax.

(** [Math.floor(x)] as an integer; NaN and the infinities have none. *)
Definition floorZ (x : spec_float) : option Z :=
  match x with
  | S754_zero _ => Some 0%Z
  | S754_finite s m e =>
      let z := if s then Zneg m else Zpos m in
      Some (if (0 <=? e)%Z then z * 2 ^ e else z / 2 ^ (- e))%Z
  | _ => None
  end.

Definition referenceWidth : Z := 908.
Definition referenceHeight : Z := 681.
Definition referenceRatio : spec_float := Eval vm_compute in fdiv (num referenceWidth) (num referenceHeight).

Record ratio := mkRatio { r_width : spec_float; r_height : spec_float; r_ratio : spec_float }.

(** [parseInt(component, 10)] of a component that may be missing *)
Definition component (w : option jsstr) : spec_float :=
  match w ≫= parseInt with Some z => num z | None => S754_nan end.

Definition getRatio (text : jsstr) : ratio :=
  let cs := split_on 58 text in
  let w := component (cs !! 0) in
  let h := component (cs !! 1) in
  mkRatio w h (fdiv w h).

(** [getDimensions(ratio)]: the width, when it is a number, and the height *)
Definition getDimensions (r : ratio) : option Z * Z :=
  (floorZ (fmul (fdiv (num referenceWidth) referenceRatio) (r_ratio r)), referenceHeight).

Definition fmax0 (x : spec_float) : spec_float :=
  match x with S754_nan => S754_nan | _ => if SFltb (num 0) x then x else num 0 end.

(** [scaleToFit]: the scale and the position of the element in a container *)
Definition scaleToFit (r : ratio) (width height : Z) (containerWidth containerHeight : Z)
    : spec_float * spec_float * spec_float :=
  let cw := num containerWidth in
  let ch := num containerHeight in
  let scale := if SFltb (fdiv ch (r_height r)) (fdiv cw (r_width r))
               then fdiv ch (num height) else fdiv cw (num width) in
  let left := fdiv (fsub cw (fmul (num width) scale)) (num 2) in
  let top := fdiv (fsub ch (fmul (num height) scale)) (num 2) in
  (scale, fmax0 left, fmax0 top).

(** The width of the slides follows the ratio exactly: for every ratio with
    components from 1 to 24, the width that is computed in double precision is 681 times
    the ratio rounded down, without an error of rounding. *)
Theorem dimensions_exact :
  Forall (fun wh : nat * nat =>
      let '(w, h) := wh in
      getDimensions (getRatio (dec (N.of_nat w) ++ js ":" ++ dec (N.of_nat h)))
      = (Some (681 * Z.of_nat w / Z.of_nat h)%Z, 681%Z))
    (list_prod (seq 1 24) (seq 1 24)).
Proof.
  assert (H : forallb (fun wh : nat * nat =>
    bool_decide (getDimensions (getRatio (dec (N.of_nat wh.1) ++ js ":" ++ dec (N.of_nat wh.2)))
      = (Some (681 * Z.of_nat wh.1 / Z.of_nat wh.2)%Z, 681%Z))) (list_prod (seq 1 24) (seq 1 24)) = true)
    by (vm_compute; reflexivity).
  apply Forall_forall. intros [w h] Hw. rewrite List.forallb_forall in H.
  apply list_elem_of_In in Hw. specialize (H _ Hw). by apply bool_decide_eq_true in H.
Qed.
