(* ===== verification/Session.v ===== *)
(** * The running slide show (module 6: api.create, with modules 7, 19, 20 and 28)

    [create] builds the deck, the navigation, the views, the timer and the controller and
    connects them by one event emitter.  Here they are put together: an event of the bus
    reaches the navigation, then the views, the timer and the controller, in the order in
    which they are registered, and what a listener emits is delivered before the next
    listener is called.  An action of the user or the browser is one step. *)

From S2P Require Import Prelude JsString JsRegExp RegExpFacts Events SlideParser SlideModel Slideshow.
From S2P Require Import Navigation Inputs Timer Utils Views.

(** ** State *)

Record session (E : Type) := mkSession {
  a_show : slideshow;
  a_nav : nav;
  a_view : view;
  a_timer : timer;
  a_inputs : inputs E;
  (** the show is in an element of its own, not in the body *)
  a_embedded : bool;
  (** messages posted and windows opened *)
  a_out : list output
}.
Arguments mkSession {E} _ _ _ _ _ _ _.
Arguments a_show {E} _.
Arguments a_nav {E} _.
Arguments a_view {E} _.
Arguments a_timer {E} _.
Arguments a_inputs {E} _.
Arguments a_embedded {E} _.
Arguments a_out {E} _.

(** The DOM events that are forwarded to the bus. *)
Definition forwarded (embedded : bool) : list jsstr :=
  if embedded
  then map js ["resize"; "keydown"; "keypress"; "mousewheel"; "touchstart"; "touchmove"; "touchend"]%string
  else map js ["hashchange"; "resize"; "keydown"; "keypress"; "mousewheel"; "message"; "DOMMouseScroll";
               "touchstart"; "touchmove"; "touchend"; "click"; "contextmenu"]%string.

(** What the timer makes of an event of the bus at the time [now]. *)
Definition to_timer (now : Z) (e : event) : option tevent :=
  match e with
  | E_start => Some TStart
  | E_startTimer => Some TStartTimer
  | E_pauseTimer => Some TPauseTimer
  | E_toggleTimer => Some TToggleTimer
  | E_resetTimer => Some (TResetTimer now)
  | _ => None
  end.

(** The events of the bus that the controller listens to. *)
Definition to_input (e : event) : option input :=
  match e with
  | E_slideChanged n => Some (SlideChanged n)
  | E_pause => Some Pause
  | E_resume => Some Resume
  | _ => None
  end.

Section Session.
Context {E : Type} `{Emitter E handler}.
Context (render renderNotes : slide_vm -> jsstr).
Context (opts : nav_options) (topts : timer_options).

Implicit Types a : session E.

Definition with_show (sh : slideshow) a : session E :=
  mkSession sh (a_nav a) (a_view a) (a_timer a) (a_inputs a) (a_embedded a) (a_out a).
Definition with_nav (n : nav) a : session E :=
  mkSession (a_show a) n (a_view a) (a_timer a) (a_inputs a) (a_embedded a) (a_out a).
Definition with_view (v : view) a : session E :=
  mkSession (a_show a) (a_nav a) v (a_timer a) (a_inputs a) (a_embedded a) (a_out a).
Definition with_timer (t : timer) a : session E :=
  mkSession (a_show a) (a_nav a) (a_view a) t (a_inputs a) (a_embedded a) (a_out a).
Definition with_inputs (s : inputs E) a : session E :=
  mkSession (a_show a) (a_nav a) (a_view a) (a_timer a) s (a_embedded a) (a_out a).
Definition with_out (o : output) a : session E :=
  mkSession (a_show a) (a_nav a) (a_view a) (a_timer a) (a_inputs a) (a_embedded a) (a_out a ++ [o]).

(** ** The bus *)

Definition presenter a : bool := hasClass c_presenter (containerClass (a_view a)).

(** The inputs read the presenter mode off the class of the container. *)
Definition sync a : session E :=
  with_inputs (mkInputs (events (a_inputs a)) (_gotoSlideNumber (a_inputs a)) (touches (a_inputs a))
    (hash (a_inputs a)) (presenter a)) a.

(** An event for listeners of the controller that emit nothing. *)
Definition deliver (i : input) a : session E := with_inputs (fst (dispatch opts i (a_inputs (sync a)))) a.

(** An event whose listeners do not navigate: views, timer and controller. *)
Definition notify (now : Z) (e : event) a : result (session E) :=
  let! v := view_event render renderNotes (a_show a) (currentSlideIndex (a_nav a)) e (a_view a) in
  let a := with_view v a in
  let a := match to_timer now e with Some te => with_timer (on_event topts te (a_timer a)) a | None => a end in
  Ok (match to_input e with Some i => deliver i a | None => a end).

(** What the navigation emits and posts, in order.  The listeners do not read the current
    index, so it makes no difference that it is already set. *)
Fixpoint notify_all (now : Z) (os : list output) a : result (session E) :=
  match os with
  | [] => Ok a
  | Emit e :: os => let! a := notify now e a in notify_all now os a
  | o :: os => notify_all now os (with_out o a)
  end.

(** [events.emit(...)] for an event of the bus; [width] is the width of the container. *)
Definition emit (now width : Z) (e : event) a : result (session E) :=
  let e := match e with E_tap x => on_tap x width | _ => e end in
  let! (n, os) := handle (a_show a) e (a_nav a) in
  let! a := notify_all now os (with_nav n a) in
  let! a := notify now e a in
  Ok (match e with
      | E_togglePresenterMode => deliver (ToggledPresenter (idx_add1 (currentSlideIndex (a_nav a)))) a
      | _ => a
      end).

Fixpoint emit_all (now width : Z) (os : list iout) a : result (session E) :=
  match os with
  | [] => Ok a
  | IEmit e :: os => let! a := emit now width e a in emit_all now width os a
  | IPreventDefault :: os => emit_all now width os a
  end.

(** The listeners of a DOM event, one after the other. *)
Fixpoint call_each (now width : Z) (hs : list handler) (i : input) a : result (session E) :=
  match hs with
  | [] => Ok a
  | h :: hs =>
      let '(s, os) := call_handler opts h i (a_inputs (sync a)) in
      let! a := emit_all now width os (with_inputs s a) in
      call_each now width hs i a
  end.

(** ** Actions *)

Inductive action :=
| Dom (i : input)
(** the address gets a new hash, and the browser reports it *)
| SetHash (h : jsstr)
(** a method of the slide show object *)
| Call (e : event)
| Load (source : jsstr)
| FadeTimeout
| TimerTick.

Context (macros : macro_env) (depth : nat) (sopts : show_options).

Definition on_dom (now width : Z) (i : input) a : result (session E) :=
  if bool_decide (input_name i ∈ forwarded (a_embedded a))
  then call_each now width (em_listeners (events (a_inputs a)) (input_name i)) i a
  else Ok a.

Definition perform (now width : Z) (act : action) a : result (session E) :=
  match act with
  | Dom i => on_dom now width i a
  | SetHash h => on_dom now width Hashchange (with_inputs (with_hash h (a_inputs a)) a)
  | Call e => emit now width e a
  | Load source =>
      let! sh := loadFromString macros depth source sopts in
      emit now width E_slidesChanged (with_show sh a)
  | FadeTimeout => Ok (with_view (fade_timeout (a_view a)) a)
  | TimerTick => Ok (with_timer (on_event topts (TTick now) (a_timer a)) a)
  end.

(** ** create *)

Definition c_remark_container : jsstr := js "remark-container".

(** [SlideshowView(...)] of a container with the given class *)
Definition newView (sh : slideshow) (current : option Z) (container : jsstr) : result view :=
  updateSlideViews render renderNotes sh current
    (mkView [] [] 0 [] (addClass c_remark_container container) [] [] [] (setPageOrientation Landscape)).

(** [create(options)]: [h] is the hash of the address, [e0] the emitter without listeners
    of the inputs. *)
Definition create (now width : Z) (opener embedded : bool) (container h source : jsstr) (e0 : E) : result (session E) :=
  let! sh := loadFromString macros depth source sopts in
  let n := slidesChanged sh (initial_nav opener) in
  let! v := newView sh (currentSlideIndex n) container in
  let t := newTimer topts now in
  let '(s, os) := controller opts embedded (mkInputs e0 [] [] h (hasClass c_presenter (containerClass v))) in
  emit_all now width os (mkSession sh n v t s embedded []).
End Session.

(** ** Decks *)

Definition deck_ok (sh : slideshow) : Prop :=
  length (getSlides sh) = getSlideCount sh /\ sh_byNumber sh <> None.

Lemma expand_all_length ids : forall store, length (expand_all ids store) = length store.
Proof.
  induction ids as [|id ids IH]; intros store; [done|]. unfold expand_all. cbn [fold_left].
  fold (expand_all ids (alter expandVariables id store)). by rewrite IH, length_alter.
Qed.

Lemma omap_lookup_length {A} (l : list A) ids : Forall (fun id => id < length l) ids ->
  length (omap (fun id => l !! id) ids) = length ids.
Proof.
  induction 1 as [|id ids Hid Hids IH]; [done|]. simpl.
  destruct (lookup_lt_is_Some_2 l id Hid) as [x ->]. simpl. f_equal. exact IH.
Qed.

(** Every source that loads gives such a deck. *)
Lemma load_deck_ok macros depth source opts sh : loadFromString macros depth source opts = Ok sh -> deck_ok sh.
Proof.
  intros (st & Hst & [= <-])%rbind_ok. split; [|done]. apply omap_lookup_length. simpl.
  rewrite expand_all_length. apply Forall_forall. intros id [k Hk]%list_elem_of_lookup.
  destruct (createSlides_index _ _ _ _ _ _ _ Hst Hk) as (vm & Hv & _). by eapply lookup_lt_Some.
Qed.

(** ** Targets and events that do not throw *)

(** A name other than NaN and other than the members of Object.prototype. *)
Definition safe_target (s : jsstr) : Prop := s <> js "NaN" /\ (s ∉ object_prototype).

Definition safe_event (e : event) : Prop :=
  match e with E_gotoSlide (TStr s) _ => safe_target s | _ => True end.

(** The events that users and inputs emit; the others are emitted by the navigation and by
    loading only. *)
Definition bus_event (e : event) : bool :=
  match e with
  | E_hideSlide _ | E_showSlide _ | E_slideChanged _ | E_start | E_slidesChanged | E_toggledPresenter _ => false
  | _ => true
  end.

Definition digit_first (s : jsstr) : bool := match s with c :: _ => is_digit c | [] => false end.

Lemma safe_digits s : digit_first s = true -> safe_target s /\ safe_target (js "p" ++ s).
Proof.
  destruct s as [|c s]; [done|]. cbn [digit_first]. intros Hc.
  assert (Hne : forall x t, is_digit x = false -> c :: s <> x :: t) by congruence.
  assert (Hne2 : forall y x t, is_digit x = false -> 112%N :: c :: s <> y :: x :: t) by congruence.
  split; (split; [intros [=]; subst; done|]); unfold object_prototype; rewrite !elem_of_cons, elem_of_nil;
    intros Hin; destruct_or! Hin; injection Hin; intros; subst; done.
Qed.

Lemma dec_digit_first n : digit_first (dec n) = true.
Proof.
  pose proof (dec_digits n) as Hd. pose proof (dec_nonempty n). destruct (dec n); [done|]. by apply Forall_cons in Hd as [? _].
Qed.

Lemma updateHash_safe b n : safe_target (substring_from (updateHash b (Some (Z.of_N n))) 1).
Proof.
  unfold updateHash. rewrite idx_toString_N. destruct (safe_digits (dec n) (dec_digit_first n)). by destruct b.
Qed.

Lemma handle_safe sh e n : deck_ok sh -> safe_event e -> exists r, handle sh e n = Ok r.
Proof.
  intros [_ Hb] He. destruct e as [t b|s| | | | | | | | | | | | | | | | | | | | | | | | | |]; simpl; eauto.
  - unfold gotoSlide. destruct t as [z|s]; simpl.
    + destruct (gotoSlideByIndex sh _ b n). eauto.
    + unfold getSlideByName, get_entry. case_bool_decide; [by simpl; destruct (gotoSlideByIndex sh _ b n); eauto|].
      destruct (test presenter_pattern s); [by simpl; destruct (gotoSlideByIndex sh _ b n); eauto|].
      destruct He as [_ He]. rewrite (bool_decide_false _ He). destruct (sh_byName sh !! s) as [id|];
        [destruct (sh_objs sh !! id)|]; simpl; destruct (gotoSlideByIndex sh _ b n); eauto.
  - unfold gotoSlideNumber, getSlidesByNumber. destruct (sh_byNumber sh); [|done]. simpl. eauto.
Qed.

Lemma safe_numeric e : safe_event e -> numeric_target e.
Proof. destruct e as [[z|s] b| | | | | | | | | | | | | | | | | | | | | | | | | | |]; try done. by intros [? _]. Qed.

(** ** The table of the controller *)

Section Wiring.
Context {E : Type} `{Emitter E handler} (opts : nav_options).
Implicit Types s : inputs E.

(** The listeners of the location, in a show that is not embedded, and of messages. *)
Definition wired (embedded : bool) s : Prop :=
  ok s /\
  heard s (js "slideChanged") = (if embedded then [] else [HUpdateHash]) /\
  heard s (js "toggledPresenter") = (if embedded then [] else [HUpdateHash]) /\
  heard s (js "hashchange") = (if embedded then [] else [HNavigateByHash]) /\
  heard s (js "message") = [HMessage].

Lemma wired_events b s s' : events s' = events s -> wired b s -> wired b s'.
Proof. unfold wired, ok, heard. by intros ->. Qed.

Lemma mouse_touch_wired b s : wired b s -> wired b (touch_register opts (mouse_register opts s)).
Proof.
  intros (Hok & H1 & H2 & H3 & H4). pose proof (mouse_register_ok opts s Hok) as Hm.
  split; [by apply touch_register_ok|].
  split_and!; rewrite touch_register_heard, mouse_register_heard by first [assumption|vm_compute; reflexivity]; done.
Qed.

Lemma pause_wired b s : wired b s -> wired b (pause_handler s).
Proof.
  intros (Hok & H1 & H2 & H3 & H4). unfold pause_handler, touch_unregister, mouse_unregister, keyboard_deactivate.
  split; [table_ok|]. split_and!; hear; done.
Qed.

Lemma keyboard_wired b s : wired b s -> wired b (keyboard_activate s).
Proof.
  intros (Hok & H1 & H2 & H3 & H4). unfold keyboard_activate. split; [table_ok|]. split_and!; hear; done.
Qed.

Lemma controller_wired b s : ok s -> (forall t, heard s t = []) -> wired b (fst (controller opts b s)).
Proof.
  intros Hok He. rewrite controller_unfold.
  assert (Hm : wired b (fst (location_register b (message_register (keyboard_activate s))))).
  { split; [by apply startup_ok|]. unfold message_register, keyboard_activate, location_register.
    destruct b; cbn [fst]; split_and!; hear; by rewrite He. }
  apply mouse_touch_wired in Hm as (Hok2 & H1 & H2 & H3 & H4).
  split; [table_ok|]. split_and!; hear; done.
Qed.

Lemma call_handler_wired b h i s : wired b s -> wired b (fst (call_handler opts h i s)).
Proof.
  intros Hw. destruct h, i; cbn [call_handler fst]; try done; try (by apply (wired_events b s)).
  - destruct (keydown e _). by apply (wired_events b s).
  - destruct (keypress e _). by apply (wired_events b s).
  - destruct (touches s !! c); [|done]. destruct (touchend _ _ _). by apply (wired_events b s).
  - by apply pause_wired.
  - by apply mouse_touch_wired, keyboard_wired.
Qed.

(** Only the listener of slide changes writes the hash. *)
Definition writes_hash (i : input) : bool :=
  match i with SlideChanged _ | ToggledPresenter _ => true | _ => false end.

Lemma forwarded_reads i b : input_name i ∈ forwarded b -> writes_hash i = false.
Proof. intros Hf. destruct i, b; try done; apply (bool_decide_eq_true_2 _) in Hf; by vm_compute in Hf. Qed.

Lemma call_handler_hash h i s : writes_hash i = false -> hash (fst (call_handler opts h i s)) = hash s.
Proof.
  intros Hi. destruct h, i; cbn [call_handler fst]; try done.
  - by destruct (keydown e _).
  - by destruct (keypress e _).
  - destruct (touches s !! c); [|done]. by destruct (touchend _ _ _).
  - unfold resume_handler, touch_register, mouse_register. by destruct (bool_decide (_ = Some false)), (o_click opts), (bool_decide (_ <> _)).
Qed.

Lemma call_all_wired b hs i : forall s, wired b s -> wired b (fst (call_all opts hs i s)).
Proof.
  induction hs as [|h hs IH]; intros s Hw; [done|]. cbn [call_all].
  pose proof (call_handler_wired b h i s Hw) as H1. destruct (call_handler opts h i s) as [s1 o1].
  specialize (IH s1 H1). by destruct (call_all opts hs i s1).
Qed.

Lemma call_all_hash hs i : writes_hash i = false -> forall s, hash (fst (call_all opts hs i s)) = hash s.
Proof.
  intros Hi. induction hs as [|h hs IH]; intros s; [done|]. cbn [call_all].
  pose proof (call_handler_hash h i s Hi) as H1. destruct (call_handler opts h i s) as [s1 o1].
  specialize (IH s1). destruct (call_all opts hs i s1). simpl in *. congruence.
Qed.

(** What the listeners of the inputs emit. *)
Definition good_iout (o : iout) : Prop :=
  match o with IEmit e => bus_event e = true /\ safe_event e | IPreventDefault => True end.

Lemma keydown_good e d : Forall good_iout (snd (keydown e d)).
Proof.
  unfold keydown. repeat case_match; cbn [snd]; repeat constructor.
Qed.

Lemma keypress_good e d : Forall good_iout (snd (keypress e d)).
Proof.
  unfold keypress. repeat case_match; cbn [snd]; repeat constructor.
Qed.

Lemma message_good data : Forall good_iout (map IEmit (navigateByMessage data)).
Proof. unfold navigateByMessage. repeat case_match; repeat constructor. Qed.

Lemma call_handler_good h i s :
  safe_target (substring_from (hash s) 1) -> Forall good_iout (snd (call_handler opts h i s)).
Proof.
  intros Hs. destruct h, i; cbn [call_handler snd]; try by constructor.
  - pose proof (keydown_good e (_gotoSlideNumber s)). by destruct (keydown e _).
  - pose proof (keypress_good e (_gotoSlideNumber s)). by destruct (keypress e _).
  - apply message_good.
  - unfold click. repeat case_match; repeat constructor.
  - unfold contextmenu. repeat case_match; repeat constructor.
  - unfold scrollHandler. repeat case_match; repeat constructor.
  - unfold scrollHandler. repeat case_match; repeat constructor.
  - destruct (touches s !! c) as [v|]; [|constructor]. unfold touchend.
    repeat (case_match; simplify_eq/=); repeat constructor.
Qed.
End Wiring.

(** The event that is handled when [e] is emitted: a tap goes to one of the neighbours. *)
Definition untap (width : Z) (e : event) : event := match e with E_tap x => on_tap x width | _ => e end.

Lemma untap_bus width e : bus_event e = true -> bus_event (untap width e) = true.
Proof. intros He. destruct e; try done. cbn [untap]. unfold on_tap. by case_match. Qed.

Lemma untap_safe width e : safe_event e -> safe_event (untap width e).
Proof. intros He. destruct e; try done. cbn [untap]. unfold on_tap. by case_match. Qed.

(** ** The navigation's outputs *)

(** What a single navigation puts out: nothing about slides if the index stays, and
    otherwise one change of slide, after which only messages are posted. *)
Definition quiet_output (o : output) : bool :=
  match o with Emit E_forcePresenterMode => true | Emit _ => false | _ => true end.
Definition before_change (o : output) : bool :=
  match o with
  | Emit E_forcePresenterMode | Emit (E_hideSlide _) | Emit E_start | Emit (E_showSlide _) => true
  | Emit _ => false
  | _ => true
  end.
Definition message_output (o : output) : bool := match o with Emit _ => false | _ => true end.

Definition nav_shape (n n' : nav) (os : list output) : Prop :=
  (currentSlideIndex n' = currentSlideIndex n /\ forallb quiet_output os = true) \/
  (exists pre post, os = pre ++ Emit (E_slideChanged (idx_add1 (currentSlideIndex n'))) :: post /\
    forallb before_change pre = true /\ forallb message_output post = true).

Lemma messages_message n d : forallb message_output (messages n d) = true.
Proof. unfold messages. by destruct (clone n) as [[]|], (opener n). Qed.

Lemma message_quiet os : forallb message_output os = true -> forallb quiet_output os = true.
Proof. rewrite !forallb_forall. intros H o Ho. specialize (H o Ho). by destruct o as [[]| | |]. Qed.

Lemma goto_shape sh i b n : nav_shape n (fst (gotoSlideByIndex sh i b n)) (snd (gotoSlideByIndex sh i b n)).
Proof.
  unfold gotoSlideByIndex. destruct (_ || _); [by left|]. right.
  destruct (idx_eq (currentSlideIndex n) _), (started n) as [[]|], b; cbn [fst snd currentSlideIndex app];
    [eexists [_], _|eexists [_], _|eexists [_; _], _|eexists [_; _], _|eexists [_], _|eexists [_], _
    |eexists [_; _], _|eexists [_; _], _|eexists [_; _; _], _|eexists [_; _; _], _|eexists [_; _], _|eexists [_; _], _];
    (split; [reflexivity|]); (split; [reflexivity|]); first [reflexivity|apply messages_message].
Qed.

Lemma shape_pre n n' pre os : forallb quiet_output pre = true -> nav_shape n n' os -> nav_shape n n' (pre ++ os).
Proof.
  intros Hp [[Hc Hq]|(p & q & -> & H1 & H2)]; [left|right].
  - by rewrite forallb_app, Hp.
  - exists (pre ++ p), q. rewrite app_assoc. split_and!; [done| |done]. rewrite forallb_app, H1, andb_true_r.
    revert Hp. rewrite !forallb_forall. intros H o Ho. specialize (H o Ho). by destruct o as [[]| | |].
Qed.

Lemma handle_shape sh e n n' os : bus_event e = true -> handle sh e n = Ok (n', os) -> nav_shape n n' os.
Proof.
  intros He H.
  assert (Hgoto : forall i b, gotoSlideByIndex sh i b n = (n', os) -> nav_shape n n' os).
  { intros i b Hg. pose proof (goto_shape sh i b n) as Hs. by rewrite Hg in Hs. }
  destruct e; cbn [handle bus_event] in *; try done; try (injection H as H; by eapply Hgoto);
    try (injection H as <- <-; by left).
  - unfold gotoSlide in H. apply rbind_ok in H as ([i out] & Hi & H).
    pose proof (goto_shape sh i noMessage n) as Hs. destruct (gotoSlideByIndex sh i noMessage n) as [n1 o1].
    injection H as <- <-. apply shape_pre; [|done].
    destruct t as [z|s]; cbn [getSlideIndex] in Hi; [by simplify_eq|]. repeat case_match; by simplify_eq.
  - unfold gotoSlideNumber in H. apply rbind_ok in H as (l & _ & H). injection H as H.
    destruct l as [[|id l]|]; simplify_eq; try by left.
    destruct (sh_objs sh !! id); simplify_eq; [by eapply Hgoto|by left].
  - injection H as <- <-. left. split; [done|]. apply message_quiet. unfold toggleBlackout_handler.
    destruct propagate as [[]|]; try done; apply messages_message.
  - injection H as H. left. unfold createClone in H. destruct (clone n) as [[]|]; by simplify_eq.
Qed.

(** ** One event of the bus *)

Section Steps.
Context {E : Type} `{Emitter E handler}.
Context (render renderNotes : slide_vm -> jsstr).
Context (opts : nav_options) (topts : timer_options).
Implicit Types a : session E.
Let notify := (notify (E := E) render renderNotes opts topts).
Let notify_all := (notify_all (E := E) render renderNotes opts topts).
Let emit := (emit (E := E) render renderNotes opts topts).
Let emit_all := (emit_all (E := E) render renderNotes opts topts).
Let call_each := (call_each (E := E) render renderNotes opts topts).

Definition current a : option Z := currentSlideIndex (a_nav a).

Record session_ok a : Prop := mkOk {
  ok_nav : nav_ok (a_show a) (a_nav a);
  ok_view : view_ok (on_screen (a_nav a)) (a_view a);
  ok_length : length (slideViews (a_view a)) = getSlideCount (a_show a);
  ok_deck : deck_ok (a_show a);
  ok_wired : wired (a_embedded a) (a_inputs a);
  ok_hash : safe_target (substring_from (hash (a_inputs a)) 1)
}.

(** The hash names the current slide, and the presenter mode only when it is on. *)
Definition synced a : Prop :=
  exists b, hash (a_inputs a) = updateHash b (idx_add1 (current a)) /\ (b = true -> presenter a = true).

(** From [a] to [a'] the deck stays, and the hash follows a change of the slide. *)
Record follows a a' : Prop := mkFollows {
  f_show : a_show a' = a_show a;
  f_embedded : a_embedded a' = a_embedded a;
  f_kept : a_embedded a = false -> synced a -> synced a';
  f_moved : a_embedded a = false -> current a' <> current a -> synced a'
}.

Lemma follows_refl a : follows a a.
Proof. by constructor. Qed.

Lemma follows_trans a b c : follows a b -> follows b c -> follows a c.
Proof.
  intros [S1 E1 K1 M1] [S2 E2 K2 M2]. constructor; [congruence|congruence|..]; rewrite E1 in *; [auto|].
  intros He Hne. destruct (decide (current c = current b)) as [Eq|Hn]; [|auto].
  apply K2; [done|]. apply M1; [done|]. congruence.
Qed.

(** [a'] differs from [a] in the view, the timer, the inputs and the outputs only. *)
Definition framed a a' : Prop :=
  a_show a' = a_show a /\ a_nav a' = a_nav a /\ a_embedded a' = a_embedded a.

Lemma framed_trans a b c : framed a b -> framed b c -> framed a c.
Proof. unfold framed. intros (? & ? & ?) (? & ? & ?). split_and!; congruence. Qed.

Lemma deliver_hash i n a : wired (a_embedded a) (a_inputs a) -> i = SlideChanged n \/ i = ToggledPresenter n ->
  hash (a_inputs (deliver opts i a)) = if a_embedded a then hash (a_inputs a) else updateHash (presenter a) n.
Proof.
  intros (_ & H1 & H2 & _) Hi. unfold deliver, dispatch. cbn [with_inputs a_inputs sync events].
  unfold heard in *. destruct Hi as [-> | ->]; cbn [input_name]; rewrite ?H1, ?H2; by destruct (a_embedded a).
Qed.

Lemma deliver_wired i a : wired (a_embedded a) (a_inputs a) ->
  wired (a_embedded (deliver opts i a)) (a_inputs (deliver opts i a)).
Proof. intros Hw. apply call_all_wired. by apply (wired_events _ (a_inputs a)). Qed.

Lemma view_event_presenter sh cur e v v' : before_change (Emit e) = true ->
  view_event render renderNotes sh cur e v = Ok v' ->
  hasClass c_presenter (containerClass v) = true -> hasClass c_presenter (containerClass v') = true.
Proof.
  intros He Hv Hp. destruct e; try done; cbn [view_event] in Hv.
  - unfold on_hideSlide, hideSlide in Hv. repeat case_match; by simplify_eq.
  - unfold on_showSlide, notes_showSlide in Hv. apply rbind_ok in Hv as (w & Hw & Hv).
    destruct (view_at v i); [|done]. injection Hw as <-. unfold showSlide in Hv. repeat case_match; by simplify_eq.
  - by injection Hv as <-.
  - injection Hv as <-. unfold on_forcePresenterMode. by rewrite Hp.
Qed.

(** Events before the change of the slide only change the views and the timer. *)
Lemma notify_before now e a v : before_change (Emit e) = true ->
  view_event render renderNotes (a_show a) (current a) e (a_view a) = Ok v ->
  exists a', notify now e a = Ok a' /\ a_view a' = v /\ a_inputs a' = a_inputs a /\ framed a a'.
Proof.
  intros He Hv. unfold notify, Session.notify. fold (current a). rewrite Hv. cbn [rbind].
  destruct e; try done; cbn [to_timer to_input]; eexists; (split; [reflexivity|]); done.
Qed.

Lemma notify_all_before now os : forallb before_change os = true -> forall a v,
  view_outputs render renderNotes (a_show a) (current a) os (a_view a) = Ok v ->
  exists a', notify_all now os a = Ok a' /\ a_view a' = v /\ a_inputs a' = a_inputs a /\ framed a a' /\
    (presenter a = true -> presenter a' = true).
Proof.
  induction os as [|o os IH]; intros Hos a v Hv; [injection Hv as <-; by exists a|].
  cbn [forallb] in Hos. apply andb_prop in Hos as [Ho Hos]. specialize (IH Hos).
  destruct o as [e| | |]; cbn [view_outputs] in Hv.
  - apply rbind_ok in Hv as (v1 & H1 & H2). destruct (notify_before now e a v1 Ho H1) as (a1 & E1 & V1 & I1 & F1).
    destruct F1 as (Fs & Fn & Fe).
    destruct (IH a1 v) as (a2 & E2 & V2 & I2 & F2 & P2); [unfold current; by rewrite Fs, Fn, V1|].
    exists a2. split_and!; [|done|congruence|by eapply framed_trans; [|exact F2]|].
    + unfold notify_all. cbn [Session.notify_all]. unfold notify in E1. rewrite E1. exact E2.
    + intros Hp. apply P2. unfold presenter in *. rewrite V1. by eapply view_event_presenter.
  - exact (IH (with_out (Post w data) a) v Hv).
  - exact (IH (with_out OpenClone a) v Hv).
  - exact (IH (with_out FocusClone a) v Hv).
Qed.

Lemma view_outputs_app sh cur os1 : forall os2 v, view_outputs render renderNotes sh cur (os1 ++ os2) v
  = rbind (view_outputs render renderNotes sh cur os1 v) (view_outputs render renderNotes sh cur os2).
Proof.
  induction os1 as [|o os1 IH]; intros os2 v; [done|]. destruct o; cbn [List.app view_outputs]; auto.
  destruct (view_event render renderNotes sh cur e v); cbn [rbind]; auto.
Qed.

Lemma notify_all_app now os1 : forall os2 a,
  notify_all now (os1 ++ os2) a = rbind (notify_all now os1 a) (notify_all now os2).
Proof.
  unfold notify_all. induction os1 as [|o os1 IH]; intros os2 a; [done|]. destruct o; cbn [List.app Session.notify_all]; auto.
  destruct (Session.notify render renderNotes opts topts now e a); cbn [rbind]; auto.
Qed.

Lemma on_screen_range sh n z : nav_ok sh n -> on_screen n = Some z -> (0 <= z < Z.of_nat (getSlideCount sh))%Z.
Proof.
  intros (y & Hy & Hr) Hs. unfold on_screen in Hs. rewrite Hy in Hs. simpl in Hs.
  destruct (Z.eqb_spec y (-1)); [done|]. injection Hs as <-. lia.
Qed.

(** The hash that is written names a slide or nothing, and so does not throw later. *)
Lemma index_hash_safe sh n b : nav_ok sh n -> safe_target (substring_from (updateHash b (idx_add1 (currentSlideIndex n))) 1).
Proof.
  intros (z & -> & Hz). cbn [idx_add1 fmap option_fmap option_map].
  replace (Z.succ z) with (Z.of_N (Z.to_N (Z.succ z))) by lia. apply updateHash_safe.
Qed.

Lemma with_view_same a : with_view (a_view a) a = a.
Proof. by destruct a. Qed.

(** A change of the slide among the outputs writes the hash. *)
Lemma notify_all_change now pre n post b v : forallb before_change pre = true -> forallb message_output post = true ->
  wired (a_embedded b) (a_inputs b) ->
  view_outputs render renderNotes (a_show b) (current b) (pre ++ Emit (E_slideChanged n) :: post) (a_view b) = Ok v ->
  exists a', notify_all now (pre ++ Emit (E_slideChanged n) :: post) b = Ok a' /\ a_view a' = v /\ framed b a' /\
    wired (a_embedded a') (a_inputs a') /\
    exists p, (p = true -> presenter a' = true) /\
      hash (a_inputs a') = if a_embedded b then hash (a_inputs b) else updateHash p n.
Proof.
  intros Hpre Hpost Hw Hvo. rewrite view_outputs_app in Hvo. apply rbind_ok in Hvo as (v1 & Hv1 & Hv2).
  destruct (notify_all_before now pre Hpre b v1 Hv1) as (a1 & Ea1 & Va1 & Ia1 & (Fs1 & Fn1 & Fe1) & _).
  cbn [view_outputs view_event rbind] in Hv2. set (a2 := deliver opts (SlideChanged n) a1).
  assert (Hw1 : wired (a_embedded a1) (a_inputs a1)) by (rewrite Fe1, Ia1; exact Hw).
  destruct (notify_all_before now post) with (a := a2) (v := v) as (a' & Ea & Va & Ia & (Fs & Fn & Fe) & Pa).
  { revert Hpost. rewrite !forallb_forall. intros Hq o Ho. specialize (Hq o Ho). by destruct o. }
  { unfold current, a2. cbn [deliver with_inputs a_show a_nav a_view]. rewrite Fs1, Fn1, Va1. exact Hv2. }
  change (a_show a2) with (a_show a1) in Fs. change (a_nav a2) with (a_nav a1) in Fn.
  change (a_embedded a2) with (a_embedded a1) in Fe. change (presenter a2) with (presenter a1) in Pa.
  exists a'. split_and!; [|done|split_and!; congruence| |exists (presenter a1); split; [done|]].
  - rewrite notify_all_app, Ea1. cbn [rbind]. unfold notify_all. cbn [Session.notify_all].
    unfold Session.notify at 1. cbn [view_event rbind to_timer to_input]. rewrite with_view_same. exact Ea.
  - rewrite Fe, Ia. by apply deliver_wired.
  - rewrite Ia. unfold a2. rewrite (deliver_hash (SlideChanged n) n a1 Hw1 (or_introl eq_refl)). by rewrite Fe1, Ia1.
Qed.

(** The outputs of one navigation, delivered. *)
Lemma navigate_ok now e a n os : session_ok a -> bus_event e = true -> safe_event e ->
  handle (a_show a) e (a_nav a) = Ok (n, os) ->
  exists a', notify_all now os (with_nav n a) = Ok a' /\ session_ok a' /\ follows a a' /\ a_nav a' = n.
Proof.
  intros [Hn Hv Hl Hd Hw Hh] He Hs Hh1. pose proof (safe_numeric e Hs) as Hnum.
  destruct (handle_step _ _ _ _ _ Hn Hnum Hh1) as [Hn' Hsee].
  pose proof (handle_outputs _ _ _ _ _ Hn Hnum Hh1) as Hos. set (b := with_nav n a).
  destruct (view_outputs_ok render renderNotes (a_show a) (current b) os (on_screen (a_nav a)) (on_screen n) (a_view a))
    as (v & Hvo & Hvok & Hvl); try done; [intros z Hz; by apply (on_screen_range (a_show a) (a_nav a))|].
  change (a_view a) with (a_view b) in Hvo. change (a_show a) with (a_show b) in Hvo.
  destruct (handle_shape _ _ _ _ _ He Hh1) as [[Hc Hq]|(pre & post & -> & Hpre & Hpost)].
  - destruct (notify_all_before now os) with (a := b) (v := v) as (a' & Ea & Va & Ia & (Fs & Fn & Fe) & Pa); try done.
    { revert Hq. rewrite !forallb_forall. intros Hq o Ho. specialize (Hq o Ho). by destruct o as [[]| | |]. }
    exists a'. assert (Hcur : current a' = current a) by (unfold current; by rewrite Fn).
    split_and!; [done| | |done].
    + constructor; rewrite ?Fs, ?Fn, ?Fe, ?Va, ?Ia; done.
    + constructor; [done|done| |congruence]. intros _ (p & Hp1 & Hp2). exists p. rewrite Ia, Hcur. auto.
  - destruct (notify_all_change now pre (idx_add1 (currentSlideIndex n)) post b v)
      as (a' & Ea & Va & (Fs & Fn & Fe) & Wa & p & Hp & Hha); try done.
    assert (Hsync : a_embedded a = false -> synced a').
    { intros Hf. change (a_embedded b) with (a_embedded a) in Hha. rewrite Hf in Hha. exists p. split; [|done].
      rewrite Hha. unfold current. by rewrite Fn. }
    exists a'. split_and!; [done| |by constructor; auto|done].
    constructor; rewrite ?Fs, ?Fn, ?Va; try done. rewrite Hha. change (a_embedded b) with (a_embedded a).
    destruct (a_embedded a); [done|]. by apply (index_hash_safe (a_show a)).
Qed.

Lemma view_event_bus sh cur e v : bus_event e = true ->
  exists v', view_event render renderNotes sh cur e v = Ok v' /\ slideViews v' = slideViews v /\
    (e <> E_togglePresenterMode -> hasClass c_presenter (containerClass v) = true ->
     hasClass c_presenter (containerClass v') = true).
Proof.
  intros He. destruct e; try done; cbn [view_event]; eexists; (split; [reflexivity|]);
    (split; [first [done|by unfold on_forcePresenterMode; case_match]|]);
    intros Hne Hp; try done; cbn [with_container containerClass];
    try (rewrite hasClass_toggle_ne; [done|literal_class|done]).
  - unfold on_forcePresenterMode. by rewrite Hp.
  - unfold on_hideOverlay. cbn [with_container containerClass]. by rewrite !hasClass_remove, Hp.
Qed.

(** The listeners of the event itself. *)
Lemma settle_ok now e a : session_ok a -> bus_event e = true ->
  exists a', (let! a := notify now e a in
              Ok (match e with
                  | E_togglePresenterMode => deliver opts (ToggledPresenter (idx_add1 (current a))) a
                  | _ => a
                  end)) = Ok a' /\
    session_ok a' /\ follows a a' /\ a_nav a' = a_nav a.
Proof.
  intros [Hn Hv Hl Hd Hw Hh] He. unfold notify, Session.notify.
  destruct (view_event_bus (a_show a) (currentSlideIndex (a_nav a)) e (a_view a) He) as (v & -> & Hs & Hp). cbn [rbind].
  assert (Hvok : view_ok (on_screen (a_nav a)) v) by (unfold view_ok in *; by rewrite Hs).
  assert (Hkeep : forall a', a_view a' = v -> framed a a' -> wired (a_embedded a') (a_inputs a') ->
    hash (a_inputs a') = hash (a_inputs a) -> e <> E_togglePresenterMode ->
    session_ok a' /\ follows a a' /\ a_nav a' = a_nav a).
  { intros a' Va (Fs & Fn & Fe) Wa Ha Hne. split_and!; [| |done].
    - constructor; rewrite ?Fs, ?Fn, ?Va, ?Ha; try done. by rewrite Hs.
    - constructor; [done|done| |unfold current; by rewrite Fn]. intros _ (p & H1 & H2). exists p. unfold current.
      rewrite Ha, Fn. split; [done|]. intros Ep. unfold presenter. rewrite Va. apply Hp; [done|]. by apply H2. }
  destruct e; try done; cbn [to_timer to_input]; eexists; (split; [reflexivity|]);
    try (apply Hkeep; [done|done|exact Hw|done|done]).
  - set (b := with_view v a). assert (Hwb : wired (a_embedded b) (a_inputs b)) by done.
    set (i := ToggledPresenter (idx_add1 (current b))). change (a_nav a) with (a_nav b) in *.
    pose proof (deliver_hash i (idx_add1 (current b)) b Hwb (or_intror eq_refl)) as Hi.
    assert (Hsync : a_embedded b = false -> synced (deliver opts i b)).
    { intros Hf. exists (presenter b). rewrite Hi, Hf. done. }
    split_and!; [|by constructor; auto|done]. constructor; try done.
    + exact (eq_trans (f_equal length Hs) Hl).
    + by apply deliver_wired.
    + rewrite Hi. destruct (a_embedded b); [done|]. by apply (index_hash_safe (a_show a)).
  - apply Hkeep; try done; [by apply deliver_wired|]. exact (call_all_hash opts _ Pause eq_refl (a_inputs (sync (with_view v a)))).
  - apply Hkeep; try done; [by apply deliver_wired|]. exact (call_all_hash opts _ Resume eq_refl (a_inputs (sync (with_view v a)))).
Qed.

Lemma emit_ok now width e a : session_ok a -> bus_event e = true -> safe_event e ->
  exists a', emit now width e a = Ok a' /\ session_ok a' /\ follows a a'.
Proof.
  intros Hok He Hs. unfold emit, Session.emit.
  fold (untap width e). pose proof (untap_bus width e He) as He1. pose proof (untap_safe width e Hs) as Hs1.
  set (e' := untap width e) in *. clearbody e'.
  destruct (handle_safe (a_show a) e' (a_nav a) (ok_deck a Hok) Hs1) as ([n os] & Hh). rewrite Hh. cbn [rbind].
  destruct (navigate_ok now e' a n os Hok He1 Hs1 Hh) as (a1 & E1 & Hok1 & F1 & _).
  unfold notify_all in E1. rewrite E1. cbn [rbind].
  destruct (settle_ok now e' a1 Hok1 He1) as (a2 & E2 & Hok2 & F2 & _). exists a2.
  split_and!; [exact E2|done|by eapply follows_trans].
Qed.

Lemma emit_all_ok now width os : Forall good_iout os -> forall a, session_ok a ->
  exists a', emit_all now width os a = Ok a' /\ session_ok a' /\ follows a a'.
Proof.
  unfold emit_all. induction 1 as [|o os Ho Hos IH]; intros a Hok; cbn [Session.emit_all];
    [exists a; split_and!; [done|done|apply follows_refl]|].
  destruct o as [e|]; [|by apply IH]. destruct Ho as [He Hs].
  destruct (emit_ok now width e a Hok He Hs) as (a1 & E1 & Hok1 & F1). unfold emit in E1. rewrite E1. cbn [rbind].
  destruct (IH a1 Hok1) as (a2 & E2 & Hok2 & F2). exists a2. split_and!; [done|done|by eapply follows_trans].
Qed.

(** A listener of the inputs leaves the rest of the session alone until it emits. *)
Lemma called_ok h i a : session_ok a -> writes_hash i = false ->
  session_ok (with_inputs (fst (call_handler opts h i (a_inputs (sync a)))) a) /\
  follows a (with_inputs (fst (call_handler opts h i (a_inputs (sync a)))) a).
Proof.
  intros [Hn Hv Hl Hd Hw Hh] Hi. pose proof (call_handler_hash opts h i (a_inputs (sync a)) Hi) as Hha.
  change (hash (a_inputs (sync a))) with (hash (a_inputs a)) in Hha. split.
  - constructor; try done.
    + apply call_handler_wired. by apply (wired_events _ (a_inputs a)).
    + cbn [with_inputs a_inputs]. by rewrite Hha.
  - constructor; try done. intros _ (p & H1 & H2). exists p. cbn [with_inputs a_inputs]. by rewrite Hha.
Qed.

Lemma call_each_ok now width i hs : writes_hash i = false -> forall a, session_ok a ->
  exists a', call_each now width hs i a = Ok a' /\ session_ok a' /\ follows a a'.
Proof.
  intros Hi. unfold call_each. induction hs as [|h hs IH]; intros a Hok; cbn [Session.call_each];
    [exists a; split_and!; [done|done|apply follows_refl]|].
  destruct (called_ok h i a Hok Hi) as [Hok1 F1].
  pose proof (call_handler_good opts h i (a_inputs (sync a)) (ok_hash a Hok)) as Hg.
  destruct (call_handler opts h i (a_inputs (sync a))) as [s os]. cbn [fst snd] in *.
  destruct (emit_all_ok now width os Hg _ Hok1) as (a2 & E2 & Hok2 & F2). unfold emit_all in E2. rewrite E2. cbn [rbind].
  destruct (IH a2 Hok2) as (a3 & E3 & Hok3 & F3). exists a3. split_and!; [done|done|].
  eapply follows_trans; [exact F1|]. by eapply follows_trans.
Qed.
End Steps.

(** ** Whole runs *)

Section Runs.
Context {E : Type} `{Emitter E handler}.
Context (render renderNotes : slide_vm -> jsstr).
Context (opts : nav_options) (topts : timer_options).
Context (macros : macro_env) (depth : nat) (sopts : show_options).
Implicit Types a : session E.
Let perform := (perform (E := E) render renderNotes opts topts macros depth sopts).
Let on_dom := (on_dom (E := E) render renderNotes opts topts).
Let create := (create (E := E) render renderNotes opts topts macros depth sopts).

(** What is asked of an action: a new hash or a target is no name of Object.prototype, and
    a source that is loaded can be parsed and has a slide for the current index. *)
Definition allowed a (act : action) : Prop :=
  match act with
  | SetHash h => safe_target (substring_from h 1)
  | Call e => bus_event e = true /\ safe_event e
  | Load source => exists sh, loadFromString macros depth source sopts = Ok sh /\
                     forall z, current a = Some z -> (z < Z.max 0 (Z.of_nat (getSlideCount sh)))%Z
  | _ => True
  end.

Lemma on_dom_ok now width i a : session_ok a ->
  exists a', on_dom now width i a = Ok a' /\ session_ok a' /\ follows a a'.
Proof.
  intros Hok. unfold on_dom, Session.on_dom. case_bool_decide as Hf;
    [|exists a; split_and!; [done|done|apply follows_refl]].
  apply call_each_ok; [|done]. by eapply forwarded_reads.
Qed.

(** What holds of every single event holds of a DOM event: a relation between sessions that
    is transitive and does not look at the inputs.  [pass] says which events count. *)
Section Chain.
Context (R : session E -> session E -> Prop) (pass : event -> bool).
Hypothesis R_trans : forall a b c, R a b -> R b c -> R a c.
Hypothesis R_inputs : forall s a, R a (with_inputs s a).
Hypothesis R_emit : forall now width e a a', session_ok a -> bus_event e = true -> safe_event e -> pass e = true ->
  emit render renderNotes opts topts now width e a = Ok a' -> R a a'.

Definition passes (o : iout) : Prop := match o with IEmit e => pass e = true | IPreventDefault => True end.

Lemma chain_refl a : R a a.
Proof using R_inputs. assert (Ha : with_inputs (a_inputs a) a = a) by (by destruct a). rewrite <- Ha at 2. apply R_inputs. Qed.

Lemma emit_all_chain now width os : Forall good_iout os -> Forall passes os -> forall a a', session_ok a ->
  emit_all render renderNotes opts topts now width os a = Ok a' -> R a a'.
Proof using R_trans R_inputs R_emit.
  induction 1 as [|o os Ho Hos IH]; intros Hl a a' Hok Hem; cbn [emit_all] in Hem.
  { injection Hem as <-. apply chain_refl. }
  apply Forall_cons in Hl as [Hl1 Hl]. destruct o as [e|]; [|by apply IH]. destruct Ho as [He Hs].
  apply rbind_ok in Hem as (b & Hb & Hem).
  destruct (emit_ok render renderNotes opts topts now width e a Hok He Hs) as (b' & Hb' & Hok' & _).
  pose proof (eq_trans (eq_sym Hb) Hb') as [= <-]. eapply R_trans; [by eapply R_emit|by apply IH].
Qed.

Lemma call_each_chain now width i hs : writes_hash i = false ->
  (forall h (s : inputs E), Forall passes (snd (call_handler opts h i s))) -> forall a a', session_ok a ->
  call_each render renderNotes opts topts now width hs i a = Ok a' -> R a a'.
Proof using R_trans R_inputs R_emit.
  intros Hi Hp. induction hs as [|h hs IH]; intros a a' Hok Hc; cbn [call_each] in Hc.
  { injection Hc as <-. apply chain_refl. }
  destruct (called_ok opts h i a Hok Hi) as [Hok1 _].
  pose proof (call_handler_good opts h i (a_inputs (sync a)) (ok_hash a Hok)) as Hg. specialize (Hp h (a_inputs (sync a))) as Hp1.
  destruct (call_handler opts h i (a_inputs (sync a))) as [s os]. cbn [fst snd] in *.
  apply rbind_ok in Hc as (b & Hb & Hc).
  destruct (emit_all_ok render renderNotes opts topts now width os Hg _ Hok1) as (b' & Hb' & Hok' & _).
  pose proof (eq_trans (eq_sym Hb) Hb') as [= <-].
  eapply R_trans; [apply (R_inputs s)|]. eapply R_trans; [by eapply emit_all_chain|by apply IH].
Qed.

Lemma on_dom_chain now width i a a' : (forall h (s : inputs E), Forall passes (snd (call_handler opts h i s))) ->
  session_ok a -> on_dom now width i a = Ok a' -> R a a'.
Proof using R_trans R_inputs R_emit.
  intros Hp Hok. unfold on_dom, Session.on_dom. case_bool_decide as Hf; [|intros [= <-]; apply chain_refl].
  eapply call_each_chain; [by eapply forwarded_reads|done|done].
Qed.
End Chain.

Lemma updated_ok sh z v : deck_ok sh -> (-1 <= z < Z.max 0 (Z.of_nat (getSlideCount sh)))%Z ->
  exists v', updateSlideViews render renderNotes sh (Some z) v = Ok v' /\
    view_ok (if (z =? -1)%Z then None else Some z) v' /\ length (slideViews v') = getSlideCount sh /\
    containerClass v' = containerClass v.
Proof.
  intros [Hd _] Hz. unfold updateSlideViews. set (w := mkView _ _ _ _ _ _ _ _ _).
  assert (Hl : length (slideViews w) = getSlideCount sh) by (rewrite <- Hd; apply create_views_length).
  assert (Hw : view_ok None w).
  { split; simpl.
    - intros i sv Hi%create_views_lookup. unfold visible. by rewrite Hi.
    - intros i j vi vj Hi%create_views_lookup _ Fi. unfold fading in Fi. by rewrite Hi in Fi. }
  cbn [idx_gt]. destruct (Z.ltb_spec (-1) z) as [Hlt|Hlt].
  - destruct (on_showSlide_ok w z Hw ltac:(lia)) as (v' & Ev & Hv & Hlv).
    unfold on_showSlide, notes_showSlide in Ev. destruct (view_at w (Some z)) as [sv|] eqn:Es; [|done]. cbn [rbind] in Ev.
    unfold showSlide in *. change (view_at (mkView _ _ _ _ _ _ _ _ _) (Some z)) with (view_at w (Some z)) in Ev.
    rewrite Es in *. injection Ev as <-. rewrite (proj2 (Z.eqb_neq z (-1))) by lia.
    eexists. split_and!; [reflexivity|exact Hv| |done]. simpl. by rewrite length_alter.
  - assert (z = (-1)%Z) as -> by lia. exists w. done.
Qed.

Lemma load_ok now width sh a : session_ok a -> deck_ok sh ->
  (forall z, current a = Some z -> (z < Z.max 0 (Z.of_nat (getSlideCount sh)))%Z) ->
  exists a', emit (E := E) render renderNotes opts topts now width E_slidesChanged (with_show sh a) = Ok a' /\
    session_ok a' /\ a_embedded a' = a_embedded a /\ current a' = current a.
Proof.
  intros [(z & Hz & Hr) Hv Hl Hd Hw Hh] Hsh Hlt. specialize (Hlt z Hz). unfold emit. cbn [handle rbind].
  assert (Hsame : slidesChanged sh (a_nav a) = a_nav a).
  { unfold slidesChanged. rewrite Hz. cbn [idx_gt]. rewrite (proj2 (Z.ltb_ge _ _)) by lia. done. }
  cbn [with_show a_show a_nav]. rewrite Hsame. cbn [Session.notify_all rbind]. unfold notify.
  cbn [with_nav with_show a_show a_nav a_view view_event]. rewrite Hz.
  destruct (updated_ok sh z (a_view a) Hsh) as (v & -> & Hv' & Hl' & _); [lia|]. cbn [rbind to_timer to_input].
  eexists. split; [reflexivity|]. split_and!; [|done|done]. constructor; try done.
  - exists z. split; [done|]. cbn. lia.
  - change (view_ok (on_screen (a_nav a)) v). unfold on_screen. rewrite Hz. exact Hv'.
Qed.

Lemma fade_ok a : session_ok a -> session_ok (with_view (fade_timeout (a_view a)) a).
Proof.
  intros [Hn [Hv H1] Hl Hd Hw Hh]. constructor; try done; cbn [with_view a_view a_nav a_show].
  - split.
    + intros i sv Hi. pose proof (fade_timeout_visible (a_view a) i) as Hf. rewrite Hi in Hf. cbn in Hf.
      destruct (slideViews (a_view a) !! i) as [s0|] eqn:E0; [|done]. injection Hf as ->. by apply Hv.
    + unfold fade_timeout. destruct (pending (a_view a)) as [|id rest]; [done|]. cbn [slideViews].
      intros i j vi vj Hi Hj Fi Fj. rewrite list_lookup_fmap in Hi, Hj.
      apply fmap_Some in Hi as (si & Hi & ->). apply fmap_Some in Hj as (sj & Hj & ->).
      apply (H1 i j si sj); try done; [destruct (sv_id si =? id)|destruct (sv_id sj =? id)]; by rewrite ?fading_unfade in *.
  - unfold fade_timeout. destruct (pending (a_view a)) as [|id rest]; [done|]. cbn [slideViews]. by rewrite length_map.
Qed.

(** Every action that is allowed succeeds and keeps the session in order; when it changes
    the slide, the hash follows. *)
Lemma perform_ok now width act a : session_ok a -> allowed a act ->
  exists a', perform now width act a = Ok a' /\ session_ok a' /\ a_embedded a' = a_embedded a /\
    (a_embedded a = false -> current a' <> current a -> synced a').
Proof.
  intros Hok Hall. destruct act as [i|h|e|source| |]; unfold perform; cbn [Session.perform allowed] in *.
  - destruct (on_dom_ok now width i a Hok) as (a' & Ea & Hok' & [Fs Fe Fk Fm]). by exists a'.
  - destruct (on_dom_ok now width Hashchange (with_inputs (with_hash h (a_inputs a)) a)) as (a' & Ea & Hok' & [Fs Fe Fk Fm]).
    { destruct Hok as [Hn Hv Hl Hd Hw Hh]. by constructor. }
    by exists a'.
  - destruct Hall as [He Hs].
    destruct (emit_ok render renderNotes opts topts now width e a Hok He Hs) as (a' & Ea & Hok' & [Fs Fe Fk Fm]). by exists a'.
  - destruct Hall as (sh & Hsh & Hlt). rewrite Hsh. cbn [rbind].
    destruct (load_ok now width sh a Hok (load_deck_ok _ _ _ _ _ Hsh) Hlt) as (a' & Ea & Hok' & Fe & Fc). by exists a'.
  - eexists. split; [reflexivity|]. split_and!; [by apply fade_ok|done|done].
  - eexists. split; [reflexivity|]. split_and!; [|done|done]. by destruct Hok; constructor.
Qed.

(** The target that a new session goes to. *)
Definition first_target (embedded : bool) (h : jsstr) : target :=
  if embedded then TNum 1 else TStr (substring_from h 1).

Lemma controller_out embedded s : snd (controller opts embedded s) = [IEmit (E_gotoSlide (first_target embedded (hash s)) false)].
Proof. unfold controller. by destruct embedded. Qed.

Lemma controller_hash embedded s : hash (fst (controller opts embedded s)) = hash s.
Proof.
  rewrite controller_unfold. unfold touch_register, mouse_register.
  by destruct embedded, (bool_decide (_ = Some false)), (o_click opts), (bool_decide (_ <> _)).
Qed.

(** The session before the controller navigates for the first time. *)
Lemma create_start now width opener embedded container h source e0 sh :
  loadFromString macros depth source sopts = Ok sh -> em_ok e0 -> (forall t, em_listeners e0 t = []) ->
  safe_target (substring_from h 1) ->
  exists a0, create now width opener embedded container h source e0
      = emit (E := E) render renderNotes opts topts now width (E_gotoSlide (first_target embedded h) false) a0 /\
    session_ok a0 /\ a_show a0 = sh /\ a_nav a0 = initial_nav opener /\ a_embedded a0 = embedded /\ a_out a0 = [] /\
    containerClass (a_view a0) = addClass c_remark_container container.
Proof.
  intros Hsh He Hl Hh. unfold create, Session.create. rewrite Hsh. cbn [rbind].
  assert (Hn : slidesChanged sh (initial_nav opener) = initial_nav opener).
  { unfold slidesChanged. cbn [initial_nav currentSlideIndex idx_gt]. rewrite (proj2 (Z.ltb_ge _ _)) by lia. done. }
  rewrite Hn. unfold newView. cbn [initial_nav currentSlideIndex].
  destruct (updated_ok sh (-1) (mkView [] [] 0 [] (addClass c_remark_container container) [] [] [] (setPageOrientation Landscape)))
    as (v & -> & Hv & Hlv & Hcv); [by eapply load_deck_ok|lia|]. cbn [rbind].
  set (s0 := mkInputs e0 [] [] h _).
  pose proof (controller_out embedded s0) as Ho. pose proof (controller_wired opts embedded s0 He Hl) as Hw.
  pose proof (controller_hash embedded s0) as Hhs.
  destruct (controller opts embedded s0) as [s os]. cbn [fst snd] in *. subst os. cbn [Session.emit_all].
  exists (mkSession sh (initial_nav opener) v (newTimer topts now) s embedded []). split; [|split; [|done]].
  - change (hash s0) with h. match goal with |- rbind ?x _ = _ => by destruct x end.
  - constructor; cbn [a_show a_nav a_view a_embedded a_inputs]; try done.
    + exists (-1)%Z. split; [done|]. lia.
    + by eapply load_deck_ok.
    + by rewrite Hhs.
Qed.

Inductive session_run : session E -> Prop :=
| SR_create now width opener embedded container h source e0 a :
    em_ok e0 -> (forall t, em_listeners e0 t = []) -> safe_target (substring_from h 1) ->
    create now width opener embedded container h source e0 = Ok a -> session_run a
| SR_step now width act a a' :
    session_run a -> allowed a act -> perform now width act a = Ok a' -> session_run a'.

Lemma first_target_safe embedded h : safe_target (substring_from h 1) -> safe_event (E_gotoSlide (first_target embedded h) false).
Proof. by destruct embedded. Qed.

Lemma session_run_ok a : session_run a -> session_ok a.
Proof.
  induction 1 as [now width opener embedded container h source e0 a He Hl Hh Hc|now width act a a' Hr IH Hall Hp].
  - assert (Hsh : exists sh, loadFromString macros depth source sopts = Ok sh).
    { unfold create, Session.create in Hc. apply rbind_ok in Hc as (sh & Hsh & _). by exists sh. }
    destruct Hsh as [sh Hsh].
    destruct (create_start now width opener embedded container h source e0 sh Hsh He Hl Hh) as (a0 & Ea & Hok & _).
    destruct (emit_ok render renderNotes opts topts now width (E_gotoSlide (first_target embedded h) false) a0 Hok eq_refl (first_target_safe embedded h Hh))
      as (a1 & E1 & Hok1 & _). congruence.
  - destruct (perform_ok now width act a IH Hall) as (a1 & E1 & Hok1 & _). congruence.
Qed.

(** The hash of the current slide leads nowhere new. *)
Lemma hashchange_quiet now width a : session_ok a -> a_embedded a = false -> synced a ->
  on_dom now width Hashchange a = Ok (sync a).
Proof.
  intros [(z & Hz & Hr) Hv Hl Hd (Hok & _ & _ & H3 & _) Hh] He (b & Hb & Hp). rewrite He in H3.
  unfold on_dom, Session.on_dom. rewrite He, bool_decide_eq_true_2 by (by apply (bool_decide_unpack _)).
  cbn [input_name]. unfold heard in H3. rewrite H3. cbn [Session.call_each call_handler Session.emit_all].
  change (with_inputs (a_inputs (sync a)) a) with (sync a). unfold current in Hb. rewrite Hz in Hb. cbn [idx_add1 fmap option_fmap option_map] in Hb.
  replace (Z.succ z) with (Z.of_N (Z.to_N (Z.succ z))) in Hb by lia.
  unfold emit, navigateByHash. cbn [handle]. unfold gotoSlide.
  change (hash (a_inputs (sync a))) with (hash (a_inputs a)). change (a_show (sync a)) with (a_show a).
  change (a_nav (sync a)) with (a_nav a). rewrite Hb, hash_roundtrip. cbn [rbind].
  replace (Z.of_N (Z.to_N (Z.succ z)) - 1)%Z with z by lia.
  assert (Hg : gotoSlideByIndex (a_show a) (Some z) false (a_nav a) = (a_nav a, [])).
  { unfold gotoSlideByIndex. rewrite Hz. cbn [idx_eq]. by rewrite Z.eqb_refl. }
  rewrite Hg. cbn [rbind]. rewrite app_nil_r.
  assert (Hn : with_nav (a_nav a) (sync a) = sync a) by done. rewrite Hn.
  assert (Hf : Session.notify_all render renderNotes opts topts now (if b then [Emit E_forcePresenterMode] else []) (sync a)
    = Ok (sync a)).
  { destruct b; [|done]. cbn [Session.notify_all]. unfold notify. cbn [view_event rbind]. unfold on_forcePresenterMode.
    change (hasClass c_presenter (containerClass (a_view (sync a)))) with (presenter a). by rewrite (Hp eq_refl). }
  rewrite Hf. done.
Qed.
End Runs.

(** Exactly the container of the current slide is visible. *)
Lemma session_visible {E : Type} `{Emitter E handler} (a : session E) i sv :
  session_ok a -> slideViews (a_view a) !! i = Some sv ->
  hasClass c_visible (sv_class sv) = bool_decide (currentSlideIndex (a_nav a) = Some (Z.of_nat i)).
Proof.
  intros [(z & Hz & _) [Hv _] _ _ _ _] Hi. change (hasClass c_visible (sv_class sv)) with (visible sv). rewrite (Hv i sv Hi).
  unfold on_screen. rewrite Hz. cbn [idx_eq]. destruct (Z.eqb_spec z (-1)) as [->|]; [|done].
  by rewrite !bool_decide_eq_false_2 by (intros [=]; lia).
Qed.

(** ** Properties *)

Section Theorems.
Context {E : Type} `{Emitter E handler}.
Context (render renderNotes : slide_vm -> jsstr).
Context (opts : nav_options) (topts : timer_options).
Context (macros : macro_env) (depth : nat) (sopts : show_options).



End Theorems.

(** ** Witnesses *)

Definition no_macros : macro_env := fun _ => None.
Definition no_html : slide_vm -> jsstr := fun _ => [].
Definition sample_create (h : jsstr) : result (session (emitter handler)) :=
  create no_html no_html opts0 default_timer_options no_macros 1 sample_options 0 800 false false [] h sample_source newEmitter.

Lemma newEmitter_ok : em_ok (newEmitter : emitter handler).
Proof. exact inputs0_ok. Qed.

Lemma newEmitter_silent t : em_listeners (newEmitter : emitter handler) t = [].
Proof. cbn. unfold user_listeners, listeners, get_slot. simpl. by case_bool_decide. Qed.

(** The session of the sample deck, opened at its second slide. *)
Definition sample_session : session (emitter handler) :=
  Eval vm_compute in match sample_create (js "#2") with Ok a => a | _ => mkSession newSlideshow (initial_nav false)
    (initial_view no_html no_html []) (newTimer default_timer_options 0) inputs0 false [] end.

Lemma second_safe : safe_target (substring_from (js "#2") 1).
Proof. by apply safe_digits. Qed.

Lemma sample_session_run :
  session_run no_html no_html opts0 default_timer_options no_macros 1 sample_options sample_session.
Proof.
  apply (SR_create no_html no_html opts0 default_timer_options no_macros 1 sample_options 0 800 false false [] (js "#2") sample_source newEmitter).
  - exact newEmitter_ok.
  - exact newEmitter_silent.
  - exact second_safe.
  - vm_compute. reflexivity.
Qed.


(** The page-down key. *)
Definition page_down : key_event := mkKey false false false false 34 34.
Definition sample_next : session (emitter handler) :=
  Eval vm_compute in match perform no_html no_html opts0 default_timer_options no_macros 1 sample_options 100 800
    (Dom (Keydown page_down)) sample_session with Ok a => a | _ => sample_session end.



(** The walk through the sample deck: the address after opening, after a key and in the
    presenter mode. *)
Example sample_hashes :
  (hash (a_inputs sample_session), hash (a_inputs sample_next),
   match perform no_html no_html opts0 default_timer_options no_macros 1 sample_options 200 800
     (Dom (Keypress (Inputs.plain 112))) sample_next with Ok a => hash (a_inputs a) | _ => [] end)
  = (js "#2", js "#3", js "#p3").
Proof. vm_compute. reflexivity. Qed.

(** A hash beyond the deck opens an empty screen. *)
Example beyond_hash_blank :
  match sample_create (js "#99") with
  | Ok a => (currentSlideIndex (a_nav a), map (fun sv => hasClass c_visible (sv_class sv)) (slideViews (a_view a)))
  | _ => (None, [])
  end = (Some (-1)%Z, [false; false; false]).
Proof. vm_compute. reflexivity. Qed.
