(* ===== verification/Windows.v ===== *)
(** * Two windows (modules 6, 10, 19 and 21)

    A slide show can open a clone of itself: each window then runs a session of its own, and
    they talk by messages that name the slide to go to or toggle the blackout.  A pair of
    windows is two sessions and the messages on their way in each direction, in order; a
    step is an action in one window or the arrival of the first message.  The theorems are
    about the window that is presented from (the main one) and the clone that follows it. *)

From S2P Require Import Prelude JsString JsRegExp RegExpFacts Events SlideParser SlideModel Slideshow.
From S2P Require Import Navigation Inputs Timer Utils Views Session.

(** ** Messages *)

Definition same_window (w w' : window) : bool :=
  match w, w' with CloneWindow, CloneWindow | OpenerWindow, OpenerWindow => true | _, _ => false end.

(** What is posted to one of the other windows, in order. *)
Definition posted (w : window) (os : list output) : list jsstr :=
  omap (fun o => match o with Post w' d => if same_window w w' then Some d else None | _ => None end) os.

(** What one sees of a window: the index of its slide, and whether it is blacked out. *)
Definition screen : Type := option Z * bool.

(** What a message makes of it. *)
Definition apply_message (sh : slideshow) (x : screen) (data : jsstr) : screen :=
  match navigateByMessage data with
  | [E_gotoSlide (TNum z) _] => (if in_range_idx sh (Some (z - 1)%Z) then Some (z - 1)%Z else x.1, x.2)
  | [E_toggleBlackout _] => (x.1, negb x.2)
  | _ => x
  end.

Definition apply_messages (sh : slideshow) (ds : list jsstr) (x : screen) : screen :=
  fold_left (apply_message sh) ds x.

(** ** The pair *)

Record windows (E : Type) := mkWindows {
  w_main : session E;
  w_clone : session E;
  (** messages on their way *)
  to_main : list jsstr;
  to_clone : list jsstr
}.
Arguments mkWindows {E} _ _ _ _.
Arguments w_main {E} _.
Arguments w_clone {E} _.
Arguments to_main {E} _.
Arguments to_clone {E} _.

Inductive side := Main | Clone.

(** An action in a window, or the arrival of the first message that is on its way to it. *)
Inductive move := Acts (s : side) (act : action) | Receives (s : side).

Section Windows.
Context {E : Type} `{Emitter E handler}.
Context (render renderNotes : slide_vm -> jsstr).
Context (opts : nav_options) (topts : timer_options).
Context (macros : macro_env) (depth : nat) (sopts : show_options).
Let perform := (perform (E := E) render renderNotes opts topts macros depth sopts).
Let create := (create (E := E) render renderNotes opts topts macros depth sopts).

(** What a session has posted since it was in state [a]. *)
Definition news (w : window) (a a' : session E) : list jsstr := posted w (drop (length (a_out a)) (a_out a')).

Definition act_main (now width : Z) (act : action) (p : windows E) : result (windows E) :=
  let! a := perform now width act (w_main p) in
  Ok (mkWindows a (w_clone p) (to_main p) (to_clone p ++ news CloneWindow (w_main p) a)).

Definition act_clone (now width : Z) (act : action) (p : windows E) : result (windows E) :=
  let! c := perform now width act (w_clone p) in
  Ok (mkWindows (w_main p) c (to_main p ++ news OpenerWindow (w_clone p) c) (to_clone p)).

Definition move_step (now width : Z) (m : move) (p : windows E) : result (windows E) :=
  match m with
  | Acts Main act => act_main now width act p
  | Acts Clone act => act_clone now width act p
  | Receives Main =>
      match to_main p with
      | [] => Ok p
      | d :: ds => act_main now width (Dom (Message d)) (mkWindows (w_main p) (w_clone p) ds (to_clone p))
      end
  | Receives Clone =>
      match to_clone p with
      | [] => Ok p
      | d :: ds => act_clone now width (Dom (Message d)) (mkWindows (w_main p) (w_clone p) (to_main p) ds)
      end
  end.

(** A run: moves, each with the time and the width of the container. *)
Fixpoint moves (ms : list (Z * Z * move)) (p : windows E) : result (windows E) :=
  match ms with
  | [] => Ok p
  | (now, width, m) :: ms => let! p := move_step now width m p in moves ms p
  end.

(** The key c: the browser opens the address of the main window in a second one, whose
    opener is the main window; [container] is the class of the container there. *)
Definition open_clone (now width : Z) (container source : jsstr) (e0 : E) (a : session E) : result (windows E) :=
  let! a' := perform now width (Call E_createClone) a in
  let! c := create now width true false container (hash (a_inputs a)) source e0 in
  Ok (mkWindows a' c (posted OpenerWindow (a_out c)) []).
End Windows.

(** ** What an event of the bus does to the blackout *)

Definition black_after (e : event) (b : bool) : bool :=
  match e with E_toggleBlackout _ => negb b | E_hideOverlay => false | _ => b end.

(** What the navigation puts out leaves the blackout alone. *)
Definition leaves_black (o : output) : bool :=
  match o with
  | Emit (E_toggleBlackout _) | Emit E_hideOverlay | Emit E_slidesChanged => false
  | _ => true
  end.

Lemma handle_leaves_black sh e n n' os :
  bus_event e = true -> handle sh e n = Ok (n', os) -> Forall (fun o => leaves_black o = true) os.
Proof.
  intros He Hh. assert (Hf : forall (f : output -> bool) l, (forall o, f o = true -> leaves_black o = true) ->
    forallb f l = true -> Forall (fun o => leaves_black o = true) l).
  { intros f l Hfl Hl. rewrite forallb_forall in Hl. apply Forall_forall. intros o Ho. apply Hfl, Hl.
    by apply list_elem_of_In. }
  destruct (handle_shape _ _ _ _ _ He Hh) as [[_ Hq]|(pre & post & -> & Hp & Hq)].
  - apply (Hf quiet_output); [by intros [[]| | |]|done].
  - apply Forall_app. split; [apply (Hf before_change); [by intros [[]| | |]|done]|].
    constructor; [done|]. apply (Hf message_output); [by intros [[]| | |]|done].
Qed.

Definition blackout (v : view) : bool := hasClass c_blackout (containerClass v).

(** No class name is repeated, so that toggling one twice changes nothing. *)
Definition tidy (v : view) : Prop := NoDup (getClasses (containerClass v)).

Lemma remove_NoDup c cn : NoDup (getClasses cn) -> NoDup (getClasses (removeClass c cn)).
Proof. intros Hn. rewrite getClasses_removeClass. rewrite NoDup_ListNoDup in *. by apply List.NoDup_filter. Qed.

Lemma view_event_tidy render renderNotes sh cur e v v' : e <> E_slidesChanged ->
  view_event render renderNotes sh cur e v = Ok v' -> tidy v -> tidy v'.
Proof.
  intros Hne Hv. unfold tidy.
  assert (Ht : forall c, class_name c -> NoDup (getClasses (containerClass v)) ->
    NoDup (getClasses (containerClass (with_container (toggleClass c) v)))).
  { intros c Hc Hn. by apply toggle_NoDup. }
  destruct e; try done; cbn [view_event] in *; try (injection Hv as <-); try (by apply Ht; literal_class); try done.
  - unfold on_hideSlide, hideSlide in Hv. repeat case_match; by simplify_eq.
  - unfold on_showSlide, notes_showSlide in Hv. apply rbind_ok in Hv as (w & Hw & Hv).
    destruct (view_at v i); [|done]. injection Hw as <-. unfold showSlide in Hv. repeat case_match; by simplify_eq.
  - unfold on_forcePresenterMode. destruct (hasClass _ _); [done|]. by apply Ht; literal_class.
  - intros Hn. by do 2 apply remove_NoDup.
Qed.

Lemma view_event_black render renderNotes sh cur e v v' : e <> E_slidesChanged -> tidy v ->
  view_event render renderNotes sh cur e v = Ok v' -> blackout v' = black_after e (blackout v).
Proof.
  intros Hne Htidy Hv. unfold blackout.
  assert (Ht : forall c, class_name c -> c_blackout <> c ->
    hasClass c_blackout (containerClass (with_container (toggleClass c) v)) = hasClass c_blackout (containerClass v)).
  { intros c Hc Hcb. cbn [with_container containerClass]. by apply hasClass_toggle_ne. }
  destruct e; try done; cbn [view_event black_after] in *; try (injection Hv as <-);
    try (by apply Ht; [literal_class|]); try done.
  - unfold on_hideSlide, hideSlide in Hv. repeat case_match; by simplify_eq.
  - unfold on_showSlide, notes_showSlide in Hv. apply rbind_ok in Hv as (w & Hw & Hv).
    destruct (view_at v i); [|done]. injection Hw as <-. unfold showSlide in Hv. repeat case_match; by simplify_eq.
  - unfold on_forcePresenterMode. destruct (hasClass c_presenter _); [done|]. by apply Ht; [literal_class|].
  - cbn [with_container containerClass]. rewrite hasClass_toggle by (done || literal_class).
    by rewrite bool_decide_eq_true_2.
  - unfold on_hideOverlay. cbn [with_container containerClass]. rewrite !hasClass_remove.
    by rewrite (bool_decide_eq_true_2 (c_blackout = c_blackout)), ?andb_false_r.
Qed.

(** ** What a session posts *)

Lemma posted_app w os os' : posted w (os ++ os') = posted w os ++ posted w os'.
Proof. apply omap_app. Qed.

Lemma posted_cons w o os : posted w (o :: os) = posted w [o] ++ posted w os.
Proof. apply (posted_app w [o]). Qed.

Lemma posted_messages w os : posted w (List.filter message_output os) = posted w os.
Proof.
  induction os as [|o os IH]; [done|]. destruct o; [exact IH|..]; cbn [List.filter message_output];
    by rewrite (posted_cons _ _ (List.filter _ _)), (posted_cons _ _ os), IH.
Qed.

Lemma untap_black width e x : black_after e x = black_after (untap width e) x.
Proof. destruct e; try done. cbn [untap]. unfold on_tap. by case_match. Qed.

Section Posting.
Context {E : Type} `{Emitter E handler}.
Context (render renderNotes : slide_vm -> jsstr).
Context (opts : nav_options) (topts : timer_options).
Implicit Types a : session E.
Let notify := (notify (E := E) render renderNotes opts topts).
Let notify_all := (notify_all (E := E) render renderNotes opts topts).
Let emit := (emit (E := E) render renderNotes opts topts).

(** The container of [a'] is that of [a] after [f] on its blackout. *)
Definition darkened (f : bool -> bool) a a' : Prop :=
  tidy (a_view a) -> tidy (a_view a') /\ blackout (a_view a') = f (blackout (a_view a)).

Lemma darkened_trans f g h a b c : (forall x, h x = g (f x)) -> darkened f a b -> darkened g b c -> darkened h a c.
Proof. intros Hh H1 H2 Ht. destruct (H1 Ht) as [Tb Eb]. destruct (H2 Tb) as [Tc Ec]. split; [done|]. by rewrite Ec, Eb, Hh. Qed.

Lemma notify_out now e a a' : e <> E_slidesChanged -> notify now e a = Ok a' ->
  framed a a' /\ a_out a' = a_out a /\ darkened (black_after e) a a'.
Proof.
  intros Hne Hn. unfold notify, Session.notify in Hn. apply rbind_ok in Hn as (v & Hv & Hn). injection Hn as <-.
  assert (Hd : tidy (a_view a) -> tidy v /\ blackout v = black_after e (blackout (a_view a))).
  { intros Ht. split; [by eapply view_event_tidy|by eapply view_event_black]. }
  by destruct (to_timer now e), (to_input e).
Qed.

Lemma notify_all_out now os : Forall (fun o => leaves_black o = true) os -> forall a a', notify_all now os a = Ok a' ->
  framed a a' /\ a_out a' = a_out a ++ List.filter message_output os /\ darkened id a a'.
Proof.
  unfold notify_all. induction 1 as [|o os Ho Hos IH]; intros a a' Hn; cbn [Session.notify_all] in Hn.
  { injection Hn as <-. by rewrite app_nil_r. }
  destruct o as [e|w d| |]; cbn [List.filter message_output].
  - apply rbind_ok in Hn as (b & Hb & Hn). destruct (notify_out now e a b) as (F1 & O1 & D1); [by intros ->|done|].
    destruct (IH b a' Hn) as (F2 & O2 & D2). split; [by eapply framed_trans|]. split; [by rewrite O2, O1|].
    eapply darkened_trans; [|exact D1|exact D2]. by destruct e.
  - destruct (IH _ a' Hn) as (F & O & D). split_and!; [done| |done]. rewrite O. cbn [with_out a_out]. by rewrite <- app_assoc.
  - destruct (IH _ a' Hn) as (F & O & D). split_and!; [done| |done]. rewrite O. cbn [with_out a_out]. by rewrite <- app_assoc.
  - destruct (IH _ a' Hn) as (F & O & D). split_and!; [done| |done]. rewrite O. cbn [with_out a_out]. by rewrite <- app_assoc.
Qed.

(** An event of the bus: the navigation handles it, and what it posts is what is added to
    the outputs. *)
Lemma emit_out now width e a a' : bus_event e = true -> emit now width e a = Ok a' ->
  exists n os, handle (a_show a) (untap width e) (a_nav a) = Ok (n, os) /\
    framed (with_nav n a) a' /\ a_out a' = a_out a ++ List.filter message_output os /\ darkened (black_after e) a a'.
Proof.
  intros He Hem. unfold emit, Session.emit in Hem. fold (untap width e) in Hem.
  pose proof (untap_bus width e He) as He'. pose proof (untap_black width e) as Hb.
  apply rbind_ok in Hem as ([n os] & Hh & Hem). apply rbind_ok in Hem as (b & H1 & Hem).
  apply rbind_ok in Hem as (c & H2 & Hem). exists n, os. split; [done|].
  destruct (notify_all_out now os (handle_leaves_black _ _ _ _ _ He' Hh) _ b H1) as (F1 & O1 & D1).
  destruct (notify_out now (untap width e) b c) as (F2 & O2 & D2); [by intros Eq; rewrite Eq in He'|done|].
  assert (Hc : framed (with_nav n a) c /\ a_out c = a_out a ++ List.filter message_output os /\ darkened (black_after e) a c).
  { split; [by eapply framed_trans|]. split; [by rewrite O2, O1|]. eapply darkened_trans; [exact Hb|exact D1|exact D2]. }
  injection Hem as <-. by destruct (untap width e).
Qed.
End Posting.

(** ** Comparing screens *)

(** [strict]: the blackout counts as well as the slide. *)
Definition agree (strict : bool) (x y : screen) : Prop := x.1 = y.1 /\ (strict = true -> x.2 = y.2).

#[global] Instance agree_equiv strict : Equivalence (agree strict).
Proof.
  split; [by intros x|intros x y [? Hs]; split; [done|]|intros x y z [? Hs] [? Ht]; split; [congruence|]];
    intros Hb; specialize (Hs Hb); [done|]. specialize (Ht Hb). congruence.
Qed.

#[global] Instance apply_message_proper strict sh : Proper (agree strict ==> eq ==> agree strict) (apply_message sh).
Proof.
  intros x y [H1 H2] d _ <-. unfold apply_message. destruct (navigateByMessage d) as [|e [|e' l]]; [done| |by destruct e as [[]| | | | | | | | | | | | | | | | | | | | | | | | | | |]].
  destruct e as [[z|s] b| | | | | | | | | | | | | | | | | | | | | | | | | | |]; try done;
    split; cbn [fst snd]; try done; [by rewrite H1|]. intros Hs. by rewrite (H2 Hs).
Qed.

#[global] Instance apply_messages_proper strict sh : Proper (eq ==> agree strict ==> agree strict) (apply_messages sh).
Proof.
  intros ds _ <-. unfold apply_messages. induction ds as [|d ds IH]; intros x y Hxy; [done|]. cbn [fold_left].
  apply IH. by rewrite Hxy.
Qed.

Lemma apply_messages_app sh ds ds' x : apply_messages sh (ds ++ ds') x = apply_messages sh ds' (apply_messages sh ds x).
Proof. apply fold_left_app. Qed.

(** ** The navigation that leads *)

(** The events of a window that leads: those that come from elsewhere are not passed on, and
    hiding the overlays is not passed on either. *)
Definition loud (strict : bool) (e : event) : bool :=
  bus_event e &&
  match e with
  | E_gotoSlide _ true | E_toggleBlackout (Some false) => false
  | E_hideOverlay => negb strict
  | _ => true
  end.

Lemma apply_goto sh z x : (0 <= z < Z.of_nat (getSlideCount sh))%Z ->
  apply_message sh x (js "gotoSlide:" ++ idx_toString (idx_add1 (Some z))) = (Some z, x.2).
Proof.
  intros Hz. unfold apply_message. cbn [idx_add1 fmap option_fmap option_map].
  replace (Z.succ z) with (Z.of_N (Z.to_N (Z.succ z))) by lia. rewrite idx_toString_N, navigateByMessage_number.
  replace (Z.of_N (Z.to_N (Z.succ z)) - 1)%Z with z by lia. cbn [in_range_idx].
  by rewrite (proj2 (Z.leb_le 0 z)), (proj2 (Z.ltb_lt z _)) by lia.
Qed.

Lemma posted_to_clone n d : clone n = Some false -> posted CloneWindow (messages n d) = [d].
Proof. unfold messages. intros ->. by destruct (opener n). Qed.

(** A move of the leader posts the index it moves to. *)
Lemma goto_tells sh i n b : i <> None -> clone n = Some false ->
  clone (fst (gotoSlideByIndex sh i false n)) = Some false /\
  apply_messages sh (posted CloneWindow (snd (gotoSlideByIndex sh i false n))) (currentSlideIndex n, b)
  = (currentSlideIndex (fst (gotoSlideByIndex sh i false n)), b).
Proof.
  intros Hi Hc. destruct (goto_cases sh i false n Hi) as [[-> _]|(Hr & _ & _)]; [done|].
  destruct i as [z|]; [|done]. pose proof (apply_goto sh z (currentSlideIndex n, b)) as Ha.
  apply andb_prop in Hr as [?%Z.leb_le ?%Z.ltb_lt]. unfold gotoSlideByIndex. destruct (_ || _); [done|].
  assert (Hpost : forall st, posted CloneWindow (messages (mkNav (Some z) st (clone n) (opener n))
    (js "gotoSlide:" ++ idx_toString (idx_add1 (Some z)))) = [js "gotoSlide:" ++ idx_toString (idx_add1 (Some z))])
    by (intros st; by apply posted_to_clone).
  destruct (idx_eq (currentSlideIndex n) _), (started n) as [[]|]; cbn [fst snd];
    rewrite !posted_app, Hpost; (split; [done|]); apply Ha; lia.
Qed.

Lemma getSlideIndex_posts sh t i out w : getSlideIndex sh t = Ok (i, out) -> posted w out = [].
Proof.
  destruct t as [z|s]; cbn [getSlideIndex]; intros Hi; [by simplify_eq|].
  case_bool_decide; [by simplify_eq|]. destruct (test presenter_pattern s); [by simplify_eq|].
  destruct (getSlideByName sh s) as [id| |]; [destruct (sh_objs sh !! id)| |]; by simplify_eq.
Qed.

(** What a loud event does to the leader is what its messages do to a follower. *)
Lemma handle_tells sh strict e n n' os b : nav_ok sh n -> loud strict e = true -> safe_event e -> clone n = Some false ->
  handle sh e n = Ok (n', os) ->
  clone n' = Some false /\
  agree strict (apply_messages sh (posted CloneWindow os) (currentSlideIndex n, b)) (currentSlideIndex n', black_after e b).
Proof.
  intros (z & Hz & _) Hl Hs Hc Hh.
  assert (Hgoto : forall i, gotoSlideByIndex sh i false n = (n', os) -> i <> None -> clone n' = Some false /\
    agree strict (apply_messages sh (posted CloneWindow os) (currentSlideIndex n, b)) (currentSlideIndex n', b)).
  { intros i Hg Hi. destruct (goto_tells sh i n b Hi Hc) as [H1 H2]. rewrite Hg in H1, H2. cbn [fst snd] in *. by rewrite H2. }
  destruct e; try done; cbn [handle black_after] in *;
    try (injection Hh as Hh; apply (Hgoto _ Hh); by rewrite ?Hz); try (injection Hh as <- <-; done).
  - destruct noMessage; [done|]. unfold gotoSlide in Hh. apply rbind_ok in Hh as ([i out] & Hi & Hh).
    destruct (goto_tells sh i n b) as [H1 H2]; [|done|].
    { eapply getSlideIndex_number; [exact Hi|]. intros s ->. by destruct Hs. }
    destruct (gotoSlideByIndex sh i false n) as [n1 o1]. injection Hh as <- <-. cbn [fst snd] in *.
    rewrite posted_app, (getSlideIndex_posts _ _ _ _ _ Hi). cbn [app]. by rewrite H2.
  - unfold gotoSlideNumber in Hh. apply rbind_ok in Hh as (l & _ & Hh). injection Hh as Hh.
    destruct l as [[|id l]|]; try (injection Hh as <- <-; done).
    destruct (sh_objs sh !! id); [by apply (Hgoto _ Hh)|injection Hh as <- <-; done].
  - injection Hh as <- <-. split; [done|]. unfold toggleBlackout_handler.
    destruct propagate as [[]|]; try done; by rewrite (posted_to_clone n _ Hc).
  - injection Hh as Hh. unfold createClone in Hh. rewrite Hc in Hh. by injection Hh as <- <-.
  - injection Hh as <- <-. split; [done|]. split; [done|]. intros ->. done.
Qed.

(** ** The navigation that follows *)

(** The events of a message change the follower as [apply_message] says, and post nothing. *)
Lemma handle_follows sh d e n n' os b : navigateByMessage d = [e] -> handle sh e n = Ok (n', os) ->
  List.filter message_output os = [] /\ clone n' = clone n /\
  apply_message sh (currentSlideIndex n, b) d = (currentSlideIndex n', black_after e b).
Proof.
  intros Hd Hh. unfold apply_message. rewrite Hd. unfold navigateByMessage in Hd.
  destruct (exec message_pattern d) as [m|].
  - destruct (parseInt _) as [z|]; [|done]. injection Hd as <-. cbn [handle gotoSlide getSlideIndex rbind] in Hh.
    destruct (gotoSlideByIndex sh (Some (z - 1)%Z) true n) as [n1 o1] eqn:Eg. injection Hh as <- <-. cbn [app black_after fst snd].
    apply and_assoc. split.
    + unfold gotoSlideByIndex in Eg. destruct (_ || _); [by injection Eg as <- <-|].
      destruct (idx_eq (currentSlideIndex n) _), (started n) as [[]|]; by injection Eg as <- <-.
    + destruct (goto_cases sh (Some (z - 1)%Z) true n) as [[E1 Hr]|(Hr & _ & E1)]; [done|..]; rewrite Eg in E1.
      * injection E1 as -> _. destruct Hr as [Hr| ->]; [|done]. destruct (currentSlideIndex n) as [y|]; [|done].
        apply Z.eqb_eq in Hr as ->. by case_match.
      * cbn [fst] in E1. by rewrite Hr, E1.
  - case_bool_decide; [|done]. injection Hd as <-. by injection Hh as <- <-.
Qed.

Lemma message_events d : navigateByMessage d = [] \/ exists e, navigateByMessage d = [e] /\ bus_event e = true.
Proof. unfold navigateByMessage. repeat case_match; eauto. Qed.

Lemma message_untap d e width : navigateByMessage d = [e] -> untap width e = e.
Proof. unfold navigateByMessage. intros Hd. repeat case_match; by simplify_eq. Qed.

(** ** A session that leads *)

(** The actions in the main window that the clone follows: not a message, not a new deck. *)
Definition leads (strict : bool) (act : action) : bool :=
  match act with
  | Dom (Message _) | Load _ => false
  | Dom (Keydown k) => negb (strict && (keyCode k =? 27)%N)
  | Call e => loud strict e
  | _ => true
  end.

Lemma keydown_loud strict k d : leads strict (Dom (Keydown k)) = true -> Forall (passes (loud strict)) (snd (keydown k d)).
Proof.
  cbn [leads]. intros Hk. unfold keydown. destruct (_ || _); [by constructor|].
  destruct (keyCode k =? 27)%N eqn:E27.
  - apply N.eqb_eq in E27. rewrite E27. constructor; [|done]. by destruct strict.
  - repeat case_match; cbn [snd]; try done; by repeat constructor.
Qed.

Lemma call_handler_loud {E : Type} `{Emitter E handler} opts strict h i (s : inputs E) :
  leads strict (Dom i) = true -> Forall (passes (loud strict)) (snd (call_handler opts h i s)).
Proof.
  intros Hi. destruct h, i; try done; cbn [call_handler snd]; try by constructor.
  - pose proof (keydown_loud strict e (_gotoSlideNumber s) Hi). by destruct (keydown e _).
  - unfold keypress. repeat case_match; simplify_eq/=; repeat constructor.
  - unfold click. repeat case_match; repeat constructor.
  - unfold contextmenu. repeat case_match; repeat constructor.
  - unfold scrollHandler. repeat case_match; repeat constructor.
  - unfold scrollHandler. repeat case_match; repeat constructor.
  - destruct (touches s !! c) as [v|]; [|constructor]. unfold touchend.
    repeat (case_match; simplify_eq/=); repeat constructor.
Qed.

Section Leading.
Context {E : Type} `{Emitter E handler}.
Context (render renderNotes : slide_vm -> jsstr).
Context (opts : nav_options) (topts : timer_options).
Context (macros : macro_env) (depth : nat) (sopts : show_options).
Context (strict : bool).
Implicit Types a : session E.
Let emit := (emit (E := E) render renderNotes opts topts).
Let on_dom := (on_dom (E := E) render renderNotes opts topts).
Let perform := (perform (E := E) render renderNotes opts topts macros depth sopts).

Definition screen_of a : screen := (current a, blackout (a_view a)).

(** The container may be read strictly. *)
Definition readable a : Prop := strict = true -> tidy (a_view a).

(** From [a] to [a'] the messages for the clone lead from the screen of [a] to that of [a']. *)
Record tells a a' : Prop := mkTells {
  t_show : a_show a' = a_show a;
  t_embedded : a_embedded a' = a_embedded a;
  t_readable : readable a -> readable a';
  t_clone : clone (a_nav a) = Some false -> clone (a_nav a') = Some false;
  t_posts : exists os, a_out a' = a_out a ++ os /\
    (clone (a_nav a) = Some false -> readable a ->
     agree strict (apply_messages (a_show a) (posted CloneWindow os) (screen_of a)) (screen_of a'))
}.

(** A change that neither navigates nor posts. *)
Lemma tells_frame a a' : framed a a' -> containerClass (a_view a') = containerClass (a_view a) -> a_out a' = a_out a ->
  tells a a'.
Proof.
  intros (Fs & Fn & Fe) Fv Fo. constructor; try done.
  - intros Hr Hs. specialize (Hr Hs). unfold tidy in *. by rewrite Fv.
  - by rewrite Fn.
  - exists []. rewrite app_nil_r. split; [done|]. intros _ _. unfold screen_of, current, blackout. by rewrite Fn, Fv.
Qed.

Lemma tells_trans a b c : tells a b -> tells b c -> tells a c.
Proof.
  intros [S1 E1 R1 C1 (o1 & O1 & A1)] [S2 E2 R2 C2 (o2 & O2 & A2)]. constructor; [congruence|congruence|auto|auto|].
  exists (o1 ++ o2). split; [by rewrite O2, O1, app_assoc|]. intros Hc Hr.
  rewrite posted_app, apply_messages_app. rewrite (A1 Hc Hr), <- S1. by apply A2; auto.
Qed.

Lemma untap_loud width e : loud strict e = true -> loud strict (untap width e) = true.
Proof. intros He. destruct e; try done. cbn [untap]. unfold on_tap. by case_match. Qed.

Lemma emit_tells now width e a a' : session_ok a -> loud strict e = true -> safe_event e -> emit now width e a = Ok a' ->
  tells a a'.
Proof.
  intros Hok He Hs Hem. pose proof (andb_prop _ _ He) as [Hb _].
  destruct (emit_out render renderNotes opts topts now width e a a' Hb Hem) as (n & os & Hh & (Fs & Fn & Fe) & Fo & Hd).
  pose proof (fun b Hc => handle_tells (a_show a) strict _ _ _ _ b (ok_nav a Hok) (untap_loud width e He) (untap_safe width e Hs) Hc Hh) as Ht.
  constructor; [done|done| | |].
  - intros Hr Hst. by destruct (Hd (Hr Hst)).
  - intros Hc. rewrite Fn. by destruct (Ht false Hc).
  - exists (List.filter message_output os). split; [done|]. intros Hc Hr. rewrite posted_messages.
    destruct (Ht (blackout (a_view a)) Hc) as [_ [H1 H2]]. split; [unfold screen_of, current; by rewrite Fn|].
    intros Hst. destruct (Hd (Hr Hst)) as [_ Hbl]. cbn [snd screen_of] in *. by rewrite Hbl, (untap_black width e), <- (H2 Hst).
Qed.

Lemma tells_inputs s a : tells a (with_inputs s a).
Proof. by apply tells_frame. Qed.

Lemma on_dom_tells now width i a a' : leads strict (Dom i) = true -> session_ok a -> on_dom now width i a = Ok a' -> tells a a'.
Proof.
  intros Hl. apply (on_dom_chain render renderNotes opts topts tells (loud strict) tells_trans tells_inputs).
  - intros ????? Hok _ Hs Hp. by apply emit_tells.
  - intros h s. by apply call_handler_loud.
Qed.

Lemma perform_tells now width act a a' : leads strict act = true -> allowed macros depth sopts a act -> session_ok a ->
  perform now width act a = Ok a' -> tells a a'.
Proof.
  intros Hl Hall Hok. unfold perform. destruct act as [i|h|e|source| |]; try done; cbn [Session.perform allowed] in *.
  - by apply on_dom_tells.
  - intros Hp. eapply tells_trans; [apply (tells_frame a (with_inputs (with_hash h (a_inputs a)) a)); done|].
    eapply on_dom_tells; [|by destruct Hok; constructor|exact Hp]. done.
  - destruct Hall as [_ Hs]. intros Hem. eapply emit_tells; [exact Hok|exact Hl|exact Hs|exact Hem].
  - intros [= <-]. apply tells_frame; try done. unfold fade_timeout. cbn [with_view a_view]. by case_match.
  - intros [= <-]. by apply tells_frame.
Qed.
End Leading.

(** ** A session that follows *)

Section Following.
Context {E : Type} `{Emitter E handler}.
Context (render renderNotes : slide_vm -> jsstr).
Context (opts : nav_options) (topts : timer_options).
Context (macros : macro_env) (depth : nat) (sopts : show_options).
Context (strict : bool).
Implicit Types a c : session E.
Let emit := (emit (E := E) render renderNotes opts topts).
Let on_dom := (on_dom (E := E) render renderNotes opts topts).
Let perform := (perform (E := E) render renderNotes opts topts macros depth sopts).

(** From [c] to [c'] the messages [ds] have been obeyed and nothing is posted. *)
Record obeys (ds : list jsstr) c c' : Prop := mkObeys {
  o_show : a_show c' = a_show c;
  o_embedded : a_embedded c' = a_embedded c;
  o_clone : clone (a_nav c') = clone (a_nav c);
  o_out : a_out c' = a_out c;
  o_ok : session_ok c';
  o_synced : synced c -> synced c';
  o_readable : readable strict c -> readable strict c';
  o_screen : readable strict c -> agree strict (apply_messages (a_show c) ds (screen_of c)) (screen_of c')
}.

Lemma on_dom_message now width d c : session_ok c -> a_embedded c = false ->
  on_dom now width (Message d) c
  = Session.emit_all render renderNotes opts topts now width (map IEmit (navigateByMessage d)) (sync c).
Proof.
  intros [_ _ _ _ (_ & _ & _ & _ & H4) _] He. unfold on_dom, Session.on_dom.
  rewrite He, bool_decide_eq_true_2 by (by apply (bool_decide_unpack _)). cbn [input_name]. unfold heard in H4. rewrite H4.
  cbn [Session.call_each call_handler]. change (with_inputs (a_inputs (sync c)) c) with (sync c).
  by destruct (Session.emit_all _ _ _ _ _ _ _ _).
Qed.

Lemma receive_obeys now width d c : session_ok c -> a_embedded c = false ->
  exists c', perform now width (Dom (Message d)) c = Ok c' /\ obeys [d] c c'.
Proof.
  intros Hok He. destruct (on_dom_ok render renderNotes opts topts now width (Message d) c Hok) as (c' & Hc' & Hok' & [Fs Fe Fk _]).
  exists c'. split; [exact Hc'|]. change (on_dom now width (Message d) c = Ok c') in Hc'.
  rewrite (on_dom_message now width d c Hok He) in Hc'.
  destruct (message_events d) as [Hd|(e & Hd & Hb)].
  - rewrite Hd in Hc'. injection Hc' as <-. constructor; try done; auto. intros _. unfold apply_messages, apply_message. cbn [fold_left]. by rewrite Hd.
  - rewrite Hd in Hc'. cbn [map Session.emit_all] in Hc'. apply rbind_ok in Hc' as (c1 & Hc1 & Hc'). injection Hc' as ->.
    destruct (emit_out render renderNotes opts topts now width e _ _ Hb Hc1) as (n & os & Hh & (_ & Fn & _) & Fo & Hdk).
    rewrite (message_untap d e width Hd) in Hh.
    pose proof (fun b => handle_follows _ d e _ _ _ b Hd Hh) as Hf. destruct (Hf false) as (Hm & Hcl & _).
    constructor; try done; auto.
    + rewrite Fn. exact Hcl.
    + rewrite Fo, Hm. apply app_nil_r.
    + intros Hr Hs. by destruct (Hdk (Hr Hs)).
    + intros Hr. unfold apply_messages. cbn [fold_left]. destruct (Hf (blackout (a_view c))) as (_ & _ & Ha). cbn [sync with_inputs a_show a_nav] in Ha.
      unfold screen_of, current. rewrite Ha. split; [by rewrite Fn|]. intros Hs. by destruct (Hdk (Hr Hs)) as [_ ->].
Qed.

(** What happens in a clone that nobody touches: the browser reports its address, fading
    ends, the timer ticks. *)
Definition idle (act : action) : bool :=
  match act with Dom Hashchange | FadeTimeout | TimerTick => true | _ => false end.

Lemma idle_obeys now width act c : idle act = true -> session_ok c -> a_embedded c = false -> synced c ->
  exists c', perform now width act c = Ok c' /\ obeys [] c c'.
Proof.
  intros Hi Hok He Hs.
  destruct (perform_ok render renderNotes opts topts macros depth sopts now width act c Hok) as (c' & Hc' & Hok' & _);
    [by destruct act|].
  exists c'. split; [exact Hc'|]. destruct act as [i| | | | |]; try done; cbn [Session.perform] in Hc'.
  - destruct i; try done. rewrite (hashchange_quiet render renderNotes opts topts now width c Hok He Hs) in Hc'.
    injection Hc' as <-. by constructor.
  - injection Hc' as <-.
    assert (Hv : containerClass (fade_timeout (a_view c)) = containerClass (a_view c)) by (unfold fade_timeout; by case_match).
    constructor; try done.
    + intros (p & H1 & H2). exists p. split; [done|]. unfold presenter in *. cbn [with_view a_view]. by rewrite Hv.
    + unfold readable, tidy. cbn [with_view a_view]. by rewrite Hv.
    + intros _. unfold screen_of, blackout. cbn [with_view a_view]. by rewrite Hv.
  - injection Hc' as <-. by constructor.
Qed.
End Following.

(** ** The pair in step *)

Section Pair.
Context {E : Type} `{Emitter E handler}.
Context (render renderNotes : slide_vm -> jsstr).
Context (opts : nav_options) (topts : timer_options).
Context (macros : macro_env) (depth : nat) (sopts : show_options).
Context (strict : bool).
Implicit Types p : windows E.
Let perform := (perform (E := E) render renderNotes opts topts macros depth sopts).
Let move_step := (move_step (E := E) render renderNotes opts topts macros depth sopts).
Let moves := (moves (E := E) render renderNotes opts topts macros depth sopts).
Let open_clone := (open_clone (E := E) render renderNotes opts topts macros depth sopts).

(** The moves of a presentation from the main window. *)
Definition presents (m : move) : Prop :=
  match m with
  | Acts Main act => leads strict act = true /\ forall a : session E, allowed macros depth sopts a act
  | Acts Clone act => idle act = true
  | Receives _ => True
  end.

(** The clone is behind the main window by the messages on their way. *)
Record in_step p : Prop := mkInStep {
  i_main : session_ok (w_main p);
  i_clone : session_ok (w_clone p);
  i_open : clone (a_nav (w_main p)) = Some false;
  i_whole : a_embedded (w_clone p) = false;
  i_synced : synced (w_clone p);
  i_show : a_show (w_clone p) = a_show (w_main p);
  i_readable : readable strict (w_main p) /\ readable strict (w_clone p);
  i_quiet : to_main p = [];
  i_behind : agree strict (apply_messages (a_show (w_main p)) (to_clone p) (screen_of (w_clone p))) (screen_of (w_main p))
}.

Lemma news_app w (a a' : session E) os : a_out a' = a_out a ++ os -> news w a a' = posted w os.
Proof. unfold news. intros ->. by rewrite drop_app_length. Qed.

Lemma act_main_step now width act p : in_step p -> presents (Acts Main act) ->
  exists p', move_step now width (Acts Main act) p = Ok p' /\ in_step p'.
Proof.
  intros [Hm Hc Ho Hw Hy Hs [R1 R2] Hq Hb] [Hl Hall].
  destruct (perform_ok render renderNotes opts topts macros depth sopts now width act (w_main p) Hm (Hall _)) as (a & Ha & Hok & _).
  destruct (perform_tells render renderNotes opts topts macros depth sopts strict now width act _ a Hl (Hall _) Hm Ha)
    as [Ts Te Tr Tc (os & To & Ta)].
  eexists. unfold move_step. cbn [Windows.move_step]. unfold act_main. rewrite Ha. cbn [rbind]. split; [reflexivity|].
  constructor; cbn [w_main w_clone to_main to_clone]; try done; auto.
  - by rewrite Ts.
  - rewrite (news_app _ _ _ os To), Ts, apply_messages_app, Hb. by apply Ta.
Qed.

Lemma act_clone_step now width act ds dq p : in_step (mkWindows (w_main p) (w_clone p) (to_main p) (ds ++ dq)) ->
  (exists c', perform now width act (w_clone p) = Ok c' /\ obeys strict ds (w_clone p) c') ->
  exists p', act_clone render renderNotes opts topts macros depth sopts now width act (mkWindows (w_main p) (w_clone p) (to_main p) dq) = Ok p' /\
    in_step p' /\ w_main p' = w_main p /\ to_clone p' = dq.
Proof.
  intros [Hm Hc Ho Hw Hy Hs [R1 R2] Hq Hb] (c' & Hp & [Os Oe Ocl Oo Ook Oy Or Osc]). cbn [w_main w_clone to_main to_clone] in *.
  eexists. unfold act_clone. cbn [w_main w_clone to_main to_clone]. unfold perform in Hp. rewrite Hp. cbn [rbind]. split; [reflexivity|].
  split; [|done]. rewrite <- (app_nil_r (a_out (w_clone p))) in Oo.
  constructor; cbn [w_main w_clone to_main to_clone]; auto; try congruence.
  - by rewrite (news_app _ _ _ [] Oo), Hq.
  - rewrite <- (Osc R2), Hs, <- apply_messages_app. exact Hb.
Qed.

(** One move keeps the pair in step; a message that arrives is gone. *)
Lemma move_in_step now width m p : in_step p -> presents m ->
  exists p', move_step now width m p = Ok p' /\ in_step p' /\
    (m = Receives Clone -> w_main p' = w_main p /\ to_clone p' = tail (to_clone p)).
Proof.
  intros Hp Hm. destruct m as [[|] act|[|]].
  - destruct (act_main_step now width act p Hp Hm) as (p' & H1 & H2). by exists p'.
  - destruct (act_clone_step now width act [] (to_clone p) p) as (p' & H1 & H2 & _).
    + by destruct p.
    + destruct Hp. by apply idle_obeys.
    + exists p'. split; [|done]. destruct p. exact H1.
  - exists p. unfold move_step. cbn [Windows.move_step]. by rewrite (i_quiet p Hp).
  - unfold move_step. cbn [Windows.move_step]. destruct (to_clone p) as [|d ds] eqn:Ed; [by exists p|].
    destruct (act_clone_step now width (Dom (Message d)) [d] ds p) as (p' & H1 & H2 & H3).
    + cbn [app]. rewrite <- Ed. by destruct p.
    + destruct Hp. by apply receive_obeys.
    + by exists p'.
Qed.

Lemma moves_in_step ms : Forall (fun m => presents m.2) ms -> forall p, in_step p -> exists p', moves ms p = Ok p' /\ in_step p'.
Proof.
  unfold moves. induction 1 as [|[[now width] m] ms Hm Hms IH]; intros p Hp; cbn [Windows.moves]; [by exists p|].
  destruct (move_in_step now width m p Hp Hm) as (p1 & E1 & Hp1 & _). unfold move_step in E1. rewrite E1. cbn [rbind].
  by apply IH.
Qed.

(** When the messages on their way have arrived, both windows show the same. *)
Lemma drained now width p : in_step p -> exists p', moves (replicate (length (to_clone p)) (now, width, Receives Clone)) p = Ok p' /\
  in_step p' /\ w_main p' = w_main p /\ to_clone p' = [].
Proof.
  unfold moves. remember (to_clone p) as ds eqn:Ed. revert p Ed. induction ds as [|d ds IH]; intros p Ed Hp; [by exists p|].
  cbn [length replicate Windows.moves].
  destruct (move_in_step now width (Receives Clone) p Hp I) as (p1 & E1 & Hp1 & Hr). destruct (Hr eq_refl) as [Hm Ht].
  unfold move_step in E1. rewrite E1. cbn [rbind]. rewrite <- Ed in Ht. cbn [tail] in Ht.
  destruct (IH p1 (eq_sym Ht) Hp1) as (p2 & E2 & Hp2 & Hm2 & Ht2). exists p2. split_and!; [done|done|congruence|done].
Qed.
End Pair.

(** ** Opening the clone *)

Section Opening.
Context {E : Type} `{Emitter E handler}.
Context (render renderNotes : slide_vm -> jsstr).
Context (opts : nav_options) (topts : timer_options).
Context (macros : macro_env) (depth : nat) (sopts : show_options).
Context (strict : bool).
Implicit Types a c : session E.
Let perform := (perform (E := E) render renderNotes opts topts macros depth sopts).
Let create := (create (E := E) render renderNotes opts topts macros depth sopts).
Let move_step := (move_step (E := E) render renderNotes opts topts macros depth sopts).
Let open_clone := (open_clone (E := E) render renderNotes opts topts macros depth sopts).

(** The container of the clone has the blackout of the main window, for a strict comparison. *)
Definition alike (container : jsstr) a : Prop :=
  strict = true -> tidy (a_view a) /\ NoDup (getClasses (addClass c_remark_container container)) /\
    hasClass c_blackout container = blackout (a_view a).

(** The first navigation of a clone: to the slide of the hash, which is posted to the opener. *)
Lemma first_goto sh z b : (0 <= z < Z.of_nat (getSlideCount sh))%Z ->
  exists n os, handle sh (E_gotoSlide (TStr (substring_from (updateHash b (idx_add1 (Some z))) 1)) false) (initial_nav true)
      = Ok (n, os) /\ currentSlideIndex n = Some z /\
    posted OpenerWindow os = [js "gotoSlide:" ++ idx_toString (idx_add1 (Some z))].
Proof.
  intros Hz. cbn [idx_add1 fmap option_fmap option_map handle]. unfold gotoSlide.
  replace (Z.succ z) with (Z.of_N (Z.to_N (Z.succ z))) by lia. rewrite hash_roundtrip. cbn [rbind].
  replace (Z.of_N (Z.to_N (Z.succ z)) - 1)%Z with z by lia. unfold gotoSlideByIndex.
  cbn [initial_nav currentSlideIndex started clone opener idx_eq idx_lt idx_gt].
  rewrite (proj2 (Z.eqb_neq z (-1))), (proj2 (Z.ltb_ge z 0)), (proj2 (Z.ltb_ge _ z)) by lia. cbn [orb].
  eexists _, _. split; [reflexivity|]. split; [done|]. rewrite !posted_app. unfold messages. cbn [clone opener].
  replace (idx_add1 (Some z)) with (Some (Z.of_N (Z.to_N (Z.succ z)))) by (cbn; f_equal; lia). by destruct b.
Qed.

Lemma created_clone now width container source e0 a z :
  session_ok a -> current a = Some z -> z <> (-1)%Z -> synced a -> alike container a ->
  loadFromString macros depth source sopts = Ok (a_show a) -> em_ok e0 -> (forall t, em_listeners e0 t = []) ->
  exists c, create now width true false container (hash (a_inputs a)) source e0 = Ok c /\
    session_ok c /\ a_show c = a_show a /\ a_embedded c = false /\ synced c /\ readable strict c /\
    posted OpenerWindow (a_out c) = [js "gotoSlide:" ++ idx_toString (idx_add1 (Some z))] /\
    agree strict (screen_of c) (screen_of a).
Proof.
  intros Hok Hz Hne (b & Hb & _) Hal Hsh He Hl. pose proof (ok_hash a Hok) as Hh.
  destruct (ok_nav a Hok) as (z' & Hz' & Hr). unfold current in *. rewrite Hz in Hz'. injection Hz' as <-.
  destruct (create_start render renderNotes opts topts macros depth sopts now width true false container _ source e0 _ Hsh He Hl Hh)
    as (c0 & Ec & Hok0 & Fs & Fn & Fe & Fo & Fv). set (e := E_gotoSlide _ false) in Ec.
  destruct (emit_ok render renderNotes opts topts now width e c0 Hok0 eq_refl Hh) as (c & Em & Hokc & [Cs Ce _ Cm]).
  exists c. split; [unfold create; by rewrite Ec|].
  destruct (emit_out render renderNotes opts topts now width e c0 c eq_refl Em) as (n & os & Hn & (_ & Nn & _) & Oo & Hd).
  destruct (first_goto (a_show a) z b) as (n' & os' & Hg & Hcur & Hpo); [lia|].
  unfold e in Hn. cbn [untap first_target] in Hn. rewrite Fs, Fn, Hb in Hn. unfold current in Hn. rewrite Hz, Hg in Hn.
  injection Hn as <- <-. change (a_nav (with_nav n' c0)) with n' in Nn.
  assert (Hcc : current c = Some z) by (unfold current; by rewrite Nn).
  assert (H0 : strict = true -> tidy (a_view c0) /\ blackout (a_view c0) = blackout (a_view a)).
  { intros Hs. destruct (Hal Hs) as (_ & Hnd & Hbl). unfold tidy, blackout in *. rewrite Fv. split; [done|].
    rewrite hasClass_add by literal_class. by rewrite Hbl, bool_decide_eq_false_2. }
  split_and!; [done|congruence|congruence| | | |].
  - apply Cm; [done|]. rewrite Hcc. unfold current. rewrite Fn. cbn. congruence.
  - intros Hs. destruct (H0 Hs) as [Ht _]. by destruct (Hd Ht).
  - rewrite Oo, Fo. cbn [app]. by rewrite posted_messages.
  - split; [unfold screen_of, current; cbn [fst]; by rewrite Nn, Hcur, Hz|]. intros Hs. destruct (H0 Hs) as [Ht Hbl].
    destruct (Hd Ht) as [_ Hbl']. cbn [snd screen_of]. rewrite Hbl'. exact Hbl.
Qed.

(** The main window notes that it has a clone. *)
Lemma opened_main now width a : session_ok a ->
  exists a', perform now width (Call E_createClone) a = Ok a' /\ session_ok a' /\ a_show a' = a_show a /\
    a_embedded a' = a_embedded a /\ clone (a_nav a') = Some false /\ (readable strict a -> readable strict a') /\
    (readable strict a -> agree strict (screen_of a') (screen_of a)).
Proof.
  intros Hok. destruct (emit_ok render renderNotes opts topts now width E_createClone a Hok eq_refl I) as (a' & Ea & Hok' & [Fs Fe _ _]).
  exists a'. split; [exact Ea|].
  destruct (emit_out render renderNotes opts topts now width E_createClone a a' eq_refl Ea) as (n & os & Hn & (_ & Nn & _) & _ & Hd).
  injection Hn as Hn. change (a_nav (with_nav n a)) with n in Nn.
  assert (Hcn : clone n = Some false /\ currentSlideIndex n = current a).
  { unfold createClone in Hn. destruct (clone (a_nav a)) as [[]|] eqn:Ec; by injection Hn as <- _. }
  destruct Hcn as [Hc1 Hc2]. split_and!; try done.
  - by rewrite Nn.
  - intros Hr Hs. by destruct (Hd (Hr Hs)).
  - intros Hr. split; [unfold screen_of, current; cbn [fst]; by rewrite Nn|]. intros Hs. by destruct (Hd (Hr Hs)).
Qed.

(** When the clone has opened and its first message has arrived, the pair is in step. *)
Lemma opened_in_step now width now' width' container source e0 a z :
  session_ok a -> a_embedded a = false -> current a = Some z -> z <> (-1)%Z -> synced a -> alike container a ->
  loadFromString macros depth source sopts = Ok (a_show a) -> em_ok e0 -> (forall t, em_listeners e0 t = []) ->
  exists p0 p1, open_clone now width container source e0 a = Ok p0 /\ move_step now' width' (Receives Main) p0 = Ok p1 /\
    in_step strict p1.
Proof.
  intros Hok Hea Hz Hne Hy Hal Hsh He Hl.
  destruct (created_clone now width container source e0 a z Hok Hz Hne Hy Hal Hsh He Hl) as (c & Ec & Cok & Cs & Ce & Cy & Cr & Cp & Ca).
  destruct (opened_main now width a Hok) as (a' & Ea & Aok & As & Ae & Ac & Ar & Aa).
  assert (Hra : readable strict a) by (intros Hs; by destruct (Hal Hs)). specialize (Ar Hra). specialize (Aa Hra).
  set (d := js "gotoSlide:" ++ _) in Cp.
  destruct (receive_obeys render renderNotes opts topts macros depth sopts strict now' width' d a' Aok ltac:(congruence))
    as (a2 & Ea2 & [Os Oe Ocl Oo Ook Oy Or Osc]).
  exists (mkWindows a' c [d] []). eexists. unfold open_clone, Windows.open_clone, perform, create in *. rewrite Ea, Ec. cbn [rbind].
  rewrite Cp. split; [done|]. unfold move_step. cbn [Windows.move_step to_main]. unfold act_main. cbn [w_main w_clone to_main to_clone].
  rewrite Ea2. cbn [rbind]. split; [reflexivity|]. rewrite <- (app_nil_r (a_out a')) in Oo.
  constructor; cbn [w_main w_clone to_main to_clone]; auto; try congruence.
  rewrite (news_app _ _ _ [] Oo). cbn [app posted apply_messages fold_left].
  rewrite <- (Osc Ar). unfold apply_messages. cbn [fold_left]. rewrite Aa, As. unfold d.
  destruct (ok_nav a Hok) as (z' & Hz' & Hr). unfold current in Hz. rewrite Hz in Hz'. injection Hz' as <-.
  rewrite apply_goto by lia. rewrite Ca. unfold screen_of, current. cbn [snd]. by rewrite Hz.
Qed.
End Opening.

(** ** Properties *)

Section Theorems.
Context {E : Type} `{Emitter E handler}.
Context (render renderNotes : slide_vm -> jsstr).
Context (opts : nav_options) (topts : timer_options).
Context (macros : macro_env) (depth : nat) (sopts : show_options).
Let open_clone := (open_clone (E := E) render renderNotes opts topts macros depth sopts).
Let moves := (moves (E := E) render renderNotes opts topts macros depth sopts).

End Theorems.

(** ** Witnesses *)

Definition sample_open : result (windows (emitter handler)) :=
  open_clone no_html no_html opts0 default_timer_options no_macros 1 sample_options 10 800 [] sample_source newEmitter sample_session.
Definition sample_moves (ms : list move) : result (windows (emitter handler)) :=
  let! p := sample_open in
  moves no_html no_html opts0 default_timer_options no_macros 1 sample_options (map (fun m => (20%Z, 800%Z, m)) ms) p.

(** Next slide, blackout, a message arrives, previous slide. *)
Definition sample_talk : list (Z * Z * move) :=
  map (fun m => (20%Z, 800%Z, m))
    [Acts Main (Dom (Keydown page_down)); Acts Main (Dom (Keypress (plain 98))); Receives Clone; Acts Clone (Dom Hashchange);
     Acts Main (Call E_gotoPreviousSlide)].

Lemma sample_presents : Forall (fun m => presents (E := emitter handler) no_macros 1 sample_options true m.2) sample_talk.
Proof. repeat constructor. Qed.


(** The slides and the blackouts of both windows, and the messages left. *)
Definition state_of (r : result (windows (emitter handler))) : option (screen * screen * list jsstr * list jsstr) :=
  match r with
  | Ok p => Some (screen_of (w_main p), screen_of (w_clone p), to_main p, to_clone p)
  | _ => None
  end.

(** Messages that cross are not put in order: when both windows move before either has heard
    of the other, they change places instead of agreeing. *)
Example crossing_messages_swap :
  state_of (sample_moves [Receives Main; Acts Main (Call E_gotoNextSlide); Acts Clone (Call E_gotoPreviousSlide);
                          Receives Main; Receives Clone])
  = Some ((Some 0%Z, false), (Some 2%Z, false), [], []).
Proof. vm_compute. reflexivity. Qed.

(** A clone announces its first slide as if it had moved: when the main window moves on
    while the clone opens, the announcement takes it back, and the clone is ahead of it. *)
Example opening_takes_back :
  state_of (sample_moves [Acts Main (Call E_gotoNextSlide); Receives Main; Receives Clone])
  = Some ((Some 1%Z, false), (Some 2%Z, false), [], []).
Proof. vm_compute. reflexivity. Qed.

(** The escape key ends the blackout of one window only; from then on the key b blacks out
    one of the windows and shows the other. *)
Example escape_parts_blackouts :
  state_of (sample_moves [Receives Main; Acts Main (Dom (Keypress (plain 98))); Receives Clone;
                          Acts Main (Dom (Keydown (mkKey false false false false 27 27))); Acts Main (Dom (Keypress (plain 98)));
                          Receives Clone])
  = Some ((Some 1%Z, true), (Some 1%Z, false), [], []).
Proof. vm_compute. reflexivity. Qed.
