(* ===== verification/Contents.v ===== *)
(** * What the slides and the notes show (modules 6, 26 and 28)

    The views hold the HTML of the slides and of their notes.  Here it is followed through
    the whole program: properties of the views that every listener keeps hold in every
    reachable state ([run_keeps]), and so the container of a slide always holds that slide
    of the deck that is loaded; and whenever the slide changes the notes area changes with it. *)

From S2P Require Import Prelude JsString JsRegExp RegExpFacts Events SlideParser SlideModel Slideshow.
From S2P Require Import Navigation Inputs Timer Utils Views Session.

(** ** Properties of the views in a session *)

Section Kept.
Context {E : Type} `{Emitter E handler}.
Context (render renderNotes : slide_vm -> jsstr).
Context (opts : nav_options) (topts : timer_options).
Context (macros : macro_env) (depth : nat) (sopts : show_options).
Implicit Types a : session E.

(** A property of the deck and the views that listeners, loading and timeouts keep. *)
Context (Q : slideshow -> view -> Prop).
Hypothesis event_keeps : forall sh cur e v v', e <> E_slidesChanged ->
  view_event render renderNotes sh cur e v = Ok v' -> Q sh v -> Q sh v'.
Hypothesis load_keeps : forall sh sh' cur v v', updateSlideViews render renderNotes sh' cur v = Ok v' -> Q sh v -> Q sh' v'.
Hypothesis timeout_keeps : forall sh v, Q sh v -> Q sh (fade_timeout v).

Definition keeps a a' : Prop := Q (a_show a) (a_view a) -> a_show a' = a_show a /\ Q (a_show a') (a_view a').

Lemma keeps_trans a b c : keeps a b -> keeps b c -> keeps a c.
Proof using. intros H1 H2 Ha. destruct (H1 Ha) as [S1 Hb]. destruct (H2 Hb) as [S2 Hc]. split; [congruence|done]. Qed.

Lemma keeps_inputs s a : keeps a (with_inputs s a).
Proof using. done. Qed.

Lemma event_any sh cur e v v' : view_event render renderNotes sh cur e v = Ok v' -> Q sh v -> Q sh v'.
Proof using event_keeps load_keeps.
  intros Hv Hq. destruct e; try (by eapply event_keeps; [|exact Hv|exact Hq]). exact (load_keeps _ _ _ _ _ Hv Hq).
Qed.

Lemma notify_keeps now e a a' : notify render renderNotes opts topts now e a = Ok a' -> keeps a a'.
Proof using event_keeps load_keeps.
  unfold notify. intros (v & Hv & Ha)%rbind_ok Hq. injection Ha as <-. apply (event_any _ _ _ _ _ Hv) in Hq.
  by destruct (to_timer now e), (to_input e).
Qed.

Lemma notify_all_keeps now os : forall a a', notify_all render renderNotes opts topts now os a = Ok a' -> keeps a a'.
Proof using event_keeps load_keeps.
  induction os as [|o os IH]; intros a a' Hn; cbn [notify_all] in Hn; [by injection Hn as <-|].
  destruct o; try (exact (IH _ a' Hn)). apply rbind_ok in Hn as (b & Hb & Hn).
  eapply keeps_trans; [by eapply notify_keeps|by apply IH].
Qed.

Lemma emit_keeps now width e a a' : emit render renderNotes opts topts now width e a = Ok a' -> keeps a a'.
Proof using event_keeps load_keeps.
  unfold emit. intros ([n os] & _ & He)%rbind_ok. apply rbind_ok in He as (b & Hb & He).
  apply rbind_ok in He as (c & Hc & He). injection He as <-. apply notify_all_keeps in Hb. apply notify_keeps in Hc.
  intros Hq. destruct (keeps_trans _ _ _ Hb Hc Hq) as [S1 Hqc]. by destruct e; repeat case_match.
Qed.

(** Loading sets the deck before the views follow. *)
Lemma load_emit_keeps now width sh a a' :
  emit render renderNotes opts topts now width E_slidesChanged (with_show sh a) = Ok a' ->
  Q (a_show a) (a_view a) -> Q (a_show a') (a_view a').
Proof using load_keeps.
  unfold emit. cbn [handle rbind notify_all]. unfold notify. cbn [view_event to_timer to_input].
  intros (c & Hc & [= <-])%rbind_ok Hq. apply rbind_ok in Hc as (v & Hv & [= <-]). by eapply load_keeps.
Qed.

Lemma perform_keeps now width act a a' : session_ok a -> allowed macros depth sopts a act ->
  perform render renderNotes opts topts macros depth sopts now width act a = Ok a' ->
  Q (a_show a) (a_view a) -> Q (a_show a') (a_view a').
Proof using event_keeps load_keeps timeout_keeps.
  intros Hok Hall Hp Hq.
  assert (Hd : forall i b, session_ok b -> Q (a_show b) (a_view b) ->
    on_dom render renderNotes opts topts now width i b = Ok a' -> Q (a_show a') (a_view a')).
  { intros i b Hb Hqb Hi. refine (proj2 (on_dom_chain render renderNotes opts topts keeps (fun _ => true) keeps_trans keeps_inputs _
      now width i b a' _ Hb Hi Hqb)); [intros ????? _ _ _ _; apply emit_keeps|].
    intros h s. apply Forall_forall. by intros [] _. }
  destruct act as [i|h|e|source| |]; cbn [perform] in Hp.
  - by apply (Hd i a).
  - apply (Hd Hashchange (with_inputs (with_hash h (a_inputs a)) a)); [|done|done]. by destruct Hok; constructor.
  - by eapply emit_keeps.
  - apply rbind_ok in Hp as (sh & _ & He). by eapply load_emit_keeps.
  - injection Hp as <-. by apply timeout_keeps.
  - by injection Hp as <-.
Qed.

Lemma run_keeps a : (forall sh cur container v, newView render renderNotes sh cur container = Ok v -> Q sh v) ->
  session_run render renderNotes opts topts macros depth sopts a -> Q (a_show a) (a_view a).
Proof using event_keeps load_keeps timeout_keeps.
  intros Hnew. induction 1 as [????????? Ho Hl Hs Hc|????? Hr IH Hall Hp].
  - pose proof Hc as Hc'. unfold create in Hc. apply rbind_ok in Hc as (sh & Hsh & Hc). apply rbind_ok in Hc as (v & Hv & Hc). apply Hnew in Hv.
    pose proof (controller_out opts embedded (mkInputs e0 [] [] h (hasClass c_presenter (containerClass v)))) as Hout.
    destruct (controller opts embedded _) as [s os]. cbn [snd] in Hout. subst os. cbn [emit_all] in Hc.
    apply rbind_ok in Hc as (b & Hb & Hc). injection Hc as <-. by eapply emit_keeps.
  - eapply perform_keeps; [by eapply session_run_ok|exact Hall|exact Hp|exact IH].
Qed.
End Kept.

(** ** The content of the views *)

(** The HTML of the views, and the HTML of the slides of a deck. *)
Definition contents (v : view) : list (jsstr * jsstr) := map (fun sv => (sv_html sv, sv_notes sv)) (slideViews v).

(** What is in the notes area: the notes of the slide and those of the next one. *)
Definition notes_of (v : view) : jsstr * jsstr := (notesHTML v, notesPreviewHTML v).

Lemma contents_alter f i v l : (forall sv, sv_html (f sv) = sv_html sv /\ sv_notes (f sv) = sv_notes sv) ->
  contents (with_views (alter f i l) v) = contents (with_views l v).
Proof.
  intros Hf. unfold contents. cbn [with_views slideViews]. revert i. induction l as [|sv l IH]; intros [|i]; [done|done| |].
  - change (alter f 0 (sv :: l)) with (f sv :: l). cbn [map]. by destruct (Hf sv) as [-> ->].
  - change (alter f (S i) (sv :: l)) with (sv :: alter f i l). cbn [map]. by rewrite IH.
Qed.

Lemma contents_unfade v : forall fuel i l, contents (with_views (unfade_live fuel i l) v) = contents (with_views l v).
Proof.
  induction fuel as [|fuel IH]; intros i l; [done|]. cbn [unfade_live]. destruct (fading_positions l !! i); [|done].
  rewrite IH. by apply contents_alter.
Qed.

Lemma contents_lookup v i : contents v !! i = (fun sv => (sv_html sv, sv_notes sv)) <$> slideViews v !! i.
Proof. apply list_lookup_fmap. Qed.

Section Contents.
Context (render renderNotes : slide_vm -> jsstr).

Definition rendered (sh : slideshow) : list (jsstr * jsstr) := map (fun s => (render s, renderNotes s)) (getSlides sh).

Lemma rendered_lookup sh i : rendered sh !! i = (fun s => (render s, renderNotes s)) <$> getSlides sh !! i.
Proof using. apply list_lookup_fmap. Qed.

(** The notes of the slide with index [z] and of the next one. *)
Definition notes_at (sh : slideshow) (z : Z) : jsstr * jsstr :=
  (default [] (renderNotes <$> getSlides sh !! Z.to_nat z), default [] (renderNotes <$> getSlides sh !! S (Z.to_nat z))).

Definition faithful (sh : slideshow) (v : view) : Prop := contents v = rendered sh.

Lemma showSlide_contents i v v' : showSlide i v = Ok v' -> contents v' = contents v /\ notes_of v' = notes_of v.
Proof using.
  unfold showSlide. destruct i as [z|]; [|done]. destruct (view_at v (Some z)); [|done]. intros [= <-]. split; [|done].
  change (contents (with_views (alter show (Z.to_nat z) (slideViews v)) v) = contents (with_views (slideViews v) v)).
  by apply contents_alter.
Qed.

Lemma event_contents sh cur e v v' : e <> E_slidesChanged -> view_event render renderNotes sh cur e v = Ok v' -> contents v' = contents v.
Proof using.
  intros Hne Hv. destruct e; try done; cbn [view_event] in Hv; try (by injection Hv as <-).
  - unfold on_hideSlide, hideSlide in Hv. destruct i as [z|]; [|done]. case_match; [|done]. injection Hv as <-.
    refine (eq_trans (contents_alter hide (Z.to_nat z) v (unfade_live (S (length (slideViews v))) 0 (slideViews v)) _) _); [done|].
    exact (contents_unfade v (S (length (slideViews v))) 0 (slideViews v)).
  - unfold on_showSlide, notes_showSlide in Hv. apply rbind_ok in Hv as (w & Hw & Hv). destruct (view_at v i); [|done].
    injection Hw as <-. by destruct (showSlide_contents _ _ _ Hv).
  - injection Hv as <-. unfold on_forcePresenterMode. by case_match.
Qed.

Lemma event_notes sh cur e v v' : (forall i, e <> E_showSlide i) -> view_event render renderNotes sh cur e v = Ok v' -> notes_of v' = notes_of v.
Proof using.
  intros Hns Hv. destruct e; cbn [view_event] in Hv; try (by injection Hv as <-).
  - unfold on_hideSlide, hideSlide in Hv. destruct i as [z|]; [|done]. case_match; [|done]. by injection Hv as <-.
  - by destruct (Hns i).
  - unfold updateSlideViews in Hv. case_match; [by destruct (showSlide_contents _ _ _ Hv)|by injection Hv as <-].
  - injection Hv as <-. unfold on_forcePresenterMode. by case_match.
Qed.

(** Showing a slide shows its notes. *)
Lemma show_notes sh cur z v v' : (0 <= z)%Z -> faithful sh v -> view_event render renderNotes sh cur (E_showSlide (Some z)) v = Ok v' ->
  notes_of v' = notes_at sh z.
Proof using.
  intros Hz Hf Hv. cbn [view_event] in Hv. unfold on_showSlide in Hv. apply rbind_ok in Hv as (w & Hw & Hv).
  destruct (showSlide_contents _ _ _ Hv) as [_ ->]. unfold notes_showSlide in Hw.
  assert (Hn : forall y, (0 <= y)%Z -> match view_at v (Some y) with Some n => sv_notes n | None => [] end
    = default [] (renderNotes <$> getSlides sh !! Z.to_nat y)).
  { intros y Hy. unfold view_at. rewrite (proj2 (Z.ltb_ge y 0)) by lia. pose proof (contents_lookup v (Z.to_nat y)) as Hc.
    unfold faithful in Hf. rewrite Hf, rendered_lookup in Hc.
    destruct (slideViews v !! Z.to_nat y), (getSlides sh !! Z.to_nat y); by simplify_eq/=. }
  pose proof (Hn z Hz) as H1. pose proof (Hn (Z.succ z) ltac:(lia)) as H2. rewrite Z2Nat.inj_succ in H2 by done.
  destruct (view_at v (Some z)) as [sv|] eqn:Es; [|done]. injection Hw as <-. unfold notes_of, notes_at. cbn [notesHTML notesPreviewHTML].
  rewrite H1. f_equal. exact H2.
Qed.

Lemma load_faithful sh cur v v' : updateSlideViews render renderNotes sh cur v = Ok v' -> faithful sh v'.
Proof using.
  unfold updateSlideViews. set (w := mkView _ _ _ _ _ _ _ _ _). assert (Hw : faithful sh w).
  { unfold faithful, contents, rendered. cbn [w slideViews]. generalize (next_id v).
    induction (getSlides sh) as [|s l IH]; intros id; [done|]. cbn [create_views map]. by rewrite IH. }
  case_match; [|by intros [= <-]]. intros [Hc _]%showSlide_contents. unfold faithful in *. congruence.
Qed.

Lemma timeout_faithful sh v : faithful sh v -> faithful sh (fade_timeout v).
Proof using.
  unfold faithful, fade_timeout, contents. intros <-. destruct (pending v); [done|]. cbn [slideViews]. rewrite map_map.
  apply map_ext. intros sv. by case_match.
Qed.
End Contents.

(** ** The notes follow the slides *)

(** Outputs that leave the notes alone. *)
Definition leaves_notes (o : output) : bool :=
  match o with Emit (E_showSlide _) | Emit E_slidesChanged => false | _ => true end.

(** The navigation shows nothing, or the slide that it moves to and nothing after it. *)
Definition shows (n n' : nav) (os : list output) : Prop :=
  (currentSlideIndex n' = currentSlideIndex n /\ forallb leaves_notes os = true) \/
  (exists z pre post, currentSlideIndex n' = Some z /\ (0 <= z)%Z /\
    os = pre ++ Emit (E_showSlide (Some z)) :: post /\ forallb leaves_notes post = true).

Lemma messages_leave_notes n d : forallb leaves_notes (messages n d) = true.
Proof. unfold messages. by destruct (clone n) as [[]|], (opener n). Qed.

Lemma goto_shows sh i b n : i <> None -> shows n (fst (gotoSlideByIndex sh i b n)) (snd (gotoSlideByIndex sh i b n)).
Proof.
  intros Hi. destruct i as [z|]; [|done]. unfold gotoSlideByIndex. destruct (_ || _) eqn:Eg; [by left|]. right.
  apply orb_false_iff in Eg as [_ [Hz%Z.ltb_ge _]%orb_false_iff]. exists z.
  assert (Hm : forall st, forallb leaves_notes (if b then [] else messages (mkNav (Some z) st (clone n) (opener n))
    (js "gotoSlide:" ++ idx_toString (idx_add1 (Some z)))) = true) by (intros st; destruct b; [done|apply messages_leave_notes]).
  destruct (idx_eq (currentSlideIndex n) _), (started n) as [[]|]; cbn [fst snd];
    [eexists [], _|eexists [_], _|eexists [], _|eexists [_], _|eexists [_; _], _|eexists [_], _];
    (split; [done|]); (split; [done|]); (split; [reflexivity|]); cbn [forallb leaves_notes andb app]; apply Hm.
Qed.

Lemma shows_pre n n' pre os : forallb leaves_notes pre = true -> shows n n' os -> shows n n' (pre ++ os).
Proof.
  intros Hp [[Hc Hq]|(z & p & q & Hc & Hz & -> & Hq)]; [left|right].
  - by rewrite forallb_app, Hp.
  - exists z, (pre ++ p), q. by rewrite <- app_assoc.
Qed.

Lemma handle_shows sh e n n' os : nav_ok sh n -> bus_event e = true -> safe_event e -> handle sh e n = Ok (n', os) -> shows n n' os.
Proof.
  intros (z & Hz & _) He Hs Hh.
  assert (Hgoto : forall i b, gotoSlideByIndex sh i b n = (n', os) -> i <> None -> shows n n' os).
  { intros i b Hg Hi. pose proof (goto_shows sh i b n Hi) as Hs'. by rewrite Hg in Hs'. }
  destruct e; cbn [handle bus_event] in *; try done; try (injection Hh as Hh; apply (Hgoto _ _ Hh); by rewrite ?Hz);
    try (injection Hh as <- <-; by left).
  - unfold gotoSlide in Hh. apply rbind_ok in Hh as ([i out] & Hi & Hh).
    destruct (getSlideIndex_number _ _ _ _ Hi) as [Hne _]; [intros s ->; by destruct Hs|].
    pose proof (goto_shows sh i noMessage n Hne) as Hs'. destruct (gotoSlideByIndex sh i noMessage n) as [n1 o1].
    injection Hh as <- <-. apply shows_pre; [|done].
    destruct t as [y|s]; cbn [getSlideIndex] in Hi; [by simplify_eq|]. repeat case_match; by simplify_eq.
  - unfold gotoSlideNumber in Hh. apply rbind_ok in Hh as (l & _ & Hh). injection Hh as Hh.
    destruct l as [[|id l]|]; simplify_eq; try by left.
    destruct (sh_objs sh !! id); simplify_eq; [by eapply Hgoto|by left].
  - injection Hh as <- <-. left. split; [done|]. unfold toggleBlackout_handler.
    destruct propagate as [[]|]; try done; apply messages_leave_notes.
  - injection Hh as Hh. left. unfold createClone in Hh. destruct (clone n) as [[]|]; by simplify_eq.
Qed.

Section Notes.
Context {E : Type} `{Emitter E handler}.
Context (render renderNotes : slide_vm -> jsstr).
Context (opts : nav_options) (topts : timer_options).
Context (macros : macro_env) (depth : nat) (sopts : show_options).
Implicit Types a : session E.
Let faithful := (faithful render renderNotes).
Let notify := (notify (E := E) render renderNotes opts topts).
Let notify_all := (notify_all (E := E) render renderNotes opts topts).
Let emit := (emit (E := E) render renderNotes opts topts).
Let perform := (perform (E := E) render renderNotes opts topts macros depth sopts).

Lemma notify_notes now e a a' : (forall i, e <> E_showSlide i) -> notify now e a = Ok a' -> notes_of (a_view a') = notes_of (a_view a) /\ framed a a'.
Proof.
  intros Hns. unfold notify, Session.notify. intros (v & Hv & Ha)%rbind_ok. injection Ha as <-.
  pose proof (event_notes _ _ _ _ _ _ _ Hns Hv) as Hn. by destruct (to_timer now e), (to_input e).
Qed.

Lemma notify_all_notes now os : forallb leaves_notes os = true -> forall a a', notify_all now os a = Ok a' ->
  notes_of (a_view a') = notes_of (a_view a) /\ framed a a'.
Proof.
  unfold notify_all. induction os as [|o os IH]; intros Hos a a' Hn; cbn [Session.notify_all] in Hn; [by injection Hn as <-|].
  cbn [forallb] in Hos. apply andb_prop in Hos as [Ho Hos]. destruct o as [e| | |]; try (exact (IH Hos _ a' Hn)).
  apply rbind_ok in Hn as (b & Hb & Hn). destruct (notify_notes now e a b) as [N1 F1]; [intros i ->; done|done|].
  destruct (IH Hos b a' Hn) as [N2 F2]. split; [congruence|by eapply framed_trans].
Qed.

(** The views stay faithful to the deck when the bus is busy. *)
Lemma faithful_event sh cur e v v' : e <> E_slidesChanged -> view_event render renderNotes sh cur e v = Ok v' -> faithful sh v -> faithful sh v'.
Proof. intros Hne Hv Hf. unfold faithful, Contents.faithful in *. by rewrite (event_contents _ _ _ _ _ _ _ Hne Hv). Qed.

Lemma faithful_load sh sh' cur v v' : updateSlideViews render renderNotes sh' cur v = Ok v' -> faithful sh v -> faithful sh' v'.
Proof. intros Hv _. by eapply load_faithful. Qed.

(** From [a] to [a'] the deck stays, and the notes follow the slide. *)
Definition annotates a a' : Prop := faithful (a_show a) (a_view a) ->
  a_show a' = a_show a /\ faithful (a_show a') (a_view a') /\
  ((current a' = current a /\ notes_of (a_view a') = notes_of (a_view a)) \/
   (exists z, current a' = Some z /\ notes_of (a_view a') = notes_at renderNotes (a_show a) z)).

Lemma annotates_trans a b c : annotates a b -> annotates b c -> annotates a c.
Proof.
  intros H1 H2 Ha. destruct (H1 Ha) as (S1 & Hb & N1). destruct (H2 Hb) as (S2 & Hc & N2).
  split; [congruence|]. split; [done|]. rewrite S1 in N2. destruct N2 as [[C2 N2]|N2]; [|by right].
  rewrite C2, N2. exact N1.
Qed.

Lemma annotates_inputs s a : annotates a (with_inputs s a).
Proof. intros Ha. split; [done|]. split; [done|]. by left. Qed.

(** The outputs of one navigation, delivered. *)
Lemma navigate_notes now n os a b : shows (a_nav a) n os -> faithful (a_show a) (a_view a) -> notify_all now os (with_nav n a) = Ok b ->
  a_nav b = n /\ ((current b = current a /\ notes_of (a_view b) = notes_of (a_view a)) \/
   (exists z, current b = Some z /\ notes_of (a_view b) = notes_at renderNotes (a_show a) z)).
Proof.
  intros [[Hc Hq]|(z & pre & post & Hc & Hz & -> & Hq)] Hf Hn.
  - destruct (notify_all_notes now os Hq _ _ Hn) as [Hno (_ & Fn & _)]. split; [done|]. left. split; [|done]. unfold current. by rewrite Fn.
  - unfold notify_all in Hn. rewrite notify_all_app in Hn. apply rbind_ok in Hn as (b1 & H1 & Hn). cbn [Session.notify_all] in Hn.
    apply rbind_ok in Hn as (b2 & H2 & Hn). destruct (notify_all_notes now post Hq _ _ Hn) as [N3 (_ & Fn3 & _)].
    pose proof H1 as K1. apply (notify_all_keeps render renderNotes opts topts faithful faithful_event faithful_load) in K1.
    destruct (K1 Hf) as [S1 Hf1]. cbn [with_nav a_show] in S1.
    assert (F1 : a_nav b1 = n).
    { clear -H1. change n with (a_nav (with_nav n a)). revert H1. generalize (with_nav n a). induction pre as [|o pre IH]; intros c Hn;
        cbn [Session.notify_all] in Hn; [by injection Hn as <-|]. destruct o; try (exact (IH _ Hn)).
      apply rbind_ok in Hn as (d & Hd & Hn). rewrite (IH _ Hn). unfold Session.notify in Hd. apply rbind_ok in Hd as (v & _ & Hd).
      injection Hd as <-. by destruct (to_timer now e), (to_input e). }
    unfold Session.notify in H2. apply rbind_ok in H2 as (v & Hv & H2). injection H2 as <-.
    assert (Hnav : a_nav b = n) by (rewrite Fn3; exact F1).
    split; [done|]. right. exists z. split; [unfold current; by rewrite Hnav|]. rewrite N3. change (notes_of v = notes_at renderNotes (a_show a) z).
    rewrite <- S1. by eapply show_notes.
Qed.

Lemma emit_annotates now width e a a' : session_ok a -> bus_event e = true -> safe_event e -> emit now width e a = Ok a' -> annotates a a'.
Proof.
  intros Hok He Hs Hem Hf.
  destruct (emit_keeps render renderNotes opts topts faithful faithful_event faithful_load _ _ _ _ _ Hem Hf) as [S1 Hf'].
  split; [done|]. split; [done|]. unfold emit, Session.emit in Hem. fold (untap width e) in Hem.
  pose proof (untap_bus width e He) as He'. pose proof (untap_safe width e Hs) as Hs'. set (e' := untap width e) in *. clearbody e'.
  apply rbind_ok in Hem as ([n os] & Hh & Hem). apply rbind_ok in Hem as (b & Hb & Hem).
  apply rbind_ok in Hem as (c & Hc & Hem).
  destruct (navigate_notes now n os a b (handle_shows _ _ _ _ _ (ok_nav a Hok) He' Hs' Hh) Hf Hb) as [_ Hn].
  destruct (notify_notes now e' b c) as [Nc (_ & Fc & _)]; [intros i ->; done|done|].
  assert (Hac : current a' = current c /\ notes_of (a_view a') = notes_of (a_view c)) by (injection Hem as <-; by destruct e').
  destruct Hac as [-> ->]. unfold current at 1 3. rewrite Fc, Nc. exact Hn.
Qed.

Lemma perform_notes now width act a a' : session_ok a -> allowed macros depth sopts a act -> faithful (a_show a) (a_view a) ->
  perform now width act a = Ok a' -> current a' <> current a ->
  exists z, current a' = Some z /\ notes_of (a_view a') = notes_at renderNotes (a_show a') z.
Proof.
  intros Hok Hall Hf Hp Hne. unfold perform in Hp.
  assert (Hfin : forall b, annotates b a' -> faithful (a_show b) (a_view b) -> current b = current a ->
    exists z, current a' = Some z /\ notes_of (a_view a') = notes_at renderNotes (a_show a') z).
  { intros b Hb Hfb Hcb. destruct (Hb Hfb) as (S1 & _ & [[Hc _]|(z & Hc & Hn)]); [congruence|]. exists z. by rewrite S1. }
  assert (Hd : forall i b, session_ok b -> on_dom render renderNotes opts topts now width i b = Ok a' -> annotates b a').
  { intros i b Hb. apply (on_dom_chain render renderNotes opts topts annotates (fun _ => true) annotates_trans annotates_inputs); [|intros h s|done].
    - intros ????? Hok' He Hs _. by apply emit_annotates.
    - apply Forall_forall. by intros [] _. }
  destruct act as [i|h|e|source| |]; cbn [Session.perform] in Hp.
  - apply (Hfin a); [by apply (Hd i)|done|done].
  - apply (Hfin (with_inputs (with_hash h (a_inputs a)) a)); [|done|done]. apply (Hd Hashchange); [|done]. by destruct Hok; constructor.
  - destruct Hall as [He Hs]. apply (Hfin a); [|done|done]. by eapply emit_annotates.
  - destruct Hall as (sh & Hsh & Hlt). rewrite Hsh in Hp. cbn [rbind] in Hp.
    destruct (load_ok render renderNotes opts topts now width sh a Hok (load_deck_ok _ _ _ _ _ Hsh) Hlt) as (b & Eb & _ & _ & Hc). congruence.
  - by injection Hp as <-.
  - by injection Hp as <-.
Qed.

Lemma run_faithful a : session_run render renderNotes opts topts macros depth sopts a -> faithful (a_show a) (a_view a).
Proof.
  apply (run_keeps render renderNotes opts topts macros depth sopts faithful faithful_event faithful_load
    (timeout_faithful render renderNotes)). intros sh cur container v. apply load_faithful.
Qed.
End Notes.

(** ** Properties *)

Section Theorems.
Context {E : Type} `{Emitter E handler}.
Context (render renderNotes : slide_vm -> jsstr).
Context (opts : nav_options) (topts : timer_options).
Context (macros : macro_env) (depth : nat) (sopts : show_options).

(** C4. What is on screen, in the whole program: after create and any sequence of keys,
    clicks, touches, messages, changes of the address, calls of the slide show object,
    reloads, timeouts and timer ticks, there is one view for each slide of the deck that is
    loaded, with the HTML of that slide and of its notes, exactly the one of the current slide
    is visible, and at most one is fading; and every action that changes the slide leaves
    the notes of the new slide and of the next one in the notes area. *)
Theorem session_shows (a : session E) :
  session_run render renderNotes opts topts macros depth sopts a ->
  length (slideViews (a_view a)) = getSlideCount (a_show a) /\
  contents (a_view a) = rendered render renderNotes (a_show a) /\
  (forall i sv, slideViews (a_view a) !! i = Some sv ->
     hasClass c_visible (sv_class sv) = bool_decide (currentSlideIndex (a_nav a) = Some (Z.of_nat i))) /\
  one_fading (slideViews (a_view a)) /\
  (forall now width act a', allowed macros depth sopts a act ->
     perform render renderNotes opts topts macros depth sopts now width act a = Ok a' ->
     currentSlideIndex (a_nav a') <> currentSlideIndex (a_nav a) ->
     exists z, currentSlideIndex (a_nav a') = Some z /\ notes_of (a_view a') = notes_at renderNotes (a_show a') z).
Proof.
  intros Hr. pose proof (session_run_ok _ _ _ _ _ _ _ _ Hr) as Hok.
  pose proof (run_faithful render renderNotes opts topts macros depth sopts a Hr) as Hf.
  split; [by destruct Hok|]. split; [exact Hf|]. split; [intros i sv; by apply session_visible|].
  split; [by destruct Hok as [_ [_ H1] _ _ _ _]|]. intros now width act a' Hall Hp Hne.
  exact (perform_notes render renderNotes opts topts macros depth sopts now width act a a' Hok Hall Hf Hp Hne).
Qed.
End Theorems.

(** ** Witness *)

(** A slide and its notes by number. *)
Definition numbered_html (s : slide_vm) : jsstr := js "slide " ++ dec (N.of_nat (s_number s)).
Definition numbered_notes (s : slide_vm) : jsstr := js "notes " ++ dec (N.of_nat (s_number s)).

Definition numbered_session : session (emitter handler) :=
  Eval vm_compute in match create numbered_html numbered_notes opts0 default_timer_options no_macros 1 sample_options
      0 800 false false [] (js "#1") sample_source newEmitter with Ok a => a | _ => sample_session end.

Lemma first_safe : safe_target (substring_from (js "#1") 1).
Proof. by apply safe_digits. Qed.

Lemma session_shows_witness :
  contents (a_view numbered_session) = rendered numbered_html numbered_notes (a_show numbered_session).
Proof.
  apply (session_shows numbered_html numbered_notes opts0 default_timer_options no_macros 1 sample_options numbered_session).
  apply (SR_create numbered_html numbered_notes opts0 default_timer_options no_macros 1 sample_options
    0 800 false false [] (js "#1") sample_source newEmitter).
  - exact newEmitter_ok.
  - exact newEmitter_silent.
  - exact first_safe.
  - vm_compute. reflexivity.
Defined.

(** A new deck replaces the slides, but the notes area keeps the notes of the old one until
    the slide changes. *)
Example stale_notes :
  match perform numbered_html (fun s => js "notes of " ++ concat (map (fun i => match i with IStr t => t | _ => [] end) (s_content s)))
          opts0 default_timer_options no_macros 1 sample_options 100 800 (Load (js "new")) numbered_session with
  | Ok a => (currentSlideIndex (a_nav a), map sv_notes (slideViews (a_view a)), notes_of (a_view a))
  | _ => (None, [], ([], []))
  end = (Some 0%Z, [js "notes of new"], (js "notes 1", js "notes 2")).
Proof. vm_compute. reflexivity. Qed.
