(* ===== verification/Layout.v ===== *)
(** * Sizes, printing and style sheets (modules 14, 25, 27 and 28, printing and styler)

    The style sheet that the program adds to the document and its page rule, the scaling of
    slides on screen and on paper, the size of background images and the full screen mode.
    The browser's parsing of style sheets is an argument.  Numbers are IEEE 754 double
    precision; the text that a number is written as is left as the number itself. *)

From Stdlib Require Import SpecFloat.
From S2P Require Import Prelude JsString JsRegExp RegExpFacts RegExpCounts SlideParser SlideModel Slideshow.
From S2P Require Import Navigation Utils Views SlideView.

(** ** The style sheet *)

Inductive css_rule := PageRule (size : jsstr) | OtherRule (text : jsstr).
Record stylesheet := mkSheet { title : jsstr; cssRules : list css_rule }.

Definition s_remark : jsstr := js "remark".

(** The position of the first element that satisfies [f]. *)
Fixpoint find_index {A} (f : A -> bool) (l : list A) : option nat :=
  match l with
  | [] => None
  | x :: l => if f x then Some 0 else S <$> find_index f l
  end.

(** [rule instanceof CSSPageRule] *)
Definition is_page (r : css_rule) : bool := match r with PageRule _ => true | OtherRule _ => false end.

(** [getRemarkStylesheet()] and [getPageRule(stylesheet)], by position *)
Definition getRemarkStylesheet (sheets : list stylesheet) : option nat :=
  find_index (fun s => bool_decide (title s = s_remark)) sheets.
Definition getPageRule (s : stylesheet) : option nat :=
  find_index is_page (cssRules s).

Section Styler.
(** The browser's reading of a style sheet, the style sheet of the document and those of the
    highlighter. *)
Context (parseCSS : jsstr -> list css_rule) (documentStyles : jsstr) (styles : list (jsstr * jsstr)).

Definition styleDocument (sheets : list stylesheet) : list stylesheet :=
  match getRemarkStylesheet sheets with
  | Some _ => sheets
  | None => mkSheet s_remark (parseCSS (documentStyles ++ concat (map snd styles))) :: sheets
  end.
End Styler.

Definition setPageSize (size : jsstr) (sheets : list stylesheet) : result (list stylesheet) :=
  match getRemarkStylesheet sheets with
  | None => Throw (TypeError (js "Cannot read property 'cssRules' of undefined"))
  | Some i =>
      match sheets !! i ≫= getPageRule with
      | None => Throw (TypeError (js "Cannot read property 'style' of undefined"))
      | Some j => Ok (alter (fun s => mkSheet (title s) (<[j := PageRule size]> (cssRules s))) i sheets)
      end
  end.

(** ** Printing *)

(** [setPageOrientation(orientation)]: the page is set before the style sheet. *)
Definition orient (o : orientation) (sheets : list stylesheet) : result (page * list stylesheet) :=
  let p := setPageOrientation o in
  let! sheets := setPageSize (pageSize p) sheets in
  Ok (p, sheets).

(** [init()]: the new state, and whether the component listens to printing *)
Definition print_init (matchMedia : bool) (sheets : list stylesheet) : result (page * list stylesheet * bool) :=
  let! (p, sheets) := orient Landscape sheets in
  Ok (p, sheets, matchMedia).

Record print_event := mkPrint { isPortrait : bool; pageHeight : Z; pageWidth : Z }.

Definition onPrint (matches : bool) (p : page) : option print_event :=
  if matches
  then Some (mkPrint (match _orientation p with Portrait => true | Landscape => false end) (_pageHeight p) (_pageWidth p))
  else None.

(** 0.4 in double precision *)
Definition f_04 : spec_float := Eval vm_compute in fdiv (num 4) (num 10).
Definition fadd : spec_float -> spec_float -> spec_float := SFadd fprec femax.

(** [scaleToFit] in a container whose size is any number. *)
Definition fit (r : ratio) (width height : Z) (cw ch : spec_float) : spec_float * spec_float * spec_float :=
  let scale := if SFltb (fdiv ch (r_height r)) (fdiv cw (r_width r))
               then fdiv ch (num height) else fdiv cw (num width) in
  let left := fdiv (fsub cw (fmul (num width) scale)) (num 2) in
  let top := fdiv (fsub ch (fmul (num height) scale)) (num 2) in
  (scale, fmax0 left, fmax0 top).

(** Where a slide is on the page: the scale, left and top of the slide, and the top of the
    notes when they are printed below it. *)
Record placement := mkPlacement { pl_scale : spec_float; pl_left : spec_float; pl_top : spec_float; pl_notes : option spec_float }.

(** The listener of print, for one slide *)
Definition place (r : ratio) (width height : Z) (e : print_event) : placement :=
  let slideHeight := if isPortrait e then fmul (num (pageHeight e)) f_04 else num (pageHeight e) in
  let '(scale, x, y) := fit r width height (num (pageWidth e)) slideHeight in
  if isPortrait e then mkPlacement scale x (num 20) (Some (fadd slideHeight (num 40)))
  else mkPlacement scale x y None.

(** ** Full screen *)

Inductive fullscreen_call := RequestFullscreen | CancelFullscreen.

(** The listener of toggleFullscreen: [current] says whether there is an element in full
    screen, [request] and [cancel] whether the browser has the functions. *)
Definition toggleFullscreen (current request cancel : bool) : option fullscreen_call :=
  if negb current && request then Some RequestFullscreen
  else if cancel then Some CancelFullscreen else None.

(** ** Background images *)

(** A length that the code computes, or a text. *)
Inductive bg_size := SizeText (s : jsstr) | SizePx (w h : spec_float).
Inductive bg_position := PositionText (s : jsstr) | PositionPx (y : spec_float).

Record background := mkBg {
  bg_size_style : bg_size;
  bg_position_style : bg_position;
  originalBackgroundSize : option bg_size;
  originalBackgroundPosition : option bg_position;
  backgroundSizeSet : bool
}.

Definition new_background (size position : jsstr) : background :=
  mkBg (SizeText size) (PositionText position) None None false.

Definition size_truthy (s : option bg_size) : bool :=
  match s with None | Some (SizeText []) => false | _ => true end.

Definition url_re : regexp := Eval vm_compute in re "^url\((＂?)([^\)]+?)\1\)" "".

(** [scaleBackgroundImage(dimensions)] up to the request of the image: its address.  The
    arguments are the computed styles. *)
Definition background_url (backgroundImage backgroundSize backgroundPosition : jsstr) (b : background) : option jsstr :=
  if (negb (bool_decide (backgroundSize = [])) || negb (bool_decide (backgroundPosition = []))) && negb (backgroundSizeSet b)
  then None
  else match exec url_re backgroundImage with
       | Some m => Some (default [] (cap m 2))
       | None => None
       end.

(** [image.onload] for an image of the given size *)
Definition image_onload (dw dh iw ih : Z) (b : background) : background :=
  if (dw <? iw)%Z || (dh <? ih)%Z then
    if size_truthy (originalBackgroundSize b) then b
    else
      let sw := fdiv (num dw) (num iw) in
      let sh := fdiv (num dh) (num ih) in
      let scale := if SFltb sw sh then sw else sh in
      let h := fmul (num ih) scale in
      mkBg (SizePx (fmul (num iw) scale) h) (PositionPx (fdiv (fsub (num dh) h) (num 2)))
        (Some (bg_size_style b)) (Some (bg_position_style b)) true
  else if backgroundSizeSet b then
    mkBg (default (SizeText []) (originalBackgroundSize b)) (default (PositionText []) (originalBackgroundPosition b))
      (originalBackgroundSize b) (originalBackgroundPosition b) false
  else b.

(** ** Facts *)

Lemma scaleToFit_fit r w h cw ch : scaleToFit r w h cw ch = fit r w h (num cw) (num ch).
Proof. reflexivity. Qed.

Lemma find_index_alter {A} (f : A -> bool) (g : A -> A) l : (forall x, f (g x) = f x) -> forall i,
  find_index f (alter g i l) = find_index f l.
Proof.
  intros Hg. induction l as [|x l IH]; intros [|i]; try done; cbn; [by rewrite Hg|]. change (list_alter g i l) with (alter g i l).
  by rewrite IH.
Qed.

Lemma find_index_lookup {A} (f : A -> bool) l : forall i, find_index f l = Some i -> exists x, l !! i = Some x /\ f x = true.
Proof.
  induction l as [|x l IH]; intros i; [done|]. cbn. destruct (f x) eqn:E; [intros [= <-]; by exists x|].
  destruct (find_index f l) as [j|]; [|done]. intros [= <-]. by apply IH.
Qed.

Lemma find_index_insert {A} (f : A -> bool) y l : f y = true -> forall i,
  find_index f l = Some i -> find_index f (<[i := y]> l) = Some i.
Proof.
  intros Hy. induction l as [|x l IH]; intros i; [done|]. cbn [find_index]. destruct (f x) eqn:E.
  - intros [= <-]. change (<[0 := y]> (x :: l)) with (y :: l). cbn [find_index]. by rewrite Hy.
  - destruct (find_index f l) as [j|] eqn:Ej; [|done]. intros [= <-].
    change (<[S j := y]> (x :: l)) with (x :: <[j := y]> l). cbn [find_index]. by rewrite E, (IH j eq_refl).
Qed.

(** The size in the page rule of the program's style sheet. *)
Definition page_rule (sheets : list stylesheet) : option jsstr :=
  i ← getRemarkStylesheet sheets; s ← sheets !! i; j ← getPageRule s;
  match cssRules s !! j with Some (PageRule size) => Some size | _ => None end.

Lemma setPageSize_ok size sheets : page_rule sheets <> None ->
  exists sheets', setPageSize size sheets = Ok sheets' /\ page_rule sheets' = Some size /\
    map title sheets' = map title sheets.
Proof.
  unfold page_rule, setPageSize. destruct (getRemarkStylesheet sheets) as [i|] eqn:Ei; [|done]. cbn [mbind option_bind].
  destruct (sheets !! i) as [s|] eqn:Es; [|done]. cbn [mbind option_bind].
  destruct (getPageRule s) as [j|] eqn:Ej; [|done]. cbn [mbind option_bind]. intros _. eexists. split; [reflexivity|].
  set (g := fun s => mkSheet (title s) (<[j := PageRule size]> (cssRules s))). split.
  - assert (Eg : getRemarkStylesheet (alter g i sheets) = Some i) by (unfold getRemarkStylesheet in *; by rewrite find_index_alter).
    rewrite Eg. cbn [mbind option_bind]. rewrite list_lookup_alter_eq, Es. cbn [fmap option_fmap option_map mbind option_bind].
    unfold getPageRule in *. cbn [g cssRules]. rewrite (find_index_insert is_page (PageRule size) _ eq_refl j Ej). cbn [mbind option_bind].
    destruct (find_index_lookup _ _ _ Ej) as (x & Hx & _). rewrite list_lookup_insert_eq by (by eapply lookup_lt_Some). done.
  - clear. revert i. induction sheets as [|s l IH]; intros [|i]; try done. cbn. f_equal. apply IH.
Qed.

Lemma styleDocument_once parseCSS documentStyles styles sheets :
  styleDocument parseCSS documentStyles styles (styleDocument parseCSS documentStyles styles sheets)
  = styleDocument parseCSS documentStyles styles sheets.
Proof.
  unfold styleDocument at 2. destruct (getRemarkStylesheet sheets) eqn:E; [unfold styleDocument; by rewrite E|].
  unfold styleDocument. by rewrite E.
Qed.

(** A sequence of changes of the orientation. *)
Fixpoint orient_all (os : list orientation) (p : page) (sheets : list stylesheet) : result (page * list stylesheet) :=
  match os with
  | [] => Ok (p, sheets)
  | o :: os => let! (p, sheets) := orient o sheets in orient_all os p sheets
  end.

Lemma orient_all_ok os : forall p sheets, page_rule sheets = Some (pageSize p) ->
  exists q sheets', orient_all os p sheets = Ok (q, sheets') /\ page_rule sheets' = Some (pageSize q) /\
    _orientation q = default (_orientation p) (last os) /\ map title sheets' = map title sheets.
Proof.
  induction os as [|o os IH]; intros p s Hp; [by exists p, s|]. cbn [orient_all]. unfold orient.
  destruct (setPageSize_ok (pageSize (setPageOrientation o)) s) as (s2 & -> & P2 & T2); [congruence|]. cbn [rbind].
  destruct (IH (setPageOrientation o) s2 P2) as (q & s3 & E & R & O & T).
  exists q, s3. split_and!; [done|done| |congruence]. rewrite O, last_cons. destruct (last os); [done|]. by destruct o.
Qed.

(** The page rule always says the size of the current orientation: in a document that was
    styled by a sheet with a page rule, setting the page succeeds however often the
    presenter mode is toggled, the rule has the size of the last orientation, and no style
    sheet is added or removed. *)
Theorem page_rule_follows parseCSS documentStyles styles (b : bool) (os : list orientation) (sheets : list stylesheet) :
  page_rule (styleDocument parseCSS documentStyles styles sheets) <> None ->
  exists p sheets', print_init b (styleDocument parseCSS documentStyles styles sheets) = Ok (p, sheets', b) /\
    exists q sheets'', orient_all os p sheets' = Ok (q, sheets'') /\
      page_rule sheets'' = Some (pageSize q) /\ _orientation q = default Landscape (last os) /\
      map title sheets'' = map title (styleDocument parseCSS documentStyles styles sheets).
Proof.
  intros H. unfold print_init, orient.
  destruct (setPageSize_ok (pageSize (setPageOrientation Landscape)) _ H) as (s1 & -> & P1 & T1). cbn [rbind].
  eexists _, s1. split; [reflexivity|]. rewrite <- T1. by apply (orient_all_ok os (setPageOrientation Landscape)).
Qed.

(** ** Background images *)

(** Images that are loaded one after the other: the sizes of the slide and of the image. *)
Definition loads (ls : list (Z * Z * Z * Z)) (b : background) : background :=
  fold_left (fun b '(dw, dh, iw, ih) => image_onload dw dh iw ih b) ls b.
Definition too_large (l : Z * Z * Z * Z) : bool := let '(dw, dh, iw, ih) := l in (dw <? iw)%Z || (dh <? ih)%Z.

(** The style of a slide is the original one, or this is remembered. *)
Definition remembers (size position : jsstr) (b : background) : Prop :=
  b = new_background size position \/
  (originalBackgroundSize b = Some (SizeText size) /\ originalBackgroundPosition b = Some (PositionText position) /\
   backgroundSizeSet b = true).

Lemma loads_remember size position ls : size <> [] -> Forall (fun l => too_large l = true) ls ->
  forall b, remembers size position b -> remembers size position (loads ls b).
Proof.
  intros Hs. induction 1 as [|[[[dw dh] iw] ih] ls Hx Hl IH]; intros b Hb; [exact Hb|].
  cbn [loads fold_left]. apply IH. right. unfold image_onload, too_large in *. rewrite Hx.
  destruct Hb as [->|(H1 & H2 & H3)]; [done|]. rewrite H1. by destruct size.
Qed.

(** A size that the slide sets comes back when the slide has become larger than the image,
    however many images were too large before. *)
Lemma background_reverts size position ls dw dh iw ih : size <> [] ->
  Forall (fun l => too_large l = true) ls -> too_large (dw, dh, iw, ih) = false ->
  let b := image_onload dw dh iw ih (loads ls (new_background size position)) in
  bg_size_style b = SizeText size /\ bg_position_style b = PositionText position.
Proof.
  intros Hs Hl Hsm. cbv zeta. unfold image_onload. unfold too_large in Hsm. rewrite Hsm.
  destruct (loads_remember size position ls Hs Hl _ (or_introl eq_refl)) as [->|(H1 & H2 & H3)]; [done|].
  by rewrite H1, H2, H3.
Qed.

(** Without a size of its own the empty text is taken for no original, so a second image
    that is loaded replaces it by the computed size, which is then kept. *)
Example background_not_reverted :
  let large := image_onload 908 681 2000 681 in
  let small := image_onload 908 681 100 100 in
  (bg_size_style (small (large (new_background [] []))),
   match bg_size_style (small (large (large (new_background [] [])))) with SizePx _ _ => true | _ => false end)
  = (SizeText [], true).
Proof. vm_compute. reflexivity. Qed.

(** In portrait the slide takes two fifths of the page, and its notes start below it. *)
Example portrait_page : (floorZ (fmul (num 681) (pl_scale (place (getRatio (js "4:3")) 908 681 (mkPrint true 908 681)))),
  match pl_notes (place (getRatio (js "4:3")) 908 681 (mkPrint true 908 681)) with Some y => floorZ y | None => None end)
  = (Some 363%Z, Some 403%Z).
Proof. vm_compute. reflexivity. Qed.
