(* ===== verification/Page.v ===== *)
(** * The page around the slides (modules 14, 24, 26 and 28)

    The address of the window, the scaler and the rescaling of the elements after a change
    of the window or of the ratio, and the buttons for the size of the notes.  Numbers are
    IEEE 754 double precision; the text that a number is written as is left as the number
    itself.  What a browser makes of a font size that is assigned is an argument. *)

From Stdlib Require Import SpecFloat.
From S2P Require Import Prelude JsString JsRegExp RegExpFacts RegExpCounts SlideParser SlideModel Slideshow.
From S2P Require Import Navigation Utils Views SlideView Layout.

(** ** The address (module 14) *)

(** The fragment of the address, the entries of the history, the newest first, and how many
    hashchange events are still to come. *)
Record window := mkWindow {
  w_hash : jsstr;
  w_entries : list jsstr;
  w_hashchanges : nat;
  has_replaceState : bool;
  w_origin : jsstr
}.

Definition getLocationHash (w : window) : jsstr := w_hash w.

(** Replacing the state changes the newest entry and reports nothing; assigning another
    hash is a navigation to a new entry, which is reported. *)
Definition setLocationHash (h : jsstr) (w : window) : window :=
  if has_replaceState w && negb (bool_decide (w_origin w = js "null"))
  then mkWindow h (h :: tl (w_entries w)) (w_hashchanges w) (has_replaceState w) (w_origin w)
  else if bool_decide (h = w_hash w) then w
  else mkWindow h (h :: w_entries w) (S (w_hashchanges w)) (has_replaceState w) (w_origin w).

Definition replaces (w : window) : bool := has_replaceState w && negb (bool_decide (w_origin w = js "null")).

(** The slides of a talk in the address: the last one is shown; where the state can be
    replaced the history stays as long as it was and no event follows, and otherwise there
    is one event for each new entry of the history. *)
Lemma setLocationHash_talk hs : forall w, w_entries w <> [] ->
  let w' := fold_left (fun w h => setLocationHash h w) hs w in
  getLocationHash w' = default (w_hash w) (last hs) /\
  length (w_entries w') + w_hashchanges w = length (w_entries w) + w_hashchanges w' /\
  (replaces w = true -> w_hashchanges w' = w_hashchanges w).
Proof.
  induction hs as [|h hs IH]; intros w Hw; [done|]. cbn [fold_left]. cbv zeta.
  assert (H : w_entries (setLocationHash h w) <> [] /\ w_hash (setLocationHash h w) = h /\
    length (w_entries (setLocationHash h w)) + w_hashchanges w = length (w_entries w) + w_hashchanges (setLocationHash h w) /\
    replaces (setLocationHash h w) = replaces w /\
    (replaces w = true -> w_hashchanges (setLocationHash h w) = w_hashchanges w)).
  { unfold replaces, setLocationHash. destruct (w_entries w) as [|e es] eqn:Ew; [done|]. destruct (_ && _) eqn:Er; [done|].
    destruct (bool_decide_reflect (h = w_hash w)) as [Eh|Eh]; simpl; rewrite ?Er, ?Ew; [done|].
    split_and!; [done|done|simpl; lia|done|done]. }
  destruct H as (H1 & H2 & H3 & H4 & H5). destruct (IH _ H1) as (G1 & G2 & G3). rewrite H4 in G3. split_and!.
  - rewrite G1, H2, last_cons. by destruct (last hs).
  - lia.
  - intros Hr. rewrite G3, H5 by done. done.
Qed.

(** ** The scaler (module 24) *)

Record scaler := mkScaler { sc_ratio : ratio; sc_dimensions : option Z * Z }.

Definition newScaler (text : jsstr) : scaler := let r := getRatio text in mkScaler r (getDimensions r).

(** The listener of propertiesChanged; [text] is the ratio of the slide show *)
Definition scaler_changed (changes : list jsstr) (text : jsstr) (s : scaler) : scaler :=
  if bool_decide (js "ratio" ∈ changes) then newScaler text else s.

Definition numZ (z : option Z) : spec_float := match z with Some z => num z | None => S754_nan end.

(** [scaleToFit] with the dimensions of the scaler: scale, left and top *)
Definition fitted : Type := spec_float * spec_float * spec_float.
Definition scale_element (s : scaler) (size : Z * Z) : fitted :=
  let cw := num (fst size) in
  let ch := num (snd size) in
  let w := numZ (fst (sc_dimensions s)) in
  let h := num (snd (sc_dimensions s)) in
  let scale := if SFltb (fdiv ch (r_height (sc_ratio s))) (fdiv cw (r_width (sc_ratio s))) then fdiv ch h else fdiv cw w in
  (scale, fmax0 (fdiv (fsub cw (fmul w scale)) (num 2)), fmax0 (fdiv (fsub ch (fmul h scale)) (num 2))).

Lemma scale_element_fit s w h size : sc_dimensions s = (Some w, h) ->
  scale_element s size = fit (sc_ratio s) w h (num (fst size)) (num (snd size)).
Proof. unfold scale_element. by intros ->. Qed.

(** ** The elements of the show (module 28) *)

(** The client sizes of the area of the slides, of the preview and of the container. *)
Record client := mkClient { area : Z * Z; preview : Z * Z; container : Z * Z }.

(** The sizes and places that the view writes: the slides, the preview if there is one, the
    help and the pause screen, and the size of the slides and of the help. *)
Record placed := mkPlaced {
  p_slides : list fitted;
  p_preview : option fitted;
  p_help : fitted;
  p_pause : fitted;
  p_size : option Z * Z;
  p_help_size : option Z * Z
}.

(** [scaleElements()]; [previews] says whether the preview area has a child *)
Definition scaleElements (s : scaler) (c : client) (previews : bool) (p : placed) : placed :=
  mkPlaced (map (fun _ => scale_element s (area c)) (p_slides p))
    (if previews then Some (scale_element s (preview c)) else p_preview p)
    (scale_element s (container c)) (scale_element s (container c)) (p_size p) (p_help_size p).

(** [SlideView.prototype.updateDimensions()] for all slides *)
Definition slides_updateDimensions (s : scaler) (p : placed) : placed :=
  mkPlaced (p_slides p) (p_preview p) (p_help p) (p_pause p) (sc_dimensions s) (p_help_size p).

(** [SlideshowView.prototype.updateDimensions()], without the images of the background *)
Definition updateDimensions (s : scaler) (c : client) (previews : bool) (p : placed) : placed :=
  scaleElements s c previews (mkPlaced (p_slides p) (p_preview p) (p_help p) (p_pause p) (p_size p) (sc_dimensions s)).

(** The listeners of propertiesChanged: the scaler first, then the view of the show, then
    those of the slides. *)
Definition on_propertiesChanged (changes : list jsstr) (text : jsstr) (c : client) (previews : bool) (st : scaler * placed)
    : scaler * placed :=
  let s := scaler_changed changes text (fst st) in
  (s, if bool_decide (js "ratio" ∈ changes) then slides_updateDimensions s (updateDimensions s c previews (snd st)) else snd st).

(** The listener of resize *)
Definition onResize (c : client) (previews : bool) (st : scaler * placed) : scaler * placed :=
  (fst st, scaleElements (fst st) c previews (snd st)).

(** What is on the page for a ratio and a window. *)
Definition in_place (text : jsstr) (c : client) (previews : bool) (st : scaler * placed) : Prop :=
  fst st = newScaler text /\ p_size (snd st) = getDimensions (getRatio text) /\
  p_help_size (snd st) = getDimensions (getRatio text) /\
  Forall (fun f => f = scale_element (newScaler text) (area c)) (p_slides (snd st)) /\
  (previews = true -> p_preview (snd st) = Some (scale_element (newScaler text) (preview c))) /\
  p_help (snd st) = scale_element (newScaler text) (container c) /\
  p_pause (snd st) = scale_element (newScaler text) (container c).

Lemma Forall_map_const {A B} (b : B) (l : list A) : Forall (fun x => x = b) (map (fun _ => b) l).
Proof. by induction l; constructor. Qed.

(** A change of the ratio brings every element to the place for the new ratio, whatever was
    there, and a change of the window to the place for its new size. *)
Lemma ratio_in_place text c previews changes st : js "ratio" ∈ changes ->
  in_place text c previews (on_propertiesChanged changes text c previews st).
Proof.
  intros Hc. unfold on_propertiesChanged, scaler_changed, in_place. rewrite !bool_decide_true by done. cbn.
  split_and!; try done; [apply Forall_map_const|by intros ->].
Qed.
Lemma resize_in_place text c c' previews st : in_place text c previews st -> in_place text c' previews (onResize c' previews st).
Proof.
  intros (H1 & H2 & H3 & _). unfold onResize, in_place. rewrite H1. cbn. split_and!; try done; [apply Forall_map_const|by intros ->].
Qed.

(** ** Slides fit the window *)

Definition usual_ratios : list jsstr := map js ["4:3"; "16:9"; "16:10"; "1:1"; "3:4"; "21:9"]%string.
Definition sides : list Z := map (fun k => (128 * Z.of_nat k)%Z) (seq 1 32).

(** The scaled slide is at most a pixel wider than its container; because its width was
    rounded down, it can be higher by one part in its width. *)
Definition within (s : scaler) (size : Z * Z) : bool :=
  let '(scale, x, y) := scale_element s size in
  match fst (sc_dimensions s) with
  | Some w => SFltb (fmul (num w) scale) (num (fst size + 1))
              && SFltb (fmul (num (snd (sc_dimensions s))) scale) (num (snd size * (w + 1) / w + 1))
              && SFleb (num 0) x && SFleb (num 0) y
  | None => false
  end.

(** Slides fit, in double precision, for usual ratios and containers with sides that are
    multiples of 128 pixels up to 4096. *)
Lemma slides_fit : Forall (fun text => Forall (fun size => within (newScaler text) size = true) (list_prod sides sides)) usual_ratios.
Proof.
  assert (H : forallb (fun text => let s := newScaler text in forallb (within s) (list_prod sides sides)) usual_ratios = true)
    by (vm_compute; reflexivity).
  revert H. generalize usual_ratios (list_prod sides sides). intros rs zs H.
  apply Forall_forall. intros r Hr%list_elem_of_In. apply Forall_forall. intros z Hz%list_elem_of_In.
  exact (proj1 (forallb_forall _ _) (proj1 (forallb_forall _ _) H r Hr) z Hz).
Qed.

(** A slide of 16:9 in a container of just that ratio is higher than the container. *)
Example higher_than_container :
  let '(scale, _, top) := scale_element (newScaler (js "16:9")) (1600, 900)%Z in
  (SFltb (num 900) (fmul (num 681) scale), top) = (true, num 0).
Proof. vm_compute. reflexivity. Qed.

(** ** The size of the notes (module 26) *)

Section Notes.
(** What the browser stores when a number of em is assigned; a size that it does not accept
    leaves the old one. *)
Context (stored : spec_float -> option spec_float).

Inductive command := Increase | Decrease.

(** [commands[command]] for the hash of a link *)
Definition toolbar_command (hash : jsstr) : result command :=
  let name := substring_from hash 1 in
  if bool_decide (name = js "increase") then Ok Increase
  else if bool_decide (name = js "decrease") then Ok Decrease
  else Throw (TypeError (js "commands[command] is not a function")).

(** 0.1 in double precision *)
Definition f_01 : spec_float := Eval vm_compute in fdiv (num 1) (num 10).

(** [parseFloat(style.fontSize) || 1] *)
Definition font_size (size : option spec_float) : spec_float :=
  match size with
  | None | Some S754_nan | Some (S754_zero _) => num 1
  | Some x => x
  end.

Definition press (c : command) (size : option spec_float) : option spec_float :=
  let x := match c with Increase => fadd (font_size size) f_01 | Decrease => fsub (font_size size) f_01 end in
  match stored x with Some x => Some x | None => size end.

(** The listener of a link of the toolbar. *)
Definition toolbar_click (hash : jsstr) (size : option spec_float) : result (option spec_float) :=
  let! c := toolbar_command hash in Ok (press c size).
End Notes.

(** A browser that accepts every size that is not negative. *)
Definition accepts (x : spec_float) : option spec_float := if SFleb (num 0) x then Some x else None.

(** Ten presses do not come to zero, and then the size stays, because the next one would be
    negative. *)
Example ten_presses :
  let ten := Nat.iter 10 (press accepts Decrease) None in
  match ten, press accepts Decrease ten with
  | Some x, Some y => SFltb (num 0) x && SFltb x f_01 && SFeqb x y
  | _, _ => false
  end = true.
Proof. vm_compute. reflexivity. Qed.
