(* ===== verification/Theme.v ===== *)
(** * The documentation pages (theme.js)

    The script of the Icecast documentation: the menu that slides in, navigation by the
    arrow keys, the tables, the sticky side bar and the initial scroll position.  The elements that
    jQuery selects are lists of their states; lengths are rational numbers of pixels. *)

From Stdlib Require Import QArith.
From S2P Require Import Prelude JsString.

(** ** The menu *)

(** The class [shift] of the menus; the classes [shift] and [shift-up] of the version
    boxes. *)
Record vbox := mkVbox { v_shift : bool; v_shift_up : bool }.
Record menu := mkMenu { nav_shift : list bool; versions : list vbox }.

Definition toggle_shift (v : vbox) : vbox := mkVbox (negb (v_shift v)) (v_shift_up v).
Definition toggle_up (v : vbox) : vbox := mkVbox (v_shift v) (negb (v_shift_up v)).

Inductive click := ClickNavTop | ClickMenuLink | ClickCurrentVersion.

Definition on_click (c : click) (m : menu) : menu :=
  match c with
  | ClickNavTop => mkMenu (map negb (nav_shift m)) (map toggle_shift (versions m))
  | ClickMenuLink => mkMenu (map (fun _ => false) (nav_shift m)) (map toggle_shift (versions m))
  | ClickCurrentVersion => mkMenu (nav_shift m) (map toggle_up (versions m))
  end.

Definition clicks (cs : list click) (m : menu) : menu := fold_left (fun m c => on_click c m) cs m.

(** ** Keys *)

(** A key event: whether its target is an input, and the first of [which], [keyCode] and
    the code of the global event that is set. *)
Record key_event := mkKey { k_input : bool; k_which : Z; k_keyCode : Z; k_global : option Z }.

Definition key_of (e : key_event) : option Z :=
  if negb (k_which e =? 0)%Z then Some (k_which e)
  else if negb (k_keyCode e =? 0)%Z then Some (k_keyCode e) else k_global e.

(** The page to go to; [next] and [previous] are the links of the page, if any. *)
Definition on_keydown (next previous : option jsstr) (e : key_event) : option jsstr :=
  if k_input e then None
  else match (match key_of e with Some 39%Z => next | Some 37%Z => previous | _ => None end) with
       | Some (c :: p) => Some (c :: p)
       | _ => None
       end.

(** ** Side bar *)

Definition applyStickNav (navBar win : Q) : bool := Qle_bool navBar win.

(** The side bar that sticks: nothing before the page is ready, then the selected element
    and the window, with their heights, and whether resizing applies the class again. *)
Record sticky := mkSticky { s_elements : option (Q * Q); s_class : bool; s_resize : bool }.

Definition sticky_start : sticky := mkSticky None false false.

(** [init], when the page is ready *)
Definition sticky_init (navBar win : Q) (s : sticky) : sticky := mkSticky (Some (navBar, win)) (s_class s) (s_resize s).

(** [applyStickNav()] on the class of the side bar *)
Definition sticky_apply (s : sticky) : result sticky :=
  match s_elements s with
  | Some (navBar, win) => Ok (mkSticky (s_elements s) (applyStickNav navBar win) (s_resize s))
  | None => Throw (TypeError (js "Cannot read property 'height' of undefined"))
  end.

(** [enable()] *)
Definition sticky_enable (s : sticky) : result sticky :=
  let! s := sticky_apply s in Ok (mkSticky (s_elements s) (s_class s) true).

(** The window gets the height [win]. *)
Definition sticky_resize (win : Q) (s : sticky) : result sticky :=
  let s := mkSticky ((fun e => (fst e, win)) <$> s_elements s) (s_class s) (s_resize s) in
  if s_resize s then sticky_apply s else Ok s.

Fixpoint sticky_resizes (wins : list Q) (s : sticky) : result sticky :=
  match wins with
  | [] => Ok s
  | win :: wins => let! s := sticky_resize win s in sticky_resizes wins s
  end.

(** ** Tables *)

(** A table: the classes docutils and field-list, and whether it is in a responsive box. *)
Record table := mkTable { t_docutils : bool; t_field_list : bool; t_wrapped : bool }.

Definition wrap_table (t : table) : table :=
  if t_docutils t && negb (t_field_list t) then mkTable true false true else t.
Definition add_docutils (t : table) : table := mkTable true (t_field_list t) (t_wrapped t).

(** What the script does with the tables of a page, in this order. *)
Definition ready_tables (l : list table) : list table := map add_docutils (map wrap_table l).

(** [isFullyWithinViewport()] *)
Definition isFullyWithinViewport (scrollTop winHeight top outerHeight : Q) : bool :=
  negb (Qle_bool top scrollTop || Qle_bool (scrollTop + winHeight) (top + outerHeight)).

(** The new scroll position of the side bar, if it is set: [current] is the position and
    the height of the current entry. *)
Definition scroll_nav (current : option (Q * Q)) (scrollTop winHeight navTop : Q) : option Q :=
  match current with
  | Some (top, outerHeight) =>
      if isFullyWithinViewport scrollTop winHeight top outerHeight then None else Some (top - navTop - 60)%Q
  | None => None
  end.

(** ** Facts *)

(** All elements show the same state. *)
Definition in_step (b : bool) (m : menu) : Prop :=
  Forall (fun x => x = b) (nav_shift m) /\ Forall (fun v => v_shift v = b) (versions m).

Lemma nav_top_in_step b m : in_step b m -> in_step (negb b) (on_click ClickNavTop m).
Proof.
  intros [H1 H2]. split; simpl; apply Forall_map; (eapply Forall_impl; [eassumption|]); intros x Hx; simpl in *; congruence.
Qed.

(** A click on a link of the open menu closes it. *)
Lemma link_closes m : in_step true m -> in_step false (on_click ClickMenuLink m).
Proof.
  intros [H1 H2]. split; simpl; apply Forall_map; (eapply Forall_impl; [eassumption|]); intros x Hx; simpl in *; [done|].
  by rewrite Hx.
Qed.

(** On a wide screen, where the menu is always visible and not shifted, a click on a link
    shifts the version box alone, and they stay out of step from then on. *)
Lemma link_breaks_step n v m : nav_shift m = n -> versions m = [v] -> in_step false m ->
  forall k, exists b, versions (clicks (ClickMenuLink :: repeat ClickNavTop k) m) = [mkVbox b (v_shift_up v)] /\
    nav_shift (clicks (ClickMenuLink :: repeat ClickNavTop k) m) = map (fun _ => negb b) n.
Proof.
  intros Hn Hv [_ Hs] k. rewrite Hv in Hs. apply Forall_cons in Hs as [Hs _].
  assert (H : forall k m b, versions m = [mkVbox b (v_shift_up v)] -> nav_shift m = map (fun _ => negb b) n ->
    exists b', versions (clicks (repeat ClickNavTop k) m) = [mkVbox b' (v_shift_up v)] /\
      nav_shift (clicks (repeat ClickNavTop k) m) = map (fun _ => negb b') n).
  { clear. induction k as [|k IH]; intros m b Hv Hn; [by exists b|]. cbn [repeat clicks fold_left].
    apply (IH _ (negb b)); cbn [on_click versions nav_shift]; rewrite ?Hv, ?Hn; [done|].
    by rewrite map_map. }
  cbn [clicks fold_left]. apply (H k _ true); cbn [on_click versions nav_shift]; rewrite ?Hv, ?Hn; [|done].
  cbn [map]. unfold toggle_shift. by rewrite Hs.
Qed.

(** The entry is inside the view exactly when both its ends are strictly inside. *)
Lemma within_viewport s w t o :
  isFullyWithinViewport s w t o = true <-> (s < t)%Q /\ (t + o < s + w)%Q.
Proof.
  unfold isFullyWithinViewport. rewrite negb_true_iff, orb_false_iff.
  assert (H : forall a b, Qle_bool a b = false <-> (b < a)%Q).
  { intros a b. destruct (Qle_bool a b) eqn:E.
    - apply Qle_bool_iff in E. split; [done|]. intros H. by apply Qlt_not_le in H.
    - split; [|done]. intros _. apply Qnot_le_lt. intros H%Qle_bool_iff. congruence. }
  by rewrite !H.
Qed.

Lemma last_default {A} (l : list A) : forall a d, List.last (a :: l) d = List.last l a.
Proof. induction l as [|b l IH]; intros a d; [done|]. change (List.last (b :: l) d = List.last (b :: l) a). by rewrite !IH. Qed.

(** The class follows the heights: once enabled, after every change of the window. *)
Lemma sticky_follows navBar wins : forall win s, s_elements s = Some (navBar, win) -> s_resize s = true ->
  s_class s = applyStickNav navBar win ->
  exists s', sticky_resizes wins s = Ok s' /\ s_resize s' = true /\
    s_elements s' = Some (navBar, List.last wins win) /\ s_class s' = applyStickNav navBar (List.last wins win).
Proof.
  induction wins as [|w wins IH]; intros win s He Hr Hc; [by exists s|].
  cbn [sticky_resizes]. unfold sticky_resize, sticky_apply. rewrite He, Hr. cbn [fmap option_fmap option_map s_resize s_elements fst rbind].
  destruct (IH w (mkSticky (Some (navBar, w)) (applyStickNav navBar w) true)) as (s' & E & H1 & H2 & H3); try done.
  exists s'. split; [exact E|]. by rewrite last_default.
Qed.

(** Enabling it before the page is ready throws. *)
Example enable_too_early : exists msg, sticky_enable sticky_start = Throw (TypeError msg).
Proof. by eexists. Qed.

(** Tables get the class docutils only after the tables with that class were put in boxes:
    a table that comes without the class never gets one. *)
Lemma plain_table_bare t : t_docutils t = false -> t_wrapped t = false ->
  forall l, t ∈ l -> mkTable true (t_field_list t) false ∈ ready_tables l.
Proof.
  intros Hd Hw l Hl. unfold ready_tables. rewrite map_map. apply list_elem_of_fmap. exists t. split; [|done].
  unfold wrap_table. rewrite Hd. cbn [andb]. unfold add_docutils. by rewrite Hw.
Qed.
