(* ===== verification/Extend.v ===== *)
(** * Extending objects (module 2)

    [extend] copies the properties of objects into a target, deeply when its first
    argument is true.  Objects live in a heap, so that sharing and copying are visible.
    The properties of an object are enumerated in the order of creation, its own before the
    inherited ones; prototypes are not themselves objects that are extended, so what an
    object inherits is fixed. *)

From S2P Require Import Prelude JsString.

(** ** Values *)

(** What [Object.prototype.toString] says of an object. *)
Inductive class := CObject | CArray | CFunction | COther.

Inductive val :=
| VUndef
| VNull
| VBool (b : bool)
| VNum (z : Z)
| VStr (s : jsstr)
| VRef (id : nat).

#[global] Instance class_eq : EqDecision class.
Proof. solve_decision. Defined.
#[global] Instance val_eq : EqDecision val.
Proof. solve_decision. Defined.

(** An object: its class, the constructor it inherits (none, or whether the prototype of
    the constructor has a property [isPrototypeOf] of its own), the enumerable properties it
    inherits, and its own properties. *)
Record obj := mkObj { o_class : class; o_ctor : option bool; o_inherited : list (jsstr * val); o_props : list (jsstr * val) }.
Abbreviation store := (list obj).

(** The literals [{}] and [[]]. *)
Definition new_object : obj := mkObj CObject (Some true) [] [].
Definition new_array : obj := mkObj CArray (Some false) [] [].

Definition hasOwn (o : obj) (k : jsstr) : bool := bool_decide (k ∈ map fst (o_props o)).
Definition all_props (o : obj) : list (jsstr * val) := o_props o ++ o_inherited o.
(** The keys that a loop visits: a shadowed key only once. *)
Definition keys (o : obj) : list jsstr :=
  map fst (o_props o) ++ filter (fun k => hasOwn o k = false) (map fst (o_inherited o)).

Definition class_of (h : store) (v : val) : option class :=
  match v with VRef id => o_class <$> h !! id | _ => None end.

Definition isArray (h : store) (v : val) : bool := bool_decide (class_of h v = Some CArray).

Definition plain (o : obj) : bool :=
  if negb (bool_decide (o_class o = CObject)) then false
  else if bool_decide (o_ctor o = Some false) && negb (hasOwn o (js "constructor")) then false
  else match last (keys o) with None => true | Some key => hasOwn o key end.
Definition isPlainObject (h : store) (v : val) : bool :=
  match v with VRef id => match h !! id with Some o => plain o | None => false end | _ => false end.

(** The keys of any value; a string has its positions. *)
Definition keys_of (h : store) (v : val) : list jsstr :=
  match v with
  | VRef id => match h !! id with Some o => keys o | None => [] end
  | VStr s => imap (fun i _ => dec (N.of_nat i)) s
  | _ => []
  end.

(** The properties that can be read by the keys. *)
Definition props_of (h : store) (v : val) : list (jsstr * val) :=
  match v with
  | VRef id => match h !! id with Some o => all_props o | None => [] end
  | VStr s => imap (fun i c => (dec (N.of_nat i), VStr [c])) s
  | _ => []
  end.

Definition getProperty (h : store) (v : val) (name : jsstr) : val := default VUndef (oget name (props_of h v)).
Definition setProperty (h : store) (id : nat) (name : jsstr) (v : val) : store :=
  alter (fun o => mkObj (o_class o) (o_ctor o) (o_inherited o) (oset name v (o_props o))) id h.

Definition truthy (v : val) : bool :=
  match v with
  | VUndef | VNull => false
  | VBool b => b
  | VNum z => negb (z =? 0)%Z
  | VStr s => negb (bool_decide (s = []))
  | VRef _ => true
  end.

(** ** extend *)

(** The object that a property is merged into: the present one if it is of the same kind,
    or a new one. *)
Definition clone_for (h : store) (copyIsArray : bool) (src : val) : store * nat :=
  match src with
  | VRef id => if (if copyIsArray then isArray h src else isPlainObject h src) then (h, id)
               else (h ++ [if copyIsArray then new_array else new_object], length h)
  | _ => (h ++ [if copyIsArray then new_array else new_object], length h)
  end.

(** Whether a value is merged and not assigned, and then as an array or not. *)
Definition copied (h : store) (copy : val) : option bool :=
  if isPlainObject h copy then Some false else if isArray h copy then Some true else None.

(** One property; [rec] merges a value into an object. *)
Definition extend_property (rec : nat -> val -> store -> option store) (deep : bool) (target : nat) (options : val)
    (name : jsstr) (h : store) : option store :=
  let src := getProperty h (VRef target) name in
  let copy := getProperty h options name in
  if bool_decide (copy = VRef target) then Some h
  else match (if deep && truthy copy then copied h copy else None) with
       | Some k =>
           let '(h, clone) := clone_for h k src in
           h ← rec clone copy h;
           Some (setProperty h target name (VRef clone))
       | None => Some (if bool_decide (copy = VUndef) then h else setProperty h target name copy)
       end.

Fixpoint each_property (step : jsstr -> store -> option store) (names : list jsstr) (h : store) : option store :=
  match names with
  | [] => Some h
  | name :: names => h ← step name h; each_property step names h
  end.

(** [extend(deep, target, options)] for one source; [fuel] bounds the depth. *)
Fixpoint extend_one (fuel : nat) (deep : bool) (target : nat) (options : val) (h : store) : option store :=
  match fuel with
  | O => None
  | S f => each_property (extend_property (extend_one f deep) deep target options) (keys_of h options) h
  end.

(** The loop over the sources. *)
Fixpoint extend_all (fuel : nat) (deep : bool) (target : nat) (sources : list val) (h : store) : option store :=
  match sources with
  | [] => Some h
  | options :: sources => h ← extend_one fuel deep target options h; extend_all fuel deep target sources h
  end.

(** [extend(...)]: the target that is returned, and the objects *)
Definition extend (fuel : nat) (args : list val) (h : store) : option (val * store) :=
  let '(deep, target, sources) :=
    match args with
    | VBool b :: t :: sources => (b, if truthy t then t else VUndef, sources)
    | VBool b :: [] => (b, VUndef, [])
    | t :: sources => (false, t, sources)
    | [] => (false, VUndef, [])
    end in
  match target with
  | VRef id => h ← extend_all fuel deep id sources h; Some (VRef id, h)
  | _ => let id := length h in
         h ← extend_all fuel deep id sources (h ++ [new_object]); Some (VRef id, h)
  end.

(** ** Objects and sharing *)

(** Plain objects and arrays, which are cloned; other objects are shared. *)
Definition cloned (h : store) (v : val) : Prop := copied h v <> None.

Lemma cloned_inv h v : cloned h v -> exists id, v = VRef id /\ class_of h v ∈ [Some CObject; Some CArray].
Proof.
  unfold cloned, copied, isArray, isPlainObject, plain. destruct v as [| | | | |id]; try done. simpl.
  destruct (h !! id) as [o|]; [|done]. simpl. intros H. exists id. split; [done|].
  destruct (o_class o); try done; set_solver.
Qed.

(** An object refers to another. *)
Definition refers (h : store) (id r : nat) : Prop := exists o name, h !! id = Some o /\ (name, VRef r) ∈ all_props o.
(** It refers to one that would be cloned. *)
Definition points (h : store) (id r : nat) : Prop := refers h id r /\ cloned h (VRef r).

Inductive reaches (h : store) : nat -> nat -> Prop :=
| reaches_refl id : reaches h id id
| reaches_step a b c : points h a b -> reaches h b c -> reaches h a c.

(** No object refers to one that does not exist. *)
Definition refs_ok (h : store) : Prop := forall id r, refers h id r -> r < length h.

Lemma copied_eq h h' v : (forall id, v = VRef id -> h' !! id = h !! id) -> copied h' v = copied h v.
Proof.
  intros E. unfold copied, isPlainObject, isArray. destruct v as [| | | | |id]; try done. simpl. by rewrite E.
Qed.

Lemma oset_elem (k : jsstr) (v : val) o x : x ∈ oset k v o -> x = (k, v) \/ x ∈ o.
Proof.
  induction o as [|[k' v'] o IH]; simpl; [set_solver|]. case_bool_decide; [set_solver|].
  rewrite !elem_of_cons. intros [->|Hx]; [by right; left|]. destruct (IH Hx); auto.
Qed.

Lemma oget_elem (k : jsstr) (l : list (jsstr * val)) r : default VUndef (oget k l) = VRef r -> (k, VRef r) ∈ l.
Proof.
  induction l as [|[n v] l IH]; [done|]. simpl. case_bool_decide; simpl.
  - intros ->. subst. left.
  - intros E. right. auto.
Qed.

Lemma oget_app (k : jsstr) (l l' : list (jsstr * val)) :
  oget k (l ++ l') = match oget k l with Some v => Some v | None => oget k l' end.
Proof. induction l as [|[n v] l IH]; [done|]. simpl. by case_bool_decide. Qed.

Lemma getProperty_refers h id name r : getProperty h (VRef id) name = VRef r -> refers h id r.
Proof.
  unfold getProperty. simpl. destruct (h !! id) as [o|] eqn:E; [|done]. intros H%oget_elem. by exists o, name.
Qed.

Lemma setProperty_lookup h id name v i : setProperty h id name v !! i =
  if decide (i = id) then (fun o => mkObj (o_class o) (o_ctor o) (o_inherited o) (oset name v (o_props o))) <$> h !! i else h !! i.
Proof.
  unfold setProperty. rewrite list_lookup_alter. repeat case_decide; subst; done.
Qed.

Lemma setProperty_class h id name v i : o_class <$> setProperty h id name v !! i = o_class <$> h !! i.
Proof. rewrite setProperty_lookup. case_decide; [|done]. by destruct (h !! i). Qed.

Lemma setProperty_length h id name v : length (setProperty h id name v) = length h.
Proof. apply length_alter. Qed.

(** Assigning a property adds no reference but the new value. *)
Lemma setProperty_refers h id name v i r : refers (setProperty h id name v) i r -> refers h i r \/ (i = id /\ v = VRef r).
Proof.
  intros (o & n & Ho & Hin). rewrite setProperty_lookup in Ho. case_decide; [|left; by exists o, n]. subst i.
  destruct (h !! id) as [o0|] eqn:E0; [|done]. injection Ho as <-. unfold all_props in Hin. cbn [o_props o_inherited] in Hin.
  apply elem_of_app in Hin as [[[= -> Hx]|Hin]%oset_elem|Hin]; [by right| |]; left; exists o0, n; (split; [done|]); apply elem_of_app; auto.
Qed.

Lemma alloc_refers h o i r : all_props o = [] -> refers (h ++ [o]) i r -> refers h i r.
Proof.
  intros Ho (o' & n & Hi & Hin). apply lookup_app_Some in Hi as [Hi|[_ Hi]]; [by exists o', n|].
  apply list_lookup_singleton_Some in Hi as [_ <-]. rewrite Ho in Hin. by apply elem_of_nil in Hin.
Qed.

(** ** Shallow copies *)

(** What a source leaves of the value of a key in [target]. *)
Definition overlay (target : nat) (old new : val) : val :=
  if bool_decide (new = VUndef \/ new = VRef target) then old else new.

Lemma getProperty_set h id name v k : id < length h ->
  getProperty (setProperty h id name v) (VRef id) k = if decide (k = name) then v else getProperty h (VRef id) k.
Proof.
  intros Hi. unfold getProperty. simpl. rewrite setProperty_lookup, decide_True by done.
  destruct (h !! id) as [o|] eqn:E; [|by apply lookup_ge_None in E; lia]. simpl. unfold all_props. rewrite !oget_app. simpl.
  case_decide; [subst; by rewrite oget_oset_eq|by rewrite oget_oset_ne].
Qed.

Lemma getProperty_other h id name v w k : w <> VRef id ->
  getProperty (setProperty h id name v) w k = getProperty h w k.
Proof.
  intros Hw. unfold getProperty, props_of. destruct w as [| | | | |i]; try done.
  rewrite setProperty_lookup, decide_False by congruence. done.
Qed.

Lemma props_other h id name v w : w <> VRef id -> props_of (setProperty h id name v) w = props_of h w.
Proof.
  intros Hw. unfold props_of. destruct w as [| | | | |i]; try done.
  rewrite setProperty_lookup, decide_False by congruence. done.
Qed.

(** The properties [names] of a source, copied one by one. *)
Lemma shallow_each rec target options names : options <> VRef target -> forall h, target < length h ->
  exists h', each_property (extend_property rec false target options) names h = Some h' /\ length h' = length h /\
    (forall id, id <> target -> h' !! id = h !! id) /\ (o_class <$> h' !! target = o_class <$> h !! target) /\
    forall k, getProperty h' (VRef target) k =
      if decide (k ∈ names) then overlay target (getProperty h (VRef target) k) (getProperty h options k)
      else getProperty h (VRef target) k.
Proof.
  intros Ho. induction names as [|name names IH]; intros h Ht; [by exists h|]. cbn [each_property].
  set (copy := getProperty h options name).
  assert (Hstep : exists h1, extend_property rec false target options name h = Some h1 /\
    length h1 = length h /\ (forall id, id <> target -> h1 !! id = h !! id) /\ (o_class <$> h1 !! target = o_class <$> h !! target) /\
    (forall k, getProperty h1 options k = getProperty h options k) /\
    forall k, getProperty h1 (VRef target) k =
      if decide (k = name) then overlay target (getProperty h (VRef target) k) copy else getProperty h (VRef target) k).
  { unfold extend_property, overlay. cbn [andb]. fold copy. case_bool_decide as H1; [|case_bool_decide as H2]; eexists; (split; [reflexivity|]).
    - rewrite bool_decide_true by tauto. split_and!; try done. intros k. by case_decide.
    - rewrite bool_decide_true by tauto. split_and!; try done. intros k. by case_decide.
    - rewrite bool_decide_false by tauto. split_and!.
      + apply setProperty_length.
      + intros id Hid. by rewrite setProperty_lookup, decide_False.
      + apply setProperty_class.
      + intros k. by apply getProperty_other.
      + intros k. rewrite getProperty_set by done. done. }
  destruct Hstep as (h1 & E1 & L1 & F1 & K1 & O1 & G1). rewrite E1. cbn [mbind option_bind].
  destruct (IH h1 ltac:(lia)) as (h2 & E2 & L2 & F2 & K2 & G2). exists h2. split_and!; [done|lia| | |].
  - intros id Hid. by rewrite F2, F1.
  - by rewrite K2.
  - intros k. rewrite G2, !G1, O1. destruct (decide (k = name)) as [->|Hk].
    + rewrite (decide_True (P := name ∈ name :: names)) by set_solver. case_decide; [|done].
      unfold overlay, copy. by case_bool_decide.
    + destruct (decide (k ∈ names)); [rewrite decide_True by set_solver|rewrite decide_False by set_solver]; done.
Qed.

Lemma oget_none_names (k : jsstr) (o : list (jsstr * val)) : k ∉ map fst o -> oget k o = None.
Proof.
  induction o as [|[k' v] o IH]; [done|]. simpl. rewrite not_elem_of_cons. intros [H1 H2].
  rewrite bool_decide_false by congruence. auto.
Qed.

Lemma getProperty_unkeyed h v k : k ∉ keys_of h v -> getProperty h v k = VUndef.
Proof.
  intros Hk. unfold getProperty. rewrite oget_none_names; [done|]. intros Hin. apply Hk. clear Hk.
  destruct v as [| | | |s|id]; try by apply elem_of_nil in Hin.
  - simpl in *. rewrite fmap_imap in Hin. exact Hin.
  - simpl in *. destruct (h !! id) as [o|]; [|done]. unfold all_props in Hin. rewrite map_app in Hin. unfold keys.
    apply elem_of_app. destruct (hasOwn o k) eqn:Eo; [left; unfold hasOwn in Eo; by apply bool_decide_eq_true in Eo|].
    apply elem_of_app in Hin as [Hin|Hin]; [by left|]. right. by apply list_elem_of_filter.
Qed.

Lemma shallow_one f target options h : options <> VRef target -> target < length h ->
  exists h', extend_one (S f) false target options h = Some h' /\ length h' = length h /\
    (forall id, id <> target -> h' !! id = h !! id) /\
    forall k, getProperty h' (VRef target) k = overlay target (getProperty h (VRef target) k) (getProperty h options k).
Proof.
  intros Ho Ht. destruct (shallow_each (extend_one f false) target options (keys_of h options) Ho h Ht)
    as (h' & E & L & F & _ & G).
  exists h'. split_and!; [done|done|done|]. intros k. rewrite G. case_decide as Hk; [done|].
  rewrite (getProperty_unkeyed h options k Hk). unfold overlay. by rewrite bool_decide_true by auto.
Qed.

Lemma shallow_all f target sources : VRef target ∉ sources -> forall h, target < length h ->
  exists h', extend_all (S f) false target sources h = Some h' /\ length h' = length h /\
    (forall id, id <> target -> h' !! id = h !! id) /\
    forall k, getProperty h' (VRef target) k =
      fold_left (fun v o => overlay target v (getProperty h o k)) sources (getProperty h (VRef target) k).
Proof.
  induction sources as [|o sources IH]; intros Hs h Ht; [by exists h|].
  apply not_elem_of_cons in Hs as [Ho Hs]. cbn [extend_all].
  destruct (shallow_one f target o h ltac:(congruence) Ht) as (h1 & -> & L1 & F1 & G1). cbn [mbind option_bind].
  destruct (IH Hs h1 ltac:(lia)) as (h2 & -> & L2 & F2 & G2). exists h2. split_and!; [done|lia| |].
  - intros id Hid. by rewrite F2, F1.
  - intros k. rewrite G2, G1. cbn [fold_left]. clear -Hs F1.
    generalize (overlay target (getProperty h (VRef target) k) (getProperty h o k)).
    induction sources as [|s sources IH]; intros v; [done|]. apply not_elem_of_cons in Hs as [Hs1 Hs2].
    cbn [fold_left]. rewrite IH by done. f_equal. f_equal. unfold getProperty, props_of.
    destruct s as [| | | | |i]; try done. rewrite F1; [done|congruence].
Qed.

(** ** Deep copies *)

Section Deep.
(** The objects of the sources. *)
Context (O : list nat).

(** The sources hold together: what they refer to is one of their objects, or neither an
    array nor an object of the class Object. *)
Definition within (h : store) : Prop :=
  forall id r, id ∈ O -> refers h id r -> class_of h (VRef r) ∈ [Some CObject; Some CArray] -> r ∈ O.
(** Nothing outside refers to their plain objects and arrays. *)
Definition apart (h : store) : Prop := forall id r, (id ∉ O) -> points h id r -> (r ∉ O).

Record inv (h0 h : store) : Prop := mkInv {
  inv_same : forall id, id ∈ O -> h !! id = h0 !! id;
  inv_class : forall id, id < length h0 -> o_class <$> h !! id = o_class <$> h0 !! id;
  inv_length : length h0 <= length h;
  inv_refs : refs_ok h;
  inv_apart : apart h
}.

Lemma inv_trans h0 h1 h2 : inv h0 h1 -> inv h1 h2 -> inv h0 h2.
Proof.
  intros I1 I2. constructor.
  - intros id Hid. by rewrite (inv_same _ _ I2), (inv_same _ _ I1).
  - intros id Hid. pose proof (inv_length _ _ I1). rewrite (inv_class _ _ I2) by lia. by apply (inv_class _ _ I1).
  - pose proof (inv_length _ _ I1). pose proof (inv_length _ _ I2). lia.
  - apply (inv_refs _ _ I2).
  - apply (inv_apart _ _ I2).
Qed.

Lemma inv_refl h : refs_ok h -> apart h -> inv h h.
Proof. intros. by constructor. Qed.

(** Assigning to an object outside what is outside or not cloned. *)
Lemma inv_set h id name v : refs_ok h -> apart h -> (id ∉ O) -> id < length h ->
  (forall r, v = VRef r -> r < length h /\ (cloned h v -> (r ∉ O))) -> inv h (setProperty h id name v).
Proof.
  intros Hr Ha Hid Hl Hv. constructor.
  - intros i Hi. rewrite setProperty_lookup, decide_False by (intros ->; done). done.
  - intros i _. apply setProperty_class.
  - by rewrite setProperty_length.
  - intros i r [H|[-> E]]%setProperty_refers; rewrite setProperty_length; [by eapply Hr|by apply Hv].
  - intros i r Hi [Hre Hcl] Hin.
    assert (Hcl' : cloned h (VRef r)).
    { unfold cloned in *. rewrite (copied_eq h) in Hcl; [done|]. intros j [= <-].
      rewrite setProperty_lookup, decide_False; [done|by intros ->]. }
    destruct (setProperty_refers _ _ _ _ _ _ Hre) as [H|[-> E]]; [by apply (Ha i r Hi)|].
    rewrite <- E in Hcl'. by apply (proj2 (Hv r E) Hcl').
Qed.

Lemma inv_alloc h o : all_props o = [] -> refs_ok h -> apart h -> (forall id, id ∈ O -> id < length h) -> inv h (h ++ [o]).
Proof.
  intros Ho Hr Ha HO. constructor.
  - intros i Hi. apply lookup_app_l. auto.
  - intros i Hi. by rewrite lookup_app_l.
  - rewrite length_app. simpl. lia.
  - intros i r H%alloc_refers; [|done]. rewrite length_app. apply Hr in H. lia.
  - intros i r Hi [H%alloc_refers Hcl]; [|done]. apply (Ha i r Hi). split; [done|].
    unfold cloned in *. rewrite (copied_eq h) in Hcl; [done|]. intros j [= <-]. rewrite lookup_app_l; [done|by eapply Hr].
Qed.

(** The object merged into is outside the sources. *)
Lemma clone_for_inv h arr target name :
  refs_ok h -> apart h -> (forall id, id ∈ O -> id < length h) -> (target ∉ O) ->
  let '(h', clone) := clone_for h arr (getProperty h (VRef target) name) in
  inv h h' /\ (clone ∉ O) /\ clone < length h'.
Proof.
  intros Hr Ha HO Ht. unfold clone_for.
  assert (Hnew : forall o, all_props o = [] -> inv h (h ++ [o]) /\ (length h ∉ O) /\ length h < length (h ++ [o])).
  { intros o Eo. split_and!; [by apply inv_alloc|intros Hin; apply HO in Hin; lia|rewrite length_app; simpl; lia]. }
  destruct (getProperty h (VRef target) name) as [| | | | |id] eqn:E; try by apply Hnew; destruct arr.
  destruct (if arr then isArray h (VRef id) else isPlainObject h (VRef id)) eqn:Ek; [|by apply Hnew; destruct arr].
  apply getProperty_refers in E. split_and!; [by apply inv_refl| |by eapply Hr].
  apply (Ha target id Ht). split; [done|]. unfold cloned, copied. destruct arr; rewrite Ek; [|done]. by destruct (isPlainObject h (VRef id)).
Qed.

(** The sources have no cycle. *)
Context (h0 : store) (rank : nat -> nat).
Hypothesis Hrefs : refs_ok h0.
Hypothesis HO : forall id, id ∈ O -> id < length h0.
Hypothesis Hwithin : within h0.
Hypothesis Hrank : forall id r, id ∈ O -> points h0 id r -> rank r < rank id.

Lemma source_property h q name : inv h0 h -> q ∈ O ->
  let copy := getProperty h (VRef q) name in
  (forall r, copy = VRef r -> r < length h0) /\
  (cloned h copy -> exists r, copy = VRef r /\ r ∈ O /\ rank r < rank q).
Proof.
  intros I Hq copy. assert (Hin : forall r, copy = VRef r -> refers h0 q r).
  { intros r (o & n & Ho & Hp)%getProperty_refers. rewrite (inv_same _ _ I) in Ho by done. by exists o, n. }
  assert (Hlt : forall r, copy = VRef r -> r < length h0) by (intros r E; by eapply Hrefs, Hin).
  split; [exact Hlt|]. intros Hcl. destruct (cloned_inv _ _ Hcl) as (r & E & Hc). exists r. split; [done|].
  assert (Hr : r ∈ O).
  { apply (Hwithin q r Hq (Hin r E)). rewrite E in Hc. simpl in *. by rewrite (inv_class _ _ I) in Hc by auto. }
  split; [done|]. apply Hrank; [done|]. split; [auto|]. unfold cloned in *. rewrite E in Hcl.
  rewrite (copied_eq h0) in Hcl; [done|]. intros j [= <-]. by apply (inv_same _ _ I).
Qed.

Definition merges (rec : nat -> val -> store -> option store) (bound : nat) : Prop :=
  forall target q h, inv h0 h -> (target ∉ O) -> target < length h -> q ∈ O -> rank q < bound ->
    exists h', rec target (VRef q) h = Some h' /\ inv h h'.

Lemma property_merged rec bound target q name h : merges rec bound -> rank q <= bound -> inv h0 h ->
  (target ∉ O) -> target < length h -> q ∈ O ->
  exists h', extend_property rec true target (VRef q) name h = Some h' /\ inv h h'.
Proof.
  intros Hrec Hb I Ht Hlt Hq. unfold extend_property. destruct (source_property h q name I Hq) as [Hlt0 Hk].
  set (copy := getProperty h (VRef q) name) in *. pose proof (inv_refl h (inv_refs _ _ I) (inv_apart _ _ I)) as I0.
  case_bool_decide; [by exists h|]. cbn [andb].
  destruct (if truthy copy then copied h copy else None) as [k|] eqn:Ek.
  - destruct (truthy copy); [|done]. destruct Hk as (r & Er & Hr & Hrk); [unfold cloned; congruence|].
    pose proof (clone_for_inv h k target name (inv_refs _ _ I) (inv_apart _ _ I)) as Hc.
    destruct (clone_for h k (getProperty h (VRef target) name)) as [h1 clone].
    destruct Hc as (I1 & Hco & Hcl); try done.
    { intros id Hid%HO. pose proof (inv_length _ _ I). lia. }
    rewrite Er. destruct (Hrec clone r h1 (inv_trans _ _ _ I I1) Hco Hcl Hr ltac:(lia)) as (h2 & -> & I2).
    cbn [mbind option_bind]. eexists. split; [reflexivity|]. eapply inv_trans; [exact I1|]. eapply inv_trans; [exact I2|].
    pose proof (inv_length _ _ I1). pose proof (inv_length _ _ I2).
    apply inv_set; [apply (inv_refs _ _ I2)|apply (inv_apart _ _ I2)|done|lia|].
    intros r' [= <-]. split; [lia|done].
  - eexists. split; [reflexivity|]. case_bool_decide; [done|].
    apply inv_set; [apply (inv_refs _ _ I)|apply (inv_apart _ _ I)|done|done|].
    intros r Er. pose proof (inv_length _ _ I). split; [specialize (Hlt0 r Er); lia|].
    intros Hcl. rewrite Er in Ek, Hcl. cbn [truthy] in Ek. destruct (Hcl Ek).
Qed.

Lemma each_merged rec bound target q names : merges rec bound -> rank q <= bound -> (target ∉ O) -> q ∈ O ->
  forall h, inv h0 h -> target < length h ->
  exists h', each_property (extend_property rec true target (VRef q)) names h = Some h' /\ inv h h'.
Proof.
  intros Hrec Hb Ht Hq. induction names as [|name names IH]; intros h I Hlt.
  - exists h. split; [done|]. apply inv_refl; [apply (inv_refs _ _ I)|apply (inv_apart _ _ I)].
  - cbn [each_property]. destruct (property_merged rec bound target q name h) as (h1 & -> & I1); try done.
    cbn [mbind option_bind]. pose proof (inv_length _ _ I1).
    destruct (IH h1 (inv_trans _ _ _ I I1) ltac:(lia)) as (h2 & -> & I2). exists h2. split; [done|]. by eapply inv_trans.
Qed.

Lemma extend_one_merges fuel : merges (extend_one fuel true) fuel.
Proof.
  induction fuel as [|f IH]; intros target q h I Ht Hlt Hq Hr; [lia|]. cbn [extend_one].
  apply (each_merged _ f); try done. lia.
Qed.

Lemma extend_all_merges fuel target qs : (target ∉ O) -> Forall (fun q => q ∈ O /\ rank q < fuel) qs ->
  forall h, inv h0 h -> target < length h ->
  exists h', extend_all fuel true target (map VRef qs) h = Some h' /\ inv h h'.
Proof.
  intros Ht. induction 1 as [|q qs [Hq Hr] Hqs IH]; intros h I Hlt.
  - exists h. split; [done|]. apply inv_refl; [apply (inv_refs _ _ I)|apply (inv_apart _ _ I)].
  - cbn [map extend_all]. destruct (extend_one_merges fuel target q h) as (h1 & -> & I1); try done.
    cbn [mbind option_bind]. pose proof (inv_length _ _ I1).
    destruct (IH h1 (inv_trans _ _ _ I I1) ltac:(lia)) as (h2 & -> & I2). exists h2. split; [done|]. by eapply inv_trans.
Qed.

Lemma apart_reaches h a b : apart h -> (a ∉ O) -> reaches h a b -> (b ∉ O).
Proof. intros Ha Hn. induction 1 as [|x y z Hp Hr IH]; [done|]. apply IH. by eapply Ha. Qed.
End Deep.

(** ** Properties *)


(** A shallow copy: each key of the target has the value of the last source that
    defines it, or its old value; the other objects are unchanged. *)
Theorem extend_shallow_spec (h : store) (target fuel : nat) (sources : list val) :
  (VRef target ∉ sources) -> target < length h ->
  exists h', extend (S fuel) (VRef target :: sources) h = Some (VRef target, h') /\
    (forall id, id <> target -> h' !! id = h !! id) /\
    forall k, getProperty h' (VRef target) k =
      fold_left (fun v o => overlay target v (getProperty h o k)) sources (getProperty h (VRef target) k).
Proof.
  intros Hs Ht. destruct (shallow_all fuel target sources Hs h Ht) as (h' & E & _ & F & G).
  exists h'. unfold extend. rewrite E. done.
Qed.

(** ** Examples *)

(** The references of a store. *)
Definition all_refs (h : store) : list (nat * nat) :=
  concat (imap (fun i o => omap (fun p => match snd p with VRef r => Some (i, r) | _ => None end) (all_props o)) h).

Lemma all_refs_in h id r : refers h id r -> (id, r) ∈ all_refs h.
Proof.
  intros (o & name & Ho & Hin). unfold all_refs. apply list_elem_of_In, in_concat.
  exists (omap (fun p => match snd p with VRef r => Some (id, r) | _ => None end) (all_props o)). split.
  - apply list_elem_of_In, elem_of_lookup_imap. eauto.
  - apply list_elem_of_In, list_elem_of_omap. by exists (name, VRef r).
Qed.

Definition plain_with (props : list (jsstr * val)) : obj := mkObj CObject (Some true) [] props.

(** A target with an object under x; a source with objects under x and y and an instance
    of a class, which inherits a property, under z. *)
Definition sample : store :=
  [plain_with [(js "x", VRef 1)]; plain_with [(js "a", VNum 1)];
   plain_with [(js "x", VRef 3); (js "y", VRef 4); (js "z", VRef 5)]; plain_with [(js "b", VNum 2)];
   mkObj CArray (Some false) [] [(js "0", VBool true)]; mkObj CObject (Some false) [(js "m", VNull)] []].
Definition sample_rank (id : nat) : nat := if decide (id = 2) then 1 else 0.


Example sample_extended : extend 2 [VBool true; VRef 0; VRef 2] sample
  = Some (VRef 0, [plain_with [(js "x", VRef 1); (js "y", VRef 6); (js "z", VRef 5)]; plain_with [(js "a", VNum 1); (js "b", VNum 2)];
                   plain_with [(js "x", VRef 3); (js "y", VRef 4); (js "z", VRef 5)]; plain_with [(js "b", VNum 2)];
                   mkObj CArray (Some false) [] [(js "0", VBool true)]; mkObj CObject (Some false) [(js "m", VNull)] [];
                   mkObj CArray (Some false) [] [(js "0", VBool true)]]).
Proof. vm_compute. reflexivity. Qed.

(** The options of the timer: the defaults under those of the user. *)
Definition timer_store (user : list (jsstr * val)) : store :=
  [new_object; plain_with [(js "enabled", VBool true); (js "resetable", VBool true); (js "startOnChange", VBool true);
    (js "formatter", VRef 3)]; plain_with user; mkObj CFunction (Some false) [] []].

Lemma extend_shallow_spec_witness : exists h',
  extend 1 [VRef 0; VRef 1; VRef 2] (timer_store [(js "enabled", VBool false); (js "formatter", VUndef)])
    = Some (VRef 0, h') /\
  (forall id, id <> 0 -> h' !! id = timer_store [(js "enabled", VBool false); (js "formatter", VUndef)] !! id) /\
  forall k, getProperty h' (VRef 0) k =
    fold_left (fun v o => overlay 0 v (getProperty (timer_store [(js "enabled", VBool false); (js "formatter", VUndef)]) o k))
      [VRef 1; VRef 2] (getProperty (timer_store [(js "enabled", VBool false); (js "formatter", VUndef)]) (VRef 0) k).
Proof.
  apply (extend_shallow_spec (timer_store [(js "enabled", VBool false); (js "formatter", VUndef)]) 0 0 [VRef 1; VRef 2]).
  - rewrite !elem_of_cons, elem_of_nil. intros H; destruct_or! H; done.
  - simpl. lia.
Defined.

Example timer_options_merged :
  match extend 1 [VRef 0; VRef 1; VRef 2] (timer_store [(js "enabled", VBool false); (js "formatter", VUndef)]) with
  | Some (v, h) => map (getProperty h v) [js "enabled"; js "resetable"; js "formatter"]
  | None => []
  end = [VBool false; VBool true; VRef 3].
Proof. vm_compute. reflexivity. Qed.

(** A deep copy of a source that contains itself does not end. *)
Definition cyclic : store := [new_object; plain_with [(js "self", VRef 1)]].
Lemma extend_cyclic_diverges fuel : extend fuel [VBool true; VRef 0; VRef 1] cyclic = None.
Proof.
  assert (H : forall fuel target h, h !! 1 = cyclic !! 1 -> target <> 1 -> target < length h ->
    oget (js "self") (props_of h (VRef target)) = None -> extend_one fuel true target (VRef 1) h = None).
  { clear. induction fuel as [|f IH]; intros target h H1 Ht Hl Hs; [done|].
    assert (Ec : getProperty h (VRef 1) (js "self") = VRef 1) by (unfold getProperty; cbn [props_of]; by rewrite H1).
    assert (Es : getProperty h (VRef target) (js "self") = VUndef) by (unfold getProperty; by rewrite Hs).
    assert (Ek : copied h (VRef 1) = Some false) by (unfold copied, isPlainObject; by rewrite H1).
    cbn [extend_one]. replace (keys_of h (VRef 1)) with [js "self"] by (cbn [keys_of]; by rewrite H1).
    cbn [each_property]. unfold extend_property. rewrite Ec, Es.
    assert (Hne : VRef 1 <> VRef target) by congruence.
    rewrite (bool_decide_false (VRef 1 = VRef target) Hne). cbn [truthy andb]. rewrite Ek. cbn [clone_for].
    rewrite IH; [done|..].
    - rewrite lookup_app_l; [done|]. apply lookup_lt_Some with (plain_with [(js "self", VRef 1)]). by rewrite H1.
    - assert (1 < length h); [|lia]. apply lookup_lt_Some with (plain_with [(js "self", VRef 1)]). by rewrite H1.
    - rewrite length_app. simpl. lia.
    - cbn [props_of]. by rewrite list_lookup_middle. }
  unfold extend. cbn [truthy extend_all]. rewrite H; try done. simpl. lia.
Qed.
