(* ===== verification/MarkedGrammar.v ===== *)
(** * The grammars of marked (module 3, lines 434 to 530 and 867 to 935)

    The rules are assembled as text when the library is loaded: named parts are
    replaced by the sources of other rules.  The assembly is executed here, and the
    resulting sources are parsed as regular expressions. *)

From S2P Require Import Prelude JsString JsRegExp.

(** ** [replace(regex, opt)] *)

(** [s.replace(name, val)] for a string [name]: the first occurrence, with the
    patterns of the replacement text expanded. *)
Definition replace_first (name val s : jsstr) : jsstr :=
  match indexOf s name with
  | Some i => take i s ++ expand_dollar s val (mkRes i [Some name]) ++ drop (i + length name) s
  | None => s
  end.

Definition caret : regexp := Eval vm_compute in re "(^|[^\[])\^" "g".

(** One step of the chain [(name, val)], for a string or a global pattern. *)
Definition sub (name val regex : jsstr) : jsstr := replace_first name (replace caret (js "$1") val) regex.
Definition sub_all (name : regexp) (val regex : jsstr) : jsstr :=
  replace name (replace caret (js "$1") val) regex.

Definition re_bull : regexp := Eval vm_compute in re "bull" "g".
Definition re_tag : regexp := Eval vm_compute in re "tag" "g".

(** ** Block rules *)

Record block_rules := mkBlock {
  newline : regexp;
  code : regexp;
  fences : option regexp;
  hr : regexp;
  heading : regexp;
  nptable : option regexp;
  lheading : regexp;
  blockquote : regexp;
  list_rule : regexp;
  html : regexp;
  def : regexp;
  table : option regexp;
  paragraph : regexp;
  text : regexp;
  item_rule : regexp
}.

Definition src_hr : jsstr := js "^( *[-*_]){3,} *(?:\n+|$)".
Definition src_heading : jsstr := js "^ *(#{1,6}) *([^\n]+?) *#* *(?:\n+|$)".
Definition src_lheading : jsstr := js "^([^\n]+)\n *(=|-){2,} *(?:\n+|$)".
Definition src_blockquote : jsstr := js "^( *>[^\n]+(\n(?!def)[^\n]+)*\n*)+".
Definition src_def : jsstr :=
  js "^ *\[([^\]]+)\]: *<?([^\s>]+)>?(?: +[＂(]([^\n]+)[＂)])? *(?:\n+|$)".
Definition src_bullet : jsstr := js "(?:[*+-]|\d+\.)".

Definition src_item : jsstr :=
  sub_all re_bull src_bullet (js "^( *)(bull) [^\n]*(?:\n(?!\1bull )[^\n]*)*").

Definition src_list : jsstr :=
  sub (js "def") (js "\n+(?=" ++ src_def ++ js ")")
  (sub (js "hr") (js "\n+(?=\1?(?:[-*_] *){3,}(?:\n+|$))")
  (sub_all re_bull src_bullet
    (js "^( *)(bull) [\s\S]+?(?:hr|def|\n{2,}(?! )(?!\1bull )\n*|\s*$)"))).

Definition _tag : jsstr :=
  js "(?!(?:" ++ js "a|em|strong|small|s|cite|q|dfn|abbr|data|time|code"
  ++ js "|var|samp|kbd|sub|sup|i|b|u|mark|ruby|rt|rp|bdi|bdo"
  ++ js "|span|br|wbr|ins|del|img)\b)\w+(?!:/|[^\w\s@]*@)\b".

Definition src_html : jsstr :=
  sub_all re_tag _tag
  (sub (js "closing") (js "<tag(?:＂[^＂]*＂|'[^']*'|[^'＂>])*?>")
  (sub (js "closed") (js "<(tag)[\s\S]+?<\/\1>")
  (sub (js "comment") (js "<!--[\s\S]*?-->")
    (js "^ *(?:comment *(?:\n|\s*$)|closed *(?:\n{2,}|\s*$)|closing *(?:\n{2,}|\s*$))")))).

Definition src_paragraph : jsstr :=
  sub (js "def") src_def
  (sub (js "tag") (js "<" ++ _tag)
  (sub (js "blockquote") src_blockquote
  (sub (js "lheading") src_lheading
  (sub (js "heading") src_heading
  (sub (js "hr") src_hr
    (js "^((?:[^\n]+\n?(?!hr|heading|lheading|blockquote|tag|def))+)\n*")))))).

Definition src_fences : jsstr := js "^ *(`{3,}|~{3,})[ \.]*(\S+)? *\n([\s\S]*?)\s*\1 *(?:\n+|$)".

Definition src_gfm_paragraph : jsstr :=
  sub (js "(?!") (js "(?!" ++ replace_first (js "\1") (js "\2") src_fences ++ js "|"
                 ++ replace_first (js "\1") (js "\3") src_list ++ js "|") src_paragraph.

Abbreviation rx s f := (the (newRegExp s (js f%string))).

Definition bullet : regexp := Eval vm_compute in rx src_bullet "".

(** [block.normal], [block.gfm] and [block.tables] *)
Definition normal : block_rules := Eval vm_compute in
  mkBlock (re "^\n+" "") (re "^( {4}[^\n]+\n*)+" "") None (rx src_hr "") (rx src_heading "") None
    (rx src_lheading "") (rx src_blockquote "") (rx src_list "") (rx src_html "") (rx src_def "")
    None (rx src_paragraph "") (re "^[^\n]+" "") (rx src_item "gm").

Definition gfm : block_rules := Eval vm_compute in
  mkBlock (newline normal) (code normal) (Some (rx src_fences "")) (hr normal)
    (re "^ *(#{1,6}) +([^\n]+?) *#* *(?:\n+|$)" "") None (lheading normal) (blockquote normal)
    (list_rule normal) (html normal) (def normal) None (rx src_gfm_paragraph "") (text normal)
    (item_rule normal).

Definition tables : block_rules := Eval vm_compute in
  mkBlock (newline gfm) (code gfm) (fences gfm) (hr gfm) (heading gfm)
    (Some (re "^ *(\S.*\|.*)\n *([-:]+ *\|[-| :]*)\n((?:.*\|.*(?:\n|$))*)\n*" ""))
    (lheading gfm) (blockquote gfm) (list_rule gfm) (html gfm) (def gfm)
    (Some (re "^ *\|(.+)\n *\|( *[-:]+[-| :]*)\n((?: *\|.*(?:\n|$))*)\n*" ""))
    (paragraph gfm) (text gfm) (item_rule gfm).

(** ** Inline rules *)

Record inline_rules := mkInline {
  i_escape : regexp;
  i_autolink : regexp;
  i_url : option regexp;
  i_tag : regexp;
  i_link : regexp;
  i_reflink : regexp;
  i_nolink : regexp;
  i_strong : regexp;
  i_em : regexp;
  i_code : regexp;
  i_br : regexp;
  i_del : option regexp;
  i_text : regexp
}.

Definition src_inside : jsstr := js "(?:\[[^\]]*\]|[^\[\]]|\](?=[^\[]*\]))*".
Definition src_href : jsstr := js "\s*<?([\s\S]*?)>?(?:\s+['＂]([\s\S]*?)['＂])?\s*".
Definition src_escape : jsstr := js "^\\([\\`*{}\[\]()#+\-.!_>])".
Definition src_br : jsstr := js "^ {2,}\n(?!\s*$)".
Definition src_text : jsstr := js "^[\s\S]+?(?=[\\<!\[_*`]| {2,}\n|$)".

Definition src_gfm_text : jsstr :=
  sub (js "|") (js "|https?://|") (sub (js "]|") (js "~]|") src_text).

Definition inline_normal : inline_rules := Eval vm_compute in
  mkInline (rx src_escape "") (re "^<([^ >]+(@|:\/)[^ >]+)>" "") None
    (re "^<!--[\s\S]*?-->|^<\/?\w+(?:＂[^＂]*＂|'[^']*'|[^'＂>])*?>" "")
    (rx (sub (js "href") src_href (sub (js "inside") src_inside (js "^!?\[(inside)\]\(href\)"))) "")
    (rx (sub (js "inside") src_inside (js "^!?\[(inside)\]\s*\[([^\]]*)\]")) "")
    (re "^!?\[((?:\[[^\]]*\]|[^\[\]])*)\]" "")
    (re "^__([\s\S]+?)__(?!_)|^\*\*([\s\S]+?)\*\*(?!\*)" "")
    (re "^\b_((?:[^_]|__)+?)_\b|^\*((?:\*\*|[\s\S])+?)\*(?!\*)" "")
    (re "^(`+)([\s\S]*?[^`])\1(?!`)" "")
    (rx src_br "") None (rx src_text "").

Definition inline_pedantic : inline_rules := Eval vm_compute in
  mkInline (i_escape inline_normal) (i_autolink inline_normal) None (i_tag inline_normal)
    (i_link inline_normal) (i_reflink inline_normal) (i_nolink inline_normal)
    (re "^__(?=\S)([\s\S]*?\S)__(?!_)|^\*\*(?=\S)([\s\S]*?\S)\*\*(?!\*)" "")
    (re "^_(?=\S)([\s\S]*?\S)_(?!_)|^\*(?=\S)([\s\S]*?\S)\*(?!\*)" "")
    (i_code inline_normal) (i_br inline_normal) None (i_text inline_normal).

Definition inline_gfm : inline_rules := Eval vm_compute in
  mkInline (rx (sub (js "])") (js "~|])") src_escape) "") (i_autolink inline_normal)
    (Some (re "^(https?:\/\/[^\s<]+[^<.,:;＂')\]\s])" "")) (i_tag inline_normal)
    (i_link inline_normal) (i_reflink inline_normal) (i_nolink inline_normal)
    (i_strong inline_normal) (i_em inline_normal) (i_code inline_normal) (i_br inline_normal)
    (Some (re "^~~(?=\S)([\s\S]*?\S)~~" "")) (rx src_gfm_text "").

Definition inline_breaks : inline_rules := Eval vm_compute in
  mkInline (i_escape inline_gfm) (i_autolink inline_gfm) (i_url inline_gfm) (i_tag inline_gfm)
    (i_link inline_gfm) (i_reflink inline_gfm) (i_nolink inline_gfm)
    (i_strong inline_gfm) (i_em inline_gfm) (i_code inline_gfm)
    (rx (sub (js "{2,}") (js "*") src_br) "") (i_del inline_gfm)
    (rx (sub (js "{2,}") (js "*") src_gfm_text) "").
