(* ===== verification/MarkedLexer.v ===== *)
(** * The block lexer of marked (module 3, Lexer)

    [token] is a loop over the rules, recursive for block quotes and list items.
    Reading a property of an undefined capture throws, as in JavaScript; the
    theorems show that this never happens, that the recursion terminates, and that
    the start and end tokens are balanced. *)

From S2P Require Import Prelude JsString JsRegExp RegExpFacts RegExpCounts SlideParser MarkedGrammar.

(** ** Options and tokens *)

(** The options that marked reads, with the standard renderer and no sanitizer function.
    [o_highlight code lang] is the highlighter, [None] its null or undefined result. *)
Record moptions := mkMOptions {
  o_gfm : bool;
  o_tables : bool;
  o_breaks : bool;
  o_pedantic : bool;
  o_sanitize : bool;
  o_mangle : bool;
  o_smartLists : bool;
  o_smartypants : bool;
  o_xhtml : bool;
  o_langPrefix : jsstr;
  o_headerPrefix : jsstr;
  o_baseUrl : option jsstr;
  o_highlight : option (jsstr -> option jsstr -> option jsstr)
}.

(** [marked.defaults], and what converter.js sets over them *)
Definition marked_defaults : moptions :=
  mkMOptions true true false false false true false false false (js "lang-") [] None None.
Definition remark_options : moptions :=
  mkMOptions true true false true false true true false false [] [] None None.

Inductive align := ARight | ACenter | ALeft | ANull.

Inductive mtoken :=
| TSpace
| TCode (lang : option jsstr) (text : jsstr) (escaped : bool)
| THeading (depth : nat) (text : jsstr)
| TTable (header : list jsstr) (aligns : list align) (cells : list (list jsstr))
| THr
| TBlockquoteStart
| TBlockquoteEnd
| TListStart (ordered : bool)
| TListEnd
| TListItemStart
| TLooseItemStart
| TListItemEnd
| THtml (pre : bool) (text : jsstr)
| TParagraph (text : jsstr)
| TText (text : jsstr).

(** The lexer's [this.tokens] with its property [links]. *)
Record lstate := mkL { tokens : list mtoken; links : gmap jsstr link }.

Definition push (t : mtoken) (st : lstate) : lstate := mkL (tokens st ++ [t]) (links st).

(** The rules the constructor chooses. *)
Definition rules_of (o : moptions) : block_rules :=
  if o_gfm o then if o_tables o then MarkedGrammar.tables else gfm else normal.

(** A property of a capture that may be undefined. *)
Definition need (w : option jsstr) : result jsstr :=
  match w with Some w => Ok w | None => Throw (TypeError (js "Cannot read property of undefined")) end.

Definition exec_opt (r : option regexp) (s : jsstr) : option mres :=
  match r with Some r => exec r s | None => None end.

(** [src.substring(cap[0].length)] *)
Definition rest_of (m : mres) (src : jsstr) : jsstr := drop (length (cap0 m)) src.

(** ** Patterns used by the lexer *)

Definition re_crlf : regexp := Eval vm_compute in re "\r\n|\r" "g".
Definition re_tab : regexp := Eval vm_compute in re "\t" "g".
Definition re_nbsp : regexp := Eval vm_compute in re "\u00a0" "g".
Definition re_nlsym : regexp := Eval vm_compute in re "\u2424" "g".
Definition re_blank_line : regexp := Eval vm_compute in re "^ +$" "gm".
Definition re_indent4 : regexp := Eval vm_compute in re "^ {4}" "gm".
Definition re_trailing_nl : regexp := Eval vm_compute in re "\n+$" "".
Definition re_last_nl : regexp := Eval vm_compute in re "\n$" "".
Definition re_header_trim : regexp := Eval vm_compute in re "^ *| *\| *$" "g".
Definition re_align_trim : regexp := Eval vm_compute in re "^ *|\| *$" "g".
Definition re_bar : regexp := Eval vm_compute in re " *\| *" "".
Definition re_right : regexp := Eval vm_compute in re "^ *-+: *$" "".
Definition re_center : regexp := Eval vm_compute in re "^ *:-+: *$" "".
Definition re_left : regexp := Eval vm_compute in re "^ *:-+ *$" "".
Definition re_quote : regexp := Eval vm_compute in re "^ *> ?" "gm".
Definition re_bullet_strip : regexp := Eval vm_compute in re "^ *([*+-]|\d+\.) +" "".
Definition re_outdent4 : regexp := Eval vm_compute in re "^ {1,4}" "gm".
Definition re_loose : regexp := Eval vm_compute in re "\n\n(?!\s*$)" "".
Definition re_last_bar : regexp := Eval vm_compute in re "(?: *\| *)?\n$" "".
Definition re_row_trim : regexp := Eval vm_compute in re "^ *\| *| *\| *$" "g".

(** ** Parts of [token] *)

Definition align_of (s : jsstr) : align :=
  if test re_right s then ARight
  else if test re_center s then ACenter
  else if test re_left s then ALeft
  else ANull.

Definition table_header (cap1 : jsstr) : list jsstr := split_re re_bar (replace re_header_trim [] cap1).
Definition table_align (cap2 : jsstr) : list align :=
  map align_of (split_re re_bar (replace re_align_trim [] cap2)).

(** A table without leading pipes. *)
Definition nptable_token (m : mres) : result mtoken :=
  let! c1 := need (cap m 1) in
  let! c2 := need (cap m 2) in
  let! c3 := need (cap m 3) in
  Ok (TTable (table_header c1) (table_align c2)
        (map (split_re re_bar) (split_on 10 (replace re_last_nl [] c3)))).

(** A table with leading pipes. *)
Definition table_token (m : mres) : result mtoken :=
  let! c1 := need (cap m 1) in
  let! c2 := need (cap m 2) in
  let! c3 := need (cap m 3) in
  Ok (TTable (table_header c1) (table_align c2)
        (map (fun row => split_re re_bar (replace re_row_trim [] row))
           (split_on 10 (replace re_last_bar [] c3)))).

Section Token.
Context (o : moptions).
Let rules := rules_of o.

(** [new RegExp('^ {1,' + space + '}', 'gm')] *)
Definition outdent_pattern (space : Z) : result regexp :=
  match newRegExp (js "^ {1," ++ decZ space ++ js "}") (js "gm") with
  | Some r => Ok r
  | None => Throw (Error (js "SyntaxError"))
  end.

(** The text of a list item: without its bullet, and outdented. *)
Definition item_text (item : jsstr) : result jsstr :=
  let stripped := replace re_bullet_strip [] item in
  match indexOf stripped (nl ++ js " ") with
  | Some _ =>
      if o_pedantic o then Ok (replace re_outdent4 [] stripped)
      else
        let! r := outdent_pattern (Z.of_nat (length item) - Z.of_nat (length stripped)) in
        Ok (replace r [] stripped)
  | None => Ok stripped
  end.

(** With smart lists, an item with another kind of bullet starts a new list: the
    remaining items are put back in front of the source. *)
Definition backpedal (bull : jsstr) (rest : list jsstr) (src : jsstr) : result (option jsstr) :=
  match rest with
  | [] => Ok None
  | next :: _ =>
      if o_smartLists o then
        match exec bullet next with
        | None => Throw (TypeError (js "Cannot read property '0' of null"))
        | Some m =>
            let b := cap0 m in
            if negb (bool_decide (bull = b)) && negb ((1 <? length bull)%nat && (1 <? length b)%nat)
            then Ok (Some (join nl rest ++ src)) else Ok None
        end
      else Ok None
  end.

(** The loop over the items of a list: what is left to lex, and the state. *)
Fixpoint items_loop (self : jsstr -> lstate -> result lstate) (bull : jsstr) (items : list jsstr)
    (next : bool) (src : jsstr) (st : lstate) : result (jsstr * lstate) :=
  match items with
  | [] => Ok (src, st)
  | item0 :: rest =>
      let! item := item_text item0 in
      let! back := backpedal bull rest src in
      let is_last := match back, rest with None, _ :: _ => false | _, _ => true end in
      let loose := next || test re_loose item in
      let ends_nl := bool_decide (charAt item (length item - 1) = nl) in
      let next' := if is_last then next else ends_nl in
      let loose := loose || (if is_last then false else next') in
      let! st := self item (push (if loose then TLooseItemStart else TListItemStart) st) in
      let st := push TListItemEnd st in
      match back with
      | Some src' => Ok (src', st)
      | None => items_loop self bull rest next' src st
      end
  end.

(** The rules after lists in a round of the loop of [token]: HTML, link definitions,
    tables, paragraphs and text. *)
Definition tail_rules (top bq : bool) (src : jsstr) (st : lstate) : result (jsstr * lstate) :=
  match exec (html rules) src with
  | Some m =>
      let pre := match cap m 1 with
                 | Some t => bool_decide (t = js "pre") || bool_decide (t = js "script")
                             || bool_decide (t = js "style")
                 | None => false
                 end in
      Ok (rest_of m src, push (if o_sanitize o then TParagraph (cap0 m) else THtml pre (cap0 m)) st)
  | None =>
  match (if negb bq && top then exec (def rules) src else None) with
  | Some m =>
      let! c1 := need (cap m 1) in
      let! c2 := need (cap m 2) in
      Ok (rest_of m src, mkL (tokens st) (<[toLowerCase c1 := mkLink (Some c2) (cap m 3)]> (links st)))
  | None =>
  match (if top then exec_opt (table rules) src else None) with
  | Some m => let! t := table_token m in Ok (rest_of m src, push t st)
  | None =>
  match (if top then exec (paragraph rules) src else None) with
  | Some m =>
      let! c1 := need (cap m 1) in
      Ok (rest_of m src,
          push (TParagraph (if bool_decide (charAt c1 (length c1 - 1) = nl) then slice_0_m1 c1 else c1)) st)
  | None =>
  match exec (text rules) src with
  | Some m => Ok (rest_of m src, push (TText (cap0 m)) st)
  | None =>
      match src with
      | [] => Ok ([], st)
      | c :: _ => Throw (Error (js "Infinite loop on byte: " ++ dec c))
      end
  end end end end end.

(** The texts of headings are captures that every match has ([block_ok]).

    One round of the loop of [token]: the source that is left and the new state.
    [self item top bq] is the recursive call. *)
Definition iteration (self : jsstr -> bool -> bool -> lstate -> result lstate) (top bq : bool)
    (src : jsstr) (st : lstate) : result (jsstr * lstate) :=
  let '(src, st) :=
    match exec (newline rules) src with
    | Some m => (rest_of m src, if (1 <? length (cap0 m))%nat then push TSpace st else st)
    | None => (src, st)
    end in
  match exec (code rules) src with
  | Some m =>
      let c := replace re_indent4 [] (cap0 m) in
      Ok (rest_of m src, push (TCode None (if o_pedantic o then c else replace re_trailing_nl [] c) false) st)
  | None =>
  match exec_opt (fences rules) src with
  | Some m => Ok (rest_of m src, push (TCode (cap m 2) (default [] (cap m 3)) false) st)
  | None =>
  match exec (heading rules) src with
  | Some m =>
      let! c1 := need (cap m 1) in
      Ok (rest_of m src, push (THeading (length c1) (default [] (cap m 2))) st)
  | None =>
  match (if top then exec_opt (nptable rules) src else None) with
  | Some m => let! t := nptable_token m in Ok (rest_of m src, push t st)
  | None =>
  match exec (lheading rules) src with
  | Some m =>
      Ok (rest_of m src, push (THeading (if bool_decide (cap m 2 = Some (js "=")) then 1 else 2)
                                 (default [] (cap m 1))) st)
  | None =>
  match exec (hr rules) src with
  | Some m => Ok (rest_of m src, push THr st)
  | None =>
  match exec (blockquote rules) src with
  | Some m =>
      let! st := self (replace re_quote [] (cap0 m)) top true (push TBlockquoteStart st) in
      Ok (rest_of m src, push TBlockquoteEnd st)
  | None =>
  match exec (list_rule rules) src with
  | Some m =>
      let! bull := need (cap m 2) in
      let st := push (TListStart (1 <? length bull)%nat) st in
      match match_all (item_rule rules) (cap0 m) with
      | [] => Throw (TypeError (js "Cannot read property 'length' of null"))
      | items =>
          let! (src', st) := items_loop (fun item => self item false bq) bull items false
                               (rest_of m src) st in
          Ok (src', push TListEnd st)
      end
  | None =>
  tail_rules top bq src st
  end end end end end end end end.

(** The loop [while (src)]; fuel bounds the rounds and the recursion. *)
Fixpoint token_loop (fuel : nat) (top bq : bool) (src : jsstr) (st : lstate) : result lstate :=
  match fuel with
  | O => OutOfFuel
  | S f =>
      match src with
      | [] => Ok st
      | _ =>
          let! (src', st') :=
            iteration (fun s t b st => token_loop f t b (replace re_blank_line [] s) st) top bq src st in
          token_loop f top bq src' st'
      end
  end.

Definition token (fuel : nat) (src : jsstr) (top bq : bool) (st : lstate) : result lstate :=
  token_loop fuel top bq (replace re_blank_line [] src) st.

(** [Lexer.lex(src, options)] *)
Definition preprocess (src : jsstr) : jsstr :=
  replace re_nlsym nl (replace re_nbsp (js " ") (replace re_tab (js "    ") (replace re_crlf nl src))).

Definition lex (src : jsstr) : result lstate :=
  let src := preprocess src in
  token (S (S (length src))) src true false (mkL [] ∅).
End Token.

(** ** Bullets *)

Definition sp_star : regex := RRep (RChar 32) 0 None true.
Definition bullet_class : list (bool * list (N * N)) :=
  [(false, [(42%N, 42%N)]); (false, [(43%N, 43%N)]); (false, [(45%N, 45%N)])].
Definition bull_node : regex :=
  RAlt (RClass false bullet_class) (RSeq digits_node (RChar 46)).

Definition is_bullet (b : jsstr) : Prop :=
  (exists c, b = [c] /\ class_match (mkFlags false false false) false bullet_class c = true) \/
  (exists ds, b = ds ++ [46%N] /\ ds <> [] /\ Forall (fun c => is_digit c = true) ds).

(** A text that starts with indentation, a bullet and a space. *)
Definition bulleted (w : jsstr) : Prop :=
  exists k b t, w = replicate k 32%N ++ b ++ 32%N :: t /\ is_bullet b.

Lemma class_match_flags fl fl' neg items c :
  f_icase fl = f_icase fl' -> class_match fl neg items c = class_match fl' neg items c.
Proof. unfold class_match. by intros ->. Qed.

Lemma digit_class_match fl c :
  f_icase fl = false -> class_match fl false [(false, [(48%N, 57%N)])] c = is_digit c.
Proof.
  intros Hi. unfold class_match, in_items, in_ranges, is_digit. rewrite Hi. simpl.
  by rewrite !orb_false_r.
Qed.

Lemma Matches_bull fl s s' :
  f_icase fl = false -> Matches fl bull_node s s' ->
  exists m, moved m s s' /\ is_bullet (take m (st_rest s)).
Proof.
  intros Hi HM. inversion HM as [| | | | |? ? ? ? H1|? ? ? ? H1| | | | | | | | | |]; subst.
  - inversion H1 as [| |? ? x ? ? Ha Hx| | | | | | | | | | | | | |]; subst.
    exists 1. split; [by eapply moved_advance|]. left. exists x. rewrite (advance_take _ _ _ Ha).
    split; [done|]. by rewrite (class_match_flags _ fl) by done.
  - apply Matches_seq in H1 as (s1 & HD & HC). apply Matches_class_run in HD as (k & Hm & Hf & Hk).
    apply Matches_char in HC as [Hm2 Ht]; [|done]. specialize (Hk eq_refl).
    exists (k + 1). split; [by eapply moved_trans|]. right. exists (take k (st_rest s)).
    rewrite (moved_take _ _ _ _ Hm), Ht. split; [done|]. destruct Hm as (Hle & _). split.
    + intros E. apply (f_equal length) in E. rewrite length_take_le in E by done. simpl in E. lia.
    + eapply Forall_impl; [exact Hf|]. intros c Hc. cbv beta in Hc. by rewrite digit_class_match in Hc.
Qed.

Lemma Matches_bulleted fl tail n s s' :
  f_icase fl = false ->
  Matches fl (RSeq RBol (RSeq (RGroup 1 sp_star) (RSeq (RGroup 2 bull_node) (RSeq (RChar 32) tail)))) s s' ->
  moved n s s' -> bulleted (take n (st_rest s)).
Proof.
  intros Hi HM Hn. apply Matches_seq in HM as (s1 & HB & HM). inversion HB; subst; clear HB.
  apply Matches_seq in HM as (s2 & (s2' & HS & Hg1)%Matches_group & HM).
  apply Matches_char_run in HS as (k & Hk%Hg1 & Ek & _); [|done].
  apply Matches_seq in HM as (s3 & (s3' & HBu & Hg2)%Matches_group & HM).
  apply Matches_bull in HBu as (m & Hm%Hg2 & Hb); [|done].
  apply Matches_seq in HM as (s4 & HC & HT). apply Matches_char in HC as [Hc Ec]; [|done].
  destruct (Matches_moved _ _ _ _ HT) as (j & _ & Hj).
  assert (n = k + (m + (1 + j))) as ->.
  { destruct Hn as (_ & Hp & _), Hk as (_ & Hp1 & _), Hm as (_ & Hp2 & _), Hc as (_ & Hp3 & _),
      Hj as (_ & Hp4 & _). lia. }
  rewrite (moved_take _ _ _ _ Hk), (moved_take _ _ _ _ Hm), (moved_take _ _ _ _ Hc), Ek, Ec.
  exists k, (take m (st_rest s2)), (take j (st_rest s4)). done.
Qed.

Lemma mtch_bull_found fl s k b rest :
  f_icase fl = false -> st_rest s = b ++ rest -> is_bullet b ->
  (forall s', moved (length b) s s' -> k s' <> None) -> mtch fl bull_node s k <> None.
Proof.
  intros Hi Hs [(c & -> & Hc)|(ds & -> & Hne & Hd)] Hk.
  - change (mtch fl bull_node s k) with (match mtch fl (RClass false bullet_class) s k with
      | Some z => Some z | None => mtch fl (RSeq digits_node (RChar 46)) s k end).
    destruct (mtch fl (RClass false bullet_class) s k) eqn:E; [done|].
    exfalso. revert E. apply (mtch_class_found fl false bullet_class c s k rest); [done| |done].
    by rewrite (class_match_flags _ (mkFlags false false false)).
  - change (mtch fl bull_node s k) with (match mtch fl (RClass false bullet_class) s k with
      | Some z => Some z | None => mtch fl (RSeq digits_node (RChar 46)) s k end).
    case_match; [done|]. change (mtch fl (RSeq digits_node (RChar 46)) s k)
      with (mtch fl digits_node s (fun s' => mtch fl (RChar 46) s' k)).
    apply (mtch_run_found fl _ _ (46%N :: rest) _ ds (reads_class _ _ _)); [by rewrite Hs, <- app_assoc|..].
    + eapply Forall_impl; [exact Hd|]. intros c Hc. by rewrite digit_class_match.
    + destruct ds; [done|simpl; lia].
    + by rewrite digit_class_match.
    + intros s1 Hm. apply (mtch_char_found fl 46 s1 k rest).
      * destruct Hm as (_ & _ & -> & _). by rewrite Hs, <- app_assoc, drop_app_length.
      * intros s2 Hm2. apply Hk. rewrite length_app. by eapply moved_trans.
Qed.

Lemma bullet_head b : is_bullet b -> exists c t, b = c :: t /\ c <> 32%N.
Proof.
  intros [(c & -> & Hc)|(ds & -> & Hne & Hd)].
  - exists c, []. split; [done|]. by intros ->.
  - destruct ds as [|d ds]; [done|]. exists d, (ds ++ [46%N]). split; [done|].
    apply Forall_cons in Hd as [Hd _]. by intros ->.
Qed.

Lemma moved_rest (w rest : jsstr) s s' :
  moved (length w) s s' -> st_rest s = w ++ rest -> st_rest s' = rest.
Proof. intros (_ & _ & -> & _) ->. apply drop_app_length. Qed.

(** Reading the indentation, then the bullet; [f] records a capture in between. *)
Lemma mtch_indent_bull fl s (k : mstate -> cont) i b rest (f : mstate -> mstate) :
  f_icase fl = false -> st_rest s = replicate i 32%N ++ b ++ rest -> is_bullet b ->
  (forall s', st_rest (f s') = st_rest s') ->
  (forall s1 s', st_rest s' = rest -> k s1 s' <> None) ->
  mtch fl sp_star s (fun s1 => mtch fl bull_node (f s1) (k s1)) <> None.
Proof.
  intros Hi Hs Hb Hf Hk. destruct (bullet_head b Hb) as (c & t & Eb & Hc).
  apply (mtch_run_found fl _ _ (b ++ rest) _ (replicate i 32%N) (reads_char _ _)).
  - done.
  - apply Forall_replicate. apply N.eqb_refl.
  - lia.
  - rewrite Eb. simpl. unfold canon. rewrite Hi. by apply N.eqb_neq.
  - intros s1 Hm. pose proof (moved_rest _ _ _ _ Hm Hs) as Hr.
    apply (mtch_bull_found fl (f s1) (k s1) b rest); [done|by rewrite Hf|done|].
    intros s2 Hm2. apply Hk, (moved_rest b rest (f s1)); [done|by rewrite Hf].
Qed.

Definition item_node (tail : regex) : regex :=
  RSeq RBol (RSeq (RGroup 1 sp_star) (RSeq (RGroup 2 bull_node) (RSeq (RChar 32) tail))).

Lemma item_found re tail w :
  re_node re = item_node tail -> f_icase (re_flags re) = false ->
  (forall s, mtch (re_flags re) tail s Some <> None) -> bulleted w ->
  exists m, match_here re 0 None w = Some m.
Proof.
  intros Hre Hi Ht (i & b & t & Hw & Hb). apply match_here_found. rewrite Hre.
  set (fl := re_flags re) in *. set (s0 := init_state re 0 None w).
  change (mtch fl sp_star s0 (fun s1 => mtch fl bull_node
     (set_cap 1 (Some (take (st_pos s1 - st_pos s0) (st_rest s0))) s1) (fun s2 =>
        mtch fl (RChar 32) (set_cap 2 (Some (take (st_pos s2 - st_pos s1) (st_rest s1))) s2)
          (fun s3 => mtch fl tail s3 Some))) <> None).
  apply (mtch_indent_bull fl s0 (fun s1 s2 => mtch fl (RChar 32)
    (set_cap 2 (Some (take (st_pos s2 - st_pos s1) (st_rest s1))) s2) (fun s3 => mtch fl tail s3 Some))
    i b (32%N :: t)); try done.
  intros s1 s' Hs'. by eapply mtch_char_found.
Qed.

Lemma item_rule_found w : bulleted w -> exists m, match_here (item_rule normal) 0 None w = Some m.
Proof.
  eapply item_found; [reflexivity|reflexivity|]. intros s.
  rewrite mtch_seq. by apply mtch_star_found, mtch_star_found.
Qed.

(** The expression that removes the bullet finds one. *)
Lemma strip_found w : bulleted w -> exists m, match_here re_bullet_strip 0 None w = Some m.
Proof.
  intros (i & b & t & Hw & Hb). apply match_here_found.
  set (fl := re_flags re_bullet_strip). set (s0 := init_state re_bullet_strip 0 None w).
  change (mtch fl sp_star s0 (fun s1 => mtch fl bull_node s1 (fun s2 =>
    mtch fl (RRep (RChar 32) 1 None true)
      (set_cap 1 (Some (take (st_pos s2 - st_pos s1) (st_rest s1))) s2) Some)) <> None).
  apply (mtch_indent_bull fl s0 (fun s1 s2 => mtch fl (RRep (RChar 32) 1 None true)
      (set_cap 1 (Some (take (st_pos s2 - st_pos s1) (st_rest s1))) s2) Some) i b (32%N :: t) id);
    try done.
  intros s1 s' Hs'.
  assert (Hrun : exists j t', t = replicate j 32%N ++ t' /\
    match t' with c :: _ => (canon fl c =? canon fl 32)%N = false | [] => True end).
  { clear. induction t as [|c t (j & t' & -> & H)]; [by exists 0, []|].
    destruct (decide (c = 32%N)) as [->|Hc]; [by exists (S j), t'|].
    exists 0, (c :: replicate j 32%N ++ t'). split; [done|]. by apply N.eqb_neq. }
  destruct Hrun as (j & t' & -> & Ht').
  apply (mtch_run_found fl _ _ t' _ (replicate (S j) 32%N) (reads_char _ _)); try done.
  - apply Forall_replicate. apply N.eqb_refl.
  - simpl. lia.
Qed.

Lemma bullet_found w : bulleted w -> exists m, exec bullet w = Some m.
Proof.
  intros (i & b & t & -> & Hb).
  assert (Hm : exists m, match_here bullet (0 + i) (match i with O => None | S j =>
    (replicate i 32%N ++ b ++ 32%N :: t) !! j end) (drop i (replicate i 32%N ++ b ++ 32%N :: t)) = Some m).
  { apply match_here_found.
    apply (mtch_bull_found _ _ _ b (32%N :: t)); [done| |done|done].
    simpl. by rewrite drop_app_length' by (by rewrite length_replicate). }
  destruct Hm as [m Hm]. apply exec_from_found in Hm.
  - unfold exec. destruct (exec_from _ _ _ _); [eauto|done].
  - rewrite length_app, length_replicate. lia.
Qed.

(** ** Quoted text *)

Definition quoted (w : jsstr) : Prop := exists k t, w = replicate k 32%N ++ 62%N :: t.

Lemma quote_found w : quoted w -> exists m, match_here re_quote 0 None w = Some m.
Proof.
  intros (k & t & Hw). apply match_here_found.
  set (fl := re_flags re_quote). set (s0 := init_state re_quote 0 None w).
  change (mtch fl sp_star s0 (fun s1 => mtch fl (RChar 62) s1 (fun s2 =>
    mtch fl (RRep (RChar 32) 0 (Some 1) true) s2 Some)) <> None).
  apply (mtch_run_found fl _ _ (62%N :: t) _ (replicate k 32%N) (reads_char _ _)); try done.
  - apply Forall_replicate. apply N.eqb_refl.
  - simpl. lia.
  - intros s1 Hm. apply (mtch_char_found fl 62 s1 _ t).
    + by apply (moved_rest (replicate k 32%N) _ s0).
    + intros s2 _. by apply mtch_star_found.
Qed.

Lemma Matches_quoted fl r1 mx g n s s' :
  f_icase fl = false ->
  Matches fl (RSeq RBol (RRep (RGroup 1 (RSeq sp_star (RSeq (RChar 62) r1))) 1 mx g)) s s' ->
  mx <> Some 0 -> moved n s s' -> quoted (take n (st_rest s)).
Proof.
  intros Hi HM Hmx Hn. apply Matches_seq in HM as (s1 & HB & HM). inversion HB; subst; clear HB.
  inversion HM as [| | | | | | |? ? ? ? ? [|]|? ? ? ? ? s2 ? _ HG _ HR| | | | | | | |]; subst; try done.
  apply Matches_group in HG as (s2' & HG & Hg).
  apply Matches_seq in HG as (s3 & HS & HG). apply Matches_char_run in HS as (k & Hk & Ek & _); [|done].
  apply Matches_seq in HG as (s4 & HC & HT). apply Matches_char in HC as [Hc Ec]; [|done].
  destruct (Matches_moved _ _ _ _ HT) as (j & _ & Hj).
  pose proof (moved_trans _ _ _ _ _ Hk (moved_trans _ _ _ _ _ Hc Hj)) as Hall%Hg.
  destruct (Matches_moved _ _ _ _ HR) as (l & _ & Hl).
  apply moved_clear_caps in Hall, Hk. rewrite clear_caps_rest in Ek.
  assert (n = k + (1 + (j + l))) as ->.
  { destruct Hn as (_ & Hp & _), Hall as (_ & Hp1 & _), Hl as (_ & Hp2 & _). lia. }
  exists k, (take (j + l) (st_rest s4)).
  by rewrite (moved_take _ _ _ _ Hk), (moved_take _ _ _ _ Hc), Ek, Ec.
Qed.

(** ** Static facts about the rules *)

Definition opt_ok (f : regexp -> bool) (r : option regexp) : bool :=
  match r with Some r => f r | None => true end.

Definition block_ok (r : block_rules) : bool :=
  rule_ok (code r) && opt_ok rule_ok (fences r) && (rule_ok (heading r) && has 1 (heading r) && has 2 (heading r))
  && opt_ok (fun t => rule_ok t && has 1 t && has 2 t && has 3 t) (nptable r)
  && (rule_ok (lheading r) && has 1 (lheading r)) && rule_ok (hr r) && rule_ok (blockquote r)
  && (rule_ok (list_rule r) && has 2 (list_rule r)) && rule_ok (html r)
  && (rule_ok (def r) && has 1 (def r) && has 2 (def r))
  && opt_ok (fun t => rule_ok t && has 1 t && has 2 t && has 3 t) (table r)
  && (rule_ok (paragraph r) && has 1 (paragraph r)) && rule_ok (text r).

Lemma rules_of_ok o : block_ok (rules_of o) = true.
Proof. unfold rules_of. destruct (o_gfm o), (o_tables o); vm_compute; reflexivity. Qed.

Lemma rules_common o :
  newline (rules_of o) = newline normal /\ text (rules_of o) = text normal /\
  item_rule (rules_of o) = item_rule normal /\ list_rule (rules_of o) = list_rule normal /\
  blockquote (rules_of o) = blockquote normal.
Proof. unfold rules_of. by destruct (o_gfm o), (o_tables o). Qed.

(** The list rule takes a text that starts with a bullet. *)
Lemma list_bulleted src m : exec (list_rule normal) src = Some m -> bulleted (cap0 m).
Proof.
  rewrite exec_anchored by done.
  intros (_ & n & s' & HM & Hmv & _ & Hc & _)%match_here_inv. rewrite Hc.
  eapply (Matches_bulleted _ _ n (init_state _ 0 None src)); [|exact HM|exact Hmv]. done.
Qed.

Lemma item_bulleted s m : m ∈ matches (item_rule normal) s -> bulleted (cap0 m).
Proof.
  intros [prev Hm]%matches_here. apply match_here_inv in Hm as (_ & n & s' & HM & Hmv & _ & Hc & _).
  rewrite Hc. eapply (Matches_bulleted _ _ n (init_state _ _ prev _)); [|exact HM|exact Hmv]. done.
Qed.

Lemma blockquote_quoted src m : exec (blockquote normal) src = Some m -> quoted (cap0 m).
Proof.
  rewrite exec_anchored by done.
  intros (_ & n & s' & HM & Hmv & _ & Hc & _)%match_here_inv. rewrite Hc.
  eapply (Matches_quoted _ _ None true n (init_state _ 0 None src)); [|exact HM|done|exact Hmv]. done.
Qed.

Lemma text_found c t : c <> 10%N -> exists m, exec (text normal) (c :: t) = Some m.
Proof.
  intros Hc. rewrite exec_anchored by done. apply match_here_found.
  set (fl := re_flags (text normal)). set (s0 := init_state (text normal) 0 None (c :: t)).
  set (s1 := mkState 1 (Some c) t (st_caps s0)).
  apply (mtch_complete fl (re_node (text normal)) s0 s1 Some); [done| |done].
  eapply M_seq; [by constructor|]. eapply M_rep_iter; [done| |done|by apply M_rep_done; left].
  eapply M_class; [done|]. unfold class_match. simpl.
  rewrite orb_false_r. unfold in_range.
  destruct (N.leb_spec 10 c), (N.leb_spec c 10); simpl; try done. lia.
Qed.

(** The newline rule takes all leading line feeds. *)
Lemma newline_step src :
  match exec (newline normal) src with
  | Some m => src = cap0 m ++ drop (length (cap0 m)) src /\ nn (cap0 m) = 0 /\
      (forall t, drop (length (cap0 m)) src <> 10%N :: t)
  | None => forall t, src <> 10%N :: t
  end.
Proof.
  assert (Hrun : exists k rest, src = replicate k 10%N ++ rest /\ forall t, rest <> 10%N :: t).
  { induction src as [|c src (k & rest & -> & H)]; [by exists 0, []|].
    destruct (decide (c = 10%N)) as [->|Hc]; [by exists (S k), rest|].
    exists 0, (c :: replicate k 10%N ++ rest). split; [done|]. intros t [= ->]. done. }
  destruct Hrun as (k & rest & -> & Hrest).
  rewrite exec_anchored by done. destruct k as [|k].
  - simpl. destruct (match_here _ _ _ rest) as [m|] eqn:E; [|done].
    pose proof (match_here_len _ _ _ _ _ E) as (_ & Hl & Hc).
    apply match_here_inv in E as (_ & n & s' & HM & _).
    apply Matches_seq in HM as (s1 & HB & HM). inversion HB; subst; clear HB.
    apply Matches_char_run in HM as (j & Hj & Ej & Hjn); [|done]. specialize (Hjn eq_refl).
    destruct j as [|j]; [lia|]. simpl in Ej. destruct rest as [|c rest]; [done|].
    injection Ej as -> _. by destruct (Hrest rest).
  - assert (Hlen : length (replicate (S k) 10%N) = S k) by apply length_replicate.
    assert (Hall : Forall (fun c => (canon (re_flags (newline normal)) c
      =? canon (re_flags (newline normal)) 10)%N = true) (replicate (S k) 10%N))
      by (apply Forall_replicate, N.eqb_refl).
    assert (Hnn : nn (replicate (S k) 10%N) = 0) by (clear; induction (S k); done).
    generalize dependent (replicate (S k) 10%N). intros w Hlen Hall Hnn.
    unfold match_here. set (s0 := mkState 0 None _ _).
    assert (Hf : match rest with
      | c :: _ => (canon (re_flags (newline normal)) c =? canon (re_flags (newline normal)) 10)%N = false
      | [] => True end).
    { destruct rest as [|c rest]; [done|]. apply N.eqb_neq. intros Ec.
      change (c = 10%N) in Ec. subst c. by apply (Hrest rest). }
    assert (E : mtch (re_flags (newline normal)) (re_node (newline normal)) s0 Some
      = Some (advance_n (length w) s0)).
    { change (mtch (re_flags (newline normal)) (RRep (RChar 10) 1 None true) s0 Some
        = Some (advance_n (length w) s0)).
      apply (mtch_run_exact _ _ _ rest _ _ w (reads_char _ _)); try done. lia. }
    rewrite E. unfold cap0, cap. cbn [m_caps].
    rewrite list_lookup_insert_eq by (rewrite advance_n_caps; simpl; lia). cbn [mjoin option_join default].
    destruct (moved_advance_n (length w) s0) as (_ & Hp & _); [simpl; rewrite length_app; lia|].
    rewrite Hp. cbn [st_pos s0]. rewrite Nat.add_0_l, Nat.sub_0_r, take_app_length, drop_app_length.
    done.
Qed.

Lemma outdent_pattern_ok n : exists r, outdent_pattern (Z.of_nat (S n)) = Ok r.
Proof.
  unfold outdent_pattern.
  assert (Ed : decZ (Z.of_nat (S n)) = dec (N.of_nat (S n))) by (by rewrite <- nat_N_Z).
  rewrite Ed. unfold newRegExp. set (ds := dec (N.of_nat (S n))).
  pose proof (dec_nonempty (N.of_nat (S n))) as Hne. pose proof (dec_digits (N.of_nat (S n))) as Hd.
  pose proof (read_nat_dec (N.of_nat (S n)) []) as Hr. fold ds in Hne, Hd, Hr. clearbody ds.
  assert (Hg : count_groups false (js "^ {1," ++ ds ++ js "}") = 0).
  { change (count_groups false (ds ++ [125%N]) = 0). by rewrite count_groups_digits. }
  rewrite Hg. destruct ds as [|d ds]; [done|].
  assert (Hd125 : (d =? 125)%N = false).
  { apply Forall_cons in Hd as [Hd _]. unfold is_digit, in_range in Hd.
    apply andb_prop in Hd as [_ ?%N.leb_le]. apply N.eqb_neq. lia. }
  assert (Hq : parse_quant (123%N :: 49%N :: 44%N :: (d :: ds) ++ [125%N]) = Some (1, Some (S n), [])).
  { unfold parse_quant, parse_braces.
    change (read_nat (49%N :: 44%N :: (d :: ds) ++ [125%N]))
      with (Some (1, 44%N :: (d :: ds) ++ [125%N])).
    cbn [app N.eqb Pos.eqb]. rewrite Hd125. cbn [app] in Hr. by rewrite Hr, Nat2N.id. }
  set (tail := 123%N :: 49%N :: 44%N :: (d :: ds) ++ [125%N]) in *.
  change (js "^ {1," ++ (d :: ds) ++ js "}") with (94%N :: 32%N :: tail).
  cbn [length]. set (len := length tail). clearbody len.
  replace (S (4 * S (S len))) with (S (S (S (S (S (S (4 * len + 3))))))) by lia.
  cbn -[parse_quant tail]. unfold with_quant. rewrite Hq. eauto.
Qed.

Create HintDb marked.

(** ** Balanced tokens *)

Inductive bsym := BQuote | BList | BItem.

(** The stack of open constructs after some tokens; [None] when an end token does not
    fit. *)
Fixpoint nest (stk : list bsym) (ts : list mtoken) : option (list bsym) :=
  match ts with
  | [] => Some stk
  | t :: r =>
      match t, stk with
      | TBlockquoteStart, _ => nest (BQuote :: stk) r
      | TListStart _, _ => nest (BList :: stk) r
      | TListItemStart, _ | TLooseItemStart, _ => nest (BItem :: stk) r
      | TBlockquoteEnd, BQuote :: k => nest k r
      | TListEnd, BList :: k => nest k r
      | TListItemEnd, BItem :: k => nest k r
      | TBlockquoteEnd, _ | TListEnd, _ | TListItemEnd, _ => None
      | _, _ => nest stk r
      end
  end.

Definition neutral (ts : list mtoken) : Prop := forall stk, nest stk ts = Some stk.

Lemma nest_app a b stk : nest stk (a ++ b) = nest stk a ≫= fun k => nest k b.
Proof.
  revert stk. induction a as [|t a IH]; intros stk; simpl; [done|].
  destruct t; auto; destruct stk as [|[]]; auto.
Qed.

Lemma neutral_tokens_app a b : neutral a -> neutral b -> neutral (a ++ b).
Proof. intros Ha Hb stk. rewrite nest_app, Ha. apply Hb. Qed.

(** The tokens of [st'] are those of [st] and a balanced list. *)
Definition adds (st st' : lstate) : Prop := exists ts, tokens st' = tokens st ++ ts /\ neutral ts.

Definition plain_token (t : mtoken) : bool :=
  match t with
  | TBlockquoteStart | TBlockquoteEnd | TListStart _ | TListEnd | TListItemStart | TLooseItemStart
  | TListItemEnd => false
  | _ => true
  end.

Lemma adds_refl st : adds st st.
Proof. exists []. by rewrite app_nil_r. Qed.

Lemma adds_trans a b c : adds a b -> adds b c -> adds a c.
Proof.
  intros (x & Hx & Nx) (y & Hy & Ny). exists (x ++ y). rewrite Hy, Hx, app_assoc.
  split; [done|by apply neutral_tokens_app].
Qed.

Lemma adds_plain st t : plain_token t = true -> adds st (push t st).
Proof. intros Ht. exists [t]. split; [done|]. intros stk. by destruct t. Qed.

(** A balanced list between a start token and its end token. *)
Lemma adds_between o c st st' :
  (forall ts, neutral ts -> neutral ([o] ++ ts ++ [c])) ->
  adds (push o st) st' -> adds st (push c st').
Proof.
  intros Hoc (ts & Hts & Nts). exists ([o] ++ ts ++ [c]). split; [|by apply Hoc].
  simpl. rewrite Hts. simpl. by rewrite <- !app_assoc.
Qed.

Lemma neutral_quote ts : neutral ts -> neutral ([TBlockquoteStart] ++ ts ++ [TBlockquoteEnd]).
Proof. intros H stk. simpl. by rewrite nest_app, H. Qed.
Lemma neutral_list b ts : neutral ts -> neutral ([TListStart b] ++ ts ++ [TListEnd]).
Proof. intros H stk. simpl. by rewrite nest_app, H. Qed.
Lemma neutral_item b ts :
  neutral ts -> neutral ([if b : bool then TLooseItemStart else TListItemStart] ++ ts ++ [TListItemEnd]).
Proof. intros H stk. destruct b; simpl; by rewrite nest_app, H. Qed.

#[export] Hint Resolve adds_refl neutral_quote neutral_list neutral_item : marked.

(** ** List items *)

Definition nn_sum (l : list jsstr) : nat := sum_list_with nn l.

Lemma bulleted_nn w : bulleted w -> 1 <= nn w.
Proof.
  intros (k & b & t & -> & _). rewrite !nn_app. change (nn (32%N :: t)) with (S (nn t)). lia.
Qed.

Lemma nn_join l : nn (join nl l) = nn_sum l.
Proof.
  induction l as [|x l IH]; [done|]. destruct l as [|y l]; [unfold nn_sum; simpl; lia|].
  change (join nl (x :: y :: l)) with (x ++ nl ++ join nl (y :: l)).
  rewrite !nn_app, IH. unfold nn_sum. simpl. change (nn nl) with 0. lia.
Qed.

Lemma strip_shorter w m :
  match_here re_bullet_strip 0 None w = Some m ->
  nn (replace re_bullet_strip [] w) < nn w /\ length (replace re_bullet_strip [] w) < length w.
Proof.
  intros H. pose proof (match_here_nn re_bullet_strip _ _ _ _ eq_refl H) as H2.
  pose proof (replace_remove_first _ _ _ H) as H1. change (min_nn _ _) with 2 in H2. split; [lia|].
  pose proof (nn_length (cap0 m)) as H3.
  pose proof (exec_at_here _ _ _ H) as [_ He]. rewrite replace_remove, He.
  change (f_global (re_flags re_bullet_strip)) with false. cbn [stitch app].
  pose proof (exec_inv _ _ _ He) as (Hl & _). rewrite length_app, length_drop.
  unfold substring, m_end. rewrite Nat.max_r, Nat.min_l by lia. rewrite length_take, length_drop. lia.
Qed.

Lemma item_text_ok o w : bulleted w -> exists t, item_text o w = Ok t /\ nn t < nn w.
Proof.
  intros [m Hm]%strip_found. destruct (strip_shorter w m Hm) as [Hn Hl]. unfold item_text.
  case_match; [|eauto]. destruct (o_pedantic o).
  - eexists. split; [done|]. pose proof (replace_remove_nn re_outdent4 (replace re_bullet_strip [] w)). lia.
  - destruct (outdent_pattern_ok (length w - length (replace re_bullet_strip [] w) - 1)) as [r Hr].
    replace (Z.of_nat (length w) - Z.of_nat (length (replace re_bullet_strip [] w)))%Z
      with (Z.of_nat (S (length w - length (replace re_bullet_strip [] w) - 1))) by lia.
    rewrite Hr. eexists. split; [done|]. pose proof (replace_remove_nn r (replace re_bullet_strip [] w)). lia.
Qed.

Lemma backpedal_ok o bull rest src :
  Forall bulleted rest ->
  exists back, backpedal o bull rest src = Ok back /\
    forall src', back = Some src' -> nn src' = nn_sum rest + nn src.
Proof.
  intros Hr. unfold backpedal. destruct rest as [|next rest]; [by exists None|].
  destruct (o_smartLists o); [|by exists None].
  destruct (bullet_found next) as [m ->]; [by apply Forall_cons in Hr as [? _]|].
  destruct (_ && _); [|by exists None]. eexists. split; [done|]. intros src' Hs.
  assert (src' = join nl (next :: rest) ++ src) as -> by congruence. by rewrite nn_app, nn_join.
Qed.

Lemma items_loop_ok o self bull N items : forall next src st,
  (forall item st, nn item < N -> exists st', self item st = Ok st' /\ adds st st') ->
  Forall bulleted items -> Forall (fun w => nn w <= N) items ->
  exists src' st', items_loop o self bull items next src st = Ok (src', st') /\ adds st st' /\
    nn src' <= nn src + nn_sum (tail items).
Proof.
  induction items as [|item0 rest IH]; intros next src st Hself Hb HN; cbn [items_loop].
  { exists src, st. split_and!; [done|apply adds_refl|lia]. }
  apply Forall_cons in Hb as [Hb0 Hb]. apply Forall_cons in HN as [HN0 HN].
  destruct (item_text_ok o item0 Hb0) as (item & -> & Hlt). cbn [rbind].
  destruct (backpedal_ok o bull rest src Hb) as (back & -> & Hback). cbn [rbind].
  set (loose := _ || _ || _).
  destruct (Hself item (push (if loose then TLooseItemStart else TListItemStart) st)) as (st1 & -> & Ha);
    [lia|]. cbn [rbind].
  assert (Hst : adds st (push TListItemEnd st1)).
  { eapply adds_between; [|exact Ha]. intros ts. apply neutral_item. }
  destruct back as [src'|].
  - exists src', (push TListItemEnd st1). split_and!; [done|done|].
    rewrite (Hback src' eq_refl). simpl. lia.
  - destruct (IH (match rest with [] => next | _ => bool_decide (charAt item (length item - 1) = nl) end)
      src (push TListItemEnd st1) Hself Hb HN) as (src' & st' & H1 & H2 & H3).
    exists src', st'. split_and!; [|by eapply adds_trans|].
    + destruct rest; exact H1.
    + simpl. destruct rest as [|r rest]; simpl in *; [lia|]. unfold nn_sum in *. simpl. lia.
Qed.

(** ** One round of the loop *)

Section Round.
Context (o : moptions) (self : jsstr -> bool -> bool -> lstate -> result lstate).
Context (top bq : bool) (N0 : nat).
Context (Hself : forall s t b st, nn s < N0 -> exists st', self s t b st = Ok st' /\ adds st st').

(** A round succeeds, leaves less, and adds balanced tokens. *)
Definition good (src : jsstr) (st : lstate) (r : result (jsstr * lstate)) : Prop :=
  exists src' st', r = Ok (src', st') /\ adds st st' /\ (nn src' < nn src \/ src' = []).

Lemma good_plain r src st t m :
  rule_ok r = true -> exec r src = Some m -> plain_token t = true ->
  good src st (Ok (rest_of m src, push t st)).
Proof.
  intros Hr E Ht. destruct (rule_consumes r src m Hr E) as (_ & H1 & H2).
  eexists _, _. split; [done|]. split; [by apply adds_plain|]. left. unfold rest_of. lia.
Qed.

Lemma need_ok r src m n :
  has n r = true -> exec r src = Some m -> exists w, need (cap m n) = Ok w.
Proof. intros Hh E. destruct (exec_sets r src m n E Hh) as [w ->]. by exists w. Qed.

Lemma good_quote src st m :
  nn src <= N0 -> exec (MarkedGrammar.blockquote normal) src = Some m ->
  good src st (let! st := self (replace re_quote [] (cap0 m)) top true (push TBlockquoteStart st) in
               Ok (rest_of m src, push TBlockquoteEnd st)).
Proof.
  intros HN E. destruct (rule_consumes (MarkedGrammar.blockquote normal) src m eq_refl E) as (_ & H1 & H2).
  destruct (quote_found _ (blockquote_quoted _ _ E)) as [m' Hm'].
  pose proof (replace_remove_first _ _ _ Hm') as H3.
  pose proof (match_here_nn re_quote _ _ _ _ eq_refl Hm') as H4. change (min_nn _ _) with 1 in H4.
  destruct (Hself (replace re_quote [] (cap0 m)) top true (push TBlockquoteStart st)) as (st1 & -> & Ha);
    [lia|].
  eexists _, _. split; [done|]. split; [eapply adds_between; [|exact Ha]; auto with marked|].
  left. unfold rest_of. lia.
Qed.

Lemma match_all_nn re s : nn_sum (match_all re s) <= nn s.
Proof.
  pose proof (matches_nn re s) as H. unfold match_all, nn_sum, nns in *.
  enough (E : sum_list_with nn (map cap0 (matches re s)) = sum_list_with (fun m => nn (cap0 m)) (matches re s)) by lia.
  clear. induction (matches re s); simpl; [done|lia].
Qed.

Lemma nn_sum_elem w l : w ∈ l -> nn w <= nn_sum l.
Proof. unfold nn_sum. induction 1; simpl; lia. Qed.

Lemma good_list src st m :
  nn src <= N0 -> exec (list_rule normal) src = Some m ->
  good src st (
    let! bull := need (cap m 2) in
    let st := push (TListStart (1 <? length bull)%nat) st in
    match match_all (item_rule normal) (cap0 m) with
    | [] => Throw (TypeError (js "Cannot read property 'length' of null"))
    | items =>
        let! (src', st) := items_loop o (fun item => self item false bq) bull items false
                             (rest_of m src) st in
        Ok (src', push TListEnd st)
    end).
Proof.
  intros HN E. destruct (rule_consumes (list_rule normal) src m eq_refl E) as (_ & H1 & H2).
  destruct (need_ok (list_rule normal) src m 2 eq_refl E) as [bull ->]. cbn [rbind].
  destruct (item_rule_found _ (list_bulleted _ _ E)) as [m' Hm'].
  pose proof (matches_nonempty _ _ _ Hm') as Hne.
  pose proof (match_all_nn (item_rule normal) (cap0 m)) as Hsum.
  assert (Hb : Forall bulleted (match_all (item_rule normal) (cap0 m))).
  { apply Forall_forall. intros w (m1 & -> & Hm1)%list_elem_of_fmap. by eapply item_bulleted. }
  set (items := match_all (item_rule normal) (cap0 m)) in *.
  destruct (items_loop_ok o (fun item => self item false bq) bull N0 items false (rest_of m src)
    (push (TListStart (1 <? length bull)%nat) st)) as (src' & st' & Hl & Ha & Hs); [auto|done| |].
  { apply Forall_forall. intros w Hw%nn_sum_elem. lia. }
  assert (Hit : exists i0 rest, items = i0 :: rest).
  { unfold items, match_all in *. destruct (matches (item_rule normal) (cap0 m)); [done|]. simpl. eauto. }
  destruct Hit as (i0 & rest & Ei). rewrite Ei in *. rewrite Hl. cbn [rbind].
  eexists _, _. split; [done|]. split; [eapply adds_between; [|exact Ha]; auto with marked|].
  left. apply Forall_cons in Hb as [Hb0%bulleted_nn _].
  unfold nn_sum in *. simpl in *. unfold rest_of in *. lia.
Qed.

Lemma nptable_token_ok r src m :
  rule_ok r && has 1 r && has 2 r && has 3 r = true -> exec r src = Some m ->
  exists t, nptable_token m = Ok t /\ plain_token t = true.
Proof.
  rewrite !andb_true_iff. intros [[[_ H1] H2] H3] E. unfold nptable_token.
  destruct (need_ok r src m 1 H1 E) as [? ->], (need_ok r src m 2 H2 E) as [? ->],
    (need_ok r src m 3 H3 E) as [? ->]. simpl. eauto.
Qed.

Lemma table_token_ok r src m :
  rule_ok r && has 1 r && has 2 r && has 3 r = true -> exec r src = Some m ->
  exists t, table_token m = Ok t /\ plain_token t = true.
Proof.
  rewrite !andb_true_iff. intros [[[_ H1] H2] H3] E. unfold table_token.
  destruct (need_ok r src m 1 H1 E) as [? ->], (need_ok r src m 2 H2 E) as [? ->],
    (need_ok r src m 3 H3 E) as [? ->]. simpl. eauto.
Qed.

Lemma good_weaken src src1 st st1 r :
  nn src1 <= nn src -> adds st st1 -> good src1 st1 r -> good src st r.
Proof.
  intros Hn Ha (src' & st' & -> & Ha' & Hc). exists src', st'. split; [done|].
  split; [by eapply adds_trans|]. destruct Hc; [left; lia|by right].
Qed.

Lemma opt_rule r src m f :
  opt_ok f r = true -> exec_opt r src = Some m -> exists r', r = Some r' /\ f r' = true /\ exec r' src = Some m.
Proof. destruct r as [r|]; [|done]. simpl. eauto. Qed.

Lemma tail_good src st : (forall t, src <> 10%N :: t) -> good src st (tail_rules o top bq src st).
Proof.
  intros Hh. pose proof (rules_of_ok o) as Hok. unfold block_ok in Hok. rewrite !andb_true_iff in Hok.
  destruct Hok as [[[[[_ Hhtml] [[Hdef Hdef1] Hdef2]] Htable] [Hpar Hpar1]] Htext].
  destruct (rules_common o) as (_ & Et & _). unfold tail_rules.
  destruct (exec (html (rules_of o)) src) as [m|] eqn:E9.
  { apply (good_plain _ _ _ _ _ Hhtml E9). by destruct (o_sanitize o). }
  destruct (if negb bq && top then exec (def (rules_of o)) src else None) as [m|] eqn:E10.
  { destruct (negb bq && top); [|done].
    destruct (need_ok _ _ _ 1 Hdef1 E10) as [c1 ->], (need_ok _ _ _ 2 Hdef2 E10) as [c2 ->].
    destruct (rule_consumes _ _ _ Hdef E10) as (_ & H1 & H2).
    eexists _, _. split; [done|]. split; [exists []; by rewrite app_nil_r|]. left. unfold rest_of. lia. }
  destruct (if top then exec_opt (table (rules_of o)) src else None) as [m|] eqn:E11.
  { destruct top; [|done]. destruct (opt_rule _ _ _ _ Htable E11) as (r & _ & Hr & E).
    destruct (table_token_ok r src m Hr E) as (t & -> & Ht). rewrite !andb_true_iff in Hr.
    by apply (good_plain r _ _ _ _ ltac:(apply Hr) E). }
  destruct (if top then exec (paragraph (rules_of o)) src else None) as [m|] eqn:E12.
  { destruct top; [|done]. destruct (need_ok _ _ _ 1 Hpar1 E12) as [c1 ->]. by apply (good_plain _ _ _ _ _ Hpar E12). }
  destruct (exec (text (rules_of o)) src) as [m|] eqn:E13;
    [by apply (good_plain _ _ _ _ _ Htext E13)|].
  destruct src as [|c t].
  - eexists _, _. split; [done|]. split; [apply adds_refl|by right].
  - rewrite Et in E13. destruct (text_found c t) as [m Hm]; [|congruence].
    intros ->. by destruct (Hh t).
Qed.

Lemma iteration_good src st :
  nn src <= N0 -> good src st (iteration o self top bq src st).
Proof.
  intros HN. pose proof (rules_of_ok o) as Hok. unfold block_ok in Hok.
  rewrite !andb_true_iff in Hok.
  destruct Hok as [[[[[[[[[[[[Hcode Hfences] [[Hheading Hheading1] _]] Hnpt] [Hlh _]] Hhr] Hbq] [Hlist Hlist2]]
    Hhtml] [[Hdef Hdef1] Hdef2]] Htable] [Hpar Hpar1]] Htext].
  destruct (rules_common o) as (En & Et & Ei & El & Eb).
  unfold iteration. rewrite En.
  set (p := match exec (newline normal) src with Some m => _ | None => _ end).
  assert (Hp : nn (fst p) <= nn src /\ adds st (snd p) /\ forall t, fst p <> 10%N :: t).
  { subst p. pose proof (newline_step src) as Hnl.
    destruct (exec (newline normal) src) as [m|]; [|by split_and!; [|apply adds_refl|]].
    destruct Hnl as (Hs & Hz & Ht). cbn [fst snd]. split_and!.
    - rewrite Hs at 2. rewrite nn_app. unfold rest_of. lia.
    - case_match; [by apply adds_plain|apply adds_refl].
    - exact Ht. }
  destruct p as [src1 st1]. cbn [fst snd] in Hp. destruct Hp as (Hn1 & Ha1 & Hh1).
  eapply good_weaken; [exact Hn1|exact Ha1|]. assert (HN1 : nn src1 <= N0) by lia. clear Hn1 Ha1.
  destruct (exec (code (rules_of o)) src1) as [m|] eqn:E1;
    [by apply (good_plain _ _ _ _ _ Hcode E1)|].
  destruct (exec_opt (fences (rules_of o)) src1) as [m|] eqn:E2.
  { destruct (opt_rule _ _ _ _ Hfences E2) as (r & _ & Hr & E). by apply (good_plain _ _ _ _ _ Hr E). }
  destruct (exec (heading (rules_of o)) src1) as [m|] eqn:E3.
  { destruct (need_ok _ _ _ 1 Hheading1 E3) as [c1 ->]. by apply (good_plain _ _ _ _ _ Hheading E3). }
  destruct (if top then exec_opt (nptable (rules_of o)) src1 else None) as [m|] eqn:E4.
  { destruct top; [|done]. destruct (opt_rule _ _ _ _ Hnpt E4) as (r & _ & Hr & E).
    destruct (nptable_token_ok r src1 m Hr E) as (t & -> & Ht). rewrite !andb_true_iff in Hr.
    by apply (good_plain r _ _ _ _ ltac:(apply Hr) E). }
  destruct (exec (lheading (rules_of o)) src1) as [m|] eqn:E5;
    [by apply (good_plain _ _ _ _ _ Hlh E5)|].
  destruct (exec (hr (rules_of o)) src1) as [m|] eqn:E6;
    [by apply (good_plain _ _ _ _ _ Hhr E6)|].
  rewrite Eb. destruct (exec (MarkedGrammar.blockquote normal) src1) as [m|] eqn:E7; [by apply good_quote|].
  rewrite El, Ei. destruct (exec (list_rule normal) src1) as [m|] eqn:E8; [by apply good_list|].
  by apply tail_good.
Qed.
End Round.

Lemma token_loop_ok o : forall fuel top bq src st,
  nn src + 2 <= fuel -> exists st', token_loop o fuel top bq src st = Ok st' /\ adds st st'.
Proof.
  induction fuel as [|f IH]; intros top bq src st Hf; [lia|]. cbn [token_loop].
  destruct src as [|c src0] eqn:Es; [exists st; split; [done|apply adds_refl]|]. rewrite <- Es in *.
  destruct (iteration_good o (fun s t b st => token_loop o f t b (replace re_blank_line [] s) st)
    top bq (nn src)) with (src := src) (st := st) as (src' & st1 & -> & Ha & Hc); [|done|].
  { intros s t b st1 Hs. apply IH. pose proof (replace_remove_nn re_blank_line s). lia. }
  cbn [rbind]. destruct Hc as [Hc|Hc].
  - destruct (IH top bq src' st1) as (st2 & -> & Ha2); [lia|].
    exists st2. split; [done|by eapply adds_trans].
  - subst src'. destruct f as [|f]; [lia|]. exists st1. by split.
Qed.

Lemma lex_total o src :
  exists st, lex o src = Ok st /\ neutral (tokens st).
Proof.
  unfold lex, token. destruct (token_loop_ok o (S (S (length (preprocess src)))) true false
    (replace re_blank_line [] (preprocess src)) (mkL [] ∅)) as (st & -> & ts & Hts & Hn).
  - pose proof (replace_remove_nn re_blank_line (preprocess src)).
    pose proof (nn_length (preprocess src)). lia.
  - exists st. rewrite Hts. by split.
Qed.

(** ** Properties *)

(** C29. The block lexer of marked is total: on every source and with every setting
    of the options it terminates without an exception (no capture it reads is
    undefined, and the error about an infinite loop is unreachable), and its start and
    end tokens are balanced. *)
Theorem marked_lex_total (o : moptions) (src : jsstr) :
  exists st, lex o src = Ok st /\ nest [] (tokens st) = Some [].
Proof. destruct (lex_total o src) as (st & H & Hn). exists st. by split. Qed.

(** A line that starts with the letters def always ends the paragraph before it:
    in the assembled paragraph rule the last alternative is the literal text def,
    because the substitution replaced the occurrence inside the block quote rule. *)
Example paragraph_literal_def :
  (exists st, lex remark_options (js "one" ++ nl ++ js "define two") = Ok st /\
     tokens st = [TParagraph (js "one"); TParagraph (js "define two")]) /\
  (exists st, lex remark_options (js "one" ++ nl ++ js "more two") = Ok st /\
     tokens st = [TParagraph (js "one" ++ nl ++ js "more two")]).
Proof. split; eexists; (split; [vm_compute; reflexivity|reflexivity]). Qed.
