(* ===== verification/MarkedInline.v ===== *)
(** * The inline lexer and the renderer of marked (module 3)

    [output] turns inline markdown into HTML.  The lexer keeps the flag [inLink]; the
    random choices of [mangle] are read from an arbitrary sequence of coin flips. *)

From S2P Require Import Prelude JsString JsRegExp RegExpFacts RegExpCounts SlideParser MarkedGrammar.
From S2P Require Import MarkedLexer.

(** ** Helpers *)

Definition re_amp_loose : regexp := Eval vm_compute in re "&(?!#?\w+;)" "g".
Definition re_amp : regexp := Eval vm_compute in re "&" "g".
Definition re_lt : regexp := Eval vm_compute in re "<" "g".
Definition re_gt : regexp := Eval vm_compute in re ">" "g".
Definition re_quot : regexp := Eval vm_compute in re "＂" "g".
Definition re_apos : regexp := Eval vm_compute in re "'" "g".

Definition escape (html : jsstr) (encode : bool) : jsstr :=
  replace re_apos (js "&#39;") (replace re_quot (js "&quot;") (replace re_gt (js "&gt;")
    (replace re_lt (js "&lt;") (replace (if encode then re_amp else re_amp_loose) (js "&amp;") html)))).

Definition re_entity : regexp := Eval vm_compute in re "&(#(?:\d+)|(?:#x[0-9A-Fa-f]+)|(?:\w+));?" "ig".

(** [parseInt(s, 16)] of hexadecimal digits *)
Fixpoint hex_digits (acc : N) (s : jsstr) : N :=
  match s with
  | c :: t => match hex_val c with Some v => hex_digits (acc * 16 + v) t | None => acc end
  | [] => acc
  end.

Definition code_unit (n : N) : jsstr := [(n mod 65536)%N].

(** The replacement function of [unescape] for the captured name. *)
Definition entity (n : jsstr) : jsstr :=
  let n := toLowerCase n in
  if bool_decide (n = js "colon") then js ":"
  else if bool_decide (charAt n 0 = js "#") then
    if bool_decide (charAt n 1 = js "x") then code_unit (hex_digits 0 (substring_from n 2))
    else code_unit (digits_val (substring_from n 1))
  else [].

Definition unescape (html : jsstr) : jsstr :=
  replace_fun re_entity (fun m => entity (default [] (cap m 1))) html.

(** [decodeURIComponent]: percent-encoded UTF-8; [None] is a URIError. *)
Definition hex_byte (s : jsstr) : option (N * jsstr) :=
  match s with
  | 37%N :: a :: b :: t =>
      match hex_val a, hex_val b with Some x, Some y => Some ((x * 16 + y)%N, t) | _, _ => None end
  | _ => None
  end.

Fixpoint continuation (n : nat) (acc : N) (s : jsstr) : option (N * jsstr) :=
  match n with
  | O => Some (acc, s)
  | S n =>
      match hex_byte s with
      | Some (b, t) =>
          if in_range 128 191 b then continuation n (acc * 64 + (b - 128))%N t else None
      | None => None
      end
  end.

Definition utf16 (cp : N) : jsstr :=
  if (cp <? 65536)%N then [cp]
  else [(55296 + (cp - 65536) / 1024)%N; (56320 + (cp - 65536) mod 1024)%N].

Fixpoint decodeURIComponent (fuel : nat) (s : jsstr) : option jsstr :=
  match fuel with
  | O => Some []
  | S f =>
      match s with
      | [] => Some []
      | c :: t =>
          if (c =? 37)%N then
            match hex_byte s with
            | None => None
            | Some (b, t') =>
                let multi n init lo :=
                  match continuation n init t' with
                  | Some (cp, t'') =>
                      if (lo <=? cp)%N && (cp <=? 1114111)%N && negb (in_range 55296 57343 cp)
                      then app (utf16 cp) <$> decodeURIComponent f t'' else None
                  | None => None
                  end in
                if (b <? 128)%N then cons b <$> decodeURIComponent f t'
                else if in_range 192 223 b then multi 1 (b - 192)%N 128%N
                else if in_range 224 239 b then multi 2 (b - 224)%N 2048%N
                else if in_range 240 247 b then multi 3 (b - 240)%N 65536%N
                else None
            end
          else cons c <$> decodeURIComponent f t
      end
  end.

Definition re_base_root : regexp := Eval vm_compute in re "^[^:]+:\/*[^/]*$" "".
Definition re_last_part : regexp := Eval vm_compute in re "[^/]*$" "".
Definition re_after_scheme : regexp := Eval vm_compute in re ":[^]*" "".
Definition re_after_host : regexp := Eval vm_compute in re "(:\/*[^/]*)[^]*" "".
Definition originIndependentUrl : regexp := Eval vm_compute in re "^$|^[a-z][a-z0-9+.-]*:|^[?#]" "i".

(** [resolveUrl(base, href)]; the cache of bases does not change the result. *)
Definition resolveUrl (base href : jsstr) : jsstr :=
  let base := if test re_base_root base then base ++ js "/" else replace re_last_part [] base in
  if bool_decide (take 2 href = js "//") then replace re_after_scheme (js ":") base ++ href
  else if bool_decide (charAt href 0 = js "/") then replace re_after_host (js "$1") base ++ href
  else base ++ href.

(** ** Renderer *)

Definition re_nonword : regexp := Eval vm_compute in re "[^\w]+" "g".
Definition re_not_protocol : regexp := Eval vm_compute in re "[^\w:]" "g".

Section Renderer.
Context (o : moptions).

Definition r_code (code : jsstr) (lang : option jsstr) (escaped : bool) : jsstr :=
  let '(escaped, code) :=
    match o_highlight o with
    | Some highlight =>
        match highlight code lang with
        | Some out => if bool_decide (out = code) then (escaped, code) else (true, out)
        | None => (escaped, code)
        end
    | None => (escaped, code)
    end in
  let body := if escaped then code else escape code true in
  match lang with
  | Some (c :: l) =>
      js "<pre><code class=＂" ++ o_langPrefix o ++ escape (c :: l) true ++ js "＂>" ++ body
      ++ nl ++ js "</code></pre>" ++ nl
  | _ => js "<pre><code>" ++ body ++ nl ++ js "</code></pre>"
  end.

Definition r_blockquote (quote : jsstr) : jsstr := js "<blockquote>" ++ nl ++ quote ++ js "</blockquote>" ++ nl.
Definition r_html (html : jsstr) : jsstr := html.
Definition r_heading (text : jsstr) (level : nat) (raw : jsstr) : jsstr :=
  js "<h" ++ dec (N.of_nat level) ++ js " id=＂" ++ o_headerPrefix o
  ++ replace re_nonword (js "-") (toLowerCase raw) ++ js "＂>" ++ text ++ js "</h"
  ++ dec (N.of_nat level) ++ js ">" ++ nl.
Definition r_hr : jsstr := if o_xhtml o then js "<hr/>" ++ nl else js "<hr>" ++ nl.
Definition r_list (body : jsstr) (ordered : bool) : jsstr :=
  let type := if ordered then js "ol" else js "ul" in
  js "<" ++ type ++ js ">" ++ nl ++ body ++ js "</" ++ type ++ js ">" ++ nl.
Definition r_listitem (text : jsstr) : jsstr := js "<li>" ++ text ++ js "</li>" ++ nl.
Definition r_paragraph (text : jsstr) : jsstr := js "<p>" ++ text ++ js "</p>" ++ nl.
Definition r_table (header body : jsstr) : jsstr :=
  js "<table>" ++ nl ++ js "<thead>" ++ nl ++ header ++ js "</thead>" ++ nl ++ js "<tbody>" ++ nl
  ++ body ++ js "</tbody>" ++ nl ++ js "</table>" ++ nl.
Definition r_tablerow (content : jsstr) : jsstr := js "<tr>" ++ nl ++ content ++ js "</tr>" ++ nl.
Definition align_name (a : align) : option jsstr :=
  match a with
  | ARight => Some (js "right") | ACenter => Some (js "center") | ALeft => Some (js "left")
  | ANull => None
  end.
Definition r_tablecell (content : jsstr) (header : bool) (al : option align) : jsstr :=
  let type := if header then js "th" else js "td" in
  let tag := match al ≫= align_name with
             | Some a => js "<" ++ type ++ js " style=＂text-align:" ++ a ++ js "＂>"
             | None => js "<" ++ type ++ js ">"
             end in
  tag ++ content ++ js "</" ++ type ++ js ">" ++ nl.
Definition r_strong (text : jsstr) : jsstr := js "<strong>" ++ text ++ js "</strong>".
Definition r_em (text : jsstr) : jsstr := js "<em>" ++ text ++ js "</em>".
Definition r_codespan (text : jsstr) : jsstr := js "<code>" ++ text ++ js "</code>".
Definition r_br : jsstr := if o_xhtml o then js "<br/>" else js "<br>".
Definition r_del (text : jsstr) : jsstr := js "<del>" ++ text ++ js "</del>".

Definition resolve (href : jsstr) : jsstr :=
  match o_baseUrl o with
  | Some (c :: b) => if test originIndependentUrl href then href else resolveUrl (c :: b) href
  | _ => href
  end.

(** [title] as it is tested: null, undefined and the empty text are false. *)
Definition title_attr (title : option jsstr) : jsstr :=
  match title with
  | Some (c :: t) => js " title=＂" ++ (c :: t) ++ js "＂"
  | _ => []
  end.

(** Whether a sanitized link is refused. *)
Definition unsafe_protocol (href : jsstr) : bool :=
  match decodeURIComponent (S (length (unescape href))) (unescape href) with
  | None => true
  | Some d =>
      let prot := toLowerCase (replace re_not_protocol [] d) in
      let starts p := bool_decide (indexOf prot (js p) = Some 0) in
      starts "javascript:" || starts "vbscript:" || starts "data:"
  end.

Definition r_link (href : jsstr) (title : option jsstr) (text : jsstr) : jsstr :=
  if o_sanitize o && unsafe_protocol href then []
  else js "<a href=＂" ++ resolve href ++ js "＂" ++ title_attr title ++ js ">" ++ text ++ js "</a>".

Definition r_image (href : jsstr) (title : option jsstr) (text : jsstr) : jsstr :=
  js "<img src=＂" ++ resolve href ++ js "＂ alt=＂" ++ text ++ js "＂" ++ title_attr title
  ++ (if o_xhtml o then js "/>" else js ">").

Definition r_text (text : jsstr) : jsstr := text.
End Renderer.

(** ** InlineLexer *)

Definition re_mdash : regexp := Eval vm_compute in re "---" "g".
Definition re_ndash : regexp := Eval vm_compute in re "--" "g".
Definition re_open_single : regexp := Eval vm_compute in re "(^|[-\u2014/(\[{＂\s])'" "g".
Definition re_open_double : regexp := Eval vm_compute in re "(^|[-\u2014/(\[{\u2018\s])＂" "g".
Definition re_dots : regexp := Eval vm_compute in re "\.{3}" "g".
Definition re_a_open : regexp := Eval vm_compute in re "^<a " "i".
Definition re_a_close : regexp := Eval vm_compute in re "^<\/a>" "i".
Definition re_spaces : regexp := Eval vm_compute in re "\s+" "g".

Definition hex_digit (d : N) : N := if (d <? 10)%N then (48 + d)%N else (87 + d)%N.

Fixpoint hex_go (fuel : nat) (n : N) (acc : jsstr) : jsstr :=
  match fuel with
  | O => acc
  | S f =>
      let acc' := hex_digit (n mod 16) :: acc in
      if (n <? 16)%N then acc' else hex_go f (n / 16)%N acc'
  end.

(** [n.toString(16)] *)
Definition hex (n : N) : jsstr := hex_go (S (N.to_nat (N.log2 n))) n [].

(** The field [inLink], and how many times [Math.random] has been called. *)
Record istate := mkI { inLink : bool; draws : nat }.

Definition with_inLink (b : bool) (st : istate) : istate := mkI b (draws st).

Section Inline.
Context (o : moptions) (ls : gmap jsstr link).
(** Whether the [n]-th call of [Math.random] gives more than 0.5. *)
Context (coin : nat -> bool).

(** The rules the constructor chooses. *)
Definition inline_rules_of : inline_rules :=
  if o_gfm o then if o_breaks o then inline_breaks else inline_gfm
  else if o_pedantic o then inline_pedantic else inline_normal.

Let rules := inline_rules_of.

Definition smartypants (text : jsstr) : jsstr :=
  if negb (o_smartypants o) then text else
  replace re_dots [8230%N]
  (replace re_quot [8221%N]
  (replace re_open_double (js "$1" ++ [8220%N])
  (replace re_apos [8217%N]
  (replace re_open_single (js "$1" ++ [8216%N])
  (replace re_ndash [8211%N]
  (replace re_mdash [8212%N] text)))))).

(** One code unit of [mangle]: a decimal or a hexadecimal character reference. *)
Definition mangle_char (draw : nat) (c : N) : jsstr :=
  js "&#" ++ (if coin draw then js "x" ++ hex c else dec c) ++ js ";".

Fixpoint mangle_from (draw : nat) (text : jsstr) : jsstr :=
  match text with
  | [] => []
  | c :: t => mangle_char draw c ++ mangle_from (S draw) t
  end.

Definition mangle (text : jsstr) (st : istate) : jsstr * istate :=
  if negb (o_mangle o) then (text, st)
  else (mangle_from (draws st) text, mkI (inLink st) (draws st + length text)).

(** [cap[2] || cap[1]] *)
Definition either (m : mres) : option jsstr :=
  match cap m 2 with Some (c :: t) => Some (c :: t) | _ => cap m 1 end.

Definition iout := result (jsstr * istate).

(** [self] is [this.output]; the output of undefined is the empty text. *)
Definition outputLink (self : jsstr -> istate -> iout) (m : mres) (l : link) (st : istate) : iout :=
  let! h := need (l_href l) in
  let href := escape h false in
  let title := match l_title l with Some (c :: t) => Some (escape (c :: t) false) | _ => None end in
  if negb (bool_decide (charAt (cap0 m) 0 = js "!"))
  then let! (text, st) := self (default [] (cap m 1)) st in Ok (r_link o href title text, st)
  else let! alt := need (cap m 1) in Ok (r_image o href title (escape alt false), st).

(** A link whose target was found: inside it no other link is recognised. *)
Definition in_link (self : jsstr -> istate -> iout) (m : mres) (l : link) (st : istate) : iout :=
  let! (t, st) := outputLink self m l (with_inLink true st) in Ok (t, with_inLink false st).

(** An address between angle brackets. *)
Definition autolink (m : mres) (st : istate) : iout :=
  if bool_decide (cap m 2 = Some (js "@")) then
    let! c1 := need (cap m 1) in
    let '(t, st) := mangle (if bool_decide (charAt c1 6 = js ":") then drop 7 c1 else c1) st in
    let text := escape t false in
    let '(mailto, st) := mangle (js "mailto:") st in
    Ok (r_link o (mailto ++ text) None text, st)
  else
    let! c1 := need (cap m 1) in
    let text := escape c1 false in
    Ok (r_link o text None text, st).

(** The flag [inLink] after an HTML tag. *)
Definition tag_state (tag : jsstr) (st : istate) : istate :=
  if negb (inLink st) && test re_a_open tag then with_inLink true st
  else if inLink st && test re_a_close tag then with_inLink false st
  else st.

(** The reference of a link, and its definition. *)
Definition ref_link (m : mres) : result (option link) :=
  let! name := need (either m) in
  Ok (match ls !! toLowerCase (replace re_spaces (js " ") name) with
      | Some l => match l_href l with Some (_ :: _) => Some l | _ => None end
      | None => None
      end).

Definition first_of (a b : option mres) : option mres := match a with Some m => Some m | None => b end.

(** One round of the loop of [output]: what is left of the source, what is added to
    the output, and the new state. *)
Definition inline_round (self : jsstr -> istate -> iout) (src : jsstr) (st : istate)
    : result (jsstr * jsstr * istate) :=
  match exec (i_escape rules) src with
  | Some m => let! c1 := need (cap m 1) in Ok (rest_of m src, c1, st)
  | None =>
  match exec (i_autolink rules) src with
  | Some m => let! (t, st) := autolink m st in Ok (rest_of m src, t, st)
  | None =>
  match (if inLink st then None else exec_opt (i_url rules) src) with
  | Some m =>
      let! c1 := need (cap m 1) in
      let text := escape c1 false in
      Ok (rest_of m src, r_link o text None text, st)
  | None =>
  match exec (i_tag rules) src with
  | Some m =>
      Ok (rest_of m src, if o_sanitize o then escape (cap0 m) false else cap0 m, tag_state (cap0 m) st)
  | None =>
  match exec (i_link rules) src with
  | Some m =>
      let! (t, st) := in_link self m (mkLink (cap m 2) (cap m 3)) st in Ok (rest_of m src, t, st)
  | None =>
  match first_of (exec (i_reflink rules) src) (exec (i_nolink rules) src) with
  | Some m =>
      let! l := ref_link m in
      match l with
      | None => Ok (drop 1 (cap0 m) ++ rest_of m src, charAt (cap0 m) 0, st)
      | Some l => let! (t, st) := in_link self m l st in Ok (rest_of m src, t, st)
      end
  | None =>
  match exec (i_strong rules) src with
  | Some m => let! (t, st) := self (default [] (either m)) st in Ok (rest_of m src, r_strong t, st)
  | None =>
  match exec (i_em rules) src with
  | Some m => let! (t, st) := self (default [] (either m)) st in Ok (rest_of m src, r_em t, st)
  | None =>
  match exec (i_code rules) src with
  | Some m => let! c2 := need (cap m 2) in Ok (rest_of m src, r_codespan (escape (trim c2) true), st)
  | None =>
  match exec (i_br rules) src with
  | Some m => Ok (rest_of m src, r_br o, st)
  | None =>
  match exec_opt (i_del rules) src with
  | Some m => let! (t, st) := self (default [] (cap m 1)) st in Ok (rest_of m src, r_del t, st)
  | None =>
  match exec (i_text rules) src with
  | Some m => Ok (rest_of m src, r_text (escape (smartypants (cap0 m)) false), st)
  | None =>
      match src with
      | [] => Ok ([], [], st)
      | c :: _ => Throw (Error (js "Infinite loop on byte: " ++ dec c))
      end
  end end end end end end end end end end end end.

Fixpoint output_loop (fuel : nat) (src out : jsstr) (st : istate) : iout :=
  match fuel with
  | O => OutOfFuel
  | S f =>
      match src with
      | [] => Ok (out, st)
      | _ =>
          let! (src', t, st') := inline_round (fun s st => output_loop f s [] st) src st in
          output_loop f src' (out ++ t) st'
      end
  end.

(** [this.output(src)] *)
Definition output (src : jsstr) (st : istate) : iout := output_loop (S (length src)) src [] st.
End Inline.

(** ** Totality *)

Definition inline_ok (r : regexp) : bool :=
  anchored (re_node r) && negb (f_multi (re_flags r)) && (1 <=? min_len (re_node r))%nat.

(** Capture [n] is shorter than the match. *)
Definition inner (n : nat) (r : regexp) : bool :=
  (1 <=? n)%nat && negb (bool_decide (n ∈ look_groups (re_node r))) && (1 <=? slack n (re_node r))%nat.

Lemma inline_consumes r src m :
  inline_ok r = true -> exec r src = Some m ->
  src = cap0 m ++ rest_of m src /\ 1 <= length (cap0 m) /\
  length src = length (cap0 m) + length (rest_of m src).
Proof.
  unfold inline_ok. rewrite !andb_true_iff, negb_true_iff, Nat.leb_le. intros [[Ha Hm] Hl] E.
  destruct (exec_anchored_inv _ _ _ Ha Hm E) as (_ & Hn & Hs). split; [done|]. unfold rest_of.
  split; [lia|]. by rewrite Hs at 1; rewrite length_app.
Qed.

Lemma inner_shorter r src m n :
  inline_ok r = true -> inner n r = true -> exec r src = Some m ->
  length (default [] (cap m n)) < length src.
Proof.
  intros Hr Hi E. destruct (inline_consumes _ _ _ Hr E) as (_ & H1 & H2).
  unfold inner in Hi. rewrite !andb_true_iff, negb_true_iff, !Nat.leb_le, bool_decide_eq_false in Hi.
  destruct Hi as [[Hn Hl] Hs]. destruct (cap m n) as [w|] eqn:Ew; simpl; [|lia].
  assert (n <> 0) as Hn0 by lia. pose proof (exec_cap _ _ _ _ _ E Hn0 Hl Ew). lia.
Qed.

Lemma either_shorter r src m :
  inline_ok r = true -> inner 1 r = true -> inner 2 r = true -> exec r src = Some m ->
  length (default [] (either m)) < length src.
Proof.
  intros Hr H1 H2 E. pose proof (inner_shorter _ _ _ _ Hr H1 E). pose proof (inner_shorter _ _ _ _ Hr H2 E).
  unfold either. destruct (cap m 2) as [[|? ?]|]; simpl in *; lia.
Qed.

(** The rules of every configuration: what is read of their captures. *)
Definition inline_rules_ok (r : inline_rules) : bool :=
  inline_ok (i_escape r) && has 1 (i_escape r)
  && inline_ok (i_autolink r) && has 1 (i_autolink r)
  && opt_ok (fun u => inline_ok u && has 1 u) (i_url r)
  && inline_ok (i_tag r)
  && (inline_ok (i_link r) && has 1 (i_link r) && has 2 (i_link r) && inner 1 (i_link r))
  && (inline_ok (i_reflink r) && has 1 (i_reflink r) && inner 1 (i_reflink r))
  && (inline_ok (i_nolink r) && has 1 (i_nolink r) && inner 1 (i_nolink r))
  && (inline_ok (i_strong r) && inner 1 (i_strong r) && inner 2 (i_strong r))
  && (inline_ok (i_em r) && inner 1 (i_em r) && inner 2 (i_em r))
  && (inline_ok (i_code r) && has 2 (i_code r))
  && inline_ok (i_br r)
  && opt_ok (fun d => inline_ok d && inner 1 d) (i_del r)
  && inline_ok (i_text r).

Lemma inline_rules_of_ok o : inline_rules_ok (inline_rules_of o) = true.
Proof.
  unfold inline_rules_of. destruct (o_gfm o), (o_breaks o), (o_pedantic o); vm_compute; reflexivity.
Qed.

(** The text rule matches every text that is not empty. *)
Definition any_class : list (bool * list (N * N)) := [(false, space_ranges); (true, space_ranges)].

Fixpoint alt_eol (r : regex) : bool :=
  match r with REol => true | RAlt a b => alt_eol a || alt_eol b | _ => false end.

Lemma any_class_match fl c : class_match fl false any_class c = true.
Proof.
  unfold class_match, in_items, any_class. cbn [existsb].
  destruct (in_ranges space_ranges c); by rewrite ?orb_true_r.
Qed.

Lemma alt_eol_matches fl r s : alt_eol r = true -> st_rest s = [] -> Matches fl r s s.
Proof.
  intros Hr Hs. induction r; simpl in Hr; try done.
  - apply orb_prop in Hr as [Hr|Hr]; [apply M_alt_l|apply M_alt_r]; auto.
  - apply M_eol. unfold at_eol. by rewrite Hs.
Qed.

Lemma any_run fl g : forall w s mn, st_rest s = w -> mn <= length w ->
  exists s', Matches fl (RRep (RClass false any_class) mn None g) s s' /\ st_rest s' = [].
Proof.
  induction w as [|c w IH]; intros s mn Hs Hm.
  - simpl in Hm. exists s. split; [apply M_rep_done; left; lia|done].
  - destruct (IH (mkState (S (st_pos s)) (Some c) w (st_caps s)) (Nat.pred mn)) as (s' & HM & Hr);
      [done|simpl in Hm; lia|].
    exists s'. split; [|done]. eapply M_rep_iter; [done| | |exact HM]; [|simpl; lia].
    apply M_class with c; [unfold advance; simpl; by rewrite Hs|apply any_class_match].
Qed.

Lemma text_rule_found r look c src :
  re_node r = RSeq RBol (RSeq (RRep (RClass false any_class) 1 None false) (RLook false look)) ->
  groups look = [] -> alt_eol look = true -> exec r (c :: src) <> None.
Proof.
  intros Hn Hg Hl. unfold exec.
  destruct (any_run (re_flags r) false (c :: src) (init_state r 0 None (c :: src)) 1) as (s' & HM & Hr);
    [done|simpl; lia|].
  destruct (match_here_found r 0 None (c :: src)) as [m Hm].
  - rewrite Hn. eapply mtch_complete; [cbn [groups]; by rewrite Hg|..].
    + eapply M_seq; [by apply M_bol|]. eapply M_seq; [exact HM|]. apply M_look.
      by apply alt_eol_matches.
    + done.
  - intros E. cbn [exec_from] in E. by rewrite Hm in E.
Qed.

Lemma text_found_inline o c src : exec (i_text (inline_rules_of o)) (c :: src) <> None.
Proof.
  unfold inline_rules_of. destruct (o_gfm o), (o_breaks o), (o_pedantic o);
    by eapply text_rule_found.
Qed.

Section InlineTotal.
Context (o : moptions) (ls : gmap jsstr link) (coin : nat -> bool).
Context (self : jsstr -> istate -> iout) (N0 : nat).
Context (Hself : forall s st, length s < N0 -> exists r, self s st = Ok r).

Lemma self_ok (f : jsstr -> jsstr) s st (src' : jsstr) :
  length s < N0 -> exists t st', (let! (t, st) := self s st in Ok (src', f t, st)) = Ok (src', t, st').
Proof. intros Hs. destruct (Hself s st Hs) as [[t st'] ->]. by eexists _, _. Qed.

Lemma in_link_ok m l st :
  l_href l <> None -> cap m 1 <> None -> length (default [] (cap m 1)) < N0 ->
  exists r, in_link o self m l st = Ok r.
Proof.
  intros Hh H1 Hl. unfold in_link, outputLink.
  destruct (l_href l) as [h|]; [|done]. cbn [need rbind]. case_match.
  - destruct (Hself (default [] (cap m 1)) (with_inLink true st) Hl) as [[t st'] ->]. simpl. eauto.
  - destruct (cap m 1) as [w|]; [|done]. simpl. eauto.
Qed.

Lemma autolink_ok m st : cap m 1 <> None -> exists r, autolink o coin m st = Ok r.
Proof.
  intros H1. unfold autolink. destruct (cap m 1) as [w|]; [|done]. cbn [need rbind].
  case_bool_decide; [|eauto]. destruct (mangle _ _ _ _) as [t st1]. destruct (mangle _ _ _ _). eauto.
Qed.

Lemma has_cap n r src m : has n r = true -> exec r src = Some m -> cap m n <> None.
Proof. intros Hh E. by destruct (exec_sets r src m n E Hh) as [w ->]. Qed.

(** A round succeeds and leaves a shorter source. *)
Definition shrinks (src : jsstr) (r : result (jsstr * jsstr * istate)) : Prop :=
  exists src' t st', r = Ok (src', t, st') /\ length src' < length src.

Lemma shrinks_rest r src m t st :
  inline_ok r = true -> exec r src = Some m -> shrinks src (Ok (rest_of m src, t, st)).
Proof.
  intros Hr E. destruct (inline_consumes _ _ _ Hr E) as (_ & H1 & H2). eexists _, _, _. split; [done|lia].
Qed.

Lemma shrinks_self r src m s (f : jsstr -> jsstr) st :
  inline_ok r = true -> exec r src = Some m -> length s < length src -> length src <= N0 ->
  shrinks src (let! (t, st) := self s st in Ok (rest_of m src, f t, st)).
Proof.
  intros Hr E Hs HN. destruct (Hself s st ltac:(lia)) as [[t st'] ->]. by apply (shrinks_rest r).
Qed.

Lemma shrinks_link r src m l st :
  inline_ok r = true -> has 1 r = true -> inner 1 r = true -> exec r src = Some m -> length src <= N0 ->
  l_href l <> None ->
  shrinks src (let! (t, st) := in_link o self m l st in Ok (rest_of m src, t, st)).
Proof.
  intros Hr H1 Hi E HN Hl. pose proof (inner_shorter _ _ _ _ Hr Hi E).
  destruct (in_link_ok m l st Hl (has_cap _ _ _ _ H1 E) ltac:(lia)) as [[t st'] ->].
  by apply (shrinks_rest r).
Qed.

Lemma shrinks_ref r src m st :
  inline_ok r = true -> has 1 r = true -> inner 1 r = true -> exec r src = Some m -> length src <= N0 ->
  shrinks src (let! l := ref_link ls m in
    match l with
    | None => Ok (drop 1 (cap0 m) ++ rest_of m src, charAt (cap0 m) 0, st)
    | Some l => let! (t, st) := in_link o self m l st in Ok (rest_of m src, t, st)
    end).
Proof.
  intros Hr H1 Hi E HN.
  unfold ref_link. assert (exists w, need (either m) = Ok w) as [w ->].
  { pose proof (has_cap _ _ _ _ H1 E). unfold either.
    destruct (cap m 2) as [[|? ?]|], (cap m 1); simpl; eauto; done. }
  cbn [rbind]. set (l := match ls !! _ with Some _ => _ | None => _ end).
  assert (Hl : forall l', l = Some l' -> l_href l' <> None).
  { intros l'. subst l. repeat case_match; try done. intros [= <-]. congruence. }
  destruct l as [l|]; [by apply (shrinks_link r); auto|].
  destruct (inline_consumes _ _ _ Hr E) as (_ & H2 & H3).
  eexists _, _, _. split; [done|]. rewrite length_app, length_drop. lia.
Qed.

Lemma inline_round_ok src st :
  src <> [] -> length src <= N0 -> shrinks src (inline_round o ls coin self src st).
Proof.
  intros Hne HN. pose proof (inline_rules_of_ok o) as Hok. unfold inline_rules_ok in Hok.
  rewrite !andb_true_iff in Hok.
  destruct Hok as [[[[[[[[[[[[[[Hesc Hesc1] Hauto] Hauto1] Hurl] Htag] [[[Hlk Hlk1] Hlk2] Hlk3]]
    [[Hrl Hrl1] Hrl2]] [[Hnl Hnl1] Hnl2]] [[Hst Hst1] Hst2]] [[Hem Hem1] Hem2]] [Hco Hco2]] Hbr] Hdel] Htext].
  unfold inline_round.
  destruct (exec (i_escape _) src) as [m|] eqn:E1.
  { destruct (need_ok _ _ _ 1 Hesc1 E1) as [c ->]. by apply (shrinks_rest _ _ _ _ _ Hesc E1). }
  destruct (exec (i_autolink _) src) as [m|] eqn:E2.
  { destruct (autolink_ok m st (has_cap _ _ _ _ Hauto1 E2)) as [[t st'] ->].
    by apply (shrinks_rest _ _ _ _ _ Hauto E2). }
  destruct (if inLink st then None else _) as [m|] eqn:E3.
  { destruct (inLink st); [done|]. destruct (opt_rule _ _ _ _ Hurl E3) as (r & _ & Hr & E).
    apply andb_true_iff in Hr as [Hr Hr1].
    destruct (need_ok _ _ _ 1 Hr1 E) as [c ->]. by apply (shrinks_rest _ _ _ _ _ Hr E). }
  destruct (exec (i_tag _) src) as [m|] eqn:E4; [by apply (shrinks_rest _ _ _ _ _ Htag E4)|].
  destruct (exec (i_link _) src) as [m|] eqn:E5.
  { apply (shrinks_link _ _ _ _ _ Hlk Hlk1 Hlk3 E5 HN).
    by apply (has_cap _ _ _ _ Hlk2 E5). }
  destruct (exec (i_reflink _) src) as [m|] eqn:E6; cbn [first_of].
  { by apply (shrinks_ref _ _ _ _ Hrl Hrl1 Hrl2 E6 HN). }
  destruct (exec (i_nolink _) src) as [m|] eqn:E7.
  { by apply (shrinks_ref _ _ _ _ Hnl Hnl1 Hnl2 E7 HN). }
  destruct (exec (i_strong _) src) as [m|] eqn:E8.
  { apply (shrinks_self _ _ _ _ r_strong _ Hst E8); [apply (either_shorter _ _ _ Hst Hst1 Hst2 E8)|done]. }
  destruct (exec (i_em _) src) as [m|] eqn:E9.
  { apply (shrinks_self _ _ _ _ r_em _ Hem E9); [apply (either_shorter _ _ _ Hem Hem1 Hem2 E9)|done]. }
  destruct (exec (i_code _) src) as [m|] eqn:E10.
  { destruct (need_ok _ _ _ 2 Hco2 E10) as [c ->]. by apply (shrinks_rest _ _ _ _ _ Hco E10). }
  destruct (exec (i_br _) src) as [m|] eqn:E11; [by apply (shrinks_rest _ _ _ _ _ Hbr E11)|].
  destruct (exec_opt (i_del _) src) as [m|] eqn:E12.
  { destruct (opt_rule _ _ _ _ Hdel E12) as (r & _ & Hr & E). apply andb_true_iff in Hr as [Hr Hr1].
    apply (shrinks_self _ _ _ _ r_del _ Hr E); [apply (inner_shorter _ _ _ _ Hr Hr1 E)|done]. }
  destruct (exec (i_text _) src) as [m|] eqn:E13; [by apply (shrinks_rest _ _ _ _ _ Htext E13)|].
  destruct src as [|c t]; [done|]. by destruct (text_found_inline o c t).
Qed.
End InlineTotal.

Lemma output_loop_ok o ls coin : forall fuel src out st,
  length src < fuel -> exists r, output_loop o ls coin fuel src out st = Ok r.
Proof.
  induction fuel as [|f IH]; intros src out st Hf; [lia|]. cbn [output_loop].
  destruct src as [|c t] eqn:Es; [eauto|]. rewrite <- Es in *.
  destruct (inline_round_ok o ls coin (fun s st => output_loop o ls coin f s [] st) (length src))
    with (src := src) (st := st) as (src' & t' & st' & -> & Hl); [|by rewrite Es|done|].
  - intros s st1 Hs. apply IH. lia.
  - cbn [rbind]. apply IH. lia.
Qed.

Lemma output_total o ls coin src st : exists html st', output o ls coin src st = Ok (html, st').
Proof.
  unfold output. destruct (output_loop_ok o ls coin (S (length src)) src [] st) as [[h st'] H]; [lia|].
  by eexists _, _.
Qed.

(** ** Escaping *)

(** What [escape(html, true)] makes of one code unit. *)
Definition esc_char (c : N) : jsstr :=
  if (c =? 38)%N then js "&amp;" else if (c =? 60)%N then js "&lt;" else if (c =? 62)%N then js "&gt;"
  else if (c =? 34)%N then js "&quot;" else if (c =? 39)%N then js "&#39;" else [c].

Lemma subst1_flat c w s :
  subst1 (fun x _ => (x =? c)%N) w s = flat_map (fun x => if (x =? c)%N then w else [x]) s.
Proof. induction s as [|x s IH]; [done|]. cbn [subst1 flat_map]. by rewrite IH. Qed.

Lemma flat_map_flat_map {A B C} (f : B -> list C) (g : A -> list B) l :
  flat_map f (flat_map g l) = flat_map (fun x => flat_map f (g x)) l.
Proof. induction l as [|x l IH]; [done|]. cbn [flat_map]. by rewrite List.flat_map_app, IH. Qed.

Lemma escape_encode s : escape s true = flat_map esc_char s.
Proof.
  unfold escape.
  rewrite (replace_char re_amp 38 (js "&amp;")), (replace_char re_lt 60 (js "&lt;")),
    (replace_char re_gt 62 (js "&gt;")), (replace_char re_quot 34 (js "&quot;")),
    (replace_char re_apos 39 (js "&#39;")) by (done || by apply (bool_decide_unpack _)).
  rewrite !subst1_flat, !flat_map_flat_map. apply List.flat_map_ext. intros c. unfold esc_char.
  destruct (N.eqb_spec c 38) as [->|H1]; [done|].
  destruct (N.eqb_spec c 60) as [->|H2]; [done|].
  destruct (N.eqb_spec c 62) as [->|H3]; [done|].
  destruct (N.eqb_spec c 34) as [->|H4]; [done|].
  destruct (N.eqb_spec c 39) as [->|H5]; [done|].
  repeat (cbn [flat_map app]; rewrite ?(proj2 (N.eqb_neq c _)) by done). done.
Qed.

(** The first code units of an escaped character tell which one it is. *)
Definition unesc (s : jsstr) : option (N * jsstr) :=
  match s with
  | [] => None
  | c :: t =>
      if negb (c =? 38)%N then Some (c, t) else
      match t with
      | [] => None
      | d :: _ =>
          Some (if (d =? 97)%N then (38%N, drop 5 s) else if (d =? 108)%N then (60%N, drop 4 s)
                else if (d =? 103)%N then (62%N, drop 4 s) else if (d =? 113)%N then (34%N, drop 6 s)
                else (39%N, drop 5 s))
      end
  end.

Lemma unesc_esc c t : unesc (esc_char c ++ t) = Some (c, t).
Proof.
  unfold esc_char.
  destruct (N.eqb_spec c 38) as [->|H1]; [by destruct t|].
  destruct (N.eqb_spec c 60) as [->|H2]; [by destruct t|].
  destruct (N.eqb_spec c 62) as [->|H3]; [by destruct t|].
  destruct (N.eqb_spec c 34) as [->|H4]; [by destruct t|].
  destruct (N.eqb_spec c 39) as [->|H5]; [by destruct t|].
  simpl. by rewrite (proj2 (N.eqb_neq c 38)).
Qed.

Lemma flat_map_esc_inj s : forall t, flat_map esc_char s = flat_map esc_char t -> s = t.
Proof.
  induction s as [|c s IH]; intros [|d t] H; cbn [flat_map] in H; [done| | |].
  - pose proof (unesc_esc d (flat_map esc_char t)) as E. by rewrite <- H in E.
  - pose proof (unesc_esc c (flat_map esc_char s)) as E. by rewrite H in E.
  - pose proof (unesc_esc c (flat_map esc_char s)) as E. rewrite H, unesc_esc in E.
    injection E as <- E. f_equal. by apply IH.
Qed.

(** The code units that could end an attribute value or open a tag. *)
Definition markup_chars : list N := [60; 62; 34; 39]%N.

Lemma esc_char_safe c x : x ∈ markup_chars -> x ∉ esc_char c.
Proof.
  intros Hx. unfold esc_char.
  repeat (case_match; [revert Hx; unfold markup_chars, js; cbn; set_solver by lia|]).
  rewrite list_elem_of_singleton. intros ->. unfold markup_chars in Hx.
  repeat match goal with H : (_ =? _)%N = false |- _ => apply N.eqb_neq in H end. set_solver.
Qed.

(** ** Properties *)

(** The inline lexer is total: for every source, every setting of the options, all
    links and whatever the random choices, [output] terminates without an exception. *)
Theorem inline_output_total (o : moptions) (ls : gmap jsstr link) (coin : nat -> bool) (src : jsstr)
    (st : istate) :
  exists html st', output o ls coin src st = Ok (html, st').
Proof. apply output_total. Qed.

(** C37. Escaped text is inert and unambiguous: the result of [escape] with encoding has
    no angle bracket and no quotation mark, and different texts have different
    results. *)
Theorem escape_inert (s : jsstr) :
  Forall (fun c => c ∉ markup_chars) (escape s true) /\
  forall t, escape s true = escape t true -> s = t.
Proof.
  rewrite escape_encode. split.
  - induction s as [|c s IH]; [constructor|]. cbn [flat_map]. apply Forall_app. split; [|exact IH].
    apply Forall_forall. intros x Hx Hm. by apply (esc_char_safe c x).
  - intros t. rewrite escape_encode. apply flat_map_esc_inj.
Qed.
