(* ===== verification/MarkedParser.v ===== *)
(** * The parser of marked, [marked] itself and the converter (modules 3 and 13)

    The parser turns the tokens of the block lexer into HTML.  Its loops look for an
    end token and throw when the tokens run out; on balanced tokens they never do. *)

From S2P Require Import Prelude JsString JsRegExp RegExpFacts RegExpCounts SlideParser MarkedGrammar.
From S2P Require Import MarkedLexer MarkedInline.

(** ** Parser *)

Section Parser.
Context (o : moptions) (ls : gmap jsstr link) (coin : nat -> bool).

Abbreviation inline s st := (output o ls coin s st).

(** What is left of [this.tokens], in reading order, is threaded through the calls. *)
Definition pout := result (jsstr * list mtoken * istate).

(** [out += this.tok()], where no result is the text undefined *)
Definition or_undefined (w : option jsstr) : jsstr := default (js "undefined") w.

Fixpoint gather_text (body : jsstr) (ts : list mtoken) : jsstr * list mtoken :=
  match ts with
  | TText text :: ts => gather_text (body ++ nl ++ text) ts
  | _ => (body, ts)
  end.

(** [parseText], for the current token's text *)
Definition parseText (text : jsstr) (ts : list mtoken) (st : istate) : pout :=
  let '(body, ts) := gather_text text ts in
  let! (h, st) := inline body st in Ok (h, ts, st).

(** The cells of a row, from index [j]. *)
Fixpoint parse_cells (header : bool) (aligns : list align) (row : list jsstr) (j : nat) (acc : jsstr)
    (st : istate) : iout :=
  match row with
  | [] => Ok (acc, st)
  | c :: row =>
      let! (h, st) := inline c st in
      parse_cells header aligns row (S j) (acc ++ r_tablecell h header (aligns !! j)) st
  end.

Fixpoint parse_rows (aligns : list align) (rows : list (list jsstr)) (acc : jsstr) (st : istate) : iout :=
  match rows with
  | [] => Ok (acc, st)
  | row :: rows =>
      let! (cells, st) := parse_cells false aligns row 0 [] st in
      parse_rows aligns rows (acc ++ r_tablerow cells) st
  end.

Definition parse_table (header : list jsstr) (aligns : list align) (rows : list (list jsstr))
    (st : istate) : iout :=
  let! (cells, st) := parse_cells true aligns header 0 [] st in
  let! (body, st) := parse_rows aligns rows [] st in
  Ok (r_table (r_tablerow cells) body, st).

Definition ends_quote (t : mtoken) : bool := match t with TBlockquoteEnd => true | _ => false end.
Definition ends_list (t : mtoken) : bool := match t with TListEnd => true | _ => false end.
Definition ends_item (t : mtoken) : bool := match t with TListItemEnd => true | _ => false end.

(** [while (this.next().type !== stop) body += this.tok()]; [tok] is the method; with
    [texts], text tokens are parsed without a paragraph.  [n] bounds the tokens read. *)
Fixpoint until (tok : mtoken -> list mtoken -> istate -> result (option jsstr * list mtoken * istate))
    (stop : mtoken -> bool) (texts : bool) (n : nat) (body : jsstr) (ts : list mtoken) (st : istate) : pout :=
  match n with
  | O => OutOfFuel
  | S n =>
      match ts with
      | [] => Throw (TypeError (js "Cannot read property 'type' of undefined"))
      | t :: ts =>
          if stop t then Ok (body, ts, st) else
          match texts, t with
          | true, TText text =>
              let! (h, ts, st) := parseText text ts st in
              until tok stop texts n (body ++ h) ts st
          | _, _ =>
              let! (h, ts, st) := tok t ts st in
              until tok stop texts n (body ++ or_undefined h) ts st
          end
      end
  end.

(** [tok], for the current token; an end token gives undefined. *)
Fixpoint tok (fuel : nat) (t : mtoken) (ts : list mtoken) (st : istate)
    : result (option jsstr * list mtoken * istate) :=
  match fuel with
  | O => OutOfFuel
  | S f =>
      let html (r : iout) (k : jsstr -> jsstr) := let! (h, st) := r in Ok (Some (k h), ts, st) in
      let body stop texts k :=
        let! (h, ts, st) := until (tok f) stop texts (S (length ts)) [] ts st in Ok (Some (k h), ts, st) in
      match t with
      | TSpace => Ok (Some [], ts, st)
      | THr => Ok (Some (r_hr o), ts, st)
      | THeading depth text => html (inline text st) (fun h => r_heading o h depth text)
      | TCode lang text escaped => Ok (Some (r_code o text lang escaped), ts, st)
      | TTable header aligns cells => html (parse_table header aligns cells st) (fun h => h)
      | TBlockquoteStart => body ends_quote false r_blockquote
      | TListStart ordered => body ends_list false (fun h => r_list h ordered)
      | TListItemStart => body ends_item true r_listitem
      | TLooseItemStart => body ends_item false r_listitem
      | THtml pre text =>
          if negb pre && negb (o_pedantic o) then html (inline text st) r_html
          else Ok (Some (r_html text), ts, st)
      | TParagraph text => html (inline text st) r_paragraph
      | TText text => let! (h, ts, st) := parseText text ts st in Ok (Some (r_paragraph h), ts, st)
      | TBlockquoteEnd | TListEnd | TListItemEnd => Ok (None, ts, st)
      end
  end.

(** The loop of [parse]. *)
Fixpoint parse_loop (n : nat) (out : jsstr) (ts : list mtoken) (st : istate) : result (jsstr * istate) :=
  match n with
  | O => OutOfFuel
  | S n =>
      match ts with
      | [] => Ok (out, st)
      | t :: ts =>
          let! (h, ts', st) := tok (S (length ts)) t ts st in
          parse_loop n (out ++ or_undefined h) ts' st
      end
  end.

(** [Parser.parse(tokens, options)] with a new inline lexer, after [d] calls of
    [Math.random]; the number of calls is returned with the HTML. *)
Definition parse_from (d : nat) (ts : list mtoken) : result (jsstr * nat) :=
  let! (out, st) := parse_loop (S (length ts)) [] ts (mkI false d) in Ok (out, draws st).

Definition parse (ts : list mtoken) : result jsstr := let! (out, _) := parse_from 0 ts in Ok out.
End Parser.

(** ** Parsing balanced tokens *)

Definition stop_of (k : bsym) : mtoken -> bool :=
  match k with BQuote => ends_quote | BList => ends_list | BItem => ends_item end.

Definition is_end (t : mtoken) : bool := ends_quote t || ends_list t || ends_item t.

(** With [k] open, an end token closes [k]. *)
Lemma nest_stop k stk t ts :
  nest (k :: stk) (t :: ts) = Some [] ->
  (stop_of k t = true /\ nest stk ts = Some []) \/ (stop_of k t = false /\ is_end t = false).
Proof. destruct k, t; simpl; auto; done. Qed.

Lemma nest_text stk text ts : nest stk (TText text :: ts) = nest stk ts.
Proof. done. Qed.

Lemma nest_gather stk : forall ts body,
  nest stk (gather_text body ts).2 = nest stk ts /\ length (gather_text body ts).2 <= length ts.
Proof.
  induction ts as [|t ts IH]; intros body; [done|].
  destruct t; try (split; [done|simpl; lia]). cbn [gather_text]. rewrite nest_text.
  destruct (IH (body ++ nl ++ text)) as [-> H]. split; [done|]. cbn [length]. lia.
Qed.

Section ParserTotal.
Context (o : moptions) (ls : gmap jsstr link) (coin : nat -> bool).

Lemma parseText_ok text ts st stk :
  exists h ts' st', parseText o ls coin text ts st = Ok (h, ts', st') /\
    nest stk ts' = nest stk ts /\ length ts' <= length ts.
Proof.
  unfold parseText. destruct (nest_gather stk ts text) as [H1 H2].
  destruct (gather_text text ts) as [body ts'].
  destruct (output_total o ls coin body st) as (h & st' & ->). eexists _, _, _. split; [done|]. done.
Qed.

Lemma parse_cells_ok header aligns row : forall j acc st,
  exists r, parse_cells o ls coin header aligns row j acc st = Ok r.
Proof.
  induction row as [|c row IH]; intros j acc st; cbn [parse_cells]; [eauto|].
  destruct (output_total o ls coin c st) as (h & st' & ->). apply IH.
Qed.

Lemma parse_rows_ok aligns rows : forall acc st,
  exists r, parse_rows o ls coin aligns rows acc st = Ok r.
Proof.
  induction rows as [|row rows IH]; intros acc st; cbn [parse_rows]; [eauto|].
  destruct (parse_cells_ok false aligns row 0 [] st) as [[h st'] ->]. apply IH.
Qed.

Lemma parse_table_ok header aligns rows st :
  exists h st', parse_table o ls coin header aligns rows st = Ok (h, st').
Proof.
  unfold parse_table. destruct (parse_cells_ok true aligns header 0 [] st) as [[h st1] ->]. cbn [rbind].
  destruct (parse_rows_ok aligns rows [] st1) as [[b st2] ->]. eexists _, _. done.
Qed.

(** [tok] on a token that is not an end token gives HTML and keeps the balance. *)
Definition tok_good (f : nat) : Prop := forall t ts st stk,
  length ts < f -> is_end t = false -> nest stk (t :: ts) = Some [] ->
  exists h ts' st', tok o ls coin f t ts st = Ok (Some h, ts', st') /\
    nest stk ts' = Some [] /\ length ts' <= length ts.

Lemma until_ok f k texts : tok_good f -> forall n body ts st stk,
  length ts < n -> length ts <= f -> nest (k :: stk) ts = Some [] ->
  exists h ts' st', until o ls coin (tok o ls coin f) (stop_of k) texts n body ts st = Ok (h, ts', st') /\
    nest stk ts' = Some [] /\ length ts' <= length ts.
Proof.
  intros Hf. induction n as [|n IH]; intros body ts st stk Hn Hle Hb; [lia|]. cbn [until].
  destruct ts as [|t ts]; [done|]. simpl in Hn, Hle.
  destruct (nest_stop _ _ _ _ Hb) as [[-> Hs]|[-> He]].
  { eexists _, _, _. split; [done|]. split; [done|simpl; lia]. }
  assert (Htok : exists h ts' st',
    (let! (h, ts, st) := tok o ls coin f t ts st in
     until o ls coin (tok o ls coin f) (stop_of k) texts n (body ++ or_undefined h) ts st) = Ok (h, ts', st') /\
    nest stk ts' = Some [] /\ length ts' <= length (t :: ts)).
  { destruct (Hf t ts st (k :: stk) ltac:(lia) He Hb) as (h & ts1 & st1 & -> & Hb1 & Hl1). cbn [rbind].
    destruct (IH (body ++ or_undefined (Some h)) ts1 st1 stk) as (h2 & ts2 & st2 & H2 & Hb2 & Hl2); [lia|lia|done|].
    eexists _, _, _. split; [exact H2|]. split; [done|simpl; lia]. }
  destruct texts; [|done]. destruct t; try exact Htok. clear Htok.
  destruct (parseText_ok text ts st (k :: stk)) as (h & ts1 & st1 & -> & Hb1 & Hl1). cbn [rbind].
  destruct (IH (body ++ h) ts1 st1 stk) as (h2 & ts2 & st2 & H2 & Hb2 & Hl2); [lia|lia|by rewrite Hb1|].
  eexists _, _, _. split; [exact H2|]. split; [done|simpl; lia].
Qed.

Lemma tok_body f k texts ts st stk (r : jsstr -> jsstr) :
  tok_good f -> length ts <= f -> nest (k :: stk) ts = Some [] ->
  exists h ts' st',
    (let! (h, ts', st') := until o ls coin (tok o ls coin f) (stop_of k) texts (S (length ts)) [] ts st in
     Ok (Some (r h), ts', st')) = Ok (Some h, ts', st') /\
    nest stk ts' = Some [] /\ length ts' <= length ts.
Proof.
  intros Hf Hl Hb. destruct (until_ok f k texts Hf (S (length ts)) [] ts st stk)
    as (h & ts' & st' & -> & H); [lia|done|done|]. eexists _, _, _. split; [done|]. done.
Qed.

Lemma tok_ok : forall f, tok_good f.
Proof.
  induction f as [|f IH]; intros t ts st stk Hl He Hb; [lia|].
  assert (Hl' : length ts <= f) by lia.
  destruct t; try done; cbn [tok];
    try (eexists _, _, _; split; [done|]; split; [exact Hb|done]).
  - destruct (output_total o ls coin text st) as (h & st' & ->).
    eexists _, _, _. split; [done|]. split; [exact Hb|done].
  - destruct (parse_table_ok header aligns cells st) as (h & st' & ->).
    eexists _, _, _. split; [done|]. split; [exact Hb|done].
  - by apply (tok_body f BQuote).
  - by apply (tok_body f BList).
  - by apply (tok_body f BItem).
  - by apply (tok_body f BItem).
  - destruct (negb pre && negb (o_pedantic o)).
    + destruct (output_total o ls coin text st) as (h & st' & ->).
      eexists _, _, _. split; [done|]. split; [exact Hb|done].
    + eexists _, _, _. split; [done|]. split; [exact Hb|done].
  - destruct (output_total o ls coin text st) as (h & st' & ->).
    eexists _, _, _. split; [done|]. split; [exact Hb|done].
  - destruct (parseText_ok text ts st stk) as (h & ts1 & st1 & -> & Hb1 & Hl1).
    eexists _, _, _. split; [done|]. split; [by rewrite Hb1|done].
Qed.

Lemma parse_loop_ok : forall n out ts st,
  length ts < n -> nest [] ts = Some [] -> exists h, parse_loop o ls coin n out ts st = Ok h.
Proof.
  induction n as [|n IH]; intros out ts st Hn Hb; [lia|]. cbn [parse_loop].
  destruct ts as [|t ts]; [eauto|]. simpl in Hn.
  assert (He : is_end t = false) by (by destruct t).
  destruct (tok_ok (S (length ts)) t ts st [] ltac:(lia) He Hb) as (h & ts' & st' & -> & Hb' & Hl).
  cbn [rbind]. apply IH; [lia|done].
Qed.
End ParserTotal.

Lemma parse_from_total o ls coin d ts :
  nest [] ts = Some [] -> exists h d', parse_from o ls coin d ts = Ok (h, d').
Proof.
  intros Hb. unfold parse_from.
  destruct (parse_loop_ok o ls coin (S (length ts)) [] ts (mkI false d)) as [[h st] ->]; [lia|done|].
  by eexists _, _.
Qed.

Lemma parse_total o ls coin ts : nest [] ts = Some [] -> exists h, parse o ls coin ts = Ok h.
Proof. intros Hb. unfold parse. destruct (parse_from_total o ls coin 0 ts Hb) as (h & d & ->). by exists h. Qed.

(** ** [marked(src, opt)] *)

Definition report : jsstr := nl ++ js "Please report this to https://github.com/chjj/marked.".

Definition message (e : exn) : jsstr := match e with TypeError m | Error m => m end.
Definition add_message (w : jsstr) (e : exn) : exn :=
  match e with TypeError m => TypeError (m ++ w) | Error m => Error (m ++ w) end.

Section Marked.
Context (o : moptions) (coin : nat -> bool).

Definition marked_try (src : jsstr) : result jsstr :=
  let! st := lex o src in parse o (links st) coin (tokens st).

Definition marked (silent : bool) (src : jsstr) : result jsstr :=
  match marked_try src with
  | Throw e =>
      let e := add_message report e in
      if silent then Ok (js "<p>An error occured:</p><pre>" ++ escape (message e) true ++ js "</pre>")
      else Throw e
  | r => r
  end.

(** ** [marked(src, opt, callback)] *)

(** The options without the highlighter, which the asynchronous path deletes. *)
Definition without_highlight : moptions :=
  mkMOptions (o_gfm o) (o_tables o) (o_breaks o) (o_pedantic o) (o_sanitize o) (o_mangle o)
    (o_smartLists o) (o_smartypants o) (o_xhtml o) (o_langPrefix o) (o_headerPrefix o) (o_baseUrl o) None.

(** A call of the callback. *)
Inductive acall := CbErr (e : exn) | CbOut (html : jsstr).

(** The variables of the closure: the tokens, the next index of the loop, [pending],
    the tokens whose highlighter has not called back, the calls of the callback. *)
Record astate := mkA {
  a_links : gmap jsstr link;
  a_tokens : list mtoken;
  a_i : nat;
  a_pending : nat;
  a_waiting : list nat;
  a_calls : list acall
}.

Definition called (c : acall) (s : astate) : astate :=
  mkA (a_links s) (a_tokens s) (a_i s) (a_pending s) (a_waiting s) (a_calls s ++ [c]).

(** [done()]: the parser consumes the array of tokens. *)
Definition done_ok (s : astate) : astate :=
  let s' := mkA (a_links s) [] (a_i s) (a_pending s) (a_waiting s) (a_calls s) in
  match parse without_highlight (a_links s) coin (a_tokens s) with
  | Ok out => called (CbOut out) s'
  | Throw e => called (CbErr e) s'
  | OutOfFuel => s'
  end.

(** [--pending || done()] *)
Definition tick (s : astate) : astate :=
  let s := mkA (a_links s) (a_tokens s) (a_i s) (a_pending s - 1) (a_waiting s) (a_calls s) in
  if (a_pending s =? 0)%nat then done_ok s else s.

(** The next round of the loop, or the highlighter of token [i] calling back. *)
Inductive aevent := ENext | EBack (i : nat) (r : exn + option jsstr).

Definition set_code (code : jsstr) (t : mtoken) : mtoken :=
  match t with
  | TCode lang text escaped => if bool_decide (code = text) then t else TCode lang code true
  | _ => t
  end.

Definition is_code (t : mtoken) : bool := match t with TCode _ _ _ => true | _ => false end.

Definition astep (e : aevent) (s : astate) : option astate :=
  match e with
  | ENext =>
      t ← a_tokens s !! a_i s;
      Some (if is_code t
            then mkA (a_links s) (a_tokens s) (S (a_i s)) (a_pending s) (a_waiting s ++ [a_i s]) (a_calls s)
            else tick (mkA (a_links s) (a_tokens s) (S (a_i s)) (a_pending s) (a_waiting s) (a_calls s)))
  | EBack i r =>
      if bool_decide (i ∈ a_waiting s) then
        let s := mkA (a_links s) (a_tokens s) (a_i s) (a_pending s)
                   (List.filter (fun j => negb (bool_decide (j = i))) (a_waiting s)) (a_calls s) in
        Some (match r with
              | inl err => called (CbErr err) s
              | inr None => tick s
              | inr (Some code) =>
                  tick (mkA (a_links s) (alter (set_code code) i (a_tokens s)) (a_i s) (a_pending s)
                          (a_waiting s) (a_calls s))
              end)
      else None
  end.

Fixpoint arun (es : list aevent) (s : astate) : option astate :=
  match es with [] => Some s | e :: es => astep e s ≫= arun es end.

(** The call with a highlighter of three parameters. *)
Definition marked_start (src : jsstr) : result astate :=
  match lex o src with
  | Throw e => Ok (mkA ∅ [] 0 0 [] [CbErr e])
  | OutOfFuel => OutOfFuel
  | Ok st =>
      let s := mkA (links st) (tokens st) 0 (length (tokens st)) [] [] in
      Ok (if (length (tokens st) =? 0)%nat then done_ok s else s)
  end.
End Marked.

(** *** The callback is called once *)

(** The tokens after the highlighters have called back. *)
Definition apply_back (ts : list mtoken) (e : aevent) : list mtoken :=
  match e with EBack i (inr (Some code)) => alter (set_code code) i ts | _ => ts end.

Definition no_error (e : aevent) : bool := match e with EBack _ (inl _) => false | _ => true end.

Lemma nest_shape : forall ts ts' stk,
  Forall2 (fun t t' => t = t' \/ (is_code t = true /\ is_code t' = true)) ts ts' ->
  nest stk ts' = nest stk ts.
Proof.
  intros ts ts' stk H. revert stk. induction H as [|t t' ts ts' Ht _ IH]; intros stk; [done|].
  destruct Ht as [<-|[H1 H2]].
  - simpl. destruct t; auto; destruct stk as [|[]]; auto.
  - destruct t, t'; try done. simpl. apply IH.
Qed.

Lemma nest_alter_code code i ts stk : nest stk (alter (set_code code) i ts) = nest stk ts.
Proof.
  apply nest_shape. revert i. induction ts as [|t ts IH]; intros i; [constructor|].
  destruct i as [|i]; cbn [alter list_alter]; constructor; [|..|by apply IH].
  - destruct t; auto. simpl. case_bool_decide; auto.
  - apply Forall2_same_length_lookup_2; [done|]. intros j x y Hx Hy. left. congruence.
  - by left.
Qed.

Section Once.
Context (o : moptions) (coin : nat -> bool).

(** While no highlighter fails: the counter is the number of tokens not yet handled,
    and the callback has been called exactly when it is zero. *)
Record async_inv (ts : list mtoken) (s : astate) : Prop := {
  ai_i : a_i s <= length ts;
  ai_nodup : NoDup (a_waiting s);
  ai_lt : Forall (fun j => j < a_i s) (a_waiting s);
  ai_pending : a_pending s = (length ts - a_i s) + length (a_waiting s);
  ai_tokens : 0 < a_pending s -> a_tokens s = ts /\ a_calls s = [];
  ai_done : a_pending s = 0 -> exists html,
    parse (without_highlight o) (a_links s) coin ts = Ok html /\ a_calls s = [CbOut html] /\ a_tokens s = []
}.

Lemma done_ok_calls ts s :
  nest [] ts = Some [] -> a_tokens s = ts -> a_calls s = [] ->
  exists html, parse (without_highlight o) (a_links s) coin ts = Ok html /\
    done_ok o coin s = mkA (a_links s) [] (a_i s) (a_pending s) (a_waiting s) [CbOut html].
Proof.
  intros Hb Ht Hc. destruct (parse_total (without_highlight o) (a_links s) coin ts Hb) as [h Hh].
  exists h. split; [done|]. unfold done_ok. rewrite Ht, Hh. unfold called. simpl. by rewrite Hc.
Qed.

Lemma tick_inv ts s :
  nest [] ts = Some [] -> a_i s <= length ts -> NoDup (a_waiting s) ->
  Forall (fun j => j < a_i s) (a_waiting s) -> a_tokens s = ts -> a_calls s = [] ->
  a_pending s = S ((length ts - a_i s) + length (a_waiting s)) ->
  async_inv ts (tick o coin s) /\ a_links (tick o coin s) = a_links s.
Proof.
  intros Hb Hi Hd Hlt Ht Hc Hp. unfold tick. cbn [a_pending].
  destruct (Nat.eqb_spec (a_pending s - 1) 0) as [E|E].
  - destruct (done_ok_calls ts (mkA (a_links s) (a_tokens s) (a_i s) (a_pending s - 1) (a_waiting s) (a_calls s))
      Hb Ht Hc) as (h & Hh & ->). split; [|done].
    constructor; simpl in *; try done; try lia. intros _. by exists h.
  - split; [|done]. constructor; simpl in *; try done; lia.
Qed.

Lemma length_remove_one (i : nat) l :
  NoDup l -> i ∈ l -> S (length (List.filter (fun j => negb (bool_decide (j = i))) l)) = length l.
Proof.
  induction 1 as [|x l Hx Hl IH]; [by intros ?%not_elem_of_nil|].
  intros [->|Hi]%elem_of_cons; simpl.
  - rewrite bool_decide_eq_true_2 by done. simpl. f_equal. clear IH Hl.
    induction l as [|y l IH]; [done|]. apply not_elem_of_cons in Hx as [Hy Hx]. simpl.
    rewrite bool_decide_eq_false_2 by congruence. simpl. f_equal. auto.
  - rewrite bool_decide_eq_false_2 by (intros ->; done). simpl. by rewrite <- IH.
Qed.

Lemma NoDup_remove_one (i : nat) l :
  NoDup l -> NoDup (List.filter (fun j => negb (bool_decide (j = i))) l).
Proof. rewrite !NoDup_ListNoDup. apply List.NoDup_filter. Qed.

Lemma astep_inv ts e s s' :
  nest [] ts = Some [] -> async_inv ts s -> no_error e = true -> astep o coin e s = Some s' ->
  async_inv (apply_back ts e) s' /\ a_links s' = a_links s.
Proof.
  intros Hb [Hi Hd Hlt Hp Ht Hdn] He Hs. destruct (Nat.eq_0_gt_0_cases (a_pending s)) as [Hz|Hz].
  { exfalso. destruct (Hdn Hz) as (_ & _ & _ & Hts). destruct e as [|i r]; simpl in Hs.
    - by rewrite Hts in Hs.
    - case_bool_decide as Hw; [|done]. destruct (a_waiting s); [by apply not_elem_of_nil in Hw|].
      simpl in Hp. lia. }
  destruct (Ht Hz) as [Hts Hc]. destruct e as [|i r]; simpl in Hs.
  - destruct (a_tokens s !! a_i s) as [t|] eqn:E; [|done]. apply lookup_lt_Some in E as El.
    rewrite Hts in El. assert (Hlt' : Forall (fun j => j < S (a_i s)) (a_waiting s)).
    { eapply Forall_impl; [exact Hlt|]. simpl. lia. }
    simpl in Hs. injection Hs as <-. destruct (is_code t).
    + split; [|done]. constructor; simpl; try done; try lia.
      * apply NoDup_app. split_and!; [done| |apply NoDup_singleton].
        intros j Hj ->%list_elem_of_singleton. rewrite Forall_forall in Hlt. specialize (Hlt _ Hj). simpl in Hlt. lia.
      * apply Forall_app. split; [done|]. constructor; [lia|done].
      * rewrite length_app. simpl. lia.
    + match goal with |- context [tick _ _ ?x] => apply (tick_inv _ x) end; simpl; try done. lia.
  - case_bool_decide as Hw; [|done]. injection Hs as <-.
    pose proof (length_remove_one i _ Hd Hw) as Hl. pose proof (NoDup_remove_one i _ Hd) as Hd'.
    pose proof (Forall_bfilter _ (fun j => negb (bool_decide (j = i))) _ Hlt) as Hlt'.
    destruct r as [err|[code|]]; [done| |].
    + match goal with |- context [tick _ _ ?x] => apply (tick_inv _ x) end; simpl; rewrite ?nest_alter_code, ?length_alter, ?Hts; try done. lia.
    + match goal with |- context [tick _ _ ?x] => apply (tick_inv _ x) end; simpl; try done. lia.
Qed.

Lemma arun_inv : forall es ts s s',
  nest [] ts = Some [] -> async_inv ts s -> forallb no_error es = true -> arun o coin es s = Some s' ->
  async_inv (fold_left apply_back es ts) s' /\ a_links s' = a_links s.
Proof.
  induction es as [|e es IH]; intros ts s s' Hb Hi He Hr; simpl in *; [by injection Hr as <-|].
  apply andb_prop in He as [He Hes]. destruct (astep o coin e s) as [s1|] eqn:E; [|done]. simpl in Hr.
  destruct (astep_inv ts e s s1 Hb Hi He E) as [Hi1 Hl1].
  destruct (IH (apply_back ts e) s1 s') as [H1 H2]; [|done|done|done|split; [done|congruence]].
  destruct e as [|i [err|[code|]]]; simpl; rewrite ?nest_alter_code; done.
Qed.

Lemma apply_back_length es ts : length (fold_left apply_back es ts) = length ts.
Proof.
  revert ts. induction es as [|e es IH]; intros ts; [done|]. simpl. rewrite IH.
  destruct e as [|i [err|[code|]]]; simpl; by rewrite ?length_alter.
Qed.

Lemma start_inv src : exists st s0, lex o src = Ok st /\ nest [] (tokens st) = Some [] /\
  marked_start o coin src = Ok s0 /\ async_inv (tokens st) s0 /\ a_links s0 = links st.
Proof.
  destruct (lex_total o src) as (st & Hst & Hn). exists st. unfold marked_start. rewrite Hst.
  eexists. split_and!; [done|apply Hn|done| |].
  - case_match eqn:E; [apply Nat.eqb_eq in E|apply Nat.eqb_neq in E].
    + destruct (done_ok_calls (tokens st) (mkA (links st) (tokens st) 0 (length (tokens st)) [] [])
        (Hn []) eq_refl eq_refl) as (h & Hh & ->).
      constructor; simpl in *; try done; try lia; [constructor|]. intros _. by exists h.
    + constructor; simpl; try done; try lia; constructor.
  - case_match; [|done]. destruct (done_ok_calls (tokens st) (mkA (links st) (tokens st) 0 (length (tokens st)) [] [])
        (Hn []) eq_refl eq_refl) as (h & Hh & ->). done.
Qed.
End Once.

(** ** Properties *)

(** C1. [marked] is total: for every source and every setting of the options, lexing,
    inline lexing and parsing terminate and give HTML, so the error report of its
    exception handler is never produced. *)
Theorem marked_total (o : moptions) (coin : nat -> bool) (silent : bool) (src : jsstr) :
  exists html, marked_try o coin src = Ok html /\ marked o coin silent src = Ok html.
Proof.
  unfold marked. destruct (lex_total o src) as (st & Hst & Hn).
  destruct (parse_total o (links st) coin (tokens st) (Hn [])) as [h Hh]. exists h.
  unfold marked_try. by rewrite Hst; simpl; rewrite Hh.
Qed.

(** C17. With an asynchronous highlighter that reports no error, whatever the order in
    which the code blocks come back and however that interleaves with the loop over the
    tokens, the callback is called exactly once, when the last block is back, with the
    HTML of the highlighted tokens, and not before. *)
Theorem marked_async_once (o : moptions) (coin : nat -> bool) (src : jsstr) (es : list aevent) (s0 s : astate) :
  marked_start o coin src = Ok s0 -> arun o coin es s0 = Some s -> forallb no_error es = true ->
  exists st, lex o src = Ok st /\
    if decide (a_i s = length (tokens st) /\ a_waiting s = [])
    then exists html, a_calls s = [CbOut html] /\
      parse (without_highlight o) (links st) coin (fold_left apply_back es (tokens st)) = Ok html
    else a_calls s = [].
Proof.
  intros H0 Hr He. destruct (start_inv o coin src) as (st & s0' & Hst & Hb & H0' & Hi & Hl).
  rewrite H0 in H0'. injection H0' as <-. exists st. split; [done|].
  destruct (arun_inv o coin es (tokens st) s0 s Hb Hi He Hr) as [[Hi1 _ _ Hp Ht Hd] Hl1].
  rewrite apply_back_length in *. rewrite Hl1, Hl in Hd. case_decide as Hc.
  - destruct Hc as [E1 E2]. rewrite E1, E2 in Hp. simpl in Hp. destruct (Hd ltac:(lia)) as (h & Hh & Hcall & _).
    by exists h.
  - apply Ht. destruct (decide (a_waiting s = [])) as [E|E]; [|destruct (a_waiting s); [done|simpl in Hp; lia]].
    destruct (decide (a_i s = length (tokens st))); [naive_solver|]. lia.
Qed.

(** Two code blocks with a paragraph between them; the second block comes back first. *)
Definition two_blocks : jsstr :=
  js "    a" ++ nl ++ nl ++ js "text" ++ nl ++ nl ++ js "    b" ++ nl.

Definition second_first : list aevent :=
  [ENext; ENext; ENext; EBack 2 (inr (Some (js "B"))); EBack 0 (inr None)].

Lemma marked_async_once_witness : exists s0 s st,
  marked_start marked_defaults (fun _ => true) two_blocks = Ok s0 /\
  arun marked_defaults (fun _ => true) second_first s0 = Some s /\
  lex marked_defaults two_blocks = Ok st /\
  if decide (a_i s = length (tokens st) /\ a_waiting s = [])
  then exists html, a_calls s = [CbOut html] /\
    parse (without_highlight marked_defaults) (links st) (fun _ => true)
      (fold_left apply_back second_first (tokens st)) = Ok html
  else a_calls s = [].
Proof.
  eexists _, _.
  edestruct (marked_async_once marked_defaults (fun _ => true) two_blocks second_first) as (st & H1 & H2);
    [vm_compute; reflexivity|vm_compute; reflexivity|reflexivity|].
  exists st. split_and!; [vm_compute; reflexivity|vm_compute; reflexivity|exact H1|exact H2].
Defined.

(** Two failing highlighters call the callback twice. *)
Example two_errors : exists s0 s,
  marked_start marked_defaults (fun _ => true) two_blocks = Ok s0 /\
  arun marked_defaults (fun _ => true)
    [ENext; ENext; ENext; EBack 2 (inl (Error [])); EBack 0 (inl (Error []))] s0 = Some s /\
  a_calls s = [CbErr (Error []); CbErr (Error [])].
Proof. eexists _, _. split_and!; [vm_compute; reflexivity|vm_compute; reflexivity|reflexivity]. Qed.
