(* ===== verification/Converter.v ===== *)
(** * The converter and the entry points of the API (modules 13 and 6)

    What the browser does with markup is a parameter: [normalized h] is what is read
    from [innerHTML] after [h] was assigned to it, and [only_p h] the inner markup of
    the only child when [h] has exactly one child element and it is a paragraph. *)

From S2P Require Import Prelude JsString JsRegExp RegExpFacts RegExpCounts SlideParser MarkedGrammar.
From S2P Require Import MarkedLexer MarkedInline MarkedParser.

Definition re_lead_space : regexp := Eval vm_compute in re "^\s+" "".
Definition re_empty_p : regexp := Eval vm_compute in re "<p>\s*<\/p>" "g".
Definition re_end_nl : regexp := Eval vm_compute in re "\n\r?$" "".

Section Converter.
Context (normalized : jsstr -> jsstr) (only_p : jsstr -> option jsstr) (coin : nat -> bool).

(** The end of [convertMarkdown]: the markdown is rendered, and inside a content class
    a single paragraph is unwrapped. *)
Definition render_markdown (ls : gmap jsstr link) (inside : bool) (d : nat) (markdown : jsstr)
    : result (jsstr * nat) :=
  let! st := lex remark_options (replace re_lead_space [] markdown) in
  let! (html, d) := parse_from remark_options ls coin d (tokens st) in
  Ok (if inside then default html (only_p html) else html, d).

Definition class_open (block : bool) (class : jsstr) : jsstr :=
  js "<" ++ (if block then js "div" else js "span") ++ js " class=＂" ++ class ++ js "＂>".
Definition class_close (block : bool) : jsstr :=
  js "</" ++ (if block then js "div" else js "span") ++ js ">".

(** The markdown of one item: a content class is converted first. *)
Fixpoint item_markdown (ls : gmap jsstr link) (d : nat) (it : item) : result (jsstr * nat) :=
  match it with
  | IStr s => Ok (s, d)
  | IClass block class content =>
      let fix items (l : list item) (d : nat) (markdown : jsstr) : result (jsstr * nat) :=
        match l with
        | [] => Ok (markdown, d)
        | it :: l => let! (m, d) := item_markdown ls d it in items l d (markdown ++ m)
        end in
      let! (markdown, d) := items content d [] in
      let! (html, d) := render_markdown ls (negb block) d markdown in
      Ok (class_open block class ++ html ++ class_close block, d)
  end.

Fixpoint content_markdown (ls : gmap jsstr link) (l : list item) (d : nat) (markdown : jsstr)
    : result (jsstr * nat) :=
  match l with
  | [] => Ok (markdown, d)
  | it :: l => let! (m, d) := item_markdown ls d it in content_markdown ls l d (markdown ++ m)
  end.

(** The local function [convertMarkdown(content, links, insideContentClass)] *)
Definition convert_content (content : list item) (ls : gmap jsstr link) (inside : bool) (d : nat)
    : result (jsstr * nat) :=
  let! (markdown, d) := content_markdown ls content d [] in render_markdown ls inside d markdown.

(** [converter.convertMarkdown(content, links, inline)] *)
Definition convertMarkdown (content : list item) (ls : gmap jsstr link) (inside : bool) : result jsstr :=
  let! (html, _) := convert_content content ls inside 0 in
  Ok (replace re_end_nl [] (normalized (replace re_empty_p [] (normalized html)))).

(** [Api.prototype.convert(markdown)] *)
Definition convert (macros : macro_env) (depth : nat) (markdown : jsstr) : result jsstr :=
  let! slides := SlideParser.parse macros depth markdown (mkPOptions false) in
  match slides with
  | [] => Throw (TypeError (js "Cannot read property 'content' of undefined"))
  | s :: _ => convertMarkdown (content s) ∅ true
  end.

(** ** Totality *)

Lemma render_markdown_ok ls inside d markdown :
  exists html d', render_markdown ls inside d markdown = Ok (html, d').
Proof.
  unfold render_markdown.
  destruct (lex_total remark_options (replace re_lead_space [] markdown)) as (st & -> & Hn). cbn [rbind].
  destruct (parse_from_total remark_options ls coin d (tokens st) (Hn [])) as (h & d' & ->).
  by eexists _, _.
Qed.

Fixpoint item_size (it : item) : nat :=
  match it with
  | IStr _ => 1
  | IClass _ _ l => S (list_sum (map item_size l))
  end.

Lemma item_markdown_ok ls : forall n it d,
  item_size it <= n -> exists m d', item_markdown ls d it = Ok (m, d').
Proof.
  induction n as [|n IH]; intros it d Hn; [destruct it; simpl in Hn; lia|].
  destruct it as [s|block class l]; simpl; [by eexists _, _|]. simpl in Hn.
  match goal with |- context [rbind (?f l d []) _] => set (items := f) end.
  assert (Hi : forall l d md, list_sum (map item_size l) <= n -> exists r, items l d md = Ok r).
  { clear l d Hn. induction l as [|it l IHl]; intros d md Hs; simpl in *; [eauto|].
    destruct (IH it d ltac:(lia)) as (m & d' & ->). simpl. apply IHl. lia. }
  destruct (Hi l d [] ltac:(lia)) as [[md d1] ->]. cbn [rbind].
  destruct (render_markdown_ok ls (negb block) d1 md) as (h & d2 & ->). by eexists _, _.
Qed.

Lemma content_markdown_ok ls l : forall d md, exists r, content_markdown ls l d md = Ok r.
Proof.
  induction l as [|it l IH]; intros d md; simpl; [eauto|].
  destruct (item_markdown_ok ls (item_size it) it d ltac:(lia)) as (m & d' & ->). apply IH.
Qed.

Lemma convertMarkdown_ok content ls inside : exists html, convertMarkdown content ls inside = Ok html.
Proof.
  unfold convertMarkdown, convert_content.
  destruct (content_markdown_ok ls content 0 []) as [[md d] ->]. cbn [rbind].
  destruct (render_markdown_ok ls inside d md) as (h & d' & ->). by eexists.
Qed.
End Converter.

(** ** The source element *)

Definition re_ltgt : regexp := Eval vm_compute in re "&[l|g]t;" "g".
Definition re_amp_ref : regexp := Eval vm_compute in re "&amp;" "g".
Definition re_quot_ref : regexp := Eval vm_compute in re "&quot;" "g".

(** [unescape(source)] of api.js, applied to the markup of the source element *)
Definition unescape (source : jsstr) : jsstr :=
  let source := replace_fun re_ltgt
    (fun m => if bool_decide (cap0 m = js "&lt;") then js "<" else js ">") source in
  let source := replace re_amp_ref (js "&") source in
  replace re_quot_ref (js "＂") source.

(** What [applyDefaults] makes of the option source: its own value, or the text of the
    element with id source when there is one. *)
Definition source_option (own : option jsstr) (element : option jsstr) : option jsstr :=
  match own with Some s => Some s | None => unescape <$> element end.

(** The nodes of a word, and what each reads. *)
Definition word_nodes (w : jsstr) : list regex := map RChar w.
Definition word_tests (w : jsstr) : list (N -> bool) := map (fun c x => (x =? c)%N) w.

Lemma word_reads fl w : f_icase fl = false -> Forall2 (reads fl) (word_nodes w) (word_tests w).
Proof.
  intros Hi. induction w as [|c w IH]; simpl; [constructor|]. constructor; [|exact IH].
  split; [done|]. intros s k. cbn [mtch]. unfold canon. by rewrite Hi.
Qed.

Lemma pre_match_word w s : pre_match (word_tests w) s = starts_with w s.
Proof.
  revert s. induction w as [|c w IH]; intros [|x s]; simpl; try done.
  by rewrite IH, N.eqb_sym.
Qed.

(** Replacing every occurrence of a word. *)
Definition occurrence (w r s : jsstr) : option (nat * jsstr) :=
  if starts_with w s then Some (length w, r) else None.

Lemma subst_at_ext p q : (forall s, p s = q s) -> forall s k, subst_at p k s = subst_at q k s.
Proof.
  intros H. induction s as [|x t IH]; intros [|k]; simpl; auto. rewrite H.
  destruct (q (x :: t)) as [[n w]|]; by rewrite IH.
Qed.

Lemma replace_occurrences re w r s :
  re_node re = seq_node (word_nodes w) -> re_flags re = mkFlags true false false -> w <> [] -> 36%N ∉ r ->
  replace re r s = subst_at (occurrence w r) 0 s.
Proof.
  intros Hn Hf Hw Hr. unfold replace.
  rewrite (replace_word re (word_nodes w) (word_tests w) _ (fun _ => r) Hn).
  - apply subst_at_ext. intros s'. unfold word_at, occurrence. rewrite pre_match_word.
    by unfold word_tests; rewrite length_map.
  - apply word_reads. by rewrite Hf.
  - by destruct w.
  - intros m. by apply expand_dollar_plain.
  - by rewrite Hf.
Qed.

(** What the first replacement looks for. *)
Definition ltgt_at (s : jsstr) : option (nat * jsstr) :=
  match s with
  | a :: c :: b :: d :: _ =>
      if (a =? 38)%N && (((c =? 108)%N || (c =? 124)%N || (c =? 103)%N) && ((b =? 116)%N && (d =? 59)%N))
      then Some (4, if (c =? 108)%N then js "<" else js ">") else None
  | _ => None
  end.

Definition ltgt_class : list (bool * list (N * N)) :=
  [(false, [(108%N, 108%N)]); (false, [(124%N, 124%N)]); (false, [(103%N, 103%N)])].

Lemma ltgt_class_match c :
  class_match (mkFlags true false false) false ltgt_class c = (c =? 108)%N || (c =? 124)%N || (c =? 103)%N.
Proof.
  unfold class_match, in_items, in_ranges, in_range, ltgt_class. cbn [existsb f_icase xorb].
  assert (E : forall a, (a <=? c)%N && (c <=? a)%N = (c =? a)%N).
  { intros a. destruct (N.eqb_spec c a) as [->|Hne]; [by rewrite N.leb_refl|].
    apply andb_false_iff. rewrite !N.leb_gt. lia. }
  rewrite !E. simpl. rewrite !orb_false_r. by rewrite orb_assoc.
Qed.

Lemma replace_ltgt s :
  replace_fun re_ltgt (fun m => if bool_decide (cap0 m = js "&lt;") then js "<" else js ">") s
  = subst_at ltgt_at 0 s.
Proof.
  rewrite (replace_word re_ltgt [RChar 38; RClass false ltgt_class; RChar 116; RChar 59]
    [fun x => (x =? 38)%N; class_match (mkFlags true false false) false ltgt_class;
     fun x => (x =? 116)%N; fun x => (x =? 59)%N] _
    (fun w => if bool_decide (w = js "&lt;") then js "<" else js ">")); try done.
  - apply subst_at_ext. intros s'. unfold word_at. destruct s' as [|a [|c [|b [|d s']]]];
      cbn [pre_match ltgt_at]; rewrite ?andb_false_r; [done..|]. rewrite andb_true_r, ltgt_class_match.
    destruct (N.eqb_spec a 38) as [->|]; [|done]. simpl andb. cbn [length take].
    destruct (_ || _ || _); [|done]. destruct (N.eqb_spec b 116) as [->|]; [|done].
    destruct (N.eqb_spec d 59) as [->|]; [|done]. simpl andb.
    destruct (N.eqb_spec c 108) as [->|Hc]; [done|]. rewrite bool_decide_eq_false_2; [done|].
    intros E. change (js "&lt;") with [38; 108; 116; 59]%N in E. congruence.
  - repeat (constructor; [done|]). constructor.
Qed.

(** ** The source element holds the text of the slides *)

(** How the HTML standard writes a character of a text in markup. *)
Definition html_char (c : N) : jsstr :=
  if (c =? 38)%N then js "&amp;" else if (c =? 60)%N then js "&lt;" else if (c =? 62)%N then js "&gt;"
  else if (c =? 160)%N then js "&nbsp;" else [c].

(** After the first replacement only ampersands are escaped. *)
Definition amp_char (c : N) : jsstr := if (c =? 38)%N then js "&amp;" else [c].

Lemma subst_at_miss p x t : p (x :: t) = None -> subst_at p 0 (x :: t) = x :: subst_at p 0 t.
Proof. intros H. cbn [subst_at]. by rewrite H. Qed.

Lemma subst_at_hit p s n w :
  p s = Some (n, w) -> 1 <= n <= length s -> subst_at p 0 s = w ++ subst_at p 0 (drop n s).
Proof.
  intros H Hn. destruct s as [|x t]; [simpl in Hn; lia|]. cbn [subst_at]. rewrite H. f_equal.
  destruct n; [lia|]. simpl. rewrite Nat.sub_0_r. apply subst_at_drop.
Qed.

Lemma ltgt_not_amp c t : c <> 38%N -> ltgt_at (c :: t) = None.
Proof.
  intros H. destruct t as [|? [|? [|? ?]]]; try done. cbn [ltgt_at].
  by rewrite (proj2 (N.eqb_neq c 38) H).
Qed.

Lemma first_pass s : (160%N ∉ s) -> subst_at ltgt_at 0 (flat_map html_char s) = flat_map amp_char s.
Proof.
  induction s as [|c s IH]; intros Hs; [done|]. apply not_elem_of_cons in Hs as [Hc Hs].
  specialize (IH Hs). cbn [flat_map]. unfold html_char at 1, amp_char at 1.
  destruct (N.eqb_spec c 38) as [->|H38].
  - change (js "&amp;") with [38; 97; 109; 112; 59]%N. cbn [app].
    rewrite subst_at_miss by done. repeat (rewrite subst_at_miss by (by apply ltgt_not_amp)). by rewrite IH.
  - destruct (N.eqb_spec c 60) as [->|H60]; [|destruct (N.eqb_spec c 62) as [->|H62]].
    + change (js "&lt;") with [38; 108; 116; 59]%N. cbn [app].
      rewrite (subst_at_hit _ _ 4 (js "<")) by (done || simpl; lia). cbn [drop]. by rewrite drop_0, IH.
    + change (js "&gt;") with [38; 103; 116; 59]%N. cbn [app].
      rewrite (subst_at_hit _ _ 4 (js ">")) by (done || simpl; lia). cbn [drop]. by rewrite drop_0, IH.
    + rewrite (proj2 (N.eqb_neq c 160)) by congruence. cbn [app].
      rewrite subst_at_miss by (by apply ltgt_not_amp). by rewrite IH.
Qed.

Lemma second_pass s : subst_at (occurrence (js "&amp;") (js "&")) 0 (flat_map amp_char s) = s.
Proof.
  induction s as [|c s IH]; [done|]. cbn [flat_map]. unfold amp_char at 1.
  destruct (N.eqb_spec c 38) as [->|H38].
  - rewrite (subst_at_hit _ _ 5 (js "&")); [|done|].
    + change 5 with (length (js "&amp;")). by rewrite drop_app_length, IH.
    + rewrite length_app. change (length (js "&amp;")) with 5. lia.
  - cbn [app]. rewrite subst_at_miss; [by rewrite IH|]. unfold occurrence.
    change (js "&amp;") with [38; 97; 109; 112; 59]%N. cbn [starts_with].
    by rewrite (proj2 (N.eqb_neq 38 c)) by congruence.
Qed.

Lemma third_pass w r s : (forall i, starts_with w (drop i s) = false) -> subst_at (occurrence w r) 0 s = s.
Proof.
  induction s as [|c s IH]; intros H; [done|]. rewrite subst_at_miss.
  - rewrite IH; [done|]. intros i. apply (H (S i)).
  - unfold occurrence. specialize (H 0). rewrite drop_0 in H. by rewrite H.
Qed.

Lemma unescape_passes h :
  unescape h = subst_at (occurrence (js "&quot;") (js "＂")) 0
    (subst_at (occurrence (js "&amp;") (js "&")) 0 (subst_at ltgt_at 0 h)).
Proof.
  unfold unescape. rewrite replace_ltgt.
  rewrite (replace_occurrences re_amp_ref (js "&amp;") (js "&")); [|done..|by apply (bool_decide_unpack _)].
  rewrite (replace_occurrences re_quot_ref (js "&quot;") (js "＂")); [|done..|by apply (bool_decide_unpack _)].
  done.
Qed.

(** ** Properties *)

(** Converting slide content to HTML never fails: for every nesting of content
    classes, all links, and whatever the browser does with the markup, the conversion
    ends in HTML. *)
Theorem convertMarkdown_total (normalized : jsstr -> jsstr) (only_p : jsstr -> option jsstr)
    (coin : nat -> bool) (content : list item) (ls : gmap jsstr link) (inside : bool) :
  exists html, convertMarkdown normalized only_p coin content ls inside = Ok html.
Proof. apply convertMarkdown_ok. Qed.


