(* ===== verification/Startup.v ===== *)
(** * Starting up (modules 3, 5, 6 and 19)

    How options become a session: [applyDefaults] and the accessors of the slide show with
    their default values, the options of the timer, the options of marked under those of the
    converter, and the two ways into [create], with a source at hand or after the answer to a
    request.  [Session.create] is the rest of the way. *)

From S2P Require Import Prelude JsString JsRegExp RegExpFacts Events SlideParser SlideModel Slideshow.
From S2P Require Import Navigation Inputs Timer Utils Views Session MarkedGrammar MarkedLexer Converter.

(** ** Options of marked (module 3) *)

Inductive mvalue := VBool (b : bool) | VStr (s : jsstr) | VNull | VRenderer.

(** An object with options, by key. *)
Abbreviation mobject := (gmap jsstr mvalue).

(** [merge(obj, ...)]: the own properties of each of the others, in order *)
Definition merge (obj : mobject) (targets : list mobject) : mobject :=
  fold_left (fun obj target => target ∪ obj) targets obj.

Definition object_of (l : list (string * mvalue)) : mobject :=
  list_to_map (map (fun p => (js p.1, p.2)) l).

(** [marked.defaults] when the module is loaded *)
Definition marked_object : mobject := object_of
  [("gfm", VBool true); ("tables", VBool true); ("breaks", VBool false); ("pedantic", VBool false);
   ("sanitize", VBool false); ("sanitizer", VNull); ("mangle", VBool true); ("smartLists", VBool false);
   ("silent", VBool false); ("highlight", VNull); ("langPrefix", VStr (js "lang-")); ("smartypants", VBool false);
   ("headerPrefix", VStr []); ("renderer", VRenderer); ("xhtml", VBool false); ("baseUrl", VNull)]%string.

(** [marked.setOptions(opt)]: the new [marked.defaults] *)
Definition setOptions (opt defaults : mobject) : mobject := merge defaults [opt].

(** What converter.js sets *)
Definition converter_object : mobject := object_of
  [("gfm", VBool true); ("tables", VBool true); ("breaks", VBool false); ("pedantic", VBool true);
   ("sanitize", VBool false); ("smartLists", VBool true); ("langPrefix", VStr [])]%string.

(** The options as the lexer and the parser read them. *)
Definition flag (o : mobject) (k : string) : bool :=
  match o !! js k with Some (VBool b) => b | Some (VStr s) => negb (bool_decide (s = [])) | Some VRenderer => true | _ => false end.
Definition text (o : mobject) (k : string) : jsstr := match o !! js k with Some (VStr s) => s | _ => [] end.
Definition read_options (o : mobject) : moptions :=
  mkMOptions (flag o "gfm") (flag o "tables") (flag o "breaks") (flag o "pedantic") (flag o "sanitize") (flag o "mangle")
    (flag o "smartLists") (flag o "smartypants") (flag o "xhtml") (text o "langPrefix") (text o "headerPrefix")
    (match o !! js "baseUrl" with Some (VStr s) => if negb (bool_decide (s = [])) then Some s else None | _ => None end) None.

(** A key has the value of the last object that has it. *)
Lemma merge_lookup (targets : list mobject) : forall (obj : mobject) (k : jsstr),
  merge obj targets !! k
  = match List.find (fun t => bool_decide (is_Some (t !! k))) (rev targets) with Some t => t !! k | None => obj !! k end.
Proof.
  unfold merge. induction targets as [|t targets IH] using rev_ind; intros obj k; [done|].
  rewrite fold_left_app, rev_app_distr. cbn [fold_left rev List.app List.find]. rewrite lookup_union, IH.
  case_bool_decide as Hk; [destruct Hk as [v Hv]; rewrite Hv; match goal with |- _ ∪ ?x = _ => by destruct x end|].
  apply eq_None_not_Some in Hk. rewrite Hk. by rewrite (left_id_L None _).
Qed.

(** The converter works with the options of marked that [remark_options] lists, and options
    that a caller passes win over both. *)
Theorem converter_settings (o : mobject) (k : jsstr) (v : mvalue) :
  read_options marked_object = marked_defaults /\
  read_options (setOptions converter_object marked_object) = remark_options /\
  (o !! k = Some v -> merge ∅ [setOptions converter_object marked_object; o] !! k = Some v) /\
  (o !! k = None -> merge ∅ [setOptions converter_object marked_object; o] !! k = setOptions converter_object marked_object !! k).
Proof.
  split; [vm_compute; reflexivity|]. split; [vm_compute; reflexivity|].
  split; intros Hk; rewrite merge_lookup; cbn [rev List.app List.find]; rewrite Hk.
  - by rewrite bool_decide_eq_true_2.
  - rewrite bool_decide_eq_false_2 by (by intros [? ?]). case_bool_decide as Hs; [done|].
    apply eq_None_not_Some in Hs. by rewrite Hs, lookup_empty.
Qed.

(** ** Options of the slide show (module 19) *)

(** The options of [create] that have a default; [None] is undefined. *)
Record api_options := mkApi {
  (** [None]: no property of its own; [Some None]: its own, but undefined *)
  ao_source : option (option jsstr);
  ao_sourceUrl : option jsstr;
  (** an element of the document, or something else *)
  ao_container : option nat;
  ao_ratio : option jsstr;
  ao_highlightStyle : option jsstr;
  ao_highlightLines : option bool;
  ao_highlightSpans : option bool;
  ao_highlightInlineCode : option bool;
  ao_highlightLanguage : option jsstr;
  ao_slideNumberFormat : option jsstr;
  ao_cloneTarget : option jsstr;
  (** the options of the timer *)
  ao_enabled : option bool;
  ao_resetable : option bool;
  ao_startOnChange : option bool
}.

Definition getRatio (o : api_options) : jsstr := getOrDefault (ao_ratio o) (js "4:3").
Definition getHighlightStyle (o : api_options) : jsstr := getOrDefault (ao_highlightStyle o) (js "default").
Definition getHighlightLines (o : api_options) : bool := getOrDefault (ao_highlightLines o) false.
Definition getHighlightSpans (o : api_options) : bool := getOrDefault (ao_highlightSpans o) false.
Definition getHighlightInlineCode (o : api_options) : bool := getOrDefault (ao_highlightInlineCode o) false.
Definition getHighlightLanguage (o : api_options) : jsstr := getOrDefault (ao_highlightLanguage o) [].
Definition getSlideNumberFormat (o : api_options) : jsstr := getOrDefault (ao_slideNumberFormat o) (js "%current% / %total%").
Definition getCloneTarget (o : api_options) : jsstr := getOrDefault (ao_cloneTarget o) (js "_blank").

(** [extend({}, defaults, options || {})] for the timer: an undefined value is not copied *)
Definition timer_options_of (o : api_options) : timer_options :=
  mkTimerOptions (getOrDefault (ao_enabled o) true) (getOrDefault (ao_resetable o) true) (getOrDefault (ao_startOnChange o) true).

(** ** The document (module 14) and [applyDefaults] (module 6) *)

(** The body, the classes of the elements, and the element with id source: its markup and
    whether it is displayed. *)
Record document := mkDocument {
  d_body : nat;
  d_class : nat -> jsstr;
  d_source : option (jsstr * bool)
}.

Definition with_source (s : option jsstr) (o : api_options) : api_options :=
  mkApi (Some s) (ao_sourceUrl o) (ao_container o) (ao_ratio o) (ao_highlightStyle o) (ao_highlightLines o)
    (ao_highlightSpans o) (ao_highlightInlineCode o) (ao_highlightLanguage o) (ao_slideNumberFormat o) (ao_cloneTarget o)
    (ao_enabled o) (ao_resetable o) (ao_startOnChange o).
Definition with_container (c : nat) (o : api_options) : api_options :=
  mkApi (ao_source o) (ao_sourceUrl o) (Some c) (ao_ratio o) (ao_highlightStyle o) (ao_highlightLines o)
    (ao_highlightSpans o) (ao_highlightInlineCode o) (ao_highlightLanguage o) (ao_slideNumberFormat o) (ao_cloneTarget o)
    (ao_enabled o) (ao_resetable o) (ao_startOnChange o).

Definition applyDefaults (d : document) (o : api_options) : api_options * document :=
  let '(o, d) :=
    match ao_source o, d_source d with
    | None, Some (html, _) =>
        (with_source (Some (unescape html)) o, mkDocument (d_body d) (d_class d) (Some (html, false)))
    | _, _ => (o, d)
    end in
  (match ao_container o with Some _ => o | None => with_container (d_body d) o end, d).

(** [isEmbedded()] of the view, for options with defaults *)
Definition isEmbedded (d : document) (o : api_options) : bool :=
  match ao_container o with Some c => negb (c =? d_body d)%nat | None => false end.

(** ** [create] (modules 6 and 19) *)

Section Create.
Context {E : Type} `{Emitter E handler}.
Context (render renderNotes : slide_vm -> jsstr).
Context (nopts : nav_options) (macros : macro_env) (depth : nat) (sopts : show_options).

(** The slide show is there, or it waits for the answer to a request for the address. *)
Inductive started := Running (a : session E) | Waiting (url : jsstr).

Definition is_running (s : started) : bool := match s with Running _ => true | Waiting _ => false end.

(** [source || ''] *)
Definition source_text (o : api_options) : jsstr := match ao_source o with Some (Some s) => s | _ => [] end.

Definition truthy_url (o : api_options) : option jsstr :=
  match ao_sourceUrl o with Some (c :: s) => Some (c :: s) | _ => None end.

(** The callback of the slide show: the view and the default controller. *)
Definition run_session (now width : Z) (opener : bool) (d : document) (o : api_options) (h source : jsstr) (e0 : E) : result (session E) :=
  create render renderNotes nopts (timer_options_of o) macros depth sopts now width opener (isEmbedded d o)
    (d_class d (default (d_body d) (ao_container o))) h source e0.

Definition api_create (now width : Z) (opener : bool) (d : document) (o : api_options) (h : jsstr) (e0 : E) : result (started * document) :=
  let '(o, d) := applyDefaults d o in
  match truthy_url o with
  | Some url => Ok (Waiting url, d)
  | None => let! a := run_session now width opener d o h (source_text o) e0 in Ok (Running a, d)
  end.

(** The answer to the request ([xhr.onload]), and its failure ([xhr.onerror]). *)
Definition api_answer (now width : Z) (opener : bool) (d : document) (o : api_options) (h : jsstr) (e0 : E)
    (readyState status : N) (responseText statusText : jsstr) : result (option (session E)) :=
  let '(o, d) := applyDefaults d o in
  if (readyState =? 4)%N then
    if (status =? 200)%N then
      let! a := run_session now width opener d o h (replace re_crlf nl responseText) e0 in Ok (Some a)
    else Throw (Error statusText)
  else Ok None.

Definition api_failure (statusText : jsstr) : result (option (session E)) := Throw (Error statusText).

(** Applying the defaults again changes nothing. *)
Lemma applyDefaults_twice (d : document) (o : api_options) :
  applyDefaults (applyDefaults d o).2 (applyDefaults d o).1 = applyDefaults d o.
Proof.
  unfold applyDefaults. destruct o as [os ou oc]. cbn [ao_source ao_container].
  destruct os as [s|], (d_source d) as [[html shown]|] eqn:Ed, oc as [c|]; cbn; by rewrite ?Ed.
Qed.

Definition without_url (o : api_options) : api_options :=
  mkApi (ao_source o) None (ao_container o) (ao_ratio o) (ao_highlightStyle o) (ao_highlightLines o)
    (ao_highlightSpans o) (ao_highlightInlineCode o) (ao_highlightLanguage o) (ao_slideNumberFormat o) (ao_cloneTarget o)
    (ao_enabled o) (ao_resetable o) (ao_startOnChange o).

(** A deck that is loaded from an address is the deck of its text: [create] waits, whatever
    the source would be, an answer with an error throws, and the answer with a text opens
    the session that [create] opens when the text, with its line ends, is the source. *)
Theorem url_like_source (now width : Z) (opener : bool) (d : document) (o : api_options) (h : jsstr) (e0 : E) (url responseText statusText : jsstr) :
  truthy_url o = Some url ->
  (exists d', api_create now width opener d o h e0 = Ok (Waiting url, d')) /\
  (forall status, status <> 200%N -> api_answer now width opener d o h e0 4 status responseText statusText = Throw (Error statusText)) /\
  api_answer now width opener d o h e0 4 200 responseText statusText
  = (let! (s, _) := api_create now width opener d (with_source (Some (replace re_crlf nl responseText)) (without_url o)) h e0 in
     Ok (match s with Running a => Some a | Waiting _ => None end)).
Proof.
  intros Hu. destruct o as [os ou oc]. unfold truthy_url in Hu. cbn [ao_sourceUrl] in Hu.
  unfold api_create, api_answer, applyDefaults, with_source, without_url, truthy_url, source_text.
  generalize (replace re_crlf nl responseText). intros src. cbn [ao_source ao_container ao_sourceUrl d_source d_body d_class N.eqb].
  split_and!.
  - destruct os as [s|], (d_source d) as [[html shown]|], oc as [c|]; cbn; rewrite Hu; eauto.
  - intros status Hs. rewrite (proj2 (N.eqb_neq _ _) Hs). by destruct os as [s|], (d_source d) as [[html shown]|], oc as [c|].
  - destruct os as [s|], (d_source d) as [[html shown]|], oc as [c|]; cbn; unfold run_session, timer_options_of; cbn;
      (match goal with |- rbind ?x _ = _ => by destruct x end).
Qed.
End Create.

(** ** Witness *)

Definition plain_options (url : option jsstr) : api_options :=
  mkApi None url None None None None None None None None None None None None.
Definition empty_document : document := mkDocument 0 (fun _ => []) (Some (js "# a &lt; b", true)).

Lemma url_like_source_witness :
  exists d', api_create (E := emitter handler) no_html no_html opts0 no_macros 1 sample_options 0 800 false empty_document
    (plain_options (Some (js "deck.md"))) [] newEmitter = Ok (Waiting (js "deck.md"), d').
Proof.
  apply (url_like_source no_html no_html opts0 no_macros 1 sample_options 0 800 false empty_document (plain_options (Some (js "deck.md")))
    [] newEmitter (js "deck.md") [] []). reflexivity.
Defined.

(** Without options the source is the text of the element, the element is hidden and the show
    takes the whole page. *)
Example element_source :
  let '(o, d) := applyDefaults empty_document (plain_options None) in
  (source_text o, isEmbedded d o, snd <$> d_source d, getRatio o) = (js "# a < b", false, Some false, js "4:3").
Proof. vm_compute. reflexivity. Qed.
