(* ===== verification/HljsStreams.v ===== *)
(** * Merging markup into highlighted code (module 15, stream merging)

    Code that already contains elements keeps them: [nodeStream] lists where the
    elements of a tree start and stop, and [mergeStreams] interleaves the elements of
    the original code with those of the highlighted code. *)

From S2P Require Import Prelude JsString JsRegExp RegExpFacts RegExpCounts MarkedInline.

(** ** Nodes *)

(** An element: its identity, its tag in lower case, its attributes. *)
Record enode := mkENode { en_id : nat; en_tag : jsstr; en_attrs : list (jsstr * jsstr) }.

#[global] Instance enode_eq : EqDecision enode.
Proof. solve_decision. Defined.

Inductive dom := DText (s : jsstr) | DElem (n : enode) (children : list dom) | DOther.

Record ev := mkEv { ev_start : bool; ev_offset : nat; ev_node : enode }.

Definition re_void : regexp := Eval vm_compute in re "br|hr|img|input" "".
Definition is_void (tag : jsstr) : bool := test re_void tag.

(** [escape(value)] of highlight.js *)
Definition hl_escape (value : jsstr) : jsstr :=
  replace re_gt (js "&gt;") (replace re_lt (js "&lt;") (replace re_amp (js "&amp;") value)).

(** [_nodeStream(node, offset)] for one child: its events, and the offset after it *)
Fixpoint child_stream (d : dom) (offset : nat) : list ev * nat :=
  match d with
  | DText s => ([], offset + length s)
  | DOther => ([], offset)
  | DElem n children =>
      let fix go (l : list dom) (offset : nat) : list ev * nat :=
        match l with
        | [] => ([], offset)
        | d :: l => let '(e1, o1) := child_stream d offset in
                    let '(e2, o2) := go l o1 in (e1 ++ e2, o2)
        end in
      let '(inner, stop) := go children offset in
      (mkEv true offset n :: inner ++ (if is_void (en_tag n) then [] else [mkEv false stop n]), stop)
  end.

Fixpoint children_stream (l : list dom) (offset : nat) : list ev * nat :=
  match l with
  | [] => ([], offset)
  | d :: l => let '(e1, o1) := child_stream d offset in
              let '(e2, o2) := children_stream l o1 in (e1 ++ e2, o2)
  end.

Definition nodeStream (children : list dom) : list ev := fst (children_stream children 0).

(** ** Merging *)

(** [attr_str]: only the first quotation mark of a value is replaced. *)
Definition attr_str (a : jsstr * jsstr) : jsstr :=
  js " " ++ fst a ++ js "=＂" ++ replace_str (hl_escape (snd a)) (js "＂") (js "&quot;") ++ js "＂".

Definition open_tag (n : enode) : jsstr := js "<" ++ en_tag n ++ join [] (map attr_str (en_attrs n)) ++ js ">".
Definition close_tag (n : enode) : jsstr := js "</" ++ en_tag n ++ js ">".
Definition render_ev (e : ev) : jsstr := if ev_start e then open_tag (ev_node e) else close_tag (ev_node e).

(** [selectStream()]: whether it gives the original stream *)
Definition select_original (o h : list ev) : bool :=
  match o, h with
  | [], _ => false
  | _, [] => true
  | e1 :: _, e2 :: _ =>
      if negb (ev_offset e1 =? ev_offset e2)%nat then (ev_offset e1 <? ev_offset e2)%nat else ev_start e2
  end.

(** The loop [do ... while] over original tags at the same offset. *)
Fixpoint take_original (processed : nat) (o h : list ev) : jsstr * list ev :=
  match o with
  | [] => ([], [])
  | e :: o' =>
      let again := select_original o' h && match o' with e' :: _ => (ev_offset e' =? processed)%nat | [] => false end in
      if again then let '(r, o'') := take_original processed o' h in (render_ev e ++ r, o'')
      else (render_ev e, o')
  end.

(** [nodeStack.push(node)] or [nodeStack.pop()] *)
Definition push_pop (e : ev) (stack : list enode) : list enode :=
  if ev_start e then stack ++ [ev_node e] else take (length stack - 1) stack.

(** One round of the loop of [mergeStreams]; [stack] is from the bottom to the top. *)
Fixpoint merge_loop (fuel : nat) (value : jsstr) (processed : nat) (result : jsstr) (stack : list enode)
    (o h : list ev) : option jsstr :=
  match fuel with
  | O => None
  | S f =>
      if select_original o h then
        match o with
        | [] => None
        | e :: _ =>
            let result := result ++ hl_escape (substring value processed (ev_offset e)) in
            let '(r, o') := take_original (ev_offset e) o h in
            merge_loop f value (ev_offset e)
              (result ++ concat (map close_tag (rev stack)) ++ r ++ concat (map open_tag stack)) stack o' h
        end
      else
        match h with
        | [] => Some (result ++ hl_escape (drop processed value))
        | e :: h' =>
            let result := result ++ hl_escape (substring value processed (ev_offset e)) in
            merge_loop f value (ev_offset e) (result ++ render_ev e) (push_pop e stack) o h'
        end
  end.

Definition mergeStreams (original highlighted : list ev) (value : jsstr) : option jsstr :=
  merge_loop (S (length original + length highlighted)) value 0 [] [] original highlighted.

(** ** What is merged *)

(** A piece of the result: text of the code, or a tag of the original or of the
    highlighted markup. *)
Inductive piece := PText (s : jsstr) | PTag (original start : bool) (n : enode).

Definition render_piece (p : piece) : jsstr :=
  match p with PText s => hl_escape s | PTag _ start n => if start then open_tag n else close_tag n end.
Definition render_pieces (ps : list piece) : jsstr := concat (map render_piece ps).

Definition piece_text (p : piece) : jsstr := match p with PText s => s | _ => [] end.
Definition text_of (ps : list piece) : jsstr := concat (map piece_text ps).

(** The tags of the original markup, in order. *)
Definition original_tag (p : piece) : list (bool * enode) :=
  match p with PTag true start n => [(start, n)] | _ => [] end.
Definition original_tags (ps : list piece) : list (bool * enode) := concat (map original_tag ps).

(** The open elements after a tag; a void element is never open. *)
Definition tag_nest (stk : list enode) (start : bool) (n : enode) : option (list enode) :=
  if start then Some (if is_void (en_tag n) then stk else n :: stk)
  else match stk with m :: s => if decide (m = n) then Some s else None | [] => None end.

Fixpoint nested (stk : list enode) (ps : list piece) : option (list enode) :=
  match ps with
  | [] => Some stk
  | PText _ :: ps => nested stk ps
  | PTag _ start n :: ps => tag_nest stk start n ≫= fun stk => nested stk ps
  end.

Fixpoint ev_nested (stk : list enode) (es : list ev) : option (list enode) :=
  match es with
  | [] => Some stk
  | e :: es => tag_nest stk (ev_start e) (ev_node e) ≫= fun stk => ev_nested stk es
  end.

(** Offsets in order between two bounds. *)
Fixpoint seg (p : nat) (es : list ev) (q : nat) : Prop :=
  match es with [] => p <= q | e :: es => p <= ev_offset e /\ seg (ev_offset e) es q end.

Definition solid (n : enode) : Prop := is_void (en_tag n) = false.

Lemma render_pieces_app a b : render_pieces (a ++ b) = render_pieces a ++ render_pieces b.
Proof. unfold render_pieces. by rewrite map_app, concat_app. Qed.
Lemma text_of_app a b : text_of (a ++ b) = text_of a ++ text_of b.
Proof. unfold text_of. by rewrite map_app, concat_app. Qed.
Lemma original_tags_app a b : original_tags (a ++ b) = original_tags a ++ original_tags b.
Proof. unfold original_tags. by rewrite map_app, concat_app. Qed.

Lemma nested_app a : forall b stk, nested stk (a ++ b) = nested stk a ≫= fun s => nested s b.
Proof.
  induction a as [|p a IH]; intros b stk; [done|]. destruct p as [s|o st n]; cbn [app nested]; [done|].
  destruct (tag_nest stk st n); [apply IH|done].
Qed.

Lemma ev_nested_app a : forall b stk, ev_nested stk (a ++ b) = ev_nested stk a ≫= fun s => ev_nested s b.
Proof.
  induction a as [|e a IH]; intros b stk; [done|]. cbn [app ev_nested].
  destruct (tag_nest _ _ _); [apply IH|done].
Qed.

Lemma seg_app a : forall p q r b, seg p a q -> seg q b r -> seg p (a ++ b) r.
Proof.
  induction a as [|e a IH]; intros p q r b Ha Hb; simpl in *.
  - destruct b; simpl in *; [lia|]. split; [lia|apply Hb].
  - destruct Ha as [H1 H2]. split; [done|]. by eapply IH.
Qed.

Lemma seg_le es : forall p q, seg p es q -> p <= q.
Proof. induction es as [|e es IH]; intros p q; simpl; [done|]. intros [H1 H2%IH]. lia. Qed.

Lemma seg_weaken p' es p q : seg p es q -> (match es with e :: _ => p' <= ev_offset e | [] => p' <= q end) -> seg p' es q.
Proof. destruct es; simpl; [done|]. intros [_ H] ?. done. Qed.

(** The pieces of events and of a stack that is closed or opened again. *)
Definition tags (es : list ev) : list piece := map (fun e => PTag true (ev_start e) (ev_node e)) es.
Definition closes (ns : list enode) : list piece := map (PTag false false) ns.
Definition opens (ns : list enode) : list piece := map (PTag false true) ns.

Lemma render_tags es : render_pieces (tags es) = concat (map render_ev es).
Proof. unfold render_pieces, tags. by rewrite map_map. Qed.
Lemma render_closes ns : render_pieces (closes ns) = concat (map close_tag ns).
Proof. unfold render_pieces, closes. by rewrite map_map. Qed.
Lemma render_opens ns : render_pieces (opens ns) = concat (map open_tag ns).
Proof. unfold render_pieces, opens. by rewrite map_map. Qed.

Lemma text_no_text {A} (f : A -> piece) l : (forall x, piece_text (f x) = []) -> text_of (map f l) = [].
Proof. intros H. induction l as [|x l IH]; [done|]. unfold text_of in *. simpl. by rewrite H, IH. Qed.

Lemma no_original {A} (f : A -> piece) l : (forall x, original_tag (f x) = []) -> original_tags (map f l) = [].
Proof. intros H. induction l as [|x l IH]; [done|]. unfold original_tags in *. simpl. by rewrite H, IH. Qed.

Lemma original_of_tags es : original_tags (tags es) = map (fun e => (ev_start e, ev_node e)) es.
Proof. induction es as [|e es IH]; [done|]. unfold original_tags in *. simpl. by rewrite IH. Qed.

Lemma nested_tags es : forall stk, nested stk (tags es) = ev_nested stk es.
Proof. induction es as [|e es IH]; intros stk; [done|]. simpl. destruct (tag_nest _ _ _); [apply IH|done]. Qed.

Lemma nested_closes ns : forall stk, nested (ns ++ stk) (closes ns) = Some stk.
Proof. induction ns as [|n ns IH]; intros stk; [done|]. simpl. rewrite decide_True by done. apply IH. Qed.

Lemma nested_opens ns : Forall solid ns -> forall stk, nested stk (opens ns) = Some (rev ns ++ stk).
Proof.
  induction 1 as [|n ns Hn _ IH]; intros stk; [done|]. cbn [opens map nested tag_nest].
  unfold solid in Hn. rewrite Hn. cbn [mbind option_bind]. change (map (PTag false true) ns) with (opens ns).
  rewrite IH. cbn [rev]. by rewrite <- app_assoc.
Qed.

(** ** The loop *)

Lemma take_original_spec processed h : forall o, o <> [] ->
  exists taken o', take_original processed o h = (concat (map render_ev taken), o') /\
    o = taken ++ o' /\ taken <> [].
Proof.
  induction o as [|e o IH]; intros Hne; [done|]. cbn [take_original]. case_match eqn:E.
  - destruct o as [|e' o]; [by rewrite andb_false_r in E|].
    destruct IH as (t & o' & -> & Ho & Ht); [done|]. exists (e :: t), o'. simpl. by rewrite Ho.
  - exists [e], o. simpl. by rewrite app_nil_r.
Qed.

Section Merge.
Context (value : jsstr).
Let len := length value.

Lemma substring_up p q : p <= q -> substring value p q = take (q - p) (drop p value).
Proof. intros H. unfold substring. by rewrite Nat.max_r, Nat.min_l. Qed.

Lemma text_split p q : p <= q -> q <= len -> take (q - p) (drop p value) ++ drop q value = drop p value.
Proof.
  intros H1 H2. rewrite <- (take_drop (q - p) (drop p value)) at 2. rewrite drop_drop. do 2 f_equal. lia.
Qed.

Lemma select_heads (o h : list ev) :
  if select_original o h
  then exists e o', o = e :: o' /\ match h with e2 :: _ => ev_offset e <= ev_offset e2 | [] => True end
  else match h with
       | e :: _ => match o with e1 :: _ => ev_offset e <= ev_offset e1 | [] => True end
       | [] => o = []
       end.
Proof.
  destruct o as [|e1 o], h as [|e2 h]; simpl; try done; [by eexists _, _|].
  destruct (Nat.eqb_spec (ev_offset e1) (ev_offset e2)) as [E|E]; simpl.
  - destruct (ev_start e2); [|lia]. eexists _, _. split; [done|lia].
  - destruct (Nat.ltb_spec (ev_offset e1) (ev_offset e2)); [|lia]. eexists _, _. split; [done|lia].
Qed.

(** What the loop gives from a state, with the open original elements [ostk]. *)
Definition merges (r : option jsstr) (processed : nat) (result : jsstr) (stack ostk : list enode)
    (o : list ev) : Prop :=
  exists ps, r = Some (result ++ render_pieces ps) /\
    text_of ps = drop processed value /\ nested (rev stack ++ ostk) ps = Some [] /\
    original_tags ps = map (fun e => (ev_start e, ev_node e)) o.

(** Text up to an offset, then some tags, then the rest. *)
Lemma merges_step r p q result pieces stack stack' ostk ostk' o o' :
  p <= q -> q <= len -> text_of pieces = [] ->
  nested (rev stack ++ ostk) pieces = Some (rev stack' ++ ostk') ->
  map (fun e => (ev_start e, ev_node e)) o = original_tags pieces ++ map (fun e => (ev_start e, ev_node e)) o' ->
  merges r q (result ++ hl_escape (substring value p q) ++ render_pieces pieces) stack' ostk' o' ->
  merges r p result stack ostk o.
Proof.
  intros Hpq Hq Ht Hn Ho (ps & -> & Htext & Hnest & Horig).
  exists (PText (substring value p q) :: pieces ++ ps). split_and!.
  - f_equal. change (PText ?s :: ?l) with ([PText s] ++ l). rewrite !render_pieces_app.
    unfold render_pieces at 3. cbn [map concat render_piece]. by rewrite app_nil_r, <- !app_assoc.
  - change (PText ?s :: ?l) with ([PText s] ++ l). rewrite !text_of_app, Ht, Htext.
    unfold text_of. cbn [map concat piece_text]. rewrite app_nil_r, app_nil_l, substring_up by done.
    by apply text_split.
  - cbn [nested]. rewrite nested_app, Hn. exact Hnest.
  - change (PText ?s :: ?l) with ([PText s] ++ l). rewrite !original_tags_app, Horig, Ho. done.
Qed.

Lemma seg_tail es o' : forall q r, seg q (es ++ o') r -> seg q o' r.
Proof.
  induction es as [|x es IH]; intros q r Hq; simpl in *; [done|]. destruct Hq as [H1 H2%IH].
  destruct o' as [|y o']; simpl in *; [lia|]. destruct H2. split; [lia|done].
Qed.

(** A tag of the highlighted markup keeps the stack in step. *)
Lemma stack_step e stack ostk stk' :
  solid (ev_node e) -> Forall solid stack -> tag_nest (rev stack) (ev_start e) (ev_node e) = Some stk' ->
  stk' = rev (push_pop e stack) /\ Forall solid (push_pop e stack) /\
  nested (rev stack ++ ostk) [PTag false (ev_start e) (ev_node e)] = Some (rev (push_pop e stack) ++ ostk).
Proof.
  intros Hve Hs En. unfold push_pop, tag_nest, solid in *. destruct (ev_start e).
  - rewrite Hve in En. injection En as <-. rewrite rev_app_distr. split_and!; [done| |].
    + apply Forall_app. split; [done|]. by apply List.Forall_cons; [|apply List.Forall_nil].
    + cbn [nested tag_nest]. by rewrite Hve.
  - destruct (rev stack) as [|m s] eqn:Er; [done|]. destruct (decide (m = ev_node e)) as [->|]; [|done].
    injection En as <-. assert (Es : stack = rev s ++ [ev_node e]).
    { apply (f_equal (@rev enode)) in Er. by rewrite rev_involutive in Er. }
    rewrite Es, length_app, Nat.add_sub, take_app_length, rev_involutive. split_and!; [done| |].
    + rewrite Es in Hs. by apply Forall_app in Hs as [? _].
    + cbn [nested tag_nest app]. by rewrite decide_True.
Qed.

Lemma merge_loop_ok : forall fuel processed result stack ostk o h,
  length o + length h < fuel -> seg processed o len -> seg processed h len ->
  ev_nested ostk o = Some [] -> ev_nested (rev stack) h = Some [] ->
  Forall solid stack -> Forall (fun e => solid (ev_node e)) h ->
  merges (merge_loop fuel value processed result stack o h) processed result stack ostk o.
Proof.
  induction fuel as [|f IH]; intros p result stack ostk o h Hf Ho Hh No Nh Hs Hv; [lia|]. cbn [merge_loop].
  pose proof (select_heads o h) as Hsel. destruct (select_original o h).
  - destruct Hsel as (e & o1 & Eo & Hle).
    destruct (take_original_spec (ev_offset e) h o) as (taken & o' & Et & Eo' & Hne); [by rewrite Eo|].
    assert (Hoff : p <= ev_offset e /\ ev_offset e <= len).
    { rewrite Eo in Ho. destruct Ho as [H1 H2]. split; [done|by apply seg_le in H2]. }
    rewrite Eo' in No. rewrite ev_nested_app in No.
    destruct (ev_nested ostk taken) as [ostk'|] eqn:Nt; [|done]. cbn [mbind option_bind] in No.
    rewrite Eo at 1. rewrite Et.
    eapply (merges_step _ p (ev_offset e) _ (closes (rev stack) ++ tags taken ++ opens stack) stack stack ostk ostk' o o');
      [lia|lia| | | |].
    + rewrite !text_of_app. unfold closes, tags, opens. by rewrite !text_no_text.
    + rewrite nested_app, nested_closes. cbn [mbind option_bind]. rewrite nested_app, nested_tags, Nt.
      cbn [mbind option_bind]. by apply nested_opens.
    + rewrite Eo', map_app, !original_tags_app, original_of_tags. unfold closes, opens.
      by rewrite !no_original, app_nil_r.
    + rewrite !render_pieces_app, render_closes, render_tags, render_opens, <- !app_assoc.
      apply IH; try done.
      * rewrite Eo', length_app in Hf. destruct taken; [done|]. simpl in Hf. lia.
      * rewrite Eo' in Ho, Eo. destruct taken as [|e0 taken]; [done|]. injection Eo as -> _.
        by apply (seg_tail taken), (proj2 Ho).
      * destruct h as [|e2 h]; simpl in *; [lia|]. split; [done|apply Hh].
  - destruct h as [|e h].
    + subst o. exists [PText (drop p value)]. split_and!.
      * unfold render_pieces. cbn [map concat render_piece]. by rewrite app_nil_r.
      * unfold text_of. cbn. by rewrite app_nil_r.
      * simpl in No, Nh |- *. injection No as ->. injection Nh as ->. done.
      * done.
    + destruct Hh as [Hp Hh]. apply Forall_cons in Hv as [Hve Hv]. simpl in Hf. cbn [ev_nested] in Nh.
      pose proof (seg_le _ _ _ Hh) as Hq.
      destruct (tag_nest (rev stack) (ev_start e) (ev_node e)) as [stk'|] eqn:En; [|done].
      cbn [mbind option_bind] in Nh.
      destruct (stack_step e stack ostk stk' Hve Hs En) as (-> & Hs' & Hn').
      set (stack' := push_pop e stack) in *.
      eapply (merges_step _ p (ev_offset e) _ [PTag false (ev_start e) (ev_node e)] stack stack' ostk ostk o o);
        [lia|lia|done|exact Hn'|done|].
      replace (render_pieces [PTag false (ev_start e) (ev_node e)]) with (render_ev e)
        by (unfold render_pieces; cbn; by rewrite app_nil_r).
      rewrite app_assoc. apply IH; try done; [lia|].
      destruct o as [|e1 o]; simpl in *; [lia|]. destruct Ho. split; [lia|done].
Qed.
End Merge.

(** Merging returns for all streams. *)
Lemma take_original_shorter processed h o : o <> [] -> length (snd (take_original processed o h)) < length o.
Proof.
  induction o as [|e o IH]; [done|]. intros _. cbn [take_original]. destruct (_ && _) eqn:E; [|simpl; lia].
  destruct o as [|e2 o]; [by rewrite andb_false_r in E|].
  specialize (IH ltac:(done)). destruct (take_original processed (e2 :: o) h). simpl in *. lia.
Qed.

Lemma merge_loop_total value fuel : forall p result stack o h,
  length o + length h < fuel -> exists r, merge_loop fuel value p result stack o h = Some r.
Proof.
  induction fuel as [|f IH]; intros p result stack o h Hf; [lia|]. cbn [merge_loop].
  destruct (select_original o h) eqn:E.
  - destruct o as [|e o]; [done|]. pose proof (take_original_shorter (ev_offset e) h (e :: o) ltac:(done)) as Hs.
    destruct (take_original (ev_offset e) (e :: o) h) as [r o']. apply IH. simpl in *. lia.
  - destruct h as [|e h]; [eauto|]. apply IH. simpl in *. lia.
Qed.

Lemma mergeStreams_total o h value : exists r, mergeStreams o h value = Some r.
Proof. apply merge_loop_total. lia. Qed.

(** ** The streams of trees *)

Fixpoint dom_size (d : dom) : nat :=
  match d with DElem _ l => S (list_sum (map dom_size l)) | _ => 1 end.

(** [textContent] *)
Fixpoint dom_text (d : dom) : jsstr :=
  match d with DText s => s | DElem _ l => concat (map dom_text l) | DOther => [] end.
Definition textContent (l : list dom) : jsstr := concat (map dom_text l).

(** No element of the tree is taken for a void one. *)
Fixpoint no_void (d : dom) : bool :=
  match d with DElem n l => negb (is_void (en_tag n)) && forallb no_void l | _ => true end.

Lemma child_stream_elem n l offset :
  child_stream (DElem n l) offset =
    let '(inner, stop) := children_stream l offset in
    (mkEv true offset n :: inner ++ (if is_void (en_tag n) then [] else [mkEv false stop n]), stop).
Proof.
  cbn [child_stream]. match goal with |- context [?g l offset] => set (go := g) end.
  assert (E : forall l o, go l o = children_stream l o).
  { induction l0 as [|d l0 IH]; intros o; [done|]. cbn. destruct (child_stream d o) as [e1 o1]. by rewrite IH. }
  by rewrite E.
Qed.

(** What one child contributes: its events are in order and balanced, and the offset
    advances by the length of its text. *)
Definition stream_ok (text : nat) (solids : bool) (offset : nat) (r : list ev * nat) : Prop :=
  snd r = offset + text /\ seg offset (fst r) (snd r) /\
  (forall stk, ev_nested stk (fst r) = Some stk) /\
  (solids = true -> Forall (fun e => solid (ev_node e)) (fst r)).

Lemma children_stream_ok l :
  (forall d offset, d ∈ l -> stream_ok (length (dom_text d)) (no_void d) offset (child_stream d offset)) ->
  forall offset, stream_ok (length (textContent l)) (forallb no_void l) offset (children_stream l offset).
Proof.
  induction l as [|d l IH]; intros Hd offset; [unfold stream_ok; simpl; split_and!; [lia|lia|done|constructor]|].
  cbn [children_stream]. pose proof (Hd d offset ltac:(set_solver)) as H1.
  destruct (child_stream d offset) as [e1 o1].
  assert (Hl : forall d offset, d ∈ l -> stream_ok (length (dom_text d)) (no_void d) offset (child_stream d offset)).
  { intros d0 o0 H0. apply Hd. set_solver. }
  specialize (IH Hl o1). destruct (children_stream l o1) as [e2 o2].
  destruct H1 as (T1 & S1 & N1 & V1), IH as (T2 & S2 & N2 & V2). cbn [fst snd] in *. split_and!; cbn [fst snd].
  - unfold textContent in *. cbn [map concat]. rewrite length_app. lia.
  - by eapply seg_app.
  - intros stk. rewrite ev_nested_app, N1. apply N2.
  - cbn [forallb]. intros [Hv1 Hv2]%andb_prop. apply Forall_app. auto.
Qed.

Lemma child_stream_ok : forall n d offset, dom_size d <= n ->
  stream_ok (length (dom_text d)) (no_void d) offset (child_stream d offset).
Proof.
  induction n as [|n IH]; intros d offset Hn; [destruct d; simpl in Hn; lia|].
  destruct d as [s|e l|].
  - unfold stream_ok. simpl. split_and!; [done|lia|done|constructor].
  - rewrite child_stream_elem. assert (Hl : forall d o, d ∈ l -> stream_ok (length (dom_text d)) (no_void d) o (child_stream d o)).
    { intros d o Hd. apply IH. simpl in Hn. enough (dom_size d <= list_sum (map dom_size l)) by lia.
      clear -Hd. induction Hd; simpl; lia. }
    pose proof (children_stream_ok l Hl offset) as (T & S & N & V).
    destruct (children_stream l offset) as [inner stop]. cbn [fst snd] in *. split_and!; cbn [fst snd].
    + exact T.
    + split; [done|]. eapply seg_app; [exact S|]. case_match; simpl; lia.
    + intros stk. cbn [ev_nested ev_start ev_node tag_nest mbind option_bind].
      rewrite ev_nested_app, N. cbn [mbind option_bind]. case_match; [done|]. simpl. by rewrite decide_True.
    + cbn [no_void]. intros [Hv%negb_true_iff Hvl]%andb_prop. constructor; [done|].
      apply Forall_app. split; [auto|]. rewrite Hv. by apply List.Forall_cons; [|apply List.Forall_nil].
  - unfold stream_ok. simpl. split_and!; [lia|lia|done|constructor].
Qed.

Lemma nodeStream_ok l :
  seg 0 (nodeStream l) (length (textContent l)) /\ ev_nested [] (nodeStream l) = Some [] /\
  (forallb no_void l = true -> Forall (fun e => solid (ev_node e)) (nodeStream l)).
Proof.
  destruct (children_stream_ok l (fun d o _ => child_stream_ok (dom_size d) d o (le_n _)) 0) as (T & S & N & V).
  unfold nodeStream. rewrite T in S. split_and!; [exact S|apply N|exact V].
Qed.

(** ** Properties *)

Lemma merge_keeps (original highlighted : list dom) :
  length (textContent highlighted) = length (textContent original) -> forallb no_void highlighted = true ->
  exists ps,
    mergeStreams (nodeStream original) (nodeStream highlighted) (textContent original) = Some (render_pieces ps) /\
    text_of ps = textContent original /\ nested [] ps = Some [] /\
    original_tags ps = map (fun e => (ev_start e, ev_node e)) (nodeStream original).
Proof.
  intros Hlen Hv. destruct (nodeStream_ok original) as (So & No & _), (nodeStream_ok highlighted) as (Sh & Nh & Vh).
  rewrite Hlen in Sh. unfold mergeStreams.
  destruct (merge_loop_ok (textContent original) (S (length (nodeStream original) + length (nodeStream highlighted)))
    0 [] [] [] (nodeStream original) (nodeStream highlighted)) as (ps & H1 & H2 & H3 & H4); try done; [lia|auto|].
  exists ps. by rewrite drop_0 in H2.
Qed.


(** A bold word over a keyword that is highlighted up to the middle of it. *)
Definition bold_code : list dom :=
  [DText (js "va"); DElem (mkENode 0 (js "b") []) [DText (js "r x")]; DText (js " = 1")].
Definition highlighted_code : list dom :=
  [DElem (mkENode 1 (js "span") [(js "class", js "hljs-keyword")]) [DText (js "var")]; DText (js " x = 1")].


Example merge_bold :
  mergeStreams (nodeStream bold_code) (nodeStream highlighted_code) (textContent bold_code)
  = Some (js "<span class=＂hljs-keyword＂>va</span><b><span class=＂hljs-keyword＂>r</span> x</b> = 1").
Proof. vm_compute. reflexivity. Qed.

(** The tag abbr contains the letters br, so it is taken for a void element and never
    closed. *)
Example abbr_not_closed :
  nodeStream [DElem (mkENode 0 (js "abbr") []) [DText (js "x")]] = [mkEv true 0 (mkENode 0 (js "abbr") [])].
Proof. vm_compute. reflexivity. Qed.
