(* ===== verification/HljsModes.v ===== *)
(** * Languages of the syntax highlighter (module 15)

    Languages are graphs of modes that the engine compiles in place.  Modes are objects of
    a heap, shared between languages and changed by compilation, as in the source.
    Numbers are integers or NaN ([None]); the tables of languages have no entry for the
    names of Object.prototype. *)

From S2P Require Import Prelude JsString JsRegExp RegExpFacts RegExpCounts MarkedInline HljsStreams.

(** ** Modes *)

Definition num := option Z.
Definition nadd (a b : num) : num := match a, b with Some x, Some y => Some (x + y)%Z | _, _ => None end.
Definition ngt (a b : num) : bool := match a, b with Some x, Some y => (y <? x)%Z | _, _ => false end.

(** [Number(text)] of a text of digits, NaN for other texts *)
Definition to_number (s : jsstr) : num :=
  if forallb is_digit s then Some (Z.of_N (digits_val s)) else None.

Inductive kws :=
| KNone
| KStr (s : jsstr)
| KObj (l : list (jsstr * jsstr))
| KCompiled (t : gmap jsstr (jsstr * num)).

Inductive child := CSelf | CRef (id : nat).

(** The regular expression of the terminators: not compiled, the object that never
    matches, or an expression. *)
Inductive term := TUndefined | TNever | TRe (r : regexp).

Record mflags := mkMF {
  endsWithParent : bool;
  endsParent : bool;
  endSameAsBegin : bool;
  excludeBegin : bool;
  excludeEnd : bool;
  returnBegin : bool;
  returnEnd : bool;
  skip : bool
}.

(** A property of an object literal that describes a mode.  A variant is such a literal, or
    another mode, whose properties are then taken: [AllOf] stands for them. *)
Inductive prop :=
| AllOf (id : nat)
| ClassName (s : jsstr)
| Begin (s : jsstr)
| End_ (s : jsstr)
| BeginKeywords (s : jsstr)
| Keywords (k : kws)
| Lexemes (s : jsstr)
| Illegal (s : jsstr)
| Relevance (n : Z)
| Contains (l : list child)
| Variants (v : list (list prop))
| Starts (id : nat)
| SubLanguage (s : jsstr + list jsstr)
| EndsWithParent (b : bool)
| EndsParent (b : bool)
| EndSameAsBegin (b : bool)
| ExcludeBegin (b : bool)
| ExcludeEnd (b : bool)
| ReturnBegin (b : bool)
| ReturnEnd (b : bool)
| Skip (b : bool).

(** Patterns are sources: a string and a RegExp are used alike.  Modes whose [array] is the
    same number have the same list object as their [contains]. *)
Record mode := mkMode {
  className : jsstr;
  mbegin : jsstr;
  mend : jsstr;
  beginKeywords : jsstr;
  keywords : kws;
  lexemes : jsstr;
  illegal : jsstr;
  relevance : option num;
  contains : list child;
  variants : option (list (list prop));
  cached_variants : option (list nat);
  starts : option nat;
  subLanguage : option (jsstr + list jsstr);
  mf : mflags;
  compiled : bool;
  beginRe : option regexp;
  endRe : option regexp;
  illegalRe : option regexp;
  lexemesRe : option regexp;
  terminator_end : jsstr;
  terminators : term;
  array : option nat
}.

Definition no_flags : mflags := mkMF false false false false false false false false.

(** The object without properties. *)
Definition no_props : mode :=
  mkMode [] [] [] [] KNone [] [] None [] None None None None no_flags false None None None None [] TUndefined None.

Abbreviation heap := (list mode).

(** Assignments to the properties of a mode. *)
Definition set_className (v : jsstr) (m : mode) : mode :=
  let '(mkMode _ mb me bk kw lx il rel cs vs cv st sl fl cp bRe eRe iRe lRe te ts ar) := m in
  mkMode v mb me bk kw lx il rel cs vs cv st sl fl cp bRe eRe iRe lRe te ts ar.
Definition set_mbegin (v : jsstr) (m : mode) : mode :=
  let '(mkMode cls _ me bk kw lx il rel cs vs cv st sl fl cp bRe eRe iRe lRe te ts ar) := m in
  mkMode cls v me bk kw lx il rel cs vs cv st sl fl cp bRe eRe iRe lRe te ts ar.
Definition set_mend (v : jsstr) (m : mode) : mode :=
  let '(mkMode cls mb _ bk kw lx il rel cs vs cv st sl fl cp bRe eRe iRe lRe te ts ar) := m in
  mkMode cls mb v bk kw lx il rel cs vs cv st sl fl cp bRe eRe iRe lRe te ts ar.
Definition set_beginKeywords (v : jsstr) (m : mode) : mode :=
  let '(mkMode cls mb me _ kw lx il rel cs vs cv st sl fl cp bRe eRe iRe lRe te ts ar) := m in
  mkMode cls mb me v kw lx il rel cs vs cv st sl fl cp bRe eRe iRe lRe te ts ar.
Definition set_keywords (v : kws) (m : mode) : mode :=
  let '(mkMode cls mb me bk _ lx il rel cs vs cv st sl fl cp bRe eRe iRe lRe te ts ar) := m in
  mkMode cls mb me bk v lx il rel cs vs cv st sl fl cp bRe eRe iRe lRe te ts ar.
Definition set_lexemes (v : jsstr) (m : mode) : mode :=
  let '(mkMode cls mb me bk kw _ il rel cs vs cv st sl fl cp bRe eRe iRe lRe te ts ar) := m in
  mkMode cls mb me bk kw v il rel cs vs cv st sl fl cp bRe eRe iRe lRe te ts ar.
Definition set_starts (v : option nat) (m : mode) : mode :=
  let '(mkMode cls mb me bk kw lx il rel cs vs cv _ sl fl cp bRe eRe iRe lRe te ts ar) := m in
  mkMode cls mb me bk kw lx il rel cs vs cv v sl fl cp bRe eRe iRe lRe te ts ar.
Definition set_subLanguage (v : option (jsstr + list jsstr)) (m : mode) : mode :=
  let '(mkMode cls mb me bk kw lx il rel cs vs cv st _ fl cp bRe eRe iRe lRe te ts ar) := m in
  mkMode cls mb me bk kw lx il rel cs vs cv st v fl cp bRe eRe iRe lRe te ts ar.
Definition set_illegal (v : jsstr) (m : mode) : mode :=
  let '(mkMode cls mb me bk kw lx _ rel cs vs cv st sl fl cp bRe eRe iRe lRe te ts ar) := m in
  mkMode cls mb me bk kw lx v rel cs vs cv st sl fl cp bRe eRe iRe lRe te ts ar.
Definition set_relevance (v : option num) (m : mode) : mode :=
  let '(mkMode cls mb me bk kw lx il _ cs vs cv st sl fl cp bRe eRe iRe lRe te ts ar) := m in
  mkMode cls mb me bk kw lx il v cs vs cv st sl fl cp bRe eRe iRe lRe te ts ar.
Definition set_contains (v : list child) (m : mode) : mode :=
  let '(mkMode cls mb me bk kw lx il rel _ vs cv st sl fl cp bRe eRe iRe lRe te ts ar) := m in
  mkMode cls mb me bk kw lx il rel v vs cv st sl fl cp bRe eRe iRe lRe te ts ar.
Definition set_array (v : option nat) (m : mode) : mode :=
  let '(mkMode cls mb me bk kw lx il rel cs vs cv st sl fl cp bRe eRe iRe lRe te ts _) := m in
  mkMode cls mb me bk kw lx il rel cs vs cv st sl fl cp bRe eRe iRe lRe te ts v.
Definition set_variants (v : option (list (list prop))) (m : mode) : mode :=
  let '(mkMode cls mb me bk kw lx il rel cs _ cv st sl fl cp bRe eRe iRe lRe te ts ar) := m in
  mkMode cls mb me bk kw lx il rel cs v cv st sl fl cp bRe eRe iRe lRe te ts ar.
Definition set_cached_variants (v : option (list nat)) (m : mode) : mode :=
  let '(mkMode cls mb me bk kw lx il rel cs vs _ st sl fl cp bRe eRe iRe lRe te ts ar) := m in
  mkMode cls mb me bk kw lx il rel cs vs v st sl fl cp bRe eRe iRe lRe te ts ar.
Definition set_mf (v : mflags) (m : mode) : mode :=
  let '(mkMode cls mb me bk kw lx il rel cs vs cv st sl _ cp bRe eRe iRe lRe te ts ar) := m in
  mkMode cls mb me bk kw lx il rel cs vs cv st sl v cp bRe eRe iRe lRe te ts ar.
Definition set_compiled (v : bool) (m : mode) : mode :=
  let '(mkMode cls mb me bk kw lx il rel cs vs cv st sl fl _ bRe eRe iRe lRe te ts ar) := m in
  mkMode cls mb me bk kw lx il rel cs vs cv st sl fl v bRe eRe iRe lRe te ts ar.
Definition set_beginRe (v : option regexp) (m : mode) : mode :=
  let '(mkMode cls mb me bk kw lx il rel cs vs cv st sl fl cp _ eRe iRe lRe te ts ar) := m in
  mkMode cls mb me bk kw lx il rel cs vs cv st sl fl cp v eRe iRe lRe te ts ar.
Definition set_endRe (v : option regexp) (m : mode) : mode :=
  let '(mkMode cls mb me bk kw lx il rel cs vs cv st sl fl cp bRe _ iRe lRe te ts ar) := m in
  mkMode cls mb me bk kw lx il rel cs vs cv st sl fl cp bRe v iRe lRe te ts ar.
Definition set_illegalRe (v : option regexp) (m : mode) : mode :=
  let '(mkMode cls mb me bk kw lx il rel cs vs cv st sl fl cp bRe eRe _ lRe te ts ar) := m in
  mkMode cls mb me bk kw lx il rel cs vs cv st sl fl cp bRe eRe v lRe te ts ar.
Definition set_lexemesRe (v : option regexp) (m : mode) : mode :=
  let '(mkMode cls mb me bk kw lx il rel cs vs cv st sl fl cp bRe eRe iRe _ te ts ar) := m in
  mkMode cls mb me bk kw lx il rel cs vs cv st sl fl cp bRe eRe iRe v te ts ar.
Definition set_terminator_end (v : jsstr) (m : mode) : mode :=
  let '(mkMode cls mb me bk kw lx il rel cs vs cv st sl fl cp bRe eRe iRe lRe _ ts ar) := m in
  mkMode cls mb me bk kw lx il rel cs vs cv st sl fl cp bRe eRe iRe lRe v ts ar.
Definition set_terminators (v : term) (m : mode) : mode :=
  let '(mkMode cls mb me bk kw lx il rel cs vs cv st sl fl cp bRe eRe iRe lRe te _ ar) := m in
  mkMode cls mb me bk kw lx il rel cs vs cv st sl fl cp bRe eRe iRe lRe te v ar.

Definition set_flag (p : prop) (f : mflags) : mflags :=
  let '(mkMF ewp ep es eb ee rb re sk) := f in
  match p with
  | EndsWithParent b => mkMF b ep es eb ee rb re sk
  | EndsParent b => mkMF ewp b es eb ee rb re sk
  | EndSameAsBegin b => mkMF ewp ep b eb ee rb re sk
  | ExcludeBegin b => mkMF ewp ep es b ee rb re sk
  | ExcludeEnd b => mkMF ewp ep es eb b rb re sk
  | ReturnBegin b => mkMF ewp ep es eb ee b re sk
  | ReturnEnd b => mkMF ewp ep es eb ee rb b sk
  | Skip b => mkMF ewp ep es eb ee rb re b
  | _ => f
  end.

(** [result[key] = obj[key]] for one property *)
Definition assign (m : mode) (p : prop) : mode :=
  match p with
  | ClassName s => set_className s m
  | Begin s => set_mbegin s m
  | End_ s => set_mend s m
  | BeginKeywords s => set_beginKeywords s m
  | Keywords k => set_keywords k m
  | Lexemes s => set_lexemes s m
  | Illegal s => set_illegal s m
  | Relevance n => set_relevance (Some (Some n)) m
  | Contains l => set_array None (set_contains l m)
  | Variants v => set_variants (Some v) m
  | Starts id => set_starts (Some id) m
  | SubLanguage s => set_subLanguage (Some s) m
  | p => set_mf (set_flag p (mf m)) m
  end.

(** [inherit(parent, override)] *)
Definition inherit (parent : mode) (override : list prop) : mode := fold_left assign override parent.

Definition or_flags (f g : mflags) : mflags :=
  mkMF (endsWithParent g || endsWithParent f) (endsParent g || endsParent f) (endSameAsBegin g || endSameAsBegin f)
    (excludeBegin g || excludeBegin f) (excludeEnd g || excludeEnd f) (returnBegin g || returnBegin f)
    (returnEnd g || returnEnd f) (skip g || skip f).

Definition or_text (a b : jsstr) : jsstr := match b with [] => a | _ => b end.
Definition or_some {A} (a b : option A) : option A := match b with Some _ => b | None => a end.

(** The properties of another mode over those of a mode.  The properties that compilation
    always sets are present in a compiled mode, also when they are empty. *)
Definition take_props (m o : mode) : mode :=
  mkMode (or_text (className m) (className o)) (or_text (mbegin m) (mbegin o)) (or_text (mend m) (mend o))
    (or_text (beginKeywords m) (beginKeywords o))
    (if compiled o then keywords o else match keywords o with KNone => keywords m | k => k end)
    (or_text (lexemes m) (lexemes o)) (or_text (illegal m) (illegal o)) (or_some (relevance m) (relevance o))
    (if compiled o then contains o else match contains o with [] => contains m | l => l end)
    (or_some (variants m) (variants o)) (or_some (cached_variants m) (cached_variants o)) (or_some (starts m) (starts o))
    (or_some (subLanguage m) (subLanguage o)) (or_flags (mf m) (mf o)) (compiled o || compiled m)
    (or_some (beginRe m) (beginRe o)) (or_some (endRe m) (endRe o)) (or_some (illegalRe m) (illegalRe o))
    (or_some (lexemesRe m) (lexemesRe o)) (if compiled o then terminator_end o else terminator_end m)
    (if compiled o then terminators o else terminators m) (match contains o with [] => array m | _ => array o end).

(** Code that reads and changes modes and may throw; what was changed before an
    exception stays changed. *)
Definition M (A : Type) : Type := heap -> heap * result A.

Definition ret {A} (a : A) : M A := fun h => (h, Ok a).
Definition lift {A} (r : result A) : M A := fun h => (h, r).
Definition bind {A B} (m : M A) (f : A -> M B) : M B := fun h =>
  match m h with
  | (h', Ok a) => f a h'
  | (h', Throw e) => (h', Throw e)
  | (h', OutOfFuel) => (h', OutOfFuel)
  end.
Notation "'let*' x := c 'in' k" := (bind c (fun x => k))
  (at level 10, x pattern, c at level 100, k at level 200) : js_scope.

Fixpoint mmap {A B} (f : A -> M B) (l : list A) : M (list B) :=
  match l with
  | [] => ret []
  | x :: l => let* y := f x in let* ys := mmap f l in ret (y :: ys)
  end.
Fixpoint mfold {A S} (f : A -> S -> M S) (l : list A) (s : S) : M S :=
  match l with
  | [] => ret s
  | x :: l => let* s := f x s in mfold f l s
  end.

Definition get (id : nat) : M mode := fun h =>
  (h, match h !! id with Some m => Ok m | None => Throw (TypeError (js "undefined mode")) end).
Definition upd (id : nat) (f : mode -> mode) : M unit := fun h => (alter f id h, Ok tt).
(** A new object. *)
Definition alloc (m : mode) : M nat := fun h => (h ++ [m], Ok (length h)).

(** ** Languages *)

(** What a language offers to those that build on it. *)
Record lang_exports := mkExports { preprocessor : nat; strings : nat; export_keywords : kws }.

Record language := mkLang {
  l_root : nat;
  case_insensitive : bool;
  l_aliases : list jsstr;
  disableAutodetect : bool;
  exports : option lang_exports
}.

Record registry := mkReg { languages : list (jsstr * language); aliases : list (jsstr * jsstr) }.

Definition registerLanguage (name : jsstr) (lang : language) (r : registry) : registry :=
  mkReg (oset name lang (languages r)) (fold_left (fun t a => oset a name t) (l_aliases lang) (aliases r)).

Definition listLanguages (r : registry) : list jsstr := map fst (languages r).

Definition getLanguage (r : registry) (name : jsstr) : option language :=
  let name := toLowerCase name in
  match oget name (languages r) with
  | Some l => Some l
  | None => oget (default (js "undefined") (oget name (aliases r))) (languages r)
  end.

Definition autoDetection (r : registry) (name : jsstr) : bool :=
  match getLanguage r name with Some l => negb (disableAutodetect l) | None => false end.

(** ** Compilation *)

Definition langRe (ci : bool) (source : jsstr) (global : bool) : result regexp :=
  match newRegExp source (js "m" ++ (if ci then js "i" else []) ++ (if global then js "g" else [])) with
  | Some r => Ok r
  | None => Throw (Error (js "SyntaxError"))
  end.

Definition backreferenceRe : regexp := Eval vm_compute in
  re "\[(?:[^\\\]]|\\.)*\]|\(\??|\\([1-9][0-9]*)|\\." "".

(** The inner loop of [joinRe] for one source: the text that is appended and the number
    of captures so far. *)
Fixpoint join_one (fuel : nat) (offset : N) (re : jsstr) (numCaptures : N) : jsstr * N :=
  match fuel with
  | O => ([], numCaptures)
  | S f =>
      match re with
      | [] => ([], numCaptures)
      | _ =>
          match exec backreferenceRe re with
          | None => (re, numCaptures)
          | Some m =>
              let rest := drop (m_index m + length (cap0 m)) re in
              let backref := match cap m 1 with
                             | Some (c :: d) => bool_decide (charAt (cap0 m) 0 = [92%N])
                             | _ => false
                             end in
              let piece := if backref
                           then 92%N :: dec (digits_val (default [] (cap m 1)) + offset)
                           else cap0 m in
              let n := if negb backref && bool_decide (cap0 m = js "(") then N.succ numCaptures else numCaptures in
              let '(r, n') := join_one f offset rest n in
              (take (m_index m) re ++ piece ++ r, n')
          end
      end
  end.

Fixpoint join_from (first : bool) (sep : jsstr) (regexps : list jsstr) (numCaptures : N) : jsstr :=
  match regexps with
  | [] => []
  | re :: t =>
      let '(r, n) := join_one (S (length re)) numCaptures re numCaptures in
      (if first then [] else sep) ++ r ++ join_from false sep t n
  end.

Definition joinRe (regexps : list jsstr) (sep : jsstr) : jsstr := join_from true sep regexps 0.

Definition nonempty (s : jsstr) : bool := negb (bool_decide (s = [])).

(** [flatten(className, str)] *)
Definition flatten (ci : bool) (cls str : jsstr) (t : gmap jsstr (jsstr * num)) : gmap jsstr (jsstr * num) :=
  let str := if ci then toLowerCase str else str in
  fold_left (fun t kw =>
      match split_on 124 kw with
      | k :: (c :: n) :: _ => <[k := (cls, to_number (c :: n))]> t
      | k :: _ => <[k := (cls, Some 1%Z)]> t
      | [] => t
      end) (split_on 32 str) t.

Definition boundary : jsstr := js "\B|\b".

(** [compileMode] up to the children: [parent] is the terminator_end of the parent. *)
Definition compile_keywords (ci : bool) (id : nat) : M unit :=
  let* m := get id in
  upd id (set_keywords (
    match (match keywords m with KNone | KStr [] => KStr (beginKeywords m) | k => k end) with
    | KStr [] => KNone
    | KStr s => KCompiled (flatten ci (js "keyword") s ∅)
    | KObj l => KCompiled (fold_left (fun t '(cls, s) => flatten ci cls s t) l ∅)
    | k => k
    end)).

Definition compile_bounds (ci : bool) (id : nat) (parent_end : jsstr) : M unit :=
  let* m := get id in
  let b := if nonempty (beginKeywords m)
           then js "\b(" ++ join (js "|") (split_on 32 (beginKeywords m)) ++ js ")\b" else mbegin m in
  let b := if nonempty b then b else boundary in
  let* _ := upd id (set_mbegin b) in
  let* r := lift (langRe ci b false) in
  let* _ := upd id (set_beginRe (Some r)) in
  let e := if endSameAsBegin (mf m) then b else mend m in
  let e := if negb (nonempty e) && negb (endsWithParent (mf m)) then boundary else e in
  let* _ := upd id (set_mend e) in
  let* _ := (if nonempty e then let* r := lift (langRe ci e false) in upd id (set_endRe (Some r)) else ret tt) in
  upd id (set_terminator_end
    (if endsWithParent (mf m) && nonempty parent_end
     then e ++ (if nonempty e then js "|" else []) ++ parent_end else e)).

Definition compile_own (ci : bool) (id : nat) (parent : option jsstr) : M unit :=
  let* _ := upd id (set_compiled true) in
  let* _ := compile_keywords ci id in
  let* m := get id in
  let* lex := lift (langRe ci (if nonempty (lexemes m) then lexemes m else js "\w+") true) in
  let* _ := upd id (set_lexemesRe (Some lex)) in
  let* _ := match parent with Some pe => compile_bounds ci id pe | None => ret tt end in
  let* _ := (if nonempty (illegal m)
             then let* r := lift (langRe ci (illegal m) false) in upd id (set_illegalRe (Some r))
             else ret tt) in
  upd id (set_relevance (Some (default (Some 1%Z) (relevance m)))).

(** [inherit(mode, {variants: null}, variant)] *)
Definition variant_of (m : mode) (v : list prop) : M nat :=
  match v with
  | [AllOf id] => let* o := get id in alloc (take_props (set_variants None m) o)
  | _ => alloc (inherit (set_variants None m) v)
  end.

(** [expand_mode(mode)] *)
Definition expand_mode (id : nat) : M (list nat) :=
  let* m := get id in
  let* _ := match variants m, cached_variants m with
            | Some vs, None =>
                let* ids := mmap (variant_of m) vs in
                upd id (set_cached_variants (Some ids))
            | _, _ => ret tt
            end in
  let* m := get id in
  match cached_variants m with
  | Some l => ret l
  | None => if endsWithParent (mf m) then let* i := alloc m in ret [i] else ret [id]
  end.

(** The begin pattern of a child, as it appears in the terminators. *)
Definition begin_of (id : nat) : M jsstr :=
  let* c := get id in
  ret (if nonempty (beginKeywords c)
       then js "\.?(?:" ++ (if nonempty (mbegin c) then mbegin c else js "undefined") ++ js ")\.?"
       else mbegin c).

Definition child_id (self : nat) (c : child) : nat := match c with CSelf => self | CRef i => i end.

(** [compileMode(mode, parent)] *)
Fixpoint compileMode (fuel : nat) (ci : bool) (id : nat) (parent : option jsstr) : M unit :=
  match fuel with
  | O => lift OutOfFuel
  | S f =>
      let* m := get id in
      if compiled m then ret tt else
      let* _ := compile_own ci id parent in
      let* m := get id in
      let* ids := mmap (fun c => expand_mode (child_id id c)) (contains m) in
      let ids := concat ids in
      let* _ := upd id (set_contains (map CRef ids)) in
      let* _ := mmap (fun c => compileMode f ci c (Some (terminator_end m))) ids in
      let* _ := match starts m with Some s => compileMode f ci s parent | None => ret tt end in
      let* bs := mmap begin_of ids in
      match List.filter nonempty (bs ++ [terminator_end m; illegal m]) with
      | [] => upd id (set_terminators TNever)
      | l => let* r := lift (langRe ci (joinRe l (js "|")) true) in upd id (set_terminators (TRe r))
      end
  end.

Definition compileLanguage (fuel : nat) (l : language) : M unit := compileMode fuel (case_insensitive l) (l_root l) None.
