(* ===== verification/Hljs.v ===== *)
(** * Highlighting (module 15)

    [highlight] walks through the code with a stack of modes; [highlightAuto] tries
    several languages.  [fuel] bounds the loops and the nesting of modes in compilation,
    [depth] the nesting of sub-languages. *)

From S2P Require Import Prelude JsString JsRegExp RegExpFacts RegExpCounts MarkedInline HljsStreams HljsModes.

(** ** Highlighting *)

Record hl_options := mkOpts {
  classPrefix : jsstr;
  tabReplace : option jsstr;
  useBR : bool;
  o_languages : option (list jsstr)
}.

(** What [highlight] returns; the mode on top at the end is given by its stack, which is
    empty when there is none. *)
Record hres := mkHRes {
  h_relevance : num;
  h_value : jsstr;
  h_language : option jsstr;
  h_top : list nat
}.

(** The variables of [highlight]: the chain of modes from [top] to its outermost parent,
    the output, the buffer, the relevance and the continuations. *)
Record hstate := mkHS {
  hs_top : list nat;
  hs_result : jsstr;
  hs_buffer : jsstr;
  hs_relevance : num;
  hs_conts : list (jsstr * list nat)
}.

Definition testRe (r : option regexp) (lexeme : jsstr) : bool :=
  match r with
  | Some r => match exec r lexeme with Some m => (m_index m =? 0)%nat | None => false end
  | None => false
  end.

Definition escape_chars : regexp := Eval vm_compute in re "[-\/\\^$*+?.()|[\]{}]" "g".

Definition escapeRe (value : jsstr) : result regexp :=
  match newRegExp (replace escape_chars (js "\$&") value) (js "m") with
  | Some r => Ok r
  | None => Throw (Error (js "SyntaxError"))
  end.

(** [subMode(lexeme, mode)] over the children that are left; the text 'self', which
    compilation replaces, has no beginRe. *)
Fixpoint subMode (lexeme : jsstr) (cs : list child) : M (option nat) :=
  match cs with
  | [] => ret None
  | CSelf :: cs => subMode lexeme cs
  | CRef id :: cs =>
      let* m := get id in
      if testRe (beginRe m) lexeme then
        let* _ := (if endSameAsBegin (mf m) then
                     match beginRe m ≫= fun r => exec r lexeme with
                     | Some x => let* r := lift (escapeRe (cap0 x)) in upd id (set_endRe (Some r))
                     | None => ret tt
                     end
                   else ret tt) in
        ret (Some id)
      else subMode lexeme cs
  end.

(** The loop over [endsParent]. *)
Fixpoint climb (stack : list nat) : M (list nat) :=
  match stack with
  | id :: ((_ :: _) as rest) =>
      let* m := get id in
      if endsParent (mf m) then climb rest else ret stack
  | _ => ret stack
  end.

(** [endOfMode(mode, lexeme)]: the stack from the mode that ends *)
Fixpoint endOfMode (stack : list nat) (lexeme : jsstr) : M (option (list nat)) :=
  match stack with
  | [] => lift (Throw (TypeError (js "mode is undefined")))
  | id :: rest =>
      let* m := get id in
      if testRe (endRe m) lexeme then let* s := climb stack in ret (Some s)
      else if endsWithParent (mf m) then endOfMode rest lexeme
      else ret None
  end.

Definition spanEndTag : jsstr := Eval vm_compute in js "</span>".
Definition openSpan (prefix classname : jsstr) : jsstr := js "<span class=＂" ++ prefix ++ classname ++ js "＂>".

Definition buildSpan (opts : hl_options) (classname insideSpan : jsstr) (leaveOpen noPrefix : bool) : jsstr :=
  match classname with
  | [] => insideSpan
  | _ => openSpan (if noPrefix then [] else classPrefix opts) classname ++ insideSpan
         ++ (if leaveOpen then [] else spanEndTag)
  end.

Definition keywordMatch (ci : bool) (t : gmap jsstr (jsstr * num)) (word : jsstr) : option (jsstr * num) :=
  t !! (if ci then toLowerCase word else word).

(** The loop of [processKeywords] from [last_index] on: the output and the relevance.
    With lexemes that match the empty text it does not end. *)
Fixpoint keyword_loop (fuel : nat) (opts : hl_options) (ci : bool) (t : gmap jsstr (jsstr * num)) (lex : regexp)
    (buffer : jsstr) (last_index : nat) (rel : num) : result (jsstr * num) :=
  match fuel with
  | O => OutOfFuel
  | S f =>
      match exec_at lex buffer last_index with
      | None => Ok (hl_escape (drop last_index buffer), rel)
      | Some m =>
          let '(word, rel) :=
            match keywordMatch ci t (cap0 m) with
            | Some (cls, n) => (buildSpan opts cls (hl_escape (cap0 m)) false false, nadd rel n)
            | None => (hl_escape (cap0 m), rel)
            end in
          let! (r, rel) := keyword_loop f opts ci t lex buffer (m_end m) rel in
          Ok (hl_escape (substring buffer last_index (m_index m)) ++ word ++ r, rel)
      end
  end.

Definition processKeywords (fuel : nat) (opts : hl_options) (ci : bool) (top : mode) (buffer : jsstr) (rel : num)
    : result (jsstr * num) :=
  match keywords top, lexemesRe top with
  | KNone, _ => Ok (hl_escape buffer, rel)
  | KCompiled t, Some lex => keyword_loop fuel opts ci t lex buffer 0 rel
  | _, _ => Throw (TypeError (js "lexemesRe is undefined"))
  end.

Definition no_mode : M mode := lift (Throw (TypeError (js "top is undefined"))).
Definition top_mode (stack : list nat) : M mode := match stack with [] => no_mode | id :: _ => get id end.

Section Engine.
Context (opts : hl_options) (reg : registry) (fuel : nat).
(** [highlight] for the sub-languages *)
Context (rec : jsstr -> jsstr -> bool -> list nat -> M hres).

(** The choice of the best and the second best result. *)
Definition consider (current : hres) (b : hres * hres) : hres * hres :=
  let '(result, second_best) := b in
  let second_best := if ngt (h_relevance current) (h_relevance second_best) then current else second_best in
  if ngt (h_relevance current) (h_relevance result) then (current, result) else (result, second_best).

Definition set_language (name : jsstr) (r : hres) : hres :=
  mkHRes (h_relevance r) (h_value r) (Some name) (h_top r).

Definition known (name : jsstr) : bool := match getLanguage reg name with Some _ => true | None => false end.

Definition highlightAuto (text : jsstr) (subset : option (list jsstr)) : M (hres * option hres) :=
  let names := match subset with
               | Some l => l
               | None => default (listLanguages reg) (o_languages opts)
               end in
  let result := mkHRes (Some 0%Z) (hl_escape text) None [] in
  let* (result, second_best) :=
    mfold (fun name b => let* current := rec name text false [] in ret (consider (set_language name current) b))
      (List.filter (autoDetection reg) (List.filter known names)) (result, result) in
  ret (result, match h_language second_best with Some (_ :: _) => Some second_best | _ => None end).

Definition processSubLanguage (top : mode) (sub : jsstr + list jsstr) (s : hstate) : M (jsstr * hstate) :=
  let add (r : hres) (conts : list (jsstr * list nat)) :=
    ret (buildSpan opts (default [] (h_language r)) (h_value r) false true,
         mkHS (hs_top s) (hs_result s) (hs_buffer s)
           (if ngt (default None (relevance top)) (Some 0%Z) then nadd (hs_relevance s) (h_relevance r)
            else hs_relevance s) conts) in
  match sub with
  | inl name =>
      match oget name (languages reg) with
      | None => ret (hl_escape (hs_buffer s), s)
      | Some _ =>
          let* r := rec name (hs_buffer s) true (default [] (oget name (hs_conts s))) in
          add r (oset name (h_top r) (hs_conts s))
      end
  | inr l =>
      let* (r, _) := highlightAuto (hs_buffer s) (match l with [] => None | _ => Some l end) in
      add r (hs_conts s)
  end.

Definition processBuffer (ci : bool) (s : hstate) : M hstate :=
  let* top := top_mode (hs_top s) in
  let* (r, s) :=
    match subLanguage top with
    | Some sub => processSubLanguage top sub s
    | None =>
        let* (r, rel) := lift (processKeywords fuel opts ci top (hs_buffer s) (hs_relevance s)) in
        ret (r, mkHS (hs_top s) (hs_result s) (hs_buffer s) rel (hs_conts s))
    end in
  ret (mkHS (hs_top s) (hs_result s ++ r) [] (hs_relevance s) (hs_conts s)).

Definition push_buffer (b : jsstr) (s : hstate) : hstate :=
  mkHS (hs_top s) (hs_result s) (hs_buffer s ++ b) (hs_relevance s) (hs_conts s).
Definition set_buffer (b : jsstr) (s : hstate) : hstate :=
  mkHS (hs_top s) (hs_result s) b (hs_relevance s) (hs_conts s).

Definition startNewMode (id : nat) (s : hstate) : M hstate :=
  let* m := get id in
  ret (mkHS (id :: hs_top s) (hs_result s ++ buildSpan opts (className m) [] true false) (hs_buffer s)
         (hs_relevance s) (hs_conts s)).

Definition is_sub (m : mode) : bool := match subLanguage m with None | Some (inl []) => false | _ => true end.

(** The loop that leaves the modes, [n] of them. *)
Fixpoint leave (n : nat) (s : hstate) : M hstate :=
  match n with
  | O => ret s
  | S n =>
      let* top := top_mode (hs_top s) in
      leave n (mkHS (tl (hs_top s)) (hs_result s ++ (if nonempty (className top) then spanEndTag else []))
                 (hs_buffer s)
                 (if negb (skip (mf top)) && negb (is_sub top)
                  then nadd (hs_relevance s) (default None (relevance top)) else hs_relevance s)
                 (hs_conts s))
  end.

Definition illegal_message (lexeme : jsstr) (top : mode) : jsstr :=
  js "Illegal lexeme ＂" ++ lexeme ++ js "＂ for mode ＂"
  ++ (if nonempty (className top) then className top else js "<unnamed>") ++ js "＂".

(** The branch of [processLexeme] for a new mode. *)
Definition begin_lexeme (ci : bool) (lexeme : jsstr) (id : nat) (s : hstate) : M (nat * hstate) :=
  let* m := get id in
  let* s := (if skip (mf m) then ret (push_buffer lexeme s)
             else let s := if excludeBegin (mf m) then push_buffer lexeme s else s in
                  let* s := processBuffer ci s in
                  ret (if negb (returnBegin (mf m)) && negb (excludeBegin (mf m)) then set_buffer lexeme s else s)) in
  let* s := startNewMode id s in
  ret (if returnBegin (mf m) then 0 else length lexeme, s).

(** The branch of [processLexeme] for the end of a mode; [ends] is the stack from that
    mode. *)
Definition end_lexeme (ci : bool) (lexeme : jsstr) (ends : list nat) (s : hstate) : M (nat * hstate) :=
  let* origin := top_mode (hs_top s) in
  let* s := (if skip (mf origin) then ret (push_buffer lexeme s)
             else let s := if returnEnd (mf origin) || excludeEnd (mf origin) then s else push_buffer lexeme s in
                  let* s := processBuffer ci s in
                  ret (if excludeEnd (mf origin) then set_buffer lexeme s else s)) in
  let* s := leave (length (hs_top s) - (length ends - 1)) s in
  let* end_mode := top_mode ends in
  let* s := match starts end_mode with
            | None => ret s
            | Some st =>
                let* _ := (if endSameAsBegin (mf end_mode) then upd st (set_endRe (endRe end_mode)) else ret tt) in
                startNewMode st s
            end in
  ret (if returnEnd (mf origin) then 0 else length lexeme, s).

(** [processLexeme(buffer, lexeme)]; without a lexeme it is [processBuffer] *)
Definition processLexeme (ci ignore_illegals : bool) (buffer lexeme : jsstr) (s : hstate) : M (nat * hstate) :=
  let s := push_buffer buffer s in
  let* top := top_mode (hs_top s) in
  let* new_mode := subMode lexeme (contains top) in
  match new_mode with
  | Some id => begin_lexeme ci lexeme id s
  | None =>
      let* end_mode := endOfMode (hs_top s) lexeme in
      match end_mode with
      | Some ends => end_lexeme ci lexeme ends s
      | None =>
          let* top := top_mode (hs_top s) in
          if negb ignore_illegals && testRe (illegalRe top) lexeme
          then lift (Throw (Error (illegal_message lexeme top)))
          else ret (Nat.max 1 (length lexeme), push_buffer lexeme s)
      end
  end.

(** The loop over the lexemes: the index where it stops. *)
Fixpoint lexeme_loop (n : nat) (ci ignore_illegals : bool) (value : jsstr) (index : nat) (s : hstate)
    : M (nat * hstate) :=
  match n with
  | O => lift OutOfFuel
  | S n =>
      let* top := top_mode (hs_top s) in
      match terminators top with
      | TUndefined => lift (Throw (TypeError (js "terminators is undefined")))
      | TNever => ret (index, s)
      | TRe r =>
          match exec_at r value index with
          | None => ret (index, s)
          | Some m =>
              let* (count, s) :=
                processLexeme ci ignore_illegals (substring value index (m_index m)) (cap0 m) s in
              lexeme_loop n ci ignore_illegals value (m_index m + count) s
          end
      end
  end.

(** The opening tags of the modes of a continuation, the outermost first. *)
Fixpoint open_spans (ids : list nat) : M jsstr :=
  match ids with
  | [] => ret []
  | id :: ids =>
      let* m := get id in
      let* r := open_spans ids in
      ret (r ++ buildSpan opts (className m) [] true false)
  end.

Fixpoint close_spans (ids : list nat) : M jsstr :=
  match ids with
  | [] => ret []
  | id :: ids =>
      let* m := get id in
      let* r := close_spans ids in
      ret ((if nonempty (className m) then spanEndTag else []) ++ r)
  end.

Definition without_last (l : list nat) : list nat := take (length l - 1) l.

(** The body of [try] in [highlight]. *)
Definition highlight_run (name value : jsstr) (ci ignore_illegals : bool) (s : hstate) : M hres :=
  let* (index, s) := lexeme_loop fuel ci ignore_illegals value 0 s in
  let* s := processBuffer ci (push_buffer (drop index value) s) in
  let* close := close_spans (without_last (hs_top s)) in
  ret (mkHRes (hs_relevance s) (hs_result s ++ close) (Some name) (hs_top s)).

Definition message (e : exn) : jsstr := match e with TypeError m | Error m => m end.

(** [catch]: an illegal lexeme gives the escaped code. *)
Definition catch_illegal (value : jsstr) (m : M hres) : M hres := fun h =>
  match m h with
  | (h', Throw e) =>
      match indexOf (message e) (js "Illegal") with
      | Some _ => (h', Ok (mkHRes (Some 0%Z) (hl_escape value) None []))
      | None => (h', Throw e)
      end
  | r => r
  end.

Definition highlight_body (name value : jsstr) (ignore_illegals : bool) (continuation : list nat) : M hres :=
  match getLanguage reg name with
  | None => lift (Throw (Error (js "Unknown language: ＂" ++ name ++ js "＂")))
  | Some l =>
      let* _ := compileLanguage fuel l in
      let top := match continuation with [] => [l_root l] | _ => continuation end in
      let* result := (if decide (last top = Some (l_root l)) then open_spans (without_last top)
                      else lift (Throw (TypeError (js "current is undefined")))) in
      catch_illegal value
        (highlight_run name value (case_insensitive l) ignore_illegals (mkHS top result [] (Some 0%Z) []))
  end.
End Engine.

(** [highlight(name, value, ignore_illegals, continuation)]; [depth] bounds the nesting
    of sub-languages. *)
Fixpoint highlight (opts : hl_options) (reg : registry) (fuel depth : nat) (name value : jsstr)
    (ignore_illegals : bool) (continuation : list nat) : M hres :=
  highlight_body opts reg fuel
    (match depth with O => fun _ _ _ _ => lift OutOfFuel | S d => highlight opts reg fuel d end)
    name value ignore_illegals continuation.
