(* ===== verification/HljsLanguages.v ===== *)
(** * Languages (module 15)

    The common patterns and modes, and how a language definition builds its modes: each
    object literal is a new object, so that modes used in several places are shared as in
    the source. *)

From S2P Require Import Prelude JsString JsRegExp RegExpFacts RegExpCounts MarkedInline HljsStreams HljsModes Hljs.

(** ** Building modes *)

(** An object literal. *)
Definition new (ps : list prop) : M nat := alloc (inherit no_props ps).
(** [hljs.inherit(mode, ...)]: unless it is given another, the new mode has the list object
    of the mode, which gets a number when it is first shared *)
Definition inherit_mode (id : nat) (ps : list prop) : M nat :=
  let* m := get id in
  let* _ := match array m with None => fun h => upd id (set_array (Some (length h))) h | Some _ => ret tt end in
  let* m := get id in
  alloc (inherit m ps).

(** [mode.contains.push(child)]: the modes that have the same list object are changed *)
Definition push (id : nat) (c : child) : M unit :=
  let* m := get id in
  match array m with
  | None => upd id (set_contains (contains m ++ [c]))
  | Some a => fun h => (map (fun o => if bool_decide (array o = Some a) then set_contains (contains o ++ [c]) o else o) h, Ok tt)
  end.
(** [array.push(children)] for an array that the given modes have as their list *)
Definition pushed (ids : list nat) (cs : list child) : M (list unit) := mmap (fun id => upd id (set_contains cs)) ids.

(** [mode.contains[i]] *)
Definition child_at (id i : nat) : M nat :=
  let* m := get id in
  match contains m !! i with
  | Some (CRef c) => ret c
  | _ => lift (Throw (TypeError (js "undefined mode")))
  end.
(** [mode.variants[i].key = value] *)
Definition set_in_variant (id i : nat) (p : prop) : M unit :=
  upd id (fun m => set_variants (alter (fun v => v ++ [p]) i <$> variants m) m).

(** What a language definition returns: the object, and the properties that only a
    language has. *)
Record lang_props := mkLP { lp_case : bool; lp_aliases : list jsstr; lp_disable : bool }.
Definition lang_with (exp : option lang_exports) (lp : lang_props) (ps : list prop) : M language :=
  let* id := new ps in ret (mkLang id (lp_case lp) (lp_aliases lp) (lp_disable lp) exp).
Definition lang (lp : lang_props) (ps : list prop) : M language := lang_with None lp ps.
Definition plain_lang : lang_props := mkLP false [] false.

(** ** Common patterns *)

Definition IDENT_RE : jsstr := js "[a-zA-Z]\w*".
Definition UNDERSCORE_IDENT_RE : jsstr := js "[a-zA-Z_]\w*".
Definition NUMBER_RE : jsstr := js "\b\d+(\.\d+)?".
Definition C_NUMBER_RE : jsstr := js "(-?)(\b0[xX][a-fA-F0-9]+|(\b\d+(\.\d*)?|\.\d+)([eE][-+]?\d+)?)".
Definition BINARY_NUMBER_RE : jsstr := js "\b(0b[01]+)".
Definition RE_STARTERS_RE : jsstr :=
  js "!|!=|!==|%|%=|&|&&|&=|\*|\*=|\+|\+=|,|-|-=|/=|/|:|;|<<|<<=|<=|<|===|==|=|>>>=|>>=|>=|>>>|>>|>|\?|\[|\{|\(|\^|\^=|\||\|=|\|\||~".

(** ** Common modes *)

(** The objects are created in this order, from the start of the heap. *)
Definition BACKSLASH_ESCAPE : nat := 0.
Definition APOS_STRING_MODE : nat := 1.
Definition QUOTE_STRING_MODE : nat := 2.
Definition PHRASAL_WORDS_MODE : nat := 3.
Definition C_LINE_COMMENT_MODE : nat := 4.
Definition C_BLOCK_COMMENT_MODE : nat := 6.
Definition HASH_COMMENT_MODE : nat := 8.
Definition NUMBER_MODE : nat := 10.
Definition C_NUMBER_MODE : nat := 11.
Definition BINARY_NUMBER_MODE : nat := 12.
Definition CSS_NUMBER_MODE : nat := 13.
Definition REGEXP_MODE : nat := 15.
Definition TITLE_MODE : nat := 16.
Definition UNDERSCORE_TITLE_MODE : nat := 17.
Definition METHOD_GUARD : nat := 18.

(** [hljs.COMMENT(begin, end, inherits)] *)
Definition COMMENT (b e : jsstr) (inherits : list prop) : M nat :=
  let* id := new ([ClassName (js "comment"); Begin b; End_ e; Contains []] ++ inherits) in
  let* doctag := new [ClassName (js "doctag"); Begin (js "(?:TODO|FIXME|NOTE|BUG|XXX):"); Relevance 0] in
  let* _ := push id (CRef PHRASAL_WORDS_MODE) in
  let* _ := push id (CRef doctag) in
  ret id.

Definition phrasal_words : jsstr :=
  js "\b(a|an|the|are|I'm|isn't|don't|doesn't|won't|but|just|should|pretty|simply|enough|gonna|going|wtf|so|such|will|you|your|they|like|more)\b".
Definition css_units : jsstr :=
  js "(%|em|ex|ch|rem|vw|vh|vmin|vmax|cm|mm|in|pt|pc|px|deg|grad|rad|turn|s|ms|Hz|kHz|dpi|dpcm|dppx)?".

Definition common_modes : M (list nat) :=
  let* m1 := new [Begin (js "\\[\s\S]"); Relevance 0] in
  let* m2 := new [ClassName (js "string"); Begin (js "'"); End_ (js "'"); Illegal (js "\n");
                  Contains [CRef BACKSLASH_ESCAPE]] in
  let* m3 := new [ClassName (js "string"); Begin (js "＂"); End_ (js "＂"); Illegal (js "\n");
                  Contains [CRef BACKSLASH_ESCAPE]] in
  let* m4 := new [Begin phrasal_words] in
  let* m5 := COMMENT (js "//") (js "$") [] in
  let* m6 := COMMENT (js "/\*") (js "\*/") [] in
  let* m7 := COMMENT (js "#") (js "$") [] in
  let* m8 := new [ClassName (js "number"); Begin NUMBER_RE; Relevance 0] in
  let* m9 := new [ClassName (js "number"); Begin C_NUMBER_RE; Relevance 0] in
  let* m10 := new [ClassName (js "number"); Begin BINARY_NUMBER_RE; Relevance 0] in
  let* m11 := new [ClassName (js "number"); Begin (NUMBER_RE ++ css_units); Relevance 0] in
  let* cls := new [Begin (js "\["); End_ (js "\]"); Relevance 0; Contains [CRef BACKSLASH_ESCAPE]] in
  let* m12 := new [ClassName (js "regexp"); Begin (js "\/"); End_ (js "\/[gimuy]*"); Illegal (js "\n");
                   Contains [CRef BACKSLASH_ESCAPE; CRef cls]] in
  let* m13 := new [ClassName (js "title"); Begin IDENT_RE; Relevance 0] in
  let* m14 := new [ClassName (js "title"); Begin UNDERSCORE_IDENT_RE; Relevance 0] in
  let* m15 := new [Begin (js "\.\s*" ++ UNDERSCORE_IDENT_RE); Relevance 0] in
  ret [m1; m2; m3; m4; m5; m6; m7; m8; m9; m10; m11; m12; m13; m14; m15].

Example common_modes_ids : snd (common_modes []) = Ok
  [BACKSLASH_ESCAPE; APOS_STRING_MODE; QUOTE_STRING_MODE; PHRASAL_WORDS_MODE; C_LINE_COMMENT_MODE;
   C_BLOCK_COMMENT_MODE; HASH_COMMENT_MODE; NUMBER_MODE; C_NUMBER_MODE; BINARY_NUMBER_MODE; CSS_NUMBER_MODE;
   REGEXP_MODE; TITLE_MODE; UNDERSCORE_TITLE_MODE; METHOD_GUARD].
Proof. vm_compute. reflexivity. Qed.

(** ** Registering the languages *)

(** A language definition is a function of the highlighter: it may use the languages that
    are registered before it. *)
Definition creator : Type := registry -> M language.
Definition alone (create : M language) : creator := fun _ => create.

(** [hljs.getLanguage(name).exports] *)
Definition exports_of (r : registry) (name : jsstr) : M lang_exports :=
  lift (match getLanguage r name with
        | Some l => match exports l with
                    | Some e => Ok e
                    | None => Throw (TypeError (js "undefined exports"))
                    end
        | None => Throw (TypeError (js "undefined language"))
        end).
(** [exports.keywords[key]] *)
Definition keywords_of (e : lang_exports) (key : jsstr) : jsstr :=
  match export_keywords e with KObj l => default (js "undefined") (oget key l) | _ => js "undefined" end.

(** [hljs.registerLanguage(name, create)]: the language is created and registered *)
Definition register (name : jsstr) (create : creator) (r : registry) : M registry :=
  let* l := create r in ret (registerLanguage name l r).

(** The loop that registers the bundled languages. *)
Definition register_all (ls : list (jsstr * creator)) : M registry :=
  let* _ := common_modes in
  mfold (fun '(name, create) r => register name create r) ls (mkReg [] []).

Definition default_options : hl_options := mkOpts (js "hljs-") None false None.

(** ** JSON *)

(** The array TYPES is shared by the value containers and the language, and is extended
    when the objects that it refers to exist. *)
Definition json : M language :=
  let LITERALS := KObj [(js "literal", js "true false null")] in
  let TYPES := [CRef QUOTE_STRING_MODE; CRef C_NUMBER_MODE] in
  let* VALUE_CONTAINER := new [End_ (js ","); EndsWithParent true; ExcludeEnd true; Contains TYPES; Keywords LITERALS] in
  let* attr := new [ClassName (js "attr"); Begin (js "＂"); End_ (js "＂"); Contains [CRef BACKSLASH_ESCAPE];
                    Illegal (js "\n")] in
  let* value := inherit_mode VALUE_CONTAINER [Begin (js ":")] in
  let* OBJECT := new [Begin (js "{"); End_ (js "}"); Contains [CRef attr; CRef value]; Illegal (js "\S")] in
  let* item := inherit_mode VALUE_CONTAINER [] in
  let* ARRAY := new [Begin (js "\["); End_ (js "\]"); Contains [CRef item]; Illegal (js "\S")] in
  let TYPES := TYPES ++ [CRef OBJECT; CRef ARRAY] in
  let* _ := mmap (fun id => upd id (set_contains TYPES)) [VALUE_CONTAINER; value; item] in
  lang plain_lang [Contains TYPES; Keywords LITERALS; Illegal (js "\S")].
