(* ===== verification/HljsFacts.v ===== *)
(** * What highlighting keeps (module 15)

    The output of the engine seen as pieces: texts of the code and the tags of spans.
    For every language the spans are balanced and the texts are the code, from which at
    most some characters are missing; for languages whose patterns always advance, the
    engine returns and nothing is missing.  The names of the classes are plain words, so
    that nothing in a tag needs to be escaped. *)

From S2P Require Import Prelude JsString JsRegExp RegExpFacts RegExpCounts MarkedInline HljsStreams HljsModes Hljs HljsLanguages.

(** ** Pieces of the output *)

Inductive hpiece := HText (s : jsstr) | HOpen (cls : jsstr) | HClose.

Definition render_hpiece (p : hpiece) : jsstr :=
  match p with HText s => hl_escape s | HOpen c => openSpan [] c | HClose => spanEndTag end.
Definition hrender (ps : list hpiece) : jsstr := concat (map render_hpiece ps).

Definition hpiece_text (p : hpiece) : jsstr := match p with HText s => s | _ => [] end.
Definition htext (ps : list hpiece) : jsstr := concat (map hpiece_text ps).

(** A name of letters, digits, hyphens and underscores. *)
Definition class_char (c : N) : bool := is_word c || (c =? 45)%N.
Definition plain_class (c : jsstr) : bool := forallb class_char c.

Lemma plain_class_app a b : plain_class (a ++ b) = plain_class a && plain_class b.
Proof. apply forallb_app. Qed.

(** The number of open spans, if no span is closed that is not open and the classes are
    plain. *)
Fixpoint hnest (n : nat) (ps : list hpiece) : option nat :=
  match ps with
  | [] => Some n
  | HText _ :: ps => hnest n ps
  | HOpen c :: ps => if plain_class c then hnest (S n) ps else None
  | HClose :: ps => match n with S n => hnest n ps | O => None end
  end.

Lemma hrender_app a b : hrender (a ++ b) = hrender a ++ hrender b.
Proof. unfold hrender. by rewrite map_app, concat_app. Qed.
Lemma htext_app a b : htext (a ++ b) = htext a ++ htext b.
Proof. unfold htext. by rewrite map_app, concat_app. Qed.
Lemma hnest_app n a b : hnest n (a ++ b) = hnest n a ≫= fun m => hnest m b.
Proof.
  revert n. induction a as [|[] a IH]; intros n; simpl; auto; [by destruct (plain_class cls)|]. destruct n; simpl; auto.
Qed.

Lemma hrender_text s : hrender [HText s] = hl_escape s.
Proof. unfold hrender. simpl. by rewrite app_nil_r. Qed.
Lemma htext_text s : htext [HText s] = s.
Proof. unfold htext. simpl. by rewrite app_nil_r. Qed.

(** Markup that leaves the open spans as they are. *)
Definition closed (ps : list hpiece) : Prop := forall n, hnest n ps = Some n.

Lemma closed_app a b : closed a -> closed b -> closed (a ++ b).
Proof. intros Ha Hb n. rewrite hnest_app, Ha. apply Hb. Qed.
Lemma closed_text s : closed [HText s].
Proof. by intros n. Qed.

(** A balanced output in any context. *)
Lemma hnest_weaken ps : forall n m k, hnest n ps = Some m -> hnest (n + k) ps = Some (m + k).
Proof.
  induction ps as [|[s|c|] ps IH]; intros n m k; simpl.
  - by intros [= ->].
  - apply IH.
  - destruct (plain_class c); [apply (IH (S n))|done].
  - destruct n as [|n]; [done|]. simpl. apply IH.
Qed.
Lemma hnest_closed ps : hnest 0 ps = Some 0 -> closed ps.
Proof. intros H n. apply (hnest_weaken ps 0 0 n H). Qed.

Definition span_pieces (cls : jsstr) (inside : list hpiece) : list hpiece :=
  HOpen cls :: inside ++ [HClose].

Lemma openSpan_prefix p c : openSpan p c = openSpan [] (p ++ c).
Proof. unfold openSpan. cbn [app]. by rewrite <- (app_assoc p c). Qed.

(** [buildSpan] around closed markup. *)
Lemma buildSpan_pieces opts cls ps (noPrefix : bool) :
  plain_class ((if noPrefix then [] else classPrefix opts) ++ cls) = true -> closed ps ->
  exists qs, buildSpan opts cls (hrender ps) false noPrefix = hrender qs /\ closed qs /\ htext qs = htext ps.
Proof.
  intros Hp Hc. destruct cls as [|c cls]; [by exists ps|].
  exists (span_pieces ((if noPrefix then [] else classPrefix opts) ++ c :: cls) ps). split_and!.
  - unfold buildSpan. rewrite openSpan_prefix. unfold hrender, span_pieces. cbn [map concat render_hpiece].
    rewrite map_app, concat_app. cbn [map concat render_hpiece]. by rewrite app_nil_r.
  - intros n. unfold span_pieces. cbn [hnest]. by rewrite Hp, hnest_app, Hc.
  - unfold htext, span_pieces. cbn [map concat hpiece_text]. rewrite map_app, concat_app. simpl. by rewrite app_nil_r.
Qed.

(** The opening tag of a mode. *)
Definition open_pieces (opts : hl_options) (cls : jsstr) : list hpiece :=
  match cls with [] => [] | _ => [HOpen (classPrefix opts ++ cls)] end.
Definition classed (cls : jsstr) : nat := if nonempty cls then 1 else 0.

Lemma open_pieces_ok opts cls n : plain_class (classPrefix opts ++ cls) = true ->
  buildSpan opts cls [] true false = hrender (open_pieces opts cls) /\
  hnest n (open_pieces opts cls) = Some (classed cls + n) /\ htext (open_pieces opts cls) = [].
Proof.
  intros Hp. destruct cls as [|c cls]; [done|]. split_and!; [|cbn [open_pieces hnest]; by rewrite Hp|done].
  unfold buildSpan, open_pieces, hrender. cbn [map concat render_hpiece]. by rewrite openSpan_prefix, !app_nil_r.
Qed.

Definition close_pieces (cls : jsstr) : list hpiece := if nonempty cls then [HClose] else [].

Lemma close_pieces_ok cls n :
  (if nonempty cls then spanEndTag else []) = hrender (close_pieces cls) /\
  hnest (classed cls + n) (close_pieces cls) = Some n /\ htext (close_pieces cls) = [].
Proof. unfold close_pieces, classed. destruct (nonempty cls); done. Qed.

(** ** Keywords *)

(** The classes of keywords are plain. *)
Definition table_ok (t : gmap jsstr (jsstr * num)) : bool := forallb (fun e => plain_class (fst (snd e))) (map_to_list t).
Definition kws_ok (k : kws) : bool :=
  match k with
  | KNone | KStr _ => true
  | KObj l => forallb (fun e => plain_class (fst e)) l
  | KCompiled t => table_ok t
  end.

Lemma table_ok_lookup t : table_ok t = true <-> map_Forall (fun _ e => plain_class (fst e) = true) t.
Proof.
  unfold table_ok. rewrite forallb_forall. split.
  - intros H k e He. apply (H (k, e)). by apply list_elem_of_In, elem_of_map_to_list.
  - intros H [k e] He%list_elem_of_In%elem_of_map_to_list. exact (H k e He).
Qed.

Lemma flatten_ok ci cls str t : plain_class cls = true -> table_ok t = true -> table_ok (flatten ci cls str t) = true.
Proof.
  intros Hc. unfold flatten. generalize (split_on 32 (if ci then toLowerCase str else str)). intros ws. revert t.
  induction ws as [|w ws IH]; intros t Ht; [done|]. cbn [fold_left]. apply IH.
  assert (Hi : forall k n, table_ok (<[k := (cls, n)]> t) = true).
  { intros k n. apply table_ok_lookup, map_Forall_insert_2; [done|by apply table_ok_lookup]. }
  destruct (split_on 124 w) as [|k [|[|c n] l]]; auto.
Qed.

Lemma match_split r buffer i m : exec_at r buffer i = Some m ->
  i <= m_index m /\ m_end m <= length buffer /\
  drop i buffer = substring buffer i (m_index m) ++ cap0 m ++ drop (m_end m) buffer.
Proof.
  intros (Hi & He & _ & Hc)%exec_at_inv. split_and!; [done|done|].
  unfold substring, m_end in *. rewrite Nat.max_r, Nat.min_l by lia.
  rewrite <- (take_drop (m_index m - i) (drop i buffer)) at 1. f_equal. rewrite drop_drop.
  replace (i + (m_index m - i)) with (m_index m) by lia.
  rewrite <- (take_drop (length (cap0 m)) (drop (m_index m) buffer)). rewrite <- Hc. f_equal. by rewrite drop_drop.
Qed.

Lemma keyword_loop_pieces opts ci t lex buffer fuel :
  plain_class (classPrefix opts) = true -> table_ok t = true -> forall i rel r rel',
  keyword_loop fuel opts ci t lex buffer i rel = Ok (r, rel') ->
  exists ps, r = hrender ps /\ closed ps /\ htext ps = drop i buffer.
Proof.
  intros Hp Ht0. induction fuel as [|f IH]; intros i rel r rel'; [done|]. cbn [keyword_loop].
  destruct (exec_at lex buffer i) as [m|] eqn:E.
  - apply match_split in E as (_ & _ & E). rewrite E.
    assert (Hw : exists ws, (match keywordMatch ci t (cap0 m) with
            | Some (cls, n) => (buildSpan opts cls (hl_escape (cap0 m)) false false, nadd rel n)
            | None => (hl_escape (cap0 m), rel)
            end).1 = hrender ws /\ closed ws /\ htext ws = cap0 m).
    { rewrite <- (hrender_text (cap0 m)). destruct (keywordMatch ci t (cap0 m)) as [[cls n]|] eqn:Ek.
      - apply table_ok_lookup in Ht0. specialize (Ht0 _ _ Ek).
        destruct (buildSpan_pieces opts cls [HText (cap0 m)] false) as (qs & -> & Hq & Ht);
          [by rewrite plain_class_app, Hp|apply closed_text|].
        exists qs. by rewrite Ht, htext_text.
      - exists [HText (cap0 m)]. split_and!; [done|apply closed_text|apply htext_text]. }
    destruct (match keywordMatch ci t (cap0 m) with Some _ => _ | None => _ end) as [word rel1].
    cbn [fst] in Hw. destruct Hw as (ws & -> & Hcw & Htw).
    intros ([r1 rel2] & H1 & [= <- <-])%rbind_ok. apply IH in H1 as (ps & -> & Hc & Ht).
    exists ([HText (substring buffer i (m_index m))] ++ ws ++ ps). split_and!.
    + by rewrite !hrender_app, hrender_text.
    + by repeat apply closed_app.
    + by rewrite !htext_app, htext_text, Htw, Ht.
  - intros [= <- <-]. exists [HText (drop i buffer)].
    split_and!; [by rewrite hrender_text|apply closed_text|apply htext_text].
Qed.

Lemma processKeywords_pieces fuel opts ci top buffer rel r rel' :
  plain_class (classPrefix opts) = true -> kws_ok (keywords top) = true ->
  processKeywords fuel opts ci top buffer rel = Ok (r, rel') ->
  exists ps, r = hrender ps /\ closed ps /\ htext ps = buffer.
Proof.
  intros Hp. unfold processKeywords. destruct (keywords top), (lexemesRe top); try done; intros Hk;
    try (by intros H%keyword_loop_pieces);
    intros [= <- <-]; exists [HText buffer];
      (split_and!; [by rewrite hrender_text|apply closed_text|apply htext_text]).
Qed.

(** ** The heap *)

(** The flags that would output a lexeme twice. *)
Definition flags_ok (f : mflags) : bool :=
  negb (returnBegin f && (skip f || excludeBegin f)) && negb (returnEnd f && (skip f || excludeEnd f)).

(** The flags of a mode and of its variants; a variant has no variants itself.  Another
    mode is a variant of modes without flags only. *)
Definition no_variants (p : prop) : bool := match p with Variants _ => false | _ => true end.
Definition is_plain (f : mflags) : bool :=
  negb (endsWithParent f || endsParent f || endSameAsBegin f || excludeBegin f || excludeEnd f || returnBegin f
        || returnEnd f || skip f).
(** The names that can appear in a class: of the mode, its keywords and sub-languages. *)
Definition sub_ok (s : option (jsstr + list jsstr)) : bool :=
  match s with Some (inl n) => plain_class n | Some (inr l) => forallb plain_class l | None => true end.
Definition names_ok (m : mode) : bool := plain_class (className m) && kws_ok (keywords m) && sub_ok (subLanguage m).
Definition prop_ok (p : prop) : bool :=
  match p with
  | ClassName s => plain_class s
  | Keywords k => kws_ok k
  | SubLanguage s => sub_ok (Some s)
  | _ => true
  end.

Definition variant_ok (f : mflags) (v : list prop) : bool :=
  flags_ok (fold_left (fun f p => set_flag p f) v f) && forallb (fun p => no_variants p && prop_ok p) v &&
  match v with [AllOf _] => is_plain f | _ => true end.
Definition mode_ok (m : mode) : bool :=
  flags_ok (mf m) && names_ok m && forallb (variant_ok (mf m)) (default [] (variants m)).

(** What every operation keeps of a mode. *)
Definition same (m m' : mode) : Prop :=
  className m' = className m /\ mf m' = mf m /\ starts m' = starts m /\ variants m' = variants m /\
  subLanguage m' = subLanguage m /\ (kws_ok (keywords m) = true -> kws_ok (keywords m') = true).

Definition safe (h : heap) : Prop := Forall (fun m => mode_ok m = true) h.
Definition stable (h h' : heap) : Prop := forall id m, h !! id = Some m -> exists m', h' !! id = Some m' /\ same m m'.
Definition grows (h h' : heap) : Prop := stable h h' /\ (safe h -> safe h').

Lemma same_refl m : same m m.
Proof. done. Qed.
Lemma same_trans a b c : same a b -> same b c -> same a c.
Proof. unfold same. intuition congruence. Qed.

#[global] Instance hres_eq : EqDecision hres.
Proof. solve_decision. Defined.

#[global] Instance grows_preorder : PreOrder grows.
Proof.
  split.
  - intros h. split; [|done]. intros id m H. eauto using same_refl.
  - intros a b c [S1 P1] [S2 P2]. split; [|auto]. intros id m H.
    destruct (S1 _ _ H) as (m1 & H1 & E1), (S2 _ _ H1) as (m2 & H2 & E2). eauto using same_trans.
Qed.

Lemma same_ok m m' : same m m' -> mode_ok m = true -> mode_ok m' = true.
Proof.
  intros (E1 & E2 & _ & E4 & E5 & Hk). unfold mode_ok, names_ok. rewrite E1, E2, E4, E5, !andb_true_iff. intuition.
Qed.

Lemma grows_upd f id h : (forall m, h !! id = Some m -> same m (f m)) -> grows h (alter f id h).
Proof.
  intros Hf. split.
  - intros i m H. destruct (decide (i = id)) as [->|Hne].
    + rewrite list_lookup_alter_eq, H. exists (f m). auto.
    + rewrite list_lookup_alter_ne by done. eauto using same_refl.
  - intros Hs. apply Forall_lookup. intros i m. unfold safe in Hs. rewrite Forall_lookup in Hs.
    destruct (decide (i = id)) as [->|Hne].
    + rewrite list_lookup_alter_eq. destruct (h !! id) as [m0|] eqn:E; [|done]. intros [= <-].
      eapply same_ok; eauto.
    + rewrite list_lookup_alter_ne by done. apply Hs.
Qed.

Lemma grows_alloc m h : (safe h -> mode_ok m = true) -> grows h (h ++ [m]).
Proof.
  intros Hm. split.
  - intros i m0 H. exists m0. split; [by apply lookup_app_l_Some|apply same_refl].
  - intros Hs. apply Forall_app. split; [done|]. constructor; [auto|constructor].
Qed.

(** ** Rules for code over the heap *)

(** Whatever happens the heap grows, and a result satisfies [Q]. *)
Definition sat {A} (h : heap) (m : M A) (Q : A -> heap -> Prop) : Prop :=
  grows h (fst (m h)) /\ forall a, snd (m h) = Ok a -> Q a (fst (m h)).

Lemma sat_ret {A} h (a : A) (Q : A -> heap -> Prop) : Q a h -> sat h (ret a) Q.
Proof. intros H. split; [reflexivity|]. by intros b [= <-]. Qed.
Lemma sat_lift {A} h (r : result A) (Q : A -> heap -> Prop) : (forall a, r = Ok a -> Q a h) -> sat h (lift r) Q.
Proof. intros H. split; [reflexivity|]. simpl. auto. Qed.
Lemma sat_get h id (Q : mode -> heap -> Prop) : (forall m, h !! id = Some m -> Q m h) -> sat h (get id) Q.
Proof. intros H. split; [reflexivity|]. unfold get. simpl. intros a. destruct (h !! id); [|done]. intros [= <-]. auto. Qed.
Lemma sat_upd h id f (Q : unit -> heap -> Prop) : (forall m, h !! id = Some m -> same m (f m)) -> Q tt (alter f id h) -> sat h (upd id f) Q.
Proof. intros Hf H. split; [by apply grows_upd|]. by intros []. Qed.
Lemma sat_alloc h m (Q : nat -> heap -> Prop) :
  (safe h -> mode_ok m = true) -> Q (length h) (h ++ [m]) -> sat h (alloc m) Q.
Proof. intros Hm H. split; [by apply grows_alloc|]. by intros a [= <-]. Qed.

Lemma sat_bind {A B} h (m : M A) (f : A -> M B) (P : A -> heap -> Prop) (Q : B -> heap -> Prop) :
  sat h m P -> (forall a h', grows h h' -> P a h' -> sat h' (f a) Q) -> sat h (bind m f) Q.
Proof.
  intros [G1 H1] Hf. unfold sat, bind. destruct (m h) as [h' [a|e|]]; simpl in *.
  - destruct (Hf a h' G1 (H1 _ eq_refl)) as [G2 H2]. split; [by transitivity h'|done].
  - by split.
  - by split.
Qed.

Lemma sat_weaken {A} h (m : M A) (P Q : A -> heap -> Prop) :
  sat h m P -> (forall a h', grows h h' -> P a h' -> Q a h') -> sat h m Q.
Proof. intros [G H] HQ. split; [done|]. intros a E. apply HQ; auto. Qed.

Lemma sat_mmap {A B} (f : A -> M B) l : forall h,
  (forall x h, sat h (f x) (fun _ _ => True)) -> sat h (mmap f l) (fun _ _ => True).
Proof.
  induction l as [|x l IH]; intros h Hf; [by apply sat_ret|].
  eapply sat_bind; [apply Hf|]. intros y h' _ _. eapply sat_bind; [by apply IH|]. intros. by apply sat_ret.
Qed.

(** Steps through code whose result does not matter. *)
Ltac sat_auto :=
  repeat first
    [ apply sat_ret; exact I
    | apply sat_lift; done
    | apply sat_get; intros; exact I
    | apply sat_upd; [by intros [] _|exact I]
    | eapply (sat_bind _ _ _ (fun _ _ => True)); [solve [sat_auto]|]; intros ? ? ? ?
    | apply sat_mmap; intros
    | match goal with |- sat _ (if ?b then _ else _) _ => destruct b end
    | match goal with |- sat _ (match ?x with _ => _ end) _ => destruct x end
    | done ].

(** ** Compilation *)

Lemma inherit_flags v : forall m, mf (inherit m v) = fold_left (fun f p => set_flag p f) v (mf m).
Proof.
  induction v as [|p v IH]; intros m; [done|]. unfold inherit in *. cbn [fold_left]. rewrite IH. f_equal.
  by destruct m as [? ? ? ? ? ? ? ? ? ? ? ? ? [] ? ? ? ? ? ? ?], p.
Qed.
Lemma inherit_names v : forall m, forallb (fun p => no_variants p && prop_ok p) v = true ->
  variants (inherit m v) = variants m /\ (names_ok m = true -> names_ok (inherit m v) = true).
Proof.
  induction v as [|p v IH]; intros m; [done|]. cbn [forallb]. intros [[Hp Hn]%andb_prop Hv]%andb_prop.
  unfold inherit in *. cbn [fold_left]. destruct (IH (assign m p) Hv) as [-> IH2].
  assert (E : variants (assign m p) = variants m) by (by destruct m, p).
  split; [done|]. intros Hm. apply IH2. clear -Hm Hn. unfold names_ok in *. rewrite !andb_true_iff in *.
  destruct Hm as [[? ?] ?]. by destruct m, p.
Qed.

Lemma take_names m o : names_ok m = true -> names_ok o = true -> names_ok (take_props m o) = true.
Proof.
  unfold names_ok. rewrite !andb_true_iff. intros [[C1 K1] S1] [[C2 K2] S2]. cbn [take_props className keywords subLanguage].
  split_and!.
  - unfold or_text. by destruct (className o).
  - destruct (compiled o), (keywords o); done.
  - unfold or_some. by destruct (subLanguage o).
Qed.

Lemma take_props_ok m o : is_plain (mf m) = true -> variants m = None -> names_ok m = true -> mode_ok o = true ->
  mode_ok (take_props m o) = true.
Proof.
  intros Hf Hv Hn Ho. assert (Ef : mf (take_props m o) = mf o).
  { unfold is_plain in Hf. apply negb_true_iff in Hf. rewrite !orb_false_iff in Hf.
    destruct Hf as (((((((E1 & E2) & E3) & E4) & E5) & E6) & E7) & E8). cbn [take_props mf]. unfold or_flags.
    rewrite E1, E2, E3, E4, E5, E6, E7, E8, !orb_false_r. by destruct (mf o). }
  assert (Ev : variants (take_props m o) = variants o) by (cbn [take_props variants]; rewrite Hv; by destruct (variants o)).
  unfold mode_ok in *. rewrite Ef, Ev. rewrite !andb_true_iff in *. destruct Ho as [[? ?] ?].
  split_and!; [done|by apply take_names|done].
Qed.

Lemma variant_of_grows m v h : (safe h -> variant_ok (mf m) v = true /\ names_ok m = true) ->
  sat h (variant_of m v) (fun _ h' => safe h' -> safe h).
Proof.
  intros Hm. assert (Hc : forall x, (safe h -> mode_ok x = true) -> sat h (alloc x) (fun _ h' => safe h' -> safe h)).
  { intros x Hx. apply sat_alloc; [done|]. by intros [Hs _]%Forall_app. }
  assert (Hl : sat h (alloc (inherit (set_variants None m) v)) (fun _ h' => safe h' -> safe h)).
  { apply Hc. intros [[[H1 H2]%andb_prop _]%andb_prop Hn]%Hm.
    destruct (inherit_names v (set_variants None m) H2) as [Ev En]. unfold mode_ok. rewrite inherit_flags, Ev.
    replace (mf (set_variants None m)) with (mf m) by (by destruct m).
    replace (variants (set_variants None m)) with (@None (list (list prop))) by (by destruct m).
    rewrite H1, En; [done|by destruct m]. }
  unfold variant_of. destruct v as [|p v]; [done|]. destruct p; try done. destruct v; [|done].
  eapply sat_bind; [apply (sat_get _ _ (fun o h' => h' = h /\ h !! id = Some o)); done|].
  intros o h' _ [-> Ho]. apply Hc. intros Hs. destruct (Hm Hs) as [[_ Hp]%andb_prop Hn]. apply take_props_ok.
  - by destruct m.
  - by destruct m.
  - by destruct m.
  - exact (proj1 (Forall_lookup _ _) Hs _ _ Ho).
Qed.

Lemma copies_grow m vs : forall h, (safe h -> forallb (variant_ok (mf m)) vs = true /\ names_ok m = true) ->
  sat h (mmap (variant_of m) vs) (fun _ _ => True).
Proof.
  induction vs as [|v vs IH]; intros h Hm; [by apply sat_ret|]. cbn [mmap forallb] in *.
  eapply sat_bind; [apply variant_of_grows; by intros [[H _]%andb_prop Hn]%Hm|].
  intros i h' _ Hs. eapply sat_bind; [apply IH|].
  - by intros [[_ H]%andb_prop Hn]%Hs%Hm.
  - intros. by apply sat_ret.
Qed.

Lemma expand_mode_grows id h : sat h (expand_mode id) (fun _ _ => True).
Proof.
  unfold expand_mode. eapply sat_bind; [apply (sat_get _ _ (fun m h' => h' !! id = Some m)); done|].
  intros m h1 _ Hm. eapply (sat_bind _ _ _ (fun _ _ => True)).
  - destruct (variants m) as [vs|] eqn:Ev; [|by apply sat_ret]. destruct (cached_variants m); [by apply sat_ret|].
    eapply sat_bind; [apply copies_grow|].
    + intros Hs. pose proof (proj1 (Forall_lookup _ _) Hs _ _ Hm) as Ho. clear Hs.
      unfold mode_ok in Ho. rewrite Ev in Ho. by apply andb_prop in Ho as [[_ ?]%andb_prop ?].
    + intros. apply sat_upd; [by intros [] _|done].
  - intros _ h2 _ _. eapply sat_bind; [apply (sat_get _ _ (fun m h' => h' !! id = Some m)); done|].
    intros m2 h3 _ H2. destruct (cached_variants m2); [by apply sat_ret|].
    destruct (endsWithParent (mf m2)); [|by apply sat_ret].
    eapply (sat_bind _ _ _ (fun _ _ => True)); [|intros; by apply sat_ret].
    apply sat_alloc; [|done]. intros Hs. exact (proj1 (Forall_lookup _ _) Hs _ _ H2).
Qed.

Lemma same_keywords k m : (kws_ok (keywords m) = true -> kws_ok k = true) -> same m (set_keywords k m).
Proof. by destruct m. Qed.

Lemma compile_keywords_grows ci id h : sat h (compile_keywords ci id) (fun _ _ => True).
Proof.
  unfold compile_keywords. eapply sat_bind; [apply (sat_get _ _ (fun m h' => h' = h /\ h !! id = Some m)); done|].
  intros m h1 _ [-> Hm]. apply sat_upd; [|done]. intros m' Hm'. rewrite Hm in Hm'. injection Hm' as <-.
  assert (Hc : forall l t, forallb (fun e => plain_class (fst e)) l = true -> table_ok t = true ->
    table_ok (fold_left (fun t '(cls, s) => flatten ci cls s t) l t) = true).
  { induction l as [|[c s] l IH]; intros t; [done|]. cbn [forallb fold_left fst]. intros [H1 H2]%andb_prop Ht.
    apply IH; [done|]. by apply flatten_ok. }
  assert (Hs : forall s, kws_ok (match s with [] => KNone | _ => KCompiled (flatten ci (js "keyword") s ∅) end) = true).
  { intros [|c s]; [done|]. by apply flatten_ok. }
  apply same_keywords. intros Hk. destruct (keywords m) as [|[|c s]|l|t]; try done; try apply (Hs (beginKeywords m)).
  - apply (Hs (c :: s)).
  - by apply Hc.
Qed.

Lemma compile_own_grows ci id parent h : sat h (compile_own ci id parent) (fun _ _ => True).
Proof.
  unfold compile_own, compile_bounds. eapply (sat_bind _ _ _ (fun _ _ => True)); [sat_auto|]. intros _ h1 _ _.
  eapply sat_bind; [apply compile_keywords_grows|]. intros _ h2 _ _. sat_auto.
Qed.

Lemma compileMode_grows fuel ci : forall id parent h, sat h (compileMode fuel ci id parent) (fun _ _ => True).
Proof.
  induction fuel as [|f IH]; intros id parent h; [by apply sat_lift|]. cbn [compileMode].
  eapply sat_bind; [by apply (sat_get _ _ (fun _ _ => True))|]. intros m h1 _ _.
  destruct (compiled m); [by apply sat_ret|].
  eapply sat_bind; [apply compile_own_grows|]. intros _ h2 _ _.
  eapply sat_bind; [by apply (sat_get _ _ (fun _ _ => True))|]. intros m2 h3 _ _.
  eapply sat_bind; [apply sat_mmap; intros; apply expand_mode_grows|]. intros ids h4 _ _.
  eapply sat_bind; [apply (sat_upd _ _ _ (fun _ _ => True)); [by intros [] _|done]|]. intros _ h5 _ _.
  eapply sat_bind; [apply sat_mmap; intros; apply IH|]. intros _ h6 _ _.
  eapply (sat_bind _ _ _ (fun _ _ => True)); [destruct (starts m2); [apply IH|by apply sat_ret]|]. intros _ h7 _ _.
  eapply sat_bind; [apply sat_mmap; intros; unfold begin_of; sat_auto|]. intros bs h8 _ _. sat_auto.
Qed.

(** ** The state of the engine *)

(** The text of the output against the code: the same, or with characters missing. *)
Definition kept (exact : bool) (x y : jsstr) : Prop := if exact then x = y else x `sublist_of` y.

Lemma kept_refl e x : kept e x x.
Proof. destruct e; [done|apply reflexivity]. Qed.
Lemma kept_app e a b x y : kept e a x -> kept e b y -> kept e (a ++ b) (x ++ y).
Proof. destruct e; simpl; [congruence|apply sublist_app]. Qed.
Lemma kept_trans e a b c : kept e a b -> kept e b c -> kept e a c.
Proof. destruct e; simpl; [congruence|]. intros H1 H2. by transitivity b. Qed.

(** The number of the modes that have a span. *)
Definition classed_at (h : heap) (id : nat) : nat :=
  match h !! id with Some m => classed (className m) | None => 0 end.
Definition opened (h : heap) (ids : list nat) : nat := list_sum (map (classed_at h) ids).
Definition valid (h : heap) (ids : list nat) : Prop := Forall (fun id => is_Some (h !! id)) ids.

Lemma opened_cons h id ids : opened h (id :: ids) = classed_at h id + opened h ids.
Proof. done. Qed.

Lemma valid_grows h h' ids : grows h h' -> valid h ids -> valid h' ids.
Proof.
  intros [G _] H. eapply Forall_impl; [exact H|]. intros id [m Hm]. destruct (G _ _ Hm) as (m' & H' & _). by exists m'.
Qed.
Lemma opened_grows h h' ids : grows h h' -> valid h ids -> opened h' ids = opened h ids.
Proof.
  intros [G _]. induction 1 as [|id ids [m Hm] Hv IH]; [done|].
  rewrite !opened_cons, IH. f_equal. destruct (G _ _ Hm) as (m' & H' & (E & _)). unfold classed_at. by rewrite Hm, H', E.
Qed.

Lemma without_last_cons id s : s <> [] -> without_last (id :: s) = id :: without_last s.
Proof. destruct s as [|x s]; [done|]. intros _. unfold without_last. simpl. by rewrite Nat.sub_0_r. Qed.
Lemma without_last_valid h s : valid h s -> valid h (without_last s).
Proof. apply Forall_take. Qed.

Section Accounts.
Context (exact : bool) (root : nat).

(** Either the outermost mode was left, which the next step reports as an error, or the
    stack ends in the language, the output is balanced up to the open modes, and the
    output and the buffer hold the code [T] read so far. *)
Definition accounts (h : heap) (s : hstate) (T : jsstr) : Prop :=
  hs_top s = [] \/
  last (hs_top s) = Some root /\ valid h (hs_top s) /\
  exists ps, hs_result s = hrender ps /\ hnest 0 ps = Some (opened h (without_last (hs_top s))) /\
    kept exact (htext ps ++ hs_buffer s) T.

Lemma accounts_grows h h' s T : grows h h' -> accounts h s T -> accounts h' s T.
Proof.
  intros G [H|(Hl & Hv & ps & Hr & Hn & Ht)]; [by left|right]. split_and!; [done|by eapply valid_grows|].
  exists ps. rewrite (opened_grows _ _ _ G) by (by apply without_last_valid). done.
Qed.

Lemma accounts_push h s T b : accounts h s T -> accounts h (push_buffer b s) (T ++ b).
Proof.
  intros [H|(Hl & Hv & ps & Hr & Hn & Ht)]; [by left|right]. split_and!; [done|done|]. exists ps. split_and!; [done|done|].
  unfold push_buffer. cbn [hs_buffer]. rewrite app_assoc. apply kept_app; [done|apply kept_refl].
Qed.

Lemma accounts_set h s T b : hs_buffer s = [] -> accounts h s T -> accounts h (set_buffer b s) (T ++ b).
Proof.
  intros Hb [H|(Hl & Hv & ps & Hr & Hn & Ht)]; [by left|right]. split_and!; [done|done|]. exists ps. split_and!; [done|done|].
  rewrite Hb, app_nil_r in Ht. apply kept_app; [done|apply kept_refl].
Qed.

(** Output that keeps the buffer, and the buffer emptied. *)
Lemma accounts_flush h s T rel conts ps : closed ps -> kept exact (htext ps) (hs_buffer s) -> accounts h s T ->
  accounts h (mkHS (hs_top s) (hs_result s ++ hrender ps) [] rel conts) T.
Proof.
  intros Hc Hk [H|(Hl & Hv & qs & Hr & Hn & Ht)]; [by left|right]. split_and!; [done|done|].
  exists (qs ++ ps). cbn [hs_result hs_top hs_buffer]. split_and!.
  - by rewrite hrender_app, Hr.
  - rewrite hnest_app, Hn. apply Hc.
  - rewrite htext_app, app_nil_r. eapply kept_trans; [|exact Ht]. apply kept_app; [apply kept_refl|done].
Qed.

Lemma accounts_start h s T opts id m : h !! id = Some m -> plain_class (classPrefix opts ++ className m) = true ->
  hs_top s <> [] -> accounts h s T ->
  accounts h (mkHS (id :: hs_top s) (hs_result s ++ buildSpan opts (className m) [] true false) (hs_buffer s)
                (hs_relevance s) (hs_conts s)) T.
Proof.
  intros Hm Hc Hne [H|(Hl & Hv & qs & Hr & Hn & Ht)]; [done|right]. cbn [hs_top hs_result hs_buffer].
  destruct (open_pieces_ok opts (className m) (opened h (without_last (hs_top s))) Hc) as (-> & Hn' & Ht').
  split_and!; [by destruct (hs_top s)|constructor; eauto|]. exists (qs ++ open_pieces opts (className m)). split_and!.
  - by rewrite hrender_app, Hr.
  - rewrite hnest_app, Hn. simpl. rewrite Hn', without_last_cons, opened_cons by done. unfold classed_at at 1. by rewrite Hm.
  - by rewrite htext_app, Ht', app_nil_r.
Qed.

Lemma accounts_leave h s T id m rest rel : hs_top s = id :: rest -> h !! id = Some m -> accounts h s T ->
  accounts h (mkHS rest (hs_result s ++ (if nonempty (className m) then spanEndTag else [])) (hs_buffer s) rel (hs_conts s)) T.
Proof.
  intros Hs Hm [H|(Hl & Hv & qs & Hr & Hn & Ht)]; [congruence|]. rewrite Hs in Hl, Hv, Hn.
  destruct rest as [|r rest]; [by left|right]. cbn [hs_top hs_result hs_buffer].
  rewrite without_last_cons in Hn by done.
  destruct (close_pieces_ok (className m) (opened h (without_last (r :: rest)))) as (-> & Hn' & Ht').
  apply Forall_cons in Hv as [_ Hv]. split_and!; [done|done|]. exists (qs ++ close_pieces (className m)). split_and!.
  - by rewrite hrender_app, Hr.
  - rewrite hnest_app, Hn, opened_cons. cbn [mbind option_bind]. unfold classed_at at 1. rewrite Hm. exact Hn'.
  - by rewrite htext_app, Ht', app_nil_r.
Qed.
End Accounts.

(** ** The engine *)

(** A result holds the text. *)
Definition faithful (exact : bool) (text : jsstr) (r : hres) : Prop :=
  exists ps, h_value r = hrender ps /\ closed ps /\ kept exact (htext ps) text.

Lemma faithful_escape exact text n l s : faithful exact text (mkHRes n (hl_escape text) l s).
Proof.
  exists [HText text]. split_and!; [by rewrite hrender_text|apply closed_text|].
  rewrite htext_text. apply kept_refl.
Qed.

(** The name of the result is the name that was given, or there is none. *)
Definition named (name : jsstr) (r : hres) : Prop := h_language r = None \/ h_language r = Some name.

(** The options hold plain names. *)
Definition opts_ok (opts : hl_options) : bool :=
  plain_class (classPrefix opts) && forallb plain_class (default [] (o_languages opts)).

Section EngineFacts.
Context (opts : hl_options) (reg : registry) (fuel : nat).
Context (rec : jsstr -> jsstr -> bool -> list nat -> M hres) (exact : bool).
Hypothesis Hopts : opts_ok opts = true.

(** No mode outputs a lexeme twice, the names are plain, and no language starts another
    mode when it ends. *)
Definition roots_ok (h : heap) : Prop :=
  forall name l, getLanguage reg name = Some l -> exists m, h !! l_root l = Some m /\ starts m = None.
Definition env_ok (h : heap) : Prop :=
  safe h /\ roots_ok h /\ forallb plain_class (listLanguages reg) = true.

Lemma env_grows h h' : grows h h' -> env_ok h -> env_ok h'.
Proof.
  intros [G S] (Hs & Hr & Hn). split_and!; [auto| |done]. intros name l E. destruct (Hr _ _ E) as (m & Hm & Hst).
  destruct (G _ _ Hm) as (m' & Hm' & (_ & _ & E' & _)). exists m'. by rewrite E'.
Qed.

Hypothesis rec_ok : forall name text ig cont h, env_ok h ->
  sat h (rec name text ig cont) (fun r _ => faithful exact text r /\ named name r).

Lemma prefix_plain : plain_class (classPrefix opts) = true.
Proof. by apply andb_prop in Hopts as [? _]. Qed.

Lemma safe_names h id m : env_ok h -> h !! id = Some m -> names_ok m = true.
Proof.
  intros [Hs _] Hm. pose proof (proj1 (Forall_lookup _ _) Hs _ _ Hm) as H.
  by apply andb_prop in H as [[_ ?]%andb_prop _].
Qed.

Lemma class_plain h id m : env_ok h -> h !! id = Some m -> plain_class (classPrefix opts ++ className m) = true.
Proof.
  intros He Hm. apply (safe_names _ _ _ He) in Hm. apply andb_prop in Hm as [[Hc _]%andb_prop _].
  by rewrite plain_class_app, prefix_plain.
Qed.

(** A result that can be put into a span of its language. *)
Definition good (text : jsstr) (r : hres) : Prop :=
  faithful exact text r /\ plain_class (default [] (h_language r)) = true.

Lemma consider_ok text c b : good text c -> good text b.1 /\ good text b.2 ->
  good text (consider c b).1 /\ good text (consider c b).2.
Proof. destruct b as [r s]. unfold consider. intros Hc [Hr Hs]. by repeat case_match; simplify_eq. Qed.

Lemma highlightAuto_ok text subset h : env_ok h -> forallb plain_class (default [] subset) = true ->
  sat h (highlightAuto opts reg rec text subset) (fun r _ => good text r.1).
Proof.
  intros He Hsub. unfold highlightAuto.
  match goal with |- context [mfold ?f ?l ?s] => set (names := l); set (body := f); set (start := s) end.
  assert (Hnames : Forall (fun n => plain_class n = true) names).
  { assert (H : forall l, forallb plain_class l = true -> Forall (fun n => plain_class n = true) l).
    { intros l Hl. apply Forall_forall. intros n Hn%list_elem_of_In. exact (proj1 (forallb_forall _ _) Hl n Hn). }
    unfold names. do 2 apply Forall_bfilter. apply H. destruct subset; [done|].
    pose proof (proj2 (andb_prop _ _ Hopts)) as Ho. destruct He as (_ & _ & Hn). by destruct (o_languages opts). }
  assert (H0 : good text start.1 /\ good text start.2) by (split; (split; [apply faithful_escape|done])).
  clearbody start names. eapply (sat_bind _ _ _ (fun b _ => good text b.1)); [|].
  - revert h start He H0. induction Hnames as [|name names Hname _ IH]; intros h b He Hb; [apply sat_ret; apply Hb|]. cbn [mfold].
    eapply (sat_bind _ _ _ (fun b h' => good text b.1 /\ good text b.2)).
    + unfold body. eapply sat_bind; [by apply rec_ok|]. intros c h1 _ [Hc _]. apply sat_ret.
      apply consider_ok; [|done]. split; [|done]. destruct Hc as (ps & ? & ? & ?). by exists ps.
    + intros b' h1 G1 Hb'. apply IH; [by eapply env_grows|done].
  - intros [r s] h' _ Hr. by apply sat_ret.
Qed.

Lemma processSubLanguage_ok top sub s h : env_ok h -> sub_ok (Some sub) = true ->
  sat h (processSubLanguage opts reg rec top sub s) (fun x _ =>
    (exists ps, x.1 = hrender ps /\ closed ps /\ kept exact (htext ps) (hs_buffer s)) /\
    hs_top x.2 = hs_top s /\ hs_result x.2 = hs_result s).
Proof.
  intros He Hsub. unfold processSubLanguage.
  assert (Hadd : forall r, good (hs_buffer s) r -> exists ps,
    buildSpan opts (default [] (h_language r)) (h_value r) false true = hrender ps /\ closed ps /\
    kept exact (htext ps) (hs_buffer s)).
  { intros r [(ps & -> & Hc & Hk) Hl].
    destruct (buildSpan_pieces opts (default [] (h_language r)) ps true Hl Hc) as (qs & -> & Hq & Ht).
    exists qs. by rewrite Ht. }
  destruct sub as [name|l].
  - destruct (oget name (languages reg)).
    + eapply sat_bind; [by apply rec_ok|]. intros r h' _ [Hr Hn]. apply sat_ret. split; [|done].
      apply Hadd. split; [done|]. by destruct Hn as [-> | ->].
    + apply sat_ret. split; [|done]. exists [HText (hs_buffer s)].
      split_and!; [by rewrite hrender_text|apply closed_text|]. rewrite htext_text. apply kept_refl.
  - eapply sat_bind; [apply highlightAuto_ok; [done|by destruct l]|]. intros [r r2] h' _ Hr. apply sat_ret. split; [by apply Hadd|done].
Qed.

(** [processBuffer] empties the buffer into the output. *)
Lemma processBuffer_ok ci root s T h : env_ok h -> accounts exact root h s T ->
  sat h (processBuffer opts reg fuel rec ci s) (fun s' h' =>
    accounts exact root h' s' T /\ hs_buffer s' = [] /\ hs_top s' = hs_top s).
Proof.
  intros He Ha. unfold processBuffer.
  eapply (sat_bind _ _ _ (fun top h' => accounts exact root h' s T /\ names_ok top = true)).
  { destruct (hs_top s) as [|id rest] eqn:Et; [by apply sat_lift|]. apply sat_get. eauto using safe_names. }
  intros top h1 G1 [Ha1 Hnames]. apply andb_prop in Hnames as [[_ Hkws]%andb_prop Hsub].
  eapply (sat_bind _ _ _ (fun x h' => accounts exact root h' s T /\
    (exists ps, x.1 = hrender ps /\ closed ps /\ kept exact (htext ps) (hs_buffer s)) /\
    hs_top x.2 = hs_top s /\ hs_result x.2 = hs_result s)).
  - destruct (subLanguage top) as [sub|].
    + eapply sat_weaken; [apply processSubLanguage_ok; [by eapply env_grows|done]|]. intros x h2 G2 H.
      split; [by eapply accounts_grows|done].
    + eapply sat_bind; [apply (sat_lift _ _ (fun x h' => h' = h1 /\ exists ps, x.1 = hrender ps /\ closed ps /\
        htext ps = hs_buffer s))|].
      * intros [r rel] H%processKeywords_pieces; [done|apply prefix_plain|done].
      * intros [r rel] h2 _ (-> & ps & Hr & Hc & Ht). apply sat_ret. split_and!; try done.
        exists ps. rewrite Ht. split_and!; [done|done|apply kept_refl].
  - intros [r s'] h2 G2 (Ha2 & (ps & Hr & Hc & Hk) & Ht & Hres). cbn [fst snd] in *. apply sat_ret.
    split_and!; [|done|exact Ht]. rewrite Hr, Ht, Hres. by apply accounts_flush.
Qed.

Lemma startNewMode_ok root id s T h : env_ok h -> hs_top s <> [] -> accounts exact root h s T ->
  sat h (startNewMode opts id s) (fun s' h' => accounts exact root h' s' T).
Proof.
  intros He Hne Ha. unfold startNewMode.
  eapply sat_bind; [apply (sat_get _ _ (fun m h' => h' = h /\ h !! id = Some m)); done|].
  intros m h1 _ [-> Hm]. apply sat_ret. apply accounts_start; eauto using class_plain.
Qed.

Lemma leave_ok root T n : forall s h, accounts exact root h s T ->
  sat h (leave n s) (fun s' h' => accounts exact root h' s' T /\ hs_top s' = drop n (hs_top s)).
Proof.
  induction n as [|n IH]; intros s h Ha; [by apply sat_ret|]. cbn [leave].
  destruct (hs_top s) as [|id rest] eqn:Es.
  { eapply (sat_bind _ _ _ (fun _ _ => False)); [by apply sat_lift|done]. }
  eapply sat_bind; [apply (sat_get _ _ (fun m h' => h' = h /\ h !! id = Some m)); done|].
  intros m h1 _ [-> Hm]. cbn [tl drop]. eapply sat_weaken; [apply IH|].
  - eapply accounts_leave; eauto.
  - intros s' h' _ [H1 H2]. done.
Qed.

Lemma subMode_grows lexeme cs : forall h, sat h (subMode lexeme cs) (fun _ _ => True).
Proof.
  induction cs as [|[|id] cs IH]; intros h; [by apply sat_ret|apply IH|]. cbn [subMode].
  eapply (sat_bind _ _ _ (fun _ _ => True)); [sat_auto|]. intros m h1 _ _.
  destruct (testRe (beginRe m) lexeme); [sat_auto|apply IH].
Qed.

(** The stack from the mode that ends is the rest of the stack. *)
Definition rest_of (ends stack : list nat) : Prop := ends <> [] /\ exists pre, stack = pre ++ ends.

Lemma rest_of_cons id ends stack : rest_of ends stack -> rest_of ends (id :: stack).
Proof. intros [H (pre & ->)]. split; [done|]. by exists (id :: pre). Qed.

Lemma climb_ok stack : forall h, stack <> [] -> sat h (climb stack) (fun ends _ => rest_of ends stack).
Proof.
  assert (Hr : forall s, s <> [] -> rest_of s s) by (intros s Hs; split; [done|by exists []]).
  induction stack as [|id stack IH]; intros h Hne; [done|]. cbn [climb].
  destruct stack as [|id2 stack]; [apply sat_ret; auto|].
  eapply (sat_bind _ _ _ (fun _ _ => True)); [sat_auto|]. intros m h1 _ _.
  destruct (endsParent (mf m)); [|apply sat_ret; auto].
  eapply sat_weaken; [by apply IH|]. intros. by apply rest_of_cons.
Qed.

Lemma endOfMode_ok lexeme stack : forall h,
  sat h (endOfMode stack lexeme) (fun o _ => match o with Some ends => rest_of ends stack | None => True end).
Proof.
  induction stack as [|id stack IH]; intros h; [by apply sat_lift|]. cbn [endOfMode].
  eapply (sat_bind _ _ _ (fun _ _ => True)); [sat_auto|]. intros m h1 _ _.
  destruct (testRe (endRe m) lexeme).
  - eapply sat_bind; [by apply climb_ok|]. intros ends h2 _ H. by apply sat_ret.
  - destruct (endsWithParent (mf m)); [|by apply sat_ret].
    eapply sat_weaken; [apply IH|]. intros [ends|] h2 _ H; [by apply rest_of_cons|done].
Qed.

Lemma safe_flags h id m : safe h -> h !! id = Some m -> flags_ok (mf m) = true.
Proof.
  intros Hs Hm. pose proof (proj1 (Forall_lookup _ _) Hs _ _ Hm) as H. by apply andb_prop in H as [[? _]%andb_prop _].
Qed.

(** A lexeme that starts a mode. *)
Lemma begin_lexeme_ok ci root lexeme id s T h : env_ok h -> hs_top s <> [] -> accounts exact root h s T ->
  sat h (begin_lexeme opts reg fuel rec ci lexeme id s) (fun x h' =>
    x.1 <= length lexeme /\ accounts exact root h' x.2 (T ++ take x.1 lexeme)).
Proof.
  intros He Hne Ha. unfold begin_lexeme.
  eapply sat_bind; [apply (sat_get _ _ (fun m h' => h' = h /\ h !! id = Some m)); done|].
  intros m h1 _ [-> Hm]. pose proof (safe_flags _ _ _ (proj1 He) Hm) as Hf.
  set (c := if returnBegin (mf m) then 0 else length lexeme).
  assert (Hc : c <= length lexeme) by (unfold c; destruct (returnBegin (mf m)); lia).
  eapply (sat_bind _ _ _ (fun s' h' => hs_top s' <> [] /\ accounts exact root h' s' (T ++ take c lexeme))).
  - unfold flags_ok in Hf. unfold c. destruct (mf m) as [? ? ? eB ? rB ? sk]. simpl in *. destruct sk.
    + destruct rB; [done|]. apply sat_ret. rewrite firstn_all. split; [done|by apply accounts_push].
    + destruct eB.
      * destruct rB; [done|]. rewrite firstn_all.
        eapply sat_bind; [apply processBuffer_ok; [done|by apply accounts_push]|].
        intros s1 h1 _ (H1 & _ & H2). apply sat_ret. simpl. split; [by rewrite H2|done].
      * eapply sat_bind; [by apply processBuffer_ok|].
        intros s1 h1 _ (H1 & Hb & H2). apply sat_ret. destruct rB; simpl.
        -- rewrite app_nil_r. by rewrite H2.
        -- rewrite firstn_all. split; [by rewrite H2|]. by apply accounts_set.
  - intros s1 h1 G1 [Hs1 Ha1]. eapply sat_bind; [apply startNewMode_ok; [by eapply env_grows|done|done]|].
    intros s2 h2 _ H2. by apply sat_ret.
Qed.

(** The buffer at the end of a mode with the flags [f]. *)
Lemma end_buffer_ok ci root lexeme f s T h : env_ok h -> flags_ok f = true -> accounts exact root h s T ->
  sat h (if skip f then ret (push_buffer lexeme s)
         else let s := if returnEnd f || excludeEnd f then s else push_buffer lexeme s in
              let* s := processBuffer opts reg fuel rec ci s in
              ret (if excludeEnd f then set_buffer lexeme s else s))
    (fun s' h' => hs_top s' = hs_top s /\
       accounts exact root h' s' (T ++ take (if returnEnd f then 0 else length lexeme) lexeme)).
Proof.
  intros He Hf Ha. unfold flags_ok in Hf. destruct f as [? ? ? ? eE ? rE sk]. simpl in *.
  apply andb_prop in Hf as [_ Hf]. destruct sk.
  - destruct rE; [done|]. apply sat_ret. rewrite firstn_all. split; [done|by apply accounts_push].
  - destruct rE; simpl in *.
    + destruct eE; [done|]. eapply sat_bind; [by apply processBuffer_ok|].
      intros s1 h1 _ (H1 & _ & H2). apply sat_ret. by rewrite app_nil_r.
    + rewrite firstn_all. destruct eE.
      * eapply sat_bind; [by apply processBuffer_ok|].
        intros s1 h1 _ (H1 & Hb & H2). apply sat_ret. split; [done|]. by apply accounts_set.
      * eapply sat_bind; [apply processBuffer_ok; [done|by apply accounts_push]|].
        intros s1 h1 _ (H1 & _ & H2). by apply sat_ret.
Qed.

(** A lexeme that ends modes. *)
Lemma end_lexeme_ok ci root lexeme ends s T h :
  env_ok h -> (exists m, h !! root = Some m /\ starts m = None) -> rest_of ends (hs_top s) ->
  accounts exact root h s T ->
  sat h (end_lexeme opts reg fuel rec ci lexeme ends s) (fun x h' =>
    x.1 <= length lexeme /\ accounts exact root h' x.2 (T ++ take x.1 lexeme)).
Proof.
  intros He Hroot Hrest Ha. unfold end_lexeme.
  destruct (hs_top s) as [|id0 rest0] eqn:Es; [destruct Hrest as [? ([] & ?)]; done|]. cbn [top_mode].
  eapply sat_bind; [apply (sat_get _ _ (fun m h' => h' = h /\ h !! id0 = Some m)); done|].
  intros m h1 _ [-> Hm]. pose proof (safe_flags _ _ _ (proj1 He) Hm) as Hf.
  set (c := if returnEnd (mf m) then 0 else length lexeme).
  assert (Hc : c <= length lexeme) by (unfold c; destruct (returnEnd (mf m)); lia).
  eapply sat_bind; [by apply end_buffer_ok|].
  intros s1 h1 G1 [Ht1 Ha1]. eapply sat_bind; [by apply leave_ok|]. intros s2 h2 G2 [Ha2 Ht2].
  destruct Hrest as [Hne (pre & Epre)]. destruct ends as [|e ends]; [done|]. cbn [top_mode].
  rewrite Ht1, Es, Epre, length_app in Ht2. cbn [length] in Ht2.
  replace (length pre + S (length ends) - (S (length ends) - 1)) with (length (pre ++ [e])) in Ht2
    by (rewrite length_app; simpl; lia).
  change (pre ++ e :: ends) with (pre ++ [e] ++ ends) in Ht2. rewrite app_assoc, drop_app_length in Ht2.
  eapply sat_bind; [apply (sat_get _ _ (fun m h' => h' = h2 /\ h2 !! e = Some m)); done|].
  intros me h3 _ [-> Hme].
  eapply (sat_bind _ _ _ (fun s' h' => accounts exact root h' s' (T ++ take c lexeme))).
  - destruct (starts me) as [st|] eqn:Est; [|by apply sat_ret].
    assert (Hn2 : hs_top s2 <> []).
    { rewrite Ht2. intros ->. destruct Ha as [Hx|(Hl & _)]; [congruence|].
      rewrite Es, Epre, last_snoc in Hl. injection Hl as ->. destruct Hroot as (mr & Hmr & Hsr).
      destruct (proj1 (transitivity G1 G2) _ _ Hmr) as (m' & Hm' & (_ & _ & E & _)). congruence. }
    eapply (sat_bind _ _ _ (fun _ h' => accounts exact root h' s2 (T ++ take c lexeme))).
    + destruct (endSameAsBegin (mf me)); [|by apply sat_ret].
      assert (G : forall m, same m (set_endRe (endRe me) m)) by (by intros []).
      apply sat_upd; [auto|]. eapply accounts_grows; [by apply grows_upd; auto|done].
    + intros _ h4 G4 Ha4. apply startNewMode_ok; [|done|done].
      eapply env_grows; [|exact He]. transitivity h2; [by transitivity h1|done].
  - intros s3 h3 _ Ha3. by apply sat_ret.
Qed.

Definition root_ok (root : nat) (h : heap) : Prop := exists m, h !! root = Some m /\ starts m = None.

Lemma root_grows root h h' : grows h h' -> root_ok root h -> root_ok root h'.
Proof. intros [G _] (m & Hm & Hs). destruct (G _ _ Hm) as (m' & H' & (_ & _ & E & _)). exists m'. by rewrite E. Qed.

(** One lexeme: what it consumes is added to the text. *)
Lemma processLexeme_ok ci ig root buffer lexeme s T h : env_ok h -> root_ok root h -> accounts exact root h s T ->
  sat h (processLexeme opts reg fuel rec ci ig buffer lexeme s) (fun x h' =>
    accounts exact root h' x.2 (T ++ buffer ++ take x.1 lexeme)).
Proof.
  intros He Hr Ha. unfold processLexeme. set (s1 := push_buffer buffer s).
  assert (Ha1 : accounts exact root h s1 (T ++ buffer)) by (by apply accounts_push). clearbody s1. clear Ha.
  destruct (hs_top s1) as [|id rest] eqn:Es.
  { eapply (sat_bind _ _ _ (fun _ _ => False)); [by apply sat_lift|done]. }
  assert (Hne : hs_top s1 <> []) by (by rewrite Es). rewrite <- Es. clear id rest Es.
  assert (Htop : forall h, sat h (top_mode (hs_top s1)) (fun _ _ => True))
    by (intros h'; destruct (hs_top s1); [by apply sat_lift|by apply sat_get]).
  eapply sat_bind; [apply Htop|]. intros m h1 G1 _.
  eapply sat_bind; [apply subMode_grows|]. intros [id|] h2 G2 _; pose proof (transitivity G1 G2) as G.
  - eapply sat_weaken; [eapply begin_lexeme_ok; eauto using env_grows, accounts_grows|].
    intros x h3 _ [_ H]. by rewrite app_assoc.
  - eapply sat_bind; [apply endOfMode_ok|]. intros [ends|] h3 G3 H3; pose proof (transitivity G G3) as G'.
    + eapply sat_weaken; [eapply end_lexeme_ok; eauto using env_grows, accounts_grows, root_grows; by eapply root_grows|].
      intros x h4 _ [_ H]. by rewrite app_assoc.
    + eapply sat_bind; [apply Htop|]. intros top h4 G4 _. destruct (negb ig && testRe (illegalRe top) lexeme).
      * by apply sat_lift.
      * apply sat_ret. cbn [fst snd]. rewrite take_ge by lia. rewrite app_assoc. apply accounts_push.
        eapply accounts_grows; [|exact Ha1]. by transitivity h3.
Qed.

Lemma accounts_weaken root h s T T' : kept exact T T' -> accounts exact root h s T -> accounts exact root h s T'.
Proof.
  intros Hk [H|(Hl & Hv & ps & Hr & Hn & Ht)]; [by left|right]. split_and!; [done|done|]. exists ps.
  split_and!; [done|done|]. by eapply kept_trans.
Qed.

Lemma open_spans_ok ids : forall h, env_ok h -> sat h (open_spans opts ids) (fun r h' => h' = h /\ valid h ids /\
  exists ps, r = hrender ps /\ hnest 0 ps = Some (opened h ids) /\ htext ps = []).
Proof.
  induction ids as [|id ids IH]; intros h He; cbn [open_spans]; [apply sat_ret; split_and!; [done|constructor|by exists []]|].
  eapply sat_bind; [apply (sat_get _ _ (fun m h' => h' = h /\ h !! id = Some m)); done|].
  intros m h1 _ [-> Hm]. eapply sat_bind; [by apply IH|]. intros r h1 _ (-> & Hv & ps & -> & Hn & Ht). apply sat_ret.
  split_and!; [done|constructor; eauto|].
  destruct (open_pieces_ok opts (className m) (opened h ids) (class_plain _ _ _ He Hm)) as (-> & Hn' & Ht').
  exists (ps ++ open_pieces opts (className m)). split_and!.
  - by rewrite hrender_app.
  - rewrite hnest_app, Hn, opened_cons. unfold classed_at at 1. by rewrite Hm.
  - by rewrite htext_app, Ht, Ht'.
Qed.

Lemma close_spans_ok ids : forall h, sat h (close_spans ids) (fun r h' => h' = h /\
  exists ps, r = hrender ps /\ hnest (opened h ids) ps = Some 0 /\ htext ps = []).
Proof.
  induction ids as [|id ids IH]; intros h; cbn [close_spans]; [apply sat_ret; split; [done|by exists []]|].
  eapply sat_bind; [apply (sat_get _ _ (fun m h' => h' = h /\ h !! id = Some m)); done|].
  intros m h1 _ [-> Hm]. eapply sat_bind; [apply IH|]. intros r h1 _ (-> & ps & -> & Hn & Ht). apply sat_ret.
  split; [done|]. destruct (close_pieces_ok (className m) (opened h ids)) as (-> & Hn' & Ht').
  exists (close_pieces (className m) ++ ps). split_and!.
  - by rewrite hrender_app.
  - rewrite hnest_app, opened_cons. unfold classed_at at 1. by rewrite Hm, Hn'.
  - by rewrite htext_app, Ht, Ht'.
Qed.

(** The end of the run. *)
Lemma finish_ok name value ci root index s h : env_ok h -> accounts exact root h s (take index value) ->
  sat h (let* s := processBuffer opts reg fuel rec ci (push_buffer (drop index value) s) in
         let* close := close_spans (without_last (hs_top s)) in
         ret (mkHRes (hs_relevance s) (hs_result s ++ close) (Some name) (hs_top s)))
    (fun r _ => faithful exact value r /\ named name r).
Proof.
  intros He Ha. apply (accounts_push _ _ _ _ _ (drop index value)) in Ha. rewrite take_drop in Ha.
  destruct (hs_top s) as [|id rest] eqn:Es.
  { unfold processBuffer. cbn [push_buffer hs_top]. rewrite Es. by split. }
  eapply sat_bind; [by apply processBuffer_ok|]. intros s1 h1 _ (Ha1 & Hb & Ht).
  eapply sat_bind; [apply close_spans_ok|]. intros r h2 _ (-> & qs & -> & Hn & Hq). apply sat_ret.
  destruct Ha1 as [Hx|(_ & _ & ps & Hr & Hnp & Hk)].
  { rewrite Hx in Ht. cbn [push_buffer hs_top] in Ht. congruence. }
  split; [|by right]. exists (ps ++ qs). split_and!.
  - cbn [h_value]. by rewrite hrender_app, Hr.
  - apply hnest_closed. by rewrite hnest_app, Hnp.
  - rewrite htext_app, Hq, app_nil_r. by rewrite Hb, app_nil_r in Hk.
Qed.
End EngineFacts.

(** The code from a position, around a match. *)
Lemma match_take r value i m c : exec_at r value i = Some m -> c <= length (cap0 m) ->
  take i value ++ substring value i (m_index m) ++ take c (cap0 m) = take (m_index m + c) value.
Proof.
  intros E Hc. pose proof (match_split _ _ _ _ E) as (Hi & He & _). apply exec_at_inv in E as (_ & _ & _ & Ec).
  unfold substring, m_end in *. rewrite Nat.max_r, Nat.min_l by lia. rewrite app_assoc.
  replace (take i value ++ take (m_index m - i) (drop i value)) with (take (m_index m) value).
  2: { rewrite take_take_drop. f_equal. lia. }
  rewrite Ec, take_take, Nat.min_l by lia. apply take_take_drop.
Qed.

Lemma sublist_take_le n m (s : jsstr) : n <= m -> take n s `sublist_of` take m s.
Proof. intros H. replace (take n s) with (take n (take m s)) by (rewrite take_take; f_equal; lia). apply sublist_take. Qed.

Section Sound.
Context (opts : hl_options) (reg : registry) (fuel : nat).
Hypothesis Hopts : opts_ok opts = true.

Lemma lexeme_loop_ok rec ci ig root value :
  (forall name text ig cont h, env_ok reg h ->
    sat h (rec name text ig cont) (fun r _ => faithful false text r /\ named name r)) ->
  forall n index s h, env_ok reg h -> root_ok root h -> accounts false root h s (take index value) ->
  sat h (lexeme_loop opts reg fuel rec n ci ig value index s) (fun x h' =>
    accounts false root h' x.2 (take x.1 value)).
Proof.
  intros Hrec. induction n as [|n IH]; intros index s h He Hr Ha; [by apply sat_lift|]. cbn [lexeme_loop].
  eapply (sat_bind _ _ _ (fun _ h' => h' = h)).
  { destruct (hs_top s); [by apply sat_lift|by apply sat_get]. }
  intros top h' _ ->. destruct (terminators top) as [| |r]; [by apply sat_lift|by apply sat_ret|].
  destruct (exec_at r value index) as [m|] eqn:E; [|by apply sat_ret].
  eapply sat_bind; [by eapply processLexeme_ok|]. intros [c s1] h1 G1 Ha1. cbn [fst snd] in Ha1.
  apply IH; [by eapply env_grows|by eapply root_grows|]. eapply accounts_weaken; [|exact Ha1].
  replace (take c (cap0 m)) with (take (Nat.min c (length (cap0 m))) (cap0 m)).
  - rewrite (match_take _ _ _ _ _ E) by lia. apply sublist_take_le. lia.
  - destruct (Nat.le_gt_cases c (length (cap0 m))); [by rewrite Nat.min_l by lia|]. rewrite !take_ge by lia. done.
Qed.

Lemma catch_ok e name value m h : sat h m (fun r _ => faithful e value r /\ named name r) ->
  sat h (catch_illegal value m) (fun r _ => faithful e value r /\ named name r).
Proof.
  intros [G H]. unfold sat, catch_illegal. destruct (m h) as [h' [a|ex|]]; [done| |done].
  destruct (indexOf (message ex) (js "Illegal")); [|done]. split; [done|]. intros a [= <-].
  split; [apply faithful_escape|by left].
Qed.

Lemma highlight_sat depth : forall name value ig cont h, env_ok reg h ->
  sat h (highlight opts reg fuel depth name value ig cont) (fun r _ => faithful false value r /\ named name r).
Proof.
  assert (Hbody : forall rec, (forall name text ig cont h, env_ok reg h ->
      sat h (rec name text ig cont) (fun r _ => faithful false text r /\ named name r)) ->
    forall name value ig cont h, env_ok reg h ->
      sat h (highlight_body opts reg fuel rec name value ig cont) (fun r _ => faithful false value r /\ named name r)).
  { intros rec Hrec name value ig cont h He. unfold highlight_body.
    destruct (getLanguage reg name) as [l|] eqn:El; [|by apply sat_lift].
    eapply sat_bind; [apply compileMode_grows|]. intros _ h1 G1 _. pose proof (env_grows _ _ _ G1 He) as He1.
    destruct (proj1 (proj2 He1) _ _ El) as (mr & Hmr & Hst).
    set (top := match cont with [] => [l_root l] | _ => cont end). case_decide as Hl.
    2: { eapply (sat_bind _ _ _ (fun _ _ => False)); [by apply sat_lift|done]. }
    eapply sat_bind; [by eapply open_spans_ok|]. intros r h2 _ (-> & Hv & ps & -> & Hn & Ht).
    apply catch_ok. unfold highlight_run.
    eapply sat_bind; [apply lexeme_loop_ok with (root := l_root l)|].
    - done.
    - done.
    - by exists mr.
    - right. split_and!; [done| |exists ps; split_and!; [done|done|by rewrite Ht]].
      rewrite (last_split _ _ Hl). apply Forall_app. split; [done|]. constructor; eauto.
    - intros [index s] h3 G3 Ha. eapply finish_ok with (root := l_root l); [exact Hopts|done|by eapply env_grows|done]. }
  induction depth as [|d IH]; intros name value ig cont h He; cbn [highlight]; by apply Hbody.
Qed.
End Sound.

(** ** Detection of the language *)

Definition rel (r : hres) : Z := default 0%Z (h_relevance r).
Definition numeric (r : hres) : Prop := h_relevance r <> None.
Definition pick (cs : list hres) (b : hres * hres) : hres * hres := fold_left (fun b c => consider c b) cs b.

Lemma ngt_numeric a b : numeric a -> numeric b -> ngt (h_relevance a) (h_relevance b) = (rel b <? rel a)%Z.
Proof. unfold numeric, rel. by destruct (h_relevance a), (h_relevance b). Qed.

(** [r] was chosen from the candidates seen, as the first of those with the highest
    relevance, and [s] is at least as good as all the others. *)
Definition chosen (start : hres) (seen : list hres) (r s : hres) : Prop :=
  numeric r /\ numeric s /\ (rel s <= rel r)%Z /\
  (r = start /\ s = start /\ (forall c, c ∈ seen -> (rel c <= rel start)%Z) \/
   exists l1 l2, seen = l1 ++ r :: l2 /\ (forall c, c ∈ start :: l1 -> (rel c < rel r)%Z) /\
     (forall c, c ∈ start :: l1 ++ l2 -> (rel c <= rel s)%Z)).

Lemma chosen_all start seen r s : chosen start seen r s -> forall x, x ∈ start :: seen -> (rel x <= rel r)%Z.
Proof.
  intros (_ & _ & Hle & [(-> & -> & Hs)|(l1 & l2 & -> & H1 & H2)]) x Hx.
  - apply elem_of_cons in Hx as [->|Hx]; [done|by apply Hs].
  - destruct (decide (x = r)) as [->|Hne]; [done|].
    assert (Hx2 : x ∈ start :: l1 ++ l2) by set_solver. specialize (H2 x Hx2). lia.
Qed.

Lemma chosen_step start seen r s c : numeric c -> chosen start seen r s ->
  chosen start (seen ++ [c]) (consider c (r, s)).1 (consider c (r, s)).2.
Proof.
  intros Nc Hch. pose proof (chosen_all _ _ _ _ Hch) as Hall. destruct Hch as (Nr & Ns & Hle & H).
  unfold consider. rewrite !ngt_numeric by done.
  destruct (Z.ltb_spec (rel r) (rel c)).
  - split_and!; [done|done|simpl; lia|]. right. cbn [fst snd]. exists seen, []. rewrite app_nil_r.
    split_and!; [done| |]; intros x Hx; specialize (Hall x Hx); lia.
  - destruct H as [(-> & -> & Hs)|(l1 & l2 & -> & H1 & H2)].
    + destruct (Z.ltb_spec (rel start) (rel c)); [lia|]. split_and!; [done|done|done|]. left. split_and!; [done|done|].
      intros x [Hx| ->%list_elem_of_singleton]%elem_of_app; [auto|lia].
    + set (s' := if (rel s <? rel c)%Z then c else s).
      assert (Hs' : numeric s' /\ (rel s <= rel s')%Z /\ (rel c <= rel s')%Z /\ (rel s' <= rel r)%Z)
        by (unfold s'; destruct (Z.ltb_spec (rel s) (rel c)); split_and!; try done; lia).
      cbn [fst snd]. destruct Hs' as (? & ? & ? & ?). split_and!; [done|done|done|]. right. exists l1, (l2 ++ [c]).
      split_and!; [by rewrite <- app_assoc|done|]. intros x Hx.
      rewrite app_assoc, elem_of_cons, elem_of_app, list_elem_of_singleton in Hx.
      destruct Hx as [->|[Hx| ->]]; [specialize (H2 start ltac:(set_solver)); lia| |done].
      specialize (H2 x ltac:(set_solver)). lia.
Qed.

Lemma pick_chosen start cs : numeric start -> Forall numeric cs -> forall seen r s, chosen start seen r s ->
  chosen start (seen ++ cs) (pick cs (r, s)).1 (pick cs (r, s)).2.
Proof.
  intros Hs. induction 1 as [|c cs Hc Hcs IH]; intros seen r s H; [by rewrite app_nil_r|].
  change (pick (c :: cs) (r, s)) with (pick cs (consider c (r, s))).
  pose proof (chosen_step _ _ _ _ _ Hc H) as H'. destruct (consider c (r, s)) as [r' s'].
  change (c :: cs) with ([c] ++ cs). rewrite app_assoc. by apply IH.
Qed.

Lemma mfold_pick (rec : jsstr -> jsstr -> bool -> list nat -> M hres) text names : forall b h h' b',
  mfold (fun name b => let* current := rec name text false [] in ret (consider (set_language name current) b)) names b h
  = (h', Ok b') ->
  exists cs, b' = pick cs b /\ map h_language cs = map Some names.
Proof.
  induction names as [|name names IH]; intros b h h' b' E; cbn [mfold] in E; [injection E as <- <-; by exists []|].
  unfold bind in E at 1. unfold bind in E at 1. destruct (rec name text false [] h) as [h1 [c|e|]]; [|done|done].
  cbn [ret] in E. apply IH in E as (cs & -> & Hc). exists (set_language name c :: cs). split; [done|].
  cbn [map]. by rewrite Hc.
Qed.

(** ** Properties *)

(** No language of the registry starts a mode when it ends, and the names are plain. *)
Definition langs_ok (reg : registry) (h : heap) : bool :=
  forallb (fun '(_, l) => match h !! l_root l with Some m => match starts m with None => true | _ => false end
                                                 | None => false end) (languages reg)
  && forallb plain_class (listLanguages reg).

Lemma oget_forallb {V} (f : jsstr * V -> bool) k v o :
  forallb f o = true -> oget k o = Some v -> f (k, v) = true.
Proof.
  induction o as [|[k' v'] o IH]; [done|]. simpl. intros [H1 H2]%andb_prop. case_bool_decide; [|auto].
  intros [= <-]. by subst.
Qed.

Lemma langs_roots reg h : langs_ok reg h = true ->
  roots_ok reg h /\ forallb plain_class (listLanguages reg) = true.
Proof.
  intros [H Hn]%andb_prop. split; [|done]. intros name l E.
  assert (Hk : exists k, oget k (languages reg) = Some l).
  { unfold getLanguage in E. destruct (oget (toLowerCase name) (languages reg)) eqn:E1; simplify_eq; eauto. }
  destruct Hk as (k & Hk). apply (oget_forallb _ _ _ _ H) in Hk. destruct (h !! l_root l) as [m|]; [|done].
  exists m. by destruct (starts m).
Qed.

Lemma safe_forallb h : forallb mode_ok h = true -> safe h.
Proof. intros H. apply Forall_forall. intros m Hm. apply (proj1 (forallb_forall _ _) H). by apply list_elem_of_In. Qed.

Lemma highlight_env opts reg fuel depth name value ig cont h h' r :
  opts_ok opts = true -> env_ok reg h ->
  highlight opts reg fuel depth name value ig cont h = (h', Ok r) ->
  exists ps, h_value r = hrender ps /\ hnest 0 ps = Some 0 /\ htext ps `sublist_of` value.
Proof.
  intros Ho He E. destruct (highlight_sat opts reg fuel Ho depth name value ig cont h He) as [_ H].
  rewrite E in H. destruct (H r eq_refl) as [(ps & ? & Hc & ?) _]. exists ps. by rewrite Hc.
Qed.

Lemma highlight_pieces opts reg fuel depth name value ig cont h h' r :
  opts_ok opts = true -> forallb mode_ok h = true -> langs_ok reg h = true ->
  highlight opts reg fuel depth name value ig cont h = (h', Ok r) ->
  exists ps, h_value r = hrender ps /\ hnest 0 ps = Some 0 /\ htext ps `sublist_of` value.
Proof.
  intros Ho Hm Hl. apply highlight_env; [done|]. split; [by apply safe_forallb|by apply langs_roots].
Qed.



(** Three languages with the relevances 1, 3 and 2. *)
Definition scored (name text : jsstr) (ig : bool) (cont : list nat) : M hres :=
  ret (mkHRes (Some (Z.of_nat (match name with [97%N] => 1 | [98%N] => 3 | _ => 2 end))) name None []).
Definition scored_reg : registry :=
  mkReg [([97%N], mkLang 0 false [] false None); ([98%N], mkLang 0 false [] false None); ([99%N], mkLang 0 false [] false None)] [].
Definition best_of : hres := mkHRes (Some 3%Z) [98%N] (Some [98%N]) [].
Definition second_of : hres := mkHRes (Some 2%Z) [99%N] (Some [99%N]) [].


(** JSON inside a language that marks it. *)
Definition host : M language :=
  let* m := new [ClassName (js "meta"); Begin (js "<<"); End_ (js ">>"); SubLanguage (inl (js "json"))] in
  lang plain_lang [Contains [CRef m]].
Definition host_run : heap * result hres :=
  match register_all [(js "json", alone json); (js "host", alone host)] [] with
  | (h, Ok r) => highlight default_options r 100 2 (js "host") (js "a <<[1]>>") true [] h
  | (h, _) => (h, OutOfFuel)
  end.

