(* ===== verification/HljsTotal.v ===== *)
(** * Languages on which highlighting always returns (module 15)

    Highlighting need not end in general: a mode may start on the empty text.  Here are
    sufficient conditions on a compiled language, checked by computation, under which the
    engine returns for every code, and the output holds exactly the code. *)

From S2P Require Import Prelude JsString JsRegExp RegExpFacts RegExpCounts MarkedInline HljsStreams HljsModes Hljs HljsFacts HljsLanguages.

(** ** Plain languages *)

Definition unstarted (h : heap) (id : nat) : bool :=
  match h !! id with Some m => match starts m with None => true | Some _ => false end | None => false end.

Definition keywords_end (m : mode) : bool :=
  match keywords m, lexemesRe m with
  | KNone, _ => true
  | KCompiled _, Some r => (0 <? min_len (re_node r))%nat
  | _, _ => false
  end.

(** Whether a child starts on the lexeme. *)
Definition child_starts (h : heap) (lexeme : jsstr) (c : child) : bool :=
  match c with
  | CRef i => match h !! i with Some m => testRe (beginRe m) lexeme | None => false end
  | CSelf => false
  end.

(** The terminators read something, or the empty text ends the mode or starts another. *)
Definition terminators_end (h : heap) (m : mode) : bool :=
  match terminators m with
  | TUndefined => false
  | TNever => true
  | TRe r => (0 <? min_len (re_node r))%nat || testRe (endRe m) [] || existsb (child_starts h []) (contains m)
  end.

(** A mode that, once started, reads something before anything else happens; only such
    a mode may start on the empty text. *)
Definition light (m : mode) : bool :=
  negb (returnEnd (mf m))
  && match terminators m with TRe r => (0 <? min_len (re_node r))%nat | TNever => true | TUndefined => false end.

(** Membership of a mode, by binary numbers. *)
Definition has_key (i : nat) (keys : list N) : bool := let k := N.of_nat i in existsb (N.eqb k) keys.
Lemma has_key_elem i ids : has_key i (map N.of_nat ids) = true -> i ∈ ids.
Proof.
  unfold has_key. intros (k & Hk & E)%existsb_exists. apply N.eqb_eq in E as <-.
  apply in_map_iff in Hk as (j & Ej & Hj). apply Nnat.Nat2N.inj in Ej as ->. by apply list_elem_of_In.
Qed.


Definition plain_mode (keys : list N) (h : heap) (m : mode) : bool :=
  flags_ok (mf m) && negb (endsParent (mf m)) && negb (endSameAsBegin (mf m)) && negb (returnBegin (mf m))
  && (match subLanguage m with None => true | Some _ => false end)
  && keywords_end m && terminators_end h m && (negb (testRe (beginRe m) []) || light m)
  && forallb (fun c => match c with CRef i => has_key i keys | CSelf => false end) (contains m)
  && (match starts m with None => true | Some s => has_key s keys && unstarted h s end).

(** The modes [ids] are plain and contain each other's children, and the language itself
    cannot end. *)
Definition plain (ids : list nat) (root : nat) (h : heap) : bool :=
  let keys := map N.of_nat ids in
  forallb (fun id => match h !! id with Some m => plain_mode keys h m | None => false end) ids
  && has_key root keys
  && match h !! root with
     | Some m => negb (endsWithParent (mf m)) && unstarted h root && (match endRe m with None => true | Some _ => false end)
     | None => false
     end.

(** Rounds of the loop that are enough for a code of length [n]. *)
Definition enough (n : nat) : nat := 6 * n + 12.

(** ** Code that returns *)

(** The code leaves the heap as it is, and returns what satisfies [Q] or reports an
    illegal lexeme. *)
Definition tot {A} (h : heap) (m : M A) (Q : A -> Prop) : Prop :=
  (exists a, m h = (h, Ok a) /\ Q a) \/
  (exists e, m h = (h, Throw e) /\ indexOf (message e) (js "Illegal") <> None).

Lemma tot_ret {A} h (a : A) (Q : A -> Prop) : Q a -> tot h (ret a) Q.
Proof. left. eauto. Qed.
Lemma tot_ok {A} h (a : A) (Q : A -> Prop) : Q a -> tot h (lift (Ok a)) Q.
Proof. left. eauto. Qed.
Lemma tot_get h id m (Q : mode -> Prop) : h !! id = Some m -> Q m -> tot h (get id) Q.
Proof. intros Hm H. left. exists m. unfold get. by rewrite Hm. Qed.
Lemma tot_bind {A B} h (m : M A) (f : A -> M B) (P : A -> Prop) (Q : B -> Prop) :
  tot h m P -> (forall a, P a -> tot h (f a) Q) -> tot h (bind m f) Q.
Proof.
  intros [(a & E & Ha)|(e & E & He)] Hf; unfold tot, bind; rewrite E; [by apply Hf|right; eauto].
Qed.
Lemma tot_weaken {A} h (m : M A) (P Q : A -> Prop) : tot h m P -> (forall a, P a -> Q a) -> tot h m Q.
Proof. intros [(a & E & Ha)|H] HQ; [left; eauto|by right]. Qed.

Lemma tot_and_sat {A} h (m : M A) (P : A -> Prop) (Q : A -> heap -> Prop) :
  tot h m P -> sat h m Q -> tot h m (fun a => P a /\ Q a h).
Proof.
  intros [(a & E & Ha)|H] [_ HQ]; [left|by right]. exists a. rewrite E in HQ. split; [done|].
  split; [done|]. by apply (HQ a).
Qed.

(** ** Keywords end *)

Lemma keyword_loop_total opts ci t lex buffer : 0 < min_len (re_node lex) -> forall fuel i rel,
  i <= length buffer -> length buffer - i < fuel -> exists r, keyword_loop fuel opts ci t lex buffer i rel = Ok r.
Proof.
  intros Hm. induction fuel as [|f IH]; intros i rel Hi Hf; [lia|]. cbn [keyword_loop].
  destruct (exec_at lex buffer i) as [m|] eqn:E; [|eauto].
  apply exec_at_inv in E as (E1 & E2 & E3 & _).
  destruct (match keywordMatch ci t (cap0 m) with Some _ => _ | None => _ end) as [w rel1].
  destruct (IH (m_end m) rel1) as [[r rel2] Hr]; [done|unfold m_end in *; lia|]. rewrite Hr. simpl. eauto.
Qed.

Section Plain.
Context (opts : hl_options) (reg : registry) (fuel : nat).
Context (rec : jsstr -> jsstr -> bool -> list nat -> M hres).
Context (ids : list nat) (root : nat) (h : heap).
Hypothesis Hplain : plain ids root h = true.

Lemma plain_get id : id ∈ ids -> exists m, h !! id = Some m /\ plain_mode (map N.of_nat ids) h m = true.
Proof.
  intros Hid. unfold plain in Hplain. rewrite !andb_true_iff in Hplain. destruct Hplain as [[H _] _].
  pose proof (proj1 (forallb_forall _ _) H id (proj1 (list_elem_of_In _ _) Hid)) as Hx. simpl in Hx.
  destruct (h !! id) as [m|]; [eauto|done].
Qed.

(** The stack: modes of the language, with the language at the bottom only. *)
Definition stack_ok (s : list nat) : Prop := last s = Some root /\ Forall (fun id => id ∈ ids) s.

(** A mode counts once, and once more for the mode that it starts. *)
Definition weight (id : nat) : nat := if unstarted h id then 1 else 2.
Definition weights (s : list nat) : nat := list_sum (map weight s).

Lemma weights_cons id s : weights (id :: s) = weight id + weights s.
Proof. done. Qed.
Lemma weights_app a b : weights (a ++ b) = weights a + weights b.
Proof. unfold weights. by rewrite map_app, list_sum_app. Qed.
Lemma weight_bound id : 1 <= weight id <= 2.
Proof. unfold weight. destruct (unstarted h id); lia. Qed.

Definition light_at (id : nat) : bool := match h !! id with Some m => light m | None => false end.
(** A round that reads nothing is possible unless the mode on top is light. *)
Definition idle (stack : list nat) : nat := match stack with id :: _ => if light_at id then 0 else 3 | [] => 0 end.

(** What the check says of a mode. *)
Record plain_facts (m : mode) : Prop := mkPlain {
  pf_flags : flags_ok (mf m) = true;
  pf_parent : endsParent (mf m) = false;
  pf_same : endSameAsBegin (mf m) = false;
  pf_return : returnBegin (mf m) = false;
  pf_sub : subLanguage m = None;
  pf_keywords : keywords_end m = true;
  pf_terminators : terminators_end h m = true;
  pf_begin : testRe (beginRe m) [] = true -> light m = true;
  pf_contains : Forall (fun c => exists i, c = CRef i /\ i ∈ ids) (contains m);
  pf_starts : forall s, starts m = Some s -> s ∈ ids /\ unstarted h s = true
}.

Lemma plain_inv id : id ∈ ids -> exists m, h !! id = Some m /\ plain_facts m.
Proof.
  intros (m & Hm & Hp)%plain_get. exists m. split; [done|]. unfold plain_mode in Hp.
  rewrite !andb_true_iff, !negb_true_iff in Hp. destruct Hp as [[[[[[[[[? ?] ?] ?] ?] ?] ?] Hb] Hc] Hs].
  constructor; try done.
  - by destruct (subLanguage m).
  - intros E. by rewrite E in Hb.
  - apply Forall_forall. intros c Hin%list_elem_of_In. apply (proj1 (forallb_forall _ _) Hc) in Hin.
    destruct c as [|i]; [done|]. apply has_key_elem in Hin. eauto.
  - intros s E. rewrite E in Hs. apply andb_prop in Hs as [Hi%has_key_elem Hu]. done.
Qed.

Lemma root_inv : exists m, h !! root = Some m /\ endsWithParent (mf m) = false /\ endRe m = None.
Proof.
  unfold plain in Hplain. rewrite !andb_true_iff in Hplain. destruct Hplain as [_ H].
  destruct (h !! root) as [m|]; [|done]. exists m. rewrite !andb_true_iff, negb_true_iff in H.
  destruct H as [[? _] ?]. by destruct (endRe m).
Qed.

Lemma subMode_total lexeme cs : Forall (fun c => exists i, c = CRef i /\ i ∈ ids) cs ->
  tot h (subMode lexeme cs) (fun o => match o with Some id => id ∈ ids /\ (lexeme = [] -> light_at id = true)
    | None => existsb (child_starts h lexeme) cs = false end).
Proof.
  induction 1 as [|c cs (i & -> & Hi) Hcs IH]; [by apply tot_ret|]. cbn [subMode].
  destruct (plain_inv i Hi) as (m & Hm & P).
  eapply tot_bind; [apply (tot_get _ _ m (fun x => x = m)); done|]. intros ? ->.
  destruct (testRe (beginRe m) lexeme) eqn:Et.
  2: { eapply tot_weaken; [exact IH|]. intros [id|]; [done|]. simpl. by rewrite Hm, Et. } rewrite (pf_same _ P).
  eapply tot_bind; [by apply (tot_ret _ _ (fun _ => True))|]. intros _ _. apply tot_ret. split; [done|].
  intros ->. unfold light_at. rewrite Hm. by apply (pf_begin _ P).
Qed.

Lemma climb_total stack : Forall (fun id => id ∈ ids) stack -> tot h (climb stack) (fun ends => ends = stack).
Proof.
  intros Hs. destruct stack as [|id stack]; [by apply tot_ret|]. cbn [climb].
  destruct stack; [by apply tot_ret|]. apply Forall_cons in Hs as [Hi _]. destruct (plain_inv id Hi) as (m & Hm & P).
  eapply tot_bind; [apply (tot_get _ _ m (fun x => x = m)); done|]. intros ? ->.
  rewrite (pf_parent _ P). by apply tot_ret.
Qed.

(** The mode that ends is above the language; a mode that the lexeme ends does end. *)
Lemma endOfMode_total lexeme stack : stack_ok stack -> tot h (endOfMode stack lexeme) (fun o =>
  match o with
  | Some ends => exists pre id rest, stack = pre ++ ends /\ ends = id :: rest /\ rest <> []
  | None => forall id m, head stack = Some id -> h !! id = Some m -> testRe (endRe m) lexeme = false
  end).
Proof.
  induction stack as [|id stack IH]; intros [Hl Hs]; [done|]. cbn [endOfMode].
  apply Forall_cons in Hs as [Hi Hs]. destruct (plain_inv id Hi) as (m & Hm & P).
  eapply tot_bind; [apply (tot_get _ _ m (fun x => x = m)); done|]. intros ? ->.
  destruct stack as [|id2 stack].
  - injection Hl as ->. destruct root_inv as (mr & Hmr & E1 & E2). rewrite Hm in Hmr. injection Hmr as <-.
    rewrite E2. cbn [testRe]. rewrite E1. apply tot_ret. intros i mi [= <-] Hi2. by rewrite Hm in Hi2; simplify_eq; rewrite E2.
  - destruct (testRe (endRe m) lexeme) eqn:Et.
    + eapply tot_bind; [apply climb_total; by constructor|]. intros ? ->. apply tot_ret.
      by exists [], id, (id2 :: stack).
    + assert (Hn : forall i mi, head (id :: id2 :: stack) = Some i -> h !! i = Some mi -> testRe (endRe mi) lexeme = false)
        by (intros i mi [= <-] Hi2; congruence).
      destruct (endsWithParent (mf m)); [|by apply tot_ret].
      eapply tot_weaken; [by apply IH|]. intros [ends|]; [|done]. intros (pre & i & rest & E & Hne).
      exists (id :: pre), i, rest. by rewrite E.
Qed.

Lemma top_total stack : stack_ok stack -> tot h (top_mode stack) (fun m =>
  plain_facts m /\ exists id, head stack = Some id /\ h !! id = Some m).
Proof.
  intros [Hl Hs]. destruct stack as [|id stack]; [done|]. apply Forall_cons in Hs as [Hi _].
  destruct (plain_inv id Hi) as (m & Hm & P). cbn [top_mode]. eapply tot_get; [done|]. eauto.
Qed.

Lemma processBuffer_total ci s : stack_ok (hs_top s) -> length (hs_buffer s) < fuel ->
  tot h (processBuffer opts reg fuel rec ci s) (fun s' => hs_top s' = hs_top s).
Proof.
  intros Hs Hb. unfold processBuffer. eapply tot_bind; [by apply top_total|]. intros top [P _].
  rewrite (pf_sub _ P). eapply (tot_bind _ _ _ (fun x => hs_top x.2 = hs_top s)).
  - assert (Hk : exists x, processKeywords fuel opts ci top (hs_buffer s) (hs_relevance s) = Ok x).
    { pose proof (pf_keywords _ P) as Hk. unfold keywords_end in Hk. unfold processKeywords.
      destruct (keywords top); eauto; destruct (lexemesRe top); try done; eauto.
      apply Nat.ltb_lt in Hk. apply keyword_loop_total; [done|lia|lia]. }
    destruct Hk as [[r rel] ->]. eapply tot_bind; [by apply (tot_ok _ _ (fun x => x = (r, rel)))|].
    intros ? ->. by apply tot_ret.
  - intros [r s'] Ht. by apply tot_ret.
Qed.

Lemma startNewMode_total id s : id ∈ ids ->
  tot h (startNewMode opts id s) (fun s' => hs_top s' = id :: hs_top s).
Proof.
  intros Hi. destruct (plain_inv id Hi) as (m & Hm & _). unfold startNewMode.
  eapply tot_bind; [apply (tot_get _ _ m (fun x => x = m)); done|]. intros ? ->. by apply tot_ret.
Qed.

Lemma leave_total n : forall s, n <= length (hs_top s) -> Forall (fun id => id ∈ ids) (hs_top s) ->
  tot h (leave n s) (fun s' => hs_top s' = drop n (hs_top s)).
Proof.
  induction n as [|n IH]; intros s Hn Hs; [by apply tot_ret|]. cbn [leave].
  destruct (hs_top s) as [|id rest] eqn:Es; [simpl in Hn; lia|]. apply Forall_cons in Hs as [Hi Hs].
  destruct (plain_inv id Hi) as (m & Hm & _).
  eapply tot_bind; [apply (tot_get _ _ m (fun x => x = m)); done|]. intros ? ->. apply IH; [simpl in *; lia|done].
Qed.

(** The buffer around a lexeme. *)
Lemma buffer_total ci (sk before : bool) (after : hstate -> hstate) lexeme s :
  stack_ok (hs_top s) -> length (hs_buffer s) + length lexeme < fuel ->
  (forall s, hs_top (after s) = hs_top s) ->
  tot h (if sk then ret (push_buffer lexeme s)
         else let* s := processBuffer opts reg fuel rec ci (if before then push_buffer lexeme s else s) in ret (after s))
    (fun s' => hs_top s' = hs_top s).
Proof.
  intros Hs Hb Ha. destruct sk; [by apply tot_ret|].
  eapply tot_bind; [apply processBuffer_total|].
  - by destruct before.
  - destruct before; simpl; [rewrite length_app|]; lia.
  - intros s' Ht. apply tot_ret. rewrite Ha, Ht. by destruct before.
Qed.

Lemma begin_lexeme_total ci lexeme id s : stack_ok (hs_top s) -> id ∈ ids ->
  length (hs_buffer s) + length lexeme < fuel ->
  tot h (begin_lexeme opts reg fuel rec ci lexeme id s)
    (fun x => x.1 = length lexeme /\ hs_top x.2 = id :: hs_top s).
Proof.
  intros Hs Hi Hb. unfold begin_lexeme. destruct (plain_inv id Hi) as (m & Hm & P).
  eapply tot_bind; [apply (tot_get _ _ m (fun x => x = m)); done|]. intros ? ->.
  eapply tot_bind; [apply (buffer_total ci (skip (mf m)) (excludeBegin (mf m))
    (fun s => if negb (returnBegin (mf m)) && negb (excludeBegin (mf m)) then set_buffer lexeme s else s)); try done|].
  - intros s'. by destruct (_ && _).
  - intros s1 H1. eapply tot_bind; [by apply startNewMode_total|]. intros s2 H2. apply tot_ret.
    cbn [fst snd]. rewrite (pf_return _ P), H2, H1. done.
Qed.

Lemma stack_ok_rest pre rest : rest <> [] -> stack_ok (pre ++ rest) -> stack_ok rest.
Proof.
  intros Hne [Hl Hi]. apply Forall_app in Hi as [_ Hi]. split; [|done]. rewrite last_app in Hl.
  destruct (last rest) eqn:E; [done|]. by apply last_None in E.
Qed.

Lemma end_lexeme_total ci lexeme s pre id rest : stack_ok (hs_top s) -> hs_top s = pre ++ id :: rest -> rest <> [] ->
  length (hs_buffer s) + length lexeme < fuel ->
  tot h (end_lexeme opts reg fuel rec ci lexeme (id :: rest) s) (fun x =>
    x.1 <= length lexeme /\ (idle (hs_top s) = 0 -> x.1 = length lexeme) /\
    stack_ok (hs_top x.2) /\ weights (hs_top x.2) < weights (hs_top s)).
Proof.
  intros Hs Es Hne Hb. unfold end_lexeme. pose proof Hs as [_ Hids]. rewrite Es in Hids.
  assert (Hrest : stack_ok rest) by (apply (stack_ok_rest (pre ++ [id])); [done|rewrite <- app_assoc; cbn [app]; by rewrite <- Es]).
  eapply tot_bind; [by apply top_total|]. intros m [P (i0 & Hi0 & Hm0)].
  eapply tot_bind; [|].
  { pose proof (buffer_total ci (skip (mf m)) (negb (returnEnd (mf m) || excludeEnd (mf m)))
      (fun s => if excludeEnd (mf m) then set_buffer lexeme s else s) lexeme s Hs Hb) as Hx.
    destruct (returnEnd (mf m) || excludeEnd (mf m)); apply Hx; intros s'; by destruct (excludeEnd (mf m)). }
  intros s1 H1. eapply tot_bind; [apply leave_total|].
  { rewrite H1. lia. }
  { by rewrite H1, Es. }
  intros s2 H2. rewrite H1, Es, length_app in H2. cbn [length] in H2.
  replace (length pre + S (length rest) - (S (length rest) - 1)) with (length (pre ++ [id])) in H2
    by (rewrite length_app; simpl; lia).
  change (pre ++ id :: rest) with (pre ++ [id] ++ rest) in H2. rewrite app_assoc, drop_app_length in H2.
  assert (Hi : id ∈ ids) by (apply Forall_app in Hids as [_ [? _]%Forall_cons]; done).
  destruct (plain_inv id Hi) as (me & Hme & Pe). cbn [top_mode].
  eapply tot_bind; [apply (tot_get _ _ me (fun x => x = me)); done|]. intros ? ->.
  eapply (tot_bind _ _ _ (fun s' => stack_ok (hs_top s') /\ weights (hs_top s') < weights (hs_top s))).
  - rewrite Es, weights_app, weights_cons. pose proof (weight_bound id) as Hw. destruct (starts me) as [st|] eqn:Est.
    + destruct (pf_starts _ Pe _ Est) as [Hst Hu]. rewrite (pf_same _ Pe).
      eapply tot_bind; [by apply (tot_ret _ _ (fun _ => True))|]. intros _ _.
      eapply tot_weaken; [by apply startNewMode_total|]. intros s3 H3. rewrite H3, H2, weights_cons. split.
      * destruct Hrest as [Hl' Hi']. split; [by destruct rest|by constructor].
      * unfold weight. rewrite Hu. unfold unstarted at 1. rewrite Hme, Est. lia.
    + apply tot_ret. rewrite H2. split; [done|lia].
  - intros s3 [H3 Hw3]. apply tot_ret. split_and!; [| |done|done]; cbn [fst]; [destruct (returnEnd (mf m)); lia|].
    unfold idle. destruct (hs_top s) as [|i1 st1]; [done|]. injection Hi0 as ->. unfold light_at, light. rewrite Hm0.
    by destruct (returnEnd (mf m)).
Qed.

Lemma illegal_caught lexeme top : indexOf (message (Error (illegal_message lexeme top))) (js "Illegal") <> None.
Proof. by vm_compute. Qed.

(** One lexeme starts a mode, leaves modes, or is only read. *)
Lemma processLexeme_total ci ig buffer lexeme s : stack_ok (hs_top s) ->
  length (hs_buffer s) + length buffer + length lexeme < fuel ->
  tot h (processLexeme opts reg fuel rec ci ig buffer lexeme s) (fun x => stack_ok (hs_top x.2) /\
    (x.1 = length lexeme /\ weights (hs_top x.2) <= weights (hs_top s) + 2 /\ (lexeme = [] -> idle (hs_top x.2) = 0) \/
     x.1 <= length lexeme /\ weights (hs_top x.2) < weights (hs_top s) /\ (idle (hs_top s) = 0 -> x.1 = length lexeme) \/
     x.1 = Nat.max 1 (length lexeme) /\ hs_top x.2 = hs_top s /\
       forall id m, head (hs_top s) = Some id -> h !! id = Some m ->
         testRe (endRe m) lexeme = false /\ existsb (child_starts h lexeme) (contains m) = false)).
Proof.
  intros Hs Hb. unfold processLexeme. set (s1 := push_buffer buffer s).
  assert (H1 : hs_top s1 = hs_top s) by done.
  assert (Hb1 : length (hs_buffer s1) + length lexeme < fuel) by (simpl; rewrite length_app; lia).
  rewrite <- H1 in Hs. rewrite <- H1. clearbody s1.
  eapply tot_bind; [by apply top_total|]. intros m [P (i0 & Hi0 & Hm0)].
  eapply tot_bind; [apply subMode_total, (pf_contains _ P)|]. intros [id|].
  - intros [Hi Hne]. eapply tot_weaken; [by apply begin_lexeme_total|]. intros x [Hc Ht]. rewrite Ht. split.
    + destruct Hs as [Hl Hids]. split; [by destruct (hs_top s1)|by constructor].
    + left. rewrite weights_cons. pose proof (weight_bound id). split_and!; [done|lia|].
      intros E. unfold idle. by rewrite Hne.
  - intros Hno. eapply tot_bind; [by apply endOfMode_total|]. intros [ends|].
    + intros (pre & id & rest & E & -> & Hne). eapply tot_weaken; [by eapply end_lexeme_total|].
      intros x (Hc & Hc' & Hs' & Hw). split; [done|]. right; left. done.
    + intros Hn. eapply tot_bind; [by apply top_total|]. intros top _.
      destruct (negb ig && testRe (illegalRe top) lexeme).
      * right. eexists. split; [done|apply illegal_caught].
      * apply tot_ret. split; [done|]. right; right. split_and!; [done|done|]. intros i mi Hi Hmi.
        split; [by eapply Hn|]. congruence.
Qed.

Hypothesis Hopts : opts_ok opts = true.
Hypothesis Henv : env_ok reg h.
Hypothesis rec_ok : forall name text ig cont h, env_ok reg h ->
  sat h (rec name text ig cont) (fun r _ => faithful true text r /\ named name r).

Lemma accounts_buffer s T : hs_top s <> [] -> accounts true root h s T -> length (hs_buffer s) <= length T.
Proof. intros Hne [H|(_ & _ & ps & _ & _ & Ht)]; [done|]. simpl in Ht. rewrite <- Ht, length_app. lia. Qed.

Lemma stack_ne stack : stack_ok stack -> stack <> [].
Proof. intros [H _] ->. done. Qed.

Lemma idle_bound stack : idle stack <= 3.
Proof. unfold idle. destruct stack as [|id ?]; [lia|]. destruct (light_at id); lia. Qed.
Lemma idle_cases stack : stack <> [] -> idle stack = 0 \/ idle stack = 3.
Proof. unfold idle. destruct stack as [|id ?]; [done|]. destruct (light_at id); auto. Qed.

Lemma plain_root_ok : root_ok root h.
Proof.
  unfold plain in Hplain. rewrite !andb_true_iff in Hplain. destruct Hplain as [_ H]. unfold root_ok.
  destruct (h !! root) as [m|] eqn:E; [|done]. exists m. split; [done|]. rewrite !andb_true_iff in H.
  destruct H as [[_ H] _]. unfold unstarted in H. rewrite E in H. by destruct (starts m).
Qed.

Lemma lexeme_loop_total ci ig value : length value < fuel -> forall n index s, stack_ok (hs_top s) ->
  accounts true root h s (take index value) ->
  6 * (S (length value) - index) + weights (hs_top s) + idle (hs_top s) < n ->
  tot h (lexeme_loop opts reg fuel rec n ci ig value index s) (fun x =>
    stack_ok (hs_top x.2) /\ accounts true root h x.2 (take x.1 value)).
Proof.
  intros Hf. induction n as [|n IH]; intros index s Hs Ha Hn; [lia|]. cbn [lexeme_loop].
  eapply tot_bind; [by apply top_total|]. intros top [P (id & Hid & Htop)].
  pose proof (pf_terminators _ P) as Ht. unfold terminators_end in Ht.
  destruct (terminators top) as [| |r] eqn:Er; [done|by apply tot_ret|].
  destruct (exec_at r value index) as [m|] eqn:E; [|by apply tot_ret].
  pose proof (match_split _ _ _ _ E) as (Hi & He & _). pose proof (exec_at_inv _ _ _ _ E) as (_ & _ & Hmin & _).
  pose proof (accounts_buffer _ _ (stack_ne _ Hs) Ha) as Hb. rewrite length_take in Hb.
  unfold m_end in He. eapply tot_bind.
  { apply tot_and_sat; [apply processLexeme_total; [done|]|apply processLexeme_ok; eauto using plain_root_ok].
    unfold substring. rewrite length_take, length_drop. lia. }
  intros [c s1] [[Hs1 Hcase] Ha1]. cbn [fst snd] in *.
  assert (Hidle : idle (hs_top s) = 0 -> cap0 m <> []).
  { unfold idle. destruct (hs_top s) as [|i0 st0]; [done|]. injection Hid as ->. unfold light_at, light.
    rewrite Htop, Er. destruct (Nat.ltb_spec 0 (min_len (re_node r))); [|by rewrite andb_false_r].
    intros _ E0. rewrite E0 in Hmin. simpl in Hmin. lia. }
  assert (Hc : c <= length (cap0 m)).
  { destruct Hcase as [(-> & _)|[(? & _)|(-> & _ & Hend)]]; [lia|lia|].
    destruct (cap0 m) eqn:Ec; [|simpl; lia]. destruct (Hend _ _ Hid Htop) as [Hz1 Hz2]. rewrite Hz1, Hz2 in Ht. simpl in Hmin.
    destruct (Nat.ltb_spec 0 (min_len (re_node r))); [lia|done]. }
  rewrite (match_take _ _ _ _ _ E Hc) in Ha1. apply IH; [done|done|]. clear IH Ha1 Ha.
  pose proof (idle_bound (hs_top s1)). pose proof (idle_bound (hs_top s)).
  destruct (cap0 m) as [|x0 w0]; cbn [length] in *.
  - assert (idle (hs_top s) = 3) by (destruct (idle_cases (hs_top s) (stack_ne _ Hs)) as [Hz|]; [by apply Hidle in Hz|done]).
    destruct Hcase as [(-> & Hw & Hz)|[(? & Hw & _)|(-> & Ew & _)]]; [specialize (Hz eq_refl); lia|lia|].
    simpl in Hc. lia.
  - destruct Hcase as [(-> & Hw & _)|[(? & Hw & Hz)|(-> & Ew & _)]]; [lia| |rewrite Ew in *; lia].
    destruct (idle_cases (hs_top s) (stack_ne _ Hs)) as [Hz0|Hz0]; [specialize (Hz Hz0); lia|lia].
Qed.

Lemma close_spans_total l : Forall (fun id => id ∈ ids) l -> tot h (close_spans l) (fun _ => True).
Proof.
  induction 1 as [|id l Hi Hl IH]; [by apply tot_ret|]. destruct (plain_inv id Hi) as (m & Hm & _). cbn [close_spans].
  eapply tot_bind; [apply (tot_get _ _ m (fun x => x = m)); done|]. intros ? ->.
  eapply tot_bind; [exact IH|]. intros r _. by apply tot_ret.
Qed.

Lemma highlight_run_total name value ci ig : root ∈ ids -> enough (length value) <= fuel ->
  tot h (highlight_run opts reg fuel rec name value ci ig (mkHS [root] [] [] (Some 0%Z) []))
    (fun r => faithful true value r).
Proof.
  intros Hroot Hf. unfold highlight_run, enough in *. destruct (plain_inv root Hroot) as (mr & Hmr & _).
  eapply tot_bind; [apply lexeme_loop_total|].
  - lia.
  - split; [done|by constructor].
  - right. split_and!; [done|constructor; eauto|]. by exists [].
  - cbn [hs_top]. rewrite weights_cons. pose proof (weight_bound root). pose proof (idle_bound [root]). change (weights []) with 0. lia.
  - intros [index s] [Hs Ha]. cbn [fst snd] in *. pose proof (accounts_buffer _ _ (stack_ne _ Hs) Ha) as Hb.
    rewrite length_take in Hb.
    eapply tot_weaken; [apply tot_and_sat; [|by eapply finish_ok]|]; [|by intros r [_ [H _]]].
    eapply tot_bind; [apply processBuffer_total; [done|]|].
    + cbn [push_buffer hs_buffer]. rewrite length_app, length_drop. lia.
    + intros s1 H1. eapply tot_bind; [apply close_spans_total|].
      * rewrite H1. apply Forall_take. by destruct Hs.
      * intros r _. by apply (tot_ret _ _ (fun _ => True)).
Qed.
End Plain.

(** ** The fuel of compilation *)

(** Whatever the first returns or throws, the second does. *)
Definition extends {A} (m m' : M A) : Prop := forall h, snd (m h) <> OutOfFuel -> m' h = m h.

Lemma extends_refl {A} (m : M A) : extends m m.
Proof. by intros h. Qed.
Lemma extends_bind {A B} (m m' : M A) (f f' : A -> M B) :
  extends m m' -> (forall a, extends (f a) (f' a)) -> extends (bind m f) (bind m' f').
Proof.
  intros Hm Hf h. unfold bind. specialize (Hm h). destruct (m h) as [h1 [a|e|]]; simpl in *; intros H.
  - rewrite Hm by done. by apply Hf.
  - by rewrite Hm.
  - done.
Qed.
Lemma extends_mmap {A B} (f f' : A -> M B) l : (forall a, extends (f a) (f' a)) -> extends (mmap f l) (mmap f' l).
Proof.
  intros Hf. induction l as [|x l IH]; [apply extends_refl|]. cbn [mmap].
  apply extends_bind; [done|]. intros y. apply extends_bind; [done|]. intros ys. apply extends_refl.
Qed.

Lemma compileMode_extends ci f f' : f <= f' -> forall id parent, extends (compileMode f ci id parent) (compileMode f' ci id parent).
Proof.
  revert f'. induction f as [|f IH]; intros f' Hf id parent; [by intros h|]. destruct f' as [|f']; [lia|].
  cbn [compileMode]. apply extends_bind; [apply extends_refl|]. intros m. destruct (compiled m); [apply extends_refl|].
  apply extends_bind; [apply extends_refl|]. intros _. apply extends_bind; [apply extends_refl|]. intros m2.
  apply extends_bind; [apply extends_refl|]. intros cs. apply extends_bind; [apply extends_refl|]. intros _.
  apply extends_bind; [apply extends_mmap; intros; apply IH; lia|]. intros _.
  apply extends_bind; [destruct (starts m2); [apply IH; lia|apply extends_refl]|]. intros _. apply extends_refl.
Qed.

Lemma compileLanguage_fuel f f' l h h' :
  compileLanguage f l h = (h', Ok tt) -> f <= f' -> compileLanguage f' l h = (h', Ok tt).
Proof. intros E Hf. unfold compileLanguage in *. rewrite (compileMode_extends _ _ _ Hf); by rewrite E. Qed.

(** ** The depth of the sub-languages *)

Lemma extends_mfold {A S} (f f' : A -> S -> M S) l : (forall a s, extends (f a s) (f' a s)) ->
  forall s, extends (mfold f l s) (mfold f' l s).
Proof.
  intros Hf. induction l as [|x l IH]; intros s; [apply extends_refl|]. cbn [mfold]. by apply extends_bind.
Qed.
Lemma extends_catch value (m m' : M hres) : extends m m' -> extends (catch_illegal value m) (catch_illegal value m').
Proof.
  intros Hm h. unfold catch_illegal. specialize (Hm h). destruct (m h) as [h1 [a|e|]]; simpl in *; intros H;
    [by rewrite Hm|by rewrite Hm|done].
Qed.

(** Two programs of the same shape: the parts are compared. *)
Ltac same_shape :=
  repeat first [ apply extends_refl | assumption | solve [auto] | apply extends_bind; [|intros] | apply extends_mfold; intros
               | progress case_match ].

Section Depth.
Context (opts : hl_options) (reg : registry) (fuel : nat).
Context (rec rec' : jsstr -> jsstr -> bool -> list nat -> M hres).
Hypothesis Hrec : forall name text ig cont, extends (rec name text ig cont) (rec' name text ig cont).

Lemma highlightAuto_extends text subset :
  extends (highlightAuto opts reg rec text subset) (highlightAuto opts reg rec' text subset).
Proof using Hrec. unfold highlightAuto. same_shape. Qed.

Lemma processBuffer_extends ci s : extends (processBuffer opts reg fuel rec ci s) (processBuffer opts reg fuel rec' ci s).
Proof using Hrec.
  unfold processBuffer, processSubLanguage. pose proof highlightAuto_extends. same_shape.
Qed.

Lemma processLexeme_extends ci ig buffer lexeme s :
  extends (processLexeme opts reg fuel rec ci ig buffer lexeme s) (processLexeme opts reg fuel rec' ci ig buffer lexeme s).
Proof using Hrec.
  unfold processLexeme, begin_lexeme, end_lexeme. pose proof processBuffer_extends. same_shape.
Qed.

Lemma lexeme_loop_extends ci ig value n : forall index s,
  extends (lexeme_loop opts reg fuel rec n ci ig value index s) (lexeme_loop opts reg fuel rec' n ci ig value index s).
Proof using Hrec.
  pose proof processLexeme_extends. induction n as [|n IH]; intros index s; [apply extends_refl|]. cbn [lexeme_loop]. same_shape.
Qed.

Lemma highlight_body_extends name value ig cont :
  extends (highlight_body opts reg fuel rec name value ig cont) (highlight_body opts reg fuel rec' name value ig cont).
Proof using Hrec.
  pose proof lexeme_loop_extends. pose proof processBuffer_extends.
  unfold highlight_body, highlight_run. destruct (getLanguage reg name); [|apply extends_refl].
  apply extends_bind; [apply extends_refl|]. intros _. apply extends_bind; [apply extends_refl|]. intros r.
  apply extends_catch. same_shape.
Qed.
End Depth.

Lemma highlight_depth opts reg fuel d : forall d' name value ig cont, d <= d' ->
  extends (highlight opts reg fuel d name value ig cont) (highlight opts reg fuel d' name value ig cont).
Proof.
  induction d as [|d IH]; intros d' name value ig cont Hd; destruct d' as [|d']; try lia; cbn [highlight].
  - apply extends_refl.
  - apply highlight_body_extends. by intros ???? h.
  - apply highlight_body_extends. intros. apply IH. lia.
Qed.

(** ** Properties *)

Lemma plain_total opts reg fuel depth f name value ig l h h' ids :
  opts_ok opts = true -> env_ok reg h -> getLanguage reg name = Some l ->
  compileLanguage f l h = (h', Ok tt) -> plain ids (l_root l) h' = true ->
  f <= fuel -> enough (length value) <= fuel ->
  exists r ps, highlight opts reg fuel depth name value ig [] h = (h', Ok r) /\
    h_value r = hrender ps /\ hnest 0 ps = Some 0 /\ htext ps = value.
Proof.
  intros Ho Henv El Ec Hp Hf Hv. apply (compileLanguage_fuel _ fuel) in Ec; [|done].
  assert (He : env_ok reg h') by (eapply env_grows; [|exact Henv];
    pose proof (compileMode_grows fuel (case_insensitive l) (l_root l) None h) as [G _];
    unfold compileLanguage in Ec; by rewrite Ec in G).
  assert (Hr : l_root l ∈ ids)
    by (unfold plain in Hp; rewrite !andb_true_iff in Hp; destruct Hp as [[_ Hr%has_key_elem] _]; done).
  enough (exists r ps, highlight opts reg fuel 0 name value ig [] h = (h', Ok r) /\
    h_value r = hrender ps /\ hnest 0 ps = Some 0 /\ htext ps = value) as (r & ps & E & Hr').
  { exists r, ps. split; [|done]. rewrite (highlight_depth opts reg fuel 0); [done|lia|by rewrite E]. }
  cbn [highlight]. unfold highlight_body, bind. rewrite El, Ec, decide_True by done. unfold catch_illegal. cbn.
  destruct (highlight_run_total opts reg fuel (fun _ _ _ _ => lift OutOfFuel) ids (l_root l) h' Hp Ho He
    ltac:(intros; by apply sat_lift) name value (case_insensitive l) ig Hr Hv) as [(r & E & ps & H1 & H2 & H3)|(e & E & Hi)];
    rewrite E.
  - exists r, ps. by rewrite H2.
  - destruct (indexOf (message e) (js "Illegal")); [|done]. eexists _, [HText value].
    split_and!; [done|by rewrite hrender_text|done|apply htext_text].
Qed.

Lemma sound_env reg h : forallb mode_ok h = true -> langs_ok reg h = true -> env_ok reg h.
Proof. split; [by apply safe_forallb|by apply langs_roots]. Qed.

(** The modes that can be reached from a mode; [seen] has their numbers. *)
Fixpoint reach_from (fuel : nat) (h : heap) (todo : list nat) (seen : list N) (ids : list nat) : list nat :=
  match fuel, todo with
  | S f, id :: todo =>
      if has_key id seen then reach_from f h todo seen ids
      else match h !! id with
           | Some m => reach_from f h (concat (map (fun c => match c with CRef i => [i] | CSelf => [] end) (contains m))
                                  ++ (match starts m with Some s => [s] | None => [] end) ++ todo)
                         (N.of_nat id :: seen) (id :: ids)
           | None => reach_from f h todo seen ids
           end
  | _, _ => ids
  end.
Definition reach (h : heap) (root : nat) : list nat := reach_from 2000 h [root] [] [].

(** A language that is registered alone, its modes before and after compilation; the
    fuel bounds the depth of the modes. *)
Definition compile_fuel : nat := 40.
Record loaded := mkLoaded { ld_reg : registry; ld_lang : language; ld_before : heap; ld_after : heap }.
Definition load (create : M language) : option loaded :=
  match register_all [(js "code", alone create)] [] with
  | (h, Ok r) =>
      match getLanguage r (js "code") with
      | Some l => match compileLanguage compile_fuel l h with
                  | (h', Ok tt) => Some (mkLoaded r l h h')
                  | _ => None
                  end
      | None => None
      end
  | _ => None
  end.

(** The check of a language. *)
Definition plain_language (create : M language) : bool :=
  match load create with
  | Some d => forallb mode_ok (ld_before d) && langs_ok (ld_reg d) (ld_before d)
              && plain (reach (ld_after d) (l_root (ld_lang d))) (l_root (ld_lang d)) (ld_after d)
  | None => false
  end.

Lemma load_inv create d : load create = Some d ->
  getLanguage (ld_reg d) (js "code") = Some (ld_lang d) /\
  compileLanguage compile_fuel (ld_lang d) (ld_before d) = (ld_after d, Ok tt).
Proof.
  unfold load. destruct (register_all _ []) as [h [r|e|]]; [|done|done].
  destruct (getLanguage r (js "code")) as [l|] eqn:El; [|done].
  destruct (compileLanguage compile_fuel l h) as [h' [[]|e|]] eqn:Ec; [|done|done]. by intros [= <-].
Qed.

Lemma plain_exact create d : plain_language create = true -> load create = Some d -> forall opts fuel depth value ig,
  opts_ok opts = true -> compile_fuel <= fuel -> enough (length value) <= fuel ->
  exists r ps, highlight opts (ld_reg d) fuel depth (js "code") value ig [] (ld_before d) = (ld_after d, Ok r) /\
    h_value r = hrender ps /\ hnest 0 ps = Some 0 /\ htext ps = value.
Proof.
  unfold plain_language. intros Hp E. rewrite E, !andb_true_iff in Hp. destruct Hp as [[H1 H2] H3].
  intros opts fuel depth value ig Ho Hf Hv. apply load_inv in E as [E1 E2].
  eapply plain_total; try eassumption. by apply sound_env.
Qed.

(** In a language, with the modes before and after: highlighting returns for every code
    that the fuel is enough for, and keeps it. *)
Definition exact_at (opts : hl_options) (reg : registry) (fuel depth : nat) (name : jsstr) (h h' : heap) : Prop :=
  forall value ig, enough (length value) <= fuel ->
  exists r ps, highlight opts reg fuel depth name value ig [] h = (h', Ok r) /\
    h_value r = hrender ps /\ hnest 0 ps = Some 0 /\ htext ps = value.

Lemma plain_exact_at create d opts fuel depth : plain_language create = true -> load create = Some d ->
  opts_ok opts = true -> compile_fuel <= fuel ->
  exact_at opts (ld_reg d) fuel depth (js "code") (ld_before d) (ld_after d).
Proof. intros Hp Hd Ho Hf value ig Hv. by eapply plain_exact. Qed.

(** C2. For every language that passes the check and every code, highlighting returns,
    and the output is balanced markup whose text is exactly the code, character by
    character.  The bound on the rounds is linear in the length of the code. *)
Theorem plain_language_exact create : plain_language create = true ->
  exists d, load create = Some d /\ forall opts fuel depth value ig,
    opts_ok opts = true -> compile_fuel <= fuel -> enough (length value) <= fuel ->
    exists r ps, highlight opts (ld_reg d) fuel depth (js "code") value ig [] (ld_before d) = (ld_after d, Ok r) /\
      h_value r = hrender ps /\ hnest 0 ps = Some 0 /\ htext ps = value.
Proof.
  intros Hp. destruct (load create) as [d|] eqn:E; [|unfold plain_language in Hp; by rewrite E in Hp].
  exists d. split; [done|]. by apply (plain_exact create).
Qed.

(** JSON. *)
Lemma plain_language_exact_witness : exists d, load json = Some d /\ forall opts fuel depth value ig,
  opts_ok opts = true -> compile_fuel <= fuel -> enough (length value) <= fuel ->
  exists r ps, highlight opts (ld_reg d) fuel depth (js "code") value ig [] (ld_before d) = (ld_after d, Ok r) /\
    h_value r = hrender ps /\ hnest 0 ps = Some 0 /\ htext ps = value.
Proof. apply (plain_language_exact json). vm_compute. reflexivity. Defined.

(** The output for a code. *)
Definition show_code (create : M language) (fuel : nat) (value : jsstr) (ig : bool) : option jsstr :=
  match load create with
  | Some d => match highlight default_options (ld_reg d) fuel 3 (js "code") value ig [] (ld_before d) with
              | (_, Ok r) => Some (h_value r)
              | _ => None
              end
  | None => None
  end.

Example json_code : show_code json 200 (js "{＂a＂: [1, true]}") true
  = Some (js "{<span class=＂hljs-attr＂>＂a＂</span>: [<span class=＂hljs-number＂>1</span>, <span class=＂hljs-literal＂>true</span>]}").
Proof. vm_compute. reflexivity. Qed.

(** An illegal lexeme: the code is only escaped. *)
Example json_illegal : show_code json 200 (js "{<") false = Some (js "{&lt;").
Proof. vm_compute. reflexivity. Qed.

(** A mode that starts where a letter follows: its lexeme is empty, and read alone it does
    not start the mode.  The letter is passed over and missing from the output. *)
Definition lookahead : M language :=
  let* m := new [ClassName (js "x"); Begin (js "(?=b)"); End_ (js "c")] in
  lang plain_lang [Contains [CRef m]].

Example lookahead_loses_character : show_code lookahead 200 (js "abc") true = Some (js "ac").
Proof. vm_compute. reflexivity. Qed.

(** A mode that both excludes and returns its start outputs it twice. *)
Definition twice : M language :=
  let* m := new [ClassName (js "x"); Begin (js "b"); End_ (js "c"); ExcludeBegin true; ReturnBegin true] in
  lang plain_lang [Contains [CRef m]].

Example twice_repeats : show_code twice 200 (js "abc") true = Some (js "ab<span class=＂hljs-x＂>bc</span>").
Proof. vm_compute. reflexivity. Qed.
