(* ===== verification/HljsBlock.v ===== *)
(** * Highlighting a code block (module 15)

    [highlightBlock] finds the language of a block from its class names, highlights its
    text, merges the markup that the block already had, and updates the block.  Parsing
    and printing markup are the browser's and are arguments. *)

From S2P Require Import Prelude JsString JsRegExp RegExpFacts RegExpCounts MarkedInline HljsStreams HljsModes Hljs HljsFacts HljsLanguages HljsTotal.

(** ** Class names *)

Definition noHighlightRe : regexp := Eval vm_compute in re "^(no-?highlight|plain|text)$" "i".
Definition languagePrefixRe : regexp := Eval vm_compute in re "\blang(?:uage)?-([\w-]+)\b" "i".
Definition fixMarkupRe : regexp := Eval vm_compute in re "((^(<[^>]+>|\t|)+|(?:\n)))" "gm".
Definition spaces_re : regexp := Eval vm_compute in re "\s+" "".
Definition tab_re : regexp := Eval vm_compute in re "\t" "g".
Definition hljs_re : regexp := Eval vm_compute in re "\bhljs\b" "".
Definition newline_re : regexp := Eval vm_compute in re "\n" "g".
Definition br_re : regexp := Eval vm_compute in re "<br[ \/]*>" "g".

Definition isNotHighlighted (language : jsstr) : bool := test noHighlightRe language.

(** A code block: its class name, that of its parent if there is one, its nodes. *)
Record hblock := mkHBlock { hb_class : jsstr; hb_parent : option jsstr; hb_nodes : list dom }.

Definition blockLanguage (reg : registry) (block : hblock) : option jsstr :=
  let classes := hb_class block ++ js " " ++ default [] (hb_parent block) in
  match exec languagePrefixRe classes with
  | Some m =>
      let name := default [] (cap m 1) in
      Some (if known reg name then name else js "no-highlight")
  | None => List.find (fun c => isNotHighlighted c || known reg c) (split_re spaces_re classes)
  end.

(** [fixMarkup(value)] *)
Definition fixMarkup (opts : hl_options) (value : jsstr) : jsstr :=
  let tab := match tabReplace opts with Some (_ :: _) => tabReplace opts | _ => None end in
  if negb (useBR opts || match tab with Some _ => true | None => false end) then value
  else replace_fun fixMarkupRe (fun m =>
         if useBR opts && bool_decide (cap0 m = [c_nl]) then js "<br>"
         else match tab with Some t => replace tab_re t (default [] (cap m 1)) | None => [] end) value.

(** [buildClassName(prevClassName, currentLang, resultLang)] *)
Definition buildClassName (reg : registry) (prevClassName : jsstr) (currentLang resultLang : option jsstr) : jsstr :=
  let language := match currentLang with
                  | Some (c :: l) => oget (c :: l) (aliases reg)
                  | _ => resultLang
                  end in
  let result := [trim prevClassName]
                ++ (if test hljs_re prevClassName then [] else [js "hljs"])
                ++ match indexOf prevClassName (default (js "undefined") language) with
                   | None => [default [] language]
                   | Some _ => []
                   end in
  trim (join (js " ") result).

(** What [highlightBlock] assigns to the block: its class name, its nodes, the result and
    the second best result, each with its relevance. *)
Record highlighted := mkHighlighted {
  hd_class : jsstr;
  hd_nodes : list dom;
  hd_result : option jsstr * num;
  hd_second : option (option jsstr * num)
}.

Section Block.
(** The browser: [innerHTML] read and written. *)
Context (innerHTML : list dom -> jsstr) (parseHTML : jsstr -> list dom).
Context (opts : hl_options) (reg : registry) (fuel depth : nat).

Definition block_nodes (block : hblock) : list dom :=
  if useBR opts
  then parseHTML (replace br_re [c_nl] (replace newline_re [] (innerHTML (hb_nodes block))))
  else hb_nodes block.

(** The markup of the result, with the markup of the block merged into it. *)
Definition merged (nodes : list dom) (text value : jsstr) : jsstr :=
  match nodeStream nodes with
  | [] => value
  | original => default [] (mergeStreams original (nodeStream (parseHTML value)) text)
  end.

(** [highlightBlock(block)]; nothing is assigned for a block that is not highlighted *)
Definition highlightBlock (block : hblock) : M (option highlighted) :=
  let language := blockLanguage reg block in
  if isNotHighlighted (default (js "undefined") language) then ret None else
  let nodes := block_nodes block in
  let text := textContent nodes in
  let* (result, second) :=
    match language with
    | Some (c :: l) => let* r := highlight opts reg fuel depth (c :: l) text true [] in ret (r, None)
    | _ => highlightAuto opts reg (highlight opts reg fuel depth) text None
    end in
  let value := fixMarkup opts (merged nodes text (h_value result)) in
  ret (Some (mkHighlighted (buildClassName reg (hb_class block) language (h_language result)) (parseHTML value)
         (h_language result, h_relevance result)
         (option_map (fun s => (h_language s, h_relevance s)) second))).
End Block.

(** ** Options and pages *)

(** The options that a user sets; the others are kept. *)
Record user_options := mkUser {
  u_classPrefix : option jsstr;
  u_tabReplace : option (option jsstr);
  u_useBR : option bool;
  u_languages : option (option (list jsstr))
}.

Definition configure (u : user_options) (o : hl_options) : hl_options :=
  mkOpts (default (classPrefix o) (u_classPrefix u)) (default (tabReplace o) (u_tabReplace u))
    (default (useBR o) (u_useBR u)) (default (o_languages o) (u_languages u)).

(** [initHighlighting()]: [called] is its property, [highlight_page] highlights the blocks of
    the page. *)
Definition initHighlighting {A} (highlight_page : A -> A) (s : bool * A) : bool * A :=
  if fst s then s else (true, highlight_page (snd s)).

(** [initHighlightingOnLoad()]: both events of a page that is loaded call it. *)
Definition page_loaded {A} (highlight_page : A -> A) (s : bool * A) : bool * A :=
  initHighlighting highlight_page (initHighlighting highlight_page s).

(** The blocks of a page are highlighted once, whatever events follow. *)
Lemma page_highlighted_once {A} (highlight_page : A -> A) (a : A) n :
  Nat.iter (S n) (initHighlighting highlight_page) (false, a) = (true, highlight_page a).
Proof. induction n as [|n IH]; [done|]. rewrite Nat.iter_succ, IH. done. Qed.

(** ** Properties *)

Lemma fixMarkup_default opts value : useBR opts = false -> tabReplace opts = None -> fixMarkup opts value = value.
Proof. intros H1 H2. unfold fixMarkup. by rewrite H1, H2. Qed.

(** The name of a language, not one that switches highlighting off. *)
Definition highlights (name : jsstr) : bool := negb (isNotHighlighted name) && nonempty name.

Section BlockFacts.
Context (innerHTML : list dom -> jsstr) (parseHTML : jsstr -> list dom).

(** What the browser is relied on for: parsing spans and escaped text gives nodes with
    that text, and only spans. *)
Definition parses_spans (text : jsstr) : Prop := forall ps, hnest 0 ps = Some 0 -> htext ps = text ->
  length (textContent (parseHTML (hrender ps))) = length text /\ forallb no_void (parseHTML (hrender ps)) = true.

(** What the block gets: the highlighted text, merged with the markup it had. *)
Lemma highlightBlock_value reg name h h' block fuel depth :
  exact_at default_options reg fuel depth name h h' -> blockLanguage reg block = Some name -> highlights name = true ->
  enough (length (textContent (hb_nodes block))) <= fuel ->
  exists out ps,
    highlightBlock innerHTML parseHTML default_options reg fuel depth block h = (h', Ok (Some out)) /\
    hd_nodes out = parseHTML (merged parseHTML (hb_nodes block) (textContent (hb_nodes block)) (hrender ps)) /\
    hnest 0 ps = Some 0 /\ htext ps = textContent (hb_nodes block).
Proof.
  intros He Hl [Hnh Hne]%andb_prop Hv. unfold highlightBlock. rewrite Hl. unfold block_nodes. cbn [useBR default_options].
  change (default (js "undefined") (Some name)) with name.
  apply negb_true_iff in Hnh. rewrite Hnh. destruct name as [|c name]; [done|].
  destruct (He (textContent (hb_nodes block)) true Hv) as (r & ps & E & Hr & Hn & Ht).
  unfold bind. rewrite E. unfold ret.
  eexists _, ps. split; [reflexivity|]. cbn [hd_nodes]. by rewrite fixMarkup_default, Hr.
Qed.

End BlockFacts.

(** ** Examples *)

(** A block with a bold digit; the browser's parse of the result. *)
Definition bold_block : hblock :=
  mkHBlock (js "code") (Some []) [DText (js "["); DElem (mkENode 0 (js "b") []) [DText (js "1")]; DText (js "]")].
Definition number_nodes : list dom :=
  [DText (js "["); DElem (mkENode 1 (js "span") [(js "class", js "hljs-number")]) [DText (js "1")]; DText (js "]")].

Definition bold_result : option (jsstr * list (option jsstr * num)) :=
  match load json with
  | Some d =>
      match highlightBlock (fun _ => []) (fun v => if decide (v = js "[<span class=＂hljs-number＂>1</span>]") then number_nodes
                                                    else [DText v]) default_options (ld_reg d) 100 0 bold_block (ld_before d) with
      | (_, Ok (Some out)) => Some (textContent (hd_nodes out), [hd_result out])
      | _ => None
      end
  | None => None
  end.
Example bold_markup : bold_result
  = Some (js "[<b><span class=＂hljs-number＂>1</span></b>]", [(Some (js "code"), Some 2%Z)]).
Proof. vm_compute. reflexivity. Qed.

Definition json_loaded : loaded := Eval vm_compute in
  match load json with Some d => d | None => mkLoaded (mkReg [] []) (mkLang 0 false [] false None) [] [] end.


(** Finding the language. *)
Definition json_reg : registry := mkReg [(js "json", mkLang 0 false [] false None)] [].
Example language_prefix : blockLanguage json_reg (mkHBlock (js "x language-JSON") None []) = Some (js "JSON").
Proof. vm_compute. reflexivity. Qed.
Example language_unknown : blockLanguage json_reg (mkHBlock (js "lang-foo") None []) = Some (js "no-highlight").
Proof. vm_compute. reflexivity. Qed.
Example language_of_parent : blockLanguage json_reg (mkHBlock [] (Some (js "a json")) []) = Some (js "json").
Proof. vm_compute. reflexivity. Qed.
Example language_none : blockLanguage json_reg (mkHBlock (js "a b") None []) = None.
Proof. vm_compute. reflexivity. Qed.
Example class_name : buildClassName json_reg (js " json ") (Some (js "json")) None = js "json hljs".
Proof. vm_compute. reflexivity. Qed.
Example class_name_auto : buildClassName json_reg [] None (Some (js "json")) = js "hljs json".
Proof. vm_compute. reflexivity. Qed.
Example markup_tabs : fixMarkup (mkOpts [] (Some (js "  ")) false None) ([9; 9]%N ++ js "a" ++ [9]%N)
  = js "    a" ++ [9]%N.
Proof. vm_compute. reflexivity. Qed.
Example markup_br : fixMarkup (mkOpts [] None true None) (js "a" ++ [c_nl] ++ js "b") = js "a<br>b".
Proof. vm_compute. reflexivity. Qed.
