(* ===== verification/Html.v ===== *)
(** * Markup and nodes

    What the program relies on when it assigns and reads [innerHTML]: markup of div and
    span elements with class attributes and of escaped text.  [Class Browser] states it;
    the tokens of markup and the construction of trees are those of the HTML standard for
    these elements, where an end tag of a div closes the spans that are open inside it and
    an end tag of a span does not leave a div.  [reader] is a browser that satisfies it. *)

From S2P Require Import Prelude JsString JsRegExp RegExpFacts RegExpCounts MarkedInline Converter HljsStreams.

(** ** Tokens *)

Inductive tok := KText (s : jsstr) | KOpen (tag : jsstr) (attrs : list (jsstr * jsstr)) | KClose (tag : jsstr).

Definition t_div : jsstr := Eval vm_compute in js "div".
Definition t_span : jsstr := Eval vm_compute in js "span".

(** Characters that occur in names and values as they are. *)
Definition name_char (c : N) : bool := is_word c || (c =? 45)%N.
Definition value_char (c : N) : bool := name_char c || (c =? 32)%N.

Definition attr_ok (a : jsstr * jsstr) : bool :=
  forallb name_char (fst a) && negb (bool_decide (fst a = [])) && forallb value_char (snd a).
Definition tag_ok (t : jsstr) : bool := bool_decide (t = t_div) || bool_decide (t = t_span).
(** A carriage return would be read as a line feed, and a null character dropped. *)
Definition text_char (c : N) : bool := negb ((c =? 0)%N || (c =? 13)%N).

Definition tok_ok (k : tok) : bool :=
  match k with
  | KText s => forallb text_char s
  | KOpen t attrs => tag_ok t && forallb attr_ok attrs
  | KClose t => tag_ok t
  end.

Definition attr_text (a : jsstr * jsstr) : jsstr := js " " ++ fst a ++ js "=＂" ++ snd a ++ js "＂".
Definition start_tag (tag : jsstr) (attrs : list (jsstr * jsstr)) : jsstr :=
  js "<" ++ tag ++ concat (map attr_text attrs) ++ js ">".
Definition end_tag (tag : jsstr) : jsstr := js "</" ++ tag ++ js ">".

(** Character references that are read back. *)
Definition references : list (N * jsstr) := Eval vm_compute in
  [(38%N, js "&amp;"); (60%N, js "&lt;"); (62%N, js "&gt;"); (34%N, js "&quot;"); (39%N, js "&#39;"); (160%N, js "&nbsp;")].

(** Text and its markup: each character is written as it is or as a reference. *)
Inductive encoded : jsstr -> jsstr -> Prop :=
| enc_nil : encoded [] []
| enc_char c s e : c <> 38%N -> c <> 60%N -> encoded s e -> encoded (c :: s) (c :: e)
| enc_ref c r s e : (c, r) ∈ references -> encoded s e -> encoded (c :: s) (r ++ e).

Inductive renders : list tok -> jsstr -> Prop :=
| ren_nil : renders [] []
| ren_text s e ks r : encoded s e -> renders ks r -> renders (KText s :: ks) (e ++ r)
| ren_open t attrs ks r : renders ks r -> renders (KOpen t attrs :: ks) (start_tag t attrs ++ r)
| ren_close t ks r : renders ks r -> renders (KClose t :: ks) (end_tag t ++ r).

(** ** Trees *)

(** Adjacent characters are one text node. *)
Definition add_text (s : jsstr) (kids : list dom) : list dom :=
  match s with
  | [] => kids
  | _ => match last kids with
         | Some (DText t) => take (length kids - 1) kids ++ [DText (t ++ s)]
         | _ => kids ++ [DText s]
         end
  end.

(** The open elements, the innermost first, each with the nodes before it. *)
Abbreviation frames := (list (enode * list dom)).

(** The end tag of [tag]: the elements up to the nearest one with that tag are closed; a
    span is not looked for outside of a div. *)
Fixpoint pop_to (tag : jsstr) (cur : list dom) (stk : frames) : option (list dom * frames) :=
  match stk with
  | [] => None
  | (n, before) :: stk =>
      if bool_decide (en_tag n = tag) then Some (before ++ [DElem n cur], stk)
      else if bool_decide (tag = t_span) then None
      else pop_to tag (before ++ [DElem n cur]) stk
  end.

Fixpoint close_all (cur : list dom) (stk : frames) : list dom :=
  match stk with [] => cur | (n, before) :: stk => close_all (before ++ [DElem n cur]) stk end.

(** One token in the state of the construction: the number of elements so far, the nodes
    of the innermost open element, the open elements. *)
Definition build_state : Type := nat * list dom * frames.

Definition build_step (st : build_state) (k : tok) : build_state :=
  let '(i, cur, stk) := st in
  match k with
  | KText s => (i, add_text s cur, stk)
  | KOpen t attrs => (S i, [], (mkENode i t attrs, cur) :: stk)
  | KClose t => match pop_to t cur stk with Some (cur, stk) => (i, cur, stk) | None => st end
  end.

Definition build_from (st : build_state) (ks : list tok) : build_state := fold_left build_step ks st.
Definition build (ks : list tok) : list dom :=
  let '(_, cur, stk) := build_from (0, [], []) ks in close_all cur stk.

(** Nodes of these elements and their markup. *)
Fixpoint simple (d : dom) : bool :=
  match d with
  | DText s => forallb text_char s
  | DElem n l => tag_ok (en_tag n) && forallb attr_ok (en_attrs n) && forallb simple l
  | DOther => false
  end.

Fixpoint serialize_node (d : dom) : jsstr :=
  match d with
  | DText s => flat_map html_char s
  | DElem n l => start_tag (en_tag n) (en_attrs n) ++ concat (map serialize_node l) ++ end_tag (en_tag n)
  | DOther => []
  end.
Definition serialize (l : list dom) : jsstr := concat (map serialize_node l).

(** ** The interface *)

(** What is relied on: writing nodes gives their markup, and reading markup gives the
    nodes that its tokens build. *)
Class Browser := {
  innerHTML : list dom -> jsstr;
  parseHTML : jsstr -> list dom;
  innerHTML_simple l : forallb simple l = true -> innerHTML l = serialize l;
  parseHTML_renders ks s : renders ks s -> forallb tok_ok ks = true -> parseHTML s = build ks
}.

(** ** A reader of markup *)

Definition read_reference (s : jsstr) : option (N * jsstr) :=
  List.find (fun e => starts_with (snd e) s) references.

(** Attributes up to the end of the tag, and the rest. *)
Fixpoint read_attrs (fuel : nat) (s : jsstr) : list (jsstr * jsstr) * jsstr :=
  match fuel, s with
  | S f, c :: s =>
      if (c =? 32)%N then
        let name := take_while name_char s in
        let s := drop (length name + 2) s in
        let value := take_while value_char s in
        let '(attrs, rest) := read_attrs f (drop (length value + 1) s) in
        ((name, value) :: attrs, rest)
      else ([], s)
  | _, _ => ([], s)
  end.

Fixpoint tokenize (fuel : nat) (s : jsstr) : list tok :=
  match fuel, s with
  | S f, c :: t =>
      if (c =? 60)%N then
        if starts_with [47%N] t then
          let tag := take_while name_char (drop 1 t) in KClose tag :: tokenize f (drop (length tag + 2) t)
        else
          let tag := take_while name_char t in
          let '(attrs, rest) := read_attrs (length t) (drop (length tag) t) in
          KOpen tag attrs :: tokenize f rest
      else
        match (if (c =? 38)%N then read_reference s else None) with
        | Some (x, r) => KText [x] :: tokenize f (drop (length r) s)
        | None => KText [c] :: tokenize f t
        end
  | _, _ => []
  end.

(** ** Building *)

Lemma add_text_app a b cur : add_text (a ++ b) cur = add_text b (add_text a cur).
Proof.
  destruct a as [|x a]; [done|]. destruct b as [|y b]; [by rewrite app_nil_r|]. cbn [app add_text].
  destruct (last cur) as [[t|n l|]|] eqn:E; rewrite last_snoc, length_app, Nat.add_sub, take_app_length; try done.
  by rewrite <- app_assoc.
Qed.

Lemma build_from_app a b st : build_from st (a ++ b) = build_from (build_from st a) b.
Proof. apply fold_left_app. Qed.

Lemma build_text_app a b st ks : build_from st (KText (a ++ b) :: ks) = build_from st (KText a :: KText b :: ks).
Proof. destruct st as [[i cur] stk]. cbn [build_from fold_left build_step]. by rewrite add_text_app. Qed.

(** ** The reader satisfies the interface *)

Lemma take_while_stop f s c t :
  Forall (fun x => f x = true) s -> f c = false -> take_while f (s ++ c :: t) = s.
Proof. intros Hs Hc. rewrite take_while_app by done. cbn [take_while]. by rewrite Hc, app_nil_r. Qed.

Lemma forallb_Forall {A} (f : A -> bool) l : forallb f l = true -> Forall (fun x => f x = true) l.
Proof. intros H. apply Forall_forall. intros x Hx%list_elem_of_In. exact (proj1 (forallb_forall _ _) H x Hx). Qed.

Lemma read_attrs_ok attrs : forall fuel r, forallb attr_ok attrs = true -> length attrs < fuel ->
  read_attrs fuel (concat (map attr_text attrs) ++ 62%N :: r) = (attrs, r).
Proof.
  induction attrs as [|[n v] attrs IH]; intros [|fuel] r Ha Hf; simpl in Hf; try lia; [done|].
  cbn [forallb] in Ha. apply andb_prop in Ha as [Ha Hr]. unfold attr_ok in Ha. cbn [fst snd] in Ha.
  apply andb_prop in Ha as [[Hn _]%andb_prop Hv].
  cbn [map concat]. unfold attr_text at 1. cbn [fst snd]. rewrite <- !app_assoc.
  change (js " ") with [32%N]. change (js "=＂") with [61; 34]%N. change (js "＂") with [34%N]. cbn [app read_attrs].
  change (32 =? 32)%N with true. cbv iota.
  rewrite (take_while_stop name_char n 61) by (done || by apply forallb_Forall). cbv zeta.
  replace (length n + 2) with (length (n ++ [61; 34]%N)) by (rewrite length_app; done).
  replace (n ++ 61%N :: 34%N :: v ++ 34%N :: concat (map attr_text attrs) ++ 62%N :: r)
    with ((n ++ [61; 34]%N) ++ v ++ 34%N :: concat (map attr_text attrs) ++ 62%N :: r) by (by rewrite <- app_assoc).
  rewrite drop_app_length, (take_while_stop value_char v 34) by (done || by apply forallb_Forall).
  replace (length v + 1) with (length (v ++ [34%N])) by (rewrite length_app; done).
  replace (v ++ 34%N :: concat (map attr_text attrs) ++ 62%N :: r)
    with ((v ++ [34%N]) ++ concat (map attr_text attrs) ++ 62%N :: r) by (by rewrite <- app_assoc).
  rewrite drop_app_length, IH by (done || lia). done.
Qed.

Lemma reference_found c r s : (c, r) ∈ references -> exists r', r = 38%N :: r' /\ read_reference (r ++ s) = Some (c, r).
Proof.
  intros H. unfold references in H. repeat (apply elem_of_cons in H as [[= -> ->]|H]; [by eexists|]). by apply elem_of_nil in H.
Qed.

(** What the reader builds from text and the rest. *)
Lemma tokenize_text s e : encoded s e -> forall r fuel st, length (e ++ r) < fuel ->
  exists f, length r < f /\ build_from st (tokenize fuel (e ++ r)) = build_from (build_step st (KText s)) (tokenize f r).
Proof.
  assert (Hstep : forall st a b ks, build_from (build_step (build_step st (KText [a])) (KText b)) ks =
    build_from (build_step st (KText (a :: b))) ks).
  { intros st a b ks. change (a :: b) with ([a] ++ b).
    pose proof (build_text_app [a] b st ks) as H. by cbn [build_from fold_left] in H |- *. }
  induction 1 as [|c s e H1 H2 He IH|c ref s e Hr He IH]; intros r fuel st Hf.
  - exists fuel. split; [done|]. destruct st as [[i cur] stk]. done.
  - destruct fuel as [|fuel]; [lia|]. cbn [app tokenize] in *. rewrite (proj2 (N.eqb_neq c 60)), (proj2 (N.eqb_neq c 38)) by done.
    cbn [length] in Hf. destruct (IH r fuel (build_step st (KText [c])) ltac:(lia)) as (f & Hf' & E).
    exists f. split; [done|]. rewrite <- Hstep, <- E. done.
  - destruct (reference_found c ref (e ++ r) Hr) as (ref' & Eref & E0). rewrite <- app_assoc in *.
    rewrite length_app in Hf. destruct fuel as [|fuel]; [lia|].
    destruct (IH r fuel (build_step st (KText [c]))) as (f & Hf' & E); [rewrite Eref in Hf; simpl in Hf; lia|].
    exists f. split; [done|]. rewrite <- Hstep, <- E. rewrite Eref in E0 |- *. cbn [app tokenize] in *.
    change (38 =? 60)%N with false. change (38 =? 38)%N with true. cbv iota. rewrite E0.
    change (38%N :: ref' ++ e ++ r) with ((38%N :: ref') ++ e ++ r). by rewrite drop_app_length.
Qed.

Lemma tag_chars t : tag_ok t = true -> Forall (fun c => name_char c = true) t /\ starts_with [47%N] t = false /\ t <> [].
Proof.
  unfold tag_ok. rewrite orb_true_iff, !bool_decide_eq_true. intros [-> | ->];
    (split_and!; [by repeat (apply List.Forall_cons; [done|]); apply List.Forall_nil|done|done]).
Qed.

Lemma tokenize_renders ks s : renders ks s -> forallb tok_ok ks = true -> forall fuel st, length s < fuel ->
  build_from st (tokenize fuel s) = build_from st ks.
Proof.
  induction 1 as [|s e ks r He _ IH|t attrs ks r _ IH|t ks r _ IH]; intros Hk fuel st Hf.
  - by destruct fuel.
  - apply andb_prop in Hk as [_ Hk]. destruct (tokenize_text s e He r fuel st Hf) as (f & Hf' & ->). by rewrite IH.
  - apply andb_prop in Hk as [[Ht Ha]%andb_prop Hk]. destruct (tag_chars t Ht) as (Hc & Hs & Hne).
    unfold start_tag in *. change (js "<") with [60%N] in *. change (js ">") with [62%N] in *. rewrite <- !app_assoc in *.
    destruct fuel as [|fuel]; [lia|]. cbn [app tokenize length] in *. change (60 =? 60)%N with true. cbv iota.
    assert (Hs2 : forall x, starts_with [47%N] (t ++ x) = false) by (intros x; by destruct t).
    rewrite Hs2. set (rest := concat (map attr_text attrs) ++ 62%N :: r) in *.
    assert (Et : take_while name_char (t ++ rest) = t).
    { unfold rest. destruct attrs as [|a attrs]; [by apply take_while_stop|]. cbn [map concat]. unfold attr_text at 1.
      change (js " ") with [32%N]. cbn [app]. by apply take_while_stop. }
    rewrite Et, drop_app_length. unfold rest. rewrite read_attrs_ok; [|done|].
    + cbv zeta. cbn [build_from fold_left]. apply IH; [done|]. unfold rest in Hf. rewrite !length_app in Hf. simpl in Hf. lia.
    + rewrite !length_app. cbn [length]. enough (length attrs <= length (concat (map attr_text attrs))) by lia.
      clear. induction attrs as [|a attrs IH]; [done|]. cbn [map concat length]. rewrite length_app. unfold attr_text at 1.
      simpl. lia.
  - apply andb_prop in Hk as [Ht Hk]. destruct (tag_chars t Ht) as (Hc & _ & _). cbn [tok_ok] in Ht.
    unfold end_tag in *. change (js "</") with [60; 47]%N in *. change (js ">") with [62%N] in *. rewrite <- !app_assoc in *.
    destruct fuel as [|fuel]; [lia|]. cbn [app tokenize length starts_with drop] in *. change (60 =? 60)%N with true.
    change (47 =? 47)%N with true. cbv iota. cbn [andb]. rewrite drop_0, (take_while_stop name_char t 62) by done.
    replace (length t + 2) with (S (length (t ++ [62%N]))) by (rewrite length_app; simpl; lia). cbn [drop].
    replace (t ++ 62%N :: r) with ((t ++ [62%N]) ++ r) in * by (by rewrite <- app_assoc).
    rewrite drop_app_length. cbn [build_from fold_left]. apply IH; [done|]. rewrite !length_app in Hf. simpl in Hf. lia.
Qed.

#[refine] Instance reader : Browser := {
  innerHTML := serialize;
  parseHTML s := build (tokenize (S (length s)) s)
}.
Proof.
  - done.
  - intros ks s Hr Hk. unfold build. by rewrite (tokenize_renders ks s Hr Hk) by lia.
Defined.

(** ** Text and markup of what is built *)

Definition tok_text (k : tok) : jsstr := match k with KText s => s | _ => [] end.
Definition toks_text (ks : list tok) : jsstr := concat (map tok_text ks).

Definition tok_markup (k : tok) : jsstr :=
  match k with KText s => flat_map html_char s | KOpen t attrs => start_tag t attrs | KClose t => end_tag t end.
Definition markup (ks : list tok) : jsstr := concat (map tok_markup ks).

Lemma toks_text_app a b : toks_text (a ++ b) = toks_text a ++ toks_text b.
Proof. unfold toks_text. by rewrite map_app, concat_app. Qed.
Lemma markup_app a b : markup (a ++ b) = markup a ++ markup b.
Proof. unfold markup. by rewrite map_app, concat_app. Qed.
Lemma serialize_app a b : serialize (a ++ b) = serialize a ++ serialize b.
Proof. unfold serialize. by rewrite map_app, concat_app. Qed.
Lemma textContent_app a b : textContent (a ++ b) = textContent a ++ textContent b.
Proof. unfold textContent. by rewrite map_app, concat_app. Qed.

Lemma serialize_elem n l : serialize [DElem n l] = start_tag (en_tag n) (en_attrs n) ++ serialize l ++ end_tag (en_tag n).
Proof. unfold serialize. cbn [map concat serialize_node]. by rewrite app_nil_r. Qed.
Lemma textContent_elem n l : textContent [DElem n l] = textContent l.
Proof. unfold textContent. cbn [map concat dom_text]. by rewrite app_nil_r. Qed.
Lemma serialize_text s : serialize [DText s] = flat_map html_char s.
Proof. unfold serialize. cbn [map concat serialize_node]. by rewrite app_nil_r. Qed.
Lemma textContent_text s : textContent [DText s] = s.
Proof. unfold textContent. cbn [map concat dom_text]. by rewrite app_nil_r. Qed.

(** A function of nodes that takes concatenation to concatenation, and adjacent texts to
    the text: its value after text is added. *)
Lemma add_text_hom (F : list dom -> jsstr) (G : jsstr -> jsstr) :
  (forall a b, F (a ++ b) = F a ++ F b) -> (forall s, F [DText s] = G s) -> G [] = [] ->
  (forall a b, G (a ++ b) = G a ++ G b) ->
  forall s cur, F (add_text s cur) = F cur ++ G s.
Proof.
  intros F1 F2 G0 G1 s cur. destruct s as [|x s]; [by rewrite G0, app_nil_r|]. cbn [add_text].
  destruct (last cur) as [[t|n l|]|] eqn:E; try (by rewrite F1, F2).
  destruct cur as [|d cur _] using rev_ind; [done|]. rewrite last_snoc in E. injection E as ->.
  rewrite length_app, Nat.add_sub, take_app_length, !F1, !F2, G1. apply app_assoc.
Qed.

Lemma add_text_serialize s cur : serialize (add_text s cur) = serialize cur ++ flat_map html_char s.
Proof.
  apply (add_text_hom serialize (flat_map html_char)); [apply serialize_app|apply serialize_text|done|].
  intros a b. apply List.flat_map_app.
Qed.
Lemma add_text_content s cur : textContent (add_text s cur) = textContent cur ++ s.
Proof. apply (add_text_hom textContent (fun s => s)); [apply textContent_app|apply textContent_text|done|done]. Qed.

(** The text read so far. *)
Fixpoint open_text (cur : list dom) (stk : frames) : jsstr :=
  match stk with [] => textContent cur | (_, before) :: stk => open_text before stk ++ textContent cur end.

Lemma open_text_add stk : forall cur l, open_text (cur ++ l) stk = open_text cur stk ++ textContent l.
Proof. destruct stk as [|[n b] stk]; intros cur l; cbn [open_text]; rewrite textContent_app; [done|by rewrite app_assoc]. Qed.

Lemma pop_text tag stk : forall cur cur' stk', pop_to tag cur stk = Some (cur', stk') ->
  open_text cur' stk' = open_text cur stk.
Proof.
  induction stk as [|[n b] stk IH]; intros cur cur' stk'; [done|]. cbn [pop_to open_text].
  assert (E : open_text (b ++ [DElem n cur]) stk = open_text b stk ++ textContent cur)
    by (by rewrite open_text_add, textContent_elem).
  case_bool_decide; [by intros [= <- <-]|]. case_bool_decide; [done|]. intros Hp%IH. by rewrite Hp.
Qed.

Lemma build_step_text i cur stk k i' cur' stk' : build_step (i, cur, stk) k = (i', cur', stk') ->
  open_text cur' stk' = open_text cur stk ++ tok_text k.
Proof.
  destruct k as [s|t a|t]; cbn [build_step tok_text].
  - intros [= <- <- <-]. destruct stk as [|[n b] stk]; cbn [open_text]; rewrite add_text_content; [done|by rewrite app_assoc].
  - by intros [= <- <- <-].
  - destruct (pop_to t cur stk) as [[c s]|] eqn:E; intros [= <- <- <-]; rewrite app_nil_r; [by eapply pop_text|done].
Qed.

Lemma build_from_text ks : forall i cur stk i' cur' stk', build_from (i, cur, stk) ks = (i', cur', stk') ->
  open_text cur' stk' = open_text cur stk ++ toks_text ks.
Proof.
  induction ks as [|k ks IH]; intros i cur stk i' cur' stk'; cbn [build_from fold_left].
  - intros [= <- <- <-]. by rewrite app_nil_r.
  - destruct (build_step (i, cur, stk) k) as [[i1 c1] s1] eqn:E. intros H%IH. apply build_step_text in E.
    rewrite H, E. unfold toks_text. cbn [map concat]. by rewrite <- app_assoc.
Qed.

Lemma close_all_text stk : forall cur, textContent (close_all cur stk) = open_text cur stk.
Proof.
  induction stk as [|[n b] stk IH]; intros cur; [done|]. cbn [close_all open_text].
  by rewrite IH, open_text_add, textContent_elem.
Qed.

(** The nodes that are built hold exactly the text of the tokens, also when the tags are
    not balanced. *)
Lemma build_text ks : textContent (build ks) = toks_text ks.
Proof.
  unfold build. destruct (build_from (0, [], []) ks) as [[i cur] stk] eqn:E. apply build_from_text in E.
  rewrite close_all_text, E. done.
Qed.

(** The markup read so far. *)
Fixpoint open_markup (cur : list dom) (stk : frames) : jsstr :=
  match stk with
  | [] => serialize cur
  | (n, before) :: stk => open_markup before stk ++ start_tag (en_tag n) (en_attrs n) ++ serialize cur
  end.

Lemma open_markup_add stk : forall cur l, open_markup (cur ++ l) stk = open_markup cur stk ++ serialize l.
Proof.
  destruct stk as [|[n b] stk]; intros cur l; cbn [open_markup]; rewrite serialize_app; [done|]. by rewrite <- !app_assoc.
Qed.

(** Tags that are properly nested: the tags that are open. *)
Fixpoint well_nested (open : list jsstr) (ks : list tok) : option (list jsstr) :=
  match ks with
  | [] => Some open
  | KText _ :: ks => well_nested open ks
  | KOpen t _ :: ks => well_nested (t :: open) ks
  | KClose t :: ks =>
      match open with x :: open => if decide (x = t) then well_nested open ks else None | [] => None end
  end.

Definition open_tags (stk : frames) : list jsstr := map (fun f => en_tag (fst f)) stk.

Lemma build_from_markup ks : forall i cur stk open, well_nested (open_tags stk) ks = Some open ->
  exists i' cur' stk', build_from (i, cur, stk) ks = (i', cur', stk') /\ open_tags stk' = open /\
    open_markup cur' stk' = open_markup cur stk ++ markup ks.
Proof.
  induction ks as [|[s|t a|t] ks IH]; intros i cur stk open Hw; cbn [build_from fold_left build_step].
  - injection Hw as <-. exists i, cur, stk. by rewrite app_nil_r.
  - destruct (IH i (add_text s cur) stk open Hw) as (i' & c' & s' & E & Ho & Hm). exists i', c', s'. split_and!; [done|done|].
    rewrite Hm. change (KText s :: ks) with ([KText s] ++ ks). rewrite markup_app, app_assoc. f_equal.
    unfold markup. cbn [map concat tok_markup]. rewrite app_nil_r.
    destruct stk as [|[n b] stk]; cbn [open_markup]; rewrite add_text_serialize; [done|by rewrite <- !app_assoc].
  - destruct (IH (S i) [] ((mkENode i t a, cur) :: stk) open Hw) as (i' & c' & s' & E & Ho & Hm).
    exists i', c', s'. split_and!; [done|done|]. rewrite Hm. cbn [open_markup en_tag en_attrs].
    unfold markup. cbn [map concat tok_markup]. change (serialize []) with (@nil N). by rewrite app_nil_r, <- app_assoc.
  - destruct stk as [|[n b] stk]; [done|]. change (open_tags ((n, b) :: stk)) with (en_tag n :: open_tags stk) in Hw.
    cbn [well_nested] in Hw. case_decide as Ht; [subst t|done]. cbn [pop_to]. rewrite bool_decide_eq_true_2 by done.
    destruct (IH i (b ++ [DElem n cur]) stk open Hw) as (i' & c' & s' & E & Ho & Hm).
    exists i', c', s'. split_and!; [done|done|]. rewrite Hm, open_markup_add, serialize_elem. cbn [open_markup].
    unfold markup. cbn [map concat tok_markup]. by rewrite <- !app_assoc.
Qed.

(** Markup whose tags are nested is written as it was read. *)
Lemma build_markup ks : well_nested [] ks = Some [] -> serialize (build ks) = markup ks.
Proof.
  intros Hw. destruct (build_from_markup ks 0 [] [] [] Hw) as (i & cur & stk & E & Ho & Hm). unfold build. rewrite E.
  destruct stk as [|[n b] stk]; [|done]. exact Hm.
Qed.

(** Every token list renders its markup. *)
Lemma html_char_encoded s : encoded s (flat_map html_char s).
Proof.
  induction s as [|c s IH]; [constructor|]. cbn [flat_map]. unfold html_char at 1.
  destruct (N.eqb_spec c 38) as [->|H1]; [apply enc_ref; [set_solver|done]|].
  destruct (N.eqb_spec c 60) as [->|H2]; [apply enc_ref; [set_solver|done]|].
  destruct (N.eqb_spec c 62) as [->|H3]; [apply enc_ref; [set_solver|done]|].
  destruct (N.eqb_spec c 160) as [->|H4]; [apply enc_ref; [set_solver|done]|]. by apply enc_char.
Qed.

Lemma renders_markup ks : renders ks (markup ks).
Proof.
  induction ks as [|[s|t a|t] ks IH]; [constructor| | |]; unfold markup in *; cbn [map concat tok_markup];
    constructor; auto using html_char_encoded.
Qed.

Lemma renders_app a b x y : renders a x -> renders b y -> renders (a ++ b) (x ++ y).
Proof. intros Ha Hb. induction Ha; [done|..]; rewrite <- app_assoc; by constructor. Qed.

(** ** Nodes that are simple *)

Definition state_simple (st : build_state) : Prop :=
  let '(_, cur, stk) := st in
  forallb simple cur = true /\
  Forall (fun f => tag_ok (en_tag (fst f)) = true /\ forallb attr_ok (en_attrs (fst f)) = true /\
                   forallb simple (snd f) = true) stk.

Lemma simple_snoc l d : forallb simple l = true -> simple d = true -> forallb simple (l ++ [d]) = true.
Proof. intros H1 H2. rewrite forallb_app, H1. cbn [forallb]. by rewrite H2. Qed.

Lemma add_text_simple s cur : forallb text_char s = true -> forallb simple cur = true -> forallb simple (add_text s cur) = true.
Proof.
  intros Hs Hc. destruct s as [|x s]; [done|]. cbn [add_text].
  destruct (last cur) as [[t|n l|]|] eqn:E; try (by apply simple_snoc).
  destruct cur as [|d cur _] using rev_ind; [done|]. rewrite last_snoc in E. injection E as ->.
  rewrite length_app, Nat.add_sub, take_app_length. rewrite forallb_app in Hc. apply andb_prop in Hc as [H1 H2].
  cbn [forallb simple] in H2. rewrite andb_true_r in H2. apply simple_snoc; [done|]. cbn [simple].
  by rewrite forallb_app, H2.
Qed.

Lemma pop_simple tag stk : forall i cur cur' stk', state_simple (i, cur, stk) -> pop_to tag cur stk = Some (cur', stk') ->
  state_simple (i, cur', stk').
Proof.
  induction stk as [|[n b] stk IH]; intros i cur cur' stk' [Hc Hs]; [done|]. cbn [pop_to].
  apply Forall_cons in Hs as [(H1 & H2 & H3) Hs]. cbn [fst snd] in *.
  assert (Hd : state_simple (i, b ++ [DElem n cur], stk)).
  { split; [|done]. apply simple_snoc; [done|]. cbn [simple]. by rewrite H1, H2, Hc. }
  case_bool_decide; [by intros [= <- <-]|]. case_bool_decide; [done|]. by apply IH.
Qed.

Lemma build_step_simple st k : tok_ok k = true -> state_simple st -> state_simple (build_step st k).
Proof.
  destruct st as [[i cur] stk]. destruct k as [s|t a|t]; cbn [tok_ok build_step]; intros Hk [Hc Hs].
  - split; [by apply add_text_simple|done].
  - apply andb_prop in Hk as [H1 H2]. split; [done|]. by constructor.
  - destruct (pop_to t cur stk) as [[c' s']|] eqn:E; [by eapply pop_simple|done].
Qed.

Lemma build_simple ks : forallb tok_ok ks = true -> forallb simple (build ks) = true.
Proof.
  intros Hk. assert (H : state_simple (build_from (0, [], []) ks)).
  { assert (H0 : state_simple (0, [], [])) by (split; [done|constructor]). revert H0. generalize (0, @nil dom, @nil (enode * list dom)).
    induction ks as [|k ks IH]; intros st Hst; [done|]. cbn [forallb] in Hk. apply andb_prop in Hk as [H1 H2].
    cbn [build_from fold_left]. apply IH; [done|]. by apply build_step_simple. }
  unfold build. destruct (build_from _ ks) as [[i cur] stk]. revert i cur H.
  induction stk as [|[n b] stk IH]; intros i cur [Hc Hs]; [done|]. cbn [close_all].
  apply Forall_cons in Hs as [(H1 & H2 & H3) Hs]. cbn [fst snd] in *. apply (IH i). split; [|done].
  apply simple_snoc; [done|]. cbn [simple]. by rewrite H1, H2, Hc.
Qed.

(** ** Lines in div elements *)

(** Text and spans, in any order. *)
Definition inline_tok (k : tok) : bool :=
  match k with KText _ => true | KOpen t _ | KClose t => bool_decide (t = t_span) end.

(** Inside a div element, tokens of text and spans do not leave it. *)
Lemma build_inline ks n before : en_tag n = t_div -> forallb inline_tok ks = true -> forall i cur sp,
  Forall (fun f => en_tag (fst f) = t_span) sp ->
  exists i' cur' sp', build_from (i, cur, sp ++ [(n, before)]) ks = (i', cur', sp' ++ [(n, before)]) /\
    Forall (fun f => en_tag (fst f) = t_span) sp'.
Proof.
  intros Hn. induction ks as [|k ks IH]; intros Hk i cur sp Hs; [by exists i, cur, sp|].
  cbn [forallb] in Hk. apply andb_prop in Hk as [H1 H2]. cbn [build_from fold_left]. destruct k as [s|t a|t]; cbn [build_step].
  - by apply IH.
  - apply bool_decide_eq_true in H1 as ->. change ((?x, cur) :: sp ++ ?y) with (((x, cur) :: sp) ++ y). apply IH; [done|].
    by constructor.
  - apply bool_decide_eq_true in H1 as ->. destruct sp as [|[m b] sp]; cbn [app pop_to].
    + rewrite bool_decide_eq_false_2 by (rewrite Hn; done). rewrite bool_decide_eq_true_2 by done. by apply (IH H2 i cur []).
    + apply Forall_cons in Hs as [Hm Hs]. cbn [fst] in Hm. rewrite bool_decide_eq_true_2 by done. by apply IH.
Qed.

Lemma pop_div sp n before : en_tag n = t_div -> Forall (fun f => en_tag (fst f) = t_span) sp -> forall cur,
  exists kids, pop_to t_div cur (sp ++ [(n, before)]) = Some (before ++ [DElem n kids], []) /\
    textContent kids = open_text cur (sp ++ [(n, [])]).
Proof.
  intros Hn. induction 1 as [|[m b] sp Hm _ IH]; intros cur; cbn [app pop_to].
  - rewrite bool_decide_eq_true_2 by done. exists cur. done.
  - cbn [fst] in Hm. rewrite bool_decide_eq_false_2 by (rewrite Hm; done). rewrite bool_decide_eq_false_2 by done.
    destruct (IH (b ++ [DElem m cur])) as (kids & -> & Ht). exists kids. split; [done|].
    rewrite Ht, open_text_add, textContent_elem. done.
Qed.

Lemma open_text_base sp n before : forall cur,
  open_text cur (sp ++ [(n, before)]) = textContent before ++ open_text cur (sp ++ [(n, [])]).
Proof.
  induction sp as [|[m b] sp IH]; intros cur; cbn [app open_text]; [done|]. by rewrite IH, app_assoc.
Qed.

(** One line: a div element with the text of the line, whatever spans are open or closed
    in it. *)
Definition line_toks (attrs : list (jsstr * jsstr)) (ks : list tok) : list tok :=
  KOpen t_div attrs :: ks ++ [KClose t_div].

Lemma build_line attrs ks i cur : forallb inline_tok ks = true ->
  exists i' kids, build_from (i, cur, []) (line_toks attrs ks) = (i', cur ++ [DElem (mkENode i t_div attrs) kids], []) /\
    textContent kids = toks_text ks.
Proof.
  intros Hk. unfold line_toks. cbn [build_from fold_left build_step]. set (n := mkENode i t_div attrs).
  change (fold_left build_step (ks ++ [KClose t_div])) with (fun st => build_from st (ks ++ [KClose t_div])). cbv beta.
  rewrite build_from_app. destruct (build_inline ks n cur eq_refl Hk (S i) [] [] ltac:(constructor)) as (i' & c' & sp & E & Hs).
  cbn [app] in E. pose proof (build_from_text _ _ _ _ _ _ _ E) as Ht. rewrite E. cbn [build_from fold_left build_step].
  destruct (pop_div sp n cur eq_refl Hs c') as (kids & -> & Hkids). exists i', kids. split; [done|]. rewrite Hkids.
  rewrite open_text_base in Ht. cbn [open_text] in Ht. change (textContent []) with (@nil N) in Ht.
  rewrite app_nil_r in Ht. by apply app_inv_head in Ht.
Qed.

(** All lines: one element for each. *)
Lemma build_lines attrs lines : Forall (fun ks => forallb inline_tok ks = true) lines -> forall i cur,
  exists i' nodes, build_from (i, cur, []) (concat (map (line_toks attrs) lines)) = (i', cur ++ nodes, []) /\
    Forall2 (fun ks d => exists j kids, d = DElem (mkENode j t_div attrs) kids /\ textContent kids = toks_text ks) lines nodes.
Proof.
  induction 1 as [|ks lines Hk _ IH]; intros i cur; [exists i, []; split; [by rewrite app_nil_r|constructor]|].
  cbn [map concat]. rewrite build_from_app. destruct (build_line attrs ks i cur Hk) as (i1 & kids & -> & Ht).
  destruct (IH i1 (cur ++ [DElem (mkENode i t_div attrs) kids])) as (i2 & nodes & -> & Hn).
  exists i2, (DElem (mkENode i t_div attrs) kids :: nodes). rewrite <- app_assoc. split; [done|]. constructor; [|done]. eauto.
Qed.
