(* ===== verification/Resources.v ===== *)
(** * Resources (module 23)

    The layout that is put into the container and the style sheet of the slide show, as the
    module has them, with readers for the markup and the styles that they are written in. *)

From S2P Require Import Prelude JsString Converter HljsStreams Html.

Definition version : jsstr := js "0.15.0".

Definition documentStyles : jsstr :=
  js "html{font-size:20px}" ++
  js "html.remark-container,body.remark-container{height:100%;width:100%;-webkit-print-color-adjust:exact}" ++
  js ".remark-container{background:#d7d8d2;margin:0;overflow:hidden}" ++
  js ".remark-container:focus{outline-style:solid;outline-width:1px}" ++
  js ".remark-container:-webkit-full-screen{width:100%;height:100%}body:-webkit-full-screen{background:#000000}" ++
  js "body:-moz-full-screen{background:#000000}body:fullscreen{background:#000000}" ++
  js ".remark-slides-area{position:relative;height:100%;width:100%}" ++
  js ".remark-slide-container{display:none;position:absolute;height:100%;width:100%;page-break-after:always}" ++
  js ".remark-slide-scaler{background-color:transparent;overflow:auto;position:absolute;-webkit-transform-origin:top left;-moz-transform-origin:top left;transform-origin:top-left;-moz-box-shadow:0 0 30px #888;-webkit-box-shadow:0 0 30px #888;box-shadow:0 0 30px #888}" ++
  js ".remark-slide{height:100%;width:100%;display:table;table-layout:fixed;position:relative}" ++
  js ".remark-slide>.left{text-align:left}.remark-slide>.center{text-align:center}" ++
  js ".remark-slide>.right{text-align:right}.remark-slide>.top{vertical-align:top}" ++
  js ".remark-slide>.middle{vertical-align:middle}.remark-slide>.bottom{vertical-align:bottom}" ++
  js ".remark-slide-content{background-color:#fff;background-position:center;background-repeat:no-repeat;display:table-cell;padding:1em 4em 1em 4em}" ++
  js ".remark-slide-content .left{display:block;text-align:left}" ++
  js ".remark-slide-content .center{display:block;text-align:center}" ++
  js ".remark-slide-content .right{display:block;text-align:right}" ++
  js ".remark-slide-number{bottom:12px;opacity:.5;position:absolute;right:20px}" ++
  js ".remark-slide-notes{border-top:3px solid black;position:absolute;display:none}.remark-code{font-size:smaller}" ++
  js ".remark-code-line{min-height:1em}.remark-code-line-highlighted{background-color:rgba(255,255,0,0.5)}" ++
  js ".remark-code-span-highlighted{background-color:rgba(255,255,0,0.5);padding:1px 2px 2px 2px}" ++
  js ".remark-visible{display:block;z-index:2}.remark-fading{display:block;z-index:1}" ++
  js ".remark-fading .remark-slide-scaler{-moz-box-shadow:none;-webkit-box-shadow:none;box-shadow:none}" ++
  js ".remark-backdrop{position:absolute;top:0;bottom:0;left:0;right:0;display:none;background:#000;z-index:2}" ++
  js ".remark-pause{bottom:0;top:0;right:0;left:0;display:none;position:absolute;z-index:1000}" ++
  js ".remark-pause .remark-pause-lozenge{margin-top:30%;text-align:center}" ++
  js ".remark-pause .remark-pause-lozenge span{color:white;background:black;border:2px solid black;border-radius:20px;padding:20px 30px;font-family:Helvetica,arial,freesans,clean,sans-serif;font-size:42pt;font-weight:bold}" ++
  js ".remark-container.remark-presenter-mode.remark-pause-mode .remark-pause{display:block}" ++
  js ".remark-container.remark-presenter-mode.remark-pause-mode .remark-backdrop{display:block;opacity:.5}" ++
  js ".remark-help{bottom:0;top:0;right:0;left:0;display:none;position:absolute;z-index:1000;-webkit-transform-origin:top left;-moz-transform-origin:top left;transform-origin:top-left}" ++
  js ".remark-help .remark-help-content{color:white;font-family:Helvetica,arial,freesans,clean,sans-serif;font-size:12pt;position:absolute;top:5%;bottom:10%;height:10%;left:5%;width:90%}" ++
  js ".remark-help .remark-help-content h1{font-size:36px}" ++
  js ".remark-help .remark-help-content td{color:white;font-size:12pt;padding:10px}" ++
  js ".remark-help .remark-help-content td:first-child{padding-left:0}" ++
  js ".remark-help .remark-help-content .key{background:white;color:black;min-width:1em;display:inline-block;padding:3px 6px;text-align:center;border-radius:4px;font-size:14px}" ++
  js ".remark-help .dismiss{top:85%}.remark-container.remark-help-mode .remark-help{display:block}" ++
  js ".remark-container.remark-help-mode .remark-backdrop{display:block;opacity:.95}" ++
  js ".remark-preview-area{bottom:2%;left:2%;display:none;opacity:.5;position:absolute;height:47.25%;width:48%}" ++
  js ".remark-preview-area .remark-slide-container{display:block}" ++
  js ".remark-notes-area{background:#fff;bottom:0;color:black;display:none;left:52%;overflow:hidden;position:absolute;right:0;top:0}" ++
  js ".remark-notes-area .remark-top-area{height:50px;left:20px;position:absolute;right:10px;top:10px}" ++
  js ".remark-notes-area .remark-bottom-area{position:absolute;top:75px;bottom:10px;left:20px;right:10px}" ++
  js ".remark-notes-area .remark-bottom-area .remark-toggle{display:block;text-decoration:none;font-family:Helvetica,arial,freesans,clean,sans-serif;height:21px;font-size:.75em;text-transform:uppercase;color:#ccc}" ++
  js ".remark-notes-area .remark-bottom-area .remark-notes-current-area{height:70%;position:relative}" ++
  js ".remark-notes-area .remark-bottom-area .remark-notes-current-area .remark-notes{clear:both;border-top:1px solid #f5f5f5;position:absolute;top:22px;bottom:0px;left:0px;right:0px;overflow-y:auto;margin-bottom:20px;padding-top:10px}" ++
  js ".remark-notes-area .remark-bottom-area .remark-notes-preview-area{height:30%;position:relative}" ++
  js ".remark-notes-area .remark-bottom-area .remark-notes-preview-area .remark-notes-preview{border-top:1px solid #f5f5f5;position:absolute;top:22px;bottom:0px;left:0px;right:0px;overflow-y:auto}" ++
  js ".remark-notes-area .remark-bottom-area .remark-notes>*:first-child,.remark-notes-area .remark-bottom-area .remark-notes-preview>*:first-child{margin-top:5px}" ++
  js ".remark-notes-area .remark-bottom-area .remark-notes>*:last-child,.remark-notes-area .remark-bottom-area .remark-notes-preview>*:last-child{margin-bottom:0}" ++
  js ".remark-toolbar{color:#979892;vertical-align:middle}" ++
  js ".remark-toolbar .remark-toolbar-link{border:2px solid #d7d8d2;color:#979892;display:inline-block;padding:2px 2px;text-decoration:none;text-align:center;min-width:20px}" ++
  js ".remark-toolbar .remark-toolbar-link:hover{border-color:#979892;color:#676862}" ++
  js ".remark-toolbar .remark-toolbar-timer{border:2px solid black;border-radius:10px;background:black;color:white;display:inline-block;float:right;padding:5px 10px;font-family:sans-serif;font-weight:bold;font-size:175%;text-decoration:none;text-align:center}" ++
  js ".remark-container.remark-presenter-mode .remark-slides-area{top:2%;left:2%;height:47.25%;width:48%}" ++
  js ".remark-container.remark-presenter-mode .remark-preview-area{display:block}" ++
  js ".remark-container.remark-presenter-mode .remark-notes-area{display:block}" ++
  js ".remark-container.remark-blackout-mode:not(.remark-presenter-mode) .remark-backdrop{display:block;opacity:.99}" ++
  js ".remark-container.remark-mirrored-mode:not(.remark-presenter-mode) .remark-slides-area{-webkit-transform:scaleX(-1);-moz-transform:scaleX(-1);-ms-transform:scaleX(-1);-o-transform:scaleX(-1)}" ++
  js "@media print{.remark-container{overflow:visible;background-color:#fff}" ++
  js ".remark-container.remark-presenter-mode .remark-slides-area{top:0px;left:0px;height:100%;width:681px}" ++
  js ".remark-container.remark-presenter-mode .remark-preview-area,.remark-container.remark-presenter-mode .remark-notes-area{display:none}" ++
  js ".remark-container.remark-presenter-mode .remark-slide-notes{display:block;margin-left:30px;width:621px}" ++
  js ".remark-slide-container{display:block;position:relative}" ++
  js ".remark-slide-scaler{-moz-box-shadow:none;-webkit-box-shadow:none;-webkit-transform-origin:initial;box-shadow:none}" ++
  js "}@page{margin:0}".

(** The layout, line by line. *)
Definition containerLayout_lines : list jsstr :=
  [js "<div class=＂remark-notes-area＂>";
   js "  <div class=＂remark-top-area＂>";
   js "    <div class=＂remark-toolbar＂>";
   js "      <a class=＂remark-toolbar-link＂ href=＂#increase＂>+</a>";
   js "      <a class=＂remark-toolbar-link＂ href=＂#decrease＂>-</a>";
   js "      <span class=＂remark-toolbar-timer＂></span>";
   js "    </div>";
   js "  </div>";
   js "  <div class=＂remark-bottom-area＂>";
   js "    <div class=＂remark-notes-current-area＂>";
   js "      <div class=＂remark-toggle＂>Notes for current slide</div>";
   js "      <div class=＂remark-notes＂></div>";
   js "    </div>";
   js "    <div class=＂remark-notes-preview-area＂>";
   js "      <div class=＂remark-toggle＂>Notes for next slide</div>";
   js "      <div class=＂remark-notes-preview＂></div>";
   js "    </div>";
   js "  </div>";
   js "</div>";
   js "<div class=＂remark-slides-area＂></div>";
   js "<div class=＂remark-preview-area＂></div>";
   js "<div class=＂remark-backdrop＂></div>";
   js "<div class=＂remark-pause＂>";
   js "  <div class=＂remark-pause-lozenge＂>";
   js "    <span>Paused</span>";
   js "  </div>";
   js "</div>";
   js "<div class=＂remark-help＂>";
   js "  <div class=＂remark-help-content＂>";
   js "    <h1>Help</h1>";
   js "    <p><b>Keyboard shortcuts</b></p>";
   js "    <table class=＂light-keys＂>";
   js "      <tr>";
   js "        <td>";
   js "          <span class=＂key＂><b>&uarr;</b></span>,";
   js "          <span class=＂key＂><b>&larr;</b></span>,";
   js "          <span class=＂key＂>Pg Up</span>,";
   js "          <span class=＂key＂>k</span>";
   js "        </td>";
   js "        <td>Go to previous slide</td>";
   js "      </tr>";
   js "      <tr>";
   js "        <td>";
   js "          <span class=＂key＂><b>&darr;</b></span>,";
   js "          <span class=＂key＂><b>&rarr;</b></span>,";
   js "          <span class=＂key＂>Pg Dn</span>,";
   js "          <span class=＂key＂>Space</span>,";
   js "          <span class=＂key＂>j</span>";
   js "        </td>";
   js "        <td>Go to next slide</td>";
   js "      </tr>";
   js "      <tr>";
   js "        <td>";
   js "          <span class=＂key＂>Home</span>";
   js "        </td>";
   js "        <td>Go to first slide</td>";
   js "      </tr>";
   js "      <tr>";
   js "        <td>";
   js "          <span class=＂key＂>End</span>";
   js "        </td>";
   js "        <td>Go to last slide</td>";
   js "      </tr>";
   js "      <tr>";
   js "        <td>";
   js "          Number + <span class=＂key＂>Return</span>";
   js "        </td>";
   js "        <td>Go to specific slide</td>";
   js "      </tr>";
   js "      <tr>";
   js "        <td>";
   js "          <span class=＂key＂>b</span>&nbsp;/";
   js "          <span class=＂key＂>m</span>&nbsp;/";
   js "          <span class=＂key＂>f</span>";
   js "        </td>";
   js "        <td>Toggle blackout / mirrored / fullscreen mode</td>";
   js "      </tr>";
   js "      <tr>";
   js "        <td>";
   js "          <span class=＂key＂>c</span>";
   js "        </td>";
   js "        <td>Clone slideshow</td>";
   js "      </tr>";
   js "      <tr>";
   js "        <td>";
   js "          <span class=＂key＂>p</span>";
   js "        </td>";
   js "        <td>Toggle presenter mode</td>";
   js "      </tr>";
   js "      <tr>";
   js "        <td>";
   js "          <span class=＂key＂>s</span>";
   js "        </td>";
   js "        <td>Start & Stop the presentation timer</td>";
   js "      </tr>";
   js "       <tr>";
   js "        <td>";
   js "          <span class=＂key＂>t</span>";
   js "        </td>";
   js "        <td>Reset the presentation timer</td>";
   js "      </tr>";
   js "      <tr>";
   js "        <td>";
   js "          <span class=＂key＂>?</span>,";
   js "          <span class=＂key＂>h</span>";
   js "        </td>";
   js "        <td>Toggle this help</td>";
   js "      </tr>";
   js "    </table>";
   js "  </div>";
   js "  <div class=＂content dismiss＂>";
   js "    <table class=＂light-keys＂>";
   js "      <tr>";
   js "        <td>";
   js "          <span class=＂key＂>Esc</span>";
   js "        </td>";
   js "        <td>Back to slideshow</td>";
   js "      </tr>";
   js "    </table>";
   js "  </div>";
   js "</div>";
   js ""].

Definition containerLayout : jsstr := concat (map (fun l => l ++ nl) containerLayout_lines).

(** ** Reading the layout *)

(** Attributes up to the end of the tag, and the rest; a value ends at its quotation mark. *)
Fixpoint layout_attrs (fuel : nat) (s : jsstr) : list (jsstr * jsstr) * jsstr :=
  match fuel, s with
  | S f, c :: s =>
      if (c =? 32)%N then
        let name := take_while name_char s in
        let s := drop (length name + 2) s in
        let value := take_while (fun c => negb (c =? 34)%N) s in
        let '(attrs, rest) := layout_attrs f (drop (length value + 1) s) in
        ((name, value) :: attrs, rest)
      else ([], s)
  | _, _ => ([], s)
  end.

(** Text is left as it is written, with its character references. *)
Fixpoint layout_toks (fuel : nat) (s : jsstr) : list tok :=
  match fuel, s with
  | S f, c :: t =>
      if (c =? 60)%N then
        if starts_with [47%N] t then
          let tag := take_while name_char (drop 1 t) in KClose tag :: layout_toks f (drop (length tag + 2) t)
        else
          let tag := take_while name_char t in
          let '(attrs, rest) := layout_attrs (length t) (drop (length tag) t) in
          KOpen tag attrs :: layout_toks f rest
      else
        let text := take_while (fun c => negb (c =? 60)%N) s in KText text :: layout_toks f (drop (length text) s)
  | _, _ => []
  end.

(** The elements of the layout.  A browser adds bodies to its tables, which have no class. *)
Definition layout : list dom := Eval vm_compute in build (layout_toks (length containerLayout) containerLayout).

(** ** Reading the styles *)

(** A part of a selector that is about one element: its tag, the classes that it has, the
    classes that it must not have, and whether there is more (a state, or its position). *)
Record compound := mkCompound {
  cp_tag : option jsstr;
  cp_classes : list jsstr;
  cp_not : list jsstr;
  cp_state : nat
}.

Definition any_element : compound := mkCompound None [] [] 0.

(** The part for the element itself, and those for its ancestors, the innermost first, each
    with a flag that it must be the parent. *)
Record selector := mkSelector { sel_self : compound; sel_above : list (bool * compound) }.

(** The declarations of a rule, for one of its selectors; [st_media] is the medium that it
    is meant for. *)
Record style_rule := mkRule {
  st_media : option jsstr;
  st_selector : selector;
  st_declarations : list (jsstr * jsstr)
}.

Definition add_state (c : compound) : compound := mkCompound (cp_tag c) (cp_classes c) (cp_not c) (S (cp_state c)).

(** The compound in front of [s], added to [c], and the rest. *)
Fixpoint read_compound (fuel : nat) (c : compound) (s : jsstr) : compound * jsstr :=
  match fuel, s with
  | S f, x :: t =>
      if (x =? 46)%N then
        let name := take_while name_char t in
        read_compound f (mkCompound (cp_tag c) (cp_classes c ++ [name]) (cp_not c) (cp_state c)) (drop (length name) t)
      else if starts_with (js ":not(.") s then
        let name := take_while name_char (drop 6 s) in
        read_compound f (mkCompound (cp_tag c) (cp_classes c) (cp_not c ++ [name]) (cp_state c)) (drop (length name + 7) s)
      else if (x =? 58)%N then
        let name := take_while name_char t in read_compound f (add_state c) (drop (length name) t)
      else if name_char x then
        let name := take_while name_char s in
        read_compound f (mkCompound (Some name) (cp_classes c) (cp_not c) (cp_state c)) (drop (length name) s)
      else (c, s)
  | _, _ => (c, s)
  end.

Fixpoint read_selector (fuel : nat) (above : list (bool * compound)) (s : jsstr) : selector :=
  let '(c, rest) := read_compound (S (length s)) any_element s in
  match fuel, rest with
  | S f, x :: t => read_selector f ((x =? 62, c)%N :: above) t
  | _, _ => mkSelector c above
  end.

Definition read_declaration (s : jsstr) : jsstr * jsstr :=
  let name := take_while (fun c => negb (c =? 58)%N) s in (name, drop (length name + 1) s).

Definition pieces (sep : N) (s : jsstr) : list jsstr := List.filter (fun p => negb (bool_decide (p = []))) (split_on sep s).

Definition read_rule (media : option jsstr) (prelude body : jsstr) : list style_rule :=
  map (fun sel => mkRule media (read_selector (length sel) [] sel) (map read_declaration (pieces 59 body))) (pieces 44 prelude).

(** The rules of a style sheet; an at-rule other than a medium is left out. *)
Fixpoint read_styles (fuel : nat) (media : option jsstr) (s : jsstr) : list style_rule :=
  match fuel, s with
  | S f, x :: t =>
      if (x =? 125)%N then read_styles f None t
      else
        let prelude := take_while (fun c => negb (c =? 123)%N) s in
        let s := drop (length prelude + 1) s in
        if starts_with (js "@media ") prelude then read_styles f (Some (drop 7 prelude)) s
        else
          let body := take_while (fun c => negb (c =? 125)%N) s in
          let rest := read_styles f media (drop (length body + 1) s) in
          if starts_with (js "@") prelude then rest else read_rule media prelude body ++ rest
  | _, _ => []
  end.

Definition style_rules : list style_rule := Eval vm_compute in read_styles (length documentStyles) None documentStyles.
