(* ===== verification/Styles.v ===== *)
(** * What is displayed (modules 23 and 28)

    The views set classes, and the style sheet says what they look like.  Here the rules
    of the style sheet are applied to an element and its ancestors as the standard of
    cascading style sheets says: the declaration of the most specific selector that matches
    wins, and of equally specific ones the last.  States of elements that selectors ask for
    (focus, full screen, the first child) are an argument. *)

From S2P Require Import Prelude JsString JsRegExp RegExpFacts Events SlideParser SlideModel Slideshow.
From S2P Require Import Navigation Inputs Timer Utils Views Session Contents HljsStreams Html Resources.

(** ** The cascade *)

Record element := mkElement { el_tag : jsstr; el_class : jsstr }.

(** The element and its ancestors, the innermost first. *)
Record place := mkPlace { pl_self : element; pl_above : list element }.

Definition bool_of_tag (t : option jsstr) (e : element) : bool :=
  match t with Some t => bool_decide (t = el_tag e) | None => true end.

(** The number of classes, negated classes and states, and the number of tags. *)
Definition weigh (c : compound) : nat * nat :=
  (length (cp_classes c) + length (cp_not c) + cp_state c, match cp_tag c with Some _ => 1 | None => 0 end).
Definition add_weights (x y : nat * nat) : nat * nat := (x.1 + y.1, x.2 + y.2).
Definition specificity (s : selector) : nat * nat :=
  fold_left (fun w c => add_weights w (weigh c.2)) (sel_above s) (weigh (sel_self s)).
Definition weight_le (x y : nat * nat) : bool := (x.1 <? y.1)%nat || ((x.1 =? y.1)%nat && (x.2 <=? y.2)%nat).

(** The elements that are left when one after the other is taken away. *)
Fixpoint tails {A} (l : list A) : list (A * list A) :=
  match l with [] => [] | x :: t => (x, t) :: tails t end.

Section Cascade.
Context (in_state : compound -> element -> bool).

Definition matches_compound (c : compound) (e : element) : bool :=
  bool_of_tag (cp_tag c) e && forallb (fun n => hasClass n (el_class e)) (cp_classes c)
  && forallb (fun n => negb (hasClass n (el_class e))) (cp_not c) && ((cp_state c =? 0)%nat || in_state c e).

Fixpoint matches_above (above : list (bool * compound)) (up : list element) : bool :=
  match above with
  | [] => true
  | (true, c) :: above =>
      match up with e :: up => matches_compound c e && matches_above above up | [] => false end
  | (false, c) :: above => existsb (fun p => matches_compound c p.1 && matches_above above p.2) (tails up)
  end.

Definition matches (s : selector) (p : place) : bool :=
  matches_compound (sel_self s) (pl_self p) && matches_above (sel_above s) (pl_above p).

(** The value that a rule declares, the last one when there are several. *)
Definition declared (prop : jsstr) (r : style_rule) : option jsstr :=
  snd <$> last (List.filter (fun d => bool_decide (d.1 = prop)) (st_declarations r)).

Definition for_medium (medium : jsstr) (r : style_rule) : bool :=
  match st_media r with Some m => bool_decide (m = medium) | None => true end.

Definition offer (medium prop : jsstr) (p : place) (r : style_rule) : option ((nat * nat) * jsstr) :=
  if for_medium medium r && matches (st_selector r) p
  then (fun v => (specificity (st_selector r), v)) <$> declared prop r else None.

Definition better (best new : option ((nat * nat) * jsstr)) : option ((nat * nat) * jsstr) :=
  match best, new with
  | Some (w, _), Some (w', _) => if weight_le w w' then new else best
  | _, None => best
  | None, _ => new
  end.

Definition cascade (medium prop : jsstr) (p : place) (rules : list style_rule) : option jsstr :=
  snd <$> fold_left (fun best r => better best (offer medium prop p r)) rules None.

(** The value of a property on the screen or in print, by the style sheet of the slide show. *)
Definition cascaded (medium prop : jsstr) (p : place) : option jsstr := cascade medium prop p style_rules.

(** ** Rules that can apply *)

(** A rule that asks for no class of the element itself other than [names]. *)
Definition relevant (medium prop : jsstr) (names : list jsstr) (r : style_rule) : bool :=
  for_medium medium r && bool_decide (declared prop r <> None)
  && forallb (fun n => bool_decide (n ∈ names)) (cp_classes (sel_self (st_selector r))).

Lemma cascade_relevant medium prop names p rules :
  (forall n, hasClass n (el_class (pl_self p)) = true -> n ∈ names) ->
  cascade medium prop p rules = cascade medium prop p (List.filter (relevant medium prop names) rules).
Proof.
  intros Hn. unfold cascade. f_equal. generalize (None : option ((nat * nat) * jsstr)).
  induction rules as [|r rules IH]; intros best; [done|]. cbn [fold_left List.filter].
  destruct (relevant medium prop names r) eqn:Er; cbn [fold_left]; [apply IH|]. rewrite <- IH. f_equal.
  assert (Ho : offer medium prop p r = None); [|rewrite Ho; by destruct best as [[]|]].
  unfold offer, relevant in *. destruct (for_medium medium r); [|done]. cbn [andb] in *.
  destruct (declared prop r) as [v|] eqn:Ed; [|by destruct (matches _ _)]. rewrite bool_decide_eq_true_2 in Er by done. cbn [andb] in Er.
  destruct (matches (st_selector r) p) eqn:Em; [|done]. exfalso. apply not_true_iff_false in Er. apply Er.
  unfold matches, matches_compound in Em. rewrite !andb_true_iff in Em. destruct Em as [[[[_ Hc] _] _] _].
  rewrite forallb_forall in *. intros n Hin. apply bool_decide_eq_true_2, Hn. by apply Hc.
Qed.

(** Asking for one ancestor. *)
Lemma matches_above_one c up : matches_above [(false, c)] up = existsb (matches_compound c) up.
Proof.
  cbn [matches_above]. induction up as [|e up IH]; [done|]. cbn [tails existsb fst snd]. by rewrite andb_true_r, IH.
Qed.
End Cascade.

(** ** Slides and overlays *)

Definition screen : jsstr := js "screen".
Definition print : jsstr := js "print".
Definition p_display : jsstr := js "display".
Definition p_zindex : jsstr := js "z-index".
Definition v_block : jsstr := js "block".
Definition v_none : jsstr := js "none".

Definition c_slides_area : jsstr := js "remark-slides-area".
Definition c_preview_area : jsstr := js "remark-preview-area".
Definition c_backdrop : jsstr := js "remark-backdrop".

(** The container of a slide, in the slides area. *)
Definition slide_place (class : jsstr) (up : list element) : place :=
  mkPlace (mkElement t_div class) (mkElement t_div c_slides_area :: up).

(** The rules that are relevant, with the class names of the views. *)
Ltac fold_class c := let v := eval vm_compute in c in change v with c.
Ltac apply_rules :=
  match goal with |- cascade _ _ _ _ ?l = _ => let l' := eval vm_compute in l in change l with l' end;
  fold_class c_visible; fold_class c_fading; fold_class c_container; fold_class c_backdrop; fold_class c_preview_area;
  fold_class c_help; fold_class c_pause; fold_class c_blackout; fold_class c_presenter; fold_class c_remark_container;
  unfold cascade; cbn [fold_left]; unfold offer, matches, matches_compound;
  cbn -[hasClass matches_above c_visible c_fading c_container c_backdrop c_preview_area c_help c_pause c_blackout
        c_presenter c_remark_container].

Section Display.
Context (in_state : compound -> element -> bool).
Let cascaded := (cascaded in_state).

(** The classes of a slide container are its own and those that the view adds. *)
Definition slide_classes (class : jsstr) : Prop :=
  hasClass c_container class = true /\ forall n, hasClass n class = true -> n ∈ [c_container; c_visible; c_fading].

(** On the screen a slide is displayed when it is visible or fading, the visible one above
    the fading one; in print every slide is. *)
Lemma slide_display (class : jsstr) (up : list element) : slide_classes class ->
  Forall (fun e => hasClass c_preview_area (el_class e) = false) up ->
  cascaded screen p_display (slide_place class up)
  = Some (if hasClass c_visible class || hasClass c_fading class then v_block else v_none) /\
  cascaded screen p_zindex (slide_place class up)
  = (if hasClass c_fading class then Some (js "1") else if hasClass c_visible class then Some (js "2") else None) /\
  cascaded print p_display (slide_place class up) = Some v_block.
Proof.
  intros [Hc Hn] Hup. unfold cascaded, Styles.cascaded.
  assert (Hpre : forall c, cp_classes c = [c_preview_area] ->
    matches_above in_state [(false, c)] (mkElement t_div c_slides_area :: up) = false).
  { intros c Ec. rewrite matches_above_one. cbn [existsb]. apply orb_false_iff. split.
    - unfold matches_compound. rewrite Ec. cbn [forallb el_class]. change (hasClass c_preview_area c_slides_area) with false.
      by rewrite !andb_false_r.
    - apply not_true_iff_false. intros (e & He & Hm)%existsb_exists. rewrite Forall_forall in Hup.
      specialize (Hup e (proj2 (list_elem_of_In _ _) He)). unfold matches_compound in Hm. rewrite Ec in Hm.
      cbn [forallb] in Hm. rewrite Hup in Hm. by rewrite !andb_false_r in Hm. }
  split_and!; rewrite (cascade_relevant in_state _ _ [c_container; c_visible; c_fading]) by exact Hn; apply_rules.
  all: rewrite ?Hpre, ?Hc by reflexivity; destruct (hasClass c_visible class), (hasClass c_fading class); reflexivity.
Qed.

(** The backdrop of the overlays: it hides the slides when the help is shown, in a pause of
    the presenter, and when the screen is blacked out for the audience. *)
Definition backdrop_place (tag class : jsstr) (up : list element) : place :=
  mkPlace (mkElement t_div c_backdrop) (mkElement tag class :: up).

(** No element around the container has the class of a mode. *)
Definition no_mode (e : element) : Prop :=
  hasClass c_help (el_class e) = false /\ hasClass c_pause (el_class e) = false /\ hasClass c_blackout (el_class e) = false.

Lemma backdrop_display (tag class : jsstr) (up : list element) :
  hasClass c_remark_container class = true -> Forall no_mode up ->
  cascaded screen p_display (backdrop_place tag class up)
  = Some (if hasClass c_help class || (hasClass c_presenter class && hasClass c_pause class)
             || (hasClass c_blackout class && negb (hasClass c_presenter class))
          then v_block else v_none).
Proof.
  intros Hc Hup. unfold cascaded, Styles.cascaded. rewrite (cascade_relevant in_state _ _ [c_backdrop]).
  2:{ cbn [backdrop_place pl_self el_class]. intros n. rewrite hasClass_elem, bool_decide_eq_true.
      change (getClasses c_backdrop) with [c_backdrop]. done. }
  assert (Hab : forall c m, m ∈ cp_classes c -> m = c_help \/ m = c_pause \/ m = c_blackout ->
    matches_above in_state [(false, c)] (mkElement tag class :: up) = matches_compound in_state c (mkElement tag class)).
  { intros c m Hm Hmode. rewrite matches_above_one. cbn [existsb]. rewrite orb_comm.
    assert (He : existsb (matches_compound in_state c) up = false); [|by rewrite He].
    apply not_true_iff_false. intros (e & He & Ha)%existsb_exists. rewrite Forall_forall in Hup.
    destruct (Hup e (proj2 (list_elem_of_In _ _) He)) as (H1 & H2 & H3). unfold matches_compound in Ha.
    rewrite !andb_true_iff, forallb_forall in Ha. destruct Ha as [[[_ Ha] _] _].
    specialize (Ha m (proj1 (list_elem_of_In _ _) Hm)). destruct Hmode as [-> |[-> | ->]]; congruence. }
  apply_rules.
  rewrite (Hab _ c_pause), (Hab _ c_help), (Hab _ c_blackout) by (try (cbn [cp_classes]; set_solver); auto).
  unfold matches_compound. cbn -[hasClass c_help c_pause c_blackout c_presenter c_remark_container c_backdrop]. rewrite Hc.
  change (hasClass c_backdrop c_backdrop) with true.
  destruct (hasClass c_help class), (hasClass c_pause class), (hasClass c_blackout class), (hasClass c_presenter class); reflexivity.
Qed.
End Display.

(** ** The classes that the views set *)

(** A container is displayed in one way at a time. *)
Definition container_ok (sv : slide_view) : Prop :=
  slide_classes (sv_class sv) /\ (hasClass c_visible (sv_class sv) = true -> hasClass c_fading (sv_class sv) = false).

Definition styled (v : view) : Prop :=
  Forall container_ok (slideViews v) /\ hasClass c_remark_container (containerClass v) = true.

Lemma fresh_ok id html notes : container_ok (mkSlideView id c_container html notes).
Proof.
  split; [split; [by vm_compute|]|by vm_compute]. intros n. rewrite hasClass_elem, bool_decide_eq_true.
  change (getClasses c_container) with [c_container]. set_solver.
Qed.

Lemma create_views_styled render renderNotes slides : forall id,
  Forall container_ok (create_views render renderNotes id slides).
Proof. induction slides as [|s l IH]; intros id; cbn [create_views]; [done|]. constructor; [apply fresh_ok|apply IH]. Qed.

Lemma visible_name : class_name c_visible.
Proof. literal_class. Qed.
Lemma fading_name : class_name c_fading.
Proof. literal_class. Qed.

Lemma show_styled sv : container_ok sv -> container_ok (show sv).
Proof.
  intros [[Hc Hn] _]. unfold show, container_ok, slide_classes. cbn [with_class sv_class].
  assert (Hs : forall n, hasClass n (removeClass c_fading (addClass c_visible (sv_class sv)))
    = negb (bool_decide (n = c_fading)) && (bool_decide (n = c_visible) || hasClass n (sv_class sv))).
  { intros n. by rewrite hasClass_remove, hasClass_add by exact visible_name. }
  rewrite !Hs, Hc. split_and!; [by vm_compute| |by vm_compute].
  intros n. rewrite Hs. intros [_ [->%bool_decide_eq_true_1|H]%orb_prop]%andb_prop; [set_solver|by apply Hn].
Qed.

Lemma hide_styled sv : container_ok sv -> container_ok (hide sv).
Proof.
  intros [[Hc Hn] _]. unfold hide, container_ok, slide_classes. cbn [with_class sv_class].
  assert (Hs : forall n, hasClass n (addClass c_fading (removeClass c_visible (sv_class sv)))
    = bool_decide (n = c_fading) || (negb (bool_decide (n = c_visible)) && hasClass n (sv_class sv))).
  { intros n. by rewrite hasClass_add, hasClass_remove by exact fading_name. }
  rewrite !Hs, Hc. split_and!; [by vm_compute| |by vm_compute].
  intros n. rewrite Hs. intros [->%bool_decide_eq_true_1|[_ H]%andb_prop]%orb_prop; [set_solver|by apply Hn].
Qed.

Lemma unfade_styled sv : container_ok sv -> container_ok (unfade sv).
Proof.
  intros [[Hc Hn] _]. unfold unfade, container_ok, slide_classes. cbn [with_class sv_class].
  rewrite !hasClass_remove, Hc. split_and!; [by vm_compute| |].
  - intros n. rewrite hasClass_remove. intros [_ H]%andb_prop. by apply Hn.
  - intros _. by rewrite bool_decide_eq_true_2.
Qed.

Lemma unfade_live_styled fuel : forall i l, Forall container_ok l -> Forall container_ok (unfade_live fuel i l).
Proof.
  induction fuel as [|fuel IH]; intros i l Hl; [done|]. cbn [unfade_live]. destruct (fading_positions l !! i); [|done].
  apply IH, Forall_alter; [done|]. intros sv _ Hsv. by apply unfade_styled.
Qed.

Lemma showSlide_styled i v v' : showSlide i v = Ok v' -> styled v -> styled v'.
Proof.
  unfold showSlide. destruct i as [z|]; [|done]. destruct (view_at v (Some z)); [|done]. intros [= <-] [Hf Hc].
  split; [|done]. apply Forall_alter; [done|]. intros sv' _ Hsv. by apply show_styled.
Qed.

Lemma view_event_styled render renderNotes sh cur e v v' :
  view_event render renderNotes sh cur e v = Ok v' -> styled v -> styled v'.
Proof.
  intros Hv [Hf Hc].
  assert (Ht : forall c, class_name c -> c_remark_container <> c -> styled (with_container (toggleClass c) v)).
  { intros c Hn Hne. split; [done|]. cbn [with_container containerClass]. by rewrite hasClass_toggle_ne. }
  destruct e; cbn [view_event] in Hv; try (by injection Hv as <-; apply Ht; [literal_class|]); try (by injection Hv as <-).
  - unfold on_hideSlide, hideSlide in Hv. destruct i as [z|]; [|done]. case_match; [|done]. injection Hv as <-.
    split; [|done]. apply Forall_alter; [exact (unfade_live_styled (S (length (slideViews v))) 0 _ Hf)|]. intros sv _ Hsv. by apply hide_styled.
  - unfold on_showSlide, notes_showSlide in Hv. apply rbind_ok in Hv as (w & Hw & Hv). destruct (view_at v i); [|done].
    injection Hw as <-. by eapply showSlide_styled.
  - unfold updateSlideViews in Hv. set (w := mkView _ _ _ _ _ _ _ _ _) in Hv. assert (Hw : styled w).
    { split; [|done]. apply create_views_styled. }
    case_match; [by eapply showSlide_styled|by injection Hv as <-].
  - injection Hv as <-. unfold on_forcePresenterMode. destruct (hasClass c_presenter _); [done|]. by apply (Ht c_presenter); [literal_class|].
  - injection Hv as <-. split; [done|]. unfold on_hideOverlay. cbn [with_container containerClass]. by rewrite !hasClass_remove, Hc.
Qed.

Lemma fade_timeout_styled v : styled v -> styled (fade_timeout v).
Proof.
  intros [Hf Hc]. unfold fade_timeout. destruct (pending v); [done|]. split; [|done]. cbn [slideViews].
  apply Forall_fmap. eapply Forall_impl; [exact Hf|]. intros sv Hsv. cbn. case_match; [by apply unfade_styled|done].
Qed.

Lemma newView_styled render renderNotes sh cur container v : newView render renderNotes sh cur container = Ok v -> styled v.
Proof.
  unfold newView, updateSlideViews. set (w := mkView _ _ _ _ _ _ _ _ _). assert (Hw : styled w).
  { split; [apply create_views_styled|]. cbn [w containerClass]. rewrite hasClass_add by literal_class. by vm_compute. }
  case_match; [intros Hs; by eapply showSlide_styled|by intros [= <-]].
Qed.

(** ** Properties *)

Section Theorems.
Context {E : Type} `{Emitter E handler}.
Context (render renderNotes : slide_vm -> jsstr).
Context (opts : nav_options) (topts : timer_options).
Context (macros : macro_env) (depth : nat) (sopts : show_options).
Context (in_state : compound -> element -> bool).

(** C7. What the audience sees, by the style sheet: in every reachable state of the program
    the container of the current slide is displayed on the screen, above the others; another
    is displayed only while it fades, below it, and in print all are.  The backdrop covers
    the slides exactly for the help, for a pause of the presenter and for the blackout of
    the audience.  The elements around the show have no class of a mode or of a preview. *)
Theorem session_displayed (a : session E) (tag : jsstr) (up : list element) :
  session_run render renderNotes opts topts macros depth sopts a ->
  hasClass c_preview_area (containerClass (a_view a)) = false ->
  Forall (fun e => hasClass c_preview_area (el_class e) = false /\ no_mode e) up ->
  let class := containerClass (a_view a) in
  (forall i sv, slideViews (a_view a) !! i = Some sv ->
     let p := slide_place (sv_class sv) (mkElement tag class :: up) in
     let is_current := bool_decide (currentSlideIndex (a_nav a) = Some (Z.of_nat i)) in
     let fades := hasClass c_fading (sv_class sv) in
     cascaded in_state screen p_display p = Some (if is_current || fades then v_block else v_none) /\
     cascaded in_state screen p_zindex p = (if is_current then Some (js "2") else if fades then Some (js "1") else None) /\
     cascaded in_state print p_display p = Some v_block) /\
  cascaded in_state screen p_display (backdrop_place tag class up)
  = Some (if hasClass c_help class || (hasClass c_presenter class && hasClass c_pause class)
             || (hasClass c_blackout class && negb (hasClass c_presenter class))
          then v_block else v_none).
Proof.
  intros Hr Hpre Hup. pose proof (session_run_ok _ _ _ _ _ _ _ _ Hr) as Hok.
  destruct (run_keeps render renderNotes opts topts macros depth sopts (fun _ => styled)
    (fun sh cur e v v' _ => view_event_styled render renderNotes sh cur e v v')
    (fun _ sh' cur => view_event_styled render renderNotes sh' cur E_slidesChanged) (fun _ => fade_timeout_styled) a
    (newView_styled render renderNotes) Hr) as [Hst Hc]. split.
  - intros i sv Hi. cbn zeta. rewrite <- (session_visible a i sv Hok Hi). rewrite Forall_forall in Hst.
    destruct (Hst sv (list_elem_of_lookup_2 _ _ _ Hi)) as [Hcl Hone].
    destruct (slide_display in_state (sv_class sv) (mkElement tag (containerClass (a_view a)) :: up) Hcl) as (-> & -> & ->).
    + constructor; [done|]. eapply Forall_impl; [exact Hup|]. by intros e [? _].
    + split; [done|]. split; [|done]. destruct (hasClass c_visible (sv_class sv)); [|done]. by rewrite (Hone eq_refl).
  - apply backdrop_display; [done|]. eapply Forall_impl; [exact Hup|]. by intros e [_ ?].
Qed.
End Theorems.

(** ** Witness *)

Definition no_state : compound -> element -> bool := fun _ _ => false.

Lemma session_displayed_witness :
  let class := containerClass (a_view sample_next) in
  let up := [mkElement (js "html") c_remark_container] in
  (forall i sv, slideViews (a_view sample_next) !! i = Some sv ->
     let p := slide_place (sv_class sv) (mkElement (js "body") class :: up) in
     let is_current := bool_decide (currentSlideIndex (a_nav sample_next) = Some (Z.of_nat i)) in
     let fades := hasClass c_fading (sv_class sv) in
     cascaded no_state screen p_display p = Some (if is_current || fades then v_block else v_none) /\
     cascaded no_state screen p_zindex p = (if is_current then Some (js "2") else if fades then Some (js "1") else None) /\
     cascaded no_state print p_display p = Some v_block) /\
  cascaded no_state screen p_display (backdrop_place (js "body") class up) = Some v_none.
Proof.
  apply (session_displayed no_html no_html opts0 default_timer_options no_macros 1 sample_options no_state sample_next (js "body")
    [mkElement (js "html") c_remark_container]).
  - apply (SR_step no_html no_html opts0 default_timer_options no_macros 1 sample_options 100 800 (Dom (Keydown page_down)) sample_session);
      [exact sample_session_run|exact I|vm_compute; reflexivity].
  - vm_compute. reflexivity.
  - constructor; [|constructor]. repeat split; vm_compute; reflexivity.
Defined.

(** After the page-down key in the sample deck: the slide before fades below the new one. *)
Example sample_stack :
  map (fun sv => let p := slide_place (sv_class sv) [mkElement (js "body") c_remark_container] in
                 (cascaded no_state screen p_display p, cascaded no_state screen p_zindex p)) (slideViews (a_view sample_next))
  = [(Some v_none, None); (Some v_block, Some (js "1")); (Some v_block, Some (js "2"))].
Proof. vm_compute. reflexivity. Qed.
