(* ===== verification/ChildElements.v ===== *)
(** * The elements of the layout (modules 23, 26 and 28)

    The slide show view adds the layout to its container and looks up the elements that it
    works with by their classes; so does the notes view in its area.  An element that is
    not found is undefined, which throws where one of its members is used.  The help that is
    part of the layout names the keys: its table is read and compared with what the keyboard
    listeners emit. *)

From S2P Require Import Prelude JsString JsRegExp RegExpFacts SlideParser SlideModel Slideshow Navigation Inputs.
From S2P Require Import Utils HljsStreams Html Page Resources.

(** ** Looking up elements *)

Definition a_class : jsstr := js "class".
Definition a_href : jsstr := js "href".

Definition attribute (name : jsstr) (n : enode) : option jsstr :=
  snd <$> List.find (fun a => bool_decide (a.1 = name)) (en_attrs n).
Definition className (n : enode) : jsstr := default [] (attribute a_class n).

(** The elements below a node and the node itself, in the order of the document. *)
Fixpoint elements_of (d : dom) : list (enode * list dom) :=
  match d with
  | DElem n l => (n, l) :: flat_map elements_of l
  | _ => []
  end.

(** [element.getElementsByClassName(c)] and [element.getElementsByTagName(t)] for the nodes
    inside of an element *)
Definition getElementsByClassName (c : jsstr) (l : list dom) : list (enode * list dom) :=
  List.filter (fun e => hasClass c (className e.1)) (flat_map elements_of l).
Definition getElementsByTagName (t : jsstr) (l : list dom) : list (enode * list dom) :=
  List.filter (fun e => bool_decide (en_tag e.1 = t)) (flat_map elements_of l).

(** [...[0]] *)
Definition first_by_class (c : string) (l : list dom) : option (enode * list dom) := head (getElementsByClassName (js c) l).

Definition defined {A} (member : string) (x : option A) : result A :=
  match x with
  | Some x => Ok x
  | None => Throw (TypeError (js "Cannot read property '" ++ js member ++ js "' of undefined"))
  end.

(** ** NotesView.prototype.configureElements *)

Record notes_elements := mkNotesElements {
  notesElement : enode * list dom;
  notesPreviewElement : enode * list dom;
  toolbarElement : enode * list dom;
  (** the hashes of the links, each with a listener of click *)
  toolbar_links : list jsstr
}.

(** [e.target.hash] of a link within the page *)
Definition link_hash (n : enode) : jsstr := default [] (attribute a_href n).

Definition configureElements (element : list dom) : result notes_elements :=
  let! notes := defined "addEventListener" (first_by_class "remark-notes" element) in
  let! preview := defined "addEventListener" (first_by_class "remark-notes-preview" element) in
  let! toolbar := defined "getElementsByTagName" (first_by_class "remark-toolbar" element) in
  Ok (mkNotesElements notes preview toolbar (map (fun e => link_hash e.1) (getElementsByTagName (js "a") toolbar.2))).

(** ** SlideshowView.prototype.configureChildElements *)

Record child_elements := mkChildElements {
  elementArea : option (enode * list dom);
  previewArea : option (enode * list dom);
  notesArea : enode * list dom;
  notesView : notes_elements;
  backdropElement : option (enode * list dom);
  helpElement : option (enode * list dom);
  timerElement : option (enode * list dom);
  pauseElement : option (enode * list dom)
}.

(** [children] are the nodes that the container had before. *)
Definition configureChildElements (children : list dom) : result child_elements :=
  let container := children ++ layout in
  let area := first_by_class "remark-slides-area" container in
  let preview := first_by_class "remark-preview-area" container in
  let! notes := defined "getElementsByClassName" (first_by_class "remark-notes-area" container) in
  let! view := configureElements notes.2 in
  Ok (mkChildElements area preview notes view
        (first_by_class "remark-backdrop" container) (first_by_class "remark-help" container)
        (first_by_class "remark-toolbar-timer" notes.2) (first_by_class "remark-pause" container)).

(** The classes that are looked up in the container. *)
Definition looked_up : list string :=
  ["remark-slides-area"; "remark-preview-area"; "remark-notes-area"; "remark-backdrop"; "remark-help"; "remark-pause"]%string.

Definition unused (children : list dom) : Prop :=
  forall c, c ∈ looked_up -> getElementsByClassName (js c) children = [].

Lemma first_unused c children : unused children -> c ∈ looked_up ->
  first_by_class c (children ++ layout) = first_by_class c layout.
Proof.
  intros Hu Hc. unfold first_by_class, getElementsByClassName. rewrite flat_map_app, List.filter_app.
  specialize (Hu c Hc). unfold getElementsByClassName in Hu. by rewrite Hu.
Qed.

(** The elements that are found when the container was empty. *)
Definition layout_elements : result child_elements := Eval vm_compute in configureChildElements [].

(** Whatever the container had before, as long as none of its elements has one of the classes
    that are looked up: nothing throws, the elements of the layout are found, all of them,
    and every link of the toolbar has a command. *)
Theorem layout_found (children : list dom) : unused children ->
  exists e, configureChildElements children = Ok e /\ Ok e = layout_elements /\
    elementArea e <> None /\ previewArea e <> None /\ backdropElement e <> None /\ helpElement e <> None /\
    timerElement e <> None /\ pauseElement e <> None /\
    toolbar_links (notesView e) = [js "#increase"; js "#decrease"] /\
    Forall (fun h => exists c, toolbar_command h = Ok c) (toolbar_links (notesView e)).
Proof.
  intros Hu. assert (Hin : forall c, bool_decide (c ∈ looked_up) = true -> first_by_class c (children ++ layout) = first_by_class c layout).
  { intros c Hc%bool_decide_eq_true_1. by apply first_unused. }
  unfold configureChildElements. rewrite !Hin by (vm_compute; reflexivity).
  eexists. split; [vm_compute; reflexivity|]. split; [vm_compute; reflexivity|].
  repeat (split; [vm_compute; discriminate|]). split; [vm_compute; reflexivity|].
  repeat constructor; eexists; vm_compute; reflexivity.
Qed.

Lemma layout_found_witness :
  exists e, configureChildElements [DElem (mkENode 0 (js "textarea") [(js "id", js "source")]) [DText (js "# Hello")]] = Ok e /\
    Ok e = layout_elements.
Proof.
  destruct (layout_found [DElem (mkENode 0 (js "textarea") [(js "id", js "source")]) [DText (js "# Hello")]]) as (e & H1 & H2 & _).
  - intros c _. unfold getElementsByClassName. cbn. by destruct (hasClass (js c) []) eqn:E; [vm_compute in E|].
  - by exists e.
Defined.

(** ** The help *)

(** The rows of the tables: the names of the keys, and what they are for. *)
Definition text_of (l : list dom) : jsstr := trim (textContent l).
Definition help_row (cells : list (enode * list dom)) : option (list jsstr * jsstr) :=
  match cells with
  | [keys; meaning] => Some (map (fun e => text_of e.2) (getElementsByClassName (js "key") keys.2), text_of meaning.2)
  | _ => None
  end.
Definition help_rows : list (list jsstr * jsstr) :=
  Eval vm_compute in omap (fun row => help_row (getElementsByTagName (js "td") row.2)) (getElementsByTagName (js "tr") layout).

(** What a browser reports for a key: the code of a key that has one, and the character. *)
Definition key_code (n : N) : input := Keydown (mkKey false false false false n n).
Definition key_codes : list (jsstr * N) :=
  [(js "&uarr;", 38%N); (js "&larr;", 37%N); (js "Pg Up", 33%N); (js "&darr;", 40%N); (js "&rarr;", 39%N); (js "Pg Dn", 34%N);
   (js "Space", 32%N); (js "Home", 36%N); (js "End", 35%N); (js "Return", 13%N); (js "Esc", 27%N)].
Definition key_input (name : jsstr) : option input :=
  match List.find (fun k => bool_decide (k.1 = name)) key_codes, name with
  | Some (_, n), _ => Some (key_code n)
  | None, [c] => Some (Keypress (plain c))
  | _, _ => None
  end.

(** What a key emits while the digits [d] have been typed. *)
Definition pressed (i : input) (d : jsstr) : list iout :=
  match i with Keydown e => snd (keydown e d) | Keypress e => snd (keypress e d) | _ => [] end.

(** The events that the help promises, for all keys of a row or one for each. *)
Definition meanings (d : jsstr) : list (jsstr * list event) :=
  [(js "Go to previous slide", [E_gotoPreviousSlide]); (js "Go to next slide", [E_gotoNextSlide]);
   (js "Go to first slide", [E_gotoFirstSlide]); (js "Go to last slide", [E_gotoLastSlide]);
   (js "Go to specific slide", [E_gotoSlideNumber d]);
   (js "Toggle blackout / mirrored / fullscreen mode", [E_toggleBlackout None; E_toggleMirrored; E_toggleFullscreen]);
   (js "Clone slideshow", [E_createClone]); (js "Toggle presenter mode", [E_togglePresenterMode]);
   (js "Start & Stop the presentation timer", [E_toggleTimer]); (js "Reset the presentation timer", [E_resetTimer]);
   (js "Toggle this help", [E_toggleHelp]); (js "Back to slideshow", [E_hideOverlay])].

Definition promised (d meaning : jsstr) (keys : nat) : option (list event) :=
  match List.find (fun m => bool_decide (m.1 = meaning)) (meanings d) with
  | Some (_, [e]) => Some (replicate keys e)
  | Some (_, es) => Some es
  | None => None
  end.

(** The help is right: every key that it names, pressed after some digits, emits the event
    that it promises. *)
Theorem help_keys (d : jsstr) : d <> [] ->
  length help_rows = 12 /\
  Forall (fun row => exists es, promised d row.2 (length row.1) = Some es /\
    Forall2 (fun k e => exists i, key_input k = Some i /\ IEmit e ∈ pressed i d) row.1 es) help_rows.
Proof.
  intros Hd. destruct d as [|c d]; [done|]. split; [reflexivity|].
  assert (Hk : forall k e i, key_input k = Some i -> head (pressed i (c :: d)) = Some (IEmit e) ->
    exists i, key_input k = Some i /\ IEmit e ∈ pressed i (c :: d)).
  { intros k e i Hi Hp. exists i. split; [done|]. destruct (pressed i (c :: d)) as [|o os]; [done|]. injection Hp as ->. by left. }
  unfold help_rows. repeat (apply Forall_cons; split; [|]); [..|done];
    (eexists; split; [vm_compute; reflexivity|]); repeat (apply Forall2_cons; split); try done;
    (eapply Hk; [vm_compute; reflexivity|vm_compute; reflexivity]).
Qed.

Lemma help_keys_witness : length help_rows = 12.
Proof. apply (help_keys (js "3")). discriminate. Defined.
