(* ===== verification/CodeBlocks.v ===== *)
(** * Code blocks of slides (module 27)

    [highlightCodeBlocks] takes the marks of highlighted lines out of a block, runs the
    syntax highlighter on it, puts every line into an element of its own and marks lines
    and spans.  A block is given by its nodes; markup is written and read through
    [Class Browser].  Code elements are not nested. *)

From S2P Require Import Prelude JsString JsRegExp RegExpFacts RegExpCounts Utils MarkedInline Converter HljsStreams HljsModes Hljs HljsFacts HljsLanguages HljsTotal HljsBlock Html.

(** ** Code blocks *)

Definition re_line : regexp := Eval vm_compute in re "\r?\n" "".
Definition re_star : regexp := Eval vm_compute in re "^\*( )?" "".
Definition re_backticks : regexp := Eval vm_compute in re "([^`])`([^`]+?)`" "g".

(** A line that starts with a star is highlighted, and the star removed. *)
Definition is_marked (line : jsstr) : bool := bool_decide (indexOf line (js "*") = Some 0).
Definition unmark (line : jsstr) : jsstr := if is_marked line then replace re_star (js "$1$1") line else line.

Fixpoint marked_from (i : nat) (lines : list jsstr) : list nat :=
  match lines with
  | [] => []
  | l :: t => if is_marked l then i :: marked_from (S i) t else marked_from (S i) t
  end.

(** [extractMetadata(block)]: the new markup of the block and the highlighted lines *)
Definition extractMetadata (innerHTML : jsstr) : jsstr * list nat :=
  let lines := split_re re_line innerHTML in (join nl (map unmark lines), marked_from 0 lines).

Definition wrap_line (line : jsstr) : jsstr :=
  js "<div class=＂remark-code-line＂>" ++ line ++ js "</div>".

(** The lines that [wrapLines] joins: the last one is dropped when it is empty, or
    contains an end of a tag followed by a start. *)
Definition wrapped_lines (innerHTML : jsstr) : list jsstr :=
  let lines := map wrap_line (split_re re_line innerHTML) in
  match last lines with
  | Some l => match indexOf l (js "><") with Some _ => take (length lines - 1) lines | None => lines end
  | None => lines
  end.

Definition wrapLines (innerHTML : jsstr) : jsstr := join [] (wrapped_lines innerHTML).

Definition c_line : jsstr := js "remark-code-line".
Definition c_highlighted : jsstr := js "remark-code-line-highlighted".

(** [element.className] *)
Definition a_class : jsstr := Eval vm_compute in js "class".
Definition node_class (d : dom) : jsstr :=
  match d with DElem n _ => default [] (oget a_class (en_attrs n)) | _ => [] end.

(** [utils.addClass(node, name)]; a text node has no class to show *)
Definition node_addClass (name : jsstr) (d : dom) : dom :=
  match d with
  | DElem n l => DElem (mkENode (en_id n) (en_tag n) (oset a_class (addClass name (node_class d)) (en_attrs n))) l
  | d => d
  end.

(** [highlightBlockLines(block, lines)] on the child nodes of the block *)
Fixpoint highlightBlockLines (nodes : list dom) (lines : list nat) : result (list dom) :=
  match lines with
  | [] => Ok nodes
  | i :: lines =>
      match nodes !! i with
      | Some d => highlightBlockLines (<[i := node_addClass c_highlighted d]> nodes) lines
      | None => Throw (TypeError (js "Cannot read property 'className' of undefined"))
      end
  end.

(** The option highlightSpans. *)
Inductive spans := SpansTrue | SpansRegExp (source : jsstr) (fl : flags) (flags_text : jsstr) | SpansOther.

Definition spans_pattern (s : spans) : result regexp :=
  match s with
  | SpansTrue => Ok re_backticks
  | SpansRegExp source fl text =>
      if f_global fl then
        match newRegExp (js "([^])" ++ source) text with
        | Some r => Ok r
        | None => Throw (Error (js "SyntaxError"))
        end
      else Throw (Error (js "The regular expression in `highlightSpans` must have flag /g"))
  | SpansOther => Throw (Error (js "Illegal value for `highlightSpans`"))
  end.

(** What a match becomes: a span, or the text without the escaping backslash.  When the
    pattern has no second group, the third argument of the function is the offset. *)
Definition span_of (m : mres) : jsstr :=
  let e := default (js "undefined") (cap m 1) in
  let c := if (length (m_caps m) <=? 2)%nat then dec (N.of_nat (m_index m))
           else default (js "undefined") (cap m 2) in
  if bool_decide (e = [92%N]) then drop 1 (cap0 m)
  else e ++ js "<span class=＂remark-code-span-highlighted＂>" ++ c ++ js "</span>".

Fixpoint rmap {A B} (f : A -> result B) (l : list A) : result (list B) :=
  match l with
  | [] => Ok []
  | x :: l => let! y := f x in let! ys := rmap f l in Ok (y :: ys)
  end.

(** A code element: its class, whether its parent is a PRE element, the class of its
    parent, its nodes. *)
Record block := mkBlock { b_class : jsstr; b_pre : bool; b_parent : jsstr; b_nodes : list dom }.

Definition with_class (c : jsstr) (b : block) : block := mkBlock c (b_pre b) (b_parent b) (b_nodes b).
Definition with_nodes (l : list dom) (b : block) : block := mkBlock (b_class b) (b_pre b) (b_parent b) l.

Record code_options := mkCode {
  highlightLanguage : jsstr;
  highlightLines : bool;
  highlightSpans : option spans;
  highlightInline : bool
}.

Section CodeBlocks.
Context `{Browser} (opts : hl_options) (reg : registry) (fuel depth : nat).

(** [highlightBlockSpans(block, highlightSpans)]; only elements have markup *)
Definition highlightBlockSpans (s : spans) (nodes : list dom) : result (list dom) :=
  let! pattern := spans_pattern s in
  rmap (fun d =>
      match d with
      | DElem n l => Ok (DElem n (parseHTML (replace_fun pattern span_of (innerHTML l))))
      | _ => Throw (TypeError (js "Cannot read property 'replace' of undefined"))
      end) nodes.

(** [highlighter.engine.highlightBlock(block, ...)]: what it assigns to the block *)
Definition engine_highlightBlock (b : block) : M block :=
  let* r := highlightBlock innerHTML parseHTML opts reg fuel depth
              (mkHBlock (b_class b) (Some (b_parent b)) (b_nodes b)) in
  ret (match r with
       | Some out => mkBlock (hd_class out) (b_pre b) (b_parent b) (hd_nodes out)
       | None => b
       end).

(** One round of [highlightCodeBlocks] *)
Definition highlightCodeBlock (o : code_options) (b : block) : M block :=
  let b := if bool_decide (b_class b = []) then with_class (highlightLanguage o) b else b in
  if negb (b_pre b) then
    let b := with_class (addClass (js "remark-inline-code") (b_class b)) b in
    if highlightInline o then engine_highlightBlock b else ret b
  else
    let '(b, lines) :=
      if highlightLines o then
        let '(h, lines) := extractMetadata (innerHTML (b_nodes b)) in (with_nodes (parseHTML h) b, lines)
      else (b, []) in
    let* b := (if bool_decide (b_class b = []) then ret b else engine_highlightBlock b) in
    let* nodes := lift (highlightBlockLines (parseHTML (wrapLines (innerHTML (b_nodes b)))) lines) in
    let* nodes := lift (match highlightSpans o with
                        | Some s => highlightBlockSpans s nodes
                        | None => Ok nodes
                        end) in
    ret (mkBlock (addClass (js "remark-code") (b_class b)) true (b_parent b) nodes).

Definition highlightCodeBlocks (o : code_options) (bs : list block) : M (list block) := mmap (highlightCodeBlock o) bs.
End CodeBlocks.

(** ** Lines *)

Lemma split_on_nonempty c s : split_on c s <> [].
Proof. destruct s as [|x s]; [done|]. cbn [split_on]. destruct (x =? c)%N; [done|]. by destruct (split_on c s). Qed.

(** Splitting at the ends of lines. *)
Lemma re_line_here pos prev c t :
  c <> 13%N ->
  match match_here re_line pos prev (c :: t) with
  | Some m => c = 10%N /\ cap0 m = [c]
  | None => c <> 10%N
  end.
Proof.
  intros Hc. unfold match_here. cbn [re_node re_line re_flags re_ngroups]. cbn [mtch groups].
  cbn [rep_loop clear_caps fold_left char_step advance st_rest Nat.add length].
  unfold char_step at 1. cbn [advance st_rest]. unfold canon. cbn [f_icase].
  rewrite (proj2 (N.eqb_neq c 13) Hc). unfold char_step. cbn [advance st_rest].
  destruct (N.eqb_spec c 10) as [->|Hn]; [|done]. cbn [st_pos]. split; [done|].
  unfold cap0, cap. cbn. by replace (S pos - pos) with 1 by lia.
Qed.

Lemma split_go_line rest : forall fuel pos prev acc,
  length rest < fuel -> (13%N ∉ rest) ->
  split_go re_line fuel pos prev acc rest =
    match split_on 10 rest with h :: r => (rev acc ++ h) :: r | [] => [] end.
Proof.
  induction rest as [|c t IH]; intros [|fuel] pos prev acc Hf Hr; simpl in Hf; try lia.
  - cbn. by rewrite app_nil_r.
  - apply not_elem_of_cons in Hr as [Hc Hr]. cbn [split_go split_on].
    pose proof (re_line_here pos prev c t ltac:(congruence)) as Hm.
    destruct (match_here re_line pos prev (c :: t)) as [m|].
    + destruct Hm as [-> ->]. cbn [length Nat.eqb andb drop]. rewrite N.eqb_refl, app_nil_r.
      rewrite drop_0, IH by (done || lia). destruct (split_on 10 t) as [|h r] eqn:E; [|done].
      by apply split_on_nonempty in E.
    + rewrite (proj2 (N.eqb_neq c 10) Hm), IH by (done || lia). cbn [rev].
      destruct (split_on 10 t) as [|h r] eqn:E.
      * by apply split_on_nonempty in E.
      * by rewrite <- app_assoc.
Qed.

Lemma split_lines s : (13%N ∉ s) -> split_re re_line s = split_on 10 s.
Proof.
  intros Hs. destruct s as [|c t]; [done|].
  change (split_re re_line (c :: t)) with (split_go re_line (S (2 * length (c :: t))) 0 None [] (c :: t)).
  rewrite split_go_line by (done || lia). by destruct (split_on 10 (c :: t)).
Qed.

Lemma unmark_space t : unmark (42%N :: 32%N :: t) = 32%N :: 32%N :: t.
Proof. reflexivity. Qed.

Lemma unmark_other t : head t <> Some 32%N -> unmark (42%N :: t) = t.
Proof.
  intros Ht. unfold unmark. change (is_marked (42%N :: t)) with true. cbv iota.
  destruct t as [|c t]; [reflexivity|].
  assert (Hc : c <> 32%N) by (intros ->; done).
  assert (E : exec re_star (42%N :: c :: t) = Some (mkRes 0 [Some [42%N]; None])).
  { rewrite exec_anchored by done. unfold match_here. cbn. unfold canon. cbn.
    by rewrite (proj2 (N.eqb_neq c 32) Hc). }
  unfold replace, replace_fun. cbn [f_global re_flags re_star]. rewrite E. reflexivity.
Qed.

Lemma is_marked_head l : is_marked l = true -> exists t, l = 42%N :: t.
Proof.
  unfold is_marked. destruct l as [|c t]; [done|]. rewrite bool_decide_eq_true. cbn [indexOf starts_with].
  change (js "*") with [42%N]. cbn [starts_with]. destruct (N.eqb_spec 42 c) as [<-|]; [eauto|].
  simpl. by destruct (indexOf t [42%N]).
Qed.

(** Removing the mark adds no other character than a space. *)
Lemma unmark_elem x l : x ∈ unmark l -> x = 32%N \/ x ∈ l.
Proof.
  unfold unmark at 1. destruct (is_marked l) eqn:E; [|auto]. destruct (is_marked_head l E) as [t ->].
  change (replace re_star (js "$1$1") (42%N :: t)) with (unmark (42%N :: t)).
  destruct (decide (head t = Some 32%N)) as [Ht|Ht].
  - destruct t as [|c t]; [done|]. injection Ht as ->. rewrite unmark_space. set_solver.
  - rewrite unmark_other by done. set_solver.
Qed.


Lemma unmark_length l : length (unmark l) <= length l.
Proof.
  destruct (is_marked l) eqn:E; [|unfold unmark; rewrite E; done]. destruct (is_marked_head l E) as [t ->].
  destruct (decide (head t = Some 32%N)) as [Ht|Ht]; [|rewrite unmark_other by done; simpl; lia].
  destruct t as [|c t]; [done|]. injection Ht as ->. rewrite unmark_space. simpl. lia.
Qed.

(** Escaping keeps the marks. *)
Abbreviation esc := (flat_map html_char).

Lemma html_char_head x c t : x <> 38%N -> head (html_char c ++ t) = Some x -> c = x.
Proof.
  intros Hx. unfold html_char. repeat (case_match; [by intros [= <-]|]). by intros [= ->].
Qed.

Lemma head_esc x l : x <> 38%N -> x <> 60%N -> x <> 62%N -> x <> 160%N -> head (esc l) = Some x <-> head l = Some x.
Proof.
  intros H1 H2 H3 H4. destruct l as [|c t]; [done|]. cbn [flat_map]. split.
  - intros H%html_char_head; [by rewrite H|done].
  - intros [= ->]. unfold html_char. by rewrite !(proj2 (N.eqb_neq x _)) by done.
Qed.

Lemma is_marked_iff l : is_marked l = true <-> head l = Some 42%N.
Proof.
  split; [intros (t & ->)%is_marked_head; done|]. destruct l as [|c t]; [done|]. by intros [= ->].
Qed.

Lemma is_marked_esc l : is_marked (esc l) = is_marked l.
Proof. apply eq_true_iff_eq. rewrite !is_marked_iff. by apply head_esc. Qed.

Lemma unmark_esc l : unmark (esc l) = esc (unmark l).
Proof.
  destruct (is_marked l) eqn:E.
  - destruct (is_marked_head l E) as [t ->]. change (esc (42%N :: t)) with (42%N :: esc t).
    destruct (decide (head t = Some 32%N)) as [Ht|Ht].
    + destruct t as [|c t]; [done|]. injection Ht as ->. rewrite unmark_space.
      change (esc (32%N :: t)) with (32%N :: esc t). by rewrite unmark_space.
    + rewrite !unmark_other; [done|done|]. by rewrite head_esc.
  - unfold unmark. by rewrite is_marked_esc, E.
Qed.

(** Characters that no reference contains. *)
Lemma esc_elem x l : x = 10%N \/ x = 13%N -> x ∈ esc l -> x ∈ l.
Proof.
  intros Hx. rewrite !list_elem_of_In, in_flat_map. intros (c & Hc & H). enough (c = x) as -> by done.
  revert H. unfold html_char. destruct Hx as [-> | ->];
    (repeat (case_match; [vm_compute; intuition discriminate|])); by intros [->|[]].
Qed.

Lemma esc_join ls : esc (join nl ls) = join nl (map esc ls).
Proof.
  induction ls as [|l ls IH]; [done|]. destruct ls as [|x ls]; [done|].
  change (join nl (l :: x :: ls)) with (l ++ nl ++ join nl (x :: ls)). rewrite !List.flat_map_app, IH. done.
Qed.

(** A line of code: no end of a line, and no null character. *)
Definition line_ok (l : jsstr) : Prop := (10%N ∉ l) /\ forallb text_char l = true.

Lemma text_char_not x l : forallb text_char l = true -> text_char x = false -> x ∉ l.
Proof. intros H Hx Hin%list_elem_of_In. apply (proj1 (forallb_forall _ _) H) in Hin. congruence. Qed.

Lemma line_ok_no l : line_ok l -> (10%N ∉ l) /\ (13%N ∉ l).
Proof. intros [H1 H2]. split; [done|]. by eapply text_char_not. Qed.

Lemma forallb_elem {A} (f : A -> bool) l l' : (forall x, x ∈ l -> x ∈ l') -> forallb f l' = true -> forallb f l = true.
Proof. intros H Hl. apply forallb_forall. intros x Hx. apply (proj1 (forallb_forall _ _) Hl), list_elem_of_In, H. by apply list_elem_of_In. Qed.

Lemma unmark_line_ok l : line_ok l -> line_ok (unmark l).
Proof.
  intros [H1 H2]. split.
  - by intros [H|H]%unmark_elem.
  - apply forallb_forall. intros x Hx%list_elem_of_In%unmark_elem. destruct Hx as [->|Hx%list_elem_of_In]; [done|].
    by apply (proj1 (forallb_forall _ _) H2).
Qed.

(** The text of the lines, each with its end. *)
Definition code_text (ls : list jsstr) : jsstr := join nl (ls ++ [[]]).

Lemma join_text_char ls : Forall line_ok ls -> forallb text_char (join nl ls) = true.
Proof.
  induction 1 as [|l ls [_ Hl] Hls IH]; [done|]. destruct ls as [|x ls]; [done|].
  change (join nl (l :: x :: ls)) with (l ++ nl ++ join nl (x :: ls)). by rewrite !forallb_app, Hl, IH.
Qed.

Lemma lines_end ls : Forall line_ok ls -> Forall line_ok (ls ++ [[]]).
Proof. intros H. apply Forall_app. split; [done|]. apply List.Forall_cons; [|apply List.Forall_nil]. split; [apply not_elem_of_nil|done]. Qed.

Lemma code_text_ok ls : Forall line_ok ls -> forallb text_char (code_text ls) = true.
Proof. intros H. by apply join_text_char, lines_end. Qed.

Lemma split_code ls : Forall line_ok ls -> split_on 10 (code_text ls) = ls ++ [[]].
Proof.
  intros H%lines_end. apply split_join; [by destruct ls|]. eapply Forall_impl; [exact H|]. by intros l [? _].
Qed.

Lemma code_text_length ls : length (code_text (map unmark ls)) <= length (code_text ls).
Proof.
  unfold code_text. induction ls as [|l ls IH]; [done|]. cbn [map app].
  assert (E : forall x y, join nl (x :: y ++ [[]]) = x ++ nl ++ join nl (y ++ [[]])) by (intros x [|z y]; done).
  rewrite !E, !length_app. pose proof (unmark_length l). lia.
Qed.

Lemma marked_from_end i ls : marked_from i (ls ++ [[]]) = marked_from i ls.
Proof. revert i. induction ls as [|l ls IH]; intros i; [done|]. cbn [app marked_from]. by rewrite !IH. Qed.

Lemma marked_from_esc ls : forall i, marked_from i (map esc ls) = marked_from i ls.
Proof. induction ls as [|l ls IH]; intros i; [done|]. cbn [map marked_from]. by rewrite is_marked_esc, !IH. Qed.

(** The marks of a text that ends in a line feed. *)
Lemma extractMetadata_code ls : Forall line_ok ls ->
  extractMetadata (esc (code_text ls)) = (esc (code_text (map unmark ls)), marked_from 0 ls).
Proof.
  intros H. unfold extractMetadata. rewrite split_lines.
  2: { intros Hx%esc_elem; [|by right]. revert Hx. eapply text_char_not; [by apply code_text_ok|done]. }
  assert (Es : split_on 10 (esc (code_text ls)) = map esc (ls ++ [[]])).
  { unfold code_text. rewrite esc_join. apply split_join; [by destruct ls|]. apply Forall_map.
    eapply Forall_impl; [by apply lines_end|]. intros l [Hl _] Hx%esc_elem; [done|by left]. }
  rewrite Es, marked_from_esc, marked_from_end. f_equal. unfold code_text.
  replace (map unmark ls ++ [[]]) with (map unmark (ls ++ [[]])) by (by rewrite map_app).
  rewrite esc_join, !map_map. f_equal. apply map_ext. intros l. apply unmark_esc.
Qed.

(** ** Lines of tokens *)

(** The tokens line by line. *)
Fixpoint glue (pieces : list jsstr) (lines : list (list tok)) : list (list tok) :=
  match pieces with
  | [] => lines
  | [p] => match lines with l :: lines => (KText p :: l) :: lines | [] => [[KText p]] end
  | p :: pieces => [KText p] :: glue pieces lines
  end.

Fixpoint tok_lines (ks : list tok) : list (list tok) :=
  match ks with
  | [] => [[]]
  | KText s :: ks => glue (split_on 10 s) (tok_lines ks)
  | k :: ks => match tok_lines ks with l :: lines => (k :: l) :: lines | [] => [[k]] end
  end.

Lemma tok_lines_nonempty ks : tok_lines ks <> [].
Proof.
  induction ks as [|[s|t a|t] ks IH]; cbn [tok_lines]; [done| |by destruct (tok_lines ks)..].
  destruct (split_on 10 s) as [|p [|q ps]] eqn:E; [by apply split_on_nonempty in E| |done]. cbn [glue]. by destruct (tok_lines ks).
Qed.

(** A function of tokens that takes concatenation to concatenation, and the lines of a
    text to lines, takes the lines of the tokens to lines. *)
Section Lines.
Context (F : list tok -> jsstr) (G : jsstr -> jsstr).
Hypothesis F_app : forall a b, F (a ++ b) = F a ++ F b.
Hypothesis F_text : forall s, F [KText s] = G s.
Hypothesis G_join : forall l, G (join nl l) = join nl (map G l).

Lemma join_cons2 x y l : join nl (x :: y :: l) = x ++ nl ++ join nl (y :: l).
Proof. done. Qed.
Lemma join_head x y l : join nl ((x ++ y) :: l) = x ++ join nl (y :: l).
Proof. destruct l; [done|]. cbn [join]. by rewrite <- app_assoc. Qed.

Lemma glue_join ps lines : ps <> [] -> lines <> [] ->
  join nl (map F (glue ps lines)) = join nl (map G ps) ++ join nl (map F lines).
Proof.
  intros Hp Hl. induction ps as [|p ps IH]; [done|]. destruct ps as [|q ps].
  - cbn [glue map]. destruct lines as [|l lines]; [done|]. cbn [map].
    change (KText p :: l) with ([KText p] ++ l). by rewrite F_app, F_text, join_head.
  - change (glue (p :: q :: ps) lines) with ([KText p] :: glue (q :: ps) lines). cbn [map].
    specialize (IH ltac:(done)). destruct (glue (q :: ps) lines) as [|g gs] eqn:Eg.
    { destruct ps; cbn [glue] in Eg; [by destruct lines|done]. }
    cbn [map] in *. rewrite !join_cons2, IH, F_text, <- !app_assoc. done.
Qed.

Lemma tok_lines_join ks : F [] = [] -> join nl (map F (tok_lines ks)) = F ks.
Proof.
  intros F0. assert (Hc : forall k ks, F (k :: ks) = F [k] ++ F ks) by (intros; by rewrite <- F_app).
  induction ks as [|[s|t a|t] ks IH]; cbn [tok_lines]; [done| | |].
  - rewrite glue_join, IH, <- G_join by (apply split_on_nonempty || apply tok_lines_nonempty).
    unfold nl at 1, c_nl. by rewrite join_split, (Hc (KText s)), F_text.
  - pose proof (tok_lines_nonempty ks) as Hn. destruct (tok_lines ks) as [|l lines]; [done|]. cbn [map].
    by rewrite (Hc _ l), join_head, (Hc _ ks), <- IH.
  - pose proof (tok_lines_nonempty ks) as Hn. destruct (tok_lines ks) as [|l lines]; [done|]. cbn [map].
    by rewrite (Hc _ l), join_head, (Hc _ ks), <- IH.
Qed.
End Lines.

(** What holds of the tokens, and of the lines of the texts, holds of the tokens of the lines. *)
Lemma tok_lines_Forall (P Q : tok -> Prop) ks :
  (forall s p, P (KText s) -> p ∈ split_on 10 s -> Q (KText p)) ->
  (forall k, P k -> tok_text k = [] -> Q k) ->
  Forall P ks -> Forall (Forall Q) (tok_lines ks).
Proof.
  intros Hs Ht. assert (Hg : forall ps lines, Forall (fun p => Q (KText p)) ps -> Forall (Forall Q) lines -> Forall (Forall Q) (glue ps lines)).
  { induction ps as [|p ps IH]; intros lines Hp Hl; [done|]. apply Forall_cons in Hp as [H1 H2]. destruct ps as [|q ps].
    - cbn [glue]. destruct lines as [|l lines]; [by repeat constructor|]. apply Forall_cons in Hl as [H3 H4]. by repeat constructor.
    - change (glue (p :: q :: ps) lines) with ([KText p] :: glue (q :: ps) lines). constructor; [by repeat constructor|auto]. }
  assert (Hn : forall k lines, Q k -> Forall (Forall Q) lines ->
    Forall (Forall Q) (match lines with l :: lines => (k :: l) :: lines | [] => [[k]] end)).
  { intros k [|l lines] Hk Hl; [by repeat constructor|]. apply Forall_cons in Hl as [? ?]. by repeat constructor. }
  induction 1 as [|k ks Hk Hks IH]; [by repeat constructor|]. destruct k as [s|t a|t]; cbn [tok_lines]; [|apply Hn; auto..].
  apply Hg; [|done]. apply Forall_forall. eauto.
Qed.

(** Tags contain no end of a line. *)
Lemma forallb_not f x (l : jsstr) : forallb f l = true -> f x = false -> x ∉ l.
Proof. intros H Hx Hin%list_elem_of_In. apply (proj1 (forallb_forall _ _) H) in Hin. congruence. Qed.

Lemma tag_no x t attrs : x = 10%N \/ x = 13%N -> tag_ok t = true -> forallb attr_ok attrs = true ->
  (x ∉ start_tag t attrs) /\ (x ∉ end_tag t).
Proof.
  intros Hx Ht Ha. assert (Hn : x ∉ t).
  { destruct (tag_chars t Ht) as (Hc & _). apply (forallb_not name_char); [|by destruct Hx as [-> | ->]].
    apply forallb_forall. intros c Hin%list_elem_of_In. exact (proj1 (Forall_forall _ _) Hc c Hin). }
  assert (Hp : (x ∉ js "<") /\ (x ∉ js "</") /\ (x ∉ js ">") /\ (x ∉ js " ") /\ (x ∉ js "=＂") /\ (x ∉ js "＂"))
    by (destruct Hx as [-> | ->]; (split_and!; by apply (bool_decide_unpack _))).
  destruct Hp as (P1 & P2 & P3 & P4 & P5 & P6). split.
  - unfold start_tag. rewrite !not_elem_of_app. split_and!; try done.
    induction attrs as [|[n v] attrs IH]; [apply not_elem_of_nil|]. cbn [map concat]. cbn [forallb] in Ha.
    apply andb_prop in Ha as [Ha1 Ha2]. unfold attr_ok in Ha1. cbn [fst snd] in Ha1.
    apply andb_prop in Ha1 as [[H1 _]%andb_prop H2]. unfold attr_text. cbn [fst snd]. rewrite !not_elem_of_app.
    split_and!; try done; [| |by apply IH]; (eapply forallb_not; [done|by destruct Hx as [-> | ->]]).
  - unfold end_tag. rewrite !not_elem_of_app. done.
Qed.

Lemma markup_no x ks : x = 10%N \/ x = 13%N -> forallb tok_ok ks = true -> Forall (fun k => x ∉ tok_text k) ks ->
  x ∉ markup ks.
Proof.
  intros Hx Hk. induction 1 as [|k ks H1 _ IH]; [apply not_elem_of_nil|]. cbn [forallb] in Hk.
  apply andb_prop in Hk as [K1 K2]. unfold markup in *. cbn [map concat]. rewrite not_elem_of_app. split; [|auto].
  destruct k as [s|t a|t]; cbn [tok_ok tok_markup tok_text] in *.
  - by intros H%esc_elem.
  - apply andb_prop in K1 as [T1 T2]. by apply tag_no.
  - by apply (tag_no x t []).
Qed.

(** The lines of nested markup. *)
Lemma split_piece_ok s p : p ∈ split_on 10 s -> forallb text_char s = true -> forallb text_char p = true.
Proof.
  intros Hp. apply forallb_elem. intros x Hx. rewrite <- (join_split 10 s). revert Hp Hx. generalize (split_on 10 s).
  induction l as [|q l IH]; intros Hp Hx; [by apply elem_of_nil in Hp|].
  apply elem_of_cons in Hp as [->|Hp].
  - destruct l; [done|]. cbn [join]. apply elem_of_app. by left.
  - destruct l as [|z l]; [by apply elem_of_nil in Hp|]. specialize (IH Hp Hx).
    change (join [10%N] (q :: z :: l)) with (q ++ [10%N] ++ join [10%N] (z :: l)). rewrite !elem_of_app. by right; right.
Qed.

(** Tokens of one line of code. *)
Definition line_tok (k : tok) : Prop := tok_ok k = true /\ inline_tok k = true /\ (10%N ∉ tok_text k).

Lemma tok_lines_ok ks : forallb tok_ok ks = true -> forallb inline_tok ks = true ->
  Forall (Forall line_tok) (tok_lines ks).
Proof.
  intros H1 H2. apply (tok_lines_Forall (fun k => tok_ok k = true /\ inline_tok k = true)).
  - intros s p [? ?] Hp. split_and!; [by eapply split_piece_ok|done|by eapply split_on_no_sep].
  - intros k [? ?] E. split_and!; [done|done|]. rewrite E. apply not_elem_of_nil.
  - apply Forall_forall. intros k Hk%list_elem_of_In.
    split; [by apply (proj1 (forallb_forall _ _) H1)|by apply (proj1 (forallb_forall _ _) H2)].
Qed.

Lemma line_tok_inv l : Forall line_tok l ->
  forallb tok_ok l = true /\ forallb inline_tok l = true /\ Forall (fun k => 10%N ∉ tok_text k) l.
Proof. induction 1 as [|k l (H1 & H2 & H3) _ (I1 & I2 & I3)]; [by repeat constructor|]. cbn [forallb]. rewrite H1, H2, I1, I2. by repeat constructor. Qed.

(** ** Wrapping *)

Lemma tok_lines_text ks ls : forallb tok_ok ks = true -> forallb inline_tok ks = true ->
  toks_text ks = code_text ls -> Forall line_ok ls -> map toks_text (tok_lines ks) = ls ++ [[]].
Proof.
  intros H1 H2 Ht Hl. pose proof (tok_lines_ok ks H1 H2) as Hok.
  assert (E : join nl (map toks_text (tok_lines ks)) = code_text ls).
  { rewrite (tok_lines_join toks_text (fun s => s)); [done|apply toks_text_app| |by intros l; rewrite map_id|done].
    intros s. unfold toks_text. cbn. by rewrite app_nil_r. }
  rewrite <- (split_code ls Hl), <- E. symmetry. apply split_join.
  - pose proof (tok_lines_nonempty ks). by destruct (tok_lines ks).
  - apply Forall_map. eapply Forall_impl; [exact Hok|]. intros l (_ & _ & Hn)%line_tok_inv. cbn.
    unfold toks_text. clear -Hn. induction Hn as [|k l Hk _ IH]; [apply not_elem_of_nil|]. cbn [map concat].
    by rewrite not_elem_of_app.
Qed.

Lemma split_markup ks : forallb tok_ok ks = true -> forallb inline_tok ks = true ->
  split_re re_line (markup ks) = map markup (tok_lines ks).
Proof.
  intros H1 H2. rewrite split_lines.
  - rewrite <- (tok_lines_join markup esc markup_app) with (ks := ks); [|intros s; unfold markup; cbn; by rewrite app_nil_r|apply esc_join|done].
    apply split_join; [pose proof (tok_lines_nonempty ks); by destruct (tok_lines ks)|].
    apply Forall_map. eapply Forall_impl; [by apply tok_lines_ok|]. intros l (? & _ & ?)%line_tok_inv. apply markup_no; auto.
  - apply markup_no; [by right|done|]. apply Forall_forall. intros k Hk%list_elem_of_In.
    pose proof (proj1 (forallb_forall _ _) H1 k Hk) as Hok. destruct k as [s|t a|t]; cbn [tok_text]; try apply not_elem_of_nil.
    by eapply text_char_not.
Qed.

Definition line_attrs : list (jsstr * jsstr) := [(a_class, c_line)].

Lemma wrap_markup l : wrap_line (markup l) = markup (line_toks line_attrs l).
Proof.
  unfold line_toks. change (KOpen t_div line_attrs :: l ++ [KClose t_div]) with ([KOpen t_div line_attrs] ++ l ++ [KClose t_div]).
  rewrite !markup_app. unfold wrap_line. f_equal. Qed.

Lemma indexOf_found a p b : exists i, indexOf (a ++ p ++ b) p = Some i.
Proof.
  assert (Hp : starts_with p (p ++ b) = true) by (induction p as [|c p IH]; [done|]; cbn [app starts_with]; by rewrite N.eqb_refl).
  induction a as [|c a (i & IH)]; cbn [app].
  - exists 0. destruct p as [|c p]; [by destruct b|]. cbn [app indexOf] in *. by rewrite Hp.
  - cbn [indexOf]. destruct (starts_with p (c :: a ++ p ++ b)); [by exists 0|]. rewrite IH. by eexists.
Qed.

(** The last line, without text, always has two adjacent tags. *)
Lemma wrap_last l : toks_text l = [] -> exists i, indexOf (wrap_line (markup l)) (js "><") = Some i.
Proof.
  intros Ht. assert (E : exists r, markup l ++ js "</div>" = 60%N :: r).
  { induction l as [|k l IH]; [by eexists|]. unfold toks_text in Ht. cbn [map concat] in Ht. apply app_eq_nil in Ht as [Hk Ht].
    specialize (IH Ht). unfold markup in *. cbn [map concat]. destruct k as [s|t a|t]; cbn [tok_text tok_markup] in *; [subst s|..]; eauto. }
  destruct E as [r E]. unfold wrap_line. rewrite E.
  change (js "<div class=＂remark-code-line＂>") with (js "<div class=＂remark-code-line＂" ++ [62%N]). rewrite <- app_assoc.
  apply (indexOf_found _ (js "><") r).
Qed.

Lemma wrapLines_lines ks lines e : forallb tok_ok ks = true -> forallb inline_tok ks = true ->
  tok_lines ks = lines ++ [e] -> toks_text e = [] -> wrapLines (markup ks) = markup (concat (map (line_toks line_attrs) lines)).
Proof.
  intros H1 H2 El Ee. unfold wrapLines, wrapped_lines. rewrite split_markup by done. rewrite El, !map_app. cbn [map].
  rewrite last_snoc. destruct (wrap_last e Ee) as [i ->]. rewrite length_app. cbn [length].
  rewrite Nat.add_sub, take_app_length. clear. induction lines as [|l lines IH]; [done|]. cbn [map concat].
  rewrite markup_app, <- IH, <- wrap_markup. destruct lines; [by rewrite app_nil_r|done].
Qed.

Section Wrapping.
Context `{Browser}.

(** The element of a line: its class and its text. *)
Definition line_elem (l : jsstr) (d : dom) : Prop :=
  exists i kids, d = DElem (mkENode i t_div line_attrs) kids /\ textContent kids = l.

Lemma wrapped_nodes ks ls : forallb tok_ok ks = true -> forallb inline_tok ks = true ->
  toks_text ks = code_text ls -> Forall line_ok ls -> Forall2 line_elem ls (parseHTML (wrapLines (markup ks))).
Proof.
  intros H1 H2 Ht Hl. pose proof (tok_lines_text ks ls H1 H2 Ht Hl) as El.
  destruct (tok_lines ks) as [|e lines _] eqn:E using rev_ind; [by destruct ls|].
  rewrite map_app in El. cbn [map] in El. apply app_inj_tail in El as [El Ee].
  rewrite (wrapLines_lines ks lines e H1 H2 E Ee). pose proof (tok_lines_ok ks H1 H2) as Hok. rewrite E in Hok.
  apply Forall_app in Hok as [Hok _].
  rewrite (parseHTML_renders _ _ (renders_markup (concat (map (line_toks line_attrs) lines)))).
  - destruct (build_lines line_attrs lines) with (i := 0) (cur := @nil dom) as (i & nodes & Eb & Hn).
    { eapply Forall_impl; [exact Hok|]. by intros l (_ & ? & _)%line_tok_inv. }
    unfold build. rewrite Eb. cbn [app close_all]. rewrite <- El. clear -Hn. induction Hn as [|ks d lines nodes (j & kids & -> & Ht) _ IH]; [constructor|].
    cbn [map]. constructor; [by exists j, kids|done].
  - clear -Hok. induction Hok as [|l lines (Hl & _ & _)%line_tok_inv _ IH]; [done|]. cbn [map concat].
    unfold line_toks at 1. cbn [app forallb]. rewrite !forallb_app, Hl, IH. done.
Qed.
End Wrapping.

(** ** Highlighted code as tokens *)

Definition tok_of (p : hpiece) : tok :=
  match p with HText s => KText s | HOpen c => KOpen t_span [(a_class, c)] | HClose => KClose t_span end.

Definition hl_char (c : N) : jsstr :=
  if (c =? 38)%N then js "&amp;" else if (c =? 60)%N then js "&lt;" else if (c =? 62)%N then js "&gt;" else [c].

Lemma hl_escape_flat s : hl_escape s = flat_map hl_char s.
Proof.
  unfold hl_escape. rewrite (replace_char re_amp 38 (js "&amp;")), (replace_char re_lt 60 (js "&lt;")),
    (replace_char re_gt 62 (js "&gt;")) by (done || by apply (bool_decide_unpack _)).
  rewrite !subst1_flat, !flat_map_flat_map. apply List.flat_map_ext. intros c. unfold hl_char.
  destruct (N.eqb_spec c 38) as [->|H1]; [done|]. destruct (N.eqb_spec c 60) as [->|H2]; [done|].
  destruct (N.eqb_spec c 62) as [->|H3]; [done|]. repeat (cbn [flat_map app]; rewrite ?(proj2 (N.eqb_neq c _)) by done). done.
Qed.

Lemma hl_escape_encoded s : encoded s (hl_escape s).
Proof.
  rewrite hl_escape_flat. induction s as [|c s IH]; [constructor|]. cbn [flat_map]. unfold hl_char at 1.
  destruct (N.eqb_spec c 38) as [->|H1]; [apply enc_ref; [set_solver|done]|].
  destruct (N.eqb_spec c 60) as [->|H2]; [apply enc_ref; [set_solver|done]|].
  destruct (N.eqb_spec c 62) as [->|H3]; [apply enc_ref; [set_solver|done]|]. by apply enc_char.
Qed.

Lemma openSpan_tag c : openSpan [] c = start_tag t_span [(a_class, c)].
Proof.
  unfold openSpan, start_tag. cbn [map concat]. unfold attr_text. cbn [fst snd]. rewrite app_nil_r, <- !app_assoc. reflexivity.
Qed.

Lemma hrender_renders ps : renders (map tok_of ps) (hrender ps).
Proof.
  induction ps as [|[s|c|] ps IH]; [constructor|..]; unfold hrender in *; cbn [map concat render_hpiece tok_of].
  - constructor; [apply hl_escape_encoded|done].
  - rewrite openSpan_tag. by constructor.
  - change spanEndTag with (end_tag t_span). by constructor.
Qed.

Lemma hnest_nested ps : forall n m, hnest n ps = Some m ->
  well_nested (replicate n t_span) (map tok_of ps) = Some (replicate m t_span).
Proof.
  induction ps as [|[s|c|] ps IH]; intros n m; cbn [hnest map tok_of well_nested].
  - by intros [= ->].
  - apply IH.
  - destruct (plain_class c); [|done]. apply (IH (S n)).
  - destruct n as [|n]; [done|]. cbn [replicate]. rewrite decide_True by done. apply IH.
Qed.

Lemma plain_value c : plain_class c = true -> attr_ok (a_class, c) = true.
Proof.
  intros H. unfold attr_ok. cbn [fst snd]. replace (forallb value_char c) with true; [done|]. symmetry. apply forallb_forall.
  intros x Hx. apply (proj1 (forallb_forall _ _) H) in Hx. unfold value_char. change (name_char x) with (class_char x). by rewrite Hx.
Qed.

Lemma hpieces_ok ps : forall n m, hnest n ps = Some m -> forallb text_char (htext ps) = true ->
  forallb tok_ok (map tok_of ps) = true.
Proof.
  induction ps as [|[s|c|] ps IH]; intros n m Hn Ht; [done|..]; cbn [hnest map tok_of forallb tok_ok] in *; unfold htext in Ht; cbn [map concat hpiece_text] in Ht.
  - rewrite forallb_app in Ht. apply andb_prop in Ht as [-> Ht]. by eapply IH.
  - destruct (plain_class c) eqn:Ec; [|done]. cbn [forallb]. rewrite (plain_value c Ec). by eapply IH.
  - destruct n as [|n]; [done|]. by eapply IH.
Qed.

Lemma hpieces_inline ps : forallb inline_tok (map tok_of ps) = true.
Proof. induction ps as [|[s|c|] ps IH]; [done|..]; cbn [map tok_of forallb inline_tok]; by rewrite ?IH. Qed.

Lemma hpieces_text ps : toks_text (map tok_of ps) = htext ps.
Proof. induction ps as [|[s|c|] ps IH]; [done|..]; unfold toks_text, htext in *; cbn [map concat tok_of tok_text hpiece_text]; by rewrite IH. Qed.

(** The nodes of a text without markup. *)
Definition text_nodes (s : jsstr) : list dom := add_text s [].

Lemma text_nodes_facts s : forallb text_char s = true ->
  forallb simple (text_nodes s) = true /\ serialize (text_nodes s) = esc s /\ textContent (text_nodes s) = s /\
  nodeStream (text_nodes s) = [].
Proof.
  intros Hs. unfold text_nodes. split_and!; [by apply add_text_simple|apply add_text_serialize|apply add_text_content|by destruct s].
Qed.

(** ** Properties *)

Section Lines2.
Context `{Browser}.

(** Highlighted code that is read into nodes and written again. *)
Lemma code_nodes ps text : hnest 0 ps = Some 0 -> htext ps = text -> forallb text_char text = true ->
  parseHTML (hrender ps) = build (map tok_of ps) /\ innerHTML (build (map tok_of ps)) = markup (map tok_of ps).
Proof.
  intros Hn Ht Hc. rewrite <- Ht in Hc. pose proof (hpieces_ok ps 0 0 Hn Hc) as Hok. split.
  - apply parseHTML_renders; [apply hrender_renders|done].
  - rewrite innerHTML_simple by (by apply build_simple). apply build_markup. exact (hnest_nested ps 0 0 Hn).
Qed.

Lemma code_lines_of ps ls : hnest 0 ps = Some 0 -> htext ps = code_text ls -> Forall line_ok ls ->
  Forall2 line_elem ls (parseHTML (wrapLines (innerHTML (build (map tok_of ps))))).
Proof.
  intros Hn Ht Hl. pose proof (code_text_ok ls Hl) as Hc. destruct (code_nodes ps _ Hn Ht Hc) as [_ ->].
  apply wrapped_nodes; [|apply hpieces_inline|by rewrite hpieces_text|done]. eapply hpieces_ok; [done|by rewrite Ht].
Qed.

(** What is shown of a line: the class of its element and its text. *)
Definition shown (d : dom) : jsstr * jsstr := (node_class d, dom_text d).
Definition line_shown (marks : bool) (l : jsstr) : jsstr * jsstr :=
  if marks then (if is_marked l then addClass c_highlighted c_line else c_line, unmark l) else (c_line, l).

Lemma shown_elem l d : line_elem l d -> shown d = (c_line, l) /\
  shown (node_addClass c_highlighted d) = (addClass c_highlighted c_line, l).
Proof. intros (i & kids & -> & <-). done. Qed.

Lemma shown_plain ls nodes : Forall2 line_elem ls nodes -> map shown nodes = map (line_shown false) ls.
Proof. induction 1 as [|l d ls nodes [E _]%shown_elem _ IH]; [done|]. cbn [map]. by rewrite E, IH. Qed.

Lemma highlightBlockLines_shown ls : forall nodes pre, Forall2 line_elem (map unmark ls) nodes ->
  exists nodes', highlightBlockLines (pre ++ nodes) (marked_from (length pre) ls) = Ok (pre ++ nodes') /\
    map shown nodes' = map (line_shown true) ls.
Proof.
  induction ls as [|l ls IH]; intros nodes pre Hn; inversion Hn as [|? d ? nodes1 Hd Hrest]; subst; [by exists []|].
  apply shown_elem in Hd as [E1 E2]. cbn [marked_from map].
  assert (Hrec : forall x, exists nodes', highlightBlockLines (pre ++ x :: nodes1) (marked_from (S (length pre)) ls)
    = Ok (pre ++ x :: nodes') /\ map shown nodes' = map (line_shown true) ls).
  { intros x. destruct (IH nodes1 (pre ++ [x]) Hrest) as (nodes' & E & Hs). rewrite length_app, Nat.add_1_r, <- !app_assoc in E.
    by exists nodes'. }
  destruct (is_marked l) eqn:Em.
  - destruct (Hrec (node_addClass c_highlighted d)) as (nodes' & E & Hs). exists (node_addClass c_highlighted d :: nodes').
    split; [|by cbn [map]; rewrite E2, Hs; unfold line_shown; rewrite Em]. cbn [highlightBlockLines].
    rewrite list_lookup_middle by done. rewrite insert_app_r_alt, Nat.sub_diag by done. exact E.
  - destruct (Hrec d) as (nodes' & E & Hs). exists (d :: nodes').
    split; [done|]. cbn [map]. rewrite E1, Hs. unfold line_shown. by rewrite Em.
Qed.

(** The class that decides on the language of a block. *)
Definition effective_class (o : code_options) (b : block) : jsstr :=
  if bool_decide (b_class b = []) then highlightLanguage o else b_class b.

Lemma engine_text reg name h h' b text fuel depth :
  exact_at default_options reg fuel depth name h h' -> highlights name = true ->
  b_nodes b = text_nodes text -> forallb text_char text = true ->
  blockLanguage reg (mkHBlock (b_class b) (Some (b_parent b)) []) = Some name -> enough (length text) <= fuel ->
  exists b' ps, engine_highlightBlock default_options reg fuel depth b h = (h', Ok b') /\
    b_nodes b' = build (map tok_of ps) /\ hnest 0 ps = Some 0 /\ htext ps = text.
Proof.
  intros He Hname Hb Ht Hl Hv. destruct (text_nodes_facts text Ht) as (_ & _ & T & S).
  unfold engine_highlightBlock, bind. rewrite Hb.
  destruct (highlightBlock_value innerHTML parseHTML reg name h h' (mkHBlock (b_class b) (Some (b_parent b)) (text_nodes text)) fuel depth)
    as (out & ps & E & Ho & Hn & Hx); [done|done|done|cbn [hb_nodes]; by rewrite T|].
  rewrite E. cbn [hb_nodes] in *. rewrite T in *. eexists _, ps. split_and!; [reflexivity| |done|done].
  cbn [b_nodes]. rewrite Ho. unfold merged. rewrite S. by destruct (code_nodes ps text Hn Hx Ht).
Qed.

(** The nodes after the marks are taken out. *)
Lemma unmarked_nodes ls : Forall line_ok ls ->
  extractMetadata (innerHTML (text_nodes (code_text ls))) = (esc (code_text (map unmark ls)), marked_from 0 ls) /\
  parseHTML (esc (code_text (map unmark ls))) = text_nodes (code_text (map unmark ls)).
Proof.
  intros Hl. destruct (text_nodes_facts _ (code_text_ok ls Hl)) as (S & E & _ & _). split.
  - by rewrite innerHTML_simple, E, extractMetadata_code.
  - assert (Hr : renders [KText (code_text (map unmark ls))] (esc (code_text (map unmark ls)))).
    { pose proof (renders_markup [KText (code_text (map unmark ls))]) as H0. unfold markup in H0. cbn [map concat tok_markup] in H0.
      by rewrite app_nil_r in H0. }
    rewrite (parseHTML_renders _ _ Hr); [done|]. cbn [forallb tok_ok]. rewrite code_text_ok; [done|].
    apply Forall_map. eapply Forall_impl; [exact Hl|]. intros l. apply unmark_line_ok.
Qed.
End Lines2.

Lemma enough_mono n m : n <= m -> enough n <= enough m.
Proof. unfold enough. lia. Qed.

Section Block.
Context `{Browser} (reg : registry) (h h' : heap) (fuel depth : nat).

(** A class that names a language in which every code is highlighted exactly. *)
Definition exact_class (class parent : jsstr) : Prop :=
  exists name, exact_at default_options reg fuel depth name h h' /\ highlights name = true /\
    blockLanguage reg (mkHBlock class (Some parent) []) = Some name.

(** What highlighting makes of a block of text, when it has a language and when it has
    none. *)
Lemma block_pieces b text : b_nodes b = text_nodes text -> forallb text_char text = true ->
  (b_class b <> [] -> exact_class (b_class b) (b_parent b)) ->
  enough (length text) <= fuel ->
  exists b' ps, (if bool_decide (b_class b = []) then ret b
                 else engine_highlightBlock default_options reg fuel depth b) h
    = (if bool_decide (b_class b = []) then h else h', Ok b') /\
    b_nodes b' = build (map tok_of ps) /\ hnest 0 ps = Some 0 /\ htext ps = text.
Proof.
  intros Hb Ht Hl Hv. case_bool_decide as Ec.
  - exists b, [HText text]. split_and!; [done|by rewrite Hb|done|apply htext_text].
  - destruct (Hl Ec) as (name & H1 & H2 & H3). by apply (engine_text reg name).
Qed.

Lemma block_lines o b ls :
  b_pre b = true -> b_nodes b = text_nodes (code_text ls) -> Forall line_ok ls -> highlightSpans o = None ->
  (effective_class o b <> [] -> exact_class (effective_class o b) (b_parent b)) ->
  enough (length (code_text ls)) <= fuel ->
  exists b', highlightCodeBlock default_options reg fuel depth o b h
      = (if bool_decide (effective_class o b = []) then h else h', Ok b') /\
    map shown (b_nodes b') = map (line_shown (highlightLines o)) ls.
Proof.
  intros Hpre Hb Hl Hs Hlang Hv. unfold highlightCodeBlock.
  set (b0 := if bool_decide (b_class b = []) then with_class (highlightLanguage o) b else b).
  assert (E0 : b_pre b0 = true /\ b_nodes b0 = b_nodes b /\ b_class b0 = effective_class o b /\ b_parent b0 = b_parent b).
  { unfold b0, effective_class. by case_bool_decide. }
  clearbody b0. destruct E0 as (E1 & E2 & E3 & E4). rewrite E1, Hs. cbn [negb]. rewrite <- E3, <- E4 in *.
  rewrite E2, Hb. destruct (highlightLines o).
  - destruct (unmarked_nodes ls Hl) as [-> ->].
    assert (Hu : Forall line_ok (map unmark ls)).
    { apply Forall_map. eapply Forall_impl; [exact Hl|]. intros l. apply unmark_line_ok. }
    destruct (block_pieces (with_nodes (text_nodes (code_text (map unmark ls))) b0) (code_text (map unmark ls)))
      as (b1 & ps & Eb & En & Hn & Ht); try done; [by apply code_text_ok|by etransitivity; [|exact Hv]; apply enough_mono, code_text_length|].
    unfold bind at 1. rewrite Eb. cbn [b_class with_nodes]. unfold bind, lift, ret.
    destruct (highlightBlockLines_shown ls (parseHTML (wrapLines (innerHTML (b_nodes b1)))) []) as (nodes & E & Hshown).
    { rewrite En. by apply code_lines_of. }
    cbn [app length] in E. rewrite E. by eexists.
  - destruct (block_pieces b0 (code_text ls)) as (b1 & ps & Eb & En & Hn & Ht); try done; [by rewrite E2|by apply code_text_ok|].
    unfold bind at 1. rewrite Eb. unfold bind, lift, ret. cbn [highlightBlockLines]. eexists. split; [reflexivity|].
    cbn [b_nodes]. rewrite En. apply shown_plain. by apply code_lines_of.
Qed.
End Block.


(** Two lines of JSON, the second one marked. *)
Definition json_lines : list jsstr := [js "[1,"; js "* 2]"].
Definition json_block : block := mkBlock (js "code") true [] (text_nodes (code_text json_lines)).
Definition marking : code_options := mkCode [] true None false.


(** The markup of the block after highlighting. *)
Definition block_markup (create : M language) (o : code_options) (text : jsstr) : option jsstr :=
  match load create with
  | Some d =>
      match @highlightCodeBlock reader default_options (ld_reg d) (enough (length text) + compile_fuel) 0 o
              (mkBlock (js "code") true [] (text_nodes text)) (ld_before d) with
      | (_, Ok b) => Some (serialize (b_nodes b))
      | _ => None
      end
  | None => None
  end.

Example json_marked : block_markup json marking (code_text json_lines) = Some (
  js "<div class=＂remark-code-line＂>[<span class=＂hljs-number＂>1</span>,</div>" ++
  js "<div class=＂remark-code-line remark-code-line-highlighted＂>  <span class=＂hljs-number＂>2</span>]</div>").
Proof. vm_compute. reflexivity. Qed.

(** A language with block comments.  A comment of two lines is one span; the end of the
    first line closes it, so the second line of the comment is not highlighted. *)
Definition commented : M language :=
  let* c := new [ClassName (js "comment"); Begin (js "/\*"); End_ (js "\*/")] in
  lang plain_lang [Contains [CRef c]].

Example comment_cut : block_markup commented (mkCode [] false None false) (code_text [js "/* a"; js "b */"]) = Some (
  js "<div class=＂remark-code-line＂><span class=＂hljs-comment＂>/* a</span></div>" ++
  js "<div class=＂remark-code-line＂>b */</div>").
Proof. vm_compute. reflexivity. Qed.

(** Without the final line feed, a last line that starts with a span is lost. *)
Example last_line_lost : block_markup commented (mkCode [] false None false) (js "a" ++ nl ++ js "/* b */")
  = Some (js "<div class=＂remark-code-line＂>a</div>").
Proof. vm_compute. reflexivity. Qed.

(** A pattern for spans needs the flag g. *)
Example spans_not_global :
  highlightBlockSpans (SpansRegExp (js "a(b)") (mkFlags false false false) []) [] = Throw (Error (js "The regular expression in `highlightSpans` must have flag /g")).
Proof. reflexivity. Qed.
