(* ===== verification/LanguagesAC.v ===== *)
(** * Language definitions, cpp to css (module 15)

    Each definition creates its objects in the order of the source: a variable of the
    definition keeps its name, an object literal without one is numbered.  A name that is
    also one of the library has a prime.  The aliases, the case and the part in the
    detection of a language are the arguments of [lang]. *)

From S2P Require Import Prelude JsString JsRegExp RegExpFacts RegExpCounts MarkedInline HljsStreams HljsModes Hljs HljsLanguages.

(** cpp *)
Definition lang_cpp : M language :=
  let* CPP_PRIMITIVE_TYPES := new [ClassName (js "keyword"); Begin (js "\b[a-z\d_]*_t\b")] in
  let* STRINGS := new [ClassName (js "string"); Variants [[Begin (js "(u8?|U|L)?＂"); End_ (js "＂");
      Illegal (js "\n"); Contains [CRef BACKSLASH_ESCAPE]];
      [Begin (js "(?:u8?|U|L)?R＂([^()\\ ]{0,16})\((?:.|\n)*?\)\1＂")]; [Begin (js "'\\?."); End_ (js "'");
      Illegal (js ".")]]] in
  let* NUMBERS := new [ClassName (js "number"); Variants [[Begin (js "\b(0b[01']+)")];
      [Begin (js "(-?)\b([\d']+(\.[\d']*" ++ js ")?|\.[\d']+)(u|U|l|L|ul|UL|f|F|b|B)")];
      [Begin (js "(-?)(\b0[xX][a-fA-F0-9']+|(\b[\d']+(\.[\d']*" ++ js ")?|\.[\d']+)([eE][-+]?[\d']+)?)")]];
      Relevance 0] in
  let* m1 := new [Begin (js "\\\n"); Relevance 0] in
  let* m2 := inherit_mode STRINGS [ClassName (js "meta-string")] in
  let* m3 := new [ClassName (js "meta-string"); Begin (js "<[^\n>]*>"); End_ (js "$"); Illegal (js "\n")] in
  let* PREPROCESSOR := new [ClassName (js "meta"); Begin (js "#\s*[a-z]+\b"); End_ (js "$");
      Keywords (KObj [(js "meta-keyword", js "if else elif endif define undef warning error line " ++
      js "pragma ifdef ifndef include")]); Contains [CRef m1; CRef m2; CRef m3; CRef C_LINE_COMMENT_MODE;
      CRef C_BLOCK_COMMENT_MODE]] in
  let FUNCTION_TITLE := IDENT_RE ++ js "\s*\(" in
  let CPP_KEYWORDS :=
      KObj [(js "keyword", js "int float while private char catch import module export virtual operator sizeof " ++
      js "dynamic_cast|10 typedef const_cast|10 const for static_cast|10 union namespace " ++
      js "unsigned long volatile static protected bool template mutable if public friend " ++
      js "do goto auto void enum else break extern using asm case typeid " ++
      js "short reinterpret_cast|10 default double register explicit signed typename try this " ++
      js "switch continue inline delete alignof constexpr decltype " ++
      js "noexcept static_assert thread_local restrict _Bool complex _Complex _Imaginary " ++
      js "atomic_bool atomic_char atomic_schar " ++
      js "atomic_uchar atomic_short atomic_ushort atomic_int atomic_uint atomic_long atomic_ulong atomic_llong " ++
      js "atomic_ullong new throw return " ++ js "and or not");
      (js "built_in", js "std string cin cout cerr clog stdin stdout stderr stringstream istringstream ostringstream " ++
      js "auto_ptr deque list queue stack vector map set bitset multiset multimap unordered_set " ++
      js "unordered_map unordered_multiset unordered_multimap array shared_ptr abort abs acos " ++
      js "asin atan2 atan calloc ceil cosh cos exit exp fabs floor fmod fprintf fputs free frexp " ++
      js "fscanf isalnum isalpha iscntrl isdigit isgraph islower isprint ispunct isspace isupper " ++
      js "isxdigit tolower toupper labs ldexp log10 log malloc realloc memchr memcmp memcpy memset modf pow " ++
      js "printf putchar puts scanf sinh sin snprintf sprintf sqrt sscanf strcat strchr strcmp " ++
      js "strcpy strcspn strlen strncat strncmp strncpy strpbrk strrchr strspn strstr tanh tan " ++
      js "vfprintf vprintf vsprintf endl initializer_list unique_ptr");
      (js "literal", js "true false nullptr NULL")] in
  let EXPRESSION_CONTAINS := [CRef CPP_PRIMITIVE_TYPES; CRef C_LINE_COMMENT_MODE; CRef C_BLOCK_COMMENT_MODE;
      CRef NUMBERS; CRef STRINGS] in
  let* m4 :=
      new [Begin (js "\b(deque|list|queue|stack|vector|map|set|bitset|multiset|multimap|unordered_map|unordered_set|unordered_multiset|unordered_multimap|array)\s*<");
      End_ (js ">"); Keywords CPP_KEYWORDS; Contains [CSelf; CRef CPP_PRIMITIVE_TYPES]] in
  let* m5 := new [Begin (IDENT_RE ++ js "::"); Keywords CPP_KEYWORDS] in
  let* m6 := new [Begin (js "\("); End_ (js "\)"); Keywords CPP_KEYWORDS; Contains (EXPRESSION_CONTAINS ++ [CSelf]);
      Relevance 0] in
  let* m7 := new [Variants [[Begin (js "="); End_ (js ";")]; [Begin (js "\("); End_ (js "\)")];
      [BeginKeywords (js "new throw return else"); End_ (js ";")]]; Keywords CPP_KEYWORDS;
      Contains (EXPRESSION_CONTAINS ++ [CRef m6]); Relevance 0] in
  let* m8 := new [Begin FUNCTION_TITLE; ReturnBegin true; Contains [CRef TITLE_MODE]; Relevance 0] in
  let* m9 := new [Begin (js "\("); End_ (js "\)"); Keywords CPP_KEYWORDS; Relevance 0; Contains [CSelf;
      CRef C_LINE_COMMENT_MODE; CRef C_BLOCK_COMMENT_MODE; CRef STRINGS; CRef NUMBERS; CRef CPP_PRIMITIVE_TYPES]] in
  let* m10 := new [ClassName (js "params"); Begin (js "\("); End_ (js "\)"); Keywords CPP_KEYWORDS; Relevance 0;
      Contains [CRef C_LINE_COMMENT_MODE; CRef C_BLOCK_COMMENT_MODE; CRef STRINGS; CRef NUMBERS;
      CRef CPP_PRIMITIVE_TYPES; CRef m9]] in
  let* m11 := new [ClassName (js "function"); Begin (js "(" ++ IDENT_RE ++ js "[\*&\s]+)+" ++ FUNCTION_TITLE);
      ReturnBegin true; End_ (js "[{;=]"); ExcludeEnd true; Keywords CPP_KEYWORDS; Illegal (js "[^\w\s\*&]");
      Contains [CRef m8; CRef m10; CRef C_LINE_COMMENT_MODE; CRef C_BLOCK_COMMENT_MODE; CRef PREPROCESSOR]] in
  let* m12 := new [Begin (js "<"); End_ (js ">"); Contains [CSelf]] in
  let* m13 := new [ClassName (js "class"); BeginKeywords (js "class struct"); End_ (js "[{;:]"); Contains [CRef m12;
      CRef TITLE_MODE]] in
  lang_with (Some (mkExports PREPROCESSOR STRINGS CPP_KEYWORDS)) (mkLP false [js "c"; js "cc"; js "h"; js "c++";
      js "h++"; js "hpp"; js "hh"; js "hxx"; js "cxx"] false) [Keywords CPP_KEYWORDS; Illegal (js "</");
      Contains (EXPRESSION_CONTAINS ++ [CRef PREPROCESSOR; CRef m4; CRef m5; CRef m7; CRef m11; CRef m13])].

Definition lang_1c_v7_global_context_methods : jsstr :=
  js "ansitooem oemtoansi ввестивидсубконто ввестиперечисление ввестипериод ввестиплансчетов выбранныйплансчетов " ++
      js "датагод датамесяц датачисло заголовоксистемы значениевстроку значениеизстроки каталогиб каталогпользователя " ++
      js "кодсимв конгода конецпериодаби конецрассчитанногопериодаби конецстандартногоинтервала конквартала конмесяца " ++
      js "коннедели лог лог10 максимальноеколичествосубконто названиеинтерфейса названиенабораправ назначитьвид " ++
      js "назначитьсчет найтиссылки началопериодаби началостандартногоинтервала начгода начквартала начмесяца " ++
      js "начнедели номерднягода номерднянедели номернеделигода обработкаожидания основнойжурналрасчетов " ++
      js "основнойплансчетов основнойязык очиститьокносообщений периодстр получитьвремята получитьдатута " ++
      js "получитьдокументта получитьзначенияотбора получитьпозициюта получитьпустоезначение получитьта " ++
      js "префиксавтонумерации пропись пустоезначение разм разобратьпозициюдокумента рассчитатьрегистрына " ++
      js "рассчитатьрегистрыпо симв создатьобъект статусвозврата стрколичествострок сформироватьпозициюдокумента " ++
      js "счетпокоду текущеевремя типзначения типзначениястр установитьтана установитьтапо фиксшаблон шаблон ".
Definition lang_1c_v8_global_context_methods : jsstr :=
  js "acos asin atan base64значение base64строка cos exp log log10 pow sin sqrt tan xmlзначение xmlстрока " ++
      js "xmlтип xmlтипзнч активноеокно безопасныйрежим безопасныйрежимразделенияданных булево ввестидату ввестизначение " ++
      js "ввестистроку ввестичисло возможностьчтенияxml вопрос восстановитьзначение врег выгрузитьжурналрегистрации " ++
      js "выполнитьобработкуоповещения выполнитьпроверкуправдоступа вычислить год данныеформывзначение дата день " ++
      js "деньгода " ++
      js "деньнедели добавитьмесяц заблокироватьданныедляредактирования заблокироватьработупользователя завершитьработусистемы " ++
      js "загрузитьвнешнююкомпоненту закрытьсправку записатьjson записатьxml записатьдатуjson записьжурналарегистрации " ++
      js "заполнитьзначениясвойств запроситьразрешениепользователя запуститьприложение запуститьсистему зафиксироватьтранзакцию " ++
      js "значениевданныеформы значениевстрокувнутр значениевфайл значениезаполнено значениеизстрокивнутр значениеизфайла " ++
      js "изxmlтипа импортмоделиxdto имякомпьютера имяпользователя инициализироватьпредопределенныеданные информацияобошибке " ++
      js "каталогбиблиотекимобильногоустройства каталогвременныхфайлов каталогдокументов каталогпрограммы кодироватьстроку " ++
      js "кодлокализацииинформационнойбазы кодсимвола командасистемы конецгода конецдня конецквартала конецмесяца " ++
      js "конецминуты " ++
      js "конецнедели конецчаса конфигурациябазыданныхизмененадинамически конфигурацияизменена копироватьданныеформы " ++
      js "копироватьфайл краткоепредставлениеошибки лев макс местноевремя месяц мин минута монопольныйрежим найти " ++
      js "найтинедопустимыесимволыxml найтиокнопонавигационнойссылке найтипомеченныенаудаление найтипоссылкам " ++
      js "найтифайлы " ++
      js "началогода началодня началоквартала началомесяца началоминуты началонедели началочаса начатьзапросразрешенияпользователя " ++
      js "начатьзапускприложения начатькопированиефайла начатьперемещениефайла начатьподключениевнешнейкомпоненты " ++
      js "начатьподключениерасширенияработыскриптографией начатьподключениерасширенияработысфайлами начатьпоискфайлов " ++
      js "начатьполучениекаталогавременныхфайлов начатьполучениекаталогадокументов начатьполучениерабочегокаталогаданныхпользователя " ++
      js "начатьполучениефайлов начатьпомещениефайла начатьпомещениефайлов начатьсозданиедвоичныхданныхизфайла " ++
      js "начатьсозданиекаталога " ++
      js "начатьтранзакцию начатьудалениефайлов начатьустановкувнешнейкомпоненты начатьустановкурасширенияработыскриптографией " ++
      js "начатьустановкурасширенияработысфайлами неделягода необходимостьзавершениясоединения номерсеансаинформационнойбазы " ++
      js "номерсоединенияинформационнойбазы нрег нстр обновитьинтерфейс обновитьнумерациюобъектов обновитьповторноиспользуемыезначения " ++
      js "обработкапрерыванияпользователя объединитьфайлы окр описаниеошибки оповестить оповеститьобизменении " ++
      js "отключитьобработчикзапросанастроекклиенталицензирования отключитьобработчикожидания отключитьобработчикоповещения " ++
      js "открытьзначение открытьиндекссправки открытьсодержаниесправки открытьсправку открытьформу открытьформумодально " ++
      js "отменитьтранзакцию очиститьжурналрегистрации очиститьнастройкипользователя очиститьсообщения параметрыдоступа " ++
      js "перейтипонавигационнойссылке переместитьфайл подключитьвнешнююкомпоненту " ++
      js "подключитьобработчикзапросанастроекклиенталицензирования подключитьобработчикожидания подключитьобработчикоповещения " ++
      js "подключитьрасширениеработыскриптографией подключитьрасширениеработысфайлами подробноепредставлениеошибки " ++
      js "показатьвводдаты показатьвводзначения показатьвводстроки показатьвводчисла показатьвопрос показатьзначение " ++
      js "показатьинформациюобошибке показатьнакарте показатьоповещениепользователя показатьпредупреждение полноеимяпользователя " ++
      js "получитьcomобъект получитьxmlтип получитьадреспоместоположению получитьблокировкусеансов получитьвремязавершенияспящегосеанса " ++
      js "получитьвремязасыпанияпассивногосеанса получитьвремяожиданияблокировкиданных получитьданныевыбора " ++
      js "получитьдополнительныйпараметрклиенталицензирования получитьдопустимыекодылокализации получитьдопустимыечасовыепояса " ++
      js "получитьзаголовокклиентскогоприложения получитьзаголовоксистемы получитьзначенияотборажурналарегистрации " ++
      js "получитьидентификаторконфигурации получитьизвременногохранилища получитьимявременногофайла " ++
      js "получитьимяклиенталицензирования получитьинформациюэкрановклиента получитьиспользованиежурналарегистрации " ++
      js "получитьиспользованиесобытияжурналарегистрации получитькраткийзаголовокприложения получитьмакетоформления " ++
      js "получитьмаскувсефайлы получитьмаскувсефайлыклиента получитьмаскувсефайлысервера получитьместоположениепоадресу " ++
      js "получитьминимальнуюдлинупаролейпользователей получитьнавигационнуюссылку получитьнавигационнуюссылкуинформационнойбазы " ++
      js "получитьобновлениеконфигурациибазыданных получитьобновлениепредопределенныхданныхинформационнойбазы " ++
      js "получитьобщиймакет " ++
      js "получитьобщуюформу получитьокна получитьоперативнуюотметкувремени получитьотключениебезопасногорежима " ++
      js "получитьпараметрыфункциональныхопцийинтерфейса получитьполноеимяпредопределенногозначения " ++
      js "получитьпредставлениянавигационныхссылок получитьпроверкусложностипаролейпользователей получитьразделительпути " ++
      js "получитьразделительпутиклиента получитьразделительпутисервера получитьсеансыинформационнойбазы " ++
      js "получитьскоростьклиентскогосоединения получитьсоединенияинформационнойбазы получитьсообщенияпользователю " ++
      js "получитьсоответствиеобъектаиформы получитьсоставстандартногоинтерфейсаodata получитьструктурухранениябазыданных " ++
      js "получитьтекущийсеансинформационнойбазы получитьфайл получитьфайлы получитьформу получитьфункциональнуюопцию " ++
      js "получитьфункциональнуюопциюинтерфейса получитьчасовойпоясинформационнойбазы пользователиос поместитьвовременноехранилище " ++
      js "поместитьфайл поместитьфайлы прав праводоступа предопределенноезначение представлениекодалокализации " ++
      js "представлениепериода " ++
      js "представлениеправа представлениеприложения представлениесобытияжурналарегистрации представлениечасовогопояса " ++
      js "предупреждение " ++
      js "прекратитьработусистемы привилегированныйрежим продолжитьвызов прочитатьjson прочитатьxml прочитатьдатуjson " ++
      js "пустаястрока " ++
      js "рабочийкаталогданныхпользователя разблокироватьданныедляредактирования разделитьфайл разорватьсоединениесвнешнимисточникомданных " ++
      js "раскодироватьстроку рольдоступна секунда сигнал символ скопироватьжурналрегистрации смещениелетнеговремени " ++
      js "смещениестандартноговремени соединитьбуферыдвоичныхданных создатькаталог создатьфабрикуxdto сокрл сокрлп " ++
      js "сокрп сообщить " ++
      js "состояние сохранитьзначение сохранитьнастройкипользователя сред стрдлина стрзаканчиваетсяна стрзаменить " ++
      js "стрнайти стрначинаетсяс " ++
      js "строка строкасоединенияинформационнойбазы стрполучитьстроку стрразделить стрсоединить стрсравнить стрчисловхождений " ++
      js "стрчислострок стршаблон текущаядата текущаядатасеанса текущаяуниверсальнаядата текущаяуниверсальнаядатавмиллисекундах " ++
      js "текущийвариантинтерфейсаклиентскогоприложения текущийвариантосновногошрифтаклиентскогоприложения текущийкодлокализации " ++
      js "текущийрежимзапуска текущийязык текущийязыксистемы тип типзнч транзакцияактивна трег удалитьданныеинформационнойбазы " ++
      js "удалитьизвременногохранилища удалитьобъекты удалитьфайлы универсальноевремя установитьбезопасныйрежим " ++
      js "установитьбезопасныйрежимразделенияданных установитьблокировкусеансов установитьвнешнююкомпоненту " ++
      js "установитьвремязавершенияспящегосеанса установитьвремязасыпанияпассивногосеанса установитьвремяожиданияблокировкиданных " ++
      js "установитьзаголовокклиентскогоприложения установитьзаголовоксистемы установитьиспользованиежурналарегистрации " ++
      js "установитьиспользованиесобытияжурналарегистрации установитькраткийзаголовокприложения " ++
      js "установитьминимальнуюдлинупаролейпользователей установитьмонопольныйрежим установитьнастройкиклиенталицензирования " ++
      js "установитьобновлениепредопределенныхданныхинформационнойбазы установитьотключениебезопасногорежима " ++
      js "установитьпараметрыфункциональныхопцийинтерфейса установитьпривилегированныйрежим " ++
      js "установитьпроверкусложностипаролейпользователей установитьрасширениеработыскриптографией " ++
      js "установитьрасширениеработысфайлами установитьсоединениесвнешнимисточникомданных установитьсоответствиеобъектаиформы " ++
      js "установитьсоставстандартногоинтерфейсаodata установитьчасовойпоясинформационнойбазы установитьчасовойпояссеанса " ++
      js "формат цел час часовойпояс часовойпояссеанса число числопрописью этоадресвременногохранилища ".
Definition lang_1c_v8_global_context_property : jsstr :=
  js "wsссылки библиотекакартинок библиотекамакетовоформлениякомпоновкиданных библиотекастилей бизнеспроцессы " ++
      js "внешниеисточникиданных внешниеобработки внешниеотчеты встроенныепокупки главныйинтерфейс главныйстиль " ++
      js "документы доставляемыеуведомления журналыдокументов задачи информацияобинтернетсоединении использованиерабочейдаты " ++
      js "историяработыпользователя константы критерииотбора метаданные обработки отображениерекламы отправкадоставляемыхуведомлений " ++
      js "отчеты панельзадачос параметрзапуска параметрысеанса перечисления планывидоврасчета планывидовхарактеристик " ++
      js "планыобмена планысчетов полнотекстовыйпоиск пользователиинформационнойбазы последовательности проверкавстроенныхпокупок " ++
      js "рабочаядата расширенияконфигурации регистрыбухгалтерии регистрынакопления регистрырасчета регистрысведений " ++
      js "регламентныезадания сериализаторxdto справочники средствагеопозиционирования средствакриптографии средствамультимедиа " ++
      js "средстваотображениярекламы средствапочты средствателефонии фабрикаxdto файловыепотоки фоновыезадания " ++
      js "хранилищанастроек " ++
      js "хранилищевариантовотчетов хранилищенастроекданныхформ хранилищеобщихнастроек хранилищепользовательскихнастроекдинамическихсписков " ++
      js "хранилищепользовательскихнастроекотчетов хранилищесистемныхнастроек ".
Definition lang_1c_v8_system_enums_interface : jsstr :=
  js "автоматическоесохранениеданныхформывнастройках автонумерациявформе автораздвижениесерий " ++
      js "анимациядиаграммы вариантвыравниванияэлементовизаголовков вариантуправлениявысотойтаблицы " ++
      js "вертикальнаяпрокруткаформы вертикальноеположение вертикальноеположениеэлемента видгруппыформы " ++
      js "виддекорацииформы виддополненияэлементаформы видизмененияданных видкнопкиформы видпереключателя " ++
      js "видподписейкдиаграмме видполяформы видфлажка влияниеразмеранапузырекдиаграммы горизонтальноеположение " ++
      js "горизонтальноеположениеэлемента группировкаколонок группировкаподчиненныхэлементовформы " ++
      js "группыиэлементы действиеперетаскивания дополнительныйрежимотображения допустимыедействияперетаскивания " ++
      js "интервалмеждуэлементамиформы использованиевывода использованиеполосыпрокрутки " ++
      js "используемоезначениеточкибиржевойдиаграммы историявыборапривводе источникзначенийоситочекдиаграммы " ++
      js "источникзначенияразмерапузырькадиаграммы категориягруппыкоманд максимумсерий начальноеотображениедерева " ++
      js "начальноеотображениесписка обновлениетекстаредактирования ориентациядендрограммы ориентациядиаграммы " ++
      js "ориентацияметокдиаграммы ориентацияметоксводнойдиаграммы ориентацияэлементаформы отображениевдиаграмме " ++
      js "отображениевлегендедиаграммы отображениегруппыкнопок отображениезаголовкашкалыдиаграммы " ++
      js "отображениезначенийсводнойдиаграммы отображениезначенияизмерительнойдиаграммы " ++
      js "отображениеинтерваладиаграммыганта отображениекнопки отображениекнопкивыбора отображениеобсужденийформы " ++
      js "отображениеобычнойгруппы отображениеотрицательныхзначенийпузырьковойдиаграммы отображениепанелипоиска " ++
      js "отображениеподсказки отображениепредупрежденияприредактировании отображениеразметкиполосырегулирования " ++
      js "отображениестраницформы отображениетаблицы отображениетекстазначениядиаграммыганта " ++
      js "отображениеуправленияобычнойгруппы отображениефигурыкнопки палитрацветовдиаграммы поведениеобычнойгруппы " ++
      js "поддержкамасштабадендрограммы поддержкамасштабадиаграммыганта поддержкамасштабасводнойдиаграммы " ++
      js "поисквтаблицепривводе положениезаголовкаэлементаформы положениекартинкикнопкиформы " ++
      js "положениекартинкиэлементаграфическойсхемы положениекоманднойпанелиформы положениекоманднойпанелиэлементаформы " ++
      js "положениеопорнойточкиотрисовки положениеподписейкдиаграмме положениеподписейшкалызначенийизмерительнойдиаграммы " ++
      js "положениесостоянияпросмотра положениестрокипоиска положениетекстасоединительнойлинии положениеуправленияпоиском " ++
      js "положениешкалывремени порядокотображенияточекгоризонтальнойгистограммы порядоксерийвлегендедиаграммы " ++
      js "размеркартинки расположениезаголовкашкалыдиаграммы растягиваниеповертикалидиаграммыганта " ++
      js "режимавтоотображениясостояния режимвводастроктаблицы режимвыборанезаполненного режимвыделениядаты " ++
      js "режимвыделениястрокитаблицы режимвыделениятаблицы режимизмененияразмера режимизменениясвязанногозначения " ++
      js "режимиспользованиядиалогапечати режимиспользованияпараметракоманды режиммасштабированияпросмотра " ++
      js "режимосновногоокнаклиентскогоприложения режимоткрытияокнаформы режимотображениявыделения " ++
      js "режимотображениягеографическойсхемы режимотображениязначенийсерии режимотрисовкисеткиграфическойсхемы " ++
      js "режимполупрозрачностидиаграммы режимпробеловдиаграммы режимразмещениянастранице режимредактированияколонки " ++
      js "режимсглаживаниядиаграммы режимсглаживанияиндикатора режимсписказадач сквозноевыравнивание " ++
      js "сохранениеданныхформывнастройках способзаполнениятекстазаголовкашкалыдиаграммы " ++
      js "способопределенияограничивающегозначениядиаграммы стандартнаягруппакоманд стандартноеоформление " ++
      js "статусоповещенияпользователя стильстрелки типаппроксимациилиниитрендадиаграммы типдиаграммы " ++
      js "типединицышкалывремени типимпортасерийслоягеографическойсхемы типлиниигеографическойсхемы типлиниидиаграммы " ++
      js "типмаркерагеографическойсхемы типмаркерадиаграммы типобластиоформления " ++
      js "типорганизацииисточникаданныхгеографическойсхемы типотображениясериислоягеографическойсхемы " ++
      js "типотображенияточечногообъектагеографическойсхемы типотображенияшкалыэлементалегендыгеографическойсхемы " ++
      js "типпоискаобъектовгеографическойсхемы типпроекциигеографическойсхемы типразмещенияизмерений " ++
      js "типразмещенияреквизитовизмерений типрамкиэлементауправления типсводнойдиаграммы " ++
      js "типсвязидиаграммыганта типсоединениязначенийпосериямдиаграммы типсоединенияточекдиаграммы " ++
      js "типсоединительнойлинии типстороныэлементаграфическойсхемы типформыотчета типшкалырадарнойдиаграммы " ++
      js "факторлиниитрендадиаграммы фигуракнопки фигурыграфическойсхемы фиксациявтаблице форматдняшкалывремени " ++
      js "форматкартинки ширинаподчиненныхэлементовформы ".
Definition lang_1c_v8_system_enums_data_composition_system : jsstr :=
  js "видсравнениякомпоновкиданных действиеобработкирасшифровкикомпоновкиданных направлениесортировкикомпоновкиданных " ++
      js "расположениевложенныхэлементоврезультатакомпоновкиданных расположениеитоговкомпоновкиданных расположениегруппировкикомпоновкиданных " ++
      js "расположениеполейгруппировкикомпоновкиданных расположениеполякомпоновкиданных расположениереквизитовкомпоновкиданных " ++
      js "расположениересурсовкомпоновкиданных типбухгалтерскогоостаткакомпоновкиданных типвыводатекстакомпоновкиданных " ++
      js "типгруппировкикомпоновкиданных типгруппыэлементовотборакомпоновкиданных типдополненияпериодакомпоновкиданных " ++
      js "типзаголовкаполейкомпоновкиданных типмакетагруппировкикомпоновкиданных типмакетаобластикомпоновкиданных " ++
      js "типостаткакомпоновкиданных " ++
      js "типпериодакомпоновкиданных типразмещениятекстакомпоновкиданных типсвязинаборовданныхкомпоновкиданных " ++
      js "типэлементарезультатакомпоновкиданных " ++
      js "расположениелегендыдиаграммыкомпоновкиданных типпримененияотборакомпоновкиданных режимотображенияэлементанастройкикомпоновкиданных " ++
      js "режимотображениянастроеккомпоновкиданных состояниеэлементанастройкикомпоновкиданных способвосстановлениянастроеккомпоновкиданных " ++
      js "режимкомпоновкирезультата использованиепараметракомпоновкиданных автопозицияресурсовкомпоновкиданных " ++
      js "вариантиспользованиягруппировкикомпоновкиданных расположениересурсоввдиаграммекомпоновкиданных фиксациякомпоновкиданных " ++
      js "использованиеусловногооформлениякомпоновкиданных ".
Definition lang_1c_v8_system_enums_properties_of_metadata_objects : jsstr :=
  js "httpметод автоиспользованиеобщегореквизита автопрефиксномеразадачи вариантвстроенногоязыка видиерархии " ++
      js "видрегистранакопления " ++
      js "видтаблицывнешнегоисточникаданных записьдвиженийприпроведении заполнениепоследовательностей индексирование " ++
      js "использованиебазыпланавидоврасчета использованиебыстроговыбора использованиеобщегореквизита использованиеподчинения " ++
      js "использованиеполнотекстовогопоиска использованиеразделяемыхданныхобщегореквизита использованиереквизита " ++
      js "назначениеиспользованияприложения назначениерасширенияконфигурации направлениепередачи обновлениепредопределенныхданных " ++
      js "оперативноепроведение основноепредставлениевидарасчета основноепредставлениевидахарактеристики основноепредставлениезадачи " ++
      js "основноепредставлениепланаобмена основноепредставлениесправочника основноепредставлениесчета перемещениеграницыприпроведении " ++
      js "периодичностьномерабизнеспроцесса периодичностьномерадокумента периодичностьрегистрарасчета периодичностьрегистрасведений " ++
      js "повторноеиспользованиевозвращаемыхзначений полнотекстовыйпоискпривводепостроке принадлежностьобъекта " ++
      js "проведение " ++
      js "разделениеаутентификацииобщегореквизита разделениеданныхобщегореквизита разделениерасширенийконфигурацииобщегореквизита " ++
      js "режимавтонумерацииобъектов режимзаписирегистра режимиспользованиямодальности " ++
      js "режимиспользованиясинхронныхвызововрасширенийплатформыивнешнихкомпонент режимповторногоиспользованиясеансов " ++
      js "режимполученияданныхвыборапривводепостроке режимсовместимости режимсовместимостиинтерфейса " ++
      js "режимуправленияблокировкойданныхпоумолчанию сериикодовпланавидовхарактеристик сериикодовпланасчетов " ++
      js "сериикодовсправочника созданиепривводе способвыбора способпоискастрокипривводепостроке способредактирования " ++
      js "типданныхтаблицывнешнегоисточникаданных типкодапланавидоврасчета типкодасправочника типмакета типномерабизнеспроцесса " ++
      js "типномерадокумента типномеразадачи типформы удалениедвижений ".
Definition lang_1c_v8_system_enums_differents : jsstr :=
  js "важностьпроблемыприменениярасширенияконфигурации вариантинтерфейсаклиентскогоприложения вариантмасштабаформклиентскогоприложения " ++
      js "вариантосновногошрифтаклиентскогоприложения вариантстандартногопериода вариантстандартнойдатыначала " ++
      js "видграницы видкартинки " ++
      js "видотображенияполнотекстовогопоиска видрамки видсравнения видцвета видчисловогозначения видшрифта допустимаядлина " ++
      js "допустимыйзнак " ++
      js "использованиеbyteordermark использованиеметаданныхполнотекстовогопоиска источникрасширенийконфигурации " ++
      js "клавиша кодвозвратадиалога " ++
      js "кодировкаxbase кодировкатекста направлениепоиска направлениесортировки обновлениепредопределенныхданных " ++
      js "обновлениеприизмененииданных " ++
      js "отображениепанелиразделов проверказаполнения режимдиалогавопрос режимзапускаклиентскогоприложения режимокругления " ++
      js "режимоткрытияформприложения " ++
      js "режимполнотекстовогопоиска скоростьклиентскогосоединения состояниевнешнегоисточникаданных состояниеобновленияконфигурациибазыданных " ++
      js "способвыборасертификатаwindows способкодированиястроки статуссообщения типвнешнейкомпоненты типплатформы " ++
      js "типповеденияклавишиenter " ++
      js "типэлементаинформацииовыполненииобновленияконфигурациибазыданных уровеньизоляциитранзакций хешфункция " ++
      js "частидаты".
Definition lang_1c_v8_shared_object : jsstr :=
  js "comобъект ftpсоединение httpзапрос httpсервисответ httpсоединение wsопределения wsпрокси xbase анализданных " ++
      js "аннотацияxs " ++
      js "блокировкаданных буфердвоичныхданных включениеxs выражениекомпоновкиданных генераторслучайныхчисел географическаясхема " ++
      js "географическиекоординаты графическаясхема группамоделиxs данныерасшифровкикомпоновкиданных двоичныеданные " ++
      js "дендрограмма " ++
      js "диаграмма диаграммаганта диалогвыборафайла диалогвыборацвета диалогвыборашрифта диалограсписаниярегламентногозадания " ++
      js "диалогредактированиястандартногопериода диапазон документdom документhtml документацияxs доставляемоеуведомление " ++
      js "записьdom записьfastinfoset записьhtml записьjson записьxml записьzipфайла записьданных записьтекста " ++
      js "записьузловdom " ++
      js "запрос защищенноесоединениеopenssl значенияполейрасшифровкикомпоновкиданных извлечениетекста импортxs " ++
      js "интернетпочта " ++
      js "интернетпочтовоесообщение интернетпочтовыйпрофиль интернетпрокси интернетсоединение информациядляприложенияxs " ++
      js "использованиеатрибутаxs использованиесобытияжурналарегистрации источникдоступныхнастроеккомпоновкиданных " ++
      js "итераторузловdom картинка квалификаторыдаты квалификаторыдвоичныхданных квалификаторыстроки квалификаторычисла " ++
      js "компоновщикмакетакомпоновкиданных компоновщикнастроеккомпоновкиданных конструктормакетаоформлениякомпоновкиданных " ++
      js "конструкторнастроеккомпоновкиданных конструкторформатнойстроки линия макеткомпоновкиданных макетобластикомпоновкиданных " ++
      js "макетоформлениякомпоновкиданных маскаxs менеджеркриптографии наборсхемxml настройкикомпоновкиданных " ++
      js "настройкисериализацииjson " ++
      js "обработкакартинок обработкарасшифровкикомпоновкиданных обходдереваdom объявлениеатрибутаxs объявлениенотацииxs " ++
      js "объявлениеэлементаxs описаниеиспользованиясобытиядоступжурналарегистрации " ++
      js "описаниеиспользованиясобытияотказвдоступежурналарегистрации описаниеобработкирасшифровкикомпоновкиданных " ++
      js "описаниепередаваемогофайла описаниетипов определениегруппыатрибутовxs определениегруппымоделиxs " ++
      js "определениеограниченияидентичностиxs определениепростоготипаxs определениесоставноготипаxs определениетипадокументаdom " ++
      js "определенияxpathxs отборкомпоновкиданных пакетотображаемыхдокументов параметрвыбора параметркомпоновкиданных " ++
      js "параметрызаписиjson параметрызаписиxml параметрычтенияxml переопределениеxs планировщик полеанализаданных " ++
      js "полекомпоновкиданных построительdom построительзапроса построительотчета построительотчетаанализаданных " ++
      js "построительсхемxml поток потоквпамяти почта почтовоесообщение преобразованиеxsl преобразованиекканоническомуxml " ++
      js "процессорвыводарезультатакомпоновкиданныхвколлекциюзначений процессорвыводарезультатакомпоновкиданныхвтабличныйдокумент " ++
      js "процессоркомпоновкиданных разыменовательпространствименdom рамка расписаниерегламентногозадания расширенноеимяxml " ++
      js "результатчтенияданных своднаядиаграмма связьпараметравыбора связьпотипу связьпотипукомпоновкиданных " ++
      js "сериализаторxdto " ++
      js "сертификатклиентаwindows сертификатклиентафайл сертификаткриптографии сертификатыудостоверяющихцентровwindows " ++
      js "сертификатыудостоверяющихцентровфайл сжатиеданных системнаяинформация сообщениепользователю сочетаниеклавиш " ++
      js "сравнениезначений стандартнаядатаначала стандартныйпериод схемаxml схемакомпоновкиданных табличныйдокумент " ++
      js "текстовыйдокумент тестируемоеприложение типданныхxml уникальныйидентификатор фабрикаxdto файл файловыйпоток " ++
      js "фасетдлиныxs фасетколичестваразрядовдробнойчастиxs фасетмаксимальноговключающегозначенияxs " ++
      js "фасетмаксимальногоисключающегозначенияxs фасетмаксимальнойдлиныxs фасетминимальноговключающегозначенияxs " ++
      js "фасетминимальногоисключающегозначенияxs фасетминимальнойдлиныxs фасетобразцаxs фасетобщегоколичестваразрядовxs " ++
      js "фасетперечисленияxs фасетпробельныхсимволовxs фильтрузловdom форматированнаястрока форматированныйдокумент " ++
      js "фрагментxs хешированиеданных хранилищезначения цвет чтениеfastinfoset чтениеhtml чтениеjson чтениеxml " ++
      js "чтениеzipфайла " ++
      js "чтениеданных чтениетекста чтениеузловdom шрифт элементрезультатакомпоновкиданных ".

(** 1c *)
Definition lang_1c : M language :=
  let UNDERSCORE_IDENT_RE' := js "[A-Za-zА-Яа-яёЁ_][A-Za-zА-Яа-яёЁ_0-9]+" in
  let v7_keywords := js "далее " in
  let v8_keywords :=
      js "возврат вызватьисключение выполнить для если и из или иначе иначеесли исключение каждого конецесли " ++
      js "конецпопытки конеццикла не новый перейти перем по пока попытка прервать продолжить тогда цикл экспорт " in
  let KEYWORD := v7_keywords ++ v8_keywords in
  let v7_meta_keywords := js "загрузитьизфайла " in
  let v8_meta_keywords :=
      js "вебклиент вместо внешнеесоединение клиент конецобласти мобильноеприложениеклиент мобильноеприложениесервер " ++
      js "наклиенте наклиентенасервере наклиентенасерверебезконтекста насервере насерверебезконтекста область " ++
      js "перед " ++
      js "после сервер толстыйклиентобычноеприложение толстыйклиентуправляемоеприложение тонкийклиент " in
  let METAKEYWORD := v7_meta_keywords ++ v8_meta_keywords in
  let v7_system_constants := js "разделительстраниц разделительстрок символтабуляции " in
  let BUILTIN := v7_system_constants ++ lang_1c_v7_global_context_methods ++ lang_1c_v8_global_context_methods ++
      lang_1c_v8_global_context_property in
  let v8_system_sets_of_values :=
      js "webцвета windowsцвета windowsшрифты библиотекакартинок рамкистиля символы цветастиля шрифтыстиля " in
  let v8_system_enums_objects_properties :=
      js "виддвижениябухгалтерии виддвижениянакопления видпериодарегистрарасчета видсчета видточкимаршрутабизнеспроцесса " ++
      js "использованиеагрегатарегистранакопления использованиегруппиэлементов использованиережимапроведения " ++
      js "использованиесреза периодичностьагрегатарегистранакопления режимавтовремя режимзаписидокумента режимпроведениядокумента " in
  let v8_system_enums_exchange_plans :=
      js "авторегистрацияизменений допустимыйномерсообщения отправкаэлементаданных получениеэлементаданных " in
  let v8_system_enums_tabular_document :=
      js "использованиерасшифровкитабличногодокумента ориентациястраницы положениеитоговколоноксводнойтаблицы " ++
      js "положениеитоговстроксводнойтаблицы положениетекстаотносительнокартинки расположениезаголовкагруппировкитабличногодокумента " ++
      js "способчтениязначенийтабличногодокумента типдвустороннейпечати типзаполненияобластитабличногодокумента " ++
      js "типкурсоровтабличногодокумента типлиниирисункатабличногодокумента типлинииячейкитабличногодокумента " ++
      js "типнаправленияпереходатабличногодокумента типотображениявыделениятабличногодокумента типотображениялинийсводнойтаблицы " ++
      js "типразмещениятекстатабличногодокумента типрисункатабличногодокумента типсмещениятабличногодокумента " ++
      js "типузоратабличногодокумента типфайлатабличногодокумента точностьпечати чередованиерасположениястраниц " in
  let v8_system_enums_sheduler := js "отображениевремениэлементовпланировщика " in
  let v8_system_enums_formatted_document := js "типфайлаформатированногодокумента " in
  let v8_system_enums_query := js "обходрезультатазапроса типзаписизапроса " in
  let v8_system_enums_report_builder :=
      js "видзаполнениярасшифровкипостроителяотчета типдобавленияпредставлений типизмеренияпостроителяотчета типразмещенияитогов " in
  let v8_system_enums_files := js "доступкфайлу режимдиалогавыборафайла режимоткрытияфайла " in
  let v8_system_enums_query_builder := js "типизмеренияпостроителязапроса " in
  let v8_system_enums_data_analysis :=
      js "видданныханализа методкластеризации типединицыинтервалавременианализаданных типзаполнениятаблицырезультатаанализаданных " ++
      js "типиспользованиячисловыхзначенийанализаданных типисточникаданныхпоискаассоциаций типколонкианализаданныхдереворешений " ++
      js "типколонкианализаданныхкластеризация типколонкианализаданныхобщаястатистика типколонкианализаданныхпоискассоциаций " ++
      js "типколонкианализаданныхпоискпоследовательностей типколонкимоделипрогноза типмерырасстоянияанализаданных " ++
      js "типотсеченияправилассоциации типполяанализаданных типстандартизациианализаданных типупорядочиванияправилассоциациианализаданных " ++
      js "типупорядочиванияшаблоновпоследовательностейанализаданных типупрощениядереварешений " in
  let v8_system_enums_xml_json_xs_dom_xdto_ws :=
      js "wsнаправлениепараметра вариантxpathxs вариантзаписидатыjson вариантпростоготипаxs видгруппымоделиxs " ++
      js "видфасетаxdto " ++
      js "действиепостроителяdom завершенностьпростоготипаxs завершенностьсоставноготипаxs завершенностьсхемыxs " ++
      js "запрещенныеподстановкиxs " ++
      js "исключениягруппподстановкиxs категорияиспользованияатрибутаxs категорияограниченияидентичностиxs категорияограниченияпространствименxs " ++
      js "методнаследованияxs модельсодержимогоxs назначениетипаxml недопустимыеподстановкиxs обработкапробельныхсимволовxs " ++
      js "обработкасодержимогоxs " ++
      js "ограничениезначенияxs параметрыотбораузловdom переносстрокjson позициявдокументеdom пробельныесимволыxml " ++
      js "типатрибутаxml типзначенияjson " ++
      js "типканоническогоxml типкомпонентыxs типпроверкиxml типрезультатаdomxpath типузлаdom типузлаxml формаxml " ++
      js "формапредставленияxs " ++ js "форматдатыjson экранированиесимволовjson " in
  let v8_system_enums_email :=
      js "важностьинтернетпочтовогосообщения обработкатекстаинтернетпочтовогосообщения способкодированияинтернетпочтовоговложения " ++
      js "способкодированиянеasciiсимволовинтернетпочтовогосообщения типтекстапочтовогосообщения протоколинтернетпочты " ++
      js "статусразборапочтовогосообщения " in
  let v8_system_enums_logbook :=
      js "режимтранзакциизаписижурналарегистрации статустранзакциизаписижурналарегистрации уровеньжурналарегистрации " in
  let v8_system_enums_cryptography :=
      js "расположениехранилищасертификатовкриптографии режимвключениясертификатовкриптографии режимпроверкисертификатакриптографии " ++
      js "типхранилищасертификатовкриптографии " in
  let v8_system_enums_zip :=
      js "кодировкаименфайловвzipфайле методсжатияzip методшифрованияzip режимвосстановленияпутейфайловzip режимобработкиподкаталоговzip " ++
      js "режимсохраненияпутейzip уровеньсжатияzip " in
  let v8_system_enums_other :=
      js "звуковоеоповещение направлениепереходакстроке позициявпотоке порядокбайтов режимблокировкиданных режимуправленияблокировкойданных " ++
      js "сервисвстроенныхпокупок состояниефоновогозадания типподписчикадоставляемыхуведомлений уровеньиспользованиязащищенногосоединенияftp " in
  let v8_system_enums_request_schema :=
      js "направлениепорядкасхемызапроса типдополненияпериодамисхемызапроса типконтрольнойточкисхемызапроса типобъединениясхемызапроса " ++
      js "типпараметрадоступнойтаблицысхемызапроса типсоединениясхемызапроса " in
  let CLASS := v8_system_sets_of_values ++ lang_1c_v8_system_enums_interface ++
      v8_system_enums_objects_properties ++ v8_system_enums_exchange_plans ++ v8_system_enums_tabular_document ++
      v8_system_enums_sheduler ++ v8_system_enums_formatted_document ++ v8_system_enums_query ++
      v8_system_enums_report_builder ++ v8_system_enums_files ++ v8_system_enums_query_builder ++
      v8_system_enums_data_analysis ++ v8_system_enums_xml_json_xs_dom_xdto_ws ++
      lang_1c_v8_system_enums_data_composition_system ++ v8_system_enums_email ++ v8_system_enums_logbook ++
      v8_system_enums_cryptography ++ v8_system_enums_zip ++ v8_system_enums_other ++
      v8_system_enums_request_schema ++ lang_1c_v8_system_enums_properties_of_metadata_objects ++
      lang_1c_v8_system_enums_differents in
  let v8_universal_collection :=
      js "comsafearray деревозначений массив соответствие списокзначений структура таблицазначений фиксированнаяструктура " ++
      js "фиксированноесоответствие фиксированныймассив " in
  let TYPE := lang_1c_v8_shared_object ++ v8_universal_collection in
  let LITERAL := js "null истина ложь неопределено" in
  let* NUMBERS := inherit_mode NUMBER_MODE [] in
  let* m1 := new [Begin (js "＂＂")] in
  let* STRINGS := new [ClassName (js "string"); Begin (js "＂|\|"); End_ (js "＂|$"); Contains [CRef m1]] in
  let* m2 := new [ClassName (js "number"); Begin (js "\d{4}([\.\\/:-]?\d{2}){0,5}")] in
  let* DATE := new [Begin (js "'"); End_ (js "'"); ExcludeBegin true; ExcludeEnd true; Contains [CRef m2]] in
  let* COMMENTS := inherit_mode C_LINE_COMMENT_MODE [] in
  let* META := new [ClassName (js "meta"); Lexemes UNDERSCORE_IDENT_RE'; Begin (js "#|&"); End_ (js "$");
      Keywords (KObj [(js "meta-keyword", KEYWORD ++ METAKEYWORD)]); Contains [CRef COMMENTS]] in
  let* SYMBOL := new [ClassName (js "symbol"); Begin (js "~"); End_ (js ";|:"); ExcludeEnd true] in
  let* m3 := new [ClassName (js "params"); Lexemes UNDERSCORE_IDENT_RE'; Begin UNDERSCORE_IDENT_RE'; End_ (js ",");
      ExcludeEnd true; EndsWithParent true; Keywords (KObj [(js "keyword", js "знач"); (js "literal", LITERAL)]);
      Contains [CRef NUMBERS; CRef STRINGS; CRef DATE]] in
  let* m4 := new [Begin (js "\("); End_ (js "\)"); EndsParent true; Contains [CRef m3; CRef COMMENTS]] in
  let* m5 := inherit_mode TITLE_MODE [Begin UNDERSCORE_IDENT_RE'] in
  let* FUNCTION := new [ClassName (js "function"); Lexemes UNDERSCORE_IDENT_RE';
      Variants [[Begin (js "процедура|функция"); End_ (js "\)"); Keywords (KStr (js "процедура функция"))];
      [Begin (js "конецпроцедуры|конецфункции"); Keywords (KStr (js "конецпроцедуры конецфункции"))]];
      Contains [CRef m4; CRef m5]] in
  lang (mkLP true [] false) [Lexemes UNDERSCORE_IDENT_RE'; Keywords (KObj [(js "keyword", KEYWORD);
      (js "built_in", BUILTIN); (js "class", CLASS); (js "type", TYPE); (js "literal", LITERAL)]);
      Contains [CRef META; CRef FUNCTION; CRef COMMENTS; CRef SYMBOL; CRef NUMBERS; CRef STRINGS; CRef DATE]].

(** abnf *)
Definition lang_abnf : M language :=
  let regexes_ruleDeclaration := js "^[a-zA-Z][a-zA-Z0-9-]*" in
  let regexes_unexpectedChars := js "[!@#$^&',?+~`|:]" in
  let keywords' := [js "ALPHA"; js "BIT"; js "CHAR"; js "CR"; js "CRLF"; js "CTL"; js "DIGIT"; js "DQUOTE";
      js "HEXDIG"; js "HTAB"; js "LF"; js "LWSP"; js "OCTET"; js "SP"; js "VCHAR"; js "WSP"] in
  let* commentMode := COMMENT (js ";") (js "$") [] in
  let* terminalBinaryMode := new [ClassName (js "symbol"); Begin (js "%b[0-1]+(-[0-1]+|(\.[0-1]+)+){0,1}")] in
  let* terminalDecimalMode := new [ClassName (js "symbol"); Begin (js "%d[0-9]+(-[0-9]+|(\.[0-9]+)+){0,1}")] in
  let* terminalHexadecimalMode := new [ClassName (js "symbol");
      Begin (js "%x[0-9A-F]+(-[0-9A-F]+|(\.[0-9A-F]+)+){0,1}")] in
  let* caseSensitivityIndicatorMode := new [ClassName (js "symbol"); Begin (js "%[si]")] in
  let* m1 := new [ClassName (js "attribute"); Begin regexes_ruleDeclaration] in
  let* ruleDeclarationMode := new [Begin (regexes_ruleDeclaration ++ js "\s*="); ReturnBegin true; End_ (js "=");
      Relevance 0; Contains [CRef m1]] in
  lang plain_lang [Illegal regexes_unexpectedChars; Keywords (KStr (join (js " ") keywords'));
      Contains [CRef ruleDeclarationMode; CRef commentMode; CRef terminalBinaryMode; CRef terminalDecimalMode;
      CRef terminalHexadecimalMode; CRef caseSensitivityIndicatorMode; CRef QUOTE_STRING_MODE; CRef NUMBER_MODE]].

(** accesslog *)
Definition lang_accesslog : M language :=
  let* m1 := new [ClassName (js "number"); Begin (js "\b\d{1,3}\.\d{1,3}\.\d{1,3}\.\d{1,3}(:\d{1,5})?\b")] in
  let* m2 := new [ClassName (js "number"); Begin (js "\b\d+\b"); Relevance 0] in
  let* m3 := new [ClassName (js "string"); Begin (js "＂(GET|POST|HEAD|PUT|DELETE|CONNECT|OPTIONS|PATCH|TRACE)");
      End_ (js "＂"); Keywords (KStr (js "GET POST HEAD PUT DELETE CONNECT OPTIONS PATCH TRACE")); Illegal (js "\n");
      Relevance 10] in
  let* m4 := new [ClassName (js "string"); Begin (js "\["); End_ (js "\]"); Illegal (js "\n")] in
  let* m5 := new [ClassName (js "string"); Begin (js "＂"); End_ (js "＂"); Illegal (js "\n")] in
  lang plain_lang [Contains [CRef m1; CRef m2; CRef m3; CRef m4; CRef m5]].

(** actionscript *)
Definition lang_actionscript : M language :=
  let IDENT_RE' := js "[a-zA-Z_$][a-zA-Z0-9_$]*" in
  let IDENT_FUNC_RETURN_TYPE_RE := js "([*]|[a-zA-Z_$][a-zA-Z0-9_$]*" ++ js ")" in
  let* AS3_REST_ARG_MODE := new [ClassName (js "rest_arg"); Begin (js "[.]{3}"); End_ IDENT_RE'; Relevance 10] in
  let* m1 := new [ClassName (js "class"); BeginKeywords (js "package"); End_ (js "{");
      Contains [CRef TITLE_MODE]] in
  let* m2 := new [BeginKeywords (js "extends implements")] in
  let* m3 := new [ClassName (js "class"); BeginKeywords (js "class interface"); End_ (js "{"); ExcludeEnd true;
      Contains [CRef m2; CRef TITLE_MODE]] in
  let* m4 := new [ClassName (js "meta"); BeginKeywords (js "import include"); End_ (js ";");
      Keywords (KObj [(js "meta-keyword", js "import include")])] in
  let* m5 := new [ClassName (js "params"); Begin (js "\("); End_ (js "\)"); Contains [CRef APOS_STRING_MODE;
      CRef QUOTE_STRING_MODE; CRef C_LINE_COMMENT_MODE; CRef C_BLOCK_COMMENT_MODE; CRef AS3_REST_ARG_MODE]] in
  let* m6 := new [Begin (js ":\s*" ++ IDENT_FUNC_RETURN_TYPE_RE)] in
  let* m7 := new [ClassName (js "function"); BeginKeywords (js "function"); End_ (js "[{;]"); ExcludeEnd true;
      Illegal (js "\S"); Contains [CRef TITLE_MODE; CRef m5; CRef m6]] in
  lang (mkLP false [js "as"] false) [Keywords (KObj [(js "keyword", js "as break case catch class const continue default delete do dynamic each " ++
      js "else extends final finally for function get if implements import in include " ++
      js "instanceof interface internal is namespace native new override package private " ++
      js "protected public return set static super switch this throw try typeof use var void " ++ js "while with");
      (js "literal", js "true false null undefined")]); Contains [CRef APOS_STRING_MODE; CRef QUOTE_STRING_MODE;
      CRef C_LINE_COMMENT_MODE; CRef C_BLOCK_COMMENT_MODE; CRef C_NUMBER_MODE; CRef m1; CRef m3; CRef m4; CRef m7;
      CRef METHOD_GUARD]; Illegal (js "#")].

(** ada *)
Definition lang_ada : M language :=
  let INTEGER_RE := js "\d(_|\d)*" in
  let EXPONENT_RE := js "[eE][-+]?" ++ INTEGER_RE in
  let DECIMAL_LITERAL_RE := INTEGER_RE ++ js "(\." ++ INTEGER_RE ++ js ")?" ++ js "(" ++ EXPONENT_RE ++ js ")?" in
  let BASED_INTEGER_RE := js "\w+" in
  let BASED_LITERAL_RE := INTEGER_RE ++ js "#" ++ BASED_INTEGER_RE ++ js "(\." ++ BASED_INTEGER_RE ++ js ")?" ++
      js "#" ++ js "(" ++ EXPONENT_RE ++ js ")?" in
  let NUMBER_RE' := js "\b(" ++ BASED_LITERAL_RE ++ js "|" ++ DECIMAL_LITERAL_RE ++ js ")" in
  let ID_REGEX := js "[A-Za-z](_?[A-Za-z0-9.])*" in
  let BAD_CHARS := js "[]{}%#'＂" in
  let* COMMENTS := COMMENT (js "--") (js "$") [] in
  let* m1 := new [BeginKeywords (js "loop for declare others"); EndsParent true] in
  let* m2 := new [ClassName (js "keyword");
      BeginKeywords (js "not null constant access function procedure in out aliased exception")] in
  let* m3 := new [ClassName (js "type"); Begin ID_REGEX; EndsParent true; Relevance 0] in
  let* VAR_DECLS := new [Begin (js "\s+:\s+"); End_ (js "\s*(:=|;|\)|=>|$)"); Illegal BAD_CHARS; Contains [CRef m1;
      CRef m2; CRef m3]] in
  let* m4 := new [Begin (js "＂＂"); Relevance 0] in
  let* m5 := new [ClassName (js "string"); Begin (js "＂"); End_ (js "＂"); Contains [CRef m4]] in
  let* m6 := new [ClassName (js "string"); Begin (js "'.'")] in
  let* m7 := new [ClassName (js "number"); Begin NUMBER_RE'; Relevance 0] in
  let* m8 := new [ClassName (js "symbol"); Begin (js "'" ++ ID_REGEX)] in
  let* m9 := new [ClassName (js "title"); Begin (js "(\bwith\s+)?(\bprivate\s+)?\bpackage\s+(\bbody\s+)?");
      End_ (js "(is|$)"); Keywords (KStr (js "package body")); ExcludeBegin true; ExcludeEnd true;
      Illegal BAD_CHARS] in
  let* m10 := new [ClassName (js "title"); Begin (js "(\bwith\s+)?\b(function|procedure)\s+");
      End_ (js "(\(|\s+|$)"); ExcludeBegin true; ExcludeEnd true; Illegal BAD_CHARS] in
  let* m11 := new [ClassName (js "type"); Begin (js "\breturn\s+"); End_ (js "(\s+|;|$)");
      Keywords (KStr (js "return")); ExcludeBegin true; ExcludeEnd true; EndsParent true; Illegal BAD_CHARS] in
  let* m12 := new [Begin (js "(\b(with|overriding)\s+)?\b(function|procedure)\s+");
      End_ (js "(\bis|\bwith|\brenames|\)\s*;)");
      Keywords (KStr (js "overriding function procedure with is renames return")); ReturnBegin true;
      Contains [CRef COMMENTS; CRef m10; CRef VAR_DECLS; CRef m11]] in
  let* m13 := new [ClassName (js "type"); Begin (js "\b(sub)?type\s+"); End_ (js "\s+");
      Keywords (KStr (js "type")); ExcludeBegin true; Illegal BAD_CHARS] in
  lang (mkLP true [] false) [Keywords (KObj [(js "keyword", js "abort else new return abs elsif not reverse abstract end " ++
      js "accept entry select access exception of separate aliased exit or some " ++
      js "all others subtype and for out synchronized array function overriding " ++
      js "at tagged generic package task begin goto pragma terminate " ++
      js "body private then if procedure type case in protected constant interface " ++
      js "is raise use declare range delay limited record when delta loop rem while " ++
      js "digits renames with do mod requeue xor"); (js "literal", js "True False")]); Contains [CRef COMMENTS;
      CRef m5; CRef m6; CRef m7; CRef m8; CRef m9; CRef m12; CRef m13; CRef VAR_DECLS]].

(** angelscript *)
Definition lang_angelscript : M language :=
  let* builtInTypeMode := new [ClassName (js "built_in");
      Begin (js "\b(void|bool|int|int8|int16|int32|int64|uint|uint8|uint16|uint32|uint64|string|ref|array|double|float|auto|dictionary)")] in
  let* objectHandleMode := new [ClassName (js "symbol"); Begin (js "[a-zA-Z0-9_]+@")] in
  let* genericMode := new [ClassName (js "keyword"); Begin (js "<"); End_ (js ">"); Contains [CRef builtInTypeMode;
      CRef objectHandleMode]] in
  let* _ := upd builtInTypeMode (fun m => assign m (Contains [CRef genericMode])) in
  let* _ := upd objectHandleMode (fun m => assign m (Contains [CRef genericMode])) in
  let* m1 := new [ClassName (js "string"); Begin (js "'"); End_ (js "'"); Illegal (js "\n");
      Contains [CRef BACKSLASH_ESCAPE]; Relevance 0] in
  let* m2 := new [ClassName (js "string"); Begin (js "＂"); End_ (js "＂"); Illegal (js "\n");
      Contains [CRef BACKSLASH_ESCAPE]; Relevance 0] in
  let* m3 := new [ClassName (js "string"); Begin (js "＂＂＂"); End_ (js "＂＂＂")] in
  let* m4 := new [ClassName (js "symbol"); Begin (js "[a-zA-Z0-9_]+")] in
  let* m5 := new [BeginKeywords (js "interface namespace"); End_ (js "{"); Illegal (js "[;.\-]");
      Contains [CRef m4]] in
  let* m6 := new [ClassName (js "symbol"); Begin (js "[a-zA-Z0-9_]+")] in
  let* m7 := new [Begin (js "[:,]\s*"); Contains [CRef m6]] in
  let* m8 := new [ClassName (js "symbol"); Begin (js "[a-zA-Z0-9_]+"); Contains [CRef m7]] in
  let* m9 := new [BeginKeywords (js "class"); End_ (js "{"); Illegal (js "[;.\-]"); Contains [CRef m8]] in
  let* m10 := new [ClassName (js "literal"); Begin (js "\b(null|true|false)")] in
  let* m11 := new [ClassName (js "number"); Begin (js "(-?)(\b0[xX][a-fA-F0-9]+|(\b\d+(\.\d*" ++
      js ")?f?|\.\d+f?)([eE][-+]?\d+f?)?)")] in
  lang (mkLP false [js "asc"] false) [Keywords (KStr (js "for in|0 break continue while do|0 return if else case switch namespace is cast " ++
      js "or and xor not get|0 in inout|10 out override set|0 private public const default|0 " ++
      js "final shared external mixin|10 enum typedef funcdef this super import from interface " ++
      js "abstract|0 try catch protected explicit")); Illegal (js "(^using\s+[A-Za-z0-9_\.]+;$|\bfunctions*[^\(])");
      Contains [CRef m1; CRef m2; CRef m3; CRef C_LINE_COMMENT_MODE; CRef C_BLOCK_COMMENT_MODE; CRef m5; CRef m9;
      CRef builtInTypeMode; CRef objectHandleMode; CRef m10; CRef m11]].

(** apache *)
Definition lang_apache : M language :=
  let* NUMBER := new [ClassName (js "number"); Begin (js "[\$%]\d+")] in
  let* m1 := new [ClassName (js "section"); Begin (js "</?"); End_ (js ">")] in
  let* m2 := new [ClassName (js "meta"); Begin (js "\s\["); End_ (js "\]$")] in
  let* m3 := new [ClassName (js "variable"); Begin (js "[\$%]\{"); End_ (js "\}"); Contains [CSelf; CRef NUMBER]] in
  let* m4 := new [End_ (js "$"); Relevance 0; Keywords (KObj [(js "literal", js "on off all")]); Contains [CRef m2;
      CRef m3; CRef NUMBER; CRef QUOTE_STRING_MODE]] in
  let* m5 := new [ClassName (js "attribute"); Begin (js "\w+"); Relevance 0;
      Keywords (KObj [(js "nomarkup", js "order deny allow setenv rewriterule rewriteengine rewritecond documentroot " ++
      js "sethandler errordocument loadmodule options header listen serverroot " ++ js "servername")]);
      Starts m4] in
  lang (mkLP true [js "apacheconf"] false) [Contains [CRef HASH_COMMENT_MODE; CRef m1; CRef m5]; Illegal (js "\S")].

(** applescript *)
Definition lang_applescript : M language :=
  let* STRING := inherit_mode QUOTE_STRING_MODE [Illegal []] in
  let* PARAMS := new [ClassName (js "params"); Begin (js "\("); End_ (js "\)"); Contains [CSelf; CRef C_NUMBER_MODE;
      CRef STRING]] in
  let* COMMENT_MODE_1 := COMMENT (js "--") (js "$") [] in
  let* COMMENT_MODE_2 := COMMENT (js "\(\*") (js "\*\)") [Contains [CSelf; CRef COMMENT_MODE_1]] in
  let COMMENTS := [CRef COMMENT_MODE_1; CRef COMMENT_MODE_2; CRef HASH_COMMENT_MODE] in
  let* m1 := new [ClassName (js "built_in");
      Begin (js "\b(clipboard info|the clipboard|info for|list (disks|folder)|" ++
      js "mount volume|path to|(close|open for) access|(get|set) eof|" ++
      js "current date|do shell script|get volume settings|random number|" ++
      js "set volume|system attribute|system info|time to GMT|" ++
      js "(load|run|store) script|scripting components|" ++ js "ASCII (character|number)|localized string|" ++
      js "choose (application|color|file|file name|" ++ js "folder|from list|remote application|URL)|" ++
      js "display (alert|dialog))\b|^\s*return\b")] in
  let* m2 := new [ClassName (js "literal");
      Begin (js "\b(text item delimiters|current application|missing value)\b")] in
  let* m3 := new [ClassName (js "keyword"); Begin (js "\b(apart from|aside from|instead of|out of|greater than|" ++
      js "isn't|(doesn't|does not) (equal|come before|come after|contain)|" ++
      js "(greater|less) than( or equal)?|(starts?|ends|begins?) with|" ++
      js "contained by|comes (before|after)|a (ref|reference)|POSIX file|" ++
      js "POSIX path|(date|time) string|quoted form)\b")] in
  let* m4 := new [BeginKeywords (js "on"); Illegal (js "[${=;\n]"); Contains [CRef UNDERSCORE_TITLE_MODE;
      CRef PARAMS]] in
  lang (mkLP false [js "osascript"] false) [Keywords (KObj [(js "keyword", js "about above after against and around as at back before beginning " ++
      js "behind below beneath beside between but by considering " ++
      js "contain contains continue copy div does eighth else end equal " ++
      js "equals error every exit fifth first for fourth from front " ++
      js "get given global if ignoring in into is it its last local me " ++
      js "middle mod my ninth not of on onto or over prop property put ref " ++
      js "reference repeat returning script second set seventh since " ++
      js "sixth some tell tenth that the|0 then third through thru " ++
      js "timeout times to transaction try until where while whose with " ++ js "without");
      (js "literal", js "AppleScript false linefeed return pi quote result space tab true");
      (js "built_in", js "alias application boolean class constant date file integer list " ++
      js "number real record string text " ++ js "activate beep count delay launch log offset read round " ++
      js "run say summarize write " ++ js "character characters contents day frontmost id item length " ++
      js "month name paragraph paragraphs rest reverse running time version " ++ js "weekday word words year")]);
      Contains ([CRef STRING; CRef C_NUMBER_MODE; CRef m1; CRef m2; CRef m3; CRef m4] ++ COMMENTS);
      Illegal (js "//|->|=>|\[\[")].

(** arcade *)
Definition lang_arcade : M language :=
  let IDENT_RE' := js "[A-Za-z_][0-9A-Za-z_]*" in
  let KEYWORDS := KObj [(js "keyword", js "if for while var new function do return void else break");
      (js "literal", js "true false null undefined NaN Infinity PI BackSlash DoubleQuote ForwardSlash NewLine SingleQuote Tab");
      (js "built_in", js "Abs Acos Area AreaGeodetic Asin Atan Atan2 Average Boolean Buffer BufferGeodetic " ++
      js "Ceil Centroid Clip Console Constrain Contains Cos Count Crosses Cut Date DateAdd " ++
      js "DateDiff Day Decode DefaultValue Dictionary Difference Disjoint Distance Distinct " ++
      js "DomainCode DomainName Equals Exp Extent Feature FeatureSet FeatureSetById FeatureSetByTitle " ++
      js "FeatureSetByUrl Filter First Floor Geometry Guid HasKey Hour IIf IndexOf Intersection " ++
      js "Intersects IsEmpty Length LengthGeodetic Log Max Mean Millisecond Min Minute Month " ++
      js "MultiPartToSinglePart Multipoint NextSequenceValue Now Number OrderBy Overlaps Point Polygon " ++
      js "Polyline Pow Random Relate Reverse Round Second SetGeometry Sin Sort Sqrt Stdev Sum " ++
      js "SymmetricDifference Tan Text Timestamp Today ToLocal Top Touches ToUTC TypeOf Union Variance " ++
      js "Weekday When Within Year ")] in
  let* SYMBOL := new [ClassName (js "symbol"); Begin (js "\$[feature|layer|map|value|view]+")] in
  let* NUMBER := new [ClassName (js "number"); Variants [[Begin (js "\b(0[bB][01]+)")];
      [Begin (js "\b(0[oO][0-7]+)")]; [Begin C_NUMBER_RE]]; Relevance 0] in
  let* SUBST := new [ClassName (js "subst"); Begin (js "\$\{"); End_ (js "\}"); Keywords KEYWORDS; Contains []] in
  let* TEMPLATE_STRING := new [ClassName (js "string"); Begin (js "`"); End_ (js "`");
      Contains [CRef BACKSLASH_ESCAPE; CRef SUBST]] in
  let* _ := upd SUBST (fun m => assign m (Contains [CRef APOS_STRING_MODE; CRef QUOTE_STRING_MODE;
      CRef TEMPLATE_STRING; CRef NUMBER; CRef REGEXP_MODE])) in
  let* m1 := get SUBST in
  let PARAMS_CONTAINS := (contains m1) ++ [CRef C_BLOCK_COMMENT_MODE; CRef C_LINE_COMMENT_MODE] in
  let* m2 := new [ClassName (js "attr"); Begin IDENT_RE'; Relevance 0] in
  let* m3 := new [Begin (IDENT_RE' ++ js "\s*:"); ReturnBegin true; Relevance 0; Contains [CRef m2]] in
  let* m4 := new [Begin (js "[{,]\s*"); Relevance 0; Contains [CRef m3]] in
  let* m5 := new [ClassName (js "params"); Variants [[Begin IDENT_RE']; [Begin (js "\(\s*\)")]; [Begin (js "\(");
      End_ (js "\)"); ExcludeBegin true; ExcludeEnd true; Keywords KEYWORDS; Contains PARAMS_CONTAINS]]] in
  let* m6 := new [ClassName (js "function"); Begin (js "(\(.*?\)|" ++ IDENT_RE' ++ js ")\s*=>"); ReturnBegin true;
      End_ (js "\s*=>"); Contains [CRef m5]] in
  let* m7 := new [Begin (js "(" ++ RE_STARTERS_RE ++ js "|\b(return)\b)\s*"); Keywords (KStr (js "return"));
      Contains [CRef C_LINE_COMMENT_MODE; CRef C_BLOCK_COMMENT_MODE; CRef REGEXP_MODE; CRef m6]; Relevance 0] in
  let* m8 := inherit_mode TITLE_MODE [Begin IDENT_RE'] in
  let* m9 := new [ClassName (js "params"); Begin (js "\("); End_ (js "\)"); ExcludeBegin true; ExcludeEnd true;
      Contains PARAMS_CONTAINS] in
  let* m10 := new [ClassName (js "function"); BeginKeywords (js "function"); End_ (js "\{"); ExcludeEnd true;
      Contains [CRef m8; CRef m9]; Illegal (js "\[|%")] in
  let* m11 := new [Begin (js "\$[(.]")] in
  lang (mkLP false [js "arcade"] false) [Keywords KEYWORDS; Contains [CRef APOS_STRING_MODE; CRef QUOTE_STRING_MODE;
      CRef TEMPLATE_STRING; CRef C_LINE_COMMENT_MODE; CRef C_BLOCK_COMMENT_MODE; CRef SYMBOL; CRef NUMBER; CRef m4;
      CRef m7; CRef m10; CRef m11]; Illegal (js "#(?!!)")].

(** arduino *)
Definition lang_arduino : creator := fun reg =>
  let* CPP := exports_of reg (js "cpp") in
  lang plain_lang [Keywords (KObj [(js "keyword", js "boolean byte word string String array " ++
      keywords_of CPP (js "keyword"));
      (js "built_in", js "setup loop while catch for if do goto try switch case else " ++
      js "default break continue return " ++ js "KeyboardController MouseController SoftwareSerial " ++
      js "EthernetServer EthernetClient LiquidCrystal " ++ js "RobotControl GSMVoiceCall EthernetUDP EsploraTFT " ++
      js "HttpClient RobotMotor WiFiClient GSMScanner " ++
      js "FileSystem Scheduler GSMServer YunClient YunServer " ++
      js "IPAddress GSMClient GSMModem Keyboard Ethernet " ++ js "Console GSMBand Esplora Stepper Process " ++
      js "WiFiUDP GSM_SMS Mailbox USBHost Firmata PImage " ++ js "Client Server GSMPIN FileIO Bridge Serial " ++
      js "EEPROM Stream Mouse Audio Servo File Task " ++ js "GPRS WiFi Wire TFT GSM SPI SD " ++
      js "runShellCommandAsynchronously analogWriteResolution " ++
      js "retrieveCallingNumber printFirmwareVersion " ++ js "analogReadResolution sendDigitalPortPair " ++
      js "noListenOnLocalhost readJoystickButton setFirmwareVersion " ++
      js "readJoystickSwitch scrollDisplayRight getVoiceCallStatus " ++
      js "scrollDisplayLeft writeMicroseconds delayMicroseconds " ++
      js "beginTransmission getSignalStrength runAsynchronously " ++
      js "getAsynchronously listenOnLocalhost getCurrentCarrier " ++
      js "readAccelerometer messageAvailable sendDigitalPorts " ++
      js "lineFollowConfig countryNameWrite runShellCommand " ++
      js "readStringUntil rewindDirectory readTemperature " ++
      js "setClockDivider readLightSensor endTransmission " ++
      js "analogReference detachInterrupt countryNameRead " ++
      js "attachInterrupt encryptionType readBytesUntil " ++
      js "robotNameWrite readMicrophone robotNameRead cityNameWrite " ++
      js "userNameWrite readJoystickY readJoystickX mouseReleased " ++
      js "openNextFile scanNetworks noInterrupts digitalWrite " ++
      js "beginSpeaker mousePressed isActionDone mouseDragged " ++
      js "displayLogos noAutoscroll addParameter remoteNumber " ++
      js "getModifiers keyboardRead userNameRead waitContinue " ++
      js "processInput parseCommand printVersion readNetworks " ++
      js "writeMessage blinkVersion cityNameRead readMessage " ++
      js "setDataMode parsePacket isListening setBitOrder " ++
      js "beginPacket isDirectory motorsWrite drawCompass " ++
      js "digitalRead clearScreen serialEvent rightToLeft " ++
      js "setTextSize leftToRight requestFrom keyReleased " ++
      js "compassRead analogWrite interrupts WiFiServer " ++ js "disconnect playMelody parseFloat autoscroll " ++
      js "getPINUsed setPINUsed setTimeout sendAnalog " ++ js "readSlider analogRead beginWrite createChar " ++
      js "motorsStop keyPressed tempoWrite readButton " ++ js "subnetMask debugPrint macAddress writeGreen " ++
      js "randomSeed attachGPRS readString sendString " ++ js "remotePort releaseAll mouseMoved background " ++
      js "getXChange getYChange answerCall getResult " ++ js "voiceCall endPacket constrain getSocket writeJSON " ++
      js "getButton available connected findUntil readBytes " ++
      js "exitValue readGreen writeBlue startLoop IPAddress " ++
      js "isPressed sendSysex pauseMode gatewayIP setCursor " ++
      js "getOemKey tuneWrite noDisplay loadImage switchPIN " ++
      js "onRequest onReceive changePIN playFile noBuffer " ++ js "parseInt overflow checkPIN knobRead beginTFT " ++
      js "bitClear updateIR bitWrite position writeRGB " ++ js "highByte writeRed setSpeed readBlue noStroke " ++
      js "remoteIP transfer shutdown hangCall beginSMS " ++ js "endWrite attached maintain noCursor checkReg " ++
      js "checkPUK shiftOut isValid shiftIn pulseIn " ++ js "connect println localIP pinMode getIMEI " ++
      js "display noBlink process getBand running beginSD " ++
      js "drawBMP lowByte setBand release bitRead prepare " ++ js "pointTo readRed setMode noFill remove listen " ++
      js "stroke detach attach noTone exists buffer " ++ js "height bitSet circle config cursor random " ++
      js "IRread setDNS endSMS getKey micros " ++ js "millis begin print write ready flush width " ++
      js "isPIN blink clear press mkdir rmdir close " ++ js "point yield image BSSID click delay " ++
      js "read text move peek beep rect line open " ++ js "seek fill size turn stop home find " ++
      js "step tone sqrt RSSI SSID " ++ js "end bit tan cos sin pow map abs max " ++ js "min get run put");
      (js "literal", js "DIGITAL_MESSAGE FIRMATA_STRING ANALOG_MESSAGE " ++
      js "REPORT_DIGITAL REPORT_ANALOG INPUT_PULLUP " ++ js "SET_PIN_MODE INTERNAL2V56 SYSTEM_RESET LED_BUILTIN " ++
      js "INTERNAL1V1 SYSEX_START INTERNAL EXTERNAL " ++ js "DEFAULT OUTPUT INPUT HIGH LOW")]);
      Contains [CRef (preprocessor CPP); CRef C_LINE_COMMENT_MODE; CRef C_BLOCK_COMMENT_MODE; CRef APOS_STRING_MODE;
      CRef QUOTE_STRING_MODE; CRef C_NUMBER_MODE]].

(** armasm *)
Definition lang_armasm : M language :=
  let* m1 := new [ClassName (js "keyword"); Begin (js "\b(" ++ js "adc|" ++
      js "(qd?|sh?|u[qh]?)?add(8|16)?|usada?8|(q|sh?|u[qh]?)?(as|sa)x|" ++
      js "and|adrl?|sbc|rs[bc]|asr|b[lx]?|blx|bxj|cbn?z|tb[bh]|bic|" ++
      js "bfc|bfi|[su]bfx|bkpt|cdp2?|clz|clrex|cmp|cmn|cpsi[ed]|cps|" ++
      js "setend|dbg|dmb|dsb|eor|isb|it[te]{0,3}|lsl|lsr|ror|rrx|" ++
      js "ldm(([id][ab])|f[ds])?|ldr((s|ex)?[bhd])?|movt?|mvn|mra|mar|" ++
      js "mul|[us]mull|smul[bwt][bt]|smu[as]d|smmul|smmla|" ++
      js "mla|umlaal|smlal?([wbt][bt]|d)|mls|smlsl?[ds]|smc|svc|sev|" ++
      js "mia([bt]{2}|ph)?|mrr?c2?|mcrr2?|mrs|msr|orr|orn|pkh(tb|bt)|rbit|" ++
      js "rev(16|sh)?|sel|[su]sat(16)?|nop|pop|push|rfe([id][ab])?|" ++
      js "stm([id][ab])?|str(ex)?[bhd]?|(qd?)?sub|(sh?|q|u[qh]?)?sub(8|16)|" ++
      js "[su]xt(a?h|a?b(16)?)|srs([id][ab])?|swpb?|swi|smi|tst|teq|" ++ js "wfe|wfi|yield" ++ js ")" ++
      js "(eq|ne|cs|cc|mi|pl|vs|vc|hi|ls|ge|lt|gt|le|al|hs|lo)?" ++ js "[sptrx]?"); End_ (js "\s")] in
  let* m2 := COMMENT (js "[;@]") (js "$") [Relevance 0] in
  let* m3 := new [ClassName (js "string"); Begin (js "'"); End_ (js "[^\\]'"); Relevance 0] in
  let* m4 := new [ClassName (js "title"); Begin (js "\|"); End_ (js "\|"); Illegal (js "\n"); Relevance 0] in
  let* m5 := new [ClassName (js "number"); Variants [[Begin (js "[#$=]?0x[0-9a-f]+")]; [Begin (js "[#$=]?0b[01]+")];
      [Begin (js "[#$=]\d+")]; [Begin (js "\b\d+")]]; Relevance 0] in
  let* m6 := new [ClassName (js "symbol"); Variants [[Begin (js "^[a-z_\.\$][a-z0-9_\.\$]+")];
      [Begin (js "^\s*[a-z_\.\$][a-z0-9_\.\$]+:")]; [Begin (js "[=#]\w+")]]; Relevance 0] in
  lang (mkLP true [js "arm"] false) [Lexemes (js "\.?" ++ IDENT_RE);
      Keywords (KObj [(js "meta", js ".2byte .4byte .align .ascii .asciz .balign .byte .code .data .else .end .endif .endm .endr .equ .err " ++
      js ".exitm .extern .global .hword .if .ifdef .ifndef .include .irp .long .macro .rept .req .section .set " ++
      js ".skip .space .text .word .arm .thumb .code16 .code32 .force_thumb .thumb_func .ltorg " ++
      js "ALIAS ALIGN ARM AREA ASSERT ATTR CN CODE CODE16 CODE32 COMMON CP DATA DCB DCD DCDU DCDO DCFD DCFDU DCI " ++
      js "DCQ DCQU DCW DCWU DN ELIF ELSE END ENDFUNC ENDIF ENDP ENTRY EQU EXPORT EXPORTAS EXTERN FIELD FILL FUNCTION " ++
      js "GBLA GBLL GBLS GET GLOBAL IF IMPORT INCBIN INCLUDE INFO KEEP LCLA LCLL LCLS LTORG MACRO MAP MEND MEXIT " ++
      js "NOFP OPT PRESERVE8 PROC QN READONLY RELOC REQUIRE REQUIRE8 RLIST FN ROUT SETA SETL SETS SN SPACE SUBT " ++
      js "THUMB THUMBX TTL WHILE WEND ");
      (js "built_in", js "r0 r1 r2 r3 r4 r5 r6 r7 r8 r9 r10 r11 r12 r13 r14 r15 " ++ js "pc lr sp ip sl sb fp " ++
      js "a1 a2 a3 a4 v1 v2 v3 v4 v5 v6 v7 v8 f0 f1 f2 f3 f4 f5 f6 f7 " ++
      js "p0 p1 p2 p3 p4 p5 p6 p7 p8 p9 p10 p11 p12 p13 p14 p15 " ++
      js "c0 c1 c2 c3 c4 c5 c6 c7 c8 c9 c10 c11 c12 c13 c14 c15 " ++
      js "q0 q1 q2 q3 q4 q5 q6 q7 q8 q9 q10 q11 q12 q13 q14 q15 " ++
      js "cpsr_c cpsr_x cpsr_s cpsr_f cpsr_cx cpsr_cxs cpsr_xs cpsr_xsf cpsr_sf cpsr_cxsf " ++
      js "spsr_c spsr_x spsr_s spsr_f spsr_cx spsr_cxs spsr_xs spsr_xsf spsr_sf spsr_cxsf " ++
      js "s0 s1 s2 s3 s4 s5 s6 s7 s8 s9 s10 s11 s12 s13 s14 s15 " ++
      js "s16 s17 s18 s19 s20 s21 s22 s23 s24 s25 s26 s27 s28 s29 s30 s31 " ++
      js "d0 d1 d2 d3 d4 d5 d6 d7 d8 d9 d10 d11 d12 d13 d14 d15 " ++
      js "d16 d17 d18 d19 d20 d21 d22 d23 d24 d25 d26 d27 d28 d29 d30 d31 " ++
      js "{PC} {VAR} {TRUE} {FALSE} {OPT} {CONFIG} {ENDIAN} {CODESIZE} {CPU} {FPU} {ARCHITECTURE} {PCSTOREOFFSET} " ++
      js "{ARMASM_VERSION} {INTER} {ROPI} {RWPI} {SWST} {NOSWST} . @")]); Contains [CRef m1; CRef m2;
      CRef C_BLOCK_COMMENT_MODE; CRef QUOTE_STRING_MODE; CRef m3; CRef m4; CRef m5; CRef m6]].

(** asciidoc *)
Definition lang_asciidoc : M language :=
  let* m1 := COMMENT (js "^/{4,}\n") (js "\n/{4,}$") [Relevance 10] in
  let* m2 := COMMENT (js "^//") (js "$") [Relevance 0] in
  let* m3 := new [ClassName (js "title"); Begin (js "^\.\w.*$")] in
  let* m4 := new [Begin (js "^[=\*]{4,}\n"); End_ (js "\n^[=\*]{4,}$"); Relevance 10] in
  let* m5 := new [ClassName (js "section"); Relevance 10; Variants [[Begin (js "^(={1,5}) .+?( \1)?$")];
      [Begin (js "^[^\[\]\n]+?\n[=\-~\^\+]{2,}$")]]] in
  let* m6 := new [ClassName (js "meta"); Begin (js "^:.+?:"); End_ (js "\s"); ExcludeEnd true; Relevance 10] in
  let* m7 := new [ClassName (js "meta"); Begin (js "^\[.+?\]$"); Relevance 0] in
  let* m8 := new [ClassName (js "quote"); Begin (js "^_{4,}\n"); End_ (js "\n_{4,}$"); Relevance 10] in
  let* m9 := new [ClassName (js "code"); Begin (js "^[\-\.]{4,}\n"); End_ (js "\n[\-\.]{4,}$"); Relevance 10] in
  let* m10 := new [Begin (js "<"); End_ (js ">"); SubLanguage (inl (js "xml")); Relevance 0] in
  let* m11 := new [Begin (js "^\+{4,}\n"); End_ (js "\n\+{4,}$"); Contains [CRef m10]; Relevance 10] in
  let* m12 := new [ClassName (js "bullet"); Begin (js "^(\*+|\-+|\.+|[^\n]+?::)\s+")] in
  let* m13 := new [ClassName (js "symbol"); Begin (js "^(NOTE|TIP|IMPORTANT|WARNING|CAUTION):\s+"); Relevance 10] in
  let* m14 := new [Begin (js "\\*\w"); Relevance 0] in
  let* m15 := new [ClassName (js "strong"); Begin (js "\B\*(?![\*\s])"); End_ (js "(\n{2}|\*" ++ js ")");
      Contains [CRef m14]] in
  let* m16 := new [Begin (js "\\'\w"); Relevance 0] in
  let* m17 := new [ClassName (js "emphasis"); Begin (js "\B'(?!['\s])"); End_ (js "(\n{2}|')"); Contains [CRef m16];
      Relevance 0] in
  let* m18 := new [ClassName (js "emphasis"); Begin (js "_(?![_\s])"); End_ (js "(\n{2}|_)"); Relevance 0] in
  let* m19 := new [ClassName (js "string"); Variants [[Begin (js "``.+?''")]; [Begin (js "`.+?'")]]] in
  let* m20 := new [ClassName (js "code"); Begin (js "(`.+?`|\+.+?\+)"); Relevance 0] in
  let* m21 := new [ClassName (js "code"); Begin (js "^[ \t]"); End_ (js "$"); Relevance 0] in
  let* m22 := new [Begin (js "^'{3,}[ \t]*$"); Relevance 10] in
  let* m23 := new [Begin (js "(link|image:?):"); Relevance 0] in
  let* m24 := new [ClassName (js "link"); Begin (js "\w"); End_ (js "[^\[]+"); Relevance 0] in
  let* m25 := new [ClassName (js "string"); Begin (js "\["); End_ (js "\]"); ExcludeBegin true; ExcludeEnd true;
      Relevance 0] in
  let* m26 := new [Begin (js "(link:)?(http|https|ftp|file|irc|image:?):\S+\[.*?\]"); ReturnBegin true;
      Contains [CRef m23; CRef m24; CRef m25]; Relevance 10] in
  lang (mkLP false [js "adoc"] false) [Contains [CRef m1; CRef m2; CRef m3; CRef m4; CRef m5; CRef m6; CRef m7;
      CRef m8; CRef m9; CRef m11; CRef m12; CRef m13; CRef m15; CRef m17; CRef m18; CRef m19; CRef m20; CRef m21;
      CRef m22; CRef m26]].

(** aspectj *)
Definition lang_aspectj : M language :=
  let KEYWORDS := js "false synchronized int abstract float private char boolean static null if const " ++
      js "for true while long throw strictfp finally protected import native final return void " ++
      js "enum else extends implements break transient new catch instanceof byte super volatile case " ++
      js "assert short package default double public try this switch continue throws privileged " ++
      js "aspectOf adviceexecution proceed cflowbelow cflow initialization preinitialization " ++
      js "staticinitialization withincode target within execution getWithinTypeName handler " ++
      js "thisJoinPoint thisJoinPointStaticPart thisEnclosingJoinPointStaticPart declare parents " ++
      js "warning error soft precedence thisAspectInstance" in
  let SHORTKEYS := js "get set args call" in
  let* m1 := new [Begin (js "\w+@"); Relevance 0] in
  let* m2 := new [ClassName (js "doctag"); Begin (js "@[A-Za-z]+")] in
  let* m3 := COMMENT (js "/\*\*") (js "\*/") [Relevance 0; Contains [CRef m1; CRef m2]] in
  let* m4 :=
      new [BeginKeywords (js "extends implements pertypewithin perthis pertarget percflowbelow percflow issingleton")] in
  let* m5 := new [Begin (js "\([^\)]*"); End_ (js "[)]+"); Keywords (KStr (KEYWORDS ++ js " " ++ SHORTKEYS));
      ExcludeEnd false] in
  let* m6 := new [ClassName (js "class"); BeginKeywords (js "aspect"); End_ (js "[{;=]"); ExcludeEnd true;
      Illegal (js "[:;＂\[\]]"); Contains [CRef m4; CRef UNDERSCORE_TITLE_MODE; CRef m5]] in
  let* m7 := new [BeginKeywords (js "extends implements")] in
  let* m8 := new [ClassName (js "class"); BeginKeywords (js "class interface"); End_ (js "[{;=]"); ExcludeEnd true;
      Relevance 0; Keywords (KStr (js "class interface")); Illegal (js "[:＂\[\]]"); Contains [CRef m7;
      CRef UNDERSCORE_TITLE_MODE]] in
  let* m9 := new [Begin (UNDERSCORE_IDENT_RE ++ js "\s*\("); ReturnBegin true;
      Contains [CRef UNDERSCORE_TITLE_MODE]] in
  let* m10 := new [BeginKeywords (js "pointcut after before around throwing returning"); End_ (js "[)]");
      ExcludeEnd false; Illegal (js "[＂\[\]]"); Contains [CRef m9]] in
  let* m11 := new [Begin (UNDERSCORE_IDENT_RE ++ js "\s*\("); Keywords (KStr (KEYWORDS ++ js " " ++ SHORTKEYS));
      Relevance 0] in
  let* m12 := new [Begin (js "[:]"); ReturnBegin true; End_ (js "[{;]"); Relevance 0; ExcludeEnd false;
      Keywords (KStr KEYWORDS); Illegal (js "[＂\[\]]"); Contains [CRef m11; CRef QUOTE_STRING_MODE]] in
  let* m13 := new [BeginKeywords (js "new throw"); Relevance 0] in
  let* m14 := new [Begin (UNDERSCORE_IDENT_RE ++ js "\s*\("); ReturnBegin true; Relevance 0;
      Contains [CRef UNDERSCORE_TITLE_MODE]] in
  let* m15 := new [ClassName (js "params"); Begin (js "\("); End_ (js "\)"); Relevance 0; Keywords (KStr KEYWORDS);
      Contains [CRef APOS_STRING_MODE; CRef QUOTE_STRING_MODE; CRef C_NUMBER_MODE; CRef C_BLOCK_COMMENT_MODE]] in
  let* m16 := new [ClassName (js "function"); Begin (js "\w+ +\w+(\.)?\w+\s*\([^\)]*\)\s*((throws)[\w\s,]+)?[\{;]");
      ReturnBegin true; End_ (js "[{;=]"); Keywords (KStr KEYWORDS); ExcludeEnd true; Contains [CRef m14; CRef m15;
      CRef C_LINE_COMMENT_MODE; CRef C_BLOCK_COMMENT_MODE]] in
  let* m17 := new [ClassName (js "meta"); Begin (js "@[A-Za-z]+")] in
  lang plain_lang [Keywords (KStr KEYWORDS); Illegal (js "<\/|#"); Contains [CRef m3; CRef C_LINE_COMMENT_MODE;
      CRef C_BLOCK_COMMENT_MODE; CRef APOS_STRING_MODE; CRef QUOTE_STRING_MODE; CRef m6; CRef m8; CRef m10;
      CRef m12; CRef m13; CRef m16; CRef C_NUMBER_MODE; CRef m17]].

(** autohotkey *)
Definition lang_autohotkey : M language :=
  let* BACKTICK_ESCAPE := new [Begin (js "`[\s\S]")] in
  let* m1 := inherit_mode QUOTE_STRING_MODE [Contains [CRef BACKTICK_ESCAPE]] in
  let* m2 := COMMENT (js ";") (js "$") [Relevance 0] in
  let* m3 := new [ClassName (js "number"); Begin NUMBER_RE; Relevance 0] in
  let* m4 := new [ClassName (js "variable"); Begin (js "%[a-zA-Z0-9#_$@]+%")] in
  let* m5 := new [ClassName (js "built_in"); Begin (js "^\s*\w+\s*(,|%)")] in
  let* m6 := new [ClassName (js "title"); Variants [[Begin (js "^[^\n＂;]+::(?!=)")]; [Begin (js "^[^\n＂;]+:(?!=)");
      Relevance 0]]] in
  let* m7 := new [ClassName (js "meta"); Begin (js "^\s*#\w+"); End_ (js "$"); Relevance 0] in
  let* m8 := new [ClassName (js "built_in"); Begin (js "A_[a-zA-Z0-9]+")] in
  let* m9 := new [Begin (js ",\s*,")] in
  lang (mkLP true [js "ahk"] false) [Keywords (KObj [(js "keyword", js "Break Continue Critical Exit ExitApp Gosub Goto New OnExit Pause return SetBatchLines SetTimer Suspend " ++
      js "Thread Throw Until ahk_id ahk_class ahk_pid ahk_exe ahk_group");
      (js "literal", js "true false NOT AND OR"); (js "built_in", js "ComSpec Clipboard ClipboardAll ErrorLevel")]);
      Contains [CRef BACKTICK_ESCAPE; CRef m1; CRef m2; CRef C_BLOCK_COMMENT_MODE; CRef m3; CRef m4; CRef m5;
      CRef m6; CRef m7; CRef m8; CRef m9]].

(** autoit *)
Definition lang_autoit : M language :=
  let KEYWORDS := js "ByRef Case Const ContinueCase ContinueLoop " ++
      js "Default Dim Do Else ElseIf EndFunc EndIf EndSelect " ++
      js "EndSwitch EndWith Enum Exit ExitLoop For Func " ++
      js "Global If In Local Next ReDim Return Select Static " ++
      js "Step Switch Then To Until Volatile WEnd While With" in
  let LITERAL := js "True False And Null Not Or" in
  let BUILT_IN :=
      js "Abs ACos AdlibRegister AdlibUnRegister Asc AscW ASin Assign ATan AutoItSetOption AutoItWinGetTitle AutoItWinSetTitle " ++
      js "Beep Binary BinaryLen BinaryMid BinaryToString BitAND BitNOT BitOR BitRotate BitShift BitXOR BlockInput " ++
      js "Break Call CDTray Ceiling Chr ChrW ClipGet ClipPut ConsoleRead ConsoleWrite ConsoleWriteError ControlClick " ++
      js "ControlCommand ControlDisable ControlEnable ControlFocus ControlGetFocus ControlGetHandle ControlGetPos " ++
      js "ControlGetText ControlHide ControlListView ControlMove ControlSend ControlSetText ControlShow ControlTreeView " ++
      js "Cos Dec DirCopy DirCreate DirGetSize DirMove DirRemove DllCall DllCallAddress DllCallbackFree DllCallbackGetPtr " ++
      js "DllCallbackRegister DllClose DllOpen DllStructCreate DllStructGetData DllStructGetPtr DllStructGetSize " ++
      js "DllStructSetData DriveGetDrive DriveGetFileSystem DriveGetLabel DriveGetSerial DriveGetType DriveMapAdd " ++
      js "DriveMapDel DriveMapGet DriveSetLabel DriveSpaceFree DriveSpaceTotal DriveStatus EnvGet EnvSet EnvUpdate " ++
      js "Eval Execute Exp FileChangeDir FileClose FileCopy FileCreateNTFSLink FileCreateShortcut FileDelete FileExists " ++
      js "FileFindFirstFile FileFindNextFile FileFlush FileGetAttrib FileGetEncoding FileGetLongName FileGetPos " ++
      js "FileGetShortcut FileGetShortName FileGetSize FileGetTime FileGetVersion FileInstall FileMove FileOpen " ++
      js "FileOpenDialog FileRead FileReadLine FileReadToArray FileRecycle FileRecycleEmpty FileSaveDialog FileSelectFolder " ++
      js "FileSetAttrib FileSetEnd FileSetPos FileSetTime FileWrite FileWriteLine Floor FtpSetProxy FuncName GUICreate " ++
      js "GUICtrlCreateAvi GUICtrlCreateButton GUICtrlCreateCheckbox GUICtrlCreateCombo GUICtrlCreateContextMenu " ++
      js "GUICtrlCreateDate GUICtrlCreateDummy GUICtrlCreateEdit GUICtrlCreateGraphic GUICtrlCreateGroup GUICtrlCreateIcon " ++
      js "GUICtrlCreateInput GUICtrlCreateLabel GUICtrlCreateList GUICtrlCreateListView GUICtrlCreateListViewItem " ++
      js "GUICtrlCreateMenu GUICtrlCreateMenuItem GUICtrlCreateMonthCal GUICtrlCreateObj GUICtrlCreatePic GUICtrlCreateProgress " ++
      js "GUICtrlCreateRadio GUICtrlCreateSlider GUICtrlCreateTab GUICtrlCreateTabItem GUICtrlCreateTreeView GUICtrlCreateTreeViewItem " ++
      js "GUICtrlCreateUpdown GUICtrlDelete GUICtrlGetHandle GUICtrlGetState GUICtrlRead GUICtrlRecvMsg GUICtrlRegisterListViewSort " ++
      js "GUICtrlSendMsg GUICtrlSendToDummy GUICtrlSetBkColor GUICtrlSetColor GUICtrlSetCursor GUICtrlSetData " ++
      js "GUICtrlSetDefBkColor GUICtrlSetDefColor GUICtrlSetFont GUICtrlSetGraphic GUICtrlSetImage GUICtrlSetLimit " ++
      js "GUICtrlSetOnEvent GUICtrlSetPos GUICtrlSetResizing GUICtrlSetState GUICtrlSetStyle GUICtrlSetTip GUIDelete " ++
      js "GUIGetCursorInfo GUIGetMsg GUIGetStyle GUIRegisterMsg GUISetAccelerators GUISetBkColor GUISetCoord GUISetCursor " ++
      js "GUISetFont GUISetHelp GUISetIcon GUISetOnEvent GUISetState GUISetStyle GUIStartGroup GUISwitch Hex HotKeySet " ++
      js "HttpSetProxy HttpSetUserAgent HWnd InetClose InetGet InetGetInfo InetGetSize InetRead IniDelete IniRead " ++
      js "IniReadSection IniReadSectionNames IniRenameSection IniWrite IniWriteSection InputBox Int IsAdmin IsArray " ++
      js "IsBinary IsBool IsDeclared IsDllStruct IsFloat IsFunc IsHWnd IsInt IsKeyword IsNumber IsObj IsPtr IsString " ++
      js "Log MemGetStats Mod MouseClick MouseClickDrag MouseDown MouseGetCursor MouseGetPos MouseMove MouseUp " ++
      js "MouseWheel MsgBox Number ObjCreate ObjCreateInterface ObjEvent ObjGet ObjName OnAutoItExitRegister OnAutoItExitUnRegister " ++
      js "Ping PixelChecksum PixelGetColor PixelSearch ProcessClose ProcessExists ProcessGetStats ProcessList " ++
      js "ProcessSetPriority ProcessWait ProcessWaitClose ProgressOff ProgressOn ProgressSet Ptr Random RegDelete " ++
      js "RegEnumKey RegEnumVal RegRead RegWrite Round Run RunAs RunAsWait RunWait Send SendKeepActive SetError " ++
      js "SetExtended ShellExecute ShellExecuteWait Shutdown Sin Sleep SoundPlay SoundSetWaveVolume SplashImageOn " ++
      js "SplashOff SplashTextOn Sqrt SRandom StatusbarGetText StderrRead StdinWrite StdioClose StdoutRead String " ++
      js "StringAddCR StringCompare StringFormat StringFromASCIIArray StringInStr StringIsAlNum StringIsAlpha " ++
      js "StringIsASCII StringIsDigit StringIsFloat StringIsInt StringIsLower StringIsSpace StringIsUpper StringIsXDigit " ++
      js "StringLeft StringLen StringLower StringMid StringRegExp StringRegExpReplace StringReplace StringReverse " ++
      js "StringRight StringSplit StringStripCR StringStripWS StringToASCIIArray StringToBinary StringTrimLeft " ++
      js "StringTrimRight StringUpper Tan TCPAccept TCPCloseSocket TCPConnect TCPListen TCPNameToIP TCPRecv TCPSend " ++
      js "TCPShutdown, UDPShutdown TCPStartup, UDPStartup TimerDiff TimerInit ToolTip TrayCreateItem TrayCreateMenu " ++
      js "TrayGetMsg TrayItemDelete TrayItemGetHandle TrayItemGetState TrayItemGetText TrayItemSetOnEvent TrayItemSetState " ++
      js "TrayItemSetText TraySetClick TraySetIcon TraySetOnEvent TraySetPauseIcon TraySetState TraySetToolTip " ++
      js "TrayTip UBound UDPBind UDPCloseSocket UDPOpen UDPRecv UDPSend VarGetType WinActivate WinActive WinClose " ++
      js "WinExists WinFlash WinGetCaretPos WinGetClassList WinGetClientSize WinGetHandle WinGetPos WinGetProcess " ++
      js "WinGetState WinGetText WinGetTitle WinKill WinList WinMenuSelectItem WinMinimizeAll WinMinimizeAllUndo " ++
      js "WinMove WinSetOnTop WinSetState WinSetTitle WinSetTrans WinWait" in
  let* m1 := COMMENT (js ";") (js "$") [Relevance 0] in
  let* m2 := COMMENT (js "#cs") (js "#ce") [] in
  let* m3 := COMMENT (js "#comments-start") (js "#comments-end") [] in
  let* COMMENT' := new [Variants [[AllOf m1]; [AllOf m2]; [AllOf m3]]] in
  let* VARIABLE := new [Begin (js "\$[A-z0-9_]+")] in
  let* m4 := new [Begin (js "＂＂"); Relevance 0] in
  let* m5 := new [Begin (js "''"); Relevance 0] in
  let* STRING := new [ClassName (js "string"); Variants [[Begin (js "＂"); End_ (js "＂"); Contains [CRef m4]];
      [Begin (js "'"); End_ (js "'"); Contains [CRef m5]]]] in
  let* NUMBER := new [Variants [[AllOf BINARY_NUMBER_MODE]; [AllOf C_NUMBER_MODE]]] in
  let* m6 := new [Begin (js "\\\n"); Relevance 0] in
  let* m7 := new [Begin (js "＂＂"); Relevance 0] in
  let* m8 := new [Begin (js "''"); Relevance 0] in
  let* m9 := new [ClassName (js "meta-string"); Variants [[Begin (js "<"); End_ (js ">")]; [Begin (js "＂");
      End_ (js "＂"); Contains [CRef m7]]; [Begin (js "'"); End_ (js "'"); Contains [CRef m8]]]] in
  let* m10 := new [BeginKeywords (js "include"); Keywords (KObj [(js "meta-keyword", js "include")]); End_ (js "$");
      Contains [CRef STRING; CRef m9]] in
  let* PREPROCESSOR := new [ClassName (js "meta"); Begin (js "#"); End_ (js "$");
      Keywords (KObj [(js "meta-keyword", js "comments include include-once NoTrayIcon OnAutoItStartRegister pragma compile RequireAdmin")]);
      Contains [CRef m6; CRef m10; CRef STRING; CRef COMMENT']] in
  let* CONSTANT := new [ClassName (js "symbol"); Begin (js "@[A-z0-9_]+")] in
  let* m11 := new [ClassName (js "params"); Begin (js "\("); End_ (js "\)"); Contains [CRef VARIABLE; CRef STRING;
      CRef NUMBER]] in
  let* FUNCTION := new [ClassName (js "function"); BeginKeywords (js "Func"); End_ (js "$"); Illegal (js "\$|\[|%");
      Contains [CRef UNDERSCORE_TITLE_MODE; CRef m11]] in
  lang (mkLP true [] false) [Illegal (js "\/\*"); Keywords (KObj [(js "keyword", KEYWORDS);
      (js "built_in", BUILT_IN); (js "literal", LITERAL)]); Contains [CRef COMMENT'; CRef VARIABLE; CRef STRING;
      CRef NUMBER; CRef PREPROCESSOR; CRef CONSTANT; CRef FUNCTION]].

(** avrasm *)
Definition lang_avrasm : M language :=
  let* m1 := COMMENT (js ";") (js "$") [Relevance 0] in
  let* m2 := new [ClassName (js "number"); Begin (js "\b(\$[a-zA-Z0-9]+|0o[0-7]+)")] in
  let* m3 := new [ClassName (js "string"); Begin (js "'"); End_ (js "[^\\]'"); Illegal (js "[^\\][^']")] in
  let* m4 := new [ClassName (js "symbol"); Begin (js "^[A-Za-z0-9_.$]+:")] in
  let* m5 := new [ClassName (js "meta"); Begin (js "#"); End_ (js "$")] in
  let* m6 := new [ClassName (js "subst"); Begin (js "@[0-9]+")] in
  lang (mkLP true [] false) [Lexemes (js "\.?" ++ IDENT_RE);
      Keywords (KObj [(js "keyword", js "adc add adiw and andi asr bclr bld brbc brbs brcc brcs break breq brge brhc brhs " ++
      js "brid brie brlo brlt brmi brne brpl brsh brtc brts brvc brvs bset bst call cbi cbr " ++
      js "clc clh cli cln clr cls clt clv clz com cp cpc cpi cpse dec eicall eijmp elpm eor " ++
      js "fmul fmuls fmulsu icall ijmp in inc jmp ld ldd ldi lds lpm lsl lsr mov movw mul " ++
      js "muls mulsu neg nop or ori out pop push rcall ret reti rjmp rol ror sbc sbr sbrc sbrs " ++
      js "sec seh sbi sbci sbic sbis sbiw sei sen ser ses set sev sez sleep spm st std sts sub " ++
      js "subi swap tst wdr");
      (js "built_in", js "r0 r1 r2 r3 r4 r5 r6 r7 r8 r9 r10 r11 r12 r13 r14 r15 r16 r17 r18 r19 r20 r21 r22 " ++
      js "r23 r24 r25 r26 r27 r28 r29 r30 r31 x|0 xh xl y|0 yh yl z|0 zh zl " ++
      js "ucsr1c udr1 ucsr1a ucsr1b ubrr1l ubrr1h ucsr0c ubrr0h tccr3c tccr3a tccr3b tcnt3h " ++
      js "tcnt3l ocr3ah ocr3al ocr3bh ocr3bl ocr3ch ocr3cl icr3h icr3l etimsk etifr tccr1c " ++
      js "ocr1ch ocr1cl twcr twdr twar twsr twbr osccal xmcra xmcrb eicra spmcsr spmcr portg " ++
      js "ddrg ping portf ddrf sreg sph spl xdiv rampz eicrb eimsk gimsk gicr eifr gifr timsk " ++
      js "tifr mcucr mcucsr tccr0 tcnt0 ocr0 assr tccr1a tccr1b tcnt1h tcnt1l ocr1ah ocr1al " ++
      js "ocr1bh ocr1bl icr1h icr1l tccr2 tcnt2 ocr2 ocdr wdtcr sfior eearh eearl eedr eecr " ++
      js "porta ddra pina portb ddrb pinb portc ddrc pinc portd ddrd pind spdr spsr spcr udr0 " ++
      js "ucsr0a ucsr0b ubrr0l acsr admux adcsr adch adcl porte ddre pine pinf");
      (js "meta", js ".byte .cseg .db .def .device .dseg .dw .endmacro .equ .eseg .exit .include .list " ++
      js ".listmac .macro .nolist .org .set")]); Contains [CRef C_BLOCK_COMMENT_MODE; CRef m1; CRef C_NUMBER_MODE;
      CRef BINARY_NUMBER_MODE; CRef m2; CRef QUOTE_STRING_MODE; CRef m3; CRef m4; CRef m5; CRef m6]].

(** awk *)
Definition lang_awk : M language :=
  let* VARIABLE := new [ClassName (js "variable"); Variants [[Begin (js "\$[\w\d#@][\w\d_]*")];
      [Begin (js "\$\{(.*?)}")]]] in
  let KEYWORDS :=
      js "BEGIN END if else while do for in break continue delete next nextfile function func exit|10" in
  let* STRING := new [ClassName (js "string"); Contains [CRef BACKSLASH_ESCAPE];
      Variants [[Begin (js "(u|b)?r?'''"); End_ (js "'''"); Relevance 10]; [Begin (js "(u|b)?r?＂＂＂");
      End_ (js "＂＂＂"); Relevance 10]; [Begin (js "(u|r|ur)'"); End_ (js "'"); Relevance 10];
      [Begin (js "(u|r|ur)＂"); End_ (js "＂"); Relevance 10]; [Begin (js "(b|br)'"); End_ (js "'")];
      [Begin (js "(b|br)＂"); End_ (js "＂")]; [AllOf APOS_STRING_MODE]; [AllOf QUOTE_STRING_MODE]]] in
  lang plain_lang [Keywords (KObj [(js "keyword", KEYWORDS)]); Contains [CRef VARIABLE; CRef STRING;
      CRef REGEXP_MODE; CRef HASH_COMMENT_MODE; CRef NUMBER_MODE]].

(** axapta *)
Definition lang_axapta : M language :=
  let* m1 := new [ClassName (js "meta"); Begin (js "#"); End_ (js "$")] in
  let* m2 := new [BeginKeywords (js "extends implements")] in
  let* m3 := new [ClassName (js "class"); BeginKeywords (js "class interface"); End_ (js "{"); ExcludeEnd true;
      Illegal (js ":"); Contains [CRef m2; CRef UNDERSCORE_TITLE_MODE]] in
  lang plain_lang [Keywords (KStr (js "false int abstract private char boolean static null if for true " ++
      js "while long throw finally protected final return void enum else " ++
      js "break new catch byte super case short default double public try this switch " ++
      js "continue reverse firstfast firstonly forupdate nofetch sum avg minof maxof count " ++
      js "order group by asc desc index hint like dispaly edit client server ttsbegin " ++
      js "ttscommit str real date container anytype common div mod")); Contains [CRef C_LINE_COMMENT_MODE;
      CRef C_BLOCK_COMMENT_MODE; CRef APOS_STRING_MODE; CRef QUOTE_STRING_MODE; CRef C_NUMBER_MODE; CRef m1;
      CRef m3]].

(** bash *)
Definition lang_bash : M language :=
  let* VAR := new [ClassName (js "variable"); Variants [[Begin (js "\$[\w\d#@][\w\d_]*")];
      [Begin (js "\$\{(.*?)}")]]] in
  let* m1 := new [ClassName (js "variable"); Begin (js "\$\("); End_ (js "\)"); Contains [CRef BACKSLASH_ESCAPE]] in
  let* QUOTE_STRING := new [ClassName (js "string"); Begin (js "＂"); End_ (js "＂"); Contains [CRef BACKSLASH_ESCAPE;
      CRef VAR; CRef m1]] in
  let* ESCAPED_QUOTE := new [ClassName []; Begin (js "\\＂")] in
  let* APOS_STRING := new [ClassName (js "string"); Begin (js "'"); End_ (js "'")] in
  let* m2 := new [ClassName (js "meta"); Begin (js "^#![^\n]+sh\s*$"); Relevance 10] in
  let* m3 := inherit_mode TITLE_MODE [Begin (js "\w[\w\d_]*")] in
  let* m4 := new [ClassName (js "function"); Begin (js "\w[\w\d_]*\s*\(\s*\)\s*\{"); ReturnBegin true;
      Contains [CRef m3]; Relevance 0] in
  lang (mkLP false [js "sh"; js "zsh"] false) [Lexemes (js "\b-?[a-z\._]+\b");
      Keywords (KObj [(js "keyword", js "if then else elif fi for while in do done case esac function");
      (js "literal", js "true false");
      (js "built_in", js "break cd continue eval exec exit export getopts hash pwd readonly return shift test times " ++
      js "trap umask unset " ++
      js "alias bind builtin caller command declare echo enable help let local logout mapfile printf " ++
      js "read readarray source type typeset ulimit unalias " ++ js "set shopt " ++
      js "autoload bg bindkey bye cap chdir clone comparguments compcall compctl compdescribe compfiles " ++
      js "compgroups compquote comptags comptry compvalues dirs disable disown echotc echoti emulate " ++
      js "fc fg float functions getcap getln history integer jobs kill limit log noglob popd print " ++
      js "pushd pushln rehash sched setcap setopt stat suspend ttyctl unfunction unhash unlimit " ++
      js "unsetopt vared wait whence where which zcompile zformat zftp zle zmodload zparseopts zprof " ++
      js "zpty zregexparse zsocket zstyle ztcp"); (js "_", js "-ne -eq -lt -gt -f -d -e -s -l -a")]);
      Contains [CRef m2; CRef m4; CRef HASH_COMMENT_MODE; CRef QUOTE_STRING; CRef ESCAPED_QUOTE; CRef APOS_STRING;
      CRef VAR]].

(** basic *)
Definition lang_basic : M language :=
  let* m1 := COMMENT (js "REM") (js "$") [Relevance 10] in
  let* m2 := COMMENT (js "'") (js "$") [Relevance 0] in
  let* m3 := new [ClassName (js "symbol"); Begin (js "^[0-9]+ "); Relevance 10] in
  let* m4 := new [ClassName (js "number"); Begin (js "\b([0-9]+[0-9edED.]*[#!]?)"); Relevance 0] in
  let* m5 := new [ClassName (js "number"); Begin (js "(&[hH][0-9a-fA-F]{1,4})")] in
  let* m6 := new [ClassName (js "number"); Begin (js "(&[oO][0-7]{1,6})")] in
  lang (mkLP true [] false) [Illegal (js "^."); Lexemes (js "[a-zA-Z][a-zA-Z0-9_$%!#]*");
      Keywords (KObj [(js "keyword", js "ABS ASC AND ATN AUTO|0 BEEP BLOAD|10 BSAVE|10 CALL CALLS CDBL CHAIN CHDIR CHR$|10 CINT CIRCLE " ++
      js "CLEAR CLOSE CLS COLOR COM COMMON CONT COS CSNG CSRLIN CVD CVI CVS DATA DATE$ " ++
      js "DEFDBL DEFINT DEFSNG DEFSTR DEF|0 SEG USR DELETE DIM DRAW EDIT END ENVIRON ENVIRON$ " ++
      js "EOF EQV ERASE ERDEV ERDEV$ ERL ERR ERROR EXP FIELD FILES FIX FOR|0 FRE GET GOSUB|10 GOTO " ++
      js "HEX$ IF|0 THEN ELSE|0 INKEY$ INP INPUT INPUT# INPUT$ INSTR IMP INT IOCTL IOCTL$ KEY ON " ++
      js "OFF LIST KILL LEFT$ LEN LET LINE LLIST LOAD LOC LOCATE LOF LOG LPRINT USING LSET " ++
      js "MERGE MID$ MKDIR MKD$ MKI$ MKS$ MOD NAME NEW NEXT NOISE NOT OCT$ ON OR PEN PLAY STRIG OPEN OPTION " ++
      js "BASE OUT PAINT PALETTE PCOPY PEEK PMAP POINT POKE POS PRINT PRINT] PSET PRESET " ++
      js "PUT RANDOMIZE READ REM RENUM RESET|0 RESTORE RESUME RETURN|0 RIGHT$ RMDIR RND RSET " ++
      js "RUN SAVE SCREEN SGN SHELL SIN SOUND SPACE$ SPC SQR STEP STICK STOP STR$ STRING$ SWAP " ++
      js "SYSTEM TAB TAN TIME$ TIMER TROFF TRON TO USR VAL VARPTR VARPTR$ VIEW WAIT WHILE " ++
      js "WEND WIDTH WINDOW WRITE XOR")]); Contains [CRef QUOTE_STRING_MODE; CRef m1; CRef m2; CRef m3; CRef m4;
      CRef m5; CRef m6]].

(** bnf *)
Definition lang_bnf : M language :=
  let* m1 := new [ClassName (js "attribute"); Begin (js "<"); End_ (js ">")] in
  let* m2 := new [Begin (js "<"); End_ (js ">")] in
  let* m3 := new [End_ (js "$"); Contains [CRef m2; CRef C_LINE_COMMENT_MODE; CRef C_BLOCK_COMMENT_MODE;
      CRef APOS_STRING_MODE; CRef QUOTE_STRING_MODE]] in
  let* m4 := new [Begin (js "::="); Starts m3] in
  lang plain_lang [Contains [CRef m1; CRef m4]].

(** brainfuck *)
Definition lang_brainfuck : M language :=
  let* LITERAL := new [ClassName (js "literal"); Begin (js "[\+\-]"); Relevance 0] in
  let* m1 := COMMENT (js "[^\[\]\.,\+\-<> " ++ [13%N] ++ [10%N] ++ js "]") (js "[\[\]\.,\+\-<> " ++ [13%N] ++
      [10%N] ++ js "]") [ReturnEnd true; Relevance 0] in
  let* m2 := new [ClassName (js "title"); Begin (js "[\[\]]"); Relevance 0] in
  let* m3 := new [ClassName (js "string"); Begin (js "[\.,]"); Relevance 0] in
  let* m4 := new [Begin (js "\+\+|\-\-"); ReturnBegin true; Contains [CRef LITERAL]] in
  lang (mkLP false [js "bf"] false) [Contains [CRef m1; CRef m2; CRef m3; CRef m4; CRef LITERAL]].

(** cal *)
Definition lang_cal : M language :=
  let KEYWORDS :=
      js "div mod in and or not xor asserterror begin case do downto else end exit for if of repeat then to " ++
      js "until while with var" in
  let LITERALS := js "false true" in
  let* m1 := COMMENT (js "\{") (js "\}") [Relevance 0] in
  let* m2 := COMMENT (js "\(\*") (js "\*\)") [Relevance 10] in
  let COMMENT_MODES := [CRef C_LINE_COMMENT_MODE; CRef m1; CRef m2] in
  let* m3 := new [Begin (js "''")] in
  let* STRING := new [ClassName (js "string"); Begin (js "'"); End_ (js "'"); Contains [CRef m3]] in
  let* CHAR_STRING := new [ClassName (js "string"); Begin (js "(#\d+)+")] in
  let* DATE := new [ClassName (js "number"); Begin (js "\b\d+(\.\d+)?(DT|D|T)"); Relevance 0] in
  let* DBL_QUOTED_VARIABLE := new [ClassName (js "string"); Begin (js "＂"); End_ (js "＂")] in
  let* m4 := new [ClassName (js "params"); Begin (js "\("); End_ (js "\)"); Keywords (KStr KEYWORDS);
      Contains [CRef STRING; CRef CHAR_STRING]] in
  let* PROCEDURE := new [ClassName (js "function"); BeginKeywords (js "procedure"); End_ (js "[:;]");
      Keywords (KStr (js "procedure|10")); Contains ([CRef TITLE_MODE; CRef m4] ++ COMMENT_MODES)] in
  let* OBJECT := new [ClassName (js "class");
      Begin (js "OBJECT (Table|Form|Report|Dataport|Codeunit|XMLport|MenuSuite|Page|Query) (\d+) ([^\r\n]+)");
      ReturnBegin true; Contains [CRef TITLE_MODE; CRef PROCEDURE]] in
  lang (mkLP true [] false) [Keywords (KObj [(js "keyword", KEYWORDS); (js "literal", LITERALS)]);
      Illegal (js "\/\*"); Contains [CRef STRING; CRef CHAR_STRING; CRef DATE; CRef DBL_QUOTED_VARIABLE;
      CRef NUMBER_MODE; CRef OBJECT; CRef PROCEDURE]].

(** capnproto *)
Definition lang_capnproto : M language :=
  let* m1 := new [ClassName (js "meta"); Begin (js "@0x[\w\d]{16};"); Illegal (js "\n")] in
  let* m2 := new [ClassName (js "symbol"); Begin (js "@\d+\b")] in
  let* m3 := new [EndsWithParent true; ExcludeEnd true] in
  let* m4 := inherit_mode TITLE_MODE [Starts m3] in
  let* m5 := new [ClassName (js "class"); BeginKeywords (js "struct enum"); End_ (js "\{"); Illegal (js "\n");
      Contains [CRef m4]] in
  let* m6 := new [EndsWithParent true; ExcludeEnd true] in
  let* m7 := inherit_mode TITLE_MODE [Starts m6] in
  let* m8 := new [ClassName (js "class"); BeginKeywords (js "interface"); End_ (js "\{"); Illegal (js "\n");
      Contains [CRef m7]] in
  lang (mkLP false [js "capnp"] false) [Keywords (KObj [(js "keyword", js "struct enum interface union group import using const annotation extends in of on as with from fixed");
      (js "built_in", js "Void Bool Int8 Int16 Int32 Int64 UInt8 UInt16 UInt32 UInt64 Float32 Float64 " ++
      js "Text Data AnyPointer AnyStruct Capability List"); (js "literal", js "true false")]);
      Contains [CRef QUOTE_STRING_MODE; CRef NUMBER_MODE; CRef HASH_COMMENT_MODE; CRef m1; CRef m2; CRef m5;
      CRef m8]].

(** ceylon *)
Definition lang_ceylon : M language :=
  let KEYWORDS := js "assembly module package import alias class interface object given value " ++
      js "assign void function new of extends satisfies abstracts in out return " ++
      js "break continue throw assert dynamic if else switch case for while try " ++
      js "catch finally then let this outer super is exists nonempty" in
  let DECLARATION_MODIFIERS := js "shared abstract formal default actual variable late native deprecated" ++
      js "final sealed annotation suppressWarnings small" in
  let DOCUMENTATION := js "doc by license see throws tagged" in
  let* SUBST := new [ClassName (js "subst"); ExcludeBegin true; ExcludeEnd true; Begin (js "``"); End_ (js "``");
      Keywords (KStr KEYWORDS); Relevance 10] in
  let* m1 := new [ClassName (js "string"); Begin (js "＂＂＂"); End_ (js "＂＂＂"); Relevance 10] in
  let* m2 := new [ClassName (js "string"); Begin (js "＂"); End_ (js "＂"); Contains [CRef SUBST]] in
  let* m3 := new [ClassName (js "string"); Begin (js "'"); End_ (js "'")] in
  let* m4 := new [ClassName (js "number");
      Begin (js "#[0-9a-fA-F_]+|\$[01_]+|[0-9_]+(?:\.[0-9_](?:[eE][+-]?\d+)?)?[kMGTPmunpf]?"); Relevance 0] in
  let EXPRESSIONS := [CRef m1; CRef m2; CRef m3; CRef m4] in
  let* _ := upd SUBST (fun m => assign m (Contains EXPRESSIONS)) in
  let* m5 := COMMENT (js "/\*") (js "\*/") [Contains [CSelf]] in
  let* m6 := new [ClassName (js "meta"); Begin (js "@[a-z]\w*(?:\:＂[^＂]*＂)?")] in
  lang plain_lang [Keywords (KObj [(js "keyword", KEYWORDS ++ js " " ++ DECLARATION_MODIFIERS);
      (js "meta", DOCUMENTATION)]); Illegal (js "\$[^01]|#[^0-9a-fA-F]"); Contains ([CRef C_LINE_COMMENT_MODE;
      CRef m5; CRef m6] ++ EXPRESSIONS)].

(** clean *)
Definition lang_clean : M language :=
  let* m1 := new [Begin (js "->|<-[|:]?|#!?|>>=|\{\||\|\}|:==|=:|<>")] in
  lang (mkLP false [js "clean"; js "icl";
      js "dcl"] false) [Keywords (KObj [(js "keyword", js "if let in with where case of class instance otherwise " ++
      js "implementation definition system module from import qualified as " ++
      js "special code inline foreign export ccall stdcall generic derive " ++ js "infix infixl infixr");
      (js "built_in", js "Int Real Char Bool"); (js "literal", js "True False")]);
      Contains [CRef C_LINE_COMMENT_MODE; CRef C_BLOCK_COMMENT_MODE; CRef APOS_STRING_MODE; CRef QUOTE_STRING_MODE;
      CRef C_NUMBER_MODE; CRef m1]].

(** clojure-repl *)
Definition lang_clojure_repl : M language :=
  let* m1 := new [End_ (js "$"); SubLanguage (inl (js "clojure"))] in
  let* m2 := new [ClassName (js "meta"); Begin (js "^([\w.-]+|\s*#_)?=>"); Starts m1] in
  lang plain_lang [Contains [CRef m2]].

(** clojure *)
Definition lang_clojure : M language :=
  let keywords' :=
      KObj [(js "builtin-name", js "def defonce cond apply if-not if-let if not not= = < > <= >= == + / * - rem " ++
      js "quot neg? pos? delay? symbol? keyword? true? false? integer? empty? coll? list? " ++
      js "set? ifn? fn? associative? sequential? sorted? counted? reversible? number? decimal? " ++
      js "class? distinct? isa? float? rational? reduced? ratio? odd? even? char? seq? vector? " ++
      js "string? map? nil? contains? zero? instance? not-every? not-any? libspec? -> ->> .. . " ++
      js "inc compare do dotimes mapcat take remove take-while drop letfn drop-last take-last " ++
      js "drop-while while intern condp case reduced cycle split-at split-with repeat replicate " ++
      js "iterate range merge zipmap declare line-seq sort comparator sort-by dorun doall nthnext " ++
      js "nthrest partition eval doseq await await-for let agent atom send send-off release-pending-sends " ++
      js "add-watch mapv filterv remove-watch agent-error restart-agent set-error-handler error-handler " ++
      js "set-error-mode! error-mode shutdown-agents quote var fn loop recur throw try monitor-enter " ++
      js "monitor-exit defmacro defn defn- macroexpand macroexpand-1 for dosync and or " ++
      js "when when-not when-let comp juxt partial sequence memoize constantly complement identity assert " ++
      js "peek pop doto proxy defstruct first rest cons defprotocol cast coll deftype defrecord last butlast " ++
      js "sigs reify second ffirst fnext nfirst nnext defmulti defmethod meta with-meta ns in-ns create-ns import " ++
      js "refer keys select-keys vals key val rseq name namespace promise into transient persistent! conj! " ++
      js "assoc! dissoc! pop! disj! use class type num float double short byte boolean bigint biginteger " ++
      js "bigdec print-method print-dup throw-if printf format load compile get-in update-in pr pr-on newline " ++
      js "flush read slurp read-line subvec with-open memfn time re-find re-groups rand-int rand mod locking " ++
      js "assert-valid-fdecl alias resolve ref deref refset swap! reset! set-validator! compare-and-set! alter-meta! " ++
      js "reset-meta! commute get-validator alter ref-set ref-history-count ref-min-history ref-max-history ensure " ++
      js "sync io! " ++
      js "new next conj set! to-array future future-call into-array aset gen-class reduce map filter find empty " ++
      js "hash-map hash-set sorted-map sorted-map-by sorted-set sorted-set-by vec vector seq flatten reverse assoc " ++
      js "dissoc list " ++
      js "disj get union difference intersection extend extend-type extend-protocol int nth delay count concat " ++
      js "chunk chunk-buffer " ++
      js "chunk-append chunk-first chunk-rest max min dec unchecked-inc-int unchecked-inc unchecked-dec-inc unchecked-dec " ++
      js "unchecked-negate " ++
      js "unchecked-add-int unchecked-add unchecked-subtract-int unchecked-subtract chunk-next chunk-cons chunked-seq? " ++
      js "prn vary-meta " ++
      js "lazy-seq spread list* str find-keyword keyword symbol gensym force rationalize")] in
  let SYMBOLSTART := js "a-zA-Z_\-!.?+*=<>&#'" in
  let SYMBOL_RE := js "[" ++ SYMBOLSTART ++ js "][" ++ SYMBOLSTART ++ js "0-9/;:]*" in
  let SIMPLE_NUMBER_RE := js "[-+]?\d+(\.\d+)?" in
  let* SYMBOL := new [Begin SYMBOL_RE; Relevance 0] in
  let* NUMBER := new [ClassName (js "number"); Begin SIMPLE_NUMBER_RE; Relevance 0] in
  let* STRING := inherit_mode QUOTE_STRING_MODE [Illegal []] in
  let* COMMENT' := COMMENT (js ";") (js "$") [Relevance 0] in
  let* LITERAL := new [ClassName (js "literal"); Begin (js "\b(true|false|nil)\b")] in
  let* COLLECTION := new [Begin (js "[\[\{]"); End_ (js "[\]\}]")] in
  let* HINT := new [ClassName (js "comment"); Begin (js "\^" ++ SYMBOL_RE)] in
  let* HINT_COL := COMMENT (js "\^\{") (js "\}") [] in
  let* KEY := new [ClassName (js "symbol"); Begin (js "[:]{1,2}" ++ SYMBOL_RE)] in
  let* LIST := new [Begin (js "\("); End_ (js "\)")] in
  let* BODY := new [EndsWithParent true; Relevance 0] in
  let* NAME := new [Keywords keywords'; Lexemes SYMBOL_RE; ClassName (js "name"); Begin SYMBOL_RE; Starts BODY] in
  let DEFAULT_CONTAINS := [CRef LIST; CRef STRING; CRef HINT; CRef HINT_COL; CRef COMMENT'; CRef KEY;
      CRef COLLECTION; CRef NUMBER; CRef LITERAL; CRef SYMBOL] in
  let* m1 := COMMENT (js "comment") [] [] in
  let* _ := upd LIST (fun m => assign m (Contains [CRef m1; CRef NAME; CRef BODY])) in
  let* _ := upd BODY (fun m => assign m (Contains DEFAULT_CONTAINS)) in
  let* _ := upd COLLECTION (fun m => assign m (Contains DEFAULT_CONTAINS)) in
  let* _ := upd HINT_COL (fun m => assign m (Contains [CRef COLLECTION])) in
  lang (mkLP false [js "clj"] false) [Illegal (js "\S"); Contains [CRef LIST; CRef STRING; CRef HINT; CRef HINT_COL;
      CRef COMMENT'; CRef KEY; CRef COLLECTION; CRef NUMBER; CRef LITERAL]].

(** cmake *)
Definition lang_cmake : M language :=
  let* m1 := new [ClassName (js "variable"); Begin (js "\${"); End_ (js "}")] in
  lang (mkLP true [js "cmake.in"] false) [Keywords (KObj [(js "keyword", js "break cmake_host_system_information cmake_minimum_required cmake_parse_arguments " ++
      js "cmake_policy configure_file continue elseif else endforeach endfunction endif endmacro " ++
      js "endwhile execute_process file find_file find_library find_package find_path " ++
      js "find_program foreach function get_cmake_property get_directory_property " ++
      js "get_filename_component get_property if include include_guard list macro " ++
      js "mark_as_advanced math message option return separate_arguments " ++
      js "set_directory_properties set_property set site_name string unset variable_watch while " ++
      js "add_compile_definitions add_compile_options add_custom_command add_custom_target " ++
      js "add_definitions add_dependencies add_executable add_library add_link_options " ++
      js "add_subdirectory add_test aux_source_directory build_command create_test_sourcelist " ++
      js "define_property enable_language enable_testing export fltk_wrap_ui " ++
      js "get_source_file_property get_target_property get_test_property include_directories " ++
      js "include_external_msproject include_regular_expression install link_directories " ++
      js "link_libraries load_cache project qt_wrap_cpp qt_wrap_ui remove_definitions " ++
      js "set_source_files_properties set_target_properties set_tests_properties source_group " ++
      js "target_compile_definitions target_compile_features target_compile_options " ++
      js "target_include_directories target_link_directories target_link_libraries " ++
      js "target_link_options target_sources try_compile try_run " ++
      js "ctest_build ctest_configure ctest_coverage ctest_empty_binary_directory ctest_memcheck " ++
      js "ctest_read_custom_files ctest_run_script ctest_sleep ctest_start ctest_submit " ++
      js "ctest_test ctest_update ctest_upload " ++
      js "build_name exec_program export_library_dependencies install_files install_programs " ++
      js "install_targets load_command make_directory output_required_files remove " ++
      js "subdir_depends subdirs use_mangled_mesa utility_source variable_requires write_file " ++
      js "qt5_use_modules qt5_use_package qt5_wrap_cpp " ++
      js "on off true false and or not command policy target test exists is_newer_than " ++
      js "is_directory is_symlink is_absolute matches less greater equal less_equal " ++
      js "greater_equal strless strgreater strequal strless_equal strgreater_equal version_less " ++
      js "version_greater version_equal version_less_equal version_greater_equal in_list defined")]);
      Contains [CRef m1; CRef HASH_COMMENT_MODE; CRef QUOTE_STRING_MODE; CRef NUMBER_MODE]].

(** coffeescript *)
Definition lang_coffeescript : M language :=
  let KEYWORDS :=
      KObj [(js "keyword", js "in if for while finally new do return else break catch instanceof throw try this " ++
      js "switch continue typeof delete debugger super yield import export from as default await " ++
      js "then unless until loop of by when and or is isnt not"); (js "literal", js "true false null undefined " ++
      js "yes no on off"); (js "built_in", js "npm require console print module global window document")] in
  let JS_IDENT_RE := js "[A-Za-z$_][0-9A-Za-z$_]*" in
  let* SUBST := new [ClassName (js "subst"); Begin (js "#\{"); End_ (js "}"); Keywords KEYWORDS] in
  let* m1 := new [End_ (js "(\s*/)?"); Relevance 0] in
  let* m2 := inherit_mode C_NUMBER_MODE [Starts m1] in
  let* m3 := new [ClassName (js "string"); Variants [[Begin (js "'''"); End_ (js "'''");
      Contains [CRef BACKSLASH_ESCAPE]]; [Begin (js "'"); End_ (js "'"); Contains [CRef BACKSLASH_ESCAPE]];
      [Begin (js "＂＂＂"); End_ (js "＂＂＂"); Contains [CRef BACKSLASH_ESCAPE; CRef SUBST]]; [Begin (js "＂");
      End_ (js "＂"); Contains [CRef BACKSLASH_ESCAPE; CRef SUBST]]]] in
  let* m4 := new [ClassName (js "regexp"); Variants [[Begin (js "///"); End_ (js "///"); Contains [CRef SUBST;
      CRef HASH_COMMENT_MODE]]; [Begin (js "//[gim]*"); Relevance 0];
      [Begin (js "\/(?![ *])(\\\/|.)*?\/[gim]*(?=\W|$)")]]] in
  let* m5 := new [Begin (js "@" ++ JS_IDENT_RE)] in
  let* m6 := new [SubLanguage (inl (js "javascript")); ExcludeBegin true; ExcludeEnd true;
      Variants [[Begin (js "```"); End_ (js "```")]; [Begin (js "`"); End_ (js "`")]]] in
  let EXPRESSIONS := [CRef BINARY_NUMBER_MODE; CRef m2; CRef m3; CRef m4; CRef m5; CRef m6] in
  let* _ := upd SUBST (fun m => assign m (Contains EXPRESSIONS)) in
  let* TITLE := inherit_mode TITLE_MODE [Begin JS_IDENT_RE] in
  let PARAMS_RE := js "(\(.*\))?\s*\B[-=]>" in
  let* m7 := new [Begin (js "\("); End_ (js "\)"); Keywords KEYWORDS; Contains ([CSelf] ++ EXPRESSIONS)] in
  let* PARAMS := new [ClassName (js "params"); Begin (js "\([^\(]"); ReturnBegin true; Contains [CRef m7]] in
  let* m8 := COMMENT (js "###") (js "###") [] in
  let* m9 := new [ClassName (js "function"); Begin (js "^\s*" ++ JS_IDENT_RE ++ js "\s*=\s*" ++ PARAMS_RE);
      End_ (js "[-=]>"); ReturnBegin true; Contains [CRef TITLE; CRef PARAMS]] in
  let* m10 := new [ClassName (js "function"); Begin PARAMS_RE; End_ (js "[-=]>"); ReturnBegin true;
      Contains [CRef PARAMS]] in
  let* m11 := new [Begin (js "[:\(,=]\s*"); Relevance 0; Contains [CRef m10]] in
  let* m12 := new [BeginKeywords (js "extends"); EndsWithParent true; Illegal (js "[:=＂\[\]]");
      Contains [CRef TITLE]] in
  let* m13 := new [ClassName (js "class"); BeginKeywords (js "class"); End_ (js "$"); Illegal (js "[:=＂\[\]]");
      Contains [CRef m12; CRef TITLE]] in
  let* m14 := new [Begin (JS_IDENT_RE ++ js ":"); End_ (js ":"); ReturnBegin true; ReturnEnd true; Relevance 0] in
  lang (mkLP false [js "coffee"; js "cson"; js "iced"] false) [Keywords KEYWORDS; Illegal (js "\/\*");
      Contains (EXPRESSIONS ++ [CRef m8; CRef HASH_COMMENT_MODE; CRef m9; CRef m11; CRef m13; CRef m14])].

(** coq *)
Definition lang_coq : M language :=
  let* m1 := COMMENT (js "\(\*") (js "\*\)") [] in
  let* m2 := new [ClassName (js "type"); ExcludeBegin true; Begin (js "\|\s*"); End_ (js "\w+")] in
  let* m3 := new [Begin (js "[-=]>")] in
  lang plain_lang [Keywords (KObj [(js "keyword", js "_ as at cofix else end exists exists2 fix for forall fun if IF in let " ++
      js "match mod Prop return Set then Type using where with " ++
      js "Abort About Add Admit Admitted All Arguments Assumptions Axiom Back BackTo " ++
      js "Backtrack Bind Blacklist Canonical Cd Check Class Classes Close Coercion " ++
      js "Coercions CoFixpoint CoInductive Collection Combined Compute Conjecture " ++
      js "Conjectures Constant constr Constraint Constructors Context Corollary " ++
      js "CreateHintDb Cut Declare Defined Definition Delimit Dependencies Dependent" ++
      js "Derive Drop eauto End Equality Eval Example Existential Existentials " ++
      js "Existing Export exporting Extern Extract Extraction Fact Field Fields File " ++
      js "Fixpoint Focus for From Function Functional Generalizable Global Goal Grab " ++
      js "Grammar Graph Guarded Heap Hint HintDb Hints Hypotheses Hypothesis ident " ++
      js "Identity If Immediate Implicit Import Include Inductive Infix Info Initial " ++
      js "Inline Inspect Instance Instances Intro Intros Inversion Inversion_clear " ++
      js "Language Left Lemma Let Libraries Library Load LoadPath Local Locate Ltac ML " ++
      js "Mode Module Modules Monomorphic Morphism Next NoInline Notation Obligation " ++
      js "Obligations Opaque Open Optimize Options Parameter Parameters Parametric " ++
      js "Path Paths pattern Polymorphic Preterm Print Printing Program Projections " ++
      js "Proof Proposition Pwd Qed Quit Rec Record Recursive Redirect Relation Remark " ++
      js "Remove Require Reserved Reset Resolve Restart Rewrite Right Ring Rings Save " ++
      js "Scheme Scope Scopes Script Search SearchAbout SearchHead SearchPattern " ++
      js "SearchRewrite Section Separate Set Setoid Show Solve Sorted Step Strategies " ++
      js "Strategy Structure SubClass Table Tables Tactic Term Test Theorem Time " ++
      js "Timeout Transparent Type Typeclasses Types Undelimit Undo Unfocus Unfocused " ++
      js "Unfold Universe Universes Unset Unshelve using Variable Variables Variant " ++
      js "Verbose Visibility where with");
      (js "built_in", js "abstract absurd admit after apply as assert assumption at auto autorewrite " ++
      js "autounfold before bottom btauto by case case_eq cbn cbv change " ++
      js "classical_left classical_right clear clearbody cofix compare compute " ++
      js "congruence constr_eq constructor contradict contradiction cut cutrewrite " ++
      js "cycle decide decompose dependent destruct destruction dintuition " ++
      js "discriminate discrR do double dtauto eapply eassumption eauto ecase " ++
      js "econstructor edestruct ediscriminate eelim eexact eexists einduction " ++
      js "einjection eleft elim elimtype enough equality erewrite eright " ++
      js "esimplify_eq esplit evar exact exactly_once exfalso exists f_equal fail " ++
      js "field field_simplify field_simplify_eq first firstorder fix fold fourier " ++
      js "functional generalize generalizing gfail give_up has_evar hnf idtac in " ++
      js "induction injection instantiate intro intro_pattern intros intuition " ++
      js "inversion inversion_clear is_evar is_var lapply lazy left lia lra move " ++
      js "native_compute nia nsatz omega once pattern pose progress proof psatz quote " ++
      js "record red refine reflexivity remember rename repeat replace revert " ++
      js "revgoals rewrite rewrite_strat right ring ring_simplify rtauto set " ++
      js "setoid_reflexivity setoid_replace setoid_rewrite setoid_symmetry " ++
      js "setoid_transitivity shelve shelve_unifiable simpl simple simplify_eq solve " ++
      js "specialize split split_Rabs split_Rmult stepl stepr subst sum swap " ++
      js "symmetry tactic tauto time timeout top transitivity trivial try tryif " ++
      js "unfold unify until using vm_compute with")]); Contains [CRef QUOTE_STRING_MODE; CRef m1;
      CRef C_NUMBER_MODE; CRef m2; CRef m3]].

(** cos *)
Definition lang_cos : M language :=
  let* m1 := new [Begin (js "＂＂"); Relevance 0] in
  let* STRINGS := new [ClassName (js "string"); Variants [[Begin (js "＂"); End_ (js "＂"); Contains [CRef m1]]]] in
  let* NUMBERS := new [ClassName (js "number"); Begin (js "\b(\d+(\.\d*" ++ js ")?|\.\d+)"); Relevance 0] in
  let COS_KEYWORDS := js "property parameter class classmethod clientmethod extends as break " ++
      js "catch close continue do d|0 else elseif for goto halt hang h|0 if job " ++
      js "j|0 kill k|0 lock l|0 merge new open quit q|0 read r|0 return set s|0 " ++
      js "tcommit throw trollback try tstart use view while write w|0 xecute x|0 " ++
      js "zkill znspace zn ztrap zwrite zw zzdump zzwrite print zbreak zinsert " ++
      js "zload zprint zremove zsave zzprint mv mvcall mvcrt mvdim mvprint zquit " ++ js "zsync ascii" in
  let* m2 := new [ClassName (js "comment"); Begin (js ";"); End_ (js "$"); Relevance 0] in
  let* m3 := new [ClassName (js "built_in"); Begin (js "(?:\$\$?|\.\.)\^?[a-zA-Z]+")] in
  let* m4 := new [ClassName (js "built_in"); Begin (js "\$\$\$[a-zA-Z]+")] in
  let* m5 := new [ClassName (js "built_in"); Begin (js "%[a-z]+(?:\.[a-z]+)*")] in
  let* m6 := new [ClassName (js "symbol"); Begin (js "\^%?[a-zA-Z][\w]*")] in
  let* m7 := new [ClassName (js "keyword"); Begin (js "##class|##super|#define|#dim")] in
  let* m8 := new [Begin (js "&sql\("); End_ (js "\)"); ExcludeBegin true; ExcludeEnd true;
      SubLanguage (inl (js "sql"))] in
  let* m9 := new [Begin (js "&(js|jscript|javascript)<"); End_ (js ">"); ExcludeBegin true; ExcludeEnd true;
      SubLanguage (inl (js "javascript"))] in
  let* m10 := new [Begin (js "&html<\s*<"); End_ (js ">\s*>"); SubLanguage (inl (js "xml"))] in
  lang (mkLP true [js "cos"; js "cls"] false) [Keywords (KStr COS_KEYWORDS); Contains [CRef NUMBERS; CRef STRINGS;
      CRef C_LINE_COMMENT_MODE; CRef C_BLOCK_COMMENT_MODE; CRef m2; CRef m3; CRef m4; CRef m5; CRef m6; CRef m7;
      CRef m8; CRef m9; CRef m10]].

(** crmsh *)
Definition lang_crmsh : M language :=
  let RESOURCES := js "primitive rsc_template" in
  let COMMANDS := js "group clone ms master location colocation order fencing_topology " ++
      js "rsc_ticket acl_target acl_group user role " ++ js "tag xml" in
  let PROPERTY_SETS := js "property rsc_defaults op_defaults" in
  let KEYWORDS := js "params meta operations op rule attributes utilization" in
  let OPERATORS := js "read write deny defined not_defined in_range date spec in " ++
      js "ref reference attribute type xpath version and or lt gt tag " ++ js "lte gte eq ne \" in
  let TYPES := js "number string" in
  let LITERALS := js "Master Started Slave Stopped start promote demote stop monitor true false" in
  let* m1 := new [ClassName (js "title"); End_ (js "\s*[\$\w_][\w_-]*")] in
  let* m2 := new [End_ (js "\s*([\w_-]+:)?"); Starts m1] in
  let* m3 := new [BeginKeywords (js "node"); Starts m2] in
  let* m4 := new [End_ (js "\s*@?[\w_][\w_\.:-]*")] in
  let* m5 := new [ClassName (js "title"); End_ (js "\s*[\$\w_][\w_-]*"); Starts m4] in
  let* m6 := new [BeginKeywords RESOURCES; Starts m5] in
  let* m7 := new [ClassName (js "title"); End_ (js "[\$\w_][\w_-]*")] in
  let* m8 := new [Begin (js "\b(" ++ join (js "|") (split_on 32 COMMANDS) ++ js ")\s+"); Keywords (KStr COMMANDS);
      Starts m7] in
  let* m9 := new [ClassName (js "title"); End_ (js "\s*([\w_-]+:)?")] in
  let* m10 := new [BeginKeywords PROPERTY_SETS; Starts m9] in
  let* m11 := new [ClassName (js "meta"); Begin (js "(ocf|systemd|service|lsb):[\w_:-]+"); Relevance 0] in
  let* m12 := new [ClassName (js "number"); Begin (js "\b\d+(\.\d+)?(ms|s|h|m)?"); Relevance 0] in
  let* m13 := new [ClassName (js "literal"); Begin (js "[-]?(infinity|inf)"); Relevance 0] in
  let* m14 := new [ClassName (js "attr"); Begin (js "([A-Za-z\$_\#][\w_-]+)="); Relevance 0] in
  let* m15 := new [ClassName (js "tag"); Begin (js "</?"); End_ (js "/?>"); Relevance 0] in
  lang (mkLP true [js "crm"; js "pcmk"] false) [Keywords (KObj [(js "keyword", KEYWORDS ++ js " " ++ OPERATORS ++
      js " " ++ TYPES); (js "literal", LITERALS)]); Contains [CRef HASH_COMMENT_MODE; CRef m3; CRef m6; CRef m8;
      CRef m10; CRef QUOTE_STRING_MODE; CRef m11; CRef m12; CRef m13; CRef m14; CRef m15]].

(** crystal *)
Definition lang_crystal : M language :=
  let INT_SUFFIX := js "(_*[ui](8|16|32|64|128))?" in
  let FLOAT_SUFFIX := js "(_*f(32|64))?" in
  let CRYSTAL_IDENT_RE := js "[a-zA-Z_]\w*[!?=]?" in
  let CRYSTAL_METHOD_RE :=
      js "[a-zA-Z_]\w*[!?=]?|[-+~]\@|<<|>>|=~|===?|<=>|[<>]=?|\*\*|[-/+%^&*~|]|//|//=|&[-+*]=?|&\*\*|\[\][=?]?" in
  let CRYSTAL_PATH_RE := js "[A-Za-z_]\w*(::\w+)*(\?|\!)?" in
  let CRYSTAL_KEYWORDS :=
      KObj [(js "keyword", js "abstract alias annotation as as? asm begin break case class def do else elsif end ensure enum extend " ++
      js "for fun if " ++
      js "include instance_sizeof is_a? lib macro module next nil? of out pointerof private protected rescue responds_to? " ++
      js "return require select self sizeof struct super then type typeof union uninitialized unless until verbatim " ++
      js "when while with yield " ++ js "__DIR__ __END_LINE__ __FILE__ __LINE__");
      (js "literal", js "false nil true")] in
  let* SUBST := new [ClassName (js "subst"); Begin (js "#{"); End_ (js "}"); Keywords CRYSTAL_KEYWORDS] in
  let* EXPANSION := new [ClassName (js "template-variable"); Variants [[Begin (js "\{\{"); End_ (js "\}\}")];
      [Begin (js "\{%"); End_ (js "%\}")]]; Keywords CRYSTAL_KEYWORDS] in
  let recursiveParen (begin' end' : jsstr) : M (list child) := let* m := new [Begin begin'; End_ end'] in let* _ :=
      upd m (fun o => assign o (Contains [CRef m])) in ret [CRef m] in
  let* m1 := recursiveParen (js "\(") (js "\)") in
  let* m2 := recursiveParen (js "\[") (js "\]") in
  let* m3 := recursiveParen (js "{") (js "}") in
  let* m4 := recursiveParen (js "<") (js ">") in
  let* STRING := new [ClassName (js "string"); Contains [CRef BACKSLASH_ESCAPE; CRef SUBST];
      Variants [[Begin (js "'"); End_ (js "'")]; [Begin (js "＂"); End_ (js "＂")]; [Begin (js "`"); End_ (js "`")];
      [Begin (js "%[Qwi]?\("); End_ (js "\)"); Contains m1]; [Begin (js "%[Qwi]?\["); End_ (js "\]"); Contains m2];
      [Begin (js "%[Qwi]?{"); End_ (js "}"); Contains m3]; [Begin (js "%[Qwi]?<"); End_ (js ">"); Contains m4];
      [Begin (js "%[Qwi]?\|"); End_ (js "\|")]; [Begin (js "<<-\w+$"); End_ (js "^\s*\w+$")]]; Relevance 0] in
  let* m5 := recursiveParen (js "\(") (js "\)") in
  let* m6 := recursiveParen (js "\[") (js "\]") in
  let* m7 := recursiveParen (js "{") (js "}") in
  let* m8 := recursiveParen (js "<") (js ">") in
  let* Q_STRING := new [ClassName (js "string"); Variants [[Begin (js "%q\("); End_ (js "\)"); Contains m5];
      [Begin (js "%q\["); End_ (js "\]"); Contains m6]; [Begin (js "%q{"); End_ (js "}"); Contains m7];
      [Begin (js "%q<"); End_ (js ">"); Contains m8]; [Begin (js "%q\|"); End_ (js "\|")]; [Begin (js "<<-'\w+'$");
      End_ (js "^\s*\w+$")]]; Relevance 0] in
  let* m9 := new [ClassName (js "regexp"); Contains [CRef BACKSLASH_ESCAPE; CRef SUBST];
      Variants [[Begin (js "//[a-z]*"); Relevance 0]; [Begin (js "/(?!\/)"); End_ (js "/[a-z]*")]]] in
  let* REGEXP := new [Begin (js "(?!%})(" ++ RE_STARTERS_RE ++
      js "|\n|\b(case|if|select|unless|until|when|while)\b)\s*");
      Keywords (KStr (js "case if select unless until when while")); Contains [CRef m9]; Relevance 0] in
  let* m10 := recursiveParen (js "\(") (js "\)") in
  let* m11 := recursiveParen (js "\[") (js "\]") in
  let* m12 := recursiveParen (js "{") (js "}") in
  let* m13 := recursiveParen (js "<") (js ">") in
  let* REGEXP2 := new [ClassName (js "regexp"); Contains [CRef BACKSLASH_ESCAPE; CRef SUBST];
      Variants [[Begin (js "%r\("); End_ (js "\)"); Contains m10]; [Begin (js "%r\["); End_ (js "\]");
      Contains m11]; [Begin (js "%r{"); End_ (js "}"); Contains m12]; [Begin (js "%r<"); End_ (js ">");
      Contains m13]; [Begin (js "%r\|"); End_ (js "\|")]]; Relevance 0] in
  let* m14 := inherit_mode QUOTE_STRING_MODE [ClassName (js "meta-string")] in
  let* ATTRIBUTE := new [ClassName (js "meta"); Begin (js "@\["); End_ (js "\]"); Contains [CRef m14]] in
  let* m15 := inherit_mode TITLE_MODE [Begin CRYSTAL_PATH_RE] in
  let* m16 := new [Begin (js "<")] in
  let* m17 := new [ClassName (js "class"); BeginKeywords (js "class module struct"); End_ (js "$|;");
      Illegal (js "="); Contains [CRef HASH_COMMENT_MODE; CRef m15; CRef m16]] in
  let* m18 := inherit_mode TITLE_MODE [Begin CRYSTAL_PATH_RE] in
  let* m19 := new [ClassName (js "class"); BeginKeywords (js "lib enum union"); End_ (js "$|;"); Illegal (js "=");
      Contains [CRef HASH_COMMENT_MODE; CRef m18]; Relevance 10] in
  let* m20 := inherit_mode TITLE_MODE [Begin CRYSTAL_PATH_RE] in
  let* m21 := new [BeginKeywords (js "annotation"); End_ (js "$|;"); Illegal (js "=");
      Contains [CRef HASH_COMMENT_MODE; CRef m20]; Relevance 10] in
  let* m22 := inherit_mode TITLE_MODE [Begin CRYSTAL_METHOD_RE; EndsParent true] in
  let* m23 := new [ClassName (js "function"); BeginKeywords (js "def"); End_ (js "\B\b"); Contains [CRef m22]] in
  let* m24 := inherit_mode TITLE_MODE [Begin CRYSTAL_METHOD_RE; EndsParent true] in
  let* m25 := new [ClassName (js "function"); BeginKeywords (js "fun macro"); End_ (js "\B\b"); Contains [CRef m24];
      Relevance 5] in
  let* m26 := new [ClassName (js "symbol"); Begin (UNDERSCORE_IDENT_RE ++ js "(\!|\?)?:"); Relevance 0] in
  let* m27 := new [Begin CRYSTAL_METHOD_RE] in
  let* m28 := new [ClassName (js "symbol"); Begin (js ":"); Contains [CRef STRING; CRef m27]; Relevance 0] in
  let* m29 := new [ClassName (js "number"); Variants [[Begin (js "\b0b([01_]+)" ++ INT_SUFFIX)];
      [Begin (js "\b0o([0-7_]+)" ++ INT_SUFFIX)]; [Begin (js "\b0x([A-Fa-f0-9_]+)" ++ INT_SUFFIX)];
      [Begin (js "\b([1-9][0-9_]*[0-9]|[0-9])(\.[0-9][0-9_]*" ++ js ")?([eE]_*[-+]?[0-9_]*" ++ js ")?" ++
      FLOAT_SUFFIX ++ js "(?!_)")]; [Begin (js "\b([1-9][0-9_]*|0)" ++ INT_SUFFIX)]]; Relevance 0] in
  let CRYSTAL_DEFAULT_CONTAINS := [CRef EXPANSION; CRef STRING; CRef Q_STRING; CRef REGEXP2; CRef REGEXP;
      CRef ATTRIBUTE; CRef HASH_COMMENT_MODE; CRef m17; CRef m19; CRef m21; CRef m23; CRef m25; CRef m26; CRef m28;
      CRef m29] in
  let* _ := upd SUBST (fun m => assign m (Contains CRYSTAL_DEFAULT_CONTAINS)) in
  let* _ := upd EXPANSION (fun m => assign m (Contains (drop 1 CRYSTAL_DEFAULT_CONTAINS))) in
  lang (mkLP false [js "cr"] false) [Lexemes CRYSTAL_IDENT_RE; Keywords CRYSTAL_KEYWORDS;
      Contains CRYSTAL_DEFAULT_CONTAINS].

(** cs *)
Definition lang_cs : M language :=
  let KEYWORDS :=
      KObj [(js "keyword", js "abstract as base bool break byte case catch char checked const continue decimal " ++
      js "default delegate do double enum event explicit extern finally fixed float " ++
      js "for foreach goto if implicit in int interface internal is lock long nameof " ++
      js "object operator out override params private protected public readonly ref sbyte " ++
      js "sealed short sizeof stackalloc static string struct switch this try typeof " ++
      js "uint ulong unchecked unsafe ushort using virtual void volatile while " ++
      js "add alias ascending async await by descending dynamic equals from get global group into join " ++
      js "let on orderby partial remove select set value var where yield"); (js "literal", js "null false true")] in
  let* NUMBERS := new [ClassName (js "number"); Variants [[Begin (js "\b(0b[01']+)")];
      [Begin (js "(-?)\b([\d']+(\.[\d']*" ++ js ")?|\.[\d']+)(u|U|l|L|ul|UL|f|F|b|B)")];
      [Begin (js "(-?)(\b0[xX][a-fA-F0-9']+|(\b[\d']+(\.[\d']*" ++ js ")?|\.[\d']+)([eE][-+]?[\d']+)?)")]];
      Relevance 0] in
  let* m1 := new [Begin (js "＂＂")] in
  let* VERBATIM_STRING := new [ClassName (js "string"); Begin (js "@＂"); End_ (js "＂"); Contains [CRef m1]] in
  let* VERBATIM_STRING_NO_LF := inherit_mode VERBATIM_STRING [Illegal (js "\n")] in
  let* SUBST := new [ClassName (js "subst"); Begin (js "{"); End_ (js "}"); Keywords KEYWORDS] in
  let* SUBST_NO_LF := inherit_mode SUBST [Illegal (js "\n")] in
  let* m2 := new [Begin (js "{{")] in
  let* m3 := new [Begin (js "}}")] in
  let* INTERPOLATED_STRING := new [ClassName (js "string"); Begin (js "\$＂"); End_ (js "＂"); Illegal (js "\n");
      Contains [CRef m2; CRef m3; CRef BACKSLASH_ESCAPE; CRef SUBST_NO_LF]] in
  let* m4 := new [Begin (js "{{")] in
  let* m5 := new [Begin (js "}}")] in
  let* m6 := new [Begin (js "＂＂")] in
  let* INTERPOLATED_VERBATIM_STRING := new [ClassName (js "string"); Begin (js "\$@＂"); End_ (js "＂");
      Contains [CRef m4; CRef m5; CRef m6; CRef SUBST]] in
  let* m7 := new [Begin (js "{{")] in
  let* m8 := new [Begin (js "}}")] in
  let* m9 := new [Begin (js "＂＂")] in
  let* INTERPOLATED_VERBATIM_STRING_NO_LF := inherit_mode INTERPOLATED_VERBATIM_STRING [Illegal (js "\n");
      Contains [CRef m7; CRef m8; CRef m9; CRef SUBST_NO_LF]] in
  let* _ := upd SUBST (fun m => assign m (Contains [CRef INTERPOLATED_VERBATIM_STRING; CRef INTERPOLATED_STRING;
      CRef VERBATIM_STRING; CRef APOS_STRING_MODE; CRef QUOTE_STRING_MODE; CRef NUMBERS;
      CRef C_BLOCK_COMMENT_MODE])) in
  let* m10 := inherit_mode C_BLOCK_COMMENT_MODE [Illegal (js "\n")] in
  let* _ := upd SUBST_NO_LF (fun m => assign m (Contains [CRef INTERPOLATED_VERBATIM_STRING_NO_LF;
      CRef INTERPOLATED_STRING; CRef VERBATIM_STRING_NO_LF; CRef APOS_STRING_MODE; CRef QUOTE_STRING_MODE;
      CRef NUMBERS; CRef m10])) in
  let* STRING := new [Variants [[AllOf INTERPOLATED_VERBATIM_STRING]; [AllOf INTERPOLATED_STRING];
      [AllOf VERBATIM_STRING]; [AllOf APOS_STRING_MODE]; [AllOf QUOTE_STRING_MODE]]] in
  let TYPE_IDENT_RE := IDENT_RE ++ js "(<" ++ IDENT_RE ++ js "(\s*,\s*" ++ IDENT_RE ++ js ")*>)?(\[\])?" in
  let* m11 := new [ClassName (js "doctag"); Variants [[Begin (js "///"); Relevance 0]; [Begin (js "<!--|-->")];
      [Begin (js "</?"); End_ (js ">")]]] in
  let* m12 := COMMENT (js "///") (js "$") [ReturnBegin true; Contains [CRef m11]] in
  let* m13 := new [ClassName (js "meta"); Begin (js "#"); End_ (js "$");
      Keywords (KObj [(js "meta-keyword", js "if else elif endif define undef warning error line region endregion pragma checksum")])] in
  let* m14 := new [BeginKeywords (js "class interface"); End_ (js "[{;=]"); Illegal (js "[^\s:,]");
      Contains [CRef TITLE_MODE; CRef C_LINE_COMMENT_MODE; CRef C_BLOCK_COMMENT_MODE]] in
  let* m15 := inherit_mode TITLE_MODE [Begin (js "[a-zA-Z](\.?\w)*")] in
  let* m16 := new [BeginKeywords (js "namespace"); End_ (js "[{;=]"); Illegal (js "[^\s:]"); Contains [CRef m15;
      CRef C_LINE_COMMENT_MODE; CRef C_BLOCK_COMMENT_MODE]] in
  let* m17 := new [ClassName (js "meta-string"); Begin (js "＂"); End_ (js "＂")] in
  let* m18 := new [ClassName (js "meta"); Begin (js "^\s*\["); ExcludeBegin true; End_ (js "\]"); ExcludeEnd true;
      Contains [CRef m17]] in
  let* m19 := new [BeginKeywords (js "new return throw await else"); Relevance 0] in
  let* m20 := new [Begin (IDENT_RE ++ js "\s*\("); ReturnBegin true; Contains [CRef TITLE_MODE]; Relevance 0] in
  let* m21 := new [ClassName (js "params"); Begin (js "\("); End_ (js "\)"); ExcludeBegin true; ExcludeEnd true;
      Keywords KEYWORDS; Relevance 0; Contains [CRef STRING; CRef NUMBERS; CRef C_BLOCK_COMMENT_MODE]] in
  let* m22 := new [ClassName (js "function"); Begin (js "(" ++ TYPE_IDENT_RE ++ js "\s+)+" ++ IDENT_RE ++
      js "\s*\("); ReturnBegin true; End_ (js "\s*[{;=]"); ExcludeEnd true; Keywords KEYWORDS; Contains [CRef m20;
      CRef m21; CRef C_LINE_COMMENT_MODE; CRef C_BLOCK_COMMENT_MODE]] in
  lang (mkLP false [js "csharp"; js "c#"] false) [Keywords KEYWORDS; Illegal (js "::"); Contains [CRef m12;
      CRef C_LINE_COMMENT_MODE; CRef C_BLOCK_COMMENT_MODE; CRef m13; CRef STRING; CRef NUMBERS; CRef m14; CRef m16;
      CRef m18; CRef m19; CRef m22]].

(** csp *)
Definition lang_csp : M language :=
  let* m1 := new [ClassName (js "string"); Begin (js "'"); End_ (js "'")] in
  let* m2 := new [ClassName (js "attribute"); Begin (js "^Content"); End_ (js ":"); ExcludeEnd true] in
  lang plain_lang [Lexemes (js "[a-zA-Z][a-zA-Z0-9_-]*");
      Keywords (KObj [(js "keyword", js "base-uri child-src connect-src default-src font-src form-action" ++
      js " frame-ancestors frame-src img-src media-src object-src plugin-types" ++
      js " report-uri sandbox script-src style-src")]); Contains [CRef m1; CRef m2]].

(** css *)
Definition lang_css : M language :=
  let IDENT_RE' := js "[a-zA-Z-][a-zA-Z0-9_-]*" in
  let* m1 := new [ClassName (js "built_in"); Begin (js "[\w-]+")] in
  let* m2 := new [Begin (js "\("); End_ (js "\)"); Contains [CRef APOS_STRING_MODE; CRef QUOTE_STRING_MODE]] in
  let* m3 := new [Begin (js "[\w-]+\("); ReturnBegin true; Contains [CRef m1; CRef m2]] in
  let* m4 := new [ClassName (js "number"); Begin (js "#[0-9A-Fa-f]+")] in
  let* m5 := new [ClassName (js "meta"); Begin (js "!important")] in
  let* m6 := new [EndsWithParent true; ExcludeEnd true; Contains [CRef m3; CRef CSS_NUMBER_MODE;
      CRef QUOTE_STRING_MODE; CRef APOS_STRING_MODE; CRef C_BLOCK_COMMENT_MODE; CRef m4; CRef m5]] in
  let* m7 := new [ClassName (js "attribute"); Begin (js "\S"); End_ (js ":"); ExcludeEnd true; Starts m6] in
  let* RULE := new [Begin (js "(?:[A-Z\_\.\-]+|--[a-zA-Z0-9_-]+)\s*:"); ReturnBegin true; End_ (js ";");
      EndsWithParent true; Contains [CRef m7]] in
  let* m8 := new [ClassName (js "selector-id"); Begin (js "#[A-Za-z0-9_-]+")] in
  let* m9 := new [ClassName (js "selector-class"); Begin (js "\.[A-Za-z0-9_-]+")] in
  let* m10 := new [ClassName (js "selector-attr"); Begin (js "\["); End_ (js "\]"); Illegal (js "$")] in
  let* m11 := new [ClassName (js "selector-pseudo"); Begin (js ":(:)?[a-zA-Z0-9\_\-\+\(\)＂'.]+")] in
  let* m12 := new [Begin (js "@(font-face|page)"); Lexemes (js "[a-z-]+"); Keywords (KStr (js "font-face page"))] in
  let* m13 := new [ClassName (js "keyword"); Begin (js "\w+")] in
  let* m14 := new [Begin (js "\s"); EndsWithParent true; ExcludeEnd true; Relevance 0;
      Contains [CRef APOS_STRING_MODE; CRef QUOTE_STRING_MODE; CRef CSS_NUMBER_MODE]] in
  let* m15 := new [Begin (js "@"); End_ (js "[{;]"); Illegal (js ":"); Contains [CRef m13; CRef m14]] in
  let* m16 := new [ClassName (js "selector-tag"); Begin IDENT_RE'; Relevance 0] in
  let* m17 := new [Begin (js "{"); End_ (js "}"); Illegal (js "\S"); Contains [CRef C_BLOCK_COMMENT_MODE;
      CRef RULE]] in
  lang (mkLP true [] false) [Illegal (js "[=\/|'\$]"); Contains [CRef C_BLOCK_COMMENT_MODE; CRef m8; CRef m9;
      CRef m10; CRef m11; CRef m12; CRef m15; CRef m16; CRef m17]].

Definition languagesAC : list (jsstr * creator) :=
  [(js "cpp", alone lang_cpp);
   (js "1c", alone lang_1c);
   (js "abnf", alone lang_abnf);
   (js "accesslog", alone lang_accesslog);
   (js "actionscript", alone lang_actionscript);
   (js "ada", alone lang_ada);
   (js "angelscript", alone lang_angelscript);
   (js "apache", alone lang_apache);
   (js "applescript", alone lang_applescript);
   (js "arcade", alone lang_arcade);
   (js "arduino", lang_arduino);
   (js "armasm", alone lang_armasm);
   (js "asciidoc", alone lang_asciidoc);
   (js "aspectj", alone lang_aspectj);
   (js "autohotkey", alone lang_autohotkey);
   (js "autoit", alone lang_autoit);
   (js "avrasm", alone lang_avrasm);
   (js "awk", alone lang_awk);
   (js "axapta", alone lang_axapta);
   (js "bash", alone lang_bash);
   (js "basic", alone lang_basic);
   (js "bnf", alone lang_bnf);
   (js "brainfuck", alone lang_brainfuck);
   (js "cal", alone lang_cal);
   (js "capnproto", alone lang_capnproto);
   (js "ceylon", alone lang_ceylon);
   (js "clean", alone lang_clean);
   (js "clojure-repl", alone lang_clojure_repl);
   (js "clojure", alone lang_clojure);
   (js "cmake", alone lang_cmake);
   (js "coffeescript", alone lang_coffeescript);
   (js "coq", alone lang_coq);
   (js "cos", alone lang_cos);
   (js "crmsh", alone lang_crmsh);
   (js "crystal", alone lang_crystal);
   (js "cs", alone lang_cs);
   (js "csp", alone lang_csp);
   (js "css", alone lang_css)].
