(* ===== verification/LanguagesDH.v ===== *)
(** * Language definitions, d to hy (module 15)

    Each definition creates its objects in the order of the source: a variable of the
    definition keeps its name, an object literal without one is numbered.  A name that is
    also one of the library has a prime.  The aliases, the case and the part in the
    detection of a language are the arguments of [lang]. *)

From S2P Require Import Prelude JsString JsRegExp RegExpFacts RegExpCounts MarkedInline HljsStreams HljsModes Hljs HljsLanguages.

Definition lang_d_escape_sequence_re : jsstr :=
  js "\\(" ++ js "['＂\?\\abfnrtv]|" ++ js "u[\dA-Fa-f]{4}|" ++ js "[0-7]{1,3}|" ++ js "x[\dA-Fa-f]{2}|" ++
      js "U[\dA-Fa-f]{8}" ++ js ")|" ++ js "&[a-zA-Z\d]{2,};".

(** d *)
Definition lang_d : M language :=
  let D_KEYWORDS :=
      KObj [(js "keyword", js "abstract alias align asm assert auto body break byte case cast catch class " ++
      js "const continue debug default delete deprecated do else enum export extern final " ++
      js "finally for foreach foreach_reverse|10 goto if immutable import in inout int " ++
      js "interface invariant is lazy macro mixin module new nothrow out override package " ++
      js "pragma private protected public pure ref return scope shared static struct " ++
      js "super switch synchronized template this throw try typedef typeid typeof union " ++
      js "unittest version void volatile while with __FILE__ __LINE__ __gshared|10 " ++
      js "__thread __traits __DATE__ __EOF__ __TIME__ __TIMESTAMP__ __VENDOR__ __VERSION__");
      (js "built_in", js "bool cdouble cent cfloat char creal dchar delegate double dstring float function " ++
      js "idouble ifloat ireal long real short string ubyte ucent uint ulong ushort wchar " ++ js "wstring");
      (js "literal", js "false null true")] in
  let decimal_integer_re := js "(0|[1-9][\d_]*" ++ js ")" in
  let decimal_integer_nosus_re := js "(0|[1-9][\d_]*|\d[\d_]*|[\d_]+?\d)" in
  let binary_integer_re := js "0[bB][01_]+" in
  let hexadecimal_digits_re := js "([\da-fA-F][\da-fA-F_]*|_[\da-fA-F][\da-fA-F_]*" ++ js ")" in
  let hexadecimal_integer_re := js "0[xX]" ++ hexadecimal_digits_re in
  let decimal_exponent_re := js "([eE][+-]?" ++ decimal_integer_nosus_re ++ js ")" in
  let decimal_float_re := js "(" ++ decimal_integer_nosus_re ++ js "(\.\d*|" ++ decimal_exponent_re ++ js ")|" ++
      js "\d+\." ++ decimal_integer_nosus_re ++ decimal_integer_nosus_re ++ js "|" ++ js "\." ++
      decimal_integer_re ++ decimal_exponent_re ++ js "?" ++ js ")" in
  let hexadecimal_float_re := js "(0[xX](" ++ hexadecimal_digits_re ++ js "\." ++ hexadecimal_digits_re ++ js "|" ++
      js "\.?" ++ hexadecimal_digits_re ++ js ")[pP][+-]?" ++ decimal_integer_nosus_re ++ js ")" in
  let integer_re := js "(" ++ decimal_integer_re ++ js "|" ++ binary_integer_re ++ js "|" ++
      hexadecimal_integer_re ++ js ")" in
  let float_re := js "(" ++ hexadecimal_float_re ++ js "|" ++ decimal_float_re ++ js ")" in
  let* D_INTEGER_MODE := new [ClassName (js "number"); Begin (js "\b" ++ integer_re ++ js "(L|u|U|Lu|LU|uL|UL)?");
      Relevance 0] in
  let* D_FLOAT_MODE := new [ClassName (js "number"); Begin (js "\b(" ++ float_re ++ js "([fF]|L|i|[fF]i|Li)?|" ++
      integer_re ++ js "(i|[fF]i|Li)" ++ js ")"); Relevance 0] in
  let* D_CHARACTER_MODE := new [ClassName (js "string"); Begin (js "'(" ++ lang_d_escape_sequence_re ++ js "|.)");
      End_ (js "'"); Illegal (js ".")] in
  let* D_ESCAPE_SEQUENCE := new [Begin lang_d_escape_sequence_re; Relevance 0] in
  let* D_STRING_MODE := new [ClassName (js "string"); Begin (js "＂"); Contains [CRef D_ESCAPE_SEQUENCE];
      End_ (js "＂[cwd]?")] in
  let* D_WYSIWYG_DELIMITED_STRING_MODE := new [ClassName (js "string"); Begin (js "[rq]＂"); End_ (js "＂[cwd]?");
      Relevance 5] in
  let* D_ALTERNATE_WYSIWYG_STRING_MODE := new [ClassName (js "string"); Begin (js "`"); End_ (js "`[cwd]?")] in
  let* D_HEX_STRING_MODE := new [ClassName (js "string"); Begin (js "x＂[\da-fA-F\s\n\r]*＂[cwd]?"); Relevance 10] in
  let* D_TOKEN_STRING_MODE := new [ClassName (js "string"); Begin (js "q＂\{"); End_ (js "\}＂")] in
  let* D_HASHBANG_MODE := new [ClassName (js "meta"); Begin (js "^#!"); End_ (js "$"); Relevance 5] in
  let* D_SPECIAL_TOKEN_SEQUENCE_MODE := new [ClassName (js "meta"); Begin (js "#(line)"); End_ (js "$");
      Relevance 5] in
  let* D_ATTRIBUTE_MODE := new [ClassName (js "keyword"); Begin (js "@[a-zA-Z_][a-zA-Z_\d]*")] in
  let* D_NESTING_COMMENT_MODE := COMMENT (js "\/\+") (js "\+\/") [Contains [CSelf]; Relevance 10] in
  lang plain_lang [Lexemes UNDERSCORE_IDENT_RE; Keywords D_KEYWORDS; Contains [CRef C_LINE_COMMENT_MODE;
      CRef C_BLOCK_COMMENT_MODE; CRef D_NESTING_COMMENT_MODE; CRef D_HEX_STRING_MODE; CRef D_STRING_MODE;
      CRef D_WYSIWYG_DELIMITED_STRING_MODE; CRef D_ALTERNATE_WYSIWYG_STRING_MODE; CRef D_TOKEN_STRING_MODE;
      CRef D_FLOAT_MODE; CRef D_INTEGER_MODE; CRef D_CHARACTER_MODE; CRef D_HASHBANG_MODE;
      CRef D_SPECIAL_TOKEN_SEQUENCE_MODE; CRef D_ATTRIBUTE_MODE]].

(** dart *)
Definition lang_dart : M language :=
  let* SUBST := new [ClassName (js "subst"); Variants [[Begin (js "\$[A-Za-z0-9_]+")]]] in
  let* BRACED_SUBST := new [ClassName (js "subst"); Variants [[Begin (js "\${"); End_ (js "}")]];
      Keywords (KStr (js "true false null this is new super"))] in
  let* STRING := new [ClassName (js "string"); Variants [[Begin (js "r'''"); End_ (js "'''")]; [Begin (js "r＂＂＂");
      End_ (js "＂＂＂")]; [Begin (js "r'"); End_ (js "'"); Illegal (js "\n")]; [Begin (js "r＂"); End_ (js "＂");
      Illegal (js "\n")]; [Begin (js "'''"); End_ (js "'''"); Contains [CRef BACKSLASH_ESCAPE; CRef SUBST;
      CRef BRACED_SUBST]]; [Begin (js "＂＂＂"); End_ (js "＂＂＂"); Contains [CRef BACKSLASH_ESCAPE; CRef SUBST;
      CRef BRACED_SUBST]]; [Begin (js "'"); End_ (js "'"); Illegal (js "\n"); Contains [CRef BACKSLASH_ESCAPE;
      CRef SUBST; CRef BRACED_SUBST]]; [Begin (js "＂"); End_ (js "＂"); Illegal (js "\n");
      Contains [CRef BACKSLASH_ESCAPE; CRef SUBST; CRef BRACED_SUBST]]]] in
  let* _ := upd BRACED_SUBST (fun m => assign m (Contains [CRef C_NUMBER_MODE; CRef STRING])) in
  let KEYWORDS :=
      KObj [(js "keyword", js "assert async await break case catch class const continue default do else enum extends false final " ++
      js "finally for if in is new null rethrow return super switch sync this throw true try var void while with " ++
      js "yield " ++
      js "abstract as dynamic export external factory get implements import library operator part set static typedef");
      (js "built_in", js "print Comparable DateTime Duration Function Iterable Iterator List Map Match Null Object Pattern RegExp " ++
      js "Set " ++ js "Stopwatch String StringBuffer StringSink Symbol Type Uri bool double int num " ++
      js "document window querySelector querySelectorAll Element ElementList")] in
  let* m1 := COMMENT (js "/\*\*") (js "\*/") [SubLanguage (inl (js "markdown"))] in
  let* m2 := COMMENT (js "///") (js "$") [SubLanguage (inl (js "markdown"))] in
  let* m3 := new [BeginKeywords (js "extends implements")] in
  let* m4 := new [ClassName (js "class"); BeginKeywords (js "class interface"); End_ (js "{"); ExcludeEnd true;
      Contains [CRef m3; CRef UNDERSCORE_TITLE_MODE]] in
  let* m5 := new [ClassName (js "meta"); Begin (js "@[A-Za-z]+")] in
  let* m6 := new [Begin (js "=>")] in
  lang plain_lang [Keywords KEYWORDS; Contains [CRef STRING; CRef m1; CRef m2; CRef C_LINE_COMMENT_MODE;
      CRef C_BLOCK_COMMENT_MODE; CRef m4; CRef C_NUMBER_MODE; CRef m5; CRef m6]].

(** delphi *)
Definition lang_delphi : M language :=
  let KEYWORDS :=
      js "exports register file shl array record property for mod while set ally label uses raise not " ++
      js "stored class safecall var interface or private static exit index inherited to else stdcall " ++
      js "override shr asm far resourcestring finalization packed virtual out and protected library do " ++
      js "xorwrite goto near function end div overload object unit begin string on inline repeat until " ++
      js "destructor write message program with read initialization except default nil if case cdecl in " ++
      js "downto threadvar of try pascal const external constructor type public then implementation " ++
      js "finally published procedure absolute reintroduce operator as is abstract alias assembler " ++
      js "bitpacked break continue cppdecl cvar enumerator experimental platform deprecated " ++
      js "unimplemented dynamic export far16 forward generic helper implements interrupt iochecks " ++
      js "local name nodefault noreturn nostackframe oldfpccall otherwise saveregisters softfloat " ++
      js "specialize strict unaligned varargs " in
  let* m1 := COMMENT (js "\{") (js "\}") [Relevance 0] in
  let* m2 := COMMENT (js "\(\*") (js "\*\)") [Relevance 10] in
  let COMMENT_MODES := [CRef C_LINE_COMMENT_MODE; CRef m1; CRef m2] in
  let* DIRECTIVE := new [ClassName (js "meta"); Variants [[Begin (js "\{\$"); End_ (js "\}")]; [Begin (js "\(\*\$");
      End_ (js "\*\)")]]] in
  let* m3 := new [Begin (js "''")] in
  let* STRING := new [ClassName (js "string"); Begin (js "'"); End_ (js "'"); Contains [CRef m3]] in
  let* CHAR_STRING := new [ClassName (js "string"); Begin (js "(#\d+)+")] in
  let* CLASS := new [Begin (IDENT_RE ++ js "\s*=\s*class\s*\("); ReturnBegin true; Contains [CRef TITLE_MODE]] in
  let* m4 := new [ClassName (js "params"); Begin (js "\("); End_ (js "\)"); Keywords (KStr KEYWORDS);
      Contains ([CRef STRING; CRef CHAR_STRING; CRef DIRECTIVE] ++ COMMENT_MODES)] in
  let* FUNCTION := new [ClassName (js "function"); BeginKeywords (js "function constructor destructor procedure");
      End_ (js "[:;]"); Keywords (KStr (js "function constructor|10 destructor|10 procedure|10"));
      Contains ([CRef TITLE_MODE; CRef m4; CRef DIRECTIVE] ++ COMMENT_MODES)] in
  lang (mkLP true [js "dpr"; js "dfm"; js "pas"; js "pascal"; js "freepascal"; js "lazarus"; js "lpr";
      js "lfm"] false) [Keywords (KStr KEYWORDS); Illegal (js "＂|\$[G-Zg-z]|\/\*|<\/|\|"); Contains ([CRef STRING;
      CRef CHAR_STRING; CRef NUMBER_MODE; CRef CLASS; CRef FUNCTION; CRef DIRECTIVE] ++ COMMENT_MODES)].

(** diff *)
Definition lang_diff : M language :=
  let* m1 := new [ClassName (js "meta"); Relevance 10; Variants [[Begin (js "^@@ +\-\d+,\d+ +\+\d+,\d+ +@@$")];
      [Begin (js "^\*\*\* +\d+,\d+ +\*\*\*\*$")]; [Begin (js "^\-\-\- +\d+,\d+ +\-\-\-\-$")]]] in
  let* m2 := new [ClassName (js "comment"); Variants [[Begin (js "Index: "); End_ (js "$")]; [Begin (js "={3,}");
      End_ (js "$")]; [Begin (js "^\-{3}"); End_ (js "$")]; [Begin (js "^\*{3} "); End_ (js "$")];
      [Begin (js "^\+{3}"); End_ (js "$")]; [Begin (js "\*{5}"); End_ (js "\*{5}$")]]] in
  let* m3 := new [ClassName (js "addition"); Begin (js "^\+"); End_ (js "$")] in
  let* m4 := new [ClassName (js "deletion"); Begin (js "^\-"); End_ (js "$")] in
  let* m5 := new [ClassName (js "addition"); Begin (js "^\!"); End_ (js "$")] in
  lang (mkLP false [js "patch"] false) [Contains [CRef m1; CRef m2; CRef m3; CRef m4; CRef m5]].

(** django *)
Definition lang_django : M language :=
  let* FILTER := new [Begin (js "\|[A-Za-z]+:?");
      Keywords (KObj [(js "name", js "truncatewords removetags linebreaksbr yesno get_digit timesince random striptags " ++
      js "filesizeformat escape linebreaks length_is ljust rjust cut urlize fix_ampersands " ++
      js "title floatformat capfirst pprint divisibleby add make_list unordered_list urlencode " ++
      js "timeuntil urlizetrunc wordcount stringformat linenumbers slice date dictsort " ++
      js "dictsortreversed default_if_none pluralize lower join center default " ++
      js "truncatewords_html upper length phone2numeric wordwrap time addslashes slugify first " ++
      js "escapejs force_escape iriencode last safe safeseq truncatechars localize unlocalize " ++
      js "localtime utc timezone")]); Contains [CRef QUOTE_STRING_MODE; CRef APOS_STRING_MODE]] in
  let* m1 := COMMENT (js "\{%\s*comment\s*%}") (js "\{%\s*endcomment\s*%}") [] in
  let* m2 := COMMENT (js "\{#") (js "#}") [] in
  let* m3 := new [EndsWithParent true; Keywords (KStr (js "in by as")); Contains [CRef FILTER]; Relevance 0] in
  let* m4 := new [ClassName (js "name"); Begin (js "\w+");
      Keywords (KObj [(js "name", js "comment endcomment load templatetag ifchanged endifchanged if endif firstof for " ++
      js "endfor ifnotequal endifnotequal widthratio extends include spaceless " ++
      js "endspaceless regroup ifequal endifequal ssi now with cycle url filter " ++
      js "endfilter debug block endblock else autoescape endautoescape csrf_token empty elif " ++
      js "endwith static trans blocktrans endblocktrans get_static_prefix get_media_prefix " ++
      js "plural get_current_language language get_available_languages " ++
      js "get_current_language_bidi get_language_info get_language_info_list localize " ++
      js "endlocalize localtime endlocaltime timezone endtimezone get_current_timezone " ++ js "verbatim")]);
      Starts m3] in
  let* m5 := new [ClassName (js "template-tag"); Begin (js "\{%"); End_ (js "%}"); Contains [CRef m4]] in
  let* m6 := new [ClassName (js "template-variable"); Begin (js "\{\{"); End_ (js "}}"); Contains [CRef FILTER]] in
  lang (mkLP true [js "jinja"] false) [SubLanguage (inl (js "xml")); Contains [CRef m1; CRef m2; CRef m5; CRef m6]].

(** dns *)
Definition lang_dns : M language :=
  let* m1 := COMMENT (js ";") (js "$") [Relevance 0] in
  let* m2 := new [ClassName (js "meta"); Begin (js "^\$(TTL|GENERATE|INCLUDE|ORIGIN)\b")] in
  let* m3 := new [ClassName (js "number");
      Begin (js "((([0-9A-Fa-f]{1,4}:){7}([0-9A-Fa-f]{1,4}|:))|(([0-9A-Fa-f]{1,4}:){6}(:[0-9A-Fa-f]{1,4}|((25[0-5]|2[0-4]\d|1\d\d|[1-9]?\d)(\.(25[0-5]|2[0-4]\d|1\d\d|[1-9]?\d)){3})|:))|(([0-9A-Fa-f]{1,4}:){5}(((:[0-9A-Fa-f]{1,4}){1,2})|:((25[0-5]|2[0-4]\d|1\d\d|[1-9]?\d)(\.(25[0-5]|2[0-4]\d|1\d\d|[1-9]?\d)){3})|:))|(([0-9A-Fa-f]{1,4}:){4}(((:[0-9A-Fa-f]{1,4}){1,3})|((:[0-9A-Fa-f]{1,4})?:((25[0-5]|2[0-4]\d|1\d\d|[1-9]?\d)(\.(25[0-5]|2[0-4]\d|1\d\d|[1-9]?\d)){3}))|:))|(([0-9A-Fa-f]{1,4}:){3}(((:[0-9A-Fa-f]{1,4}){1,4})|((:[0-9A-Fa-f]{1,4}){0,2}:((25[0-5]|2[0-4]\d|1\d\d|[1-9]?\d)(\.(25[0-5]|2[0-4]\d|1\d\d|[1-9]?\d)){3}))|:))|(([0-9A-Fa-f]{1,4}:){2}(((:[0-9A-Fa-f]{1,4}){1,5})|((:[0-9A-Fa-f]{1,4}){0,3}:((25[0-5]|2[0-4]\d|1\d\d|[1-9]?\d)(\.(25[0-5]|2[0-4]\d|1\d\d|[1-9]?\d)){3}))|:))|(([0-9A-Fa-f]{1,4}:){1}(((:[0-9A-Fa-f]{1,4}){1,6})|((:[0-9A-Fa-f]{1,4}){0,4}:((25[0-5]|2[0-4]\d|1\d\d|[1-9]?\d)(\.(25[0-5]|2[0-4]\d|1\d\d|[1-9]?\d)){3}))|:))|(:(((:[0-9A-Fa-f]{1,4}){1,7})|((:[0-9A-Fa-f]{1,4}){0,5}:((25[0-5]|2[0-4]\d|1\d\d|[1-9]?\d)(\.(25[0-5]|2[0-4]\d|1\d\d|[1-9]?\d)){3}))|:)))\b")] in
  let* m4 := new [ClassName (js "number");
      Begin (js "((25[0-5]|(2[0-4]|1{0,1}[0-9]){0,1}[0-9]).){3,3}(25[0-5]|(2[0-4]|1{0,1}[0-9]){0,1}[0-9])\b")] in
  let* m5 := inherit_mode NUMBER_MODE [Begin (js "\b\d+[dhwm]?")] in
  lang (mkLP false [js "bind";
      js "zone"] false) [Keywords (KObj [(js "keyword", js "IN A AAAA AFSDB APL CAA CDNSKEY CDS CERT CNAME DHCID DLV DNAME DNSKEY DS HIP IPSECKEY KEY KX " ++
      js "LOC MX NAPTR NS NSEC NSEC3 NSEC3PARAM PTR RRSIG RP SIG SOA SRV SSHFP TA TKEY TLSA TSIG TXT")]);
      Contains [CRef m1; CRef m2; CRef m3; CRef m4; CRef m5]].

(** dockerfile *)
Definition lang_dockerfile : M language :=
  let* m1 := new [End_ (js "[^\\]$"); SubLanguage (inl (js "bash"))] in
  let* m2 := new [BeginKeywords (js "run cmd entrypoint volume add copy workdir label healthcheck shell");
      Starts m1] in
  lang (mkLP true [js "docker"] false) [Keywords (KStr (js "from maintainer expose env arg user onbuild stopsignal"));
      Contains [CRef HASH_COMMENT_MODE; CRef APOS_STRING_MODE; CRef QUOTE_STRING_MODE; CRef NUMBER_MODE; CRef m2];
      Illegal (js "</")].

(** dos *)
Definition lang_dos : M language :=
  let* COMMENT' := COMMENT (js "^\s*@?rem\b") (js "$") [Relevance 10] in
  let* LABEL := new [ClassName (js "symbol"); Begin (js "^\s*[A-Za-z._?][A-Za-z0-9_$#@~.?]*(:|\s+label)");
      Relevance 0] in
  let* m1 := new [ClassName (js "variable"); Begin (js "%%[^ ]|%[^ ]+?%|![^ ]+?!")] in
  let* m2 := get LABEL in
  let* m3 := inherit_mode TITLE_MODE [Begin (js "([_a-zA-Z]\w*\.)*([_a-zA-Z]\w*:)?[_a-zA-Z]\w*")] in
  let* m4 := new [ClassName (js "function"); Begin (mbegin m2); End_ (js "goto:eof"); Contains [CRef m3;
      CRef COMMENT']] in
  let* m5 := new [ClassName (js "number"); Begin (js "\b\d+"); Relevance 0] in
  lang (mkLP true [js "bat"; js "cmd"] false) [Illegal (js "\/\*");
      Keywords (KObj [(js "keyword", js "if else goto for in do call exit not exist errorlevel defined " ++
      js "equ neq lss leq gtr geq"); (js "built_in", js "prn nul lpt3 lpt2 lpt1 con com4 com3 com2 com1 aux " ++
      js "shift cd dir echo setlocal endlocal set pause copy " ++
      js "append assoc at attrib break cacls cd chcp chdir chkdsk chkntfs cls cmd color " ++
      js "comp compact convert date dir diskcomp diskcopy doskey erase fs " ++
      js "find findstr format ftype graftabl help keyb label md mkdir mode more move path " ++
      js "pause print popd pushd promt rd recover rem rename replace restore rmdir shift" ++
      js "sort start subst time title tree type ver verify vol " ++
      js "ping net ipconfig taskkill xcopy ren del")]); Contains [CRef m1; CRef m4; CRef m5; CRef COMMENT']].

(** dsconfig *)
Definition lang_dsconfig : M language :=
  let* QUOTED_PROPERTY := new [ClassName (js "string"); Begin (js "＂"); End_ (js "＂")] in
  let* APOS_PROPERTY := new [ClassName (js "string"); Begin (js "'"); End_ (js "'")] in
  let* UNQUOTED_PROPERTY := new [ClassName (js "string"); Begin (js "[\w-?]+:\w+"); End_ (js "\W"); Relevance 0] in
  let* VALUELESS_PROPERTY := new [ClassName (js "string"); Begin (js "\w+-?\w+"); End_ (js "\W"); Relevance 0] in
  let* m1 := new [ClassName (js "keyword"); Begin (js "^dsconfig"); End_ (js "\s"); ExcludeEnd true;
      Relevance 10] in
  let* m2 := new [ClassName (js "built_in"); Begin (js "(list|create|get|set|delete)-(\w+)"); End_ (js "\s");
      ExcludeEnd true; Illegal (js "!@#$%^&*()"); Relevance 10] in
  let* m3 := new [ClassName (js "built_in"); Begin (js "--(\w+)"); End_ (js "\s"); ExcludeEnd true] in
  lang plain_lang [Keywords (KStr (js "dsconfig")); Contains [CRef m1; CRef m2; CRef m3; CRef QUOTED_PROPERTY;
      CRef APOS_PROPERTY; CRef UNQUOTED_PROPERTY; CRef VALUELESS_PROPERTY; CRef HASH_COMMENT_MODE]].

(** dts *)
Definition lang_dts : M language :=
  let* m1 := inherit_mode QUOTE_STRING_MODE [Begin (js "((u8?|U)|L)?＂")] in
  let* STRINGS := new [ClassName (js "string"); Variants [[AllOf m1]; [Begin (js "(u8?|U)?R＂"); End_ (js "＂");
      Contains [CRef BACKSLASH_ESCAPE]]; [Begin (js "'\\?."); End_ (js "'"); Illegal (js ".")]]] in
  let* NUMBERS := new [ClassName (js "number"); Variants [[Begin (js "\b(\d+(\.\d*" ++
      js ")?|\.\d+)(u|U|l|L|ul|UL|f|F)")]; [Begin C_NUMBER_RE]]; Relevance 0] in
  let* m2 := new [Begin (js "\\\n"); Relevance 0] in
  let* m3 := inherit_mode STRINGS [ClassName (js "meta-string")] in
  let* m4 := new [ClassName (js "meta-string"); Begin (js "<"); End_ (js ">"); Illegal (js "\n")] in
  let* m5 := new [BeginKeywords (js "include"); End_ (js "$"); Keywords (KObj [(js "meta-keyword", js "include")]);
      Contains [CRef m3; CRef m4]] in
  let* PREPROCESSOR := new [ClassName (js "meta"); Begin (js "#"); End_ (js "$");
      Keywords (KObj [(js "meta-keyword", js "if else elif endif define undef ifdef ifndef")]); Contains [CRef m2;
      CRef m5; CRef STRINGS; CRef C_LINE_COMMENT_MODE; CRef C_BLOCK_COMMENT_MODE]] in
  let* DTS_REFERENCE := new [ClassName (js "variable"); Begin (js "\&[a-z\d_]*\b")] in
  let* DTS_KEYWORD := new [ClassName (js "meta-keyword"); Begin (js "/[a-z][a-z\d-]*/")] in
  let* DTS_LABEL := new [ClassName (js "symbol"); Begin (js "^\s*[a-zA-Z_][a-zA-Z\d_]*:")] in
  let* DTS_CELL_PROPERTY := new [ClassName (js "params"); Begin (js "<"); End_ (js ">"); Contains [CRef NUMBERS;
      CRef DTS_REFERENCE]] in
  let* DTS_NODE := new [ClassName (js "class"); Begin (js "[a-zA-Z_][a-zA-Z\d_@]*\s{"); End_ (js "[{;=]");
      ReturnBegin true; ExcludeEnd true] in
  let* DTS_ROOT_NODE := new [ClassName (js "class"); Begin (js "/\s*{"); End_ (js "};"); Relevance 10;
      Contains [CRef DTS_REFERENCE; CRef DTS_KEYWORD; CRef DTS_LABEL; CRef DTS_NODE; CRef DTS_CELL_PROPERTY;
      CRef C_LINE_COMMENT_MODE; CRef C_BLOCK_COMMENT_MODE; CRef NUMBERS; CRef STRINGS]] in
  let* m6 := new [Begin (IDENT_RE ++ js "::"); Keywords (KStr [])] in
  lang plain_lang [Keywords (KStr []); Contains [CRef DTS_ROOT_NODE; CRef DTS_REFERENCE; CRef DTS_KEYWORD;
      CRef DTS_LABEL; CRef DTS_NODE; CRef DTS_CELL_PROPERTY; CRef C_LINE_COMMENT_MODE; CRef C_BLOCK_COMMENT_MODE;
      CRef NUMBERS; CRef STRINGS; CRef PREPROCESSOR; CRef m6]].

(** dust *)
Definition lang_dust : M language :=
  let EXPRESSION_KEYWORDS := js "if eq ne lt lte gt gte select default math sep" in
  let* m1 := new [EndsWithParent true; Relevance 0; Contains [CRef QUOTE_STRING_MODE]] in
  let* m2 := new [ClassName (js "name"); Begin (js "[a-zA-Z\.-]+"); Starts m1] in
  let* m3 := new [ClassName (js "template-tag"); Begin (js "\{[#\/]"); End_ (js "\}"); Illegal (js ";");
      Contains [CRef m2]] in
  let* m4 := new [ClassName (js "template-variable"); Begin (js "\{"); End_ (js "\}"); Illegal (js ";");
      Keywords (KStr EXPRESSION_KEYWORDS)] in
  lang (mkLP true [js "dst"] false) [SubLanguage (inl (js "xml")); Contains [CRef m3; CRef m4]].

(** ebnf *)
Definition lang_ebnf : M language :=
  let* commentMode := COMMENT (js "\(\*") (js "\*\)") [] in
  let* nonTerminalMode := new [ClassName (js "attribute");
      Begin (js "^[ ]*[a-zA-Z][a-zA-Z-]*([\s-]+[a-zA-Z][a-zA-Z]*" ++ js ")*")] in
  let* specialSequenceMode := new [ClassName (js "meta"); Begin (js "\?.*\?")] in
  let* ruleBodyMode := new [Begin (js "="); End_ (js ";"); Contains [CRef commentMode; CRef specialSequenceMode;
      CRef APOS_STRING_MODE; CRef QUOTE_STRING_MODE]] in
  lang plain_lang [Illegal (js "\S"); Contains [CRef commentMode; CRef nonTerminalMode; CRef ruleBodyMode]].

(** elixir *)
Definition lang_elixir : M language :=
  let ELIXIR_IDENT_RE := js "[a-zA-Z_][a-zA-Z0-9_.]*(\!|\?)?" in
  let ELIXIR_METHOD_RE := js "[a-zA-Z_]\w*[!?=]?|[-+~]\@|<<|>>|=~|===?|<=>|[<>]=?|\*\*|[-/+%^&*~`|]|\[\]=?" in
  let ELIXIR_KEYWORDS := js "and false then defined module in return redo retry end for true self when " ++
      js "next until do begin unless nil break not case cond alias while ensure or " ++
      js "include use alias fn quote require import with|0" in
  let* SUBST := new [ClassName (js "subst"); Begin (js "#\{"); End_ (js "}"); Lexemes ELIXIR_IDENT_RE;
      Keywords (KStr ELIXIR_KEYWORDS)] in
  let* STRING := new [ClassName (js "string"); Contains [CRef BACKSLASH_ESCAPE; CRef SUBST];
      Variants [[Begin (js "'"); End_ (js "'")]; [Begin (js "＂"); End_ (js "＂")]]] in
  let* m1 := inherit_mode TITLE_MODE [Begin ELIXIR_IDENT_RE; EndsParent true] in
  let* FUNCTION := new [ClassName (js "function"); BeginKeywords (js "def defp defmacro"); End_ (js "\B\b");
      Contains [CRef m1]] in
  let* CLASS := inherit_mode FUNCTION [ClassName (js "class");
      BeginKeywords (js "defimpl defmodule defprotocol defrecord"); End_ (js "\bdo\b|$|;")] in
  let* m2 := new [Begin (js "::")] in
  let* m3 := new [Begin ELIXIR_METHOD_RE] in
  let* m4 := new [ClassName (js "symbol"); Begin (js ":(?![\s:])"); Contains [CRef STRING; CRef m3]; Relevance 0] in
  let* m5 := new [ClassName (js "symbol"); Begin (ELIXIR_IDENT_RE ++ js ":(?!:)"); Relevance 0] in
  let* m6 := new [ClassName (js "number");
      Begin (js "(\b0[0-7_]+)|(\b0x[0-9a-fA-F_]+)|(\b[1-9][0-9_]*(\.[0-9_]+)?)|[0_]\b"); Relevance 0] in
  let* m7 := new [ClassName (js "variable"); Begin (js "(\$\W)|((\$|\@\@?)(\w+))")] in
  let* m8 := new [Begin (js "->")] in
  let* m9 := new [ClassName (js "regexp"); Illegal (js "\n"); Contains [CRef BACKSLASH_ESCAPE; CRef SUBST];
      Variants [[Begin (js "/"); End_ (js "/[a-z]*")]; [Begin (js "%r\["); End_ (js "\][a-z]*")]]] in
  let* m10 := new [Begin (js "(" ++ RE_STARTERS_RE ++ js ")\s*"); Contains [CRef HASH_COMMENT_MODE; CRef m9];
      Relevance 0] in
  let ELIXIR_DEFAULT_CONTAINS := [CRef STRING; CRef HASH_COMMENT_MODE; CRef CLASS; CRef FUNCTION; CRef m2; CRef m4;
      CRef m5; CRef m6; CRef m7; CRef m8; CRef m10] in
  let* _ := upd SUBST (fun m => assign m (Contains ELIXIR_DEFAULT_CONTAINS)) in
  lang plain_lang [Lexemes ELIXIR_IDENT_RE; Keywords (KStr ELIXIR_KEYWORDS); Contains ELIXIR_DEFAULT_CONTAINS].

(** elm *)
Definition lang_elm : M language :=
  let* m1 := COMMENT (js "--") (js "$") [] in
  let* m2 := COMMENT (js "{-") (js "-}") [Contains [CSelf]] in
  let* COMMENT' := new [Variants [[AllOf m1]; [AllOf m2]]] in
  let* CONSTRUCTOR := new [ClassName (js "type"); Begin (js "\b[A-Z][\w']*"); Relevance 0] in
  let* m3 := new [ClassName (js "type"); Begin (js "\b[A-Z][\w]*(\((\.\.|,|\w+)\))?")] in
  let* LIST := new [Begin (js "\("); End_ (js "\)"); Illegal (js "＂"); Contains [CRef m3; CRef COMMENT']] in
  let* m4 := get LIST in
  let* RECORD := new [Begin (js "{"); End_ (js "}"); Contains (contains m4)] in
  let* CHARACTER := new [ClassName (js "string"); Begin (js "'\\?."); End_ (js "'"); Illegal (js ".")] in
  let* m5 := new [BeginKeywords (js "port effect module"); End_ (js "exposing");
      Keywords (KStr (js "port effect module where command subscription exposing")); Contains [CRef LIST;
      CRef COMMENT']; Illegal (js "\W\.|;")] in
  let* m6 := new [Begin (js "import"); End_ (js "$"); Keywords (KStr (js "import as exposing"));
      Contains [CRef LIST; CRef COMMENT']; Illegal (js "\W\.|;")] in
  let* m7 := new [Begin (js "type"); End_ (js "$"); Keywords (KStr (js "type alias")); Contains [CRef CONSTRUCTOR;
      CRef LIST; CRef RECORD; CRef COMMENT']] in
  let* m8 := new [BeginKeywords (js "infix infixl infixr"); End_ (js "$"); Contains [CRef C_NUMBER_MODE;
      CRef COMMENT']] in
  let* m9 := new [Begin (js "port"); End_ (js "$"); Keywords (KStr (js "port")); Contains [CRef COMMENT']] in
  let* m10 := inherit_mode TITLE_MODE [Begin (js "^[_a-z][\w']*")] in
  let* m11 := new [Begin (js "->|<-")] in
  lang plain_lang [Keywords (KStr (js "let in if then else case of where module import exposing " ++
      js "type alias as infix infixl infixr port effect command subscription")); Contains [CRef m5; CRef m6;
      CRef m7; CRef m8; CRef m9; CRef CHARACTER; CRef QUOTE_STRING_MODE; CRef C_NUMBER_MODE; CRef CONSTRUCTOR;
      CRef m10; CRef COMMENT'; CRef m11]; Illegal (js ";")].

(** erb *)
Definition lang_erb : M language :=
  let* m1 := COMMENT (js "<%#") (js "%>") [] in
  let* m2 := new [Begin (js "<%[%=-]?"); End_ (js "[%-]?%>"); SubLanguage (inl (js "ruby")); ExcludeBegin true;
      ExcludeEnd true] in
  lang plain_lang [SubLanguage (inl (js "xml")); Contains [CRef m1; CRef m2]].

(** erlang-repl *)
Definition lang_erlang_repl : M language :=
  let* m1 := new [ClassName (js "meta"); Begin (js "^[0-9]+> "); Relevance 10] in
  let* m2 := COMMENT (js "%") (js "$") [] in
  let* m3 := new [ClassName (js "number"); Begin (js "\b(\d+#[a-fA-F0-9]+|\d+(\.\d+)?([eE][-+]?\d+)?)");
      Relevance 0] in
  let* m4 := new [Begin (js "\?(::)?([A-Z]\w*(::)?)+")] in
  let* m5 := new [Begin (js "->")] in
  let* m6 := new [Begin (js "ok")] in
  let* m7 := new [Begin (js "!")] in
  let* m8 := new [Begin (js "(\b[a-z'][a-zA-Z0-9_']*:[a-z'][a-zA-Z0-9_']*" ++ js ")|(\b[a-z'][a-zA-Z0-9_']*" ++
      js ")"); Relevance 0] in
  let* m9 := new [Begin (js "[A-Z][a-zA-Z0-9_']*"); Relevance 0] in
  lang plain_lang [Keywords (KObj [(js "built_in", js "spawn spawn_link self");
      (js "keyword", js "after and andalso|10 band begin bnot bor bsl bsr bxor case catch cond div end fun if " ++
      js "let not of or orelse|10 query receive rem try when xor")]); Contains [CRef m1; CRef m2; CRef m3;
      CRef APOS_STRING_MODE; CRef QUOTE_STRING_MODE; CRef m4; CRef m5; CRef m6; CRef m7; CRef m8; CRef m9]].

(** erlang *)
Definition lang_erlang : M language :=
  let BASIC_ATOM_RE := js "[a-z'][a-zA-Z0-9_']*" in
  let FUNCTION_NAME_RE := js "(" ++ BASIC_ATOM_RE ++ js ":" ++ BASIC_ATOM_RE ++ js "|" ++ BASIC_ATOM_RE ++ js ")" in
  let ERLANG_RESERVED :=
      KObj [(js "keyword", js "after and andalso|10 band begin bnot bor bsl bzr bxor case catch cond div end fun if " ++
      js "let not of orelse|10 query receive rem try when xor"); (js "literal", js "false true")] in
  let* COMMENT' := COMMENT (js "%") (js "$") [] in
  let* NUMBER := new [ClassName (js "number"); Begin (js "\b(\d+#[a-fA-F0-9]+|\d+(\.\d+)?([eE][-+]?\d+)?)");
      Relevance 0] in
  let* NAMED_FUN := new [Begin (js "fun\s+" ++ BASIC_ATOM_RE ++ js "/\d+")] in
  let* m1 := new [Begin FUNCTION_NAME_RE; Relevance 0] in
  let* m2 := new [Begin (js "\("); End_ (js "\)"); EndsWithParent true; ReturnEnd true; Relevance 0] in
  let* FUNCTION_CALL := new [Begin (FUNCTION_NAME_RE ++ js "\("); End_ (js "\)"); ReturnBegin true; Relevance 0;
      Contains [CRef m1; CRef m2]] in
  let* TUPLE := new [Begin (js "{"); End_ (js "}"); Relevance 0] in
  let* VAR1 := new [Begin (js "\b_([A-Z][A-Za-z0-9_]*" ++ js ")?"); Relevance 0] in
  let* VAR2 := new [Begin (js "[A-Z][a-zA-Z0-9_]*"); Relevance 0] in
  let* m3 := new [Begin (js "#" ++ UNDERSCORE_IDENT_RE); Relevance 0] in
  let* m4 := new [Begin (js "{"); End_ (js "}"); Relevance 0] in
  let* RECORD_ACCESS := new [Begin (js "#" ++ UNDERSCORE_IDENT_RE); Relevance 0; ReturnBegin true;
      Contains [CRef m3; CRef m4]] in
  let* BLOCK_STATEMENTS := new [BeginKeywords (js "fun receive if try case"); End_ (js "end");
      Keywords ERLANG_RESERVED] in
  let* m5 := inherit_mode APOS_STRING_MODE [ClassName []] in
  let* _ := upd BLOCK_STATEMENTS (fun m => assign m (Contains [CRef COMMENT'; CRef NAMED_FUN; CRef m5;
      CRef BLOCK_STATEMENTS; CRef FUNCTION_CALL; CRef QUOTE_STRING_MODE; CRef NUMBER; CRef TUPLE; CRef VAR1;
      CRef VAR2; CRef RECORD_ACCESS])) in
  let BASIC_MODES := [CRef COMMENT'; CRef NAMED_FUN; CRef BLOCK_STATEMENTS; CRef FUNCTION_CALL;
      CRef QUOTE_STRING_MODE; CRef NUMBER; CRef TUPLE; CRef VAR1; CRef VAR2; CRef RECORD_ACCESS] in
  let* m6 := child_at FUNCTION_CALL 1 in
  let* _ := upd m6 (fun m => assign m (Contains BASIC_MODES)) in
  let* _ := upd TUPLE (fun m => assign m (Contains BASIC_MODES)) in
  let* m7 := child_at RECORD_ACCESS 1 in
  let* _ := upd m7 (fun m => assign m (Contains BASIC_MODES)) in
  let* PARAMS := new [ClassName (js "params"); Begin (js "\("); End_ (js "\)"); Contains BASIC_MODES] in
  let* m8 := inherit_mode TITLE_MODE [Begin BASIC_ATOM_RE] in
  let* m9 := new [End_ (js ";|\."); Keywords ERLANG_RESERVED; Contains BASIC_MODES] in
  let* m10 := new [ClassName (js "function"); Begin (js "^" ++ BASIC_ATOM_RE ++ js "\s*\("); End_ (js "->");
      ReturnBegin true; Illegal (js "\(|#|//|/\*|\\|:|;"); Contains [CRef PARAMS; CRef m8]; Starts m9] in
  let* m11 := new [Begin (js "^-"); End_ (js "\."); Relevance 0; ExcludeEnd true; ReturnBegin true;
      Lexemes (js "-" ++ IDENT_RE);
      Keywords (KStr (js "-module -record -undef -export -ifdef -ifndef -author -copyright -doc -vsn " ++
      js "-import -include -include_lib -compile -define -else -endif -file -behaviour " ++ js "-behavior -spec"));
      Contains [CRef PARAMS]] in
  let* m12 := new [Begin (js "\.$")] in
  lang (mkLP false [js "erl"] false) [Keywords ERLANG_RESERVED; Illegal (js "(</|\*=|\+=|-=|/\*|\*/|\(\*|\*\))");
      Contains [CRef m10; CRef COMMENT'; CRef m11; CRef NUMBER; CRef QUOTE_STRING_MODE; CRef RECORD_ACCESS;
      CRef VAR1; CRef VAR2; CRef TUPLE; CRef m12]].

(** excel *)
Definition lang_excel : M language :=
  let* m1 := new [Begin (js "^="); End_ (js "[^=]"); ReturnEnd true; Illegal (js "="); Relevance 10] in
  let* m2 := new [ClassName (js "symbol"); Begin (js "\b[A-Z]{1,2}\d+\b"); End_ (js "[^\d]"); ExcludeEnd true;
      Relevance 0] in
  let* m3 := new [ClassName (js "symbol"); Begin (js "[A-Z]{0,2}\d*:[A-Z]{0,2}\d*"); Relevance 0] in
  let* m4 := new [ClassName (js "number"); Begin (NUMBER_RE ++ js "(%)?"); Relevance 0] in
  let* m5 := COMMENT (js "\bN\(") (js "\)") [ExcludeBegin true; ExcludeEnd true; Illegal (js "\n")] in
  lang (mkLP true [js "xlsx"; js "xls"] false) [Lexemes (js "[a-zA-Z][\w\.]*");
      Keywords (KObj [(js "built_in", js "ABS ACCRINT ACCRINTM ACOS ACOSH ACOT ACOTH AGGREGATE ADDRESS AMORDEGRC AMORLINC AND ARABIC AREAS ASC " ++
      js "ASIN ASINH ATAN ATAN2 ATANH AVEDEV AVERAGE AVERAGEA AVERAGEIF AVERAGEIFS BAHTTEXT BASE BESSELI BESSELJ " ++
      js "BESSELK BESSELY BETADIST BETA.DIST BETAINV BETA.INV BIN2DEC BIN2HEX BIN2OCT BINOMDIST BINOM.DIST BINOM.DIST.RANGE " ++
      js "BINOM.INV BITAND BITLSHIFT BITOR BITRSHIFT BITXOR CALL CEILING CEILING.MATH CEILING.PRECISE CELL CHAR " ++
      js "CHIDIST CHIINV CHITEST CHISQ.DIST CHISQ.DIST.RT CHISQ.INV CHISQ.INV.RT CHISQ.TEST CHOOSE CLEAN CODE " ++
      js "COLUMN COLUMNS COMBIN COMBINA COMPLEX CONCAT CONCATENATE CONFIDENCE CONFIDENCE.NORM CONFIDENCE.T CONVERT " ++
      js "CORREL COS COSH COT COTH COUNT COUNTA COUNTBLANK COUNTIF COUNTIFS COUPDAYBS COUPDAYS COUPDAYSNC COUPNCD " ++
      js "COUPNUM COUPPCD COVAR COVARIANCE.P COVARIANCE.S CRITBINOM CSC CSCH CUBEKPIMEMBER CUBEMEMBER CUBEMEMBERPROPERTY " ++
      js "CUBERANKEDMEMBER CUBESET CUBESETCOUNT CUBEVALUE CUMIPMT CUMPRINC DATE DATEDIF DATEVALUE DAVERAGE DAY " ++
      js "DAYS DAYS360 DB DBCS DCOUNT DCOUNTA DDB DEC2BIN DEC2HEX DEC2OCT DECIMAL DEGREES DELTA DEVSQ DGET DISC " ++
      js "DMAX DMIN DOLLAR DOLLARDE DOLLARFR DPRODUCT DSTDEV DSTDEVP DSUM DURATION DVAR DVARP EDATE EFFECT ENCODEURL " ++
      js "EOMONTH ERF ERF.PRECISE ERFC ERFC.PRECISE ERROR.TYPE EUROCONVERT EVEN EXACT EXP EXPON.DIST EXPONDIST " ++
      js "FACT FACTDOUBLE FALSE|0 F.DIST FDIST F.DIST.RT FILTERXML FIND FINDB F.INV F.INV.RT FINV FISHER FISHERINV " ++
      js "FIXED FLOOR FLOOR.MATH FLOOR.PRECISE FORECAST FORECAST.ETS FORECAST.ETS.CONFINT FORECAST.ETS.SEASONALITY " ++
      js "FORECAST.ETS.STAT FORECAST.LINEAR FORMULATEXT FREQUENCY F.TEST FTEST FV FVSCHEDULE GAMMA GAMMA.DIST " ++
      js "GAMMADIST GAMMA.INV GAMMAINV GAMMALN GAMMALN.PRECISE GAUSS GCD GEOMEAN GESTEP GETPIVOTDATA GROWTH HARMEAN " ++
      js "HEX2BIN HEX2DEC HEX2OCT HLOOKUP HOUR HYPERLINK HYPGEOM.DIST HYPGEOMDIST IF|0 IFERROR IFNA IFS IMABS " ++
      js "IMAGINARY IMARGUMENT IMCONJUGATE IMCOS IMCOSH IMCOT IMCSC IMCSCH IMDIV IMEXP IMLN IMLOG10 IMLOG2 IMPOWER " ++
      js "IMPRODUCT IMREAL IMSEC IMSECH IMSIN IMSINH IMSQRT IMSUB IMSUM IMTAN INDEX INDIRECT INFO INT INTERCEPT " ++
      js "INTRATE IPMT IRR ISBLANK ISERR ISERROR ISEVEN ISFORMULA ISLOGICAL ISNA ISNONTEXT ISNUMBER ISODD ISREF " ++
      js "ISTEXT ISO.CEILING ISOWEEKNUM ISPMT JIS KURT LARGE LCM LEFT LEFTB LEN LENB LINEST LN LOG LOG10 LOGEST " ++
      js "LOGINV LOGNORM.DIST LOGNORMDIST LOGNORM.INV LOOKUP LOWER MATCH MAX MAXA MAXIFS MDETERM MDURATION MEDIAN " ++
      js "MID MIDBs MIN MINIFS MINA MINUTE MINVERSE MIRR MMULT MOD MODE MODE.MULT MODE.SNGL MONTH MROUND MULTINOMIAL " ++
      js "MUNIT N NA NEGBINOM.DIST NEGBINOMDIST NETWORKDAYS NETWORKDAYS.INTL NOMINAL NORM.DIST NORMDIST NORMINV " ++
      js "NORM.INV NORM.S.DIST NORMSDIST NORM.S.INV NORMSINV NOT NOW NPER NPV NUMBERVALUE OCT2BIN OCT2DEC OCT2HEX " ++
      js "ODD ODDFPRICE ODDFYIELD ODDLPRICE ODDLYIELD OFFSET OR PDURATION PEARSON PERCENTILE.EXC PERCENTILE.INC " ++
      js "PERCENTILE PERCENTRANK.EXC PERCENTRANK.INC PERCENTRANK PERMUT PERMUTATIONA PHI PHONETIC PI PMT POISSON.DIST " ++
      js "POISSON POWER PPMT PRICE PRICEDISC PRICEMAT PROB PRODUCT PROPER PV QUARTILE QUARTILE.EXC QUARTILE.INC " ++
      js "QUOTIENT RADIANS RAND RANDBETWEEN RANK.AVG RANK.EQ RANK RATE RECEIVED REGISTER.ID REPLACE REPLACEB REPT " ++
      js "RIGHT RIGHTB ROMAN ROUND ROUNDDOWN ROUNDUP ROW ROWS RRI RSQ RTD SEARCH SEARCHB SEC SECH SECOND SERIESSUM " ++
      js "SHEET SHEETS SIGN SIN SINH SKEW SKEW.P SLN SLOPE SMALL SQL.REQUEST SQRT SQRTPI STANDARDIZE STDEV STDEV.P " ++
      js "STDEV.S STDEVA STDEVP STDEVPA STEYX SUBSTITUTE SUBTOTAL SUM SUMIF SUMIFS SUMPRODUCT SUMSQ SUMX2MY2 SUMX2PY2 " ++
      js "SUMXMY2 SWITCH SYD T TAN TANH TBILLEQ TBILLPRICE TBILLYIELD T.DIST T.DIST.2T T.DIST.RT TDIST TEXT TEXTJOIN " ++
      js "TIME TIMEVALUE T.INV T.INV.2T TINV TODAY TRANSPOSE TREND TRIM TRIMMEAN TRUE|0 TRUNC T.TEST TTEST TYPE " ++
      js "UNICHAR UNICODE UPPER VALUE VAR VAR.P VAR.S VARA VARP VARPA VDB VLOOKUP WEBSERVICE WEEKDAY WEEKNUM WEIBULL " ++
      js "WEIBULL.DIST WORKDAY WORKDAY.INTL XIRR XNPV XOR YEAR YEARFRAC YIELD YIELDDISC YIELDMAT Z.TEST ZTEST")]);
      Contains [CRef m1; CRef m2; CRef m3; CRef BACKSLASH_ESCAPE; CRef QUOTE_STRING_MODE; CRef m4; CRef m5]].

(** fix *)
Definition lang_fix : M language :=
  let* m1 := new [Begin (js "([^\u2401\u0001=]+)"); End_ (js "=([^\u2401\u0001=]+)"); ReturnEnd true;
      ReturnBegin false; ClassName (js "attr")] in
  let* m2 := new [Begin (js "="); End_ (js "([\u2401\u0001])"); ExcludeEnd true; ExcludeBegin true;
      ClassName (js "string")] in
  let* m3 := new [Begin (js "[^\u2401\u0001]+"); End_ (js "[\u2401\u0001]"); ExcludeEnd true; ReturnBegin true;
      ReturnEnd false; Contains [CRef m1; CRef m2]] in
  lang (mkLP true [] false) [Contains [CRef m3]].

(** flix *)
Definition lang_flix : M language :=
  let* CHAR := new [ClassName (js "string"); Begin (js "'(.|\\[xXuU][a-zA-Z0-9]+)'")] in
  let* STRING := new [ClassName (js "string"); Variants [[Begin (js "＂"); End_ (js "＂")]]] in
  let* NAME := new [ClassName (js "title");
      Begin (js "[^0-9\n\t ＂'(),.`{}\[\]:;][^\n\t ＂'(),.`{}\[\]:;]+|[^0-9\n\t ＂'(),.`{}\[\]:;=]")] in
  let* METHOD := new [ClassName (js "function"); BeginKeywords (js "def"); End_ (js "[:={\[(\n;]"); ExcludeEnd true;
      Contains [CRef NAME]] in
  lang plain_lang [Keywords (KObj [(js "literal", js "true false");
      (js "keyword", js "case class def else enum if impl import in lat rel index let match namespace switch type yield with")]);
      Contains [CRef C_LINE_COMMENT_MODE; CRef C_BLOCK_COMMENT_MODE; CRef CHAR; CRef STRING; CRef METHOD;
      CRef C_NUMBER_MODE]].

(** fortran *)
Definition lang_fortran : M language :=
  let* PARAMS := new [ClassName (js "params"); Begin (js "\("); End_ (js "\)")] in
  let F_KEYWORDS := KObj [(js "literal", js ".False. .True.");
      (js "keyword", js "kind do while private call intrinsic where elsewhere " ++
      js "type endtype endmodule endselect endinterface end enddo endif if forall endforall only contains default " ++
      js "return stop then " ++
      js "public subroutine|10 function program .and. .or. .not. .le. .eq. .ge. .gt. .lt. " ++
      js "goto save else use module select case " ++
      js "access blank direct exist file fmt form formatted iostat name named nextrec number opened rec recl sequential " ++
      js "status unformatted unit " ++ js "continue format pause cycle exit " ++
      js "c_null_char c_alert c_backspace c_form_feed flush wait decimal round iomsg " ++
      js "synchronous nopass non_overridable pass protected volatile abstract extends import " ++
      js "non_intrinsic value deferred generic final enumerator class associate bind enum " ++
      js "c_int c_short c_long c_long_long c_signed_char c_size_t c_int8_t c_int16_t c_int32_t c_int64_t c_int_least8_t " ++
      js "c_int_least16_t " ++
      js "c_int_least32_t c_int_least64_t c_int_fast8_t c_int_fast16_t c_int_fast32_t c_int_fast64_t c_intmax_t " ++
      js "C_intptr_t c_float c_double " ++
      js "c_long_double c_float_complex c_double_complex c_long_double_complex c_bool c_char c_null_ptr c_null_funptr " ++
      js "c_new_line c_carriage_return c_horizontal_tab c_vertical_tab iso_c_binding c_loc c_funloc c_associated " ++
      js " c_f_pointer " ++
      js "c_ptr c_funptr iso_fortran_env character_storage_size error_unit file_storage_size input_unit iostat_end " ++
      js "iostat_eor " ++
      js "numeric_storage_size output_unit c_f_procpointer ieee_arithmetic ieee_support_underflow_control " ++
      js "ieee_get_underflow_mode ieee_set_underflow_mode newunit contiguous recursive " ++
      js "pad position action delim readwrite eor advance nml interface procedure namelist include sequence elemental " ++
      js "pure " ++ js "integer real character complex logical dimension allocatable|10 parameter " ++
      js "external implicit|10 none double precision assign intent optional pointer " ++
      js "target in out common equivalence data");
      (js "built_in", js "alog alog10 amax0 amax1 amin0 amin1 amod cabs ccos cexp clog csin csqrt dabs dacos dasin datan datan2 " ++
      js "dcos dcosh ddim dexp dint " ++
      js "dlog dlog10 dmax1 dmin1 dmod dnint dsign dsin dsinh dsqrt dtan dtanh float iabs idim idint idnint ifix " ++
      js "isign max0 max1 min0 min1 sngl " ++
      js "algama cdabs cdcos cdexp cdlog cdsin cdsqrt cqabs cqcos cqexp cqlog cqsin cqsqrt dcmplx dconjg derf " ++
      js "derfc dfloat dgamma dimag dlgama " ++
      js "iqint qabs qacos qasin qatan qatan2 qcmplx qconjg qcos qcosh qdim qerf qerfc qexp qgamma qimag qlgama " ++
      js "qlog qlog10 qmax1 qmin1 qmod " ++
      js "qnint qsign qsin qsinh qsqrt qtan qtanh abs acos aimag aint anint asin atan atan2 char cmplx conjg cos " ++
      js "cosh exp ichar index int log " ++
      js "log10 max min nint sign sin sinh sqrt tan tanh print write dim lge lgt lle llt mod nullify allocate " ++
      js "deallocate " ++
      js "adjustl adjustr all allocated any associated bit_size btest ceiling count cshift date_and_time digits " ++
      js "dot_product " ++
      js "eoshift epsilon exponent floor fraction huge iand ibclr ibits ibset ieor ior ishft ishftc lbound len_trim " ++
      js "matmul " ++
      js "maxexponent maxloc maxval merge minexponent minloc minval modulo mvbits nearest pack present product " ++
      js "radix random_number random_seed range repeat reshape rrspacing scale scan selected_int_kind selected_real_kind " ++
      js "set_exponent shape size spacing spread sum system_clock tiny transpose trim ubound unpack verify achar " ++
      js "iachar transfer " ++
      js "dble entry dprod cpu_time command_argument_count get_command get_command_argument get_environment_variable " ++
      js "is_iostat_end " ++
      js "ieee_arithmetic ieee_support_underflow_control ieee_get_underflow_mode ieee_set_underflow_mode " ++
      js "is_iostat_eor move_alloc new_line selected_char_kind same_type_as extends_type_of" ++
      js "acosh asinh atanh bessel_j0 bessel_j1 bessel_jn bessel_y0 bessel_y1 bessel_yn erf erfc erfc_scaled gamma " ++
      js "log_gamma hypot norm2 " ++
      js "atomic_define atomic_ref execute_command_line leadz trailz storage_size merge_bits " ++
      js "bge bgt ble blt dshiftl dshiftr findloc iall iany iparity image_index lcobound ucobound maskl maskr " ++
      js "num_images parity popcnt poppar shifta shiftl shiftr this_image")] in
  let* m1 := inherit_mode APOS_STRING_MODE [ClassName (js "string"); Relevance 0] in
  let* m2 := inherit_mode QUOTE_STRING_MODE [ClassName (js "string"); Relevance 0] in
  let* m3 := new [ClassName (js "function"); BeginKeywords (js "subroutine function program");
      Illegal (js "[${=\n]"); Contains [CRef UNDERSCORE_TITLE_MODE; CRef PARAMS]] in
  let* m4 := COMMENT (js "!") (js "$") [Relevance 0] in
  let* m5 := new [ClassName (js "number"); Begin (js "(?=\b|\+|\-|\.)(?=\.\d|\d)(?:\d+)?(?:\.?\d*" ++
      js ")(?:[de][+-]?\d+)?\b\.?"); Relevance 0] in
  lang (mkLP true [js "f90"; js "f95"] false) [Keywords F_KEYWORDS; Illegal (js "\/\*"); Contains [CRef m1; CRef m2;
      CRef m3; CRef m4; CRef m5]].

(** fsharp *)
Definition lang_fsharp : M language :=
  let* m1 := inherit_mode TITLE_MODE [Begin (js "'[a-zA-Z0-9_]+")] in
  let* TYPEPARAM := new [Begin (js "<"); End_ (js ">"); Contains [CRef m1]] in
  let* m2 := new [ClassName (js "keyword"); Begin (js "\b(yield|return|let|do)!")] in
  let* m3 := new [Begin (js "＂＂")] in
  let* m4 := new [ClassName (js "string"); Begin (js "@＂"); End_ (js "＂"); Contains [CRef m3]] in
  let* m5 := new [ClassName (js "string"); Begin (js "＂＂＂"); End_ (js "＂＂＂")] in
  let* m6 := COMMENT (js "\(\*") (js "\*\)") [] in
  let* m7 := new [ClassName (js "class"); BeginKeywords (js "type"); End_ (js "\(|=|$"); ExcludeEnd true;
      Contains [CRef UNDERSCORE_TITLE_MODE; CRef TYPEPARAM]] in
  let* m8 := new [ClassName (js "meta"); Begin (js "\[<"); End_ (js ">\]"); Relevance 10] in
  let* m9 := new [ClassName (js "symbol"); Begin (js "\B('[A-Za-z])\b"); Contains [CRef BACKSLASH_ESCAPE]] in
  let* m10 := inherit_mode QUOTE_STRING_MODE [Illegal []] in
  lang (mkLP false [js "fs"] false) [Keywords (KStr (js "abstract and as assert base begin class default delegate do done " ++
      js "downcast downto elif else end exception extern false finally for " ++
      js "fun function global if in inherit inline interface internal lazy let " ++
      js "match member module mutable namespace new null of open or " ++
      js "override private public rec return sig static struct then to " ++
      js "true try type upcast use val void when while with yield")); Illegal (js "\/\*"); Contains [CRef m2;
      CRef m4; CRef m5; CRef m6; CRef m7; CRef m8; CRef m9; CRef C_LINE_COMMENT_MODE; CRef m10;
      CRef C_NUMBER_MODE]].

(** gams *)
Definition lang_gams : M language :=
  let KEYWORDS := KObj [(js "keyword", js "abort acronym acronyms alias all and assign binary card diag display " ++
      js "else eq file files for free ge gt if integer le loop lt maximizing " ++
      js "minimizing model models ne negative no not option options or ord " ++
      js "positive prod put putpage puttl repeat sameas semicont semiint smax " ++
      js "smin solve sos1 sos2 sum system table then until using while xor yes"); (js "literal", js "eps inf na");
      (js "built-in", js "abs arccos arcsin arctan arctan2 Beta betaReg binomial ceil centropy " ++
      js "cos cosh cvPower div div0 eDist entropy errorf execSeed exp fact " ++
      js "floor frac gamma gammaReg log logBeta logGamma log10 log2 mapVal max " ++
      js "min mod ncpCM ncpF ncpVUpow ncpVUsin normal pi poly power " ++
      js "randBinomial randLinear randTriangle round rPower sigmoid sign " ++
      js "signPower sin sinh slexp sllog10 slrec sqexp sqlog10 sqr sqrec sqrt " ++
      js "tan tanh trunc uniform uniformInt vcPower bool_and bool_eqv bool_imp " ++
      js "bool_not bool_or bool_xor ifThen rel_eq rel_ge rel_gt rel_le rel_lt " ++
      js "rel_ne gday gdow ghour gleap gmillisec gminute gmonth gsecond gyear " ++
      js "jdate jnow jstart jtime errorLevel execError gamsRelease gamsVersion " ++
      js "handleCollect handleDelete handleStatus handleSubmit heapFree " ++
      js "heapLimit heapSize jobHandle jobKill jobStatus jobTerminate " ++
      js "licenseLevel licenseStatus maxExecError sleep timeClose timeComp " ++
      js "timeElapsed timeExec timeStart")] in
  let* PARAMS := new [ClassName (js "params"); Begin (js "\("); End_ (js "\)"); ExcludeBegin true;
      ExcludeEnd true] in
  let* SYMBOLS := new [ClassName (js "symbol"); Variants [[Begin (js "\=[lgenxc]=")]; [Begin (js "\$")]]] in
  let* QSTR := new [ClassName (js "comment"); Variants [[Begin (js "'"); End_ (js "'")]; [Begin (js "＂");
      End_ (js "＂")]]; Illegal (js "\n"); Contains [CRef BACKSLASH_ESCAPE]] in
  let* ASSIGNMENT := new [Begin (js "/"); End_ (js "/"); Keywords KEYWORDS; Contains [CRef QSTR;
      CRef C_LINE_COMMENT_MODE; CRef C_BLOCK_COMMENT_MODE; CRef QUOTE_STRING_MODE; CRef APOS_STRING_MODE;
      CRef C_NUMBER_MODE]] in
  let* m1 := new [ClassName (js "comment"); Begin (js "([ ]*[a-z0-9&#*=?@>\\<:\-,()$\[\]_.{}!+%^]+)+");
      Relevance 0] in
  let* DESCTEXT := new [Begin (js "[a-z][a-z0-9_]*(\([a-z0-9_, ]*\))?[ \t]+"); ExcludeBegin true; End_ (js "$");
      EndsWithParent true; Contains [CRef QSTR; CRef ASSIGNMENT; CRef m1]] in
  let* m2 := COMMENT (js "^\$ontext") (js "^\$offtext") [] in
  let* m3 := new [ClassName (js "meta-keyword"); Begin (js "^\$[a-z0-9]+")] in
  let* m4 := new [ClassName (js "meta"); Begin (js "^\$[a-z0-9]+"); End_ (js "$"); ReturnBegin true;
      Contains [CRef m3]] in
  let* m5 := COMMENT (js "^\*") (js "$") [] in
  let* m6 := COMMENT (js "^\*") (js "$") [] in
  let* m7 := new [BeginKeywords (js "set sets parameter parameters variable variables " ++
      js "scalar scalars equation equations"); End_ (js ";"); Contains [CRef m6; CRef C_LINE_COMMENT_MODE;
      CRef C_BLOCK_COMMENT_MODE; CRef QUOTE_STRING_MODE; CRef APOS_STRING_MODE; CRef ASSIGNMENT; CRef DESCTEXT]] in
  let* m8 := new [BeginKeywords (js "table"); End_ (js "$"); Contains [CRef DESCTEXT]] in
  let* m9 := COMMENT (js "^\*") (js "$") [] in
  let* m10 := new [BeginKeywords (js "table"); End_ (js ";"); ReturnBegin true; Contains [CRef m8; CRef m9;
      CRef C_LINE_COMMENT_MODE; CRef C_BLOCK_COMMENT_MODE; CRef QUOTE_STRING_MODE; CRef APOS_STRING_MODE;
      CRef C_NUMBER_MODE]] in
  let* m11 := new [ClassName (js "title"); Begin (js "^[a-z0-9_]+")] in
  let* m12 := new [ClassName (js "function"); Begin (js "^[a-z][a-z0-9_,\-+' ()$]+\.{2}"); ReturnBegin true;
      Contains [CRef m11; CRef PARAMS; CRef SYMBOLS]] in
  lang (mkLP true [js "gms"] false) [Keywords KEYWORDS; Contains [CRef m2; CRef m4; CRef m5;
      CRef C_LINE_COMMENT_MODE; CRef C_BLOCK_COMMENT_MODE; CRef QUOTE_STRING_MODE; CRef APOS_STRING_MODE; CRef m7;
      CRef m10; CRef m12; CRef C_NUMBER_MODE; CRef SYMBOLS]].

Definition lang_gauss_built_in : jsstr :=
  js "abs acf aconcat aeye amax amean AmericanBinomCall AmericanBinomCall_Greeks AmericanBinomCall_ImpVol " ++
      js "AmericanBinomPut AmericanBinomPut_Greeks AmericanBinomPut_ImpVol AmericanBSCall AmericanBSCall_Greeks " ++
      js "AmericanBSCall_ImpVol AmericanBSPut AmericanBSPut_Greeks AmericanBSPut_ImpVol amin amult annotationGetDefaults " ++
      js "annotationSetBkd annotationSetFont annotationSetLineColor annotationSetLineStyle annotationSetLineThickness " ++
      js "annualTradingDays arccos arcsin areshape arrayalloc arrayindex arrayinit arraytomat asciiload asclabel " ++
      js "astd " ++
      js "astds asum atan atan2 atranspose axmargin balance band bandchol bandcholsol bandltsol bandrv bandsolpd " ++
      js "bar " ++
      js "base10 begwind besselj bessely beta box boxcox cdfBeta cdfBetaInv cdfBinomial cdfBinomialInv cdfBvn " ++
      js "cdfBvn2 " ++
      js "cdfBvn2e cdfCauchy cdfCauchyInv cdfChic cdfChii cdfChinc cdfChincInv cdfExp cdfExpInv cdfFc cdfFnc cdfFncInv " ++
      js "cdfGam cdfGenPareto cdfHyperGeo cdfLaplace cdfLaplaceInv cdfLogistic cdfLogisticInv cdfmControlCreate " ++
      js "cdfMvn " ++
      js "cdfMvn2e cdfMvnce cdfMvne cdfMvt2e cdfMvtce cdfMvte cdfN cdfN2 cdfNc cdfNegBinomial cdfNegBinomialInv " ++
      js "cdfNi " ++
      js "cdfPoisson cdfPoissonInv cdfRayleigh cdfRayleighInv cdfTc cdfTci cdfTnc cdfTvn cdfWeibull cdfWeibullInv " ++
      js "cdir " ++
      js "ceil ChangeDir chdir chiBarSquare chol choldn cholsol cholup chrs close code cols colsf combinate combinated " ++
      js "complex con cond conj cons ConScore contour conv convertsatostr convertstrtosa corrm corrms corrvc corrx " ++
      js "corrxs " ++
      js "cos cosh counts countwts crossprd crout croutp csrcol csrlin csvReadM csvReadSA cumprodc cumsumc curve " ++
      js "cvtos " ++
      js "datacreate datacreatecomplex datalist dataload dataloop dataopen datasave date datestr datestring datestrymd " ++
      js "dayinyr dayofweek dbAddDatabase dbClose dbCommit dbCreateQuery dbExecQuery dbGetConnectOptions dbGetDatabaseName " ++
      js "dbGetDriverName dbGetDrivers dbGetHostName dbGetLastErrorNum dbGetLastErrorText dbGetNumericalPrecPolicy " ++
      js "dbGetPassword dbGetPort dbGetTableHeaders dbGetTables dbGetUserName dbHasFeature dbIsDriverAvailable " ++
      js "dbIsOpen " ++
      js "dbIsOpenError dbOpen dbQueryBindValue dbQueryClear dbQueryCols dbQueryExecPrepared dbQueryFetchAllM " ++
      js "dbQueryFetchAllSA " ++
      js "dbQueryFetchOneM dbQueryFetchOneSA dbQueryFinish dbQueryGetBoundValue dbQueryGetBoundValues dbQueryGetField " ++
      js "dbQueryGetLastErrorNum dbQueryGetLastErrorText dbQueryGetLastInsertID dbQueryGetLastQuery dbQueryGetPosition " ++
      js "dbQueryIsActive dbQueryIsForwardOnly dbQueryIsNull dbQueryIsSelect dbQueryIsValid dbQueryPrepare dbQueryRows " ++
      js "dbQuerySeek dbQuerySeekFirst dbQuerySeekLast dbQuerySeekNext dbQuerySeekPrevious dbQuerySetForwardOnly " ++
      js "dbRemoveDatabase dbRollback dbSetConnectOptions dbSetDatabaseName dbSetHostName dbSetNumericalPrecPolicy " ++
      js "dbSetPort dbSetUserName dbTransaction DeleteFile delif delrows denseToSp denseToSpRE denToZero design " ++
      js "det detl " ++
      js "dfft dffti diag diagrv digamma doswin DOSWinCloseall DOSWinOpen dotfeq dotfeqmt dotfge dotfgemt dotfgt " ++
      js "dotfgtmt " ++
      js "dotfle dotflemt dotflt dotfltmt dotfne dotfnemt draw drop dsCreate dstat dstatmt dstatmtControlCreate " ++
      js "dtdate dtday " ++
      js "dttime dttodtv dttostr dttoutc dtvnormal dtvtodt dtvtoutc dummy dummybr dummydn eig eigh eighv eigv " ++
      js "elapsedTradingDays " ++
      js "endwind envget eof eqSolve eqSolvemt eqSolvemtControlCreate eqSolvemtOutCreate eqSolveset erf erfc erfccplx " ++
      js "erfcplx error " ++
      js "etdays ethsec etstr EuropeanBinomCall EuropeanBinomCall_Greeks EuropeanBinomCall_ImpVol EuropeanBinomPut " ++
      js "EuropeanBinomPut_Greeks EuropeanBinomPut_ImpVol EuropeanBSCall EuropeanBSCall_Greeks EuropeanBSCall_ImpVol " ++
      js "EuropeanBSPut EuropeanBSPut_Greeks EuropeanBSPut_ImpVol exctsmpl exec execbg exp extern eye fcheckerr " ++
      js "fclearerr feq " ++
      js "feqmt fflush fft ffti fftm fftmi fftn fge fgemt fgets fgetsa fgetsat fgetst fgt fgtmt fileinfo filesa " ++
      js "fle flemt " ++
      js "floor flt fltmt fmod fne fnemt fonts fopen formatcv formatnv fputs fputst fseek fstrerror ftell ftocv " ++
      js "ftos ftostrC " ++
      js "gamma gammacplx gammaii gausset gdaAppend gdaCreate gdaDStat gdaDStatMat gdaGetIndex gdaGetName gdaGetNames " ++
      js "gdaGetOrders " ++
      js "gdaGetType gdaGetTypes gdaGetVarInfo gdaIsCplx gdaLoad gdaPack gdaRead gdaReadByIndex gdaReadSome gdaReadSparse " ++
      js "gdaReadStruct gdaReportVarInfo gdaSave gdaUpdate gdaUpdateAndPack gdaVars gdaWrite gdaWrite32 gdaWriteSome " ++
      js "getarray " ++
      js "getdims getf getGAUSShome getmatrix getmatrix4D getname getnamef getNextTradingDay getNextWeekDay getnr " ++
      js "getorders " ++
      js "getpath getPreviousTradingDay getPreviousWeekDay getRow getscalar3D getscalar4D getTrRow getwind glm " ++
      js "gradcplx gradMT " ++
      js "gradMTm gradMTT gradMTTm gradp graphprt graphset hasimag header headermt hess hessMT hessMTg hessMTgw " ++
      js "hessMTm " ++
      js "hessMTmw hessMTT hessMTTg hessMTTgw hessMTTm hessMTw hessp hist histf histp hsec imag indcv indexcat " ++
      js "indices indices2 " ++
      js "indicesf indicesfn indnv indsav integrate1d integrateControlCreate intgrat2 intgrat3 inthp1 inthp2 inthp3 " ++
      js "inthp4 " ++
      js "inthpControlCreate intquad1 intquad2 intquad3 intrleav intrleavsa intrsect intsimp inv invpd invswp " ++
      js "iscplx iscplxf " ++
      js "isden isinfnanmiss ismiss key keyav keyw lag lag1 lagn lapEighb lapEighi lapEighvb lapEighvi lapgEig " ++
      js "lapgEigh lapgEighv " ++
      js "lapgEigv lapgSchur lapgSvdcst lapgSvds lapgSvdst lapSvdcusv lapSvds lapSvdusv ldlp ldlsol linSolve listwise " ++
      js "ln lncdfbvn " ++
      js "lncdfbvn2 lncdfmvn lncdfn lncdfn2 lncdfnc lnfact lngammacplx lnpdfmvn lnpdfmvt lnpdfn lnpdft loadd loadstruct " ++
      js "loadwind " ++
      js "loess loessmt loessmtControlCreate log loglog logx logy lower lowmat lowmat1 ltrisol lu lusol machEpsilon " ++
      js "make makevars " ++
      js "makewind margin matalloc matinit mattoarray maxbytes maxc maxindc maxv maxvec mbesselei mbesselei0 mbesselei1 " ++
      js "mbesseli " ++
      js "mbesseli0 mbesseli1 meanc median mergeby mergevar minc minindc minv miss missex missrv moment momentd " ++
      js "movingave " ++
      js "movingaveExpwgt movingaveWgt nextindex nextn nextnevn nextwind ntos null null1 numCombinations ols olsmt " ++
      js "olsmtControlCreate " ++
      js "olsqr olsqr2 olsqrmt ones optn optnevn orth outtyp pacf packedToSp packr parse pause pdfCauchy pdfChi " ++
      js "pdfExp pdfGenPareto " ++
      js "pdfHyperGeo pdfLaplace pdfLogistic pdfn pdfPoisson pdfRayleigh pdfWeibull pi pinv pinvmt plotAddArrow " ++
      js "plotAddBar plotAddBox " ++
      js "plotAddHist plotAddHistF plotAddHistP plotAddPolar plotAddScatter plotAddShape plotAddTextbox plotAddTS " ++
      js "plotAddXY plotArea " ++
      js "plotBar plotBox plotClearLayout plotContour plotCustomLayout plotGetDefaults plotHist plotHistF plotHistP " ++
      js "plotLayout " ++
      js "plotLogLog plotLogX plotLogY plotOpenWindow plotPolar plotSave plotScatter plotSetAxesPen plotSetBar " ++
      js "plotSetBarFill " ++
      js "plotSetBarStacked plotSetBkdColor plotSetFill plotSetGrid plotSetLegend plotSetLineColor plotSetLineStyle " ++
      js "plotSetLineSymbol " ++
      js "plotSetLineThickness plotSetNewWindow plotSetTitle plotSetWhichYAxis plotSetXAxisShow plotSetXLabel " ++
      js "plotSetXRange " ++
      js "plotSetXTicInterval plotSetXTicLabel plotSetYAxisShow plotSetYLabel plotSetYRange plotSetZAxisShow plotSetZLabel " ++
      js "plotSurface plotTS plotXY polar polychar polyeval polygamma polyint polymake polymat polymroot polymult " ++
      js "polyroot " ++
      js "pqgwin previousindex princomp printfm printfmt prodc psi putarray putf putvals pvCreate pvGetIndex pvGetParNames " ++
      js "pvGetParVector pvLength pvList pvPack pvPacki pvPackm pvPackmi pvPacks pvPacksi pvPacksm pvPacksmi pvPutParVector " ++
      js "pvTest pvUnpack QNewton QNewtonmt QNewtonmtControlCreate QNewtonmtOutCreate QNewtonSet QProg QProgmt " ++
      js "QProgmtInCreate " ++
      js "qqr qqre qqrep qr qre qrep qrsol qrtsol qtyr qtyre qtyrep quantile quantiled qyr qyre qyrep qz rank " ++
      js "rankindx readr " ++
      js "real reclassify reclassifyCuts recode recserar recsercp recserrc rerun rescale reshape rets rev rfft " ++
      js "rffti rfftip rfftn " ++
      js "rfftnp rfftp rndBernoulli rndBeta rndBinomial rndCauchy rndChiSquare rndCon rndCreateState rndExp rndGamma " ++
      js "rndGeo rndGumbel " ++
      js "rndHyperGeo rndi rndKMbeta rndKMgam rndKMi rndKMn rndKMnb rndKMp rndKMu rndKMvm rndLaplace rndLCbeta " ++
      js "rndLCgam rndLCi rndLCn " ++
      js "rndLCnb rndLCp rndLCu rndLCvm rndLogNorm rndMTu rndMVn rndMVt rndn rndnb rndNegBinomial rndp rndPoisson " ++
      js "rndRayleigh " ++
      js "rndStateSkip rndu rndvm rndWeibull rndWishart rotater round rows rowsf rref sampleData satostrC saved " ++
      js "saveStruct savewind " ++
      js "scale scale3d scalerr scalinfnanmiss scalmiss schtoc schur searchsourcepath seekr select selif seqa " ++
      js "seqm setdif setdifsa " ++
      js "setvars setvwrmode setwind shell shiftr sin singleindex sinh sleep solpd sortc sortcc sortd sorthc sorthcc " ++
      js "sortind " ++
      js "sortindc sortmc sortr sortrc spBiconjGradSol spChol spConjGradSol spCreate spDenseSubmat spDiagRvMat " ++
      js "spEigv spEye spLDL " ++
      js "spline spLU spNumNZE spOnes spreadSheetReadM spreadSheetReadSA spreadSheetWrite spScale spSubmat spToDense " ++
      js "spTrTDense " ++
      js "spTScalar spZeros sqpSolve sqpSolveMT sqpSolveMTControlCreate sqpSolveMTlagrangeCreate sqpSolveMToutCreate " ++
      js "sqpSolveSet " ++
      js "sqrt statements stdc stdsc stocv stof strcombine strindx strlen strput strrindx strsect strsplit strsplitPad " ++
      js "strtodt " ++
      js "strtof strtofcplx strtriml strtrimr strtrunc strtruncl strtruncpad strtruncr submat subscat substute " ++
      js "subvec sumc sumr " ++ js "surface svd svd1 svd2 svdcusv svds svdusv sysstate tab tan tanh tempname " ++
      js "time timedt timestr timeutc title tkf2eps tkf2ps tocart todaydt toeplitz token topolar trapchk " ++
      js "trigamma trimr trunc type typecv typef union unionsa uniqindx uniqindxsa unique uniquesa upmat upmat1 " ++
      js "upper utctodt " ++
      js "utctodtv utrisol vals varCovMS varCovXS varget vargetl varmall varmares varput varputl vartypef vcm " ++
      js "vcms vcx vcxs " ++
      js "vec vech vecr vector vget view viewxyz vlist vnamecv volume vput vread vtypecv wait waitc walkindex " ++
      js "where window " ++
      js "writer xlabel xlsGetSheetCount xlsGetSheetSize xlsGetSheetTypes xlsMakeRange xlsReadM xlsReadSA xlsWrite " ++
      js "xlsWriteM " ++
      js "xlsWriteSA xpnd xtics xy xyz ylabel ytics zeros zeta zlabel ztics cdfEmpirical dot h5create h5open h5read " ++
      js "h5readAttribute " ++
      js "h5write h5writeAttribute ldl plotAddErrorBar plotAddSurface plotCDFEmpirical plotSetColormap plotSetContourLabels " ++
      js "plotSetLegendFont plotSetTextInterpreter plotSetXTicCount plotSetYTicCount plotSetZLevels powerm strjoin " ++
      js "sylvester " ++ js "strtrim".

(** gauss *)
Definition lang_gauss : M language :=
  let KEYWORDS_keyword := js "bool break call callexe checkinterrupt clear clearg closeall cls comlog compile " ++
      js "continue create debug declare delete disable dlibrary dllcall do dos ed edit else " ++
      js "elseif enable end endfor endif endp endo errorlog errorlogat expr external fn " ++
      js "for format goto gosub graph if keyword let lib library line load loadarray loadexe " ++
      js "loadf loadk loadm loadp loads loadx local locate loopnextindex lprint lpwidth lshow " ++
      js "matrix msym ndpclex new open output outwidth plot plotsym pop prcsn print " ++
      js "printdos proc push retp return rndcon rndmod rndmult rndseed run save saveall screen " ++
      js "scroll setarray show sparse stop string struct system trace trap threadfor " ++
      js "threadendfor threadbegin threadjoin threadstat threadend until use while winprint " ++
      js "ne ge le gt lt and xor or not eq eqv" in
  let KEYWORDS_built_in := lang_gauss_built_in in
  let KEYWORDS_literal :=
      js "DB_AFTER_LAST_ROW DB_ALL_TABLES DB_BATCH_OPERATIONS DB_BEFORE_FIRST_ROW DB_BLOB DB_EVENT_NOTIFICATIONS " ++
      js "DB_FINISH_QUERY DB_HIGH_PRECISION DB_LAST_INSERT_ID DB_LOW_PRECISION_DOUBLE DB_LOW_PRECISION_INT32 " ++
      js "DB_LOW_PRECISION_INT64 DB_LOW_PRECISION_NUMBERS DB_MULTIPLE_RESULT_SETS DB_NAMED_PLACEHOLDERS " ++
      js "DB_POSITIONAL_PLACEHOLDERS DB_PREPARED_QUERIES DB_QUERY_SIZE DB_SIMPLE_LOCKING DB_SYSTEM_TABLES DB_TABLES " ++
      js "DB_TRANSACTIONS DB_UNICODE DB_VIEWS __STDIN __STDOUT __STDERR __FILE_DIR" in
  let KEYWORDS := KObj [(js "keyword", KEYWORDS_keyword); (js "built_in", KEYWORDS_built_in);
      (js "literal", KEYWORDS_literal)] in
  let* AT_COMMENT_MODE := COMMENT (js "@") (js "@") [] in
  let* m1 := new [Begin (js "\\\n"); Relevance 0] in
  let* m2 := new [ClassName (js "meta-string"); Begin (js "＂"); End_ (js "＂"); Illegal (js "\n")] in
  let* m3 := new [BeginKeywords (js "include"); End_ (js "$"); Keywords (KObj [(js "meta-keyword", js "include")]);
      Contains [CRef m2]] in
  let* PREPROCESSOR := new [ClassName (js "meta"); Begin (js "#"); End_ (js "$");
      Keywords (KObj [(js "meta-keyword", js "define definecs|10 undef ifdef ifndef iflight ifdllcall ifmac ifos2win ifunix else endif lineson linesoff " ++
      js "srcfile srcline")]); Contains [CRef m1; CRef m3; CRef C_LINE_COMMENT_MODE; CRef C_BLOCK_COMMENT_MODE;
      CRef AT_COMMENT_MODE]] in
  let* m4 := new [ClassName (js "type"); Begin UNDERSCORE_IDENT_RE; Relevance 0] in
  let* STRUCT_TYPE := new [Begin (js "\bstruct\s+"); End_ (js "\s"); Keywords (KStr (js "struct"));
      Contains [CRef m4]] in
  let* m5 := new [ClassName (js "literal"); Begin (js "\.\.\.")] in
  let* m6 := new [ClassName (js "params"); Begin (js "\("); End_ (js "\)"); ExcludeBegin true; ExcludeEnd true;
      EndsWithParent true; Relevance 0; Contains [CRef m5; CRef C_NUMBER_MODE; CRef C_BLOCK_COMMENT_MODE;
      CRef AT_COMMENT_MODE; CRef STRUCT_TYPE]] in
  let PARSE_PARAMS := [CRef m6] in
  let* FUNCTION_DEF := new [ClassName (js "title"); Begin UNDERSCORE_IDENT_RE; Relevance 0] in
  let DEFINITION (beginKeywords' end' : jsstr) (inherits : list prop) : M nat := let* mode :=
      new ([ClassName (js "function"); BeginKeywords beginKeywords'; End_ end'; ExcludeEnd true; Contains ([] ++
      PARSE_PARAMS)] ++ inherits) in let* _ := push mode (CRef FUNCTION_DEF) in let* _ :=
      push mode (CRef C_NUMBER_MODE) in let* _ := push mode (CRef C_BLOCK_COMMENT_MODE) in let* _ :=
      push mode (CRef AT_COMMENT_MODE) in ret mode in
  let* BUILT_IN_REF := new [ClassName (js "built_in"); Begin (js "\b(" ++
      join (js "|") (split_on 32 KEYWORDS_built_in) ++ js ")\b")] in
  let* STRING_REF := new [ClassName (js "string"); Begin (js "＂"); End_ (js "＂"); Contains [CRef BACKSLASH_ESCAPE];
      Relevance 0] in
  let* m7 := new [BeginKeywords KEYWORDS_keyword] in
  let* m8 := new [ClassName (js "built_in"); Begin UNDERSCORE_IDENT_RE; Relevance 0] in
  let* FUNCTION_REF := new [Begin (UNDERSCORE_IDENT_RE ++ js "\s*\("); ReturnBegin true; Keywords KEYWORDS;
      Relevance 0; Contains [CRef m7; CRef BUILT_IN_REF; CRef m8]] in
  let* FUNCTION_REF_PARAMS := new [Begin (js "\("); End_ (js "\)"); Relevance 0;
      Keywords (KObj [(js "built_in", KEYWORDS_built_in); (js "literal", KEYWORDS_literal)]);
      Contains [CRef C_NUMBER_MODE; CRef C_BLOCK_COMMENT_MODE; CRef AT_COMMENT_MODE; CRef BUILT_IN_REF;
      CRef FUNCTION_REF; CRef STRING_REF; CSelf]] in
  let* _ := push FUNCTION_REF (CRef FUNCTION_REF_PARAMS) in
  let* m9 := new [ClassName (js "keyword");
      Begin (js "\bexternal (matrix|string|array|sparse matrix|struct|proc|keyword|fn)")] in
  let* m10 := DEFINITION (js "proc keyword") (js ";") [] in
  let* m11 := DEFINITION (js "fn") (js "=") [] in
  let* m12 := new [BeginKeywords (js "for threadfor"); End_ (js ";"); Relevance 0;
      Contains [CRef C_BLOCK_COMMENT_MODE; CRef AT_COMMENT_MODE; CRef FUNCTION_REF_PARAMS]] in
  let* m13 := new [Variants [[Begin (UNDERSCORE_IDENT_RE ++ js "\." ++ UNDERSCORE_IDENT_RE)];
      [Begin (UNDERSCORE_IDENT_RE ++ js "\s*=")]]; Relevance 0] in
  lang (mkLP true [js "gss"] false) [Keywords KEYWORDS; Illegal (js "(\{[%#]|[%#]\}| <- )");
      Contains [CRef C_NUMBER_MODE; CRef C_LINE_COMMENT_MODE; CRef C_BLOCK_COMMENT_MODE; CRef AT_COMMENT_MODE;
      CRef STRING_REF; CRef PREPROCESSOR; CRef m9; CRef m10; CRef m11; CRef m12; CRef m13; CRef FUNCTION_REF;
      CRef STRUCT_TYPE]].

(** gcode *)
Definition lang_gcode : M language :=
  let GCODE_IDENT_RE := js "[A-Z_][A-Z0-9_.]*" in
  let GCODE_CLOSE_RE := js "\%" in
  let GCODE_KEYWORDS := js "IF DO WHILE ENDWHILE CALL ENDIF SUB ENDSUB GOTO REPEAT ENDREPEAT " ++
      js "EQ LT GT NE GE LE OR XOR" in
  let* GCODE_START := new [ClassName (js "meta"); Begin (js "([O])([0-9]+)")] in
  let* m1 := COMMENT (js "\(") (js "\)") [] in
  let* m2 := inherit_mode C_NUMBER_MODE [Begin (js "([-+]?([0-9]*\.?[0-9]+\.?))|" ++ C_NUMBER_RE)] in
  let* m3 := inherit_mode APOS_STRING_MODE [Illegal []] in
  let* m4 := inherit_mode QUOTE_STRING_MODE [Illegal []] in
  let* m5 := new [ClassName (js "name"); Begin (js "([G])([0-9]+\.?[0-9]?)")] in
  let* m6 := new [ClassName (js "name"); Begin (js "([M])([0-9]+\.?[0-9]?)")] in
  let* m7 := new [ClassName (js "attr"); Begin (js "(VC|VS|#)"); End_ (js "(\d+)")] in
  let* m8 := new [ClassName (js "attr"); Begin (js "(VZOFX|VZOFY|VZOFZ)")] in
  let* m9 := new [ClassName (js "built_in"); Begin (js "(ATAN|ABS|ACOS|ASIN|SIN|COS|EXP|FIX|FUP|ROUND|LN|TAN)(\[)");
      End_ (js "([-+]?([0-9]*\.?[0-9]+\.?))(\])")] in
  let* m10 := new [ClassName (js "symbol"); Variants [[Begin (js "N"); End_ (js "\d+"); Illegal (js "\W")]]] in
  let GCODE_CODE := [CRef C_LINE_COMMENT_MODE; CRef C_BLOCK_COMMENT_MODE; CRef m1; CRef m2; CRef m3; CRef m4;
      CRef m5; CRef m6; CRef m7; CRef m8; CRef m9; CRef m10] in
  let* m11 := new [ClassName (js "meta"); Begin GCODE_CLOSE_RE] in
  lang (mkLP true [js "nc"] false) [Lexemes GCODE_IDENT_RE; Keywords (KStr GCODE_KEYWORDS); Contains ([CRef m11;
      CRef GCODE_START] ++ GCODE_CODE)].

(** gherkin *)
Definition lang_gherkin : M language :=
  let* m1 := new [ClassName (js "symbol"); Begin (js "\*"); Relevance 0] in
  let* m2 := new [ClassName (js "meta"); Begin (js "@[^@\s]+")] in
  let* m3 := new [ClassName (js "string"); Begin (js "[^|]+")] in
  let* m4 := new [Begin (js "\|"); End_ (js "\|\w*$"); Contains [CRef m3]] in
  let* m5 := new [ClassName (js "variable"); Begin (js "<"); End_ (js ">")] in
  let* m6 := new [ClassName (js "string"); Begin (js "＂＂＂"); End_ (js "＂＂＂")] in
  lang (mkLP false [js "feature"] false) [Keywords (KStr (js "Feature Background Ability Business Need Scenario Scenarios Scenario Outline Scenario Template Examples " ++
      js "Given And Then But When")); Contains [CRef m1; CRef m2; CRef m4; CRef m5; CRef HASH_COMMENT_MODE; CRef m6;
      CRef QUOTE_STRING_MODE]].

(** glsl *)
Definition lang_glsl : M language :=
  let* m1 := new [ClassName (js "meta"); Begin (js "#"); End_ (js "$")] in
  lang plain_lang [Keywords (KObj [(js "keyword", js "break continue discard do else for if return while switch case default " ++
      js "attribute binding buffer ccw centroid centroid varying coherent column_major const cw " ++
      js "depth_any depth_greater depth_less depth_unchanged early_fragment_tests equal_spacing " ++
      js "flat fractional_even_spacing fractional_odd_spacing highp in index inout invariant " ++
      js "invocations isolines layout line_strip lines lines_adjacency local_size_x local_size_y " ++
      js "local_size_z location lowp max_vertices mediump noperspective offset origin_upper_left " ++
      js "out packed patch pixel_center_integer point_mode points precise precision quads r11f_g11f_b10f " ++
      js "r16 r16_snorm r16f r16i r16ui r32f r32i r32ui r8 r8_snorm r8i r8ui readonly restrict " ++
      js "rg16 rg16_snorm rg16f rg16i rg16ui rg32f rg32i rg32ui rg8 rg8_snorm rg8i rg8ui rgb10_a2 " ++
      js "rgb10_a2ui rgba16 rgba16_snorm rgba16f rgba16i rgba16ui rgba32f rgba32i rgba32ui rgba8 " ++
      js "rgba8_snorm rgba8i rgba8ui row_major sample shared smooth std140 std430 stream triangle_strip " ++
      js "triangles triangles_adjacency uniform varying vertices volatile writeonly");
      (js "type", js "atomic_uint bool bvec2 bvec3 bvec4 dmat2 dmat2x2 dmat2x3 dmat2x4 dmat3 dmat3x2 dmat3x3 " ++
      js "dmat3x4 dmat4 dmat4x2 dmat4x3 dmat4x4 double dvec2 dvec3 dvec4 float iimage1D iimage1DArray " ++
      js "iimage2D iimage2DArray iimage2DMS iimage2DMSArray iimage2DRect iimage3D iimageBuffer" ++
      js "iimageCube iimageCubeArray image1D image1DArray image2D image2DArray image2DMS image2DMSArray " ++
      js "image2DRect image3D imageBuffer imageCube imageCubeArray int isampler1D isampler1DArray " ++
      js "isampler2D isampler2DArray isampler2DMS isampler2DMSArray isampler2DRect isampler3D " ++
      js "isamplerBuffer isamplerCube isamplerCubeArray ivec2 ivec3 ivec4 mat2 mat2x2 mat2x3 " ++
      js "mat2x4 mat3 mat3x2 mat3x3 mat3x4 mat4 mat4x2 mat4x3 mat4x4 sampler1D sampler1DArray " ++
      js "sampler1DArrayShadow sampler1DShadow sampler2D sampler2DArray sampler2DArrayShadow " ++
      js "sampler2DMS sampler2DMSArray sampler2DRect sampler2DRectShadow sampler2DShadow sampler3D " ++
      js "samplerBuffer samplerCube samplerCubeArray samplerCubeArrayShadow samplerCubeShadow " ++
      js "image1D uimage1DArray uimage2D uimage2DArray uimage2DMS uimage2DMSArray uimage2DRect " ++
      js "uimage3D uimageBuffer uimageCube uimageCubeArray uint usampler1D usampler1DArray " ++
      js "usampler2D usampler2DArray usampler2DMS usampler2DMSArray usampler2DRect usampler3D " ++
      js "samplerBuffer usamplerCube usamplerCubeArray uvec2 uvec3 uvec4 vec2 vec3 vec4 void");
      (js "built_in", js "gl_MaxAtomicCounterBindings gl_MaxAtomicCounterBufferSize gl_MaxClipDistances gl_MaxClipPlanes " ++
      js "gl_MaxCombinedAtomicCounterBuffers gl_MaxCombinedAtomicCounters gl_MaxCombinedImageUniforms " ++
      js "gl_MaxCombinedImageUnitsAndFragmentOutputs gl_MaxCombinedTextureImageUnits gl_MaxComputeAtomicCounterBuffers " ++
      js "gl_MaxComputeAtomicCounters gl_MaxComputeImageUniforms gl_MaxComputeTextureImageUnits " ++
      js "gl_MaxComputeUniformComponents gl_MaxComputeWorkGroupCount gl_MaxComputeWorkGroupSize " ++
      js "gl_MaxDrawBuffers gl_MaxFragmentAtomicCounterBuffers gl_MaxFragmentAtomicCounters " ++
      js "gl_MaxFragmentImageUniforms gl_MaxFragmentInputComponents gl_MaxFragmentInputVectors " ++
      js "gl_MaxFragmentUniformComponents gl_MaxFragmentUniformVectors gl_MaxGeometryAtomicCounterBuffers " ++
      js "gl_MaxGeometryAtomicCounters gl_MaxGeometryImageUniforms gl_MaxGeometryInputComponents " ++
      js "gl_MaxGeometryOutputComponents gl_MaxGeometryOutputVertices gl_MaxGeometryTextureImageUnits " ++
      js "gl_MaxGeometryTotalOutputComponents gl_MaxGeometryUniformComponents gl_MaxGeometryVaryingComponents " ++
      js "gl_MaxImageSamples gl_MaxImageUnits gl_MaxLights gl_MaxPatchVertices gl_MaxProgramTexelOffset " ++
      js "gl_MaxTessControlAtomicCounterBuffers gl_MaxTessControlAtomicCounters gl_MaxTessControlImageUniforms " ++
      js "gl_MaxTessControlInputComponents gl_MaxTessControlOutputComponents gl_MaxTessControlTextureImageUnits " ++
      js "gl_MaxTessControlTotalOutputComponents gl_MaxTessControlUniformComponents " ++
      js "gl_MaxTessEvaluationAtomicCounterBuffers gl_MaxTessEvaluationAtomicCounters " ++
      js "gl_MaxTessEvaluationImageUniforms gl_MaxTessEvaluationInputComponents gl_MaxTessEvaluationOutputComponents " ++
      js "gl_MaxTessEvaluationTextureImageUnits gl_MaxTessEvaluationUniformComponents " ++
      js "gl_MaxTessGenLevel gl_MaxTessPatchComponents gl_MaxTextureCoords gl_MaxTextureImageUnits " ++
      js "gl_MaxTextureUnits gl_MaxVaryingComponents gl_MaxVaryingFloats gl_MaxVaryingVectors " ++
      js "gl_MaxVertexAtomicCounterBuffers gl_MaxVertexAtomicCounters gl_MaxVertexAttribs gl_MaxVertexImageUniforms " ++
      js "gl_MaxVertexOutputComponents gl_MaxVertexOutputVectors gl_MaxVertexTextureImageUnits " ++
      js "gl_MaxVertexUniformComponents gl_MaxVertexUniformVectors gl_MaxViewports gl_MinProgramTexelOffset " ++
      js "gl_BackColor gl_BackLightModelProduct gl_BackLightProduct gl_BackMaterial " ++
      js "gl_BackSecondaryColor gl_ClipDistance gl_ClipPlane gl_ClipVertex gl_Color " ++
      js "gl_DepthRange gl_EyePlaneQ gl_EyePlaneR gl_EyePlaneS gl_EyePlaneT gl_Fog gl_FogCoord " ++
      js "gl_FogFragCoord gl_FragColor gl_FragCoord gl_FragData gl_FragDepth gl_FrontColor " ++
      js "gl_FrontFacing gl_FrontLightModelProduct gl_FrontLightProduct gl_FrontMaterial " ++
      js "gl_FrontSecondaryColor gl_GlobalInvocationID gl_InstanceID gl_InvocationID gl_Layer gl_LightModel " ++
      js "gl_LightSource gl_LocalInvocationID gl_LocalInvocationIndex gl_ModelViewMatrix " ++
      js "gl_ModelViewMatrixInverse gl_ModelViewMatrixInverseTranspose gl_ModelViewMatrixTranspose " ++
      js "gl_ModelViewProjectionMatrix gl_ModelViewProjectionMatrixInverse gl_ModelViewProjectionMatrixInverseTranspose " ++
      js "gl_ModelViewProjectionMatrixTranspose gl_MultiTexCoord0 gl_MultiTexCoord1 gl_MultiTexCoord2 " ++
      js "gl_MultiTexCoord3 gl_MultiTexCoord4 gl_MultiTexCoord5 gl_MultiTexCoord6 gl_MultiTexCoord7 " ++
      js "gl_Normal gl_NormalMatrix gl_NormalScale gl_NumSamples gl_NumWorkGroups gl_ObjectPlaneQ " ++
      js "gl_ObjectPlaneR gl_ObjectPlaneS gl_ObjectPlaneT gl_PatchVerticesIn gl_Point gl_PointCoord " ++
      js "gl_PointSize gl_Position gl_PrimitiveID gl_PrimitiveIDIn gl_ProjectionMatrix gl_ProjectionMatrixInverse " ++
      js "gl_ProjectionMatrixInverseTranspose gl_ProjectionMatrixTranspose gl_SampleID gl_SampleMask " ++
      js "gl_SampleMaskIn gl_SamplePosition gl_SecondaryColor gl_TessCoord gl_TessLevelInner gl_TessLevelOuter " ++
      js "gl_TexCoord gl_TextureEnvColor gl_TextureMatrix gl_TextureMatrixInverse gl_TextureMatrixInverseTranspose " ++
      js "gl_TextureMatrixTranspose gl_Vertex gl_VertexID gl_ViewportIndex gl_WorkGroupID gl_WorkGroupSize gl_in " ++
      js "gl_out " ++
      js "EmitStreamVertex EmitVertex EndPrimitive EndStreamPrimitive abs acos acosh all any asin " ++
      js "asinh atan atanh atomicAdd atomicAnd atomicCompSwap atomicCounter atomicCounterDecrement " ++
      js "atomicCounterIncrement atomicExchange atomicMax atomicMin atomicOr atomicXor barrier " ++
      js "bitCount bitfieldExtract bitfieldInsert bitfieldReverse ceil clamp cos cosh cross " ++
      js "dFdx dFdy degrees determinant distance dot equal exp exp2 faceforward findLSB findMSB " ++
      js "floatBitsToInt floatBitsToUint floor fma fract frexp ftransform fwidth greaterThan " ++
      js "greaterThanEqual groupMemoryBarrier imageAtomicAdd imageAtomicAnd imageAtomicCompSwap " ++
      js "imageAtomicExchange imageAtomicMax imageAtomicMin imageAtomicOr imageAtomicXor imageLoad " ++
      js "imageSize imageStore imulExtended intBitsToFloat interpolateAtCentroid interpolateAtOffset " ++
      js "interpolateAtSample inverse inversesqrt isinf isnan ldexp length lessThan lessThanEqual log " ++
      js "log2 matrixCompMult max memoryBarrier memoryBarrierAtomicCounter memoryBarrierBuffer " ++
      js "memoryBarrierImage memoryBarrierShared min mix mod modf noise1 noise2 noise3 noise4 " ++
      js "normalize not notEqual outerProduct packDouble2x32 packHalf2x16 packSnorm2x16 packSnorm4x8 " ++
      js "packUnorm2x16 packUnorm4x8 pow radians reflect refract round roundEven shadow1D shadow1DLod " ++
      js "shadow1DProj shadow1DProjLod shadow2D shadow2DLod shadow2DProj shadow2DProjLod sign sin sinh " ++
      js "smoothstep sqrt step tan tanh texelFetch texelFetchOffset texture texture1D texture1DLod " ++
      js "texture1DProj texture1DProjLod texture2D texture2DLod texture2DProj texture2DProjLod " ++
      js "texture3D texture3DLod texture3DProj texture3DProjLod textureCube textureCubeLod " ++
      js "textureGather textureGatherOffset textureGatherOffsets textureGrad textureGradOffset " ++
      js "textureLod textureLodOffset textureOffset textureProj textureProjGrad textureProjGradOffset " ++
      js "textureProjLod textureProjLodOffset textureProjOffset textureQueryLevels textureQueryLod " ++
      js "textureSize transpose trunc uaddCarry uintBitsToFloat umulExtended unpackDouble2x32 " ++
      js "unpackHalf2x16 unpackSnorm2x16 unpackSnorm4x8 unpackUnorm2x16 unpackUnorm4x8 usubBorrow");
      (js "literal", js "true false")]); Illegal (js "＂"); Contains [CRef C_LINE_COMMENT_MODE;
      CRef C_BLOCK_COMMENT_MODE; CRef C_NUMBER_MODE; CRef m1]].

Definition lang_gml_built_in_1 : jsstr :=
  js "is_real is_string is_array is_undefined is_int32 is_int64 " ++
      js "is_ptr is_vec3 is_vec4 is_matrix is_bool typeof " ++
      js "variable_global_exists variable_global_get variable_global_set " ++
      js "variable_instance_exists variable_instance_get variable_instance_set " ++
      js "variable_instance_get_names array_length_1d array_length_2d " ++
      js "array_height_2d array_equals array_create array_copy random " ++
      js "random_range irandom irandom_range random_set_seed random_get_seed " ++
      js "randomize randomise choose abs round floor ceil sign frac sqrt sqr " ++
      js "exp ln log2 log10 sin cos tan arcsin arccos arctan arctan2 dsin dcos " ++
      js "dtan darcsin darccos darctan darctan2 degtorad radtodeg power logn " ++
      js "min max mean median clamp lerp dot_product dot_product_3d " ++
      js "dot_product_normalised dot_product_3d_normalised " ++
      js "dot_product_normalized dot_product_3d_normalized math_set_epsilon " ++
      js "math_get_epsilon angle_difference point_distance_3d point_distance " ++
      js "point_direction lengthdir_x lengthdir_y real string int64 ptr " ++
      js "string_format chr ansi_char ord string_length string_byte_length " ++
      js "string_pos string_copy string_char_at string_ord_at string_byte_at " ++
      js "string_set_byte_at string_delete string_insert string_lower " ++
      js "string_upper string_repeat string_letters string_digits " ++
      js "string_lettersdigits string_replace string_replace_all string_count " ++
      js "string_hash_to_newline clipboard_has_text clipboard_set_text " ++
      js "clipboard_get_text date_current_datetime date_create_datetime " ++
      js "date_valid_datetime date_inc_year date_inc_month date_inc_week " ++
      js "date_inc_day date_inc_hour date_inc_minute date_inc_second " ++
      js "date_get_year date_get_month date_get_week date_get_day " ++
      js "date_get_hour date_get_minute date_get_second date_get_weekday " ++
      js "date_get_day_of_year date_get_hour_of_year date_get_minute_of_year " ++
      js "date_get_second_of_year date_year_span date_month_span " ++
      js "date_week_span date_day_span date_hour_span date_minute_span " ++
      js "date_second_span date_compare_datetime date_compare_date " ++
      js "date_compare_time date_date_of date_time_of date_datetime_string " ++
      js "date_date_string date_time_string date_days_in_month " ++
      js "date_days_in_year date_leap_year date_is_today date_set_timezone " ++
      js "date_get_timezone game_set_speed game_get_speed motion_set " ++
      js "motion_add place_free place_empty place_meeting place_snapped " ++
      js "move_random move_snap move_towards_point move_contact_solid " ++
      js "move_contact_all move_outside_solid move_outside_all " ++
      js "move_bounce_solid move_bounce_all move_wrap distance_to_point " ++
      js "distance_to_object position_empty position_meeting path_start " ++
      js "path_end mp_linear_step mp_potential_step mp_linear_step_object " ++
      js "mp_potential_step_object mp_potential_settings mp_linear_path " ++
      js "mp_potential_path mp_linear_path_object mp_potential_path_object " ++
      js "mp_grid_create mp_grid_destroy mp_grid_clear_all mp_grid_clear_cell " ++
      js "mp_grid_clear_rectangle mp_grid_add_cell mp_grid_get_cell " ++
      js "mp_grid_add_rectangle mp_grid_add_instances mp_grid_path " ++
      js "mp_grid_draw mp_grid_to_ds_grid collision_point collision_rectangle " ++
      js "collision_circle collision_ellipse collision_line " ++
      js "collision_point_list collision_rectangle_list collision_circle_list " ++
      js "collision_ellipse_list collision_line_list instance_position_list " ++
      js "instance_place_list point_in_rectangle " ++
      js "point_in_triangle point_in_circle rectangle_in_rectangle " ++
      js "rectangle_in_triangle rectangle_in_circle instance_find " ++
      js "instance_exists instance_number instance_position instance_nearest " ++
      js "instance_furthest instance_place instance_create_depth " ++
      js "instance_create_layer instance_copy instance_change instance_destroy " ++
      js "position_destroy position_change instance_id_get " ++
      js "instance_deactivate_all instance_deactivate_object " ++
      js "instance_deactivate_region instance_activate_all " ++
      js "instance_activate_object instance_activate_region room_goto " ++
      js "room_goto_previous room_goto_next room_previous room_next " ++
      js "room_restart game_end game_restart game_load game_save " ++
      js "game_save_buffer game_load_buffer event_perform event_user " ++
      js "event_perform_object event_inherited show_debug_message " ++
      js "show_debug_overlay debug_event debug_get_callstack alarm_get " ++
      js "alarm_set font_texture_page_size keyboard_set_map keyboard_get_map " ++
      js "keyboard_unset_map keyboard_check keyboard_check_pressed " ++
      js "keyboard_check_released keyboard_check_direct keyboard_get_numlock " ++
      js "keyboard_set_numlock keyboard_key_press keyboard_key_release " ++
      js "keyboard_clear io_clear mouse_check_button " ++
      js "mouse_check_button_pressed mouse_check_button_released " ++
      js "mouse_wheel_up mouse_wheel_down mouse_clear draw_self draw_sprite " ++
      js "draw_sprite_pos draw_sprite_ext draw_sprite_stretched " ++
      js "draw_sprite_stretched_ext draw_sprite_tiled draw_sprite_tiled_ext " ++
      js "draw_sprite_part draw_sprite_part_ext draw_sprite_general draw_clear " ++
      js "draw_clear_alpha draw_point draw_line draw_line_width draw_rectangle " ++
      js "draw_roundrect draw_roundrect_ext draw_triangle draw_circle " ++
      js "draw_ellipse draw_set_circle_precision draw_arrow draw_button " ++
      js "draw_path draw_healthbar draw_getpixel draw_getpixel_ext " ++
      js "draw_set_colour draw_set_color draw_set_alpha draw_get_colour " ++
      js "draw_get_color draw_get_alpha merge_colour make_colour_rgb " ++
      js "make_colour_hsv colour_get_red colour_get_green colour_get_blue " ++
      js "colour_get_hue colour_get_saturation colour_get_value merge_color " ++
      js "make_color_rgb make_color_hsv color_get_red color_get_green " ++
      js "color_get_blue color_get_hue color_get_saturation color_get_value " ++
      js "merge_color screen_save screen_save_part draw_set_font " ++
      js "draw_set_halign draw_set_valign draw_text draw_text_ext string_width " ++
      js "string_height string_width_ext string_height_ext " ++
      js "draw_text_transformed draw_text_ext_transformed draw_text_colour " ++
      js "draw_text_ext_colour draw_text_transformed_colour " ++
      js "draw_text_ext_transformed_colour draw_text_color draw_text_ext_color " ++
      js "draw_text_transformed_color draw_text_ext_transformed_color " ++
      js "draw_point_colour draw_line_colour draw_line_width_colour " ++
      js "draw_rectangle_colour draw_roundrect_colour " ++
      js "draw_roundrect_colour_ext draw_triangle_colour draw_circle_colour " ++
      js "draw_ellipse_colour draw_point_color draw_line_color " ++
      js "draw_line_width_color draw_rectangle_color draw_roundrect_color " ++
      js "draw_roundrect_color_ext draw_triangle_color draw_circle_color " ++
      js "draw_ellipse_color draw_primitive_begin draw_vertex " ++
      js "draw_vertex_colour draw_vertex_color draw_primitive_end " ++
      js "sprite_get_uvs font_get_uvs sprite_get_texture font_get_texture " ++
      js "texture_get_width texture_get_height texture_get_uvs " ++
      js "draw_primitive_begin_texture draw_vertex_texture " ++
      js "draw_vertex_texture_colour draw_vertex_texture_color " ++
      js "texture_global_scale surface_create surface_create_ext " ++
      js "surface_resize surface_free surface_exists surface_get_width " ++
      js "surface_get_height surface_get_texture surface_set_target " ++
      js "surface_set_target_ext surface_reset_target surface_depth_disable " ++
      js "surface_get_depth_disable draw_surface draw_surface_stretched " ++
      js "draw_surface_tiled draw_surface_part draw_surface_ext " ++
      js "draw_surface_stretched_ext draw_surface_tiled_ext " ++
      js "draw_surface_part_ext draw_surface_general surface_getpixel " ++
      js "surface_getpixel_ext surface_save surface_save_part surface_copy " ++
      js "surface_copy_part application_surface_draw_enable " ++
      js "application_get_position application_surface_enable " ++
      js "application_surface_is_enabled display_get_width display_get_height " ++
      js "display_get_orientation display_get_gui_width display_get_gui_height " ++
      js "display_reset display_mouse_get_x display_mouse_get_y " ++
      js "display_mouse_set display_set_ui_visibility " ++
      js "window_set_fullscreen window_get_fullscreen " ++
      js "window_set_caption window_set_min_width window_set_max_width " ++
      js "window_set_min_height window_set_max_height window_get_visible_rects " ++
      js "window_get_caption window_set_cursor window_get_cursor " ++
      js "window_set_colour window_get_colour window_set_color " ++
      js "window_get_color window_set_position window_set_size " ++
      js "window_set_rectangle window_center window_get_x window_get_y " ++
      js "window_get_width window_get_height window_mouse_get_x " ++
      js "window_mouse_get_y window_mouse_set window_view_mouse_get_x " ++
      js "window_view_mouse_get_y window_views_mouse_get_x " ++
      js "window_views_mouse_get_y audio_listener_position " ++
      js "audio_listener_velocity audio_listener_orientation " ++
      js "audio_emitter_position audio_emitter_create audio_emitter_free " ++
      js "audio_emitter_exists audio_emitter_pitch audio_emitter_velocity " ++
      js "audio_emitter_falloff audio_emitter_gain audio_play_sound " ++
      js "audio_play_sound_on audio_play_sound_at audio_stop_sound " ++
      js "audio_resume_music audio_music_is_playing audio_resume_sound " ++
      js "audio_pause_sound audio_pause_music audio_channel_num " ++
      js "audio_sound_length audio_get_type audio_falloff_set_model " ++
      js "audio_play_music audio_stop_music audio_master_gain audio_music_gain " ++
      js "audio_sound_gain audio_sound_pitch audio_stop_all audio_resume_all " ++
      js "audio_pause_all audio_is_playing audio_is_paused audio_exists ".

Definition lang_gml_built_in_2 : jsstr :=
  js "audio_sound_set_track_position audio_sound_get_track_position " ++
      js "audio_emitter_get_gain audio_emitter_get_pitch audio_emitter_get_x " ++
      js "audio_emitter_get_y audio_emitter_get_z audio_emitter_get_vx " ++
      js "audio_emitter_get_vy audio_emitter_get_vz " ++
      js "audio_listener_set_position audio_listener_set_velocity " ++
      js "audio_listener_set_orientation audio_listener_get_data " ++
      js "audio_set_master_gain audio_get_master_gain audio_sound_get_gain " ++
      js "audio_sound_get_pitch audio_get_name audio_sound_set_track_position " ++
      js "audio_sound_get_track_position audio_create_stream " ++
      js "audio_destroy_stream audio_create_sync_group " ++
      js "audio_destroy_sync_group audio_play_in_sync_group " ++
      js "audio_start_sync_group audio_stop_sync_group audio_pause_sync_group " ++
      js "audio_resume_sync_group audio_sync_group_get_track_pos " ++
      js "audio_sync_group_debug audio_sync_group_is_playing audio_debug " ++
      js "audio_group_load audio_group_unload audio_group_is_loaded " ++
      js "audio_group_load_progress audio_group_name audio_group_stop_all " ++
      js "audio_group_set_gain audio_create_buffer_sound " ++
      js "audio_free_buffer_sound audio_create_play_queue " ++
      js "audio_free_play_queue audio_queue_sound audio_get_recorder_count " ++
      js "audio_get_recorder_info audio_start_recording audio_stop_recording " ++
      js "audio_sound_get_listener_mask audio_emitter_get_listener_mask " ++
      js "audio_get_listener_mask audio_sound_set_listener_mask " ++
      js "audio_emitter_set_listener_mask audio_set_listener_mask " ++
      js "audio_get_listener_count audio_get_listener_info audio_system " ++
      js "show_message show_message_async clickable_add clickable_add_ext " ++
      js "clickable_change clickable_change_ext clickable_delete " ++
      js "clickable_exists clickable_set_style show_question " ++
      js "show_question_async get_integer get_string get_integer_async " ++
      js "get_string_async get_login_async get_open_filename get_save_filename " ++
      js "get_open_filename_ext get_save_filename_ext show_error " ++
      js "highscore_clear highscore_add highscore_value highscore_name " ++
      js "draw_highscore sprite_exists sprite_get_name sprite_get_number " ++
      js "sprite_get_width sprite_get_height sprite_get_xoffset " ++
      js "sprite_get_yoffset sprite_get_bbox_left sprite_get_bbox_right " ++
      js "sprite_get_bbox_top sprite_get_bbox_bottom sprite_save " ++
      js "sprite_save_strip sprite_set_cache_size sprite_set_cache_size_ext " ++
      js "sprite_get_tpe sprite_prefetch sprite_prefetch_multi sprite_flush " ++
      js "sprite_flush_multi sprite_set_speed sprite_get_speed_type " ++
      js "sprite_get_speed font_exists font_get_name font_get_fontname " ++
      js "font_get_bold font_get_italic font_get_first font_get_last " ++
      js "font_get_size font_set_cache_size path_exists path_get_name " ++
      js "path_get_length path_get_time path_get_kind path_get_closed " ++
      js "path_get_precision path_get_number path_get_point_x path_get_point_y " ++
      js "path_get_point_speed path_get_x path_get_y path_get_speed " ++
      js "script_exists script_get_name timeline_add timeline_delete " ++
      js "timeline_clear timeline_exists timeline_get_name " ++
      js "timeline_moment_clear timeline_moment_add_script timeline_size " ++
      js "timeline_max_moment object_exists object_get_name object_get_sprite " ++
      js "object_get_solid object_get_visible object_get_persistent " ++
      js "object_get_mask object_get_parent object_get_physics " ++
      js "object_is_ancestor room_exists room_get_name sprite_set_offset " ++
      js "sprite_duplicate sprite_assign sprite_merge sprite_add " ++
      js "sprite_replace sprite_create_from_surface sprite_add_from_surface " ++
      js "sprite_delete sprite_set_alpha_from_sprite sprite_collision_mask " ++
      js "font_add_enable_aa font_add_get_enable_aa font_add font_add_sprite " ++
      js "font_add_sprite_ext font_replace font_replace_sprite " ++
      js "font_replace_sprite_ext font_delete path_set_kind path_set_closed " ++
      js "path_set_precision path_add path_assign path_duplicate path_append " ++
      js "path_delete path_add_point path_insert_point path_change_point " ++
      js "path_delete_point path_clear_points path_reverse path_mirror " ++
      js "path_flip path_rotate path_rescale path_shift script_execute " ++
      js "object_set_sprite object_set_solid object_set_visible " ++
      js "object_set_persistent object_set_mask room_set_width room_set_height " ++
      js "room_set_persistent room_set_background_colour " ++
      js "room_set_background_color room_set_view room_set_viewport " ++
      js "room_get_viewport room_set_view_enabled room_add room_duplicate " ++
      js "room_assign room_instance_add room_instance_clear room_get_camera " ++
      js "room_set_camera asset_get_index asset_get_type " ++
      js "file_text_open_from_string file_text_open_read file_text_open_write " ++
      js "file_text_open_append file_text_close file_text_write_string " ++
      js "file_text_write_real file_text_writeln file_text_read_string " ++
      js "file_text_read_real file_text_readln file_text_eof file_text_eoln " ++
      js "file_exists file_delete file_rename file_copy directory_exists " ++
      js "directory_create directory_destroy file_find_first file_find_next " ++
      js "file_find_close file_attributes filename_name filename_path " ++
      js "filename_dir filename_drive filename_ext filename_change_ext " ++
      js "file_bin_open file_bin_rewrite file_bin_close file_bin_position " ++
      js "file_bin_size file_bin_seek file_bin_write_byte file_bin_read_byte " ++
      js "parameter_count parameter_string environment_get_variable " ++
      js "ini_open_from_string ini_open ini_close ini_read_string " ++
      js "ini_read_real ini_write_string ini_write_real ini_key_exists " ++
      js "ini_section_exists ini_key_delete ini_section_delete " ++
      js "ds_set_precision ds_exists ds_stack_create ds_stack_destroy " ++
      js "ds_stack_clear ds_stack_copy ds_stack_size ds_stack_empty " ++
      js "ds_stack_push ds_stack_pop ds_stack_top ds_stack_write ds_stack_read " ++
      js "ds_queue_create ds_queue_destroy ds_queue_clear ds_queue_copy " ++
      js "ds_queue_size ds_queue_empty ds_queue_enqueue ds_queue_dequeue " ++
      js "ds_queue_head ds_queue_tail ds_queue_write ds_queue_read " ++
      js "ds_list_create ds_list_destroy ds_list_clear ds_list_copy " ++
      js "ds_list_size ds_list_empty ds_list_add ds_list_insert " ++
      js "ds_list_replace ds_list_delete ds_list_find_index ds_list_find_value " ++
      js "ds_list_mark_as_list ds_list_mark_as_map ds_list_sort " ++
      js "ds_list_shuffle ds_list_write ds_list_read ds_list_set ds_map_create " ++
      js "ds_map_destroy ds_map_clear ds_map_copy ds_map_size ds_map_empty " ++
      js "ds_map_add ds_map_add_list ds_map_add_map ds_map_replace " ++
      js "ds_map_replace_map ds_map_replace_list ds_map_delete ds_map_exists " ++
      js "ds_map_find_value ds_map_find_previous ds_map_find_next " ++
      js "ds_map_find_first ds_map_find_last ds_map_write ds_map_read " ++
      js "ds_map_secure_save ds_map_secure_load ds_map_secure_load_buffer " ++
      js "ds_map_secure_save_buffer ds_map_set ds_priority_create " ++
      js "ds_priority_destroy ds_priority_clear ds_priority_copy " ++
      js "ds_priority_size ds_priority_empty ds_priority_add " ++
      js "ds_priority_change_priority ds_priority_find_priority " ++
      js "ds_priority_delete_value ds_priority_delete_min ds_priority_find_min " ++
      js "ds_priority_delete_max ds_priority_find_max ds_priority_write " ++
      js "ds_priority_read ds_grid_create ds_grid_destroy ds_grid_copy " ++
      js "ds_grid_resize ds_grid_width ds_grid_height ds_grid_clear " ++
      js "ds_grid_set ds_grid_add ds_grid_multiply ds_grid_set_region " ++
      js "ds_grid_add_region ds_grid_multiply_region ds_grid_set_disk " ++
      js "ds_grid_add_disk ds_grid_multiply_disk ds_grid_set_grid_region " ++
      js "ds_grid_add_grid_region ds_grid_multiply_grid_region ds_grid_get " ++
      js "ds_grid_get_sum ds_grid_get_max ds_grid_get_min ds_grid_get_mean " ++
      js "ds_grid_get_disk_sum ds_grid_get_disk_min ds_grid_get_disk_max " ++
      js "ds_grid_get_disk_mean ds_grid_value_exists ds_grid_value_x " ++
      js "ds_grid_value_y ds_grid_value_disk_exists ds_grid_value_disk_x " ++
      js "ds_grid_value_disk_y ds_grid_shuffle ds_grid_write ds_grid_read " ++
      js "ds_grid_sort ds_grid_set ds_grid_get effect_create_below " ++
      js "effect_create_above effect_clear part_type_create part_type_destroy " ++
      js "part_type_exists part_type_clear part_type_shape part_type_sprite " ++
      js "part_type_size part_type_scale part_type_orientation part_type_life " ++
      js "part_type_step part_type_death part_type_speed part_type_direction " ++
      js "part_type_gravity part_type_colour1 part_type_colour2 " ++
      js "part_type_colour3 part_type_colour_mix part_type_colour_rgb " ++
      js "part_type_colour_hsv part_type_color1 part_type_color2 " ++
      js "part_type_color3 part_type_color_mix part_type_color_rgb " ++
      js "part_type_color_hsv part_type_alpha1 part_type_alpha2 " ++
      js "part_type_alpha3 part_type_blend part_system_create " ++
      js "part_system_create_layer part_system_destroy part_system_exists " ++
      js "part_system_clear part_system_draw_order part_system_depth " ++
      js "part_system_position part_system_automatic_update " ++
      js "part_system_automatic_draw part_system_update part_system_drawit " ++
      js "part_system_get_layer part_system_layer part_particles_create " ++
      js "part_particles_create_colour part_particles_create_color " ++
      js "part_particles_clear part_particles_count part_emitter_create " ++
      js "part_emitter_destroy part_emitter_destroy_all part_emitter_exists " ++
      js "part_emitter_clear part_emitter_region part_emitter_burst " ++
      js "part_emitter_stream external_call external_define external_free " ++
      js "window_handle window_device matrix_get matrix_set " ++
      js "matrix_build_identity matrix_build matrix_build_lookat " ++
      js "matrix_build_projection_ortho matrix_build_projection_perspective ".

Definition lang_gml_built_in_3 : jsstr :=
  js "matrix_build_projection_perspective_fov matrix_multiply " ++
      js "matrix_transform_vertex matrix_stack_push matrix_stack_pop " ++
      js "matrix_stack_multiply matrix_stack_set matrix_stack_clear " ++
      js "matrix_stack_top matrix_stack_is_empty browser_input_capture " ++
      js "os_get_config os_get_info os_get_language os_get_region " ++
      js "os_lock_orientation display_get_dpi_x display_get_dpi_y " ++
      js "display_set_gui_size display_set_gui_maximise " ++
      js "display_set_gui_maximize device_mouse_dbclick_enable " ++
      js "display_set_timing_method display_get_timing_method " ++
      js "display_set_sleep_margin display_get_sleep_margin virtual_key_add " ++
      js "virtual_key_hide virtual_key_delete virtual_key_show " ++
      js "draw_enable_drawevent draw_enable_swf_aa draw_set_swf_aa_level " ++
      js "draw_get_swf_aa_level draw_texture_flush draw_flush " ++
      js "gpu_set_blendenable gpu_set_ztestenable gpu_set_zfunc " ++
      js "gpu_set_zwriteenable gpu_set_lightingenable gpu_set_fog " ++
      js "gpu_set_cullmode gpu_set_blendmode gpu_set_blendmode_ext " ++
      js "gpu_set_blendmode_ext_sepalpha gpu_set_colorwriteenable " ++
      js "gpu_set_colourwriteenable gpu_set_alphatestenable " ++
      js "gpu_set_alphatestref gpu_set_alphatestfunc gpu_set_texfilter " ++
      js "gpu_set_texfilter_ext gpu_set_texrepeat gpu_set_texrepeat_ext " ++
      js "gpu_set_tex_filter gpu_set_tex_filter_ext gpu_set_tex_repeat " ++
      js "gpu_set_tex_repeat_ext gpu_set_tex_mip_filter " ++
      js "gpu_set_tex_mip_filter_ext gpu_set_tex_mip_bias " ++
      js "gpu_set_tex_mip_bias_ext gpu_set_tex_min_mip gpu_set_tex_min_mip_ext " ++
      js "gpu_set_tex_max_mip gpu_set_tex_max_mip_ext gpu_set_tex_max_aniso " ++
      js "gpu_set_tex_max_aniso_ext gpu_set_tex_mip_enable " ++
      js "gpu_set_tex_mip_enable_ext gpu_get_blendenable gpu_get_ztestenable " ++
      js "gpu_get_zfunc gpu_get_zwriteenable gpu_get_lightingenable " ++
      js "gpu_get_fog gpu_get_cullmode gpu_get_blendmode gpu_get_blendmode_ext " ++
      js "gpu_get_blendmode_ext_sepalpha gpu_get_blendmode_src " ++
      js "gpu_get_blendmode_dest gpu_get_blendmode_srcalpha " ++
      js "gpu_get_blendmode_destalpha gpu_get_colorwriteenable " ++
      js "gpu_get_colourwriteenable gpu_get_alphatestenable " ++
      js "gpu_get_alphatestref gpu_get_alphatestfunc gpu_get_texfilter " ++
      js "gpu_get_texfilter_ext gpu_get_texrepeat gpu_get_texrepeat_ext " ++
      js "gpu_get_tex_filter gpu_get_tex_filter_ext gpu_get_tex_repeat " ++
      js "gpu_get_tex_repeat_ext gpu_get_tex_mip_filter " ++
      js "gpu_get_tex_mip_filter_ext gpu_get_tex_mip_bias " ++
      js "gpu_get_tex_mip_bias_ext gpu_get_tex_min_mip gpu_get_tex_min_mip_ext " ++
      js "gpu_get_tex_max_mip gpu_get_tex_max_mip_ext gpu_get_tex_max_aniso " ++
      js "gpu_get_tex_max_aniso_ext gpu_get_tex_mip_enable " ++
      js "gpu_get_tex_mip_enable_ext gpu_push_state gpu_pop_state " ++
      js "gpu_get_state gpu_set_state draw_light_define_ambient " ++
      js "draw_light_define_direction draw_light_define_point " ++
      js "draw_light_enable draw_set_lighting draw_light_get_ambient " ++
      js "draw_light_get draw_get_lighting shop_leave_rating url_get_domain " ++
      js "url_open url_open_ext url_open_full get_timer achievement_login " ++
      js "achievement_logout achievement_post achievement_increment " ++
      js "achievement_post_score achievement_available " ++
      js "achievement_show_achievements achievement_show_leaderboards " ++
      js "achievement_load_friends achievement_load_leaderboard " ++
      js "achievement_send_challenge achievement_load_progress " ++
      js "achievement_reset achievement_login_status achievement_get_pic " ++
      js "achievement_show_challenge_notifications achievement_get_challenges " ++
      js "achievement_event achievement_show achievement_get_info " ++
      js "cloud_file_save cloud_string_save cloud_synchronise ads_enable " ++
      js "ads_disable ads_setup ads_engagement_launch ads_engagement_available " ++
      js "ads_engagement_active ads_event ads_event_preload " ++
      js "ads_set_reward_callback ads_get_display_height ads_get_display_width " ++
      js "ads_move ads_interstitial_available ads_interstitial_display " ++
      js "device_get_tilt_x device_get_tilt_y device_get_tilt_z " ++
      js "device_is_keypad_open device_mouse_check_button " ++
      js "device_mouse_check_button_pressed device_mouse_check_button_released " ++
      js "device_mouse_x device_mouse_y device_mouse_raw_x device_mouse_raw_y " ++
      js "device_mouse_x_to_gui device_mouse_y_to_gui iap_activate iap_status " ++
      js "iap_enumerate_products iap_restore_all iap_acquire iap_consume " ++
      js "iap_product_details iap_purchase_details facebook_init " ++
      js "facebook_login facebook_status facebook_graph_request " ++
      js "facebook_dialog facebook_logout facebook_launch_offerwall " ++
      js "facebook_post_message facebook_send_invite facebook_user_id " ++
      js "facebook_accesstoken facebook_check_permission " ++
      js "facebook_request_read_permissions " ++
      js "facebook_request_publish_permissions gamepad_is_supported " ++
      js "gamepad_get_device_count gamepad_is_connected " ++
      js "gamepad_get_description gamepad_get_button_threshold " ++
      js "gamepad_set_button_threshold gamepad_get_axis_deadzone " ++
      js "gamepad_set_axis_deadzone gamepad_button_count gamepad_button_check " ++
      js "gamepad_button_check_pressed gamepad_button_check_released " ++
      js "gamepad_button_value gamepad_axis_count gamepad_axis_value " ++
      js "gamepad_set_vibration gamepad_set_colour gamepad_set_color " ++
      js "os_is_paused window_has_focus code_is_compiled http_get " ++
      js "http_get_file http_post_string http_request json_encode json_decode " ++
      js "zip_unzip load_csv base64_encode base64_decode md5_string_unicode " ++
      js "md5_string_utf8 md5_file os_is_network_connected sha1_string_unicode " ++
      js "sha1_string_utf8 sha1_file os_powersave_enable analytics_event " ++
      js "analytics_event_ext win8_livetile_tile_notification " ++
      js "win8_livetile_tile_clear win8_livetile_badge_notification " ++
      js "win8_livetile_badge_clear win8_livetile_queue_enable " ++
      js "win8_secondarytile_pin win8_secondarytile_badge_notification " ++
      js "win8_secondarytile_delete win8_livetile_notification_begin " ++
      js "win8_livetile_notification_secondary_begin " ++
      js "win8_livetile_notification_expiry win8_livetile_notification_tag " ++
      js "win8_livetile_notification_text_add " ++
      js "win8_livetile_notification_image_add win8_livetile_notification_end " ++
      js "win8_appbar_enable win8_appbar_add_element " ++
      js "win8_appbar_remove_element win8_settingscharm_add_entry " ++
      js "win8_settingscharm_add_html_entry win8_settingscharm_add_xaml_entry " ++
      js "win8_settingscharm_set_xaml_property " ++
      js "win8_settingscharm_get_xaml_property win8_settingscharm_remove_entry " ++
      js "win8_share_image win8_share_screenshot win8_share_file " ++
      js "win8_share_url win8_share_text win8_search_enable " ++
      js "win8_search_disable win8_search_add_suggestions " ++
      js "win8_device_touchscreen_available win8_license_initialize_sandbox " ++
      js "win8_license_trial_version winphone_license_trial_version " ++
      js "winphone_tile_title winphone_tile_count winphone_tile_back_title " ++
      js "winphone_tile_back_content winphone_tile_back_content_wide " ++
      js "winphone_tile_front_image winphone_tile_front_image_small " ++
      js "winphone_tile_front_image_wide winphone_tile_back_image " ++
      js "winphone_tile_back_image_wide winphone_tile_background_colour " ++
      js "winphone_tile_background_color winphone_tile_icon_image " ++
      js "winphone_tile_small_icon_image winphone_tile_wide_content " ++
      js "winphone_tile_cycle_images winphone_tile_small_background_image " ++
      js "physics_world_create physics_world_gravity " ++
      js "physics_world_update_speed physics_world_update_iterations " ++
      js "physics_world_draw_debug physics_pause_enable physics_fixture_create " ++
      js "physics_fixture_set_kinematic physics_fixture_set_density " ++
      js "physics_fixture_set_awake physics_fixture_set_restitution " ++
      js "physics_fixture_set_friction physics_fixture_set_collision_group " ++
      js "physics_fixture_set_sensor physics_fixture_set_linear_damping " ++
      js "physics_fixture_set_angular_damping physics_fixture_set_circle_shape " ++
      js "physics_fixture_set_box_shape physics_fixture_set_edge_shape " ++
      js "physics_fixture_set_polygon_shape physics_fixture_set_chain_shape " ++
      js "physics_fixture_add_point physics_fixture_bind " ++
      js "physics_fixture_bind_ext physics_fixture_delete physics_apply_force " ++
      js "physics_apply_impulse physics_apply_angular_impulse " ++
      js "physics_apply_local_force physics_apply_local_impulse " ++
      js "physics_apply_torque physics_mass_properties physics_draw_debug " ++
      js "physics_test_overlap physics_remove_fixture physics_set_friction " ++
      js "physics_set_density physics_set_restitution physics_get_friction " ++
      js "physics_get_density physics_get_restitution " ++
      js "physics_joint_distance_create physics_joint_rope_create " ++
      js "physics_joint_revolute_create physics_joint_prismatic_create " ++
      js "physics_joint_pulley_create physics_joint_wheel_create " ++
      js "physics_joint_weld_create physics_joint_friction_create " ++
      js "physics_joint_gear_create physics_joint_enable_motor " ++
      js "physics_joint_get_value physics_joint_set_value physics_joint_delete " ++
      js "physics_particle_create physics_particle_delete " ++
      js "physics_particle_delete_region_circle " ++ js "physics_particle_delete_region_box " ++
      js "physics_particle_delete_region_poly physics_particle_set_flags ".

Definition lang_gml_built_in_4 : jsstr :=
  js "physics_particle_set_category_flags physics_particle_draw " ++
      js "physics_particle_draw_ext physics_particle_count " ++
      js "physics_particle_get_data physics_particle_get_data_particle " ++
      js "physics_particle_group_begin physics_particle_group_circle " ++
      js "physics_particle_group_box physics_particle_group_polygon " ++
      js "physics_particle_group_add_point physics_particle_group_end " ++
      js "physics_particle_group_join physics_particle_group_delete " ++
      js "physics_particle_group_count physics_particle_group_get_data " ++
      js "physics_particle_group_get_mass physics_particle_group_get_inertia " ++
      js "physics_particle_group_get_centre_x " ++
      js "physics_particle_group_get_centre_y physics_particle_group_get_vel_x " ++
      js "physics_particle_group_get_vel_y physics_particle_group_get_ang_vel " ++
      js "physics_particle_group_get_x physics_particle_group_get_y " ++
      js "physics_particle_group_get_angle physics_particle_set_group_flags " ++
      js "physics_particle_get_group_flags physics_particle_get_max_count " ++
      js "physics_particle_get_radius physics_particle_get_density " ++
      js "physics_particle_get_damping physics_particle_get_gravity_scale " ++
      js "physics_particle_set_max_count physics_particle_set_radius " ++
      js "physics_particle_set_density physics_particle_set_damping " ++
      js "physics_particle_set_gravity_scale network_create_socket " ++
      js "network_create_socket_ext network_create_server " ++
      js "network_create_server_raw network_connect network_connect_raw " ++
      js "network_send_packet network_send_raw network_send_broadcast " ++
      js "network_send_udp network_send_udp_raw network_set_timeout " ++
      js "network_set_config network_resolve network_destroy buffer_create " ++
      js "buffer_write buffer_read buffer_seek buffer_get_surface " ++
      js "buffer_set_surface buffer_delete buffer_exists buffer_get_type " ++
      js "buffer_get_alignment buffer_poke buffer_peek buffer_save " ++
      js "buffer_save_ext buffer_load buffer_load_ext buffer_load_partial " ++
      js "buffer_copy buffer_fill buffer_get_size buffer_tell buffer_resize " ++
      js "buffer_md5 buffer_sha1 buffer_base64_encode buffer_base64_decode " ++
      js "buffer_base64_decode_ext buffer_sizeof buffer_get_address " ++
      js "buffer_create_from_vertex_buffer " ++
      js "buffer_create_from_vertex_buffer_ext buffer_copy_from_vertex_buffer " ++
      js "buffer_async_group_begin buffer_async_group_option " ++
      js "buffer_async_group_end buffer_load_async buffer_save_async " ++
      js "gml_release_mode gml_pragma steam_activate_overlay " ++
      js "steam_is_overlay_enabled steam_is_overlay_activated " ++
      js "steam_get_persona_name steam_initialised " ++
      js "steam_is_cloud_enabled_for_app steam_is_cloud_enabled_for_account " ++
      js "steam_file_persisted steam_get_quota_total steam_get_quota_free " ++
      js "steam_file_write steam_file_write_file steam_file_read " ++
      js "steam_file_delete steam_file_exists steam_file_size steam_file_share " ++
      js "steam_is_screenshot_requested steam_send_screenshot " ++
      js "steam_is_user_logged_on steam_get_user_steam_id steam_user_owns_dlc " ++
      js "steam_user_installed_dlc steam_set_achievement steam_get_achievement " ++
      js "steam_clear_achievement steam_set_stat_int steam_set_stat_float " ++
      js "steam_set_stat_avg_rate steam_get_stat_int steam_get_stat_float " ++
      js "steam_get_stat_avg_rate steam_reset_all_stats " ++
      js "steam_reset_all_stats_achievements steam_stats_ready " ++
      js "steam_create_leaderboard steam_upload_score steam_upload_score_ext " ++
      js "steam_download_scores_around_user steam_download_scores " ++
      js "steam_download_friends_scores steam_upload_score_buffer " ++
      js "steam_upload_score_buffer_ext steam_current_game_language " ++
      js "steam_available_languages steam_activate_overlay_browser " ++
      js "steam_activate_overlay_user steam_activate_overlay_store " ++
      js "steam_get_user_persona_name steam_get_app_id " ++
      js "steam_get_user_account_id steam_ugc_download steam_ugc_create_item " ++
      js "steam_ugc_start_item_update steam_ugc_set_item_title " ++
      js "steam_ugc_set_item_description steam_ugc_set_item_visibility " ++
      js "steam_ugc_set_item_tags steam_ugc_set_item_content " ++
      js "steam_ugc_set_item_preview steam_ugc_submit_item_update " ++
      js "steam_ugc_get_item_update_progress steam_ugc_subscribe_item " ++
      js "steam_ugc_unsubscribe_item steam_ugc_num_subscribed_items " ++
      js "steam_ugc_get_subscribed_items steam_ugc_get_item_install_info " ++
      js "steam_ugc_get_item_update_info steam_ugc_request_item_details " ++
      js "steam_ugc_create_query_user steam_ugc_create_query_user_ex " ++
      js "steam_ugc_create_query_all steam_ugc_create_query_all_ex " ++
      js "steam_ugc_query_set_cloud_filename_filter " ++
      js "steam_ugc_query_set_match_any_tag steam_ugc_query_set_search_text " ++
      js "steam_ugc_query_set_ranked_by_trend_days " ++
      js "steam_ugc_query_add_required_tag steam_ugc_query_add_excluded_tag " ++
      js "steam_ugc_query_set_return_long_description " ++
      js "steam_ugc_query_set_return_total_only " ++
      js "steam_ugc_query_set_allow_cached_response steam_ugc_send_query " ++
      js "shader_set shader_get_name shader_reset shader_current " ++
      js "shader_is_compiled shader_get_sampler_index shader_get_uniform " ++
      js "shader_set_uniform_i shader_set_uniform_i_array shader_set_uniform_f " ++
      js "shader_set_uniform_f_array shader_set_uniform_matrix " ++
      js "shader_set_uniform_matrix_array shader_enable_corner_id " ++
      js "texture_set_stage texture_get_texel_width texture_get_texel_height " ++
      js "shaders_are_supported vertex_format_begin vertex_format_end " ++
      js "vertex_format_delete vertex_format_add_position " ++
      js "vertex_format_add_position_3d vertex_format_add_colour " ++
      js "vertex_format_add_color vertex_format_add_normal " ++
      js "vertex_format_add_texcoord vertex_format_add_textcoord " ++
      js "vertex_format_add_custom vertex_create_buffer " ++
      js "vertex_create_buffer_ext vertex_delete_buffer vertex_begin " ++
      js "vertex_end vertex_position vertex_position_3d vertex_colour " ++
      js "vertex_color vertex_argb vertex_texcoord vertex_normal vertex_float1 " ++
      js "vertex_float2 vertex_float3 vertex_float4 vertex_ubyte4 " ++
      js "vertex_submit vertex_freeze vertex_get_number vertex_get_buffer_size " ++
      js "vertex_create_buffer_from_buffer " ++
      js "vertex_create_buffer_from_buffer_ext push_local_notification " ++
      js "push_get_first_local_notification push_get_next_local_notification " ++
      js "push_cancel_local_notification skeleton_animation_set " ++
      js "skeleton_animation_get skeleton_animation_mix " ++
      js "skeleton_animation_set_ext skeleton_animation_get_ext " ++
      js "skeleton_animation_get_duration skeleton_animation_get_frames " ++
      js "skeleton_animation_clear skeleton_skin_set skeleton_skin_get " ++
      js "skeleton_attachment_set skeleton_attachment_get " ++
      js "skeleton_attachment_create skeleton_collision_draw_set " ++
      js "skeleton_bone_data_get skeleton_bone_data_set " ++
      js "skeleton_bone_state_get skeleton_bone_state_set skeleton_get_minmax " ++
      js "skeleton_get_num_bounds skeleton_get_bounds " ++
      js "skeleton_animation_get_frame skeleton_animation_set_frame " ++
      js "draw_skeleton draw_skeleton_time draw_skeleton_instance " ++
      js "draw_skeleton_collision skeleton_animation_list skeleton_skin_list " ++
      js "skeleton_slot_data layer_get_id layer_get_id_at_depth " ++
      js "layer_get_depth layer_create layer_destroy layer_destroy_instances " ++
      js "layer_add_instance layer_has_instance layer_set_visible " ++
      js "layer_get_visible layer_exists layer_x layer_y layer_get_x " ++
      js "layer_get_y layer_hspeed layer_vspeed layer_get_hspeed " ++
      js "layer_get_vspeed layer_script_begin layer_script_end layer_shader " ++
      js "layer_get_script_begin layer_get_script_end layer_get_shader " ++
      js "layer_set_target_room layer_get_target_room layer_reset_target_room " ++
      js "layer_get_all layer_get_all_elements layer_get_name layer_depth " ++
      js "layer_get_element_layer layer_get_element_type layer_element_move " ++
      js "layer_force_draw_depth layer_is_draw_depth_forced " ++
      js "layer_get_forced_depth layer_background_get_id " ++
      js "layer_background_exists layer_background_create " ++
      js "layer_background_destroy layer_background_visible " ++
      js "layer_background_change layer_background_sprite " ++
      js "layer_background_htiled layer_background_vtiled " ++
      js "layer_background_stretch layer_background_yscale " ++
      js "layer_background_xscale layer_background_blend " ++
      js "layer_background_alpha layer_background_index layer_background_speed " ++
      js "layer_background_get_visible layer_background_get_sprite " ++
      js "layer_background_get_htiled layer_background_get_vtiled " ++
      js "layer_background_get_stretch layer_background_get_yscale " ++
      js "layer_background_get_xscale layer_background_get_blend " ++
      js "layer_background_get_alpha layer_background_get_index " ++
      js "layer_background_get_speed layer_sprite_get_id layer_sprite_exists " ++
      js "layer_sprite_create layer_sprite_destroy layer_sprite_change " ++
      js "layer_sprite_index layer_sprite_speed layer_sprite_xscale " ++
      js "layer_sprite_yscale layer_sprite_angle layer_sprite_blend " ++
      js "layer_sprite_alpha layer_sprite_x layer_sprite_y " ++
      js "layer_sprite_get_sprite layer_sprite_get_index " ++
      js "layer_sprite_get_speed layer_sprite_get_xscale " ++
      js "layer_sprite_get_yscale layer_sprite_get_angle ".

Definition lang_gml_built_in_5 : jsstr :=
  js "layer_sprite_get_blend layer_sprite_get_alpha layer_sprite_get_x " ++
      js "layer_sprite_get_y layer_tilemap_get_id layer_tilemap_exists " ++
      js "layer_tilemap_create layer_tilemap_destroy tilemap_tileset tilemap_x " ++
      js "tilemap_y tilemap_set tilemap_set_at_pixel tilemap_get_tileset " ++
      js "tilemap_get_tile_width tilemap_get_tile_height tilemap_get_width " ++
      js "tilemap_get_height tilemap_get_x tilemap_get_y tilemap_get " ++
      js "tilemap_get_at_pixel tilemap_get_cell_x_at_pixel " ++
      js "tilemap_get_cell_y_at_pixel tilemap_clear draw_tilemap draw_tile " ++
      js "tilemap_set_global_mask tilemap_get_global_mask tilemap_set_mask " ++
      js "tilemap_get_mask tilemap_get_frame tile_set_empty tile_set_index " ++
      js "tile_set_flip tile_set_mirror tile_set_rotate tile_get_empty " ++
      js "tile_get_index tile_get_flip tile_get_mirror tile_get_rotate " ++
      js "layer_tile_exists layer_tile_create layer_tile_destroy " ++
      js "layer_tile_change layer_tile_xscale layer_tile_yscale " ++
      js "layer_tile_blend layer_tile_alpha layer_tile_x layer_tile_y " ++
      js "layer_tile_region layer_tile_visible layer_tile_get_sprite " ++
      js "layer_tile_get_xscale layer_tile_get_yscale layer_tile_get_blend " ++
      js "layer_tile_get_alpha layer_tile_get_x layer_tile_get_y " ++
      js "layer_tile_get_region layer_tile_get_visible " ++
      js "layer_instance_get_instance instance_activate_layer " ++
      js "instance_deactivate_layer camera_create camera_create_view " ++
      js "camera_destroy camera_apply camera_get_active camera_get_default " ++
      js "camera_set_default camera_set_view_mat camera_set_proj_mat " ++
      js "camera_set_update_script camera_set_begin_script " ++
      js "camera_set_end_script camera_set_view_pos camera_set_view_size " ++
      js "camera_set_view_speed camera_set_view_border camera_set_view_angle " ++
      js "camera_set_view_target camera_get_view_mat camera_get_proj_mat " ++
      js "camera_get_update_script camera_get_begin_script " ++
      js "camera_get_end_script camera_get_view_x camera_get_view_y " ++
      js "camera_get_view_width camera_get_view_height camera_get_view_speed_x " ++
      js "camera_get_view_speed_y camera_get_view_border_x " ++
      js "camera_get_view_border_y camera_get_view_angle " ++
      js "camera_get_view_target view_get_camera view_get_visible " ++
      js "view_get_xport view_get_yport view_get_wport view_get_hport " ++
      js "view_get_surface_id view_set_camera view_set_visible view_set_xport " ++
      js "view_set_yport view_set_wport view_set_hport view_set_surface_id " ++
      js "gesture_drag_time gesture_drag_distance gesture_flick_speed " ++
      js "gesture_double_tap_time gesture_double_tap_distance " ++
      js "gesture_pinch_distance gesture_pinch_angle_towards " ++
      js "gesture_pinch_angle_away gesture_rotate_time gesture_rotate_angle " ++
      js "gesture_tap_count gesture_get_drag_time gesture_get_drag_distance " ++
      js "gesture_get_flick_speed gesture_get_double_tap_time " ++
      js "gesture_get_double_tap_distance gesture_get_pinch_distance " ++
      js "gesture_get_pinch_angle_towards gesture_get_pinch_angle_away " ++
      js "gesture_get_rotate_time gesture_get_rotate_angle " ++
      js "gesture_get_tap_count keyboard_virtual_show keyboard_virtual_hide " ++
      js "keyboard_virtual_status keyboard_virtual_height".

Definition lang_gml_built_in : jsstr :=
  lang_gml_built_in_1 ++ lang_gml_built_in_2 ++ lang_gml_built_in_3 ++ lang_gml_built_in_4 ++ lang_gml_built_in_5.
Definition lang_gml_literal_1 : jsstr :=
  js "self other all noone global local undefined pointer_invalid " ++
      js "pointer_null path_action_stop path_action_restart " ++
      js "path_action_continue path_action_reverse true false pi GM_build_date " ++
      js "GM_version GM_runtime_version  timezone_local timezone_utc " ++
      js "gamespeed_fps gamespeed_microseconds  ev_create ev_destroy ev_step " ++
      js "ev_alarm ev_keyboard ev_mouse ev_collision ev_other ev_draw " ++
      js "ev_draw_begin ev_draw_end ev_draw_pre ev_draw_post ev_keypress " ++
      js "ev_keyrelease ev_trigger ev_left_button ev_right_button " ++
      js "ev_middle_button ev_no_button ev_left_press ev_right_press " ++
      js "ev_middle_press ev_left_release ev_right_release ev_middle_release " ++
      js "ev_mouse_enter ev_mouse_leave ev_mouse_wheel_up ev_mouse_wheel_down " ++
      js "ev_global_left_button ev_global_right_button ev_global_middle_button " ++
      js "ev_global_left_press ev_global_right_press ev_global_middle_press " ++
      js "ev_global_left_release ev_global_right_release " ++
      js "ev_global_middle_release ev_joystick1_left ev_joystick1_right " ++
      js "ev_joystick1_up ev_joystick1_down ev_joystick1_button1 " ++
      js "ev_joystick1_button2 ev_joystick1_button3 ev_joystick1_button4 " ++
      js "ev_joystick1_button5 ev_joystick1_button6 ev_joystick1_button7 " ++
      js "ev_joystick1_button8 ev_joystick2_left ev_joystick2_right " ++
      js "ev_joystick2_up ev_joystick2_down ev_joystick2_button1 " ++
      js "ev_joystick2_button2 ev_joystick2_button3 ev_joystick2_button4 " ++
      js "ev_joystick2_button5 ev_joystick2_button6 ev_joystick2_button7 " ++
      js "ev_joystick2_button8 ev_outside ev_boundary ev_game_start " ++
      js "ev_game_end ev_room_start ev_room_end ev_no_more_lives " ++
      js "ev_animation_end ev_end_of_path ev_no_more_health ev_close_button " ++
      js "ev_user0 ev_user1 ev_user2 ev_user3 ev_user4 ev_user5 ev_user6 " ++
      js "ev_user7 ev_user8 ev_user9 ev_user10 ev_user11 ev_user12 ev_user13 " ++
      js "ev_user14 ev_user15 ev_step_normal ev_step_begin ev_step_end ev_gui " ++
      js "ev_gui_begin ev_gui_end ev_cleanup ev_gesture ev_gesture_tap " ++
      js "ev_gesture_double_tap ev_gesture_drag_start ev_gesture_dragging " ++
      js "ev_gesture_drag_end ev_gesture_flick ev_gesture_pinch_start " ++
      js "ev_gesture_pinch_in ev_gesture_pinch_out ev_gesture_pinch_end " ++
      js "ev_gesture_rotate_start ev_gesture_rotating ev_gesture_rotate_end " ++
      js "ev_global_gesture_tap ev_global_gesture_double_tap " ++
      js "ev_global_gesture_drag_start ev_global_gesture_dragging " ++
      js "ev_global_gesture_drag_end ev_global_gesture_flick " ++
      js "ev_global_gesture_pinch_start ev_global_gesture_pinch_in " ++
      js "ev_global_gesture_pinch_out ev_global_gesture_pinch_end " ++
      js "ev_global_gesture_rotate_start ev_global_gesture_rotating " ++
      js "ev_global_gesture_rotate_end vk_nokey vk_anykey vk_enter vk_return " ++
      js "vk_shift vk_control vk_alt vk_escape vk_space vk_backspace vk_tab " ++
      js "vk_pause vk_printscreen vk_left vk_right vk_up vk_down vk_home " ++
      js "vk_end vk_delete vk_insert vk_pageup vk_pagedown vk_f1 vk_f2 vk_f3 " ++
      js "vk_f4 vk_f5 vk_f6 vk_f7 vk_f8 vk_f9 vk_f10 vk_f11 vk_f12 vk_numpad0 " ++
      js "vk_numpad1 vk_numpad2 vk_numpad3 vk_numpad4 vk_numpad5 vk_numpad6 " ++
      js "vk_numpad7 vk_numpad8 vk_numpad9 vk_divide vk_multiply vk_subtract " ++
      js "vk_add vk_decimal vk_lshift vk_lcontrol vk_lalt vk_rshift " ++
      js "vk_rcontrol vk_ralt  mb_any mb_none mb_left mb_right mb_middle " ++
      js "c_aqua c_black c_blue c_dkgray c_fuchsia c_gray c_green c_lime " ++
      js "c_ltgray c_maroon c_navy c_olive c_purple c_red c_silver c_teal " ++
      js "c_white c_yellow c_orange fa_left fa_center fa_right fa_top " ++
      js "fa_middle fa_bottom pr_pointlist pr_linelist pr_linestrip " ++
      js "pr_trianglelist pr_trianglestrip pr_trianglefan bm_complex bm_normal " ++
      js "bm_add bm_max bm_subtract bm_zero bm_one bm_src_colour " ++
      js "bm_inv_src_colour bm_src_color bm_inv_src_color bm_src_alpha " ++
      js "bm_inv_src_alpha bm_dest_alpha bm_inv_dest_alpha bm_dest_colour " ++
      js "bm_inv_dest_colour bm_dest_color bm_inv_dest_color bm_src_alpha_sat " ++
      js "tf_point tf_linear tf_anisotropic mip_off mip_on mip_markedonly " ++
      js "audio_falloff_none audio_falloff_inverse_distance " ++
      js "audio_falloff_inverse_distance_clamped audio_falloff_linear_distance " ++
      js "audio_falloff_linear_distance_clamped " ++ js "audio_falloff_exponent_distance " ++
      js "audio_falloff_exponent_distance_clamped audio_old_system " ++
      js "audio_new_system audio_mono audio_stereo audio_3d cr_default cr_none " ++
      js "cr_arrow cr_cross cr_beam cr_size_nesw cr_size_ns cr_size_nwse " ++
      js "cr_size_we cr_uparrow cr_hourglass cr_drag cr_appstart cr_handpoint " ++
      js "cr_size_all spritespeed_framespersecond " ++
      js "spritespeed_framespergameframe asset_object asset_unknown " ++
      js "asset_sprite asset_sound asset_room asset_path asset_script " ++
      js "asset_font asset_timeline asset_tiles asset_shader fa_readonly " ++
      js "fa_hidden fa_sysfile fa_volumeid fa_directory fa_archive  " ++
      js "ds_type_map ds_type_list ds_type_stack ds_type_queue ds_type_grid " ++
      js "ds_type_priority ef_explosion ef_ring ef_ellipse ef_firework " ++
      js "ef_smoke ef_smokeup ef_star ef_spark ef_flare ef_cloud ef_rain " ++
      js "ef_snow pt_shape_pixel pt_shape_disk pt_shape_square pt_shape_line " ++
      js "pt_shape_star pt_shape_circle pt_shape_ring pt_shape_sphere " ++
      js "pt_shape_flare pt_shape_spark pt_shape_explosion pt_shape_cloud " ++
      js "pt_shape_smoke pt_shape_snow ps_distr_linear ps_distr_gaussian " ++
      js "ps_distr_invgaussian ps_shape_rectangle ps_shape_ellipse " ++
      js "ps_shape_diamond ps_shape_line ty_real ty_string dll_cdecl " ++
      js "dll_stdcall matrix_view matrix_projection matrix_world os_win32 " ++
      js "os_windows os_macosx os_ios os_android os_symbian os_linux " ++
      js "os_unknown os_winphone os_tizen os_win8native " ++
      js "os_wiiu os_3ds  os_psvita os_bb10 os_ps4 os_xboxone " ++
      js "os_ps3 os_xbox360 os_uwp os_tvos os_switch " ++
      js "browser_not_a_browser browser_unknown browser_ie browser_firefox " ++
      js "browser_chrome browser_safari browser_safari_mobile browser_opera " ++
      js "browser_tizen browser_edge browser_windows_store browser_ie_mobile  " ++
      js "device_ios_unknown device_ios_iphone device_ios_iphone_retina " ++
      js "device_ios_ipad device_ios_ipad_retina device_ios_iphone5 " ++
      js "device_ios_iphone6 device_ios_iphone6plus device_emulator " ++
      js "device_tablet display_landscape display_landscape_flipped " ++
      js "display_portrait display_portrait_flipped tm_sleep tm_countvsyncs " ++
      js "of_challenge_win of_challen ge_lose of_challenge_tie " ++
      js "leaderboard_type_number leaderboard_type_time_mins_secs " ++
      js "cmpfunc_never cmpfunc_less cmpfunc_equal cmpfunc_lessequal " ++
      js "cmpfunc_greater cmpfunc_notequal cmpfunc_greaterequal cmpfunc_always " ++
      js "cull_noculling cull_clockwise cull_counterclockwise lighttype_dir " ++
      js "lighttype_point iap_ev_storeload iap_ev_product iap_ev_purchase " ++
      js "iap_ev_consume iap_ev_restore iap_storeload_ok iap_storeload_failed " ++
      js "iap_status_uninitialised iap_status_unavailable iap_status_loading " ++
      js "iap_status_available iap_status_processing iap_status_restoring " ++
      js "iap_failed iap_unavailable iap_available iap_purchased iap_canceled " ++
      js "iap_refunded fb_login_default fb_login_fallback_to_webview " ++
      js "fb_login_no_fallback_to_webview fb_login_forcing_webview " ++
      js "fb_login_use_system_account fb_login_forcing_safari  " ++
      js "phy_joint_anchor_1_x phy_joint_anchor_1_y phy_joint_anchor_2_x " ++
      js "phy_joint_anchor_2_y phy_joint_reaction_force_x " ++
      js "phy_joint_reaction_force_y phy_joint_reaction_torque " ++
      js "phy_joint_motor_speed phy_joint_angle phy_joint_motor_torque " ++
      js "phy_joint_max_motor_torque phy_joint_translation phy_joint_speed " ++
      js "phy_joint_motor_force phy_joint_max_motor_force phy_joint_length_1 " ++
      js "phy_joint_length_2 phy_joint_damping_ratio phy_joint_frequency " ++
      js "phy_joint_lower_angle_limit phy_joint_upper_angle_limit " ++
      js "phy_joint_angle_limits phy_joint_max_length phy_joint_max_torque " ++
      js "phy_joint_max_force phy_debug_render_aabb " ++
      js "phy_debug_render_collision_pairs phy_debug_render_coms " ++
      js "phy_debug_render_core_shapes phy_debug_render_joints " ++
      js "phy_debug_render_obb phy_debug_render_shapes  " ++
      js "phy_particle_flag_water phy_particle_flag_zombie " ++
      js "phy_particle_flag_wall phy_particle_flag_spring " ++
      js "phy_particle_flag_elastic phy_particle_flag_viscous " ++
      js "phy_particle_flag_powder phy_particle_flag_tensile " ++
      js "phy_particle_flag_colourmixing phy_particle_flag_colormixing " ++
      js "phy_particle_group_flag_solid phy_particle_group_flag_rigid " ++
      js "phy_particle_data_flag_typeflags phy_particle_data_flag_position " ++
      js "phy_particle_data_flag_velocity phy_particle_data_flag_colour " ++
      js "phy_particle_data_flag_color phy_particle_data_flag_category  " ++
      js "achievement_our_info achievement_friends_info " ++
      js "achievement_leaderboard_info achievement_achievement_info " ++
      js "achievement_filter_all_players achievement_filter_friends_only " ++
      js "achievement_filter_favorites_only " ++ js "achievement_type_achievement_challenge " ++
      js "achievement_type_score_challenge achievement_pic_loaded  " ++
      js "achievement_show_ui achievement_show_profile " ++
      js "achievement_show_leaderboard achievement_show_achievement " ++
      js "achievement_show_bank achievement_show_friend_picker " ++
      js "achievement_show_purchase_prompt network_socket_tcp " ++
      js "network_socket_udp network_socket_bluetooth network_type_connect " ++
      js "network_type_disconnect network_type_data ".

Definition lang_gml_literal_2 : jsstr :=
  js "network_type_non_blocking_connect network_config_connect_timeout " ++
      js "network_config_use_non_blocking_socket " ++ js "network_config_enable_reliable_udp " ++
      js "network_config_disable_reliable_udp buffer_fixed buffer_grow " ++
      js "buffer_wrap buffer_fast buffer_vbuffer buffer_network buffer_u8 " ++
      js "buffer_s8 buffer_u16 buffer_s16 buffer_u32 buffer_s32 buffer_u64 " ++
      js "buffer_f16 buffer_f32 buffer_f64 buffer_bool buffer_text " ++
      js "buffer_string buffer_surface_copy buffer_seek_start " ++
      js "buffer_seek_relative buffer_seek_end " ++
      js "buffer_generalerror buffer_outofspace buffer_outofbounds " ++
      js "buffer_invalidtype  text_type button_type input_type ANSI_CHARSET " ++
      js "DEFAULT_CHARSET EASTEUROPE_CHARSET RUSSIAN_CHARSET SYMBOL_CHARSET " ++
      js "SHIFTJIS_CHARSET HANGEUL_CHARSET GB2312_CHARSET CHINESEBIG5_CHARSET " ++
      js "JOHAB_CHARSET HEBREW_CHARSET ARABIC_CHARSET GREEK_CHARSET " ++
      js "TURKISH_CHARSET VIETNAMESE_CHARSET THAI_CHARSET MAC_CHARSET " ++
      js "BALTIC_CHARSET OEM_CHARSET  gp_face1 gp_face2 gp_face3 gp_face4 " ++
      js "gp_shoulderl gp_shoulderr gp_shoulderlb gp_shoulderrb gp_select " ++
      js "gp_start gp_stickl gp_stickr gp_padu gp_padd gp_padl gp_padr " ++
      js "gp_axislh gp_axislv gp_axisrh gp_axisrv ov_friends ov_community " ++
      js "ov_players ov_settings ov_gamegroup ov_achievements lb_sort_none " ++
      js "lb_sort_ascending lb_sort_descending lb_disp_none lb_disp_numeric " ++
      js "lb_disp_time_sec lb_disp_time_ms ugc_result_success " ++
      js "ugc_filetype_community ugc_filetype_microtrans ugc_visibility_public " ++
      js "ugc_visibility_friends_only ugc_visibility_private " ++
      js "ugc_query_RankedByVote ugc_query_RankedByPublicationDate " ++
      js "ugc_query_AcceptedForGameRankedByAcceptanceDate " ++ js "ugc_query_RankedByTrend " ++
      js "ugc_query_FavoritedByFriendsRankedByPublicationDate " ++
      js "ugc_query_CreatedByFriendsRankedByPublicationDate " ++
      js "ugc_query_RankedByNumTimesReported " ++
      js "ugc_query_CreatedByFollowedUsersRankedByPublicationDate " ++
      js "ugc_query_NotYetRated ugc_query_RankedByTotalVotesAsc " ++
      js "ugc_query_RankedByVotesUp ugc_query_RankedByTextSearch " ++
      js "ugc_sortorder_CreationOrderDesc ugc_sortorder_CreationOrderAsc " ++
      js "ugc_sortorder_TitleAsc ugc_sortorder_LastUpdatedDesc " ++
      js "ugc_sortorder_SubscriptionDateDesc ugc_sortorder_VoteScoreDesc " ++
      js "ugc_sortorder_ForModeration ugc_list_Published ugc_list_VotedOn " ++
      js "ugc_list_VotedUp ugc_list_VotedDown ugc_list_WillVoteLater " ++
      js "ugc_list_Favorited ugc_list_Subscribed ugc_list_UsedOrPlayed " ++
      js "ugc_list_Followed ugc_match_Items ugc_match_Items_Mtx " ++
      js "ugc_match_Items_ReadyToUse ugc_match_Collections ugc_match_Artwork " ++
      js "ugc_match_Videos ugc_match_Screenshots ugc_match_AllGuides " ++
      js "ugc_match_WebGuides ugc_match_IntegratedGuides " ++
      js "ugc_match_UsableInGame ugc_match_ControllerBindings  " ++
      js "vertex_usage_position vertex_usage_colour vertex_usage_color " ++
      js "vertex_usage_normal vertex_usage_texcoord vertex_usage_textcoord " ++
      js "vertex_usage_blendweight vertex_usage_blendindices " ++
      js "vertex_usage_psize vertex_usage_tangent vertex_usage_binormal " ++
      js "vertex_usage_fog vertex_usage_depth vertex_usage_sample " ++
      js "vertex_type_float1 vertex_type_float2 vertex_type_float3 " ++
      js "vertex_type_float4 vertex_type_colour vertex_type_color " ++
      js "vertex_type_ubyte4 layerelementtype_undefined " ++
      js "layerelementtype_background layerelementtype_instance " ++
      js "layerelementtype_oldtilemap layerelementtype_sprite " ++
      js "layerelementtype_tilemap layerelementtype_particlesystem " ++
      js "layerelementtype_tile tile_rotate tile_flip tile_mirror " ++
      js "tile_index_mask kbv_type_default kbv_type_ascii kbv_type_url " ++
      js "kbv_type_email kbv_type_numbers kbv_type_phone kbv_type_phone_name " ++
      js "kbv_returnkey_default kbv_returnkey_go kbv_returnkey_google " ++
      js "kbv_returnkey_join kbv_returnkey_next kbv_returnkey_route " ++
      js "kbv_returnkey_search kbv_returnkey_send kbv_returnkey_yahoo " ++
      js "kbv_returnkey_done kbv_returnkey_continue kbv_returnkey_emergency " ++
      js "kbv_autocapitalize_none kbv_autocapitalize_words " ++
      js "kbv_autocapitalize_sentences kbv_autocapitalize_characters".

Definition lang_gml_literal : jsstr :=
  lang_gml_literal_1 ++ lang_gml_literal_2.
Definition lang_gml_symbol : jsstr :=
  js "argument_relative argument argument0 argument1 argument2 " ++
      js "argument3 argument4 argument5 argument6 argument7 argument8 " ++
      js "argument9 argument10 argument11 argument12 argument13 argument14 " ++
      js "argument15 argument_count x y xprevious yprevious xstart ystart " ++
      js "hspeed vspeed direction speed friction gravity gravity_direction " ++
      js "path_index path_position path_positionprevious path_speed " ++
      js "path_scale path_orientation path_endaction object_index id solid " ++
      js "persistent mask_index instance_count instance_id room_speed fps " ++
      js "fps_real current_time current_year current_month current_day " ++
      js "current_weekday current_hour current_minute current_second alarm " ++
      js "timeline_index timeline_position timeline_speed timeline_running " ++
      js "timeline_loop room room_first room_last room_width room_height " ++
      js "room_caption room_persistent score lives health show_score " ++
      js "show_lives show_health caption_score caption_lives caption_health " ++
      js "event_type event_number event_object event_action " ++
      js "application_surface gamemaker_pro gamemaker_registered " ++
      js "gamemaker_version error_occurred error_last debug_mode " ++
      js "keyboard_key keyboard_lastkey keyboard_lastchar keyboard_string " ++
      js "mouse_x mouse_y mouse_button mouse_lastbutton cursor_sprite " ++
      js "visible sprite_index sprite_width sprite_height sprite_xoffset " ++
      js "sprite_yoffset image_number image_index image_speed depth " ++
      js "image_xscale image_yscale image_angle image_alpha image_blend " ++
      js "bbox_left bbox_right bbox_top bbox_bottom layer background_colour  " ++
      js "background_showcolour background_color background_showcolor " ++
      js "view_enabled view_current view_visible view_xview view_yview " ++
      js "view_wview view_hview view_xport view_yport view_wport view_hport " ++
      js "view_angle view_hborder view_vborder view_hspeed view_vspeed " ++
      js "view_object view_surface_id view_camera game_id game_display_name " ++
      js "game_project_name game_save_id working_directory temp_directory " ++
      js "program_directory browser_width browser_height os_type os_device " ++
      js "os_browser os_version display_aa async_load delta_time " ++
      js "webgl_enabled event_data iap_data phy_rotation phy_position_x " ++
      js "phy_position_y phy_angular_velocity phy_linear_velocity_x " ++
      js "phy_linear_velocity_y phy_speed_x phy_speed_y phy_speed " ++
      js "phy_angular_damping phy_linear_damping phy_bullet " ++
      js "phy_fixed_rotation phy_active phy_mass phy_inertia phy_com_x " ++
      js "phy_com_y phy_dynamic phy_kinematic phy_sleeping " ++
      js "phy_collision_points phy_collision_x phy_collision_y " ++
      js "phy_col_normal_x phy_col_normal_y phy_position_xprevious " ++ js "phy_position_yprevious".

(** gml *)
Definition lang_gml : M language :=
  let GML_KEYWORDS := KObj [(js "keywords", js "begin end if then else while do for break continue with until " ++
      js "repeat exit and or xor not return mod div switch case default var " ++
      js "globalvar enum #macro #region #endregion"); (js "built_in", lang_gml_built_in);
      (js "literal", lang_gml_literal); (js "symbol", lang_gml_symbol)] in
  lang (mkLP false [js "gml"; js "GML"] false) [Keywords GML_KEYWORDS; Contains [CRef C_LINE_COMMENT_MODE;
      CRef C_BLOCK_COMMENT_MODE; CRef APOS_STRING_MODE; CRef QUOTE_STRING_MODE; CRef C_NUMBER_MODE]].

(** go *)
Definition lang_go : M language :=
  let GO_KEYWORDS :=
      KObj [(js "keyword", js "break default func interface select case map struct chan else goto package switch " ++
      js "const fallthrough if range type continue for import return var go defer " ++
      js "bool byte complex64 complex128 float32 float64 int8 int16 int32 int64 string uint8 " ++
      js "uint16 uint32 uint64 int uint uintptr rune"); (js "literal", js "true false iota nil");
      (js "built_in", js "append cap close complex copy imag len make new panic print println real recover delete")] in
  let* m1 := new [ClassName (js "string"); Variants [[AllOf QUOTE_STRING_MODE]; [Begin (js "'");
      End_ (js "[^\\]'")]; [Begin (js "`"); End_ (js "`")]]] in
  let* m2 := new [ClassName (js "number"); Variants [[Begin (C_NUMBER_RE ++ js "[i]"); Relevance 1];
      [AllOf C_NUMBER_MODE]]] in
  let* m3 := new [Begin (js ":=")] in
  let* m4 := new [ClassName (js "params"); Begin (js "\("); End_ (js "\)"); Keywords GO_KEYWORDS;
      Illegal (js "[＂']")] in
  let* m5 := new [ClassName (js "function"); BeginKeywords (js "func"); End_ (js "\s*\{"); ExcludeEnd true;
      Contains [CRef TITLE_MODE; CRef m4]] in
  lang (mkLP false [js "golang"] false) [Keywords GO_KEYWORDS; Illegal (js "</");
      Contains [CRef C_LINE_COMMENT_MODE; CRef C_BLOCK_COMMENT_MODE; CRef m1; CRef m2; CRef m3; CRef m5]].

(** golo *)
Definition lang_golo : M language :=
  let* m1 := new [ClassName (js "meta"); Begin (js "@[A-Za-z]+")] in
  lang plain_lang [Keywords (KObj [(js "keyword", js "println readln print import module function local return let var " ++
      js "while for foreach times in case when match with break continue " ++
      js "augment augmentation each find filter reduce " ++
      js "if then else otherwise try catch finally raise throw orIfNull " ++
      js "DynamicObject|10 DynamicVariable struct Observable map set vector list array");
      (js "literal", js "true false null")]); Contains [CRef HASH_COMMENT_MODE; CRef QUOTE_STRING_MODE;
      CRef C_NUMBER_MODE; CRef m1]].

(** gradle *)
Definition lang_gradle : M language :=
  lang (mkLP true [] false) [Keywords (KObj [(js "keyword", js "task project allprojects subprojects artifacts buildscript configurations " ++
      js "dependencies repositories sourceSets description delete from into include " ++
      js "exclude source classpath destinationDir includes options sourceCompatibility " ++
      js "targetCompatibility group flatDir doLast doFirst flatten todir fromdir ant " ++
      js "def abstract break case catch continue default do else extends final finally " ++
      js "for if implements instanceof native new private protected public return static " ++
      js "switch synchronized throw throws transient try volatile while strictfp package " ++
      js "import false null super this true antlrtask checkstyle codenarc copy boolean " ++
      js "byte char class double float int interface long short void compile runTime " ++
      js "file fileTree abs any append asList asWritable call collect compareTo count " ++
      js "div dump each eachByte eachFile eachLine every find findAll flatten getAt " ++
      js "getErr getIn getOut getText grep immutable inject inspect intersect invokeMethods " ++
      js "isCase join leftShift minus multiply newInputStream newOutputStream newPrintWriter " ++
      js "newReader newWriter next plus pop power previous print println push putAt read " ++
      js "readBytes readLines reverse reverseEach round size sort splitEachLine step subMap " ++
      js "times toInteger toList tokenize upto waitForOrKill withPrintWriter withReader " ++
      js "withStream withWriter withWriterAppend write writeLine")]); Contains [CRef C_LINE_COMMENT_MODE;
      CRef C_BLOCK_COMMENT_MODE; CRef APOS_STRING_MODE; CRef QUOTE_STRING_MODE; CRef NUMBER_MODE;
      CRef REGEXP_MODE]].

(** groovy *)
Definition lang_groovy : M language :=
  let* m1 := new [Begin (js "\w+@"); Relevance 0] in
  let* m2 := new [ClassName (js "doctag"); Begin (js "@[A-Za-z]+")] in
  let* m3 := COMMENT (js "/\*\*") (js "\*/") [Relevance 0; Contains [CRef m1; CRef m2]] in
  let* m4 := new [ClassName (js "string"); Begin (js "＂＂＂"); End_ (js "＂＂＂")] in
  let* m5 := new [ClassName (js "string"); Begin (js "'''"); End_ (js "'''")] in
  let* m6 := new [ClassName (js "string"); Begin (js "\$/"); End_ (js "/\$"); Relevance 10] in
  let* m7 := new [ClassName (js "regexp"); Begin (js "~?\/[^\/\n]+\/"); Contains [CRef BACKSLASH_ESCAPE]] in
  let* m8 := new [ClassName (js "meta"); Begin (js "^#!/usr/bin/env"); End_ (js "$"); Illegal [10%N]] in
  let* m9 := new [BeginKeywords (js "extends implements")] in
  let* m10 := new [ClassName (js "class"); BeginKeywords (js "class interface trait enum"); End_ (js "{");
      Illegal (js ":"); Contains [CRef m9; CRef UNDERSCORE_TITLE_MODE]] in
  let* m11 := new [ClassName (js "meta"); Begin (js "@[A-Za-z]+")] in
  let* m12 := new [ClassName (js "string"); Begin (js "[^\?]{0}[A-Za-z0-9_$]+ *:")] in
  let* m13 := new [Begin (js "\?"); End_ (js "\:")] in
  let* m14 := new [ClassName (js "symbol"); Begin (js "^\s*[A-Za-z0-9_$]+:"); Relevance 0] in
  lang plain_lang [Keywords (KObj [(js "literal", js "true false null");
      (js "keyword", js "byte short char int long boolean float double void " ++ js "def as in assert trait " ++
      js "super this abstract static volatile transient public private protected synchronized final " ++
      js "class interface enum if else for while switch case break default continue " ++
      js "throw throws try catch finally implements extends new import package return instanceof")]);
      Contains [CRef m3; CRef C_LINE_COMMENT_MODE; CRef C_BLOCK_COMMENT_MODE; CRef m4; CRef m5; CRef m6;
      CRef APOS_STRING_MODE; CRef m7; CRef QUOTE_STRING_MODE; CRef m8; CRef BINARY_NUMBER_MODE; CRef m10;
      CRef C_NUMBER_MODE; CRef m11; CRef m12; CRef m13; CRef m14]; Illegal (js "#|<\/")].

(** haml *)
Definition lang_haml : M language :=
  let* m1 := new [ClassName (js "meta"); Begin (js "^!!!( (5|1\.1|Strict|Frameset|Basic|Mobile|RDFa|XML\b.*" ++
      js "))?$"); Relevance 10] in
  let* m2 := COMMENT (js "^\s*(!=#|=#|-#|/).*$") [] [Relevance 0] in
  let* m3 := new [End_ (js "\n"); SubLanguage (inl (js "ruby"))] in
  let* m4 := new [Begin (js "^\s*(-|=|!=)(?!#)"); Starts m3] in
  let* m5 := new [ClassName (js "selector-tag"); Begin (js "\w+")] in
  let* m6 := new [ClassName (js "selector-id"); Begin (js "#[\w-]+")] in
  let* m7 := new [ClassName (js "selector-class"); Begin (js "\.[\w-]+")] in
  let* m8 := new [ClassName (js "attr"); Begin (js ":\w+")] in
  let* m9 := new [Begin (js "\w+"); Relevance 0] in
  let* m10 := new [Begin (js ":\w+\s*=>"); End_ (js ",\s+"); ReturnBegin true; EndsWithParent true;
      Contains [CRef m8; CRef APOS_STRING_MODE; CRef QUOTE_STRING_MODE; CRef m9]] in
  let* m11 := new [Begin (js "{\s*"); End_ (js "\s*}"); Contains [CRef m10]] in
  let* m12 := new [ClassName (js "attr"); Begin (js "\w+"); Relevance 0] in
  let* m13 := new [Begin (js "\w+"); Relevance 0] in
  let* m14 := new [Begin (js "\w+\s*="); End_ (js "\s+"); ReturnBegin true; EndsWithParent true; Contains [CRef m12;
      CRef APOS_STRING_MODE; CRef QUOTE_STRING_MODE; CRef m13]] in
  let* m15 := new [Begin (js "\(\s*"); End_ (js "\s*\)"); ExcludeEnd true; Contains [CRef m14]] in
  let* m16 := new [ClassName (js "tag"); Begin (js "^\s*%"); Contains [CRef m5; CRef m6; CRef m7; CRef m11;
      CRef m15]] in
  let* m17 := new [Begin (js "^\s*[=~]\s*")] in
  let* m18 := new [End_ (js "}"); SubLanguage (inl (js "ruby"))] in
  let* m19 := new [Begin (js "#{"); Starts m18] in
  lang (mkLP true [] false) [Contains [CRef m1; CRef m2; CRef m4; CRef m16; CRef m17; CRef m19]].

(** handlebars *)
Definition lang_handlebars : M language :=
  let BUILT_INS :=
      KObj [(js "builtin-name", js "each in with if else unless bindattr action collection debugger log outlet template unbound view yield")] in
  let* m1 := COMMENT (js "{{!(--)?") (js "(--)?}}") [] in
  let* m2 := new [EndsWithParent true; Relevance 0; Contains [CRef QUOTE_STRING_MODE]] in
  let* m3 := new [ClassName (js "name"); Begin (js "[a-zA-Z\.-]+"); Keywords BUILT_INS; Starts m2] in
  let* m4 := new [ClassName (js "template-tag"); Begin (js "\{\{[#\/]"); End_ (js "\}\}"); Contains [CRef m3]] in
  let* m5 := new [ClassName (js "template-variable"); Begin (js "\{\{"); End_ (js "\}\}"); Keywords BUILT_INS] in
  lang (mkLP true [js "hbs"; js "html.hbs"; js "html.handlebars"] false) [SubLanguage (inl (js "xml"));
      Contains [CRef m1; CRef m4; CRef m5]].

(** haskell *)
Definition lang_haskell : M language :=
  let* m1 := COMMENT (js "--") (js "$") [] in
  let* m2 := COMMENT (js "{-") (js "-}") [Contains [CSelf]] in
  let* COMMENT' := new [Variants [[AllOf m1]; [AllOf m2]]] in
  let* PRAGMA := new [ClassName (js "meta"); Begin (js "{-#"); End_ (js "#-}")] in
  let* PREPROCESSOR := new [ClassName (js "meta"); Begin (js "^#"); End_ (js "$")] in
  let* CONSTRUCTOR := new [ClassName (js "type"); Begin (js "\b[A-Z][\w']*"); Relevance 0] in
  let* m3 := new [ClassName (js "type"); Begin (js "\b[A-Z][\w]*(\((\.\.|,|\w+)\))?")] in
  let* m4 := inherit_mode TITLE_MODE [Begin (js "[_a-z][\w']*")] in
  let* LIST := new [Begin (js "\("); End_ (js "\)"); Illegal (js "＂"); Contains [CRef PRAGMA; CRef PREPROCESSOR;
      CRef m3; CRef m4; CRef COMMENT']] in
  let* m5 := get LIST in
  let* RECORD := new [Begin (js "{"); End_ (js "}"); Contains (contains m5)] in
  let* m6 := new [BeginKeywords (js "module"); End_ (js "where"); Keywords (KStr (js "module where"));
      Contains [CRef LIST; CRef COMMENT']; Illegal (js "\W\.|;")] in
  let* m7 := new [Begin (js "\bimport\b"); End_ (js "$"); Keywords (KStr (js "import qualified as hiding"));
      Contains [CRef LIST; CRef COMMENT']; Illegal (js "\W\.|;")] in
  let* m8 := new [ClassName (js "class"); Begin (js "^(\s*" ++ js ")?(class|instance)\b"); End_ (js "where");
      Keywords (KStr (js "class family instance where")); Contains [CRef CONSTRUCTOR; CRef LIST; CRef COMMENT']] in
  let* m9 := new [ClassName (js "class"); Begin (js "\b(data|(new)?type)\b"); End_ (js "$");
      Keywords (KStr (js "data family type newtype deriving")); Contains [CRef PRAGMA; CRef CONSTRUCTOR; CRef LIST;
      CRef RECORD; CRef COMMENT']] in
  let* m10 := new [BeginKeywords (js "default"); End_ (js "$"); Contains [CRef CONSTRUCTOR; CRef LIST;
      CRef COMMENT']] in
  let* m11 := new [BeginKeywords (js "infix infixl infixr"); End_ (js "$"); Contains [CRef C_NUMBER_MODE;
      CRef COMMENT']] in
  let* m12 := new [Begin (js "\bforeign\b"); End_ (js "$");
      Keywords (KStr (js "foreign import export ccall stdcall cplusplus jvm " ++ js "dotnet safe unsafe"));
      Contains [CRef CONSTRUCTOR; CRef QUOTE_STRING_MODE; CRef COMMENT']] in
  let* m13 := new [ClassName (js "meta"); Begin (js "#!\/usr\/bin\/env runhaskell"); End_ (js "$")] in
  let* m14 := inherit_mode TITLE_MODE [Begin (js "^[_a-z][\w']*")] in
  let* m15 := new [Begin (js "->|<-")] in
  lang (mkLP false [js "hs"] false) [Keywords (KStr (js "let in if then else case of where do module import hiding " ++
      js "qualified type data newtype deriving class instance as default " ++
      js "infix infixl infixr foreign export ccall stdcall cplusplus " ++
      js "jvm dotnet safe unsafe family forall mdo proc rec")); Contains [CRef m6; CRef m7; CRef m8; CRef m9;
      CRef m10; CRef m11; CRef m12; CRef m13; CRef PRAGMA; CRef PREPROCESSOR; CRef QUOTE_STRING_MODE;
      CRef C_NUMBER_MODE; CRef CONSTRUCTOR; CRef m14; CRef COMMENT'; CRef m15]].

(** haxe *)
Definition lang_haxe : M language :=
  let IDENT_RE' := js "[a-zA-Z_$][a-zA-Z0-9_$]*" in
  let IDENT_FUNC_RETURN_TYPE_RE := js "([*]|[a-zA-Z_$][a-zA-Z0-9_$]*" ++ js ")" in
  let HAXE_BASIC_TYPES := js "Int Float String Bool Dynamic Void Array " in
  let* m1 := new [ClassName (js "subst"); Begin (js "\$\{"); End_ (js "\}")] in
  let* m2 := new [ClassName (js "subst"); Begin (js "\$"); End_ (js "\W}")] in
  let* m3 := new [ClassName (js "string"); Begin (js "'"); End_ (js "'"); Contains [CRef BACKSLASH_ESCAPE; CRef m1;
      CRef m2]] in
  let* m4 := new [ClassName (js "meta"); Begin (js "@:"); End_ (js "$")] in
  let* m5 := new [ClassName (js "meta"); Begin (js "#"); End_ (js "$");
      Keywords (KObj [(js "meta-keyword", js "if else elseif end error")])] in
  let* m6 := new [ClassName (js "type"); Begin (js ":[ " ++ [9%N] ++ js "]*"); End_ (js "[^A-Za-z0-9_ " ++ [9%N] ++
      js "\->]"); ExcludeBegin true; ExcludeEnd true; Relevance 0] in
  let* m7 := new [ClassName (js "type"); Begin (js ":[ " ++ [9%N] ++ js "]*"); End_ (js "\W"); ExcludeBegin true;
      ExcludeEnd true] in
  let* m8 := new [ClassName (js "type"); Begin (js "new *"); End_ (js "\W"); ExcludeBegin true; ExcludeEnd true] in
  let* m9 := new [ClassName (js "class"); BeginKeywords (js "enum"); End_ (js "\{"); Contains [CRef TITLE_MODE]] in
  let* m10 := new [ClassName (js "type"); Begin (js "\("); End_ (js "\)"); ExcludeBegin true; ExcludeEnd true] in
  let* m11 := new [ClassName (js "type"); Begin (js "from +"); End_ (js "\W"); ExcludeBegin true;
      ExcludeEnd true] in
  let* m12 := new [ClassName (js "type"); Begin (js "to +"); End_ (js "\W"); ExcludeBegin true; ExcludeEnd true] in
  let* m13 := new [ClassName (js "class"); BeginKeywords (js "abstract"); End_ (js "[\{$]"); Contains [CRef m10;
      CRef m11; CRef m12; CRef TITLE_MODE]; Keywords (KObj [(js "keyword", js "abstract from to")])] in
  let* m14 := new [ClassName (js "type"); Begin IDENT_RE; Relevance 0] in
  let* m15 := new [ClassName (js "keyword"); Begin (js "\b(extends|implements) +");
      Keywords (KStr (js "extends implements")); Contains [CRef m14]] in
  let* m16 := new [ClassName (js "class"); Begin (js "\b(class|interface) +"); End_ (js "[\{$]"); ExcludeEnd true;
      Keywords (KStr (js "class interface")); Contains [CRef m15; CRef TITLE_MODE]] in
  let* m17 := new [ClassName (js "function"); BeginKeywords (js "function"); End_ (js "\("); ExcludeEnd true;
      Illegal (js "\S"); Contains [CRef TITLE_MODE]] in
  lang (mkLP false [js "hx"] false) [Keywords (KObj [(js "keyword", js "break case cast catch continue default do dynamic else enum extern " ++
      js "for function here if import in inline never new override package private get set " ++
      js "public return static super switch this throw trace try typedef untyped using var while " ++
      HAXE_BASIC_TYPES); (js "built_in", js "trace this"); (js "literal", js "true false null _")]);
      Contains [CRef m3; CRef QUOTE_STRING_MODE; CRef C_LINE_COMMENT_MODE; CRef C_BLOCK_COMMENT_MODE;
      CRef C_NUMBER_MODE; CRef m4; CRef m5; CRef m6; CRef m7; CRef m8; CRef m9; CRef m13; CRef m16; CRef m17];
      Illegal (js "<\/")].

(** hsp *)
Definition lang_hsp : M language :=
  let* m1 := new [ClassName (js "string"); Begin (js "{＂"); End_ (js "＂}"); Contains [CRef BACKSLASH_ESCAPE]] in
  let* m2 := COMMENT (js ";") (js "$") [Relevance 0] in
  let* m3 := inherit_mode QUOTE_STRING_MODE [ClassName (js "meta-string")] in
  let* m4 := new [ClassName (js "meta"); Begin (js "#"); End_ (js "$");
      Keywords (KObj [(js "meta-keyword", js "addion cfunc cmd cmpopt comfunc const defcfunc deffunc define else endif enum epack func global if ifdef " ++
      js "ifndef include modcfunc modfunc modinit modterm module pack packopt regcmd runtime undef usecom uselib")]);
      Contains [CRef m3; CRef NUMBER_MODE; CRef C_NUMBER_MODE; CRef C_LINE_COMMENT_MODE;
      CRef C_BLOCK_COMMENT_MODE]] in
  let* m5 := new [ClassName (js "symbol"); Begin (js "^\*(\w+|@)")] in
  lang (mkLP true [] false) [Lexemes (js "[\w\._]+");
      Keywords (KStr (js "goto gosub return break repeat loop continue wait await dim sdim foreach dimtype dup dupptr end stop " ++
      js "newmod delmod mref run exgoto on mcall assert logmes newlab resume yield onexit onerror onkey onclick " ++
      js "oncmd exist delete mkdir chdir dirlist bload bsave bcopy memfile if else poke wpoke lpoke getstr chdpm " ++
      js "memexpand memcpy memset notesel noteadd notedel noteload notesave randomize noteunsel noteget split " ++
      js "strrep setease button chgdisp exec dialog mmload mmplay mmstop mci pset pget syscolor mes print title " ++
      js "pos circle cls font sysfont objsize picload color palcolor palette redraw width gsel gcopy gzoom gmode " ++
      js "bmpsave hsvcolor getkey listbox chkbox combox input mesbox buffer screen bgscr mouse objsel groll line " ++
      js "clrobj boxf objprm objmode stick grect grotate gsquare gradf objimage objskip objenable celload celdiv " ++
      js "celput newcom querycom delcom cnvstow comres axobj winobj sendmsg comevent comevarg sarrayconv callfunc " ++
      js "cnvwtos comevdisp libptr system hspstat hspver stat cnt err strsize looplev sublev iparam wparam lparam " ++
      js "refstr refdval int rnd strlen length length2 length3 length4 vartype gettime peek wpeek lpeek varptr " ++
      js "varuse noteinfo instr abs limit getease str strmid strf getpath strtrim sin cos tan atan sqrt double " ++
      js "absf expf logf limitf powf geteasef mousex mousey mousew hwnd hinstance hdc ginfo objinfo dirinfo sysinfo " ++
      js "thismod __hspver__ __hsp30__ __date__ __time__ __line__ __file__ _debug __hspdef__ and or xor not screen_normal " ++
      js "screen_palette screen_hide screen_fixedsize screen_tool screen_frame gmode_gdi gmode_mem gmode_rgb0 " ++
      js "gmode_alpha gmode_rgb0alpha gmode_add gmode_sub gmode_pixela ginfo_mx ginfo_my ginfo_act ginfo_sel ginfo_wx1 " ++
      js "ginfo_wy1 ginfo_wx2 ginfo_wy2 ginfo_vx ginfo_vy ginfo_sizex ginfo_sizey ginfo_winx ginfo_winy ginfo_mesx " ++
      js "ginfo_mesy ginfo_r ginfo_g ginfo_b ginfo_paluse ginfo_dispx ginfo_dispy ginfo_cx ginfo_cy ginfo_intid " ++
      js "ginfo_newid ginfo_sx ginfo_sy objinfo_mode objinfo_bmscr objinfo_hwnd notemax notesize dir_cur dir_exe " ++
      js "dir_win dir_sys dir_cmdline dir_desktop dir_mydoc dir_tv font_normal font_bold font_italic font_underline " ++
      js "font_strikeout font_antialias objmode_normal objmode_guifont objmode_usefont gsquare_grad msgothic msmincho " ++
      js "do until while wend for next _break _continue switch case default swbreak swend ddim ldim alloc m_pi " ++
      js "rad2deg deg2rad ease_linear ease_quad_in ease_quad_out ease_quad_inout ease_cubic_in ease_cubic_out " ++
      js "ease_cubic_inout ease_quartic_in ease_quartic_out ease_quartic_inout ease_bounce_in ease_bounce_out " ++
      js "ease_bounce_inout ease_shake_in ease_shake_out ease_shake_inout ease_loop"));
      Contains [CRef C_LINE_COMMENT_MODE; CRef C_BLOCK_COMMENT_MODE; CRef QUOTE_STRING_MODE; CRef APOS_STRING_MODE;
      CRef m1; CRef m2; CRef m4; CRef m5; CRef NUMBER_MODE; CRef C_NUMBER_MODE]].

(** htmlbars *)
Definition lang_htmlbars : M language :=
  let BUILT_INS :=
      js "action collection component concat debugger each each-in else get hash if input link-to loc log mut " ++
      js "outlet partial query-params render textarea unbound unless with yield view" in
  let* m1 := new [ClassName (js "attr"); Begin (js "[a-zA-Z0-9_]+")] in
  let* ATTR_ASSIGNMENT := new [Illegal (js "\}\}"); Begin (js "[a-zA-Z0-9_]+="); ReturnBegin true; Relevance 0;
      Contains [CRef m1]] in
  let* m2 := new [EndsWithParent true; Relevance 0; Contains [CRef QUOTE_STRING_MODE]] in
  let* m3 := new [Begin (js "[a-zA-Z\.\-]+"); Keywords (KObj [(js "built_in", BUILT_INS)]); Starts m2] in
  let* SUB_EXPR := new [Illegal (js "\}\}"); Begin (js "\)"); End_ (js "\)"); Contains [CRef m3]] in
  let* TAG_INNARDS := new [EndsWithParent true; Relevance 0; Keywords (KObj [(js "keyword", js "as");
      (js "built_in", BUILT_INS)]); Contains [CRef QUOTE_STRING_MODE; CRef ATTR_ASSIGNMENT; CRef NUMBER_MODE]] in
  let* m4 := COMMENT (js "{{!(--)?") (js "(--)?}}") [] in
  let* m5 := new [ClassName (js "name"); Begin (js "[a-zA-Z\.\-]+");
      Keywords (KObj [(js "builtin-name", BUILT_INS)]); Starts TAG_INNARDS] in
  let* m6 := new [ClassName (js "template-tag"); Begin (js "\{\{[#\/]"); End_ (js "\}\}"); Contains [CRef m5]] in
  let* m7 := new [ClassName (js "template-variable"); Begin (js "\{\{[a-zA-Z][a-zA-Z\-]+"); End_ (js "\}\}");
      Keywords (KObj [(js "keyword", js "as"); (js "built_in", BUILT_INS)]); Contains [CRef QUOTE_STRING_MODE]] in
  lang (mkLP true [] false) [SubLanguage (inl (js "xml")); Contains [CRef m4; CRef m6; CRef m7]].

(** http *)
Definition lang_http : M language :=
  let VERSION := js "HTTP/[0-9\.]+" in
  let* m1 := new [ClassName (js "number"); Begin (js "\b\d{3}\b")] in
  let* m2 := new [Begin (js "^" ++ VERSION); End_ (js "$"); Contains [CRef m1]] in
  let* m3 := new [ClassName (js "string"); Begin (js " "); End_ (js " "); ExcludeBegin true; ExcludeEnd true] in
  let* m4 := new [Begin VERSION] in
  let* m5 := new [ClassName (js "keyword"); Begin (js "[A-Z]+")] in
  let* m6 := new [Begin (js "^[A-Z]+ (.*?) " ++ VERSION ++ js "$"); ReturnBegin true; End_ (js "$");
      Contains [CRef m3; CRef m4; CRef m5]] in
  let* m7 := new [End_ (js "$"); Relevance 0] in
  let* m8 := new [ClassName (js "attribute"); Begin (js "^\w"); End_ (js ": "); ExcludeEnd true;
      Illegal (js "\n|\s|="); Starts m7] in
  let* m9 := new [SubLanguage (inr []); EndsWithParent true] in
  let* m10 := new [Begin (js "\n\n"); Starts m9] in
  lang (mkLP false [js "https"] false) [Illegal (js "\S"); Contains [CRef m2; CRef m6; CRef m8; CRef m10]].

(** hy *)
Definition lang_hy : M language :=
  let keywords' := KObj [(js "builtin-name", js "!= % %= & &= * ** **= *= *map " ++
      js "+ += , --build-class-- --import-- -= . / // //= " ++ js "/= < << <<= <= = > >= >> >>= " ++
      js "@ @= ^ ^= abs accumulate all and any ap-compose " ++
      js "ap-dotimes ap-each ap-each-while ap-filter ap-first ap-if ap-last ap-map ap-map-when ap-pipe " ++
      js "ap-reduce ap-reject apply as-> ascii assert assoc bin break butlast " ++
      js "callable calling-module-name car case cdr chain chr coll? combinations compile " ++
      js "compress cond cons cons? continue count curry cut cycle dec " ++
      js "def default-method defclass defmacro defmacro-alias defmacro/g! defmain defmethod defmulti defn " ++
      js "defn-alias defnc defnr defreader defseq del delattr delete-route dict-comp dir " ++
      js "disassemble dispatch-reader-macro distinct divmod do doto drop drop-last drop-while empty? " ++
      js "end-sequence eval eval-and-compile eval-when-compile even? every? except exec filter first " ++
      js "flatten float? fn fnc fnr for for* format fraction genexpr " ++
      js "gensym get getattr global globals group-by hasattr hash hex id " ++
      js "identity if if* if-not if-python2 import in inc input instance? " ++
      js "integer integer-char? integer? interleave interpose is is-coll is-cons is-empty is-even " ++
      js "is-every is-float is-instance is-integer is-integer-char is-iterable is-iterator is-keyword is-neg is-none " ++
      js "is-not is-numeric is-odd is-pos is-string is-symbol is-zero isinstance islice issubclass " ++
      js "iter iterable? iterate iterator? keyword keyword? lambda last len let " ++
      js "lif lif-not list* list-comp locals loop macro-error macroexpand macroexpand-1 macroexpand-all " ++
      js "map max merge-with method-decorator min multi-decorator multicombinations name neg? next " ++
      js "none? nonlocal not not-in not? nth numeric? oct odd? open " ++
      js "or ord partition permutations pos? post-route postwalk pow prewalk print " ++
      js "product profile/calls profile/cpu put-route quasiquote quote raise range read read-str " ++
      js "recursive-replace reduce remove repeat repeatedly repr require rest round route " ++
      js "route-with-methods rwm second seq set-comp setattr setv some sorted string " ++
      js "string? sum switch symbol? take take-nth take-while tee try unless " ++
      js "unquote unquote-splicing vars walk when while with with* with-decorator with-gensyms " ++
      js "xi xor yield yield-from zero? zip zip-longest | |= ~")] in
  let SYMBOLSTART := js "a-zA-Z_\-!.?+*=<>&#'" in
  let SYMBOL_RE := js "[" ++ SYMBOLSTART ++ js "][" ++ SYMBOLSTART ++ js "0-9/;:]*" in
  let SIMPLE_NUMBER_RE := js "[-+]?\d+(\.\d+)?" in
  let* SHEBANG := new [ClassName (js "meta"); Begin (js "^#!"); End_ (js "$")] in
  let* SYMBOL := new [Begin SYMBOL_RE; Relevance 0] in
  let* NUMBER := new [ClassName (js "number"); Begin SIMPLE_NUMBER_RE; Relevance 0] in
  let* STRING := inherit_mode QUOTE_STRING_MODE [Illegal []] in
  let* COMMENT' := COMMENT (js ";") (js "$") [Relevance 0] in
  let* LITERAL := new [ClassName (js "literal"); Begin (js "\b([Tt]rue|[Ff]alse|nil|None)\b")] in
  let* COLLECTION := new [Begin (js "[\[\{]"); End_ (js "[\]\}]")] in
  let* HINT := new [ClassName (js "comment"); Begin (js "\^" ++ SYMBOL_RE)] in
  let* HINT_COL := COMMENT (js "\^\{") (js "\}") [] in
  let* KEY := new [ClassName (js "symbol"); Begin (js "[:]{1,2}" ++ SYMBOL_RE)] in
  let* LIST := new [Begin (js "\("); End_ (js "\)")] in
  let* BODY := new [EndsWithParent true; Relevance 0] in
  let* NAME := new [Keywords keywords'; Lexemes SYMBOL_RE; ClassName (js "name"); Begin SYMBOL_RE; Starts BODY] in
  let DEFAULT_CONTAINS := [CRef LIST; CRef STRING; CRef HINT; CRef HINT_COL; CRef COMMENT'; CRef KEY;
      CRef COLLECTION; CRef NUMBER; CRef LITERAL; CRef SYMBOL] in
  let* m1 := COMMENT (js "comment") [] [] in
  let* _ := upd LIST (fun m => assign m (Contains [CRef m1; CRef NAME; CRef BODY])) in
  let* _ := upd BODY (fun m => assign m (Contains DEFAULT_CONTAINS)) in
  let* _ := upd COLLECTION (fun m => assign m (Contains DEFAULT_CONTAINS)) in
  lang (mkLP false [js "hylang"] false) [Illegal (js "\S"); Contains [CRef SHEBANG; CRef LIST; CRef STRING;
      CRef HINT; CRef HINT_COL; CRef COMMENT'; CRef KEY; CRef COLLECTION; CRef NUMBER; CRef LITERAL]].

Definition languagesDH : list (jsstr * creator) :=
  [(js "d", alone lang_d);
   (js "dart", alone lang_dart);
   (js "delphi", alone lang_delphi);
   (js "diff", alone lang_diff);
   (js "django", alone lang_django);
   (js "dns", alone lang_dns);
   (js "dockerfile", alone lang_dockerfile);
   (js "dos", alone lang_dos);
   (js "dsconfig", alone lang_dsconfig);
   (js "dts", alone lang_dts);
   (js "dust", alone lang_dust);
   (js "ebnf", alone lang_ebnf);
   (js "elixir", alone lang_elixir);
   (js "elm", alone lang_elm);
   (js "erb", alone lang_erb);
   (js "erlang-repl", alone lang_erlang_repl);
   (js "erlang", alone lang_erlang);
   (js "excel", alone lang_excel);
   (js "fix", alone lang_fix);
   (js "flix", alone lang_flix);
   (js "fortran", alone lang_fortran);
   (js "fsharp", alone lang_fsharp);
   (js "gams", alone lang_gams);
   (js "gauss", alone lang_gauss);
   (js "gcode", alone lang_gcode);
   (js "gherkin", alone lang_gherkin);
   (js "glsl", alone lang_glsl);
   (js "gml", alone lang_gml);
   (js "go", alone lang_go);
   (js "golo", alone lang_golo);
   (js "gradle", alone lang_gradle);
   (js "groovy", alone lang_groovy);
   (js "haml", alone lang_haml);
   (js "handlebars", alone lang_handlebars);
   (js "haskell", alone lang_haskell);
   (js "haxe", alone lang_haxe);
   (js "hsp", alone lang_hsp);
   (js "htmlbars", alone lang_htmlbars);
   (js "http", alone lang_http);
   (js "hy", alone lang_hy)].
