(* ===== verification/LanguagesIM.v ===== *)
(** * Language definitions, inform7 to moonscript (module 15)

    Each definition creates its objects in the order of the source: a variable of the
    definition keeps its name, an object literal without one is numbered.  A name that is
    also one of the library has a prime.  The aliases, the case and the part in the
    detection of a language are the arguments of [lang]. *)

From S2P Require Import Prelude JsString JsRegExp RegExpFacts RegExpCounts MarkedInline HljsStreams HljsModes Hljs HljsLanguages.

(** inform7 *)
Definition lang_inform7 : M language :=
  let START_BRACKET := js "\[" in
  let END_BRACKET := js "\]" in
  let* m1 := new [ClassName (js "subst"); Begin START_BRACKET; End_ END_BRACKET] in
  let* m2 := new [ClassName (js "string"); Begin (js "＂"); End_ (js "＂"); Relevance 0; Contains [CRef m1]] in
  let* m3 := new [ClassName (js "section"); Begin (js "^(Volume|Book|Part|Chapter|Section|Table)\b");
      End_ (js "$")] in
  let* m4 := new [Begin (js "\(This"); End_ (js "\)")] in
  let* m5 := new [Begin (js "^(Check|Carry out|Report|Instead of|To|Rule|When|Before|After)\b"); End_ (js ":");
      Contains [CRef m4]] in
  let* m6 := new [ClassName (js "comment"); Begin START_BRACKET; End_ END_BRACKET; Contains [CSelf]] in
  lang (mkLP true [js "i7"] false) [Keywords (KObj [(js "keyword", js "thing room person man woman animal container " ++
      js "supporter backdrop door " ++ js "scenery open closed locked inside gender " ++
      js "is are say understand " ++ js "kind of rule")]); Contains [CRef m2; CRef m3; CRef m5; CRef m6]].

(** ini *)
Definition lang_ini : M language :=
  let* STRING := new [ClassName (js "string"); Contains [CRef BACKSLASH_ESCAPE]; Variants [[Begin (js "'''");
      End_ (js "'''"); Relevance 10]; [Begin (js "＂＂＂"); End_ (js "＂＂＂"); Relevance 10]; [Begin (js "＂");
      End_ (js "＂")]; [Begin (js "'"); End_ (js "'")]]] in
  let* m1 := COMMENT (js ";") (js "$") [] in
  let* m2 := new [ClassName (js "section"); Begin (js "^\s*\[+"); End_ (js "\]+")] in
  let* m3 := new [ClassName (js "attr"); Begin (js "[a-z0-9\[\]_\.-]+")] in
  let* m4 := COMMENT (js ";") (js "$") [] in
  let* m5 := new [ClassName (js "literal"); Begin (js "\bon|off|true|false|yes|no\b")] in
  let* m6 := new [ClassName (js "variable"); Variants [[Begin (js "\$[\w\d＂][\w\d_]*")];
      [Begin (js "\$\{(.*?)}")]]] in
  let* m7 := new [ClassName (js "number"); Begin (js "([\+\-]+)?[\d]+_[\d_]+")] in
  let* m8 := new [Begin (js "="); EndsWithParent true; Relevance 0; Contains [CRef m4; CRef HASH_COMMENT_MODE;
      CRef m5; CRef m6; CRef STRING; CRef m7; CRef NUMBER_MODE]] in
  let* m9 := new [Begin (js "^[a-z0-9\[\]_\.-]+\s*=\s*"); End_ (js "$"); ReturnBegin true; Contains [CRef m3;
      CRef m8]] in
  lang (mkLP true [js "toml"] false) [Illegal (js "\S"); Contains [CRef m1; CRef HASH_COMMENT_MODE; CRef m2;
      CRef m9]].

(** irpf90 *)
Definition lang_irpf90 : M language :=
  let* PARAMS := new [ClassName (js "params"); Begin (js "\("); End_ (js "\)")] in
  let F_KEYWORDS := KObj [(js "literal", js ".False. .True.");
      (js "keyword", js "kind do while private call intrinsic where elsewhere " ++
      js "type endtype endmodule endselect endinterface end enddo endif if forall endforall only contains default " ++
      js "return stop then " ++
      js "public subroutine|10 function program .and. .or. .not. .le. .eq. .ge. .gt. .lt. " ++
      js "goto save else use module select case " ++
      js "access blank direct exist file fmt form formatted iostat name named nextrec number opened rec recl sequential " ++
      js "status unformatted unit " ++ js "continue format pause cycle exit " ++
      js "c_null_char c_alert c_backspace c_form_feed flush wait decimal round iomsg " ++
      js "synchronous nopass non_overridable pass protected volatile abstract extends import " ++
      js "non_intrinsic value deferred generic final enumerator class associate bind enum " ++
      js "c_int c_short c_long c_long_long c_signed_char c_size_t c_int8_t c_int16_t c_int32_t c_int64_t c_int_least8_t " ++
      js "c_int_least16_t " ++
      js "c_int_least32_t c_int_least64_t c_int_fast8_t c_int_fast16_t c_int_fast32_t c_int_fast64_t c_intmax_t " ++
      js "C_intptr_t c_float c_double " ++
      js "c_long_double c_float_complex c_double_complex c_long_double_complex c_bool c_char c_null_ptr c_null_funptr " ++
      js "c_new_line c_carriage_return c_horizontal_tab c_vertical_tab iso_c_binding c_loc c_funloc c_associated " ++
      js " c_f_pointer " ++
      js "c_ptr c_funptr iso_fortran_env character_storage_size error_unit file_storage_size input_unit iostat_end " ++
      js "iostat_eor " ++
      js "numeric_storage_size output_unit c_f_procpointer ieee_arithmetic ieee_support_underflow_control " ++
      js "ieee_get_underflow_mode ieee_set_underflow_mode newunit contiguous recursive " ++
      js "pad position action delim readwrite eor advance nml interface procedure namelist include sequence elemental " ++
      js "pure " ++ js "integer real character complex logical dimension allocatable|10 parameter " ++
      js "external implicit|10 none double precision assign intent optional pointer " ++
      js "target in out common equivalence data " ++
      js "begin_provider &begin_provider end_provider begin_shell end_shell begin_template end_template subst " ++
      js "assert touch " ++ js "soft_touch provide no_dep free irp_if irp_else irp_endif irp_write irp_read");
      (js "built_in", js "alog alog10 amax0 amax1 amin0 amin1 amod cabs ccos cexp clog csin csqrt dabs dacos dasin datan datan2 " ++
      js "dcos dcosh ddim dexp dint " ++
      js "dlog dlog10 dmax1 dmin1 dmod dnint dsign dsin dsinh dsqrt dtan dtanh float iabs idim idint idnint ifix " ++
      js "isign max0 max1 min0 min1 sngl " ++
      js "algama cdabs cdcos cdexp cdlog cdsin cdsqrt cqabs cqcos cqexp cqlog cqsin cqsqrt dcmplx dconjg derf " ++
      js "derfc dfloat dgamma dimag dlgama " ++
      js "iqint qabs qacos qasin qatan qatan2 qcmplx qconjg qcos qcosh qdim qerf qerfc qexp qgamma qimag qlgama " ++
      js "qlog qlog10 qmax1 qmin1 qmod " ++
      js "qnint qsign qsin qsinh qsqrt qtan qtanh abs acos aimag aint anint asin atan atan2 char cmplx conjg cos " ++
      js "cosh exp ichar index int log " ++
      js "log10 max min nint sign sin sinh sqrt tan tanh print write dim lge lgt lle llt mod nullify allocate " ++
      js "deallocate " ++
      js "adjustl adjustr all allocated any associated bit_size btest ceiling count cshift date_and_time digits " ++
      js "dot_product " ++
      js "eoshift epsilon exponent floor fraction huge iand ibclr ibits ibset ieor ior ishft ishftc lbound len_trim " ++
      js "matmul " ++
      js "maxexponent maxloc maxval merge minexponent minloc minval modulo mvbits nearest pack present product " ++
      js "radix random_number random_seed range repeat reshape rrspacing scale scan selected_int_kind selected_real_kind " ++
      js "set_exponent shape size spacing spread sum system_clock tiny transpose trim ubound unpack verify achar " ++
      js "iachar transfer " ++
      js "dble entry dprod cpu_time command_argument_count get_command get_command_argument get_environment_variable " ++
      js "is_iostat_end " ++
      js "ieee_arithmetic ieee_support_underflow_control ieee_get_underflow_mode ieee_set_underflow_mode " ++
      js "is_iostat_eor move_alloc new_line selected_char_kind same_type_as extends_type_of" ++
      js "acosh asinh atanh bessel_j0 bessel_j1 bessel_jn bessel_y0 bessel_y1 bessel_yn erf erfc erfc_scaled gamma " ++
      js "log_gamma hypot norm2 " ++
      js "atomic_define atomic_ref execute_command_line leadz trailz storage_size merge_bits " ++
      js "bge bgt ble blt dshiftl dshiftr findloc iall iany iparity image_index lcobound ucobound maskl maskr " ++
      js "num_images parity popcnt poppar shifta shiftl shiftr this_image " ++ js "IRP_ALIGN irp_here")] in
  let* m1 := inherit_mode APOS_STRING_MODE [ClassName (js "string"); Relevance 0] in
  let* m2 := inherit_mode QUOTE_STRING_MODE [ClassName (js "string"); Relevance 0] in
  let* m3 := new [ClassName (js "function"); BeginKeywords (js "subroutine function program");
      Illegal (js "[${=\n]"); Contains [CRef UNDERSCORE_TITLE_MODE; CRef PARAMS]] in
  let* m4 := COMMENT (js "!") (js "$") [Relevance 0] in
  let* m5 := COMMENT (js "begin_doc") (js "end_doc") [Relevance 10] in
  let* m6 := new [ClassName (js "number"); Begin (js "(?=\b|\+|\-|\.)(?=\.\d|\d)(?:\d+)?(?:\.?\d*" ++
      js ")(?:[de][+-]?\d+)?\b\.?"); Relevance 0] in
  lang (mkLP true [] false) [Keywords F_KEYWORDS; Illegal (js "\/\*"); Contains [CRef m1; CRef m2; CRef m3; CRef m4;
      CRef m5; CRef m6]].

Definition lang_isbl_UNDERSCORE_IDENT_RE : jsstr :=
  js "[A-Za-zА-Яа-яёЁ_!][A-Za-zА-Яа-яёЁ_0-9]*".
Definition lang_isbl_FUNCTION_NAME_IDENT_RE : jsstr :=
  js "[A-Za-zА-Яа-яёЁ_][A-Za-zА-Яа-яёЁ_0-9]*".
Definition lang_isbl_KEYWORD : jsstr :=
  js "and и else иначе endexcept endfinally endforeach конецвсе endif конецесли endwhile конецпока " ++
      js "except exitfor finally foreach все if если in в not не or или try while пока ".
Definition lang_isbl_sysres_constants_1 : jsstr :=
  js "SYSRES_CONST_ACCES_RIGHT_TYPE_EDIT " ++ js "SYSRES_CONST_ACCES_RIGHT_TYPE_FULL " ++
      js "SYSRES_CONST_ACCES_RIGHT_TYPE_VIEW " ++ js "SYSRES_CONST_ACCESS_MODE_REQUISITE_CODE " ++
      js "SYSRES_CONST_ACCESS_NO_ACCESS_VIEW " ++ js "SYSRES_CONST_ACCESS_NO_ACCESS_VIEW_CODE " ++
      js "SYSRES_CONST_ACCESS_RIGHTS_ADD_REQUISITE_CODE " ++
      js "SYSRES_CONST_ACCESS_RIGHTS_ADD_REQUISITE_YES_CODE " ++
      js "SYSRES_CONST_ACCESS_RIGHTS_CHANGE_REQUISITE_CODE " ++
      js "SYSRES_CONST_ACCESS_RIGHTS_CHANGE_REQUISITE_YES_CODE " ++
      js "SYSRES_CONST_ACCESS_RIGHTS_DELETE_REQUISITE_CODE " ++
      js "SYSRES_CONST_ACCESS_RIGHTS_DELETE_REQUISITE_YES_CODE " ++
      js "SYSRES_CONST_ACCESS_RIGHTS_EXECUTE_REQUISITE_CODE " ++
      js "SYSRES_CONST_ACCESS_RIGHTS_EXECUTE_REQUISITE_YES_CODE " ++
      js "SYSRES_CONST_ACCESS_RIGHTS_NO_ACCESS_REQUISITE_CODE " ++
      js "SYSRES_CONST_ACCESS_RIGHTS_NO_ACCESS_REQUISITE_YES_CODE " ++
      js "SYSRES_CONST_ACCESS_RIGHTS_RATIFY_REQUISITE_CODE " ++
      js "SYSRES_CONST_ACCESS_RIGHTS_RATIFY_REQUISITE_YES_CODE " ++
      js "SYSRES_CONST_ACCESS_RIGHTS_REQUISITE_CODE " ++ js "SYSRES_CONST_ACCESS_RIGHTS_VIEW " ++
      js "SYSRES_CONST_ACCESS_RIGHTS_VIEW_CODE " ++
      js "SYSRES_CONST_ACCESS_RIGHTS_VIEW_REQUISITE_CODE " ++
      js "SYSRES_CONST_ACCESS_RIGHTS_VIEW_REQUISITE_YES_CODE " ++
      js "SYSRES_CONST_ACCESS_TYPE_CHANGE " ++ js "SYSRES_CONST_ACCESS_TYPE_CHANGE_CODE " ++
      js "SYSRES_CONST_ACCESS_TYPE_EXISTS " ++ js "SYSRES_CONST_ACCESS_TYPE_EXISTS_CODE " ++
      js "SYSRES_CONST_ACCESS_TYPE_FULL " ++ js "SYSRES_CONST_ACCESS_TYPE_FULL_CODE " ++
      js "SYSRES_CONST_ACCESS_TYPE_VIEW " ++ js "SYSRES_CONST_ACCESS_TYPE_VIEW_CODE " ++
      js "SYSRES_CONST_ACTION_TYPE_ABORT " ++ js "SYSRES_CONST_ACTION_TYPE_ACCEPT " ++
      js "SYSRES_CONST_ACTION_TYPE_ACCESS_RIGHTS " ++
      js "SYSRES_CONST_ACTION_TYPE_ADD_ATTACHMENT " ++ js "SYSRES_CONST_ACTION_TYPE_CHANGE_CARD " ++
      js "SYSRES_CONST_ACTION_TYPE_CHANGE_KIND " ++ js "SYSRES_CONST_ACTION_TYPE_CHANGE_STORAGE " ++
      js "SYSRES_CONST_ACTION_TYPE_CONTINUE " ++ js "SYSRES_CONST_ACTION_TYPE_COPY " ++
      js "SYSRES_CONST_ACTION_TYPE_CREATE " ++ js "SYSRES_CONST_ACTION_TYPE_CREATE_VERSION " ++
      js "SYSRES_CONST_ACTION_TYPE_DELETE " ++ js "SYSRES_CONST_ACTION_TYPE_DELETE_ATTACHMENT " ++
      js "SYSRES_CONST_ACTION_TYPE_DELETE_VERSION " ++
      js "SYSRES_CONST_ACTION_TYPE_DISABLE_DELEGATE_ACCESS_RIGHTS " ++
      js "SYSRES_CONST_ACTION_TYPE_ENABLE_DELEGATE_ACCESS_RIGHTS " ++
      js "SYSRES_CONST_ACTION_TYPE_ENCRYPTION_BY_CERTIFICATE " ++
      js "SYSRES_CONST_ACTION_TYPE_ENCRYPTION_BY_CERTIFICATE_AND_PASSWORD " ++
      js "SYSRES_CONST_ACTION_TYPE_ENCRYPTION_BY_PASSWORD " ++
      js "SYSRES_CONST_ACTION_TYPE_EXPORT_WITH_LOCK " ++
      js "SYSRES_CONST_ACTION_TYPE_EXPORT_WITHOUT_LOCK " ++
      js "SYSRES_CONST_ACTION_TYPE_IMPORT_WITH_UNLOCK " ++
      js "SYSRES_CONST_ACTION_TYPE_IMPORT_WITHOUT_UNLOCK " ++
      js "SYSRES_CONST_ACTION_TYPE_LIFE_CYCLE_STAGE " ++ js "SYSRES_CONST_ACTION_TYPE_LOCK " ++
      js "SYSRES_CONST_ACTION_TYPE_LOCK_FOR_SERVER " ++
      js "SYSRES_CONST_ACTION_TYPE_LOCK_MODIFY " ++ js "SYSRES_CONST_ACTION_TYPE_MARK_AS_READED " ++
      js "SYSRES_CONST_ACTION_TYPE_MARK_AS_UNREADED " ++ js "SYSRES_CONST_ACTION_TYPE_MODIFY " ++
      js "SYSRES_CONST_ACTION_TYPE_MODIFY_CARD " ++
      js "SYSRES_CONST_ACTION_TYPE_MOVE_TO_ARCHIVE " ++
      js "SYSRES_CONST_ACTION_TYPE_OFF_ENCRYPTION " ++
      js "SYSRES_CONST_ACTION_TYPE_PASSWORD_CHANGE " ++ js "SYSRES_CONST_ACTION_TYPE_PERFORM " ++
      js "SYSRES_CONST_ACTION_TYPE_RECOVER_FROM_LOCAL_COPY " ++
      js "SYSRES_CONST_ACTION_TYPE_RESTART " ++
      js "SYSRES_CONST_ACTION_TYPE_RESTORE_FROM_ARCHIVE " ++
      js "SYSRES_CONST_ACTION_TYPE_REVISION " ++ js "SYSRES_CONST_ACTION_TYPE_SEND_BY_MAIL " ++
      js "SYSRES_CONST_ACTION_TYPE_SIGN " ++ js "SYSRES_CONST_ACTION_TYPE_START " ++
      js "SYSRES_CONST_ACTION_TYPE_UNLOCK " ++ js "SYSRES_CONST_ACTION_TYPE_UNLOCK_FROM_SERVER " ++
      js "SYSRES_CONST_ACTION_TYPE_VERSION_STATE " ++
      js "SYSRES_CONST_ACTION_TYPE_VERSION_VISIBILITY " ++ js "SYSRES_CONST_ACTION_TYPE_VIEW " ++
      js "SYSRES_CONST_ACTION_TYPE_VIEW_SHADOW_COPY " ++
      js "SYSRES_CONST_ACTION_TYPE_WORKFLOW_DESCRIPTION_MODIFY " ++
      js "SYSRES_CONST_ACTION_TYPE_WRITE_HISTORY " ++
      js "SYSRES_CONST_ACTIVE_VERSION_STATE_PICK_VALUE " ++
      js "SYSRES_CONST_ADD_REFERENCE_MODE_NAME " ++ js "SYSRES_CONST_ADDITION_REQUISITE_CODE " ++
      js "SYSRES_CONST_ADDITIONAL_PARAMS_REQUISITE_CODE " ++
      js "SYSRES_CONST_ADITIONAL_JOB_END_DATE_REQUISITE_NAME " ++
      js "SYSRES_CONST_ADITIONAL_JOB_READ_REQUISITE_NAME " ++
      js "SYSRES_CONST_ADITIONAL_JOB_START_DATE_REQUISITE_NAME " ++
      js "SYSRES_CONST_ADITIONAL_JOB_STATE_REQUISITE_NAME " ++
      js "SYSRES_CONST_ADMINISTRATION_HISTORY_ADDING_USER_TO_GROUP_ACTION " ++
      js "SYSRES_CONST_ADMINISTRATION_HISTORY_ADDING_USER_TO_GROUP_ACTION_CODE " ++
      js "SYSRES_CONST_ADMINISTRATION_HISTORY_CREATION_COMP_ACTION " ++
      js "SYSRES_CONST_ADMINISTRATION_HISTORY_CREATION_COMP_ACTION_CODE " ++
      js "SYSRES_CONST_ADMINISTRATION_HISTORY_CREATION_GROUP_ACTION " ++
      js "SYSRES_CONST_ADMINISTRATION_HISTORY_CREATION_GROUP_ACTION_CODE " ++
      js "SYSRES_CONST_ADMINISTRATION_HISTORY_CREATION_USER_ACTION " ++
      js "SYSRES_CONST_ADMINISTRATION_HISTORY_CREATION_USER_ACTION_CODE " ++
      js "SYSRES_CONST_ADMINISTRATION_HISTORY_DATABASE_USER_CREATION " ++
      js "SYSRES_CONST_ADMINISTRATION_HISTORY_DATABASE_USER_CREATION_ACTION " ++
      js "SYSRES_CONST_ADMINISTRATION_HISTORY_DATABASE_USER_DELETION " ++
      js "SYSRES_CONST_ADMINISTRATION_HISTORY_DATABASE_USER_DELETION_ACTION " ++
      js "SYSRES_CONST_ADMINISTRATION_HISTORY_DELETION_COMP_ACTION " ++
      js "SYSRES_CONST_ADMINISTRATION_HISTORY_DELETION_COMP_ACTION_CODE " ++
      js "SYSRES_CONST_ADMINISTRATION_HISTORY_DELETION_GROUP_ACTION " ++
      js "SYSRES_CONST_ADMINISTRATION_HISTORY_DELETION_GROUP_ACTION_CODE " ++
      js "SYSRES_CONST_ADMINISTRATION_HISTORY_DELETION_USER_ACTION " ++
      js "SYSRES_CONST_ADMINISTRATION_HISTORY_DELETION_USER_ACTION_CODE " ++
      js "SYSRES_CONST_ADMINISTRATION_HISTORY_DELETION_USER_FROM_GROUP_ACTION " ++
      js "SYSRES_CONST_ADMINISTRATION_HISTORY_DELETION_USER_FROM_GROUP_ACTION_CODE " ++
      js "SYSRES_CONST_ADMINISTRATION_HISTORY_GRANTING_FILTERER_ACTION " ++
      js "SYSRES_CONST_ADMINISTRATION_HISTORY_GRANTING_FILTERER_ACTION_CODE " ++
      js "SYSRES_CONST_ADMINISTRATION_HISTORY_GRANTING_FILTERER_RESTRICTION_ACTION " ++
      js "SYSRES_CONST_ADMINISTRATION_HISTORY_GRANTING_FILTERER_RESTRICTION_ACTION_CODE " ++
      js "SYSRES_CONST_ADMINISTRATION_HISTORY_GRANTING_PRIVILEGE_ACTION " ++
      js "SYSRES_CONST_ADMINISTRATION_HISTORY_GRANTING_PRIVILEGE_ACTION_CODE " ++
      js "SYSRES_CONST_ADMINISTRATION_HISTORY_GRANTING_RIGHTS_ACTION " ++
      js "SYSRES_CONST_ADMINISTRATION_HISTORY_GRANTING_RIGHTS_ACTION_CODE " ++
      js "SYSRES_CONST_ADMINISTRATION_HISTORY_IS_MAIN_SERVER_CHANGED_ACTION " ++
      js "SYSRES_CONST_ADMINISTRATION_HISTORY_IS_MAIN_SERVER_CHANGED_ACTION_CODE " ++
      js "SYSRES_CONST_ADMINISTRATION_HISTORY_IS_PUBLIC_CHANGED_ACTION " ++
      js "SYSRES_CONST_ADMINISTRATION_HISTORY_IS_PUBLIC_CHANGED_ACTION_CODE " ++
      js "SYSRES_CONST_ADMINISTRATION_HISTORY_REMOVING_FILTERER_ACTION " ++
      js "SYSRES_CONST_ADMINISTRATION_HISTORY_REMOVING_FILTERER_ACTION_CODE " ++
      js "SYSRES_CONST_ADMINISTRATION_HISTORY_REMOVING_FILTERER_RESTRICTION_ACTION " ++
      js "SYSRES_CONST_ADMINISTRATION_HISTORY_REMOVING_FILTERER_RESTRICTION_ACTION_CODE " ++
      js "SYSRES_CONST_ADMINISTRATION_HISTORY_REMOVING_PRIVILEGE_ACTION " ++
      js "SYSRES_CONST_ADMINISTRATION_HISTORY_REMOVING_PRIVILEGE_ACTION_CODE " ++
      js "SYSRES_CONST_ADMINISTRATION_HISTORY_REMOVING_RIGHTS_ACTION " ++
      js "SYSRES_CONST_ADMINISTRATION_HISTORY_REMOVING_RIGHTS_ACTION_CODE " ++
      js "SYSRES_CONST_ADMINISTRATION_HISTORY_SERVER_LOGIN_CREATION " ++
      js "SYSRES_CONST_ADMINISTRATION_HISTORY_SERVER_LOGIN_CREATION_ACTION " ++
      js "SYSRES_CONST_ADMINISTRATION_HISTORY_SERVER_LOGIN_DELETION " ++
      js "SYSRES_CONST_ADMINISTRATION_HISTORY_SERVER_LOGIN_DELETION_ACTION " ++
      js "SYSRES_CONST_ADMINISTRATION_HISTORY_UPDATING_CATEGORY_ACTION " ++
      js "SYSRES_CONST_ADMINISTRATION_HISTORY_UPDATING_CATEGORY_ACTION_CODE " ++
      js "SYSRES_CONST_ADMINISTRATION_HISTORY_UPDATING_COMP_TITLE_ACTION " ++
      js "SYSRES_CONST_ADMINISTRATION_HISTORY_UPDATING_COMP_TITLE_ACTION_CODE " ++
      js "SYSRES_CONST_ADMINISTRATION_HISTORY_UPDATING_FULL_NAME_ACTION " ++
      js "SYSRES_CONST_ADMINISTRATION_HISTORY_UPDATING_FULL_NAME_ACTION_CODE " ++
      js "SYSRES_CONST_ADMINISTRATION_HISTORY_UPDATING_GROUP_ACTION ".

Definition lang_isbl_sysres_constants_2 : jsstr :=
  js "SYSRES_CONST_ADMINISTRATION_HISTORY_UPDATING_GROUP_ACTION_CODE " ++
      js "SYSRES_CONST_ADMINISTRATION_HISTORY_UPDATING_PARENT_GROUP_ACTION " ++
      js "SYSRES_CONST_ADMINISTRATION_HISTORY_UPDATING_PARENT_GROUP_ACTION_CODE " ++
      js "SYSRES_CONST_ADMINISTRATION_HISTORY_UPDATING_USER_AUTH_TYPE_ACTION " ++
      js "SYSRES_CONST_ADMINISTRATION_HISTORY_UPDATING_USER_AUTH_TYPE_ACTION_CODE " ++
      js "SYSRES_CONST_ADMINISTRATION_HISTORY_UPDATING_USER_LOGIN_ACTION " ++
      js "SYSRES_CONST_ADMINISTRATION_HISTORY_UPDATING_USER_LOGIN_ACTION_CODE " ++
      js "SYSRES_CONST_ADMINISTRATION_HISTORY_UPDATING_USER_STATUS_ACTION " ++
      js "SYSRES_CONST_ADMINISTRATION_HISTORY_UPDATING_USER_STATUS_ACTION_CODE " ++
      js "SYSRES_CONST_ADMINISTRATION_HISTORY_USER_PASSWORD_CHANGE " ++
      js "SYSRES_CONST_ADMINISTRATION_HISTORY_USER_PASSWORD_CHANGE_ACTION " ++
      js "SYSRES_CONST_ALL_ACCEPT_CONDITION_RUS " ++ js "SYSRES_CONST_ALL_USERS_GROUP " ++
      js "SYSRES_CONST_ALL_USERS_GROUP_NAME " ++ js "SYSRES_CONST_ALL_USERS_SERVER_GROUP_NAME " ++
      js "SYSRES_CONST_ALLOWED_ACCESS_TYPE_CODE " ++ js "SYSRES_CONST_ALLOWED_ACCESS_TYPE_NAME " ++
      js "SYSRES_CONST_APP_VIEWER_TYPE_REQUISITE_CODE " ++
      js "SYSRES_CONST_APPROVING_SIGNATURE_NAME " ++
      js "SYSRES_CONST_APPROVING_SIGNATURE_REQUISITE_CODE " ++
      js "SYSRES_CONST_ASSISTANT_SUBSTITUE_TYPE " ++
      js "SYSRES_CONST_ASSISTANT_SUBSTITUE_TYPE_CODE " ++
      js "SYSRES_CONST_ATTACH_TYPE_COMPONENT_TOKEN " ++ js "SYSRES_CONST_ATTACH_TYPE_DOC " ++
      js "SYSRES_CONST_ATTACH_TYPE_EDOC " ++ js "SYSRES_CONST_ATTACH_TYPE_FOLDER " ++
      js "SYSRES_CONST_ATTACH_TYPE_JOB " ++ js "SYSRES_CONST_ATTACH_TYPE_REFERENCE " ++
      js "SYSRES_CONST_ATTACH_TYPE_TASK " ++ js "SYSRES_CONST_AUTH_ENCODED_PASSWORD " ++
      js "SYSRES_CONST_AUTH_ENCODED_PASSWORD_CODE " ++ js "SYSRES_CONST_AUTH_NOVELL " ++
      js "SYSRES_CONST_AUTH_PASSWORD " ++ js "SYSRES_CONST_AUTH_PASSWORD_CODE " ++
      js "SYSRES_CONST_AUTH_WINDOWS " ++ js "SYSRES_CONST_AUTHENTICATING_SIGNATURE_NAME " ++
      js "SYSRES_CONST_AUTHENTICATING_SIGNATURE_REQUISITE_CODE " ++
      js "SYSRES_CONST_AUTO_ENUM_METHOD_FLAG " ++ js "SYSRES_CONST_AUTO_NUMERATION_CODE " ++
      js "SYSRES_CONST_AUTO_STRONG_ENUM_METHOD_FLAG " ++
      js "SYSRES_CONST_AUTOTEXT_NAME_REQUISITE_CODE " ++
      js "SYSRES_CONST_AUTOTEXT_TEXT_REQUISITE_CODE " ++ js "SYSRES_CONST_AUTOTEXT_USAGE_ALL " ++
      js "SYSRES_CONST_AUTOTEXT_USAGE_ALL_CODE " ++ js "SYSRES_CONST_AUTOTEXT_USAGE_SIGN " ++
      js "SYSRES_CONST_AUTOTEXT_USAGE_SIGN_CODE " ++ js "SYSRES_CONST_AUTOTEXT_USAGE_WORK " ++
      js "SYSRES_CONST_AUTOTEXT_USAGE_WORK_CODE " ++
      js "SYSRES_CONST_AUTOTEXT_USE_ANYWHERE_CODE " ++
      js "SYSRES_CONST_AUTOTEXT_USE_ON_SIGNING_CODE " ++
      js "SYSRES_CONST_AUTOTEXT_USE_ON_WORK_CODE " ++
      js "SYSRES_CONST_BEGIN_DATE_REQUISITE_CODE " ++
      js "SYSRES_CONST_BLACK_LIFE_CYCLE_STAGE_FONT_COLOR " ++
      js "SYSRES_CONST_BLUE_LIFE_CYCLE_STAGE_FONT_COLOR " ++ js "SYSRES_CONST_BTN_PART " ++
      js "SYSRES_CONST_CALCULATED_ROLE_TYPE_CODE " ++
      js "SYSRES_CONST_CALL_TYPE_VARIABLE_BUTTON_VALUE " ++
      js "SYSRES_CONST_CALL_TYPE_VARIABLE_PROGRAM_VALUE " ++
      js "SYSRES_CONST_CANCEL_MESSAGE_FUNCTION_RESULT " ++ js "SYSRES_CONST_CARD_PART " ++
      js "SYSRES_CONST_CARD_REFERENCE_MODE_NAME " ++
      js "SYSRES_CONST_CERTIFICATE_TYPE_REQUISITE_ENCRYPT_VALUE " ++
      js "SYSRES_CONST_CERTIFICATE_TYPE_REQUISITE_SIGN_AND_ENCRYPT_VALUE " ++
      js "SYSRES_CONST_CERTIFICATE_TYPE_REQUISITE_SIGN_VALUE " ++
      js "SYSRES_CONST_CHECK_PARAM_VALUE_DATE_PARAM_TYPE " ++
      js "SYSRES_CONST_CHECK_PARAM_VALUE_FLOAT_PARAM_TYPE " ++
      js "SYSRES_CONST_CHECK_PARAM_VALUE_INTEGER_PARAM_TYPE " ++
      js "SYSRES_CONST_CHECK_PARAM_VALUE_PICK_PARAM_TYPE " ++
      js "SYSRES_CONST_CHECK_PARAM_VALUE_REEFRENCE_PARAM_TYPE " ++
      js "SYSRES_CONST_CLOSED_RECORD_FLAG_VALUE_FEMININE " ++
      js "SYSRES_CONST_CLOSED_RECORD_FLAG_VALUE_MASCULINE " ++
      js "SYSRES_CONST_CODE_COMPONENT_TYPE_ADMIN " ++
      js "SYSRES_CONST_CODE_COMPONENT_TYPE_DEVELOPER " ++
      js "SYSRES_CONST_CODE_COMPONENT_TYPE_DOCS " ++
      js "SYSRES_CONST_CODE_COMPONENT_TYPE_EDOC_CARDS " ++
      js "SYSRES_CONST_CODE_COMPONENT_TYPE_EXTERNAL_EXECUTABLE " ++
      js "SYSRES_CONST_CODE_COMPONENT_TYPE_OTHER " ++
      js "SYSRES_CONST_CODE_COMPONENT_TYPE_REFERENCE " ++
      js "SYSRES_CONST_CODE_COMPONENT_TYPE_REPORT " ++
      js "SYSRES_CONST_CODE_COMPONENT_TYPE_SCRIPT " ++ js "SYSRES_CONST_CODE_COMPONENT_TYPE_URL " ++
      js "SYSRES_CONST_CODE_REQUISITE_ACCESS " ++ js "SYSRES_CONST_CODE_REQUISITE_CODE " ++
      js "SYSRES_CONST_CODE_REQUISITE_COMPONENT " ++
      js "SYSRES_CONST_CODE_REQUISITE_DESCRIPTION " ++
      js "SYSRES_CONST_CODE_REQUISITE_EXCLUDE_COMPONENT " ++
      js "SYSRES_CONST_CODE_REQUISITE_RECORD " ++ js "SYSRES_CONST_COMMENT_REQ_CODE " ++
      js "SYSRES_CONST_COMMON_SETTINGS_REQUISITE_CODE " ++ js "SYSRES_CONST_COMP_CODE_GRD " ++
      js "SYSRES_CONST_COMPONENT_GROUP_TYPE_REQUISITE_CODE " ++
      js "SYSRES_CONST_COMPONENT_TYPE_ADMIN_COMPONENTS " ++
      js "SYSRES_CONST_COMPONENT_TYPE_DEVELOPER_COMPONENTS " ++
      js "SYSRES_CONST_COMPONENT_TYPE_DOCS " ++ js "SYSRES_CONST_COMPONENT_TYPE_EDOC_CARDS " ++
      js "SYSRES_CONST_COMPONENT_TYPE_EDOCS " ++
      js "SYSRES_CONST_COMPONENT_TYPE_EXTERNAL_EXECUTABLE " ++
      js "SYSRES_CONST_COMPONENT_TYPE_OTHER " ++
      js "SYSRES_CONST_COMPONENT_TYPE_REFERENCE_TYPES " ++
      js "SYSRES_CONST_COMPONENT_TYPE_REFERENCES " ++ js "SYSRES_CONST_COMPONENT_TYPE_REPORTS " ++
      js "SYSRES_CONST_COMPONENT_TYPE_SCRIPTS " ++ js "SYSRES_CONST_COMPONENT_TYPE_URL " ++
      js "SYSRES_CONST_COMPONENTS_REMOTE_SERVERS_VIEW_CODE " ++
      js "SYSRES_CONST_CONDITION_BLOCK_DESCRIPTION " ++
      js "SYSRES_CONST_CONST_FIRM_STATUS_COMMON " ++
      js "SYSRES_CONST_CONST_FIRM_STATUS_INDIVIDUAL " ++ js "SYSRES_CONST_CONST_NEGATIVE_VALUE " ++
      js "SYSRES_CONST_CONST_POSITIVE_VALUE " ++
      js "SYSRES_CONST_CONST_SERVER_STATUS_DONT_REPLICATE " ++
      js "SYSRES_CONST_CONST_SERVER_STATUS_REPLICATE " ++
      js "SYSRES_CONST_CONTENTS_REQUISITE_CODE " ++ js "SYSRES_CONST_DATA_TYPE_BOOLEAN " ++
      js "SYSRES_CONST_DATA_TYPE_DATE " ++ js "SYSRES_CONST_DATA_TYPE_FLOAT " ++
      js "SYSRES_CONST_DATA_TYPE_INTEGER " ++ js "SYSRES_CONST_DATA_TYPE_PICK " ++
      js "SYSRES_CONST_DATA_TYPE_REFERENCE " ++ js "SYSRES_CONST_DATA_TYPE_STRING " ++
      js "SYSRES_CONST_DATA_TYPE_TEXT " ++ js "SYSRES_CONST_DATA_TYPE_VARIANT " ++
      js "SYSRES_CONST_DATE_CLOSE_REQ_CODE " ++ js "SYSRES_CONST_DATE_FORMAT_DATE_ONLY_CHAR " ++
      js "SYSRES_CONST_DATE_OPEN_REQ_CODE " ++ js "SYSRES_CONST_DATE_REQUISITE " ++
      js "SYSRES_CONST_DATE_REQUISITE_CODE " ++ js "SYSRES_CONST_DATE_REQUISITE_NAME " ++
      js "SYSRES_CONST_DATE_REQUISITE_TYPE " ++ js "SYSRES_CONST_DATE_TYPE_CHAR " ++
      js "SYSRES_CONST_DATETIME_FORMAT_VALUE " ++
      js "SYSRES_CONST_DEA_ACCESS_RIGHTS_ACTION_CODE " ++
      js "SYSRES_CONST_DESCRIPTION_LOCALIZE_ID_REQUISITE_CODE " ++
      js "SYSRES_CONST_DESCRIPTION_REQUISITE_CODE " ++ js "SYSRES_CONST_DET1_PART " ++
      js "SYSRES_CONST_DET2_PART " ++ js "SYSRES_CONST_DET3_PART " ++
      js "SYSRES_CONST_DET4_PART " ++ js "SYSRES_CONST_DET5_PART " ++
      js "SYSRES_CONST_DET6_PART " ++ js "SYSRES_CONST_DETAIL_DATASET_KEY_REQUISITE_CODE ".

Definition lang_isbl_sysres_constants_3 : jsstr :=
  js "SYSRES_CONST_DETAIL_PICK_REQUISITE_CODE " ++ js "SYSRES_CONST_DETAIL_REQ_CODE " ++
      js "SYSRES_CONST_DO_NOT_USE_ACCESS_TYPE_CODE " ++
      js "SYSRES_CONST_DO_NOT_USE_ACCESS_TYPE_NAME " ++
      js "SYSRES_CONST_DO_NOT_USE_ON_VIEW_ACCESS_TYPE_CODE " ++
      js "SYSRES_CONST_DO_NOT_USE_ON_VIEW_ACCESS_TYPE_NAME " ++
      js "SYSRES_CONST_DOCUMENT_STORAGES_CODE " ++
      js "SYSRES_CONST_DOCUMENT_TEMPLATES_TYPE_NAME " ++ js "SYSRES_CONST_DOUBLE_REQUISITE_CODE " ++
      js "SYSRES_CONST_EDITOR_CLOSE_FILE_OBSERV_TYPE_CODE " ++
      js "SYSRES_CONST_EDITOR_CLOSE_PROCESS_OBSERV_TYPE_CODE " ++
      js "SYSRES_CONST_EDITOR_TYPE_REQUISITE_CODE " ++
      js "SYSRES_CONST_EDITORS_APPLICATION_NAME_REQUISITE_CODE " ++
      js "SYSRES_CONST_EDITORS_CREATE_SEVERAL_PROCESSES_REQUISITE_CODE " ++
      js "SYSRES_CONST_EDITORS_EXTENSION_REQUISITE_CODE " ++
      js "SYSRES_CONST_EDITORS_OBSERVER_BY_PROCESS_TYPE " ++
      js "SYSRES_CONST_EDITORS_REFERENCE_CODE " ++
      js "SYSRES_CONST_EDITORS_REPLACE_SPEC_CHARS_REQUISITE_CODE " ++
      js "SYSRES_CONST_EDITORS_USE_PLUGINS_REQUISITE_CODE " ++
      js "SYSRES_CONST_EDITORS_VIEW_DOCUMENT_OPENED_TO_EDIT_CODE " ++
      js "SYSRES_CONST_EDOC_CARD_TYPE_REQUISITE_CODE " ++
      js "SYSRES_CONST_EDOC_CARD_TYPES_LINK_REQUISITE_CODE " ++
      js "SYSRES_CONST_EDOC_CERTIFICATE_AND_PASSWORD_ENCODE_CODE " ++
      js "SYSRES_CONST_EDOC_CERTIFICATE_ENCODE_CODE " ++
      js "SYSRES_CONST_EDOC_DATE_REQUISITE_CODE " ++ js "SYSRES_CONST_EDOC_KIND_REFERENCE_CODE " ++
      js "SYSRES_CONST_EDOC_KINDS_BY_TEMPLATE_ACTION_CODE " ++
      js "SYSRES_CONST_EDOC_MANAGE_ACCESS_CODE " ++ js "SYSRES_CONST_EDOC_NONE_ENCODE_CODE " ++
      js "SYSRES_CONST_EDOC_NUMBER_REQUISITE_CODE " ++
      js "SYSRES_CONST_EDOC_PASSWORD_ENCODE_CODE " ++
      js "SYSRES_CONST_EDOC_READONLY_ACCESS_CODE " ++
      js "SYSRES_CONST_EDOC_SHELL_LIFE_TYPE_VIEW_VALUE " ++
      js "SYSRES_CONST_EDOC_SIZE_RESTRICTION_PRIORITY_REQUISITE_CODE " ++
      js "SYSRES_CONST_EDOC_STORAGE_CHECK_ACCESS_RIGHTS_REQUISITE_CODE " ++
      js "SYSRES_CONST_EDOC_STORAGE_COMPUTER_NAME_REQUISITE_CODE " ++
      js "SYSRES_CONST_EDOC_STORAGE_DATABASE_NAME_REQUISITE_CODE " ++
      js "SYSRES_CONST_EDOC_STORAGE_EDIT_IN_STORAGE_REQUISITE_CODE " ++
      js "SYSRES_CONST_EDOC_STORAGE_LOCAL_PATH_REQUISITE_CODE " ++
      js "SYSRES_CONST_EDOC_STORAGE_SHARED_SOURCE_NAME_REQUISITE_CODE " ++
      js "SYSRES_CONST_EDOC_TEMPLATE_REQUISITE_CODE " ++
      js "SYSRES_CONST_EDOC_TYPES_REFERENCE_CODE " ++
      js "SYSRES_CONST_EDOC_VERSION_ACTIVE_STAGE_CODE " ++
      js "SYSRES_CONST_EDOC_VERSION_DESIGN_STAGE_CODE " ++
      js "SYSRES_CONST_EDOC_VERSION_OBSOLETE_STAGE_CODE " ++
      js "SYSRES_CONST_EDOC_WRITE_ACCES_CODE " ++
      js "SYSRES_CONST_EDOCUMENT_CARD_REQUISITES_REFERENCE_CODE_SELECTED_REQUISITE " ++
      js "SYSRES_CONST_ENCODE_CERTIFICATE_TYPE_CODE " ++
      js "SYSRES_CONST_END_DATE_REQUISITE_CODE " ++
      js "SYSRES_CONST_ENUMERATION_TYPE_REQUISITE_CODE " ++
      js "SYSRES_CONST_EXECUTE_ACCESS_RIGHTS_TYPE_CODE " ++
      js "SYSRES_CONST_EXECUTIVE_FILE_STORAGE_TYPE " ++ js "SYSRES_CONST_EXIST_CONST " ++
      js "SYSRES_CONST_EXIST_VALUE " ++ js "SYSRES_CONST_EXPORT_LOCK_TYPE_ASK " ++
      js "SYSRES_CONST_EXPORT_LOCK_TYPE_WITH_LOCK " ++
      js "SYSRES_CONST_EXPORT_LOCK_TYPE_WITHOUT_LOCK " ++
      js "SYSRES_CONST_EXPORT_VERSION_TYPE_ASK " ++ js "SYSRES_CONST_EXPORT_VERSION_TYPE_LAST " ++
      js "SYSRES_CONST_EXPORT_VERSION_TYPE_LAST_ACTIVE " ++
      js "SYSRES_CONST_EXTENSION_REQUISITE_CODE " ++
      js "SYSRES_CONST_FILTER_NAME_REQUISITE_CODE " ++ js "SYSRES_CONST_FILTER_REQUISITE_CODE " ++
      js "SYSRES_CONST_FILTER_TYPE_COMMON_CODE " ++ js "SYSRES_CONST_FILTER_TYPE_COMMON_NAME " ++
      js "SYSRES_CONST_FILTER_TYPE_USER_CODE " ++ js "SYSRES_CONST_FILTER_TYPE_USER_NAME " ++
      js "SYSRES_CONST_FILTER_VALUE_REQUISITE_NAME " ++
      js "SYSRES_CONST_FLOAT_NUMBER_FORMAT_CHAR " ++ js "SYSRES_CONST_FLOAT_REQUISITE_TYPE " ++
      js "SYSRES_CONST_FOLDER_AUTHOR_VALUE " ++ js "SYSRES_CONST_FOLDER_KIND_ANY_OBJECTS " ++
      js "SYSRES_CONST_FOLDER_KIND_COMPONENTS " ++ js "SYSRES_CONST_FOLDER_KIND_EDOCS " ++
      js "SYSRES_CONST_FOLDER_KIND_JOBS " ++ js "SYSRES_CONST_FOLDER_KIND_TASKS " ++
      js "SYSRES_CONST_FOLDER_TYPE_COMMON " ++ js "SYSRES_CONST_FOLDER_TYPE_COMPONENT " ++
      js "SYSRES_CONST_FOLDER_TYPE_FAVORITES " ++ js "SYSRES_CONST_FOLDER_TYPE_INBOX " ++
      js "SYSRES_CONST_FOLDER_TYPE_OUTBOX " ++ js "SYSRES_CONST_FOLDER_TYPE_QUICK_LAUNCH " ++
      js "SYSRES_CONST_FOLDER_TYPE_SEARCH " ++ js "SYSRES_CONST_FOLDER_TYPE_SHORTCUTS " ++
      js "SYSRES_CONST_FOLDER_TYPE_USER " ++ js "SYSRES_CONST_FROM_DICTIONARY_ENUM_METHOD_FLAG " ++
      js "SYSRES_CONST_FULL_SUBSTITUTE_TYPE " ++ js "SYSRES_CONST_FULL_SUBSTITUTE_TYPE_CODE " ++
      js "SYSRES_CONST_FUNCTION_CANCEL_RESULT " ++ js "SYSRES_CONST_FUNCTION_CATEGORY_SYSTEM " ++
      js "SYSRES_CONST_FUNCTION_CATEGORY_USER " ++ js "SYSRES_CONST_FUNCTION_FAILURE_RESULT " ++
      js "SYSRES_CONST_FUNCTION_SAVE_RESULT " ++ js "SYSRES_CONST_GENERATED_REQUISITE " ++
      js "SYSRES_CONST_GREEN_LIFE_CYCLE_STAGE_FONT_COLOR " ++
      js "SYSRES_CONST_GROUP_ACCOUNT_TYPE_VALUE_CODE " ++
      js "SYSRES_CONST_GROUP_CATEGORY_NORMAL_CODE " ++
      js "SYSRES_CONST_GROUP_CATEGORY_NORMAL_NAME " ++
      js "SYSRES_CONST_GROUP_CATEGORY_SERVICE_CODE " ++
      js "SYSRES_CONST_GROUP_CATEGORY_SERVICE_NAME " ++
      js "SYSRES_CONST_GROUP_COMMON_CATEGORY_FIELD_VALUE " ++
      js "SYSRES_CONST_GROUP_FULL_NAME_REQUISITE_CODE " ++
      js "SYSRES_CONST_GROUP_NAME_REQUISITE_CODE " ++
      js "SYSRES_CONST_GROUP_RIGHTS_T_REQUISITE_CODE " ++
      js "SYSRES_CONST_GROUP_SERVER_CODES_REQUISITE_CODE " ++
      js "SYSRES_CONST_GROUP_SERVER_NAME_REQUISITE_CODE " ++
      js "SYSRES_CONST_GROUP_SERVICE_CATEGORY_FIELD_VALUE " ++
      js "SYSRES_CONST_GROUP_USER_REQUISITE_CODE " ++ js "SYSRES_CONST_GROUPS_REFERENCE_CODE " ++
      js "SYSRES_CONST_GROUPS_REQUISITE_CODE " ++ js "SYSRES_CONST_HIDDEN_MODE_NAME " ++
      js "SYSRES_CONST_HIGH_LVL_REQUISITE_CODE " ++ js "SYSRES_CONST_HISTORY_ACTION_CREATE_CODE " ++
      js "SYSRES_CONST_HISTORY_ACTION_DELETE_CODE " ++
      js "SYSRES_CONST_HISTORY_ACTION_EDIT_CODE " ++ js "SYSRES_CONST_HOUR_CHAR " ++
      js "SYSRES_CONST_ID_REQUISITE_CODE " ++ js "SYSRES_CONST_IDSPS_REQUISITE_CODE " ++
      js "SYSRES_CONST_IMAGE_MODE_COLOR " ++ js "SYSRES_CONST_IMAGE_MODE_GREYSCALE " ++
      js "SYSRES_CONST_IMAGE_MODE_MONOCHROME " ++ js "SYSRES_CONST_IMPORTANCE_HIGH " ++
      js "SYSRES_CONST_IMPORTANCE_LOW " ++ js "SYSRES_CONST_IMPORTANCE_NORMAL " ++
      js "SYSRES_CONST_IN_DESIGN_VERSION_STATE_PICK_VALUE " ++
      js "SYSRES_CONST_INCOMING_WORK_RULE_TYPE_CODE " ++ js "SYSRES_CONST_INT_REQUISITE " ++
      js "SYSRES_CONST_INT_REQUISITE_TYPE " ++ js "SYSRES_CONST_INTEGER_NUMBER_FORMAT_CHAR " ++
      js "SYSRES_CONST_INTEGER_TYPE_CHAR " ++
      js "SYSRES_CONST_IS_GENERATED_REQUISITE_NEGATIVE_VALUE " ++
      js "SYSRES_CONST_IS_PUBLIC_ROLE_REQUISITE_CODE " ++
      js "SYSRES_CONST_IS_REMOTE_USER_NEGATIVE_VALUE " ++
      js "SYSRES_CONST_IS_REMOTE_USER_POSITIVE_VALUE " ++
      js "SYSRES_CONST_IS_STORED_REQUISITE_NEGATIVE_VALUE " ++
      js "SYSRES_CONST_IS_STORED_REQUISITE_STORED_VALUE " ++
      js "SYSRES_CONST_ITALIC_LIFE_CYCLE_STAGE_DRAW_STYLE " ++
      js "SYSRES_CONST_JOB_BLOCK_DESCRIPTION " ++ js "SYSRES_CONST_JOB_KIND_CONTROL_JOB " ++
      js "SYSRES_CONST_JOB_KIND_JOB ".

Definition lang_isbl_sysres_constants_4 : jsstr :=
  js "SYSRES_CONST_JOB_KIND_NOTICE " ++ js "SYSRES_CONST_JOB_STATE_ABORTED " ++
      js "SYSRES_CONST_JOB_STATE_COMPLETE " ++ js "SYSRES_CONST_JOB_STATE_WORKING " ++
      js "SYSRES_CONST_KIND_REQUISITE_CODE " ++ js "SYSRES_CONST_KIND_REQUISITE_NAME " ++
      js "SYSRES_CONST_KINDS_CREATE_SHADOW_COPIES_REQUISITE_CODE " ++
      js "SYSRES_CONST_KINDS_DEFAULT_EDOC_LIFE_STAGE_REQUISITE_CODE " ++
      js "SYSRES_CONST_KINDS_EDOC_ALL_TEPLATES_ALLOWED_REQUISITE_CODE " ++
      js "SYSRES_CONST_KINDS_EDOC_ALLOW_LIFE_CYCLE_STAGE_CHANGING_REQUISITE_CODE " ++
      js "SYSRES_CONST_KINDS_EDOC_ALLOW_MULTIPLE_ACTIVE_VERSIONS_REQUISITE_CODE " ++
      js "SYSRES_CONST_KINDS_EDOC_SHARE_ACCES_RIGHTS_BY_DEFAULT_CODE " ++
      js "SYSRES_CONST_KINDS_EDOC_TEMPLATE_REQUISITE_CODE " ++
      js "SYSRES_CONST_KINDS_EDOC_TYPE_REQUISITE_CODE " ++
      js "SYSRES_CONST_KINDS_SIGNERS_REQUISITES_CODE " ++ js "SYSRES_CONST_KOD_INPUT_TYPE " ++
      js "SYSRES_CONST_LAST_UPDATE_DATE_REQUISITE_CODE " ++
      js "SYSRES_CONST_LIFE_CYCLE_START_STAGE_REQUISITE_CODE " ++
      js "SYSRES_CONST_LILAC_LIFE_CYCLE_STAGE_FONT_COLOR " ++
      js "SYSRES_CONST_LINK_OBJECT_KIND_COMPONENT " ++
      js "SYSRES_CONST_LINK_OBJECT_KIND_DOCUMENT " ++ js "SYSRES_CONST_LINK_OBJECT_KIND_EDOC " ++
      js "SYSRES_CONST_LINK_OBJECT_KIND_FOLDER " ++ js "SYSRES_CONST_LINK_OBJECT_KIND_JOB " ++
      js "SYSRES_CONST_LINK_OBJECT_KIND_REFERENCE " ++ js "SYSRES_CONST_LINK_OBJECT_KIND_TASK " ++
      js "SYSRES_CONST_LINK_REF_TYPE_REQUISITE_CODE " ++
      js "SYSRES_CONST_LIST_REFERENCE_MODE_NAME " ++
      js "SYSRES_CONST_LOCALIZATION_DICTIONARY_MAIN_VIEW_CODE " ++
      js "SYSRES_CONST_MAIN_VIEW_CODE " ++ js "SYSRES_CONST_MANUAL_ENUM_METHOD_FLAG " ++
      js "SYSRES_CONST_MASTER_COMP_TYPE_REQUISITE_CODE " ++
      js "SYSRES_CONST_MASTER_TABLE_REC_ID_REQUISITE_CODE " ++
      js "SYSRES_CONST_MAXIMIZED_MODE_NAME " ++ js "SYSRES_CONST_ME_VALUE " ++
      js "SYSRES_CONST_MESSAGE_ATTENTION_CAPTION " ++
      js "SYSRES_CONST_MESSAGE_CONFIRMATION_CAPTION " ++ js "SYSRES_CONST_MESSAGE_ERROR_CAPTION " ++
      js "SYSRES_CONST_MESSAGE_INFORMATION_CAPTION " ++ js "SYSRES_CONST_MINIMIZED_MODE_NAME " ++
      js "SYSRES_CONST_MINUTE_CHAR " ++ js "SYSRES_CONST_MODULE_REQUISITE_CODE " ++
      js "SYSRES_CONST_MONITORING_BLOCK_DESCRIPTION " ++ js "SYSRES_CONST_MONTH_FORMAT_VALUE " ++
      js "SYSRES_CONST_NAME_LOCALIZE_ID_REQUISITE_CODE " ++
      js "SYSRES_CONST_NAME_REQUISITE_CODE " ++ js "SYSRES_CONST_NAME_SINGULAR_REQUISITE_CODE " ++
      js "SYSRES_CONST_NAMEAN_INPUT_TYPE " ++ js "SYSRES_CONST_NEGATIVE_PICK_VALUE " ++
      js "SYSRES_CONST_NEGATIVE_VALUE " ++ js "SYSRES_CONST_NO " ++
      js "SYSRES_CONST_NO_PICK_VALUE " ++ js "SYSRES_CONST_NO_SIGNATURE_REQUISITE_CODE " ++
      js "SYSRES_CONST_NO_VALUE " ++ js "SYSRES_CONST_NONE_ACCESS_RIGHTS_TYPE_CODE " ++
      js "SYSRES_CONST_NONOPERATING_RECORD_FLAG_VALUE " ++
      js "SYSRES_CONST_NONOPERATING_RECORD_FLAG_VALUE_MASCULINE " ++
      js "SYSRES_CONST_NORMAL_ACCESS_RIGHTS_TYPE_CODE " ++
      js "SYSRES_CONST_NORMAL_LIFE_CYCLE_STAGE_DRAW_STYLE " ++
      js "SYSRES_CONST_NORMAL_MODE_NAME " ++ js "SYSRES_CONST_NOT_ALLOWED_ACCESS_TYPE_CODE " ++
      js "SYSRES_CONST_NOT_ALLOWED_ACCESS_TYPE_NAME " ++ js "SYSRES_CONST_NOTE_REQUISITE_CODE " ++
      js "SYSRES_CONST_NOTICE_BLOCK_DESCRIPTION " ++ js "SYSRES_CONST_NUM_REQUISITE " ++
      js "SYSRES_CONST_NUM_STR_REQUISITE_CODE " ++ js "SYSRES_CONST_NUMERATION_AUTO_NOT_STRONG " ++
      js "SYSRES_CONST_NUMERATION_AUTO_STRONG " ++ js "SYSRES_CONST_NUMERATION_FROM_DICTONARY " ++
      js "SYSRES_CONST_NUMERATION_MANUAL " ++ js "SYSRES_CONST_NUMERIC_TYPE_CHAR " ++
      js "SYSRES_CONST_NUMREQ_REQUISITE_CODE " ++
      js "SYSRES_CONST_OBSOLETE_VERSION_STATE_PICK_VALUE " ++
      js "SYSRES_CONST_OPERATING_RECORD_FLAG_VALUE " ++
      js "SYSRES_CONST_OPERATING_RECORD_FLAG_VALUE_CODE " ++
      js "SYSRES_CONST_OPERATING_RECORD_FLAG_VALUE_FEMININE " ++
      js "SYSRES_CONST_OPERATING_RECORD_FLAG_VALUE_MASCULINE " ++
      js "SYSRES_CONST_OPTIONAL_FORM_COMP_REQCODE_PREFIX " ++
      js "SYSRES_CONST_ORANGE_LIFE_CYCLE_STAGE_FONT_COLOR " ++
      js "SYSRES_CONST_ORIGINALREF_REQUISITE_CODE " ++ js "SYSRES_CONST_OURFIRM_REF_CODE " ++
      js "SYSRES_CONST_OURFIRM_REQUISITE_CODE " ++ js "SYSRES_CONST_OURFIRM_VAR " ++
      js "SYSRES_CONST_OUTGOING_WORK_RULE_TYPE_CODE " ++ js "SYSRES_CONST_PICK_NEGATIVE_RESULT " ++
      js "SYSRES_CONST_PICK_POSITIVE_RESULT " ++ js "SYSRES_CONST_PICK_REQUISITE " ++
      js "SYSRES_CONST_PICK_REQUISITE_TYPE " ++ js "SYSRES_CONST_PICK_TYPE_CHAR " ++
      js "SYSRES_CONST_PLAN_STATUS_REQUISITE_CODE " ++
      js "SYSRES_CONST_PLATFORM_VERSION_COMMENT " ++
      js "SYSRES_CONST_PLUGINS_SETTINGS_DESCRIPTION_REQUISITE_CODE " ++
      js "SYSRES_CONST_POSITIVE_PICK_VALUE " ++ js "SYSRES_CONST_POWER_TO_CREATE_ACTION_CODE " ++
      js "SYSRES_CONST_POWER_TO_SIGN_ACTION_CODE " ++ js "SYSRES_CONST_PRIORITY_REQUISITE_CODE " ++
      js "SYSRES_CONST_QUALIFIED_TASK_TYPE " ++ js "SYSRES_CONST_QUALIFIED_TASK_TYPE_CODE " ++
      js "SYSRES_CONST_RECSTAT_REQUISITE_CODE " ++
      js "SYSRES_CONST_RED_LIFE_CYCLE_STAGE_FONT_COLOR " ++
      js "SYSRES_CONST_REF_ID_T_REF_TYPE_REQUISITE_CODE " ++ js "SYSRES_CONST_REF_REQUISITE " ++
      js "SYSRES_CONST_REF_REQUISITE_TYPE " ++
      js "SYSRES_CONST_REF_REQUISITES_REFERENCE_CODE_SELECTED_REQUISITE " ++
      js "SYSRES_CONST_REFERENCE_RECORD_HISTORY_CREATE_ACTION_CODE " ++
      js "SYSRES_CONST_REFERENCE_RECORD_HISTORY_DELETE_ACTION_CODE " ++
      js "SYSRES_CONST_REFERENCE_RECORD_HISTORY_MODIFY_ACTION_CODE " ++
      js "SYSRES_CONST_REFERENCE_TYPE_CHAR " ++ js "SYSRES_CONST_REFERENCE_TYPE_REQUISITE_NAME " ++
      js "SYSRES_CONST_REFERENCES_ADD_PARAMS_REQUISITE_CODE " ++
      js "SYSRES_CONST_REFERENCES_DISPLAY_REQUISITE_REQUISITE_CODE " ++
      js "SYSRES_CONST_REMOTE_SERVER_STATUS_WORKING " ++
      js "SYSRES_CONST_REMOTE_SERVER_TYPE_MAIN " ++
      js "SYSRES_CONST_REMOTE_SERVER_TYPE_SECONDARY " ++
      js "SYSRES_CONST_REMOTE_USER_FLAG_VALUE_CODE " ++
      js "SYSRES_CONST_REPORT_APP_EDITOR_INTERNAL " ++
      js "SYSRES_CONST_REPORT_BASE_REPORT_ID_REQUISITE_CODE " ++
      js "SYSRES_CONST_REPORT_BASE_REPORT_REQUISITE_CODE " ++
      js "SYSRES_CONST_REPORT_SCRIPT_REQUISITE_CODE " ++
      js "SYSRES_CONST_REPORT_TEMPLATE_REQUISITE_CODE " ++
      js "SYSRES_CONST_REPORT_VIEWER_CODE_REQUISITE_CODE " ++
      js "SYSRES_CONST_REQ_ALLOW_COMPONENT_DEFAULT_VALUE " ++
      js "SYSRES_CONST_REQ_ALLOW_RECORD_DEFAULT_VALUE " ++
      js "SYSRES_CONST_REQ_ALLOW_SERVER_COMPONENT_DEFAULT_VALUE " ++
      js "SYSRES_CONST_REQ_MODE_AVAILABLE_CODE " ++ js "SYSRES_CONST_REQ_MODE_EDIT_CODE " ++
      js "SYSRES_CONST_REQ_MODE_HIDDEN_CODE " ++ js "SYSRES_CONST_REQ_MODE_NOT_AVAILABLE_CODE " ++
      js "SYSRES_CONST_REQ_MODE_VIEW_CODE " ++ js "SYSRES_CONST_REQ_NUMBER_REQUISITE_CODE " ++
      js "SYSRES_CONST_REQ_SECTION_VALUE " ++ js "SYSRES_CONST_REQ_TYPE_VALUE " ++
      js "SYSRES_CONST_REQUISITE_FORMAT_BY_UNIT " ++
      js "SYSRES_CONST_REQUISITE_FORMAT_DATE_FULL " ++
      js "SYSRES_CONST_REQUISITE_FORMAT_DATE_TIME " ++ js "SYSRES_CONST_REQUISITE_FORMAT_LEFT " ++
      js "SYSRES_CONST_REQUISITE_FORMAT_RIGHT " ++
      js "SYSRES_CONST_REQUISITE_FORMAT_WITHOUT_UNIT " ++
      js "SYSRES_CONST_REQUISITE_NUMBER_REQUISITE_CODE " ++
      js "SYSRES_CONST_REQUISITE_SECTION_ACTIONS ".

Definition lang_isbl_sysres_constants_5 : jsstr :=
  js "SYSRES_CONST_REQUISITE_SECTION_BUTTON " ++ js "SYSRES_CONST_REQUISITE_SECTION_BUTTONS " ++
      js "SYSRES_CONST_REQUISITE_SECTION_CARD " ++ js "SYSRES_CONST_REQUISITE_SECTION_TABLE " ++
      js "SYSRES_CONST_REQUISITE_SECTION_TABLE10 " ++
      js "SYSRES_CONST_REQUISITE_SECTION_TABLE11 " ++
      js "SYSRES_CONST_REQUISITE_SECTION_TABLE12 " ++
      js "SYSRES_CONST_REQUISITE_SECTION_TABLE13 " ++
      js "SYSRES_CONST_REQUISITE_SECTION_TABLE14 " ++
      js "SYSRES_CONST_REQUISITE_SECTION_TABLE15 " ++
      js "SYSRES_CONST_REQUISITE_SECTION_TABLE16 " ++
      js "SYSRES_CONST_REQUISITE_SECTION_TABLE17 " ++
      js "SYSRES_CONST_REQUISITE_SECTION_TABLE18 " ++
      js "SYSRES_CONST_REQUISITE_SECTION_TABLE19 " ++ js "SYSRES_CONST_REQUISITE_SECTION_TABLE2 " ++
      js "SYSRES_CONST_REQUISITE_SECTION_TABLE20 " ++
      js "SYSRES_CONST_REQUISITE_SECTION_TABLE21 " ++
      js "SYSRES_CONST_REQUISITE_SECTION_TABLE22 " ++
      js "SYSRES_CONST_REQUISITE_SECTION_TABLE23 " ++
      js "SYSRES_CONST_REQUISITE_SECTION_TABLE24 " ++ js "SYSRES_CONST_REQUISITE_SECTION_TABLE3 " ++
      js "SYSRES_CONST_REQUISITE_SECTION_TABLE4 " ++ js "SYSRES_CONST_REQUISITE_SECTION_TABLE5 " ++
      js "SYSRES_CONST_REQUISITE_SECTION_TABLE6 " ++ js "SYSRES_CONST_REQUISITE_SECTION_TABLE7 " ++
      js "SYSRES_CONST_REQUISITE_SECTION_TABLE8 " ++ js "SYSRES_CONST_REQUISITE_SECTION_TABLE9 " ++
      js "SYSRES_CONST_REQUISITES_PSEUDOREFERENCE_REQUISITE_NUMBER_REQUISITE_CODE " ++
      js "SYSRES_CONST_RIGHT_ALIGNMENT_CODE " ++ js "SYSRES_CONST_ROLES_REFERENCE_CODE " ++
      js "SYSRES_CONST_ROUTE_STEP_AFTER_RUS " ++ js "SYSRES_CONST_ROUTE_STEP_AND_CONDITION_RUS " ++
      js "SYSRES_CONST_ROUTE_STEP_OR_CONDITION_RUS " ++ js "SYSRES_CONST_ROUTE_TYPE_COMPLEX " ++
      js "SYSRES_CONST_ROUTE_TYPE_PARALLEL " ++ js "SYSRES_CONST_ROUTE_TYPE_SERIAL " ++
      js "SYSRES_CONST_SBDATASETDESC_NEGATIVE_VALUE " ++
      js "SYSRES_CONST_SBDATASETDESC_POSITIVE_VALUE " ++
      js "SYSRES_CONST_SBVIEWSDESC_POSITIVE_VALUE " ++
      js "SYSRES_CONST_SCRIPT_BLOCK_DESCRIPTION " ++
      js "SYSRES_CONST_SEARCH_BY_TEXT_REQUISITE_CODE " ++
      js "SYSRES_CONST_SEARCHES_COMPONENT_CONTENT " ++
      js "SYSRES_CONST_SEARCHES_CRITERIA_ACTION_NAME " ++
      js "SYSRES_CONST_SEARCHES_EDOC_CONTENT " ++ js "SYSRES_CONST_SEARCHES_FOLDER_CONTENT " ++
      js "SYSRES_CONST_SEARCHES_JOB_CONTENT " ++ js "SYSRES_CONST_SEARCHES_REFERENCE_CODE " ++
      js "SYSRES_CONST_SEARCHES_TASK_CONTENT " ++ js "SYSRES_CONST_SECOND_CHAR " ++
      js "SYSRES_CONST_SECTION_REQUISITE_ACTIONS_VALUE " ++
      js "SYSRES_CONST_SECTION_REQUISITE_CARD_VALUE " ++
      js "SYSRES_CONST_SECTION_REQUISITE_CODE " ++
      js "SYSRES_CONST_SECTION_REQUISITE_DETAIL_1_VALUE " ++
      js "SYSRES_CONST_SECTION_REQUISITE_DETAIL_2_VALUE " ++
      js "SYSRES_CONST_SECTION_REQUISITE_DETAIL_3_VALUE " ++
      js "SYSRES_CONST_SECTION_REQUISITE_DETAIL_4_VALUE " ++
      js "SYSRES_CONST_SECTION_REQUISITE_DETAIL_5_VALUE " ++
      js "SYSRES_CONST_SECTION_REQUISITE_DETAIL_6_VALUE " ++
      js "SYSRES_CONST_SELECT_REFERENCE_MODE_NAME " ++ js "SYSRES_CONST_SELECT_TYPE_SELECTABLE " ++
      js "SYSRES_CONST_SELECT_TYPE_SELECTABLE_ONLY_CHILD " ++
      js "SYSRES_CONST_SELECT_TYPE_SELECTABLE_WITH_CHILD " ++
      js "SYSRES_CONST_SELECT_TYPE_UNSLECTABLE " ++ js "SYSRES_CONST_SERVER_TYPE_MAIN " ++
      js "SYSRES_CONST_SERVICE_USER_CATEGORY_FIELD_VALUE " ++
      js "SYSRES_CONST_SETTINGS_USER_REQUISITE_CODE " ++
      js "SYSRES_CONST_SIGNATURE_AND_ENCODE_CERTIFICATE_TYPE_CODE " ++
      js "SYSRES_CONST_SIGNATURE_CERTIFICATE_TYPE_CODE " ++
      js "SYSRES_CONST_SINGULAR_TITLE_REQUISITE_CODE " ++
      js "SYSRES_CONST_SQL_SERVER_AUTHENTIFICATION_FLAG_VALUE_CODE " ++
      js "SYSRES_CONST_SQL_SERVER_ENCODE_AUTHENTIFICATION_FLAG_VALUE_CODE " ++
      js "SYSRES_CONST_STANDART_ROUTE_REFERENCE_CODE " ++
      js "SYSRES_CONST_STANDART_ROUTE_REFERENCE_COMMENT_REQUISITE_CODE " ++
      js "SYSRES_CONST_STANDART_ROUTES_GROUPS_REFERENCE_CODE " ++
      js "SYSRES_CONST_STATE_REQ_NAME " ++ js "SYSRES_CONST_STATE_REQUISITE_ACTIVE_VALUE " ++
      js "SYSRES_CONST_STATE_REQUISITE_CLOSED_VALUE " ++ js "SYSRES_CONST_STATE_REQUISITE_CODE " ++
      js "SYSRES_CONST_STATIC_ROLE_TYPE_CODE " ++ js "SYSRES_CONST_STATUS_PLAN_DEFAULT_VALUE " ++
      js "SYSRES_CONST_STATUS_VALUE_AUTOCLEANING " ++ js "SYSRES_CONST_STATUS_VALUE_BLUE_SQUARE " ++
      js "SYSRES_CONST_STATUS_VALUE_COMPLETE " ++ js "SYSRES_CONST_STATUS_VALUE_GREEN_SQUARE " ++
      js "SYSRES_CONST_STATUS_VALUE_ORANGE_SQUARE " ++
      js "SYSRES_CONST_STATUS_VALUE_PURPLE_SQUARE " ++ js "SYSRES_CONST_STATUS_VALUE_RED_SQUARE " ++
      js "SYSRES_CONST_STATUS_VALUE_SUSPEND " ++ js "SYSRES_CONST_STATUS_VALUE_YELLOW_SQUARE " ++
      js "SYSRES_CONST_STDROUTE_SHOW_TO_USERS_REQUISITE_CODE " ++
      js "SYSRES_CONST_STORAGE_TYPE_FILE " ++ js "SYSRES_CONST_STORAGE_TYPE_SQL_SERVER " ++
      js "SYSRES_CONST_STR_REQUISITE " ++
      js "SYSRES_CONST_STRIKEOUT_LIFE_CYCLE_STAGE_DRAW_STYLE " ++
      js "SYSRES_CONST_STRING_FORMAT_LEFT_ALIGN_CHAR " ++
      js "SYSRES_CONST_STRING_FORMAT_RIGHT_ALIGN_CHAR " ++
      js "SYSRES_CONST_STRING_REQUISITE_CODE " ++ js "SYSRES_CONST_STRING_REQUISITE_TYPE " ++
      js "SYSRES_CONST_STRING_TYPE_CHAR " ++ js "SYSRES_CONST_SUBSTITUTES_PSEUDOREFERENCE_CODE " ++
      js "SYSRES_CONST_SUBTASK_BLOCK_DESCRIPTION " ++
      js "SYSRES_CONST_SYSTEM_SETTING_CURRENT_USER_PARAM_VALUE " ++
      js "SYSRES_CONST_SYSTEM_SETTING_EMPTY_VALUE_PARAM_VALUE " ++
      js "SYSRES_CONST_SYSTEM_VERSION_COMMENT " ++ js "SYSRES_CONST_TASK_ACCESS_TYPE_ALL " ++
      js "SYSRES_CONST_TASK_ACCESS_TYPE_ALL_MEMBERS " ++
      js "SYSRES_CONST_TASK_ACCESS_TYPE_MANUAL " ++
      js "SYSRES_CONST_TASK_ENCODE_TYPE_CERTIFICATION " ++
      js "SYSRES_CONST_TASK_ENCODE_TYPE_CERTIFICATION_AND_PASSWORD " ++
      js "SYSRES_CONST_TASK_ENCODE_TYPE_NONE " ++ js "SYSRES_CONST_TASK_ENCODE_TYPE_PASSWORD " ++
      js "SYSRES_CONST_TASK_ROUTE_ALL_CONDITION " ++ js "SYSRES_CONST_TASK_ROUTE_AND_CONDITION " ++
      js "SYSRES_CONST_TASK_ROUTE_OR_CONDITION " ++ js "SYSRES_CONST_TASK_STATE_ABORTED " ++
      js "SYSRES_CONST_TASK_STATE_COMPLETE " ++ js "SYSRES_CONST_TASK_STATE_CONTINUED " ++
      js "SYSRES_CONST_TASK_STATE_CONTROL " ++ js "SYSRES_CONST_TASK_STATE_INIT " ++
      js "SYSRES_CONST_TASK_STATE_WORKING " ++ js "SYSRES_CONST_TASK_TITLE " ++
      js "SYSRES_CONST_TASK_TYPES_GROUPS_REFERENCE_CODE " ++
      js "SYSRES_CONST_TASK_TYPES_REFERENCE_CODE " ++ js "SYSRES_CONST_TEMPLATES_REFERENCE_CODE " ++
      js "SYSRES_CONST_TEST_DATE_REQUISITE_NAME " ++ js "SYSRES_CONST_TEST_DEV_DATABASE_NAME " ++
      js "SYSRES_CONST_TEST_DEV_SYSTEM_CODE " ++ js "SYSRES_CONST_TEST_EDMS_DATABASE_NAME " ++
      js "SYSRES_CONST_TEST_EDMS_MAIN_CODE " ++ js "SYSRES_CONST_TEST_EDMS_MAIN_DB_NAME " ++
      js "SYSRES_CONST_TEST_EDMS_SECOND_CODE " ++ js "SYSRES_CONST_TEST_EDMS_SECOND_DB_NAME " ++
      js "SYSRES_CONST_TEST_EDMS_SYSTEM_CODE " ++ js "SYSRES_CONST_TEST_NUMERIC_REQUISITE_NAME " ++
      js "SYSRES_CONST_TEXT_REQUISITE " ++ js "SYSRES_CONST_TEXT_REQUISITE_CODE " ++
      js "SYSRES_CONST_TEXT_REQUISITE_TYPE " ++ js "SYSRES_CONST_TEXT_TYPE_CHAR " ++
      js "SYSRES_CONST_TYPE_CODE_REQUISITE_CODE " ++ js "SYSRES_CONST_TYPE_REQUISITE_CODE ".

Definition lang_isbl_sysres_constants_6 : jsstr :=
  js "SYSRES_CONST_UNDEFINED_LIFE_CYCLE_STAGE_FONT_COLOR " ++
      js "SYSRES_CONST_UNITS_SECTION_ID_REQUISITE_CODE " ++
      js "SYSRES_CONST_UNITS_SECTION_REQUISITE_CODE " ++
      js "SYSRES_CONST_UNOPERATING_RECORD_FLAG_VALUE_CODE " ++
      js "SYSRES_CONST_UNSTORED_DATA_REQUISITE_CODE " ++
      js "SYSRES_CONST_UNSTORED_DATA_REQUISITE_NAME " ++ js "SYSRES_CONST_USE_ACCESS_TYPE_CODE " ++
      js "SYSRES_CONST_USE_ACCESS_TYPE_NAME " ++ js "SYSRES_CONST_USER_ACCOUNT_TYPE_VALUE_CODE " ++
      js "SYSRES_CONST_USER_ADDITIONAL_INFORMATION_REQUISITE_CODE " ++
      js "SYSRES_CONST_USER_AND_GROUP_ID_FROM_PSEUDOREFERENCE_REQUISITE_CODE " ++
      js "SYSRES_CONST_USER_CATEGORY_NORMAL " ++
      js "SYSRES_CONST_USER_CERTIFICATE_REQUISITE_CODE " ++
      js "SYSRES_CONST_USER_CERTIFICATE_STATE_REQUISITE_CODE " ++
      js "SYSRES_CONST_USER_CERTIFICATE_SUBJECT_NAME_REQUISITE_CODE " ++
      js "SYSRES_CONST_USER_CERTIFICATE_THUMBPRINT_REQUISITE_CODE " ++
      js "SYSRES_CONST_USER_COMMON_CATEGORY " ++ js "SYSRES_CONST_USER_COMMON_CATEGORY_CODE " ++
      js "SYSRES_CONST_USER_FULL_NAME_REQUISITE_CODE " ++
      js "SYSRES_CONST_USER_GROUP_TYPE_REQUISITE_CODE " ++
      js "SYSRES_CONST_USER_LOGIN_REQUISITE_CODE " ++
      js "SYSRES_CONST_USER_REMOTE_CONTROLLER_REQUISITE_CODE " ++
      js "SYSRES_CONST_USER_REMOTE_SYSTEM_REQUISITE_CODE " ++
      js "SYSRES_CONST_USER_RIGHTS_T_REQUISITE_CODE " ++
      js "SYSRES_CONST_USER_SERVER_NAME_REQUISITE_CODE " ++
      js "SYSRES_CONST_USER_SERVICE_CATEGORY " ++ js "SYSRES_CONST_USER_SERVICE_CATEGORY_CODE " ++
      js "SYSRES_CONST_USER_STATUS_ADMINISTRATOR_CODE " ++
      js "SYSRES_CONST_USER_STATUS_ADMINISTRATOR_NAME " ++
      js "SYSRES_CONST_USER_STATUS_DEVELOPER_CODE " ++
      js "SYSRES_CONST_USER_STATUS_DEVELOPER_NAME " ++
      js "SYSRES_CONST_USER_STATUS_DISABLED_CODE " ++
      js "SYSRES_CONST_USER_STATUS_DISABLED_NAME " ++
      js "SYSRES_CONST_USER_STATUS_SYSTEM_DEVELOPER_CODE " ++
      js "SYSRES_CONST_USER_STATUS_USER_CODE " ++ js "SYSRES_CONST_USER_STATUS_USER_NAME " ++
      js "SYSRES_CONST_USER_STATUS_USER_NAME_DEPRECATED " ++
      js "SYSRES_CONST_USER_TYPE_FIELD_VALUE_USER " ++
      js "SYSRES_CONST_USER_TYPE_REQUISITE_CODE " ++
      js "SYSRES_CONST_USERS_CONTROLLER_REQUISITE_CODE " ++
      js "SYSRES_CONST_USERS_IS_MAIN_SERVER_REQUISITE_CODE " ++
      js "SYSRES_CONST_USERS_REFERENCE_CODE " ++
      js "SYSRES_CONST_USERS_REGISTRATION_CERTIFICATES_ACTION_NAME " ++
      js "SYSRES_CONST_USERS_REQUISITE_CODE " ++ js "SYSRES_CONST_USERS_SYSTEM_REQUISITE_CODE " ++
      js "SYSRES_CONST_USERS_USER_ACCESS_RIGHTS_TYPR_REQUISITE_CODE " ++
      js "SYSRES_CONST_USERS_USER_AUTHENTICATION_REQUISITE_CODE " ++
      js "SYSRES_CONST_USERS_USER_COMPONENT_REQUISITE_CODE " ++
      js "SYSRES_CONST_USERS_USER_GROUP_REQUISITE_CODE " ++
      js "SYSRES_CONST_USERS_VIEW_CERTIFICATES_ACTION_NAME " ++
      js "SYSRES_CONST_VIEW_DEFAULT_CODE " ++ js "SYSRES_CONST_VIEW_DEFAULT_NAME " ++
      js "SYSRES_CONST_VIEWER_REQUISITE_CODE " ++ js "SYSRES_CONST_WAITING_BLOCK_DESCRIPTION " ++
      js "SYSRES_CONST_WIZARD_FORM_LABEL_TEST_STRING  " ++
      js "SYSRES_CONST_WIZARD_QUERY_PARAM_HEIGHT_ETALON_STRING " ++
      js "SYSRES_CONST_WIZARD_REFERENCE_COMMENT_REQUISITE_CODE " ++
      js "SYSRES_CONST_WORK_RULES_DESCRIPTION_REQUISITE_CODE " ++
      js "SYSRES_CONST_WORK_TIME_CALENDAR_REFERENCE_CODE " ++
      js "SYSRES_CONST_WORK_WORKFLOW_HARD_ROUTE_TYPE_VALUE " ++
      js "SYSRES_CONST_WORK_WORKFLOW_HARD_ROUTE_TYPE_VALUE_CODE " ++
      js "SYSRES_CONST_WORK_WORKFLOW_HARD_ROUTE_TYPE_VALUE_CODE_RUS " ++
      js "SYSRES_CONST_WORK_WORKFLOW_SOFT_ROUTE_TYPE_VALUE_CODE_RUS " ++
      js "SYSRES_CONST_WORKFLOW_ROUTE_TYPR_HARD " ++ js "SYSRES_CONST_WORKFLOW_ROUTE_TYPR_SOFT " ++
      js "SYSRES_CONST_XML_ENCODING " ++ js "SYSRES_CONST_XREC_STAT_REQUISITE_CODE " ++
      js "SYSRES_CONST_XRECID_FIELD_NAME " ++ js "SYSRES_CONST_YES " ++
      js "SYSRES_CONST_YES_NO_2_REQUISITE_CODE " ++ js "SYSRES_CONST_YES_NO_REQUISITE_CODE " ++
      js "SYSRES_CONST_YES_NO_T_REF_TYPE_REQUISITE_CODE " ++ js "SYSRES_CONST_YES_PICK_VALUE " ++
      js "SYSRES_CONST_YES_VALUE ".

Definition lang_isbl_sysres_constants : jsstr :=
  lang_isbl_sysres_constants_1 ++ lang_isbl_sysres_constants_2 ++ lang_isbl_sysres_constants_3 ++ lang_isbl_sysres_constants_4 ++ lang_isbl_sysres_constants_5 ++ lang_isbl_sysres_constants_6.
Definition lang_isbl_base_constants : jsstr :=
  js "CR FALSE nil NO_VALUE NULL TAB TRUE YES_VALUE ".
Definition lang_isbl_base_group_name_constants : jsstr :=
  js "ADMINISTRATORS_GROUP_NAME CUSTOMIZERS_GROUP_NAME DEVELOPERS_GROUP_NAME SERVICE_USERS_GROUP_NAME ".
Definition lang_isbl_decision_block_properties_constants : jsstr :=
  js "DECISION_BLOCK_FIRST_OPERAND_PROPERTY DECISION_BLOCK_NAME_PROPERTY DECISION_BLOCK_OPERATION_PROPERTY " ++
      js "DECISION_BLOCK_RESULT_TYPE_PROPERTY DECISION_BLOCK_SECOND_OPERAND_PROPERTY ".
Definition lang_isbl_file_extension_constants : jsstr :=
  js "ANY_FILE_EXTENTION COMPRESSED_DOCUMENT_EXTENSION EXTENDED_DOCUMENT_EXTENSION " ++
      js "SHORT_COMPRESSED_DOCUMENT_EXTENSION SHORT_EXTENDED_DOCUMENT_EXTENSION ".
Definition lang_isbl_job_block_properties_constants : jsstr :=
  js "JOB_BLOCK_ABORT_DEADLINE_PROPERTY " ++ js "JOB_BLOCK_AFTER_FINISH_EVENT " ++
      js "JOB_BLOCK_AFTER_QUERY_PARAMETERS_EVENT " ++ js "JOB_BLOCK_ATTACHMENT_PROPERTY " ++
      js "JOB_BLOCK_ATTACHMENTS_RIGHTS_GROUP_PROPERTY " ++ js "JOB_BLOCK_ATTACHMENTS_RIGHTS_TYPE_PROPERTY " ++
      js "JOB_BLOCK_BEFORE_QUERY_PARAMETERS_EVENT " ++ js "JOB_BLOCK_BEFORE_START_EVENT " ++
      js "JOB_BLOCK_CREATED_JOBS_PROPERTY " ++ js "JOB_BLOCK_DEADLINE_PROPERTY " ++
      js "JOB_BLOCK_EXECUTION_RESULTS_PROPERTY " ++ js "JOB_BLOCK_IS_PARALLEL_PROPERTY " ++
      js "JOB_BLOCK_IS_RELATIVE_ABORT_DEADLINE_PROPERTY " ++ js "JOB_BLOCK_IS_RELATIVE_DEADLINE_PROPERTY " ++
      js "JOB_BLOCK_JOB_TEXT_PROPERTY " ++ js "JOB_BLOCK_NAME_PROPERTY " ++
      js "JOB_BLOCK_NEED_SIGN_ON_PERFORM_PROPERTY " ++ js "JOB_BLOCK_PERFORMER_PROPERTY " ++
      js "JOB_BLOCK_RELATIVE_ABORT_DEADLINE_TYPE_PROPERTY " ++ js "JOB_BLOCK_RELATIVE_DEADLINE_TYPE_PROPERTY " ++
      js "JOB_BLOCK_SUBJECT_PROPERTY ".
Definition lang_isbl_language_code_constants : jsstr :=
  js "ENGLISH_LANGUAGE_CODE RUSSIAN_LANGUAGE_CODE ".
Definition lang_isbl_launching_external_applications_constants : jsstr :=
  js "smHidden smMaximized smMinimized smNormal wmNo wmYes ".
Definition lang_isbl_link_kind_constants : jsstr :=
  js "COMPONENT_TOKEN_LINK_KIND " ++ js "DOCUMENT_LINK_KIND " ++ js "EDOCUMENT_LINK_KIND " ++
      js "FOLDER_LINK_KIND " ++ js "JOB_LINK_KIND " ++ js "REFERENCE_LINK_KIND " ++ js "TASK_LINK_KIND ".
Definition lang_isbl_lock_type_constants : jsstr :=
  js "COMPONENT_TOKEN_LOCK_TYPE EDOCUMENT_VERSION_LOCK_TYPE ".
Definition lang_isbl_monitor_block_properties_constants : jsstr :=
  js "MONITOR_BLOCK_AFTER_FINISH_EVENT " ++ js "MONITOR_BLOCK_BEFORE_START_EVENT " ++
      js "MONITOR_BLOCK_DEADLINE_PROPERTY " ++ js "MONITOR_BLOCK_INTERVAL_PROPERTY " ++
      js "MONITOR_BLOCK_INTERVAL_TYPE_PROPERTY " ++ js "MONITOR_BLOCK_IS_RELATIVE_DEADLINE_PROPERTY " ++
      js "MONITOR_BLOCK_NAME_PROPERTY " ++ js "MONITOR_BLOCK_RELATIVE_DEADLINE_TYPE_PROPERTY " ++
      js "MONITOR_BLOCK_SEARCH_SCRIPT_PROPERTY ".
Definition lang_isbl_notice_block_properties_constants : jsstr :=
  js "NOTICE_BLOCK_AFTER_FINISH_EVENT " ++ js "NOTICE_BLOCK_ATTACHMENT_PROPERTY " ++
      js "NOTICE_BLOCK_ATTACHMENTS_RIGHTS_GROUP_PROPERTY " ++ js "NOTICE_BLOCK_ATTACHMENTS_RIGHTS_TYPE_PROPERTY " ++
      js "NOTICE_BLOCK_BEFORE_START_EVENT " ++ js "NOTICE_BLOCK_CREATED_NOTICES_PROPERTY " ++
      js "NOTICE_BLOCK_DEADLINE_PROPERTY " ++ js "NOTICE_BLOCK_IS_RELATIVE_DEADLINE_PROPERTY " ++
      js "NOTICE_BLOCK_NAME_PROPERTY " ++ js "NOTICE_BLOCK_NOTICE_TEXT_PROPERTY " ++
      js "NOTICE_BLOCK_PERFORMER_PROPERTY " ++ js "NOTICE_BLOCK_RELATIVE_DEADLINE_TYPE_PROPERTY " ++
      js "NOTICE_BLOCK_SUBJECT_PROPERTY ".
Definition lang_isbl_object_events_constants : jsstr :=
  js "dseAfterCancel " ++ js "dseAfterClose " ++ js "dseAfterDelete " ++ js "dseAfterDeleteOutOfTransaction " ++
      js "dseAfterInsert " ++ js "dseAfterOpen " ++ js "dseAfterScroll " ++ js "dseAfterUpdate " ++
      js "dseAfterUpdateOutOfTransaction " ++ js "dseBeforeCancel " ++ js "dseBeforeClose " ++
      js "dseBeforeDelete " ++ js "dseBeforeDetailUpdate " ++ js "dseBeforeInsert " ++ js "dseBeforeOpen " ++
      js "dseBeforeUpdate " ++ js "dseOnAnyRequisiteChange " ++ js "dseOnCloseRecord " ++ js "dseOnDeleteError " ++
      js "dseOnOpenRecord " ++ js "dseOnPrepareUpdate " ++ js "dseOnUpdateError " ++
      js "dseOnUpdateRatifiedRecord " ++ js "dseOnValidDelete " ++ js "dseOnValidUpdate " ++ js "reOnChange " ++
      js "reOnChangeValues " ++ js "SELECTION_BEGIN_ROUTE_EVENT " ++ js "SELECTION_END_ROUTE_EVENT ".
Definition lang_isbl_object_params_constants : jsstr :=
  js "CURRENT_PERIOD_IS_REQUIRED " ++ js "PREVIOUS_CARD_TYPE_NAME " ++ js "SHOW_RECORD_PROPERTIES_FORM ".
Definition lang_isbl_other_constants : jsstr :=
  js "ACCESS_RIGHTS_SETTING_DIALOG_CODE " ++ js "ADMINISTRATOR_USER_CODE " ++ js "ANALYTIC_REPORT_TYPE " ++
      js "asrtHideLocal " ++ js "asrtHideRemote " ++ js "CALCULATED_ROLE_TYPE_CODE " ++
      js "COMPONENTS_REFERENCE_DEVELOPER_VIEW_CODE " ++ js "DCTS_TEST_PROTOCOLS_FOLDER_PATH " ++
      js "E_EDOC_VERSION_ALREADY_APPROVINGLY_SIGNED " ++ js "E_EDOC_VERSION_ALREADY_APPROVINGLY_SIGNED_BY_USER " ++
      js "E_EDOC_VERSION_ALREDY_SIGNED " ++ js "E_EDOC_VERSION_ALREDY_SIGNED_BY_USER " ++
      js "EDOC_TYPES_CODE_REQUISITE_FIELD_NAME " ++ js "EDOCUMENTS_ALIAS_NAME " ++ js "FILES_FOLDER_PATH " ++
      js "FILTER_OPERANDS_DELIMITER " ++ js "FILTER_OPERATIONS_DELIMITER " ++ js "FORMCARD_NAME " ++
      js "FORMLIST_NAME " ++ js "GET_EXTENDED_DOCUMENT_EXTENSION_CREATION_MODE " ++
      js "GET_EXTENDED_DOCUMENT_EXTENSION_IMPORT_MODE " ++ js "INTEGRATED_REPORT_TYPE " ++
      js "IS_BUILDER_APPLICATION_ROLE " ++ js "IS_BUILDER_APPLICATION_ROLE2 " ++ js "IS_BUILDER_USERS " ++
      js "ISBSYSDEV " ++ js "LOG_FOLDER_PATH " ++ js "mbCancel " ++ js "mbNo " ++ js "mbNoToAll " ++ js "mbOK " ++
      js "mbYes " ++ js "mbYesToAll " ++ js "MEMORY_DATASET_DESRIPTIONS_FILENAME " ++ js "mrNo " ++
      js "mrNoToAll " ++ js "mrYes " ++ js "mrYesToAll " ++ js "MULTIPLE_SELECT_DIALOG_CODE " ++
      js "NONOPERATING_RECORD_FLAG_FEMININE " ++ js "NONOPERATING_RECORD_FLAG_MASCULINE " ++
      js "OPERATING_RECORD_FLAG_FEMININE " ++ js "OPERATING_RECORD_FLAG_MASCULINE " ++
      js "PROFILING_SETTINGS_COMMON_SETTINGS_CODE_VALUE " ++ js "PROGRAM_INITIATED_LOOKUP_ACTION " ++
      js "ratDelete " ++ js "ratEdit " ++ js "ratInsert " ++ js "REPORT_TYPE " ++
      js "REQUIRED_PICK_VALUES_VARIABLE " ++ js "rmCard " ++ js "rmList " ++ js "SBRTE_PROGID_DEV " ++
      js "SBRTE_PROGID_RELEASE " ++ js "STATIC_ROLE_TYPE_CODE " ++ js "SUPPRESS_EMPTY_TEMPLATE_CREATION " ++
      js "SYSTEM_USER_CODE " ++ js "UPDATE_DIALOG_DATASET " ++ js "USED_IN_OBJECT_HINT_PARAM " ++
      js "USER_INITIATED_LOOKUP_ACTION " ++ js "USER_NAME_FORMAT " ++ js "USER_SELECTION_RESTRICTIONS " ++
      js "WORKFLOW_TEST_PROTOCOLS_FOLDER_PATH " ++ js "ELS_SUBTYPE_CONTROL_NAME " ++
      js "ELS_FOLDER_KIND_CONTROL_NAME " ++ js "REPEAT_PROCESS_CURRENT_OBJECT_EXCEPTION_NAME ".
Definition lang_isbl_privileges_constants : jsstr :=
  js "PRIVILEGE_COMPONENT_FULL_ACCESS " ++ js "PRIVILEGE_DEVELOPMENT_EXPORT " ++
      js "PRIVILEGE_DEVELOPMENT_IMPORT " ++ js "PRIVILEGE_DOCUMENT_DELETE " ++ js "PRIVILEGE_ESD " ++
      js "PRIVILEGE_FOLDER_DELETE " ++ js "PRIVILEGE_MANAGE_ACCESS_RIGHTS " ++ js "PRIVILEGE_MANAGE_REPLICATION " ++
      js "PRIVILEGE_MANAGE_SESSION_SERVER " ++ js "PRIVILEGE_OBJECT_FULL_ACCESS " ++ js "PRIVILEGE_OBJECT_VIEW " ++
      js "PRIVILEGE_RESERVE_LICENSE " ++ js "PRIVILEGE_SYSTEM_CUSTOMIZE " ++ js "PRIVILEGE_SYSTEM_DEVELOP " ++
      js "PRIVILEGE_SYSTEM_INSTALL " ++ js "PRIVILEGE_TASK_DELETE " ++
      js "PRIVILEGE_USER_PLUGIN_SETTINGS_CUSTOMIZE " ++ js "PRIVILEGES_PSEUDOREFERENCE_CODE ".
Definition lang_isbl_pseudoreference_code_constants : jsstr :=
  js "ACCESS_TYPES_PSEUDOREFERENCE_CODE " ++ js "ALL_AVAILABLE_COMPONENTS_PSEUDOREFERENCE_CODE " ++
      js "ALL_AVAILABLE_PRIVILEGES_PSEUDOREFERENCE_CODE " ++ js "ALL_REPLICATE_COMPONENTS_PSEUDOREFERENCE_CODE " ++
      js "AVAILABLE_DEVELOPERS_COMPONENTS_PSEUDOREFERENCE_CODE " ++ js "COMPONENTS_PSEUDOREFERENCE_CODE " ++
      js "FILTRATER_SETTINGS_CONFLICTS_PSEUDOREFERENCE_CODE " ++ js "GROUPS_PSEUDOREFERENCE_CODE " ++
      js "RECEIVE_PROTOCOL_PSEUDOREFERENCE_CODE " ++ js "REFERENCE_REQUISITE_PSEUDOREFERENCE_CODE " ++
      js "REFERENCE_REQUISITES_PSEUDOREFERENCE_CODE " ++ js "REFTYPES_PSEUDOREFERENCE_CODE " ++
      js "REPLICATION_SEANCES_DIARY_PSEUDOREFERENCE_CODE " ++ js "SEND_PROTOCOL_PSEUDOREFERENCE_CODE " ++
      js "SUBSTITUTES_PSEUDOREFERENCE_CODE " ++ js "SYSTEM_SETTINGS_PSEUDOREFERENCE_CODE " ++
      js "UNITS_PSEUDOREFERENCE_CODE " ++ js "USERS_PSEUDOREFERENCE_CODE " ++ js "VIEWERS_PSEUDOREFERENCE_CODE ".
Definition lang_isbl_requisite_ISBCertificateType_values_constants : jsstr :=
  js "CERTIFICATE_TYPE_ENCRYPT " ++ js "CERTIFICATE_TYPE_SIGN " ++ js "CERTIFICATE_TYPE_SIGN_AND_ENCRYPT ".
Definition lang_isbl_requisite_ISBEDocStorageType_values_constants : jsstr :=
  js "STORAGE_TYPE_FILE " ++ js "STORAGE_TYPE_NAS_CIFS " ++ js "STORAGE_TYPE_SAPERION " ++
      js "STORAGE_TYPE_SQL_SERVER ".
Definition lang_isbl_requisite_compType2_values_constants : jsstr :=
  js "COMPTYPE2_REQUISITE_DOCUMENTS_VALUE " ++ js "COMPTYPE2_REQUISITE_TASKS_VALUE " ++
      js "COMPTYPE2_REQUISITE_FOLDERS_VALUE " ++ js "COMPTYPE2_REQUISITE_REFERENCES_VALUE ".
Definition lang_isbl_requisite_name_constants_1 : jsstr :=
  js "SYSREQ_CODE " ++ js "SYSREQ_COMPTYPE2 " ++ js "SYSREQ_CONST_AVAILABLE_FOR_WEB " ++
      js "SYSREQ_CONST_COMMON_CODE " ++ js "SYSREQ_CONST_COMMON_VALUE " ++
      js "SYSREQ_CONST_FIRM_CODE " ++ js "SYSREQ_CONST_FIRM_STATUS " ++
      js "SYSREQ_CONST_FIRM_VALUE " ++ js "SYSREQ_CONST_SERVER_STATUS " ++ js "SYSREQ_CONTENTS " ++
      js "SYSREQ_DATE_OPEN " ++ js "SYSREQ_DATE_CLOSE " ++ js "SYSREQ_DESCRIPTION " ++
      js "SYSREQ_DESCRIPTION_LOCALIZE_ID " ++ js "SYSREQ_DOUBLE " ++
      js "SYSREQ_EDOC_ACCESS_TYPE " ++ js "SYSREQ_EDOC_AUTHOR " ++ js "SYSREQ_EDOC_CREATED " ++
      js "SYSREQ_EDOC_DELEGATE_RIGHTS_REQUISITE_CODE " ++ js "SYSREQ_EDOC_EDITOR " ++
      js "SYSREQ_EDOC_ENCODE_TYPE " ++ js "SYSREQ_EDOC_ENCRYPTION_PLUGIN_NAME " ++
      js "SYSREQ_EDOC_ENCRYPTION_PLUGIN_VERSION " ++ js "SYSREQ_EDOC_EXPORT_DATE " ++
      js "SYSREQ_EDOC_EXPORTER " ++ js "SYSREQ_EDOC_KIND " ++ js "SYSREQ_EDOC_LIFE_STAGE_NAME " ++
      js "SYSREQ_EDOC_LOCKED_FOR_SERVER_CODE " ++ js "SYSREQ_EDOC_MODIFIED " ++
      js "SYSREQ_EDOC_NAME " ++ js "SYSREQ_EDOC_NOTE " ++ js "SYSREQ_EDOC_QUALIFIED_ID " ++
      js "SYSREQ_EDOC_SESSION_KEY " ++ js "SYSREQ_EDOC_SESSION_KEY_ENCRYPTION_PLUGIN_NAME " ++
      js "SYSREQ_EDOC_SESSION_KEY_ENCRYPTION_PLUGIN_VERSION " ++ js "SYSREQ_EDOC_SIGNATURE_TYPE " ++
      js "SYSREQ_EDOC_SIGNED " ++ js "SYSREQ_EDOC_STORAGE " ++
      js "SYSREQ_EDOC_STORAGES_ARCHIVE_STORAGE " ++ js "SYSREQ_EDOC_STORAGES_CHECK_RIGHTS " ++
      js "SYSREQ_EDOC_STORAGES_COMPUTER_NAME " ++ js "SYSREQ_EDOC_STORAGES_EDIT_IN_STORAGE " ++
      js "SYSREQ_EDOC_STORAGES_EXECUTIVE_STORAGE " ++ js "SYSREQ_EDOC_STORAGES_FUNCTION " ++
      js "SYSREQ_EDOC_STORAGES_INITIALIZED " ++ js "SYSREQ_EDOC_STORAGES_LOCAL_PATH " ++
      js "SYSREQ_EDOC_STORAGES_SAPERION_DATABASE_NAME " ++
      js "SYSREQ_EDOC_STORAGES_SEARCH_BY_TEXT " ++ js "SYSREQ_EDOC_STORAGES_SERVER_NAME " ++
      js "SYSREQ_EDOC_STORAGES_SHARED_SOURCE_NAME " ++ js "SYSREQ_EDOC_STORAGES_TYPE " ++
      js "SYSREQ_EDOC_TEXT_MODIFIED " ++ js "SYSREQ_EDOC_TYPE_ACT_CODE " ++
      js "SYSREQ_EDOC_TYPE_ACT_DESCRIPTION " ++
      js "SYSREQ_EDOC_TYPE_ACT_DESCRIPTION_LOCALIZE_ID " ++ js "SYSREQ_EDOC_TYPE_ACT_ON_EXECUTE " ++
      js "SYSREQ_EDOC_TYPE_ACT_ON_EXECUTE_EXISTS " ++ js "SYSREQ_EDOC_TYPE_ACT_SECTION " ++
      js "SYSREQ_EDOC_TYPE_ADD_PARAMS " ++ js "SYSREQ_EDOC_TYPE_COMMENT " ++
      js "SYSREQ_EDOC_TYPE_EVENT_TEXT " ++ js "SYSREQ_EDOC_TYPE_NAME_IN_SINGULAR " ++
      js "SYSREQ_EDOC_TYPE_NAME_IN_SINGULAR_LOCALIZE_ID " ++
      js "SYSREQ_EDOC_TYPE_NAME_LOCALIZE_ID " ++ js "SYSREQ_EDOC_TYPE_NUMERATION_METHOD " ++
      js "SYSREQ_EDOC_TYPE_PSEUDO_REQUISITE_CODE " ++ js "SYSREQ_EDOC_TYPE_REQ_CODE " ++
      js "SYSREQ_EDOC_TYPE_REQ_DESCRIPTION " ++
      js "SYSREQ_EDOC_TYPE_REQ_DESCRIPTION_LOCALIZE_ID " ++ js "SYSREQ_EDOC_TYPE_REQ_IS_LEADING " ++
      js "SYSREQ_EDOC_TYPE_REQ_IS_REQUIRED " ++ js "SYSREQ_EDOC_TYPE_REQ_NUMBER " ++
      js "SYSREQ_EDOC_TYPE_REQ_ON_CHANGE " ++ js "SYSREQ_EDOC_TYPE_REQ_ON_CHANGE_EXISTS " ++
      js "SYSREQ_EDOC_TYPE_REQ_ON_SELECT " ++ js "SYSREQ_EDOC_TYPE_REQ_ON_SELECT_KIND " ++
      js "SYSREQ_EDOC_TYPE_REQ_SECTION " ++ js "SYSREQ_EDOC_TYPE_VIEW_CARD " ++
      js "SYSREQ_EDOC_TYPE_VIEW_CODE " ++ js "SYSREQ_EDOC_TYPE_VIEW_COMMENT " ++
      js "SYSREQ_EDOC_TYPE_VIEW_IS_MAIN " ++ js "SYSREQ_EDOC_TYPE_VIEW_NAME " ++
      js "SYSREQ_EDOC_TYPE_VIEW_NAME_LOCALIZE_ID " ++ js "SYSREQ_EDOC_VERSION_AUTHOR " ++
      js "SYSREQ_EDOC_VERSION_CRC " ++ js "SYSREQ_EDOC_VERSION_DATA " ++
      js "SYSREQ_EDOC_VERSION_EDITOR " ++ js "SYSREQ_EDOC_VERSION_EXPORT_DATE " ++
      js "SYSREQ_EDOC_VERSION_EXPORTER " ++ js "SYSREQ_EDOC_VERSION_HIDDEN " ++
      js "SYSREQ_EDOC_VERSION_LIFE_STAGE " ++ js "SYSREQ_EDOC_VERSION_MODIFIED " ++
      js "SYSREQ_EDOC_VERSION_NOTE " ++ js "SYSREQ_EDOC_VERSION_SIGNATURE_TYPE " ++
      js "SYSREQ_EDOC_VERSION_SIGNED " ++ js "SYSREQ_EDOC_VERSION_SIZE " ++
      js "SYSREQ_EDOC_VERSION_SOURCE " ++ js "SYSREQ_EDOC_VERSION_TEXT_MODIFIED " ++
      js "SYSREQ_EDOCKIND_DEFAULT_VERSION_STATE_CODE " ++ js "SYSREQ_FOLDER_KIND " ++
      js "SYSREQ_FUNC_CATEGORY " ++ js "SYSREQ_FUNC_COMMENT " ++ js "SYSREQ_FUNC_GROUP " ++
      js "SYSREQ_FUNC_GROUP_COMMENT " ++ js "SYSREQ_FUNC_GROUP_NUMBER " ++ js "SYSREQ_FUNC_HELP " ++
      js "SYSREQ_FUNC_PARAM_DEF_VALUE " ++ js "SYSREQ_FUNC_PARAM_IDENT " ++
      js "SYSREQ_FUNC_PARAM_NUMBER " ++ js "SYSREQ_FUNC_PARAM_TYPE " ++ js "SYSREQ_FUNC_TEXT " ++
      js "SYSREQ_GROUP_CATEGORY " ++ js "SYSREQ_ID " ++ js "SYSREQ_LAST_UPDATE " ++
      js "SYSREQ_LEADER_REFERENCE " ++ js "SYSREQ_LINE_NUMBER " ++ js "SYSREQ_MAIN_RECORD_ID " ++
      js "SYSREQ_NAME " ++ js "SYSREQ_NAME_LOCALIZE_ID " ++ js "SYSREQ_NOTE " ++
      js "SYSREQ_ORIGINAL_RECORD " ++ js "SYSREQ_OUR_FIRM " ++
      js "SYSREQ_PROFILING_SETTINGS_BATCH_LOGING " ++ js "SYSREQ_PROFILING_SETTINGS_BATCH_SIZE " ++
      js "SYSREQ_PROFILING_SETTINGS_PROFILING_ENABLED " ++
      js "SYSREQ_PROFILING_SETTINGS_SQL_PROFILING_ENABLED " ++
      js "SYSREQ_PROFILING_SETTINGS_START_LOGGED " ++ js "SYSREQ_RECORD_STATUS " ++
      js "SYSREQ_REF_REQ_FIELD_NAME " ++ js "SYSREQ_REF_REQ_FORMAT " ++
      js "SYSREQ_REF_REQ_GENERATED " ++ js "SYSREQ_REF_REQ_LENGTH " ++
      js "SYSREQ_REF_REQ_PRECISION " ++ js "SYSREQ_REF_REQ_REFERENCE " ++
      js "SYSREQ_REF_REQ_SECTION " ++ js "SYSREQ_REF_REQ_STORED " ++ js "SYSREQ_REF_REQ_TOKENS " ++
      js "SYSREQ_REF_REQ_TYPE " ++ js "SYSREQ_REF_REQ_VIEW " ++ js "SYSREQ_REF_TYPE_ACT_CODE ".

Definition lang_isbl_requisite_name_constants_2 : jsstr :=
  js "SYSREQ_REF_TYPE_ACT_DESCRIPTION " ++ js "SYSREQ_REF_TYPE_ACT_DESCRIPTION_LOCALIZE_ID " ++
      js "SYSREQ_REF_TYPE_ACT_ON_EXECUTE " ++ js "SYSREQ_REF_TYPE_ACT_ON_EXECUTE_EXISTS " ++
      js "SYSREQ_REF_TYPE_ACT_SECTION " ++ js "SYSREQ_REF_TYPE_ADD_PARAMS " ++
      js "SYSREQ_REF_TYPE_COMMENT " ++ js "SYSREQ_REF_TYPE_COMMON_SETTINGS " ++
      js "SYSREQ_REF_TYPE_DISPLAY_REQUISITE_NAME " ++ js "SYSREQ_REF_TYPE_EVENT_TEXT " ++
      js "SYSREQ_REF_TYPE_MAIN_LEADING_REF " ++ js "SYSREQ_REF_TYPE_NAME_IN_SINGULAR " ++
      js "SYSREQ_REF_TYPE_NAME_IN_SINGULAR_LOCALIZE_ID " ++
      js "SYSREQ_REF_TYPE_NAME_LOCALIZE_ID " ++ js "SYSREQ_REF_TYPE_NUMERATION_METHOD " ++
      js "SYSREQ_REF_TYPE_REQ_CODE " ++ js "SYSREQ_REF_TYPE_REQ_DESCRIPTION " ++
      js "SYSREQ_REF_TYPE_REQ_DESCRIPTION_LOCALIZE_ID " ++ js "SYSREQ_REF_TYPE_REQ_IS_CONTROL " ++
      js "SYSREQ_REF_TYPE_REQ_IS_FILTER " ++ js "SYSREQ_REF_TYPE_REQ_IS_LEADING " ++
      js "SYSREQ_REF_TYPE_REQ_IS_REQUIRED " ++ js "SYSREQ_REF_TYPE_REQ_NUMBER " ++
      js "SYSREQ_REF_TYPE_REQ_ON_CHANGE " ++ js "SYSREQ_REF_TYPE_REQ_ON_CHANGE_EXISTS " ++
      js "SYSREQ_REF_TYPE_REQ_ON_SELECT " ++ js "SYSREQ_REF_TYPE_REQ_ON_SELECT_KIND " ++
      js "SYSREQ_REF_TYPE_REQ_SECTION " ++ js "SYSREQ_REF_TYPE_VIEW_CARD " ++
      js "SYSREQ_REF_TYPE_VIEW_CODE " ++ js "SYSREQ_REF_TYPE_VIEW_COMMENT " ++
      js "SYSREQ_REF_TYPE_VIEW_IS_MAIN " ++ js "SYSREQ_REF_TYPE_VIEW_NAME " ++
      js "SYSREQ_REF_TYPE_VIEW_NAME_LOCALIZE_ID " ++ js "SYSREQ_REFERENCE_TYPE_ID " ++
      js "SYSREQ_STATE " ++ js "SYSREQ_STATЕ " ++ js "SYSREQ_SYSTEM_SETTINGS_VALUE " ++
      js "SYSREQ_TYPE " ++ js "SYSREQ_UNIT " ++ js "SYSREQ_UNIT_ID " ++
      js "SYSREQ_USER_GROUPS_GROUP_FULL_NAME " ++ js "SYSREQ_USER_GROUPS_GROUP_NAME " ++
      js "SYSREQ_USER_GROUPS_GROUP_SERVER_NAME " ++ js "SYSREQ_USERS_ACCESS_RIGHTS " ++
      js "SYSREQ_USERS_AUTHENTICATION " ++ js "SYSREQ_USERS_CATEGORY " ++
      js "SYSREQ_USERS_COMPONENT " ++ js "SYSREQ_USERS_COMPONENT_USER_IS_PUBLIC " ++
      js "SYSREQ_USERS_DOMAIN " ++ js "SYSREQ_USERS_FULL_USER_NAME " ++ js "SYSREQ_USERS_GROUP " ++
      js "SYSREQ_USERS_IS_MAIN_SERVER " ++ js "SYSREQ_USERS_LOGIN " ++
      js "SYSREQ_USERS_REFERENCE_USER_IS_PUBLIC " ++ js "SYSREQ_USERS_STATUS " ++
      js "SYSREQ_USERS_USER_CERTIFICATE " ++ js "SYSREQ_USERS_USER_CERTIFICATE_INFO " ++
      js "SYSREQ_USERS_USER_CERTIFICATE_PLUGIN_NAME " ++
      js "SYSREQ_USERS_USER_CERTIFICATE_PLUGIN_VERSION " ++
      js "SYSREQ_USERS_USER_CERTIFICATE_STATE " ++
      js "SYSREQ_USERS_USER_CERTIFICATE_SUBJECT_NAME " ++
      js "SYSREQ_USERS_USER_CERTIFICATE_THUMBPRINT " ++
      js "SYSREQ_USERS_USER_DEFAULT_CERTIFICATE " ++ js "SYSREQ_USERS_USER_DESCRIPTION " ++
      js "SYSREQ_USERS_USER_GLOBAL_NAME " ++ js "SYSREQ_USERS_USER_LOGIN " ++
      js "SYSREQ_USERS_USER_MAIN_SERVER " ++ js "SYSREQ_USERS_USER_TYPE " ++
      js "SYSREQ_WORK_RULES_FOLDER_ID ".

Definition lang_isbl_requisite_name_constants : jsstr :=
  lang_isbl_requisite_name_constants_1 ++ lang_isbl_requisite_name_constants_2.
Definition lang_isbl_result_constants : jsstr :=
  js "RESULT_VAR_NAME RESULT_VAR_NAME_ENG ".
Definition lang_isbl_rule_identification_constants : jsstr :=
  js "AUTO_NUMERATION_RULE_ID " ++ js "CANT_CHANGE_ID_REQUISITE_RULE_ID " ++
      js "CANT_CHANGE_OURFIRM_REQUISITE_RULE_ID " ++ js "CHECK_CHANGING_REFERENCE_RECORD_USE_RULE_ID " ++
      js "CHECK_CODE_REQUISITE_RULE_ID " ++ js "CHECK_DELETING_REFERENCE_RECORD_USE_RULE_ID " ++
      js "CHECK_FILTRATER_CHANGES_RULE_ID " ++ js "CHECK_RECORD_INTERVAL_RULE_ID " ++
      js "CHECK_REFERENCE_INTERVAL_RULE_ID " ++ js "CHECK_REQUIRED_DATA_FULLNESS_RULE_ID " ++
      js "CHECK_REQUIRED_REQUISITES_FULLNESS_RULE_ID " ++ js "MAKE_RECORD_UNRATIFIED_RULE_ID " ++
      js "RESTORE_AUTO_NUMERATION_RULE_ID " ++ js "SET_FIRM_CONTEXT_FROM_RECORD_RULE_ID " ++
      js "SET_FIRST_RECORD_IN_LIST_FORM_RULE_ID " ++ js "SET_IDSPS_VALUE_RULE_ID " ++
      js "SET_NEXT_CODE_VALUE_RULE_ID " ++ js "SET_OURFIRM_BOUNDS_RULE_ID " ++ js "SET_OURFIRM_REQUISITE_RULE_ID ".
Definition lang_isbl_script_block_properties_constants : jsstr :=
  js "SCRIPT_BLOCK_AFTER_FINISH_EVENT " ++ js "SCRIPT_BLOCK_BEFORE_START_EVENT " ++
      js "SCRIPT_BLOCK_EXECUTION_RESULTS_PROPERTY " ++ js "SCRIPT_BLOCK_NAME_PROPERTY " ++
      js "SCRIPT_BLOCK_SCRIPT_PROPERTY ".
Definition lang_isbl_subtask_block_properties_constants : jsstr :=
  js "SUBTASK_BLOCK_ABORT_DEADLINE_PROPERTY " ++ js "SUBTASK_BLOCK_AFTER_FINISH_EVENT " ++
      js "SUBTASK_BLOCK_ASSIGN_PARAMS_EVENT " ++ js "SUBTASK_BLOCK_ATTACHMENTS_PROPERTY " ++
      js "SUBTASK_BLOCK_ATTACHMENTS_RIGHTS_GROUP_PROPERTY " ++
      js "SUBTASK_BLOCK_ATTACHMENTS_RIGHTS_TYPE_PROPERTY " ++ js "SUBTASK_BLOCK_BEFORE_START_EVENT " ++
      js "SUBTASK_BLOCK_CREATED_TASK_PROPERTY " ++ js "SUBTASK_BLOCK_CREATION_EVENT " ++
      js "SUBTASK_BLOCK_DEADLINE_PROPERTY " ++ js "SUBTASK_BLOCK_IMPORTANCE_PROPERTY " ++
      js "SUBTASK_BLOCK_INITIATOR_PROPERTY " ++ js "SUBTASK_BLOCK_IS_RELATIVE_ABORT_DEADLINE_PROPERTY " ++
      js "SUBTASK_BLOCK_IS_RELATIVE_DEADLINE_PROPERTY " ++ js "SUBTASK_BLOCK_JOBS_TYPE_PROPERTY " ++
      js "SUBTASK_BLOCK_NAME_PROPERTY " ++ js "SUBTASK_BLOCK_PARALLEL_ROUTE_PROPERTY " ++
      js "SUBTASK_BLOCK_PERFORMERS_PROPERTY " ++ js "SUBTASK_BLOCK_RELATIVE_ABORT_DEADLINE_TYPE_PROPERTY " ++
      js "SUBTASK_BLOCK_RELATIVE_DEADLINE_TYPE_PROPERTY " ++ js "SUBTASK_BLOCK_REQUIRE_SIGN_PROPERTY " ++
      js "SUBTASK_BLOCK_STANDARD_ROUTE_PROPERTY " ++ js "SUBTASK_BLOCK_START_EVENT " ++
      js "SUBTASK_BLOCK_STEP_CONTROL_PROPERTY " ++ js "SUBTASK_BLOCK_SUBJECT_PROPERTY " ++
      js "SUBTASK_BLOCK_TASK_CONTROL_PROPERTY " ++ js "SUBTASK_BLOCK_TEXT_PROPERTY " ++
      js "SUBTASK_BLOCK_UNLOCK_ATTACHMENTS_ON_STOP_PROPERTY " ++ js "SUBTASK_BLOCK_USE_STANDARD_ROUTE_PROPERTY " ++
      js "SUBTASK_BLOCK_WAIT_FOR_TASK_COMPLETE_PROPERTY ".
Definition lang_isbl_system_component_constants : jsstr :=
  js "SYSCOMP_CONTROL_JOBS " ++ js "SYSCOMP_FOLDERS " ++ js "SYSCOMP_JOBS " ++ js "SYSCOMP_NOTICES " ++
      js "SYSCOMP_TASKS ".
Definition lang_isbl_system_dialogs_constants : jsstr :=
  js "SYSDLG_CREATE_EDOCUMENT " ++ js "SYSDLG_CREATE_EDOCUMENT_VERSION " ++ js "SYSDLG_CURRENT_PERIOD " ++
      js "SYSDLG_EDIT_FUNCTION_HELP " ++ js "SYSDLG_EDOCUMENT_KINDS_FOR_TEMPLATE " ++
      js "SYSDLG_EXPORT_MULTIPLE_EDOCUMENTS " ++ js "SYSDLG_EXPORT_SINGLE_EDOCUMENT " ++
      js "SYSDLG_IMPORT_EDOCUMENT " ++ js "SYSDLG_MULTIPLE_SELECT " ++ js "SYSDLG_SETUP_ACCESS_RIGHTS " ++
      js "SYSDLG_SETUP_DEFAULT_RIGHTS " ++ js "SYSDLG_SETUP_FILTER_CONDITION " ++ js "SYSDLG_SETUP_SIGN_RIGHTS " ++
      js "SYSDLG_SETUP_TASK_OBSERVERS " ++ js "SYSDLG_SETUP_TASK_ROUTE " ++ js "SYSDLG_SETUP_USERS_LIST " ++
      js "SYSDLG_SIGN_EDOCUMENT " ++ js "SYSDLG_SIGN_MULTIPLE_EDOCUMENTS ".
Definition lang_isbl_system_reference_names_constants : jsstr :=
  js "SYSREF_ACCESS_RIGHTS_TYPES " ++ js "SYSREF_ADMINISTRATION_HISTORY " ++
      js "SYSREF_ALL_AVAILABLE_COMPONENTS " ++ js "SYSREF_ALL_AVAILABLE_PRIVILEGES " ++
      js "SYSREF_ALL_REPLICATING_COMPONENTS " ++ js "SYSREF_AVAILABLE_DEVELOPERS_COMPONENTS " ++
      js "SYSREF_CALENDAR_EVENTS " ++ js "SYSREF_COMPONENT_TOKEN_HISTORY " ++ js "SYSREF_COMPONENT_TOKENS " ++
      js "SYSREF_COMPONENTS " ++ js "SYSREF_CONSTANTS " ++ js "SYSREF_DATA_RECEIVE_PROTOCOL " ++
      js "SYSREF_DATA_SEND_PROTOCOL " ++ js "SYSREF_DIALOGS " ++ js "SYSREF_DIALOGS_REQUISITES " ++
      js "SYSREF_EDITORS " ++ js "SYSREF_EDOC_CARDS " ++ js "SYSREF_EDOC_TYPES " ++
      js "SYSREF_EDOCUMENT_CARD_REQUISITES " ++ js "SYSREF_EDOCUMENT_CARD_TYPES " ++
      js "SYSREF_EDOCUMENT_CARD_TYPES_REFERENCE " ++ js "SYSREF_EDOCUMENT_CARDS " ++
      js "SYSREF_EDOCUMENT_HISTORY " ++ js "SYSREF_EDOCUMENT_KINDS " ++ js "SYSREF_EDOCUMENT_REQUISITES " ++
      js "SYSREF_EDOCUMENT_SIGNATURES " ++ js "SYSREF_EDOCUMENT_TEMPLATES " ++
      js "SYSREF_EDOCUMENT_TEXT_STORAGES " ++ js "SYSREF_EDOCUMENT_VIEWS " ++
      js "SYSREF_FILTERER_SETUP_CONFLICTS " ++ js "SYSREF_FILTRATER_SETTING_CONFLICTS " ++
      js "SYSREF_FOLDER_HISTORY " ++ js "SYSREF_FOLDERS " ++ js "SYSREF_FUNCTION_GROUPS " ++
      js "SYSREF_FUNCTION_PARAMS " ++ js "SYSREF_FUNCTIONS " ++ js "SYSREF_JOB_HISTORY " ++ js "SYSREF_LINKS " ++
      js "SYSREF_LOCALIZATION_DICTIONARY " ++ js "SYSREF_LOCALIZATION_LANGUAGES " ++ js "SYSREF_MODULES " ++
      js "SYSREF_PRIVILEGES " ++ js "SYSREF_RECORD_HISTORY " ++ js "SYSREF_REFERENCE_REQUISITES " ++
      js "SYSREF_REFERENCE_TYPE_VIEWS " ++ js "SYSREF_REFERENCE_TYPES " ++ js "SYSREF_REFERENCES " ++
      js "SYSREF_REFERENCES_REQUISITES " ++ js "SYSREF_REMOTE_SERVERS " ++ js "SYSREF_REPLICATION_SESSIONS_LOG " ++
      js "SYSREF_REPLICATION_SESSIONS_PROTOCOL " ++ js "SYSREF_REPORTS " ++ js "SYSREF_ROLES " ++
      js "SYSREF_ROUTE_BLOCK_GROUPS " ++ js "SYSREF_ROUTE_BLOCKS " ++ js "SYSREF_SCRIPTS " ++
      js "SYSREF_SEARCHES " ++ js "SYSREF_SERVER_EVENTS " ++ js "SYSREF_SERVER_EVENTS_HISTORY " ++
      js "SYSREF_STANDARD_ROUTE_GROUPS " ++ js "SYSREF_STANDARD_ROUTES " ++ js "SYSREF_STATUSES " ++
      js "SYSREF_SYSTEM_SETTINGS " ++ js "SYSREF_TASK_HISTORY " ++ js "SYSREF_TASK_KIND_GROUPS " ++
      js "SYSREF_TASK_KINDS " ++ js "SYSREF_TASK_RIGHTS " ++ js "SYSREF_TASK_SIGNATURES " ++ js "SYSREF_TASKS " ++
      js "SYSREF_UNITS " ++ js "SYSREF_USER_GROUPS " ++ js "SYSREF_USER_GROUPS_REFERENCE " ++
      js "SYSREF_USER_SUBSTITUTION " ++ js "SYSREF_USERS " ++ js "SYSREF_USERS_REFERENCE " ++
      js "SYSREF_VIEWERS " ++ js "SYSREF_WORKING_TIME_CALENDARS ".
Definition lang_isbl_table_name_constants : jsstr :=
  js "ACCESS_RIGHTS_TABLE_NAME " ++ js "EDMS_ACCESS_TABLE_NAME " ++ js "EDOC_TYPES_TABLE_NAME ".
Definition lang_isbl_test_constants : jsstr :=
  js "TEST_DEV_DB_NAME " ++ js "TEST_DEV_SYSTEM_CODE " ++ js "TEST_EDMS_DB_NAME " ++ js "TEST_EDMS_MAIN_CODE " ++
      js "TEST_EDMS_MAIN_DB_NAME " ++ js "TEST_EDMS_SECOND_CODE " ++ js "TEST_EDMS_SECOND_DB_NAME " ++
      js "TEST_EDMS_SYSTEM_CODE " ++ js "TEST_ISB5_MAIN_CODE " ++ js "TEST_ISB5_SECOND_CODE " ++
      js "TEST_SQL_SERVER_2005_NAME " ++ js "TEST_SQL_SERVER_NAME ".
Definition lang_isbl_using_the_dialog_windows_constants : jsstr :=
  js "ATTENTION_CAPTION " ++ js "cbsCommandLinks " ++ js "cbsDefault " ++ js "CONFIRMATION_CAPTION " ++
      js "ERROR_CAPTION " ++ js "INFORMATION_CAPTION " ++ js "mrCancel " ++ js "mrOk ".
Definition lang_isbl_using_the_document_constants : jsstr :=
  js "EDOC_VERSION_ACTIVE_STAGE_CODE " ++ js "EDOC_VERSION_DESIGN_STAGE_CODE " ++
      js "EDOC_VERSION_OBSOLETE_STAGE_CODE ".
Definition lang_isbl_using_the_EA_and_encryption_constants : jsstr :=
  js "cpDataEnciphermentEnabled " ++ js "cpDigitalSignatureEnabled " ++ js "cpID " ++ js "cpIssuer " ++
      js "cpPluginVersion " ++ js "cpSerial " ++ js "cpSubjectName " ++ js "cpSubjSimpleName " ++
      js "cpValidFromDate " ++ js "cpValidToDate ".
Definition lang_isbl_using_the_ISBL_editor_constants : jsstr :=
  js "ISBL_SYNTAX " ++ js "NO_SYNTAX " ++ js "XML_SYNTAX ".
Definition lang_isbl_wait_block_properties_constants : jsstr :=
  js "WAIT_BLOCK_AFTER_FINISH_EVENT " ++ js "WAIT_BLOCK_BEFORE_START_EVENT " ++
      js "WAIT_BLOCK_DEADLINE_PROPERTY " ++ js "WAIT_BLOCK_IS_RELATIVE_DEADLINE_PROPERTY " ++
      js "WAIT_BLOCK_NAME_PROPERTY " ++ js "WAIT_BLOCK_RELATIVE_DEADLINE_TYPE_PROPERTY ".
Definition lang_isbl_sysres_common_constants : jsstr :=
  js "SYSRES_COMMON " ++ js "SYSRES_CONST " ++ js "SYSRES_MBFUNC " ++ js "SYSRES_SBDATA " ++ js "SYSRES_SBGUI " ++
      js "SYSRES_SBINTF " ++ js "SYSRES_SBREFDSC " ++ js "SYSRES_SQLERRORS " ++ js "SYSRES_SYSCOMP ".
Definition lang_isbl_CONSTANTS : jsstr :=
  lang_isbl_sysres_constants ++ lang_isbl_base_constants ++ lang_isbl_base_group_name_constants ++
      lang_isbl_decision_block_properties_constants ++ lang_isbl_file_extension_constants ++
      lang_isbl_job_block_properties_constants ++ lang_isbl_language_code_constants ++
      lang_isbl_launching_external_applications_constants ++ lang_isbl_link_kind_constants ++
      lang_isbl_lock_type_constants ++ lang_isbl_monitor_block_properties_constants ++
      lang_isbl_notice_block_properties_constants ++ lang_isbl_object_events_constants ++
      lang_isbl_object_params_constants ++ lang_isbl_other_constants ++ lang_isbl_privileges_constants ++
      lang_isbl_pseudoreference_code_constants ++ lang_isbl_requisite_ISBCertificateType_values_constants ++
      lang_isbl_requisite_ISBEDocStorageType_values_constants ++ lang_isbl_requisite_compType2_values_constants ++
      lang_isbl_requisite_name_constants ++ lang_isbl_result_constants ++ lang_isbl_rule_identification_constants ++
      lang_isbl_script_block_properties_constants ++ lang_isbl_subtask_block_properties_constants ++
      lang_isbl_system_component_constants ++ lang_isbl_system_dialogs_constants ++
      lang_isbl_system_reference_names_constants ++ lang_isbl_table_name_constants ++ lang_isbl_test_constants ++
      lang_isbl_using_the_dialog_windows_constants ++ lang_isbl_using_the_document_constants ++
      lang_isbl_using_the_EA_and_encryption_constants ++ lang_isbl_using_the_ISBL_editor_constants ++
      lang_isbl_wait_block_properties_constants ++ lang_isbl_sysres_common_constants.
Definition lang_isbl_TAccountType : jsstr :=
  js "atUser atGroup atRole ".
Definition lang_isbl_TActionEnabledMode : jsstr :=
  js "aemEnabledAlways " ++ js "aemDisabledAlways " ++ js "aemEnabledOnBrowse " ++ js "aemEnabledOnEdit " ++
      js "aemDisabledOnBrowseEmpty ".
Definition lang_isbl_TAddPosition : jsstr :=
  js "apBegin apEnd ".
Definition lang_isbl_TAlignment : jsstr :=
  js "alLeft alRight ".
Definition lang_isbl_TAreaShowMode : jsstr :=
  js "asmNever " ++ js "asmNoButCustomize " ++ js "asmAsLastTime " ++ js "asmYesButCustomize " ++ js "asmAlways ".
Definition lang_isbl_TCertificateInvalidationReason : jsstr :=
  js "cirCommon cirRevoked ".
Definition lang_isbl_TCertificateType : jsstr :=
  js "ctSignature ctEncode ctSignatureEncode ".
Definition lang_isbl_TCheckListBoxItemState : jsstr :=
  js "clbUnchecked clbChecked clbGrayed ".
Definition lang_isbl_TCloseOnEsc : jsstr :=
  js "ceISB ceAlways ceNever ".
Definition lang_isbl_TCompType : jsstr :=
  js "ctDocument " ++ js "ctReference " ++ js "ctScript " ++ js "ctUnknown " ++ js "ctReport " ++ js "ctDialog " ++
      js "ctFunction " ++ js "ctFolder " ++ js "ctEDocument " ++ js "ctTask " ++ js "ctJob " ++ js "ctNotice " ++
      js "ctControlJob ".
Definition lang_isbl_TConditionFormat : jsstr :=
  js "cfInternal cfDisplay ".
Definition lang_isbl_TConnectionIntent : jsstr :=
  js "ciUnspecified ciWrite ciRead ".
Definition lang_isbl_TContentKind : jsstr :=
  js "ckFolder " ++ js "ckEDocument " ++ js "ckTask " ++ js "ckJob " ++ js "ckComponentToken " ++ js "ckAny " ++
      js "ckReference " ++ js "ckScript " ++ js "ckReport " ++ js "ckDialog ".
Definition lang_isbl_TControlType : jsstr :=
  js "ctISBLEditor " ++ js "ctBevel " ++ js "ctButton " ++ js "ctCheckListBox " ++ js "ctComboBox " ++
      js "ctComboEdit " ++ js "ctGrid " ++ js "ctDBCheckBox " ++ js "ctDBComboBox " ++ js "ctDBEdit " ++
      js "ctDBEllipsis " ++ js "ctDBMemo " ++ js "ctDBNavigator " ++ js "ctDBRadioGroup " ++
      js "ctDBStatusLabel " ++ js "ctEdit " ++ js "ctGroupBox " ++ js "ctInplaceHint " ++ js "ctMemo " ++
      js "ctPanel " ++ js "ctListBox " ++ js "ctRadioButton " ++ js "ctRichEdit " ++ js "ctTabSheet " ++
      js "ctWebBrowser " ++ js "ctImage " ++ js "ctHyperLink " ++ js "ctLabel " ++ js "ctDBMultiEllipsis " ++
      js "ctRibbon " ++ js "ctRichView " ++ js "ctInnerPanel " ++ js "ctPanelGroup " ++ js "ctBitButton ".
Definition lang_isbl_TCriterionContentType : jsstr :=
  js "cctDate " ++ js "cctInteger " ++ js "cctNumeric " ++ js "cctPick " ++ js "cctReference " ++ js "cctString " ++
      js "cctText ".
Definition lang_isbl_TCultureType : jsstr :=
  js "cltInternal cltPrimary cltGUI ".
Definition lang_isbl_TDataSetEventType : jsstr :=
  js "dseBeforeOpen " ++ js "dseAfterOpen " ++ js "dseBeforeClose " ++ js "dseAfterClose " ++
      js "dseOnValidDelete " ++ js "dseBeforeDelete " ++ js "dseAfterDelete " ++
      js "dseAfterDeleteOutOfTransaction " ++ js "dseOnDeleteError " ++ js "dseBeforeInsert " ++
      js "dseAfterInsert " ++ js "dseOnValidUpdate " ++ js "dseBeforeUpdate " ++ js "dseOnUpdateRatifiedRecord " ++
      js "dseAfterUpdate " ++ js "dseAfterUpdateOutOfTransaction " ++ js "dseOnUpdateError " ++
      js "dseAfterScroll " ++ js "dseOnOpenRecord " ++ js "dseOnCloseRecord " ++ js "dseBeforeCancel " ++
      js "dseAfterCancel " ++ js "dseOnUpdateDeadlockError " ++ js "dseBeforeDetailUpdate " ++
      js "dseOnPrepareUpdate " ++ js "dseOnAnyRequisiteChange ".
Definition lang_isbl_TDataSetState : jsstr :=
  js "dssEdit dssInsert dssBrowse dssInActive ".
Definition lang_isbl_TDateFormatType : jsstr :=
  js "dftDate dftShortDate dftDateTime dftTimeStamp ".
Definition lang_isbl_TDateOffsetType : jsstr :=
  js "dotDays dotHours dotMinutes dotSeconds ".
Definition lang_isbl_TDateTimeKind : jsstr :=
  js "dtkndLocal dtkndUTC ".
Definition lang_isbl_TDeaAccessRights : jsstr :=
  js "arNone arView arEdit arFull ".
Definition lang_isbl_TDocumentDefaultAction : jsstr :=
  js "ddaView ddaEdit ".
Definition lang_isbl_TEditMode : jsstr :=
  js "emLock " ++ js "emEdit " ++ js "emSign " ++ js "emExportWithLock " ++ js "emImportWithUnlock " ++
      js "emChangeVersionNote " ++ js "emOpenForModify " ++ js "emChangeLifeStage " ++ js "emDelete " ++
      js "emCreateVersion " ++ js "emImport " ++ js "emUnlockExportedWithLock " ++ js "emStart " ++ js "emAbort " ++
      js "emReInit " ++ js "emMarkAsReaded " ++ js "emMarkAsUnreaded " ++ js "emPerform " ++ js "emAccept " ++
      js "emResume " ++ js "emChangeRights " ++ js "emEditRoute " ++ js "emEditObserver " ++
      js "emRecoveryFromLocalCopy " ++ js "emChangeWorkAccessType " ++ js "emChangeEncodeTypeToCertificate " ++
      js "emChangeEncodeTypeToPassword " ++ js "emChangeEncodeTypeToNone " ++
      js "emChangeEncodeTypeToCertificatePassword " ++ js "emChangeStandardRoute " ++ js "emGetText " ++
      js "emOpenForView " ++ js "emMoveToStorage " ++ js "emCreateObject " ++ js "emChangeVersionHidden " ++
      js "emDeleteVersion " ++ js "emChangeLifeCycleStage " ++ js "emApprovingSign " ++ js "emExport " ++
      js "emContinue " ++ js "emLockFromEdit " ++ js "emUnLockForEdit " ++ js "emLockForServer " ++
      js "emUnlockFromServer " ++ js "emDelegateAccessRights " ++ js "emReEncode ".
Definition lang_isbl_TEditorCloseObservType : jsstr :=
  js "ecotFile ecotProcess ".
Definition lang_isbl_TEdmsApplicationAction : jsstr :=
  js "eaGet eaCopy eaCreate eaCreateStandardRoute ".
Definition lang_isbl_TEDocumentLockType : jsstr :=
  js "edltAll edltNothing edltQuery ".
Definition lang_isbl_TEDocumentStepShowMode : jsstr :=
  js "essmText essmCard ".
Definition lang_isbl_TEDocumentStepVersionType : jsstr :=
  js "esvtLast esvtLastActive esvtSpecified ".
Definition lang_isbl_TEDocumentStorageFunction : jsstr :=
  js "edsfExecutive edsfArchive ".
Definition lang_isbl_TEDocumentStorageType : jsstr :=
  js "edstSQLServer edstFile ".
Definition lang_isbl_TEDocumentVersionSourceType : jsstr :=
  js "edvstNone edvstEDocumentVersionCopy edvstFile edvstTemplate edvstScannedFile ".
Definition lang_isbl_TEDocumentVersionState : jsstr :=
  js "vsDefault vsDesign vsActive vsObsolete ".
Definition lang_isbl_TEncodeType : jsstr :=
  js "etNone etCertificate etPassword etCertificatePassword ".
Definition lang_isbl_TExceptionCategory : jsstr :=
  js "ecException ecWarning ecInformation ".
Definition lang_isbl_TExportedSignaturesType : jsstr :=
  js "estAll estApprovingOnly ".
Definition lang_isbl_TExportedVersionType : jsstr :=
  js "evtLast evtLastActive evtQuery ".
Definition lang_isbl_TFieldDataType : jsstr :=
  js "fdtString " ++ js "fdtNumeric " ++ js "fdtInteger " ++ js "fdtDate " ++ js "fdtText " ++ js "fdtUnknown " ++
      js "fdtWideString " ++ js "fdtLargeInteger ".
Definition lang_isbl_TFolderType : jsstr :=
  js "ftInbox " ++ js "ftOutbox " ++ js "ftFavorites " ++ js "ftCommonFolder " ++ js "ftUserFolder " ++
      js "ftComponents " ++ js "ftQuickLaunch " ++ js "ftShortcuts " ++ js "ftSearch ".
Definition lang_isbl_TGridRowHeight : jsstr :=
  js "grhAuto " ++ js "grhX1 " ++ js "grhX2 " ++ js "grhX3 ".
Definition lang_isbl_THyperlinkType : jsstr :=
  js "hltText " ++ js "hltRTF " ++ js "hltHTML ".
Definition lang_isbl_TImageFileFormat : jsstr :=
  js "iffBMP " ++ js "iffJPEG " ++ js "iffMultiPageTIFF " ++ js "iffSinglePageTIFF " ++ js "iffTIFF " ++
      js "iffPNG ".
Definition lang_isbl_TImageMode : jsstr :=
  js "im8bGrayscale " ++ js "im24bRGB " ++ js "im1bMonochrome ".
Definition lang_isbl_TImageType : jsstr :=
  js "itBMP " ++ js "itJPEG " ++ js "itWMF " ++ js "itPNG ".
Definition lang_isbl_TInplaceHintKind : jsstr :=
  js "ikhInformation " ++ js "ikhWarning " ++ js "ikhError " ++ js "ikhNoIcon ".
Definition lang_isbl_TISBLContext : jsstr :=
  js "icUnknown " ++ js "icScript " ++ js "icFunction " ++ js "icIntegratedReport " ++ js "icAnalyticReport " ++
      js "icDataSetEventHandler " ++ js "icActionHandler " ++ js "icFormEventHandler " ++
      js "icLookUpEventHandler " ++ js "icRequisiteChangeEventHandler " ++ js "icBeforeSearchEventHandler " ++
      js "icRoleCalculation " ++ js "icSelectRouteEventHandler " ++ js "icBlockPropertyCalculation " ++
      js "icBlockQueryParamsEventHandler " ++ js "icChangeSearchResultEventHandler " ++ js "icBlockEventHandler " ++
      js "icSubTaskInitEventHandler " ++ js "icEDocDataSetEventHandler " ++ js "icEDocLookUpEventHandler " ++
      js "icEDocActionHandler " ++ js "icEDocFormEventHandler " ++ js "icEDocRequisiteChangeEventHandler " ++
      js "icStructuredConversionRule " ++ js "icStructuredConversionEventBefore " ++
      js "icStructuredConversionEventAfter " ++ js "icWizardEventHandler " ++ js "icWizardFinishEventHandler " ++
      js "icWizardStepEventHandler " ++ js "icWizardStepFinishEventHandler " ++
      js "icWizardActionEnableEventHandler " ++ js "icWizardActionExecuteEventHandler " ++
      js "icCreateJobsHandler " ++ js "icCreateNoticesHandler " ++ js "icBeforeLookUpEventHandler " ++
      js "icAfterLookUpEventHandler " ++ js "icTaskAbortEventHandler " ++ js "icWorkflowBlockActionHandler " ++
      js "icDialogDataSetEventHandler " ++ js "icDialogActionHandler " ++ js "icDialogLookUpEventHandler " ++
      js "icDialogRequisiteChangeEventHandler " ++ js "icDialogFormEventHandler " ++
      js "icDialogValidCloseEventHandler " ++ js "icBlockFormEventHandler " ++ js "icTaskFormEventHandler " ++
      js "icReferenceMethod " ++ js "icEDocMethod " ++ js "icDialogMethod " ++ js "icProcessMessageHandler ".
Definition lang_isbl_TItemShow : jsstr :=
  js "isShow " ++ js "isHide " ++ js "isByUserSettings ".
Definition lang_isbl_TJobKind : jsstr :=
  js "jkJob " ++ js "jkNotice " ++ js "jkControlJob ".
Definition lang_isbl_TJoinType : jsstr :=
  js "jtInner " ++ js "jtLeft " ++ js "jtRight " ++ js "jtFull " ++ js "jtCross ".
Definition lang_isbl_TLabelPos : jsstr :=
  js "lbpAbove " ++ js "lbpBelow " ++ js "lbpLeft " ++ js "lbpRight ".
Definition lang_isbl_TLicensingType : jsstr :=
  js "eltPerConnection " ++ js "eltPerUser ".
Definition lang_isbl_TLifeCycleStageFontColor : jsstr :=
  js "sfcUndefined " ++ js "sfcBlack " ++ js "sfcGreen " ++ js "sfcRed " ++ js "sfcBlue " ++ js "sfcOrange " ++
      js "sfcLilac ".
Definition lang_isbl_TLifeCycleStageFontStyle : jsstr :=
  js "sfsItalic " ++ js "sfsStrikeout " ++ js "sfsNormal ".
Definition lang_isbl_TLockableDevelopmentComponentType : jsstr :=
  js "ldctStandardRoute " ++ js "ldctWizard " ++ js "ldctScript " ++ js "ldctFunction " ++ js "ldctRouteBlock " ++
      js "ldctIntegratedReport " ++ js "ldctAnalyticReport " ++ js "ldctReferenceType " ++
      js "ldctEDocumentType " ++ js "ldctDialog " ++ js "ldctServerEvents ".
Definition lang_isbl_TMaxRecordCountRestrictionType : jsstr :=
  js "mrcrtNone " ++ js "mrcrtUser " ++ js "mrcrtMaximal " ++ js "mrcrtCustom ".
Definition lang_isbl_TRangeValueType : jsstr :=
  js "vtEqual " ++ js "vtGreaterOrEqual " ++ js "vtLessOrEqual " ++ js "vtRange ".
Definition lang_isbl_TRelativeDate : jsstr :=
  js "rdYesterday " ++ js "rdToday " ++ js "rdTomorrow " ++ js "rdThisWeek " ++ js "rdThisMonth " ++
      js "rdThisYear " ++ js "rdNextMonth " ++ js "rdNextWeek " ++ js "rdLastWeek " ++ js "rdLastMonth ".
Definition lang_isbl_TReportDestination : jsstr :=
  js "rdWindow " ++ js "rdFile " ++ js "rdPrinter ".
Definition lang_isbl_TReqDataType : jsstr :=
  js "rdtString " ++ js "rdtNumeric " ++ js "rdtInteger " ++ js "rdtDate " ++ js "rdtReference " ++
      js "rdtAccount " ++ js "rdtText " ++ js "rdtPick " ++ js "rdtUnknown " ++ js "rdtLargeInteger " ++
      js "rdtDocument ".
Definition lang_isbl_TRequisiteEventType : jsstr :=
  js "reOnChange " ++ js "reOnChangeValues ".
Definition lang_isbl_TSBTimeType : jsstr :=
  js "ttGlobal " ++ js "ttLocal " ++ js "ttUser " ++ js "ttSystem ".
Definition lang_isbl_TSearchShowMode : jsstr :=
  js "ssmBrowse " ++ js "ssmSelect " ++ js "ssmMultiSelect " ++ js "ssmBrowseModal ".
Definition lang_isbl_TSelectMode : jsstr :=
  js "smSelect " ++ js "smLike " ++ js "smCard ".
Definition lang_isbl_TSignatureType : jsstr :=
  js "stNone " ++ js "stAuthenticating " ++ js "stApproving ".
Definition lang_isbl_TSignerContentType : jsstr :=
  js "sctString " ++ js "sctStream ".
Definition lang_isbl_TStringsSortType : jsstr :=
  js "sstAnsiSort " ++ js "sstNaturalSort ".
Definition lang_isbl_TStringValueType : jsstr :=
  js "svtEqual " ++ js "svtContain ".
Definition lang_isbl_TStructuredObjectAttributeType : jsstr :=
  js "soatString " ++ js "soatNumeric " ++ js "soatInteger " ++ js "soatDatetime " ++ js "soatReferenceRecord " ++
      js "soatText " ++ js "soatPick " ++ js "soatBoolean " ++ js "soatEDocument " ++ js "soatAccount " ++
      js "soatIntegerCollection " ++ js "soatNumericCollection " ++ js "soatStringCollection " ++
      js "soatPickCollection " ++ js "soatDatetimeCollection " ++ js "soatBooleanCollection " ++
      js "soatReferenceRecordCollection " ++ js "soatEDocumentCollection " ++ js "soatAccountCollection " ++
      js "soatContents " ++ js "soatUnknown ".
Definition lang_isbl_TTaskAbortReason : jsstr :=
  js "tarAbortByUser " ++ js "tarAbortByWorkflowException ".
Definition lang_isbl_TTextValueType : jsstr :=
  js "tvtAllWords " ++ js "tvtExactPhrase " ++ js "tvtAnyWord ".
Definition lang_isbl_TUserObjectStatus : jsstr :=
  js "usNone " ++ js "usCompleted " ++ js "usRedSquare " ++ js "usBlueSquare " ++ js "usYellowSquare " ++
      js "usGreenSquare " ++ js "usOrangeSquare " ++ js "usPurpleSquare " ++ js "usFollowUp ".
Definition lang_isbl_TUserType : jsstr :=
  js "utUnknown " ++ js "utUser " ++ js "utDeveloper " ++ js "utAdministrator " ++ js "utSystemDeveloper " ++
      js "utDisconnected ".
Definition lang_isbl_TValuesBuildType : jsstr :=
  js "btAnd " ++ js "btDetailAnd " ++ js "btOr " ++ js "btNotOr " ++ js "btOnly ".
Definition lang_isbl_TViewMode : jsstr :=
  js "vmView " ++ js "vmSelect " ++ js "vmNavigation ".
Definition lang_isbl_TViewSelectionMode : jsstr :=
  js "vsmSingle " ++ js "vsmMultiple " ++ js "vsmMultipleCheck " ++ js "vsmNoSelection ".
Definition lang_isbl_TWizardActionType : jsstr :=
  js "wfatPrevious " ++ js "wfatNext " ++ js "wfatCancel " ++ js "wfatFinish ".
Definition lang_isbl_TWizardFormElementProperty : jsstr :=
  js "wfepUndefined " ++ js "wfepText3 " ++ js "wfepText6 " ++ js "wfepText9 " ++ js "wfepSpinEdit " ++
      js "wfepDropDown " ++ js "wfepRadioGroup " ++ js "wfepFlag " ++ js "wfepText12 " ++ js "wfepText15 " ++
      js "wfepText18 " ++ js "wfepText21 " ++ js "wfepText24 " ++ js "wfepText27 " ++ js "wfepText30 " ++
      js "wfepRadioGroupColumn1 " ++ js "wfepRadioGroupColumn2 " ++ js "wfepRadioGroupColumn3 ".
Definition lang_isbl_TWizardFormElementType : jsstr :=
  js "wfetQueryParameter " ++ js "wfetText " ++ js "wfetDelimiter " ++ js "wfetLabel ".
Definition lang_isbl_TWizardParamType : jsstr :=
  js "wptString " ++ js "wptInteger " ++ js "wptNumeric " ++ js "wptBoolean " ++ js "wptDateTime " ++
      js "wptPick " ++ js "wptText " ++ js "wptUser " ++ js "wptUserList " ++ js "wptEDocumentInfo " ++
      js "wptEDocumentInfoList " ++ js "wptReferenceRecordInfo " ++ js "wptReferenceRecordInfoList " ++
      js "wptFolderInfo " ++ js "wptTaskInfo " ++ js "wptContents " ++ js "wptFileName " ++ js "wptDate ".
Definition lang_isbl_TWizardStepResult : jsstr :=
  js "wsrComplete " ++ js "wsrGoNext " ++ js "wsrGoPrevious " ++ js "wsrCustom " ++ js "wsrCancel " ++
      js "wsrGoFinal ".
Definition lang_isbl_TWizardStepType : jsstr :=
  js "wstForm " ++ js "wstEDocument " ++ js "wstTaskCard " ++ js "wstReferenceRecordCard " ++ js "wstFinal ".
Definition lang_isbl_TWorkAccessType : jsstr :=
  js "waAll " ++ js "waPerformers " ++ js "waManual ".
Definition lang_isbl_TWorkflowBlockType : jsstr :=
  js "wsbStart " ++ js "wsbFinish " ++ js "wsbNotice " ++ js "wsbStep " ++ js "wsbDecision " ++ js "wsbWait " ++
      js "wsbMonitor " ++ js "wsbScript " ++ js "wsbConnector " ++ js "wsbSubTask " ++ js "wsbLifeCycleStage " ++
      js "wsbPause ".
Definition lang_isbl_TWorkflowDataType : jsstr :=
  js "wdtInteger " ++ js "wdtFloat " ++ js "wdtString " ++ js "wdtPick " ++ js "wdtDateTime " ++ js "wdtBoolean " ++
      js "wdtTask " ++ js "wdtJob " ++ js "wdtFolder " ++ js "wdtEDocument " ++ js "wdtReferenceRecord " ++
      js "wdtUser " ++ js "wdtGroup " ++ js "wdtRole " ++ js "wdtIntegerCollection " ++ js "wdtFloatCollection " ++
      js "wdtStringCollection " ++ js "wdtPickCollection " ++ js "wdtDateTimeCollection " ++
      js "wdtBooleanCollection " ++ js "wdtTaskCollection " ++ js "wdtJobCollection " ++
      js "wdtFolderCollection " ++ js "wdtEDocumentCollection " ++ js "wdtReferenceRecordCollection " ++
      js "wdtUserCollection " ++ js "wdtGroupCollection " ++ js "wdtRoleCollection " ++ js "wdtContents " ++
      js "wdtUserList " ++ js "wdtSearchDescription " ++ js "wdtDeadLine " ++ js "wdtPickSet " ++
      js "wdtAccountCollection ".
Definition lang_isbl_TWorkImportance : jsstr :=
  js "wiLow " ++ js "wiNormal " ++ js "wiHigh ".
Definition lang_isbl_TWorkRouteType : jsstr :=
  js "wrtSoft " ++ js "wrtHard ".
Definition lang_isbl_TWorkState : jsstr :=
  js "wsInit " ++ js "wsRunning " ++ js "wsDone " ++ js "wsControlled " ++ js "wsAborted " ++ js "wsContinued ".
Definition lang_isbl_TWorkTextBuildingMode : jsstr :=
  js "wtmFull " ++ js "wtmFromCurrent " ++ js "wtmOnlyCurrent ".
Definition lang_isbl_ENUMS : jsstr :=
  lang_isbl_TAccountType ++ lang_isbl_TActionEnabledMode ++ lang_isbl_TAddPosition ++ lang_isbl_TAlignment ++
      lang_isbl_TAreaShowMode ++ lang_isbl_TCertificateInvalidationReason ++ lang_isbl_TCertificateType ++
      lang_isbl_TCheckListBoxItemState ++ lang_isbl_TCloseOnEsc ++ lang_isbl_TCompType ++
      lang_isbl_TConditionFormat ++ lang_isbl_TConnectionIntent ++ lang_isbl_TContentKind ++
      lang_isbl_TControlType ++ lang_isbl_TCriterionContentType ++ lang_isbl_TCultureType ++
      lang_isbl_TDataSetEventType ++ lang_isbl_TDataSetState ++ lang_isbl_TDateFormatType ++
      lang_isbl_TDateOffsetType ++ lang_isbl_TDateTimeKind ++ lang_isbl_TDeaAccessRights ++
      lang_isbl_TDocumentDefaultAction ++ lang_isbl_TEditMode ++ lang_isbl_TEditorCloseObservType ++
      lang_isbl_TEdmsApplicationAction ++ lang_isbl_TEDocumentLockType ++ lang_isbl_TEDocumentStepShowMode ++
      lang_isbl_TEDocumentStepVersionType ++ lang_isbl_TEDocumentStorageFunction ++
      lang_isbl_TEDocumentStorageType ++ lang_isbl_TEDocumentVersionSourceType ++
      lang_isbl_TEDocumentVersionState ++ lang_isbl_TEncodeType ++ lang_isbl_TExceptionCategory ++
      lang_isbl_TExportedSignaturesType ++ lang_isbl_TExportedVersionType ++ lang_isbl_TFieldDataType ++
      lang_isbl_TFolderType ++ lang_isbl_TGridRowHeight ++ lang_isbl_THyperlinkType ++ lang_isbl_TImageFileFormat ++
      lang_isbl_TImageMode ++ lang_isbl_TImageType ++ lang_isbl_TInplaceHintKind ++ lang_isbl_TISBLContext ++
      lang_isbl_TItemShow ++ lang_isbl_TJobKind ++ lang_isbl_TJoinType ++ lang_isbl_TLabelPos ++
      lang_isbl_TLicensingType ++ lang_isbl_TLifeCycleStageFontColor ++ lang_isbl_TLifeCycleStageFontStyle ++
      lang_isbl_TLockableDevelopmentComponentType ++ lang_isbl_TMaxRecordCountRestrictionType ++
      lang_isbl_TRangeValueType ++ lang_isbl_TRelativeDate ++ lang_isbl_TReportDestination ++
      lang_isbl_TReqDataType ++ lang_isbl_TRequisiteEventType ++ lang_isbl_TSBTimeType ++
      lang_isbl_TSearchShowMode ++ lang_isbl_TSelectMode ++ lang_isbl_TSignatureType ++
      lang_isbl_TSignerContentType ++ lang_isbl_TStringsSortType ++ lang_isbl_TStringValueType ++
      lang_isbl_TStructuredObjectAttributeType ++ lang_isbl_TTaskAbortReason ++ lang_isbl_TTextValueType ++
      lang_isbl_TUserObjectStatus ++ lang_isbl_TUserType ++ lang_isbl_TValuesBuildType ++ lang_isbl_TViewMode ++
      lang_isbl_TViewSelectionMode ++ lang_isbl_TWizardActionType ++ lang_isbl_TWizardFormElementProperty ++
      lang_isbl_TWizardFormElementType ++ lang_isbl_TWizardParamType ++ lang_isbl_TWizardStepResult ++
      lang_isbl_TWizardStepType ++ lang_isbl_TWorkAccessType ++ lang_isbl_TWorkflowBlockType ++
      lang_isbl_TWorkflowDataType ++ lang_isbl_TWorkImportance ++ lang_isbl_TWorkRouteType ++
      lang_isbl_TWorkState ++ lang_isbl_TWorkTextBuildingMode.
Definition lang_isbl_system_functions_1 : jsstr :=
  js "AddSubString " ++ js "AdjustLineBreaks " ++ js "AmountInWords " ++ js "Analysis " ++
      js "ArrayDimCount " ++ js "ArrayHighBound " ++ js "ArrayLowBound " ++ js "ArrayOf " ++
      js "ArrayReDim " ++ js "Assert " ++ js "Assigned " ++ js "BeginOfMonth " ++
      js "BeginOfPeriod " ++ js "BuildProfilingOperationAnalysis " ++ js "CallProcedure " ++
      js "CanReadFile " ++ js "CArrayElement " ++ js "CDataSetRequisite " ++ js "ChangeDate " ++
      js "ChangeReferenceDataset " ++ js "Char " ++ js "CharPos " ++ js "CheckParam " ++
      js "CheckParamValue " ++ js "CompareStrings " ++ js "ConstantExists " ++ js "ControlState " ++
      js "ConvertDateStr " ++ js "Copy " ++ js "CopyFile " ++ js "CreateArray " ++
      js "CreateCachedReference " ++ js "CreateConnection " ++ js "CreateDialog " ++
      js "CreateDualListDialog " ++ js "CreateEditor " ++ js "CreateException " ++
      js "CreateFile " ++ js "CreateFolderDialog " ++ js "CreateInputDialog " ++
      js "CreateLinkFile " ++ js "CreateList " ++ js "CreateLock " ++ js "CreateMemoryDataSet " ++
      js "CreateObject " ++ js "CreateOpenDialog " ++ js "CreateProgress " ++ js "CreateQuery " ++
      js "CreateReference " ++ js "CreateReport " ++ js "CreateSaveDialog " ++ js "CreateScript " ++
      js "CreateSQLPivotFunction " ++ js "CreateStringList " ++ js "CreateTreeListSelectDialog " ++
      js "CSelectSQL " ++ js "CSQL " ++ js "CSubString " ++ js "CurrentUserID " ++
      js "CurrentUserName " ++ js "CurrentVersion " ++ js "DataSetLocateEx " ++ js "DateDiff " ++
      js "DateTimeDiff " ++ js "DateToStr " ++ js "DayOfWeek " ++ js "DeleteFile " ++
      js "DirectoryExists " ++ js "DisableCheckAccessRights " ++
      js "DisableCheckFullShowingRestriction " ++ js "DisableMassTaskSendingRestrictions " ++
      js "DropTable " ++ js "DupeString " ++ js "EditText " ++ js "EnableCheckAccessRights " ++
      js "EnableCheckFullShowingRestriction " ++ js "EnableMassTaskSendingRestrictions " ++
      js "EndOfMonth " ++ js "EndOfPeriod " ++ js "ExceptionExists " ++ js "ExceptionsOff " ++
      js "ExceptionsOn " ++ js "Execute " ++ js "ExecuteProcess " ++ js "Exit " ++
      js "ExpandEnvironmentVariables " ++ js "ExtractFileDrive " ++ js "ExtractFileExt " ++
      js "ExtractFileName " ++ js "ExtractFilePath " ++ js "ExtractParams " ++ js "FileExists " ++
      js "FileSize " ++ js "FindFile " ++ js "FindSubString " ++ js "FirmContext " ++
      js "ForceDirectories " ++ js "Format " ++ js "FormatDate " ++ js "FormatNumeric " ++
      js "FormatSQLDate " ++ js "FormatString " ++ js "FreeException " ++ js "GetComponent " ++
      js "GetComponentLaunchParam " ++ js "GetConstant " ++ js "GetLastException " ++
      js "GetReferenceRecord " ++ js "GetRefTypeByRefID " ++ js "GetTableID " ++
      js "GetTempFolder " ++ js "IfThen " ++ js "In " ++ js "IndexOf " ++ js "InputDialog " ++
      js "InputDialogEx " ++ js "InteractiveMode " ++ js "IsFileLocked " ++ js "IsGraphicFile " ++
      js "IsNumeric " ++ js "Length " ++ js "LoadString " ++ js "LoadStringFmt " ++
      js "LocalTimeToUTC " ++ js "LowerCase " ++ js "Max " ++ js "MessageBox " ++
      js "MessageBoxEx " ++ js "MimeDecodeBinary " ++ js "MimeDecodeString " ++
      js "MimeEncodeBinary " ++ js "MimeEncodeString " ++ js "Min " ++ js "MoneyInWords " ++
      js "MoveFile " ++ js "NewID " ++ js "Now " ++ js "OpenFile " ++ js "Ord " ++ js "Precision ".

Definition lang_isbl_system_functions_2 : jsstr :=
  js "Raise " ++ js "ReadCertificateFromFile " ++ js "ReadFile " ++ js "ReferenceCodeByID " ++
      js "ReferenceNumber " ++ js "ReferenceRequisiteMode " ++ js "ReferenceRequisiteValue " ++
      js "RegionDateSettings " ++ js "RegionNumberSettings " ++ js "RegionTimeSettings " ++
      js "RegRead " ++ js "RegWrite " ++ js "RenameFile " ++ js "Replace " ++ js "Round " ++
      js "SelectServerCode " ++ js "SelectSQL " ++ js "ServerDateTime " ++ js "SetConstant " ++
      js "SetManagedFolderFieldsState " ++ js "ShowConstantsInputDialog " ++ js "ShowMessage " ++
      js "Sleep " ++ js "Split " ++ js "SQL " ++ js "SQL2XLSTAB " ++ js "SQLProfilingSendReport " ++
      js "StrToDate " ++ js "SubString " ++ js "SubStringCount " ++ js "SystemSetting " ++
      js "Time " ++ js "TimeDiff " ++ js "Today " ++ js "Transliterate " ++ js "Trim " ++
      js "UpperCase " ++ js "UserStatus " ++ js "UTCToLocalTime " ++ js "ValidateXML " ++
      js "VarIsClear " ++ js "VarIsEmpty " ++ js "VarIsNull " ++ js "WorkTimeDiff " ++
      js "WriteFile " ++ js "WriteFileEx " ++ js "WriteObjectHistory " ++ js "Анализ " ++
      js "БазаДанных " ++ js "БлокЕсть " ++ js "БлокЕстьРасш " ++ js "БлокИнфо " ++
      js "БлокСнять " ++ js "БлокСнятьРасш " ++ js "БлокУстановить " ++ js "Ввод " ++
      js "ВводМеню " ++ js "ВедС " ++ js "ВедСпр " ++ js "ВерхняяГраницаМассива " ++
      js "ВнешПрогр " ++ js "Восст " ++ js "ВременнаяПапка " ++ js "Время " ++ js "ВыборSQL " ++
      js "ВыбратьЗапись " ++ js "ВыделитьСтр " ++ js "Вызвать " ++ js "Выполнить " ++
      js "ВыпПрогр " ++ js "ГрафическийФайл " ++ js "ГруппаДополнительно " ++ js "ДатаВремяСерв " ++
      js "ДеньНедели " ++ js "ДиалогДаНет " ++ js "ДлинаСтр " ++ js "ДобПодстр " ++ js "ЕПусто " ++
      js "ЕслиТо " ++ js "ЕЧисло " ++ js "ЗамПодстр " ++ js "ЗаписьСправочника " ++
      js "ЗначПоляСпр " ++ js "ИДТипСпр " ++ js "ИзвлечьДиск " ++ js "ИзвлечьИмяФайла " ++
      js "ИзвлечьПуть " ++ js "ИзвлечьРасширение " ++ js "ИзмДат " ++ js "ИзменитьРазмерМассива " ++
      js "ИзмеренийМассива " ++ js "ИмяОрг " ++ js "ИмяПоляСпр " ++ js "Индекс " ++
      js "ИндикаторЗакрыть " ++ js "ИндикаторОткрыть " ++ js "ИндикаторШаг " ++
      js "ИнтерактивныйРежим " ++ js "ИтогТблСпр " ++ js "КодВидВедСпр " ++ js "КодВидСпрПоИД " ++
      js "КодПоAnalit " ++ js "КодСимвола " ++ js "КодСпр " ++ js "КолПодстр " ++ js "КолПроп " ++
      js "КонМес " ++ js "Конст " ++ js "КонстЕсть " ++ js "КонстЗнач " ++ js "КонТран " ++
      js "КопироватьФайл " ++ js "КопияСтр " ++ js "КПериод " ++ js "КСтрТблСпр " ++ js "Макс " ++
      js "МаксСтрТблСпр " ++ js "Массив " ++ js "Меню " ++ js "МенюРасш " ++ js "Мин " ++
      js "НаборДанныхНайтиРасш " ++ js "НаимВидСпр " ++ js "НаимПоAnalit " ++ js "НаимСпр " ++
      js "НастроитьПереводыСтрок " ++ js "НачМес " ++ js "НачТран " ++ js "НижняяГраницаМассива " ++
      js "НомерСпр " ++ js "НПериод " ++ js "Окно " ++ js "Окр " ++ js "Окружение " ++
      js "ОтлИнфДобавить " ++ js "ОтлИнфУдалить " ++ js "Отчет " ++ js "ОтчетАнал " ++
      js "ОтчетИнт " ++ js "ПапкаСуществует ".

Definition lang_isbl_system_functions_3 : jsstr :=
  js "Пауза " ++ js "ПВыборSQL " ++ js "ПереименоватьФайл " ++ js "Переменные " ++
      js "ПереместитьФайл " ++ js "Подстр " ++ js "ПоискПодстр " ++ js "ПоискСтр " ++
      js "ПолучитьИДТаблицы " ++ js "ПользовательДополнительно " ++ js "ПользовательИД " ++
      js "ПользовательИмя " ++ js "ПользовательСтатус " ++ js "Прервать " ++
      js "ПроверитьПараметр " ++ js "ПроверитьПараметрЗнач " ++ js "ПроверитьУсловие " ++
      js "РазбСтр " ++ js "РазнВремя " ++ js "РазнДат " ++ js "РазнДатаВремя " ++
      js "РазнРабВремя " ++ js "РегУстВрем " ++ js "РегУстДат " ++ js "РегУстЧсл " ++
      js "РедТекст " ++ js "РеестрЗапись " ++ js "РеестрСписокИменПарам " ++ js "РеестрЧтение " ++
      js "РеквСпр " ++ js "РеквСпрПр " ++ js "Сегодня " ++ js "Сейчас " ++ js "Сервер " ++
      js "СерверПроцессИД " ++ js "СертификатФайлСчитать " ++ js "СжПроб " ++ js "Символ " ++
      js "СистемаДиректумКод " ++ js "СистемаИнформация " ++ js "СистемаКод " ++ js "Содержит " ++
      js "СоединениеЗакрыть " ++ js "СоединениеОткрыть " ++ js "СоздатьДиалог " ++
      js "СоздатьДиалогВыбораИзДвухСписков " ++ js "СоздатьДиалогВыбораПапки " ++
      js "СоздатьДиалогОткрытияФайла " ++ js "СоздатьДиалогСохраненияФайла " ++
      js "СоздатьЗапрос " ++ js "СоздатьИндикатор " ++ js "СоздатьИсключение " ++
      js "СоздатьКэшированныйСправочник " ++ js "СоздатьМассив " ++ js "СоздатьНаборДанных " ++
      js "СоздатьОбъект " ++ js "СоздатьОтчет " ++ js "СоздатьПапку " ++ js "СоздатьРедактор " ++
      js "СоздатьСоединение " ++ js "СоздатьСписок " ++ js "СоздатьСписокСтрок " ++
      js "СоздатьСправочник " ++ js "СоздатьСценарий " ++ js "СоздСпр " ++ js "СостСпр " ++
      js "Сохр " ++ js "СохрСпр " ++ js "СписокСистем " ++ js "Спр " ++ js "Справочник " ++
      js "СпрБлокЕсть " ++ js "СпрБлокСнять " ++ js "СпрБлокСнятьРасш " ++
      js "СпрБлокУстановить " ++ js "СпрИзмНабДан " ++ js "СпрКод " ++ js "СпрНомер " ++
      js "СпрОбновить " ++ js "СпрОткрыть " ++ js "СпрОтменить " ++ js "СпрПарам " ++
      js "СпрПолеЗнач " ++ js "СпрПолеИмя " ++ js "СпрРекв " ++ js "СпрРеквВведЗн " ++
      js "СпрРеквНовые " ++ js "СпрРеквПр " ++ js "СпрРеквПредЗн " ++ js "СпрРеквРежим " ++
      js "СпрРеквТипТекст " ++ js "СпрСоздать " ++ js "СпрСост " ++ js "СпрСохранить " ++
      js "СпрТблИтог " ++ js "СпрТблСтр " ++ js "СпрТблСтрКол " ++ js "СпрТблСтрМакс " ++
      js "СпрТблСтрМин " ++ js "СпрТблСтрПред " ++ js "СпрТблСтрСлед " ++ js "СпрТблСтрСозд " ++
      js "СпрТблСтрУд " ++ js "СпрТекПредст " ++ js "СпрУдалить " ++ js "СравнитьСтр " ++
      js "СтрВерхРегистр " ++ js "СтрНижнРегистр " ++ js "СтрТблСпр " ++ js "СумПроп " ++
      js "Сценарий " ++ js "СценарийПарам " ++ js "ТекВерсия " ++ js "ТекОрг " ++ js "Точн " ++
      js "Тран " ++ js "Транслитерация " ++ js "УдалитьТаблицу " ++ js "УдалитьФайл " ++
      js "УдСпр " ++ js "УдСтрТблСпр " ++ js "Уст " ++ js "УстановкиКонстант " ++
      js "ФайлАтрибутСчитать " ++ js "ФайлАтрибутУстановить " ++ js "ФайлВремя " ++
      js "ФайлВремяУстановить " ++ js "ФайлВыбрать " ++ js "ФайлЗанят " ++ js "ФайлЗаписать " ++
      js "ФайлИскать " ++ js "ФайлКопировать " ++ js "ФайлМожноЧитать " ++ js "ФайлОткрыть " ++
      js "ФайлПереименовать " ++ js "ФайлПерекодировать " ++ js "ФайлПереместить " ++
      js "ФайлПросмотреть " ++ js "ФайлРазмер " ++ js "ФайлСоздать ".

Definition lang_isbl_system_functions_4 : jsstr :=
  js "ФайлСсылкаСоздать " ++ js "ФайлСуществует " ++ js "ФайлСчитать " ++ js "ФайлУдалить " ++
      js "ФмтSQLДат " ++ js "ФмтДат " ++ js "ФмтСтр " ++ js "ФмтЧсл " ++ js "Формат " ++
      js "ЦМассивЭлемент " ++ js "ЦНаборДанныхРеквизит " ++ js "ЦПодстр ".

Definition lang_isbl_system_functions : jsstr :=
  lang_isbl_system_functions_1 ++ lang_isbl_system_functions_2 ++ lang_isbl_system_functions_3 ++ lang_isbl_system_functions_4.
Definition lang_isbl_predefined_variables : jsstr :=
  js "AltState " ++ js "Application " ++ js "CallType " ++ js "ComponentTokens " ++ js "CreatedJobs " ++
      js "CreatedNotices " ++ js "ControlState " ++ js "DialogResult " ++ js "Dialogs " ++ js "EDocuments " ++
      js "EDocumentVersionSource " ++ js "Folders " ++ js "GlobalIDs " ++ js "Job " ++ js "Jobs " ++
      js "InputValue " ++ js "LookUpReference " ++ js "LookUpRequisiteNames " ++ js "LookUpSearch " ++
      js "Object " ++ js "ParentComponent " ++ js "Processes " ++ js "References " ++ js "Requisite " ++
      js "ReportName " ++ js "Reports " ++ js "Result " ++ js "Scripts " ++ js "Searches " ++
      js "SelectedAttachments " ++ js "SelectedItems " ++ js "SelectMode " ++ js "Sender " ++ js "ServerEvents " ++
      js "ServiceFactory " ++ js "ShiftState " ++ js "SubTask " ++ js "SystemDialogs " ++ js "Tasks " ++
      js "Wizard " ++ js "Wizards " ++ js "Work " ++ js "ВызовСпособ " ++ js "ИмяОтчета " ++ js "РеквЗнач ".
Definition lang_isbl_interfaces_1 : jsstr :=
  js "IApplication " ++ js "IAccessRights " ++ js "IAccountRepository " ++
      js "IAccountSelectionRestrictions " ++ js "IAction " ++ js "IActionList " ++
      js "IAdministrationHistoryDescription " ++ js "IAnchors " ++ js "IApplication " ++
      js "IArchiveInfo " ++ js "IAttachment " ++ js "IAttachmentList " ++ js "ICheckListBox " ++
      js "ICheckPointedList " ++ js "IColumn " ++ js "IComponent " ++ js "IComponentDescription " ++
      js "IComponentToken " ++ js "IComponentTokenFactory " ++ js "IComponentTokenInfo " ++
      js "ICompRecordInfo " ++ js "IConnection " ++ js "IContents " ++ js "IControl " ++
      js "IControlJob " ++ js "IControlJobInfo " ++ js "IControlList " ++ js "ICrypto " ++
      js "ICrypto2 " ++ js "ICustomJob " ++ js "ICustomJobInfo " ++ js "ICustomListBox " ++
      js "ICustomObjectWizardStep " ++ js "ICustomWork " ++ js "ICustomWorkInfo " ++
      js "IDataSet " ++ js "IDataSetAccessInfo " ++ js "IDataSigner " ++ js "IDateCriterion " ++
      js "IDateRequisite " ++ js "IDateRequisiteDescription " ++ js "IDateValue " ++
      js "IDeaAccessRights " ++ js "IDeaObjectInfo " ++ js "IDevelopmentComponentLock " ++
      js "IDialog " ++ js "IDialogFactory " ++ js "IDialogPickRequisiteItems " ++
      js "IDialogsFactory " ++ js "IDICSFactory " ++ js "IDocRequisite " ++ js "IDocumentInfo " ++
      js "IDualListDialog " ++ js "IECertificate " ++ js "IECertificateInfo " ++
      js "IECertificates " ++ js "IEditControl " ++ js "IEditorForm " ++ js "IEdmsExplorer " ++
      js "IEdmsObject " ++ js "IEdmsObjectDescription " ++ js "IEdmsObjectFactory " ++
      js "IEdmsObjectInfo " ++ js "IEDocument " ++ js "IEDocumentAccessRights " ++
      js "IEDocumentDescription " ++ js "IEDocumentEditor " ++ js "IEDocumentFactory " ++
      js "IEDocumentInfo " ++ js "IEDocumentStorage " ++ js "IEDocumentVersion " ++
      js "IEDocumentVersionListDialog " ++ js "IEDocumentVersionSource " ++
      js "IEDocumentWizardStep " ++ js "IEDocVerSignature " ++ js "IEDocVersionState " ++
      js "IEnabledMode " ++ js "IEncodeProvider " ++ js "IEncrypter " ++ js "IEvent " ++
      js "IEventList " ++ js "IException " ++ js "IExternalEvents " ++ js "IExternalHandler " ++
      js "IFactory " ++ js "IField " ++ js "IFileDialog " ++ js "IFolder " ++
      js "IFolderDescription " ++ js "IFolderDialog " ++ js "IFolderFactory " ++
      js "IFolderInfo " ++ js "IForEach " ++ js "IForm " ++ js "IFormTitle " ++
      js "IFormWizardStep " ++ js "IGlobalIDFactory " ++ js "IGlobalIDInfo " ++ js "IGrid " ++
      js "IHasher " ++ js "IHistoryDescription " ++ js "IHyperLinkControl " ++ js "IImageButton " ++
      js "IImageControl " ++ js "IInnerPanel " ++ js "IInplaceHint " ++ js "IIntegerCriterion " ++
      js "IIntegerList " ++ js "IIntegerRequisite " ++ js "IIntegerValue " ++
      js "IISBLEditorForm " ++ js "IJob " ++ js "IJobDescription " ++ js "IJobFactory " ++
      js "IJobForm " ++ js "IJobInfo " ++ js "ILabelControl " ++ js "ILargeIntegerCriterion " ++
      js "ILargeIntegerRequisite " ++ js "ILargeIntegerValue " ++ js "ILicenseInfo " ++
      js "ILifeCycleStage " ++ js "IList " ++ js "IListBox " ++ js "ILocalIDInfo " ++
      js "ILocalization " ++ js "ILock " ++ js "IMemoryDataSet " ++ js "IMessagingFactory " ++
      js "IMetadataRepository " ++ js "INotice " ++ js "INoticeInfo " ++ js "INumericCriterion " ++
      js "INumericRequisite " ++ js "INumericValue " ++ js "IObject " ++ js "IObjectDescription " ++
      js "IObjectImporter " ++ js "IObjectInfo " ++ js "IObserver ".

Definition lang_isbl_interfaces_2 : jsstr :=
  js "IPanelGroup " ++ js "IPickCriterion " ++ js "IPickProperty " ++ js "IPickRequisite " ++
      js "IPickRequisiteDescription " ++ js "IPickRequisiteItem " ++ js "IPickRequisiteItems " ++
      js "IPickValue " ++ js "IPrivilege " ++ js "IPrivilegeList " ++ js "IProcess " ++
      js "IProcessFactory " ++ js "IProcessMessage " ++ js "IProgress " ++ js "IProperty " ++
      js "IPropertyChangeEvent " ++ js "IQuery " ++ js "IReference " ++ js "IReferenceCriterion " ++
      js "IReferenceEnabledMode " ++ js "IReferenceFactory " ++
      js "IReferenceHistoryDescription " ++ js "IReferenceInfo " ++
      js "IReferenceRecordCardWizardStep " ++ js "IReferenceRequisiteDescription " ++
      js "IReferencesFactory " ++ js "IReferenceValue " ++ js "IRefRequisite " ++ js "IReport " ++
      js "IReportFactory " ++ js "IRequisite " ++ js "IRequisiteDescription " ++
      js "IRequisiteDescriptionList " ++ js "IRequisiteFactory " ++ js "IRichEdit " ++
      js "IRouteStep " ++ js "IRule " ++ js "IRuleList " ++ js "ISchemeBlock " ++ js "IScript " ++
      js "IScriptFactory " ++ js "ISearchCriteria " ++ js "ISearchCriterion " ++
      js "ISearchDescription " ++ js "ISearchFactory " ++ js "ISearchFolderInfo " ++
      js "ISearchForObjectDescription " ++ js "ISearchResultRestrictions " ++
      js "ISecuredContext " ++ js "ISelectDialog " ++ js "IServerEvent " ++
      js "IServerEventFactory " ++ js "IServiceDialog " ++ js "IServiceFactory " ++
      js "ISignature " ++ js "ISignProvider " ++ js "ISignProvider2 " ++ js "ISignProvider3 " ++
      js "ISimpleCriterion " ++ js "IStringCriterion " ++ js "IStringList " ++
      js "IStringRequisite " ++ js "IStringRequisiteDescription " ++ js "IStringValue " ++
      js "ISystemDialogsFactory " ++ js "ISystemInfo " ++ js "ITabSheet " ++ js "ITask " ++
      js "ITaskAbortReasonInfo " ++ js "ITaskCardWizardStep " ++ js "ITaskDescription " ++
      js "ITaskFactory " ++ js "ITaskInfo " ++ js "ITaskRoute " ++ js "ITextCriterion " ++
      js "ITextRequisite " ++ js "ITextValue " ++ js "ITreeListSelectDialog " ++ js "IUser " ++
      js "IUserList " ++ js "IValue " ++ js "IView " ++ js "IWebBrowserControl " ++ js "IWizard " ++
      js "IWizardAction " ++ js "IWizardFactory " ++ js "IWizardFormElement " ++
      js "IWizardParam " ++ js "IWizardPickParam " ++ js "IWizardReferenceParam " ++
      js "IWizardStep " ++ js "IWorkAccessRights " ++ js "IWorkDescription " ++
      js "IWorkflowAskableParam " ++ js "IWorkflowAskableParams " ++ js "IWorkflowBlock " ++
      js "IWorkflowBlockResult " ++ js "IWorkflowEnabledMode " ++ js "IWorkflowParam " ++
      js "IWorkflowPickParam " ++ js "IWorkflowReferenceParam " ++ js "IWorkState " ++
      js "IWorkTreeCustomNode " ++ js "IWorkTreeJobNode " ++ js "IWorkTreeTaskNode " ++
      js "IXMLEditorForm " ++ js "SBCrypto ".

Definition lang_isbl_interfaces : jsstr :=
  lang_isbl_interfaces_1 ++ lang_isbl_interfaces_2.
Definition lang_isbl_BUILTIN : jsstr :=
  lang_isbl_CONSTANTS ++ lang_isbl_ENUMS.
Definition lang_isbl_CLASS : jsstr :=
  lang_isbl_predefined_variables.
Definition lang_isbl_LITERAL : jsstr :=
  js "null true false nil ".
Definition lang_isbl_FUNCTION_TITLE : jsstr :=
  lang_isbl_FUNCTION_NAME_IDENT_RE ++ js "\(".

(** isbl *)
Definition lang_isbl : M language :=
  let* NUMBERS := new [ClassName (js "number"); Begin NUMBER_RE; Relevance 0] in
  let* STRINGS := new [ClassName (js "string"); Variants [[Begin (js "＂"); End_ (js "＂")]; [Begin (js "'");
      End_ (js "'")]]] in
  let* DOCTAGS := new [ClassName (js "doctag");
      Begin (js "\b(?:TODO|DONE|BEGIN|END|STUB|CHG|FIXME|NOTE|BUG|XXX)\b"); Relevance 0] in
  let* ISBL_LINE_COMMENT_MODE := new [ClassName (js "comment"); Begin (js "//"); End_ (js "$"); Relevance 0;
      Contains [CRef PHRASAL_WORDS_MODE; CRef DOCTAGS]] in
  let* ISBL_BLOCK_COMMENT_MODE := new [ClassName (js "comment"); Begin (js "/\*"); End_ (js "\*/"); Relevance 0;
      Contains [CRef PHRASAL_WORDS_MODE; CRef DOCTAGS]] in
  let* COMMENTS := new [Variants [[AllOf ISBL_LINE_COMMENT_MODE]; [AllOf ISBL_BLOCK_COMMENT_MODE]]] in
  let KEYWORDS := KObj [(js "keyword", lang_isbl_KEYWORD); (js "built_in", lang_isbl_BUILTIN);
      (js "class", lang_isbl_CLASS); (js "literal", lang_isbl_LITERAL)] in
  let* METHODS := new [Begin (js "\.\s*" ++ UNDERSCORE_IDENT_RE); Keywords KEYWORDS; Relevance 0] in
  let* TYPES := new [ClassName (js "type"); Begin (js ":[ \t]*(" ++
      replace (re "\s" "g") (js "|") (trim lang_isbl_interfaces) ++ js ")"); End_ (js "[ \t]*=");
      ExcludeEnd true] in
  let* VARIABLES := new [ClassName (js "variable"); Lexemes lang_isbl_UNDERSCORE_IDENT_RE; Keywords KEYWORDS;
      Begin lang_isbl_UNDERSCORE_IDENT_RE; Relevance 0; Contains [CRef TYPES; CRef METHODS]] in
  let* TITLE_MODE' := new [ClassName (js "title"); Lexemes lang_isbl_UNDERSCORE_IDENT_RE;
      Keywords (KObj [(js "built_in", lang_isbl_system_functions)]); Begin lang_isbl_FUNCTION_TITLE; End_ (js "\(");
      ReturnBegin true; ExcludeEnd true] in
  let* FUNCTIONS := new [ClassName (js "function"); Begin lang_isbl_FUNCTION_TITLE; End_ (js "\)$");
      ReturnBegin true; Lexemes lang_isbl_UNDERSCORE_IDENT_RE; Keywords KEYWORDS; Illegal (js "[\[\]\|\$\?%,~#@]");
      Contains [CRef TITLE_MODE'; CRef METHODS; CRef VARIABLES; CRef STRINGS; CRef NUMBERS; CRef COMMENTS]] in
  lang (mkLP true [js "isbl"] false) [Lexemes lang_isbl_UNDERSCORE_IDENT_RE; Keywords KEYWORDS;
      Illegal (js "\$|\?|%|,|;$|~|#|@|</"); Contains [CRef FUNCTIONS; CRef TYPES; CRef METHODS; CRef VARIABLES;
      CRef STRINGS; CRef NUMBERS; CRef COMMENTS]].

(** java *)
Definition lang_java : M language :=
  let JAVA_IDENT_RE := js "[À-ʸa-zA-Z_$][À-ʸa-zA-Z_$0-9]*" in
  let GENERIC_IDENT_RE := JAVA_IDENT_RE ++ js "(<" ++ JAVA_IDENT_RE ++ js "(\s*,\s*" ++ JAVA_IDENT_RE ++
      js ")*>)?" in
  let KEYWORDS := js "false synchronized int abstract float private char boolean var static null if const " ++
      js "for true while long strictfp finally protected import native final void " ++
      js "enum else break transient catch instanceof byte super volatile case assert short " ++
      js "package default double public try this switch continue throws protected public private " ++
      js "module requires exports do" in
  let JAVA_NUMBER_RE := js "\b" ++ js "(" ++ js "0[bB]([01]+[01_]+[01]+|[01]+)" ++ js "|" ++
      js "0[xX]([a-fA-F0-9]+[a-fA-F0-9_]+[a-fA-F0-9]+|[a-fA-F0-9]+)" ++ js "|" ++ js "(" ++
      js "([\d]+[\d_]+[\d]+|[\d]+)(\.([\d]+[\d_]+[\d]+|[\d]+))?" ++ js "|" ++ js "\.([\d]+[\d_]+[\d]+|[\d]+)" ++
      js ")" ++ js "([eE][-+]?\d+)?" ++ js ")" ++ js "[lLfF]?" in
  let* JAVA_NUMBER_MODE := new [ClassName (js "number"); Begin JAVA_NUMBER_RE; Relevance 0] in
  let* m1 := new [Begin (js "\w+@"); Relevance 0] in
  let* m2 := new [ClassName (js "doctag"); Begin (js "@[A-Za-z]+")] in
  let* m3 := COMMENT (js "/\*\*") (js "\*/") [Relevance 0; Contains [CRef m1; CRef m2]] in
  let* m4 := new [BeginKeywords (js "extends implements")] in
  let* m5 := new [ClassName (js "class"); BeginKeywords (js "class interface"); End_ (js "[{;=]"); ExcludeEnd true;
      Keywords (KStr (js "class interface")); Illegal (js "[:＂\[\]]"); Contains [CRef m4;
      CRef UNDERSCORE_TITLE_MODE]] in
  let* m6 := new [BeginKeywords (js "new throw return else"); Relevance 0] in
  let* m7 := new [Begin (UNDERSCORE_IDENT_RE ++ js "\s*\("); ReturnBegin true; Relevance 0;
      Contains [CRef UNDERSCORE_TITLE_MODE]] in
  let* m8 := new [ClassName (js "params"); Begin (js "\("); End_ (js "\)"); Keywords (KStr KEYWORDS); Relevance 0;
      Contains [CRef APOS_STRING_MODE; CRef QUOTE_STRING_MODE; CRef C_NUMBER_MODE; CRef C_BLOCK_COMMENT_MODE]] in
  let* m9 := new [ClassName (js "function"); Begin (js "(" ++ GENERIC_IDENT_RE ++ js "\s+)+" ++
      UNDERSCORE_IDENT_RE ++ js "\s*\("); ReturnBegin true; End_ (js "[{;=]"); ExcludeEnd true;
      Keywords (KStr KEYWORDS); Contains [CRef m7; CRef m8; CRef C_LINE_COMMENT_MODE; CRef C_BLOCK_COMMENT_MODE]] in
  let* m10 := new [ClassName (js "meta"); Begin (js "@[A-Za-z]+")] in
  lang (mkLP false [js "jsp"] false) [Keywords (KStr KEYWORDS); Illegal (js "<\/|#"); Contains [CRef m3;
      CRef C_LINE_COMMENT_MODE; CRef C_BLOCK_COMMENT_MODE; CRef APOS_STRING_MODE; CRef QUOTE_STRING_MODE; CRef m5;
      CRef m6; CRef m9; CRef JAVA_NUMBER_MODE; CRef m10]].

(** javascript *)
Definition lang_javascript : M language :=
  let IDENT_RE' := js "[A-Za-z$_][0-9A-Za-z$_]*" in
  let KEYWORDS :=
      KObj [(js "keyword", js "in of if for while finally var new function do return void else break catch " ++
      js "instanceof with throw case default try this switch continue typeof delete " ++
      js "let yield const export super debugger as async await static " ++ js "import from as");
      (js "literal", js "true false null undefined NaN Infinity");
      (js "built_in", js "eval isFinite isNaN parseFloat parseInt decodeURI decodeURIComponent " ++
      js "encodeURI encodeURIComponent escape unescape Object Function Boolean Error " ++
      js "EvalError InternalError RangeError ReferenceError StopIteration SyntaxError " ++
      js "TypeError URIError Number Math Date String RegExp Array Float32Array " ++
      js "Float64Array Int16Array Int32Array Int8Array Uint16Array Uint32Array " ++
      js "Uint8Array Uint8ClampedArray ArrayBuffer DataView JSON Intl arguments require " ++
      js "module console window document Symbol Set Map WeakSet WeakMap Proxy Reflect " ++ js "Promise")] in
  let* NUMBER := new [ClassName (js "number"); Variants [[Begin (js "\b(0[bB][01]+)")];
      [Begin (js "\b(0[oO][0-7]+)")]; [Begin C_NUMBER_RE]]; Relevance 0] in
  let* SUBST := new [ClassName (js "subst"); Begin (js "\$\{"); End_ (js "\}"); Keywords KEYWORDS; Contains []] in
  let* m1 := new [End_ (js "`"); ReturnEnd false; Contains [CRef BACKSLASH_ESCAPE; CRef SUBST];
      SubLanguage (inl (js "xml"))] in
  let* HTML_TEMPLATE := new [Begin (js "html`"); End_ []; Starts m1] in
  let* m2 := new [End_ (js "`"); ReturnEnd false; Contains [CRef BACKSLASH_ESCAPE; CRef SUBST];
      SubLanguage (inl (js "css"))] in
  let* CSS_TEMPLATE := new [Begin (js "css`"); End_ []; Starts m2] in
  let* TEMPLATE_STRING := new [ClassName (js "string"); Begin (js "`"); End_ (js "`");
      Contains [CRef BACKSLASH_ESCAPE; CRef SUBST]] in
  let* _ := upd SUBST (fun m => assign m (Contains [CRef APOS_STRING_MODE; CRef QUOTE_STRING_MODE;
      CRef HTML_TEMPLATE; CRef CSS_TEMPLATE; CRef TEMPLATE_STRING; CRef NUMBER; CRef REGEXP_MODE])) in
  let* m3 := get SUBST in
  let PARAMS_CONTAINS := (contains m3) ++ [CRef C_BLOCK_COMMENT_MODE; CRef C_LINE_COMMENT_MODE] in
  let* m4 := new [ClassName (js "meta"); Relevance 10; Begin (js "^\s*['＂]use (strict|asm)['＂]")] in
  let* m5 := new [ClassName (js "meta"); Begin (js "^#!"); End_ (js "$")] in
  let* m6 := new [ClassName (js "attr"); Begin IDENT_RE'; Relevance 0] in
  let* m7 := new [Begin (IDENT_RE' ++ js "\s*:"); ReturnBegin true; Relevance 0; Contains [CRef m6]] in
  let* m8 := new [Begin (js "[{,]\s*"); Relevance 0; Contains [CRef m7]] in
  let* m9 := new [ClassName (js "params"); Variants [[Begin IDENT_RE']; [Begin (js "\(\s*\)")]; [Begin (js "\(");
      End_ (js "\)"); ExcludeBegin true; ExcludeEnd true; Keywords KEYWORDS; Contains PARAMS_CONTAINS]]] in
  let* m10 := new [ClassName (js "function"); Begin (js "(\(.*?\)|" ++ IDENT_RE' ++ js ")\s*=>"); ReturnBegin true;
      End_ (js "\s*=>"); Contains [CRef m9]] in
  let* m11 := new [ClassName []; Begin (js "\s"); End_ (js "\s*"); Skip true] in
  let* m12 := new [Begin (js "<[A-Za-z0-9\\._:-]+\s*\/>"); Skip true] in
  let* m13 := new [Begin (js "<[A-Za-z0-9\\._:-]+\s*\/>"); Skip true] in
  let* m14 := new [Begin (js "<[A-Za-z0-9\\._:-]+"); End_ (js "(\/[A-Za-z0-9\\._:-]+|[A-Za-z0-9\\._:-]+\/)>");
      Skip true; Contains [CRef m13; CSelf]] in
  let* m15 := new [Begin (js "<"); End_ (js "(\/[A-Za-z0-9\\._:-]+|[A-Za-z0-9\\._:-]+\/)>");
      SubLanguage (inl (js "xml")); Contains [CRef m12; CRef m14]] in
  let* m16 := new [Begin (js "(" ++ RE_STARTERS_RE ++ js "|\b(case|return|throw)\b)\s*");
      Keywords (KStr (js "return throw case")); Contains [CRef C_LINE_COMMENT_MODE; CRef C_BLOCK_COMMENT_MODE;
      CRef REGEXP_MODE; CRef m10; CRef m11; CRef m15]; Relevance 0] in
  let* m17 := inherit_mode TITLE_MODE [Begin IDENT_RE'] in
  let* m18 := new [ClassName (js "params"); Begin (js "\("); End_ (js "\)"); ExcludeBegin true; ExcludeEnd true;
      Contains PARAMS_CONTAINS] in
  let* m19 := new [ClassName (js "function"); BeginKeywords (js "function"); End_ (js "\{"); ExcludeEnd true;
      Contains [CRef m17; CRef m18]; Illegal (js "\[|%")] in
  let* m20 := new [Begin (js "\$[(.]")] in
  let* m21 := new [BeginKeywords (js "extends")] in
  let* m22 := new [ClassName (js "class"); BeginKeywords (js "class"); End_ (js "[{;=]"); ExcludeEnd true;
      Illegal (js "[:＂\[\]]"); Contains [CRef m21; CRef UNDERSCORE_TITLE_MODE]] in
  let* m23 := new [BeginKeywords (js "constructor get set"); End_ (js "\{"); ExcludeEnd true] in
  lang (mkLP false [js "js"; js "jsx"] false) [Keywords KEYWORDS; Contains [CRef m4; CRef m5; CRef APOS_STRING_MODE;
      CRef QUOTE_STRING_MODE; CRef HTML_TEMPLATE; CRef CSS_TEMPLATE; CRef TEMPLATE_STRING; CRef C_LINE_COMMENT_MODE;
      CRef C_BLOCK_COMMENT_MODE; CRef NUMBER; CRef m8; CRef m16; CRef m19; CRef m20; CRef METHOD_GUARD; CRef m22;
      CRef m23]; Illegal (js "#(?!!)")].

(** jboss-cli *)
Definition lang_jboss_cli : M language :=
  let* m1 := new [ClassName (js "attr"); Begin (js "[\w-]+")] in
  let* PARAM := new [Begin (js "[\w-]+ *="); ReturnBegin true; Relevance 0; Contains [CRef m1]] in
  let* PARAMSBLOCK := new [ClassName (js "params"); Begin (js "\("); End_ (js "\)"); Contains [CRef PARAM];
      Relevance 0] in
  let* OPERATION := new [ClassName (js "function"); Begin (js ":[\w\-.]+"); Relevance 0] in
  let* PATH := new [ClassName (js "string"); Begin (js "\B(([\/.])[\w\-.\/=]+)+")] in
  let* COMMAND_PARAMS := new [ClassName (js "params"); Begin (js "--[\w\-=\/]+")] in
  lang (mkLP false [js "wildfly-cli"] false) [Lexemes (js "[a-z-]+");
      Keywords (KObj [(js "keyword", js "alias batch cd clear command connect connection-factory connection-info data-source deploy " ++
      js "deployment-info deployment-overlay echo echo-dmr help history if jdbc-driver-info jms-queue|20 jms-topic|20 " ++
      js "ls " ++
      js "patch pwd quit read-attribute read-operation reload rollout-plan run-batch set shutdown try unalias " ++
      js "undeploy unset version xa-data-source"); (js "literal", js "true false")]);
      Contains [CRef HASH_COMMENT_MODE; CRef QUOTE_STRING_MODE; CRef COMMAND_PARAMS; CRef OPERATION; CRef PATH;
      CRef PARAMSBLOCK]].

(** julia-repl *)
Definition lang_julia_repl : M language :=
  let* m1 := new [End_ (js "^(?![ ]{6})"); SubLanguage (inl (js "julia"))] in
  let* m2 := new [ClassName (js "meta"); Begin (js "^julia>"); Relevance 10; Starts m1] in
  lang plain_lang [Contains [CRef m2]].

Definition lang_julia_built_in : jsstr :=
  js "ANY AbstractArray AbstractChannel AbstractFloat AbstractMatrix AbstractRNG AbstractSerializer AbstractSet " ++
      js "AbstractSparseArray AbstractSparseMatrix AbstractSparseVector AbstractString AbstractUnitRange AbstractVecOrMat " ++
      js "AbstractVector Any ArgumentError Array AssertionError Associative Base64DecodePipe Base64EncodePipe " ++
      js "Bidiagonal " ++
      js "BigFloat BigInt BitArray BitMatrix BitVector Bool BoundsError BufferStream CachingPool CapturedException " ++
      js "CartesianIndex CartesianRange Cchar Cdouble Cfloat Channel Char Cint Cintmax_t Clong Clonglong ClusterManager " ++
      js "Cmd CodeInfo Colon Complex Complex128 Complex32 Complex64 CompositeException Condition ConjArray ConjMatrix " ++
      js "ConjVector Cptrdiff_t Cshort Csize_t Cssize_t Cstring Cuchar Cuint Cuintmax_t Culong Culonglong Cushort " ++
      js "Cwchar_t " ++
      js "Cwstring DataType Date DateFormat DateTime DenseArray DenseMatrix DenseVecOrMat DenseVector Diagonal " ++
      js "Dict " ++
      js "DimensionMismatch Dims DirectIndexString Display DivideError DomainError EOFError EachLine Enum Enumerate " ++
      js "ErrorException Exception ExponentialBackOff Expr Factorization FileMonitor Float16 Float32 Float64 Function " ++
      js "Future GlobalRef GotoNode HTML Hermitian IO IOBuffer IOContext IOStream IPAddr IPv4 IPv6 IndexCartesian " ++
      js "IndexLinear " ++
      js "IndexStyle InexactError InitError Int Int128 Int16 Int32 Int64 Int8 IntSet Integer InterruptException " ++
      js "InvalidStateException Irrational KeyError LabelNode LinSpace LineNumberNode LoadError LowerTriangular " ++
      js "MIME Matrix " ++
      js "MersenneTwister Method MethodError MethodTable Module NTuple NewvarNode NullException Nullable Number " ++
      js "ObjectIdDict " ++
      js "OrdinalRange OutOfMemoryError OverflowError Pair ParseError PartialQuickSort PermutedDimsArray Pipe " ++
      js "PollingFileWatcher ProcessExitedException Ptr QuoteNode RandomDevice Range RangeIndex Rational RawFD " ++
      js "ReadOnlyMemoryError Real ReentrantLock Ref Regex RegexMatch RemoteChannel RemoteException RevString " ++
      js "RoundingMode " ++
      js "RowVector SSAValue SegmentationFault SerializationState Set SharedArray SharedMatrix SharedVector Signed " ++
      js "SimpleVector Slot SlotNumber SparseMatrixCSC SparseVector StackFrame StackOverflowError StackTrace StepRange " ++
      js "StepRangeLen StridedArray StridedMatrix StridedVecOrMat StridedVector String SubArray SubString SymTridiagonal " ++
      js "Symbol Symmetric SystemError TCPSocket Task Text TextDisplay Timer Tridiagonal Tuple Type TypeError " ++
      js "TypeMapEntry " ++
      js "TypeMapLevel TypeName TypeVar TypedSlot UDPSocket UInt UInt128 UInt16 UInt32 UInt64 UInt8 UndefRefError " ++
      js "UndefVarError " ++
      js "UnicodeError UniformScaling Union UnionAll UnitRange Unsigned UpperTriangular Val Vararg VecElement " ++
      js "VecOrMat Vector " ++ js "VersionNumber Void WeakKeyDict WeakRef WorkerConfig WorkerPool ".

(** julia *)
Definition lang_julia : M language :=
  let KEYWORDS := KObj [(js "keyword", js "in isa where " ++
      js "baremodule begin break catch ccall const continue do else elseif end export false finally for function " ++
      js "global if import importall let local macro module quote return true try using while " ++
      js "type immutable abstract bitstype typealias "); (js "literal", js "true false " ++
      js "ARGS C_NULL DevNull ENDIAN_BOM ENV I Inf Inf16 Inf32 Inf64 InsertionSort JULIA_HOME LOAD_PATH MergeSort " ++
      js "NaN NaN16 NaN32 NaN64 PROGRAM_FILE QuickSort RoundDown RoundFromZero RoundNearest RoundNearestTiesAway " ++
      js "RoundNearestTiesUp RoundToZero RoundUp STDERR STDIN STDOUT VERSION catalan e|0 eu|0 eulergamma golden " ++
      js "im " ++ js "nothing pi γ π φ "); (js "built_in", lang_julia_built_in)] in
  let VARIABLE_NAME_RE := js "[A-Za-z_\u00A1-\uFFFF][A-Za-z_0-9\u00A1-\uFFFF]*" in
  let* DEFAULT := new [Lexemes VARIABLE_NAME_RE; Keywords KEYWORDS; Illegal (js "<\/")] in
  let* NUMBER := new [ClassName (js "number"); Begin (js "(\b0x[\d_]*(\.[\d_]*" ++ js ")?|0x\.\d[\d_]*" ++
      js ")p[-+]?\d+|\b0[box][a-fA-F0-9][a-fA-F0-9_]*|(\b\d[\d_]*(\.[\d_]*" ++ js ")?|\.\d[\d_]*" ++
      js ")([eEfF][-+]?\d+)?"); Relevance 0] in
  let* CHAR := new [ClassName (js "string"); Begin (js "'(.|\\[xXuU][a-zA-Z0-9]+)'")] in
  let* INTERPOLATION := new [ClassName (js "subst"); Begin (js "\$\("); End_ (js "\)"); Keywords KEYWORDS] in
  let* INTERPOLATED_VARIABLE := new [ClassName (js "variable"); Begin (js "\$" ++ VARIABLE_NAME_RE)] in
  let* STRING := new [ClassName (js "string"); Contains [CRef BACKSLASH_ESCAPE; CRef INTERPOLATION;
      CRef INTERPOLATED_VARIABLE]; Variants [[Begin (js "\w*＂＂＂"); End_ (js "＂＂＂\w*"); Relevance 10];
      [Begin (js "\w*＂"); End_ (js "＂\w*")]]] in
  let* COMMAND := new [ClassName (js "string"); Contains [CRef BACKSLASH_ESCAPE; CRef INTERPOLATION;
      CRef INTERPOLATED_VARIABLE]; Begin (js "`"); End_ (js "`")] in
  let* MACROCALL := new [ClassName (js "meta"); Begin (js "@" ++ VARIABLE_NAME_RE)] in
  let* COMMENT' := new [ClassName (js "comment"); Variants [[Begin (js "#="); End_ (js "=#"); Relevance 10];
      [Begin (js "#"); End_ (js "$")]]] in
  let* m1 := new [ClassName (js "keyword"); Begin (js "\b(((abstract|primitive)\s+)type|(mutable\s+)?struct)\b")] in
  let* m2 := new [Begin (js "<:")] in
  let* _ := upd DEFAULT (fun m => assign m (Contains [CRef NUMBER; CRef CHAR; CRef STRING; CRef COMMAND;
      CRef MACROCALL; CRef COMMENT'; CRef HASH_COMMENT_MODE; CRef m1; CRef m2])) in
  let* m3 := get DEFAULT in
  let* _ := upd INTERPOLATION (fun m => assign m (Contains (contains m3))) in
  ret (mkLang DEFAULT false [] false None).

Definition lang_kotlin_KOTLIN_NUMBER_RE : jsstr :=
  js "\b" ++ js "(" ++ js "0[bB]([01]+[01_]+[01]+|[01]+)" ++ js "|" ++
      js "0[xX]([a-fA-F0-9]+[a-fA-F0-9_]+[a-fA-F0-9]+|[a-fA-F0-9]+)" ++ js "|" ++ js "(" ++
      js "([\d]+[\d_]+[\d]+|[\d]+)(\.([\d]+[\d_]+[\d]+|[\d]+))?" ++ js "|" ++ js "\.([\d]+[\d_]+[\d]+|[\d]+)" ++
      js ")" ++ js "([eE][-+]?\d+)?" ++ js ")" ++ js "[lLfF]?".

(** kotlin *)
Definition lang_kotlin : M language :=
  let KEYWORDS :=
      KObj [(js "keyword", js "abstract as val var vararg get set class object open private protected public noinline " ++
      js "crossinline dynamic final enum if else do while for when throw try catch finally " ++
      js "import package is in fun override companion reified inline lateinit init " ++
      js "interface annotation data sealed internal infix operator out by constructor super " ++
      js "tailrec where const inner suspend typealias external expect actual " ++
      js "trait volatile transient native default");
      (js "built_in", js "Byte Short Char Int Long Boolean Float Double Void Unit Nothing");
      (js "literal", js "true false null")] in
  let* m1 := new [ClassName (js "symbol"); Begin (js "@\w+")] in
  let* m2 := new [Contains [CRef m1]] in
  let* KEYWORDS_WITH_LABEL := new [ClassName (js "keyword"); Begin (js "\b(break|continue|return|this)\b");
      Starts m2] in
  let* LABEL := new [ClassName (js "symbol"); Begin (UNDERSCORE_IDENT_RE ++ js "@")] in
  let* SUBST := new [ClassName (js "subst"); Begin (js "\${"); End_ (js "}"); Contains [CRef APOS_STRING_MODE;
      CRef C_NUMBER_MODE]] in
  let* VARIABLE := new [ClassName (js "variable"); Begin (js "\$" ++ UNDERSCORE_IDENT_RE)] in
  let* STRING := new [ClassName (js "string"); Variants [[Begin (js "＂＂＂"); End_ (js "＂＂＂");
      Contains [CRef VARIABLE; CRef SUBST]]; [Begin (js "'"); End_ (js "'"); Illegal (js "\n");
      Contains [CRef BACKSLASH_ESCAPE]]; [Begin (js "＂"); End_ (js "＂"); Illegal (js "\n");
      Contains [CRef BACKSLASH_ESCAPE; CRef VARIABLE; CRef SUBST]]]] in
  let* ANNOTATION_USE_SITE := new [ClassName (js "meta");
      Begin (js "@(?:file|property|field|get|set|receiver|param|setparam|delegate)\s*:(?:\s*" ++
      UNDERSCORE_IDENT_RE ++ js ")?")] in
  let* m3 := inherit_mode STRING [ClassName (js "meta-string")] in
  let* m4 := new [Begin (js "\("); End_ (js "\)"); Contains [CRef m3]] in
  let* ANNOTATION := new [ClassName (js "meta"); Begin (js "@" ++ UNDERSCORE_IDENT_RE); Contains [CRef m4]] in
  let* KOTLIN_NUMBER_MODE := new [ClassName (js "number"); Begin lang_kotlin_KOTLIN_NUMBER_RE; Relevance 0] in
  let* KOTLIN_NESTED_COMMENT := COMMENT (js "/\*") (js "\*/") [Contains [CRef C_BLOCK_COMMENT_MODE]] in
  let* KOTLIN_PAREN_TYPE := new [Variants [[ClassName (js "type"); Begin UNDERSCORE_IDENT_RE]; [Begin (js "\(");
      End_ (js "\)"); Contains []]]] in
  let KOTLIN_PAREN_TYPE2 := KOTLIN_PAREN_TYPE in
  let* _ := set_in_variant KOTLIN_PAREN_TYPE2 1 (Contains [CRef KOTLIN_PAREN_TYPE]) in
  let* _ := set_in_variant KOTLIN_PAREN_TYPE 1 (Contains [CRef KOTLIN_PAREN_TYPE2]) in
  let* m5 := new [ClassName (js "doctag"); Begin (js "@[A-Za-z]+")] in
  let* m6 := COMMENT (js "/\*\*") (js "\*/") [Relevance 0; Contains [CRef m5]] in
  let* m7 := new [Begin (UNDERSCORE_IDENT_RE ++ js "\s*\("); ReturnBegin true; Relevance 0;
      Contains [CRef UNDERSCORE_TITLE_MODE]] in
  let* m8 := new [ClassName (js "type"); Begin (js "<"); End_ (js ">"); Keywords (KStr (js "reified"));
      Relevance 0] in
  let* m9 := new [Begin (js ":"); End_ (js "[=,\/]"); EndsWithParent true; Contains [CRef KOTLIN_PAREN_TYPE;
      CRef C_LINE_COMMENT_MODE; CRef KOTLIN_NESTED_COMMENT]; Relevance 0] in
  let* m10 := new [ClassName (js "params"); Begin (js "\("); End_ (js "\)"); EndsParent true; Keywords KEYWORDS;
      Relevance 0; Contains [CRef m9; CRef C_LINE_COMMENT_MODE; CRef KOTLIN_NESTED_COMMENT;
      CRef ANNOTATION_USE_SITE; CRef ANNOTATION; CRef STRING; CRef C_NUMBER_MODE]] in
  let* m11 := new [ClassName (js "function"); BeginKeywords (js "fun"); End_ (js "[(]|$"); ReturnBegin true;
      ExcludeEnd true; Keywords KEYWORDS; Illegal (js "fun\s+(<.*>)?[^\s\(]+(\s+[^\s\(]+)\s*="); Relevance 5;
      Contains [CRef m7; CRef m8; CRef m10; CRef KOTLIN_NESTED_COMMENT]] in
  let* m12 := new [BeginKeywords (js "public protected internal private constructor")] in
  let* m13 := new [ClassName (js "type"); Begin (js "<"); End_ (js ">"); ExcludeBegin true; ExcludeEnd true;
      Relevance 0] in
  let* m14 := new [ClassName (js "type"); Begin (js "[,:]\s*"); End_ (js "[<\(,]|$"); ExcludeBegin true;
      ReturnEnd true] in
  let* m15 := new [ClassName (js "class"); BeginKeywords (js "class interface trait"); End_ (js "[:\{(]|$");
      ExcludeEnd true; Illegal (js "extends implements"); Contains [CRef m12; CRef UNDERSCORE_TITLE_MODE; CRef m13;
      CRef m14; CRef ANNOTATION_USE_SITE; CRef ANNOTATION]] in
  let* m16 := new [ClassName (js "meta"); Begin (js "^#!/usr/bin/env"); End_ (js "$"); Illegal [10%N]] in
  lang (mkLP false [js "kt"] false) [Keywords KEYWORDS; Contains [CRef m6; CRef C_LINE_COMMENT_MODE;
      CRef KOTLIN_NESTED_COMMENT; CRef KEYWORDS_WITH_LABEL; CRef LABEL; CRef ANNOTATION_USE_SITE; CRef ANNOTATION;
      CRef m11; CRef m15; CRef STRING; CRef m16; CRef KOTLIN_NUMBER_MODE]].

(** lasso *)
Definition lang_lasso : M language :=
  let LASSO_IDENT_RE := js "[a-zA-Z_][\w.]*" in
  let LASSO_ANGLE_RE := js "<\?(lasso(script)?|=)" in
  let LASSO_CLOSE_RE := js "\]|\?>" in
  let LASSO_KEYWORDS := KObj [(js "literal", js "true false none minimal full all void and or not " ++
      js "bw nbw ew new cn ncn lt lte gt gte eq neq rx nrx ft");
      (js "built_in", js "array date decimal duration integer map pair string tag xml null " ++
      js "boolean bytes keyword list locale queue set stack staticarray " ++
      js "local var variable global data self inherited currentcapture givenblock");
      (js "keyword", js "cache database_names database_schemanames database_tablenames " ++
      js "define_tag define_type email_batch encode_set html_comment handle " ++
      js "handle_error header if inline iterate ljax_target link " ++
      js "link_currentaction link_currentgroup link_currentrecord link_detail " ++
      js "link_firstgroup link_firstrecord link_lastgroup link_lastrecord " ++
      js "link_nextgroup link_nextrecord link_prevgroup link_prevrecord log " ++
      js "loop namespace_using output_none portal private protect records " ++
      js "referer referrer repeating resultset rows search_args " ++
      js "search_arguments select sort_args sort_arguments thread_atomic " ++
      js "value_list while abort case else fail_if fail_ifnot fail if_empty " ++
      js "if_false if_null if_true loop_abort loop_continue loop_count params " ++
      js "params_up return return_value run_children soap_definetag " ++
      js "soap_lastrequest soap_lastresponse tag_name ascending average by " ++
      js "define descending do equals frozen group handle_failure import in " ++
      js "into join let match max min on order parent protected provide public " ++
      js "require returnhome skip split_thread sum take thread to trait type " ++
      js "where with yield yieldhome")] in
  let* HTML_COMMENT := COMMENT (js "<!--") (js "-->") [Relevance 0] in
  let* m1 := new [End_ (js "\[/noprocess\]"); ReturnEnd true; Contains [CRef HTML_COMMENT]] in
  let* LASSO_NOPROCESS := new [ClassName (js "meta"); Begin (js "\[noprocess\]"); Starts m1] in
  let* LASSO_START := new [ClassName (js "meta"); Begin (js "\[/noprocess|" ++ LASSO_ANGLE_RE)] in
  let* LASSO_DATAMEMBER := new [ClassName (js "symbol"); Begin (js "'" ++ LASSO_IDENT_RE ++ js "'")] in
  let* m2 := inherit_mode C_NUMBER_MODE [Begin (C_NUMBER_RE ++ js "|(-?infinity|NaN)\b")] in
  let* m3 := inherit_mode APOS_STRING_MODE [Illegal []] in
  let* m4 := inherit_mode QUOTE_STRING_MODE [Illegal []] in
  let* m5 := new [ClassName (js "string"); Begin (js "`"); End_ (js "`")] in
  let* m6 := new [Variants [[Begin (js "[#$]" ++ LASSO_IDENT_RE)]; [Begin (js "#"); End_ (js "\d+");
      Illegal (js "\W")]]] in
  let* m7 := new [ClassName (js "type"); Begin (js "::\s*"); End_ LASSO_IDENT_RE; Illegal (js "\W")] in
  let* m8 := new [ClassName (js "params"); Variants [[Begin (js "-(?!infinity)" ++ LASSO_IDENT_RE); Relevance 0];
      [Begin (js "(\.\.\.)")]]] in
  let* m9 := new [Begin (js "(->|\.)\s*"); Relevance 0; Contains [CRef LASSO_DATAMEMBER]] in
  let* m10 := inherit_mode TITLE_MODE [Begin (LASSO_IDENT_RE ++ js "(=(?!>))?|[-+*/%](?!>)")] in
  let* m11 := new [ClassName (js "class"); BeginKeywords (js "define"); ReturnEnd true; End_ (js "\(|=>");
      Contains [CRef m10]] in
  let LASSO_CODE := [CRef C_LINE_COMMENT_MODE; CRef C_BLOCK_COMMENT_MODE; CRef m2; CRef m3; CRef m4; CRef m5;
      CRef m6; CRef m7; CRef m8; CRef m9; CRef m11] in
  let* m12 := new [End_ (js "\[|" ++ LASSO_ANGLE_RE); ReturnEnd true; Relevance 0; Contains [CRef HTML_COMMENT]] in
  let* m13 := new [ClassName (js "meta"); Begin LASSO_CLOSE_RE; Relevance 0; Starts m12] in
  let* m14 := new [End_ (js "\[noprocess\]|" ++ LASSO_ANGLE_RE); ReturnEnd true; Contains [CRef HTML_COMMENT]] in
  let* m15 := new [ClassName (js "meta"); Begin LASSO_CLOSE_RE; Relevance 0; Starts m14] in
  let* m16 := new [End_ (js "\[/no_square_brackets\]"); Lexemes (LASSO_IDENT_RE ++ js "|&[lg]t;");
      Keywords LASSO_KEYWORDS; Contains ([CRef m15; CRef LASSO_NOPROCESS; CRef LASSO_START] ++ LASSO_CODE)] in
  let* m17 := new [ClassName (js "meta"); Begin (js "\[no_square_brackets"); Starts m16] in
  let* m18 := new [ClassName (js "meta"); Begin (js "\["); Relevance 0] in
  let* m19 := new [ClassName (js "meta"); Begin (js "^#!"); End_ (js "lasso9$"); Relevance 10] in
  lang (mkLP true [js "ls"; js "lassoscript"] false) [Lexemes (LASSO_IDENT_RE ++ js "|&[lg]t;");
      Keywords LASSO_KEYWORDS; Contains ([CRef m13; CRef LASSO_NOPROCESS; CRef LASSO_START; CRef m17; CRef m18;
      CRef m19] ++ LASSO_CODE)].

(** ldif *)
Definition lang_ldif : M language :=
  let* m1 := new [End_ (js "$"); Relevance 0] in
  let* m2 := new [ClassName (js "attribute"); Begin (js "^dn"); End_ (js ": "); ExcludeEnd true; Starts m1;
      Relevance 10] in
  let* m3 := new [End_ (js "$"); Relevance 0] in
  let* m4 := new [ClassName (js "attribute"); Begin (js "^\w"); End_ (js ": "); ExcludeEnd true; Starts m3] in
  let* m5 := new [ClassName (js "literal"); Begin (js "^-"); End_ (js "$")] in
  lang plain_lang [Contains [CRef m2; CRef m4; CRef m5; CRef HASH_COMMENT_MODE]].

(** leaf *)
Definition lang_leaf : M language :=
  let* m1 := new [ClassName (js "keyword"); Begin (js "#+")] in
  let* m2 := new [ClassName (js "title"); Begin (js "[A-Za-z_][A-Za-z_0-9]*")] in
  let* m3 := new [ClassName (js "string"); Begin (js "＂"); End_ (js "＂")] in
  let* m4 := new [ClassName (js "variable"); Begin (js "[A-Za-z_][A-Za-z_0-9]*")] in
  let* m5 := new [ClassName (js "params"); Begin (js "\("); End_ (js "\)"); EndsParent true; Contains [CRef m3;
      CRef m4]] in
  let* m6 := new [ClassName (js "function"); Begin (js "#+" ++ js "[A-Za-z_0-9]*" ++ js "\("); End_ (js " {");
      ReturnBegin true; ExcludeEnd true; Contains [CRef m1; CRef m2; CRef m5]] in
  lang plain_lang [Contains [CRef m6]].

(** less *)
Definition lang_less : M language :=
  let IDENT_RE' := js "[\w-]+" in
  let INTERP_IDENT_RE := js "(" ++ IDENT_RE' ++ js "|@{" ++ IDENT_RE' ++ js "})" in
  let RULES : list child := [] in
  let VALUE : list child := [] in
  let STRING_MODE (c : jsstr) : M nat := new [ClassName (js "string"); Begin (js "~?" ++ c ++ js ".*?" ++ c)] in
  let IDENT_MODE (name begin' : jsstr) (relevance' : list prop) : M nat := new ([ClassName name; Begin begin'] ++
      relevance') in
  let* PARENS_MODE := new [Begin (js "\("); End_ (js "\)"); Contains VALUE; Relevance 0] in
  let* m1 := STRING_MODE (js "'") in
  let* m2 := STRING_MODE (js "＂") in
  let* m3 := new [ClassName (js "string"); End_ (js "[\)\n]"); ExcludeEnd true] in
  let* m4 := new [Begin (js "(url|data-uri)\("); Starts m3] in
  let* m5 := IDENT_MODE (js "number") (js "#[0-9A-Fa-f]+\b") [] in
  let* m6 := IDENT_MODE (js "variable") (js "@@?" ++ IDENT_RE') [Relevance 10] in
  let* m7 := IDENT_MODE (js "variable") (js "@{" ++ IDENT_RE' ++ js "}") [] in
  let* m8 := IDENT_MODE (js "built_in") (js "~?`[^`]*?`") [] in
  let* m9 := new [ClassName (js "attribute"); Begin (IDENT_RE' ++ js "\s*:"); End_ (js ":"); ReturnBegin true;
      ExcludeEnd true] in
  let* m10 := new [ClassName (js "meta"); Begin (js "!important")] in
  let VALUE := VALUE ++ [CRef C_LINE_COMMENT_MODE; CRef C_BLOCK_COMMENT_MODE; CRef m1; CRef m2;
      CRef CSS_NUMBER_MODE; CRef m4; CRef m5; CRef PARENS_MODE; CRef m6; CRef m7; CRef m8; CRef m9; CRef m10] in
  let* _ := pushed [PARENS_MODE] VALUE in
  let* m11 := new [Begin (js "{"); End_ (js "}"); Contains RULES] in
  let VALUE_WITH_RULESETS := VALUE ++ [CRef m11] in
  let* m12 := new [BeginKeywords (js "and not")] in
  let* MIXIN_GUARD_MODE := new [BeginKeywords (js "when"); EndsWithParent true; Contains ([CRef m12] ++ VALUE)] in
  let* m13 := new [EndsWithParent true; Illegal (js "[<=$]"); Relevance 0; Contains VALUE] in
  let* m14 := new [ClassName (js "attribute"); Begin INTERP_IDENT_RE; End_ (js ":"); ExcludeEnd true; Starts m13] in
  let* RULE_MODE := new [Begin (INTERP_IDENT_RE ++ js "\s*:"); ReturnBegin true; End_ (js "[;}]"); Relevance 0;
      Contains [CRef m14]] in
  let* m15 := new [End_ (js "[;{}]"); ReturnEnd true; Contains VALUE; Relevance 0] in
  let* AT_RULE_MODE := new [ClassName (js "keyword");
      Begin (js "@(import|media|charset|font-face|(-[a-z]+-)?keyframes|supports|document|namespace|page|viewport|host)\b");
      Starts m15] in
  let* m16 := new [End_ (js "[;}]"); ReturnEnd true; Contains VALUE_WITH_RULESETS] in
  let* VAR_RULE_MODE := new [ClassName (js "variable"); Variants [[Begin (js "@" ++ IDENT_RE' ++ js "\s*:");
      Relevance 15]; [Begin (js "@" ++ IDENT_RE')]]; Starts m16] in
  let* m17 := IDENT_MODE (js "keyword") (js "all\b") [] in
  let* m18 := IDENT_MODE (js "variable") (js "@{" ++ IDENT_RE' ++ js "}") [] in
  let* m19 := IDENT_MODE (js "selector-tag") (INTERP_IDENT_RE ++ js "%?") [Relevance 0] in
  let* m20 := IDENT_MODE (js "selector-id") (js "#" ++ INTERP_IDENT_RE) [] in
  let* m21 := IDENT_MODE (js "selector-class") (js "\." ++ INTERP_IDENT_RE) [Relevance 0] in
  let* m22 := IDENT_MODE (js "selector-tag") (js "&") [Relevance 0] in
  let* m23 := new [ClassName (js "selector-attr"); Begin (js "\["); End_ (js "\]")] in
  let* m24 := new [ClassName (js "selector-pseudo"); Begin (js ":(:)?[a-zA-Z0-9\_\-\+\(\)＂'.]+")] in
  let* m25 := new [Begin (js "\("); End_ (js "\)"); Contains VALUE_WITH_RULESETS] in
  let* m26 := new [Begin (js "!important")] in
  let* SELECTOR_MODE := new [Variants [[Begin (js "[\.#:&\[>]"); End_ (js "[;{}]")]; [Begin INTERP_IDENT_RE;
      End_ (js "{")]]; ReturnBegin true; ReturnEnd true; Illegal (js "[<='$＂]"); Relevance 0;
      Contains [CRef C_LINE_COMMENT_MODE; CRef C_BLOCK_COMMENT_MODE; CRef MIXIN_GUARD_MODE; CRef m17; CRef m18;
      CRef m19; CRef m20; CRef m21; CRef m22; CRef m23; CRef m24; CRef m25; CRef m26]] in
  let RULES := RULES ++ [CRef C_LINE_COMMENT_MODE; CRef C_BLOCK_COMMENT_MODE; CRef AT_RULE_MODE; CRef VAR_RULE_MODE;
      CRef RULE_MODE; CRef SELECTOR_MODE] in
  let* _ := pushed [m11] RULES in
  lang (mkLP true [] false) [Illegal (js "[=>'/<($＂]"); Contains RULES].

(** lisp *)
Definition lang_lisp : M language :=
  let LISP_IDENT_RE := js "[a-zA-Z_\-\+\*\/\<\=\>\&\#][a-zA-Z0-9_\-\+\*\/\<\=\>\&\#!]*" in
  let MEC_RE := js "\|[^]*?\|" in
  let LISP_SIMPLE_NUMBER_RE := js "(\-|\+)?\d+(\.\d+|\/\d+)?((d|e|f|l|s|D|E|F|L|S)(\+|\-)?\d+)?" in
  let* SHEBANG := new [ClassName (js "meta"); Begin (js "^#!"); End_ (js "$")] in
  let* LITERAL := new [ClassName (js "literal"); Begin (js "\b(t{1}|nil)\b")] in
  let* NUMBER := new [ClassName (js "number"); Variants [[Begin LISP_SIMPLE_NUMBER_RE; Relevance 0];
      [Begin (js "#(b|B)[0-1]+(/[0-1]+)?")]; [Begin (js "#(o|O)[0-7]+(/[0-7]+)?")];
      [Begin (js "#(x|X)[0-9a-fA-F]+(/[0-9a-fA-F]+)?")]; [Begin (js "#(c|C)\(" ++ LISP_SIMPLE_NUMBER_RE ++
      js " +" ++ LISP_SIMPLE_NUMBER_RE); End_ (js "\)")]]] in
  let* STRING := inherit_mode QUOTE_STRING_MODE [Illegal []] in
  let* COMMENT' := COMMENT (js ";") (js "$") [Relevance 0] in
  let* VARIABLE := new [Begin (js "\*"); End_ (js "\*")] in
  let* KEYWORD := new [ClassName (js "symbol"); Begin (js "[:&]" ++ LISP_IDENT_RE)] in
  let* IDENT := new [Begin LISP_IDENT_RE; Relevance 0] in
  let* MEC := new [Begin MEC_RE] in
  let* QUOTED_LIST := new [Begin (js "\("); End_ (js "\)"); Contains [CSelf; CRef LITERAL; CRef STRING; CRef NUMBER;
      CRef IDENT]] in
  let* QUOTED := new [Contains [CRef NUMBER; CRef STRING; CRef VARIABLE; CRef KEYWORD; CRef QUOTED_LIST;
      CRef IDENT]; Variants [[Begin (js "['`]\("); End_ (js "\)")]; [Begin (js "\(quote "); End_ (js "\)");
      Keywords (KObj [(js "name", js "quote")])]; [Begin (js "'" ++ MEC_RE)]]] in
  let* QUOTED_ATOM := new [Variants [[Begin (js "'" ++ LISP_IDENT_RE)]; [Begin (js "#'" ++ LISP_IDENT_RE ++
      js "(::" ++ LISP_IDENT_RE ++ js ")*")]]] in
  let* LIST := new [Begin (js "\(\s*"); End_ (js "\)")] in
  let* BODY := new [EndsWithParent true; Relevance 0] in
  let* m1 := new [ClassName (js "name"); Variants [[Begin LISP_IDENT_RE]; [Begin MEC_RE]]] in
  let* _ := upd LIST (fun m => assign m (Contains [CRef m1; CRef BODY])) in
  let* _ := upd BODY (fun m => assign m (Contains [CRef QUOTED; CRef QUOTED_ATOM; CRef LIST; CRef LITERAL;
      CRef NUMBER; CRef STRING; CRef COMMENT'; CRef VARIABLE; CRef KEYWORD; CRef MEC; CRef IDENT])) in
  lang plain_lang [Illegal (js "\S"); Contains [CRef NUMBER; CRef SHEBANG; CRef LITERAL; CRef STRING; CRef COMMENT';
      CRef QUOTED; CRef QUOTED_ATOM; CRef LIST; CRef IDENT]].

Definition lang_livecodeserver_built_in : jsstr :=
  js "put abs acos aliasReference annuity arrayDecode arrayEncode asin atan atan2 average avg avgDev base64Decode " ++
      js "base64Encode baseConvert binaryDecode binaryEncode byteOffset byteToNum cachedURL cachedURLs charToNum " ++
      js "cipherNames codepointOffset codepointProperty codepointToNum codeunitOffset commandNames compound compress " ++
      js "constantNames cos date dateFormat decompress difference directories " ++
      js "diskSpace DNSServers exp exp1 exp2 exp10 extents files flushEvents folders format functionNames geometricMean " ++
      js "global " ++
      js "globals hasMemory harmonicMean hostAddress hostAddressToName hostName hostNameToAddress isNumber ISOToMac " ++
      js "itemOffset " ++
      js "keys len length libURLErrorData libUrlFormData libURLftpCommand libURLLastHTTPHeaders libURLLastRHHeaders " ++
      js "libUrlMultipartFormAddPart libUrlMultipartFormData libURLVersion lineOffset ln ln1 localNames log log2 " ++
      js "log10 " ++
      js "longFilePath lower macToISO matchChunk matchText matrixMultiply max md5Digest median merge messageAuthenticationCode " ++
      js "messageDigest millisec " ++
      js "millisecs millisecond milliseconds min monthNames nativeCharToNum normalizeText num number numToByte " ++
      js "numToChar " ++
      js "numToCodepoint numToNativeChar offset open openfiles openProcesses openProcessIDs openSockets " ++
      js "paragraphOffset paramCount param params peerAddress pendingMessages platform popStdDev populationStandardDeviation " ++
      js "populationVariance popVariance processID random randomBytes replaceText result revCreateXMLTree revCreateXMLTreeFromFile " ++
      js "revCurrentRecord revCurrentRecordIsFirst revCurrentRecordIsLast revDatabaseColumnCount revDatabaseColumnIsNull " ++
      js "revDatabaseColumnLengths revDatabaseColumnNames revDatabaseColumnNamed revDatabaseColumnNumbered " ++
      js "revDatabaseColumnTypes revDatabaseConnectResult revDatabaseCursors revDatabaseID revDatabaseTableNames " ++
      js "revDatabaseType revDataFromQuery revdb_closeCursor revdb_columnbynumber revdb_columncount revdb_columnisnull " ++
      js "revdb_columnlengths revdb_columnnames revdb_columntypes revdb_commit revdb_connect revdb_connections " ++
      js "revdb_connectionerr revdb_currentrecord revdb_cursorconnection revdb_cursorerr revdb_cursors revdb_dbtype " ++
      js "revdb_disconnect revdb_execute revdb_iseof revdb_isbof revdb_movefirst revdb_movelast revdb_movenext " ++
      js "revdb_moveprev revdb_query revdb_querylist revdb_recordcount revdb_rollback revdb_tablenames " ++
      js "revGetDatabaseDriverPath revNumberOfRecords revOpenDatabase revOpenDatabases revQueryDatabase " ++
      js "revQueryDatabaseBlob revQueryResult revQueryIsAtStart revQueryIsAtEnd revUnixFromMacPath revXMLAttribute " ++
      js "revXMLAttributes revXMLAttributeValues revXMLChildContents revXMLChildNames revXMLCreateTreeFromFileWithNamespaces " ++
      js "revXMLCreateTreeWithNamespaces revXMLDataFromXPathQuery revXMLEvaluateXPath revXMLFirstChild revXMLMatchingNode " ++
      js "revXMLNextSibling revXMLNodeContents revXMLNumberOfChildren revXMLParent revXMLPreviousSibling " ++
      js "revXMLRootNode revXMLRPC_CreateRequest revXMLRPC_Documents revXMLRPC_Error " ++
      js "revXMLRPC_GetHost revXMLRPC_GetMethod revXMLRPC_GetParam revXMLText revXMLRPC_Execute " ++
      js "revXMLRPC_GetParamCount revXMLRPC_GetParamNode revXMLRPC_GetParamType revXMLRPC_GetPath revXMLRPC_GetPort " ++
      js "revXMLRPC_GetProtocol revXMLRPC_GetRequest revXMLRPC_GetResponse revXMLRPC_GetSocket revXMLTree " ++
      js "revXMLTrees revXMLValidateDTD revZipDescribeItem revZipEnumerateItems revZipOpenArchives round sampVariance " ++
      js "sec secs seconds sentenceOffset sha1Digest shell shortFilePath sin specialFolderPath sqrt standardDeviation " ++
      js "statRound " ++
      js "stdDev sum sysError systemVersion tan tempName textDecode textEncode tick ticks time to tokenOffset " ++
      js "toLower toUpper " ++
      js "transpose truewordOffset trunc uniDecode uniEncode upper URLDecode URLEncode URLStatus uuid value variableNames " ++
      js "variance version waitDepth weekdayNames wordOffset xsltApplyStylesheet xsltApplyStylesheetFromFile xsltLoadStylesheet " ++
      js "xsltLoadStylesheetFromFile add breakpoint cancel clear local variable file word line folder directory " ++
      js "URL close socket process " ++
      js "combine constant convert create new alias folder directory decrypt delete variable word line folder " ++
      js "directory URL dispatch divide do encrypt filter get include intersect kill libURLDownloadToFile " ++
      js "libURLFollowHttpRedirects libURLftpUpload libURLftpUploadFile libURLresetAll libUrlSetAuthCallback libURLSetDriver " ++
      js "libURLSetCustomHTTPHeaders libUrlSetExpect100 libURLSetFTPListCommand libURLSetFTPMode libURLSetFTPStopTime " ++
      js "libURLSetStatusCallback load extension loadedExtensions multiply socket prepare process post seek rel " ++
      js "relative read from process rename " ++
      js "replace require resetAll resolve revAddXMLNode revAppendXML revCloseCursor revCloseDatabase revCommitDatabase " ++
      js "revCopyFile revCopyFolder revCopyXMLNode revDeleteFolder revDeleteXMLNode revDeleteAllXMLTrees " ++
      js "revDeleteXMLTree revExecuteSQL revGoURL revInsertXMLNode revMoveFolder revMoveToFirstRecord revMoveToLastRecord " ++
      js "revMoveToNextRecord revMoveToPreviousRecord revMoveToRecord revMoveXMLNode revPutIntoXMLNode revRollBackDatabase " ++
      js "revSetDatabaseDriverPath revSetXMLAttribute revXMLRPC_AddParam revXMLRPC_DeleteAllDocuments revXMLAddDTD " ++
      js "revXMLRPC_Free revXMLRPC_FreeAll revXMLRPC_DeleteDocument revXMLRPC_DeleteParam revXMLRPC_SetHost " ++
      js "revXMLRPC_SetMethod revXMLRPC_SetPort revXMLRPC_SetProtocol revXMLRPC_SetSocket revZipAddItemWithData " ++
      js "revZipAddItemWithFile revZipAddUncompressedItemWithData revZipAddUncompressedItemWithFile revZipCancel " ++
      js "revZipCloseArchive revZipDeleteItem revZipExtractItemToFile revZipExtractItemToVariable revZipSetProgressCallback " ++
      js "revZipRenameItem revZipReplaceItemWithData revZipReplaceItemWithFile revZipOpenArchive send set sort " ++
      js "split start stop " ++ js "subtract symmetric union unload vectorDotProduct wait write".

(** livecodeserver *)
Definition lang_livecodeserver : M language :=
  let* VARIABLE := new [ClassName (js "variable"); Variants [[Begin (js "\b([gtps][A-Z]{1}[a-zA-Z0-9]*" ++
      js ")(\[.+\])?(?:\s*?)")]; [Begin (js "\$_[A-Z]+")]]; Relevance 0] in
  let* m1 := COMMENT (js "--") (js "$") [] in
  let* m2 := COMMENT (js "[^:]//") (js "$") [] in
  let COMMENT_MODES := [CRef C_BLOCK_COMMENT_MODE; CRef HASH_COMMENT_MODE; CRef m1; CRef m2] in
  let* TITLE1 := inherit_mode TITLE_MODE [Variants [[Begin (js "\b_*rig[A-Z]+[A-Za-z0-9_\-]*")];
      [Begin (js "\b_[a-z0-9\-]+")]]] in
  let* TITLE2 := inherit_mode TITLE_MODE [Begin (js "\b([A-Za-z0-9_\-]+)\b")] in
  let* m3 := new [ClassName (js "keyword"); Begin (js "\bend\sif\b")] in
  let* m4 := new [ClassName (js "function"); BeginKeywords (js "function"); End_ (js "$"); Contains [CRef VARIABLE;
      CRef TITLE2; CRef APOS_STRING_MODE; CRef QUOTE_STRING_MODE; CRef BINARY_NUMBER_MODE; CRef C_NUMBER_MODE;
      CRef TITLE1]] in
  let* m5 := new [ClassName (js "function"); Begin (js "\bend\s+"); End_ (js "$"); Keywords (KStr (js "end"));
      Contains [CRef TITLE2; CRef TITLE1]; Relevance 0] in
  let* m6 := new [BeginKeywords (js "command on"); End_ (js "$"); Contains [CRef VARIABLE; CRef TITLE2;
      CRef APOS_STRING_MODE; CRef QUOTE_STRING_MODE; CRef BINARY_NUMBER_MODE; CRef C_NUMBER_MODE; CRef TITLE1]] in
  let* m7 := new [ClassName (js "meta"); Variants [[Begin (js "<\?(rev|lc|livecode)"); Relevance 10];
      [Begin (js "<\?")]; [Begin (js "\?>")]]] in
  lang plain_lang [Keywords (KObj [(js "keyword", js "$_COOKIE $_FILES $_GET $_GET_BINARY $_GET_RAW $_POST $_POST_BINARY $_POST_RAW $_SESSION $_SERVER " ++
      js "codepoint codepoints segment segments codeunit codeunits sentence sentences trueWord trueWords paragraph " ++
      js "after byte bytes english the until http forever descending using line real8 with seventh " ++
      js "for stdout finally element word words fourth before black ninth sixth characters chars stderr " ++
      js "uInt1 uInt1s uInt2 uInt2s stdin string lines relative rel any fifth items from middle mid " ++
      js "at else of catch then third it file milliseconds seconds second secs sec int1 int1s int4 " ++
      js "int4s internet int2 int2s normal text item last long detailed effective uInt4 uInt4s repeat " ++
      js "end repeat URL in try into switch to words https token binfile each tenth as ticks tick " ++
      js "system real4 by dateItems without char character ascending eighth whole dateTime numeric short " ++
      js "first ftp integer abbreviated abbr abbrev private case while if " ++
      js "div mod wrap and or bitAnd bitNot bitOr bitXor among not in a an within " ++
      js "contains ends with begins the keys of keys");
      (js "literal", js "SIX TEN FORMFEED NINE ZERO NONE SPACE FOUR FALSE COLON CRLF PI COMMA ENDOFFILE EOF EIGHT FIVE " ++
      js "QUOTE EMPTY ONE TRUE RETURN CR LINEFEED RIGHT BACKSLASH NULL SEVEN TAB THREE TWO " ++
      js "six ten formfeed nine zero none space four false colon crlf pi comma endoffile eof eight five " ++
      js "quote empty one true return cr linefeed right backslash null seven tab three two " ++
      js "RIVERSION RISTATE FILE_READ_MODE FILE_WRITE_MODE FILE_WRITE_MODE DIR_WRITE_MODE FILE_READ_UMASK " ++
      js "FILE_WRITE_UMASK DIR_READ_UMASK DIR_WRITE_UMASK"); (js "built_in", lang_livecodeserver_built_in)]);
      Contains ([CRef VARIABLE; CRef m3; CRef m4; CRef m5; CRef m6; CRef m7; CRef APOS_STRING_MODE;
      CRef QUOTE_STRING_MODE; CRef BINARY_NUMBER_MODE; CRef C_NUMBER_MODE; CRef TITLE1] ++ COMMENT_MODES);
      Illegal (js ";$|^\[|^=|&|{")].

(** livescript *)
Definition lang_livescript : M language :=
  let KEYWORDS :=
      KObj [(js "keyword", js "in if for while finally new do return else break catch instanceof throw try this " ++
      js "switch continue typeof delete debugger case default function var with " ++
      js "then unless until loop of by when and or is isnt not it that otherwise from to til fallthrough super " ++
      js "case default function var void const let enum export import native " ++
      js "__hasProp __extends __slice __bind __indexOf"); (js "literal", js "true false null undefined " ++
      js "yes no on off it that void");
      (js "built_in", js "npm require console print module global window document")] in
  let JS_IDENT_RE := js "[A-Za-z$_](?:-[0-9A-Za-z$_]|[0-9A-Za-z$_])*" in
  let* TITLE := inherit_mode TITLE_MODE [Begin JS_IDENT_RE] in
  let* SUBST := new [ClassName (js "subst"); Begin (js "#\{"); End_ (js "}"); Keywords KEYWORDS] in
  let* SUBST_SIMPLE := new [ClassName (js "subst"); Begin (js "#[A-Za-z$_]");
      End_ (js "(?:\-[0-9A-Za-z$_]|[0-9A-Za-z$_])*"); Keywords KEYWORDS] in
  let* m1 := new [End_ (js "(\s*/)?"); Relevance 0] in
  let* m2 := new [ClassName (js "number"); Begin (js "(\b0[xX][a-fA-F0-9_]+)|(\b\d(\d|_\d)*(\.(\d(\d|_\d)*" ++
      js ")?)?(_*[eE]([-+]\d(_\d|\d)*" ++ js ")?)?[_a-z]*" ++ js ")"); Relevance 0; Starts m1] in
  let* m3 := new [ClassName (js "string"); Variants [[Begin (js "'''"); End_ (js "'''");
      Contains [CRef BACKSLASH_ESCAPE]]; [Begin (js "'"); End_ (js "'"); Contains [CRef BACKSLASH_ESCAPE]];
      [Begin (js "＂＂＂"); End_ (js "＂＂＂"); Contains [CRef BACKSLASH_ESCAPE; CRef SUBST; CRef SUBST_SIMPLE]];
      [Begin (js "＂"); End_ (js "＂"); Contains [CRef BACKSLASH_ESCAPE; CRef SUBST; CRef SUBST_SIMPLE]];
      [Begin (js "\\"); End_ (js "(\s|$)"); ExcludeEnd true]]] in
  let* m4 := new [ClassName (js "regexp"); Variants [[Begin (js "//"); End_ (js "//[gim]*"); Contains [CRef SUBST;
      CRef HASH_COMMENT_MODE]]; [Begin (js "\/(?![ *])(\\\/|.)*?\/[gim]*(?=\W|$)")]]] in
  let* m5 := new [Begin (js "@" ++ JS_IDENT_RE)] in
  let* m6 := new [Begin (js "``"); End_ (js "``"); ExcludeBegin true; ExcludeEnd true;
      SubLanguage (inl (js "javascript"))] in
  let EXPRESSIONS := [CRef BINARY_NUMBER_MODE; CRef m2; CRef m3; CRef m4; CRef m5; CRef m6] in
  let* _ := upd SUBST (fun m => assign m (Contains EXPRESSIONS)) in
  let* m7 := new [Begin (js "\("); End_ (js "\)"); Keywords KEYWORDS; Contains ([CSelf] ++ EXPRESSIONS)] in
  let* PARAMS := new [ClassName (js "params"); Begin (js "\("); ReturnBegin true; Contains [CRef m7]] in
  let* m8 := COMMENT (js "\/\*") (js "\*\/") [] in
  let* m9 := new [ClassName (js "function"); Contains [CRef TITLE; CRef PARAMS]; ReturnBegin true;
      Variants [[Begin (js "(" ++ JS_IDENT_RE ++ js "\s*(?:=|:=)\s*" ++ js ")?(\(.*\))?\s*\B\->\*?");
      End_ (js "\->\*?")]; [Begin (js "(" ++ JS_IDENT_RE ++ js "\s*(?:=|:=)\s*" ++
      js ")?!?(\(.*\))?\s*\B[-~]{1,2}>\*?"); End_ (js "[-~]{1,2}>\*?")]; [Begin (js "(" ++ JS_IDENT_RE ++
      js "\s*(?:=|:=)\s*" ++ js ")?(\(.*\))?\s*\B!?[-~]{1,2}>\*?"); End_ (js "!?[-~]{1,2}>\*?")]]] in
  let* m10 := new [BeginKeywords (js "extends"); EndsWithParent true; Illegal (js "[:=＂\[\]]");
      Contains [CRef TITLE]] in
  let* m11 := new [ClassName (js "class"); BeginKeywords (js "class"); End_ (js "$"); Illegal (js "[:=＂\[\]]");
      Contains [CRef m10; CRef TITLE]] in
  let* m12 := new [Begin (JS_IDENT_RE ++ js ":"); End_ (js ":"); ReturnBegin true; ReturnEnd true; Relevance 0] in
  lang (mkLP false [js "ls"] false) [Keywords KEYWORDS; Illegal (js "\/\*"); Contains (EXPRESSIONS ++ [CRef m8;
      CRef HASH_COMMENT_MODE; CRef m9; CRef m11; CRef m12])].

(** llvm *)
Definition lang_llvm : M language :=
  let identifier := js "([-a-zA-Z$._][\w\-$.]*" ++ js ")" in
  let* m1 := new [ClassName (js "keyword"); Begin (js "i\d+")] in
  let* m2 := COMMENT (js ";") (js "\n") [Relevance 0] in
  let* m3 := new [ClassName (js "string"); Variants [[Begin (js "＂"); End_ (js "[^\\]＂")]]; Relevance 0] in
  let* m4 := new [ClassName (js "title"); Variants [[Begin (js "@" ++ identifier)]; [Begin (js "@\d+")];
      [Begin (js "!" ++ identifier)]; [Begin (js "!\d+" ++ identifier)]]] in
  let* m5 := new [ClassName (js "symbol"); Variants [[Begin (js "%" ++ identifier)]; [Begin (js "%\d+")];
      [Begin (js "#\d+")]]] in
  let* m6 := new [ClassName (js "number"); Variants [[Begin (js "0[xX][a-fA-F0-9]+")];
      [Begin (js "-?\d+(?:[.]\d+)?(?:[eE][-+]?\d+(?:[.]\d+)?)?")]]; Relevance 0] in
  lang plain_lang [Keywords (KStr (js "begin end true false declare define global " ++
      js "constant private linker_private internal " ++ js "available_externally linkonce linkonce_odr weak " ++
      js "weak_odr appending dllimport dllexport common " ++ js "default hidden protected extern_weak external " ++
      js "thread_local zeroinitializer undef null to tail " ++
      js "target triple datalayout volatile nuw nsw nnan " ++ js "ninf nsz arcp fast exact inbounds align " ++
      js "addrspace section alias module asm sideeffect " ++
      js "gc dbg linker_private_weak attributes blockaddress " ++
      js "initialexec localdynamic localexec prefix unnamed_addr " ++
      js "ccc fastcc coldcc x86_stdcallcc x86_fastcallcc " ++
      js "arm_apcscc arm_aapcscc arm_aapcs_vfpcc ptx_device " ++
      js "ptx_kernel intel_ocl_bicc msp430_intrcc spir_func " ++
      js "spir_kernel x86_64_sysvcc x86_64_win64cc x86_thiscallcc " ++
      js "cc c signext zeroext inreg sret nounwind " ++ js "noreturn noalias nocapture byval nest readnone " ++
      js "readonly inlinehint noinline alwaysinline optsize ssp " ++
      js "sspreq noredzone noimplicitfloat naked builtin cold " ++
      js "nobuiltin noduplicate nonlazybind optnone returns_twice " ++
      js "sanitize_address sanitize_memory sanitize_thread sspstrong " ++
      js "uwtable returned type opaque eq ne slt sgt " ++ js "sle sge ult ugt ule uge oeq one olt ogt " ++
      js "ole oge ord uno ueq une x acq_rel acquire " ++
      js "alignstack atomic catch cleanup filter inteldialect " ++
      js "max min monotonic nand personality release seq_cst " ++
      js "singlethread umax umin unordered xchg add fadd " ++ js "sub fsub mul fmul udiv sdiv fdiv urem srem " ++
      js "frem shl lshr ashr and or xor icmp fcmp " ++ js "phi call trunc zext sext fptrunc fpext uitofp " ++
      js "sitofp fptoui fptosi inttoptr ptrtoint bitcast " ++
      js "addrspacecast select va_arg ret br switch invoke " ++
      js "unwind unreachable indirectbr landingpad resume " ++ js "malloc alloca free load store getelementptr " ++
      js "extractelement insertelement shufflevector getresult " ++
      js "extractvalue insertvalue atomicrmw cmpxchg fence " ++ js "argmemonly double")); Contains [CRef m1;
      CRef m2; CRef QUOTE_STRING_MODE; CRef m3; CRef m4; CRef m5; CRef m6]].

(** lsl *)
Definition lang_lsl : M language :=
  let* LSL_STRING_ESCAPE_CHARS := new [ClassName (js "subst"); Begin (js "\\[tn＂\\]")] in
  let* LSL_STRINGS := new [ClassName (js "string"); Begin (js "＂"); End_ (js "＂");
      Contains [CRef LSL_STRING_ESCAPE_CHARS]] in
  let* LSL_NUMBERS := new [ClassName (js "number"); Begin C_NUMBER_RE] in
  let* LSL_CONSTANTS := new [ClassName (js "literal");
      Variants [[Begin (js "\b(?:PI|TWO_PI|PI_BY_TWO|DEG_TO_RAD|RAD_TO_DEG|SQRT2)\b")];
      [Begin (js "\b(?:XP_ERROR_(?:EXPERIENCES_DISABLED|EXPERIENCE_(?:DISABLED|SUSPENDED)|INVALID_(?:EXPERIENCE|PARAMETERS)|KEY_NOT_FOUND|MATURITY_EXCEEDED|NONE|NOT_(?:FOUND|PERMITTED(?:_LAND)?)|NO_EXPERIENCE|QUOTA_EXCEEDED|RETRY_UPDATE|STORAGE_EXCEPTION|STORE_DISABLED|THROTTLED|UNKNOWN_ERROR)|JSON_APPEND|STATUS_(?:PHYSICS|ROTATE_[XYZ]|PHANTOM|SANDBOX|BLOCK_GRAB(?:_OBJECT)?|(?:DIE|RETURN)_AT_EDGE|CAST_SHADOWS|OK|MALFORMED_PARAMS|TYPE_MISMATCH|BOUNDS_ERROR|NOT_(?:FOUND|SUPPORTED)|INTERNAL_ERROR|WHITELIST_FAILED)|AGENT(?:_(?:BY_(?:LEGACY_|USER)NAME|FLYING|ATTACHMENTS|SCRIPTED|MOUSELOOK|SITTING|ON_OBJECT|AWAY|WALKING|IN_AIR|TYPING|CROUCHING|BUSY|ALWAYS_RUN|AUTOPILOT|LIST_(?:PARCEL(?:_OWNER)?|REGION)))?|CAMERA_(?:PITCH|DISTANCE|BEHINDNESS_(?:ANGLE|LAG)|(?:FOCUS|POSITION)(?:_(?:THRESHOLD|LOCKED|LAG))?|FOCUS_OFFSET|ACTIVE)|ANIM_ON|LOOP|REVERSE|PING_PONG|SMOOTH|ROTATE|SCALE|ALL_SIDES|LINK_(?:ROOT|SET|ALL_(?:OTHERS|CHILDREN)|THIS)|ACTIVE|PASS(?:IVE|_(?:ALWAYS|IF_NOT_HANDLED|NEVER))|SCRIPTED|CONTROL_(?:FWD|BACK|(?:ROT_)?(?:LEFT|RIGHT)|UP|DOWN|(?:ML_)?LBUTTON)|PERMISSION_(?:RETURN_OBJECTS|DEBIT|OVERRIDE_ANIMATIONS|SILENT_ESTATE_MANAGEMENT|TAKE_CONTROLS|TRIGGER_ANIMATION|ATTACH|CHANGE_LINKS|(?:CONTROL|TRACK)_CAMERA|TELEPORT)|INVENTORY_(?:TEXTURE|SOUND|OBJECT|SCRIPT|LANDMARK|CLOTHING|NOTECARD|BODYPART|ANIMATION|GESTURE|ALL|NONE)|CHANGED_(?:INVENTORY|COLOR|SHAPE|SCALE|TEXTURE|LINK|ALLOWED_DROP|OWNER|REGION(?:_START)?|TELEPORT|MEDIA)|OBJECT_(?:CLICK_ACTION|HOVER_HEIGHT|LAST_OWNER_ID|(?:PHYSICS|SERVER|STREAMING)_COST|UNKNOWN_DETAIL|CHARACTER_TIME|PHANTOM|PHYSICS|TEMP_ON_REZ|NAME|DESC|POS|PRIM_(?:COUNT|EQUIVALENCE)|RETURN_(?:PARCEL(?:_OWNER)?|REGION)|REZZER_KEY|ROO?T|VELOCITY|OMEGA|OWNER|GROUP|CREATOR|ATTACHED_POINT|RENDER_WEIGHT|(?:BODY_SHAPE|PATHFINDING)_TYPE|(?:RUNNING|TOTAL)_SCRIPT_COUNT|TOTAL_INVENTORY_COUNT|SCRIPT_(?:MEMORY|TIME))|TYPE_(?:INTEGER|FLOAT|STRING|KEY|VECTOR|ROTATION|INVALID)|(?:DEBUG|PUBLIC)_CHANNEL|ATTACH_(?:AVATAR_CENTER|CHEST|HEAD|BACK|PELVIS|MOUTH|CHIN|NECK|NOSE|BELLY|[LR](?:SHOULDER|HAND|FOOT|EAR|EYE|[UL](?:ARM|LEG)|HIP)|(?:LEFT|RIGHT)_PEC|HUD_(?:CENTER_[12]|TOP_(?:RIGHT|CENTER|LEFT)|BOTTOM(?:_(?:RIGHT|LEFT))?)|[LR]HAND_RING1|TAIL_(?:BASE|TIP)|[LR]WING|FACE_(?:JAW|[LR]EAR|[LR]EYE|TOUNGE)|GROIN|HIND_[LR]FOOT)|LAND_(?:LEVEL|RAISE|LOWER|SMOOTH|NOISE|REVERT)|DATA_(?:ONLINE|NAME|BORN|SIM_(?:POS|STATUS|RATING)|PAYINFO)|PAYMENT_INFO_(?:ON_FILE|USED)|REMOTE_DATA_(?:CHANNEL|REQUEST|REPLY)|PSYS_(?:PART_(?:BF_(?:ZERO|ONE(?:_MINUS_(?:DEST_COLOR|SOURCE_(ALPHA|COLOR)))?|DEST_COLOR|SOURCE_(ALPHA|COLOR))|BLEND_FUNC_(DEST|SOURCE)|FLAGS|(?:START|END)_(?:COLOR|ALPHA|SCALE|GLOW)|MAX_AGE|(?:RIBBON|WIND|INTERP_(?:COLOR|SCALE)|BOUNCE|FOLLOW_(?:SRC|VELOCITY)|TARGET_(?:POS|LINEAR)|EMISSIVE)_MASK)|SRC_(?:MAX_AGE|PATTERN|ANGLE_(?:BEGIN|END)|BURST_(?:RATE|PART_COUNT|RADIUS|SPEED_(?:MIN|MAX))|ACCEL|TEXTURE|TARGET_KEY|OMEGA|PATTERN_(?:DROP|EXPLODE|ANGLE(?:_CONE(?:_EMPTY)?)?)))|VEHICLE_(?:REFERENCE_FRAME|TYPE_(?:NONE|SLED|CAR|BOAT|AIRPLANE|BALLOON)|(?:LINEAR|ANGULAR)_(?:FRICTION_TIMESCALE|MOTOR_DIRECTION)|LINEAR_MOTOR_OFFSET|HOVER_(?:HEIGHT|EFFICIENCY|TIMESCALE)|BUOYANCY|(?:LINEAR|ANGULAR)_(?:DEFLECTION_(?:EFFICIENCY|TIMESCALE)|MOTOR_(?:DECAY_)?TIMESCALE)|VERTICAL_ATTRACTION_(?:EFFICIENCY|TIMESCALE)|BANKING_(?:EFFICIENCY|MIX|TIMESCALE)|FLAG_(?:NO_DEFLECTION_UP|LIMIT_(?:ROLL_ONLY|MOTOR_UP)|HOVER_(?:(?:WATER|TERRAIN|UP)_ONLY|GLOBAL_HEIGHT)|MOUSELOOK_(?:STEER|BANK)|CAMERA_DECOUPLED))|PRIM_(?:ALPHA_MODE(?:_(?:BLEND|EMISSIVE|MASK|NONE))?|NORMAL|SPECULAR|TYPE(?:_(?:BOX|CYLINDER|PRISM|SPHERE|TORUS|TUBE|RING|SCULPT))?|HOLE_(?:DEFAULT|CIRCLE|SQUARE|TRIANGLE)|MATERIAL(?:_(?:STONE|METAL|GLASS|WOOD|FLESH|PLASTIC|RUBBER))?|SHINY_(?:NONE|LOW|MEDIUM|HIGH)|BUMP_(?:NONE|BRIGHT|DARK|WOOD|BARK|BRICKS|CHECKER|CONCRETE|TILE|STONE|DISKS|GRAVEL|BLOBS|SIDING|LARGETILE|STUCCO|SUCTION|WEAVE)|TEXGEN_(?:DEFAULT|PLANAR)|SCULPT_(?:TYPE_(?:SPHERE|TORUS|PLANE|CYLINDER|MASK)|FLAG_(?:MIRROR|INVERT))|PHYSICS(?:_(?:SHAPE_(?:CONVEX|NONE|PRIM|TYPE)))?|(?:POS|ROT)_LOCAL|SLICE|TEXT|FLEXIBLE|POINT_LIGHT|TEMP_ON_REZ|PHANTOM|POSITION|SIZE|ROTATION|TEXTURE|NAME|OMEGA|DESC|LINK_TARGET|COLOR|BUMP_SHINY|FULLBRIGHT|TEXGEN|GLOW|MEDIA_(?:ALT_IMAGE_ENABLE|CONTROLS|(?:CURRENT|HOME)_URL|AUTO_(?:LOOP|PLAY|SCALE|ZOOM)|FIRST_CLICK_INTERACT|(?:WIDTH|HEIGHT)_PIXELS|WHITELIST(?:_ENABLE)?|PERMS_(?:INTERACT|CONTROL)|PARAM_MAX|CONTROLS_(?:STANDARD|MINI)|PERM_(?:NONE|OWNER|GROUP|ANYONE)|MAX_(?:URL_LENGTH|WHITELIST_(?:SIZE|COUNT)|(?:WIDTH|HEIGHT)_PIXELS)))|MASK_(?:BASE|OWNER|GROUP|EVERYONE|NEXT)|PERM_(?:TRANSFER|MODIFY|COPY|MOVE|ALL)|PARCEL_(?:MEDIA_COMMAND_(?:STOP|PAUSE|PLAY|LOOP|TEXTURE|URL|TIME|AGENT|UNLOAD|AUTO_ALIGN|TYPE|SIZE|DESC|LOOP_SET)|FLAG_(?:ALLOW_(?:FLY|(?:GROUP_)?SCRIPTS|LANDMARK|TERRAFORM|DAMAGE|CREATE_(?:GROUP_)?OBJECTS)|USE_(?:ACCESS_(?:GROUP|LIST)|BAN_LIST|LAND_PASS_LIST)|LOCAL_SOUND_ONLY|RESTRICT_PUSHOBJECT|ALLOW_(?:GROUP|ALL)_OBJECT_ENTRY)|COUNT_(?:TOTAL|OWNER|GROUP|OTHER|SELECTED|TEMP)|DETAILS_(?:NAME|DESC|OWNER|GROUP|AREA|ID|SEE_AVATARS))|LIST_STAT_(?:MAX|MIN|MEAN|MEDIAN|STD_DEV|SUM(?:_SQUARES)?|NUM_COUNT|GEOMETRIC_MEAN|RANGE)|PAY_(?:HIDE|DEFAULT)|REGION_FLAG_(?:ALLOW_DAMAGE|FIXED_SUN|BLOCK_TERRAFORM|SANDBOX|DISABLE_(?:COLLISIONS|PHYSICS)|BLOCK_FLY|ALLOW_DIRECT_TELEPORT|RESTRICT_PUSHOBJECT)|HTTP_(?:METHOD|MIMETYPE|BODY_(?:MAXLENGTH|TRUNCATED)|CUSTOM_HEADER|PRAGMA_NO_CACHE|VERBOSE_THROTTLE|VERIFY_CERT)|STRING_(?:TRIM(?:_(?:HEAD|TAIL))?)|CLICK_ACTION_(?:NONE|TOUCH|SIT|BUY|PAY|OPEN(?:_MEDIA)?|PLAY|ZOOM)|TOUCH_INVALID_FACE|PROFILE_(?:NONE|SCRIPT_MEMORY)|RC_(?:DATA_FLAGS|DETECT_PHANTOM|GET_(?:LINK_NUM|NORMAL|ROOT_KEY)|MAX_HITS|REJECT_(?:TYPES|AGENTS|(?:NON)?PHYSICAL|LAND))|RCERR_(?:CAST_TIME_EXCEEDED|SIM_PERF_LOW|UNKNOWN)|ESTATE_ACCESS_(?:ALLOWED_(?:AGENT|GROUP)_(?:ADD|REMOVE)|BANNED_AGENT_(?:ADD|REMOVE))|DENSITY|FRICTION|RESTITUTION|GRAVITY_MULTIPLIER|KFM_(?:COMMAND|CMD_(?:PLAY|STOP|PAUSE)|MODE|FORWARD|LOOP|PING_PONG|REVERSE|DATA|ROTATION|TRANSLATION)|ERR_(?:GENERIC|PARCEL_PERMISSIONS|MALFORMED_PARAMS|RUNTIME_PERMISSIONS|THROTTLED)|CHARACTER_(?:CMD_(?:(?:SMOOTH_)?STOP|JUMP)|DESIRED_(?:TURN_)?SPEED|RADIUS|STAY_WITHIN_PARCEL|LENGTH|ORIENTATION|ACCOUNT_FOR_SKIPPED_FRAMES|AVOIDANCE_MODE|TYPE(?:_(?:[ABCD]|NONE))?|MAX_(?:DECEL|TURN_RADIUS|(?:ACCEL|SPEED)))|PURSUIT_(?:OFFSET|FUZZ_FACTOR|GOAL_TOLERANCE|INTERCEPT)|REQUIRE_LINE_OF_SIGHT|FORCE_DIRECT_PATH|VERTICAL|HORIZONTAL|AVOID_(?:CHARACTERS|DYNAMIC_OBSTACLES|NONE)|PU_(?:EVADE_(?:HIDDEN|SPOTTED)|FAILURE_(?:DYNAMIC_PATHFINDING_DISABLED|INVALID_(?:GOAL|START)|NO_(?:NAVMESH|VALID_DESTINATION)|OTHER|TARGET_GONE|(?:PARCEL_)?UNREACHABLE)|(?:GOAL|SLOWDOWN_DISTANCE)_REACHED)|TRAVERSAL_TYPE(?:_(?:FAST|NONE|SLOW))?|CONTENT_TYPE_(?:ATOM|FORM|HTML|JSON|LLSD|RSS|TEXT|XHTML|XML)|GCNP_(?:RADIUS|STATIC)|(?:PATROL|WANDER)_PAUSE_AT_WAYPOINTS|OPT_(?:AVATAR|CHARACTER|EXCLUSION_VOLUME|LEGACY_LINKSET|MATERIAL_VOLUME|OTHER|STATIC_OBSTACLE|WALKABLE)|SIM_STAT_PCT_CHARS_STEPPED)\b")];
      [Begin (js "\b(?:FALSE|TRUE)\b")]; [Begin (js "\b(?:ZERO_ROTATION)\b")];
      [Begin (js "\b(?:EOF|JSON_(?:ARRAY|DELETE|FALSE|INVALID|NULL|NUMBER|OBJECT|STRING|TRUE)|NULL_KEY|TEXTURE_(?:BLANK|DEFAULT|MEDIA|PLYWOOD|TRANSPARENT)|URL_REQUEST_(?:GRANTED|DENIED))\b")];
      [Begin (js "\b(?:ZERO_VECTOR|TOUCH_INVALID_(?:TEXCOORD|VECTOR))\b")]]] in
  let* LSL_FUNCTIONS := new [ClassName (js "built_in");
      Begin (js "\b(?:ll(?:AgentInExperience|(?:Create|DataSize|Delete|KeyCount|Keys|Read|Update)KeyValue|GetExperience(?:Details|ErrorMessage)|ReturnObjectsBy(?:ID|Owner)|Json(?:2List|[GS]etValue|ValueType)|Sin|Cos|Tan|Atan2|Sqrt|Pow|Abs|Fabs|Frand|Floor|Ceil|Round|Vec(?:Mag|Norm|Dist)|Rot(?:Between|2(?:Euler|Fwd|Left|Up))|(?:Euler|Axes)2Rot|Whisper|(?:Region|Owner)?Say|Shout|Listen(?:Control|Remove)?|Sensor(?:Repeat|Remove)?|Detected(?:Name|Key|Owner|Type|Pos|Vel|Grab|Rot|Group|LinkNumber)|Die|Ground|Wind|(?:[GS]et)(?:AnimationOverride|MemoryLimit|PrimMediaParams|ParcelMusicURL|Object(?:Desc|Name)|PhysicsMaterial|Status|Scale|Color|Alpha|Texture|Pos|Rot|Force|Torque)|ResetAnimationOverride|(?:Scale|Offset|Rotate)Texture|(?:Rot)?Target(?:Remove)?|(?:Stop)?MoveToTarget|Apply(?:Rotational)?Impulse|Set(?:KeyframedMotion|ContentType|RegionPos|(?:Angular)?Velocity|Buoyancy|HoverHeight|ForceAndTorque|TimerEvent|ScriptState|Damage|TextureAnim|Sound(?:Queueing|Radius)|Vehicle(?:Type|(?:Float|Vector|Rotation)Param)|(?:Touch|Sit)?Text|Camera(?:Eye|At)Offset|PrimitiveParams|ClickAction|Link(?:Alpha|Color|PrimitiveParams(?:Fast)?|Texture(?:Anim)?|Camera|Media)|RemoteScriptAccessPin|PayPrice|LocalRot)|ScaleByFactor|Get(?:(?:Max|Min)ScaleFactor|ClosestNavPoint|StaticPath|SimStats|Env|PrimitiveParams|Link(?:PrimitiveParams|Number(?:OfSides)?|Key|Name|Media)|HTTPHeader|FreeURLs|Object(?:Details|PermMask|PrimCount)|Parcel(?:MaxPrims|Details|Prim(?:Count|Owners))|Attached(?:List)?|(?:SPMax|Free|Used)Memory|Region(?:Name|TimeDilation|FPS|Corner|AgentCount)|Root(?:Position|Rotation)|UnixTime|(?:Parcel|Region)Flags|(?:Wall|GMT)clock|SimulatorHostname|BoundingBox|GeometricCenter|Creator|NumberOf(?:Prims|NotecardLines|Sides)|Animation(?:List)?|(?:Camera|Local)(?:Pos|Rot)|Vel|Accel|Omega|Time(?:stamp|OfDay)|(?:Object|CenterOf)?Mass|MassMKS|Energy|Owner|(?:Owner)?Key|SunDirection|Texture(?:Offset|Scale|Rot)|Inventory(?:Number|Name|Key|Type|Creator|PermMask)|Permissions(?:Key)?|StartParameter|List(?:Length|EntryType)|Date|Agent(?:Size|Info|Language|List)|LandOwnerAt|NotecardLine|Script(?:Name|State))|(?:Get|Reset|GetAndReset)Time|PlaySound(?:Slave)?|LoopSound(?:Master|Slave)?|(?:Trigger|Stop|Preload)Sound|(?:(?:Get|Delete)Sub|Insert)String|To(?:Upper|Lower)|Give(?:InventoryList|Money)|RezObject|(?:Stop)?LookAt|Sleep|CollisionFilter|(?:Take|Release)Controls|DetachFromAvatar|AttachToAvatar(?:Temp)?|InstantMessage|(?:GetNext)?Email|StopHover|MinEventDelay|RotLookAt|String(?:Length|Trim)|(?:Start|Stop)Animation|TargetOmega|Request(?:Experience)?Permissions|(?:Create|Break)Link|BreakAllLinks|(?:Give|Remove)Inventory|Water|PassTouches|Request(?:Agent|Inventory)Data|TeleportAgent(?:Home|GlobalCoords)?|ModifyLand|CollisionSound|ResetScript|MessageLinked|PushObject|PassCollisions|AxisAngle2Rot|Rot2(?:Axis|Angle)|A(?:cos|sin)|AngleBetween|AllowInventoryDrop|SubStringIndex|List2(?:CSV|Integer|Json|Float|String|Key|Vector|Rot|List(?:Strided)?)|DeleteSubList|List(?:Statistics|Sort|Randomize|(?:Insert|Find|Replace)List)|EdgeOfWorld|AdjustSoundVolume|Key2Name|TriggerSoundLimited|EjectFromLand|(?:CSV|ParseString)2List|OverMyLand|SameGroup|UnSit|Ground(?:Slope|Normal|Contour)|GroundRepel|(?:Set|Remove)VehicleFlags|(?:AvatarOn)?(?:Link)?SitTarget|Script(?:Danger|Profiler)|Dialog|VolumeDetect|ResetOtherScript|RemoteLoadScriptPin|(?:Open|Close)RemoteDataChannel|SendRemoteData|RemoteDataReply|(?:Integer|String)ToBase64|XorBase64|Log(?:10)?|Base64To(?:String|Integer)|ParseStringKeepNulls|RezAtRoot|RequestSimulatorData|ForceMouselook|(?:Load|Release|(?:E|Une)scape)URL|ParcelMedia(?:CommandList|Query)|ModPow|MapDestination|(?:RemoveFrom|AddTo|Reset)Land(?:Pass|Ban)List|(?:Set|Clear)CameraParams|HTTP(?:Request|Response)|TextBox|DetectedTouch(?:UV|Face|Pos|(?:N|Bin)ormal|ST)|(?:MD5|SHA1|DumpList2)String|Request(?:Secure)?URL|Clear(?:Prim|Link)Media|(?:Link)?ParticleSystem|(?:Get|Request)(?:Username|DisplayName)|RegionSayTo|CastRay|GenerateKey|TransferLindenDollars|ManageEstateAccess|(?:Create|Delete)Character|ExecCharacterCmd|Evade|FleeFrom|NavigateTo|PatrolPoints|Pursue|UpdateCharacter|WanderWithin))\b")] in
  let* m1 := COMMENT (js "//") (js "$") [] in
  let* m2 := COMMENT (js "/\*") (js "\*/") [] in
  let* m3 := new [ClassName (js "comment"); Variants [[AllOf m1]; [AllOf m2]]] in
  let* m4 := new [ClassName (js "section"); Variants [[Begin (js "\b(?:state|default)\b")];
      [Begin (js "\b(?:state_(?:entry|exit)|touch(?:_(?:start|end))?|(?:land_)?collision(?:_(?:start|end))?|timer|listen|(?:no_)?sensor|control|(?:not_)?at_(?:rot_)?target|money|email|experience_permissions(?:_denied)?|run_time_permissions|changed|attach|dataserver|moving_(?:start|end)|link_message|(?:on|object)_rez|remote_data|http_re(?:sponse|quest)|path_update|transaction_result)\b")]]] in
  let* m5 := new [ClassName (js "type");
      Begin (js "\b(?:integer|float|string|key|vector|quaternion|rotation|list)\b")] in
  lang plain_lang [Illegal (js ":"); Contains [CRef LSL_STRINGS; CRef m3; CRef LSL_NUMBERS; CRef m4;
      CRef LSL_FUNCTIONS; CRef LSL_CONSTANTS; CRef m5]].

(** lua *)
Definition lang_lua : M language :=
  let OPENING_LONG_BRACKET := js "\[=*\[" in
  let CLOSING_LONG_BRACKET := js "\]=*\]" in
  let* LONG_BRACKETS := new [Begin OPENING_LONG_BRACKET; End_ CLOSING_LONG_BRACKET; Contains [CSelf]] in
  let* m1 := COMMENT (js "--(?!" ++ OPENING_LONG_BRACKET ++ js ")") (js "$") [] in
  let* m2 := COMMENT (js "--" ++ OPENING_LONG_BRACKET) CLOSING_LONG_BRACKET [Contains [CRef LONG_BRACKETS];
      Relevance 10] in
  let COMMENTS := [CRef m1; CRef m2] in
  let* m3 := inherit_mode TITLE_MODE [Begin (js "([_a-zA-Z]\w*\.)*([_a-zA-Z]\w*:)?[_a-zA-Z]\w*")] in
  let* m4 := new [ClassName (js "params"); Begin (js "\("); EndsWithParent true; Contains COMMENTS] in
  let* m5 := new [ClassName (js "function"); BeginKeywords (js "function"); End_ (js "\)"); Contains ([CRef m3;
      CRef m4] ++ COMMENTS)] in
  let* m6 := new [ClassName (js "string"); Begin OPENING_LONG_BRACKET; End_ CLOSING_LONG_BRACKET;
      Contains [CRef LONG_BRACKETS]; Relevance 5] in
  lang plain_lang [Lexemes UNDERSCORE_IDENT_RE; Keywords (KObj [(js "literal", js "true false nil");
      (js "keyword", js "and break do else elseif end for goto if in local not or repeat return then until while");
      (js "built_in", js "_G _ENV _VERSION __index __newindex __mode __call __metatable __tostring __len " ++
      js "__gc __add __sub __mul __div __mod __pow __concat __unm __eq __lt __le assert " ++
      js "collectgarbage dofile error getfenv getmetatable ipairs load loadfile loadstring" ++
      js "module next pairs pcall print rawequal rawget rawset require select setfenv" ++
      js "setmetatable tonumber tostring type unpack xpcall arg self" ++
      js "coroutine resume yield status wrap create running debug getupvalue " ++
      js "debug sethook getmetatable gethook setmetatable setlocal traceback setfenv getinfo setupvalue getlocal " ++
      js "getregistry getfenv " ++
      js "io lines write close flush open output type read stderr stdin input stdout popen tmpfile " ++
      js "math log max acos huge ldexp pi cos tanh pow deg tan cosh sinh random randomseed frexp ceil floor rad " ++
      js "abs sqrt modf asin min mod fmod log10 atan2 exp sin atan " ++
      js "os exit setlocale date getenv difftime remove time clock tmpname rename execute package preload loadlib " ++
      js "loaded loaders cpath config path seeall " ++
      js "string sub upper len gfind rep find match char dump gmatch reverse byte format gsub lower " ++
      js "table setn insert getn foreachi maxn foreach concat sort remove")]); Contains (COMMENTS ++ [CRef m5;
      CRef C_NUMBER_MODE; CRef APOS_STRING_MODE; CRef QUOTE_STRING_MODE; CRef m6])].

(** makefile *)
Definition lang_makefile : M language :=
  let* VARIABLE := new [ClassName (js "variable"); Variants [[Begin (js "\$\(" ++ UNDERSCORE_IDENT_RE ++ js "\)");
      Contains [CRef BACKSLASH_ESCAPE]]; [Begin (js "\$[@%<?\^\+\*]")]]] in
  let* QUOTE_STRING := new [ClassName (js "string"); Begin (js "＂"); End_ (js "＂"); Contains [CRef BACKSLASH_ESCAPE;
      CRef VARIABLE]] in
  let* FUNC := new [ClassName (js "variable"); Begin (js "\$\([\w-]+\s"); End_ (js "\)");
      Keywords (KObj [(js "built_in", js "subst patsubst strip findstring filter filter-out sort " ++
      js "word wordlist firstword lastword dir notdir suffix basename " ++
      js "addsuffix addprefix join wildcard realpath abspath error warning " ++
      js "shell origin flavor foreach if or and call eval file value")]); Contains [CRef VARIABLE]] in
  let* m1 := new [Begin (js "^" ++ UNDERSCORE_IDENT_RE); End_ (js "[:+?]?="); ExcludeEnd true] in
  let* VAR_ASSIG := new [Begin (js "^" ++ UNDERSCORE_IDENT_RE ++ js "\s*[:+?]?="); Illegal (js "\n");
      ReturnBegin true; Contains [CRef m1]] in
  let* META := new [ClassName (js "meta"); Begin (js "^\.PHONY:"); End_ (js "$");
      Keywords (KObj [(js "meta-keyword", js ".PHONY")]); Lexemes (js "[\.\w]+")] in
  let* TARGET := new [ClassName (js "section"); Begin (js "^[^\s]+:"); End_ (js "$"); Contains [CRef VARIABLE]] in
  lang (mkLP false [js "mk";
      js "mak"] false) [Keywords (KStr (js "define endef undefine ifdef ifndef ifeq ifneq else endif " ++
      js "include -include sinclude override export unexport private vpath")); Lexemes (js "[\w-]+");
      Contains [CRef HASH_COMMENT_MODE; CRef VARIABLE; CRef QUOTE_STRING; CRef FUNC; CRef VAR_ASSIG; CRef META;
      CRef TARGET]].

(** markdown *)
Definition lang_markdown : M language :=
  let* m1 := new [ClassName (js "section"); Variants [[Begin (js "^#{1,6}"); End_ (js "$")];
      [Begin (js "^.+?\n[=-]{2,}$")]]] in
  let* m2 := new [Begin (js "<"); End_ (js ">"); SubLanguage (inl (js "xml")); Relevance 0] in
  let* m3 := new [ClassName (js "bullet"); Begin (js "^\s*([*+-]|(\d+\.))\s+")] in
  let* m4 := new [ClassName (js "strong"); Begin (js "[*_]{2}.+?[*_]{2}")] in
  let* m5 := new [ClassName (js "emphasis"); Variants [[Begin (js "\*.+?\*")]; [Begin (js "_.+?_");
      Relevance 0]]] in
  let* m6 := new [ClassName (js "quote"); Begin (js "^>\s+"); End_ (js "$")] in
  let* m7 := new [ClassName (js "code"); Variants [[Begin (js "^```w*s*$"); End_ (js "^```s*$")];
      [Begin (js "`.+?`")]; [Begin (js "^( {4}|" ++ [9%N] ++ js ")"); End_ (js "$"); Relevance 0]]] in
  let* m8 := new [Begin (js "^[-\*]{3,}"); End_ (js "$")] in
  let* m9 := new [ClassName (js "string"); Begin (js "\["); End_ (js "\]"); ExcludeBegin true; ReturnEnd true;
      Relevance 0] in
  let* m10 := new [ClassName (js "link"); Begin (js "\]\("); End_ (js "\)"); ExcludeBegin true; ExcludeEnd true] in
  let* m11 := new [ClassName (js "symbol"); Begin (js "\]\["); End_ (js "\]"); ExcludeBegin true;
      ExcludeEnd true] in
  let* m12 := new [Begin (js "\[.+?\][\(\[].*?[\)\]]"); ReturnBegin true; Contains [CRef m9; CRef m10; CRef m11];
      Relevance 10] in
  let* m13 := new [ClassName (js "symbol"); Begin (js "\["); End_ (js "\]"); ExcludeBegin true; ExcludeEnd true] in
  let* m14 := new [ClassName (js "link"); Begin (js ":\s*"); End_ (js "$"); ExcludeBegin true] in
  let* m15 := new [Begin (js "^\[[^\n]+\]:"); ReturnBegin true; Contains [CRef m13; CRef m14]] in
  lang (mkLP false [js "md"; js "mkdown"; js "mkd"] false) [Contains [CRef m1; CRef m2; CRef m3; CRef m4; CRef m5;
      CRef m6; CRef m7; CRef m8; CRef m12; CRef m15]].

(** mathematica *)
Definition lang_mathematica : M language :=
  let* m1 := COMMENT (js "\(\*") (js "\*\)") [Contains [CSelf]] in
  lang (mkLP false [js "mma"; js "wl"] false) [Lexemes (js "(\$|\b)" ++ IDENT_RE ++ js "\b");
      Keywords (KStr (js "AASTriangle AbelianGroup Abort AbortKernels AbortProtect AbortScheduledTask Above Abs AbsArg AbsArgPlot " ++
      js "Absolute AbsoluteCorrelation AbsoluteCorrelationFunction AbsoluteCurrentValue AbsoluteDashing AbsoluteFileName " ++
      js "AbsoluteOptions AbsolutePointSize AbsoluteThickness AbsoluteTime AbsoluteTiming AcceptanceThreshold " ++
      js "AccountingForm Accumulate Accuracy AccuracyGoal ActionDelay ActionMenu ActionMenuBox ActionMenuBoxOptions " ++
      js "Activate Active ActiveClassification ActiveClassificationObject ActiveItem ActivePrediction ActivePredictionObject " ++
      js "ActiveStyle AcyclicGraphQ AddOnHelpPath AddSides AddTo AddToSearchIndex AddUsers AdjacencyGraph AdjacencyList " ++
      js "AdjacencyMatrix AdjustmentBox AdjustmentBoxOptions AdjustTimeSeriesForecast AdministrativeDivisionData " ++
      js "AffineHalfSpace AffineSpace AffineStateSpaceModel AffineTransform After AggregatedEntityClass AggregationLayer " ++
      js "AircraftData AirportData AirPressureData AirTemperatureData AiryAi AiryAiPrime AiryAiZero AiryBi AiryBiPrime " ++
      js "AiryBiZero AlgebraicIntegerQ AlgebraicNumber AlgebraicNumberDenominator AlgebraicNumberNorm AlgebraicNumberPolynomial " ++
      js "AlgebraicNumberTrace AlgebraicRules AlgebraicRulesData Algebraics AlgebraicUnitQ Alignment AlignmentMarker " ++
      js "AlignmentPoint All AllowAdultContent AllowedCloudExtraParameters AllowedCloudParameterExtensions AllowedDimensions " ++
      js "AllowedFrequencyRange AllowedHeads AllowGroupClose AllowIncomplete AllowInlineCells AllowKernelInitialization " ++
      js "AllowLooseGrammar AllowReverseGroupClose AllowScriptLevelChange AllTrue Alphabet AlphabeticOrder AlphabeticSort " ++
      js "AlphaChannel AlternateImage AlternatingFactorial AlternatingGroup AlternativeHypothesis Alternatives " ++
      js "AltitudeMethod AmbientLight AmbiguityFunction AmbiguityList Analytic AnatomyData AnatomyForm AnatomyPlot3D " ++
      js "AnatomySkinStyle AnatomyStyling AnchoredSearch And AndersonDarlingTest AngerJ AngleBisector AngleBracket " ++
      js "AnglePath AnglePath3D AngleVector AngularGauge Animate AnimationCycleOffset AnimationCycleRepetitions " ++
      js "AnimationDirection AnimationDisplayTime AnimationRate AnimationRepetitions AnimationRunning AnimationRunTime " ++
      js "AnimationTimeIndex Animator AnimatorBox AnimatorBoxOptions AnimatorElements Annotate Annotation AnnotationDelete " ++
      js "AnnotationNames AnnotationRules AnnotationValue Annuity AnnuityDue Annulus AnomalyDetection AnomalyDetectorFunction " ++
      js "Anonymous Antialiasing AntihermitianMatrixQ Antisymmetric AntisymmetricMatrixQ Antonyms AnyOrder AnySubset " ++
      js "AnyTrue Apart ApartSquareFree APIFunction Appearance AppearanceElements AppearanceRules AppellF1 Append " ++
      js "AppendCheck AppendLayer AppendTo ApplicationIdentificationKey Apply ApplySides ArcCos ArcCosh ArcCot " ++
      js "ArcCoth ArcCsc ArcCsch ArcCurvature ARCHProcess ArcLength ArcSec ArcSech ArcSin ArcSinDistribution ArcSinh " ++
      js "ArcTan ArcTanh Area Arg ArgMax ArgMin ArgumentCountQ ARIMAProcess ArithmeticGeometricMean ARMAProcess " ++
      js "Around AroundReplace ARProcess Array ArrayComponents ArrayDepth ArrayFilter ArrayFlatten ArrayMesh ArrayPad " ++
      js "ArrayPlot ArrayQ ArrayResample ArrayReshape ArrayRules Arrays Arrow Arrow3DBox ArrowBox Arrowheads ASATriangle " ++
      js "Ask AskAppend AskConfirm AskDisplay AskedQ AskedValue AskFunction AskState AskTemplateDisplay AspectRatio " ++
      js "AspectRatioFixed Assert AssociateTo Association AssociationFormat AssociationMap AssociationQ AssociationThread " ++
      js "AssumeDeterministic Assuming Assumptions AstronomicalData AsymptoticDSolveValue AsymptoticEqual AsymptoticEquivalent " ++
      js "AsymptoticGreater AsymptoticGreaterEqual AsymptoticIntegrate AsymptoticLess AsymptoticLessEqual AsymptoticOutputTracker " ++
      js "AsymptoticRSolveValue AsymptoticSolve AsymptoticSum Asynchronous AsynchronousTaskObject AsynchronousTasks " ++
      js "Atom AtomCoordinates AtomCount AtomDiagramCoordinates AtomList AtomQ AttentionLayer Attributes Audio " ++
      js "AudioAmplify AudioAnnotate AudioAnnotationLookup AudioBlockMap AudioCapture AudioChannelAssignment AudioChannelCombine " ++
      js "AudioChannelMix AudioChannels AudioChannelSeparate AudioData AudioDelay AudioDelete AudioDevice AudioDistance " ++
      js "AudioFade AudioFrequencyShift AudioGenerator AudioIdentify AudioInputDevice AudioInsert AudioIntervals " ++
      js "AudioJoin AudioLabel AudioLength AudioLocalMeasurements AudioLooping AudioLoudness AudioMeasurements " ++
      js "AudioNormalize AudioOutputDevice AudioOverlay AudioPad AudioPan AudioPartition AudioPause AudioPitchShift " ++
      js "AudioPlay AudioPlot AudioQ AudioRecord AudioReplace AudioResample AudioReverb AudioSampleRate AudioSpectralMap " ++
      js "AudioSpectralTransformation AudioSplit AudioStop AudioStream AudioStreams AudioTimeStretch AudioTrim " ++
      js "AudioType AugmentedPolyhedron AugmentedSymmetricPolynomial Authenticate Authentication AuthenticationDialog " ++
      js "AutoAction Autocomplete AutocompletionFunction AutoCopy AutocorrelationTest AutoDelete AutoEvaluateEvents " ++
      js "AutoGeneratedPackage AutoIndent AutoIndentSpacings AutoItalicWords AutoloadPath AutoMatch Automatic " ++
      js "AutomaticImageSize AutoMultiplicationSymbol AutoNumberFormatting AutoOpenNotebooks AutoOpenPalettes " ++
      js "AutoQuoteCharacters AutoRefreshed AutoRemove AutorunSequencing AutoScaling AutoScroll AutoSpacing AutoStyleOptions " ++
      js "AutoStyleWords AutoSubmitting Axes AxesEdge AxesLabel AxesOrigin AxesStyle AxiomaticTheory Axis" ++
      js "BabyMonsterGroupB Back Background BackgroundAppearance BackgroundTasksSettings Backslash Backsubstitution " ++
      js "Backward Ball Band BandpassFilter BandstopFilter BarabasiAlbertGraphDistribution BarChart BarChart3D " ++
      js "BarcodeImage BarcodeRecognize BaringhausHenzeTest BarLegend BarlowProschanImportance BarnesG BarOrigin " ++
      js "BarSpacing BartlettHannWindow BartlettWindow BaseDecode BaseEncode BaseForm Baseline BaselinePosition " ++
      js "BaseStyle BasicRecurrentLayer BatchNormalizationLayer BatchSize BatesDistribution BattleLemarieWavelet " ++
      js "BayesianMaximization BayesianMaximizationObject BayesianMinimization BayesianMinimizationObject Because " ++
      js "BeckmannDistribution Beep Before Begin BeginDialogPacket BeginFrontEndInteractionPacket BeginPackage " ++
      js "BellB BellY Below BenfordDistribution BeniniDistribution BenktanderGibratDistribution BenktanderWeibullDistribution " ++
      js "BernoulliB BernoulliDistribution BernoulliGraphDistribution BernoulliProcess BernsteinBasis BesselFilterModel " ++
      js "BesselI BesselJ BesselJZero BesselK BesselY BesselYZero Beta BetaBinomialDistribution BetaDistribution " ++
      js "BetaNegativeBinomialDistribution BetaPrimeDistribution BetaRegularized Between BetweennessCentrality " ++
      js "BeveledPolyhedron BezierCurve BezierCurve3DBox BezierCurve3DBoxOptions BezierCurveBox BezierCurveBoxOptions " ++
      js "BezierFunction BilateralFilter Binarize BinaryDeserialize BinaryDistance BinaryFormat BinaryImageQ BinaryRead " ++
      js "BinaryReadList BinarySerialize BinaryWrite BinCounts BinLists Binomial BinomialDistribution BinomialProcess " ++
      js "BinormalDistribution BiorthogonalSplineWavelet BipartiteGraphQ BiquadraticFilterModel BirnbaumImportance " ++
      js "BirnbaumSaundersDistribution BitAnd BitClear BitGet BitLength BitNot BitOr BitSet BitShiftLeft BitShiftRight " ++
      js "BitXor BiweightLocation BiweightMidvariance Black BlackmanHarrisWindow BlackmanNuttallWindow BlackmanWindow " ++
      js "Blank BlankForm BlankNullSequence BlankSequence Blend Block BlockchainAddressData BlockchainBase BlockchainBlockData " ++
      js "BlockchainContractValue BlockchainData BlockchainGet BlockchainKeyEncode BlockchainPut BlockchainTokenData " ++
      js "BlockchainTransaction BlockchainTransactionData BlockchainTransactionSign BlockchainTransactionSubmit " ++
      js "BlockMap BlockRandom BlomqvistBeta BlomqvistBetaTest Blue Blur BodePlot BohmanWindow Bold Bond BondCount " ++
      js "BondList BondQ Bookmarks Boole BooleanConsecutiveFunction BooleanConvert BooleanCountingFunction BooleanFunction " ++
      js "BooleanGraph BooleanMaxterms BooleanMinimize BooleanMinterms BooleanQ BooleanRegion Booleans BooleanStrings " ++
      js "BooleanTable BooleanVariables BorderDimensions BorelTannerDistribution Bottom BottomHatTransform BoundaryDiscretizeGraphics " ++
      js "BoundaryDiscretizeRegion BoundaryMesh BoundaryMeshRegion BoundaryMeshRegionQ BoundaryStyle BoundedRegionQ " ++
      js "BoundingRegion Bounds Box BoxBaselineShift BoxData BoxDimensions Boxed Boxes BoxForm BoxFormFormatTypes " ++
      js "BoxFrame BoxID BoxMargins BoxMatrix BoxObject BoxRatios BoxRotation BoxRotationPoint BoxStyle BoxWhiskerChart " ++
      js "Bra BracketingBar BraKet BrayCurtisDistance BreadthFirstScan Break BridgeData BrightnessEqualize BroadcastStationData " ++
      js "Brown BrownForsytheTest BrownianBridgeProcess BrowserCategory BSplineBasis BSplineCurve BSplineCurve3DBox " ++
      js "BSplineCurve3DBoxOptions BSplineCurveBox BSplineCurveBoxOptions BSplineFunction BSplineSurface BSplineSurface3DBox " ++
      js "BSplineSurface3DBoxOptions BubbleChart BubbleChart3D BubbleScale BubbleSizes BuildingData BulletGauge " ++
      js "BusinessDayQ ButterflyGraph ButterworthFilterModel Button ButtonBar ButtonBox ButtonBoxOptions ButtonCell " ++
      js "ButtonContents ButtonData ButtonEvaluator ButtonExpandable ButtonFrame ButtonFunction ButtonMargins " ++
      js "ButtonMinHeight ButtonNote ButtonNotebook ButtonSource ButtonStyle ButtonStyleMenuListing Byte ByteArray " ++
      js "ByteArrayFormat ByteArrayQ ByteArrayToString ByteCount ByteOrdering" ++
      js "C CachedValue CacheGraphics CachePersistence CalendarConvert CalendarData CalendarType Callout CalloutMarker " ++
      js "CalloutStyle CallPacket CanberraDistance Cancel CancelButton CandlestickChart CanonicalGraph CanonicalizePolygon " ++
      js "CanonicalizePolyhedron CanonicalName CanonicalWarpingCorrespondence CanonicalWarpingDistance CantorMesh " ++
      js "CantorStaircase Cap CapForm CapitalDifferentialD Capitalize CapsuleShape CaptureRunning CardinalBSplineBasis " ++
      js "CarlemanLinearize CarmichaelLambda CaseOrdering Cases CaseSensitive Cashflow Casoratian Catalan CatalanNumber " ++
      js "Catch Catenate CatenateLayer CauchyDistribution CauchyWindow CayleyGraph CDF CDFDeploy CDFInformation " ++
      js "CDFWavelet Ceiling CelestialSystem Cell CellAutoOverwrite CellBaseline CellBoundingBox CellBracketOptions " ++
      js "CellChangeTimes CellContents CellContext CellDingbat CellDynamicExpression CellEditDuplicate CellElementsBoundingBox " ++
      js "CellElementSpacings CellEpilog CellEvaluationDuplicate CellEvaluationFunction CellEvaluationLanguage " ++
      js "CellEventActions CellFrame CellFrameColor CellFrameLabelMargins CellFrameLabels CellFrameMargins CellGroup " ++
      js "CellGroupData CellGrouping CellGroupingRules CellHorizontalScrolling CellID CellLabel CellLabelAutoDelete " ++
      js "CellLabelMargins CellLabelPositioning CellLabelStyle CellLabelTemplate CellMargins CellObject CellOpen " ++
      js "CellPrint CellProlog Cells CellSize CellStyle CellTags CellularAutomaton CensoredDistribution Censoring " ++
      js "Center CenterArray CenterDot CentralFeature CentralMoment CentralMomentGeneratingFunction Cepstrogram " ++
      js "CepstrogramArray CepstrumArray CForm ChampernowneNumber ChangeOptions ChannelBase ChannelBrokerAction " ++
      js "ChannelDatabin ChannelHistoryLength ChannelListen ChannelListener ChannelListeners ChannelListenerWait " ++
      js "ChannelObject ChannelPreSendFunction ChannelReceiverFunction ChannelSend ChannelSubscribers ChanVeseBinarize " ++
      js "Character CharacterCounts CharacterEncoding CharacterEncodingsPath CharacteristicFunction CharacteristicPolynomial " ++
      js "CharacterName CharacterRange Characters ChartBaseStyle ChartElementData ChartElementDataFunction ChartElementFunction " ++
      js "ChartElements ChartLabels ChartLayout ChartLegends ChartStyle Chebyshev1FilterModel Chebyshev2FilterModel " ++
      js "ChebyshevDistance ChebyshevT ChebyshevU Check CheckAbort CheckAll Checkbox CheckboxBar CheckboxBox CheckboxBoxOptions " ++
      js "ChemicalData ChessboardDistance ChiDistribution ChineseRemainder ChiSquareDistribution ChoiceButtons " ++
      js "ChoiceDialog CholeskyDecomposition Chop ChromaticityPlot ChromaticityPlot3D ChromaticPolynomial Circle " ++
      js "CircleBox CircleDot CircleMinus CirclePlus CirclePoints CircleThrough CircleTimes CirculantGraph CircularOrthogonalMatrixDistribution " ++
      js "CircularQuaternionMatrixDistribution CircularRealMatrixDistribution CircularSymplecticMatrixDistribution " ++
      js "CircularUnitaryMatrixDistribution Circumsphere CityData ClassifierFunction ClassifierInformation ClassifierMeasurements " ++
      js "ClassifierMeasurementsObject Classify ClassPriors Clear ClearAll ClearAttributes ClearCookies ClearPermissions " ++
      js "ClearSystemCache ClebschGordan ClickPane Clip ClipboardNotebook ClipFill ClippingStyle ClipPlanes ClipPlanesStyle " ++
      js "ClipRange Clock ClockGauge ClockwiseContourIntegral Close Closed CloseKernels ClosenessCentrality Closing " ++
      js "ClosingAutoSave ClosingEvent CloudAccountData CloudBase CloudConnect CloudDeploy CloudDirectory CloudDisconnect " ++
      js "CloudEvaluate CloudExport CloudExpression CloudExpressions CloudFunction CloudGet CloudImport CloudLoggingData " ++
      js "CloudObject CloudObjectInformation CloudObjectInformationData CloudObjectNameFormat CloudObjects CloudObjectURLType " ++
      js "CloudPublish CloudPut CloudRenderingMethod CloudSave CloudShare CloudSubmit CloudSymbol CloudUnshare " ++
      js "ClusterClassify ClusterDissimilarityFunction ClusteringComponents ClusteringTree CMYKColor Coarse CodeAssistOptions " ++
      js "Coefficient CoefficientArrays CoefficientDomain CoefficientList CoefficientRules CoifletWavelet Collect " ++
      js "Colon ColonForm ColorBalance ColorCombine ColorConvert ColorCoverage ColorData ColorDataFunction ColorDetect " ++
      js "ColorDistance ColorFunction ColorFunctionScaling Colorize ColorNegate ColorOutput ColorProfileData ColorQ " ++
      js "ColorQuantize ColorReplace ColorRules ColorSelectorSettings ColorSeparate ColorSetter ColorSetterBox " ++
      js "ColorSetterBoxOptions ColorSlider ColorsNear ColorSpace ColorToneMapping Column ColumnAlignments ColumnBackgrounds " ++
      js "ColumnForm ColumnLines ColumnsEqual ColumnSpacings ColumnWidths CombinedEntityClass CombinerFunction " ++
      js "CometData CommonDefaultFormatTypes Commonest CommonestFilter CommonName CommonUnits CommunityBoundaryStyle " ++
      js "CommunityGraphPlot CommunityLabels CommunityRegionStyle CompanyData CompatibleUnitQ CompilationOptions " ++
      js "CompilationTarget Compile Compiled CompiledCodeFunction CompiledFunction CompilerOptions Complement " ++
      js "CompleteGraph CompleteGraphQ CompleteKaryTree CompletionsListPacket Complex Complexes ComplexExpand " ++
      js "ComplexInfinity ComplexityFunction ComplexListPlot ComplexPlot ComplexPlot3D ComponentMeasurements ComponentwiseContextMenu " ++
      js "Compose ComposeList ComposeSeries CompositeQ Composition CompoundElement CompoundExpression CompoundPoissonDistribution " ++
      js "CompoundPoissonProcess CompoundRenewalProcess Compress CompressedData ComputeUncertainty Condition ConditionalExpression " ++
      js "Conditioned Cone ConeBox ConfidenceLevel ConfidenceRange ConfidenceTransform ConfigurationPath ConformAudio " ++
      js "ConformImages Congruent ConicHullRegion ConicHullRegion3DBox ConicHullRegionBox ConicOptimization Conjugate " ++
      js "ConjugateTranspose Conjunction Connect ConnectedComponents ConnectedGraphComponents ConnectedGraphQ " ++
      js "ConnectedMeshComponents ConnectedMoleculeComponents ConnectedMoleculeQ ConnectionSettings ConnectLibraryCallbackFunction " ++
      js "ConnectSystemModelComponents ConnesWindow ConoverTest ConsoleMessage ConsoleMessagePacket ConsolePrint " ++
      js "Constant ConstantArray ConstantArrayLayer ConstantImage ConstantPlusLayer ConstantRegionQ Constants " ++
      js "ConstantTimesLayer ConstellationData ConstrainedMax ConstrainedMin Construct Containing ContainsAll " ++
      js "ContainsAny ContainsExactly ContainsNone ContainsOnly ContentFieldOptions ContentLocationFunction ContentObject " ++
      js "ContentPadding ContentsBoundingBox ContentSelectable ContentSize Context ContextMenu Contexts ContextToFileName " ++
      js "Continuation Continue ContinuedFraction ContinuedFractionK ContinuousAction ContinuousMarkovProcess " ++
      js "ContinuousTask ContinuousTimeModelQ ContinuousWaveletData ContinuousWaveletTransform ContourDetect ContourGraphics " ++
      js "ContourIntegral ContourLabels ContourLines ContourPlot ContourPlot3D Contours ContourShading ContourSmoothing " ++
      js "ContourStyle ContraharmonicMean ContrastiveLossLayer Control ControlActive ControlAlignment ControlGroupContentsBox " ++
      js "ControllabilityGramian ControllabilityMatrix ControllableDecomposition ControllableModelQ ControllerDuration " ++
      js "ControllerInformation ControllerInformationData ControllerLinking ControllerManipulate ControllerMethod " ++
      js "ControllerPath ControllerState ControlPlacement ControlsRendering ControlType Convergents ConversionOptions " ++
      js "ConversionRules ConvertToBitmapPacket ConvertToPostScript ConvertToPostScriptPacket ConvexHullMesh ConvexPolygonQ " ++
      js "ConvexPolyhedronQ ConvolutionLayer Convolve ConwayGroupCo1 ConwayGroupCo2 ConwayGroupCo3 CookieFunction " ++
      js "Cookies CoordinateBoundingBox CoordinateBoundingBoxArray CoordinateBounds CoordinateBoundsArray CoordinateChartData " ++
      js "CoordinatesToolOptions CoordinateTransform CoordinateTransformData CoprimeQ Coproduct CopulaDistribution " ++
      js "Copyable CopyDatabin CopyDirectory CopyFile CopyTag CopyToClipboard CornerFilter CornerNeighbors Correlation " ++
      js "CorrelationDistance CorrelationFunction CorrelationTest Cos Cosh CoshIntegral CosineDistance CosineWindow " ++
      js "CosIntegral Cot Coth Count CountDistinct CountDistinctBy CounterAssignments CounterBox CounterBoxOptions " ++
      js "CounterClockwiseContourIntegral CounterEvaluator CounterFunction CounterIncrements CounterStyle CounterStyleMenuListing " ++
      js "CountRoots CountryData Counts CountsBy Covariance CovarianceEstimatorFunction CovarianceFunction CoxianDistribution " ++
      js "CoxIngersollRossProcess CoxModel CoxModelFit CramerVonMisesTest CreateArchive CreateCellID CreateChannel " ++
      js "CreateCloudExpression CreateDatabin CreateDataSystemModel CreateDialog CreateDirectory CreateDocument " ++
      js "CreateFile CreateIntermediateDirectories CreateManagedLibraryExpression CreateNotebook CreatePalette " ++
      js "CreatePalettePacket CreatePermissionsGroup CreateScheduledTask CreateSearchIndex CreateSystemModel CreateTemporary " ++
      js "CreateUUID CreateWindow CriterionFunction CriticalityFailureImportance CriticalitySuccessImportance " ++
      js "CriticalSection Cross CrossEntropyLossLayer CrossingCount CrossingDetect CrossingPolygon CrossMatrix " ++
      js "Csc Csch CTCLossLayer Cube CubeRoot Cubics Cuboid CuboidBox Cumulant CumulantGeneratingFunction Cup " ++
      js "CupCap Curl CurlyDoubleQuote CurlyQuote CurrencyConvert CurrentDate CurrentImage CurrentlySpeakingPacket " ++
      js "CurrentNotebookImage CurrentScreenImage CurrentValue Curry CurvatureFlowFilter CurveClosed Cyan CycleGraph " ++
      js "CycleIndexPolynomial Cycles CyclicGroup Cyclotomic Cylinder CylinderBox CylindricalDecomposition" ++
      js "D DagumDistribution DamData DamerauLevenshteinDistance DampingFactor Darker Dashed Dashing DatabaseConnect " ++
      js "DatabaseDisconnect DatabaseReference Databin DatabinAdd DatabinRemove Databins DatabinUpload DataCompression " ++
      js "DataDistribution DataRange DataReversed Dataset Date DateBounds Dated DateDelimiters DateDifference " ++
      js "DatedUnit DateFormat DateFunction DateHistogram DateList DateListLogPlot DateListPlot DateListStepPlot " ++
      js "DateObject DateObjectQ DateOverlapsQ DatePattern DatePlus DateRange DateReduction DateString DateTicksFormat " ++
      js "DateValue DateWithinQ DaubechiesWavelet DavisDistribution DawsonF DayCount DayCountConvention DayHemisphere " ++
      js "DaylightQ DayMatchQ DayName DayNightTerminator DayPlus DayRange DayRound DeBruijnGraph DeBruijnSequence " ++
      js "Debug DebugTag Decapitalize Decimal DecimalForm DeclareKnownSymbols DeclarePackage Decompose DeconvolutionLayer " ++
      js "Decrement Decrypt DecryptFile DedekindEta DeepSpaceProbeData Default DefaultAxesStyle DefaultBaseStyle " ++
      js "DefaultBoxStyle DefaultButton DefaultColor DefaultControlPlacement DefaultDuplicateCellStyle DefaultDuration " ++
      js "DefaultElement DefaultFaceGridsStyle DefaultFieldHintStyle DefaultFont DefaultFontProperties DefaultFormatType " ++
      js "DefaultFormatTypeForStyle DefaultFrameStyle DefaultFrameTicksStyle DefaultGridLinesStyle DefaultInlineFormatType " ++
      js "DefaultInputFormatType DefaultLabelStyle DefaultMenuStyle DefaultNaturalLanguage DefaultNewCellStyle " ++
      js "DefaultNewInlineCellStyle DefaultNotebook DefaultOptions DefaultOutputFormatType DefaultPrintPrecision " ++
      js "DefaultStyle DefaultStyleDefinitions DefaultTextFormatType DefaultTextInlineFormatType DefaultTicksStyle " ++
      js "DefaultTooltipStyle DefaultValue DefaultValues Defer DefineExternal DefineInputStreamMethod DefineOutputStreamMethod " ++
      js "DefineResourceFunction Definition Degree DegreeCentrality DegreeGraphDistribution DegreeLexicographic " ++
      js "DegreeReverseLexicographic DEigensystem DEigenvalues Deinitialization Del DelaunayMesh Delayed Deletable " ++
      js "Delete DeleteAnomalies DeleteBorderComponents DeleteCases DeleteChannel DeleteCloudExpression DeleteContents " ++
      js "DeleteDirectory DeleteDuplicates DeleteDuplicatesBy DeleteFile DeleteMissing DeleteObject DeletePermissionsKey " ++
      js "DeleteSearchIndex DeleteSmallComponents DeleteStopwords DeleteWithContents DeletionWarning DelimitedArray " ++
      js "DelimitedSequence Delimiter DelimiterFlashTime DelimiterMatching Delimiters DeliveryFunction Dendrogram " ++
      js "Denominator DensityGraphics DensityHistogram DensityPlot DensityPlot3D DependentVariables Deploy Deployed " ++
      js "Depth DepthFirstScan Derivative DerivativeFilter DerivedKey DescriptorStateSpace DesignMatrix DestroyAfterEvaluation " ++
      js "Det DeviceClose DeviceConfigure DeviceExecute DeviceExecuteAsynchronous DeviceObject DeviceOpen DeviceOpenQ " ++
      js "DeviceRead DeviceReadBuffer DeviceReadLatest DeviceReadList DeviceReadTimeSeries Devices DeviceStreams " ++
      js "DeviceWrite DeviceWriteBuffer DGaussianWavelet DiacriticalPositioning Diagonal DiagonalizableMatrixQ " ++
      js "DiagonalMatrix DiagonalMatrixQ Dialog DialogIndent DialogInput DialogLevel DialogNotebook DialogProlog " ++
      js "DialogReturn DialogSymbols Diamond DiamondMatrix DiceDissimilarity DictionaryLookup DictionaryWordQ " ++
      js "DifferenceDelta DifferenceOrder DifferenceQuotient DifferenceRoot DifferenceRootReduce Differences DifferentialD " ++
      js "DifferentialRoot DifferentialRootReduce DifferentiatorFilter DigitalSignature DigitBlock DigitBlockMinimum " ++
      js "DigitCharacter DigitCount DigitQ DihedralAngle DihedralGroup Dilation DimensionalCombinations DimensionalMeshComponents " ++
      js "DimensionReduce DimensionReducerFunction DimensionReduction Dimensions DiracComb DiracDelta DirectedEdge " ++
      js "DirectedEdges DirectedGraph DirectedGraphQ DirectedInfinity Direction Directive Directory DirectoryName " ++
      js "DirectoryQ DirectoryStack DirichletBeta DirichletCharacter DirichletCondition DirichletConvolve DirichletDistribution " ++
      js "DirichletEta DirichletL DirichletLambda DirichletTransform DirichletWindow DisableConsolePrintPacket " ++
      js "DisableFormatting DiscreteChirpZTransform DiscreteConvolve DiscreteDelta DiscreteHadamardTransform DiscreteIndicator " ++
      js "DiscreteLimit DiscreteLQEstimatorGains DiscreteLQRegulatorGains DiscreteLyapunovSolve DiscreteMarkovProcess " ++
      js "DiscreteMaxLimit DiscreteMinLimit DiscretePlot DiscretePlot3D DiscreteRatio DiscreteRiccatiSolve DiscreteShift " ++
      js "DiscreteTimeModelQ DiscreteUniformDistribution DiscreteVariables DiscreteWaveletData DiscreteWaveletPacketTransform " ++
      js "DiscreteWaveletTransform DiscretizeGraphics DiscretizeRegion Discriminant DisjointQ Disjunction Disk " ++
      js "DiskBox DiskMatrix DiskSegment Dispatch DispatchQ DispersionEstimatorFunction Display DisplayAllSteps " ++
      js "DisplayEndPacket DisplayFlushImagePacket DisplayForm DisplayFunction DisplayPacket DisplayRules DisplaySetSizePacket " ++
      js "DisplayString DisplayTemporary DisplayWith DisplayWithRef DisplayWithVariable DistanceFunction DistanceMatrix " ++
      js "DistanceTransform Distribute Distributed DistributedContexts DistributeDefinitions DistributionChart " ++
      js "DistributionDomain DistributionFitTest DistributionParameterAssumptions DistributionParameterQ Dithering " ++
      js "Div Divergence Divide DivideBy Dividers DivideSides Divisible Divisors DivisorSigma DivisorSum DMSList " ++
      js "DMSString Do DockedCells DocumentGenerator DocumentGeneratorInformation DocumentGeneratorInformationData " ++
      js "DocumentGenerators DocumentNotebook DocumentWeightingRules Dodecahedron DomainRegistrationInformation " ++
      js "DominantColors DOSTextFormat Dot DotDashed DotEqual DotLayer DotPlusLayer Dotted DoubleBracketingBar " ++
      js "DoubleContourIntegral DoubleDownArrow DoubleLeftArrow DoubleLeftRightArrow DoubleLeftTee DoubleLongLeftArrow " ++
      js "DoubleLongLeftRightArrow DoubleLongRightArrow DoubleRightArrow DoubleRightTee DoubleUpArrow DoubleUpDownArrow " ++
      js "DoubleVerticalBar DoublyInfinite Down DownArrow DownArrowBar DownArrowUpArrow DownLeftRightVector DownLeftTeeVector " ++
      js "DownLeftVector DownLeftVectorBar DownRightTeeVector DownRightVector DownRightVectorBar Downsample DownTee " ++
      js "DownTeeArrow DownValues DragAndDrop DrawEdges DrawFrontFaces DrawHighlighted Drop DropoutLayer DSolve " ++
      js "DSolveValue Dt DualLinearProgramming DualPolyhedron DualSystemsModel DumpGet DumpSave DuplicateFreeQ " ++
      js "Duration Dynamic DynamicBox DynamicBoxOptions DynamicEvaluationTimeout DynamicGeoGraphics DynamicImage " ++
      js "DynamicLocation DynamicModule DynamicModuleBox DynamicModuleBoxOptions DynamicModuleParent DynamicModuleValues " ++
      js "DynamicName DynamicNamespace DynamicReference DynamicSetting DynamicUpdating DynamicWrapper DynamicWrapperBox " ++
      js "DynamicWrapperBoxOptions" ++
      js "E EarthImpactData EarthquakeData EccentricityCentrality Echo EchoFunction EclipseType EdgeAdd EdgeBetweennessCentrality " ++
      js "EdgeCapacity EdgeCapForm EdgeColor EdgeConnectivity EdgeContract EdgeCost EdgeCount EdgeCoverQ EdgeCycleMatrix " ++
      js "EdgeDashing EdgeDelete EdgeDetect EdgeForm EdgeIndex EdgeJoinForm EdgeLabeling EdgeLabels EdgeLabelStyle " ++
      js "EdgeList EdgeOpacity EdgeQ EdgeRenderingFunction EdgeRules EdgeShapeFunction EdgeStyle EdgeThickness " ++
      js "EdgeWeight EdgeWeightedGraphQ Editable EditButtonSettings EditCellTagsSettings EditDistance EffectiveInterest " ++
      js "Eigensystem Eigenvalues EigenvectorCentrality Eigenvectors Element ElementData ElementwiseLayer ElidedForms " ++
      js "Eliminate EliminationOrder Ellipsoid EllipticE EllipticExp EllipticExpPrime EllipticF EllipticFilterModel " ++
      js "EllipticK EllipticLog EllipticNomeQ EllipticPi EllipticReducedHalfPeriods EllipticTheta EllipticThetaPrime " ++
      js "EmbedCode EmbeddedHTML EmbeddedService EmbeddingLayer EmbeddingObject EmitSound EmphasizeSyntaxErrors " ++
      js "EmpiricalDistribution Empty EmptyGraphQ EmptyRegion EnableConsolePrintPacket Enabled Encode Encrypt " ++
      js "EncryptedObject EncryptFile End EndAdd EndDialogPacket EndFrontEndInteractionPacket EndOfBuffer EndOfFile " ++
      js "EndOfLine EndOfString EndPackage EngineEnvironment EngineeringForm Enter EnterExpressionPacket EnterTextPacket " ++
      js "Entity EntityClass EntityClassList EntityCopies EntityFunction EntityGroup EntityInstance EntityList " ++
      js "EntityPrefetch EntityProperties EntityProperty EntityPropertyClass EntityRegister EntityStore EntityStores " ++
      js "EntityTypeName EntityUnregister EntityValue Entropy EntropyFilter Environment Epilog EpilogFunction " ++
      js "Equal EqualColumns EqualRows EqualTilde EqualTo EquatedTo Equilibrium EquirippleFilterKernel Equivalent " ++
      js "Erf Erfc Erfi ErlangB ErlangC ErlangDistribution Erosion ErrorBox ErrorBoxOptions ErrorNorm ErrorPacket " ++
      js "ErrorsDialogSettings EscapeRadius EstimatedBackground EstimatedDistribution EstimatedProcess EstimatorGains " ++
      js "EstimatorRegulator EuclideanDistance EulerAngles EulerCharacteristic EulerE EulerGamma EulerianGraphQ " ++
      js "EulerMatrix EulerPhi Evaluatable Evaluate Evaluated EvaluatePacket EvaluateScheduledTask EvaluationBox " ++
      js "EvaluationCell EvaluationCompletionAction EvaluationData EvaluationElements EvaluationEnvironment EvaluationMode " ++
      js "EvaluationMonitor EvaluationNotebook EvaluationObject EvaluationOrder Evaluator EvaluatorNames EvenQ " ++
      js "EventData EventEvaluator EventHandler EventHandlerTag EventLabels EventSeries ExactBlackmanWindow ExactNumberQ " ++
      js "ExactRootIsolation ExampleData Except ExcludedForms ExcludedLines ExcludedPhysicalQuantities ExcludePods " ++
      js "Exclusions ExclusionsStyle Exists Exit ExitDialog ExoplanetData Exp Expand ExpandAll ExpandDenominator " ++
      js "ExpandFileName ExpandNumerator Expectation ExpectationE ExpectedValue ExpGammaDistribution ExpIntegralE " ++
      js "ExpIntegralEi ExpirationDate Exponent ExponentFunction ExponentialDistribution ExponentialFamily ExponentialGeneratingFunction " ++
      js "ExponentialMovingAverage ExponentialPowerDistribution ExponentPosition ExponentStep Export ExportAutoReplacements " ++
      js "ExportByteArray ExportForm ExportPacket ExportString Expression ExpressionCell ExpressionPacket ExpressionUUID " ++
      js "ExpToTrig ExtendedEntityClass ExtendedGCD Extension ExtentElementFunction ExtentMarkers ExtentSize ExternalBundle " ++
      js "ExternalCall ExternalDataCharacterEncoding ExternalEvaluate ExternalFunction ExternalFunctionName ExternalObject " ++
      js "ExternalOptions ExternalSessionObject ExternalSessions ExternalTypeSignature ExternalValue Extract ExtractArchive " ++
      js "ExtractLayer ExtremeValueDistribution" ++
      js "FaceForm FaceGrids FaceGridsStyle FacialFeatures Factor FactorComplete Factorial Factorial2 FactorialMoment " ++
      js "FactorialMomentGeneratingFunction FactorialPower FactorInteger FactorList FactorSquareFree FactorSquareFreeList " ++
      js "FactorTerms FactorTermsList Fail Failure FailureAction FailureDistribution FailureQ False FareySequence " ++
      js "FARIMAProcess FeatureDistance FeatureExtract FeatureExtraction FeatureExtractor FeatureExtractorFunction " ++
      js "FeatureNames FeatureNearest FeatureSpacePlot FeatureSpacePlot3D FeatureTypes FEDisableConsolePrintPacket " ++
      js "FeedbackLinearize FeedbackSector FeedbackSectorStyle FeedbackType FEEnableConsolePrintPacket FetalGrowthData " ++
      js "Fibonacci Fibonorial FieldCompletionFunction FieldHint FieldHintStyle FieldMasked FieldSize File FileBaseName " ++
      js "FileByteCount FileConvert FileDate FileExistsQ FileExtension FileFormat FileHandler FileHash FileInformation " ++
      js "FileName FileNameDepth FileNameDialogSettings FileNameDrop FileNameForms FileNameJoin FileNames FileNameSetter " ++
      js "FileNameSplit FileNameTake FilePrint FileSize FileSystemMap FileSystemScan FileTemplate FileTemplateApply " ++
      js "FileType FilledCurve FilledCurveBox FilledCurveBoxOptions Filling FillingStyle FillingTransform FilteredEntityClass " ++
      js "FilterRules FinancialBond FinancialData FinancialDerivative FinancialIndicator Find FindAnomalies FindArgMax " ++
      js "FindArgMin FindChannels FindClique FindClusters FindCookies FindCurvePath FindCycle FindDevices FindDistribution " ++
      js "FindDistributionParameters FindDivisions FindEdgeCover FindEdgeCut FindEdgeIndependentPaths FindEquationalProof " ++
      js "FindEulerianCycle FindExternalEvaluators FindFaces FindFile FindFit FindFormula FindFundamentalCycles " ++
      js "FindGeneratingFunction FindGeoLocation FindGeometricConjectures FindGeometricTransform FindGraphCommunities " ++
      js "FindGraphIsomorphism FindGraphPartition FindHamiltonianCycle FindHamiltonianPath FindHiddenMarkovStates " ++
      js "FindIndependentEdgeSet FindIndependentVertexSet FindInstance FindIntegerNullVector FindKClan FindKClique " ++
      js "FindKClub FindKPlex FindLibrary FindLinearRecurrence FindList FindMatchingColor FindMaximum FindMaximumFlow " ++
      js "FindMaxValue FindMeshDefects FindMinimum FindMinimumCostFlow FindMinimumCut FindMinValue FindMoleculeSubstructure " ++
      js "FindPath FindPeaks FindPermutation FindPostmanTour FindProcessParameters FindRepeat FindRoot FindSequenceFunction " ++
      js "FindSettings FindShortestPath FindShortestTour FindSpanningTree FindSystemModelEquilibrium FindTextualAnswer " ++
      js "FindThreshold FindTransientRepeat FindVertexCover FindVertexCut FindVertexIndependentPaths Fine FinishDynamic " ++
      js "FiniteAbelianGroupCount FiniteGroupCount FiniteGroupData First FirstCase FirstPassageTimeDistribution " ++
      js "FirstPosition FischerGroupFi22 FischerGroupFi23 FischerGroupFi24Prime FisherHypergeometricDistribution " ++
      js "FisherRatioTest FisherZDistribution Fit FitAll FitRegularization FittedModel FixedOrder FixedPoint FixedPointList " ++
      js "FlashSelection Flat Flatten FlattenAt FlattenLayer FlatTopWindow FlipView Floor FlowPolynomial FlushPrintOutputPacket " ++
      js "Fold FoldList FoldPair FoldPairList FollowRedirects Font FontColor FontFamily FontForm FontName FontOpacity " ++
      js "FontPostScriptName FontProperties FontReencoding FontSize FontSlant FontSubstitutions FontTracking FontVariations " ++
      js "FontWeight For ForAll Format FormatRules FormatType FormatTypeAutoConvert FormatValues FormBox FormBoxOptions " ++
      js "FormControl FormFunction FormLayoutFunction FormObject FormPage FormTheme FormulaData FormulaLookup " ++
      js "FortranForm Forward ForwardBackward Fourier FourierCoefficient FourierCosCoefficient FourierCosSeries " ++
      js "FourierCosTransform FourierDCT FourierDCTFilter FourierDCTMatrix FourierDST FourierDSTMatrix FourierMatrix " ++
      js "FourierParameters FourierSequenceTransform FourierSeries FourierSinCoefficient FourierSinSeries FourierSinTransform " ++
      js "FourierTransform FourierTrigSeries FractionalBrownianMotionProcess FractionalGaussianNoiseProcess FractionalPart " ++
      js "FractionBox FractionBoxOptions FractionLine Frame FrameBox FrameBoxOptions Framed FrameInset FrameLabel " ++
      js "Frameless FrameMargins FrameRate FrameStyle FrameTicks FrameTicksStyle FRatioDistribution FrechetDistribution " ++
      js "FreeQ FrenetSerretSystem FrequencySamplingFilterKernel FresnelC FresnelF FresnelG FresnelS Friday FrobeniusNumber " ++
      js "FrobeniusSolve FromAbsoluteTime FromCharacterCode FromCoefficientRules FromContinuedFraction FromDate " ++
      js "FromDigits FromDMS FromEntity FromJulianDate FromLetterNumber FromPolarCoordinates FromRomanNumeral " ++
      js "FromSphericalCoordinates FromUnixTime Front FrontEndDynamicExpression FrontEndEventActions FrontEndExecute " ++
      js "FrontEndObject FrontEndResource FrontEndResourceString FrontEndStackSize FrontEndToken FrontEndTokenExecute " ++
      js "FrontEndValueCache FrontEndVersion FrontFaceColor FrontFaceOpacity Full FullAxes FullDefinition FullForm " ++
      js "FullGraphics FullInformationOutputRegulator FullOptions FullRegion FullSimplify Function FunctionCompile " ++
      js "FunctionCompileExport FunctionCompileExportByteArray FunctionCompileExportLibrary FunctionCompileExportString " ++
      js "FunctionDomain FunctionExpand FunctionInterpolation FunctionPeriod FunctionRange FunctionSpace FussellVeselyImportance" ++
      js "GaborFilter GaborMatrix GaborWavelet GainMargins GainPhaseMargins GalaxyData GalleryView Gamma GammaDistribution " ++
      js "GammaRegularized GapPenalty GARCHProcess GatedRecurrentLayer Gather GatherBy GaugeFaceElementFunction " ++
      js "GaugeFaceStyle GaugeFrameElementFunction GaugeFrameSize GaugeFrameStyle GaugeLabels GaugeMarkers GaugeStyle " ++
      js "GaussianFilter GaussianIntegers GaussianMatrix GaussianOrthogonalMatrixDistribution GaussianSymplecticMatrixDistribution " ++
      js "GaussianUnitaryMatrixDistribution GaussianWindow GCD GegenbauerC General GeneralizedLinearModelFit GenerateAsymmetricKeyPair " ++
      js "GenerateConditions GeneratedCell GeneratedDocumentBinding GenerateDerivedKey GenerateDigitalSignature " ++
      js "GenerateDocument GeneratedParameters GeneratedQuantityMagnitudes GenerateHTTPResponse GenerateSecuredAuthenticationKey " ++
      js "GenerateSymmetricKey GeneratingFunction GeneratorDescription GeneratorHistoryLength GeneratorOutputType " ++
      js "Generic GenericCylindricalDecomposition GenomeData GenomeLookup GeoAntipode GeoArea GeoArraySize GeoBackground " ++
      js "GeoBoundingBox GeoBounds GeoBoundsRegion GeoBubbleChart GeoCenter GeoCircle GeodesicClosing GeodesicDilation " ++
      js "GeodesicErosion GeodesicOpening GeoDestination GeodesyData GeoDirection GeoDisk GeoDisplacement GeoDistance " ++
      js "GeoDistanceList GeoElevationData GeoEntities GeoGraphics GeogravityModelData GeoGridDirectionDifference " ++
      js "GeoGridLines GeoGridLinesStyle GeoGridPosition GeoGridRange GeoGridRangePadding GeoGridUnitArea GeoGridUnitDistance " ++
      js "GeoGridVector GeoGroup GeoHemisphere GeoHemisphereBoundary GeoHistogram GeoIdentify GeoImage GeoLabels " ++
      js "GeoLength GeoListPlot GeoLocation GeologicalPeriodData GeomagneticModelData GeoMarker GeometricAssertion " ++
      js "GeometricBrownianMotionProcess GeometricDistribution GeometricMean GeometricMeanFilter GeometricScene " ++
      js "GeometricTransformation GeometricTransformation3DBox GeometricTransformation3DBoxOptions GeometricTransformationBox " ++
      js "GeometricTransformationBoxOptions GeoModel GeoNearest GeoPath GeoPosition GeoPositionENU GeoPositionXYZ " ++
      js "GeoProjection GeoProjectionData GeoRange GeoRangePadding GeoRegionValuePlot GeoResolution GeoScaleBar " ++
      js "GeoServer GeoSmoothHistogram GeoStreamPlot GeoStyling GeoStylingImageFunction GeoVariant GeoVector GeoVectorENU " ++
      js "GeoVectorPlot GeoVectorXYZ GeoVisibleRegion GeoVisibleRegionBoundary GeoWithinQ GeoZoomLevel GestureHandler " ++
      js "GestureHandlerTag Get GetBoundingBoxSizePacket GetContext GetEnvironment GetFileName GetFrontEndOptionsDataPacket " ++
      js "GetLinebreakInformationPacket GetMenusPacket GetPageBreakInformationPacket Glaisher GlobalClusteringCoefficient " ++
      js "GlobalPreferences GlobalSession Glow GoldenAngle GoldenRatio GompertzMakehamDistribution GoodmanKruskalGamma " ++
      js "GoodmanKruskalGammaTest Goto Grad Gradient GradientFilter GradientOrientationFilter GrammarApply GrammarRules " ++
      js "GrammarToken Graph Graph3D GraphAssortativity GraphAutomorphismGroup GraphCenter GraphComplement GraphData " ++
      js "GraphDensity GraphDiameter GraphDifference GraphDisjointUnion GraphDistance GraphDistanceMatrix GraphElementData " ++
      js "GraphEmbedding GraphHighlight GraphHighlightStyle GraphHub Graphics Graphics3D Graphics3DBox Graphics3DBoxOptions " ++
      js "GraphicsArray GraphicsBaseline GraphicsBox GraphicsBoxOptions GraphicsColor GraphicsColumn GraphicsComplex " ++
      js "GraphicsComplex3DBox GraphicsComplex3DBoxOptions GraphicsComplexBox GraphicsComplexBoxOptions GraphicsContents " ++
      js "GraphicsData GraphicsGrid GraphicsGridBox GraphicsGroup GraphicsGroup3DBox GraphicsGroup3DBoxOptions " ++
      js "GraphicsGroupBox GraphicsGroupBoxOptions GraphicsGrouping GraphicsHighlightColor GraphicsRow GraphicsSpacing " ++
      js "GraphicsStyle GraphIntersection GraphLayout GraphLinkEfficiency GraphPeriphery GraphPlot GraphPlot3D " ++
      js "GraphPower GraphPropertyDistribution GraphQ GraphRadius GraphReciprocity GraphRoot GraphStyle GraphUnion " ++
      js "Gray GrayLevel Greater GreaterEqual GreaterEqualLess GreaterEqualThan GreaterFullEqual GreaterGreater " ++
      js "GreaterLess GreaterSlantEqual GreaterThan GreaterTilde Green GreenFunction Grid GridBaseline GridBox " ++
      js "GridBoxAlignment GridBoxBackground GridBoxDividers GridBoxFrame GridBoxItemSize GridBoxItemStyle GridBoxOptions " ++
      js "GridBoxSpacings GridCreationSettings GridDefaultElement GridElementStyleOptions GridFrame GridFrameMargins " ++
      js "GridGraph GridLines GridLinesStyle GroebnerBasis GroupActionBase GroupBy GroupCentralizer GroupElementFromWord " ++
      js "GroupElementPosition GroupElementQ GroupElements GroupElementToWord GroupGenerators Groupings GroupMultiplicationTable " ++
      js "GroupOrbits GroupOrder GroupPageBreakWithin GroupSetwiseStabilizer GroupStabilizer GroupStabilizerChain " ++
      js "GroupTogetherGrouping GroupTogetherNestedGrouping GrowCutComponents Gudermannian GuidedFilter GumbelDistribution" ++
      js "HaarWavelet HadamardMatrix HalfLine HalfNormalDistribution HalfPlane HalfSpace HamiltonianGraphQ HammingDistance " ++
      js "HammingWindow HandlerFunctions HandlerFunctionsKeys HankelH1 HankelH2 HankelMatrix HankelTransform HannPoissonWindow " ++
      js "HannWindow HaradaNortonGroupHN HararyGraph HarmonicMean HarmonicMeanFilter HarmonicNumber Hash Haversine " ++
      js "HazardFunction Head HeadCompose HeaderLines Heads HeavisideLambda HeavisidePi HeavisideTheta HeldGroupHe " ++
      js "HeldPart HelpBrowserLookup HelpBrowserNotebook HelpBrowserSettings Here HermiteDecomposition HermiteH " ++
      js "HermitianMatrixQ HessenbergDecomposition Hessian HexadecimalCharacter Hexahedron HexahedronBox HexahedronBoxOptions " ++
      js "HiddenMarkovProcess HiddenSurface Highlighted HighlightGraph HighlightImage HighlightMesh HighpassFilter " ++
      js "HigmanSimsGroupHS HilbertCurve HilbertFilter HilbertMatrix Histogram Histogram3D HistogramDistribution " ++
      js "HistogramList HistogramTransform HistogramTransformInterpolation HistoricalPeriodData HitMissTransform " ++
      js "HITSCentrality HjorthDistribution HodgeDual HoeffdingD HoeffdingDTest Hold HoldAll HoldAllComplete HoldComplete " ++
      js "HoldFirst HoldForm HoldPattern HoldRest HolidayCalendar HomeDirectory HomePage Horizontal HorizontalForm " ++
      js "HorizontalGauge HorizontalScrollPosition HornerForm HostLookup HotellingTSquareDistribution HoytDistribution " ++
      js "HTMLSave HTTPErrorResponse HTTPRedirect HTTPRequest HTTPRequestData HTTPResponse Hue HumanGrowthData " ++
      js "HumpDownHump HumpEqual HurwitzLerchPhi HurwitzZeta HyperbolicDistribution HypercubeGraph HyperexponentialDistribution " ++
      js "Hyperfactorial Hypergeometric0F1 Hypergeometric0F1Regularized Hypergeometric1F1 Hypergeometric1F1Regularized " ++
      js "Hypergeometric2F1 Hypergeometric2F1Regularized HypergeometricDistribution HypergeometricPFQ HypergeometricPFQRegularized " ++
      js "HypergeometricU Hyperlink HyperlinkCreationSettings Hyperplane Hyphenation HyphenationOptions HypoexponentialDistribution " ++
      js "HypothesisTestData" ++
      js "I IconData Iconize IconizedObject IconRules Icosahedron Identity IdentityMatrix If IgnoreCase IgnoreDiacritics " ++
      js "IgnorePunctuation IgnoreSpellCheck IgnoringInactive Im Image Image3D Image3DProjection Image3DSlices " ++
      js "ImageAccumulate ImageAdd ImageAdjust ImageAlign ImageApply ImageApplyIndexed ImageAspectRatio ImageAssemble " ++
      js "ImageAugmentationLayer ImageBoundingBoxes ImageCache ImageCacheValid ImageCapture ImageCaptureFunction " ++
      js "ImageCases ImageChannels ImageClip ImageCollage ImageColorSpace ImageCompose ImageContainsQ ImageContents " ++
      js "ImageConvolve ImageCooccurrence ImageCorners ImageCorrelate ImageCorrespondingPoints ImageCrop ImageData " ++
      js "ImageDeconvolve ImageDemosaic ImageDifference ImageDimensions ImageDisplacements ImageDistance ImageEffect " ++
      js "ImageExposureCombine ImageFeatureTrack ImageFileApply ImageFileFilter ImageFileScan ImageFilter ImageFocusCombine " ++
      js "ImageForestingComponents ImageFormattingWidth ImageForwardTransformation ImageGraphics ImageHistogram " ++
      js "ImageIdentify ImageInstanceQ ImageKeypoints ImageLevels ImageLines ImageMargins ImageMarker ImageMarkers " ++
      js "ImageMeasurements ImageMesh ImageMultiply ImageOffset ImagePad ImagePadding ImagePartition ImagePeriodogram " ++
      js "ImagePerspectiveTransformation ImagePosition ImagePreviewFunction ImagePyramid ImagePyramidApply ImageQ " ++
      js "ImageRangeCache ImageRecolor ImageReflect ImageRegion ImageResize ImageResolution ImageRestyle ImageRotate " ++
      js "ImageRotated ImageSaliencyFilter ImageScaled ImageScan ImageSize ImageSizeAction ImageSizeCache ImageSizeMultipliers " ++
      js "ImageSizeRaw ImageSubtract ImageTake ImageTransformation ImageTrim ImageType ImageValue ImageValuePositions " ++
      js "ImagingDevice ImplicitRegion Implies Import ImportAutoReplacements ImportByteArray ImportOptions ImportString " ++
      js "ImprovementImportance In Inactivate Inactive IncidenceGraph IncidenceList IncidenceMatrix IncludeAromaticBonds " ++
      js "IncludeConstantBasis IncludeDefinitions IncludeDirectories IncludeFileExtension IncludeGeneratorTasks " ++
      js "IncludeHydrogens IncludeInflections IncludeMetaInformation IncludePods IncludeQuantities IncludeRelatedTables " ++
      js "IncludeSingularTerm IncludeWindowTimes Increment IndefiniteMatrixQ Indent IndentingNewlineSpacings IndentMaxFraction " ++
      js "IndependenceTest IndependentEdgeSetQ IndependentPhysicalQuantity IndependentUnit IndependentUnitDimension " ++
      js "IndependentVertexSetQ Indeterminate IndeterminateThreshold IndexCreationOptions Indexed IndexGraph IndexTag " ++
      js "Inequality InexactNumberQ InexactNumbers InfiniteLine InfinitePlane Infinity Infix InflationAdjust InflationMethod " ++
      js "Information InformationData InformationDataGrid Inherited InheritScope InhomogeneousPoissonProcess InitialEvaluationHistory " ++
      js "Initialization InitializationCell InitializationCellEvaluation InitializationCellWarning InitializationObjects " ++
      js "InitializationValue Initialize InitialSeeding InlineCounterAssignments InlineCounterIncrements InlineRules " ++
      js "Inner InnerPolygon InnerPolyhedron Inpaint Input InputAliases InputAssumptions InputAutoReplacements " ++
      js "InputField InputFieldBox InputFieldBoxOptions InputForm InputGrouping InputNamePacket InputNotebook " ++
      js "InputPacket InputSettings InputStream InputString InputStringPacket InputToBoxFormPacket Insert InsertionFunction " ++
      js "InsertionPointObject InsertLinebreaks InsertResults Inset Inset3DBox Inset3DBoxOptions InsetBox InsetBoxOptions " ++
      js "Insphere Install InstallService InstanceNormalizationLayer InString Integer IntegerDigits IntegerExponent " ++
      js "IntegerLength IntegerName IntegerPart IntegerPartitions IntegerQ IntegerReverse Integers IntegerString " ++
      js "Integral Integrate Interactive InteractiveTradingChart Interlaced Interleaving InternallyBalancedDecomposition " ++
      js "InterpolatingFunction InterpolatingPolynomial Interpolation InterpolationOrder InterpolationPoints InterpolationPrecision " ++
      js "Interpretation InterpretationBox InterpretationBoxOptions InterpretationFunction Interpreter InterpretTemplate " ++
      js "InterquartileRange Interrupt InterruptSettings IntersectingQ Intersection Interval IntervalIntersection " ++
      js "IntervalMarkers IntervalMarkersStyle IntervalMemberQ IntervalSlider IntervalUnion Into Inverse InverseBetaRegularized " ++
      js "InverseCDF InverseChiSquareDistribution InverseContinuousWaveletTransform InverseDistanceTransform InverseEllipticNomeQ " ++
      js "InverseErf InverseErfc InverseFourier InverseFourierCosTransform InverseFourierSequenceTransform InverseFourierSinTransform " ++
      js "InverseFourierTransform InverseFunction InverseFunctions InverseGammaDistribution InverseGammaRegularized " ++
      js "InverseGaussianDistribution InverseGudermannian InverseHankelTransform InverseHaversine InverseImagePyramid " ++
      js "InverseJacobiCD InverseJacobiCN InverseJacobiCS InverseJacobiDC InverseJacobiDN InverseJacobiDS InverseJacobiNC " ++
      js "InverseJacobiND InverseJacobiNS InverseJacobiSC InverseJacobiSD InverseJacobiSN InverseLaplaceTransform " ++
      js "InverseMellinTransform InversePermutation InverseRadon InverseRadonTransform InverseSeries InverseShortTimeFourier " ++
      js "InverseSpectrogram InverseSurvivalFunction InverseTransformedRegion InverseWaveletTransform InverseWeierstrassP " ++
      js "InverseWishartMatrixDistribution InverseZTransform Invisible InvisibleApplication InvisibleTimes IPAddress " ++
      js "IrreduciblePolynomialQ IslandData IsolatingInterval IsomorphicGraphQ IsotopeData Italic Item ItemAspectRatio " ++
      js "ItemBox ItemBoxOptions ItemSize ItemStyle ItoProcess" ++
      js "JaccardDissimilarity JacobiAmplitude Jacobian JacobiCD JacobiCN JacobiCS JacobiDC JacobiDN JacobiDS " ++
      js "JacobiNC JacobiND JacobiNS JacobiP JacobiSC JacobiSD JacobiSN JacobiSymbol JacobiZeta JankoGroupJ1 JankoGroupJ2 " ++
      js "JankoGroupJ3 JankoGroupJ4 JarqueBeraALMTest JohnsonDistribution Join JoinAcross Joined JoinedCurve JoinedCurveBox " ++
      js "JoinedCurveBoxOptions JoinForm JordanDecomposition JordanModelDecomposition JulianDate JuliaSetBoettcher " ++
      js "JuliaSetIterationCount JuliaSetPlot JuliaSetPoints" ++
      js "K KagiChart KaiserBesselWindow KaiserWindow KalmanEstimator KalmanFilter KarhunenLoeveDecomposition " ++
      js "KaryTree KatzCentrality KCoreComponents KDistribution KEdgeConnectedComponents KEdgeConnectedGraphQ " ++
      js "KelvinBei KelvinBer KelvinKei KelvinKer KendallTau KendallTauTest KernelExecute KernelFunction KernelMixtureDistribution " ++
      js "Kernels Ket Key KeyCollisionFunction KeyComplement KeyDrop KeyDropFrom KeyExistsQ KeyFreeQ KeyIntersection " ++
      js "KeyMap KeyMemberQ KeypointStrength Keys KeySelect KeySort KeySortBy KeyTake KeyUnion KeyValueMap KeyValuePattern " ++
      js "Khinchin KillProcess KirchhoffGraph KirchhoffMatrix KleinInvariantJ KnapsackSolve KnightTourGraph KnotData " ++
      js "KnownUnitQ KochCurve KolmogorovSmirnovTest KroneckerDelta KroneckerModelDecomposition KroneckerProduct " ++
      js "KroneckerSymbol KuiperTest KumaraswamyDistribution Kurtosis KuwaharaFilter KVertexConnectedComponents " ++
      js "KVertexConnectedGraphQ" ++
      js "LABColor Label Labeled LabeledSlider LabelingFunction LabelingSize LabelStyle LabelVisibility LaguerreL " ++
      js "LakeData LambdaComponents LambertW LaminaData LanczosWindow LandauDistribution Language LanguageCategory " ++
      js "LanguageData LanguageIdentify LanguageOptions LaplaceDistribution LaplaceTransform Laplacian LaplacianFilter " ++
      js "LaplacianGaussianFilter Large Larger Last Latitude LatitudeLongitude LatticeData LatticeReduce Launch " ++
      js "LaunchKernels LayeredGraphPlot LayerSizeFunction LayoutInformation LCHColor LCM LeaderSize LeafCount " ++
      js "LeapYearQ LearnDistribution LearnedDistribution LearningRate LearningRateMultipliers LeastSquares LeastSquaresFilterKernel " ++
      js "Left LeftArrow LeftArrowBar LeftArrowRightArrow LeftDownTeeVector LeftDownVector LeftDownVectorBar LeftRightArrow " ++
      js "LeftRightVector LeftTee LeftTeeArrow LeftTeeVector LeftTriangle LeftTriangleBar LeftTriangleEqual LeftUpDownVector " ++
      js "LeftUpTeeVector LeftUpVector LeftUpVectorBar LeftVector LeftVectorBar LegendAppearance Legended LegendFunction " ++
      js "LegendLabel LegendLayout LegendMargins LegendMarkers LegendMarkerSize LegendreP LegendreQ LegendreType " ++
      js "Length LengthWhile LerchPhi Less LessEqual LessEqualGreater LessEqualThan LessFullEqual LessGreater " ++
      js "LessLess LessSlantEqual LessThan LessTilde LetterCharacter LetterCounts LetterNumber LetterQ Level LeveneTest " ++
      js "LeviCivitaTensor LevyDistribution Lexicographic LibraryDataType LibraryFunction LibraryFunctionError " ++
      js "LibraryFunctionInformation LibraryFunctionLoad LibraryFunctionUnload LibraryLoad LibraryUnload LicenseID " ++
      js "LiftingFilterData LiftingWaveletTransform LightBlue LightBrown LightCyan Lighter LightGray LightGreen " ++
      js "Lighting LightingAngle LightMagenta LightOrange LightPink LightPurple LightRed LightSources LightYellow " ++
      js "Likelihood Limit LimitsPositioning LimitsPositioningTokens LindleyDistribution Line Line3DBox Line3DBoxOptions " ++
      js "LinearFilter LinearFractionalOptimization LinearFractionalTransform LinearGradientImage LinearizingTransformationData " ++
      js "LinearLayer LinearModelFit LinearOffsetFunction LinearOptimization LinearProgramming LinearRecurrence " ++
      js "LinearSolve LinearSolveFunction LineBox LineBoxOptions LineBreak LinebreakAdjustments LineBreakChart " ++
      js "LinebreakSemicolonWeighting LineBreakWithin LineColor LineGraph LineIndent LineIndentMaxFraction LineIntegralConvolutionPlot " ++
      js "LineIntegralConvolutionScale LineLegend LineOpacity LineSpacing LineWrapParts LinkActivate LinkClose " ++
      js "LinkConnect LinkConnectedQ LinkCreate LinkError LinkFlush LinkFunction LinkHost LinkInterrupt LinkLaunch " ++
      js "LinkMode LinkObject LinkOpen LinkOptions LinkPatterns LinkProtocol LinkRankCentrality LinkRead LinkReadHeld " ++
      js "LinkReadyQ Links LinkService LinkWrite LinkWriteHeld LiouvilleLambda List Listable ListAnimate ListContourPlot " ++
      js "ListContourPlot3D ListConvolve ListCorrelate ListCurvePathPlot ListDeconvolve ListDensityPlot ListDensityPlot3D " ++
      js "Listen ListFormat ListFourierSequenceTransform ListInterpolation ListLineIntegralConvolutionPlot ListLinePlot " ++
      js "ListLogLinearPlot ListLogLogPlot ListLogPlot ListPicker ListPickerBox ListPickerBoxBackground ListPickerBoxOptions " ++
      js "ListPlay ListPlot ListPlot3D ListPointPlot3D ListPolarPlot ListQ ListSliceContourPlot3D ListSliceDensityPlot3D " ++
      js "ListSliceVectorPlot3D ListStepPlot ListStreamDensityPlot ListStreamPlot ListSurfacePlot3D ListVectorDensityPlot " ++
      js "ListVectorPlot ListVectorPlot3D ListZTransform Literal LiteralSearch LocalAdaptiveBinarize LocalCache " ++
      js "LocalClusteringCoefficient LocalizeDefinitions LocalizeVariables LocalObject LocalObjects LocalResponseNormalizationLayer " ++
      js "LocalSubmit LocalSymbol LocalTime LocalTimeZone LocationEquivalenceTest LocationTest Locator LocatorAutoCreate " ++
      js "LocatorBox LocatorBoxOptions LocatorCentering LocatorPane LocatorPaneBox LocatorPaneBoxOptions LocatorRegion " ++
      js "Locked Log Log10 Log2 LogBarnesG LogGamma LogGammaDistribution LogicalExpand LogIntegral LogisticDistribution " ++
      js "LogisticSigmoid LogitModelFit LogLikelihood LogLinearPlot LogLogisticDistribution LogLogPlot LogMultinormalDistribution " ++
      js "LogNormalDistribution LogPlot LogRankTest LogSeriesDistribution LongEqual Longest LongestCommonSequence " ++
      js "LongestCommonSequencePositions LongestCommonSubsequence LongestCommonSubsequencePositions LongestMatch " ++
      js "LongestOrderedSequence LongForm Longitude LongLeftArrow LongLeftRightArrow LongRightArrow LongShortTermMemoryLayer " ++
      js "Lookup Loopback LoopFreeGraphQ LossFunction LowerCaseQ LowerLeftArrow LowerRightArrow LowerTriangularize " ++
      js "LowerTriangularMatrixQ LowpassFilter LQEstimatorGains LQGRegulator LQOutputRegulatorGains LQRegulatorGains " ++
      js "LUBackSubstitution LucasL LuccioSamiComponents LUDecomposition LunarEclipse LUVColor LyapunovSolve LyonsGroupLy" ++
      js "MachineID MachineName MachineNumberQ MachinePrecision MacintoshSystemPageSetup Magenta Magnification " ++
      js "Magnify MailAddressValidation MailExecute MailFolder MailItem MailReceiverFunction MailResponseFunction " ++
      js "MailSearch MailServerConnect MailServerConnection MailSettings MainSolve MaintainDynamicCaches Majority " ++
      js "MakeBoxes MakeExpression MakeRules ManagedLibraryExpressionID ManagedLibraryExpressionQ MandelbrotSetBoettcher " ++
      js "MandelbrotSetDistance MandelbrotSetIterationCount MandelbrotSetMemberQ MandelbrotSetPlot MangoldtLambda " ++
      js "ManhattanDistance Manipulate Manipulator MannedSpaceMissionData MannWhitneyTest MantissaExponent Manual " ++
      js "Map MapAll MapAt MapIndexed MAProcess MapThread MarchenkoPasturDistribution MarcumQ MardiaCombinedTest " ++
      js "MardiaKurtosisTest MardiaSkewnessTest MarginalDistribution MarkovProcessProperties Masking MatchingDissimilarity " ++
      js "MatchLocalNameQ MatchLocalNames MatchQ Material MathematicalFunctionData MathematicaNotation MathieuC " ++
      js "MathieuCharacteristicA MathieuCharacteristicB MathieuCharacteristicExponent MathieuCPrime MathieuGroupM11 " ++
      js "MathieuGroupM12 MathieuGroupM22 MathieuGroupM23 MathieuGroupM24 MathieuS MathieuSPrime MathMLForm MathMLText " ++
      js "Matrices MatrixExp MatrixForm MatrixFunction MatrixLog MatrixNormalDistribution MatrixPlot MatrixPower " ++
      js "MatrixPropertyDistribution MatrixQ MatrixRank MatrixTDistribution Max MaxBend MaxCellMeasure MaxColorDistance " ++
      js "MaxDetect MaxDuration MaxExtraBandwidths MaxExtraConditions MaxFeatureDisplacement MaxFeatures MaxFilter " ++
      js "MaximalBy Maximize MaxItems MaxIterations MaxLimit MaxMemoryUsed MaxMixtureKernels MaxOverlapFraction " ++
      js "MaxPlotPoints MaxPoints MaxRecursion MaxStableDistribution MaxStepFraction MaxSteps MaxStepSize MaxTrainingRounds " ++
      js "MaxValue MaxwellDistribution MaxWordGap McLaughlinGroupMcL Mean MeanAbsoluteLossLayer MeanAround MeanClusteringCoefficient " ++
      js "MeanDegreeConnectivity MeanDeviation MeanFilter MeanGraphDistance MeanNeighborDegree MeanShift MeanShiftFilter " ++
      js "MeanSquaredLossLayer Median MedianDeviation MedianFilter MedicalTestData Medium MeijerG MeijerGReduce " ++
      js "MeixnerDistribution MellinConvolve MellinTransform MemberQ MemoryAvailable MemoryConstrained MemoryConstraint " ++
      js "MemoryInUse MengerMesh Menu MenuAppearance MenuCommandKey MenuEvaluator MenuItem MenuList MenuPacket " ++
      js "MenuSortingValue MenuStyle MenuView Merge MergeDifferences MergingFunction MersennePrimeExponent MersennePrimeExponentQ " ++
      js "Mesh MeshCellCentroid MeshCellCount MeshCellHighlight MeshCellIndex MeshCellLabel MeshCellMarker MeshCellMeasure " ++
      js "MeshCellQuality MeshCells MeshCellShapeFunction MeshCellStyle MeshCoordinates MeshFunctions MeshPrimitives " ++
      js "MeshQualityGoal MeshRange MeshRefinementFunction MeshRegion MeshRegionQ MeshShading MeshStyle Message " ++
      js "MessageDialog MessageList MessageName MessageObject MessageOptions MessagePacket Messages MessagesNotebook " ++
      js "MetaCharacters MetaInformation MeteorShowerData Method MethodOptions MexicanHatWavelet MeyerWavelet " ++
      js "Midpoint Min MinColorDistance MinDetect MineralData MinFilter MinimalBy MinimalPolynomial MinimalStateSpaceModel " ++
      js "Minimize MinimumTimeIncrement MinIntervalSize MinkowskiQuestionMark MinLimit MinMax MinorPlanetData " ++
      js "Minors MinRecursion MinSize MinStableDistribution Minus MinusPlus MinValue Missing MissingBehavior MissingDataMethod " ++
      js "MissingDataRules MissingQ MissingString MissingStyle MissingValuePattern MittagLefflerE MixedFractionParts " ++
      js "MixedGraphQ MixedMagnitude MixedRadix MixedRadixQuantity MixedUnit MixtureDistribution Mod Modal Mode " ++
      js "Modular ModularInverse ModularLambda Module Modulus MoebiusMu Molecule MoleculeContainsQ MoleculeEquivalentQ " ++
      js "MoleculeGraph MoleculeModify MoleculePattern MoleculePlot MoleculePlot3D MoleculeProperty MoleculeQ " ++
      js "MoleculeValue Moment Momentary MomentConvert MomentEvaluate MomentGeneratingFunction MomentOfInertia " ++
      js "Monday Monitor MonomialList MonomialOrder MonsterGroupM MoonPhase MoonPosition MorletWavelet MorphologicalBinarize " ++
      js "MorphologicalBranchPoints MorphologicalComponents MorphologicalEulerNumber MorphologicalGraph MorphologicalPerimeter " ++
      js "MorphologicalTransform MortalityData Most MountainData MouseAnnotation MouseAppearance MouseAppearanceTag " ++
      js "MouseButtons Mouseover MousePointerNote MousePosition MovieData MovingAverage MovingMap MovingMedian " ++
      js "MoyalDistribution Multicolumn MultiedgeStyle MultigraphQ MultilaunchWarning MultiLetterItalics MultiLetterStyle " ++
      js "MultilineFunction Multinomial MultinomialDistribution MultinormalDistribution MultiplicativeOrder Multiplicity " ++
      js "MultiplySides Multiselection MultivariateHypergeometricDistribution MultivariatePoissonDistribution " ++
      js "MultivariateTDistribution" ++
      js "N NakagamiDistribution NameQ Names NamespaceBox NamespaceBoxOptions Nand NArgMax NArgMin NBernoulliB " ++
      js "NBodySimulation NBodySimulationData NCache NDEigensystem NDEigenvalues NDSolve NDSolveValue Nearest " ++
      js "NearestFunction NearestNeighborGraph NearestTo NebulaData NeedCurrentFrontEndPackagePacket NeedCurrentFrontEndSymbolsPacket " ++
      js "NeedlemanWunschSimilarity Needs Negative NegativeBinomialDistribution NegativeDefiniteMatrixQ NegativeIntegers " ++
      js "NegativeMultinomialDistribution NegativeRationals NegativeReals NegativeSemidefiniteMatrixQ NeighborhoodData " ++
      js "NeighborhoodGraph Nest NestedGreaterGreater NestedLessLess NestedScriptRules NestGraph NestList NestWhile " ++
      js "NestWhileList NetAppend NetBidirectionalOperator NetChain NetDecoder NetDelete NetDrop NetEncoder NetEvaluationMode " ++
      js "NetExtract NetFlatten NetFoldOperator NetGraph NetInformation NetInitialize NetInsert NetInsertSharedArrays " ++
      js "NetJoin NetMapOperator NetMapThreadOperator NetMeasurements NetModel NetNestOperator NetPairEmbeddingOperator " ++
      js "NetPort NetPortGradient NetPrepend NetRename NetReplace NetReplacePart NetSharedArray NetStateObject " ++
      js "NetTake NetTrain NetTrainResultsObject NetworkPacketCapture NetworkPacketRecording NetworkPacketRecordingDuring " ++
      js "NetworkPacketTrace NeumannValue NevilleThetaC NevilleThetaD NevilleThetaN NevilleThetaS NewPrimitiveStyle " ++
      js "NExpectation Next NextCell NextDate NextPrime NextScheduledTaskTime NHoldAll NHoldFirst NHoldRest NicholsGridLines " ++
      js "NicholsPlot NightHemisphere NIntegrate NMaximize NMaxValue NMinimize NMinValue NominalVariables NonAssociative " ++
      js "NoncentralBetaDistribution NoncentralChiSquareDistribution NoncentralFRatioDistribution NoncentralStudentTDistribution " ++
      js "NonCommutativeMultiply NonConstants NondimensionalizationTransform None NoneTrue NonlinearModelFit NonlinearStateSpaceModel " ++
      js "NonlocalMeansFilter NonNegative NonNegativeIntegers NonNegativeRationals NonNegativeReals NonPositive " ++
      js "NonPositiveIntegers NonPositiveRationals NonPositiveReals Nor NorlundB Norm Normal NormalDistribution " ++
      js "NormalGrouping NormalizationLayer Normalize Normalized NormalizedSquaredEuclideanDistance NormalMatrixQ " ++
      js "NormalsFunction NormFunction Not NotCongruent NotCupCap NotDoubleVerticalBar Notebook NotebookApply " ++
      js "NotebookAutoSave NotebookClose NotebookConvertSettings NotebookCreate NotebookCreateReturnObject NotebookDefault " ++
      js "NotebookDelete NotebookDirectory NotebookDynamicExpression NotebookEvaluate NotebookEventActions NotebookFileName " ++
      js "NotebookFind NotebookFindReturnObject NotebookGet NotebookGetLayoutInformationPacket NotebookGetMisspellingsPacket " ++
      js "NotebookImport NotebookInformation NotebookInterfaceObject NotebookLocate NotebookObject NotebookOpen " ++
      js "NotebookOpenReturnObject NotebookPath NotebookPrint NotebookPut NotebookPutReturnObject NotebookRead " ++
      js "NotebookResetGeneratedCells Notebooks NotebookSave NotebookSaveAs NotebookSelection NotebookSetupLayoutInformationPacket " ++
      js "NotebooksMenu NotebookTemplate NotebookWrite NotElement NotEqualTilde NotExists NotGreater NotGreaterEqual " ++
      js "NotGreaterFullEqual NotGreaterGreater NotGreaterLess NotGreaterSlantEqual NotGreaterTilde Nothing NotHumpDownHump " ++
      js "NotHumpEqual NotificationFunction NotLeftTriangle NotLeftTriangleBar NotLeftTriangleEqual NotLess NotLessEqual " ++
      js "NotLessFullEqual NotLessGreater NotLessLess NotLessSlantEqual NotLessTilde NotNestedGreaterGreater NotNestedLessLess " ++
      js "NotPrecedes NotPrecedesEqual NotPrecedesSlantEqual NotPrecedesTilde NotReverseElement NotRightTriangle " ++
      js "NotRightTriangleBar NotRightTriangleEqual NotSquareSubset NotSquareSubsetEqual NotSquareSuperset NotSquareSupersetEqual " ++
      js "NotSubset NotSubsetEqual NotSucceeds NotSucceedsEqual NotSucceedsSlantEqual NotSucceedsTilde NotSuperset " ++
      js "NotSupersetEqual NotTilde NotTildeEqual NotTildeFullEqual NotTildeTilde NotVerticalBar Now NoWhitespace " ++
      js "NProbability NProduct NProductFactors NRoots NSolve NSum NSumTerms NuclearExplosionData NuclearReactorData " ++
      js "Null NullRecords NullSpace NullWords Number NumberCompose NumberDecompose NumberExpand NumberFieldClassNumber " ++
      js "NumberFieldDiscriminant NumberFieldFundamentalUnits NumberFieldIntegralBasis NumberFieldNormRepresentatives " ++
      js "NumberFieldRegulator NumberFieldRootsOfUnity NumberFieldSignature NumberForm NumberFormat NumberLinePlot " ++
      js "NumberMarks NumberMultiplier NumberPadding NumberPoint NumberQ NumberSeparator NumberSigns NumberString " ++
      js "Numerator NumeratorDenominator NumericalOrder NumericalSort NumericArray NumericArrayQ NumericArrayType " ++
      js "NumericFunction NumericQ NuttallWindow NValues NyquistGridLines NyquistPlot" ++
      js "O ObservabilityGramian ObservabilityMatrix ObservableDecomposition ObservableModelQ OceanData Octahedron " ++
      js "OddQ Off Offset OLEData On ONanGroupON Once OneIdentity Opacity OpacityFunction OpacityFunctionScaling " ++
      js "Open OpenAppend Opener OpenerBox OpenerBoxOptions OpenerView OpenFunctionInspectorPacket Opening OpenRead " ++
      js "OpenSpecialOptions OpenTemporary OpenWrite Operate OperatingSystem OptimumFlowData Optional OptionalElement " ++
      js "OptionInspectorSettings OptionQ Options OptionsPacket OptionsPattern OptionValue OptionValueBox OptionValueBoxOptions " ++
      js "Or Orange Order OrderDistribution OrderedQ Ordering OrderingBy OrderingLayer Orderless OrderlessPatternSequence " ++
      js "OrnsteinUhlenbeckProcess Orthogonalize OrthogonalMatrixQ Out Outer OuterPolygon OuterPolyhedron OutputAutoOverwrite " ++
      js "OutputControllabilityMatrix OutputControllableModelQ OutputForm OutputFormData OutputGrouping OutputMathEditExpression " ++
      js "OutputNamePacket OutputResponse OutputSizeLimit OutputStream Over OverBar OverDot Overflow OverHat Overlaps " ++
      js "Overlay OverlayBox OverlayBoxOptions Overscript OverscriptBox OverscriptBoxOptions OverTilde OverVector " ++
      js "OverwriteTarget OwenT OwnValues" ++
      js "Package PackingMethod PaddedForm Padding PaddingLayer PaddingSize PadeApproximant PadLeft PadRight PageBreakAbove " ++
      js "PageBreakBelow PageBreakWithin PageFooterLines PageFooters PageHeaderLines PageHeaders PageHeight PageRankCentrality " ++
      js "PageTheme PageWidth Pagination PairedBarChart PairedHistogram PairedSmoothHistogram PairedTTest PairedZTest " ++
      js "PaletteNotebook PalettePath PalindromeQ Pane PaneBox PaneBoxOptions Panel PanelBox PanelBoxOptions Paneled " ++
      js "PaneSelector PaneSelectorBox PaneSelectorBoxOptions PaperWidth ParabolicCylinderD ParagraphIndent ParagraphSpacing " ++
      js "ParallelArray ParallelCombine ParallelDo Parallelepiped ParallelEvaluate Parallelization Parallelize " ++
      js "ParallelMap ParallelNeeds Parallelogram ParallelProduct ParallelSubmit ParallelSum ParallelTable ParallelTry " ++
      js "Parameter ParameterEstimator ParameterMixtureDistribution ParameterVariables ParametricFunction ParametricNDSolve " ++
      js "ParametricNDSolveValue ParametricPlot ParametricPlot3D ParametricRegion ParentBox ParentCell ParentConnect " ++
      js "ParentDirectory ParentForm Parenthesize ParentList ParentNotebook ParetoDistribution ParetoPickandsDistribution " ++
      js "ParkData Part PartBehavior PartialCorrelationFunction PartialD ParticleAcceleratorData ParticleData " ++
      js "Partition PartitionGranularity PartitionsP PartitionsQ PartLayer PartOfSpeech PartProtection ParzenWindow " ++
      js "PascalDistribution PassEventsDown PassEventsUp Paste PasteAutoQuoteCharacters PasteBoxFormInlineCells " ++
      js "PasteButton Path PathGraph PathGraphQ Pattern PatternSequence PatternTest PauliMatrix PaulWavelet Pause " ++
      js "PausedTime PDF PeakDetect PeanoCurve PearsonChiSquareTest PearsonCorrelationTest PearsonDistribution " ++
      js "PercentForm PerfectNumber PerfectNumberQ PerformanceGoal Perimeter PeriodicBoundaryCondition PeriodicInterpolation " ++
      js "Periodogram PeriodogramArray Permanent Permissions PermissionsGroup PermissionsGroupMemberQ PermissionsGroups " ++
      js "PermissionsKey PermissionsKeys PermutationCycles PermutationCyclesQ PermutationGroup PermutationLength " ++
      js "PermutationList PermutationListQ PermutationMax PermutationMin PermutationOrder PermutationPower PermutationProduct " ++
      js "PermutationReplace Permutations PermutationSupport Permute PeronaMalikFilter Perpendicular PerpendicularBisector " ++
      js "PersistenceLocation PersistenceTime PersistentObject PersistentObjects PersistentValue PersonData PERTDistribution " ++
      js "PetersenGraph PhaseMargins PhaseRange PhysicalSystemData Pi Pick PIDData PIDDerivativeFilter PIDFeedforward " ++
      js "PIDTune Piecewise PiecewiseExpand PieChart PieChart3D PillaiTrace PillaiTraceTest PingTime Pink PitchRecognize " ++
      js "Pivoting PixelConstrained PixelValue PixelValuePositions Placed Placeholder PlaceholderReplace Plain " ++
      js "PlanarAngle PlanarGraph PlanarGraphQ PlanckRadiationLaw PlaneCurveData PlanetaryMoonData PlanetData " ++
      js "PlantData Play PlayRange Plot Plot3D Plot3Matrix PlotDivision PlotJoined PlotLabel PlotLabels PlotLayout " ++
      js "PlotLegends PlotMarkers PlotPoints PlotRange PlotRangeClipping PlotRangeClipPlanesStyle PlotRangePadding " ++
      js "PlotRegion PlotStyle PlotTheme Pluralize Plus PlusMinus Pochhammer PodStates PodWidth Point Point3DBox " ++
      js "Point3DBoxOptions PointBox PointBoxOptions PointFigureChart PointLegend PointSize PoissonConsulDistribution " ++
      js "PoissonDistribution PoissonProcess PoissonWindow PolarAxes PolarAxesOrigin PolarGridLines PolarPlot " ++
      js "PolarTicks PoleZeroMarkers PolyaAeppliDistribution PolyGamma Polygon Polygon3DBox Polygon3DBoxOptions " ++
      js "PolygonalNumber PolygonAngle PolygonBox PolygonBoxOptions PolygonCoordinates PolygonDecomposition PolygonHoleScale " ++
      js "PolygonIntersections PolygonScale Polyhedron PolyhedronAngle PolyhedronCoordinates PolyhedronData PolyhedronDecomposition " ++
      js "PolyhedronGenus PolyLog PolynomialExtendedGCD PolynomialForm PolynomialGCD PolynomialLCM PolynomialMod " ++
      js "PolynomialQ PolynomialQuotient PolynomialQuotientRemainder PolynomialReduce PolynomialRemainder Polynomials " ++
      js "PoolingLayer PopupMenu PopupMenuBox PopupMenuBoxOptions PopupView PopupWindow Position PositionIndex " ++
      js "Positive PositiveDefiniteMatrixQ PositiveIntegers PositiveRationals PositiveReals PositiveSemidefiniteMatrixQ " ++
      js "PossibleZeroQ Postfix PostScript Power PowerDistribution PowerExpand PowerMod PowerModList PowerRange " ++
      js "PowerSpectralDensity PowersRepresentations PowerSymmetricPolynomial Precedence PrecedenceForm Precedes " ++
      js "PrecedesEqual PrecedesSlantEqual PrecedesTilde Precision PrecisionGoal PreDecrement Predict PredictionRoot " ++
      js "PredictorFunction PredictorInformation PredictorMeasurements PredictorMeasurementsObject PreemptProtect " ++
      js "PreferencesPath Prefix PreIncrement Prepend PrependLayer PrependTo PreprocessingRules PreserveColor " ++
      js "PreserveImageOptions Previous PreviousCell PreviousDate PriceGraphDistribution PrimaryPlaceholder Prime " ++
      js "PrimeNu PrimeOmega PrimePi PrimePowerQ PrimeQ Primes PrimeZetaP PrimitivePolynomialQ PrimitiveRoot PrimitiveRootList " ++
      js "PrincipalComponents PrincipalValue Print PrintableASCIIQ PrintAction PrintForm PrintingCopies PrintingOptions " ++
      js "PrintingPageRange PrintingStartingPageNumber PrintingStyleEnvironment Printout3D Printout3DPreviewer " ++
      js "PrintPrecision PrintTemporary Prism PrismBox PrismBoxOptions PrivateCellOptions PrivateEvaluationOptions " ++
      js "PrivateFontOptions PrivateFrontEndOptions PrivateKey PrivateNotebookOptions PrivatePaths Probability " ++
      js "ProbabilityDistribution ProbabilityPlot ProbabilityPr ProbabilityScalePlot ProbitModelFit ProcessConnection " ++
      js "ProcessDirectory ProcessEnvironment Processes ProcessEstimator ProcessInformation ProcessObject ProcessParameterAssumptions " ++
      js "ProcessParameterQ ProcessStateDomain ProcessStatus ProcessTimeDomain Product ProductDistribution ProductLog " ++
      js "ProgressIndicator ProgressIndicatorBox ProgressIndicatorBoxOptions Projection Prolog PromptForm ProofObject " ++
      js "Properties Property PropertyList PropertyValue Proportion Proportional Protect Protected ProteinData " ++
      js "Pruning PseudoInverse PsychrometricPropertyData PublicKey PublisherID PulsarData PunctuationCharacter " ++
      js "Purple Put PutAppend Pyramid PyramidBox PyramidBoxOptions" ++
      js "QBinomial QFactorial QGamma QHypergeometricPFQ QnDispersion QPochhammer QPolyGamma QRDecomposition QuadraticIrrationalQ " ++
      js "QuadraticOptimization Quantile QuantilePlot Quantity QuantityArray QuantityDistribution QuantityForm " ++
      js "QuantityMagnitude QuantityQ QuantityUnit QuantityVariable QuantityVariableCanonicalUnit QuantityVariableDimensions " ++
      js "QuantityVariableIdentifier QuantityVariablePhysicalQuantity Quartics QuartileDeviation Quartiles QuartileSkewness " ++
      js "Query QueueingNetworkProcess QueueingProcess QueueProperties Quiet Quit Quotient QuotientRemainder" ++
      js "RadialGradientImage RadialityCentrality RadicalBox RadicalBoxOptions RadioButton RadioButtonBar RadioButtonBox " ++
      js "RadioButtonBoxOptions Radon RadonTransform RamanujanTau RamanujanTauL RamanujanTauTheta RamanujanTauZ " ++
      js "Ramp Random RandomChoice RandomColor RandomComplex RandomEntity RandomFunction RandomGeoPosition RandomGraph " ++
      js "RandomImage RandomInstance RandomInteger RandomPermutation RandomPoint RandomPolygon RandomPolyhedron " ++
      js "RandomPrime RandomReal RandomSample RandomSeed RandomSeeding RandomVariate RandomWalkProcess RandomWord " ++
      js "Range RangeFilter RangeSpecification RankedMax RankedMin RarerProbability Raster Raster3D Raster3DBox " ++
      js "Raster3DBoxOptions RasterArray RasterBox RasterBoxOptions Rasterize RasterSize Rational RationalFunctions " ++
      js "Rationalize Rationals Ratios RawArray RawBoxes RawData RawMedium RayleighDistribution Re Read ReadByteArray " ++
      js "ReadLine ReadList ReadProtected ReadString Real RealAbs RealBlockDiagonalForm RealDigits RealExponent " ++
      js "Reals RealSign Reap RecognitionPrior RecognitionThreshold Record RecordLists RecordSeparators Rectangle " ++
      js "RectangleBox RectangleBoxOptions RectangleChart RectangleChart3D RectangularRepeatingElement RecurrenceFilter " ++
      js "RecurrenceTable RecurringDigitsForm Red Reduce RefBox ReferenceLineStyle ReferenceMarkers ReferenceMarkerStyle " ++
      js "Refine ReflectionMatrix ReflectionTransform Refresh RefreshRate Region RegionBinarize RegionBoundary " ++
      js "RegionBounds RegionCentroid RegionDifference RegionDimension RegionDisjoint RegionDistance RegionDistanceFunction " ++
      js "RegionEmbeddingDimension RegionEqual RegionFunction RegionImage RegionIntersection RegionMeasure RegionMember " ++
      js "RegionMemberFunction RegionMoment RegionNearest RegionNearestFunction RegionPlot RegionPlot3D RegionProduct " ++
      js "RegionQ RegionResize RegionSize RegionSymmetricDifference RegionUnion RegionWithin RegisterExternalEvaluator " ++
      js "RegularExpression Regularization RegularlySampledQ RegularPolygon ReIm ReImLabels ReImPlot ReImStyle " ++
      js "Reinstall RelationalDatabase RelationGraph Release ReleaseHold ReliabilityDistribution ReliefImage ReliefPlot " ++
      js "RemoteAuthorizationCaching RemoteConnect RemoteConnectionObject RemoteFile RemoteRun RemoteRunProcess " ++
      js "Remove RemoveAlphaChannel RemoveAsynchronousTask RemoveAudioStream RemoveBackground RemoveChannelListener " ++
      js "RemoveChannelSubscribers Removed RemoveDiacritics RemoveInputStreamMethod RemoveOutputStreamMethod RemoveProperty " ++
      js "RemoveScheduledTask RemoveUsers RenameDirectory RenameFile RenderAll RenderingOptions RenewalProcess " ++
      js "RenkoChart RepairMesh Repeated RepeatedNull RepeatedString RepeatedTiming RepeatingElement Replace ReplaceAll " ++
      js "ReplaceHeldPart ReplaceImageValue ReplaceList ReplacePart ReplacePixelValue ReplaceRepeated ReplicateLayer " ++
      js "RequiredPhysicalQuantities Resampling ResamplingAlgorithmData ResamplingMethod Rescale RescalingTransform " ++
      js "ResetDirectory ResetMenusPacket ResetScheduledTask ReshapeLayer Residue ResizeLayer Resolve ResourceAcquire " ++
      js "ResourceData ResourceFunction ResourceObject ResourceRegister ResourceRemove ResourceSearch ResourceSubmissionObject " ++
      js "ResourceSubmit ResourceSystemBase ResourceUpdate ResponseForm Rest RestartInterval Restricted Resultant " ++
      js "ResumePacket Return ReturnEntersInput ReturnExpressionPacket ReturnInputFormPacket ReturnPacket ReturnReceiptFunction " ++
      js "ReturnTextPacket Reverse ReverseBiorthogonalSplineWavelet ReverseElement ReverseEquilibrium ReverseGraph " ++
      js "ReverseSort ReverseSortBy ReverseUpEquilibrium RevolutionAxis RevolutionPlot3D RGBColor RiccatiSolve " ++
      js "RiceDistribution RidgeFilter RiemannR RiemannSiegelTheta RiemannSiegelZ RiemannXi Riffle Right RightArrow " ++
      js "RightArrowBar RightArrowLeftArrow RightComposition RightCosetRepresentative RightDownTeeVector RightDownVector " ++
      js "RightDownVectorBar RightTee RightTeeArrow RightTeeVector RightTriangle RightTriangleBar RightTriangleEqual " ++
      js "RightUpDownVector RightUpTeeVector RightUpVector RightUpVectorBar RightVector RightVectorBar RiskAchievementImportance " ++
      js "RiskReductionImportance RogersTanimotoDissimilarity RollPitchYawAngles RollPitchYawMatrix RomanNumeral " ++
      js "Root RootApproximant RootIntervals RootLocusPlot RootMeanSquare RootOfUnityQ RootReduce Roots RootSum " ++
      js "Rotate RotateLabel RotateLeft RotateRight RotationAction RotationBox RotationBoxOptions RotationMatrix " ++
      js "RotationTransform Round RoundImplies RoundingRadius Row RowAlignments RowBackgrounds RowBox RowHeights " ++
      js "RowLines RowMinHeight RowReduce RowsEqual RowSpacings RSolve RSolveValue RudinShapiro RudvalisGroupRu " ++
      js "Rule RuleCondition RuleDelayed RuleForm RulePlot RulerUnits Run RunProcess RunScheduledTask RunThrough " ++
      js "RuntimeAttributes RuntimeOptions RussellRaoDissimilarity" ++
      js "SameQ SameTest SampledEntityClass SampleDepth SampledSoundFunction SampledSoundList SampleRate SamplingPeriod " ++
      js "SARIMAProcess SARMAProcess SASTriangle SatelliteData SatisfiabilityCount SatisfiabilityInstances SatisfiableQ " ++
      js "Saturday Save Saveable SaveAutoDelete SaveConnection SaveDefinitions SavitzkyGolayMatrix SawtoothWave " ++
      js "Scale Scaled ScaleDivisions ScaledMousePosition ScaleOrigin ScalePadding ScaleRanges ScaleRangeStyle " ++
      js "ScalingFunctions ScalingMatrix ScalingTransform Scan ScheduledTask ScheduledTaskActiveQ ScheduledTaskInformation " ++
      js "ScheduledTaskInformationData ScheduledTaskObject ScheduledTasks SchurDecomposition ScientificForm ScientificNotationThreshold " ++
      js "ScorerGi ScorerGiPrime ScorerHi ScorerHiPrime ScreenRectangle ScreenStyleEnvironment ScriptBaselineShifts " ++
      js "ScriptForm ScriptLevel ScriptMinSize ScriptRules ScriptSizeMultipliers Scrollbars ScrollingOptions ScrollPosition " ++
      js "SearchAdjustment SearchIndexObject SearchIndices SearchQueryString SearchResultObject Sec Sech SechDistribution " ++
      js "SecondOrderConeOptimization SectionGrouping SectorChart SectorChart3D SectorOrigin SectorSpacing SecuredAuthenticationKey " ++
      js "SecuredAuthenticationKeys SeedRandom Select Selectable SelectComponents SelectedCells SelectedNotebook " ++
      js "SelectFirst Selection SelectionAnimate SelectionCell SelectionCellCreateCell SelectionCellDefaultStyle " ++
      js "SelectionCellParentStyle SelectionCreateCell SelectionDebuggerTag SelectionDuplicateCell SelectionEvaluate " ++
      js "SelectionEvaluateCreateCell SelectionMove SelectionPlaceholder SelectionSetStyle SelectWithContents " ++
      js "SelfLoops SelfLoopStyle SemanticImport SemanticImportString SemanticInterpretation SemialgebraicComponentInstances " ++
      js "SemidefiniteOptimization SendMail SendMessage Sequence SequenceAlignment SequenceAttentionLayer SequenceCases " ++
      js "SequenceCount SequenceFold SequenceFoldList SequenceForm SequenceHold SequenceLastLayer SequenceMostLayer " ++
      js "SequencePosition SequencePredict SequencePredictorFunction SequenceReplace SequenceRestLayer SequenceReverseLayer " ++
      js "SequenceSplit Series SeriesCoefficient SeriesData ServiceConnect ServiceDisconnect ServiceExecute ServiceObject " ++
      js "ServiceRequest ServiceResponse ServiceSubmit SessionSubmit SessionTime Set SetAccuracy SetAlphaChannel " ++
      js "SetAttributes Setbacks SetBoxFormNamesPacket SetCloudDirectory SetCookies SetDelayed SetDirectory SetEnvironment " ++
      js "SetEvaluationNotebook SetFileDate SetFileLoadingContext SetNotebookStatusLine SetOptions SetOptionsPacket " ++
      js "SetPermissions SetPrecision SetProperty SetSecuredAuthenticationKey SetSelectedNotebook SetSharedFunction " ++
      js "SetSharedVariable SetSpeechParametersPacket SetStreamPosition SetSystemModel SetSystemOptions Setter " ++
      js "SetterBar SetterBox SetterBoxOptions Setting SetUsers SetValue Shading Shallow ShannonWavelet ShapiroWilkTest " ++
      js "Share SharingList Sharpen ShearingMatrix ShearingTransform ShellRegion ShenCastanMatrix ShiftedGompertzDistribution " ++
      js "ShiftRegisterSequence Short ShortDownArrow Shortest ShortestMatch ShortestPathFunction ShortLeftArrow " ++
      js "ShortRightArrow ShortTimeFourier ShortTimeFourierData ShortUpArrow Show ShowAutoConvert ShowAutoSpellCheck " ++
      js "ShowAutoStyles ShowCellBracket ShowCellLabel ShowCellTags ShowClosedCellArea ShowCodeAssist ShowContents " ++
      js "ShowControls ShowCursorTracker ShowGroupOpenCloseIcon ShowGroupOpener ShowInvisibleCharacters ShowPageBreaks " ++
      js "ShowPredictiveInterface ShowSelection ShowShortBoxForm ShowSpecialCharacters ShowStringCharacters ShowSyntaxStyles " ++
      js "ShrinkingDelay ShrinkWrapBoundingBox SiderealTime SiegelTheta SiegelTukeyTest SierpinskiCurve SierpinskiMesh " ++
      js "Sign Signature SignedRankTest SignedRegionDistance SignificanceLevel SignPadding SignTest SimilarityRules " ++
      js "SimpleGraph SimpleGraphQ SimplePolygonQ SimplePolyhedronQ Simplex Simplify Sin Sinc SinghMaddalaDistribution " ++
      js "SingleEvaluation SingleLetterItalics SingleLetterStyle SingularValueDecomposition SingularValueList " ++
      js "SingularValuePlot SingularValues Sinh SinhIntegral SinIntegral SixJSymbol Skeleton SkeletonTransform " ++
      js "SkellamDistribution Skewness SkewNormalDistribution SkinStyle Skip SliceContourPlot3D SliceDensityPlot3D " ++
      js "SliceDistribution SliceVectorPlot3D Slider Slider2D Slider2DBox Slider2DBoxOptions SliderBox SliderBoxOptions " ++
      js "SlideView Slot SlotSequence Small SmallCircle Smaller SmithDecomposition SmithDelayCompensator SmithWatermanSimilarity " ++
      js "SmoothDensityHistogram SmoothHistogram SmoothHistogram3D SmoothKernelDistribution SnDispersion Snippet " ++
      js "SnubPolyhedron SocialMediaData Socket SocketConnect SocketListen SocketListener SocketObject SocketOpen " ++
      js "SocketReadMessage SocketReadyQ Sockets SocketWaitAll SocketWaitNext SoftmaxLayer SokalSneathDissimilarity " ++
      js "SolarEclipse SolarSystemFeatureData SolidAngle SolidData SolidRegionQ Solve SolveAlways SolveDelayed " ++
      js "Sort SortBy SortedBy SortedEntityClass Sound SoundAndGraphics SoundNote SoundVolume SourceLink Sow Space " ++
      js "SpaceCurveData SpaceForm Spacer Spacings Span SpanAdjustments SpanCharacterRounding SpanFromAbove SpanFromBoth " ++
      js "SpanFromLeft SpanLineThickness SpanMaxSize SpanMinSize SpanningCharacters SpanSymmetric SparseArray " ++
      js "SpatialGraphDistribution SpatialMedian SpatialTransformationLayer Speak SpeakTextPacket SpearmanRankTest " ++
      js "SpearmanRho SpeciesData SpecificityGoal SpectralLineData Spectrogram SpectrogramArray Specularity SpeechRecognize " ++
      js "SpeechSynthesize SpellingCorrection SpellingCorrectionList SpellingDictionaries SpellingDictionariesPath " ++
      js "SpellingOptions SpellingSuggestionsPacket Sphere SphereBox SpherePoints SphericalBesselJ SphericalBesselY " ++
      js "SphericalHankelH1 SphericalHankelH2 SphericalHarmonicY SphericalPlot3D SphericalRegion SphericalShell " ++
      js "SpheroidalEigenvalue SpheroidalJoiningFactor SpheroidalPS SpheroidalPSPrime SpheroidalQS SpheroidalQSPrime " ++
      js "SpheroidalRadialFactor SpheroidalS1 SpheroidalS1Prime SpheroidalS2 SpheroidalS2Prime Splice SplicedDistribution " ++
      js "SplineClosed SplineDegree SplineKnots SplineWeights Split SplitBy SpokenString Sqrt SqrtBox SqrtBoxOptions " ++
      js "Square SquaredEuclideanDistance SquareFreeQ SquareIntersection SquareMatrixQ SquareRepeatingElement " ++
      js "SquaresR SquareSubset SquareSubsetEqual SquareSuperset SquareSupersetEqual SquareUnion SquareWave SSSTriangle " ++
      js "StabilityMargins StabilityMarginsStyle StableDistribution Stack StackBegin StackComplete StackedDateListPlot " ++
      js "StackedListPlot StackInhibit StadiumShape StandardAtmosphereData StandardDeviation StandardDeviationFilter " ++
      js "StandardForm Standardize Standardized StandardOceanData StandbyDistribution Star StarClusterData StarData " ++
      js "StarGraph StartAsynchronousTask StartExternalSession StartingStepSize StartOfLine StartOfString StartProcess " ++
      js "StartScheduledTask StartupSound StartWebSession StateDimensions StateFeedbackGains StateOutputEstimator " ++
      js "StateResponse StateSpaceModel StateSpaceRealization StateSpaceTransform StateTransformationLinearize " ++
      js "StationaryDistribution StationaryWaveletPacketTransform StationaryWaveletTransform StatusArea StatusCentrality " ++
      js "StepMonitor StereochemistryElements StieltjesGamma StirlingS1 StirlingS2 StopAsynchronousTask StoppingPowerData " ++
      js "StopScheduledTask StrataVariables StratonovichProcess StreamColorFunction StreamColorFunctionScaling " ++
      js "StreamDensityPlot StreamMarkers StreamPlot StreamPoints StreamPosition Streams StreamScale StreamStyle " ++
      js "String StringBreak StringByteCount StringCases StringContainsQ StringCount StringDelete StringDrop StringEndsQ " ++
      js "StringExpression StringExtract StringForm StringFormat StringFreeQ StringInsert StringJoin StringLength " ++
      js "StringMatchQ StringPadLeft StringPadRight StringPart StringPartition StringPosition StringQ StringRepeat " ++
      js "StringReplace StringReplaceList StringReplacePart StringReverse StringRiffle StringRotateLeft StringRotateRight " ++
      js "StringSkeleton StringSplit StringStartsQ StringTake StringTemplate StringToByteArray StringToStream " ++
      js "StringTrim StripBoxes StripOnInput StripWrapperBoxes StrokeForm StructuralImportance StructuredArray " ++
      js "StructuredSelection StruveH StruveL Stub StudentTDistribution Style StyleBox StyleBoxAutoDelete StyleData " ++
      js "StyleDefinitions StyleForm StyleHints StyleKeyMapping StyleMenuListing StyleNameDialogSettings StyleNames " ++
      js "StylePrint StyleSheetPath Subdivide Subfactorial Subgraph SubMinus SubPlus SubresultantPolynomialRemainders " ++
      js "SubresultantPolynomials Subresultants Subscript SubscriptBox SubscriptBoxOptions Subscripted Subsequences " ++
      js "Subset SubsetEqual SubsetMap SubsetQ Subsets SubStar SubstitutionSystem Subsuperscript SubsuperscriptBox " ++
      js "SubsuperscriptBoxOptions Subtract SubtractFrom SubtractSides SubValues Succeeds SucceedsEqual SucceedsSlantEqual " ++
      js "SucceedsTilde Success SuchThat Sum SumConvergence SummationLayer Sunday SunPosition Sunrise Sunset SuperDagger " ++
      js "SuperMinus SupernovaData SuperPlus Superscript SuperscriptBox SuperscriptBoxOptions Superset SupersetEqual " ++
      js "SuperStar Surd SurdForm SurfaceArea SurfaceColor SurfaceData SurfaceGraphics SurvivalDistribution SurvivalFunction " ++
      js "SurvivalModel SurvivalModelFit SuspendPacket SuzukiDistribution SuzukiGroupSuz SwatchLegend Switch Symbol " ++
      js "SymbolName SymletWavelet Symmetric SymmetricGroup SymmetricKey SymmetricMatrixQ SymmetricPolynomial " ++
      js "SymmetricReduction Symmetrize SymmetrizedArray SymmetrizedArrayRules SymmetrizedDependentComponents " ++
      js "SymmetrizedIndependentComponents SymmetrizedReplacePart SynchronousInitialization SynchronousUpdating " ++
      js "Synonyms Syntax SyntaxForm SyntaxInformation SyntaxLength SyntaxPacket SyntaxQ SynthesizeMissingValues " ++
      js "SystemDialogInput SystemException SystemGet SystemHelpPath SystemInformation SystemInformationData SystemInstall " ++
      js "SystemModel SystemModeler SystemModelExamples SystemModelLinearize SystemModelParametricSimulate SystemModelPlot " ++
      js "SystemModelProgressReporting SystemModelReliability SystemModels SystemModelSimulate SystemModelSimulateSensitivity " ++
      js "SystemModelSimulationData SystemOpen SystemOptions SystemProcessData SystemProcesses SystemsConnectionsModel " ++
      js "SystemsModelDelay SystemsModelDelayApproximate SystemsModelDelete SystemsModelDimensions SystemsModelExtract " ++
      js "SystemsModelFeedbackConnect SystemsModelLabels SystemsModelLinearity SystemsModelMerge SystemsModelOrder " ++
      js "SystemsModelParallelConnect SystemsModelSeriesConnect SystemsModelStateFeedbackConnect SystemsModelVectorRelativeOrders " ++
      js "SystemStub SystemTest" ++
      js "Tab TabFilling Table TableAlignments TableDepth TableDirections TableForm TableHeadings TableSpacing " ++
      js "TableView TableViewBox TableViewBoxBackground TableViewBoxOptions TabSpacings TabView TabViewBox TabViewBoxOptions " ++
      js "TagBox TagBoxNote TagBoxOptions TaggingRules TagSet TagSetDelayed TagStyle TagUnset Take TakeDrop TakeLargest " ++
      js "TakeLargestBy TakeList TakeSmallest TakeSmallestBy TakeWhile Tally Tan Tanh TargetDevice TargetFunctions " ++
      js "TargetSystem TargetUnits TaskAbort TaskExecute TaskObject TaskRemove TaskResume Tasks TaskSuspend TaskWait " ++
      js "TautologyQ TelegraphProcess TemplateApply TemplateArgBox TemplateBox TemplateBoxOptions TemplateEvaluate " ++
      js "TemplateExpression TemplateIf TemplateObject TemplateSequence TemplateSlot TemplateSlotSequence TemplateUnevaluated " ++
      js "TemplateVerbatim TemplateWith TemporalData TemporalRegularity Temporary TemporaryVariable TensorContract " ++
      js "TensorDimensions TensorExpand TensorProduct TensorQ TensorRank TensorReduce TensorSymmetry TensorTranspose " ++
      js "TensorWedge TestID TestReport TestReportObject TestResultObject Tetrahedron TetrahedronBox TetrahedronBoxOptions " ++
      js "TeXForm TeXSave Text Text3DBox Text3DBoxOptions TextAlignment TextBand TextBoundingBox TextBox TextCases " ++
      js "TextCell TextClipboardType TextContents TextData TextElement TextForm TextGrid TextJustification TextLine " ++
      js "TextPacket TextParagraph TextPosition TextRecognize TextSearch TextSearchReport TextSentences TextString " ++
      js "TextStructure TextStyle TextTranslation Texture TextureCoordinateFunction TextureCoordinateScaling TextWords " ++
      js "Therefore ThermodynamicData ThermometerGauge Thick Thickness Thin Thinning ThisLink ThompsonGroupTh " ++
      js "Thread ThreadingLayer ThreeJSymbol Threshold Through Throw ThueMorse Thumbnail Thursday Ticks TicksStyle " ++
      js "TideData Tilde TildeEqual TildeFullEqual TildeTilde TimeConstrained TimeConstraint TimeDirection TimeFormat " ++
      js "TimeGoal TimelinePlot TimeObject TimeObjectQ Times TimesBy TimeSeries TimeSeriesAggregate TimeSeriesForecast " ++
      js "TimeSeriesInsert TimeSeriesInvertibility TimeSeriesMap TimeSeriesMapThread TimeSeriesModel TimeSeriesModelFit " ++
      js "TimeSeriesResample TimeSeriesRescale TimeSeriesShift TimeSeriesThread TimeSeriesWindow TimeUsed TimeValue " ++
      js "TimeWarpingCorrespondence TimeWarpingDistance TimeZone TimeZoneConvert TimeZoneOffset Timing Tiny TitleGrouping " ++
      js "TitsGroupT ToBoxes ToCharacterCode ToColor ToContinuousTimeModel ToDate Today ToDiscreteTimeModel ToEntity " ++
      js "ToeplitzMatrix ToExpression ToFileName Together Toggle ToggleFalse Toggler TogglerBar TogglerBox TogglerBoxOptions " ++
      js "ToHeldExpression ToInvertibleTimeSeries TokenWords Tolerance ToLowerCase Tomorrow ToNumberField TooBig " ++
      js "Tooltip TooltipBox TooltipBoxOptions TooltipDelay TooltipStyle Top TopHatTransform ToPolarCoordinates " ++
      js "TopologicalSort ToRadicals ToRules ToSphericalCoordinates ToString Total TotalHeight TotalLayer TotalVariationFilter " ++
      js "TotalWidth TouchPosition TouchscreenAutoZoom TouchscreenControlPlacement ToUpperCase Tr Trace TraceAbove " ++
      js "TraceAction TraceBackward TraceDepth TraceDialog TraceForward TraceInternal TraceLevel TraceOff TraceOn " ++
      js "TraceOriginal TracePrint TraceScan TrackedSymbols TrackingFunction TracyWidomDistribution TradingChart " ++
      js "TraditionalForm TraditionalFunctionNotation TraditionalNotation TraditionalOrder TrainingProgressCheckpointing " ++
      js "TrainingProgressFunction TrainingProgressMeasurements TrainingProgressReporting TrainingStoppingCriterion " ++
      js "TransferFunctionCancel TransferFunctionExpand TransferFunctionFactor TransferFunctionModel TransferFunctionPoles " ++
      js "TransferFunctionTransform TransferFunctionZeros TransformationClass TransformationFunction TransformationFunctions " ++
      js "TransformationMatrix TransformedDistribution TransformedField TransformedProcess TransformedRegion TransitionDirection " ++
      js "TransitionDuration TransitionEffect TransitiveClosureGraph TransitiveReductionGraph Translate TranslationOptions " ++
      js "TranslationTransform Transliterate Transparent TransparentColor Transpose TransposeLayer TrapSelection " ++
      js "TravelDirections TravelDirectionsData TravelDistance TravelDistanceList TravelMethod TravelTime TreeForm " ++
      js "TreeGraph TreeGraphQ TreePlot TrendStyle Triangle TriangleCenter TriangleConstruct TriangleMeasurement " ++
      js "TriangleWave TriangularDistribution TriangulateMesh Trig TrigExpand TrigFactor TrigFactorList Trigger " ++
      js "TrigReduce TrigToExp TrimmedMean TrimmedVariance TropicalStormData True TrueQ TruncatedDistribution " ++
      js "TruncatedPolyhedron TsallisQExponentialDistribution TsallisQGaussianDistribution TTest Tube TubeBezierCurveBox " ++
      js "TubeBezierCurveBoxOptions TubeBox TubeBoxOptions TubeBSplineCurveBox TubeBSplineCurveBoxOptions Tuesday " ++
      js "TukeyLambdaDistribution TukeyWindow TunnelData Tuples TuranGraph TuringMachine TuttePolynomial TwoWayRule " ++
      js "Typed TypeSpecifier" ++
      js "UnateQ Uncompress UnconstrainedParameters Undefined UnderBar Underflow Underlined Underoverscript UnderoverscriptBox " ++
      js "UnderoverscriptBoxOptions Underscript UnderscriptBox UnderscriptBoxOptions UnderseaFeatureData UndirectedEdge " ++
      js "UndirectedGraph UndirectedGraphQ UndoOptions UndoTrackedVariables Unequal UnequalTo Unevaluated UniformDistribution " ++
      js "UniformGraphDistribution UniformPolyhedron UniformSumDistribution Uninstall Union UnionPlus Unique UnitaryMatrixQ " ++
      js "UnitBox UnitConvert UnitDimensions Unitize UnitRootTest UnitSimplify UnitStep UnitSystem UnitTriangle " ++
      js "UnitVector UnitVectorLayer UnityDimensions UniverseModelData UniversityData UnixTime Unprotect UnregisterExternalEvaluator " ++
      js "UnsameQ UnsavedVariables Unset UnsetShared UntrackedVariables Up UpArrow UpArrowBar UpArrowDownArrow " ++
      js "Update UpdateDynamicObjects UpdateDynamicObjectsSynchronous UpdateInterval UpdateSearchIndex UpDownArrow " ++
      js "UpEquilibrium UpperCaseQ UpperLeftArrow UpperRightArrow UpperTriangularize UpperTriangularMatrixQ Upsample " ++
      js "UpSet UpSetDelayed UpTee UpTeeArrow UpTo UpValues URL URLBuild URLDecode URLDispatcher URLDownload URLDownloadSubmit " ++
      js "URLEncode URLExecute URLExpand URLFetch URLFetchAsynchronous URLParse URLQueryDecode URLQueryEncode " ++
      js "URLRead URLResponseTime URLSave URLSaveAsynchronous URLShorten URLSubmit UseGraphicsRange UserDefinedWavelet " ++
      js "Using UsingFrontEnd UtilityFunction" ++
      js "V2Get ValenceErrorHandling ValidationLength ValidationSet Value ValueBox ValueBoxOptions ValueDimensions " ++
      js "ValueForm ValuePreprocessingFunction ValueQ Values ValuesData Variables Variance VarianceEquivalenceTest " ++
      js "VarianceEstimatorFunction VarianceGammaDistribution VarianceTest VectorAngle VectorAround VectorColorFunction " ++
      js "VectorColorFunctionScaling VectorDensityPlot VectorGlyphData VectorGreater VectorGreaterEqual VectorLess " ++
      js "VectorLessEqual VectorMarkers VectorPlot VectorPlot3D VectorPoints VectorQ Vectors VectorScale VectorStyle " ++
      js "Vee Verbatim Verbose VerboseConvertToPostScriptPacket VerificationTest VerifyConvergence VerifyDerivedKey " ++
      js "VerifyDigitalSignature VerifyInterpretation VerifySecurityCertificates VerifySolutions VerifyTestAssumptions " ++
      js "Version VersionNumber VertexAdd VertexCapacity VertexColors VertexComponent VertexConnectivity VertexContract " ++
      js "VertexCoordinateRules VertexCoordinates VertexCorrelationSimilarity VertexCosineSimilarity VertexCount " ++
      js "VertexCoverQ VertexDataCoordinates VertexDegree VertexDelete VertexDiceSimilarity VertexEccentricity " ++
      js "VertexInComponent VertexInDegree VertexIndex VertexJaccardSimilarity VertexLabeling VertexLabels VertexLabelStyle " ++
      js "VertexList VertexNormals VertexOutComponent VertexOutDegree VertexQ VertexRenderingFunction VertexReplace " ++
      js "VertexShape VertexShapeFunction VertexSize VertexStyle VertexTextureCoordinates VertexWeight VertexWeightedGraphQ " ++
      js "Vertical VerticalBar VerticalForm VerticalGauge VerticalSeparator VerticalSlider VerticalTilde ViewAngle " ++
      js "ViewCenter ViewMatrix ViewPoint ViewPointSelectorSettings ViewPort ViewProjection ViewRange ViewVector " ++
      js "ViewVertical VirtualGroupData Visible VisibleCell VoiceStyleData VoigtDistribution VolcanoData Volume " ++
      js "VonMisesDistribution VoronoiMesh" ++
      js "WaitAll WaitAsynchronousTask WaitNext WaitUntil WakebyDistribution WalleniusHypergeometricDistribution " ++
      js "WaringYuleDistribution WarpingCorrespondence WarpingDistance WatershedComponents WatsonUSquareTest WattsStrogatzGraphDistribution " ++
      js "WaveletBestBasis WaveletFilterCoefficients WaveletImagePlot WaveletListPlot WaveletMapIndexed WaveletMatrixPlot " ++
      js "WaveletPhi WaveletPsi WaveletScale WaveletScalogram WaveletThreshold WeaklyConnectedComponents WeaklyConnectedGraphComponents " ++
      js "WeaklyConnectedGraphQ WeakStationarity WeatherData WeatherForecastData WebAudioSearch WebElementObject " ++
      js "WeberE WebExecute WebImage WebImageSearch WebSearch WebSessionObject WebSessions WebWindowObject Wedge " ++
      js "Wednesday WeibullDistribution WeierstrassE1 WeierstrassE2 WeierstrassE3 WeierstrassEta1 WeierstrassEta2 " ++
      js "WeierstrassEta3 WeierstrassHalfPeriods WeierstrassHalfPeriodW1 WeierstrassHalfPeriodW2 WeierstrassHalfPeriodW3 " ++
      js "WeierstrassInvariantG2 WeierstrassInvariantG3 WeierstrassInvariants WeierstrassP WeierstrassPPrime WeierstrassSigma " ++
      js "WeierstrassZeta WeightedAdjacencyGraph WeightedAdjacencyMatrix WeightedData WeightedGraphQ Weights WelchWindow " ++
      js "WheelGraph WhenEvent Which While White WhiteNoiseProcess WhitePoint Whitespace WhitespaceCharacter WhittakerM " ++
      js "WhittakerW WienerFilter WienerProcess WignerD WignerSemicircleDistribution WikipediaData WikipediaSearch " ++
      js "WilksW WilksWTest WindDirectionData WindingCount WindingPolygon WindowClickSelect WindowElements WindowFloating " ++
      js "WindowFrame WindowFrameElements WindowMargins WindowMovable WindowOpacity WindowPersistentStyles WindowSelected " ++
      js "WindowSize WindowStatusArea WindowTitle WindowToolbars WindowWidth WindSpeedData WindVectorData WinsorizedMean " ++
      js "WinsorizedVariance WishartMatrixDistribution With WolframAlpha WolframAlphaDate WolframAlphaQuantity " ++
      js "WolframAlphaResult WolframLanguageData Word WordBoundary WordCharacter WordCloud WordCount WordCounts " ++
      js "WordData WordDefinition WordFrequency WordFrequencyData WordList WordOrientation WordSearch WordSelectionFunction " ++
      js "WordSeparators WordSpacings WordStem WordTranslation WorkingPrecision WrapAround Write WriteLine WriteString " ++
      js "Wronskian" ++ js "XMLElement XMLObject XMLTemplate Xnor Xor XYZColor" ++
      js "Yellow Yesterday YuleDissimilarity" ++
      js "ZernikeR ZeroSymmetric ZeroTest ZeroWidthTimes Zeta ZetaZero ZIPCodeData ZipfDistribution ZoomCenter " ++
      js "ZoomFactor ZTest ZTransform" ++
      js "$Aborted $ActivationGroupID $ActivationKey $ActivationUserRegistered $AddOnsDirectory $AllowExternalChannelFunctions " ++
      js "$AssertFunction $Assumptions $AsynchronousTask $AudioInputDevices $AudioOutputDevices $BaseDirectory " ++
      js "$BatchInput $BatchOutput $BlockchainBase $BoxForms $ByteOrdering $CacheBaseDirectory $Canceled $ChannelBase " ++
      js "$CharacterEncoding $CharacterEncodings $CloudBase $CloudConnected $CloudCreditsAvailable $CloudEvaluation " ++
      js "$CloudExpressionBase $CloudObjectNameFormat $CloudObjectURLType $CloudRootDirectory $CloudSymbolBase " ++
      js "$CloudUserID $CloudUserUUID $CloudVersion $CloudVersionNumber $CloudWolframEngineVersionNumber $CommandLine " ++
      js "$CompilationTarget $ConditionHold $ConfiguredKernels $Context $ContextPath $ControlActiveSetting $Cookies " ++
      js "$CookieStore $CreationDate $CurrentLink $CurrentTask $CurrentWebSession $DateStringFormat $DefaultAudioInputDevice " ++
      js "$DefaultAudioOutputDevice $DefaultFont $DefaultFrontEnd $DefaultImagingDevice $DefaultLocalBase $DefaultMailbox " ++
      js "$DefaultNetworkInterface $DefaultPath $Display $DisplayFunction $DistributedContexts $DynamicEvaluation " ++
      js "$Echo $EmbedCodeEnvironments $EmbeddableServices $EntityStores $Epilog $EvaluationCloudBase $EvaluationCloudObject " ++
      js "$EvaluationEnvironment $ExportFormats $Failed $FinancialDataSource $FontFamilies $FormatType $FrontEnd " ++
      js "$FrontEndSession $GeoEntityTypes $GeoLocation $GeoLocationCity $GeoLocationCountry $GeoLocationPrecision " ++
      js "$GeoLocationSource $HistoryLength $HomeDirectory $HTMLExportRules $HTTPCookies $HTTPRequest $IgnoreEOF " ++
      js "$ImageFormattingWidth $ImagingDevice $ImagingDevices $ImportFormats $IncomingMailSettings $InitialDirectory " ++
      js "$Initialization $InitializationContexts $Input $InputFileName $InputStreamMethods $Inspector $InstallationDate " ++
      js "$InstallationDirectory $InterfaceEnvironment $InterpreterTypes $IterationLimit $KernelCount $KernelID " ++
      js "$Language $LaunchDirectory $LibraryPath $LicenseExpirationDate $LicenseID $LicenseProcesses $LicenseServer " ++
      js "$LicenseSubprocesses $LicenseType $Line $Linked $LinkSupported $LoadedFiles $LocalBase $LocalSymbolBase " ++
      js "$MachineAddresses $MachineDomain $MachineDomains $MachineEpsilon $MachineID $MachineName $MachinePrecision " ++
      js "$MachineType $MaxExtraPrecision $MaxLicenseProcesses $MaxLicenseSubprocesses $MaxMachineNumber $MaxNumber " ++
      js "$MaxPiecewiseCases $MaxPrecision $MaxRootDegree $MessageGroups $MessageList $MessagePrePrint $Messages " ++
      js "$MinMachineNumber $MinNumber $MinorReleaseNumber $MinPrecision $MobilePhone $ModuleNumber $NetworkConnected " ++
      js "$NetworkInterfaces $NetworkLicense $NewMessage $NewSymbol $Notebooks $NoValue $NumberMarks $Off $OperatingSystem " ++
      js "$Output $OutputForms $OutputSizeLimit $OutputStreamMethods $Packages $ParentLink $ParentProcessID $PasswordFile " ++
      js "$PatchLevelID $Path $PathnameSeparator $PerformanceGoal $Permissions $PermissionsGroupBase $PersistenceBase " ++
      js "$PersistencePath $PipeSupported $PlotTheme $Post $Pre $PreferencesDirectory $PreInitialization $PrePrint " ++
      js "$PreRead $PrintForms $PrintLiteral $Printout3DPreviewer $ProcessID $ProcessorCount $ProcessorType $ProductInformation " ++
      js "$ProgramName $PublisherID $RandomState $RecursionLimit $RegisteredDeviceClasses $RegisteredUserName " ++
      js "$ReleaseNumber $RequesterAddress $RequesterWolframID $RequesterWolframUUID $ResourceSystemBase $RootDirectory " ++
      js "$ScheduledTask $ScriptCommandLine $ScriptInputString $SecuredAuthenticationKeyTokens $ServiceCreditsAvailable " ++
      js "$Services $SessionID $SetParentLink $SharedFunctions $SharedVariables $SoundDisplay $SoundDisplayFunction " ++
      js "$SourceLink $SSHAuthentication $SummaryBoxDataSizeLimit $SuppressInputFormHeads $SynchronousEvaluation " ++
      js "$SyntaxHandler $System $SystemCharacterEncoding $SystemID $SystemMemory $SystemShell $SystemTimeZone " ++
      js "$SystemWordLength $TemplatePath $TemporaryDirectory $TemporaryPrefix $TestFileName $TextStyle $TimedOut " ++
      js "$TimeUnit $TimeZone $TimeZoneEntity $TopDirectory $TraceOff $TraceOn $TracePattern $TracePostAction " ++
      js "$TracePreAction $UnitSystem $Urgent $UserAddOnsDirectory $UserAgentLanguages $UserAgentMachine $UserAgentName " ++
      js "$UserAgentOperatingSystem $UserAgentString $UserAgentVersion $UserBaseDirectory $UserDocumentsDirectory " ++
      js "$Username $UserName $UserURLBase $Version $VersionNumber $VoiceStyles $WolframID $WolframUUID"));
      Contains [CRef m1; CRef QUOTE_STRING_MODE; CRef C_NUMBER_MODE]].

(** matlab *)
Definition lang_matlab : M language :=
  let TRANSPOSE_RE := js "('|\.')+" in
  let* m1 := new [Begin TRANSPOSE_RE] in
  let* TRANSPOSE := new [Relevance 0; Contains [CRef m1]] in
  let* m2 := new [ClassName (js "params"); Variants [[Begin (js "\("); End_ (js "\)")]; [Begin (js "\[");
      End_ (js "\]")]]] in
  let* m3 := new [ClassName (js "function"); BeginKeywords (js "function"); End_ (js "$");
      Contains [CRef UNDERSCORE_TITLE_MODE; CRef m2]] in
  let* m4 := new [ClassName (js "built_in"); Begin (js "true|false"); Relevance 0; Starts TRANSPOSE] in
  let* m5 := new [Begin (js "[a-zA-Z][a-zA-Z_0-9]*" ++ TRANSPOSE_RE); Relevance 0] in
  let* m6 := new [ClassName (js "number"); Begin C_NUMBER_RE; Relevance 0; Starts TRANSPOSE] in
  let* m7 := new [Begin (js "''")] in
  let* m8 := new [ClassName (js "string"); Begin (js "'"); End_ (js "'"); Contains [CRef BACKSLASH_ESCAPE;
      CRef m7]] in
  let* m9 := new [Begin (js "\]|}|\)"); Relevance 0; Starts TRANSPOSE] in
  let* m10 := new [Begin (js "＂＂")] in
  let* m11 := new [ClassName (js "string"); Begin (js "＂"); End_ (js "＂"); Contains [CRef BACKSLASH_ESCAPE;
      CRef m10]; Starts TRANSPOSE] in
  let* m12 := COMMENT (js "^\s*\%\{\s*$") (js "^\s*\%\}\s*$") [] in
  let* m13 := COMMENT (js "\%") (js "$") [] in
  lang plain_lang [Keywords (KObj [(js "keyword", js "break case catch classdef continue else elseif end enumerated events for function " ++
      js "global if methods otherwise parfor persistent properties return spmd switch try while");
      (js "built_in", js "sin sind sinh asin asind asinh cos cosd cosh acos acosd acosh tan tand tanh atan " ++
      js "atand atan2 atanh sec secd sech asec asecd asech csc cscd csch acsc acscd acsch cot " ++
      js "cotd coth acot acotd acoth hypot exp expm1 log log1p log10 log2 pow2 realpow reallog " ++
      js "realsqrt sqrt nthroot nextpow2 abs angle complex conj imag real unwrap isreal " ++
      js "cplxpair fix floor ceil round mod rem sign airy besselj bessely besselh besseli " ++
      js "besselk beta betainc betaln ellipj ellipke erf erfc erfcx erfinv expint gamma " ++
      js "gammainc gammaln psi legendre cross dot factor isprime primes gcd lcm rat rats perms " ++
      js "nchoosek factorial cart2sph cart2pol pol2cart sph2cart hsv2rgb rgb2hsv zeros ones " ++
      js "eye repmat rand randn linspace logspace freqspace meshgrid accumarray size length " ++
      js "ndims numel disp isempty isequal isequalwithequalnans cat reshape diag blkdiag tril " ++
      js "triu fliplr flipud flipdim rot90 find sub2ind ind2sub bsxfun ndgrid permute ipermute " ++
      js "shiftdim circshift squeeze isscalar isvector ans eps realmax realmin pi i inf nan " ++
      js "isnan isinf isfinite j why compan gallery hadamard hankel hilb invhilb magic pascal " ++
      js "rosser toeplitz vander wilkinson max min nanmax nanmin mean nanmean type table " ++
      js "readtable writetable sortrows sort figure plot plot3 scatter scatter3 cellfun " ++
      js "legend intersect ismember procrustes hold num2cell ")]); Illegal (js "(//|＂|#|/\*|\s+/\w+)");
      Contains [CRef m3; CRef m4; CRef m5; CRef m6; CRef m8; CRef m9; CRef m11; CRef m12; CRef m13]].

Definition lang_maxima_BUILTIN_FUNCTIONS_1 : jsstr :=
  js " abasep abs absint absolute_real_time acos acosh acot acoth acsc acsch activate" ++
      js " addcol add_edge add_edges addmatrices addrow add_vertex add_vertices adjacency_matrix" ++
      js " adjoin adjoint af agd airy airy_ai airy_bi airy_dai airy_dbi algsys alg_type" ++
      js " alias allroots alphacharp alphanumericp amortization %and annuity_fv" ++
      js " annuity_pv antid antidiff AntiDifference append appendfile apply apply1 apply2" ++
      js " applyb1 apropos args arit_amortization arithmetic arithsum array arrayapply" ++
      js " arrayinfo arraymake arraysetapply ascii asec asech asin asinh askinteger" ++
      js " asksign assoc assoc_legendre_p assoc_legendre_q assume assume_external_byte_order" ++
      js " asympa at atan atan2 atanh atensimp atom atvalue augcoefmatrix augmented_lagrangian_method" ++
      js " av average_degree backtrace bars barsplot barsplot_description base64 base64_decode" ++
      js " bashindices batch batchload bc2 bdvac belln benefit_cost bern bernpoly bernstein_approx" ++
      js " bernstein_expand bernstein_poly bessel bessel_i bessel_j bessel_k bessel_simplify" ++
      js " bessel_y beta beta_incomplete beta_incomplete_generalized beta_incomplete_regularized" ++
      js " bezout bfallroots bffac bf_find_root bf_fmin_cobyla bfhzeta bfloat bfloatp" ++
      js " bfpsi bfpsi0 bfzeta biconnected_components bimetric binomial bipartition" ++
      js " block blockmatrixp bode_gain bode_phase bothcoef box boxplot boxplot_description" ++
      js " break bug_report build_info|10 buildq build_sample burn cabs canform canten" ++
      js " cardinality carg cartan cartesian_product catch cauchy_matrix cbffac cdf_bernoulli" ++
      js " cdf_beta cdf_binomial cdf_cauchy cdf_chi2 cdf_continuous_uniform cdf_discrete_uniform" ++
      js " cdf_exp cdf_f cdf_gamma cdf_general_finite_discrete cdf_geometric cdf_gumbel" ++
      js " cdf_hypergeometric cdf_laplace cdf_logistic cdf_lognormal cdf_negative_binomial" ++
      js " cdf_noncentral_chi2 cdf_noncentral_student_t cdf_normal cdf_pareto cdf_poisson" ++
      js " cdf_rank_sum cdf_rayleigh cdf_signed_rank cdf_student_t cdf_weibull cdisplay" ++
      js " ceiling central_moment cequal cequalignore cf cfdisrep cfexpand cgeodesic" ++
      js " cgreaterp cgreaterpignore changename changevar chaosgame charat charfun charfun2" ++
      js " charlist charp charpoly chdir chebyshev_t chebyshev_u checkdiv check_overlaps" ++
      js " chinese cholesky christof chromatic_index chromatic_number cint circulant_graph" ++
      js " clear_edge_weight clear_rules clear_vertex_label clebsch_gordan clebsch_graph" ++
      js " clessp clesspignore close closefile cmetric coeff coefmatrix cograd col collapse" ++
      js " collectterms columnop columnspace columnswap columnvector combination combine" ++
      js " comp2pui compare compfile compile compile_file complement_graph complete_bipartite_graph" ++
      js " complete_graph complex_number_p components compose_functions concan concat" ++
      js " conjugate conmetderiv connected_components connect_vertices cons constant" ++
      js " constantp constituent constvalue cont2part content continuous_freq contortion" ++
      js " contour_plot contract contract_edge contragrad contrib_ode convert coord" ++
      js " copy copy_file copy_graph copylist copymatrix cor cos cosh cot coth cov cov1" ++
      js " covdiff covect covers crc24sum create_graph create_list csc csch csetup cspline" ++
      js " ctaylor ct_coordsys ctransform ctranspose cube_graph cuboctahedron_graph" ++
      js " cunlisp cv cycle_digraph cycle_graph cylindrical days360 dblint deactivate" ++
      js " declare declare_constvalue declare_dimensions declare_fundamental_dimensions" ++
      js " declare_fundamental_units declare_qty declare_translated declare_unit_conversion" ++
      js " declare_units declare_weights decsym defcon define define_alt_display define_variable" ++
      js " defint defmatch defrule defstruct deftaylor degree_sequence del delete deleten" ++
      js " delta demo demoivre denom depends derivdegree derivlist describe desolve" ++
      js " determinant dfloat dgauss_a dgauss_b dgeev dgemm dgeqrf dgesv dgesvd diag" ++
      js " diagmatrix diag_matrix diagmatrixp diameter diff digitcharp dimacs_export" ++
      js " dimacs_import dimension dimensionless dimensions dimensions_as_list direct" ++
      js " directory discrete_freq disjoin disjointp disolate disp dispcon dispform" ++
      js " dispfun dispJordan display disprule dispterms distrib divide divisors divsum" ++
      js " dkummer_m dkummer_u dlange dodecahedron_graph dotproduct dotsimp dpart" ++
      js " draw draw2d draw3d drawdf draw_file draw_graph dscalar echelon edge_coloring" ++
      js " edge_connectivity edges eigens_by_jacobi eigenvalues eigenvectors eighth" ++
      js " einstein eivals eivects elapsed_real_time elapsed_run_time ele2comp ele2polynome" ++
      js " ele2pui elem elementp elevation_grid elim elim_allbut eliminate eliminate_using" ++
      js " ellipse elliptic_e elliptic_ec elliptic_eu elliptic_f elliptic_kc elliptic_pi" ++
      js " ematrix empty_graph emptyp endcons entermatrix entertensor entier equal equalp" ++
      js " equiv_classes erf erfc erf_generalized erfi errcatch error errormsg errors" ++
      js " euler ev eval_string evenp every evolution evolution2d evundiff example exp" ++
      js " expand expandwrt expandwrt_factored expint expintegral_chi expintegral_ci" ++
      js " expintegral_e expintegral_e1 expintegral_ei expintegral_e_simplify expintegral_li" ++
      js " expintegral_shi expintegral_si explicit explose exponentialize express expt" ++
      js " exsec extdiff extract_linear_equations extremal_subset ezgcd %f f90 facsum" ++
      js " factcomb factor factorfacsum factorial factorout factorsum facts fast_central_elements" ++
      js " fast_linsolve fasttimes featurep fernfale fft fib fibtophi fifth filename_merge" ++
      js " file_search file_type fillarray findde find_root find_root_abs find_root_error" ++
      js " find_root_rel first fix flatten flength float floatnump floor flower_snark" ++
      js " flush flush1deriv flushd flushnd flush_output fmin_cobyla forget fortran" ++
      js " fourcos fourexpand fourier fourier_elim fourint fourintcos fourintsin foursimp" ++
      js " foursin fourth fposition frame_bracket freeof freshline fresnel_c fresnel_s" ++
      js " from_adjacency_matrix frucht_graph full_listify fullmap fullmapl fullratsimp" ++
      js " fullratsubst fullsetify funcsolve fundamental_dimensions fundamental_units" ++
      js " fundef funmake funp fv g0 g1 gamma gamma_greek gamma_incomplete gamma_incomplete_generalized" ++
      js " gamma_incomplete_regularized gauss gauss_a gauss_b gaussprob gcd gcdex gcdivide" ++
      js " gcfac gcfactor gd generalized_lambert_w genfact gen_laguerre genmatrix gensym" ++
      js " geo_amortization geo_annuity_fv geo_annuity_pv geomap geometric geometric_mean" ++
      js " geosum get getcurrentdirectory get_edge_weight getenv get_lu_factors get_output_stream_string" ++
      js " get_pixel get_plot_option get_tex_environment get_tex_environment_default" ++
      js " get_vertex_label gfactor gfactorsum ggf girth global_variances gn gnuplot_close" ++
      js " gnuplot_replot gnuplot_reset gnuplot_restart gnuplot_start go Gosper GosperSum" ++
      js " gr2d gr3d gradef gramschmidt graph6_decode graph6_encode graph6_export graph6_import" ++
      js " graph_center graph_charpoly graph_eigenvalues graph_flow graph_order graph_periphery" ++
      js " graph_product graph_size graph_union great_rhombicosidodecahedron_graph great_rhombicuboctahedron_graph" ++
      js " grid_graph grind grobner_basis grotzch_graph hamilton_cycle hamilton_path" ++
      js " hankel hankel_1 hankel_2 harmonic harmonic_mean hav heawood_graph hermite" ++
      js " hessian hgfred hilbertmap hilbert_matrix hipow histogram histogram_description" ++
      js " hodge horner hypergeometric i0 i1 %ibes ic1 ic2 ic_convert ichr1 ichr2 icosahedron_graph" ++
      js " icosidodecahedron_graph icurvature ident identfor identity idiff idim idummy" ++
      js " ieqn %if ifactors iframes ifs igcdex igeodesic_coords ilt image imagpart" ++
      js " imetric implicit implicit_derivative implicit_plot indexed_tensor indices" ++
      js " induced_subgraph inferencep inference_result infix info_display init_atensor" ++
      js " init_ctensor in_neighbors innerproduct inpart inprod inrt integerp integer_partitions" ++
      js " integrate intersect intersection intervalp intopois intosum invariant1 invariant2" ++
      js " inverse_fft inverse_jacobi_cd inverse_jacobi_cn inverse_jacobi_cs inverse_jacobi_dc" ++
      js " inverse_jacobi_dn inverse_jacobi_ds inverse_jacobi_nc inverse_jacobi_nd inverse_jacobi_ns" ++
      js " inverse_jacobi_sc inverse_jacobi_sd inverse_jacobi_sn invert invert_by_adjoint" ++
      js " invert_by_lu inv_mod irr is is_biconnected is_bipartite is_connected is_digraph" ++
      js " is_edge_in_graph is_graph is_graph_or_digraph ishow is_isomorphic isolate" ++
      js " isomorphism is_planar isqrt isreal_p is_sconnected is_tree is_vertex_in_graph" ++
      js " items_inference %j j0 j1 jacobi jacobian jacobi_cd jacobi_cn jacobi_cs jacobi_dc" ++
      js " jacobi_dn jacobi_ds jacobi_nc jacobi_nd jacobi_ns jacobi_p jacobi_sc jacobi_sd" ++
      js " jacobi_sn JF jn join jordan julia julia_set julia_sin %k kdels kdelta kill" ++
      js " killcontext kostka kron_delta kronecker_product kummer_m kummer_u kurtosis" ++
      js " kurtosis_bernoulli kurtosis_beta kurtosis_binomial kurtosis_chi2 kurtosis_continuous_uniform" ++
      js " kurtosis_discrete_uniform kurtosis_exp kurtosis_f kurtosis_gamma kurtosis_general_finite_discrete" ++
      js " kurtosis_geometric kurtosis_gumbel kurtosis_hypergeometric kurtosis_laplace" ++
      js " kurtosis_logistic kurtosis_lognormal kurtosis_negative_binomial kurtosis_noncentral_chi2" ++
      js " kurtosis_noncentral_student_t kurtosis_normal kurtosis_pareto kurtosis_poisson" ++
      js " kurtosis_rayleigh kurtosis_student_t kurtosis_weibull label labels lagrange" ++
      js " laguerre lambda lambert_w laplace laplacian_matrix last lbfgs lc2kdt lcharp" ++
      js " lc_l lcm lc_u ldefint ldisp ldisplay legendre_p legendre_q leinstein length" ++
      js " let letrules letsimp levi_civita lfreeof lgtreillis lhs li liediff limit" ++
      js " Lindstedt linear linearinterpol linear_program linear_regression line_graph" ++
      js " linsolve listarray list_correlations listify list_matrix_entries list_nc_monomials" ++
      js " listoftens listofvars listp lmax lmin load loadfile local locate_matrix_entry" ++
      js " log logcontract log_gamma lopow lorentz_gauge lowercasep lpart lratsubst" ++
      js " lreduce lriemann lsquares_estimates lsquares_estimates_approximate lsquares_estimates_exact" ++
      js " lsquares_mse lsquares_residual_mse lsquares_residuals lsum ltreillis lu_backsub" ++
      js " lucas lu_factor %m macroexpand macroexpand1 make_array makebox makefact makegamma" ++
      js " make_graph make_level_picture makelist makeOrders make_poly_continent make_poly_country" ++
      js " make_polygon make_random_state make_rgb_picture makeset make_string_input_stream" ++
      js " make_string_output_stream make_transform mandelbrot mandelbrot_set map mapatom" ++
      js " maplist matchdeclare matchfix mat_cond mat_fullunblocker mat_function mathml_display" ++
      js " mat_norm matrix matrixmap matrixp matrix_size mattrace mat_trace mat_unblocker" ++
      js " max max_clique max_degree max_flow maximize_lp max_independent_set max_matching" ++
      js " maybe md5sum mean mean_bernoulli mean_beta mean_binomial mean_chi2 mean_continuous_uniform" ++
      js " mean_deviation mean_discrete_uniform mean_exp mean_f mean_gamma mean_general_finite_discrete" ++
      js " mean_geometric mean_gumbel mean_hypergeometric mean_laplace mean_logistic" ++
      js " mean_lognormal mean_negative_binomial mean_noncentral_chi2 mean_noncentral_student_t" ++
      js " mean_normal mean_pareto mean_poisson mean_rayleigh mean_student_t mean_weibull" ++
      js " median median_deviation member mesh metricexpandall mgf1_sha1 min min_degree" ++
      js " min_edge_cut minfactorial minimalPoly minimize_lp minimum_spanning_tree minor" ++
      js " minpack_lsquares minpack_solve min_vertex_cover min_vertex_cut mkdir mnewton" ++
      js " mod mode_declare mode_identity ModeMatrix moebius mon2schur mono monomial_dimensions" ++
      js " multibernstein_poly multi_display_for_texinfo multi_elem multinomial multinomial_coeff" ++
      js " multi_orbit multiplot_mode multi_pui multsym multthru mycielski_graph nary" ++
      js " natural_unit nc_degree ncexpt ncharpoly negative_picture neighbors new newcontext" ++
      js " newdet new_graph newline newton new_variable next_prime nicedummies niceindices" ++
      js " ninth nofix nonarray noncentral_moment nonmetricity nonnegintegerp nonscalarp" ++
      js " nonzeroandfreeof notequal nounify nptetrad npv nroots nterms ntermst" ++
      js " nthroot nullity nullspace num numbered_boundaries numberp number_to_octets".

Definition lang_maxima_BUILTIN_FUNCTIONS_2 : jsstr :=
  js " num_distinct_partitions numerval numfactor num_partitions nusum nzeta nzetai" ++
      js " nzetar octets_to_number octets_to_oid odd_girth oddp ode2 ode_check odelin" ++
      js " oid_to_octets op opena opena_binary openr openr_binary openw openw_binary" ++
      js " operatorp opsubst optimize %or orbit orbits ordergreat ordergreatp orderless" ++
      js " orderlessp orthogonal_complement orthopoly_recur orthopoly_weight outermap" ++
      js " out_neighbors outofpois pade parabolic_cylinder_d parametric parametric_surface" ++
      js " parg parGosper parse_string parse_timedate part part2cont partfrac partition" ++
      js " partition_set partpol path_digraph path_graph pathname_directory pathname_name" ++
      js " pathname_type pdf_bernoulli pdf_beta pdf_binomial pdf_cauchy pdf_chi2 pdf_continuous_uniform" ++
      js " pdf_discrete_uniform pdf_exp pdf_f pdf_gamma pdf_general_finite_discrete" ++
      js " pdf_geometric pdf_gumbel pdf_hypergeometric pdf_laplace pdf_logistic pdf_lognormal" ++
      js " pdf_negative_binomial pdf_noncentral_chi2 pdf_noncentral_student_t pdf_normal" ++
      js " pdf_pareto pdf_poisson pdf_rank_sum pdf_rayleigh pdf_signed_rank pdf_student_t" ++
      js " pdf_weibull pearson_skewness permanent permut permutation permutations petersen_graph" ++
      js " petrov pickapart picture_equalp picturep piechart piechart_description planar_embedding" ++
      js " playback plog plot2d plot3d plotdf ploteq plsquares pochhammer points poisdiff" ++
      js " poisexpt poisint poismap poisplus poissimp poissubst poistimes poistrim polar" ++
      js " polarform polartorect polar_to_xy poly_add poly_buchberger poly_buchberger_criterion" ++
      js " poly_colon_ideal poly_content polydecomp poly_depends_p poly_elimination_ideal" ++
      js " poly_exact_divide poly_expand poly_expt poly_gcd polygon poly_grobner poly_grobner_equal" ++
      js " poly_grobner_member poly_grobner_subsetp poly_ideal_intersection poly_ideal_polysaturation" ++
      js " poly_ideal_polysaturation1 poly_ideal_saturation poly_ideal_saturation1 poly_lcm" ++
      js " poly_minimization polymod poly_multiply polynome2ele polynomialp poly_normal_form" ++
      js " poly_normalize poly_normalize_list poly_polysaturation_extension poly_primitive_part" ++
      js " poly_pseudo_divide poly_reduced_grobner poly_reduction poly_saturation_extension" ++
      js " poly_s_polynomial poly_subtract polytocompanion pop postfix potential power_mod" ++
      js " powerseries powerset prefix prev_prime primep primes principal_components" ++
      js " print printf printfile print_graph printpois printprops prodrac product properties" ++
      js " propvars psi psubst ptriangularize pui pui2comp pui2ele pui2polynome pui_direct" ++
      js " puireduc push put pv qput qrange qty quad_control quad_qag quad_qagi quad_qagp" ++
      js " quad_qags quad_qawc quad_qawf quad_qawo quad_qaws quadrilateral quantile" ++
      js " quantile_bernoulli quantile_beta quantile_binomial quantile_cauchy quantile_chi2" ++
      js " quantile_continuous_uniform quantile_discrete_uniform quantile_exp quantile_f" ++
      js " quantile_gamma quantile_general_finite_discrete quantile_geometric quantile_gumbel" ++
      js " quantile_hypergeometric quantile_laplace quantile_logistic quantile_lognormal" ++
      js " quantile_negative_binomial quantile_noncentral_chi2 quantile_noncentral_student_t" ++
      js " quantile_normal quantile_pareto quantile_poisson quantile_rayleigh quantile_student_t" ++
      js " quantile_weibull quartile_skewness quit qunit quotient racah_v racah_w radcan" ++
      js " radius random random_bernoulli random_beta random_binomial random_bipartite_graph" ++
      js " random_cauchy random_chi2 random_continuous_uniform random_digraph random_discrete_uniform" ++
      js " random_exp random_f random_gamma random_general_finite_discrete random_geometric" ++
      js " random_graph random_graph1 random_gumbel random_hypergeometric random_laplace" ++
      js " random_logistic random_lognormal random_negative_binomial random_network" ++
      js " random_noncentral_chi2 random_noncentral_student_t random_normal random_pareto" ++
      js " random_permutation random_poisson random_rayleigh random_regular_graph random_student_t" ++
      js " random_tournament random_tree random_weibull range rank rat ratcoef ratdenom" ++
      js " ratdiff ratdisrep ratexpand ratinterpol rational rationalize ratnumer ratnump" ++
      js " ratp ratsimp ratsubst ratvars ratweight read read_array read_binary_array" ++
      js " read_binary_list read_binary_matrix readbyte readchar read_hashed_array readline" ++
      js " read_list read_matrix read_nested_list readonly read_xpm real_imagpart_to_conjugate" ++
      js " realpart realroots rearray rectangle rectform rectform_log_if_constant recttopolar" ++
      js " rediff reduce_consts reduce_order region region_boundaries region_boundaries_plus" ++
      js " rem remainder remarray rembox remcomps remcon remcoord remfun remfunction" ++
      js " remlet remove remove_constvalue remove_dimensions remove_edge remove_fundamental_dimensions" ++
      js " remove_fundamental_units remove_plot_option remove_vertex rempart remrule" ++
      js " remsym remvalue rename rename_file reset reset_displays residue resolvante" ++
      js " resolvante_alternee1 resolvante_bipartite resolvante_diedrale resolvante_klein" ++
      js " resolvante_klein3 resolvante_produit_sym resolvante_unitaire resolvante_vierer" ++
      js " rest resultant return reveal reverse revert revert2 rgb2level rhs ricci riemann" ++
      js " rinvariant risch rk rmdir rncombine romberg room rootscontract round row" ++
      js " rowop rowswap rreduce run_testsuite %s save saving scalarp scaled_bessel_i" ++
      js " scaled_bessel_i0 scaled_bessel_i1 scalefactors scanmap scatterplot scatterplot_description" ++
      js " scene schur2comp sconcat scopy scsimp scurvature sdowncase sec sech second" ++
      js " sequal sequalignore set_alt_display setdifference set_draw_defaults set_edge_weight" ++
      js " setelmx setequalp setify setp set_partitions set_plot_option set_prompt set_random_state" ++
      js " set_tex_environment set_tex_environment_default setunits setup_autoload set_up_dot_simplifications" ++
      js " set_vertex_label seventh sexplode sf sha1sum sha256sum shortest_path shortest_weighted_path" ++
      js " show showcomps showratvars sierpinskiale sierpinskimap sign signum similaritytransform" ++
      js " simp_inequality simplify_sum simplode simpmetderiv simtran sin sinh sinsert" ++
      js " sinvertcase sixth skewness skewness_bernoulli skewness_beta skewness_binomial" ++
      js " skewness_chi2 skewness_continuous_uniform skewness_discrete_uniform skewness_exp" ++
      js " skewness_f skewness_gamma skewness_general_finite_discrete skewness_geometric" ++
      js " skewness_gumbel skewness_hypergeometric skewness_laplace skewness_logistic" ++
      js " skewness_lognormal skewness_negative_binomial skewness_noncentral_chi2 skewness_noncentral_student_t" ++
      js " skewness_normal skewness_pareto skewness_poisson skewness_rayleigh skewness_student_t" ++
      js " skewness_weibull slength smake small_rhombicosidodecahedron_graph small_rhombicuboctahedron_graph" ++
      js " smax smin smismatch snowmap snub_cube_graph snub_dodecahedron_graph solve" ++
      js " solve_rec solve_rec_rat some somrac sort sparse6_decode sparse6_encode sparse6_export" ++
      js " sparse6_import specint spherical spherical_bessel_j spherical_bessel_y spherical_hankel1" ++
      js " spherical_hankel2 spherical_harmonic spherical_to_xyz splice split sposition" ++
      js " sprint sqfr sqrt sqrtdenest sremove sremovefirst sreverse ssearch ssort sstatus" ++
      js " ssubst ssubstfirst staircase standardize standardize_inverse_trig starplot" ++
      js " starplot_description status std std1 std_bernoulli std_beta std_binomial" ++
      js " std_chi2 std_continuous_uniform std_discrete_uniform std_exp std_f std_gamma" ++
      js " std_general_finite_discrete std_geometric std_gumbel std_hypergeometric std_laplace" ++
      js " std_logistic std_lognormal std_negative_binomial std_noncentral_chi2 std_noncentral_student_t" ++
      js " std_normal std_pareto std_poisson std_rayleigh std_student_t std_weibull" ++
      js " stemplot stirling stirling1 stirling2 strim striml strimr string stringout" ++
      js " stringp strong_components struve_h struve_l sublis sublist sublist_indices" ++
      js " submatrix subsample subset subsetp subst substinpart subst_parallel substpart" ++
      js " substring subvar subvarp sum sumcontract summand_to_rec supcase supcontext" ++
      js " symbolp symmdifference symmetricp system take_channel take_inference tan" ++
      js " tanh taylor taylorinfo taylorp taylor_simplifier taytorat tcl_output tcontract" ++
      js " tellrat tellsimp tellsimpafter tentex tenth test_mean test_means_difference" ++
      js " test_normality test_proportion test_proportions_difference test_rank_sum" ++
      js " test_sign test_signed_rank test_variance test_variance_ratio tex tex1 tex_display" ++
      js " texput %th third throw time timedate timer timer_info tldefint tlimit todd_coxeter" ++
      js " toeplitz tokens to_lisp topological_sort to_poly to_poly_solve totaldisrep" ++
      js " totalfourier totient tpartpol trace tracematrix trace_options transform_sample" ++
      js " translate translate_file transpose treefale tree_reduce treillis treinat" ++
      js " triangle triangularize trigexpand trigrat trigreduce trigsimp trunc truncate" ++
      js " truncated_cube_graph truncated_dodecahedron_graph truncated_icosahedron_graph" ++
      js " truncated_tetrahedron_graph tr_warnings_get tube tutte_graph ueivects uforget" ++
      js " ultraspherical underlying_graph undiff union unique uniteigenvectors unitp" ++
      js " units unit_step unitvector unorder unsum untellrat untimer" ++
      js " untrace uppercasep uricci uriemann uvect vandermonde_matrix var var1 var_bernoulli" ++
      js " var_beta var_binomial var_chi2 var_continuous_uniform var_discrete_uniform" ++
      js " var_exp var_f var_gamma var_general_finite_discrete var_geometric var_gumbel" ++
      js " var_hypergeometric var_laplace var_logistic var_lognormal var_negative_binomial" ++
      js " var_noncentral_chi2 var_noncentral_student_t var_normal var_pareto var_poisson" ++
      js " var_rayleigh var_student_t var_weibull vector vectorpotential vectorsimp" ++
      js " verbify vers vertex_coloring vertex_connectivity vertex_degree vertex_distance" ++
      js " vertex_eccentricity vertex_in_degree vertex_out_degree vertices vertices_to_cycle" ++
      js " vertices_to_path %w weyl wheel_graph wiener_index wigner_3j wigner_6j" ++
      js " wigner_9j with_stdout write_binary_data writebyte write_data writefile wronskian" ++
      js " xreduce xthru %y Zeilberger zeroequiv zerofor zeromatrix zeromatrixp zeta" ++
      js " zgeev zheev zlange zn_add_table zn_carmichael_lambda zn_characteristic_factors" ++
      js " zn_determinant zn_factor_generators zn_invert_by_lu zn_log zn_mult_table" ++
      js " absboxchar activecontexts adapt_depth additive adim aform algebraic" ++
      js " algepsilon algexact aliases allbut all_dotsimp_denoms allocation allsym alphabetic" ++
      js " animation antisymmetric arrays askexp assume_pos assume_pos_pred assumescalar" ++
      js " asymbol atomgrad atrig1 axes axis_3d axis_bottom axis_left axis_right axis_top" ++
      js " azimuth background background_color backsubst berlefact bernstein_explicit" ++
      js " besselexpand beta_args_sum_to_integer beta_expand bftorat bftrunc bindtest" ++
      js " border boundaries_array box boxchar breakup %c capping cauchysum cbrange" ++
      js " cbtics center cflength cframe_flag cnonmet_flag color color_bar color_bar_tics" ++
      js " colorbox columns commutative complex cone context contexts contour contour_levels" ++
      js " cosnpiflag ctaypov ctaypt ctayswitch ctayvar ct_coords ctorsion_flag ctrgsimp" ++
      js " cube current_let_rule_package cylinder data_file_name debugmode decreasing" ++
      js " default_let_rule_package delay dependencies derivabbrev derivsubst detout" ++
      js " diagmetric diff dim dimensions dispflag display2d|10 display_format_internal" ++
      js " distribute_over doallmxops domain domxexpt domxmxops domxnctimes dontfactor" ++
      js " doscmxops doscmxplus dot0nscsimp dot0simp dot1simp dotassoc dotconstrules" ++
      js " dotdistrib dotexptsimp dotident dotscrules draw_graph_program draw_realpart" ++
      js " edge_color edge_coloring edge_partition edge_type edge_width %edispflag" ++
      js " elevation %emode endphi endtheta engineering_format_floats enhanced3d %enumer" ++
      js " epsilon_lp erfflag erf_representation errormsg error_size error_syms error_type" ++
      js " %e_to_numlog eval even evenfun evflag evfun ev_point expandwrt_denom expintexpand" ++
      js " expintrep expon expop exptdispflag exptisolate exptsubst facexpand facsum_combine" ++
      js " factlim factorflag factorial_expand factors_only fb feature features".

Definition lang_maxima_BUILTIN_FUNCTIONS_3 : jsstr :=
  js " file_name file_output_append file_search_demo file_search_lisp file_search_maxima|10" ++
      js " file_search_tests file_search_usage file_type_lisp file_type_maxima|10 fill_color" ++
      js " fill_density filled_func fixed_vertices flipflag float2bf font font_size" ++
      js " fortindent fortspaces fpprec fpprintprec functions gamma_expand gammalim" ++
      js " gdet genindex gensumnum GGFCFMAX GGFINFINITY globalsolve gnuplot_command" ++
      js " gnuplot_curve_styles gnuplot_curve_titles gnuplot_default_term_command gnuplot_dumb_term_command" ++
      js " gnuplot_file_args gnuplot_file_name gnuplot_out_file gnuplot_pdf_term_command" ++
      js " gnuplot_pm3d gnuplot_png_term_command gnuplot_postamble gnuplot_preamble" ++
      js " gnuplot_ps_term_command gnuplot_svg_term_command gnuplot_term gnuplot_view_args" ++
      js " Gosper_in_Zeilberger gradefs grid grid2d grind halfangles head_angle head_both" ++
      js " head_length head_type height hypergeometric_representation %iargs ibase" ++
      js " icc1 icc2 icounter idummyx ieqnprint ifb ifc1 ifc2 ifg ifgi ifr iframe_bracket_form" ++
      js " ifri igeowedge_flag ikt1 ikt2 imaginary inchar increasing infeval" ++
      js " infinity inflag infolists inm inmc1 inmc2 intanalysis integer integervalued" ++
      js " integrate_use_rootsof integration_constant integration_constant_counter interpolate_color" ++
      js " intfaclim ip_grid ip_grid_in irrational isolate_wrt_times iterations itr" ++
      js " julia_parameter %k1 %k2 keepfloat key key_pos kinvariant kt label label_alignment" ++
      js " label_orientation labels lassociative lbfgs_ncorrections lbfgs_nfeval_max" ++
      js " leftjust legend letrat let_rule_packages lfg lg lhospitallim limsubst linear" ++
      js " linear_solver linechar linel|10 linenum line_type linewidth line_width linsolve_params" ++
      js " linsolvewarn lispdisp listarith listconstvars listdummyvars lmxchar load_pathname" ++
      js " loadprint logabs logarc logcb logconcoeffp logexpand lognegint logsimp logx" ++
      js " logx_secondary logy logy_secondary logz lriem m1pbranch macroexpansion macros" ++
      js " mainvar manual_demo maperror mapprint matrix_element_add matrix_element_mult" ++
      js " matrix_element_transpose maxapplydepth maxapplyheight maxima_tempdir|10 maxima_userdir|10" ++
      js " maxnegex MAX_ORD maxposex maxpsifracdenom maxpsifracnum maxpsinegint maxpsiposint" ++
      js " maxtayorder mesh_lines_color method mod_big_prime mode_check_errorp" ++
      js " mode_checkp mode_check_warnp mod_test mod_threshold modular_linear_solver" ++
      js " modulus multiplicative multiplicities myoptions nary negdistrib negsumdispflag" ++
      js " newline newtonepsilon newtonmaxiter nextlayerfactor niceindicespref nm nmc" ++
      js " noeval nolabels nonegative_lp noninteger nonscalar noun noundisp nouns np" ++
      js " npi nticks ntrig numer numer_pbranch obase odd oddfun opacity opproperties" ++
      js " opsubst optimprefix optionset orientation origin orthopoly_returns_intervals" ++
      js " outative outchar packagefile palette partswitch pdf_file pfeformat phiresolution" ++
      js " %piargs piece pivot_count_sx pivot_max_sx plot_format plot_options plot_realpart" ++
      js " png_file pochhammer_max_index points pointsize point_size points_joined point_type" ++
      js " poislim poisson poly_coefficient_ring poly_elimination_order polyfactor poly_grobner_algorithm" ++
      js " poly_grobner_debug poly_monomial_order poly_primary_elimination_order poly_return_term_list" ++
      js " poly_secondary_elimination_order poly_top_reduction_only posfun position" ++
      js " powerdisp pred prederror primep_number_of_tests product_use_gamma program" ++
      js " programmode promote_float_to_bigfloat prompt proportional_axes props psexpand" ++
      js " ps_file radexpand radius radsubstflag rassociative ratalgdenom ratchristof" ++
      js " ratdenomdivide rateinstein ratepsilon ratfac rational ratmx ratprint ratriemann" ++
      js " ratsimpexpons ratvarswitch ratweights ratweyl ratwtlvl real realonly redraw" ++
      js " refcheck resolution restart resultant ric riem rmxchar %rnum_list rombergabs" ++
      js " rombergit rombergmin rombergtol rootsconmode rootsepsilon run_viewer same_xy" ++
      js " same_xyz savedef savefactors scalar scalarmatrixp scale scale_lp setcheck" ++
      js " setcheckbreak setval show_edge_color show_edges show_edge_type show_edge_width" ++
      js " show_id show_label showtime show_vertex_color show_vertex_size show_vertex_type" ++
      js " show_vertices show_weight simp simplified_output simplify_products simpproduct" ++
      js " simpsum sinnpiflag solvedecomposes solveexplicit solvefactors solvenullwarn" ++
      js " solveradcan solvetrigwarn space sparse sphere spring_embedding_depth sqrtdispflag" ++
      js " stardisp startphi starttheta stats_numer stringdisp structures style sublis_apply_lambda" ++
      js " subnumsimp sumexpand sumsplitfact surface surface_hide svg_file symmetric" ++
      js " tab taylordepth taylor_logexpand taylor_order_coefficients taylor_truncate_polynomials" ++
      js " tensorkill terminal testsuite_files thetaresolution timer_devalue title tlimswitch" ++
      js " tr track transcompile transform transform_xy translate_fast_arrays transparent" ++
      js " transrun tr_array_as_ref tr_bound_function_applyp tr_file_tty_messagesp tr_float_can_branch_complex" ++
      js " tr_function_call_default trigexpandplus trigexpandtimes triginverses trigsign" ++
      js " trivial_solutions tr_numer tr_optimize_max_loop tr_semicompile tr_state_vars" ++
      js " tr_warn_bad_function_calls tr_warn_fexpr tr_warn_meval tr_warn_mode" ++
      js " tr_warn_undeclared tr_warn_undefined_variable tstep ttyoff tube_extremes" ++
      js " ufg ug %unitexpand unit_vectors uric uriem use_fast_arrays user_preamble" ++
      js " usersetunits values vect_cross verbose vertex_color vertex_coloring vertex_partition" ++
      js " vertex_size vertex_type view warnings weyl width windowname windowtitle wired_surface" ++
      js " wireframe xaxis xaxis_color xaxis_secondary xaxis_type xaxis_width xlabel" ++
      js " xlabel_secondary xlength xrange xrange_secondary xtics xtics_axis xtics_rotate" ++
      js " xtics_rotate_secondary xtics_secondary xtics_secondary_axis xu_grid x_voxel" ++
      js " xy_file xyplane xy_scale yaxis yaxis_color yaxis_secondary yaxis_type yaxis_width" ++
      js " ylabel ylabel_secondary ylength yrange yrange_secondary ytics ytics_axis" ++
      js " ytics_rotate ytics_rotate_secondary ytics_secondary ytics_secondary_axis" ++
      js " yv_grid y_voxel yx_ratio zaxis zaxis_color zaxis_type zaxis_width zeroa zerob" ++
      js " zerobern zeta%pi zlabel zlabel_rotate zlength zmin zn_primroot_limit zn_primroot_pretest".

Definition lang_maxima_BUILTIN_FUNCTIONS : jsstr :=
  lang_maxima_BUILTIN_FUNCTIONS_1 ++ lang_maxima_BUILTIN_FUNCTIONS_2 ++ lang_maxima_BUILTIN_FUNCTIONS_3.

(** maxima *)
Definition lang_maxima : M language :=
  let KEYWORDS := js "if then else elseif for thru do while unless step in and or not" in
  let LITERALS := js "true false unknown inf minf ind und %e %i %pi %phi %gamma" in
  let SYMBOLS := js "_ __ %|0 %%|0" in
  let* m1 := new [ClassName (js "comment"); Begin (js "/\*"); End_ (js "\*/"); Contains [CSelf]] in
  let* m2 := new [ClassName (js "number"); Relevance 0;
      Variants [[Begin (js "\b(\d+|\d+\.|\.\d+|\d+\.\d+)[Ee][-+]?\d+\b")];
      [Begin (js "\b(\d+|\d+\.|\.\d+|\d+\.\d+)[Bb][-+]?\d+\b"); Relevance 10]; [Begin (js "\b(\.\d+|\d+\.\d+)\b")];
      [Begin (js "\b(\d+|0[0-9A-Za-z]+)\.?\b")]]] in
  lang plain_lang [Lexemes (js "[A-Za-z_%][0-9A-Za-z_%]*"); Keywords (KObj [(js "keyword", KEYWORDS);
      (js "literal", LITERALS); (js "built_in", lang_maxima_BUILTIN_FUNCTIONS); (js "symbol", SYMBOLS)]);
      Contains [CRef m1; CRef QUOTE_STRING_MODE; CRef m2]; Illegal (js "@")].

Definition lang_mel_keywords_1 : jsstr :=
  js "int float string vector matrix if else switch case default while do for in break " ++
      js "continue global proc return about abs addAttr addAttributeEditorNodeHelp addDynamic " ++
      js "addNewShelfTab addPP addPanelCategory addPrefixToName advanceToNextDrivenKey " ++
      js "affectedNet affects aimConstraint air alias aliasAttr align alignCtx alignCurve " ++
      js "alignSurface allViewFit ambientLight angle angleBetween animCone animCurveEditor " ++
      js "animDisplay animView annotate appendStringArray applicationName applyAttrPreset " ++
      js "applyTake arcLenDimContext arcLengthDimension arclen arrayMapper art3dPaintCtx " ++
      js "artAttrCtx artAttrPaintVertexCtx artAttrSkinPaintCtx artAttrTool artBuildPaintMenu " ++
      js "artFluidAttrCtx artPuttyCtx artSelectCtx artSetPaintCtx artUserPaintCtx assignCommand " ++
      js "assignInputDevice assignViewportFactories attachCurve attachDeviceAttr attachSurface " ++
      js "attrColorSliderGrp attrCompatibility attrControlGrp attrEnumOptionMenu " ++
      js "attrEnumOptionMenuGrp attrFieldGrp attrFieldSliderGrp attrNavigationControlGrp " ++
      js "attrPresetEditWin attributeExists attributeInfo attributeMenu attributeQuery " ++
      js "autoKeyframe autoPlace bakeClip bakeFluidShading bakePartialHistory bakeResults " ++
      js "bakeSimulation basename basenameEx batchRender bessel bevel bevelPlus binMembership " ++
      js "bindSkin blend2 blendShape blendShapeEditor blendShapePanel blendTwoAttr blindDataType " ++
      js "boneLattice boundary boxDollyCtx boxZoomCtx bufferCurve buildBookmarkMenu " ++
      js "buildKeyframeMenu button buttonManip CBG cacheFile cacheFileCombine cacheFileMerge " ++
      js "cacheFileTrack camera cameraView canCreateManip canvas capitalizeString catch " ++
      js "catchQuiet ceil changeSubdivComponentDisplayLevel changeSubdivRegion channelBox " ++
      js "character characterMap characterOutlineEditor characterize chdir checkBox checkBoxGrp " ++
      js "checkDefaultRenderGlobals choice circle circularFillet clamp clear clearCache clip " ++
      js "clipEditor clipEditorCurrentTimeCtx clipSchedule clipSchedulerOutliner clipTrimBefore " ++
      js "closeCurve closeSurface cluster cmdFileOutput cmdScrollFieldExecuter " ++
      js "cmdScrollFieldReporter cmdShell coarsenSubdivSelectionList collision color " ++
      js "colorAtPoint colorEditor colorIndex colorIndexSliderGrp colorSliderButtonGrp " ++
      js "colorSliderGrp columnLayout commandEcho commandLine commandPort compactHairSystem " ++
      js "componentEditor compositingInterop computePolysetVolume condition cone confirmDialog " ++
      js "connectAttr connectControl connectDynamic connectJoint connectionInfo constrain " ++
      js "constrainValue constructionHistory container containsMultibyte contextInfo control " ++
      js "convertFromOldLayers convertIffToPsd convertLightmap convertSolidTx convertTessellation " ++
      js "convertUnit copyArray copyFlexor copyKey copySkinWeights cos cpButton cpCache " ++
      js "cpClothSet cpCollision cpConstraint cpConvClothToMesh cpForces cpGetSolverAttr cpPanel " ++
      js "cpProperty cpRigidCollisionFilter cpSeam cpSetEdit cpSetSolverAttr cpSolver " ++
      js "cpSolverTypes cpTool cpUpdateClothUVs createDisplayLayer createDrawCtx createEditor " ++
      js "createLayeredPsdFile createMotionField createNewShelf createNode createRenderLayer " ++
      js "createSubdivRegion cross crossProduct ctxAbort ctxCompletion ctxEditMode ctxTraverse " ++
      js "currentCtx currentTime currentTimeCtx currentUnit curve curveAddPtCtx " ++
      js "curveCVCtx curveEPCtx curveEditorCtx curveIntersect curveMoveEPCtx curveOnSurface " ++
      js "curveSketchCtx cutKey cycleCheck cylinder dagPose date defaultLightListCheckBox " ++
      js "defaultNavigation defineDataServer defineVirtualDevice deformer deg_to_rad delete " ++
      js "deleteAttr deleteShadingGroupsAndMaterials deleteShelfTab deleteUI deleteUnusedBrushes " ++
      js "delrandstr detachCurve detachDeviceAttr detachSurface deviceEditor devicePanel dgInfo " ++
      js "dgdirty dgeval dgtimer dimWhen directKeyCtx directionalLight dirmap dirname disable " ++
      js "disconnectAttr disconnectJoint diskCache displacementToPoly displayAffected " ++
      js "displayColor displayCull displayLevelOfDetail displayPref displayRGBColor " ++
      js "displaySmoothness displayStats displayString displaySurface distanceDimContext " ++
      js "distanceDimension doBlur dolly dollyCtx dopeSheetEditor dot dotProduct " ++
      js "doubleProfileBirailSurface drag dragAttrContext draggerContext dropoffLocator " ++
      js "duplicate duplicateCurve duplicateSurface dynCache dynControl dynExport dynExpression " ++
      js "dynGlobals dynPaintEditor dynParticleCtx dynPref dynRelEdPanel dynRelEditor " ++
      js "dynamicLoad editAttrLimits editDisplayLayerGlobals editDisplayLayerMembers " ++
      js "editRenderLayerAdjustment editRenderLayerGlobals editRenderLayerMembers editor " ++
      js "editorTemplate effector emit emitter enableDevice encodeString endString endsWith env " ++
      js "equivalent equivalentTol erf error eval evalDeferred evalEcho event " ++
      js "exactWorldBoundingBox exclusiveLightCheckBox exec executeForEachObject exists exp " ++
      js "expression expressionEditorListen extendCurve extendSurface extrude fcheck fclose feof " ++
      js "fflush fgetline fgetword file fileBrowserDialog fileDialog fileExtension fileInfo " ++
      js "filetest filletCurve filter filterCurve filterExpand filterStudioImport " ++
      js "findAllIntersections findAnimCurves findKeyframe findMenuItem findRelatedSkinCluster " ++
      js "finder firstParentOf fitBspline flexor floatEq floatField floatFieldGrp floatScrollBar " ++
      js "floatSlider floatSlider2 floatSliderButtonGrp floatSliderGrp floor flow fluidCacheInfo " ++
      js "fluidEmitter fluidVoxelInfo flushUndo fmod fontDialog fopen formLayout format fprint " ++
      js "frameLayout fread freeFormFillet frewind fromNativePath fwrite gamma gauss " ++
      js "geometryConstraint getApplicationVersionAsFloat getAttr getClassification " ++
      js "getDefaultBrush getFileList getFluidAttr getInputDeviceRange getMayaPanelTypes " ++
      js "getModifiers getPanel getParticleAttr getPluginResource getenv getpid glRender " ++
      js "glRenderEditor globalStitch gmatch goal gotoBindPose grabColor gradientControl " ++
      js "gradientControlNoAttr graphDollyCtx graphSelectContext graphTrackCtx gravity grid " ++
      js "gridLayout group groupObjectsByName HfAddAttractorToAS HfAssignAS HfBuildEqualMap " ++
      js "HfBuildFurFiles HfBuildFurImages HfCancelAFR HfConnectASToHF HfCreateAttractor " ++
      js "HfDeleteAS HfEditAS HfPerformCreateAS HfRemoveAttractorFromAS HfSelectAttached " ++
      js "HfSelectAttractors HfUnAssignAS hardenPointCurve hardware hardwareRenderPanel " ++
      js "headsUpDisplay headsUpMessage help helpLine hermite hide hilite hitTest hotBox hotkey " ++
      js "hotkeyCheck hsv_to_rgb hudButton hudSlider hudSliderButton hwReflectionMap hwRender " ++
      js "hwRenderLoad hyperGraph hyperPanel hyperShade hypot iconTextButton iconTextCheckBox " ++
      js "iconTextRadioButton iconTextRadioCollection iconTextScrollList iconTextStaticLabel " ++
      js "ikHandle ikHandleCtx ikHandleDisplayScale ikSolver ikSplineHandleCtx ikSystem " ++
      js "ikSystemInfo ikfkDisplayMethod illustratorCurves image imfPlugins inheritTransform " ++
      js "insertJoint insertJointCtx insertKeyCtx insertKnotCurve insertKnotSurface instance " ++
      js "instanceable instancer intField intFieldGrp intScrollBar intSlider intSliderGrp " ++
      js "interToUI internalVar intersect iprEngine isAnimCurve isConnected isDirty isParentOf " ++
      js "isSameObject isTrue isValidObjectName isValidString isValidUiName isolateSelect " ++
      js "itemFilter itemFilterAttr itemFilterRender itemFilterType joint jointCluster jointCtx " ++
      js "jointDisplayScale jointLattice keyTangent keyframe keyframeOutliner " ++
      js "keyframeRegionCurrentTimeCtx keyframeRegionDirectKeyCtx keyframeRegionDollyCtx " ++
      js "keyframeRegionInsertKeyCtx keyframeRegionMoveKeyCtx keyframeRegionScaleKeyCtx " ++
      js "keyframeRegionSelectKeyCtx keyframeRegionSetKeyCtx keyframeRegionTrackCtx " ++
      js "keyframeStats lassoContext lattice latticeDeformKeyCtx launch launchImageEditor " ++
      js "layerButton layeredShaderPort layeredTexturePort layout layoutDialog lightList " ++
      js "lightListEditor lightListPanel lightlink lineIntersection linearPrecision linstep " ++
      js "listAnimatable listAttr listCameras listConnections listDeviceAttachments listHistory " ++
      js "listInputDeviceAxes listInputDeviceButtons listInputDevices listMenuAnnotation " ++
      js "listNodeTypes listPanelCategories listRelatives listSets listTransforms " ++
      js "listUnselected listerEditor loadFluid loadNewShelf loadPlugin " ++
      js "loadPluginLanguageResources loadPrefObjects localizedPanelLabel lockNode loft log " ++
      js "longNameOf lookThru ls lsThroughFilter lsType lsUI Mayatomr mag makeIdentity makeLive " ++
      js "makePaintable makeRoll makeSingleSurface makeTubeOn makebot manipMoveContext " ++
      js "manipMoveLimitsCtx manipOptions manipRotateContext manipRotateLimitsCtx " ++
      js "manipScaleContext manipScaleLimitsCtx marker match max memory menu menuBarLayout " ++
      js "menuEditor menuItem menuItemToShelf menuSet menuSetPref messageLine min minimizeApp " ++
      js "mirrorJoint modelCurrentTimeCtx modelEditor modelPanel mouse movIn movOut move " ++
      js "moveIKtoFK moveKeyCtx moveVertexAlongDirection multiProfileBirailSurface mute " ++
      js "nParticle nameCommand nameField namespace namespaceInfo newPanelItems newton nodeCast " ++
      js "nodeIconButton nodeOutliner nodePreset nodeType noise nonLinear normalConstraint " ++
      js "normalize nurbsBoolean nurbsCopyUVSet nurbsCube nurbsEditUV nurbsPlane nurbsSelect " ++
      js "nurbsSquare nurbsToPoly nurbsToPolygonsPref nurbsToSubdiv nurbsToSubdivPref " ++
      js "nurbsUVSet nurbsViewDirectionVector objExists objectCenter objectLayer objectType " ++
      js "objectTypeUI obsoleteProc oceanNurbsPreviewPlane offsetCurve offsetCurveOnSurface " ++
      js "offsetSurface openGLExtension openMayaPref optionMenu optionMenuGrp optionVar orbit " ++
      js "orbitCtx orientConstraint outlinerEditor outlinerPanel overrideModifier " ++
      js "paintEffectsDisplay pairBlend palettePort paneLayout panel panelConfiguration " ++
      js "panelHistory paramDimContext paramDimension paramLocator parent parentConstraint " ++
      js "particle particleExists particleInstancer particleRenderInfo partition pasteKey " ++
      js "pathAnimation pause pclose percent performanceOptions pfxstrokes pickWalk picture " ++
      js "pixelMove planarSrf plane play playbackOptions playblast plugAttr plugNode pluginInfo " ++
      js "pluginResourceUtil pointConstraint pointCurveConstraint pointLight pointMatrixMult " ++
      js "pointOnCurve pointOnSurface pointPosition poleVectorConstraint polyAppend " ++
      js "polyAppendFacetCtx polyAppendVertex polyAutoProjection polyAverageNormal " ++
      js "polyAverageVertex polyBevel polyBlendColor polyBlindData polyBoolOp polyBridgeEdge " ++
      js "polyCacheMonitor polyCheck polyChipOff polyClipboard polyCloseBorder polyCollapseEdge " ++
      js "polyCollapseFacet polyColorBlindData polyColorDel polyColorPerVertex polyColorSet " ++
      js "polyCompare polyCone polyCopyUV polyCrease polyCreaseCtx polyCreateFacet " ++
      js "polyCreateFacetCtx polyCube polyCut polyCutCtx polyCylinder polyCylindricalProjection " ++
      js "polyDelEdge polyDelFacet polyDelVertex polyDuplicateAndConnect polyDuplicateEdge " ++
      js "polyEditUV polyEditUVShell polyEvaluate polyExtrudeEdge polyExtrudeFacet " ++
      js "polyExtrudeVertex polyFlipEdge polyFlipUV polyForceUV polyGeoSampler polyHelix " ++
      js "polyInfo polyInstallAction polyLayoutUV polyListComponentConversion polyMapCut " ++
      js "polyMapDel polyMapSew polyMapSewMove polyMergeEdge polyMergeEdgeCtx polyMergeFacet " ++
      js "polyMergeFacetCtx polyMergeUV polyMergeVertex polyMirrorFace polyMoveEdge " ++
      js "polyMoveFacet polyMoveFacetUV polyMoveUV polyMoveVertex polyNormal polyNormalPerVertex " ++
      js "polyNormalizeUV polyOptUvs polyOptions polyOutput polyPipe polyPlanarProjection " ++
      js "polyPlane polyPlatonicSolid polyPoke polyPrimitive polyPrism polyProjection " ++
      js "polyPyramid polyQuad polyQueryBlindData polyReduce polySelect polySelectConstraint " ++
      js "polySelectConstraintMonitor polySelectCtx polySelectEditCtx polySeparate " ++
      js "polySetToFaceNormal polySewEdge polyShortestPathCtx polySmooth polySoftEdge " ++
      js "polySphere polySphericalProjection polySplit polySplitCtx polySplitEdge polySplitRing " ++
      js "polySplitVertex polyStraightenUVBorder polySubdivideEdge polySubdivideFacet " ++
      js "polyToSubdiv polyTorus polyTransfer polyTriangulate polyUVSet polyUnite polyWedgeFace " ++
      js "popen popupMenu pose pow preloadRefEd print progressBar progressWindow projFileViewer ".

Definition lang_mel_keywords_2 : jsstr :=
  js "projectCurve projectTangent projectionContext projectionManip promptDialog propModCtx " ++
      js "propMove psdChannelOutliner psdEditTextureFile psdExport psdTextureFile putenv pwd " ++
      js "python querySubdiv quit rad_to_deg radial radioButton radioButtonGrp radioCollection " ++
      js "radioMenuItemCollection rampColorPort rand randomizeFollicles randstate rangeControl " ++
      js "readTake rebuildCurve rebuildSurface recordAttr recordDevice redo reference " ++
      js "referenceEdit referenceQuery refineSubdivSelectionList refresh refreshAE " ++
      js "registerPluginResource rehash reloadImage removeJoint removeMultiInstance " ++
      js "removePanelCategory rename renameAttr renameSelectionList renameUI render " ++
      js "renderGlobalsNode renderInfo renderLayerButton renderLayerParent " ++
      js "renderLayerPostProcess renderLayerUnparent renderManip renderPartition " ++
      js "renderQualityNode renderSettings renderThumbnailUpdate renderWindowEditor " ++
      js "renderWindowSelectContext renderer reorder reorderDeformers requires reroot " ++
      js "resampleFluid resetAE resetPfxToPolyCamera resetTool resolutionNode retarget " ++
      js "reverseCurve reverseSurface revolve rgb_to_hsv rigidBody rigidSolver roll rollCtx " ++
      js "rootOf rot rotate rotationInterpolation roundConstantRadius rowColumnLayout rowLayout " ++
      js "runTimeCommand runup sampleImage saveAllShelves saveAttrPreset saveFluid saveImage " ++
      js "saveInitialState saveMenu savePrefObjects savePrefs saveShelf saveToolSettings scale " ++
      js "scaleBrushBrightness scaleComponents scaleConstraint scaleKey scaleKeyCtx sceneEditor " ++
      js "sceneUIReplacement scmh scriptCtx scriptEditorInfo scriptJob scriptNode scriptTable " ++
      js "scriptToShelf scriptedPanel scriptedPanelType scrollField scrollLayout sculpt " ++
      js "searchPathArray seed selLoadSettings select selectContext selectCurveCV selectKey " ++
      js "selectKeyCtx selectKeyframeRegionCtx selectMode selectPref selectPriority selectType " ++
      js "selectedNodes selectionConnection separator setAttr setAttrEnumResource " ++
      js "setAttrMapping setAttrNiceNameResource setConstraintRestPosition " ++
      js "setDefaultShadingGroup setDrivenKeyframe setDynamic setEditCtx setEditor setFluidAttr " ++
      js "setFocus setInfinity setInputDeviceMapping setKeyCtx setKeyPath setKeyframe " ++
      js "setKeyframeBlendshapeTargetWts setMenuMode setNodeNiceNameResource setNodeTypeFlag " ++
      js "setParent setParticleAttr setPfxToPolyCamera setPluginResource setProject " ++
      js "setStampDensity setStartupMessage setState setToolTo setUITemplate setXformManip sets " ++
      js "shadingConnection shadingGeometryRelCtx shadingLightRelCtx shadingNetworkCompare " ++
      js "shadingNode shapeCompare shelfButton shelfLayout shelfTabLayout shellField " ++
      js "shortNameOf showHelp showHidden showManipCtx showSelectionInTitle " ++
      js "showShadingGroupAttrEditor showWindow sign simplify sin singleProfileBirailSurface " ++
      js "size sizeBytes skinCluster skinPercent smoothCurve smoothTangentSurface smoothstep " ++
      js "snap2to2 snapKey snapMode snapTogetherCtx snapshot soft softMod softModCtx sort sound " ++
      js "soundControl source spaceLocator sphere sphrand spotLight spotLightPreviewPort " ++
      js "spreadSheetEditor spring sqrt squareSurface srtContext stackTrace startString " ++
      js "startsWith stitchAndExplodeShell stitchSurface stitchSurfacePoints strcmp " ++
      js "stringArrayCatenate stringArrayContains stringArrayCount stringArrayInsertAtIndex " ++
      js "stringArrayIntersector stringArrayRemove stringArrayRemoveAtIndex " ++
      js "stringArrayRemoveDuplicates stringArrayRemoveExact stringArrayToString " ++
      js "stringToStringArray strip stripPrefixFromName stroke subdAutoProjection " ++
      js "subdCleanTopology subdCollapse subdDuplicateAndConnect subdEditUV " ++
      js "subdListComponentConversion subdMapCut subdMapSewMove subdMatchTopology subdMirror " ++
      js "subdToBlind subdToPoly subdTransferUVsToCache subdiv subdivCrease " ++
      js "subdivDisplaySmoothness substitute substituteAllString substituteGeometry substring " ++
      js "surface surfaceSampler surfaceShaderList swatchDisplayPort switchTable symbolButton " ++
      js "symbolCheckBox sysFile system tabLayout tan tangentConstraint texLatticeDeformContext " ++
      js "texManipContext texMoveContext texMoveUVShellContext texRotateContext texScaleContext " ++
      js "texSelectContext texSelectShortestPathCtx texSmudgeUVContext texWinToolCtx text " ++
      js "textCurves textField textFieldButtonGrp textFieldGrp textManip textScrollList " ++
      js "textToShelf textureDisplacePlane textureHairColor texturePlacementContext " ++
      js "textureWindow threadCount threePointArcCtx timeControl timePort timerX toNativePath " ++
      js "toggle toggleAxis toggleWindowVisibility tokenize tokenizeList tolerance tolower " ++
      js "toolButton toolCollection toolDropped toolHasOptions toolPropertyWindow torus toupper " ++
      js "trace track trackCtx transferAttributes transformCompare transformLimits translator " ++
      js "trim trunc truncateFluidCache truncateHairCache tumble tumbleCtx turbulence " ++
      js "twoPointArcCtx uiRes uiTemplate unassignInputDevice undo undoInfo ungroup uniform unit " ++
      js "unloadPlugin untangleUV untitledFileName untrim upAxis updateAE userCtx uvLink " ++
      js "uvSnapshot validateShelfName vectorize view2dToolCtx viewCamera viewClipPlane " ++
      js "viewFit viewHeadOn viewLookAt viewManip viewPlace viewSet visor volumeAxis vortex " ++
      js "waitCursor warning webBrowser webBrowserPrefs whatIs window windowPref wire " ++
      js "wireContext workspace wrinkle wrinkleContext writeTake xbmLangPathList xform".

Definition lang_mel_keywords : jsstr :=
  lang_mel_keywords_1 ++ lang_mel_keywords_2.

(** mel *)
Definition lang_mel : M language :=
  let* m1 := new [ClassName (js "string"); Begin (js "`"); End_ (js "`"); Contains [CRef BACKSLASH_ESCAPE]] in
  let* m2 := new [Begin (js "[\$\%\@](\^\w\b|#\w+|[^\s\w{]|{\w+}|\w+)")] in
  lang plain_lang [Keywords (KStr lang_mel_keywords); Illegal (js "</"); Contains [CRef C_NUMBER_MODE;
      CRef APOS_STRING_MODE; CRef QUOTE_STRING_MODE; CRef m1; CRef m2; CRef C_LINE_COMMENT_MODE;
      CRef C_BLOCK_COMMENT_MODE]].

(** mercury *)
Definition lang_mercury : M language :=
  let KEYWORDS := KObj [(js "keyword", js "module use_module import_module include_module end_module initialise " ++
      js "mutable initialize finalize finalise interface implementation pred " ++
      js "mode func type inst solver any_pred any_func is semidet det nondet " ++
      js "multi erroneous failure cc_nondet cc_multi typeclass instance where " ++
      js "pragma promise external trace atomic or_else require_complete_switch " ++
      js "require_det require_semidet require_multi require_nondet " ++
      js "require_cc_multi require_cc_nondet require_erroneous require_failure");
      (js "meta", js "inline no_inline type_spec source_file fact_table obsolete memo " ++
      js "loop_check minimal_model terminates does_not_terminate " ++
      js "check_termination promise_equivalent_clauses " ++
      js "foreign_proc foreign_decl foreign_code foreign_type " ++
      js "foreign_import_module foreign_export_enum foreign_export " ++
      js "foreign_enum may_call_mercury will_not_call_mercury thread_safe " ++
      js "not_thread_safe maybe_thread_safe promise_pure promise_semipure " ++
      js "tabled_for_io local untrailed trailed attach_to_io_state " ++
      js "can_pass_as_mercury_type stable will_not_throw_exception " ++
      js "may_modify_trail will_not_modify_trail may_duplicate " ++
      js "may_not_duplicate affects_liveness does_not_affect_liveness " ++
      js "doesnt_affect_liveness no_sharing unknown_sharing sharing");
      (js "built_in", js "some all not if then else true fail false try catch catch_any " ++
      js "semidet_true semidet_false semidet_fail impure_true impure semipure")] in
  let* COMMENT' := COMMENT (js "%") (js "$") [] in
  let* NUMCODE := new [ClassName (js "number"); Begin (js "0'.\|0[box][0-9a-fA-F]*")] in
  let* ATOM := inherit_mode APOS_STRING_MODE [Relevance 0] in
  let* STRING := inherit_mode QUOTE_STRING_MODE [Relevance 0] in
  let* STRING_FMT := new [ClassName (js "subst");
      Begin (js "\\[abfnrtv]\|\\x[0-9a-fA-F]*\\\|%[-+# *.0-9]*[dioxXucsfeEgGp]"); Relevance 0] in
  let* _ := push STRING (CRef STRING_FMT) in
  let* IMPLICATION := new [ClassName (js "built_in"); Variants [[Begin (js "<=>")]; [Begin (js "<="); Relevance 0];
      [Begin (js "=>"); Relevance 0]; [Begin (js "/\\")]; [Begin (js "\\/")]]] in
  let* HEAD_BODY_CONJUNCTION := new [ClassName (js "built_in"); Variants [[Begin (js ":-\|-->")]; [Begin (js "=");
      Relevance 0]]] in
  let* m1 := new [Begin (js ":-")] in
  lang (mkLP false [js "m"; js "moo"] false) [Keywords KEYWORDS; Contains [CRef IMPLICATION;
      CRef HEAD_BODY_CONJUNCTION; CRef COMMENT'; CRef C_BLOCK_COMMENT_MODE; CRef NUMCODE; CRef NUMBER_MODE;
      CRef ATOM; CRef STRING; CRef m1]].

(** mipsasm *)
Definition lang_mipsasm : M language :=
  let* m1 := new [ClassName (js "keyword"); Begin (js "\b(" ++
      js "addi?u?|andi?|b(al)?|beql?|bgez(al)?l?|bgtzl?|blezl?|bltz(al)?l?|" ++
      js "bnel?|cl[oz]|divu?|ext|ins|j(al)?|jalr(.hb)?|jr(.hb)?|lbu?|lhu?|" ++
      js "ll|lui|lw[lr]?|maddu?|mfhi|mflo|movn|movz|move|msubu?|mthi|mtlo|mul|" ++
      js "multu?|nop|nor|ori?|rotrv?|sb|sc|se[bh]|sh|sllv?|slti?u?|srav?|" ++
      js "srlv?|subu?|sw[lr]?|xori?|wsbh|" ++ js "abs.[sd]|add.[sd]|alnv.ps|bc1[ft]l?|" ++
      js "c.(s?f|un|u?eq|[ou]lt|[ou]le|ngle?|seq|l[et]|ng[et]).[sd]|" ++
      js "(ceil|floor|round|trunc).[lw].[sd]|cfc1|cvt.d.[lsw]|" ++
      js "cvt.l.[dsw]|cvt.ps.s|cvt.s.[dlw]|cvt.s.p[lu]|cvt.w.[dls]|" ++
      js "div.[ds]|ldx?c1|luxc1|lwx?c1|madd.[sd]|mfc1|mov[fntz]?.[ds]|" ++
      js "msub.[sd]|mth?c1|mul.[ds]|neg.[ds]|nmadd.[ds]|nmsub.[ds]|" ++
      js "p[lu][lu].ps|recip.fmt|r?sqrt.[ds]|sdx?c1|sub.[ds]|suxc1|" ++ js "swx?c1|" ++
      js "break|cache|d?eret|[de]i|ehb|mfc0|mtc0|pause|prefx?|rdhwr|" ++
      js "rdpgpr|sdbbp|ssnop|synci?|syscall|teqi?|tgei?u?|tlb(p|r|w[ir])|" ++ js "tlti?u?|tnei?|wait|wrpgpr" ++
      js ")"); End_ (js "\s")] in
  let* m2 := COMMENT (js "[;#]") (js "$") [] in
  let* m3 := new [ClassName (js "string"); Begin (js "'"); End_ (js "[^\\]'"); Relevance 0] in
  let* m4 := new [ClassName (js "title"); Begin (js "\|"); End_ (js "\|"); Illegal (js "\n"); Relevance 0] in
  let* m5 := new [ClassName (js "number"); Variants [[Begin (js "0x[0-9a-f]+")]; [Begin (js "\b-?\d+")]];
      Relevance 0] in
  let* m6 := new [ClassName (js "symbol"); Variants [[Begin (js "^\s*[a-z_\.\$][a-z0-9_\.\$]+:")];
      [Begin (js "^\s*[0-9]+:")]; [Begin (js "[0-9]+[bf]")]]; Relevance 0] in
  lang (mkLP true [js "mips"] false) [Lexemes (js "\.?" ++ IDENT_RE);
      Keywords (KObj [(js "meta", js ".2byte .4byte .align .ascii .asciz .balign .byte .code .data .else .end .endif .endm .endr .equ .err " ++
      js ".exitm .extern .global .hword .if .ifdef .ifndef .include .irp .long .macro .rept .req .section .set " ++
      js ".skip .space .text .word .ltorg ");
      (js "built_in", js "$0 $1 $2 $3 $4 $5 $6 $7 $8 $9 $10 $11 $12 $13 $14 $15 " ++
      js "$16 $17 $18 $19 $20 $21 $22 $23 $24 $25 $26 $27 $28 $29 $30 $31 " ++
      js "zero at v0 v1 a0 a1 a2 a3 a4 a5 a6 a7 " ++
      js "t0 t1 t2 t3 t4 t5 t6 t7 t8 t9 s0 s1 s2 s3 s4 s5 s6 s7 s8 " ++ js "k0 k1 gp sp fp ra " ++
      js "$f0 $f1 $f2 $f2 $f4 $f5 $f6 $f7 $f8 $f9 $f10 $f11 $f12 $f13 $f14 $f15 " ++
      js "$f16 $f17 $f18 $f19 $f20 $f21 $f22 $f23 $f24 $f25 $f26 $f27 $f28 $f29 $f30 $f31 " ++
      js "Context Random EntryLo0 EntryLo1 Context PageMask Wired EntryHi " ++
      js "HWREna BadVAddr Count Compare SR IntCtl SRSCtl SRSMap Cause EPC PRId " ++
      js "EBase Config Config1 Config2 Config3 LLAddr Debug DEPC DESAVE CacheErr " ++
      js "ECC ErrorEPC TagLo DataLo TagHi DataHi WatchLo WatchHi PerfCtl PerfCnt ")]); Contains [CRef m1; CRef m2;
      CRef C_BLOCK_COMMENT_MODE; CRef QUOTE_STRING_MODE; CRef m3; CRef m4; CRef m5; CRef m6]; Illegal (js "/")].

(** mizar *)
Definition lang_mizar : M language :=
  let* m1 := COMMENT (js "::") (js "$") [] in
  lang plain_lang [Keywords (KStr (js "environ vocabularies notations constructors definitions " ++
      js "registrations theorems schemes requirements begin end definition " ++
      js "registration cluster existence pred func defpred deffunc theorem " ++
      js "proof let take assume then thus hence ex for st holds consider " ++
      js "reconsider such that and in provided of as from be being by means " ++
      js "equals implies iff redefine define now not or attr is mode " ++
      js "suppose per cases set thesis contradiction scheme reserve struct " ++
      js "correctness compatibility coherence symmetry assymetry " ++
      js "reflexivity irreflexivity connectedness uniqueness commutativity " ++
      js "idempotence involutiveness projectivity")); Contains [CRef m1]].

(** mojolicious *)
Definition lang_mojolicious : M language :=
  let* m1 := new [ClassName (js "meta"); Begin (js "^__(END|DATA)__$")] in
  let* m2 := new [Begin (js "^\s*%{1,2}={0,2}"); End_ (js "$"); SubLanguage (inl (js "perl"))] in
  let* m3 := new [Begin (js "<%{1,2}={0,2}"); End_ (js "={0,1}%>"); SubLanguage (inl (js "perl"));
      ExcludeBegin true; ExcludeEnd true] in
  lang plain_lang [SubLanguage (inl (js "xml")); Contains [CRef m1; CRef m2; CRef m3]].

(** monkey *)
Definition lang_monkey : M language :=
  let* NUMBER := new [ClassName (js "number"); Relevance 0; Variants [[Begin (js "[$][a-fA-F0-9]+")];
      [AllOf NUMBER_MODE]]] in
  let* m1 := COMMENT (js "#rem") (js "#end") [] in
  let* m2 := COMMENT (js "'") (js "$") [Relevance 0] in
  let* m3 := new [ClassName (js "function"); BeginKeywords (js "function method"); End_ (js "[(=:]|$");
      Illegal (js "\n"); Contains [CRef UNDERSCORE_TITLE_MODE]] in
  let* m4 := new [BeginKeywords (js "extends implements")] in
  let* m5 := new [ClassName (js "class"); BeginKeywords (js "class interface"); End_ (js "$"); Contains [CRef m4;
      CRef UNDERSCORE_TITLE_MODE]] in
  let* m6 := new [ClassName (js "built_in"); Begin (js "\b(self|super)\b")] in
  let* m7 := new [ClassName (js "meta"); Begin (js "\s*#"); End_ (js "$");
      Keywords (KObj [(js "meta-keyword", js "if else elseif endif end then")])] in
  let* m8 := new [ClassName (js "meta"); Begin (js "^\s*strict\b")] in
  let* m9 := new [BeginKeywords (js "alias"); End_ (js "="); Contains [CRef UNDERSCORE_TITLE_MODE]] in
  lang (mkLP true [] false) [Keywords (KObj [(js "keyword", js "public private property continue exit extern new try catch " ++
      js "eachin not abstract final select case default const local global field " ++
      js "end if then else elseif endif while wend repeat until forever for " ++
      js "to step next return module inline throw import");
      (js "built_in", js "DebugLog DebugStop Error Print ACos ACosr ASin ASinr ATan ATan2 ATan2r ATanr Abs Abs Ceil " ++
      js "Clamp Clamp Cos Cosr Exp Floor Log Max Max Min Min Pow Sgn Sgn Sin Sinr Sqrt Tan Tanr Seed PI HALFPI " ++
      js "TWOPI"); (js "literal", js "true false null and or shl shr mod")]); Illegal (js "\/\*");
      Contains [CRef m1; CRef m2; CRef m3; CRef m5; CRef m6; CRef m7; CRef m8; CRef m9; CRef QUOTE_STRING_MODE;
      CRef NUMBER]].

(** moonscript *)
Definition lang_moonscript : M language :=
  let KEYWORDS :=
      KObj [(js "keyword", js "if then not for in while do return else elseif break continue switch and or " ++
      js "unless when class extends super local import export from using"); (js "literal", js "true false nil");
      (js "built_in", js "_G _VERSION assert collectgarbage dofile error getfenv getmetatable ipairs load " ++
      js "loadfile loadstring module next pairs pcall print rawequal rawget rawset require " ++
      js "select setfenv setmetatable tonumber tostring type unpack xpcall coroutine debug " ++
      js "io math os package string table")] in
  let JS_IDENT_RE := js "[A-Za-z$_][0-9A-Za-z$_]*" in
  let* SUBST := new [ClassName (js "subst"); Begin (js "#\{"); End_ (js "}"); Keywords KEYWORDS] in
  let* m1 := new [End_ (js "(\s*/)?"); Relevance 0] in
  let* m2 := inherit_mode C_NUMBER_MODE [Starts m1] in
  let* m3 := new [ClassName (js "string"); Variants [[Begin (js "'"); End_ (js "'");
      Contains [CRef BACKSLASH_ESCAPE]]; [Begin (js "＂"); End_ (js "＂"); Contains [CRef BACKSLASH_ESCAPE;
      CRef SUBST]]]] in
  let* m4 := new [ClassName (js "built_in"); Begin (js "@__" ++ IDENT_RE)] in
  let* m5 := new [Begin (js "@" ++ IDENT_RE)] in
  let* m6 := new [Begin (IDENT_RE ++ js "\\" ++ IDENT_RE)] in
  let EXPRESSIONS := [CRef m2; CRef m3; CRef m4; CRef m5; CRef m6] in
  let* _ := upd SUBST (fun m => assign m (Contains EXPRESSIONS)) in
  let* TITLE := inherit_mode TITLE_MODE [Begin JS_IDENT_RE] in
  let PARAMS_RE := js "(\(.*\))?\s*\B[-=]>" in
  let* m7 := new [Begin (js "\("); End_ (js "\)"); Keywords KEYWORDS; Contains ([CSelf] ++ EXPRESSIONS)] in
  let* PARAMS := new [ClassName (js "params"); Begin (js "\([^\(]"); ReturnBegin true; Contains [CRef m7]] in
  let* m8 := COMMENT (js "--") (js "$") [] in
  let* m9 := new [ClassName (js "function"); Begin (js "^\s*" ++ JS_IDENT_RE ++ js "\s*=\s*" ++ PARAMS_RE);
      End_ (js "[-=]>"); ReturnBegin true; Contains [CRef TITLE; CRef PARAMS]] in
  let* m10 := new [ClassName (js "function"); Begin PARAMS_RE; End_ (js "[-=]>"); ReturnBegin true;
      Contains [CRef PARAMS]] in
  let* m11 := new [Begin (js "[\(,:=]\s*"); Relevance 0; Contains [CRef m10]] in
  let* m12 := new [BeginKeywords (js "extends"); EndsWithParent true; Illegal (js "[:=＂\[\]]");
      Contains [CRef TITLE]] in
  let* m13 := new [ClassName (js "class"); BeginKeywords (js "class"); End_ (js "$"); Illegal (js "[:=＂\[\]]");
      Contains [CRef m12; CRef TITLE]] in
  let* m14 := new [ClassName (js "name"); Begin (JS_IDENT_RE ++ js ":"); End_ (js ":"); ReturnBegin true;
      ReturnEnd true; Relevance 0] in
  lang (mkLP false [js "moon"] false) [Keywords KEYWORDS; Illegal (js "\/\*"); Contains (EXPRESSIONS ++ [CRef m8;
      CRef m9; CRef m11; CRef m13; CRef m14])].

Definition languagesIM : list (jsstr * creator) :=
  [(js "inform7", alone lang_inform7);
   (js "ini", alone lang_ini);
   (js "irpf90", alone lang_irpf90);
   (js "isbl", alone lang_isbl);
   (js "java", alone lang_java);
   (js "javascript", alone lang_javascript);
   (js "jboss-cli", alone lang_jboss_cli);
   (js "json", alone json);
   (js "julia-repl", alone lang_julia_repl);
   (js "julia", alone lang_julia);
   (js "kotlin", alone lang_kotlin);
   (js "lasso", alone lang_lasso);
   (js "ldif", alone lang_ldif);
   (js "leaf", alone lang_leaf);
   (js "less", alone lang_less);
   (js "lisp", alone lang_lisp);
   (js "livecodeserver", alone lang_livecodeserver);
   (js "livescript", alone lang_livescript);
   (js "llvm", alone lang_llvm);
   (js "lsl", alone lang_lsl);
   (js "lua", alone lang_lua);
   (js "makefile", alone lang_makefile);
   (js "markdown", alone lang_markdown);
   (js "mathematica", alone lang_mathematica);
   (js "matlab", alone lang_matlab);
   (js "maxima", alone lang_maxima);
   (js "mel", alone lang_mel);
   (js "mercury", alone lang_mercury);
   (js "mipsasm", alone lang_mipsasm);
   (js "mizar", alone lang_mizar);
   (js "mojolicious", alone lang_mojolicious);
   (js "monkey", alone lang_monkey);
   (js "moonscript", alone lang_moonscript)].
