(* ===== verification/LanguagesNR.v ===== *)
(** * Language definitions, n1ql to rust (module 15)

    Each definition creates its objects in the order of the source: a variable of the
    definition keeps its name, an object literal without one is numbered.  A name that is
    also one of the library has a prime.  The aliases, the case and the part in the
    detection of a language are the arguments of [lang]. *)

From S2P Require Import Prelude JsString JsRegExp RegExpFacts RegExpCounts MarkedInline HljsStreams HljsModes Hljs HljsLanguages.

(** n1ql *)
Definition lang_n1ql : M language :=
  let* m1 := new [ClassName (js "string"); Begin (js "'"); End_ (js "'"); Contains [CRef BACKSLASH_ESCAPE];
      Relevance 0] in
  let* m2 := new [ClassName (js "string"); Begin (js "＂"); End_ (js "＂"); Contains [CRef BACKSLASH_ESCAPE];
      Relevance 0] in
  let* m3 := new [ClassName (js "symbol"); Begin (js "`"); End_ (js "`"); Contains [CRef BACKSLASH_ESCAPE];
      Relevance 2] in
  let* m4 :=
      new [BeginKeywords (js "build create index delete drop explain infer|10 insert merge prepare select update upsert|10");
      End_ (js ";"); EndsWithParent true;
      Keywords (KObj [(js "keyword", js "all alter analyze and any array as asc begin between binary boolean break bucket build by call " ++
      js "case cast cluster collate collection commit connect continue correlate cover create database " ++
      js "dataset datastore declare decrement delete derived desc describe distinct do drop each element " ++
      js "else end every except exclude execute exists explain fetch first flatten for force from " ++
      js "function grant group gsi having if ignore ilike in include increment index infer inline inner " ++
      js "insert intersect into is join key keys keyspace known last left let letting like limit lsm map " ++
      js "mapping matched materialized merge minus namespace nest not number object offset on " ++
      js "option or order outer over parse partition password path pool prepare primary private privilege " ++
      js "procedure public raw realm reduce rename return returning revoke right role rollback satisfies " ++
      js "schema select self semi set show some start statistics string system then to transaction trigger " ++
      js "truncate under union unique unknown unnest unset update upsert use user using validate value " ++
      js "valued values via view when where while with within work xor");
      (js "literal", js "true false null missing|5");
      (js "built_in", js "array_agg array_append array_concat array_contains array_count array_distinct array_ifnull array_length " ++
      js "array_max array_min array_position array_prepend array_put array_range array_remove array_repeat array_replace " ++
      js "array_reverse array_sort array_sum avg count max min sum greatest least ifmissing ifmissingornull ifnull " ++
      js "missingif nullif ifinf ifnan ifnanorinf naninf neginfif posinfif clock_millis clock_str date_add_millis " ++
      js "date_add_str date_diff_millis date_diff_str date_part_millis date_part_str date_trunc_millis date_trunc_str " ++
      js "duration_to_str millis str_to_millis millis_to_str millis_to_utc millis_to_zone_name now_millis now_str " ++
      js "str_to_duration str_to_utc str_to_zone_name decode_json encode_json encoded_size poly_length base64 " ++
      js "base64_encode " ++
      js "base64_decode meta uuid abs acos asin atan atan2 ceil cos degrees e exp ln log floor pi power radians " ++
      js "random " ++
      js "round sign sin sqrt tan trunc object_length object_names object_pairs object_inner_pairs object_values " ++
      js "object_inner_values object_add object_put object_remove object_unwrap regexp_contains regexp_like regexp_position " ++
      js "regexp_replace contains initcap length lower ltrim position repeat replace rtrim split substr title " ++
      js "trim upper " ++
      js "isarray isatom isboolean isnumber isobject isstring type toarray toatom toboolean tonumber toobject " ++
      js "tostring")]); Contains [CRef m1; CRef m2; CRef m3; CRef C_NUMBER_MODE; CRef C_BLOCK_COMMENT_MODE]] in
  lang (mkLP true [] false) [Contains [CRef m4; CRef C_BLOCK_COMMENT_MODE]].

(** nginx *)
Definition lang_nginx : M language :=
  let* VAR := new [ClassName (js "variable"); Variants [[Begin (js "\$\d+")]; [Begin (js "\$\{"); End_ (js "}")];
      [Begin (js "[\$\@]" ++ UNDERSCORE_IDENT_RE)]]] in
  let* m1 := new [ClassName (js "string"); Contains [CRef BACKSLASH_ESCAPE; CRef VAR]; Variants [[Begin (js "＂");
      End_ (js "＂")]; [Begin (js "'"); End_ (js "'")]]] in
  let* m2 := new [Begin (js "([a-z]+):/"); End_ (js "\s"); EndsWithParent true; ExcludeEnd true;
      Contains [CRef VAR]] in
  let* m3 := new [ClassName (js "regexp"); Contains [CRef BACKSLASH_ESCAPE; CRef VAR]; Variants [[Begin (js "\s\^");
      End_ (js "\s|{|;"); ReturnEnd true]; [Begin (js "~\*?\s+"); End_ (js "\s|{|;"); ReturnEnd true];
      [Begin (js "\*(\.[a-z\-]+)+")]; [Begin (js "([a-z\-]+\.)+\*")]]] in
  let* m4 := new [ClassName (js "number"); Begin (js "\b\d{1,3}\.\d{1,3}\.\d{1,3}\.\d{1,3}(:\d{1,5})?\b")] in
  let* m5 := new [ClassName (js "number"); Begin (js "\b\d+[kKmMgGdshdwy]*\b"); Relevance 0] in
  let* DEFAULT := new [EndsWithParent true; Lexemes (js "[a-z/_]+");
      Keywords (KObj [(js "literal", js "on off yes no true false none blocked debug info notice warn error crit " ++
      js "select break last permanent redirect kqueue rtsig epoll poll /dev/poll")]); Relevance 0;
      Illegal (js "=>"); Contains [CRef HASH_COMMENT_MODE; CRef m1; CRef m2; CRef m3; CRef m4; CRef m5;
      CRef VAR]] in
  let* m6 := new [ClassName (js "section"); Begin UNDERSCORE_IDENT_RE] in
  let* m7 := new [Begin (UNDERSCORE_IDENT_RE ++ js "\s+{"); ReturnBegin true; End_ (js "{"); Contains [CRef m6];
      Relevance 0] in
  let* m8 := new [ClassName (js "attribute"); Begin UNDERSCORE_IDENT_RE; Starts DEFAULT] in
  let* m9 := new [Begin (UNDERSCORE_IDENT_RE ++ js "\s"); End_ (js ";|{"); ReturnBegin true; Contains [CRef m8];
      Relevance 0] in
  lang (mkLP false [js "nginxconf"] false) [Contains [CRef HASH_COMMENT_MODE; CRef m7; CRef m9];
      Illegal (js "[^\s\}]")].

(** nimrod *)
Definition lang_nimrod : M language :=
  let* m1 := new [ClassName (js "meta"); Begin (js "{\."); End_ (js "\.}"); Relevance 10] in
  let* m2 := new [Begin (js "＂＂")] in
  let* m3 := new [ClassName (js "string"); Begin (js "[a-zA-Z]\w*＂"); End_ (js "＂"); Contains [CRef m2]] in
  let* m4 := new [ClassName (js "string"); Begin (js "([a-zA-Z]\w*" ++ js ")?＂＂＂"); End_ (js "＂＂＂")] in
  let* m5 := new [ClassName (js "type"); Begin (js "\b[A-Z]\w+\b"); Relevance 0] in
  let* m6 := new [ClassName (js "number"); Relevance 0; Variants [[Begin (js "\b(0[xX][0-9a-fA-F][_0-9a-fA-F]*" ++
      js ")('?[iIuU](8|16|32|64))?")]; [Begin (js "\b(0o[0-7][_0-7]*" ++ js ")('?[iIuUfF](8|16|32|64))?")];
      [Begin (js "\b(0(b|B)[01][_01]*" ++ js ")('?[iIuUfF](8|16|32|64))?")]; [Begin (js "\b(\d[_\d]*" ++
      js ")('?[iIuUfF](8|16|32|64))?")]]] in
  lang (mkLP false [js "nim"] false) [Keywords (KObj [(js "keyword", js "addr and as asm bind block break case cast const continue converter " ++
      js "discard distinct div do elif else end enum except export finally " ++
      js "for from generic if import in include interface is isnot iterator " ++
      js "let macro method mixin mod nil not notin object of or out proc ptr " ++
      js "raise ref return shl shr static template try tuple type using var " ++
      js "when while with without xor yield");
      (js "literal", js "shared guarded stdin stdout stderr result true false");
      (js "built_in", js "int int8 int16 int32 int64 uint uint8 uint16 uint32 uint64 float " ++
      js "float32 float64 bool char string cstring pointer expr stmt void " ++
      js "auto any range array openarray varargs seq set clong culong cchar " ++
      js "cschar cshort cint csize clonglong cfloat cdouble clongdouble " ++
      js "cuchar cushort cuint culonglong cstringarray semistatic")]); Contains [CRef m1; CRef m3; CRef m4;
      CRef QUOTE_STRING_MODE; CRef m5; CRef m6; CRef HASH_COMMENT_MODE]].

(** nix *)
Definition lang_nix : M language :=
  let NIX_KEYWORDS := KObj [(js "keyword", js "rec with let in inherit assert if else then");
      (js "literal", js "true false or and null");
      (js "built_in", js "import abort baseNameOf dirOf isNull builtins map removeAttrs throw " ++
      js "toString derivation")] in
  let* ANTIQUOTE := new [ClassName (js "subst"); Begin (js "\$\{"); End_ (js "}"); Keywords NIX_KEYWORDS] in
  let* m1 := new [ClassName (js "attr"); Begin (js "\S+")] in
  let* ATTRS := new [Begin (js "[a-zA-Z0-9-_]+(\s*=)"); ReturnBegin true; Relevance 0; Contains [CRef m1]] in
  let* STRING := new [ClassName (js "string"); Contains [CRef ANTIQUOTE]; Variants [[Begin (js "''");
      End_ (js "''")]; [Begin (js "＂"); End_ (js "＂")]]] in
  let EXPRESSIONS := [CRef NUMBER_MODE; CRef HASH_COMMENT_MODE; CRef C_BLOCK_COMMENT_MODE; CRef STRING;
      CRef ATTRS] in
  let* _ := upd ANTIQUOTE (fun m => assign m (Contains EXPRESSIONS)) in
  lang (mkLP false [js "nixos"] false) [Keywords NIX_KEYWORDS; Contains EXPRESSIONS].

(** nsis *)
Definition lang_nsis : M language :=
  let* CONSTANTS := new [ClassName (js "variable");
      Begin (js "\$(ADMINTOOLS|APPDATA|CDBURN_AREA|CMDLINE|COMMONFILES32|COMMONFILES64|COMMONFILES|COOKIES|DESKTOP|DOCUMENTS|EXEDIR|EXEFILE|EXEPATH|FAVORITES|FONTS|HISTORY|HWNDPARENT|INSTDIR|INTERNET_CACHE|LANGUAGE|LOCALAPPDATA|MUSIC|NETHOOD|OUTDIR|PICTURES|PLUGINSDIR|PRINTHOOD|PROFILE|PROGRAMFILES32|PROGRAMFILES64|PROGRAMFILES|QUICKLAUNCH|RECENT|RESOURCES_LOCALIZED|RESOURCES|SENDTO|SMPROGRAMS|SMSTARTUP|STARTMENU|SYSDIR|TEMP|TEMPLATES|VIDEOS|WINDIR)")] in
  let* DEFINES := new [ClassName (js "variable"); Begin (js "\$+{[\w\.:-]+}")] in
  let* VARIABLES := new [ClassName (js "variable"); Begin (js "\$+\w+"); Illegal (js "\(\){}")] in
  let* LANGUAGES := new [ClassName (js "variable"); Begin (js "\$+\([\w\^\.:-]+\)")] in
  let* PARAMETERS := new [ClassName (js "params");
      Begin (js "(ARCHIVE|FILE_ATTRIBUTE_ARCHIVE|FILE_ATTRIBUTE_NORMAL|FILE_ATTRIBUTE_OFFLINE|FILE_ATTRIBUTE_READONLY|FILE_ATTRIBUTE_SYSTEM|FILE_ATTRIBUTE_TEMPORARY|HKCR|HKCU|HKDD|HKEY_CLASSES_ROOT|HKEY_CURRENT_CONFIG|HKEY_CURRENT_USER|HKEY_DYN_DATA|HKEY_LOCAL_MACHINE|HKEY_PERFORMANCE_DATA|HKEY_USERS|HKLM|HKPD|HKU|IDABORT|IDCANCEL|IDIGNORE|IDNO|IDOK|IDRETRY|IDYES|MB_ABORTRETRYIGNORE|MB_DEFBUTTON1|MB_DEFBUTTON2|MB_DEFBUTTON3|MB_DEFBUTTON4|MB_ICONEXCLAMATION|MB_ICONINFORMATION|MB_ICONQUESTION|MB_ICONSTOP|MB_OK|MB_OKCANCEL|MB_RETRYCANCEL|MB_RIGHT|MB_RTLREADING|MB_SETFOREGROUND|MB_TOPMOST|MB_USERICON|MB_YESNO|NORMAL|OFFLINE|READONLY|SHCTX|SHELL_CONTEXT|SYSTEM|TEMPORARY)")] in
  let* COMPILER := new [ClassName (js "keyword");
      Begin (js "\!(addincludedir|addplugindir|appendfile|cd|define|delfile|echo|else|endif|error|execute|finalize|getdllversion|gettlbversion|if|ifdef|ifmacrodef|ifmacrondef|ifndef|include|insertmacro|macro|macroend|makensis|packhdr|searchparse|searchreplace|system|tempfile|undef|verbose|warning)")] in
  let* METACHARS := new [ClassName (js "meta"); Begin (js "\$(\\[nrt]|\$)")] in
  let* PLUGINS := new [ClassName (js "class"); Begin (js "\w+\:\:\w+")] in
  let* STRING := new [ClassName (js "string"); Variants [[Begin (js "＂"); End_ (js "＂")]; [Begin (js "'");
      End_ (js "'")]; [Begin (js "`"); End_ (js "`")]]; Illegal (js "\n"); Contains [CRef METACHARS; CRef CONSTANTS;
      CRef DEFINES; CRef VARIABLES; CRef LANGUAGES]] in
  let* m1 := COMMENT (js ";") (js "$") [Relevance 0] in
  let* m2 := new [ClassName (js "function"); BeginKeywords (js "Function PageEx Section SectionGroup");
      End_ (js "$")] in
  lang plain_lang [Keywords (KObj [(js "keyword", js "Abort AddBrandingImage AddSize AllowRootDirInstall AllowSkipFiles AutoCloseWindow BGFont BGGradient " ++
      js "BrandingText BringToFront Call CallInstDLL Caption ChangeUI CheckBitmap ClearErrors CompletedText ComponentText " ++
      js "CopyFiles CRCCheck CreateDirectory CreateFont CreateShortCut Delete DeleteINISec DeleteINIStr DeleteRegKey " ++
      js "DeleteRegValue DetailPrint DetailsButtonText DirText DirVar DirVerify EnableWindow EnumRegKey EnumRegValue " ++
      js "Exch Exec ExecShell ExecShellWait ExecWait ExpandEnvStrings File FileBufSize FileClose FileErrorText " ++
      js "FileOpen FileRead FileReadByte FileReadUTF16LE FileReadWord FileSeek FileWrite FileWriteByte FileWriteUTF16LE " ++
      js "FileWriteWord FindClose FindFirst FindNext FindWindow FlushINI FunctionEnd GetCurInstType GetCurrentAddress " ++
      js "GetDlgItem GetDLLVersion GetDLLVersionLocal GetErrorLevel GetFileTime GetFileTimeLocal GetFullPathName " ++
      js "GetFunctionAddress GetInstDirError GetLabelAddress GetTempFileName Goto HideWindow Icon IfAbort IfErrors " ++
      js "IfFileExists IfRebootFlag IfSilent InitPluginsDir InstallButtonText InstallColors InstallDir InstallDirRegKey " ++
      js "InstProgressFlags InstType InstTypeGetText InstTypeSetText Int64Cmp Int64CmpU Int64Fmt IntCmp IntCmpU " ++
      js "IntFmt IntOp IntPtrCmp IntPtrCmpU IntPtrOp IsWindow LangString LicenseBkColor LicenseData LicenseForceSelection " ++
      js "LicenseLangString LicenseText LoadLanguageFile LockWindow LogSet LogText ManifestDPIAware ManifestSupportedOS " ++
      js "MessageBox MiscButtonText Name Nop OutFile Page PageCallbacks PageExEnd Pop Push Quit ReadEnvStr ReadINIStr " ++
      js "ReadRegDWORD ReadRegStr Reboot RegDLL Rename RequestExecutionLevel ReserveFile Return RMDir SearchPath " ++
      js "SectionEnd SectionGetFlags SectionGetInstTypes SectionGetSize SectionGetText SectionGroupEnd SectionIn " ++
      js "SectionSetFlags SectionSetInstTypes SectionSetSize SectionSetText SendMessage SetAutoClose SetBrandingImage " ++
      js "SetCompress SetCompressor SetCompressorDictSize SetCtlColors SetCurInstType SetDatablockOptimize SetDateSave " ++
      js "SetDetailsPrint SetDetailsView SetErrorLevel SetErrors SetFileAttributes SetFont SetOutPath SetOverwrite " ++
      js "SetRebootFlag SetRegView SetShellVarContext SetSilent ShowInstDetails ShowUninstDetails ShowWindow SilentInstall " ++
      js "SilentUnInstall Sleep SpaceTexts StrCmp StrCmpS StrCpy StrLen SubCaption Unicode UninstallButtonText " ++
      js "UninstallCaption UninstallIcon UninstallSubCaption UninstallText UninstPage UnRegDLL Var VIAddVersionKey " ++
      js "VIFileVersion VIProductVersion WindowIcon WriteINIStr WriteRegBin WriteRegDWORD WriteRegExpandStr WriteRegMultiStr " ++
      js "WriteRegNone WriteRegStr WriteUninstaller XPStyle");
      (js "literal", js "admin all auto both bottom bzip2 colored components current custom directory false force hide highest " ++
      js "ifdiff ifnewer instfiles lastused leave left license listonly lzma nevershow none normal notset off " ++
      js "on open print right show silent silentlog smooth textonly top true try un.components un.custom un.directory " ++
      js "un.instfiles un.license uninstConfirm user Win10 Win7 Win8 WinVista zlib")]);
      Contains [CRef HASH_COMMENT_MODE; CRef C_BLOCK_COMMENT_MODE; CRef m1; CRef m2; CRef STRING; CRef COMPILER;
      CRef DEFINES; CRef VARIABLES; CRef LANGUAGES; CRef PARAMETERS; CRef PLUGINS; CRef NUMBER_MODE]].

(** objectivec *)
Definition lang_objectivec : M language :=
  let* API_CLASS := new [ClassName (js "built_in");
      Begin (js "\b(AV|CA|CF|CG|CI|CL|CM|CN|CT|MK|MP|MTK|MTL|NS|SCN|SK|UI|WK|XC)\w+")] in
  let OBJC_KEYWORDS :=
      KObj [(js "keyword", js "int float while char export sizeof typedef const struct for union " ++
      js "unsigned long volatile static bool mutable if do return goto void " ++
      js "enum else break extern asm case short default double register explicit " ++
      js "signed typename this switch continue wchar_t inline readonly assign " ++
      js "readwrite self @synchronized id typeof " ++
      js "nonatomic super unichar IBOutlet IBAction strong weak copy " ++
      js "in out inout bycopy byref oneway __strong __weak __block __autoreleasing " ++
      js "@private @protected @public @try @property @end @throw @catch @finally " ++
      js "@autoreleasepool @synthesize @dynamic @selector @optional @required " ++
      js "@encode @package @import @defs @compatibility_alias " ++
      js "__bridge __bridge_transfer __bridge_retained __bridge_retain " ++
      js "__covariant __contravariant __kindof " ++ js "_Nonnull _Nullable _Null_unspecified " ++
      js "__FUNCTION__ __PRETTY_FUNCTION__ __attribute__ " ++ js "getter setter retain unsafe_unretained " ++
      js "nonnull nullable null_unspecified null_resettable class instancetype " ++
      js "NS_DESIGNATED_INITIALIZER NS_UNAVAILABLE NS_REQUIRES_SUPER " ++
      js "NS_RETURNS_INNER_POINTER NS_INLINE NS_AVAILABLE NS_DEPRECATED " ++
      js "NS_ENUM NS_OPTIONS NS_SWIFT_UNAVAILABLE " ++ js "NS_ASSUME_NONNULL_BEGIN NS_ASSUME_NONNULL_END " ++
      js "NS_REFINED_FOR_SWIFT NS_SWIFT_NAME NS_SWIFT_NOTHROW " ++
      js "NS_DURING NS_HANDLER NS_ENDHANDLER NS_VALUERETURN NS_VOIDRETURN");
      (js "literal", js "false true FALSE TRUE nil YES NO NULL");
      (js "built_in", js "BOOL dispatch_once_t dispatch_queue_t dispatch_sync dispatch_async dispatch_once")] in
  let LEXEMES := js "[a-zA-Z@][a-zA-Z0-9_]*" in
  let CLASS_KEYWORDS := js "@interface @class @protocol @implementation" in
  let* m1 := new [ClassName (js "string"); Variants [[Begin (js "@＂"); End_ (js "＂"); Illegal (js "\n");
      Contains [CRef BACKSLASH_ESCAPE]]; [Begin (js "'"); End_ (js "[^\\]'"); Illegal (js "[^\\][^']")]]] in
  let* m2 := new [ClassName (js "meta-string"); Variants [[Begin (js "＂"); End_ (js "＂")]; [Begin (js "<");
      End_ (js ">")]]] in
  let* m3 := new [ClassName (js "meta"); Begin (js "#"); End_ (js "$"); Contains [CRef m2]] in
  let* m4 := new [ClassName (js "class"); Begin (js "(" ++ join (js "|") (split_on 32 CLASS_KEYWORDS) ++ js ")\b");
      End_ (js "({|$)"); ExcludeEnd true; Keywords (KStr CLASS_KEYWORDS); Lexemes LEXEMES;
      Contains [CRef UNDERSCORE_TITLE_MODE]] in
  let* m5 := new [Begin (js "\." ++ UNDERSCORE_IDENT_RE); Relevance 0] in
  lang (mkLP false [js "mm"; js "objc"; js "obj-c"] false) [Keywords OBJC_KEYWORDS; Lexemes LEXEMES;
      Illegal (js "</"); Contains [CRef API_CLASS; CRef C_LINE_COMMENT_MODE; CRef C_BLOCK_COMMENT_MODE;
      CRef C_NUMBER_MODE; CRef QUOTE_STRING_MODE; CRef m1; CRef m3; CRef m4; CRef m5]].

(** ocaml *)
Definition lang_ocaml : M language :=
  let* m1 := new [ClassName (js "literal"); Begin (js "\[(\|\|)?\]|\(\)"); Relevance 0] in
  let* m2 := COMMENT (js "\(\*") (js "\*\)") [Contains [CSelf]] in
  let* m3 := new [ClassName (js "symbol"); Begin (js "'[A-Za-z_](?!')[\w']*")] in
  let* m4 := new [ClassName (js "type"); Begin (js "`[A-Z][\w']*")] in
  let* m5 := new [ClassName (js "type"); Begin (js "\b[A-Z][\w']*"); Relevance 0] in
  let* m6 := new [Begin (js "[a-z_]\w*'[\w']*"); Relevance 0] in
  let* m7 := inherit_mode APOS_STRING_MODE [ClassName (js "string"); Relevance 0] in
  let* m8 := inherit_mode QUOTE_STRING_MODE [Illegal []] in
  let* m9 := new [ClassName (js "number"); Begin (js "\b(0[xX][a-fA-F0-9_]+[Lln]?|" ++ js "0[oO][0-7_]+[Lln]?|" ++
      js "0[bB][01_]+[Lln]?|" ++ js "[0-9][0-9_]*([Lln]|(\.[0-9_]*" ++ js ")?([eE][-+]?[0-9_]+)?)?)");
      Relevance 0] in
  let* m10 := new [Begin (js "[-=]>")] in
  lang (mkLP false [js "ml"] false) [Keywords (KObj [(js "keyword", js "and as assert asr begin class constraint do done downto else end " ++
      js "exception external for fun function functor if in include " ++
      js "inherit! inherit initializer land lazy let lor lsl lsr lxor match method!|10 method " ++
      js "mod module mutable new object of open! open or private rec sig struct " ++
      js "then to try type val! val virtual when while with " ++ js "parser value");
      (js "built_in", js "array bool bytes char exn|5 float int int32 int64 list lazy_t|5 nativeint|5 string unit " ++
      js "in_channel out_channel ref"); (js "literal", js "true false")]); Illegal (js "\/\/|>>");
      Lexemes (js "[a-z_]\w*!?"); Contains [CRef m1; CRef m2; CRef m3; CRef m4; CRef m5; CRef m6; CRef m7; CRef m8;
      CRef m9; CRef m10]].

(** openscad *)
Definition lang_openscad : M language :=
  let* SPECIAL_VARS := new [ClassName (js "keyword"); Begin (js "\$(f[asn]|t|vp[rtd]|children)")] in
  let* LITERALS := new [ClassName (js "literal"); Begin (js "false|true|PI|undef")] in
  let* NUMBERS := new [ClassName (js "number"); Begin (js "\b\d+(\.\d+)?(e-?\d+)?"); Relevance 0] in
  let* STRING := inherit_mode QUOTE_STRING_MODE [Illegal []] in
  let* PREPRO := new [ClassName (js "meta"); Keywords (KObj [(js "meta-keyword", js "include use")]);
      Begin (js "include|use <"); End_ (js ">")] in
  let* PARAMS := new [ClassName (js "params"); Begin (js "\("); End_ (js "\)"); Contains [CSelf; CRef NUMBERS;
      CRef STRING; CRef SPECIAL_VARS; CRef LITERALS]] in
  let* MODIFIERS := new [Begin (js "[*!#%]"); Relevance 0] in
  let* FUNCTIONS := new [ClassName (js "function"); BeginKeywords (js "module function"); End_ (js "\=|\{");
      Contains [CRef PARAMS; CRef UNDERSCORE_TITLE_MODE]] in
  lang (mkLP false [js "scad"] false) [Keywords (KObj [(js "keyword", js "function module include use for intersection_for if else \%");
      (js "literal", js "false true PI undef");
      (js "built_in", js "circle square polygon text sphere cube cylinder polyhedron translate rotate scale resize mirror multmatrix " ++
      js "color offset hull minkowski union difference intersection abs sign sin cos tan acos asin atan atan2 " ++
      js "floor round ceil ln log pow sqrt exp rands min max concat lookup str chr search version version_num " ++
      js "norm cross parent_module echo import import_dxf dxf_linear_extrude linear_extrude rotate_extrude surface " ++
      js "projection render children dxf_cross dxf_dim let assign")]); Contains [CRef C_LINE_COMMENT_MODE;
      CRef C_BLOCK_COMMENT_MODE; CRef NUMBERS; CRef PREPRO; CRef STRING; CRef SPECIAL_VARS; CRef MODIFIERS;
      CRef FUNCTIONS]].

(** oxygene *)
Definition lang_oxygene : M language :=
  let OXYGENE_KEYWORDS :=
      js "abstract add and array as asc aspect assembly async begin break block by case class concat const copy " ++
      js "constructor continue " ++
      js "create default delegate desc distinct div do downto dynamic each else empty end ensure enum equals event " ++
      js "except exit extension external false " ++
      js "final finalize finalizer finally flags for forward from function future global group has if implementation " ++
      js "implements implies in index inherited " ++
      js "inline interface into invariants is iterator join locked locking loop matching method mod module namespace " ++
      js "nested new nil not notify nullable of " ++
      js "old on operator or order out override parallel params partial pinned private procedure property protected " ++
      js "public queryable raise read readonly " ++
      js "record reintroduce remove repeat require result reverse sealed select self sequence set shl shr skip " ++
      js "static step soft take then to true try tuple " ++
      js "type union unit unsafe until uses using var virtual raises volatile where while with write xor yield " ++
      js "await mapped deprecated stdcall cdecl pascal " ++
      js "register safecall overload library platform reference packed strict published autoreleasepool selector " ++
      js "strong weak unretained" in
  let* CURLY_COMMENT := COMMENT (js "{") (js "}") [Relevance 0] in
  let* PAREN_COMMENT := COMMENT (js "\(\*") (js "\*\)") [Relevance 10] in
  let* m1 := new [Begin (js "''")] in
  let* STRING := new [ClassName (js "string"); Begin (js "'"); End_ (js "'"); Contains [CRef m1]] in
  let* CHAR_STRING := new [ClassName (js "string"); Begin (js "(#\d+)+")] in
  let* m2 := new [ClassName (js "params"); Begin (js "\("); End_ (js "\)"); Keywords (KStr OXYGENE_KEYWORDS);
      Contains [CRef STRING; CRef CHAR_STRING]] in
  let* FUNCTION := new [ClassName (js "function");
      BeginKeywords (js "function constructor destructor procedure method"); End_ (js "[:;]");
      Keywords (KStr (js "function constructor|10 destructor|10 procedure|10 method|10"));
      Contains [CRef TITLE_MODE; CRef m2; CRef CURLY_COMMENT; CRef PAREN_COMMENT]] in
  let* m3 := new [ClassName (js "class"); Begin (js "=\bclass\b"); End_ (js "end;");
      Keywords (KStr OXYGENE_KEYWORDS); Contains [CRef STRING; CRef CHAR_STRING; CRef CURLY_COMMENT;
      CRef PAREN_COMMENT; CRef C_LINE_COMMENT_MODE; CRef FUNCTION]] in
  lang (mkLP true [] false) [Lexemes (js "\.?\w+"); Keywords (KStr OXYGENE_KEYWORDS);
      Illegal (js "(＂|\$[G-Zg-z]|\/\*|</|=>|->)"); Contains [CRef CURLY_COMMENT; CRef PAREN_COMMENT;
      CRef C_LINE_COMMENT_MODE; CRef STRING; CRef CHAR_STRING; CRef NUMBER_MODE; CRef FUNCTION; CRef m3]].

(** parser3 *)
Definition lang_parser3 : M language :=
  let* CURLY_SUBCOMMENT := COMMENT (js "{") (js "}") [Contains [CSelf]] in
  let* m1 := COMMENT (js "^#") (js "$") [] in
  let* m2 := COMMENT (js "\^rem{") (js "}") [Relevance 10; Contains [CRef CURLY_SUBCOMMENT]] in
  let* m3 := new [ClassName (js "meta"); Begin (js "^@(?:BASE|USE|CLASS|OPTIONS)$"); Relevance 10] in
  let* m4 := new [ClassName (js "title"); Begin (js "@[\w\-]+\[[\w^;\-]*\](?:\[[\w^;\-]*\])?(?:.*" ++ js ")$")] in
  let* m5 := new [ClassName (js "variable"); Begin (js "\$\{?[\w\-\.\:]+\}?")] in
  let* m6 := new [ClassName (js "keyword"); Begin (js "\^[\w\-\.\:]+")] in
  let* m7 := new [ClassName (js "number"); Begin (js "\^#[0-9a-fA-F]+")] in
  lang plain_lang [SubLanguage (inl (js "xml")); Relevance 0; Contains [CRef m1; CRef m2; CRef m3; CRef m4; CRef m5;
      CRef m6; CRef m7; CRef C_NUMBER_MODE]].

Definition lang_perl_PERL_KEYWORDS : jsstr :=
  js "getpwent getservent quotemeta msgrcv scalar kill dbmclose undef lc " ++
      js "ma syswrite tr send umask sysopen shmwrite vec qx utime local oct semctl localtime " ++
      js "readpipe do return format read sprintf dbmopen pop getpgrp not getpwnam rewinddir qq" ++
      js "fileno qw endprotoent wait sethostent bless s|0 opendir continue each sleep endgrent " ++
      js "shutdown dump chomp connect getsockname die socketpair close flock exists index shmget" ++
      js "sub for endpwent redo lstat msgctl setpgrp abs exit select print ref gethostbyaddr " ++
      js "unshift fcntl syscall goto getnetbyaddr join gmtime symlink semget splice x|0 " ++
      js "getpeername recv log setsockopt cos last reverse gethostbyname getgrnam study formline " ++
      js "endhostent times chop length gethostent getnetent pack getprotoent getservbyname rand " ++
      js "mkdir pos chmod y|0 substr endnetent printf next open msgsnd readdir use unlink " ++
      js "getsockopt getpriority rindex wantarray hex system getservbyport endservent int chr " ++
      js "untie rmdir prototype tell listen fork shmread ucfirst setprotoent else sysseek link " ++
      js "getgrgid shmctl waitpid unpack getnetbyname reset chdir grep split require caller " ++
      js "lcfirst until warn while values shift telldir getpwuid my getprotobynumber delete and " ++
      js "sort uc defined srand accept package seekdir getprotobyname semop our rename seek if q|0 " ++
      js "chroot sysread setpwent no crypt getc chown sqrt write setnetent setpriority foreach " ++
      js "tie sin msgget map stat getlogin unless elsif truncate exec keys glob tied closedir" ++
      js "ioctl socket readlink eval xor readline binmode setservent eof ord bind alarm pipe " ++
      js "atan2 getgrent exp time push setgrent gt lt or ne m|0 break given say state when".

(** perl *)
Definition lang_perl : M language :=
  let* SUBST := new [ClassName (js "subst"); Begin (js "[$@]\{"); End_ (js "\}");
      Keywords (KStr lang_perl_PERL_KEYWORDS)] in
  let* METHOD := new [Begin (js "->{"); End_ (js "}")] in
  let* VAR := new [Variants [[Begin (js "\$\d")]; [Begin (js "[\$%@](\^\w\b|#\w+(::\w+)*|{\w+}|\w+(::\w*" ++
      js ")*" ++ js ")")]; [Begin (js "[\$%@][^\s\w{]"); Relevance 0]]] in
  let STRING_CONTAINS := [CRef BACKSLASH_ESCAPE; CRef SUBST; CRef VAR] in
  let* m1 := COMMENT (js "^\=\w") (js "\=cut") [EndsWithParent true] in
  let* m2 := new [ClassName (js "string"); Contains STRING_CONTAINS; Variants [[Begin (js "q[qwxr]?\s*\(");
      End_ (js "\)"); Relevance 5]; [Begin (js "q[qwxr]?\s*\["); End_ (js "\]"); Relevance 5];
      [Begin (js "q[qwxr]?\s*\{"); End_ (js "\}"); Relevance 5]; [Begin (js "q[qwxr]?\s*\|"); End_ (js "\|");
      Relevance 5]; [Begin (js "q[qwxr]?\s*\<"); End_ (js "\>"); Relevance 5]; [Begin (js "qw\s+q"); End_ (js "q");
      Relevance 5]; [Begin (js "'"); End_ (js "'"); Contains [CRef BACKSLASH_ESCAPE]]; [Begin (js "＂");
      End_ (js "＂")]; [Begin (js "`"); End_ (js "`"); Contains [CRef BACKSLASH_ESCAPE]]; [Begin (js "{\w+}");
      Contains []; Relevance 0]; [Begin (js "-?\w+\s*\=\>"); Contains []; Relevance 0]]] in
  let* m3 := new [ClassName (js "number");
      Begin (js "(\b0[0-7_]+)|(\b0x[0-9a-fA-F_]+)|(\b[1-9][0-9_]*(\.[0-9_]+)?)|[0_]\b"); Relevance 0] in
  let* m4 := new [ClassName (js "regexp"); Begin (js "(s|tr|y)/(\\.|[^/])*/(\\.|[^/])*/[a-z]*"); Relevance 10] in
  let* m5 := new [ClassName (js "regexp"); Begin (js "(m|qr)?/"); End_ (js "/[a-z]*");
      Contains [CRef BACKSLASH_ESCAPE]; Relevance 0] in
  let* m6 := new [Begin (js "(\/\/|" ++ RE_STARTERS_RE ++ js "|\b(split|return|print|reverse|grep)\b)\s*");
      Keywords (KStr (js "split return print reverse grep")); Relevance 0; Contains [CRef HASH_COMMENT_MODE;
      CRef m4; CRef m5]] in
  let* m7 := new [ClassName (js "function"); BeginKeywords (js "sub"); End_ (js "(\s*\(.*?\))?[;{]");
      ExcludeEnd true; Relevance 5; Contains [CRef TITLE_MODE]] in
  let* m8 := new [Begin (js "-\w\b"); Relevance 0] in
  let* m9 := new [Begin (js "^@@.*"); End_ (js "$"); ClassName (js "comment")] in
  let* m10 := new [Begin (js "^__DATA__$"); End_ (js "^__END__$"); SubLanguage (inl (js "mojolicious"));
      Contains [CRef m9]] in
  let PERL_DEFAULT_CONTAINS := [CRef VAR; CRef HASH_COMMENT_MODE; CRef m1; CRef METHOD; CRef m2; CRef m3; CRef m6;
      CRef m7; CRef m8; CRef m10] in
  let* _ := upd SUBST (fun m => assign m (Contains PERL_DEFAULT_CONTAINS)) in
  let* _ := upd METHOD (fun m => assign m (Contains PERL_DEFAULT_CONTAINS)) in
  lang (mkLP false [js "pl"; js "pm"] false) [Lexemes (js "[\w\.]+"); Keywords (KStr lang_perl_PERL_KEYWORDS);
      Contains PERL_DEFAULT_CONTAINS].

(** pf *)
Definition lang_pf : M language :=
  let* MACRO := new [ClassName (js "variable"); Begin (js "\$[\w\d#@][\w\d_]*")] in
  let* TABLE := new [ClassName (js "variable"); Begin (js "<(?!\/)"); End_ (js ">")] in
  let* QUOTE_STRING := new [ClassName (js "string"); Begin (js "＂"); End_ (js "＂")] in
  lang (mkLP false [js "pf.conf"] false) [Lexemes (js "[a-z0-9_<>-]+");
      Keywords (KObj [(js "built_in", js "block match pass load anchor|5 antispoof|10 set table");
      (js "keyword", js "in out log quick on rdomain inet inet6 proto from port os to route" ++
      js "allow-opts divert-packet divert-reply divert-to flags group icmp-type" ++
      js "icmp6-type label once probability recieved-on rtable prio queue" ++
      js "tos tag tagged user keep fragment for os drop" ++
      js "af-to|10 binat-to|10 nat-to|10 rdr-to|10 bitmask least-stats random round-robin" ++
      js "source-hash static-port" ++ js "dup-to reply-to route-to" ++
      js "parent bandwidth default min max qlimit" ++
      js "block-policy debug fingerprints hostid limit loginterface optimization" ++
      js "reassemble ruleset-optimization basic none profile skip state-defaults" ++ js "state-policy timeout" ++
      js "const counters persist" ++ js "no modulate synproxy state|5 floating if-bound no-sync pflow|10 sloppy" ++
      js "source-track global rule max-src-nodes max-src-states max-src-conn" ++
      js "max-src-conn-rate overload flush" ++ js "scrub|5 max-mss min-ttl no-df|10 random-id");
      (js "literal", js "all any no-route self urpf-failed egress|5 unknown")]); Contains [CRef HASH_COMMENT_MODE;
      CRef NUMBER_MODE; CRef QUOTE_STRING_MODE; CRef MACRO; CRef TABLE]].

Definition lang_pgsql_SQL_KW : jsstr :=
  js "ABORT ALTER ANALYZE BEGIN CALL CHECKPOINT|10 CLOSE CLUSTER COMMENT COMMIT COPY CREATE DEALLOCATE DECLARE " ++
      js "DELETE DISCARD DO DROP END EXECUTE EXPLAIN FETCH GRANT IMPORT INSERT LISTEN LOAD LOCK MOVE NOTIFY " ++
      js "PREPARE REASSIGN|10 REFRESH REINDEX RELEASE RESET REVOKE ROLLBACK SAVEPOINT SECURITY SELECT SET SHOW " ++
      js "START TRUNCATE UNLISTEN|10 UPDATE VACUUM|10 VALUES " ++
      js "AGGREGATE COLLATION CONVERSION|10 DATABASE DEFAULT PRIVILEGES DOMAIN TRIGGER EXTENSION FOREIGN " ++
      js "WRAPPER|10 TABLE FUNCTION GROUP LANGUAGE LARGE OBJECT MATERIALIZED VIEW OPERATOR CLASS " ++
      js "FAMILY POLICY PUBLICATION|10 ROLE RULE SCHEMA SEQUENCE SERVER STATISTICS SUBSCRIPTION SYSTEM " ++
      js "TABLESPACE CONFIGURATION DICTIONARY PARSER TEMPLATE TYPE USER MAPPING PREPARED ACCESS " ++
      js "METHOD CAST AS TRANSFORM TRANSACTION OWNED TO INTO SESSION AUTHORIZATION " ++
      js "INDEX PROCEDURE ASSERTION " ++ js "ALL ANALYSE AND ANY ARRAY ASC ASYMMETRIC|10 BOTH CASE CHECK " ++
      js "COLLATE COLUMN CONCURRENTLY|10 CONSTRAINT CROSS " ++ js "DEFERRABLE RANGE " ++
      js "DESC DISTINCT ELSE EXCEPT FOR FREEZE|10 FROM FULL HAVING " ++
      js "ILIKE IN INITIALLY INNER INTERSECT IS ISNULL JOIN LATERAL LEADING LIKE LIMIT " ++
      js "NATURAL NOT NOTNULL NULL OFFSET ON ONLY OR ORDER OUTER OVERLAPS PLACING PRIMARY " ++
      js "REFERENCES RETURNING SIMILAR SOME SYMMETRIC TABLESAMPLE THEN " ++
      js "TRAILING UNION UNIQUE USING VARIADIC|10 VERBOSE WHEN WHERE WINDOW WITH " ++
      js "BY RETURNS INOUT OUT SETOF|10 IF STRICT CURRENT CONTINUE OWNER LOCATION OVER PARTITION WITHIN " ++
      js "BETWEEN ESCAPE EXTERNAL INVOKER DEFINER WORK RENAME VERSION CONNECTION CONNECT " ++
      js "TABLES TEMP TEMPORARY FUNCTIONS SEQUENCES TYPES SCHEMAS OPTION CASCADE RESTRICT ADD ADMIN " ++
      js "EXISTS VALID VALIDATE ENABLE DISABLE REPLICA|10 ALWAYS PASSING COLUMNS PATH " ++
      js "REF VALUE OVERRIDING IMMUTABLE STABLE VOLATILE BEFORE AFTER EACH ROW PROCEDURAL " ++
      js "ROUTINE NO HANDLER VALIDATOR OPTIONS STORAGE OIDS|10 WITHOUT INHERIT DEPENDS CALLED " ++
      js "INPUT LEAKPROOF|10 COST ROWS NOWAIT SEARCH UNTIL ENCRYPTED|10 PASSWORD CONFLICT|10 " ++
      js "INSTEAD INHERITS CHARACTERISTICS WRITE CURSOR ALSO STATEMENT SHARE EXCLUSIVE INLINE " ++
      js "ISOLATION REPEATABLE READ COMMITTED SERIALIZABLE UNCOMMITTED LOCAL GLOBAL SQL PROCEDURES " ++
      js "RECURSIVE SNAPSHOT ROLLUP CUBE TRUSTED|10 INCLUDE FOLLOWING PRECEDING UNBOUNDED RANGE GROUPS " ++
      js "UNENCRYPTED|10 SYSID FORMAT DELIMITER HEADER QUOTE ENCODING FILTER OFF " ++
      js "FORCE_QUOTE FORCE_NOT_NULL FORCE_NULL COSTS BUFFERS TIMING SUMMARY DISABLE_PAGE_SKIPPING " ++
      js "RESTART CYCLE GENERATED IDENTITY DEFERRED IMMEDIATE LEVEL LOGGED UNLOGGED " ++
      js "OF NOTHING NONE EXCLUDE ATTRIBUTE " ++ js "USAGE ROUTINES " ++ js "TRUE FALSE NAN INFINITY ".
Definition lang_pgsql_TYPES : jsstr :=
  js "BIGINT INT8 BIGSERIAL SERIAL8 BIT VARYING VARBIT BOOLEAN BOOL BOX BYTEA CHARACTER CHAR VARCHAR " ++
      js "CIDR CIRCLE DATE DOUBLE PRECISION FLOAT8 FLOAT INET INTEGER INT INT4 INTERVAL JSON JSONB LINE LSEG|10 " ++
      js "MACADDR MACADDR8 MONEY NUMERIC DEC DECIMAL PATH POINT POLYGON REAL FLOAT4 SMALLINT INT2 " ++
      js "SMALLSERIAL|10 SERIAL2|10 SERIAL|10 SERIAL4|10 TEXT TIME ZONE TIMETZ|10 TIMESTAMP TIMESTAMPTZ|10 TSQUERY|10 " ++
      js "TSVECTOR|10 " ++ js "TXID_SNAPSHOT|10 UUID XML NATIONAL NCHAR " ++
      js "INT4RANGE|10 INT8RANGE|10 NUMRANGE|10 TSRANGE|10 TSTZRANGE|10 DATERANGE|10 " ++
      js "ANYELEMENT ANYARRAY ANYNONARRAY ANYENUM ANYRANGE CSTRING INTERNAL " ++
      js "RECORD PG_DDL_COMMAND VOID UNKNOWN OPAQUE REFCURSOR " ++ js "NAME " ++
      js "OID REGPROC|10 REGPROCEDURE|10 REGOPER|10 REGOPERATOR|10 REGCLASS|10 REGTYPE|10 REGROLE|10 " ++
      js "REGNAMESPACE|10 REGCONFIG|10 REGDICTIONARY|10 ".
Definition lang_pgsql_PLPGSQL_EXCEPTIONS : jsstr :=
  js "SQLSTATE SQLERRM|10 " ++
      js "SUCCESSFUL_COMPLETION WARNING DYNAMIC_RESULT_SETS_RETURNED IMPLICIT_ZERO_BIT_PADDING " ++
      js "NULL_VALUE_ELIMINATED_IN_SET_FUNCTION PRIVILEGE_NOT_GRANTED PRIVILEGE_NOT_REVOKED " ++
      js "STRING_DATA_RIGHT_TRUNCATION DEPRECATED_FEATURE NO_DATA NO_ADDITIONAL_DYNAMIC_RESULT_SETS_RETURNED " ++
      js "SQL_STATEMENT_NOT_YET_COMPLETE CONNECTION_EXCEPTION CONNECTION_DOES_NOT_EXIST CONNECTION_FAILURE " ++
      js "SQLCLIENT_UNABLE_TO_ESTABLISH_SQLCONNECTION SQLSERVER_REJECTED_ESTABLISHMENT_OF_SQLCONNECTION " ++
      js "TRANSACTION_RESOLUTION_UNKNOWN PROTOCOL_VIOLATION TRIGGERED_ACTION_EXCEPTION FEATURE_NOT_SUPPORTED " ++
      js "INVALID_TRANSACTION_INITIATION LOCATOR_EXCEPTION INVALID_LOCATOR_SPECIFICATION INVALID_GRANTOR " ++
      js "INVALID_GRANT_OPERATION INVALID_ROLE_SPECIFICATION DIAGNOSTICS_EXCEPTION " ++
      js "STACKED_DIAGNOSTICS_ACCESSED_WITHOUT_ACTIVE_HANDLER CASE_NOT_FOUND CARDINALITY_VIOLATION " ++
      js "DATA_EXCEPTION ARRAY_SUBSCRIPT_ERROR CHARACTER_NOT_IN_REPERTOIRE DATETIME_FIELD_OVERFLOW " ++
      js "DIVISION_BY_ZERO ERROR_IN_ASSIGNMENT ESCAPE_CHARACTER_CONFLICT INDICATOR_OVERFLOW " ++
      js "INTERVAL_FIELD_OVERFLOW INVALID_ARGUMENT_FOR_LOGARITHM INVALID_ARGUMENT_FOR_NTILE_FUNCTION " ++
      js "INVALID_ARGUMENT_FOR_NTH_VALUE_FUNCTION INVALID_ARGUMENT_FOR_POWER_FUNCTION " ++
      js "INVALID_ARGUMENT_FOR_WIDTH_BUCKET_FUNCTION INVALID_CHARACTER_VALUE_FOR_CAST " ++
      js "INVALID_DATETIME_FORMAT INVALID_ESCAPE_CHARACTER INVALID_ESCAPE_OCTET INVALID_ESCAPE_SEQUENCE " ++
      js "NONSTANDARD_USE_OF_ESCAPE_CHARACTER INVALID_INDICATOR_PARAMETER_VALUE INVALID_PARAMETER_VALUE " ++
      js "INVALID_REGULAR_EXPRESSION INVALID_ROW_COUNT_IN_LIMIT_CLAUSE " ++
      js "INVALID_ROW_COUNT_IN_RESULT_OFFSET_CLAUSE INVALID_TABLESAMPLE_ARGUMENT INVALID_TABLESAMPLE_REPEAT " ++
      js "INVALID_TIME_ZONE_DISPLACEMENT_VALUE INVALID_USE_OF_ESCAPE_CHARACTER MOST_SPECIFIC_TYPE_MISMATCH " ++
      js "NULL_VALUE_NOT_ALLOWED NULL_VALUE_NO_INDICATOR_PARAMETER NUMERIC_VALUE_OUT_OF_RANGE " ++
      js "SEQUENCE_GENERATOR_LIMIT_EXCEEDED STRING_DATA_LENGTH_MISMATCH STRING_DATA_RIGHT_TRUNCATION " ++
      js "SUBSTRING_ERROR TRIM_ERROR UNTERMINATED_C_STRING ZERO_LENGTH_CHARACTER_STRING " ++
      js "FLOATING_POINT_EXCEPTION INVALID_TEXT_REPRESENTATION INVALID_BINARY_REPRESENTATION " ++
      js "BAD_COPY_FILE_FORMAT UNTRANSLATABLE_CHARACTER NOT_AN_XML_DOCUMENT INVALID_XML_DOCUMENT " ++
      js "INVALID_XML_CONTENT INVALID_XML_COMMENT INVALID_XML_PROCESSING_INSTRUCTION " ++
      js "INTEGRITY_CONSTRAINT_VIOLATION RESTRICT_VIOLATION NOT_NULL_VIOLATION FOREIGN_KEY_VIOLATION " ++
      js "UNIQUE_VIOLATION CHECK_VIOLATION EXCLUSION_VIOLATION INVALID_CURSOR_STATE " ++
      js "INVALID_TRANSACTION_STATE ACTIVE_SQL_TRANSACTION BRANCH_TRANSACTION_ALREADY_ACTIVE " ++
      js "HELD_CURSOR_REQUIRES_SAME_ISOLATION_LEVEL INAPPROPRIATE_ACCESS_MODE_FOR_BRANCH_TRANSACTION " ++
      js "INAPPROPRIATE_ISOLATION_LEVEL_FOR_BRANCH_TRANSACTION " ++
      js "NO_ACTIVE_SQL_TRANSACTION_FOR_BRANCH_TRANSACTION READ_ONLY_SQL_TRANSACTION " ++
      js "SCHEMA_AND_DATA_STATEMENT_MIXING_NOT_SUPPORTED NO_ACTIVE_SQL_TRANSACTION " ++
      js "IN_FAILED_SQL_TRANSACTION IDLE_IN_TRANSACTION_SESSION_TIMEOUT INVALID_SQL_STATEMENT_NAME " ++
      js "TRIGGERED_DATA_CHANGE_VIOLATION INVALID_AUTHORIZATION_SPECIFICATION INVALID_PASSWORD " ++
      js "DEPENDENT_PRIVILEGE_DESCRIPTORS_STILL_EXIST DEPENDENT_OBJECTS_STILL_EXIST " ++
      js "INVALID_TRANSACTION_TERMINATION SQL_ROUTINE_EXCEPTION FUNCTION_EXECUTED_NO_RETURN_STATEMENT " ++
      js "MODIFYING_SQL_DATA_NOT_PERMITTED PROHIBITED_SQL_STATEMENT_ATTEMPTED " ++
      js "READING_SQL_DATA_NOT_PERMITTED INVALID_CURSOR_NAME EXTERNAL_ROUTINE_EXCEPTION " ++
      js "CONTAINING_SQL_NOT_PERMITTED MODIFYING_SQL_DATA_NOT_PERMITTED " ++
      js "PROHIBITED_SQL_STATEMENT_ATTEMPTED READING_SQL_DATA_NOT_PERMITTED " ++
      js "EXTERNAL_ROUTINE_INVOCATION_EXCEPTION INVALID_SQLSTATE_RETURNED NULL_VALUE_NOT_ALLOWED " ++
      js "TRIGGER_PROTOCOL_VIOLATED SRF_PROTOCOL_VIOLATED EVENT_TRIGGER_PROTOCOL_VIOLATED " ++
      js "SAVEPOINT_EXCEPTION INVALID_SAVEPOINT_SPECIFICATION INVALID_CATALOG_NAME " ++
      js "INVALID_SCHEMA_NAME TRANSACTION_ROLLBACK TRANSACTION_INTEGRITY_CONSTRAINT_VIOLATION " ++
      js "SERIALIZATION_FAILURE STATEMENT_COMPLETION_UNKNOWN DEADLOCK_DETECTED " ++
      js "SYNTAX_ERROR_OR_ACCESS_RULE_VIOLATION SYNTAX_ERROR INSUFFICIENT_PRIVILEGE CANNOT_COERCE " ++
      js "GROUPING_ERROR WINDOWING_ERROR INVALID_RECURSION INVALID_FOREIGN_KEY INVALID_NAME " ++
      js "NAME_TOO_LONG RESERVED_NAME DATATYPE_MISMATCH INDETERMINATE_DATATYPE COLLATION_MISMATCH " ++
      js "INDETERMINATE_COLLATION WRONG_OBJECT_TYPE GENERATED_ALWAYS UNDEFINED_COLUMN " ++
      js "UNDEFINED_FUNCTION UNDEFINED_TABLE UNDEFINED_PARAMETER UNDEFINED_OBJECT " ++
      js "DUPLICATE_COLUMN DUPLICATE_CURSOR DUPLICATE_DATABASE DUPLICATE_FUNCTION " ++
      js "DUPLICATE_PREPARED_STATEMENT DUPLICATE_SCHEMA DUPLICATE_TABLE DUPLICATE_ALIAS " ++
      js "DUPLICATE_OBJECT AMBIGUOUS_COLUMN AMBIGUOUS_FUNCTION AMBIGUOUS_PARAMETER AMBIGUOUS_ALIAS " ++
      js "INVALID_COLUMN_REFERENCE INVALID_COLUMN_DEFINITION INVALID_CURSOR_DEFINITION " ++
      js "INVALID_DATABASE_DEFINITION INVALID_FUNCTION_DEFINITION " ++
      js "INVALID_PREPARED_STATEMENT_DEFINITION INVALID_SCHEMA_DEFINITION INVALID_TABLE_DEFINITION " ++
      js "INVALID_OBJECT_DEFINITION WITH_CHECK_OPTION_VIOLATION INSUFFICIENT_RESOURCES DISK_FULL " ++
      js "OUT_OF_MEMORY TOO_MANY_CONNECTIONS CONFIGURATION_LIMIT_EXCEEDED PROGRAM_LIMIT_EXCEEDED " ++
      js "STATEMENT_TOO_COMPLEX TOO_MANY_COLUMNS TOO_MANY_ARGUMENTS OBJECT_NOT_IN_PREREQUISITE_STATE " ++
      js "OBJECT_IN_USE CANT_CHANGE_RUNTIME_PARAM LOCK_NOT_AVAILABLE OPERATOR_INTERVENTION " ++
      js "QUERY_CANCELED ADMIN_SHUTDOWN CRASH_SHUTDOWN CANNOT_CONNECT_NOW DATABASE_DROPPED " ++
      js "SYSTEM_ERROR IO_ERROR UNDEFINED_FILE DUPLICATE_FILE SNAPSHOT_TOO_OLD CONFIG_FILE_ERROR " ++
      js "LOCK_FILE_EXISTS FDW_ERROR FDW_COLUMN_NAME_NOT_FOUND FDW_DYNAMIC_PARAMETER_VALUE_NEEDED " ++
      js "FDW_FUNCTION_SEQUENCE_ERROR FDW_INCONSISTENT_DESCRIPTOR_INFORMATION " ++
      js "FDW_INVALID_ATTRIBUTE_VALUE FDW_INVALID_COLUMN_NAME FDW_INVALID_COLUMN_NUMBER " ++
      js "FDW_INVALID_DATA_TYPE FDW_INVALID_DATA_TYPE_DESCRIPTORS " ++
      js "FDW_INVALID_DESCRIPTOR_FIELD_IDENTIFIER FDW_INVALID_HANDLE FDW_INVALID_OPTION_INDEX " ++
      js "FDW_INVALID_OPTION_NAME FDW_INVALID_STRING_LENGTH_OR_BUFFER_LENGTH " ++
      js "FDW_INVALID_STRING_FORMAT FDW_INVALID_USE_OF_NULL_POINTER FDW_TOO_MANY_HANDLES " ++
      js "FDW_OUT_OF_MEMORY FDW_NO_SCHEMAS FDW_OPTION_NAME_NOT_FOUND FDW_REPLY_HANDLE " ++
      js "FDW_SCHEMA_NOT_FOUND FDW_TABLE_NOT_FOUND FDW_UNABLE_TO_CREATE_EXECUTION " ++
      js "FDW_UNABLE_TO_CREATE_REPLY FDW_UNABLE_TO_ESTABLISH_CONNECTION PLPGSQL_ERROR " ++
      js "RAISE_EXCEPTION NO_DATA_FOUND TOO_MANY_ROWS ASSERT_FAILURE INTERNAL_ERROR DATA_CORRUPTED " ++
      js "INDEX_CORRUPTED ".
Definition lang_pgsql_FUNCTIONS : jsstr :=
  js "ARRAY_AGG AVG BIT_AND BIT_OR BOOL_AND BOOL_OR COUNT EVERY JSON_AGG JSONB_AGG JSON_OBJECT_AGG " ++
      js "JSONB_OBJECT_AGG MAX MIN MODE STRING_AGG SUM XMLAGG " ++
      js "CORR COVAR_POP COVAR_SAMP REGR_AVGX REGR_AVGY REGR_COUNT REGR_INTERCEPT REGR_R2 REGR_SLOPE " ++
      js "REGR_SXX REGR_SXY REGR_SYY STDDEV STDDEV_POP STDDEV_SAMP VARIANCE VAR_POP VAR_SAMP " ++
      js "PERCENTILE_CONT PERCENTILE_DISC " ++
      js "ROW_NUMBER RANK DENSE_RANK PERCENT_RANK CUME_DIST NTILE LAG LEAD FIRST_VALUE LAST_VALUE NTH_VALUE " ++
      js "NUM_NONNULLS NUM_NULLS " ++
      js "ABS CBRT CEIL CEILING DEGREES DIV EXP FLOOR LN LOG MOD PI POWER RADIANS ROUND SCALE SIGN SQRT " ++
      js "TRUNC WIDTH_BUCKET " ++ js "RANDOM SETSEED " ++
      js "ACOS ACOSD ASIN ASIND ATAN ATAND ATAN2 ATAN2D COS COSD COT COTD SIN SIND TAN TAND " ++
      js "BIT_LENGTH CHAR_LENGTH CHARACTER_LENGTH LOWER OCTET_LENGTH OVERLAY POSITION SUBSTRING TREAT TRIM UPPER " ++
      js "ASCII BTRIM CHR CONCAT CONCAT_WS CONVERT CONVERT_FROM CONVERT_TO DECODE ENCODE INITCAP" ++
      js "LEFT LENGTH LPAD LTRIM MD5 PARSE_IDENT PG_CLIENT_ENCODING QUOTE_IDENT|10 QUOTE_LITERAL|10 " ++
      js "QUOTE_NULLABLE|10 REGEXP_MATCH REGEXP_MATCHES REGEXP_REPLACE REGEXP_SPLIT_TO_ARRAY " ++
      js "REGEXP_SPLIT_TO_TABLE REPEAT REPLACE REVERSE RIGHT RPAD RTRIM SPLIT_PART STRPOS SUBSTR " ++
      js "TO_ASCII TO_HEX TRANSLATE " ++ js "OCTET_LENGTH GET_BIT GET_BYTE SET_BIT SET_BYTE " ++
      js "TO_CHAR TO_DATE TO_NUMBER TO_TIMESTAMP " ++
      js "AGE CLOCK_TIMESTAMP|10 DATE_PART DATE_TRUNC ISFINITE JUSTIFY_DAYS JUSTIFY_HOURS JUSTIFY_INTERVAL " ++
      js "MAKE_DATE MAKE_INTERVAL|10 MAKE_TIME MAKE_TIMESTAMP|10 MAKE_TIMESTAMPTZ|10 NOW STATEMENT_TIMESTAMP|10 " ++
      js "TIMEOFDAY TRANSACTION_TIMESTAMP|10 " ++ js "ENUM_FIRST ENUM_LAST ENUM_RANGE " ++
      js "AREA CENTER DIAMETER HEIGHT ISCLOSED ISOPEN NPOINTS PCLOSE POPEN RADIUS WIDTH " ++
      js "BOX BOUND_BOX CIRCLE LINE LSEG PATH POLYGON " ++
      js "ABBREV BROADCAST HOST HOSTMASK MASKLEN NETMASK NETWORK SET_MASKLEN TEXT INET_SAME_FAMILY" ++
      js "INET_MERGE MACADDR8_SET7BIT " ++
      js "ARRAY_TO_TSVECTOR GET_CURRENT_TS_CONFIG NUMNODE PLAINTO_TSQUERY PHRASETO_TSQUERY WEBSEARCH_TO_TSQUERY " ++
      js "QUERYTREE SETWEIGHT STRIP TO_TSQUERY TO_TSVECTOR JSON_TO_TSVECTOR JSONB_TO_TSVECTOR TS_DELETE " ++
      js "TS_FILTER TS_HEADLINE TS_RANK TS_RANK_CD TS_REWRITE TSQUERY_PHRASE TSVECTOR_TO_ARRAY " ++
      js "TSVECTOR_UPDATE_TRIGGER TSVECTOR_UPDATE_TRIGGER_COLUMN " ++
      js "XMLCOMMENT XMLCONCAT XMLELEMENT XMLFOREST XMLPI XMLROOT " ++
      js "XMLEXISTS XML_IS_WELL_FORMED XML_IS_WELL_FORMED_DOCUMENT XML_IS_WELL_FORMED_CONTENT " ++
      js "XPATH XPATH_EXISTS XMLTABLE XMLNAMESPACES " ++
      js "TABLE_TO_XML TABLE_TO_XMLSCHEMA TABLE_TO_XML_AND_XMLSCHEMA " ++
      js "QUERY_TO_XML QUERY_TO_XMLSCHEMA QUERY_TO_XML_AND_XMLSCHEMA " ++ js "CURSOR_TO_XML CURSOR_TO_XMLSCHEMA " ++
      js "SCHEMA_TO_XML SCHEMA_TO_XMLSCHEMA SCHEMA_TO_XML_AND_XMLSCHEMA " ++
      js "DATABASE_TO_XML DATABASE_TO_XMLSCHEMA DATABASE_TO_XML_AND_XMLSCHEMA " ++ js "XMLATTRIBUTES " ++
      js "TO_JSON TO_JSONB ARRAY_TO_JSON ROW_TO_JSON JSON_BUILD_ARRAY JSONB_BUILD_ARRAY JSON_BUILD_OBJECT " ++
      js "JSONB_BUILD_OBJECT JSON_OBJECT JSONB_OBJECT JSON_ARRAY_LENGTH JSONB_ARRAY_LENGTH JSON_EACH " ++
      js "JSONB_EACH JSON_EACH_TEXT JSONB_EACH_TEXT JSON_EXTRACT_PATH JSONB_EXTRACT_PATH " ++
      js "JSON_OBJECT_KEYS JSONB_OBJECT_KEYS JSON_POPULATE_RECORD JSONB_POPULATE_RECORD JSON_POPULATE_RECORDSET " ++
      js "JSONB_POPULATE_RECORDSET JSON_ARRAY_ELEMENTS JSONB_ARRAY_ELEMENTS JSON_ARRAY_ELEMENTS_TEXT " ++
      js "JSONB_ARRAY_ELEMENTS_TEXT JSON_TYPEOF JSONB_TYPEOF JSON_TO_RECORD JSONB_TO_RECORD JSON_TO_RECORDSET " ++
      js "JSONB_TO_RECORDSET JSON_STRIP_NULLS JSONB_STRIP_NULLS JSONB_SET JSONB_INSERT JSONB_PRETTY " ++
      js "CURRVAL LASTVAL NEXTVAL SETVAL " ++ js "COALESCE NULLIF GREATEST LEAST " ++
      js "ARRAY_APPEND ARRAY_CAT ARRAY_NDIMS ARRAY_DIMS ARRAY_FILL ARRAY_LENGTH ARRAY_LOWER ARRAY_POSITION " ++
      js "ARRAY_POSITIONS ARRAY_PREPEND ARRAY_REMOVE ARRAY_REPLACE ARRAY_TO_STRING ARRAY_UPPER CARDINALITY " ++
      js "STRING_TO_ARRAY UNNEST " ++ js "ISEMPTY LOWER_INC UPPER_INC LOWER_INF UPPER_INF RANGE_MERGE " ++
      js "GENERATE_SERIES GENERATE_SUBSCRIPTS " ++
      js "CURRENT_DATABASE CURRENT_QUERY CURRENT_SCHEMA|10 CURRENT_SCHEMAS|10 INET_CLIENT_ADDR INET_CLIENT_PORT " ++
      js "INET_SERVER_ADDR INET_SERVER_PORT ROW_SECURITY_ACTIVE FORMAT_TYPE " ++
      js "TO_REGCLASS TO_REGPROC TO_REGPROCEDURE TO_REGOPER TO_REGOPERATOR TO_REGTYPE TO_REGNAMESPACE TO_REGROLE " ++
      js "COL_DESCRIPTION OBJ_DESCRIPTION SHOBJ_DESCRIPTION " ++
      js "TXID_CURRENT TXID_CURRENT_IF_ASSIGNED TXID_CURRENT_SNAPSHOT TXID_SNAPSHOT_XIP TXID_SNAPSHOT_XMAX " ++
      js "TXID_SNAPSHOT_XMIN TXID_VISIBLE_IN_SNAPSHOT TXID_STATUS " ++
      js "CURRENT_SETTING SET_CONFIG BRIN_SUMMARIZE_NEW_VALUES BRIN_SUMMARIZE_RANGE BRIN_DESUMMARIZE_RANGE " ++
      js "GIN_CLEAN_PENDING_LIST " ++ js "SUPPRESS_REDUNDANT_UPDATES_TRIGGER " ++
      js "LO_FROM_BYTEA LO_PUT LO_GET LO_CREAT LO_CREATE LO_UNLINK LO_IMPORT LO_EXPORT LOREAD LOWRITE " ++
      js "GROUPING CAST ".

(** pgsql *)
Definition lang_pgsql : M language :=
  let* COMMENT_MODE := COMMENT (js "--") (js "$") [] in
  let UNQUOTED_IDENT := js "[a-zA-Z_][a-zA-Z_0-9$]*" in
  let DOLLAR_STRING := js "\$([a-zA-Z_]?|[a-zA-Z_][a-zA-Z_0-9]*" ++ js ")\$" in
  let LABEL := js "<<\s*" ++ UNQUOTED_IDENT ++ js "\s*>>" in
  let ROLE_ATTRS := js "SUPERUSER NOSUPERUSER CREATEDB NOCREATEDB CREATEROLE NOCREATEROLE INHERIT NOINHERIT " ++
      js "LOGIN NOLOGIN REPLICATION NOREPLICATION BYPASSRLS NOBYPASSRLS " in
  let PLPGSQL_KW := js "ALIAS BEGIN CONSTANT DECLARE END EXCEPTION RETURN PERFORM|10 RAISE GET DIAGNOSTICS " ++
      js "STACKED|10 FOREACH LOOP ELSIF EXIT WHILE REVERSE SLICE DEBUG LOG INFO NOTICE WARNING ASSERT " ++
      js "OPEN " in
  let TYPES_RE :=
      join (js "|") (map (fun val => default [] (head (split_on 124 val))) (split_on 32 (trim lang_pgsql_TYPES))) in
  let SQL_BI :=
      js "CURRENT_TIME CURRENT_TIMESTAMP CURRENT_USER CURRENT_CATALOG|10 CURRENT_DATE LOCALTIME LOCALTIMESTAMP " ++
      js "CURRENT_ROLE|10 CURRENT_SCHEMA|10 SESSION_USER PUBLIC " in
  let PLPGSQL_BI := js "FOUND NEW OLD TG_NAME|10 TG_WHEN|10 TG_LEVEL|10 TG_OP|10 TG_RELID|10 TG_RELNAME|10 " ++
      js "TG_TABLE_NAME|10 TG_TABLE_SCHEMA|10 TG_NARGS|10 TG_ARGV|10 TG_EVENT|10 TG_TAG|10 " ++
      js "ROW_COUNT RESULT_OID|10 PG_CONTEXT|10 RETURNED_SQLSTATE COLUMN_NAME CONSTRAINT_NAME " ++
      js "PG_DATATYPE_NAME|10 MESSAGE_TEXT TABLE_NAME SCHEMA_NAME PG_EXCEPTION_DETAIL|10 " ++
      js "PG_EXCEPTION_HINT|10 PG_EXCEPTION_CONTEXT|10 " in
  let FUNCTIONS_RE :=
      join (js "|") (map (fun val => default [] (head (split_on 124 val))) (split_on 32 (trim lang_pgsql_FUNCTIONS))) in
  let* m1 := new [ClassName (js "keyword"); Variants [[Begin (js "\bTEXT\s*SEARCH\b")];
      [Begin (js "\b(PRIMARY|FOREIGN|FOR(\s+NO)?)\s+KEY\b")];
      [Begin (js "\bPARALLEL\s+(UNSAFE|RESTRICTED|SAFE)\b")];
      [Begin (js "\bSTORAGE\s+(PLAIN|EXTERNAL|EXTENDED|MAIN)\b")]; [Begin (js "\bMATCH\s+(FULL|PARTIAL|SIMPLE)\b")];
      [Begin (js "\bNULLS\s+(FIRST|LAST)\b")]; [Begin (js "\bEVENT\s+TRIGGER\b")];
      [Begin (js "\b(MAPPING|OR)\s+REPLACE\b")]; [Begin (js "\b(FROM|TO)\s+(PROGRAM|STDIN|STDOUT)\b")];
      [Begin (js "\b(SHARE|EXCLUSIVE)\s+MODE\b")]; [Begin (js "\b(LEFT|RIGHT)\s+(OUTER\s+)?JOIN\b")];
      [Begin (js "\b(FETCH|MOVE)\s+(NEXT|PRIOR|FIRST|LAST|ABSOLUTE|RELATIVE|FORWARD|BACKWARD)\b")];
      [Begin (js "\bPRESERVE\s+ROWS\b")]; [Begin (js "\bDISCARD\s+PLANS\b")];
      [Begin (js "\bREFERENCING\s+(OLD|NEW)\b")]; [Begin (js "\bSKIP\s+LOCKED\b")];
      [Begin (js "\bGROUPING\s+SETS\b")]; [Begin (js "\b(BINARY|INSENSITIVE|SCROLL|NO\s+SCROLL)\s+(CURSOR|FOR)\b")];
      [Begin (js "\b(WITH|WITHOUT)\s+HOLD\b")]; [Begin (js "\bWITH\s+(CASCADED|LOCAL)\s+CHECK\s+OPTION\b")];
      [Begin (js "\bEXCLUDE\s+(TIES|NO\s+OTHERS)\b")]; [Begin (js "\bFORMAT\s+(TEXT|XML|JSON|YAML)\b")];
      [Begin (js "\bSET\s+((SESSION|LOCAL)\s+)?NAMES\b")]; [Begin (js "\bIS\s+(NOT\s+)?UNKNOWN\b")];
      [Begin (js "\bSECURITY\s+LABEL\b")]; [Begin (js "\bSTANDALONE\s+(YES|NO|NO\s+VALUE)\b")];
      [Begin (js "\bWITH\s+(NO\s+)?DATA\b")]; [Begin (js "\b(FOREIGN|SET)\s+DATA\b")];
      [Begin (js "\bSET\s+(CATALOG|CONSTRAINTS)\b")]; [Begin (js "\b(WITH|FOR)\s+ORDINALITY\b")];
      [Begin (js "\bIS\s+(NOT\s+)?DOCUMENT\b")]; [Begin (js "\bXML\s+OPTION\s+(DOCUMENT|CONTENT)\b")];
      [Begin (js "\b(STRIP|PRESERVE)\s+WHITESPACE\b")]; [Begin (js "\bNO\s+(ACTION|MAXVALUE|MINVALUE)\b")];
      [Begin (js "\bPARTITION\s+BY\s+(RANGE|LIST|HASH)\b")]; [Begin (js "\bAT\s+TIME\s+ZONE\b")];
      [Begin (js "\bGRANTED\s+BY\b")]; [Begin (js "\bRETURN\s+(QUERY|NEXT)\b")];
      [Begin (js "\b(ATTACH|DETACH)\s+PARTITION\b")]; [Begin (js "\bFORCE\s+ROW\s+LEVEL\s+SECURITY\b")];
      [Begin (js "\b(INCLUDING|EXCLUDING)\s+(COMMENTS|CONSTRAINTS|DEFAULTS|IDENTITY|INDEXES|STATISTICS|STORAGE|ALL)\b")];
      [Begin (js "\bAS\s+(ASSIGNMENT|IMPLICIT|PERMISSIVE|RESTRICTIVE|ENUM|RANGE)\b")]]] in
  let* m2 := new [Begin (js "\b(FORMAT|FAMILY|VERSION)\s*\(")] in
  let* m3 := new [Begin (js "\bINCLUDE\s*\("); Keywords (KStr (js "INCLUDE"))] in
  let* m4 := new [Begin (js "\bRANGE(?!\s*(BETWEEN|UNBOUNDED|CURRENT|[-0-9]+))")] in
  let* m5 :=
      new [Begin (js "\b(VERSION|OWNER|TEMPLATE|TABLESPACE|CONNECTION\s+LIMIT|PROCEDURE|RESTRICT|JOIN|PARSER|COPY|START|END|COLLATION|INPUT|ANALYZE|STORAGE|LIKE|DEFAULT|DELIMITER|ENCODING|COLUMN|CONSTRAINT|TABLE|SCHEMA)\s*=")] in
  let* m6 := new [Begin (js "\b(PG_\w+?|HAS_[A-Z_]+_PRIVILEGE)\b"); Relevance 10] in
  let* m7 := new [Begin (js "\bEXTRACT\s*\("); End_ (js "\bFROM\b"); ReturnEnd true;
      Keywords (KObj [(js "type", js "CENTURY DAY DECADE DOW DOY EPOCH HOUR ISODOW ISOYEAR MICROSECONDS " ++
      js "MILLENNIUM MILLISECONDS MINUTE MONTH QUARTER SECOND TIMEZONE TIMEZONE_HOUR " ++
      js "TIMEZONE_MINUTE WEEK YEAR")])] in
  let* m8 := new [Begin (js "\b(XMLELEMENT|XMLPI)\s*\(\s*NAME"); Keywords (KObj [(js "keyword", js "NAME")])] in
  let* m9 := new [Begin (js "\b(XMLPARSE|XMLSERIALIZE)\s*\(\s*(DOCUMENT|CONTENT)");
      Keywords (KObj [(js "keyword", js "DOCUMENT CONTENT")])] in
  let* m10 := new [BeginKeywords (js "CACHE INCREMENT MAXVALUE MINVALUE"); End_ C_NUMBER_RE; ReturnEnd true;
      Keywords (KStr (js "BY CACHE INCREMENT MAXVALUE MINVALUE"))] in
  let* m11 := new [ClassName (js "type"); Begin (js "\b(WITH|WITHOUT)\s+TIME\s+ZONE\b")] in
  let* m12 := new [ClassName (js "type");
      Begin (js "\bINTERVAL\s+(YEAR|MONTH|DAY|HOUR|MINUTE|SECOND)(\s+TO\s+(MONTH|HOUR|MINUTE|SECOND))?\b")] in
  let* m13 :=
      new [Begin (js "\bRETURNS\s+(LANGUAGE_HANDLER|TRIGGER|EVENT_TRIGGER|FDW_HANDLER|INDEX_AM_HANDLER|TSM_HANDLER)\b");
      Keywords (KObj [(js "keyword", js "RETURNS");
      (js "type", js "LANGUAGE_HANDLER TRIGGER EVENT_TRIGGER FDW_HANDLER INDEX_AM_HANDLER TSM_HANDLER")])] in
  let* m14 := new [Begin (js "\b(" ++ FUNCTIONS_RE ++ js ")\s*\(")] in
  let* m15 := new [Begin (js "\.(" ++ TYPES_RE ++ js ")\b")] in
  let* m16 := new [Begin (js "\b(" ++ TYPES_RE ++ js ")\s+PATH\b"); Keywords (KObj [(js "keyword", js "PATH");
      (js "type", replace_str lang_pgsql_TYPES (js "PATH ") [])])] in
  let* m17 := new [ClassName (js "type"); Begin (js "\b(" ++ TYPES_RE ++ js ")\b")] in
  let* m18 := new [Begin (js "''")] in
  let* m19 := new [ClassName (js "string"); Begin (js "'"); End_ (js "'"); Contains [CRef m18]] in
  let* m20 := new [Begin (js "\\.")] in
  let* m21 := new [ClassName (js "string"); Begin (js "(e|E|u&|U&)'"); End_ (js "'"); Contains [CRef m20];
      Relevance 10] in
  let* m22 := new [SubLanguage (inr [js "pgsql"; js "perl"; js "python"; js "tcl"; js "r"; js "lua"; js "java";
      js "php"; js "ruby"; js "bash"; js "scheme"; js "xml"; js "json"]); EndsWithParent true] in
  let* m23 := new [Begin DOLLAR_STRING; EndSameAsBegin true; Contains [CRef m22]] in
  let* m24 := new [Begin (js "＂＂")] in
  let* m25 := new [Begin (js "＂"); End_ (js "＂"); Contains [CRef m24]] in
  let* m26 := new [ClassName (js "meta"); Variants [[Begin (js "%(ROW)?TYPE"); Relevance 10]; [Begin (js "\$\d+")];
      [Begin (js "^#\w"); End_ (js "$")]]] in
  let* m27 := new [ClassName (js "symbol"); Begin LABEL; Relevance 10] in
  lang (mkLP true [js "postgres"; js "postgresql"] false) [Keywords (KObj [(js "keyword", lang_pgsql_SQL_KW ++
      PLPGSQL_KW ++ ROLE_ATTRS); (js "built_in", SQL_BI ++ PLPGSQL_BI ++ lang_pgsql_PLPGSQL_EXCEPTIONS)]);
      Illegal (js ":==|\W\s*\(\*|(^|\s)\$[a-z]|{{|[a-z]:\s*$|\.\.\.|TO:|DO:"); Contains [CRef m1; CRef m2; CRef m3;
      CRef m4; CRef m5; CRef m6; CRef m7; CRef m8; CRef m9; CRef m10; CRef m11; CRef m12; CRef m13; CRef m14;
      CRef m15; CRef m16; CRef m17; CRef m19; CRef m21; CRef m23; CRef m25; CRef C_NUMBER_MODE;
      CRef C_BLOCK_COMMENT_MODE; CRef COMMENT_MODE; CRef m26; CRef m27]].

(** php *)
Definition lang_php : M language :=
  let* VARIABLE := new [Begin (js "\$+[a-zA-Z_" ++ [127%N] ++ js "-ÿ][a-zA-Z0-9_" ++ [127%N] ++ js "-ÿ]*")] in
  let* PREPROCESSOR := new [ClassName (js "meta"); Begin (js "<\?(php)?|\?>")] in
  let* m1 := inherit_mode APOS_STRING_MODE [Illegal []] in
  let* m2 := inherit_mode QUOTE_STRING_MODE [Illegal []] in
  let* STRING := new [ClassName (js "string"); Contains [CRef BACKSLASH_ESCAPE; CRef PREPROCESSOR];
      Variants [[Begin (js "b＂"); End_ (js "＂")]; [Begin (js "b'"); End_ (js "'")]; [AllOf m1]; [AllOf m2]]] in
  let* NUMBER := new [Variants [[AllOf BINARY_NUMBER_MODE]; [AllOf C_NUMBER_MODE]]] in
  let* m3 := COMMENT (js "//") (js "$") [Contains [CRef PREPROCESSOR]] in
  let* m4 := new [ClassName (js "doctag"); Begin (js "@[A-Za-z]+")] in
  let* m5 := COMMENT (js "/\*") (js "\*/") [Contains [CRef m4]] in
  let* m6 := COMMENT (js "__halt_compiler.+?;") [] [EndsWithParent true; Keywords (KStr (js "__halt_compiler"));
      Lexemes UNDERSCORE_IDENT_RE] in
  let* m7 := new [ClassName (js "subst"); Variants [[Begin (js "\$\w+")]; [Begin (js "\{\$"); End_ (js "\}")]]] in
  let* m8 := new [ClassName (js "string"); Begin (js "<<<['＂]?\w+['＂]?$"); End_ (js "^\w+;?$");
      Contains [CRef BACKSLASH_ESCAPE; CRef m7]] in
  let* m9 := new [ClassName (js "keyword"); Begin (js "\$this\b")] in
  let* m10 := new [Begin (js "(::|->)+[a-zA-Z_\x7f-\xff][a-zA-Z0-9_\x7f-\xff]*")] in
  let* m11 := new [ClassName (js "params"); Begin (js "\("); End_ (js "\)"); Contains [CSelf; CRef VARIABLE;
      CRef C_BLOCK_COMMENT_MODE; CRef STRING; CRef NUMBER]] in
  let* m12 := new [ClassName (js "function"); BeginKeywords (js "function"); End_ (js "[;{]"); ExcludeEnd true;
      Illegal (js "\$|\[|%"); Contains [CRef UNDERSCORE_TITLE_MODE; CRef m11]] in
  let* m13 := new [BeginKeywords (js "extends implements")] in
  let* m14 := new [ClassName (js "class"); BeginKeywords (js "class interface"); End_ (js "{"); ExcludeEnd true;
      Illegal (js "[:\(\$＂]"); Contains [CRef m13; CRef UNDERSCORE_TITLE_MODE]] in
  let* m15 := new [BeginKeywords (js "namespace"); End_ (js ";"); Illegal (js "[\.']");
      Contains [CRef UNDERSCORE_TITLE_MODE]] in
  let* m16 := new [BeginKeywords (js "use"); End_ (js ";"); Contains [CRef UNDERSCORE_TITLE_MODE]] in
  let* m17 := new [Begin (js "=>")] in
  lang (mkLP true [js "php"; js "php3"; js "php4"; js "php5"; js "php6";
      js "php7"] false) [Keywords (KStr (js "and include_once list abstract global private echo interface as static endswitch " ++
      js "array null if endwhile or const for endforeach self var while isset public " ++
      js "protected exit foreach throw elseif include __FILE__ empty require_once do xor " ++
      js "return parent clone use __CLASS__ __LINE__ else break print eval new " ++
      js "catch __METHOD__ case exception default die require __FUNCTION__ " ++
      js "enddeclare final try switch continue endfor endif declare unset true false " ++
      js "trait goto instanceof insteadof __DIR__ __NAMESPACE__ " ++ js "yield finally"));
      Contains [CRef HASH_COMMENT_MODE; CRef m3; CRef m5; CRef m6; CRef m8; CRef PREPROCESSOR; CRef m9;
      CRef VARIABLE; CRef m10; CRef m12; CRef m14; CRef m15; CRef m16; CRef m17; CRef STRING; CRef NUMBER]].

(** plaintext *)
Definition lang_plaintext : M language :=
  lang (mkLP false [] true) [].

(** pony *)
Definition lang_pony : M language :=
  let KEYWORDS :=
      KObj [(js "keyword", js "actor addressof and as be break class compile_error compile_intrinsic " ++
      js "consume continue delegate digestof do else elseif embed end error " ++
      js "for fun if ifdef in interface is isnt lambda let match new not object " ++
      js "or primitive recover repeat return struct then trait try type until " ++
      js "use var where while with xor"); (js "meta", js "iso val tag trn box ref");
      (js "literal", js "this false true")] in
  let* TRIPLE_QUOTE_STRING_MODE := new [ClassName (js "string"); Begin (js "＂＂＂"); End_ (js "＂＂＂"); Relevance 10] in
  let* QUOTE_STRING_MODE' := new [ClassName (js "string"); Begin (js "＂"); End_ (js "＂");
      Contains [CRef BACKSLASH_ESCAPE]] in
  let* SINGLE_QUOTE_CHAR_MODE := new [ClassName (js "string"); Begin (js "'"); End_ (js "'");
      Contains [CRef BACKSLASH_ESCAPE]; Relevance 0] in
  let* TYPE_NAME := new [ClassName (js "type"); Begin (js "\b_?[A-Z][\w]*"); Relevance 0] in
  let* PRIMED_NAME := new [Begin (IDENT_RE ++ js "'"); Relevance 0] in
  lang plain_lang [Keywords KEYWORDS; Contains [CRef TYPE_NAME; CRef TRIPLE_QUOTE_STRING_MODE;
      CRef QUOTE_STRING_MODE'; CRef SINGLE_QUOTE_CHAR_MODE; CRef PRIMED_NAME; CRef C_NUMBER_MODE;
      CRef C_LINE_COMMENT_MODE; CRef C_BLOCK_COMMENT_MODE]].

Definition lang_powershell_built_in_1 : jsstr :=
  js "Add-Computer Add-Content Add-History Add-JobTrigger Add-Member Add-PSSnapin Add-Type Checkpoint-Computer " ++
      js "Clear-Content " ++
      js "Clear-EventLog Clear-History Clear-Host Clear-Item Clear-ItemProperty Clear-Variable Compare-Object " ++
      js "Complete-Transaction Connect-PSSession " ++
      js "Connect-WSMan Convert-Path ConvertFrom-Csv ConvertFrom-Json ConvertFrom-SecureString ConvertFrom-StringData " ++
      js "ConvertTo-Csv ConvertTo-Html " ++
      js "ConvertTo-Json ConvertTo-SecureString ConvertTo-Xml Copy-Item Copy-ItemProperty Debug-Process Disable-ComputerRestore " ++
      js "Disable-JobTrigger " ++
      js "Disable-PSBreakpoint Disable-PSRemoting Disable-PSSessionConfiguration Disable-WSManCredSSP Disconnect-PSSession " ++
      js "Disconnect-WSMan " ++
      js "Disable-ScheduledJob Enable-ComputerRestore Enable-JobTrigger Enable-PSBreakpoint Enable-PSRemoting " ++
      js "Enable-PSSessionConfiguration " ++
      js "Enable-ScheduledJob Enable-WSManCredSSP Enter-PSSession Exit-PSSession Export-Alias Export-Clixml Export-Console " ++
      js "Export-Counter Export-Csv " ++
      js "Export-FormatData Export-ModuleMember Export-PSSession ForEach-Object Format-Custom Format-List Format-Table " ++
      js "Format-Wide Get-Acl Get-Alias " ++
      js "Get-AuthenticodeSignature Get-ChildItem Get-Command Get-ComputerRestorePoint Get-Content Get-ControlPanelItem " ++
      js "Get-Counter Get-Credential " ++
      js "Get-Culture Get-Date Get-Event Get-EventLog Get-EventSubscriber Get-ExecutionPolicy Get-FormatData Get-Host " ++
      js "Get-HotFix Get-Help Get-History " ++
      js "Get-IseSnippet Get-Item Get-ItemProperty Get-Job Get-JobTrigger Get-Location Get-Member Get-Module Get-PfxCertificate " ++
      js "Get-Process " ++
      js "Get-PSBreakpoint Get-PSCallStack Get-PSDrive Get-PSProvider Get-PSSession Get-PSSessionConfiguration " ++
      js "Get-PSSnapin Get-Random Get-ScheduledJob " ++
      js "Get-ScheduledJobOption Get-Service Get-TraceSource Get-Transaction Get-TypeData Get-UICulture Get-Unique " ++
      js "Get-Variable Get-Verb Get-WinEvent " ++
      js "Get-WmiObject Get-WSManCredSSP Get-WSManInstance Group-Object Import-Alias Import-Clixml Import-Counter " ++
      js "Import-Csv Import-IseSnippet " ++
      js "Import-LocalizedData Import-PSSession Import-Module Invoke-AsWorkflow Invoke-Command Invoke-Expression " ++
      js "Invoke-History Invoke-Item " ++
      js "Invoke-RestMethod Invoke-WebRequest Invoke-WmiMethod Invoke-WSManAction Join-Path Limit-EventLog Measure-Command " ++
      js "Measure-Object Move-Item " ++
      js "Move-ItemProperty New-Alias New-Event New-EventLog New-IseSnippet New-Item New-ItemProperty New-JobTrigger " ++
      js "New-Object New-Module " ++
      js "New-ModuleManifest New-PSDrive New-PSSession New-PSSessionConfigurationFile New-PSSessionOption New-PSTransportOption " ++
      js "New-PSWorkflowExecutionOption New-PSWorkflowSession New-ScheduledJobOption New-Service New-TimeSpan " ++
      js "New-Variable New-WebServiceProxy " ++
      js "New-WinEvent New-WSManInstance New-WSManSessionOption Out-Default Out-File Out-GridView Out-Host Out-Null " ++
      js "Out-Printer Out-String Pop-Location " ++
      js "Push-Location Read-Host Receive-Job Register-EngineEvent Register-ObjectEvent Register-PSSessionConfiguration " ++
      js "Register-ScheduledJob " ++
      js "Register-WmiEvent Remove-Computer Remove-Event Remove-EventLog Remove-Item Remove-ItemProperty Remove-Job " ++
      js "Remove-JobTrigger Remove-Module " ++
      js "Remove-PSBreakpoint Remove-PSDrive Remove-PSSession Remove-PSSnapin Remove-TypeData Remove-Variable " ++
      js "Remove-WmiObject Remove-WSManInstance " ++
      js "Rename-Computer Rename-Item Rename-ItemProperty Reset-ComputerMachinePassword Resolve-Path Restart-Computer " ++
      js "Restart-Service Restore-Computer " ++
      js "Resume-Job Resume-Service Save-Help Select-Object Select-String Select-Xml Send-MailMessage Set-Acl " ++
      js "Set-Alias Set-AuthenticodeSignature " ++
      js "Set-Content Set-Date Set-ExecutionPolicy Set-Item Set-ItemProperty Set-JobTrigger Set-Location Set-PSBreakpoint " ++
      js "Set-PSDebug " ++
      js "Set-PSSessionConfiguration Set-ScheduledJob Set-ScheduledJobOption Set-Service Set-StrictMode Set-TraceSource " ++
      js "Set-Variable Set-WmiInstance " ++
      js "Set-WSManInstance Set-WSManQuickConfig Show-Command Show-ControlPanelItem Show-EventLog Sort-Object " ++
      js "Split-Path Start-Job Start-Process " ++
      js "Start-Service Start-Sleep Start-Transaction Start-Transcript Stop-Computer Stop-Job Stop-Process Stop-Service " ++
      js "Stop-Transcript Suspend-Job " ++
      js "Suspend-Service Tee-Object Test-ComputerSecureChannel Test-Connection Test-ModuleManifest Test-Path " ++
      js "Test-PSSessionConfigurationFile " ++
      js "Trace-Command Unblock-File Undo-Transaction Unregister-Event Unregister-PSSessionConfiguration Unregister-ScheduledJob " ++
      js "Update-FormatData " ++
      js "Update-Help Update-List Update-TypeData Use-Transaction Wait-Event Wait-Job Wait-Process Where-Object " ++
      js "Write-Debug Write-Error Write-EventLog " ++
      js "Write-Host Write-Output Write-Progress Write-Verbose Write-Warning Add-MDTPersistentDrive Disable-MDTMonitorService " ++
      js "Enable-MDTMonitorService " ++
      js "Get-MDTDeploymentShareStatistics Get-MDTMonitorData Get-MDTOperatingSystemCatalog Get-MDTPersistentDrive " ++
      js "Import-MDTApplication " ++
      js "Import-MDTDriver Import-MDTOperatingSystem Import-MDTPackage Import-MDTTaskSequence New-MDTDatabase " ++
      js "Remove-MDTMonitorData " ++
      js "Remove-MDTPersistentDrive Restore-MDTPersistentDrive Set-MDTMonitorData Test-MDTDeploymentShare Test-MDTMonitorData " ++
      js "Update-MDTDatabaseSchema " ++
      js "Update-MDTDeploymentShare Update-MDTLinkedDS Update-MDTMedia Add-VamtProductKey Export-VamtData Find-VamtManagedMachine " ++
      js "Get-VamtConfirmationId Get-VamtProduct Get-VamtProductKey Import-VamtData Initialize-VamtData Install-VamtConfirmationId " ++
      js "Install-VamtProductActivation Install-VamtProductKey Update-VamtProduct Add-CIDatastore Add-KeyManagementServer " ++
      js "Add-NodeKeys " ++
      js "Add-NsxDynamicCriteria Add-NsxDynamicMemberSet Add-NsxEdgeInterfaceAddress Add-NsxFirewallExclusionListMember " ++
      js "Add-NsxFirewallRuleMember " ++
      js "Add-NsxIpSetMember Add-NsxLicense Add-NsxLoadBalancerPoolMember Add-NsxLoadBalancerVip Add-NsxSecondaryManager " ++
      js "Add-NsxSecurityGroupMember " ++
      js "Add-NsxSecurityPolicyRule Add-NsxSecurityPolicyRuleGroup Add-NsxSecurityPolicyRuleService Add-NsxServiceGroupMember " ++
      js "Add-NsxTransportZoneMember Add-PassthroughDevice Add-VDSwitchPhysicalNetworkAdapter Add-VDSwitchVMHost " ++
      js "Add-VMHost Add-VMHostNtpServer " ++
      js "Add-VirtualSwitchPhysicalNetworkAdapter Add-XmlElement Add-vRACustomForm Add-vRAPrincipalToTenantRole " ++
      js "Add-vRAReservationNetwork " ++
      js "Add-vRAReservationStorage Clear-NsxEdgeInterface Clear-NsxManagerTimeSettings Compress-Archive Connect-CIServer " ++
      js "Connect-CisServer " ++
      js "Connect-HCXServer Connect-NIServer Connect-NsxLogicalSwitch Connect-NsxServer Connect-NsxtServer Connect-SrmServer " ++
      js "Connect-VIServer " ++
      js "Connect-Vmc Connect-vRAServer Connect-vRNIServer ConvertFrom-Markdown ConvertTo-MOFInstance Copy-DatastoreItem " ++
      js "Copy-HardDisk Copy-NsxEdge " ++
      js "Copy-VDisk Copy-VMGuestFile Debug-Runspace Disable-NsxEdgeSsh Disable-RunspaceDebug Disable-vRNIDataSource " ++
      js "Disconnect-CIServer " ++
      js "Disconnect-CisServer Disconnect-HCXServer Disconnect-NsxLogicalSwitch Disconnect-NsxServer Disconnect-NsxtServer " ++
      js "Disconnect-SrmServer " ++
      js "Disconnect-VIServer Disconnect-Vmc Disconnect-vRAServer Disconnect-vRNIServer Dismount-Tools Enable-NsxEdgeSsh " ++
      js "Enable-RunspaceDebug " ++
      js "Enable-vRNIDataSource Expand-Archive Export-NsxObject Export-SpbmStoragePolicy Export-VApp Export-VDPortGroup " ++
      js "Export-VDSwitch " ++
      js "Export-VMHostProfile Export-vRAIcon Export-vRAPackage Find-Command Find-DscResource Find-Module Find-NsxWhereVMUsed " ++
      js "Find-Package " ++
      js "Find-PackageProvider Find-RoleCapability Find-Script Format-Hex Format-VMHostDiskPartition Format-XML " ++
      js "Generate-VersionInfo " ++
      js "Get-AdvancedSetting Get-AlarmAction Get-AlarmActionTrigger Get-AlarmDefinition Get-Annotation Get-CDDrive " ++
      js "Get-CIAccessControlRule " ++
      js "Get-CIDatastore Get-CINetworkAdapter Get-CIRole Get-CIUser Get-CIVApp Get-CIVAppNetwork Get-CIVAppStartRule " ++
      js "Get-CIVAppTemplate Get-CIVM " ++
      js "Get-CIVMTemplate Get-CIView Get-Catalog Get-CisCommand Get-CisService Get-CloudCommand Get-Cluster Get-CompatibleVersionAddtionaPropertiesStr " ++
      js "Get-ComplexResourceQualifier Get-ConfigurationErrorCount Get-ContentLibraryItem Get-CustomAttribute " ++
      js "Get-DSCResourceModules Get-Datacenter " ++
      js "Get-Datastore Get-DatastoreCluster Get-DrsClusterGroup Get-DrsRecommendation Get-DrsRule Get-DrsVMHostRule " ++
      js "Get-DscResource Get-EdgeGateway " ++
      js "Get-EncryptedPassword Get-ErrorReport Get-EsxCli Get-EsxTop Get-ExternalNetwork Get-FileHash Get-FloppyDrive " ++
      js "Get-Folder Get-HAPrimaryVMHost " ++
      js "Get-HCXAppliance Get-HCXApplianceCompute Get-HCXApplianceDVS Get-HCXApplianceDatastore Get-HCXApplianceNetwork " ++
      js "Get-HCXContainer " ++
      js "Get-HCXDatastore Get-HCXGateway Get-HCXInterconnectStatus Get-HCXJob Get-HCXMigration Get-HCXNetwork " ++
      js "Get-HCXNetworkExtension " ++
      js "Get-HCXReplication Get-HCXReplicationSnapshot Get-HCXService Get-HCXSite Get-HCXSitePairing Get-HCXVM " ++
      js "Get-HardDisk Get-IScsiHbaTarget " ++
      js "Get-InnerMostErrorRecord Get-InstallPath Get-InstalledModule Get-InstalledScript Get-Inventory Get-ItemPropertyValue " ++
      js "Get-KeyManagementServer " ++
      js "Get-KmipClientCertificate Get-KmsCluster Get-Log Get-LogType Get-MarkdownOption Get-Media Get-MofInstanceName " ++
      js "Get-MofInstanceText Get-NetworkAdapter Get-NetworkPool " ++
      js "Get-NfsUser Get-NicTeamingPolicy Get-NsxApplicableMember Get-NsxApplicableSecurityAction Get-NsxBackingDVSwitch " ++
      js "Get-NsxBackingPortGroup Get-NsxCliDfwAddrSet " ++
      js "Get-NsxCliDfwFilter Get-NsxCliDfwRule Get-NsxClusterStatus Get-NsxController Get-NsxDynamicCriteria " ++
      js "Get-NsxDynamicMemberSet Get-NsxEdge Get-NsxEdgeBgp " ++
      js "Get-NsxEdgeBgpNeighbour Get-NsxEdgeCertificate Get-NsxEdgeCsr Get-NsxEdgeFirewall Get-NsxEdgeFirewallRule " ++
      js "Get-NsxEdgeInterface Get-NsxEdgeInterfaceAddress " ++
      js "Get-NsxEdgeNat Get-NsxEdgeNatRule Get-NsxEdgeOspf Get-NsxEdgeOspfArea Get-NsxEdgeOspfInterface Get-NsxEdgePrefix " ++
      js "Get-NsxEdgeRedistributionRule Get-NsxEdgeRouting " ++
      js "Get-NsxEdgeStaticRoute Get-NsxEdgeSubInterface Get-NsxFirewallExclusionListMember Get-NsxFirewallGlobalConfiguration " ++
      js "Get-NsxFirewallPublishStatus Get-NsxFirewallRule " ++
      js "Get-NsxFirewallRuleMember Get-NsxFirewallSavedConfiguration Get-NsxFirewallSection Get-NsxFirewallThreshold " ++
      js "Get-NsxIpPool Get-NsxIpSet Get-NsxLicense Get-NsxLoadBalancer " ++
      js "Get-NsxLoadBalancerApplicationProfile Get-NsxLoadBalancerApplicationRule Get-NsxLoadBalancerMonitor " ++
      js "Get-NsxLoadBalancerPool Get-NsxLoadBalancerPoolMember Get-NsxLoadBalancerStats " ++
      js "Get-NsxLoadBalancerVip Get-NsxLogicalRouter Get-NsxLogicalRouterBgp Get-NsxLogicalRouterBgpNeighbour " ++
      js "Get-NsxLogicalRouterBridge Get-NsxLogicalRouterBridging " ++
      js "Get-NsxLogicalRouterInterface Get-NsxLogicalRouterOspf Get-NsxLogicalRouterOspfArea Get-NsxLogicalRouterOspfInterface " ++
      js "Get-NsxLogicalRouterPrefix " ++
      js "Get-NsxLogicalRouterRedistributionRule Get-NsxLogicalRouterRouting Get-NsxLogicalRouterStaticRoute Get-NsxLogicalSwitch " ++
      js "Get-NsxMacSet Get-NsxManagerBackup " ++
      js "Get-NsxManagerCertificate Get-NsxManagerComponentSummary Get-NsxManagerNetwork Get-NsxManagerRole Get-NsxManagerSsoConfig " ++
      js "Get-NsxManagerSyncStatus Get-NsxManagerSyslogServer " ++
      js "Get-NsxManagerSystemSummary Get-NsxManagerTimeSettings Get-NsxManagerVcenterConfig Get-NsxSecondaryManager " ++
      js "Get-NsxSecurityGroup Get-NsxSecurityGroupEffectiveIpAddress " ++
      js "Get-NsxSecurityGroupEffectiveMacAddress Get-NsxSecurityGroupEffectiveMember Get-NsxSecurityGroupEffectiveVirtualMachine " ++
      js "Get-NsxSecurityGroupEffectiveVnic " ++
      js "Get-NsxSecurityGroupMemberTypes Get-NsxSecurityPolicy Get-NsxSecurityPolicyHighestUsedPrecedence Get-NsxSecurityPolicyRule " ++
      js "Get-NsxSecurityTag Get-NsxSecurityTagAssignment " ++
      js "Get-NsxSegmentIdRange Get-NsxService Get-NsxServiceDefinition Get-NsxServiceGroup Get-NsxServiceGroupMember " ++
      js "Get-NsxServiceProfile Get-NsxSpoofguardNic Get-NsxSpoofguardPolicy " ++
      js "Get-NsxSslVpn Get-NsxSslVpnAuthServer Get-NsxSslVpnClientInstallationPackage Get-NsxSslVpnIpPool Get-NsxSslVpnPrivateNetwork " ++
      js "Get-NsxSslVpnUser Get-NsxTransportZone " ++
      js "Get-NsxUserRole Get-NsxVdsContext Get-NsxtPolicyService Get-NsxtService Get-OSCustomizationNicMapping " ++
      js "Get-OSCustomizationSpec Get-Org Get-OrgNetwork Get-OrgVdc " ++
      js "Get-OrgVdcNetwork Get-OvfConfiguration Get-PSCurrentConfigurationNode Get-PSDefaultConfigurationDocument " ++
      js "Get-PSMetaConfigDocumentInstVersionInfo Get-PSMetaConfigurationProcessed " ++
      js "Get-PSReadLineKeyHandler Get-PSReadLineOption Get-PSRepository Get-PSTopConfigurationName Get-PSVersion " ++
      js "Get-Package Get-PackageProvider Get-PackageSource Get-PassthroughDevice " ++
      js "Get-PositionInfo Get-PowerCLICommunity Get-PowerCLIConfiguration Get-PowerCLIHelp Get-PowerCLIVersion " ++
      js "Get-PowerNsxVersion Get-ProviderVdc Get-PublicKeyFromFile " ++
      js "Get-PublicKeyFromStore Get-ResourcePool Get-Runspace Get-RunspaceDebug Get-ScsiController Get-ScsiLun " ++
      js "Get-ScsiLunPath Get-SecurityInfo Get-SecurityPolicy Get-Snapshot " ++
      js "Get-SpbmCapability Get-SpbmCompatibleStorage Get-SpbmEntityConfiguration Get-SpbmFaultDomain Get-SpbmPointInTimeReplica " ++
      js "Get-SpbmReplicationGroup Get-SpbmReplicationPair " ++
      js "Get-SpbmStoragePolicy Get-Stat Get-StatInterval Get-StatType Get-Tag Get-TagAssignment Get-TagCategory " ++
      js "Get-Task Get-Template Get-TimeZone Get-Uptime Get-UsbDevice Get-VAIOFilter " ++
      js "Get-VApp Get-VDBlockedPolicy Get-VDPort Get-VDPortgroup Get-VDPortgroupOverridePolicy Get-VDSecurityPolicy " ++
      js "Get-VDSwitch Get-VDSwitchPrivateVlan Get-VDTrafficShapingPolicy " ++
      js "Get-VDUplinkLacpPolicy Get-VDUplinkTeamingPolicy Get-VDisk Get-VIAccount Get-VICommand Get-VICredentialStoreItem " ++
      js "Get-VIEvent Get-VIObjectByVIView Get-VIPermission Get-VIPrivilege " ++
      js "Get-VIProperty Get-VIRole Get-VM Get-VMGuest Get-VMHost Get-VMHostAccount Get-VMHostAdvancedConfiguration " ++
      js "Get-VMHostAuthentication Get-VMHostAvailableTimeZone " ++
      js "Get-VMHostDiagnosticPartition Get-VMHostDisk Get-VMHostDiskPartition Get-VMHostFirewallDefaultPolicy " ++
      js "Get-VMHostFirewallException Get-VMHostFirmware Get-VMHostHardware " ++
      js "Get-VMHostHba Get-VMHostModule Get-VMHostNetwork Get-VMHostNetworkAdapter Get-VMHostNtpServer Get-VMHostPatch " ++
      js "Get-VMHostPciDevice Get-VMHostProfile " ++
      js "Get-VMHostProfileImageCacheConfiguration Get-VMHostProfileRequiredInput Get-VMHostProfileStorageDeviceConfiguration " ++
      js "Get-VMHostProfileUserConfiguration " ++
      js "Get-VMHostProfileVmPortGroupConfiguration Get-VMHostRoute Get-VMHostService Get-VMHostSnmp Get-VMHostStartPolicy " ++
      js "Get-VMHostStorage Get-VMHostSysLogServer Get-VMQuestion " ++
      js "Get-VMResourceConfiguration Get-VMStartPolicy Get-VTpm Get-VTpmCSR Get-VTpmCertificate Get-VasaProvider " ++
      js "Get-VasaStorageArray Get-View Get-VirtualPortGroup Get-VirtualSwitch " ++
      js "Get-VmcSddcNetworkService Get-VmcService Get-VsanClusterConfiguration Get-VsanComponent Get-VsanDisk " ++
      js "Get-VsanDiskGroup Get-VsanEvacuationPlan Get-VsanFaultDomain " ++
      js "Get-VsanIscsiInitiatorGroup Get-VsanIscsiInitiatorGroupTargetAssociation Get-VsanIscsiLun Get-VsanIscsiTarget " ++
      js "Get-VsanObject Get-VsanResyncingComponent Get-VsanRuntimeInfo " ++
      js "Get-VsanSpaceUsage Get-VsanStat Get-VsanView Get-vRAApplianceServiceStatus Get-vRAAuthorizationRole " ++
      js "Get-vRABlueprint Get-vRABusinessGroup Get-vRACatalogItem " ++
      js "Get-vRACatalogItemRequestTemplate Get-vRACatalogPrincipal Get-vRAComponentRegistryService Get-vRAComponentRegistryServiceEndpoint " ++
      js "Get-vRAComponentRegistryServiceStatus " ++
      js "Get-vRAContent Get-vRAContentData Get-vRAContentType Get-vRACustomForm Get-vRAEntitledCatalogItem Get-vRAEntitledService " ++
      js "Get-vRAEntitlement Get-vRAExternalNetworkProfile " ++
      js "Get-vRAGroupPrincipal Get-vRAIcon Get-vRANATNetworkProfile Get-vRANetworkProfileIPAddressList Get-vRANetworkProfileIPRangeSummary " ++
      js "Get-vRAPackage Get-vRAPackageContent " ++
      js "Get-vRAPropertyDefinition Get-vRAPropertyGroup Get-vRARequest Get-vRARequestDetail Get-vRAReservation " ++
      js "Get-vRAReservationComputeResource Get-vRAReservationComputeResourceMemory " ++
      js "Get-vRAReservationComputeResourceNetwork Get-vRAReservationComputeResourceResourcePool Get-vRAReservationComputeResourceStorage " ++
      js "Get-vRAReservationPolicy " ++
      js "Get-vRAReservationTemplate Get-vRAReservationType Get-vRAResource Get-vRAResourceAction Get-vRAResourceActionRequestTemplate " ++
      js "Get-vRAResourceMetric Get-vRAResourceOperation " ++
      js "Get-vRAResourceType Get-vRARoutedNetworkProfile Get-vRAService Get-vRAServiceBlueprint Get-vRASourceMachine " ++
      js "Get-vRAStorageReservationPolicy Get-vRATenant Get-vRATenantDirectory " ++
      js "Get-vRATenantDirectoryStatus Get-vRATenantRole Get-vRAUserPrincipal Get-vRAUserPrincipalGroupMembership " ++
      js "Get-vRAVersion Get-vRNIAPIVersion Get-vRNIApplication " ++
      js "Get-vRNIApplicationTier Get-vRNIDataSource Get-vRNIDataSourceSNMPConfig Get-vRNIDatastore Get-vRNIDistributedSwitch " ++
      js "Get-vRNIDistributedSwitchPortGroup Get-vRNIEntity " ++
      js "Get-vRNIEntityName Get-vRNIFirewallRule Get-vRNIFlow Get-vRNIHost Get-vRNIHostVMKNic Get-vRNIIPSet Get-vRNIL2Network " ++
      js "Get-vRNINSXManager Get-vRNINodes Get-vRNIProblem " ++
      js "Get-vRNIRecommendedRules Get-vRNIRecommendedRulesNsxBundle Get-vRNISecurityGroup Get-vRNISecurityTag " ++
      js "Get-vRNIService Get-vRNIServiceGroup Get-vRNIVM Get-vRNIVMvNIC " ++
      js "Get-vRNIvCenter Get-vRNIvCenterCluster Get-vRNIvCenterDatacenter Get-vRNIvCenterFolder Grant-NsxSpoofguardNicApproval " ++
      js "Import-CIVApp Import-CIVAppTemplate Import-NsxObject " ++
      js "Import-PackageProvider Import-PowerShellDataFile Import-SpbmStoragePolicy Import-VApp Import-VMHostProfile " ++
      js "Import-vRAContentData Import-vRAIcon Import-vRAPackage " ++
      js "Initialize-ConfigurationRuntimeState Install-Module Install-NsxCluster Install-Package Install-PackageProvider " ++
      js "Install-Script Install-VMHostPatch Invoke-DrsRecommendation " ++
      js "Invoke-NsxCli Invoke-NsxClusterResolveAll Invoke-NsxManagerSync Invoke-NsxRestMethod Invoke-NsxWebRequest " ++
      js "Invoke-VMHostProfile Invoke-VMScript Invoke-XpathQuery " ++
      js "Invoke-vRADataCollection Invoke-vRARestMethod Invoke-vRATenantDirectorySync Invoke-vRNIRestMethod Join-String " ++
      js "Mount-Tools Move-Cluster Move-Datacenter Move-Datastore Move-Folder " ++
      js "Move-HardDisk Move-Inventory Move-NsxSecurityPolicyRule Move-ResourcePool Move-Template Move-VApp Move-VDisk " ++
      js "Move-VM Move-VMHost New-AdvancedSetting New-AlarmAction " ++
      js "New-AlarmActionTrigger New-CDDrive New-CIAccessControlRule New-CIVApp New-CIVAppNetwork New-CIVAppTemplate " ++
      js "New-CIVM New-Cluster New-CustomAttribute New-Datacenter New-Datastore " ++
      js "New-DatastoreCluster New-DatastoreDrive New-DrsClusterGroup New-DrsRule New-DrsVMHostRule New-DscChecksum " ++
      js "New-FloppyDrive New-Folder New-Guid New-HCXAppliance New-HCXMigration " ++
      js "New-HCXNetworkExtension New-HCXNetworkMapping New-HCXReplication New-HCXSitePairing New-HCXStaticRoute " ++
      js "New-HardDisk New-IScsiHbaTarget New-KmipClientCertificate " ++
      js "New-NetworkAdapter New-NfsUser New-NsxAddressSpec New-NsxClusterVxlanConfig New-NsxController New-NsxDynamicCriteriaSpec " ++
      js "New-NsxEdge New-NsxEdgeBgpNeighbour New-NsxEdgeCsr " ++
      js "New-NsxEdgeFirewallRule New-NsxEdgeInterfaceSpec New-NsxEdgeNatRule New-NsxEdgeOspfArea New-NsxEdgeOspfInterface " ++
      js "New-NsxEdgePrefix New-NsxEdgeRedistributionRule " ++
      js "New-NsxEdgeSelfSignedCertificate New-NsxEdgeStaticRoute New-NsxEdgeSubInterface New-NsxEdgeSubInterfaceSpec " ++
      js "New-NsxFirewallRule New-NsxFirewallSavedConfiguration " ++
      js "New-NsxFirewallSection New-NsxIpPool New-NsxIpSet New-NsxLoadBalancerApplicationProfile New-NsxLoadBalancerApplicationRule " ++
      js "New-NsxLoadBalancerMemberSpec " ++
      js "New-NsxLoadBalancerMonitor New-NsxLoadBalancerPool New-NsxLogicalRouter New-NsxLogicalRouterBgpNeighbour " ++
      js "New-NsxLogicalRouterBridge New-NsxLogicalRouterInterface " ++
      js "New-NsxLogicalRouterInterfaceSpec New-NsxLogicalRouterOspfArea New-NsxLogicalRouterOspfInterface New-NsxLogicalRouterPrefix " ++
      js "New-NsxLogicalRouterRedistributionRule " ++
      js "New-NsxLogicalRouterStaticRoute New-NsxLogicalSwitch New-NsxMacSet New-NsxManager New-NsxSecurityGroup " ++
      js "New-NsxSecurityPolicy New-NsxSecurityPolicyAssignment " ++
      js "New-NsxSecurityPolicyFirewallRuleSpec New-NsxSecurityPolicyGuestIntrospectionSpec New-NsxSecurityPolicyNetworkIntrospectionSpec " ++
      js "New-NsxSecurityTag New-NsxSecurityTagAssignment " ++
      js "New-NsxSegmentIdRange New-NsxService New-NsxServiceGroup New-NsxSpoofguardPolicy New-NsxSslVpnAuthServer " ++
      js "New-NsxSslVpnClientInstallationPackage New-NsxSslVpnIpPool " ++
      js "New-NsxSslVpnPrivateNetwork New-NsxSslVpnUser New-NsxTransportZone New-NsxVdsContext New-OSCustomizationNicMapping " ++
      js "New-OSCustomizationSpec New-Org New-OrgNetwork New-OrgVdc " ++
      js "New-OrgVdcNetwork New-ResourcePool New-ScriptFileInfo New-ScsiController New-Snapshot New-SpbmRule New-SpbmRuleSet " ++
      js "New-SpbmStoragePolicy New-StatInterval New-Tag " ++
      js "New-TagAssignment New-TagCategory New-Template New-TemporaryFile New-VAIOFilter New-VApp New-VDPortgroup " ++
      js "New-VDSwitch New-VDSwitchPrivateVlan New-VDisk " ++
      js "New-VICredentialStoreItem New-VIInventoryDrive New-VIPermission New-VIProperty New-VIRole New-VISamlSecurityContext " ++
      js "New-VM New-VMHostAccount New-VMHostNetworkAdapter " ++
      js "New-VMHostProfile New-VMHostProfileVmPortGroupConfiguration New-VMHostRoute New-VTpm New-VasaProvider " ++
      js "New-VcsOAuthSecurityContext New-VirtualPortGroup New-VirtualSwitch " ++
      js "New-VsanDisk New-VsanDiskGroup New-VsanFaultDomain New-VsanIscsiInitiatorGroup New-VsanIscsiInitiatorGroupTargetAssociation " ++
      js "New-VsanIscsiLun New-VsanIscsiTarget " ++
      js "New-vRABusinessGroup New-vRAEntitlement New-vRAExternalNetworkProfile New-vRAGroupPrincipal New-vRANATNetworkProfile " ++
      js "New-vRANetworkProfileIPRangeDefinition New-vRAPackage " ++
      js "New-vRAPropertyDefinition New-vRAPropertyGroup New-vRAReservation New-vRAReservationNetworkDefinition " ++
      js "New-vRAReservationPolicy New-vRAReservationStorageDefinition " ++
      js "New-vRARoutedNetworkProfile New-vRAService New-vRAStorageReservationPolicy New-vRATenant New-vRATenantDirectory " ++
      js "New-vRAUserPrincipal New-vRNIApplication New-vRNIApplicationTier " ++
      js "New-vRNIDataSource Open-VMConsoleWindow Publish-Module Publish-NsxSpoofguardPolicy Publish-Script Register-PSRepository " ++
      js "Register-PackageSource Remove-AdvancedSetting " ++
      js "Remove-AlarmAction Remove-AlarmActionTrigger Remove-Alias Remove-CDDrive Remove-CIAccessControlRule " ++
      js "Remove-CIVApp Remove-CIVAppNetwork Remove-CIVAppTemplate Remove-Cluster " ++
      js "Remove-CustomAttribute Remove-Datacenter Remove-Datastore Remove-DatastoreCluster Remove-DrsClusterGroup " ++
      js "Remove-DrsRule Remove-DrsVMHostRule Remove-FloppyDrive Remove-Folder " ++
      js "Remove-HCXAppliance Remove-HCXNetworkExtension Remove-HCXReplication Remove-HCXSitePairing Remove-HardDisk " ++
      js "Remove-IScsiHbaTarget Remove-Inventory Remove-KeyManagementServer ".

Definition lang_powershell_built_in_2 : jsstr :=
  js "Remove-NetworkAdapter Remove-NfsUser Remove-NsxCluster Remove-NsxClusterVxlanConfig Remove-NsxController " ++
      js "Remove-NsxDynamicCriteria Remove-NsxDynamicMemberSet Remove-NsxEdge " ++
      js "Remove-NsxEdgeBgpNeighbour Remove-NsxEdgeCertificate Remove-NsxEdgeCsr Remove-NsxEdgeFirewallRule Remove-NsxEdgeInterfaceAddress " ++
      js "Remove-NsxEdgeNatRule Remove-NsxEdgeOspfArea " ++
      js "Remove-NsxEdgeOspfInterface Remove-NsxEdgePrefix Remove-NsxEdgeRedistributionRule Remove-NsxEdgeStaticRoute " ++
      js "Remove-NsxEdgeSubInterface Remove-NsxFirewallExclusionListMember " ++
      js "Remove-NsxFirewallRule Remove-NsxFirewallRuleMember Remove-NsxFirewallSavedConfiguration Remove-NsxFirewallSection " ++
      js "Remove-NsxIpPool Remove-NsxIpSet Remove-NsxIpSetMember " ++
      js "Remove-NsxLoadBalancerApplicationProfile Remove-NsxLoadBalancerMonitor Remove-NsxLoadBalancerPool Remove-NsxLoadBalancerPoolMember " ++
      js "Remove-NsxLoadBalancerVip " ++
      js "Remove-NsxLogicalRouter Remove-NsxLogicalRouterBgpNeighbour Remove-NsxLogicalRouterBridge Remove-NsxLogicalRouterInterface " ++
      js "Remove-NsxLogicalRouterOspfArea " ++
      js "Remove-NsxLogicalRouterOspfInterface Remove-NsxLogicalRouterPrefix Remove-NsxLogicalRouterRedistributionRule " ++
      js "Remove-NsxLogicalRouterStaticRoute Remove-NsxLogicalSwitch " ++
      js "Remove-NsxMacSet Remove-NsxSecondaryManager Remove-NsxSecurityGroup Remove-NsxSecurityGroupMember Remove-NsxSecurityPolicy " ++
      js "Remove-NsxSecurityPolicyAssignment " ++
      js "Remove-NsxSecurityPolicyRule Remove-NsxSecurityPolicyRuleGroup Remove-NsxSecurityPolicyRuleService Remove-NsxSecurityTag " ++
      js "Remove-NsxSecurityTagAssignment " ++
      js "Remove-NsxSegmentIdRange Remove-NsxService Remove-NsxServiceGroup Remove-NsxSpoofguardPolicy Remove-NsxSslVpnClientInstallationPackage " ++
      js "Remove-NsxSslVpnIpPool " ++
      js "Remove-NsxSslVpnPrivateNetwork Remove-NsxSslVpnUser Remove-NsxTransportZone Remove-NsxTransportZoneMember " ++
      js "Remove-NsxVdsContext Remove-OSCustomizationNicMapping " ++
      js "Remove-OSCustomizationSpec Remove-Org Remove-OrgNetwork Remove-OrgVdc Remove-OrgVdcNetwork Remove-PSReadLineKeyHandler " ++
      js "Remove-PassthroughDevice Remove-ResourcePool " ++
      js "Remove-Snapshot Remove-SpbmStoragePolicy Remove-StatInterval Remove-Tag Remove-TagAssignment Remove-TagCategory " ++
      js "Remove-Template Remove-UsbDevice Remove-VAIOFilter Remove-VApp " ++
      js "Remove-VDPortGroup Remove-VDSwitch Remove-VDSwitchPhysicalNetworkAdapter Remove-VDSwitchPrivateVlan " ++
      js "Remove-VDSwitchVMHost Remove-VDisk Remove-VICredentialStoreItem " ++
      js "Remove-VIPermission Remove-VIProperty Remove-VIRole Remove-VM Remove-VMHost Remove-VMHostAccount Remove-VMHostNetworkAdapter " ++
      js "Remove-VMHostNtpServer Remove-VMHostProfile " ++
      js "Remove-VMHostProfileVmPortGroupConfiguration Remove-VMHostRoute Remove-VTpm Remove-VasaProvider Remove-VirtualPortGroup " ++
      js "Remove-VirtualSwitch " ++
      js "Remove-VirtualSwitchPhysicalNetworkAdapter Remove-VsanDisk Remove-VsanDiskGroup Remove-VsanFaultDomain " ++
      js "Remove-VsanIscsiInitiatorGroup " ++
      js "Remove-VsanIscsiInitiatorGroupTargetAssociation Remove-VsanIscsiLun Remove-VsanIscsiTarget Remove-vRABusinessGroup " ++
      js "Remove-vRACustomForm Remove-vRAExternalNetworkProfile " ++
      js "Remove-vRAGroupPrincipal Remove-vRAIcon Remove-vRANATNetworkProfile Remove-vRAPackage Remove-vRAPrincipalFromTenantRole " ++
      js "Remove-vRAPropertyDefinition Remove-vRAPropertyGroup " ++
      js "Remove-vRAReservation Remove-vRAReservationNetwork Remove-vRAReservationPolicy Remove-vRAReservationStorage " ++
      js "Remove-vRARoutedNetworkProfile Remove-vRAService " ++
      js "Remove-vRAStorageReservationPolicy Remove-vRATenant Remove-vRATenantDirectory Remove-vRAUserPrincipal " ++
      js "Remove-vRNIApplication Remove-vRNIApplicationTier Remove-vRNIDataSource " ++
      js "Repair-NsxEdge Repair-VsanObject Request-vRACatalogItem Request-vRAResourceAction Restart-CIVApp Restart-CIVAppGuest " ++
      js "Restart-CIVM Restart-CIVMGuest Restart-VM Restart-VMGuest " ++
      js "Restart-VMHost Restart-VMHostService Resume-HCXReplication Revoke-NsxSpoofguardNicApproval Save-Module " ++
      js "Save-Package Save-Script Search-Cloud Set-AdvancedSetting " ++
      js "Set-AlarmDefinition Set-Annotation Set-CDDrive Set-CIAccessControlRule Set-CINetworkAdapter Set-CIVApp " ++
      js "Set-CIVAppNetwork Set-CIVAppStartRule Set-CIVAppTemplate Set-Cluster " ++
      js "Set-CustomAttribute Set-Datacenter Set-Datastore Set-DatastoreCluster Set-DrsClusterGroup Set-DrsRule " ++
      js "Set-DrsVMHostRule Set-FloppyDrive Set-Folder Set-HCXAppliance " ++
      js "Set-HCXMigration Set-HCXReplication Set-HardDisk Set-IScsiHbaTarget Set-KeyManagementServer Set-KmsCluster " ++
      js "Set-MarkdownOption Set-NetworkAdapter Set-NfsUser Set-NicTeamingPolicy " ++
      js "Set-NodeExclusiveResources Set-NodeManager Set-NodeResourceSource Set-NodeResources Set-NsxEdge Set-NsxEdgeBgp " ++
      js "Set-NsxEdgeFirewall Set-NsxEdgeInterface Set-NsxEdgeNat " ++
      js "Set-NsxEdgeOspf Set-NsxEdgeRouting Set-NsxFirewallGlobalConfiguration Set-NsxFirewallRule Set-NsxFirewallSavedConfiguration " ++
      js "Set-NsxFirewallThreshold Set-NsxLoadBalancer " ++
      js "Set-NsxLoadBalancerPoolMember Set-NsxLogicalRouter Set-NsxLogicalRouterBgp Set-NsxLogicalRouterBridging " ++
      js "Set-NsxLogicalRouterInterface Set-NsxLogicalRouterOspf " ++
      js "Set-NsxLogicalRouterRouting Set-NsxManager Set-NsxManagerRole Set-NsxManagerTimeSettings Set-NsxSecurityPolicy " ++
      js "Set-NsxSecurityPolicyFirewallRule Set-NsxSslVpn " ++
      js "Set-OSCustomizationNicMapping Set-OSCustomizationSpec Set-Org Set-OrgNetwork Set-OrgVdc Set-OrgVdcNetwork " ++
      js "Set-PSCurrentConfigurationNode Set-PSDefaultConfigurationDocument " ++
      js "Set-PSMetaConfigDocInsProcessedBeforeMeta Set-PSMetaConfigVersionInfoV2 Set-PSReadLineKeyHandler Set-PSReadLineOption " ++
      js "Set-PSRepository Set-PSTopConfigurationName " ++
      js "Set-PackageSource Set-PowerCLIConfiguration Set-ResourcePool Set-ScsiController Set-ScsiLun Set-ScsiLunPath " ++
      js "Set-SecurityPolicy Set-Snapshot Set-SpbmEntityConfiguration " ++
      js "Set-SpbmStoragePolicy Set-StatInterval Set-Tag Set-TagCategory Set-Template Set-VAIOFilter Set-VApp " ++
      js "Set-VDBlockedPolicy Set-VDPort Set-VDPortgroup Set-VDPortgroupOverridePolicy " ++
      js "Set-VDSecurityPolicy Set-VDSwitch Set-VDTrafficShapingPolicy Set-VDUplinkLacpPolicy Set-VDUplinkTeamingPolicy " ++
      js "Set-VDVlanConfiguration Set-VDisk Set-VIPermission Set-VIRole Set-VM " ++
      js "Set-VMHost Set-VMHostAccount Set-VMHostAdvancedConfiguration Set-VMHostAuthentication Set-VMHostDiagnosticPartition " ++
      js "Set-VMHostFirewallDefaultPolicy Set-VMHostFirewallException " ++
      js "Set-VMHostFirmware Set-VMHostHba Set-VMHostModule Set-VMHostNetwork Set-VMHostNetworkAdapter Set-VMHostProfile " ++
      js "Set-VMHostProfileImageCacheConfiguration " ++
      js "Set-VMHostProfileStorageDeviceConfiguration Set-VMHostProfileUserConfiguration Set-VMHostProfileVmPortGroupConfiguration " ++
      js "Set-VMHostRoute Set-VMHostService Set-VMHostSnmp " ++
      js "Set-VMHostStartPolicy Set-VMHostStorage Set-VMHostSysLogServer Set-VMQuestion Set-VMResourceConfiguration " ++
      js "Set-VMStartPolicy Set-VTpm Set-VirtualPortGroup Set-VirtualSwitch " ++
      js "Set-VsanClusterConfiguration Set-VsanFaultDomain Set-VsanIscsiInitiatorGroup Set-VsanIscsiLun Set-VsanIscsiTarget " ++
      js "Set-vRABusinessGroup Set-vRACatalogItem Set-vRACustomForm " ++
      js "Set-vRAEntitlement Set-vRAExternalNetworkProfile Set-vRANATNetworkProfile Set-vRAReservation Set-vRAReservationNetwork " ++
      js "Set-vRAReservationPolicy Set-vRAReservationStorage " ++
      js "Set-vRARoutedNetworkProfile Set-vRAService Set-vRAStorageReservationPolicy Set-vRATenant Set-vRATenantDirectory " ++
      js "Set-vRAUserPrincipal Set-vRNIDataSourceSNMPConfig Show-Markdown " ++
      js "Start-CIVApp Start-CIVM Start-HCXMigration Start-HCXReplication Start-SpbmReplicationFailover Start-SpbmReplicationPrepareFailover " ++
      js "Start-SpbmReplicationPromote " ++
      js "Start-SpbmReplicationReverse Start-SpbmReplicationTestFailover Start-ThreadJob Start-VApp Start-VM Start-VMHost " ++
      js "Start-VMHostService Start-VsanClusterDiskUpdate " ++
      js "Start-VsanClusterRebalance Start-VsanEncryptionConfiguration Stop-CIVApp Stop-CIVAppGuest Stop-CIVM " ++
      js "Stop-CIVMGuest Stop-SpbmReplicationTestFailover Stop-Task Stop-VApp Stop-VM " ++
      js "Stop-VMGuest Stop-VMHost Stop-VMHostService Stop-VsanClusterRebalance Suspend-CIVApp Suspend-CIVM Suspend-HCXReplication " ++
      js "Suspend-VM Suspend-VMGuest Suspend-VMHost " ++
      js "Sync-SpbmReplicationGroup Test-ConflictingResources Test-HCXMigration Test-HCXReplication Test-Json " ++
      js "Test-ModuleReloadRequired Test-MofInstanceText Test-NodeManager " ++
      js "Test-NodeResourceSource Test-NodeResources Test-ScriptFileInfo Test-VMHostProfileCompliance Test-VMHostSnmp " ++
      js "Test-VsanClusterHealth Test-VsanNetworkPerformance " ++
      js "Test-VsanStoragePerformance Test-VsanVMCreation Test-vRAPackage Uninstall-Module Uninstall-Package Uninstall-Script " ++
      js "Unlock-VM Unregister-PSRepository Unregister-PackageSource " ++
      js "Update-ConfigurationDocumentRef Update-ConfigurationErrorCount Update-DependsOn Update-LocalConfigManager " ++
      js "Update-Module Update-ModuleManifest Update-ModuleVersion Update-PowerNsx " ++
      js "Update-Script Update-ScriptFileInfo Update-Tools Update-VsanHclDatabase ValidateUpdate-ConfigurationData " ++
      js "Wait-Debugger Wait-NsxControllerJob Wait-NsxGenericJob Wait-NsxJob " ++
      js "Wait-Task Wait-Tools Write-Information Write-Log Write-MetaConfigFile Write-NodeMOFFile".

Definition lang_powershell_built_in : jsstr :=
  lang_powershell_built_in_1 ++ lang_powershell_built_in_2.

(** powershell *)
Definition lang_powershell : M language :=
  let* BACKTICK_ESCAPE := new [Begin (js "`[\s\S]"); Relevance 0] in
  let* VAR := new [ClassName (js "variable"); Variants [[Begin (js "\$[\w\d][\w\d_:]*")]]] in
  let* LITERAL := new [ClassName (js "literal"); Begin (js "\$(null|true|false)\b")] in
  let* m1 := new [ClassName (js "variable"); Begin (js "\$[A-z]"); End_ (js "[^A-z]")] in
  let* QUOTE_STRING := new [ClassName (js "string"); Variants [[Begin (js "＂"); End_ (js "＂")]; [Begin (js "@＂");
      End_ (js "^＂@")]]; Contains [CRef BACKTICK_ESCAPE; CRef VAR; CRef m1]] in
  let* APOS_STRING := new [ClassName (js "string"); Variants [[Begin (js "'"); End_ (js "'")]; [Begin (js "@'");
      End_ (js "^'@")]]] in
  let* PS_HELPTAGS := new [ClassName (js "doctag");
      Variants [[Begin (js "\.(synopsis|description|example|inputs|outputs|notes|link|component|role|functionality)")];
      [Begin (js "\.(parameter|forwardhelptargetname|forwardhelpcategory|remotehelprunspace|externalhelp)\s+\S+")]]] in
  let* m2 := COMMENT [] [] [] in
  let* PS_COMMENT := inherit_mode m2 [Variants [[Begin (js "#"); End_ (js "$")]; [Begin (js "<#"); End_ (js "#>")]];
      Contains [CRef PS_HELPTAGS]] in
  lang (mkLP true [js "ps"] false) [Lexemes (js "-?[A-z\.\-]+");
      Keywords (KObj [(js "keyword", js "if else foreach return function do while until elseif begin for trap data dynamicparam end break throw " ++
      js "param continue finally in switch exit filter try process catch" ++
      js "ValidateNoCircleInNodeResources ValidateNodeExclusiveResources ValidateNodeManager ValidateNodeResources " ++
      js "ValidateNodeResourceSource ValidateNoNameNodeResources ThrowError IsHiddenResource" ++
      js "IsPatternMatched "); (js "built_in", lang_powershell_built_in);
      (js "nomarkup", js "-ne -eq -lt -gt -ge -le -not -like -notlike -match -notmatch -contains -notcontains -in -notin -replace")]);
      Contains [CRef BACKTICK_ESCAPE; CRef NUMBER_MODE; CRef QUOTE_STRING; CRef APOS_STRING; CRef LITERAL; CRef VAR;
      CRef PS_COMMENT]].

(** processing *)
Definition lang_processing : M language :=
  lang plain_lang [Keywords (KObj [(js "keyword", js "BufferedReader PVector PFont PImage PGraphics HashMap boolean byte char color " ++
      js "double float int long String Array FloatDict FloatList IntDict IntList JSONArray JSONObject " ++
      js "Object StringDict StringList Table TableRow XML " ++
      js "false synchronized int abstract float private char boolean static null if const " ++
      js "for true while long throw strictfp finally protected import native final return void " ++
      js "enum else break transient new catch instanceof byte super volatile case assert short " ++
      js "package default double public try this switch continue throws protected public private");
      (js "literal", js "P2D P3D HALF_PI PI QUARTER_PI TAU TWO_PI"); (js "title", js "setup draw");
      (js "built_in", js "displayHeight displayWidth mouseY mouseX mousePressed pmouseX pmouseY key " ++
      js "keyCode pixels focused frameCount frameRate height width " ++
      js "size createGraphics beginDraw createShape loadShape PShape arc ellipse line point " ++
      js "quad rect triangle bezier bezierDetail bezierPoint bezierTangent curve curveDetail curvePoint " ++
      js "curveTangent curveTightness shape shapeMode beginContour beginShape bezierVertex curveVertex " ++
      js "endContour endShape quadraticVertex vertex ellipseMode noSmooth rectMode smooth strokeCap " ++
      js "strokeJoin strokeWeight mouseClicked mouseDragged mouseMoved mousePressed mouseReleased " ++
      js "mouseWheel keyPressed keyPressedkeyReleased keyTyped print println save saveFrame day hour " ++
      js "millis minute month second year background clear colorMode fill noFill noStroke stroke alpha " ++
      js "blue brightness color green hue lerpColor red saturation modelX modelY modelZ screenX screenY " ++
      js "screenZ ambient emissive shininess specular add createImage beginCamera camera endCamera frustum " ++
      js "ortho perspective printCamera printProjection cursor frameRate noCursor exit loop noLoop popStyle " ++
      js "pushStyle redraw binary boolean byte char float hex int str unbinary unhex join match matchAll nf " ++
      js "nfc nfp nfs split splitTokens trim append arrayCopy concat expand reverse shorten sort splice subset " ++
      js "box sphere sphereDetail createInput createReader loadBytes loadJSONArray loadJSONObject loadStrings " ++
      js "loadTable loadXML open parseXML saveTable selectFolder selectInput beginRaw beginRecord createOutput " ++
      js "createWriter endRaw endRecord PrintWritersaveBytes saveJSONArray saveJSONObject saveStream saveStrings " ++
      js "saveXML selectOutput popMatrix printMatrix pushMatrix resetMatrix rotate rotateX rotateY rotateZ scale " ++
      js "shearX shearY translate ambientLight directionalLight lightFalloff lights lightSpecular noLights normal " ++
      js "pointLight spotLight image imageMode loadImage noTint requestImage tint texture textureMode textureWrap " ++
      js "blend copy filter get loadPixels set updatePixels blendMode loadShader PShaderresetShader shader createFont " ++
      js "loadFont text textFont textAlign textLeading textMode textSize textWidth textAscent textDescent abs " ++
      js "ceil " ++
      js "constrain dist exp floor lerp log mag map max min norm pow round sq sqrt acos asin atan atan2 cos degrees " ++
      js "radians sin tan noise noiseDetail noiseSeed random randomGaussian randomSeed")]);
      Contains [CRef C_LINE_COMMENT_MODE; CRef C_BLOCK_COMMENT_MODE; CRef APOS_STRING_MODE; CRef QUOTE_STRING_MODE;
      CRef C_NUMBER_MODE]].

(** profile *)
Definition lang_profile : M language :=
  let* m1 := new [Begin (js "[a-zA-Z_][\da-zA-Z_]+\.[\da-zA-Z_]{1,3}"); End_ (js ":"); ExcludeEnd true] in
  let* m2 := new [Begin (js "(ncalls|tottime|cumtime)"); End_ (js "$");
      Keywords (KStr (js "ncalls tottime|10 cumtime|10 filename")); Relevance 10] in
  let* m3 := new [Begin (js "function calls"); End_ (js "$"); Contains [CRef C_NUMBER_MODE]; Relevance 10] in
  let* m4 := new [ClassName (js "string"); Begin (js "\("); End_ (js "\)$"); ExcludeBegin true; ExcludeEnd true;
      Relevance 0] in
  lang plain_lang [Contains [CRef C_NUMBER_MODE; CRef m1; CRef m2; CRef m3; CRef APOS_STRING_MODE;
      CRef QUOTE_STRING_MODE; CRef m4]].

(** prolog *)
Definition lang_prolog : M language :=
  let* ATOM := new [Begin (js "[a-z][A-Za-z0-9_]*"); Relevance 0] in
  let* VAR := new [ClassName (js "symbol"); Variants [[Begin (js "[A-Z][a-zA-Z0-9_]*")];
      [Begin (js "_[A-Za-z0-9_]*")]]; Relevance 0] in
  let* PARENTED := new [Begin (js "\("); End_ (js "\)"); Relevance 0] in
  let* LIST := new [Begin (js "\["); End_ (js "\]")] in
  let* LINE_COMMENT := new [ClassName (js "comment"); Begin (js "%"); End_ (js "$");
      Contains [CRef PHRASAL_WORDS_MODE]] in
  let* BACKTICK_STRING := new [ClassName (js "string"); Begin (js "`"); End_ (js "`");
      Contains [CRef BACKSLASH_ESCAPE]] in
  let* CHAR_CODE := new [ClassName (js "string"); Begin (js "0\'(\\\'|.)")] in
  let* SPACE_CODE := new [ClassName (js "string"); Begin (js "0\'\\s")] in
  let* PRED_OP := new [Begin (js ":-")] in
  let inner := [CRef ATOM; CRef VAR; CRef PARENTED; CRef PRED_OP; CRef LIST; CRef LINE_COMMENT;
      CRef C_BLOCK_COMMENT_MODE; CRef QUOTE_STRING_MODE; CRef APOS_STRING_MODE; CRef BACKTICK_STRING;
      CRef CHAR_CODE; CRef SPACE_CODE; CRef C_NUMBER_MODE] in
  let* _ := upd PARENTED (fun m => assign m (Contains inner)) in
  let* _ := upd LIST (fun m => assign m (Contains inner)) in
  let* m1 := new [Begin (js "\.$")] in
  lang plain_lang [Contains (inner ++ [CRef m1])].

(** properties *)
Definition lang_properties : M language :=
  let WS0 := js "[ \t\f]*" in
  let WS1 := js "[ \t\f]+" in
  let DELIM := js "(" ++ WS0 ++ js "[:=]" ++ WS0 ++ js "|" ++ WS1 ++ js ")" in
  let KEY_ALPHANUM := js "([^\\\W:= \t\f\n]|\\.)+" in
  let KEY_OTHER := js "([^\\:= \t\f\n]|\\.)+" in
  let* m1 := new [Begin (js "\\\n")] in
  let* m2 := new [ClassName (js "string"); End_ (js "$"); Relevance 0; Contains [CRef m1]] in
  let* DELIM_AND_VALUE := new [End_ DELIM; Relevance 0; Starts m2] in
  let* m3 := COMMENT (js "^\s*[!#]") (js "$") [] in
  let* m4 := new [ClassName (js "attr"); Begin KEY_ALPHANUM; EndsParent true; Relevance 0] in
  let* m5 := new [Begin (KEY_ALPHANUM ++ DELIM); ReturnBegin true; Contains [CRef m4]; Starts DELIM_AND_VALUE] in
  let* m6 := new [ClassName (js "meta"); Begin KEY_OTHER; EndsParent true; Relevance 0] in
  let* m7 := new [Begin (KEY_OTHER ++ DELIM); ReturnBegin true; Relevance 0; Contains [CRef m6];
      Starts DELIM_AND_VALUE] in
  let* m8 := new [ClassName (js "attr"); Relevance 0; Begin (KEY_OTHER ++ WS0 ++ js "$")] in
  lang (mkLP true [] false) [Illegal (js "\S"); Contains [CRef m3; CRef m5; CRef m7; CRef m8]].

(** protobuf *)
Definition lang_protobuf : M language :=
  let* m1 := new [EndsWithParent true; ExcludeEnd true] in
  let* m2 := inherit_mode TITLE_MODE [Starts m1] in
  let* m3 := new [ClassName (js "class"); BeginKeywords (js "message enum service"); End_ (js "\{");
      Illegal (js "\n"); Contains [CRef m2]] in
  let* m4 := new [ClassName (js "function"); BeginKeywords (js "rpc"); End_ (js ";"); ExcludeEnd true;
      Keywords (KStr (js "rpc returns"))] in
  let* m5 := new [Begin (js "^\s*[A-Z_]+"); End_ (js "\s*="); ExcludeEnd true] in
  lang plain_lang [Keywords (KObj [(js "keyword", js "package import option optional required repeated group oneof");
      (js "built_in", js "double float int32 int64 uint32 uint64 sint32 sint64 " ++
      js "fixed32 fixed64 sfixed32 sfixed64 bool string bytes"); (js "literal", js "true false")]);
      Contains [CRef QUOTE_STRING_MODE; CRef NUMBER_MODE; CRef C_LINE_COMMENT_MODE; CRef m3; CRef m4; CRef m5]].

(** puppet *)
Definition lang_puppet : M language :=
  let PUPPET_KEYWORDS :=
      KObj [(js "keyword", js "and case default else elsif false if in import enherits node or true undef unless main settings $string ");
      (js "literal", js "alias audit before loglevel noop require subscribe tag " ++
      js "owner ensure group mode name|0 changes context force incl lens load_path onlyif provider returns root " ++
      js "show_diff type_check " ++
      js "en_address ip_address realname command environment hour monute month monthday special target weekday " ++
      js "creates cwd ogoutput refresh refreshonly tries try_sleep umask backup checksum content ctime force ignore " ++
      js "links mtime purge recurse recurselimit replace selinux_ignore_defaults selrange selrole seltype seluser " ++
      js "source " ++
      js "souirce_permissions sourceselect validate_cmd validate_replacement allowdupe attribute_membership auth_membership " ++
      js "forcelocal gid " ++
      js "ia_load_module members system host_aliases ip allowed_trunk_vlans description device_url duplex encapsulation " ++
      js "etherchannel " ++
      js "native_vlan speed principals allow_root auth_class auth_type authenticate_user k_of_n mechanisms rule " ++
      js "session_owner shared options " ++
      js "device fstype enable hasrestart directory present absent link atboot blockdevice device dump pass remounts " ++
      js "poller_tag use " ++
      js "message withpath adminfile allow_virtual allowcdrom category configfiles flavor install_options instance " ++
      js "package_settings platform " ++
      js "responsefile status uninstall_options vendor unless_system_user unless_uid binary control flags hasstatus " ++
      js "manifest pattern restart running " ++
      js "start stop allowdupe auths expiry gid groups home iterations key_membership keys managehome membership " ++
      js "password password_max_age " ++
      js "password_min_age profile_membership profiles project purge_ssh_keys role_membership roles salt shell " ++
      js "uid baseurl cost descr enabled " ++
      js "enablegroups exclude failovermethod gpgcheck gpgkey http_caching include includepkgs keepalive metadata_expire " ++
      js "metalink mirrorlist " ++
      js "priority protect proxy proxy_password proxy_username repo_gpgcheck s3_enabled skip_if_unavailable sslcacert " ++
      js "sslclientcert sslclientkey " ++ js "sslverify mounted");
      (js "built_in", js "architecture augeasversion blockdevices boardmanufacturer boardproductname boardserialnumber cfkey dhcp_servers " ++
      js "domain ec2_ ec2_userdata facterversion filesystems ldom fqdn gid hardwareisa hardwaremodel hostname " ++
      js "id|0 interfaces " ++
      js "ipaddress ipaddress_ ipaddress6 ipaddress6_ iphostnumber is_virtual kernel kernelmajversion kernelrelease " ++
      js "kernelversion " ++
      js "kernelrelease kernelversion lsbdistcodename lsbdistdescription lsbdistid lsbdistrelease lsbmajdistrelease " ++
      js "lsbminordistrelease " ++
      js "lsbrelease macaddress macaddress_ macosx_buildversion macosx_productname macosx_productversion macosx_productverson_major " ++
      js "macosx_productversion_minor manufacturer memoryfree memorysize netmask metmask_ network_ operatingsystem " ++
      js "operatingsystemmajrelease " ++
      js "operatingsystemrelease osfamily partitions path physicalprocessorcount processor processorcount productname " ++
      js "ps puppetversion " ++
      js "rubysitedir rubyversion selinux selinux_config_mode selinux_config_policy selinux_current_mode selinux_current_mode " ++
      js "selinux_enforced " ++
      js "selinux_policyversion serialnumber sp_ sshdsakey sshecdsakey sshrsakey swapencrypted swapfree swapsize " ++
      js "timezone type uniqueid uptime " ++
      js "uptime_days uptime_hours uptime_seconds uuid virtual vlans xendomains zfs_version zonenae zones zpool_version")] in
  let* COMMENT' := COMMENT (js "#") (js "$") [] in
  let IDENT_RE' := js "([A-Za-z_]|::)(\w|::)*" in
  let* TITLE := inherit_mode TITLE_MODE [Begin IDENT_RE'] in
  let* VARIABLE := new [ClassName (js "variable"); Begin (js "\$" ++ IDENT_RE')] in
  let* STRING := new [ClassName (js "string"); Contains [CRef BACKSLASH_ESCAPE; CRef VARIABLE];
      Variants [[Begin (js "'"); End_ (js "'")]; [Begin (js "＂"); End_ (js "＂")]]] in
  let* m1 := new [BeginKeywords (js "class"); End_ (js "\{|;"); Illegal (js "="); Contains [CRef TITLE;
      CRef COMMENT']] in
  let* m2 := new [ClassName (js "section"); Begin IDENT_RE; EndsParent true] in
  let* m3 := new [BeginKeywords (js "define"); End_ (js "\{"); Contains [CRef m2]] in
  let* m4 := new [ClassName (js "keyword"); Begin IDENT_RE] in
  let* m5 := new [ClassName (js "attr"); Begin IDENT_RE] in
  let* m6 := new [Begin (js "[a-zA-Z_]+\s*=>"); ReturnBegin true; End_ (js "=>"); Contains [CRef m5]] in
  let* m7 := new [ClassName (js "number");
      Begin (js "(\b0[0-7_]+)|(\b0x[0-9a-fA-F_]+)|(\b[1-9][0-9_]*(\.[0-9_]+)?)|[0_]\b"); Relevance 0] in
  let* m8 := new [Begin (js "\{"); End_ (js "\}"); Keywords PUPPET_KEYWORDS; Relevance 0; Contains [CRef STRING;
      CRef COMMENT'; CRef m6; CRef m7; CRef VARIABLE]] in
  let* m9 := new [Begin (IDENT_RE ++ js "\s+\{"); ReturnBegin true; End_ (js "\S"); Contains [CRef m4; CRef m8];
      Relevance 0] in
  lang (mkLP false [js "pp"] false) [Contains [CRef COMMENT'; CRef VARIABLE; CRef STRING; CRef m1; CRef m3;
      CRef m9]].

(** purebasic *)
Definition lang_purebasic : M language :=
  let* STRINGS := new [ClassName (js "string"); Begin (js "(~)?＂"); End_ (js "＂"); Illegal (js "\n")] in
  let* CONSTANTS := new [ClassName (js "symbol"); Begin (js "#[a-zA-Z_]\w*\$?")] in
  let* m1 := COMMENT (js ";") (js "$") [Relevance 0] in
  let* m2 := new [ClassName (js "keyword"); Begin (js "(Procedure|Declare)(C|CDLL|DLL)?"); ExcludeEnd true] in
  let* m3 := new [ClassName (js "type"); Begin (js "\.\w*")] in
  let* m4 := new [ClassName (js "function"); Begin (js "\b(Procedure|Declare)(C|CDLL|DLL)?\b"); End_ (js "\(");
      ExcludeEnd true; ReturnBegin true; Contains [CRef m2; CRef m3; CRef UNDERSCORE_TITLE_MODE]] in
  lang (mkLP false [js "pb";
      js "pbi"] false) [Keywords (KStr (js "Align And Array As Break CallDebugger Case CompilerCase CompilerDefault " ++
      js "CompilerElse CompilerElseIf CompilerEndIf CompilerEndSelect CompilerError " ++
      js "CompilerIf CompilerSelect CompilerWarning Continue Data DataSection Debug " ++
      js "DebugLevel Declare DeclareC DeclareCDLL DeclareDLL DeclareModule Default " ++
      js "Define Dim DisableASM DisableDebugger DisableExplicit Else ElseIf EnableASM " ++
      js "EnableDebugger EnableExplicit End EndDataSection EndDeclareModule EndEnumeration " ++
      js "EndIf EndImport EndInterface EndMacro EndModule EndProcedure EndSelect " ++
      js "EndStructure EndStructureUnion EndWith Enumeration EnumerationBinary Extends " ++
      js "FakeReturn For ForEach ForEver Global Gosub Goto If Import ImportC " ++
      js "IncludeBinary IncludeFile IncludePath Interface List Macro MacroExpandedCount " ++
      js "Map Module NewList NewMap Next Not Or Procedure ProcedureC " ++
      js "ProcedureCDLL ProcedureDLL ProcedureReturn Protected Prototype PrototypeC ReDim " ++
      js "Read Repeat Restore Return Runtime Select Shared Static Step Structure " ++
      js "StructureUnion Swap Threaded To UndefineMacro Until Until  UnuseModule " ++
      js "UseModule Wend While With XIncludeFile XOr")); Contains [CRef m1; CRef m4; CRef STRINGS; CRef CONSTANTS]].

(** python *)
Definition lang_python : M language :=
  let KEYWORDS :=
      KObj [(js "keyword", js "and elif is global as in if from raise for except finally print import pass return " ++
      js "exec else break not with class assert yield try while continue del or def lambda " ++
      js "async await nonlocal|10"); (js "built_in", js "Ellipsis NotImplemented");
      (js "literal", js "False None True")] in
  let* PROMPT := new [ClassName (js "meta"); Begin (js "^(>>>|\.\.\.) ")] in
  let* SUBST := new [ClassName (js "subst"); Begin (js "\{"); End_ (js "\}"); Keywords KEYWORDS;
      Illegal (js "#")] in
  let* STRING := new [ClassName (js "string"); Contains [CRef BACKSLASH_ESCAPE];
      Variants [[Begin (js "(u|b)?r?'''"); End_ (js "'''"); Contains [CRef BACKSLASH_ESCAPE; CRef PROMPT];
      Relevance 10]; [Begin (js "(u|b)?r?＂＂＂"); End_ (js "＂＂＂"); Contains [CRef BACKSLASH_ESCAPE; CRef PROMPT];
      Relevance 10]; [Begin (js "(fr|rf|f)'''"); End_ (js "'''"); Contains [CRef BACKSLASH_ESCAPE; CRef PROMPT;
      CRef SUBST]]; [Begin (js "(fr|rf|f)＂＂＂"); End_ (js "＂＂＂"); Contains [CRef BACKSLASH_ESCAPE; CRef PROMPT;
      CRef SUBST]]; [Begin (js "(u|r|ur)'"); End_ (js "'"); Relevance 10]; [Begin (js "(u|r|ur)＂"); End_ (js "＂");
      Relevance 10]; [Begin (js "(b|br)'"); End_ (js "'")]; [Begin (js "(b|br)＂"); End_ (js "＂")];
      [Begin (js "(fr|rf|f)'"); End_ (js "'"); Contains [CRef BACKSLASH_ESCAPE; CRef SUBST]];
      [Begin (js "(fr|rf|f)＂"); End_ (js "＂"); Contains [CRef BACKSLASH_ESCAPE; CRef SUBST]];
      [AllOf APOS_STRING_MODE]; [AllOf QUOTE_STRING_MODE]]] in
  let* NUMBER := new [ClassName (js "number"); Relevance 0; Variants [[Begin (BINARY_NUMBER_RE ++ js "[lLjJ]?")];
      [Begin (js "\b(0o[0-7]+)[lLjJ]?")]; [Begin (C_NUMBER_RE ++ js "[lLjJ]?")]]] in
  let* PARAMS := new [ClassName (js "params"); Begin (js "\("); End_ (js "\)"); Contains [CSelf; CRef PROMPT;
      CRef NUMBER; CRef STRING]] in
  let* _ := upd SUBST (fun m => assign m (Contains [CRef STRING; CRef NUMBER; CRef PROMPT])) in
  let* m1 := new [Begin (js "->"); EndsWithParent true; Keywords (KStr (js "None"))] in
  let* m2 := new [Variants [[ClassName (js "function"); BeginKeywords (js "def")]; [ClassName (js "class");
      BeginKeywords (js "class")]]; End_ (js ":"); Illegal (js "[${=;\n,]"); Contains [CRef UNDERSCORE_TITLE_MODE;
      CRef PARAMS; CRef m1]] in
  let* m3 := new [ClassName (js "meta"); Begin (js "^[\t ]*@"); End_ (js "$")] in
  let* m4 := new [Begin (js "\b(print|exec)\(")] in
  lang (mkLP false [js "py"; js "gyp"; js "ipython"] false) [Keywords KEYWORDS; Illegal (js "(<\/|->|\?)|=>");
      Contains [CRef PROMPT; CRef NUMBER; CRef STRING; CRef HASH_COMMENT_MODE; CRef m2; CRef m3; CRef m4]].

(** q *)
Definition lang_q : M language :=
  let Q_KEYWORDS := KObj [(js "keyword", js "do while select delete by update from"); (js "literal", js "0b 1b");
      (js "built_in", js "neg not null string reciprocal floor ceiling signum mod xbar xlog and or each scan over prior mmu lsq " ++
      js "inv md5 ltime gtime count first var dev med cov cor all any rand sums prds mins maxs fills deltas ratios " ++
      js "avgs differ prev next rank reverse iasc idesc asc desc msum mcount mavg mdev xrank mmin mmax xprev rotate " ++
      js "distinct group where flip type key til get value attr cut set upsert raze union inter except cross sv " ++
      js "vs sublist enlist read0 read1 hopen hclose hdel hsym hcount peach system ltrim rtrim trim lower upper " ++
      js "ssr view tables views cols xcols keys xkey xcol xasc xdesc fkeys meta lj aj aj0 ij pj asof uj ww wj " ++
      js "wj1 fby xgroup ungroup ej save load rsave rload show csv parse eval min max avg wavg wsum sin cos tan " ++
      js "sum");
      (js "type", js "`float `double int `timestamp `timespan `datetime `time `boolean `symbol `char `byte `short `long `real " ++
      js "`month `date `minute `second `guid")] in
  lang (mkLP false [js "k"; js "kdb"] false) [Keywords Q_KEYWORDS; Lexemes (js "(`?)[A-Za-z0-9_]+\b");
      Contains [CRef C_LINE_COMMENT_MODE; CRef QUOTE_STRING_MODE; CRef C_NUMBER_MODE]].

(** qml *)
Definition lang_qml : M language :=
  let KEYWORDS :=
      KObj [(js "keyword", js "in of on if for while finally var new function do return void else break catch " ++
      js "instanceof with throw case default try this switch continue typeof delete " ++
      js "let yield const export super debugger as async await import");
      (js "literal", js "true false null undefined NaN Infinity");
      (js "built_in", js "eval isFinite isNaN parseFloat parseInt decodeURI decodeURIComponent " ++
      js "encodeURI encodeURIComponent escape unescape Object Function Boolean Error " ++
      js "EvalError InternalError RangeError ReferenceError StopIteration SyntaxError " ++
      js "TypeError URIError Number Math Date String RegExp Array Float32Array " ++
      js "Float64Array Int16Array Int32Array Int8Array Uint16Array Uint32Array " ++
      js "Uint8Array Uint8ClampedArray ArrayBuffer DataView JSON Intl arguments require " ++
      js "module console window document Symbol Set Map WeakSet WeakMap Proxy Reflect " ++
      js "Behavior bool color coordinate date double enumeration font geocircle georectangle " ++
      js "geoshape int list matrix4x4 parent point quaternion real rect " ++
      js "size string url variant vector2d vector3d vector4d" ++ js "Promise")] in
  let QML_IDENT_RE := js "[a-zA-Z_][a-zA-Z0-9\._]*" in
  let* m1 := new [ClassName (js "string"); End_ (js "(:|=|;|,|//|/\*|$)"); ReturnEnd true] in
  let* PROPERTY := new [ClassName (js "keyword"); Begin (js "\bproperty\b"); Starts m1] in
  let* m2 := new [ClassName (js "string"); End_ (js "(\(|:|=|;|,|//|/\*|$)"); ReturnEnd true] in
  let* SIGNAL := new [ClassName (js "keyword"); Begin (js "\bsignal\b"); Starts m2] in
  let* m3 := new [ClassName (js "string"); End_ QML_IDENT_RE; ReturnEnd false] in
  let* ID_ID := new [ClassName (js "attribute"); Begin (js "\bid\s*:"); Starts m3] in
  let* m4 := new [ClassName (js "attribute"); Begin QML_IDENT_RE; End_ (js "\s*:"); ExcludeEnd true; Relevance 0] in
  let* QML_ATTRIBUTE := new [Begin (QML_IDENT_RE ++ js "\s*:"); ReturnBegin true; Contains [CRef m4];
      Relevance 0] in
  let* m5 := inherit_mode TITLE_MODE [Begin QML_IDENT_RE] in
  let* QML_OBJECT := new [Begin (QML_IDENT_RE ++ js "\s*{"); End_ (js "{"); ReturnBegin true; Relevance 0;
      Contains [CRef m5]] in
  let* m6 := new [ClassName (js "meta"); Begin (js "^\s*['＂]use (strict|asm)['＂]")] in
  let* m7 := new [ClassName (js "subst"); Begin (js "\$\{"); End_ (js "\}")] in
  let* m8 := new [ClassName (js "string"); Begin (js "`"); End_ (js "`"); Contains [CRef BACKSLASH_ESCAPE;
      CRef m7]] in
  let* m9 := new [ClassName (js "number"); Variants [[Begin (js "\b(0[bB][01]+)")]; [Begin (js "\b(0[oO][0-7]+)")];
      [Begin C_NUMBER_RE]]; Relevance 0] in
  let* m10 := new [Begin (js "<"); End_ (js ">\s*[);\]]"); Relevance 0; SubLanguage (inl (js "xml"))] in
  let* m11 := new [Begin (js "(" ++ RE_STARTERS_RE ++ js "|\b(case|return|throw)\b)\s*");
      Keywords (KStr (js "return throw case")); Contains [CRef C_LINE_COMMENT_MODE; CRef C_BLOCK_COMMENT_MODE;
      CRef REGEXP_MODE; CRef m10]; Relevance 0] in
  let* m12 := inherit_mode TITLE_MODE [Begin (js "[A-Za-z$_][0-9A-Za-z$_]*")] in
  let* m13 := new [ClassName (js "params"); Begin (js "\("); End_ (js "\)"); ExcludeBegin true; ExcludeEnd true;
      Contains [CRef C_LINE_COMMENT_MODE; CRef C_BLOCK_COMMENT_MODE]] in
  let* m14 := new [ClassName (js "function"); BeginKeywords (js "function"); End_ (js "\{"); ExcludeEnd true;
      Contains [CRef m12; CRef m13]; Illegal (js "\[|%")] in
  let* m15 := new [Begin (js "\." ++ IDENT_RE); Relevance 0] in
  lang (mkLP false [js "qt"] false) [Keywords KEYWORDS; Contains [CRef m6; CRef APOS_STRING_MODE;
      CRef QUOTE_STRING_MODE; CRef m8; CRef C_LINE_COMMENT_MODE; CRef C_BLOCK_COMMENT_MODE; CRef m9; CRef m11;
      CRef SIGNAL; CRef PROPERTY; CRef m14; CRef m15; CRef ID_ID; CRef QML_ATTRIBUTE; CRef QML_OBJECT];
      Illegal (js "#")].

(** r *)
Definition lang_r : M language :=
  let IDENT_RE' := js "([a-zA-Z]|\.[a-zA-Z.])[a-zA-Z0-9._]*" in
  let* m1 := new [Begin IDENT_RE'; Lexemes IDENT_RE';
      Keywords (KObj [(js "keyword", js "function if in break next repeat else for return switch while try tryCatch " ++
      js "stop warning require library attach detach source setMethod setGeneric " ++
      js "setGroupGeneric setClass ...");
      (js "literal", js "NULL NA TRUE FALSE T F Inf NaN NA_integer_|10 NA_real_|10 NA_character_|10 " ++
      js "NA_complex_|10")]); Relevance 0] in
  let* m2 := new [ClassName (js "number"); Begin (js "0[xX][0-9a-fA-F]+[Li]?\b"); Relevance 0] in
  let* m3 := new [ClassName (js "number"); Begin (js "\d+(?:[eE][+\-]?\d*" ++ js ")?L\b"); Relevance 0] in
  let* m4 := new [ClassName (js "number"); Begin (js "\d+\.(?!\d)(?:i\b)?"); Relevance 0] in
  let* m5 := new [ClassName (js "number"); Begin (js "\d+(?:\.\d*" ++ js ")?(?:[eE][+\-]?\d*" ++ js ")?i?\b");
      Relevance 0] in
  let* m6 := new [ClassName (js "number"); Begin (js "\.\d+(?:[eE][+\-]?\d*" ++ js ")?i?\b"); Relevance 0] in
  let* m7 := new [Begin (js "`"); End_ (js "`"); Relevance 0] in
  let* m8 := new [ClassName (js "string"); Contains [CRef BACKSLASH_ESCAPE]; Variants [[Begin (js "＂");
      End_ (js "＂")]; [Begin (js "'"); End_ (js "'")]]] in
  lang plain_lang [Contains [CRef HASH_COMMENT_MODE; CRef m1; CRef m2; CRef m3; CRef m4; CRef m5; CRef m6; CRef m7;
      CRef m8]].

(** reasonml *)
Definition lang_reasonml : M language :=
  let orReValues (ops : list jsstr) : jsstr := join (js "|") (map (fun op => join [] (map (fun char => js "\" ++
      [char]) op)) ops) in
  let RE_IDENT := js "~?[a-z$_][0-9a-zA-Z$_]*" in
  let RE_MODULE_IDENT := js "`?[A-Z$_][0-9a-zA-Z$_]*" in
  let RE_PARAM_TYPEPARAM := js "'?[a-z$_][0-9a-z$_]*" in
  let RE_PARAM_TYPE := js "s*:s*[a-z$_][0-9a-z$_]*((s*(" ++ RE_PARAM_TYPEPARAM ++ js "s*(," ++ RE_PARAM_TYPEPARAM ++
      js ")*" ++ js ")?s*" ++ js "))?" in
  let RE_PARAM := RE_IDENT ++ js "(" ++ RE_PARAM_TYPE ++ js ")?(" ++ RE_PARAM_TYPE ++ js ")?" in
  let RE_OPERATOR := js "(" ++ orReValues [js "||"; js "&&"; js "++"; js "**"; js "+."; js "*"; js "/"; js "*.";
      js "/."; js "..."; js "|>"] ++ js "|==|===)" in
  let RE_OPERATOR_SPACED := js "\s+" ++ RE_OPERATOR ++ js "\s+" in
  let KEYWORDS :=
      KObj [(js "keyword", js "and as asr assert begin class constraint do done downto else end exception external" ++
      js "for fun function functor if in include inherit initializer" ++
      js "land lazy let lor lsl lsr lxor match method mod module mutable new nonrec" ++
      js "object of open or private rec sig struct then to try type val virtual when while with");
      (js "built_in", js "array bool bytes char exn|5 float int int32 int64 list lazy_t|5 nativeint|5 ref string unit ");
      (js "literal", js "true false")] in
  let RE_NUMBER := js "\b(0[xX][a-fA-F0-9_]+[Lln]?|" ++ js "0[oO][0-7_]+[Lln]?|" ++ js "0[bB][01_]+[Lln]?|" ++
      js "[0-9][0-9_]*([Lln]|(\.[0-9_]*" ++ js ")?([eE][-+]?[0-9_]+)?)?)" in
  let* NUMBER_MODE' := new [ClassName (js "number"); Relevance 0; Variants [[Begin RE_NUMBER]; [Begin (js "\(\-" ++
      RE_NUMBER ++ js "\)")]]] in
  let* OPERATOR_MODE := new [ClassName (js "operator"); Relevance 0; Begin RE_OPERATOR] in
  let* m1 := new [ClassName (js "identifier"); Relevance 0; Begin RE_IDENT] in
  let LIST_CONTENTS_MODES := [CRef m1; CRef OPERATOR_MODE; CRef NUMBER_MODE'] in
  let* m2 := new [ClassName (js "identifier"); Begin RE_MODULE_IDENT; Relevance 0] in
  let* m3 := new [ClassName (js "module"); Begin (js "\b" ++ RE_MODULE_IDENT); ReturnBegin true; End_ (js ".");
      Contains [CRef m2]] in
  let MODULE_ACCESS_CONTENTS := [CRef QUOTE_STRING_MODE; CRef OPERATOR_MODE; CRef m3] in
  let* m4 := new [ClassName (js "identifier"); Begin RE_MODULE_IDENT; Relevance 0] in
  let* m5 := new [ClassName (js "module"); Begin (js "\b" ++ RE_MODULE_IDENT); ReturnBegin true; End_ (js ".");
      Relevance 0; Contains [CRef m4]] in
  let PARAMS_CONTENTS := [CRef m5] in
  let* m6 := new [ClassName (js "typing"); Begin (js ":"); End_ (js "(,|\n)"); ReturnBegin true; Relevance 0;
      Contains PARAMS_CONTENTS] in
  let* PARAMS_MODE := new [Begin RE_IDENT; End_ (js "(,|\n|\))"); Relevance 0; Contains [CRef OPERATOR_MODE;
      CRef m6]] in
  let* m7 := new [ClassName (js "params"); Variants [[Begin RE_IDENT]; [Begin RE_PARAM]; [Begin (js "\(\s*\)")]]] in
  let* m8 := new [ClassName (js "params"); Relevance 0; Variants [[AllOf PARAMS_MODE]]] in
  let* FUNCTION_BLOCK_MODE := new [ClassName (js "function"); Relevance 0; Keywords KEYWORDS;
      Variants [[Begin (js "\s(\(\.?.*?\)|" ++ RE_IDENT ++ js ")\s*=>"); End_ (js "\s*=>"); ReturnBegin true;
      Relevance 0; Contains [CRef m7]]; [Begin (js "\s\(\.?[^;\|]*\)\s*=>"); End_ (js "\s=>"); ReturnBegin true;
      Relevance 0; Contains [CRef m8]]; [Begin (js "\(\.\s" ++ RE_IDENT ++ js "\)\s*=>")]]] in
  let MODULE_ACCESS_CONTENTS := MODULE_ACCESS_CONTENTS ++ [CRef FUNCTION_BLOCK_MODE] in
  let* m9 := new [ClassName (js "params"); Begin (js "\b" ++ RE_IDENT)] in
  let* CONSTRUCTOR_MODE := new [ClassName (js "constructor"); Begin (RE_MODULE_IDENT ++ js "\("); End_ (js "\)");
      Illegal (js "\n"); Keywords KEYWORDS; Contains [CRef QUOTE_STRING_MODE; CRef OPERATOR_MODE; CRef m9]] in
  let* m10 := new [Relevance 0; ClassName (js "constructor"); Begin RE_MODULE_IDENT] in
  let* PATTERN_MATCH_BLOCK_MODE := new [ClassName (js "pattern-match"); Begin (js "\|"); ReturnBegin true;
      Keywords KEYWORDS; End_ (js "=>"); Relevance 0; Contains [CRef CONSTRUCTOR_MODE; CRef OPERATOR_MODE;
      CRef m10]] in
  let* m11 := new [Begin (js "\("); End_ (js "\)"); Skip true] in
  let* MODULE_ACCESS_MODE := new [ClassName (js "module-access"); Keywords KEYWORDS; ReturnBegin true;
      Variants [[Begin (js "\b(" ++ RE_MODULE_IDENT ++ js "\.)+" ++ RE_IDENT)]; [Begin (js "\b(" ++
      RE_MODULE_IDENT ++ js "\.)+\("); End_ (js "\)"); ReturnBegin true; Contains ([CRef FUNCTION_BLOCK_MODE;
      CRef m11] ++ MODULE_ACCESS_CONTENTS)]; [Begin (js "\b(" ++ RE_MODULE_IDENT ++ js "\.)+{"); End_ (js "}")]];
      Contains MODULE_ACCESS_CONTENTS] in
  let PARAMS_CONTENTS := PARAMS_CONTENTS ++ [CRef MODULE_ACCESS_MODE] in
  let* _ := pushed [m6] PARAMS_CONTENTS in
  let* m12 := COMMENT (js "/\*") (js "\*/") [Illegal (js "^(\#,\/\/)")] in
  let* m13 := new [ClassName (js "character"); Begin (js "'(\\[^']+|[^'])'"); Illegal (js "\n"); Relevance 0] in
  let* m14 := new [ClassName (js "literal"); Begin (js "\(\)"); Relevance 0] in
  let* m15 := new [ClassName (js "literal"); Begin (js "\[\|"); End_ (js "\|\]"); Relevance 0;
      Contains LIST_CONTENTS_MODES] in
  let* m16 := new [ClassName (js "literal"); Begin (js "\["); End_ (js "\]"); Relevance 0;
      Contains LIST_CONTENTS_MODES] in
  let* m17 := new [ClassName (js "operator"); Begin RE_OPERATOR_SPACED; Illegal (js "\-\->"); Relevance 0] in
  let* m18 := new [ClassName (js "module"); Relevance 0; Begin RE_MODULE_IDENT] in
  let* m19 := new [Begin (js "{"); End_ (js "}"); Skip true] in
  let* m20 := new [ClassName (js "module-def"); Begin (js "\bmodule\s+" ++ RE_IDENT ++ js "\s+" ++
      RE_MODULE_IDENT ++ js "\s+=\s+{"); End_ (js "}"); ReturnBegin true; Keywords KEYWORDS; Relevance 0;
      Contains ([CRef m18; CRef m19] ++ MODULE_ACCESS_CONTENTS)] in
  lang (mkLP false [js "re"] false) [Keywords KEYWORDS; Illegal (js "(:\-|:=|\${|\+=)"); Contains [CRef m12;
      CRef m13; CRef QUOTE_STRING_MODE; CRef m14; CRef m15; CRef m16; CRef CONSTRUCTOR_MODE; CRef m17;
      CRef NUMBER_MODE'; CRef C_LINE_COMMENT_MODE; CRef PATTERN_MATCH_BLOCK_MODE; CRef FUNCTION_BLOCK_MODE;
      CRef m20; CRef MODULE_ACCESS_MODE]].

(** rib *)
Definition lang_rib : M language :=
  lang plain_lang [Keywords (KStr (js "ArchiveRecord AreaLightSource Atmosphere Attribute AttributeBegin AttributeEnd Basis " ++
      js "Begin Blobby Bound Clipping ClippingPlane Color ColorSamples ConcatTransform Cone " ++
      js "CoordinateSystem CoordSysTransform CropWindow Curves Cylinder DepthOfField Detail " ++
      js "DetailRange Disk Displacement Display End ErrorHandler Exposure Exterior Format " ++
      js "FrameAspectRatio FrameBegin FrameEnd GeneralPolygon GeometricApproximation Geometry " ++
      js "Hider Hyperboloid Identity Illuminate Imager Interior LightSource " ++
      js "MakeCubeFaceEnvironment MakeLatLongEnvironment MakeShadow MakeTexture Matte " ++
      js "MotionBegin MotionEnd NuPatch ObjectBegin ObjectEnd ObjectInstance Opacity Option " ++
      js "Orientation Paraboloid Patch PatchMesh Perspective PixelFilter PixelSamples " ++
      js "PixelVariance Points PointsGeneralPolygons PointsPolygons Polygon Procedural Projection " ++
      js "Quantize ReadArchive RelativeDetail ReverseOrientation Rotate Scale ScreenWindow " ++
      js "ShadingInterpolation ShadingRate Shutter Sides Skew SolidBegin SolidEnd Sphere " ++
      js "SubdivisionMesh Surface TextureCoordinates Torus Transform TransformBegin TransformEnd " ++
      js "TransformPoints Translate TrimCurve WorldBegin WorldEnd")); Illegal (js "</");
      Contains [CRef HASH_COMMENT_MODE; CRef C_NUMBER_MODE; CRef APOS_STRING_MODE; CRef QUOTE_STRING_MODE]].

(** roboconf *)
Definition lang_roboconf : M language :=
  let IDENTIFIER := js "[a-zA-Z-_][^\n{]+\{" in
  let* m1 := new [ClassName (js "variable"); Begin (js "\.[a-zA-Z-_]+")] in
  let* m2 := new [ClassName (js "keyword"); Begin (js "\(optional\)")] in
  let* m3 := new [End_ (js ";"); Relevance 0; Contains [CRef m1; CRef m2]] in
  let* PROPERTY := new [ClassName (js "attribute"); Begin (js "[a-zA-Z-_]+"); End_ (js "\s*:"); ExcludeEnd true;
      Starts m3] in
  let* m4 := new [Begin (js "^facet " ++ IDENTIFIER); End_ (js "}"); Keywords (KStr (js "facet"));
      Contains [CRef PROPERTY; CRef HASH_COMMENT_MODE]] in
  let* m5 := new [Begin (js "^\s*instance of " ++ IDENTIFIER); End_ (js "}");
      Keywords (KStr (js "name count channels instance-data instance-state instance of")); Illegal (js "\S");
      Contains [CSelf; CRef PROPERTY; CRef HASH_COMMENT_MODE]] in
  let* m6 := new [Begin (js "^" ++ IDENTIFIER); End_ (js "}"); Contains [CRef PROPERTY; CRef HASH_COMMENT_MODE]] in
  lang (mkLP true [js "graph"; js "instances"] false) [Keywords (KStr (js "import")); Contains [CRef m4; CRef m5;
      CRef m6; CRef HASH_COMMENT_MODE]].

(** routeros *)
Definition lang_routeros : M language :=
  let STATEMENTS := js "foreach do while for if from to step else on-error and or not in" in
  let GLOBAL_COMMANDS :=
      js "global local beep delay put len typeof pick log time set find environment terminal error execute parse " ++
      js "resolve toarray tobool toid toip toip6 tonum tostr totime" in
  let COMMON_COMMANDS :=
      js "add remove enable disable set get print export edit find run debug error info warning" in
  let LITERALS := js "true false yes no nothing nil null" in
  let OBJECTS :=
      js "traffic-flow traffic-generator firewall scheduler aaa accounting address-list address align area bandwidth-server " ++
      js "bfd bgp bridge client clock community config connection console customer default dhcp-client dhcp-server " ++
      js "discovery dns e-mail ethernet filter firewall firmware gps graphing group hardware health hotspot identity " ++
      js "igmp-proxy incoming instance interface ip ipsec ipv6 irq l2tp-server lcd ldp logging mac-server mac-winbox " ++
      js "mangle manual mirror mme mpls nat nd neighbor network note ntp ospf ospf-v3 ovpn-server page peer pim " ++
      js "ping policy pool port ppp pppoe-client pptp-server prefix profile proposal proxy queue radius resource " ++
      js "rip ripng route routing screen script security-profiles server service service-port settings shares " ++
      js "smb sms sniffer snmp snooper socks sstp-server system tool tracking type upgrade upnp user-manager users " ++
      js "user vlan secret vrrp watchdog web-access wireless pptp pppoe lan wan layer7-protocol lease simple raw" in
  let VAR_PREFIX := js "global local set for foreach" in
  let* VAR := new [ClassName (js "variable"); Variants [[Begin (js "\$[\w\d#@][\w\d_]*")];
      [Begin (js "\$\{(.*?)}")]]] in
  let* m1 := new [ClassName (js "variable"); Begin (js "\$\("); End_ (js "\)"); Contains [CRef BACKSLASH_ESCAPE]] in
  let* QUOTE_STRING := new [ClassName (js "string"); Begin (js "＂"); End_ (js "＂"); Contains [CRef BACKSLASH_ESCAPE;
      CRef VAR; CRef m1]] in
  let* APOS_STRING := new [ClassName (js "string"); Begin (js "'"); End_ (js "'")] in
  let IPADDR := js "((25[0-5]|(2[0-4]|1{0,1}[0-9]){0,1}[0-9]).){3}(25[0-5]|(2[0-4]|1{0,1}[0-9]){0,1}[0-9])\b" in
  let IPADDR_wBITMASK := IPADDR ++ js "/(3[0-2]|[1-2][0-9]|\d)" in
  let* m2 := new [Variants [[Begin (js "^@"); End_ (js "$")]; [Begin (js "\/\*"); End_ (js "\*\/")];
      [Begin (js "%%"); End_ (js "$")]; [Begin (js "^'"); End_ (js "$")]; [Begin (js "^\s*\/[\w-]+=");
      End_ (js "$")]; [Begin (js "\/\/"); End_ (js "$")]; [Begin (js "^\[\<"); End_ (js "\>\]$")];
      [Begin (js "<\/"); End_ (js ">")]; [Begin (js "^facet "); End_ (js "\}")]; [Begin (js "^1\.\.(\d+)$");
      End_ (js "$")]]; Illegal (js ".")] in
  let* m3 := COMMENT (js "^#") (js "$") [] in
  let* m4 := new [ClassName (js "attribute"); Begin (js "[^=]+")] in
  let* m5 := new [ClassName (js "literal"); Begin (js "\b(" ++ join (js "|") (split_on 32 LITERALS) ++ js ")\b")] in
  let* m6 := new [Begin (js "(＂[^＂]*＂|[^\s\{\}\[\]]+)")] in
  let* m7 := new [Begin (js "="); EndsWithParent true; Relevance 0; Contains [CRef QUOTE_STRING; CRef APOS_STRING;
      CRef VAR; CRef m5; CRef m6]] in
  let* m8 := new [Begin (js "[\w-]+\=([^\s\{\}\[\]\(\)]+)"); Relevance 0; ReturnBegin true; Contains [CRef m4;
      CRef m7]] in
  let* m9 := new [ClassName (js "number"); Begin (js "\*[0-9a-fA-F]+")] in
  let* m10 := new [ClassName (js "builtin-name"); Begin (js "\w+")] in
  let* m11 := new [Begin (js "\b(" ++ join (js "|") (split_on 32 COMMON_COMMANDS) ++ js ")([\s[(]|])");
      ReturnBegin true; Contains [CRef m10]] in
  let* m12 := new [ClassName (js "built_in"); Variants [[Begin (js "(\.\./|/|\s)((" ++
      join (js "|") (split_on 32 OBJECTS) ++ js ");?\s)+"); Relevance 10]; [Begin (js "\.\.")]]] in
  lang (mkLP true [js "routeros"; js "mikrotik"] false) [Lexemes (js ":?[\w-]+");
      Keywords (KObj [(js "literal", LITERALS); (js "keyword", STATEMENTS ++ js " :" ++
      join (js " :") (split_on 32 STATEMENTS) ++ js " :" ++ join (js " :") (split_on 32 GLOBAL_COMMANDS))]);
      Contains [CRef m2; CRef m3; CRef QUOTE_STRING; CRef APOS_STRING; CRef VAR; CRef m8; CRef m9; CRef m11;
      CRef m12]].

(** rsl *)
Definition lang_rsl : M language :=
  let* m1 := new [ClassName (js "meta"); Begin (js "#"); End_ (js "$")] in
  let* m2 := new [ClassName (js "class"); BeginKeywords (js "surface displacement light volume imager");
      End_ (js "\(")] in
  let* m3 := new [BeginKeywords (js "illuminate illuminance gather"); End_ (js "\(")] in
  lang plain_lang [Keywords (KObj [(js "keyword", js "float color point normal vector matrix while for if do return else break extern continue");
      (js "built_in", js "abs acos ambient area asin atan atmosphere attribute calculatenormal ceil cellnoise " ++
      js "clamp comp concat cos degrees depth Deriv diffuse distance Du Dv environment exp " ++
      js "faceforward filterstep floor format fresnel incident length lightsource log match " ++
      js "max min mod noise normalize ntransform opposite option phong pnoise pow printf " ++
      js "ptlined radians random reflect refract renderinfo round setcomp setxcomp setycomp " ++
      js "setzcomp shadow sign sin smoothstep specular specularbrdf spline sqrt step tan " ++
      js "texture textureinfo trace transform vtransform xcomp ycomp zcomp")]); Illegal (js "</");
      Contains [CRef C_LINE_COMMENT_MODE; CRef C_BLOCK_COMMENT_MODE; CRef QUOTE_STRING_MODE; CRef APOS_STRING_MODE;
      CRef C_NUMBER_MODE; CRef m1; CRef m2; CRef m3]].

(** ruby *)
Definition lang_ruby : M language :=
  let RUBY_METHOD_RE := js "[a-zA-Z_]\w*[!?=]?|[-+~]\@|<<|>>|=~|===?|<=>|[<>]=?|\*\*|[-/+%^&*~`|]|\[\]=?" in
  let RUBY_KEYWORDS :=
      KObj [(js "keyword", js "and then defined module in return redo if BEGIN retry end for self when " ++
      js "next until do begin unless END rescue else break undef not super class case " ++
      js "require yield alias while ensure elsif or include attr_reader attr_writer attr_accessor");
      (js "literal", js "true false nil")] in
  let* YARDOCTAG := new [ClassName (js "doctag"); Begin (js "@[A-Za-z]+")] in
  let* IRB_OBJECT := new [Begin (js "#<"); End_ (js ">")] in
  let* m1 := COMMENT (js "#") (js "$") [Contains [CRef YARDOCTAG]] in
  let* m2 := COMMENT (js "^\=begin") (js "^\=end") [Contains [CRef YARDOCTAG]; Relevance 10] in
  let* m3 := COMMENT (js "^__END__") (js "\n$") [] in
  let COMMENT_MODES := [CRef m1; CRef m2; CRef m3] in
  let* SUBST := new [ClassName (js "subst"); Begin (js "#\{"); End_ (js "}"); Keywords RUBY_KEYWORDS] in
  let* m4 := new [Begin (js "<<[-~]?'?")] in
  let* m5 := new [Begin (js "\w+"); EndSameAsBegin true; Contains [CRef BACKSLASH_ESCAPE; CRef SUBST]] in
  let* STRING := new [ClassName (js "string"); Contains [CRef BACKSLASH_ESCAPE; CRef SUBST];
      Variants [[Begin (js "'"); End_ (js "'")]; [Begin (js "＂"); End_ (js "＂")]; [Begin (js "`"); End_ (js "`")];
      [Begin (js "%[qQwWx]?\("); End_ (js "\)")]; [Begin (js "%[qQwWx]?\["); End_ (js "\]")];
      [Begin (js "%[qQwWx]?{"); End_ (js "}")]; [Begin (js "%[qQwWx]?<"); End_ (js ">")]; [Begin (js "%[qQwWx]?/");
      End_ (js "/")]; [Begin (js "%[qQwWx]?%"); End_ (js "%")]; [Begin (js "%[qQwWx]?-"); End_ (js "-")];
      [Begin (js "%[qQwWx]?\|"); End_ (js "\|")];
      [Begin (js "\B\?(\\\d{1,3}|\\x[A-Fa-f0-9]{1,2}|\\u[A-Fa-f0-9]{4}|\\?\S)\b")];
      [Begin (js "<<[-~]?'?(\w+)(?:.|\n)*?\n\s*\1\b"); ReturnBegin true; Contains [CRef m4; CRef m5]]]] in
  let* PARAMS := new [ClassName (js "params"); Begin (js "\("); End_ (js "\)"); EndsParent true;
      Keywords RUBY_KEYWORDS] in
  let* m6 := inherit_mode TITLE_MODE [Begin (js "[A-Za-z_]\w*(::\w+)*(\?|\!)?")] in
  let* m7 := new [Begin (js "(" ++ IDENT_RE ++ js "::)?" ++ IDENT_RE)] in
  let* m8 := new [Begin (js "<\s*"); Contains [CRef m7]] in
  let* m9 := new [ClassName (js "class"); BeginKeywords (js "class module"); End_ (js "$|;"); Illegal (js "=");
      Contains ([CRef m6; CRef m8] ++ COMMENT_MODES)] in
  let* m10 := inherit_mode TITLE_MODE [Begin RUBY_METHOD_RE] in
  let* m11 := new [ClassName (js "function"); BeginKeywords (js "def"); End_ (js "$|;"); Contains ([CRef m10;
      CRef PARAMS] ++ COMMENT_MODES)] in
  let* m12 := new [Begin (IDENT_RE ++ js "::")] in
  let* m13 := new [ClassName (js "symbol"); Begin (UNDERSCORE_IDENT_RE ++ js "(\!|\?)?:"); Relevance 0] in
  let* m14 := new [Begin RUBY_METHOD_RE] in
  let* m15 := new [ClassName (js "symbol"); Begin (js ":(?!\s)"); Contains [CRef STRING; CRef m14]; Relevance 0] in
  let* m16 := new [ClassName (js "number");
      Begin (js "(\b0[0-7_]+)|(\b0x[0-9a-fA-F_]+)|(\b[1-9][0-9_]*(\.[0-9_]+)?)|[0_]\b"); Relevance 0] in
  let* m17 := new [Begin (js "(\$\W)|((\$|\@\@?)(\w+))")] in
  let* m18 := new [ClassName (js "params"); Begin (js "\|"); End_ (js "\|"); Keywords RUBY_KEYWORDS] in
  let* m19 := new [ClassName (js "regexp"); Contains [CRef BACKSLASH_ESCAPE; CRef SUBST]; Illegal (js "\n");
      Variants [[Begin (js "/"); End_ (js "/[a-z]*")]; [Begin (js "%r{"); End_ (js "}[a-z]*")]; [Begin (js "%r\(");
      End_ (js "\)[a-z]*")]; [Begin (js "%r!"); End_ (js "![a-z]*")]; [Begin (js "%r\["); End_ (js "\][a-z]*")]]] in
  let* m20 := new [Begin (js "(" ++ RE_STARTERS_RE ++ js "|unless)\s*"); Keywords (KStr (js "unless"));
      Contains ([CRef IRB_OBJECT; CRef m19] ++ COMMENT_MODES); Relevance 0] in
  let RUBY_DEFAULT_CONTAINS := [CRef STRING; CRef IRB_OBJECT; CRef m9; CRef m11; CRef m12; CRef m13; CRef m15;
      CRef m16; CRef m17; CRef m18; CRef m20] ++ COMMENT_MODES in
  let* _ := upd SUBST (fun m => assign m (Contains RUBY_DEFAULT_CONTAINS)) in
  let* _ := upd PARAMS (fun m => assign m (Contains RUBY_DEFAULT_CONTAINS)) in
  let SIMPLE_PROMPT := js "[>?]>" in
  let DEFAULT_PROMPT := js "[\w#]+\(\w+\):\d+:\d+>" in
  let RVM_PROMPT := js "(\w+-)?\d+\.\d+\.\d(p\d+)?[^>]+>" in
  let* m21 := new [End_ (js "$"); Contains RUBY_DEFAULT_CONTAINS] in
  let* m22 := new [Begin (js "^\s*=>"); Starts m21] in
  let* m23 := new [End_ (js "$"); Contains RUBY_DEFAULT_CONTAINS] in
  let* m24 := new [ClassName (js "meta"); Begin (js "^(" ++ SIMPLE_PROMPT ++ js "|" ++ DEFAULT_PROMPT ++ js "|" ++
      RVM_PROMPT ++ js ")"); Starts m23] in
  let IRB_DEFAULT := [CRef m22; CRef m24] in
  lang (mkLP false [js "rb"; js "gemspec"; js "podspec"; js "thor"; js "irb"] false) [Keywords RUBY_KEYWORDS;
      Illegal (js "\/\*"); Contains ((COMMENT_MODES ++ IRB_DEFAULT) ++ RUBY_DEFAULT_CONTAINS)].

(** ruleslanguage *)
Definition lang_ruleslanguage : M language :=
  let* m1 := new [ClassName (js "literal"); Variants [[Begin (js "#\s+[a-zA-Z\ \.]*"); Relevance 0];
      [Begin (js "#[a-zA-Z\ \.]+")]]] in
  lang plain_lang [Keywords (KObj [(js "keyword", js "BILL_PERIOD BILL_START BILL_STOP RS_EFFECTIVE_START RS_EFFECTIVE_STOP RS_JURIS_CODE RS_OPCO_CODE " ++
      js "INTDADDATTRIBUTE|5 INTDADDVMSG|5 INTDBLOCKOP|5 INTDBLOCKOPNA|5 INTDCLOSE|5 INTDCOUNT|5 " ++
      js "INTDCOUNTSTATUSCODE|5 INTDCREATEMASK|5 INTDCREATEDAYMASK|5 INTDCREATEFACTORMASK|5 " ++
      js "INTDCREATEHANDLE|5 INTDCREATEOVERRIDEDAYMASK|5 INTDCREATEOVERRIDEMASK|5 " ++
      js "INTDCREATESTATUSCODEMASK|5 INTDCREATETOUPERIOD|5 INTDDELETE|5 INTDDIPTEST|5 INTDEXPORT|5 " ++
      js "INTDGETERRORCODE|5 INTDGETERRORMESSAGE|5 INTDISEQUAL|5 INTDJOIN|5 INTDLOAD|5 INTDLOADACTUALCUT|5 " ++
      js "INTDLOADDATES|5 INTDLOADHIST|5 INTDLOADLIST|5 INTDLOADLISTDATES|5 INTDLOADLISTENERGY|5 " ++
      js "INTDLOADLISTHIST|5 INTDLOADRELATEDCHANNEL|5 INTDLOADSP|5 INTDLOADSTAGING|5 INTDLOADUOM|5 " ++
      js "INTDLOADUOMDATES|5 INTDLOADUOMHIST|5 INTDLOADVERSION|5 INTDOPEN|5 INTDREADFIRST|5 INTDREADNEXT|5 " ++
      js "INTDRECCOUNT|5 INTDRELEASE|5 INTDREPLACE|5 INTDROLLAVG|5 INTDROLLPEAK|5 INTDSCALAROP|5 INTDSCALE|5 " ++
      js "INTDSETATTRIBUTE|5 INTDSETDSTPARTICIPANT|5 INTDSETSTRING|5 INTDSETVALUE|5 INTDSETVALUESTATUS|5 " ++
      js "INTDSHIFTSTARTTIME|5 INTDSMOOTH|5 INTDSORT|5 INTDSPIKETEST|5 INTDSUBSET|5 INTDTOU|5 " ++
      js "INTDTOURELEASE|5 INTDTOUVALUE|5 INTDUPDATESTATS|5 INTDVALUE|5 STDEV INTDDELETEEX|5 " ++
      js "INTDLOADEXACTUAL|5 INTDLOADEXCUT|5 INTDLOADEXDATES|5 INTDLOADEX|5 INTDLOADEXRELATEDCHANNEL|5 " ++
      js "INTDSAVEEX|5 MVLOAD|5 MVLOADACCT|5 MVLOADACCTDATES|5 MVLOADACCTHIST|5 MVLOADDATES|5 MVLOADHIST|5 " ++
      js "MVLOADLIST|5 MVLOADLISTDATES|5 MVLOADLISTHIST|5 IF FOR NEXT DONE SELECT END CALL ABORT CLEAR CHANNEL " ++
      js "FACTOR LIST NUMBER " ++
      js "OVERRIDE SET WEEK DISTRIBUTIONNODE ELSE WHEN THEN OTHERWISE IENUM CSV INCLUDE LEAVE RIDER SAVE DELETE " ++
      js "NOVALUE SECTION WARN SAVE_UPDATE DETERMINANT LABEL REPORT REVENUE EACH " ++
      js "IN FROM TOTAL CHARGE BLOCK AND OR CSV_FILE RATE_CODE AUXILIARY_DEMAND " ++
      js "UIDACCOUNT RS BILL_PERIOD_SELECT HOURS_PER_MONTH INTD_ERROR_STOP SEASON_SCHEDULE_NAME " ++
      js "ACCOUNTFACTOR ARRAYUPPERBOUND CALLSTOREDPROC GETADOCONNECTION GETCONNECT GETDATASOURCE " ++
      js "GETQUALIFIER GETUSERID HASVALUE LISTCOUNT LISTOP LISTUPDATE LISTVALUE PRORATEFACTOR RSPRORATE " ++
      js "SETBINPATH SETDBMONITOR WQ_OPEN BILLINGHOURS DATE DATEFROMFLOAT DATETIMEFROMSTRING " ++
      js "DATETIMETOSTRING DATETOFLOAT DAY DAYDIFF DAYNAME DBDATETIME HOUR MINUTE MONTH MONTHDIFF " ++
      js "MONTHHOURS MONTHNAME ROUNDDATE SAMEWEEKDAYLASTYEAR SECOND WEEKDAY WEEKDIFF YEAR YEARDAY " ++
      js "YEARSTR COMPSUM HISTCOUNT HISTMAX HISTMIN HISTMINNZ HISTVALUE MAXNRANGE MAXRANGE MINRANGE " ++
      js "COMPIKVA COMPKVA COMPKVARFROMKQKW COMPLF IDATTR FLAG LF2KW LF2KWH MAXKW POWERFACTOR " ++
      js "READING2USAGE AVGSEASON MAXSEASON MONTHLYMERGE SEASONVALUE SUMSEASON ACCTREADDATES " ++
      js "ACCTTABLELOAD CONFIGADD CONFIGGET CREATEOBJECT CREATEREPORT EMAILCLIENT EXPBLKMDMUSAGE " ++
      js "EXPMDMUSAGE EXPORT_USAGE FACTORINEFFECT GETUSERSPECIFIEDSTOP INEFFECT ISHOLIDAY RUNRATE " ++
      js "SAVE_PROFILE SETREPORTTITLE USEREXIT WATFORRUNRATE TO TABLE ACOS ASIN ATAN ATAN2 BITAND CEIL " ++
      js "COS COSECANT COSH COTANGENT DIVQUOT DIVREM EXP FABS FLOOR FMOD FREPM FREXPN LOG LOG10 MAX MAXN " ++
      js "MIN MINNZ MODF POW ROUND ROUND2VALUE ROUNDINT SECANT SIN SINH SQROOT TAN TANH FLOAT2STRING " ++
      js "FLOAT2STRINGNC INSTR LEFT LEN LTRIM MID RIGHT RTRIM STRING STRINGNC TOLOWER TOUPPER TRIM " ++
      js "NUMDAYS READ_DATE STAGING");
      (js "built_in", js "IDENTIFIER OPTIONS XML_ELEMENT XML_OP XML_ELEMENT_OF DOMDOCCREATE DOMDOCLOADFILE DOMDOCLOADXML " ++
      js "DOMDOCSAVEFILE DOMDOCGETROOT DOMDOCADDPI DOMNODEGETNAME DOMNODEGETTYPE DOMNODEGETVALUE DOMNODEGETCHILDCT " ++
      js "DOMNODEGETFIRSTCHILD DOMNODEGETSIBLING DOMNODECREATECHILDELEMENT DOMNODESETATTRIBUTE " ++
      js "DOMNODEGETCHILDELEMENTCT DOMNODEGETFIRSTCHILDELEMENT DOMNODEGETSIBLINGELEMENT DOMNODEGETATTRIBUTECT " ++
      js "DOMNODEGETATTRIBUTEI DOMNODEGETATTRIBUTEBYNAME DOMNODEGETBYNAME")]); Contains [CRef C_LINE_COMMENT_MODE;
      CRef C_BLOCK_COMMENT_MODE; CRef APOS_STRING_MODE; CRef QUOTE_STRING_MODE; CRef C_NUMBER_MODE; CRef m1]].

(** rust *)
Definition lang_rust : M language :=
  let NUM_SUFFIX := js "([ui](8|16|32|64|128|size)|f(32|64))?" in
  let KEYWORDS := js "abstract as async await become box break const continue crate do dyn " ++
      js "else enum extern false final fn for if impl in let loop macro match mod " ++
      js "move mut override priv pub ref return self Self static struct super " ++
      js "trait true try type typeof unsafe unsized use virtual where while yield" in
  let BUILTINS := js "drop " ++ js "i8 i16 i32 i64 i128 isize " ++ js "u8 u16 u32 u64 u128 usize " ++
      js "f32 f64 " ++ js "str char bool " ++ js "Box Option Result String Vec " ++
      js "Copy Send Sized Sync Drop Fn FnMut FnOnce ToOwned Clone Debug " ++
      js "PartialEq PartialOrd Eq Ord AsRef AsMut Into From Default Iterator " ++
      js "Extend IntoIterator DoubleEndedIterator ExactSizeIterator " ++ js "SliceConcatExt ToString " ++
      js "assert! assert_eq! bitflags! bytes! cfg! col! concat! concat_idents! " ++
      js "debug_assert! debug_assert_eq! env! panic! file! format! format_args! " ++
      js "include_bin! include_str! line! local_data_key! module_path! " ++
      js "option_env! print! println! select! stringify! try! unimplemented! " ++
      js "unreachable! vec! write! writeln! macro_rules! assert_ne! debug_assert_ne!" in
  let* m1 := COMMENT (js "/\*") (js "\*/") [Contains [CSelf]] in
  let* m2 := inherit_mode QUOTE_STRING_MODE [Begin (js "b?＂"); Illegal []] in
  let* m3 := new [ClassName (js "string"); Variants [[Begin (js "r(#*" ++ js ")＂(.|\n)*?＂\1(?!#)")];
      [Begin (js "b?'\\?(x\w{2}|u\w{4}|U\w{8}|.)'")]]] in
  let* m4 := new [ClassName (js "symbol"); Begin (js "'[a-zA-Z_][a-zA-Z0-9_]*")] in
  let* m5 := new [ClassName (js "number"); Variants [[Begin (js "\b0b([01_]+)" ++ NUM_SUFFIX)];
      [Begin (js "\b0o([0-7_]+)" ++ NUM_SUFFIX)]; [Begin (js "\b0x([A-Fa-f0-9_]+)" ++ NUM_SUFFIX)];
      [Begin (js "\b(\d[\d_]*(\.[0-9_]+)?([eE][+-]?[0-9_]+)?)" ++ NUM_SUFFIX)]]; Relevance 0] in
  let* m6 := new [ClassName (js "function"); BeginKeywords (js "fn"); End_ (js "(\(|<)"); ExcludeEnd true;
      Contains [CRef UNDERSCORE_TITLE_MODE]] in
  let* m7 := new [ClassName (js "meta-string"); Begin (js "＂"); End_ (js "＂")] in
  let* m8 := new [ClassName (js "meta"); Begin (js "#\!?\["); End_ (js "\]"); Contains [CRef m7]] in
  let* m9 := inherit_mode UNDERSCORE_TITLE_MODE [EndsParent true] in
  let* m10 := new [ClassName (js "class"); BeginKeywords (js "type"); End_ (js ";"); Contains [CRef m9];
      Illegal (js "\S")] in
  let* m11 := inherit_mode UNDERSCORE_TITLE_MODE [EndsParent true] in
  let* m12 := new [ClassName (js "class"); BeginKeywords (js "trait enum struct union"); End_ (js "{");
      Contains [CRef m11]; Illegal (js "[\w\d]")] in
  let* m13 := new [Begin (IDENT_RE ++ js "::"); Keywords (KObj [(js "built_in", BUILTINS)])] in
  let* m14 := new [Begin (js "->")] in
  lang (mkLP false [js "rs"] false) [Keywords (KObj [(js "keyword", KEYWORDS);
      (js "literal", js "true false Some None Ok Err"); (js "built_in", BUILTINS)]); Lexemes (IDENT_RE ++ js "!?");
      Illegal (js "</"); Contains [CRef C_LINE_COMMENT_MODE; CRef m1; CRef m2; CRef m3; CRef m4; CRef m5; CRef m6;
      CRef m8; CRef m10; CRef m12; CRef m13; CRef m14]].

Definition languagesNR : list (jsstr * creator) :=
  [(js "n1ql", alone lang_n1ql);
   (js "nginx", alone lang_nginx);
   (js "nimrod", alone lang_nimrod);
   (js "nix", alone lang_nix);
   (js "nsis", alone lang_nsis);
   (js "objectivec", alone lang_objectivec);
   (js "ocaml", alone lang_ocaml);
   (js "openscad", alone lang_openscad);
   (js "oxygene", alone lang_oxygene);
   (js "parser3", alone lang_parser3);
   (js "perl", alone lang_perl);
   (js "pf", alone lang_pf);
   (js "pgsql", alone lang_pgsql);
   (js "php", alone lang_php);
   (js "plaintext", alone lang_plaintext);
   (js "pony", alone lang_pony);
   (js "powershell", alone lang_powershell);
   (js "processing", alone lang_processing);
   (js "profile", alone lang_profile);
   (js "prolog", alone lang_prolog);
   (js "properties", alone lang_properties);
   (js "protobuf", alone lang_protobuf);
   (js "puppet", alone lang_puppet);
   (js "purebasic", alone lang_purebasic);
   (js "python", alone lang_python);
   (js "q", alone lang_q);
   (js "qml", alone lang_qml);
   (js "r", alone lang_r);
   (js "reasonml", alone lang_reasonml);
   (js "rib", alone lang_rib);
   (js "roboconf", alone lang_roboconf);
   (js "routeros", alone lang_routeros);
   (js "rsl", alone lang_rsl);
   (js "ruby", alone lang_ruby);
   (js "ruleslanguage", alone lang_ruleslanguage);
   (js "rust", alone lang_rust)].
