(* ===== verification/LanguagesSZ.v ===== *)
(** * Language definitions, sas to zephir (module 15)

    Each definition creates its objects in the order of the source: a variable of the
    definition keeps its name, an object literal without one is numbered.  A name that is
    also one of the library has a prime.  The aliases, the case and the part in the
    detection of a language are the arguments of [lang]. *)

From S2P Require Import Prelude JsString JsRegExp RegExpFacts RegExpCounts MarkedInline HljsStreams HljsModes Hljs HljsLanguages.

(** sas *)
Definition lang_sas : M language :=
  let SAS_KEYWORDS := [] ++ js "do if then else end until while " ++ [] ++
      js "abort array attrib by call cards cards4 catname continue " ++
      js "datalines datalines4 delete delim delimiter display dm drop " ++
      js "endsas error file filename footnote format goto in infile " ++
      js "informat input keep label leave length libname link list " ++
      js "lostcard merge missing modify options output out page put " ++
      js "redirect remove rename replace retain return select set skip " ++
      js "startsas stop title update waitsas where window x systask " ++ [] ++
      js "add and alter as cascade check create delete describe " ++
      js "distinct drop foreign from group having index insert into in " ++
      js "key like message modify msgtype not null on or order primary " ++
      js "references reset restrict select set table unique update " ++ js "validate view where" in
  let SAS_FUN := [] ++ js "abs|addr|airy|arcos|arsin|atan|attrc|attrn|band|" ++
      js "betainv|blshift|bnot|bor|brshift|bxor|byte|cdf|ceil|" ++
      js "cexist|cinv|close|cnonct|collate|compbl|compound|" ++
      js "compress|cos|cosh|css|curobs|cv|daccdb|daccdbsl|" ++
      js "daccsl|daccsyd|dacctab|dairy|date|datejul|datepart|" ++
      js "datetime|day|dclose|depdb|depdbsl|depdbsl|depsl|" ++
      js "depsl|depsyd|depsyd|deptab|deptab|dequote|dhms|dif|" ++
      js "digamma|dim|dinfo|dnum|dopen|doptname|doptnum|dread|" ++
      js "dropnote|dsname|erf|erfc|exist|exp|fappend|fclose|" ++
      js "fcol|fdelete|fetch|fetchobs|fexist|fget|fileexist|" ++
      js "filename|fileref|finfo|finv|fipname|fipnamel|" ++
      js "fipstate|floor|fnonct|fnote|fopen|foptname|foptnum|" ++
      js "fpoint|fpos|fput|fread|frewind|frlen|fsep|fuzz|" ++
      js "fwrite|gaminv|gamma|getoption|getvarc|getvarn|hbound|" ++
      js "hms|hosthelp|hour|ibessel|index|indexc|indexw|input|" ++
      js "inputc|inputn|int|intck|intnx|intrr|irr|jbessel|" ++
      js "juldate|kurtosis|lag|lbound|left|length|lgamma|" ++
      js "libname|libref|log|log10|log2|logpdf|logpmf|logsdf|" ++
      js "lowcase|max|mdy|mean|min|minute|mod|month|mopen|" ++
      js "mort|n|netpv|nmiss|normal|note|npv|open|ordinal|" ++
      js "pathname|pdf|peek|peekc|pmf|point|poisson|poke|" ++
      js "probbeta|probbnml|probchi|probf|probgam|probhypr|" ++
      js "probit|probnegb|probnorm|probt|put|putc|putn|qtr|" ++
      js "quote|ranbin|rancau|ranexp|rangam|range|rank|rannor|" ++
      js "ranpoi|rantbl|rantri|ranuni|repeat|resolve|reverse|" ++
      js "rewind|right|round|saving|scan|sdf|second|sign|" ++
      js "sin|sinh|skewness|soundex|spedis|sqrt|std|stderr|" ++
      js "stfips|stname|stnamel|substr|sum|symget|sysget|" ++
      js "sysmsg|sysprod|sysrc|system|tan|tanh|time|timepart|" ++
      js "tinv|tnonct|today|translate|tranwrd|trigamma|" ++ js "trim|trimn|trunc|uniform|upcase|uss|var|varfmt|" ++
      js "varinfmt|varlabel|varlen|varname|varnum|varray|" ++
      js "varrayx|vartype|verify|vformat|vformatd|vformatdx|" ++
      js "vformatn|vformatnx|vformatw|vformatwx|vformatx|" ++
      js "vinarray|vinarrayx|vinformat|vinformatd|vinformatdx|" ++
      js "vinformatn|vinformatnx|vinformatw|vinformatwx|" ++
      js "vinformatx|vlabel|vlabelx|vlength|vlengthx|vname|" ++
      js "vnamex|vtype|vtypex|weekday|year|yyq|zipfips|zipname|" ++ js "zipnamel|zipstate" in
  let SAS_MACRO_FUN := js "bquote|nrbquote|cmpres|qcmpres|compstor|" ++
      js "datatyp|display|do|else|end|eval|global|goto|" ++ js "if|index|input|keydef|label|left|length|let|" ++
      js "local|lowcase|macro|mend|nrbquote|nrquote|" ++ js "nrstr|put|qcmpres|qleft|qlowcase|qscan|" ++
      js "qsubstr|qsysfunc|qtrim|quote|qupcase|scan|str|" ++ js "substr|superq|syscall|sysevalf|sysexec|sysfunc|" ++
      js "sysget|syslput|sysprod|sysrc|sysrput|then|to|" ++ js "trim|unquote|until|upcase|verify|while|window" in
  let* m1 := new [ClassName (js "keyword"); Begin (js "^\s*(proc [\w\d_]+|data|run|quit)[\s\;]")] in
  let* m2 := new [ClassName (js "variable"); Begin (js "\&[a-zA-Z_\&][a-zA-Z0-9_]*\.?")] in
  let* m3 := new [ClassName (js "emphasis"); Begin (js "^\s*datalines|cards.*;"); End_ (js "^\s*;\s*$")] in
  let* m4 := new [ClassName (js "built_in"); Begin (js "%(" ++ SAS_MACRO_FUN ++ js ")")] in
  let* m5 := new [ClassName (js "name"); Begin (js "%[a-zA-Z_][a-zA-Z_0-9]*")] in
  let* m6 := new [ClassName (js "meta"); Begin (js "[^%](" ++ SAS_FUN ++ js ")[(]")] in
  let* m7 := new [ClassName (js "string"); Variants [[AllOf APOS_STRING_MODE]; [AllOf QUOTE_STRING_MODE]]] in
  let* m8 := COMMENT (js "\*") (js ";") [] in
  lang (mkLP true [js "sas";
      js "SAS"] false) [Keywords (KObj [(js "literal", js "null missing _all_ _automatic_ _character_ _infile_ " ++
      js "_n_ _name_ _null_ _numeric_ _user_ _webout_"); (js "meta", SAS_KEYWORDS)]); Contains [CRef m1; CRef m2;
      CRef m3; CRef m4; CRef m5; CRef m6; CRef m7; CRef m8; CRef C_BLOCK_COMMENT_MODE]].

(** scala *)
Definition lang_scala : M language :=
  let* ANNOTATION := new [ClassName (js "meta"); Begin (js "@[A-Za-z]+")] in
  let* SUBST := new [ClassName (js "subst"); Variants [[Begin (js "\$[A-Za-z0-9_]+")]; [Begin (js "\${");
      End_ (js "}")]]] in
  let* STRING := new [ClassName (js "string"); Variants [[Begin (js "＂"); End_ (js "＂"); Illegal (js "\n");
      Contains [CRef BACKSLASH_ESCAPE]]; [Begin (js "＂＂＂"); End_ (js "＂＂＂"); Relevance 10]; [Begin (js "[a-z]+＂");
      End_ (js "＂"); Illegal (js "\n"); Contains [CRef BACKSLASH_ESCAPE; CRef SUBST]]; [ClassName (js "string");
      Begin (js "[a-z]+＂＂＂"); End_ (js "＂＂＂"); Contains [CRef SUBST]; Relevance 10]]] in
  let* SYMBOL := new [ClassName (js "symbol"); Begin (js "'\w[\w\d_]*(?!')")] in
  let* TYPE := new [ClassName (js "type"); Begin (js "\b[A-Z][A-Za-z0-9_]*"); Relevance 0] in
  let* NAME := new [ClassName (js "title");
      Begin (js "[^0-9\n\t ＂'(),.`{}\[\]:;][^\n\t ＂'(),.`{}\[\]:;]+|[^0-9\n\t ＂'(),.`{}\[\]:;=]"); Relevance 0] in
  let* m1 := new [BeginKeywords (js "extends with"); Relevance 10] in
  let* m2 := new [Begin (js "\["); End_ (js "\]"); ExcludeBegin true; ExcludeEnd true; Relevance 0;
      Contains [CRef TYPE]] in
  let* m3 := new [ClassName (js "params"); Begin (js "\("); End_ (js "\)"); ExcludeBegin true; ExcludeEnd true;
      Relevance 0; Contains [CRef TYPE]] in
  let* CLASS := new [ClassName (js "class"); BeginKeywords (js "class object trait type"); End_ (js "[:={\[\n;]");
      ExcludeEnd true; Contains [CRef m1; CRef m2; CRef m3; CRef NAME]] in
  let* METHOD := new [ClassName (js "function"); BeginKeywords (js "def"); End_ (js "[:={\[(\n;]"); ExcludeEnd true;
      Contains [CRef NAME]] in
  lang plain_lang [Keywords (KObj [(js "literal", js "true false null");
      (js "keyword", js "type yield lazy override def with val var sealed abstract private trait object if forSome for while " ++
      js "throw finally protected extends import final return else break new catch super class case package default " ++
      js "try this match continue throws implicit")]); Contains [CRef C_LINE_COMMENT_MODE;
      CRef C_BLOCK_COMMENT_MODE; CRef STRING; CRef SYMBOL; CRef TYPE; CRef METHOD; CRef CLASS; CRef C_NUMBER_MODE;
      CRef ANNOTATION]].

(** scheme *)
Definition lang_scheme : M language :=
  let SCHEME_IDENT_RE := js "[^\(\)\[\]\{\}＂,'`;#|\\\s]+" in
  let SCHEME_SIMPLE_NUMBER_RE := js "(\-|\+)?\d+([./]\d+)?" in
  let SCHEME_COMPLEX_NUMBER_RE := SCHEME_SIMPLE_NUMBER_RE ++ js "[+\-]" ++ SCHEME_SIMPLE_NUMBER_RE ++ js "i" in
  let BUILTINS :=
      KObj [(js "builtin-name", js "case-lambda call/cc class define-class exit-handler field import " ++
      js "inherit init-field interface let*-values let-values let/ec mixin " ++
      js "opt-lambda override protect provide public rename require " ++
      js "require-for-syntax syntax syntax-case syntax-error unit/sig unless " ++
      js "when with-syntax and begin call-with-current-continuation " ++
      js "call-with-input-file call-with-output-file case cond define " ++
      js "define-syntax delay do dynamic-wind else for-each if lambda let let* " ++
      js "let-syntax letrec letrec-syntax map or syntax-rules ' * + , ,@ - ... / " ++
      js "; < <= = => > >= ` abs acos angle append apply asin assoc assq assv atan " ++
      js "boolean? caar cadr call-with-input-file call-with-output-file " ++
      js "call-with-values car cdddar cddddr cdr ceiling char->integer " ++
      js "char-alphabetic? char-ci<=? char-ci<? char-ci=? char-ci>=? char-ci>? " ++
      js "char-downcase char-lower-case? char-numeric? char-ready? char-upcase " ++
      js "char-upper-case? char-whitespace? char<=? char<? char=? char>=? char>? " ++
      js "char? close-input-port close-output-port complex? cons cos " ++
      js "current-input-port current-output-port denominator display eof-object? " ++
      js "eq? equal? eqv? eval even? exact->inexact exact? exp expt floor " ++
      js "force gcd imag-part inexact->exact inexact? input-port? integer->char " ++
      js "integer? interaction-environment lcm length list list->string " ++
      js "list->vector list-ref list-tail list? load log magnitude make-polar " ++
      js "make-rectangular make-string make-vector max member memq memv min " ++
      js "modulo negative? newline not null-environment null? number->string " ++
      js "number? numerator odd? open-input-file open-output-file output-port? " ++
      js "pair? peek-char port? positive? procedure? quasiquote quote quotient " ++
      js "rational? rationalize read read-char real-part real? remainder reverse " ++
      js "round scheme-report-environment set! set-car! set-cdr! sin sqrt string " ++
      js "string->list string->number string->symbol string-append string-ci<=? " ++
      js "string-ci<? string-ci=? string-ci>=? string-ci>? string-copy " ++
      js "string-fill! string-length string-ref string-set! string<=? string<? " ++
      js "string=? string>=? string>? string? substring symbol->string symbol? " ++
      js "tan transcript-off transcript-on truncate values vector " ++
      js "vector->list vector-fill! vector-length vector-ref vector-set! " ++
      js "with-input-from-file with-output-to-file write write-char zero?")] in
  let* SHEBANG := new [ClassName (js "meta"); Begin (js "^#!"); End_ (js "$")] in
  let* LITERAL := new [ClassName (js "literal"); Begin (js "(#t|#f|#\\" ++ SCHEME_IDENT_RE ++ js "|#\\.)")] in
  let* NUMBER := new [ClassName (js "number"); Variants [[Begin SCHEME_SIMPLE_NUMBER_RE; Relevance 0];
      [Begin SCHEME_COMPLEX_NUMBER_RE; Relevance 0]; [Begin (js "#b[0-1]+(/[0-1]+)?")];
      [Begin (js "#o[0-7]+(/[0-7]+)?")]; [Begin (js "#x[0-9a-f]+(/[0-9a-f]+)?")]]] in
  let STRING := QUOTE_STRING_MODE in
  let* REGULAR_EXPRESSION := new [ClassName (js "regexp"); Begin (js "#[pr]x＂"); End_ (js "[^\\]＂")] in
  let* m1 := COMMENT (js ";") (js "$") [Relevance 0] in
  let* m2 := COMMENT (js "#\|") (js "\|#") [] in
  let COMMENT_MODES := [CRef m1; CRef m2] in
  let* IDENT := new [Begin SCHEME_IDENT_RE; Relevance 0] in
  let* QUOTED_IDENT := new [ClassName (js "symbol"); Begin (js "'" ++ SCHEME_IDENT_RE)] in
  let* BODY := new [EndsWithParent true; Relevance 0] in
  let* m3 := new [Begin (js "\("); End_ (js "\)"); Contains [CSelf; CRef LITERAL; CRef STRING; CRef NUMBER;
      CRef IDENT; CRef QUOTED_IDENT]] in
  let* QUOTED_LIST := new [Variants [[Begin (js "'")]; [Begin (js "`")]]; Contains [CRef m3]] in
  let* NAME := new [ClassName (js "name"); Begin SCHEME_IDENT_RE; Lexemes SCHEME_IDENT_RE; Keywords BUILTINS] in
  let* m4 := new [Begin (js "\("); End_ (js "\)"); EndsParent true; Contains [CRef IDENT]] in
  let* LAMBDA := new [Begin (js "lambda"); EndsWithParent true; ReturnBegin true; Contains [CRef NAME; CRef m4]] in
  let* LIST := new [Variants [[Begin (js "\("); End_ (js "\)")]; [Begin (js "\["); End_ (js "\]")]];
      Contains [CRef LAMBDA; CRef NAME; CRef BODY]] in
  let* _ := upd BODY (fun m => assign m (Contains ([CRef LITERAL; CRef NUMBER; CRef STRING; CRef IDENT;
      CRef QUOTED_IDENT; CRef QUOTED_LIST; CRef LIST] ++ COMMENT_MODES))) in
  lang plain_lang [Illegal (js "\S"); Contains ([CRef SHEBANG; CRef NUMBER; CRef STRING; CRef QUOTED_IDENT;
      CRef QUOTED_LIST; CRef LIST] ++ COMMENT_MODES)].

(** scilab *)
Definition lang_scilab : M language :=
  let* m1 := new [Begin (js "''")] in
  let* m2 := new [ClassName (js "string"); Begin (js "'|＂"); End_ (js "'|＂"); Contains [CRef BACKSLASH_ESCAPE;
      CRef m1]] in
  let COMMON_CONTAINS := [CRef C_NUMBER_MODE; CRef m2] in
  let* m3 := new [ClassName (js "params"); Begin (js "\("); End_ (js "\)")] in
  let* m4 := new [ClassName (js "function"); BeginKeywords (js "function"); End_ (js "$");
      Contains [CRef UNDERSCORE_TITLE_MODE; CRef m3]] in
  let* m5 := new [Begin (js "[a-zA-Z_][a-zA-Z_0-9]*('+[\.']*|[\.']+)"); End_ []; Relevance 0] in
  let* m6 := new [Begin (js "\["); End_ (js "\]'*[\.']*"); Relevance 0; Contains COMMON_CONTAINS] in
  let* m7 := COMMENT (js "//") (js "$") [] in
  lang (mkLP false [js "sci"] false) [Lexemes (js "%?\w+");
      Keywords (KObj [(js "keyword", js "abort break case clear catch continue do elseif else endfunction end for function " ++
      js "global if pause return resume select try then while");
      (js "literal", js "%f %F %t %T %pi %eps %inf %nan %e %i %z %s");
      (js "built_in", js "abs and acos asin atan ceil cd chdir clearglobal cosh cos cumprod deff disp error " ++
      js "exec execstr exists exp eye gettext floor fprintf fread fsolve imag isdef isempty " ++
      js "isinfisnan isvector lasterror length load linspace list listfiles log10 log2 log " ++
      js "max min msprintf mclose mopen ones or pathconvert poly printf prod pwd rand real " ++
      js "round sinh sin size gsort sprintf sqrt strcat strcmps tring sum system tanh tan " ++
      js "type typename warning zeros matrix")]); Illegal (js "(＂|#|/\*|\s+/\w+)"); Contains ([CRef m4; CRef m5;
      CRef m6; CRef m7] ++ COMMON_CONTAINS)].

(** scss *)
Definition lang_scss : M language :=
  let IDENT_RE' := js "[a-zA-Z-][a-zA-Z0-9_-]*" in
  let* VARIABLE := new [ClassName (js "variable"); Begin (js "(\$" ++ IDENT_RE' ++ js ")\b")] in
  let* HEXCOLOR := new [ClassName (js "number"); Begin (js "#[0-9A-Fa-f]+")] in
  let* m1 := new [ClassName (js "meta"); Begin (js "!important")] in
  let* m2 := new [EndsWithParent true; ExcludeEnd true; Contains [CRef HEXCOLOR; CRef CSS_NUMBER_MODE;
      CRef QUOTE_STRING_MODE; CRef APOS_STRING_MODE; CRef C_BLOCK_COMMENT_MODE; CRef m1]] in
  let* DEF_INTERNALS := new [ClassName (js "attribute"); Begin (js "[A-Z\_\.\-]+"); End_ (js ":"); ExcludeEnd true;
      Illegal (js "[^\s]"); Starts m2] in
  let* m3 := new [ClassName (js "selector-id"); Begin (js "\#[A-Za-z0-9_-]+"); Relevance 0] in
  let* m4 := new [ClassName (js "selector-class"); Begin (js "\.[A-Za-z0-9_-]+"); Relevance 0] in
  let* m5 := new [ClassName (js "selector-attr"); Begin (js "\["); End_ (js "\]"); Illegal (js "$")] in
  let* m6 := new [ClassName (js "selector-tag");
      Begin (js "\b(a|abbr|acronym|address|area|article|aside|audio|b|base|big|blockquote|body|br|button|canvas|caption|cite|code|col|colgroup|command|datalist|dd|del|details|dfn|div|dl|dt|em|embed|fieldset|figcaption|figure|footer|form|frame|frameset|(h[1-6])|head|header|hgroup|hr|html|i|iframe|img|input|ins|kbd|keygen|label|legend|li|link|map|mark|meta|meter|nav|noframes|noscript|object|ol|optgroup|option|output|p|param|pre|progress|q|rp|rt|ruby|samp|script|section|select|small|span|strike|strong|style|sub|sup|table|tbody|td|textarea|tfoot|th|thead|time|title|tr|tt|ul|var|video)\b");
      Relevance 0] in
  let* m7 :=
      new [Begin (js ":(visited|valid|root|right|required|read-write|read-only|out-range|optional|only-of-type|only-child|nth-of-type|nth-last-of-type|nth-last-child|nth-child|not|link|left|last-of-type|last-child|lang|invalid|indeterminate|in-range|hover|focus|first-of-type|first-line|first-letter|first-child|first|enabled|empty|disabled|default|checked|before|after|active)")] in
  let* m8 :=
      new [Begin (js "::(after|before|choices|first-letter|first-line|repeat-index|repeat-item|selection|value)")] in
  let* m9 := new [ClassName (js "attribute");
      Begin (js "\b(z-index|word-wrap|word-spacing|word-break|width|widows|white-space|visibility|vertical-align|unicode-bidi|transition-timing-function|transition-property|transition-duration|transition-delay|transition|transform-style|transform-origin|transform|top|text-underline-position|text-transform|text-shadow|text-rendering|text-overflow|text-indent|text-decoration-style|text-decoration-line|text-decoration-color|text-decoration|text-align-last|text-align|tab-size|table-layout|right|resize|quotes|position|pointer-events|perspective-origin|perspective|page-break-inside|page-break-before|page-break-after|padding-top|padding-right|padding-left|padding-bottom|padding|overflow-y|overflow-x|overflow-wrap|overflow|outline-width|outline-style|outline-offset|outline-color|outline|orphans|order|opacity|object-position|object-fit|normal|none|nav-up|nav-right|nav-left|nav-index|nav-down|min-width|min-height|max-width|max-height|mask|marks|margin-top|margin-right|margin-left|margin-bottom|margin|list-style-type|list-style-position|list-style-image|list-style|line-height|letter-spacing|left|justify-content|initial|inherit|ime-mode|image-orientation|image-resolution|image-rendering|icon|hyphens|height|font-weight|font-variant-ligatures|font-variant|font-style|font-stretch|font-size-adjust|font-size|font-language-override|font-kerning|font-feature-settings|font-family|font|float|flex-wrap|flex-shrink|flex-grow|flex-flow|flex-direction|flex-basis|flex|filter|empty-cells|display|direction|cursor|counter-reset|counter-increment|content|column-width|column-span|column-rule-width|column-rule-style|column-rule-color|column-rule|column-gap|column-fill|column-count|columns|color|clip-path|clip|clear|caption-side|break-inside|break-before|break-after|box-sizing|box-shadow|box-decoration-break|bottom|border-width|border-top-width|border-top-style|border-top-right-radius|border-top-left-radius|border-top-color|border-top|border-style|border-spacing|border-right-width|border-right-style|border-right-color|border-right|border-radius|border-left-width|border-left-style|border-left-color|border-left|border-image-width|border-image-source|border-image-slice|border-image-repeat|border-image-outset|border-image|border-color|border-collapse|border-bottom-width|border-bottom-style|border-bottom-right-radius|border-bottom-left-radius|border-bottom-color|border-bottom|border|background-size|background-repeat|background-position|background-origin|background-image|background-color|background-clip|background-attachment|background-blend-mode|background|backface-visibility|auto|animation-timing-function|animation-play-state|animation-name|animation-iteration-count|animation-fill-mode|animation-duration|animation-direction|animation-delay|animation|align-self|align-items|align-content)\b");
      Illegal (js "[^\s]")] in
  let* m10 :=
      new [Begin (js "\b(whitespace|wait|w-resize|visible|vertical-text|vertical-ideographic|uppercase|upper-roman|upper-alpha|underline|transparent|top|thin|thick|text|text-top|text-bottom|tb-rl|table-header-group|table-footer-group|sw-resize|super|strict|static|square|solid|small-caps|separate|se-resize|scroll|s-resize|rtl|row-resize|ridge|right|repeat|repeat-y|repeat-x|relative|progress|pointer|overline|outside|outset|oblique|nowrap|not-allowed|normal|none|nw-resize|no-repeat|no-drop|newspaper|ne-resize|n-resize|move|middle|medium|ltr|lr-tb|lowercase|lower-roman|lower-alpha|loose|list-item|line|line-through|line-edge|lighter|left|keep-all|justify|italic|inter-word|inter-ideograph|inside|inset|inline|inline-block|inherit|inactive|ideograph-space|ideograph-parenthesis|ideograph-numeric|ideograph-alpha|horizontal|hidden|help|hand|groove|fixed|ellipsis|e-resize|double|dotted|distribute|distribute-space|distribute-letter|distribute-all-lines|disc|disabled|default|decimal|dashed|crosshair|collapse|col-resize|circle|char|center|capitalize|break-word|break-all|bottom|both|bolder|bold|block|bidi-override|below|baseline|auto|always|all-scroll|absolute|table|table-cell)\b")] in
  let* m11 := new [ClassName (js "meta"); Begin (js "!important")] in
  let* m12 := new [Begin (js ":"); End_ (js ";"); Contains [CRef VARIABLE; CRef HEXCOLOR; CRef CSS_NUMBER_MODE;
      CRef QUOTE_STRING_MODE; CRef APOS_STRING_MODE; CRef m11]] in
  let* m13 := new [Begin (js "\s[A-Za-z0-9_.-]+"); Relevance 0] in
  let* m14 := new [Begin (js "@"); End_ (js "[{;]");
      Keywords (KStr (js "mixin include extend for if else each while charset import debug media page content font-face namespace " ++
      js "warn")); Contains [CRef VARIABLE; CRef QUOTE_STRING_MODE; CRef APOS_STRING_MODE; CRef HEXCOLOR;
      CRef CSS_NUMBER_MODE; CRef m13]] in
  lang (mkLP true [] false) [Illegal (js "[=/|']"); Contains [CRef C_LINE_COMMENT_MODE; CRef C_BLOCK_COMMENT_MODE;
      CRef m3; CRef m4; CRef m5; CRef m6; CRef m7; CRef m8; CRef VARIABLE; CRef m9; CRef m10; CRef m12; CRef m14]].

(** shell *)
Definition lang_shell : M language :=
  let* m1 := new [End_ (js "$"); SubLanguage (inl (js "bash"))] in
  let* m2 := new [ClassName (js "meta"); Begin (js "^\s{0,3}[\w\d\[\]()@-]*[>%$#]"); Starts m1] in
  lang (mkLP false [js "console"] false) [Contains [CRef m2]].

(** smali *)
Definition lang_smali : M language :=
  let smali_instr_low_prio := [js "add"; js "and"; js "cmp"; js "cmpg"; js "cmpl"; js "const"; js "div";
      js "double"; js "float"; js "goto"; js "if"; js "int"; js "long"; js "move"; js "mul"; js "neg"; js "new";
      js "nop"; js "not"; js "or"; js "rem"; js "return"; js "shl"; js "shr"; js "sput"; js "sub"; js "throw";
      js "ushr"; js "xor"] in
  let smali_instr_high_prio := [js "aget"; js "aput"; js "array"; js "check"; js "execute"; js "fill"; js "filled";
      js "goto/16"; js "goto/32"; js "iget"; js "instance"; js "invoke"; js "iput"; js "monitor"; js "packed";
      js "sget"; js "sparse"] in
  let smali_keywords := [js "transient"; js "constructor"; js "abstract"; js "final"; js "synthetic"; js "public";
      js "private"; js "protected"; js "static"; js "bridge"; js "system"] in
  let* m1 := new [ClassName (js "string"); Begin (js "＂"); End_ (js "＂"); Relevance 0] in
  let* m2 := COMMENT (js "#") (js "$") [Relevance 0] in
  let* m3 := new [ClassName (js "keyword"); Variants [[Begin (js "\s*\.end\s[a-zA-Z0-9]*")];
      [Begin (js "^[ ]*\.[a-zA-Z]*"); Relevance 0]; [Begin (js "\s:[a-zA-Z_0-9]*"); Relevance 0];
      [Begin (js "\s(" ++ join (js "|") smali_keywords ++ js ")")]]] in
  let* m4 := new [ClassName (js "built_in"); Variants [[Begin (js "\s(" ++ join (js "|") smali_instr_low_prio ++
      js ")\s")]; [Begin (js "\s(" ++ join (js "|") smali_instr_low_prio ++ js ")((\-|/)[a-zA-Z0-9]+)+\s");
      Relevance 10]; [Begin (js "\s(" ++ join (js "|") smali_instr_high_prio ++ js ")((\-|/)[a-zA-Z0-9]+)*\s");
      Relevance 10]]] in
  let* m5 := new [ClassName (js "class"); Begin (js "L[^(;:" ++ [10%N] ++ js "]*;"); Relevance 0] in
  let* m6 := new [Begin (js "[vp][0-9]+")] in
  lang (mkLP false [js "smali"] false) [Contains [CRef m1; CRef m2; CRef m3; CRef m4; CRef m5; CRef m6]].

(** smalltalk *)
Definition lang_smalltalk : M language :=
  let VAR_IDENT_RE := js "[a-z][a-zA-Z0-9_]*" in
  let* CHAR := new [ClassName (js "string"); Begin (js "\$.{1}")] in
  let* SYMBOL := new [ClassName (js "symbol"); Begin (js "#" ++ UNDERSCORE_IDENT_RE)] in
  let* m1 := COMMENT (js "＂") (js "＂") [] in
  let* m2 := new [ClassName (js "type"); Begin (js "\b[A-Z][A-Za-z0-9_]*"); Relevance 0] in
  let* m3 := new [Begin (VAR_IDENT_RE ++ js ":"); Relevance 0] in
  let* m4 := new [Begin (js "(\|[ ]*" ++ js ")?" ++ VAR_IDENT_RE)] in
  let* m5 := new [Begin (js "\|[ ]*" ++ VAR_IDENT_RE ++ js "([ ]+" ++ VAR_IDENT_RE ++ js ")*[ ]*\|");
      ReturnBegin true; End_ (js "\|"); Illegal (js "\S"); Contains [CRef m4]] in
  let* m6 := new [Begin (js "\#\("); End_ (js "\)"); Contains [CRef APOS_STRING_MODE; CRef CHAR; CRef C_NUMBER_MODE;
      CRef SYMBOL]] in
  lang (mkLP false [js "st"] false) [Keywords (KStr (js "self super nil true false thisContext"));
      Contains [CRef m1; CRef APOS_STRING_MODE; CRef m2; CRef m3; CRef C_NUMBER_MODE; CRef SYMBOL; CRef CHAR;
      CRef m5; CRef m6]].

(** sml *)
Definition lang_sml : M language :=
  let* m1 := new [ClassName (js "literal"); Begin (js "\[(\|\|)?\]|\(\)"); Relevance 0] in
  let* m2 := COMMENT (js "\(\*") (js "\*\)") [Contains [CSelf]] in
  let* m3 := new [ClassName (js "symbol"); Begin (js "'[A-Za-z_](?!')[\w']*")] in
  let* m4 := new [ClassName (js "type"); Begin (js "`[A-Z][\w']*")] in
  let* m5 := new [ClassName (js "type"); Begin (js "\b[A-Z][\w']*"); Relevance 0] in
  let* m6 := new [Begin (js "[a-z_]\w*'[\w']*")] in
  let* m7 := inherit_mode APOS_STRING_MODE [ClassName (js "string"); Relevance 0] in
  let* m8 := inherit_mode QUOTE_STRING_MODE [Illegal []] in
  let* m9 := new [ClassName (js "number"); Begin (js "\b(0[xX][a-fA-F0-9_]+[Lln]?|" ++ js "0[oO][0-7_]+[Lln]?|" ++
      js "0[bB][01_]+[Lln]?|" ++ js "[0-9][0-9_]*([Lln]|(\.[0-9_]*" ++ js ")?([eE][-+]?[0-9_]+)?)?)");
      Relevance 0] in
  let* m10 := new [Begin (js "[-=]>")] in
  lang (mkLP false [js "ml"] false) [Keywords (KObj [(js "keyword", js "abstype and andalso as case datatype do else end eqtype " ++
      js "exception fn fun functor handle if in include infix infixr " ++
      js "let local nonfix of op open orelse raise rec sharing sig " ++
      js "signature struct structure then type val with withtype where while");
      (js "built_in", js "array bool char exn int list option order real ref string substring vector unit word");
      (js "literal", js "true false NONE SOME LESS EQUAL GREATER nil")]); Illegal (js "\/\/|>>");
      Lexemes (js "[a-z_]\w*!?"); Contains [CRef m1; CRef m2; CRef m3; CRef m4; CRef m5; CRef m6; CRef m7; CRef m8;
      CRef m9; CRef m10]].

Definition lang_sqf_built_in_1 : jsstr :=
  js "abs accTime acos action actionIDs actionKeys actionKeysImages actionKeysNames " ++
      js "actionKeysNamesArray actionName actionParams activateAddons activatedAddons activateKey " ++
      js "add3DENConnection add3DENEventHandler add3DENLayer addAction addBackpack addBackpackCargo " ++
      js "addBackpackCargoGlobal addBackpackGlobal addCamShake addCuratorAddons addCuratorCameraArea " ++
      js "addCuratorEditableObjects addCuratorEditingArea addCuratorPoints addEditorObject addEventHandler " ++
      js "addForce addGoggles addGroupIcon addHandgunItem addHeadgear addItem addItemCargo " ++
      js "addItemCargoGlobal addItemPool addItemToBackpack addItemToUniform addItemToVest addLiveStats " ++
      js "addMagazine addMagazineAmmoCargo addMagazineCargo addMagazineCargoGlobal addMagazineGlobal " ++
      js "addMagazinePool addMagazines addMagazineTurret addMenu addMenuItem addMissionEventHandler " ++
      js "addMPEventHandler addMusicEventHandler addOwnedMine addPlayerScores addPrimaryWeaponItem " ++
      js "addPublicVariableEventHandler addRating addResources addScore addScoreSide addSecondaryWeaponItem " ++
      js "addSwitchableUnit addTeamMember addToRemainsCollector addTorque addUniform addVehicle addVest " ++
      js "addWaypoint addWeapon addWeaponCargo addWeaponCargoGlobal addWeaponGlobal addWeaponItem " ++
      js "addWeaponPool addWeaponTurret admin agent agents AGLToASL aimedAtTarget aimPos airDensityRTD " ++
      js "airplaneThrottle airportSide AISFinishHeal alive all3DENEntities allAirports allControls " ++
      js "allCurators allCutLayers allDead allDeadMen allDisplays allGroups allMapMarkers allMines " ++
      js "allMissionObjects allow3DMode allowCrewInImmobile allowCuratorLogicIgnoreAreas allowDamage " ++
      js "allowDammage allowFileOperations allowFleeing allowGetIn allowSprint allPlayers allSimpleObjects " ++
      js "allSites allTurrets allUnits allUnitsUAV allVariables ammo ammoOnPylon and animate animateBay " ++
      js "animateDoor animatePylon animateSource animationNames animationPhase animationSourcePhase " ++
      js "animationState append apply armoryPoints arrayIntersect asin ASLToAGL ASLToATL assert " ++
      js "assignAsCargo assignAsCargoIndex assignAsCommander assignAsDriver assignAsGunner assignAsTurret " ++
      js "assignCurator assignedCargo assignedCommander assignedDriver assignedGunner assignedItems " ++
      js "assignedTarget assignedTeam assignedVehicle assignedVehicleRole assignItem assignTeam " ++
      js "assignToAirport atan atan2 atg ATLToASL attachedObject attachedObjects attachedTo attachObject " ++
      js "attachTo attackEnabled backpack backpackCargo backpackContainer backpackItems backpackMagazines " ++
      js "backpackSpaceFor behaviour benchmark binocular boundingBox boundingBoxReal boundingCenter " ++
      js "breakOut breakTo briefingName buildingExit buildingPos buttonAction buttonSetAction cadetMode " ++
      js "call callExtension camCommand camCommit camCommitPrepared camCommitted camConstuctionSetParams " ++
      js "camCreate camDestroy cameraEffect cameraEffectEnableHUD cameraInterest cameraOn cameraView " ++
      js "campaignConfigFile camPreload camPreloaded camPrepareBank camPrepareDir camPrepareDive " ++
      js "camPrepareFocus camPrepareFov camPrepareFovRange camPreparePos camPrepareRelPos camPrepareTarget " ++
      js "camSetBank camSetDir camSetDive camSetFocus camSetFov camSetFovRange camSetPos camSetRelPos " ++
      js "camSetTarget camTarget camUseNVG canAdd canAddItemToBackpack canAddItemToUniform canAddItemToVest " ++
      js "cancelSimpleTaskDestination canFire canMove canSlingLoad canStand canSuspend " ++
      js "canTriggerDynamicSimulation canUnloadInCombat canVehicleCargo captive captiveNum cbChecked " ++
      js "cbSetChecked ceil channelEnabled cheatsEnabled checkAIFeature checkVisibility className " ++
      js "clearAllItemsFromBackpack clearBackpackCargo clearBackpackCargoGlobal clearGroupIcons " ++
      js "clearItemCargo clearItemCargoGlobal clearItemPool clearMagazineCargo clearMagazineCargoGlobal " ++
      js "clearMagazinePool clearOverlay clearRadio clearWeaponCargo clearWeaponCargoGlobal clearWeaponPool " ++
      js "clientOwner closeDialog closeDisplay closeOverlay collapseObjectTree collect3DENHistory " ++
      js "collectiveRTD combatMode commandArtilleryFire commandChat commander commandFire commandFollow " ++
      js "commandFSM commandGetOut commandingMenu commandMove commandRadio commandStop " ++
      js "commandSuppressiveFire commandTarget commandWatch comment commitOverlay compile compileFinal " ++
      js "completedFSM composeText configClasses configFile configHierarchy configName configProperties " ++
      js "configSourceAddonList configSourceMod configSourceModList confirmSensorTarget " ++
      js "connectTerminalToUAV controlsGroupCtrl copyFromClipboard copyToClipboard copyWaypoints cos count " ++
      js "countEnemy countFriendly countSide countType countUnknown create3DENComposition create3DENEntity " ++
      js "createAgent createCenter createDialog createDiaryLink createDiaryRecord createDiarySubject " ++
      js "createDisplay createGearDialog createGroup createGuardedPoint createLocation createMarker " ++
      js "createMarkerLocal createMenu createMine createMissionDisplay createMPCampaignDisplay " ++
      js "createSimpleObject createSimpleTask createSite createSoundSource createTask createTeam " ++
      js "createTrigger createUnit createVehicle createVehicleCrew createVehicleLocal crew ctAddHeader " ++
      js "ctAddRow ctClear ctCurSel ctData ctFindHeaderRows ctFindRowHeader ctHeaderControls ctHeaderCount " ++
      js "ctRemoveHeaders ctRemoveRows ctrlActivate ctrlAddEventHandler ctrlAngle ctrlAutoScrollDelay " ++
      js "ctrlAutoScrollRewind ctrlAutoScrollSpeed ctrlChecked ctrlClassName ctrlCommit ctrlCommitted " ++
      js "ctrlCreate ctrlDelete ctrlEnable ctrlEnabled ctrlFade ctrlHTMLLoaded ctrlIDC ctrlIDD " ++
      js "ctrlMapAnimAdd ctrlMapAnimClear ctrlMapAnimCommit ctrlMapAnimDone ctrlMapCursor ctrlMapMouseOver " ++
      js "ctrlMapScale ctrlMapScreenToWorld ctrlMapWorldToScreen ctrlModel ctrlModelDirAndUp ctrlModelScale " ++
      js "ctrlParent ctrlParentControlsGroup ctrlPosition ctrlRemoveAllEventHandlers ctrlRemoveEventHandler " ++
      js "ctrlScale ctrlSetActiveColor ctrlSetAngle ctrlSetAutoScrollDelay ctrlSetAutoScrollRewind " ++
      js "ctrlSetAutoScrollSpeed ctrlSetBackgroundColor ctrlSetChecked ctrlSetEventHandler ctrlSetFade " ++
      js "ctrlSetFocus ctrlSetFont ctrlSetFontH1 ctrlSetFontH1B ctrlSetFontH2 ctrlSetFontH2B ctrlSetFontH3 " ++
      js "ctrlSetFontH3B ctrlSetFontH4 ctrlSetFontH4B ctrlSetFontH5 ctrlSetFontH5B ctrlSetFontH6 " ++
      js "ctrlSetFontH6B ctrlSetFontHeight ctrlSetFontHeightH1 ctrlSetFontHeightH2 ctrlSetFontHeightH3 " ++
      js "ctrlSetFontHeightH4 ctrlSetFontHeightH5 ctrlSetFontHeightH6 ctrlSetFontHeightSecondary " ++
      js "ctrlSetFontP ctrlSetFontPB ctrlSetFontSecondary ctrlSetForegroundColor ctrlSetModel " ++
      js "ctrlSetModelDirAndUp ctrlSetModelScale ctrlSetPixelPrecision ctrlSetPosition ctrlSetScale " ++
      js "ctrlSetStructuredText ctrlSetText ctrlSetTextColor ctrlSetTooltip ctrlSetTooltipColorBox " ++
      js "ctrlSetTooltipColorShade ctrlSetTooltipColorText ctrlShow ctrlShown ctrlText ctrlTextHeight " ++
      js "ctrlTextWidth ctrlType ctrlVisible ctRowControls ctRowCount ctSetCurSel ctSetData " ++
      js "ctSetHeaderTemplate ctSetRowTemplate ctSetValue ctValue curatorAddons curatorCamera " ++
      js "curatorCameraArea curatorCameraAreaCeiling curatorCoef curatorEditableObjects curatorEditingArea " ++
      js "curatorEditingAreaType curatorMouseOver curatorPoints curatorRegisteredObjects curatorSelected " ++
      js "curatorWaypointCost current3DENOperation currentChannel currentCommand currentMagazine " ++
      js "currentMagazineDetail currentMagazineDetailTurret currentMagazineTurret currentMuzzle " ++
      js "currentNamespace currentTask currentTasks currentThrowable currentVisionMode currentWaypoint " ++
      js "currentWeapon currentWeaponMode currentWeaponTurret currentZeroing cursorObject cursorTarget " ++
      js "customChat customRadio cutFadeOut cutObj cutRsc cutText damage date dateToNumber daytime " ++
      js "deActivateKey debriefingText debugFSM debugLog deg delete3DENEntities deleteAt deleteCenter " ++
      js "deleteCollection deleteEditorObject deleteGroup deleteGroupWhenEmpty deleteIdentity " ++
      js "deleteLocation deleteMarker deleteMarkerLocal deleteRange deleteResources deleteSite deleteStatus " ++
      js "deleteTeam deleteVehicle deleteVehicleCrew deleteWaypoint detach detectedMines " ++
      js "diag_activeMissionFSMs diag_activeScripts diag_activeSQFScripts diag_activeSQSScripts " ++
      js "diag_captureFrame diag_captureFrameToFile diag_captureSlowFrame diag_codePerformance " ++
      js "diag_drawMode diag_enable diag_enabled diag_fps diag_fpsMin diag_frameNo diag_lightNewLoad " ++
      js "diag_list diag_log diag_logSlowFrame diag_mergeConfigFile diag_recordTurretLimits " ++
      js "diag_setLightNew diag_tickTime diag_toggle dialog diarySubjectExists didJIP didJIPOwner " ++
      js "difficulty difficultyEnabled difficultyEnabledRTD difficultyOption direction directSay disableAI " ++
      js "disableCollisionWith disableConversation disableDebriefingStats disableMapIndicators " ++
      js "disableNVGEquipment disableRemoteSensors disableSerialization disableTIEquipment " ++
      js "disableUAVConnectability disableUserInput displayAddEventHandler displayCtrl displayParent " ++
      js "displayRemoveAllEventHandlers displayRemoveEventHandler displaySetEventHandler dissolveTeam " ++
      js "distance distance2D distanceSqr distributionRegion do3DENAction doArtilleryFire doFire doFollow " ++
      js "doFSM doGetOut doMove doorPhase doStop doSuppressiveFire doTarget doWatch drawArrow drawEllipse " ++
      js "drawIcon drawIcon3D drawLine drawLine3D drawLink drawLocation drawPolygon drawRectangle " ++
      js "drawTriangle driver drop dynamicSimulationDistance dynamicSimulationDistanceCoef " ++
      js "dynamicSimulationEnabled dynamicSimulationSystemEnabled echo edit3DENMissionAttributes editObject " ++
      js "editorSetEventHandler effectiveCommander emptyPositions enableAI enableAIFeature " ++
      js "enableAimPrecision enableAttack enableAudioFeature enableAutoStartUpRTD enableAutoTrimRTD " ++
      js "enableCamShake enableCaustics enableChannel enableCollisionWith enableCopilot " ++
      js "enableDebriefingStats enableDiagLegend enableDynamicSimulation enableDynamicSimulationSystem " ++
      js "enableEndDialog enableEngineArtillery enableEnvironment enableFatigue enableGunLights " ++
      js "enableInfoPanelComponent enableIRLasers enableMimics enablePersonTurret enableRadio enableReload " ++
      js "enableRopeAttach enableSatNormalOnDetail enableSaving enableSentences enableSimulation " ++
      js "enableSimulationGlobal enableStamina enableTeamSwitch enableTraffic enableUAVConnectability " ++
      js "enableUAVWaypoints enableVehicleCargo enableVehicleSensor enableWeaponDisassembly " ++
      js "endLoadingScreen endMission engineOn enginesIsOnRTD enginesRpmRTD enginesTorqueRTD entities " ++
      js "environmentEnabled estimatedEndServerTime estimatedTimeLeft evalObjectArgument everyBackpack " ++
      js "everyContainer exec execEditorScript execFSM execVM exp expectedDestination exportJIPMessages " ++
      js "eyeDirection eyePos face faction fadeMusic fadeRadio fadeSound fadeSpeech failMission " ++
      js "fillWeaponsFromPool find findCover findDisplay findEditorObject findEmptyPosition " ++
      js "findEmptyPositionReady findIf findNearestEnemy finishMissionInit finite fire fireAtTarget " ++
      js "firstBackpack flag flagAnimationPhase flagOwner flagSide flagTexture fleeing floor flyInHeight " ++
      js "flyInHeightASL fog fogForecast fogParams forceAddUniform forcedMap forceEnd forceFlagTexture " ++
      js "forceFollowRoad forceMap forceRespawn forceSpeed forceWalk forceWeaponFire forceWeatherChange " ++
      js "forEachMember forEachMemberAgent forEachMemberTeam forgetTarget format formation " ++
      js "formationDirection formationLeader formationMembers formationPosition formationTask formatText " ++
      js "formLeader freeLook fromEditor fuel fullCrew gearIDCAmmoCount gearSlotAmmoCount gearSlotData " ++
      js "get3DENActionState get3DENAttribute get3DENCamera get3DENConnections get3DENEntity " ++
      js "get3DENEntityID get3DENGrid get3DENIconsVisible get3DENLayerEntities get3DENLinesVisible " ++
      js "get3DENMissionAttribute get3DENMouseOver get3DENSelected getAimingCoef getAllEnvSoundControllers " ++
      js "getAllHitPointsDamage getAllOwnedMines getAllSoundControllers getAmmoCargo getAnimAimPrecision " ++
      js "getAnimSpeedCoef getArray getArtilleryAmmo getArtilleryComputerSettings getArtilleryETA " ++
      js "getAssignedCuratorLogic getAssignedCuratorUnit getBackpackCargo getBleedingRemaining " ++
      js "getBurningValue getCameraViewDirection getCargoIndex getCenterOfMass getClientState " ++
      js "getClientStateNumber getCompatiblePylonMagazines getConnectedUAV getContainerMaxLoad " ++
      js "getCursorObjectParams getCustomAimCoef getDammage getDescription getDir getDirVisual " ++
      js "getDLCAssetsUsage getDLCAssetsUsageByName getDLCs getEditorCamera getEditorMode " ++
      js "getEditorObjectScope getElevationOffset getEnvSoundController getFatigue getForcedFlagTexture " ++
      js "getFriend getFSMVariable getFuelCargo getGroupIcon getGroupIconParams getGroupIcons getHideFrom " ++
      js "getHit getHitIndex getHitPointDamage getItemCargo getMagazineCargo getMarkerColor getMarkerPos " ++
      js "getMarkerSize getMarkerType getMass getMissionConfig getMissionConfigValue getMissionDLCs " ++
      js "getMissionLayerEntities getModelInfo getMousePosition getMusicPlayedTime getNumber " ++
      js "getObjectArgument getObjectChildren getObjectDLC getObjectMaterials getObjectProxy " ++
      js "getObjectTextures getObjectType getObjectViewDistance getOxygenRemaining getPersonUsedDLCs " ++
      js "getPilotCameraDirection getPilotCameraPosition getPilotCameraRotation getPilotCameraTarget " ++
      js "getPlateNumber getPlayerChannel getPlayerScores getPlayerUID getPos getPosASL getPosASLVisual " ++
      js "getPosASLW getPosATL getPosATLVisual getPosVisual getPosWorld getPylonMagazines getRelDir " ++
      js "getRelPos getRemoteSensorsDisabled getRepairCargo getResolution getShadowDistance getShotParents ".

Definition lang_sqf_built_in_2 : jsstr :=
  js "getSlingLoad getSoundController getSoundControllerResult getSpeed getStamina getStatValue " ++
      js "getSuppression getTerrainGrid getTerrainHeightASL getText getTotalDLCUsageTime getUnitLoadout " ++
      js "getUnitTrait getUserMFDText getUserMFDvalue getVariable getVehicleCargo getWeaponCargo " ++
      js "getWeaponSway getWingsOrientationRTD getWingsPositionRTD getWPPos glanceAt globalChat globalRadio " ++
      js "goggles goto group groupChat groupFromNetId groupIconSelectable groupIconsVisible groupId " ++
      js "groupOwner groupRadio groupSelectedUnits groupSelectUnit gunner gusts halt handgunItems " ++
      js "handgunMagazine handgunWeapon handsHit hasInterface hasPilotCamera hasWeapon hcAllGroups " ++
      js "hcGroupParams hcLeader hcRemoveAllGroups hcRemoveGroup hcSelected hcSelectGroup hcSetGroup " ++
      js "hcShowBar hcShownBar headgear hideBody hideObject hideObjectGlobal hideSelection hint hintC " ++
      js "hintCadet hintSilent hmd hostMission htmlLoad HUDMovementLevels humidity image importAllGroups " ++
      js "importance in inArea inAreaArray incapacitatedState inflame inflamed infoPanel " ++
      js "infoPanelComponentEnabled infoPanelComponents infoPanels inGameUISetEventHandler inheritsFrom " ++
      js "initAmbientLife inPolygon inputAction inRangeOfArtillery insertEditorObject intersect is3DEN " ++
      js "is3DENMultiplayer isAbleToBreathe isAgent isArray isAutoHoverOn isAutonomous isAutotest " ++
      js "isBleeding isBurning isClass isCollisionLightOn isCopilotEnabled isDamageAllowed isDedicated " ++
      js "isDLCAvailable isEngineOn isEqualTo isEqualType isEqualTypeAll isEqualTypeAny isEqualTypeArray " ++
      js "isEqualTypeParams isFilePatchingEnabled isFlashlightOn isFlatEmpty isForcedWalk isFormationLeader " ++
      js "isGroupDeletedWhenEmpty isHidden isInRemainsCollector isInstructorFigureEnabled isIRLaserOn " ++
      js "isKeyActive isKindOf isLaserOn isLightOn isLocalized isManualFire isMarkedForCollection " ++
      js "isMultiplayer isMultiplayerSolo isNil isNull isNumber isObjectHidden isObjectRTD isOnRoad " ++
      js "isPipEnabled isPlayer isRealTime isRemoteExecuted isRemoteExecutedJIP isServer isShowing3DIcons " ++
      js "isSimpleObject isSprintAllowed isStaminaEnabled isSteamMission isStreamFriendlyUIEnabled isText " ++
      js "isTouchingGround isTurnedOut isTutHintsEnabled isUAVConnectable isUAVConnected isUIContext " ++
      js "isUniformAllowed isVehicleCargo isVehicleRadarOn isVehicleSensorEnabled isWalking " ++
      js "isWeaponDeployed isWeaponRested itemCargo items itemsWithMagazines join joinAs joinAsSilent " ++
      js "joinSilent joinString kbAddDatabase kbAddDatabaseTargets kbAddTopic kbHasTopic kbReact " ++
      js "kbRemoveTopic kbTell kbWasSaid keyImage keyName knowsAbout land landAt landResult language " ++
      js "laserTarget lbAdd lbClear lbColor lbColorRight lbCurSel lbData lbDelete lbIsSelected lbPicture " ++
      js "lbPictureRight lbSelection lbSetColor lbSetColorRight lbSetCurSel lbSetData lbSetPicture " ++
      js "lbSetPictureColor lbSetPictureColorDisabled lbSetPictureColorSelected lbSetPictureRight " ++
      js "lbSetPictureRightColor lbSetPictureRightColorDisabled lbSetPictureRightColorSelected " ++
      js "lbSetSelectColor lbSetSelectColorRight lbSetSelected lbSetText lbSetTextRight lbSetTooltip " ++
      js "lbSetValue lbSize lbSort lbSortByValue lbText lbTextRight lbValue leader leaderboardDeInit " ++
      js "leaderboardGetRows leaderboardInit leaderboardRequestRowsFriends leaderboardsRequestUploadScore " ++
      js "leaderboardsRequestUploadScoreKeepBest leaderboardState leaveVehicle libraryCredits " ++
      js "libraryDisclaimers lifeState lightAttachObject lightDetachObject lightIsOn lightnings limitSpeed " ++
      js "linearConversion lineIntersects lineIntersectsObjs lineIntersectsSurfaces lineIntersectsWith " ++
      js "linkItem list listObjects listRemoteTargets listVehicleSensors ln lnbAddArray lnbAddColumn " ++
      js "lnbAddRow lnbClear lnbColor lnbCurSelRow lnbData lnbDeleteColumn lnbDeleteRow " ++
      js "lnbGetColumnsPosition lnbPicture lnbSetColor lnbSetColumnsPos lnbSetCurSelRow lnbSetData " ++
      js "lnbSetPicture lnbSetText lnbSetValue lnbSize lnbSort lnbSortByValue lnbText lnbValue load loadAbs " ++
      js "loadBackpack loadFile loadGame loadIdentity loadMagazine loadOverlay loadStatus loadUniform " ++
      js "loadVest local localize locationPosition lock lockCameraTo lockCargo lockDriver locked " ++
      js "lockedCargo lockedDriver lockedTurret lockIdentity lockTurret lockWP log logEntities logNetwork " ++
      js "logNetworkTerminate lookAt lookAtPos magazineCargo magazines magazinesAllTurrets magazinesAmmo " ++
      js "magazinesAmmoCargo magazinesAmmoFull magazinesDetail magazinesDetailBackpack " ++
      js "magazinesDetailUniform magazinesDetailVest magazinesTurret magazineTurretAmmo mapAnimAdd " ++
      js "mapAnimClear mapAnimCommit mapAnimDone mapCenterOnCamera mapGridPosition markAsFinishedOnSteam " ++
      js "markerAlpha markerBrush markerColor markerDir markerPos markerShape markerSize markerText " ++
      js "markerType max members menuAction menuAdd menuChecked menuClear menuCollapse menuData menuDelete " ++
      js "menuEnable menuEnabled menuExpand menuHover menuPicture menuSetAction menuSetCheck menuSetData " ++
      js "menuSetPicture menuSetValue menuShortcut menuShortcutText menuSize menuSort menuText menuURL " ++
      js "menuValue min mineActive mineDetectedBy missionConfigFile missionDifficulty missionName " ++
      js "missionNamespace missionStart missionVersion mod modelToWorld modelToWorldVisual " ++
      js "modelToWorldVisualWorld modelToWorldWorld modParams moonIntensity moonPhase morale move " ++
      js "move3DENCamera moveInAny moveInCargo moveInCommander moveInDriver moveInGunner moveInTurret " ++
      js "moveObjectToEnd moveOut moveTime moveTo moveToCompleted moveToFailed musicVolume name nameSound " ++
      js "nearEntities nearestBuilding nearestLocation nearestLocations nearestLocationWithDubbing " ++
      js "nearestObject nearestObjects nearestTerrainObjects nearObjects nearObjectsReady nearRoads " ++
      js "nearSupplies nearTargets needReload netId netObjNull newOverlay nextMenuItemIndex " ++
      js "nextWeatherChange nMenuItems not numberOfEnginesRTD numberToDate objectCurators objectFromNetId " ++
      js "objectParent objStatus onBriefingGroup onBriefingNotes onBriefingPlan onBriefingTeamSwitch " ++
      js "onCommandModeChanged onDoubleClick onEachFrame onGroupIconClick onGroupIconOverEnter " ++
      js "onGroupIconOverLeave onHCGroupSelectionChanged onMapSingleClick onPlayerConnected " ++
      js "onPlayerDisconnected onPreloadFinished onPreloadStarted onShowNewObject onTeamSwitch " ++
      js "openCuratorInterface openDLCPage openMap openSteamApp openYoutubeVideo or orderGetIn overcast " ++
      js "overcastForecast owner param params parseNumber parseSimpleArray parseText parsingNamespace " ++
      js "particlesQuality pickWeaponPool pitch pixelGrid pixelGridBase pixelGridNoUIScale pixelH pixelW " ++
      js "playableSlotsNumber playableUnits playAction playActionNow player playerRespawnTime playerSide " ++
      js "playersNumber playGesture playMission playMove playMoveNow playMusic playScriptedMission " ++
      js "playSound playSound3D position positionCameraToWorld posScreenToWorld posWorldToScreen " ++
      js "ppEffectAdjust ppEffectCommit ppEffectCommitted ppEffectCreate ppEffectDestroy ppEffectEnable " ++
      js "ppEffectEnabled ppEffectForceInNVG precision preloadCamera preloadObject preloadSound " ++
      js "preloadTitleObj preloadTitleRsc preprocessFile preprocessFileLineNumbers primaryWeapon " ++
      js "primaryWeaponItems primaryWeaponMagazine priority processDiaryLink productVersion profileName " ++
      js "profileNamespace profileNameSteam progressLoadingScreen progressPosition progressSetPosition " ++
      js "publicVariable publicVariableClient publicVariableServer pushBack pushBackUnique putWeaponPool " ++
      js "queryItemsPool queryMagazinePool queryWeaponPool rad radioChannelAdd radioChannelCreate " ++
      js "radioChannelRemove radioChannelSetCallSign radioChannelSetLabel radioVolume rain rainbow random " ++
      js "rank rankId rating rectangular registeredTasks registerTask reload reloadEnabled remoteControl " ++
      js "remoteExec remoteExecCall remoteExecutedOwner remove3DENConnection remove3DENEventHandler " ++
      js "remove3DENLayer removeAction removeAll3DENEventHandlers removeAllActions removeAllAssignedItems " ++
      js "removeAllContainers removeAllCuratorAddons removeAllCuratorCameraAreas " ++
      js "removeAllCuratorEditingAreas removeAllEventHandlers removeAllHandgunItems removeAllItems " ++
      js "removeAllItemsWithMagazines removeAllMissionEventHandlers removeAllMPEventHandlers " ++
      js "removeAllMusicEventHandlers removeAllOwnedMines removeAllPrimaryWeaponItems removeAllWeapons " ++
      js "removeBackpack removeBackpackGlobal removeCuratorAddons removeCuratorCameraArea " ++
      js "removeCuratorEditableObjects removeCuratorEditingArea removeDrawIcon removeDrawLinks " ++
      js "removeEventHandler removeFromRemainsCollector removeGoggles removeGroupIcon removeHandgunItem " ++
      js "removeHeadgear removeItem removeItemFromBackpack removeItemFromUniform removeItemFromVest " ++
      js "removeItems removeMagazine removeMagazineGlobal removeMagazines removeMagazinesTurret " ++
      js "removeMagazineTurret removeMenuItem removeMissionEventHandler removeMPEventHandler " ++
      js "removeMusicEventHandler removeOwnedMine removePrimaryWeaponItem removeSecondaryWeaponItem " ++
      js "removeSimpleTask removeSwitchableUnit removeTeamMember removeUniform removeVest removeWeapon " ++
      js "removeWeaponAttachmentCargo removeWeaponCargo removeWeaponGlobal removeWeaponTurret " ++
      js "reportRemoteTarget requiredVersion resetCamShake resetSubgroupDirection resize resources " ++
      js "respawnVehicle restartEditorCamera reveal revealMine reverse reversedMouseY roadAt " ++
      js "roadsConnectedTo roleDescription ropeAttachedObjects ropeAttachedTo ropeAttachEnabled " ++
      js "ropeAttachTo ropeCreate ropeCut ropeDestroy ropeDetach ropeEndPosition ropeLength ropes " ++
      js "ropeUnwind ropeUnwound rotorsForcesRTD rotorsRpmRTD round runInitScript safeZoneH safeZoneW " ++
      js "safeZoneWAbs safeZoneX safeZoneXAbs safeZoneY save3DENInventory saveGame saveIdentity " ++
      js "saveJoysticks saveOverlay saveProfileNamespace saveStatus saveVar savingEnabled say say2D say3D " ++
      js "scopeName score scoreSide screenshot screenToWorld scriptDone scriptName scudState " ++
      js "secondaryWeapon secondaryWeaponItems secondaryWeaponMagazine select selectBestPlaces " ++
      js "selectDiarySubject selectedEditorObjects selectEditorObject selectionNames selectionPosition " ++
      js "selectLeader selectMax selectMin selectNoPlayer selectPlayer selectRandom selectRandomWeighted " ++
      js "selectWeapon selectWeaponTurret sendAUMessage sendSimpleCommand sendTask sendTaskResult " ++
      js "sendUDPMessage serverCommand serverCommandAvailable serverCommandExecutable serverName serverTime " ++
      js "set set3DENAttribute set3DENAttributes set3DENGrid set3DENIconsVisible set3DENLayer " ++
      js "set3DENLinesVisible set3DENLogicType set3DENMissionAttribute set3DENMissionAttributes " ++
      js "set3DENModelsVisible set3DENObjectType set3DENSelected setAccTime setActualCollectiveRTD " ++
      js "setAirplaneThrottle setAirportSide setAmmo setAmmoCargo setAmmoOnPylon setAnimSpeedCoef " ++
      js "setAperture setApertureNew setArmoryPoints setAttributes setAutonomous setBehaviour " ++
      js "setBleedingRemaining setBrakesRTD setCameraInterest setCamShakeDefParams setCamShakeParams " ++
      js "setCamUseTI setCaptive setCenterOfMass setCollisionLight setCombatMode setCompassOscillation " ++
      js "setConvoySeparation setCuratorCameraAreaCeiling setCuratorCoef setCuratorEditingAreaType " ++
      js "setCuratorWaypointCost setCurrentChannel setCurrentTask setCurrentWaypoint setCustomAimCoef " ++
      js "setCustomWeightRTD setDamage setDammage setDate setDebriefingText setDefaultCamera setDestination " ++
      js "setDetailMapBlendPars setDir setDirection setDrawIcon setDriveOnPath setDropInterval " ++
      js "setDynamicSimulationDistance setDynamicSimulationDistanceCoef setEditorMode setEditorObjectScope " ++
      js "setEffectCondition setEngineRPMRTD setFace setFaceAnimation setFatigue setFeatureType " ++
      js "setFlagAnimationPhase setFlagOwner setFlagSide setFlagTexture setFog setFormation " ++
      js "setFormationTask setFormDir setFriend setFromEditor setFSMVariable setFuel setFuelCargo " ++
      js "setGroupIcon setGroupIconParams setGroupIconsSelectable setGroupIconsVisible setGroupId " ++
      js "setGroupIdGlobal setGroupOwner setGusts setHideBehind setHit setHitIndex setHitPointDamage " ++
      js "setHorizonParallaxCoef setHUDMovementLevels setIdentity setImportance setInfoPanel setLeader " ++
      js "setLightAmbient setLightAttenuation setLightBrightness setLightColor setLightDayLight " ++
      js "setLightFlareMaxDistance setLightFlareSize setLightIntensity setLightnings setLightUseFlare " ++
      js "setLocalWindParams setMagazineTurretAmmo setMarkerAlpha setMarkerAlphaLocal setMarkerBrush " ++
      js "setMarkerBrushLocal setMarkerColor setMarkerColorLocal setMarkerDir setMarkerDirLocal " ++
      js "setMarkerPos setMarkerPosLocal setMarkerShape setMarkerShapeLocal setMarkerSize " ++
      js "setMarkerSizeLocal setMarkerText setMarkerTextLocal setMarkerType setMarkerTypeLocal setMass " ++
      js "setMimic setMousePosition setMusicEffect setMusicEventHandler setName setNameSound " ++
      js "setObjectArguments setObjectMaterial setObjectMaterialGlobal setObjectProxy setObjectTexture " ++
      js "setObjectTextureGlobal setObjectViewDistance setOvercast setOwner setOxygenRemaining " ++
      js "setParticleCircle setParticleClass setParticleFire setParticleParams setParticleRandom " ++
      js "setPilotCameraDirection setPilotCameraRotation setPilotCameraTarget setPilotLight setPiPEffect " ++
      js "setPitch setPlateNumber setPlayable setPlayerRespawnTime setPos setPosASL setPosASL2 setPosASLW " ++
      js "setPosATL setPosition setPosWorld setPylonLoadOut setPylonsPriority setRadioMsg setRain " ++
      js "setRainbow setRandomLip setRank setRectangular setRepairCargo setRotorBrakeRTD setShadowDistance ".

Definition lang_sqf_built_in_3 : jsstr :=
  js "setShotParents setSide setSimpleTaskAlwaysVisible setSimpleTaskCustomData " ++
      js "setSimpleTaskDescription setSimpleTaskDestination setSimpleTaskTarget setSimpleTaskType " ++
      js "setSimulWeatherLayers setSize setSkill setSlingLoad setSoundEffect setSpeaker setSpeech " ++
      js "setSpeedMode setStamina setStaminaScheme setStatValue setSuppression setSystemOfUnits " ++
      js "setTargetAge setTaskMarkerOffset setTaskResult setTaskState setTerrainGrid setText " ++
      js "setTimeMultiplier setTitleEffect setTrafficDensity setTrafficDistance setTrafficGap " ++
      js "setTrafficSpeed setTriggerActivation setTriggerArea setTriggerStatements setTriggerText " ++
      js "setTriggerTimeout setTriggerType setType setUnconscious setUnitAbility setUnitLoadout setUnitPos " ++
      js "setUnitPosWeak setUnitRank setUnitRecoilCoefficient setUnitTrait setUnloadInCombat " ++
      js "setUserActionText setUserMFDText setUserMFDvalue setVariable setVectorDir setVectorDirAndUp " ++
      js "setVectorUp setVehicleAmmo setVehicleAmmoDef setVehicleArmor setVehicleCargo setVehicleId " ++
      js "setVehicleLock setVehiclePosition setVehicleRadar setVehicleReceiveRemoteTargets " ++
      js "setVehicleReportOwnPosition setVehicleReportRemoteTargets setVehicleTIPars setVehicleVarName " ++
      js "setVelocity setVelocityModelSpace setVelocityTransformation setViewDistance " ++
      js "setVisibleIfTreeCollapsed setWantedRPMRTD setWaves setWaypointBehaviour setWaypointCombatMode " ++
      js "setWaypointCompletionRadius setWaypointDescription setWaypointForceBehaviour setWaypointFormation " ++
      js "setWaypointHousePosition setWaypointLoiterRadius setWaypointLoiterType setWaypointName " ++
      js "setWaypointPosition setWaypointScript setWaypointSpeed setWaypointStatements setWaypointTimeout " ++
      js "setWaypointType setWaypointVisible setWeaponReloadingTime setWind setWindDir setWindForce " ++
      js "setWindStr setWingForceScaleRTD setWPPos show3DIcons showChat showCinemaBorder showCommandingMenu " ++
      js "showCompass showCuratorCompass showGPS showHUD showLegend showMap shownArtilleryComputer " ++
      js "shownChat shownCompass shownCuratorCompass showNewEditorObject shownGPS shownHUD shownMap " ++
      js "shownPad shownRadio shownScoretable shownUAVFeed shownWarrant shownWatch showPad showRadio " ++
      js "showScoretable showSubtitles showUAVFeed showWarrant showWatch showWaypoint showWaypoints side " ++
      js "sideChat sideEnemy sideFriendly sideRadio simpleTasks simulationEnabled simulCloudDensity " ++
      js "simulCloudOcclusion simulInClouds simulWeatherSync sin size sizeOf skill skillFinal skipTime " ++
      js "sleep sliderPosition sliderRange sliderSetPosition sliderSetRange sliderSetSpeed sliderSpeed " ++
      js "slingLoadAssistantShown soldierMagazines someAmmo sort soundVolume spawn speaker speed speedMode " ++
      js "splitString sqrt squadParams stance startLoadingScreen step stop stopEngineRTD stopped str " ++
      js "sunOrMoon supportInfo suppressFor surfaceIsWater surfaceNormal surfaceType swimInDepth " ++
      js "switchableUnits switchAction switchCamera switchGesture switchLight switchMove " ++
      js "synchronizedObjects synchronizedTriggers synchronizedWaypoints synchronizeObjectsAdd " ++
      js "synchronizeObjectsRemove synchronizeTrigger synchronizeWaypoint systemChat systemOfUnits tan " ++
      js "targetKnowledge targets targetsAggregate targetsQuery taskAlwaysVisible taskChildren " ++
      js "taskCompleted taskCustomData taskDescription taskDestination taskHint taskMarkerOffset taskParent " ++
      js "taskResult taskState taskType teamMember teamName teams teamSwitch teamSwitchEnabled teamType " ++
      js "terminate terrainIntersect terrainIntersectASL terrainIntersectAtASL text textLog textLogFormat " ++
      js "tg time timeMultiplier titleCut titleFadeOut titleObj titleRsc titleText toArray toFixed toLower " ++
      js "toString toUpper triggerActivated triggerActivation triggerArea triggerAttachedVehicle " ++
      js "triggerAttachObject triggerAttachVehicle triggerDynamicSimulation triggerStatements triggerText " ++
      js "triggerTimeout triggerTimeoutCurrent triggerType turretLocal turretOwner turretUnit tvAdd tvClear " ++
      js "tvCollapse tvCollapseAll tvCount tvCurSel tvData tvDelete tvExpand tvExpandAll tvPicture " ++
      js "tvSetColor tvSetCurSel tvSetData tvSetPicture tvSetPictureColor tvSetPictureColorDisabled " ++
      js "tvSetPictureColorSelected tvSetPictureRight tvSetPictureRightColor tvSetPictureRightColorDisabled " ++
      js "tvSetPictureRightColorSelected tvSetText tvSetTooltip tvSetValue tvSort tvSortByValue tvText " ++
      js "tvTooltip tvValue type typeName typeOf UAVControl uiNamespace uiSleep unassignCurator " ++
      js "unassignItem unassignTeam unassignVehicle underwater uniform uniformContainer uniformItems " ++
      js "uniformMagazines unitAddons unitAimPosition unitAimPositionVisual unitBackpack unitIsUAV unitPos " ++
      js "unitReady unitRecoilCoefficient units unitsBelowHeight unlinkItem unlockAchievement " ++
      js "unregisterTask updateDrawIcon updateMenuItem updateObjectTree useAISteeringComponent " ++
      js "useAudioTimeForMoves userInputDisabled vectorAdd vectorCos vectorCrossProduct vectorDiff " ++
      js "vectorDir vectorDirVisual vectorDistance vectorDistanceSqr vectorDotProduct vectorFromTo " ++
      js "vectorMagnitude vectorMagnitudeSqr vectorModelToWorld vectorModelToWorldVisual vectorMultiply " ++
      js "vectorNormalized vectorUp vectorUpVisual vectorWorldToModel vectorWorldToModelVisual vehicle " ++
      js "vehicleCargoEnabled vehicleChat vehicleRadio vehicleReceiveRemoteTargets vehicleReportOwnPosition " ++
      js "vehicleReportRemoteTargets vehicles vehicleVarName velocity velocityModelSpace verifySignature " ++
      js "vest vestContainer vestItems vestMagazines viewDistance visibleCompass visibleGPS visibleMap " ++
      js "visiblePosition visiblePositionASL visibleScoretable visibleWatch waves waypointAttachedObject " ++
      js "waypointAttachedVehicle waypointAttachObject waypointAttachVehicle waypointBehaviour " ++
      js "waypointCombatMode waypointCompletionRadius waypointDescription waypointForceBehaviour " ++
      js "waypointFormation waypointHousePosition waypointLoiterRadius waypointLoiterType waypointName " ++
      js "waypointPosition waypoints waypointScript waypointsEnabledUAV waypointShow waypointSpeed " ++
      js "waypointStatements waypointTimeout waypointTimeoutCurrent waypointType waypointVisible " ++
      js "weaponAccessories weaponAccessoriesCargo weaponCargo weaponDirection weaponInertia weaponLowered " ++
      js "weapons weaponsItems weaponsItemsCargo weaponState weaponsTurret weightRTD WFSideText wind ".

Definition lang_sqf_built_in : jsstr :=
  lang_sqf_built_in_1 ++ lang_sqf_built_in_2 ++ lang_sqf_built_in_3.

(** sqf *)
Definition lang_sqf : creator := fun reg =>
  let* CPP := exports_of reg (js "cpp") in
  let* VARIABLE := new [ClassName (js "variable"); Begin (js "\b_+[a-zA-Z_]\w*")] in
  let* FUNCTION := new [ClassName (js "title"); Begin (js "[a-zA-Z][a-zA-Z0-9]+_fnc_\w*")] in
  let* m1 := new [Begin (js "＂＂"); Relevance 0] in
  let* m2 := new [Begin (js "''"); Relevance 0] in
  let* STRINGS := new [ClassName (js "string"); Variants [[Begin (js "＂"); End_ (js "＂"); Contains [CRef m1]];
      [Begin (js "'"); End_ (js "'"); Contains [CRef m2]]]] in
  lang (mkLP true [js "sqf"] false) [Keywords (KObj [(js "keyword", js "case catch default do else exit exitWith for forEach from if " ++
      js "private switch then throw to try waitUntil while with"); (js "built_in", lang_sqf_built_in);
      (js "literal", js "blufor civilian configNull controlNull displayNull east endl false grpNull independent lineBreak " ++
      js "locationNull nil objNull opfor pi resistance scriptNull sideAmbientLife sideEmpty sideLogic " ++
      js "sideUnknown taskNull teamMemberNull true west")]); Contains [CRef C_LINE_COMMENT_MODE;
      CRef C_BLOCK_COMMENT_MODE; CRef NUMBER_MODE; CRef VARIABLE; CRef FUNCTION; CRef STRINGS;
      CRef (preprocessor CPP)]; Illegal (js "#|^\$ ")].

Definition lang_sql_keyword : jsstr :=
  js "as abort abs absolute acc acce accep accept access accessed accessible account acos action activate " ++
      js "add " ++
      js "addtime admin administer advanced advise aes_decrypt aes_encrypt after agent aggregate ali alia alias " ++
      js "all allocate allow alter always analyze ancillary and anti any anydata anydataset anyschema anytype " ++
      js "apply " ++
      js "archive archived archivelog are as asc ascii asin assembly assertion associate asynchronous at atan " ++
      js "atn2 attr attri attrib attribu attribut attribute attributes audit authenticated authentication authid " ++
      js "authors auto autoallocate autodblink autoextend automatic availability avg backup badfile basicfile " ++
      js "before begin beginning benchmark between bfile bfile_base big bigfile bin binary_double binary_float " ++
      js "binlog bit_and bit_count bit_length bit_or bit_xor bitmap blob_base block blocksize body both bound " ++
      js "bucket buffer_cache buffer_pool build bulk by byte byteordermark bytes cache caching call calling cancel " ++
      js "capacity cascade cascaded case cast catalog category ceil ceiling chain change changed char_base " ++
      js "char_length character_length characters characterset charindex charset charsetform charsetid check " ++
      js "checksum checksum_agg child choose chr chunk class cleanup clear client clob clob_base clone close " ++
      js "cluster_id cluster_probability cluster_set clustering coalesce coercibility col collate collation " ++
      js "collect colu colum column column_value columns columns_updated comment commit compact compatibility " ++
      js "compiled complete composite_limit compound compress compute concat concat_ws concurrent confirm conn " ++
      js "connec connect connect_by_iscycle connect_by_isleaf connect_by_root connect_time connection " ++
      js "consider consistent constant constraint constraints constructor container content contents context " ++
      js "contributors controlfile conv convert convert_tz corr corr_k corr_s corresponding corruption cos cost " ++
      js "count count_big counted covar_pop covar_samp cpu_per_call cpu_per_session crc32 create creation " ++
      js "critical cross cube cume_dist curdate current current_date current_time current_timestamp current_user " ++
      js "cursor curtime customdatum cycle data database databases datafile datafiles datalength date_add " ++
      js "date_cache date_format date_sub dateadd datediff datefromparts datename datepart datetime2fromparts " ++
      js "day day_to_second dayname dayofmonth dayofweek dayofyear days db_role_change dbtimezone ddl deallocate " ++
      js "declare decode decompose decrement decrypt deduplicate def defa defau defaul default defaults " ++
      js "deferred defi defin define degrees delayed delegate delete delete_all delimited demand dense_rank " ++
      js "depth dequeue des_decrypt des_encrypt des_key_file desc descr descri describ describe descriptor " ++
      js "deterministic diagnostics difference dimension direct_load directory disable disable_all " ++
      js "disallow disassociate discardfile disconnect diskgroup distinct distinctrow distribute distributed div " ++
      js "do document domain dotnet double downgrade drop dumpfile duplicate duration each edition editionable " ++
      js "editions element ellipsis else elsif elt empty enable enable_all enclosed encode encoding encrypt " ++
      js "end end-exec endian enforced engine engines enqueue enterprise entityescaping eomonth error errors " ++
      js "escaped evalname evaluate event eventdata events except exception exceptions exchange exclude excluding " ++
      js "execu execut execute exempt exists exit exp expire explain explode export export_set extended extent " ++
      js "external " ++
      js "external_1 external_2 externally extract failed failed_login_attempts failover failure far fast " ++
      js "feature_set feature_value fetch field fields file file_name_convert filesystem_like_logging final " ++
      js "finish first first_value fixed flash_cache flashback floor flush following follows for forall force " ++
      js "foreign " ++
      js "form forma format found found_rows freelist freelists freepools fresh from from_base64 from_days " ++
      js "ftp full function general generated get get_format get_lock getdate getutcdate global global_name " ++
      js "globally go goto grant grants greatest group group_concat group_id grouping grouping_id groups " ++
      js "gtid_subtract guarantee guard handler hash hashkeys having hea head headi headin heading heap help hex " ++
      js "hierarchy high high_priority hosts hour hours http id ident_current ident_incr ident_seed identified " ++
      js "identity idle_time if ifnull ignore iif ilike ilm immediate import in include including increment " ++
      js "index indexes indexing indextype indicator indices inet6_aton inet6_ntoa inet_aton inet_ntoa infile " ++
      js "initial initialized initially initrans inmemory inner innodb input insert install instance instantiable " ++
      js "instr interface interleaved intersect into invalidate invisible is is_free_lock is_ipv4 is_ipv4_compat " ++
      js "is_not is_not_null is_used_lock isdate isnull isolation iterate java join json json_exists " ++
      js "keep keep_duplicates key keys kill language large last last_day last_insert_id last_value lateral lax " ++
      js "lcase " ++
      js "lead leading least leaves left len lenght length less level levels library like like2 like4 likec limit " ++
      js "lines link list listagg little ln load load_file lob lobs local localtime localtimestamp locate " ++
      js "locator lock locked log log10 log2 logfile logfiles logging logical logical_reads_per_call " ++
      js "logoff logon logs long loop low low_priority lower lpad lrtrim ltrim main make_set makedate maketime " ++
      js "managed management manual map mapping mask master master_pos_wait match matched materialized max " ++
      js "maxextents maximize maxinstances maxlen maxlogfiles maxloghistory maxlogmembers maxsize maxtrans " ++
      js "md5 measures median medium member memcompress memory merge microsecond mid migration min minextents " ++
      js "minimum mining minus minute minutes minvalue missing mod mode model modification modify module monitoring " ++
      js "month " ++
      js "months mount move movement multiset mutex name name_const names nan national native natural nav nchar " ++
      js "nclob nested never new newline next nextval no no_write_to_binlog noarchivelog noaudit nobadfile " ++
      js "nocheck nocompress nocopy nocycle nodelay nodiscardfile noentityescaping noguarantee nokeep nologfile " ++
      js "nomapping nomaxvalue nominimize nominvalue nomonitoring none noneditionable nonschema noorder " ++
      js "nopr nopro noprom nopromp noprompt norely noresetlogs noreverse normal norowdependencies noschemacheck " ++
      js "noswitch not nothing notice notnull notrim novalidate now nowait nth_value nullif nulls num numb numbe " ++
      js "nvarchar nvarchar2 object ocicoll ocidate ocidatetime ociduration ociinterval ociloblocator ocinumber " ++
      js "ociref ocirefcursor ocirowid ocistring ocitype oct octet_length of off offline offset oid oidindex old " ++
      js "on online only opaque open operations operator optimal optimize option optionally or oracle oracle_date " ++
      js "oradata ord ordaudio orddicom orddoc order ordimage ordinality ordvideo organization orlany orlvary " ++
      js "out outer outfile outline output over overflow overriding package pad parallel parallel_enable " ++
      js "parameters parent parse partial partition partitions pascal passing password password_grace_time " ++
      js "password_lock_time password_reuse_max password_reuse_time password_verify_function patch path patindex " ++
      js "pctincrease pctthreshold pctused pctversion percent percent_rank percentile_cont percentile_disc " ++
      js "performance period period_add period_diff permanent physical pi pipe pipelined pivot pluggable plugin " ++
      js "policy position post_transaction pow power pragma prebuilt precedes preceding precision prediction " ++
      js "prediction_cost prediction_details prediction_probability prediction_set prepare present preserve " ++
      js "prior priority private private_sga privileges procedural procedure procedure_analyze processlist " ++
      js "profiles project prompt protection public publishingservername purge quarter query quick quiesce quota " ++
      js "quotename radians raise rand range rank raw read reads readsize rebuild record records " ++
      js "recover recovery recursive recycle redo reduced ref reference referenced references referencing refresh " ++
      js "regexp_like register regr_avgx regr_avgy regr_count regr_intercept regr_r2 regr_slope regr_sxx regr_sxy " ++
      js "reject rekey relational relative relaylog release release_lock relies_on relocate rely rem remainder " ++
      js "rename " ++
      js "repair repeat replace replicate replication required reset resetlogs resize resource respect restore " ++
      js "restricted result result_cache resumable resume retention return returning returns reuse reverse revoke " ++
      js "right rlike role roles rollback rolling rollup round row row_count rowdependencies rowid rownum rows " ++
      js "rtrim rules safe salt sample save savepoint sb1 sb2 sb4 scan schema schemacheck scn scope scroll " ++
      js "sdo_georaster sdo_topo_geometry search sec_to_time second seconds section securefile security seed segment " ++
      js "select " ++
      js "self semi sequence sequential serializable server servererror session session_user sessions_per_user " ++
      js "set " ++
      js "sets settings sha sha1 sha2 share shared shared_pool short show shrink shutdown si_averagecolor " ++
      js "si_colorhistogram si_featurelist si_positionalcolor si_stillimage si_texture siblings sid sign sin " ++
      js "size size_t sizes skip slave sleep smalldatetimefromparts smallfile snapshot some soname sort soundex " ++
      js "source space sparse spfile split sql sql_big_result sql_buffer_result sql_cache sql_calc_found_rows " ++
      js "sql_small_result sql_variant_property sqlcode sqldata sqlerror sqlname sqlstate sqrt square standalone " ++
      js "standby start starting startup statement static statistics stats_binomial_test stats_crosstab " ++
      js "stats_ks_test stats_mode stats_mw_test stats_one_way_anova stats_t_test_ stats_t_test_indep " ++
      js "stats_t_test_one stats_t_test_paired stats_wsr_test status std stddev stddev_pop stddev_samp stdev " ++
      js "stop storage store stored str str_to_date straight_join strcmp strict string struct stuff style subdate " ++
      js "subpartition subpartitions substitutable substr substring subtime subtring_index subtype success sum " ++
      js "suspend switch switchoffset switchover sync synchronous synonym sys sys_xmlagg sysasm sysaux sysdate " ++
      js "sysdatetimeoffset sysdba sysoper system system_user sysutcdatetime table tables tablespace tablesample " ++
      js "tan tdo " ++
      js "template temporary terminated tertiary_weights test than then thread through tier ties time time_format " ++
      js "time_zone timediff timefromparts timeout timestamp timestampadd timestampdiff timezone_abbr " ++
      js "timezone_minute timezone_region to to_base64 to_date to_days to_seconds todatetimeoffset trace tracking " ++
      js "transaction transactional translate translation treat trigger trigger_nestlevel triggers trim truncate " ++
      js "try_cast try_convert try_parse type ub1 ub2 ub4 ucase unarchived unbounded uncompress " ++
      js "under undo unhex unicode uniform uninstall union unique unix_timestamp unknown unlimited unlock unnest " ++
      js "unpivot " ++
      js "unrecoverable unsafe unsigned until untrusted unusable unused update updated upgrade upped upper upsert " ++
      js "url urowid usable usage use use_stored_outlines user user_data user_resources users using utc_date " ++
      js "utc_timestamp uuid uuid_short validate validate_password_strength validation valist value values var " ++
      js "var_samp varcharc vari varia variab variabl variable variables variance varp varraw varrawc varray " ++
      js "verify version versions view virtual visible void wait wallet warning warnings week weekday weekofyear " ++
      js "wellformed when whene whenev wheneve whenever where while whitespace window with within without work " ++
      js "wrapped " ++
      js "xdb xml xmlagg xmlattributes xmlcast xmlcolattval xmlelement xmlexists xmlforest xmlindex xmlnamespaces " ++
      js "xmlpi xmlquery xmlroot xmlschema xmlserialize xmltable xmltype xor year year_to_month years yearweek".

(** sql *)
Definition lang_sql : M language :=
  let* COMMENT_MODE := COMMENT (js "--") (js "$") [] in
  let* m1 := new [Begin (js "''")] in
  let* m2 := new [ClassName (js "string"); Begin (js "'"); End_ (js "'"); Contains [CRef BACKSLASH_ESCAPE;
      CRef m1]] in
  let* m3 := new [Begin (js "＂＂")] in
  let* m4 := new [ClassName (js "string"); Begin (js "＂"); End_ (js "＂"); Contains [CRef BACKSLASH_ESCAPE;
      CRef m3]] in
  let* m5 := new [ClassName (js "string"); Begin (js "`"); End_ (js "`"); Contains [CRef BACKSLASH_ESCAPE]] in
  let* m6 :=
      new [BeginKeywords (js "begin end start commit rollback savepoint lock alter create drop rename call " ++
      js "delete do handler insert load replace select truncate update set show pragma grant " ++
      js "merge describe use explain help declare prepare execute deallocate release " ++
      js "unlock purge reset change stop analyze cache flush optimize repair kill " ++
      js "install uninstall checksum restore check backup revoke comment values with"); End_ (js ";");
      EndsWithParent true; Lexemes (js "[\w\.]+"); Keywords (KObj [(js "keyword", lang_sql_keyword);
      (js "literal", js "true false null unknown");
      (js "built_in", js "array bigint binary bit blob bool boolean char character date dec decimal float int int8 integer interval " ++
      js "number " ++
      js "numeric real record serial serial8 smallint text time timestamp tinyint varchar varying void")]);
      Contains [CRef m2; CRef m4; CRef m5; CRef C_NUMBER_MODE; CRef C_BLOCK_COMMENT_MODE; CRef COMMENT_MODE;
      CRef HASH_COMMENT_MODE]] in
  lang (mkLP true [] false) [Illegal (js "[<>{}*]"); Contains [CRef m6; CRef C_BLOCK_COMMENT_MODE;
      CRef COMMENT_MODE; CRef HASH_COMMENT_MODE]].

(** stan *)
Definition lang_stan : M language :=
  let* m1 := new [Begin UNDERSCORE_IDENT_RE; Lexemes UNDERSCORE_IDENT_RE;
      Keywords (KObj [(js "name", js "for in while repeat until if then else");
      (js "symbol", js "bernoulli bernoulli_logit binomial binomial_logit " ++
      js "beta_binomial hypergeometric categorical categorical_logit " ++
      js "ordered_logistic neg_binomial neg_binomial_2 " ++
      js "neg_binomial_2_log poisson poisson_log multinomial normal " ++
      js "exp_mod_normal skew_normal student_t cauchy double_exponential " ++
      js "logistic gumbel lognormal chi_square inv_chi_square " ++
      js "scaled_inv_chi_square exponential inv_gamma weibull frechet " ++
      js "rayleigh wiener pareto pareto_type_2 von_mises uniform " ++
      js "multi_normal multi_normal_prec multi_normal_cholesky multi_gp " ++
      js "multi_gp_cholesky multi_student_t gaussian_dlm_obs dirichlet " ++
      js "lkj_corr lkj_corr_cholesky wishart inv_wishart");
      (js "selector-tag", js "int real vector simplex unit_vector ordered positive_ordered " ++
      js "row_vector matrix cholesky_factor_corr cholesky_factor_cov " ++ js "corr_matrix cov_matrix");
      (js "title", js "functions model data parameters quantities transformed " ++ js "generated");
      (js "literal", js "true false")]); Relevance 0] in
  let* m2 := new [ClassName (js "number"); Begin (js "0[xX][0-9a-fA-F]+[Li]?\b"); Relevance 0] in
  let* m3 := new [ClassName (js "number"); Begin (js "0[xX][0-9a-fA-F]+[Li]?\b"); Relevance 0] in
  let* m4 := new [ClassName (js "number"); Begin (js "\d+(?:[eE][+\-]?\d*" ++ js ")?L\b"); Relevance 0] in
  let* m5 := new [ClassName (js "number"); Begin (js "\d+\.(?!\d)(?:i\b)?"); Relevance 0] in
  let* m6 := new [ClassName (js "number"); Begin (js "\d+(?:\.\d*" ++ js ")?(?:[eE][+\-]?\d*" ++ js ")?i?\b");
      Relevance 0] in
  let* m7 := new [ClassName (js "number"); Begin (js "\.\d+(?:[eE][+\-]?\d*" ++ js ")?i?\b"); Relevance 0] in
  lang plain_lang [Contains [CRef HASH_COMMENT_MODE; CRef C_LINE_COMMENT_MODE; CRef C_BLOCK_COMMENT_MODE; CRef m1;
      CRef m2; CRef m3; CRef m4; CRef m5; CRef m6; CRef m7]].

(** stata *)
Definition lang_stata : M language :=
  let* m1 := new [ClassName (js "symbol"); Begin (js "`[a-zA-Z0-9_]+'")] in
  let* m2 := new [ClassName (js "variable"); Begin (js "\$\{?[a-zA-Z0-9_]+\}?")] in
  let* m3 := new [ClassName (js "string"); Variants [[Begin (js "`＂[^" ++ [13%N] ++ [10%N] ++ js "]*?＂'")];
      [Begin (js "＂[^" ++ [13%N] ++ [10%N] ++ js "＂]*＂")]]] in
  let* m4 := new [ClassName (js "built_in");
      Variants [[Begin (js "\b(abs|acos|asin|atan|atan2|atanh|ceil|cloglog|comb|cos|digamma|exp|floor|invcloglog|invlogit|ln|lnfact|lnfactorial|lngamma|log|log10|max|min|mod|reldif|round|sign|sin|sqrt|sum|tan|tanh|trigamma|trunc|betaden|Binomial|binorm|binormal|chi2|chi2tail|dgammapda|dgammapdada|dgammapdadx|dgammapdx|dgammapdxdx|F|Fden|Ftail|gammaden|gammap|ibeta|invbinomial|invchi2|invchi2tail|invF|invFtail|invgammap|invibeta|invnchi2|invnFtail|invnibeta|invnorm|invnormal|invttail|nbetaden|nchi2|nFden|nFtail|nibeta|norm|normal|normalden|normd|npnchi2|tden|ttail|uniform|abbrev|char|index|indexnot|length|lower|ltrim|match|plural|proper|real|regexm|regexr|regexs|reverse|rtrim|string|strlen|strlower|strltrim|strmatch|strofreal|strpos|strproper|strreverse|strrtrim|strtrim|strupper|subinstr|subinword|substr|trim|upper|word|wordcount|_caller|autocode|byteorder|chop|clip|cond|e|epsdouble|epsfloat|group|inlist|inrange|irecode|matrix|maxbyte|maxdouble|maxfloat|maxint|maxlong|mi|minbyte|mindouble|minfloat|minint|minlong|missing|r|recode|replay|return|s|scalar|d|date|day|dow|doy|halfyear|mdy|month|quarter|week|year|d|daily|dofd|dofh|dofm|dofq|dofw|dofy|h|halfyearly|hofd|m|mofd|monthly|q|qofd|quarterly|tin|twithin|w|weekly|wofd|y|yearly|yh|ym|yofd|yq|yw|cholesky|colnumb|colsof|corr|det|diag|diag0cnt|el|get|hadamard|I|inv|invsym|issym|issymmetric|J|matmissing|matuniform|mreldif|nullmat|rownumb|rowsof|sweep|syminv|trace|vec|vecdiag)(?=\(|$)")]]] in
  let* m5 := COMMENT (js "^[ " ++ [9%N] ++ js "]*\*.*$") [] [] in
  lang (mkLP true [js "do";
      js "ado"] false) [Keywords (KStr (js "if else in foreach for forv forva forval forvalu forvalue forvalues by bys bysort xi quietly qui capture " ++
      js "about ac ac_7 acprplot acprplot_7 adjust ado adopath adoupdate alpha ameans an ano anov anova anova_estat " ++
      js "anova_terms anovadef aorder ap app appe appen append arch arch_dr arch_estat arch_p archlm areg areg_p " ++
      js "args arima arima_dr arima_estat arima_p as asmprobit asmprobit_estat asmprobit_lf asmprobit_mfx__dlg " ++
      js "asmprobit_p ass asse asser assert avplot avplot_7 avplots avplots_7 bcskew0 bgodfrey bias binreg bip0_lf " ++
      js "biplot bipp_lf bipr_lf bipr_p biprobit bitest bitesti bitowt blogit bmemsize boot bootsamp bootstrap " ++
      js "bootstrap_8 boxco_l boxco_p boxcox boxcox_6 boxcox_p bprobit br break brier bro brow brows browse brr " ++
      js "brrstat bs bs_7 bsampl_w bsample bsample_7 bsqreg bstat bstat_7 bstat_8 bstrap bstrap_7 bubble bubbleplot " ++
      js "ca ca_estat ca_p cabiplot camat canon canon_8 canon_8_p canon_estat canon_p cap caprojection capt captu " ++
      js "captur capture cat cc cchart cchart_7 cci cd censobs_table centile cf char chdir checkdlgfiles checkestimationsample " ++
      js "checkhlpfiles checksum chelp ci cii cl class classutil clear cli clis clist clo clog clog_lf clog_p " ++
      js "clogi clogi_sw clogit clogit_lf clogit_p clogitp clogl_sw cloglog clonevar clslistarray cluster cluster_measures " ++
      js "cluster_stop cluster_tree cluster_tree_8 clustermat cmdlog cnr cnre cnreg cnreg_p cnreg_sw cnsreg codebook " ++
      js "collaps4 collapse colormult_nb colormult_nw compare compress conf confi confir confirm conren cons const " ++
      js "constr constra constrai constrain constraint continue contract copy copyright copysource cor corc corr " ++
      js "corr2data corr_anti corr_kmo corr_smc corre correl correla correlat correlate corrgram cou coun count " ++
      js "cox cox_p cox_sw coxbase coxhaz coxvar cprplot cprplot_7 crc cret cretu cretur creturn cross cs cscript " ++
      js "cscript_log csi ct ct_is ctset ctst_5 ctst_st cttost cumsp cumsp_7 cumul cusum cusum_7 cutil d|0 datasig " ++
      js "datasign datasigna datasignat datasignatu datasignatur datasignature datetof db dbeta de dec deco decod " ++
      js "decode deff des desc descr descri describ describe destring dfbeta dfgls dfuller di di_g dir dirstats " ++
      js "dis discard disp disp_res disp_s displ displa display distinct do doe doed doedi doedit dotplot dotplot_7 " ++
      js "dprobit drawnorm drop ds ds_util dstdize duplicates durbina dwstat dydx e|0 ed edi edit egen eivreg " ++
      js "emdef en enc enco encod encode eq erase ereg ereg_lf ereg_p ereg_sw ereghet ereghet_glf ereghet_glf_sh " ++
      js "ereghet_gp ereghet_ilf ereghet_ilf_sh ereghet_ip eret eretu eretur ereturn err erro error esize est " ++
      js "est_cfexist est_cfname est_clickable est_expand est_hold est_table est_unhold est_unholdok estat estat_default " ++
      js "estat_summ estat_vce_only esti estimates etodow etof etomdy ex exi exit expand expandcl fac fact facto " ++
      js "factor factor_estat factor_p factor_pca_rotated factor_rotate factormat fcast fcast_compute fcast_graph " ++
      js "fdades fdadesc fdadescr fdadescri fdadescrib fdadescribe fdasav fdasave fdause fh_st file open file " ++
      js "read file close file filefilter fillin find_hlp_file findfile findit findit_7 fit fl fli flis flist " ++
      js "for5_0 forest forestplot form forma format fpredict frac_154 frac_adj frac_chk frac_cox frac_ddp frac_dis " ++
      js "frac_dv frac_in frac_mun frac_pp frac_pq frac_pv frac_wgt frac_xo fracgen fracplot fracplot_7 fracpoly " ++
      js "fracpred fron_ex fron_hn fron_p fron_tn fron_tn2 frontier ftodate ftoe ftomdy ftowdate funnel funnelplot " ++
      js "g|0 gamhet_glf gamhet_gp gamhet_ilf gamhet_ip gamma gamma_d2 gamma_p gamma_sw gammahet gdi_hexagon gdi_spokes " ++
      js "ge gen gene gener genera generat generate genrank genstd genvmean gettoken gl gladder gladder_7 glim_l01 " ++
      js "glim_l02 glim_l03 glim_l04 glim_l05 glim_l06 glim_l07 glim_l08 glim_l09 glim_l10 glim_l11 glim_l12 glim_lf " ++
      js "glim_mu glim_nw1 glim_nw2 glim_nw3 glim_p glim_v1 glim_v2 glim_v3 glim_v4 glim_v5 glim_v6 glim_v7 glm " ++
      js "glm_6 glm_p glm_sw glmpred glo glob globa global glogit glogit_8 glogit_p gmeans gnbre_lf gnbreg gnbreg_5 " ++
      js "gnbreg_p gomp_lf gompe_sw gomper_p gompertz gompertzhet gomphet_glf gomphet_glf_sh gomphet_gp gomphet_ilf " ++
      js "gomphet_ilf_sh gomphet_ip gphdot gphpen gphprint gprefs gprobi_p gprobit gprobit_8 gr gr7 gr_copy gr_current " ++
      js "gr_db gr_describe gr_dir gr_draw gr_draw_replay gr_drop gr_edit gr_editviewopts gr_example gr_example2 " ++
      js "gr_export gr_print gr_qscheme gr_query gr_read gr_rename gr_replay gr_save gr_set gr_setscheme gr_table " ++
      js "gr_undo gr_use graph graph7 grebar greigen greigen_7 greigen_8 grmeanby grmeanby_7 gs_fileinfo gs_filetype " ++
      js "gs_graphinfo gs_stat gsort gwood h|0 hadimvo hareg hausman haver he heck_d2 heckma_p heckman heckp_lf " ++
      js "heckpr_p heckprob hel help hereg hetpr_lf hetpr_p hetprob hettest hexdump hilite hist hist_7 histogram " ++
      js "hlogit hlu hmeans hotel hotelling hprobit hreg hsearch icd9 icd9_ff icd9p iis impute imtest inbase include " ++
      js "inf infi infil infile infix inp inpu input ins insheet insp inspe inspec inspect integ inten intreg " ++
      js "intreg_7 intreg_p intrg2_ll intrg_ll intrg_ll2 ipolate iqreg ir irf irf_create irfm iri is_svy is_svysum " ++
      js "isid istdize ivprob_1_lf ivprob_lf ivprobit ivprobit_p ivreg ivreg_footnote ivtob_1_lf ivtob_lf ivtobit " ++
      js "ivtobit_p jackknife jacknife jknife jknife_6 jknife_8 jkstat joinby kalarma1 kap kap_3 kapmeier kappa " ++
      js "kapwgt kdensity kdensity_7 keep ksm ksmirnov ktau kwallis l|0 la lab labbe labbeplot labe label labelbook " ++
      js "ladder levels levelsof leverage lfit lfit_p li lincom line linktest lis list lloghet_glf lloghet_glf_sh " ++
      js "lloghet_gp lloghet_ilf lloghet_ilf_sh lloghet_ip llogi_sw llogis_p llogist llogistic llogistichet lnorm_lf " ++
      js "lnorm_sw lnorma_p lnormal lnormalhet lnormhet_glf lnormhet_glf_sh lnormhet_gp lnormhet_ilf lnormhet_ilf_sh " ++
      js "lnormhet_ip lnskew0 loadingplot loc loca local log logi logis_lf logistic logistic_p logit logit_estat " ++
      js "logit_p loglogs logrank loneway lookfor lookup lowess lowess_7 lpredict lrecomp lroc lroc_7 lrtest ls " ++
      js "lsens lsens_7 lsens_x lstat ltable ltable_7 ltriang lv lvr2plot lvr2plot_7 m|0 ma mac macr macro makecns " ++
      js "man manova manova_estat manova_p manovatest mantel mark markin markout marksample mat mat_capp mat_order " ++
      js "mat_put_rr mat_rapp mata mata_clear mata_describe mata_drop mata_matdescribe mata_matsave mata_matuse " ++
      js "mata_memory mata_mlib mata_mosave mata_rename mata_which matalabel matcproc matlist matname matr matri " ++
      js "matrix matrix_input__dlg matstrik mcc mcci md0_ md1_ md1debug_ md2_ md2debug_ mds mds_estat mds_p mdsconfig " ++
      js "mdslong mdsmat mdsshepard mdytoe mdytof me_derd mean means median memory memsize menl meqparse mer merg " ++
      js "merge meta mfp mfx mhelp mhodds minbound mixed_ll mixed_ll_reparm mkassert mkdir mkmat mkspline ml ml_5 " ++
      js "ml_adjs ml_bhhhs ml_c_d ml_check ml_clear ml_cnt ml_debug ml_defd ml_e0 ml_e0_bfgs ml_e0_cycle ml_e0_dfp " ++
      js "ml_e0i ml_e1 ml_e1_bfgs ml_e1_bhhh ml_e1_cycle ml_e1_dfp ml_e2 ml_e2_cycle ml_ebfg0 ml_ebfr0 ml_ebfr1 " ++
      js "ml_ebh0q ml_ebhh0 ml_ebhr0 ml_ebr0i ml_ecr0i ml_edfp0 ml_edfr0 ml_edfr1 ml_edr0i ml_eds ml_eer0i ml_egr0i " ++
      js "ml_elf ml_elf_bfgs ml_elf_bhhh ml_elf_cycle ml_elf_dfp ml_elfi ml_elfs ml_enr0i ml_enrr0 ml_erdu0 ml_erdu0_bfgs " ++
      js "ml_erdu0_bhhh ml_erdu0_bhhhq ml_erdu0_cycle ml_erdu0_dfp ml_erdu0_nrbfgs ml_exde ml_footnote ml_geqnr " ++
      js "ml_grad0 ml_graph ml_hbhhh ml_hd0 ml_hold ml_init ml_inv ml_log ml_max ml_mlout ml_mlout_8 ml_model " ++
      js "ml_nb0 ml_opt ml_p ml_plot ml_query ml_rdgrd ml_repor ml_s_e ml_score ml_searc ml_technique ml_unhold " ++
      js "mleval mlf_ mlmatbysum mlmatsum mlog mlogi mlogit mlogit_footnote mlogit_p mlopts mlsum mlvecsum mnl0_ " ++
      js "mor more mov move mprobit mprobit_lf mprobit_p mrdu0_ mrdu1_ mvdecode mvencode mvreg mvreg_estat n|0 " ++
      js "nbreg nbreg_al nbreg_lf nbreg_p nbreg_sw nestreg net newey newey_7 newey_p news nl nl_7 nl_9 nl_9_p " ++
      js "nl_p nl_p_7 nlcom nlcom_p nlexp2 nlexp2_7 nlexp2a nlexp2a_7 nlexp3 nlexp3_7 nlgom3 nlgom3_7 nlgom4 nlgom4_7 " ++
      js "nlinit nllog3 nllog3_7 nllog4 nllog4_7 nlog_rd nlogit nlogit_p nlogitgen nlogittree nlpred no nobreak " ++
      js "noi nois noisi noisil noisily note notes notes_dlg nptrend numlabel numlist odbc old_ver olo olog ologi " ++
      js "ologi_sw ologit ologit_p ologitp on one onew onewa oneway op_colnm op_comp op_diff op_inv op_str opr " ++
      js "opro oprob oprob_sw oprobi oprobi_p oprobit oprobitp opts_exclusive order orthog orthpoly ou out outf " ++
      js "outfi outfil outfile outs outsh outshe outshee outsheet ovtest pac pac_7 palette parse parse_dissim " ++
      js "pause pca pca_8 pca_display pca_estat pca_p pca_rotate pcamat pchart pchart_7 pchi pchi_7 pcorr pctile " ++
      js "pentium pergram pergram_7 permute permute_8 personal peto_st pkcollapse pkcross pkequiv pkexamine pkexamine_7 " ++
      js "pkshape pksumm pksumm_7 pl plo plot plugin pnorm pnorm_7 poisgof poiss_lf poiss_sw poisso_p poisson " ++
      js "poisson_estat post postclose postfile postutil pperron pr prais prais_e prais_e2 prais_p predict predictnl " ++
      js "preserve print pro prob probi probit probit_estat probit_p proc_time procoverlay procrustes procrustes_estat " ++
      js "procrustes_p profiler prog progr progra program prop proportion prtest prtesti pwcorr pwd q\s qby qbys " ++
      js "qchi qchi_7 qladder qladder_7 qnorm qnorm_7 qqplot qqplot_7 qreg qreg_c qreg_p qreg_sw qu quadchk quantile " ++
      js "quantile_7 que quer query range ranksum ratio rchart rchart_7 rcof recast reclink recode reg reg3 reg3_p " ++
      js "regdw regr regre regre_p2 regres regres_p regress regress_estat regriv_p remap ren rena renam rename " ++
      js "renpfix repeat replace report reshape restore ret retu retur return rm rmdir robvar roccomp roccomp_7 " ++
      js "roccomp_8 rocf_lf rocfit rocfit_8 rocgold rocplot rocplot_7 roctab roctab_7 rolling rologit rologit_p " ++
      js "rot rota rotat rotate rotatemat rreg rreg_p ru run runtest rvfplot rvfplot_7 rvpplot rvpplot_7 sa safesum " ++
      js "sample sampsi sav save savedresults saveold sc sca scal scala scalar scatter scm_mine sco scob_lf scob_p " ++
      js "scobi_sw scobit scor score scoreplot scoreplot_help scree screeplot screeplot_help sdtest sdtesti se " ++
      js "search separate seperate serrbar serrbar_7 serset set set_defaults sfrancia sh she shel shell shewhart " ++
      js "shewhart_7 signestimationsample signrank signtest simul simul_7 simulate simulate_8 sktest sleep slogit " ++
      js "slogit_d2 slogit_p smooth snapspan so sor sort spearman spikeplot spikeplot_7 spikeplt spline_x split " ++
      js "sqreg sqreg_p sret sretu sretur sreturn ssc st st_ct st_hc st_hcd st_hcd_sh st_is st_issys st_note st_promo " ++
      js "st_set st_show st_smpl st_subid stack statsby statsby_8 stbase stci stci_7 stcox stcox_estat stcox_fr " ++
      js "stcox_fr_ll stcox_p stcox_sw stcoxkm stcoxkm_7 stcstat stcurv stcurve stcurve_7 stdes stem stepwise " ++
      js "stereg stfill stgen stir stjoin stmc stmh stphplot stphplot_7 stphtest stphtest_7 stptime strate strate_7 " ++
      js "streg streg_sw streset sts sts_7 stset stsplit stsum sttocc sttoct stvary stweib su suest suest_8 sum " ++
      js "summ summa summar summari summariz summarize sunflower sureg survcurv survsum svar svar_p svmat svy " ++
      js "svy_disp svy_dreg svy_est svy_est_7 svy_estat svy_get svy_gnbreg_p svy_head svy_header svy_heckman_p " ++
      js "svy_heckprob_p svy_intreg_p svy_ivreg_p svy_logistic_p svy_logit_p svy_mlogit_p svy_nbreg_p svy_ologit_p " ++
      js "svy_oprobit_p svy_poisson_p svy_probit_p svy_regress_p svy_sub svy_sub_7 svy_x svy_x_7 svy_x_p svydes " ++
      js "svydes_8 svygen svygnbreg svyheckman svyheckprob svyintreg svyintreg_7 svyintrg svyivreg svylc svylog_p " ++
      js "svylogit svymarkout svymarkout_8 svymean svymlog svymlogit svynbreg svyolog svyologit svyoprob svyoprobit " ++
      js "svyopts svypois svypois_7 svypoisson svyprobit svyprobt svyprop svyprop_7 svyratio svyreg svyreg_p svyregress " ++
      js "svyset svyset_7 svyset_8 svytab svytab_7 svytest svytotal sw sw_8 swcnreg swcox swereg swilk swlogis " ++
      js "swlogit swologit swoprbt swpois swprobit swqreg swtobit swweib symmetry symmi symplot symplot_7 syntax " ++
      js "sysdescribe sysdir sysuse szroeter ta tab tab1 tab2 tab_or tabd tabdi tabdis tabdisp tabi table tabodds " ++
      js "tabodds_7 tabstat tabu tabul tabula tabulat tabulate te tempfile tempname tempvar tes test testnl testparm " ++
      js "teststd tetrachoric time_it timer tis tob tobi tobit tobit_p tobit_sw token tokeni tokeniz tokenize " ++
      js "tostring total translate translator transmap treat_ll treatr_p treatreg trim trimfill trnb_cons trnb_mean " ++
      js "trpoiss_d2 trunc_ll truncr_p truncreg tsappend tset tsfill tsline tsline_ex tsreport tsrevar tsrline " ++
      js "tsset tssmooth tsunab ttest ttesti tut_chk tut_wait tutorial tw tware_st two twoway twoway__fpfit_serset " ++
      js "twoway__function_gen twoway__histogram_gen twoway__ipoint_serset twoway__ipoints_serset twoway__kdensity_gen " ++
      js "twoway__lfit_serset twoway__normgen_gen twoway__pci_serset twoway__qfit_serset twoway__scatteri_serset " ++
      js "twoway__sunflower_gen twoway_ksm_serset ty typ type typeof u|0 unab unabbrev unabcmd update us use uselabel " ++
      js "var var_mkcompanion var_p varbasic varfcast vargranger varirf varirf_add varirf_cgraph varirf_create " ++
      js "varirf_ctable varirf_describe varirf_dir varirf_drop varirf_erase varirf_graph varirf_ograph varirf_rename " ++
      js "varirf_set varirf_table varlist varlmar varnorm varsoc varstable varstable_w varstable_w2 varwle vce " ++
      js "vec vec_fevd vec_mkphi vec_p vec_p_w vecirf_create veclmar veclmar_w vecnorm vecnorm_w vecrank vecstable " ++
      js "verinst vers versi versio version view viewsource vif vwls wdatetof webdescribe webseek webuse weib1_lf " ++
      js "weib2_lf weib_lf weib_lf0 weibhet_glf weibhet_glf_sh weibhet_glfa weibhet_glfa_sh weibhet_gp weibhet_ilf " ++
      js "weibhet_ilf_sh weibhet_ilfa weibhet_ilfa_sh weibhet_ip weibu_sw weibul_p weibull weibull_c weibull_s " ++
      js "weibullhet wh whelp whi which whil while wilc_st wilcoxon win wind windo window winexec wntestb wntestb_7 " ++
      js "wntestq xchart xchart_7 xcorr xcorr_7 xi xi_6 xmlsav xmlsave xmluse xpose xsh xshe xshel xshell xt_iis " ++
      js "xt_tis xtab_p xtabond xtbin_p xtclog xtcloglog xtcloglog_8 xtcloglog_d2 xtcloglog_pa_p xtcloglog_re_p " ++
      js "xtcnt_p xtcorr xtdata xtdes xtfront_p xtfrontier xtgee xtgee_elink xtgee_estat xtgee_makeivar xtgee_p " ++
      js "xtgee_plink xtgls xtgls_p xthaus xthausman xtht_p xthtaylor xtile xtint_p xtintreg xtintreg_8 xtintreg_d2 " ++
      js "xtintreg_p xtivp_1 xtivp_2 xtivreg xtline xtline_ex xtlogit xtlogit_8 xtlogit_d2 xtlogit_fe_p xtlogit_pa_p " ++
      js "xtlogit_re_p xtmixed xtmixed_estat xtmixed_p xtnb_fe xtnb_lf xtnbreg xtnbreg_pa_p xtnbreg_refe_p xtpcse " ++
      js "xtpcse_p xtpois xtpoisson xtpoisson_d2 xtpoisson_pa_p xtpoisson_refe_p xtpred xtprobit xtprobit_8 xtprobit_d2 " ++
      js "xtprobit_re_p xtps_fe xtps_lf xtps_ren xtps_ren_8 xtrar_p xtrc xtrc_p xtrchh xtrefe_p xtreg xtreg_be " ++
      js "xtreg_fe xtreg_ml xtreg_pa_p xtreg_re xtregar xtrere_p xtset xtsf_ll xtsf_llti xtsum xttab xttest0 xttobit " ++
      js "xttobit_8 xttobit_p xttrans yx yxview__barlike_draw yxview_area_draw yxview_bar_draw yxview_dot_draw " ++
      js "yxview_dropline_draw yxview_function_draw yxview_iarrow_draw yxview_ilabels_draw yxview_normal_draw " ++
      js "yxview_pcarrow_draw yxview_pcbarrow_draw yxview_pccapsym_draw yxview_pcscatter_draw yxview_pcspike_draw " ++
      js "yxview_rarea_draw yxview_rbar_draw yxview_rbarm_draw yxview_rcap_draw yxview_rcapsym_draw yxview_rconnected_draw " ++
      js "yxview_rline_draw yxview_rscatter_draw yxview_rspike_draw yxview_spike_draw yxview_sunflower_draw zap_s " ++
      js "zinb zinb_llf zinb_plf zip zip_llf zip_p zip_plf zt_ct_5 zt_hc_5 zt_hcd_5 zt_is_5 zt_iss_5 zt_sho_5 " ++
      js "zt_smp_5 ztbase_5 ztcox_5 ztdes_5 ztereg_5 ztfill_5 ztgen_5 ztir_5 ztjoin_5 ztnb ztnb_p ztp ztp_p zts_5 " ++
      js "ztset_5 ztspli_5 ztsum_5 zttoct_5 ztvary_5 ztweib_5")); Contains [CRef m1; CRef m2; CRef m3; CRef m4;
      CRef m5; CRef C_LINE_COMMENT_MODE; CRef C_BLOCK_COMMENT_MODE]].

(** step21 *)
Definition lang_step21 : M language :=
  let STEP21_IDENT_RE := js "[A-Z_][A-Z0-9_.]*" in
  let STEP21_KEYWORDS := KObj [(js "keyword", js "HEADER ENDSEC DATA")] in
  let* STEP21_START := new [ClassName (js "meta"); Begin (js "ISO-10303-21;"); Relevance 10] in
  let* STEP21_CLOSE := new [ClassName (js "meta"); Begin (js "END-ISO-10303-21;"); Relevance 10] in
  let* m1 := COMMENT (js "/\*\*!") (js "\*/") [] in
  let* m2 := inherit_mode APOS_STRING_MODE [Illegal []] in
  let* m3 := inherit_mode QUOTE_STRING_MODE [Illegal []] in
  let* m4 := new [ClassName (js "string"); Begin (js "'"); End_ (js "'")] in
  let* m5 := new [ClassName (js "symbol"); Variants [[Begin (js "#"); End_ (js "\d+"); Illegal (js "\W")]]] in
  lang (mkLP true [js "p21"; js "step"; js "stp"] false) [Lexemes STEP21_IDENT_RE; Keywords STEP21_KEYWORDS;
      Contains [CRef STEP21_START; CRef STEP21_CLOSE; CRef C_LINE_COMMENT_MODE; CRef C_BLOCK_COMMENT_MODE; CRef m1;
      CRef C_NUMBER_MODE; CRef m2; CRef m3; CRef m4; CRef m5]].

Definition lang_stylus_AT_KEYWORDS : list jsstr :=
  [js "charset"; js "css"; js "debug"; js "extend"; js "font-face"; js "for"; js "import"; js "include"; js "media";
      js "mixin"; js "page"; js "warn"; js "while"].
Definition lang_stylus_PSEUDO_SELECTORS : list jsstr :=
  [js "after"; js "before"; js "first-letter"; js "first-line"; js "active"; js "first-child"; js "focus";
      js "hover"; js "lang"; js "link"; js "visited"].
Definition lang_stylus_TAGS : list jsstr :=
  [js "a"; js "abbr"; js "address"; js "article"; js "aside"; js "audio"; js "b"; js "blockquote"; js "body";
      js "button"; js "canvas"; js "caption"; js "cite"; js "code"; js "dd"; js "del"; js "details"; js "dfn";
      js "div"; js "dl"; js "dt"; js "em"; js "fieldset"; js "figcaption"; js "figure"; js "footer"; js "form";
      js "h1"; js "h2"; js "h3"; js "h4"; js "h5"; js "h6"; js "header"; js "hgroup"; js "html"; js "i";
      js "iframe"; js "img"; js "input"; js "ins"; js "kbd"; js "label"; js "legend"; js "li"; js "mark"; js "menu";
      js "nav"; js "object"; js "ol"; js "p"; js "q"; js "quote"; js "samp"; js "section"; js "span"; js "strong";
      js "summary"; js "sup"; js "table"; js "tbody"; js "td"; js "textarea"; js "tfoot"; js "th"; js "thead";
      js "time"; js "tr"; js "ul"; js "var"; js "video"].
Definition lang_stylus_ATTRIBUTES_1 : list jsstr :=
  [js "align-content"; js "align-items"; js "align-self"; js "animation"; js "animation-delay";
      js "animation-direction"; js "animation-duration"; js "animation-fill-mode";
      js "animation-iteration-count"; js "animation-name"; js "animation-play-state";
      js "animation-timing-function"; js "auto"; js "backface-visibility"; js "background";
      js "background-attachment"; js "background-clip"; js "background-color";
      js "background-image"; js "background-origin"; js "background-position";
      js "background-repeat"; js "background-size"; js "border"; js "border-bottom";
      js "border-bottom-color"; js "border-bottom-left-radius"; js "border-bottom-right-radius";
      js "border-bottom-style"; js "border-bottom-width"; js "border-collapse"; js "border-color";
      js "border-image"; js "border-image-outset"; js "border-image-repeat";
      js "border-image-slice"; js "border-image-source"; js "border-image-width"; js "border-left";
      js "border-left-color"; js "border-left-style"; js "border-left-width"; js "border-radius";
      js "border-right"; js "border-right-color"; js "border-right-style"; js "border-right-width";
      js "border-spacing"; js "border-style"; js "border-top"; js "border-top-color";
      js "border-top-left-radius"; js "border-top-right-radius"; js "border-top-style";
      js "border-top-width"; js "border-width"; js "bottom"; js "box-decoration-break";
      js "box-shadow"; js "box-sizing"; js "break-after"; js "break-before"; js "break-inside";
      js "caption-side"; js "clear"; js "clip"; js "clip-path"; js "color"; js "column-count";
      js "column-fill"; js "column-gap"; js "column-rule"; js "column-rule-color";
      js "column-rule-style"; js "column-rule-width"; js "column-span"; js "column-width";
      js "columns"; js "content"; js "counter-increment"; js "counter-reset"; js "cursor";
      js "direction"; js "display"; js "empty-cells"; js "filter"; js "flex"; js "flex-basis";
      js "flex-direction"; js "flex-flow"; js "flex-grow"; js "flex-shrink"; js "flex-wrap";
      js "float"; js "font"; js "font-family"; js "font-feature-settings"; js "font-kerning";
      js "font-language-override"; js "font-size"; js "font-size-adjust"; js "font-stretch";
      js "font-style"; js "font-variant"; js "font-variant-ligatures"; js "font-weight";
      js "height"; js "hyphens"; js "icon"; js "image-orientation"; js "image-rendering";
      js "image-resolution"; js "ime-mode"; js "inherit"; js "initial"; js "justify-content";
      js "left"; js "letter-spacing"; js "line-height"; js "list-style"; js "list-style-image";
      js "list-style-position"; js "list-style-type"; js "margin"; js "margin-bottom";
      js "margin-left"; js "margin-right"; js "margin-top"; js "marks"; js "mask"; js "max-height";
      js "max-width"; js "min-height"; js "min-width"; js "nav-down"; js "nav-index"; js "nav-left";
      js "nav-right"; js "nav-up"].

Definition lang_stylus_ATTRIBUTES_2 : list jsstr :=
  [js "none"; js "normal"; js "object-fit"; js "object-position"; js "opacity"; js "order";
      js "orphans"; js "outline"; js "outline-color"; js "outline-offset"; js "outline-style";
      js "outline-width"; js "overflow"; js "overflow-wrap"; js "overflow-x"; js "overflow-y";
      js "padding"; js "padding-bottom"; js "padding-left"; js "padding-right"; js "padding-top";
      js "page-break-after"; js "page-break-before"; js "page-break-inside"; js "perspective";
      js "perspective-origin"; js "pointer-events"; js "position"; js "quotes"; js "resize";
      js "right"; js "tab-size"; js "table-layout"; js "text-align"; js "text-align-last";
      js "text-decoration"; js "text-decoration-color"; js "text-decoration-line";
      js "text-decoration-style"; js "text-indent"; js "text-overflow"; js "text-rendering";
      js "text-shadow"; js "text-transform"; js "text-underline-position"; js "top"; js "transform";
      js "transform-origin"; js "transform-style"; js "transition"; js "transition-delay";
      js "transition-duration"; js "transition-property"; js "transition-timing-function";
      js "unicode-bidi"; js "vertical-align"; js "visibility"; js "white-space"; js "widows";
      js "width"; js "word-break"; js "word-spacing"; js "word-wrap"; js "z-index"].

Definition lang_stylus_ATTRIBUTES : list jsstr :=
  lang_stylus_ATTRIBUTES_1 ++ lang_stylus_ATTRIBUTES_2.
Definition lang_stylus_ILLEGAL : list jsstr :=
  [js "\?"; js "(\bReturn\b)"; js "(\bEnd\b)"; js "(\bend\b)"; js "(\bdef\b)"; js ";"; js "#\s"; js "\*\s";
      js "===\s"; js "\|"; js "%"].

(** stylus *)
Definition lang_stylus : M language :=
  let* VARIABLE := new [ClassName (js "variable"); Begin (js "\$" ++ IDENT_RE)] in
  let* HEX_COLOR := new [ClassName (js "number"); Begin (js "#([a-fA-F0-9]{6}|[a-fA-F0-9]{3})")] in
  let TAG_END := js "[\.\s\n\[\:,]" in
  let* m1 := new [ClassName (js "selector-class"); Begin (js "\.[a-zA-Z][a-zA-Z0-9_-]*")] in
  let* m2 := new [Begin (js "\.[a-zA-Z][a-zA-Z0-9_-]*" ++ TAG_END); ReturnBegin true; Contains [CRef m1]] in
  let* m3 := new [ClassName (js "selector-id"); Begin (js "\#[a-zA-Z][a-zA-Z0-9_-]*")] in
  let* m4 := new [Begin (js "\#[a-zA-Z][a-zA-Z0-9_-]*" ++ TAG_END); ReturnBegin true; Contains [CRef m3]] in
  let* m5 := new [ClassName (js "selector-tag"); Begin (js "\b[a-zA-Z][a-zA-Z0-9_-]*")] in
  let* m6 := new [Begin (js "\b(" ++ join (js "|") lang_stylus_TAGS ++ js ")" ++ TAG_END); ReturnBegin true;
      Contains [CRef m5]] in
  let* m7 := new [Begin (js "&?:?:\b(" ++ join (js "|") lang_stylus_PSEUDO_SELECTORS ++ js ")" ++ TAG_END)] in
  let* m8 := new [Begin (js "@(" ++ join (js "|") lang_stylus_AT_KEYWORDS ++ js ")\b")] in
  let* m9 := new [ClassName (js "title"); Begin (js "\b[a-zA-Z][a-zA-Z0-9_-]*")] in
  let* m10 := new [ClassName (js "params"); Begin (js "\("); End_ (js "\)"); Contains [CRef HEX_COLOR;
      CRef VARIABLE; CRef APOS_STRING_MODE; CRef CSS_NUMBER_MODE; CRef NUMBER_MODE; CRef QUOTE_STRING_MODE]] in
  let* m11 := new [ClassName (js "function"); Begin (js "^[a-zA-Z][a-zA-Z0-9_-]*\(.*\)"); Illegal (js "[\n]");
      ReturnBegin true; Contains [CRef m9; CRef m10]] in
  let* m12 := new [End_ (js ";|$"); Contains [CRef HEX_COLOR; CRef VARIABLE; CRef APOS_STRING_MODE;
      CRef QUOTE_STRING_MODE; CRef CSS_NUMBER_MODE; CRef NUMBER_MODE; CRef C_BLOCK_COMMENT_MODE]; Illegal (js "\.");
      Relevance 0] in
  let* m13 := new [ClassName (js "attribute"); Begin (js "\b(" ++ join (js "|") (rev lang_stylus_ATTRIBUTES) ++
      js ")\b"); Starts m12] in
  lang (mkLP false [js "styl"] false) [Keywords (KStr (js "if else for in")); Illegal (js "(" ++
      join (js "|") lang_stylus_ILLEGAL ++ js ")"); Contains [CRef QUOTE_STRING_MODE; CRef APOS_STRING_MODE;
      CRef C_LINE_COMMENT_MODE; CRef C_BLOCK_COMMENT_MODE; CRef HEX_COLOR; CRef m2; CRef m4; CRef m6; CRef m7;
      CRef m8; CRef VARIABLE; CRef CSS_NUMBER_MODE; CRef NUMBER_MODE; CRef m11; CRef m13]].

(** subunit *)
Definition lang_subunit : M language :=
  let* DETAILS := new [ClassName (js "string"); Begin (js "\[" ++ [10%N] ++ js "(multipart)?"); End_ (js "\]" ++
      [10%N])] in
  let* TIME := new [ClassName (js "string"); Begin (js "\d{4}-\d{2}-\d{2}(\s+)\d{2}:\d{2}:\d{2}.\d+Z")] in
  let* PROGRESSVALUE := new [ClassName (js "string"); Begin (js "(\+|-)\d+")] in
  let* KEYWORDS := new [ClassName (js "keyword"); Relevance 10;
      Variants [[Begin (js "^(test|testing|success|successful|failure|error|skip|xfail|uxsuccess)(:?)\s+(test)?")];
      [Begin (js "^progress(:?)(\s+)?(pop|push)?")]; [Begin (js "^tags:")]; [Begin (js "^time:")]]] in
  lang (mkLP true [] false) [Contains [CRef DETAILS; CRef TIME; CRef PROGRESSVALUE; CRef KEYWORDS]].

(** swift *)
Definition lang_swift : M language :=
  let SWIFT_KEYWORDS := KObj [(js "keyword", js "#available #colorLiteral #column #else #elseif #endif #file " ++
      js "#fileLiteral #function #if #imageLiteral #line #selector #sourceLocation " ++
      js "_ __COLUMN__ __FILE__ __FUNCTION__ __LINE__ Any as as! as? associatedtype " ++
      js "associativity break case catch class continue convenience default defer deinit didSet do " ++
      js "dynamic dynamicType else enum extension fallthrough false fileprivate final for func " ++
      js "get guard if import in indirect infix init inout internal is lazy left let " ++
      js "mutating nil none nonmutating open operator optional override postfix precedence " ++
      js "prefix private protocol Protocol public repeat required rethrows return " ++
      js "right self Self set static struct subscript super switch throw throws true " ++
      js "try try! try? Type typealias unowned var weak where while willSet"); (js "literal", js "true false nil");
      (js "built_in", js "abs advance alignof alignofValue anyGenerator assert assertionFailure " ++
      js "bridgeFromObjectiveC bridgeFromObjectiveCUnconditional bridgeToObjectiveC " ++
      js "bridgeToObjectiveCUnconditional c contains count countElements countLeadingZeros " ++
      js "debugPrint debugPrintln distance dropFirst dropLast dump encodeBitsAsWords " ++
      js "enumerate equal fatalError filter find getBridgedObjectiveCType getVaList " ++
      js "indices insertionSort isBridgedToObjectiveC isBridgedVerbatimToObjectiveC " ++
      js "isUniquelyReferenced isUniquelyReferencedNonObjC join lazy lexicographicalCompare " ++
      js "map max maxElement min minElement numericCast overlaps partition posix " ++
      js "precondition preconditionFailure print println quickSort readLine reduce reflect " ++
      js "reinterpretCast reverse roundUpToAlignment sizeof sizeofValue sort split " ++
      js "startsWith stride strideof strideofValue swap toString transcode " ++
      js "underestimateCount unsafeAddressOf unsafeBitCast unsafeDowncast unsafeUnwrap " ++
      js "unsafeReflect withExtendedLifetime withObjectAtPlusZero withUnsafePointer " ++
      js "withUnsafePointerToObject withUnsafeMutablePointer withUnsafeMutablePointers " ++
      js "withUnsafePointer withUnsafePointers withVaList zip")] in
  let* TYPE := new [ClassName (js "type"); Begin (js "\b[A-Z][\wÀ-ʸ']*"); Relevance 0] in
  let* OPTIONAL_USING_TYPE := new [ClassName (js "type"); Begin (js "\b[A-Z][\wÀ-ʸ']*[!?]")] in
  let* BLOCK_COMMENT := COMMENT (js "/\*") (js "\*/") [Contains [CSelf]] in
  let* SUBST := new [ClassName (js "subst"); Begin (js "\\\("); End_ (js "\)"); Keywords SWIFT_KEYWORDS;
      Contains []] in
  let* STRING := new [ClassName (js "string"); Contains [CRef BACKSLASH_ESCAPE; CRef SUBST];
      Variants [[Begin (js "＂＂＂"); End_ (js "＂＂＂")]; [Begin (js "＂"); End_ (js "＂")]]] in
  let* NUMBERS := new [ClassName (js "number");
      Begin (js "\b([\d_]+(\.[\deE_]+)?|0x[a-fA-F0-9_]+(\.[a-fA-F0-9p_]+)?|0b[01_]+|0o[0-7_]+)\b"); Relevance 0] in
  let* _ := upd SUBST (fun m => assign m (Contains [CRef NUMBERS])) in
  let* m1 := inherit_mode TITLE_MODE [Begin (js "[A-Za-z$_][0-9A-Za-z$_]*")] in
  let* m2 := new [Begin (js "<"); End_ (js ">")] in
  let* m3 := new [Begin (js ":")] in
  let* m4 := new [ClassName (js "params"); Begin (js "\("); End_ (js "\)"); EndsParent true;
      Keywords SWIFT_KEYWORDS; Contains [CSelf; CRef NUMBERS; CRef STRING; CRef C_BLOCK_COMMENT_MODE; CRef m3];
      Illegal (js "[＂']")] in
  let* m5 := new [ClassName (js "function"); BeginKeywords (js "func"); End_ (js "{"); ExcludeEnd true;
      Contains [CRef m1; CRef m2; CRef m4]; Illegal (js "\[|%")] in
  let* m6 := inherit_mode TITLE_MODE [Begin (js "[A-Za-z$_][\u00C0-\u02B80-9A-Za-z$_]*")] in
  let* m7 := new [ClassName (js "class"); BeginKeywords (js "struct protocol class extension enum");
      Keywords SWIFT_KEYWORDS; End_ (js "\{"); ExcludeEnd true; Contains [CRef m6]] in
  let* m8 := new [ClassName (js "meta");
      Begin (js "(@discardableResult|@warn_unused_result|@exported|@lazy|@noescape|" ++
      js "@NSCopying|@NSManaged|@objc|@objcMembers|@convention|@required|" ++
      js "@noreturn|@IBAction|@IBDesignable|@IBInspectable|@IBOutlet|" ++
      js "@infix|@prefix|@postfix|@autoclosure|@testable|@available|" ++
      js "@nonobjc|@NSApplicationMain|@UIApplicationMain)")] in
  let* m9 := new [BeginKeywords (js "import"); End_ (js "$"); Contains [CRef C_LINE_COMMENT_MODE;
      CRef BLOCK_COMMENT]] in
  lang plain_lang [Keywords SWIFT_KEYWORDS; Contains [CRef STRING; CRef C_LINE_COMMENT_MODE; CRef BLOCK_COMMENT;
      CRef OPTIONAL_USING_TYPE; CRef TYPE; CRef NUMBERS; CRef m5; CRef m7; CRef m8; CRef m9]].

(** taggerscript *)
Definition lang_taggerscript : M language :=
  let* m1 := new [Begin (js "\\.")] in
  let* m2 := new [Begin (js "\("); End_ (js "\)"); Contains [CSelf; CRef m1]] in
  let* COMMENT' := new [ClassName (js "comment"); Begin (js "\$noop\("); End_ (js "\)"); Contains [CRef m2];
      Relevance 10] in
  let* FUNCTION := new [ClassName (js "keyword"); Begin (js "\$(?!noop)[a-zA-Z][_a-zA-Z0-9]*"); End_ (js "\(");
      ExcludeEnd true] in
  let* VARIABLE := new [ClassName (js "variable"); Begin (js "%[_a-zA-Z0-9:]*"); End_ (js "%")] in
  let* ESCAPE_SEQUENCE := new [ClassName (js "symbol"); Begin (js "\\.")] in
  lang plain_lang [Contains [CRef COMMENT'; CRef FUNCTION; CRef VARIABLE; CRef ESCAPE_SEQUENCE]].

(** tap *)
Definition lang_tap : M language :=
  let* m1 := new [ClassName (js "meta"); Variants [[Begin (js "^TAP version (\d+)$")];
      [Begin (js "^1\.\.(\d+)$")]]] in
  let* m2 := new [Begin (js "(s+)?---$"); End_ (js "\.\.\.$"); SubLanguage (inl (js "yaml")); Relevance 0] in
  let* m3 := new [ClassName (js "number"); Begin (js " (\d+) ")] in
  let* m4 := new [ClassName (js "symbol"); Variants [[Begin (js "^ok")]; [Begin (js "^not ok")]]] in
  lang (mkLP true [] false) [Contains [CRef HASH_COMMENT_MODE; CRef m1; CRef m2; CRef m3; CRef m4]].

(** tcl *)
Definition lang_tcl : M language :=
  let* m1 := COMMENT (js ";[ \t]*#") (js "$") [] in
  let* m2 := COMMENT (js "^[ \t]*#") (js "$") [] in
  let* m3 := new [ClassName (js "title"); Begin (js "[ \t\n\r]+(::)?[a-zA-Z_]((::)?[a-zA-Z0-9_])*");
      End_ (js "[ \t\n\r]"); EndsWithParent true; ExcludeEnd true] in
  let* m4 := new [BeginKeywords (js "proc"); End_ (js "[\{]"); ExcludeEnd true; Contains [CRef m3]] in
  let* m5 := new [ExcludeEnd true;
      Variants [[Begin (js "\$(\{)?(::)?[a-zA-Z_]((::)?[a-zA-Z0-9_])*\(([a-zA-Z0-9_])*\)");
      End_ (js "[^a-zA-Z0-9_\}\$]")]; [Begin (js "\$(\{)?(::)?[a-zA-Z_]((::)?[a-zA-Z0-9_])*");
      End_ (js "(\))?[^a-zA-Z0-9_\}\$]")]]] in
  let* m6 := inherit_mode QUOTE_STRING_MODE [Illegal []] in
  let* m7 := new [ClassName (js "string"); Contains [CRef BACKSLASH_ESCAPE]; Variants [[AllOf m6]]] in
  let* m8 := new [ClassName (js "number"); Variants [[AllOf BINARY_NUMBER_MODE]; [AllOf C_NUMBER_MODE]]] in
  lang (mkLP false [js "tk"] false) [Keywords (KStr (js "after append apply array auto_execok auto_import auto_load auto_mkindex " ++
      js "auto_mkindex_old auto_qualify auto_reset bgerror binary break catch cd chan clock " ++
      js "close concat continue dde dict encoding eof error eval exec exit expr fblocked " ++
      js "fconfigure fcopy file fileevent filename flush for foreach format gets glob global " ++
      js "history http if incr info interp join lappend|10 lassign|10 lindex|10 linsert|10 list " ++
      js "llength|10 load lrange|10 lrepeat|10 lreplace|10 lreverse|10 lsearch|10 lset|10 lsort|10 " ++
      js "mathfunc mathop memory msgcat namespace open package parray pid pkg::create pkg_mkIndex " ++
      js "platform platform::shell proc puts pwd read refchan regexp registry regsub|10 rename " ++
      js "return safe scan seek set socket source split string subst switch tcl_endOfWord " ++
      js "tcl_findLibrary tcl_startOfNextWord tcl_startOfPreviousWord tcl_wordBreakAfter " ++
      js "tcl_wordBreakBefore tcltest tclvars tell time tm trace unknown unload unset update " ++
      js "uplevel upvar variable vwait while")); Contains [CRef m1; CRef m2; CRef m4; CRef m5; CRef m7; CRef m8]].

(** tex *)
Definition lang_tex : M language :=
  let* m1 := new [ClassName (js "string"); Variants [[Begin (js "\["); End_ (js "\]")]; [Begin (js "\{");
      End_ (js "\}")]]] in
  let* m2 := new [ClassName (js "number"); Begin (js "-?\d*\.?\d+(pt|pc|mm|cm|in|dd|cc|ex|em)?")] in
  let* m3 := new [Begin (js "\s*=\s*"); EndsWithParent true; Relevance 0; Contains [CRef m2]] in
  let* m4 := new [EndsWithParent true; Relevance 0; Contains [CRef m1; CRef m3]] in
  let* m5 := new [ClassName (js "name"); Variants [[Begin (js "[a-zA-Z\u0430-\u044f\u0410-\u042f]+[*]?")];
      [Begin (js "[^a-zA-Z\u0430-\u044f\u0410-\u042f0-9]")]]; Starts m4] in
  let* COMMAND := new [ClassName (js "tag"); Begin (js "\\"); Relevance 0; Contains [CRef m5]] in
  let* m6 := new [ClassName (js "formula"); Contains [CRef COMMAND]; Relevance 0; Variants [[Begin (js "\$\$");
      End_ (js "\$\$")]; [Begin (js "\$"); End_ (js "\$")]]] in
  let* m7 := COMMENT (js "%") (js "$") [Relevance 0] in
  lang plain_lang [Contains [CRef COMMAND; CRef m6; CRef m7]].

(** thrift *)
Definition lang_thrift : M language :=
  let BUILT_IN_TYPES := js "bool byte i16 i32 i64 double string binary" in
  let* m1 := new [EndsWithParent true; ExcludeEnd true] in
  let* m2 := inherit_mode TITLE_MODE [Starts m1] in
  let* m3 := new [ClassName (js "class"); BeginKeywords (js "struct enum service exception"); End_ (js "\{");
      Illegal (js "\n"); Contains [CRef m2]] in
  let* m4 := new [Begin (js "\b(set|list|map)\s*<"); End_ (js ">"); Keywords (KStr BUILT_IN_TYPES);
      Contains [CSelf]] in
  lang plain_lang [Keywords (KObj [(js "keyword", js "namespace const typedef struct enum service exception void oneway set list map required optional");
      (js "built_in", BUILT_IN_TYPES); (js "literal", js "true false")]); Contains [CRef QUOTE_STRING_MODE;
      CRef NUMBER_MODE; CRef C_LINE_COMMENT_MODE; CRef C_BLOCK_COMMENT_MODE; CRef m3; CRef m4]].

(** tp *)
Definition lang_tp : M language :=
  let* TPID := new [ClassName (js "number"); Begin (js "[1-9][0-9]*"); Relevance 0] in
  let* TPLABEL := new [ClassName (js "symbol"); Begin (js ":[^\]]+")] in
  let* TPDATA := new [ClassName (js "built_in");
      Begin (js "(AR|P|PAYLOAD|PR|R|SR|RSR|LBL|VR|UALM|MESSAGE|UTOOL|UFRAME|TIMER|" ++
      js "TIMER_OVERFLOW|JOINT_MAX_SPEED|RESUME_PROG|DIAG_REC)\["); End_ (js "\]"); Contains [CSelf; CRef TPID;
      CRef TPLABEL]] in
  let* TPIO := new [ClassName (js "built_in"); Begin (js "(AI|AO|DI|DO|F|RI|RO|UI|UO|GI|GO|SI|SO)\[");
      End_ (js "\]"); Contains [CSelf; CRef TPID; CRef QUOTE_STRING_MODE; CRef TPLABEL]] in
  let* m1 := new [ClassName (js "keyword"); Begin (js "/(PROG|ATTR|MN|POS|END)\b")] in
  let* m2 := new [ClassName (js "keyword"); Begin (js "(CALL|RUN|POINT_LOGIC|LBL)\b")] in
  let* m3 := new [ClassName (js "keyword"); Begin (js "\b(ACC|CNT|Skip|Offset|PSPD|RT_LD|AP_LD|Tool_Offset)")] in
  let* m4 := new [ClassName (js "number"); Begin (js "\d+(sec|msec|mm/sec|cm/min|inch/min|deg/sec|mm|in|cm)?\b");
      Relevance 0] in
  let* m5 := COMMENT (js "//") (js "[;$]") [] in
  let* m6 := COMMENT (js "!") (js "[;$]") [] in
  let* m7 := COMMENT (js "--eg:") (js "$") [] in
  let* m8 := new [ClassName (js "string"); Begin (js "'"); End_ (js "'")] in
  let* m9 := new [ClassName (js "variable"); Begin (js "\$[A-Za-z0-9_]+")] in
  lang plain_lang [Keywords (KObj [(js "keyword", js "ABORT ACC ADJUST AND AP_LD BREAK CALL CNT COL CONDITION CONFIG DA DB " ++
      js "DIV DETECT ELSE END ENDFOR ERR_NUM ERROR_PROG FINE FOR GP GUARD INC " ++
      js "IF JMP LINEAR_MAX_SPEED LOCK MOD MONITOR OFFSET Offset OR OVERRIDE " ++
      js "PAUSE PREG PTH RT_LD RUN SELECT SKIP Skip TA TB TO TOOL_OFFSET " ++
      js "Tool_Offset UF UT UFRAME_NUM UTOOL_NUM UNLOCK WAIT X Y Z W P R STRLEN " ++
      js "SUBSTR FINDSTR VOFFSET PROG ATTR MN POS");
      (js "literal", js "ON OFF max_speed LPOS JPOS ENABLE DISABLE START STOP RESET")]); Contains [CRef TPDATA;
      CRef TPIO; CRef m1; CRef m2; CRef m3; CRef m4; CRef m5; CRef m6; CRef m7; CRef QUOTE_STRING_MODE; CRef m8;
      CRef C_NUMBER_MODE; CRef m9]].

(** twig *)
Definition lang_twig : M language :=
  let* PARAMS := new [ClassName (js "params"); Begin (js "\("); End_ (js "\)")] in
  let FUNCTION_NAMES := js "attribute block constant cycle date dump include " ++
      js "max min parent random range source template_from_string" in
  let* FUNCTIONS := new [BeginKeywords FUNCTION_NAMES; Keywords (KObj [(js "name", FUNCTION_NAMES)]); Relevance 0;
      Contains [CRef PARAMS]] in
  let* FILTER := new [Begin (js "\|[A-Za-z_]+:?");
      Keywords (KStr (js "abs batch capitalize convert_encoding date date_modify default " ++
      js "escape first format join json_encode keys last length lower " ++
      js "merge nl2br number_format raw replace reverse round slice sort split " ++
      js "striptags title trim upper url_encode")); Contains [CRef FUNCTIONS]] in
  let TAGS := js "autoescape block do embed extends filter flush for " ++
      js "if import include macro sandbox set spaceless use verbatim" in
  let TAGS := TAGS ++ js " " ++ join (js " ") (map (fun t => js "end" ++ t) (split_on 32 TAGS)) in
  let* m1 := COMMENT (js "\{#") (js "#}") [] in
  let* m2 := new [EndsWithParent true; Contains [CRef FILTER; CRef FUNCTIONS]; Relevance 0] in
  let* m3 := new [ClassName (js "name"); Begin (js "\w+"); Keywords (KStr TAGS); Starts m2] in
  let* m4 := new [ClassName (js "template-tag"); Begin (js "\{%"); End_ (js "%}"); Contains [CRef m3]] in
  let* m5 := new [ClassName (js "template-variable"); Begin (js "\{\{"); End_ (js "}}"); Contains [CSelf;
      CRef FILTER; CRef FUNCTIONS]] in
  lang (mkLP true [js "craftcms"] false) [SubLanguage (inl (js "xml")); Contains [CRef m1; CRef m4; CRef m5]].

(** typescript *)
Definition lang_typescript : M language :=
  let JS_IDENT_RE := js "[A-Za-z$_][0-9A-Za-z$_]*" in
  let KEYWORDS :=
      KObj [(js "keyword", js "in if for while finally var new function do return void else break catch " ++
      js "instanceof with throw case default try this switch continue typeof delete " ++
      js "let yield const class public private protected get set super " ++
      js "static implements enum export import declare type namespace abstract " ++
      js "as from extends async await"); (js "literal", js "true false null undefined NaN Infinity");
      (js "built_in", js "eval isFinite isNaN parseFloat parseInt decodeURI decodeURIComponent " ++
      js "encodeURI encodeURIComponent escape unescape Object Function Boolean Error " ++
      js "EvalError InternalError RangeError ReferenceError StopIteration SyntaxError " ++
      js "TypeError URIError Number Math Date String RegExp Array Float32Array " ++
      js "Float64Array Int16Array Int32Array Int8Array Uint16Array Uint32Array " ++
      js "Uint8Array Uint8ClampedArray ArrayBuffer DataView JSON Intl arguments require " ++
      js "module console window document any number boolean string void Promise")] in
  let* DECORATOR := new [ClassName (js "meta"); Begin (js "@" ++ JS_IDENT_RE)] in
  let* ARGS := new [Begin (js "\("); End_ (js "\)"); Keywords KEYWORDS; Contains [CSelf; CRef QUOTE_STRING_MODE;
      CRef APOS_STRING_MODE; CRef NUMBER_MODE]] in
  let* PARAMS := new [ClassName (js "params"); Begin (js "\("); End_ (js "\)"); ExcludeBegin true; ExcludeEnd true;
      Keywords KEYWORDS; Contains [CRef C_LINE_COMMENT_MODE; CRef C_BLOCK_COMMENT_MODE; CRef DECORATOR;
      CRef ARGS]] in
  let* NUMBER := new [ClassName (js "number"); Variants [[Begin (js "\b(0[bB][01]+)")];
      [Begin (js "\b(0[oO][0-7]+)")]; [Begin C_NUMBER_RE]]; Relevance 0] in
  let* SUBST := new [ClassName (js "subst"); Begin (js "\$\{"); End_ (js "\}"); Keywords KEYWORDS; Contains []] in
  let* m1 := new [End_ (js "`"); ReturnEnd false; Contains [CRef BACKSLASH_ESCAPE; CRef SUBST];
      SubLanguage (inl (js "xml"))] in
  let* HTML_TEMPLATE := new [Begin (js "html`"); End_ []; Starts m1] in
  let* m2 := new [End_ (js "`"); ReturnEnd false; Contains [CRef BACKSLASH_ESCAPE; CRef SUBST];
      SubLanguage (inl (js "css"))] in
  let* CSS_TEMPLATE := new [Begin (js "css`"); End_ []; Starts m2] in
  let* TEMPLATE_STRING := new [ClassName (js "string"); Begin (js "`"); End_ (js "`");
      Contains [CRef BACKSLASH_ESCAPE; CRef SUBST]] in
  let* _ := upd SUBST (fun m => assign m (Contains [CRef APOS_STRING_MODE; CRef QUOTE_STRING_MODE;
      CRef HTML_TEMPLATE; CRef CSS_TEMPLATE; CRef TEMPLATE_STRING; CRef NUMBER; CRef REGEXP_MODE])) in
  let* m3 := new [ClassName (js "meta"); Begin (js "^\s*['＂]use strict['＂]")] in
  let* m4 := new [ClassName (js "params"); Variants [[Begin IDENT_RE]; [Begin (js "\(\s*\)")]; [Begin (js "\(");
      End_ (js "\)"); ExcludeBegin true; ExcludeEnd true; Keywords KEYWORDS; Contains [CSelf;
      CRef C_LINE_COMMENT_MODE; CRef C_BLOCK_COMMENT_MODE]]]] in
  let* m5 := new [ClassName (js "function"); Begin (js "(\(.*?\)|" ++ IDENT_RE ++ js ")\s*=>"); ReturnBegin true;
      End_ (js "\s*=>"); Contains [CRef m4]] in
  let* m6 := new [Begin (js "(" ++ RE_STARTERS_RE ++ js "|\b(case|return|throw)\b)\s*");
      Keywords (KStr (js "return throw case")); Contains [CRef C_LINE_COMMENT_MODE; CRef C_BLOCK_COMMENT_MODE;
      CRef REGEXP_MODE; CRef m5]; Relevance 0] in
  let* m7 := inherit_mode TITLE_MODE [Begin JS_IDENT_RE] in
  let* m8 := new [ClassName (js "function"); Begin (js "function"); End_ (js "[\{;]"); ExcludeEnd true;
      Keywords KEYWORDS; Contains [CSelf; CRef m7; CRef PARAMS]; Illegal (js "%"); Relevance 0] in
  let* m9 := new [BeginKeywords (js "constructor"); End_ (js "\{"); ExcludeEnd true; Contains [CSelf;
      CRef PARAMS]] in
  let* m10 := new [Begin (js "module\."); Keywords (KObj [(js "built_in", js "module")]); Relevance 0] in
  let* m11 := new [BeginKeywords (js "module"); End_ (js "\{"); ExcludeEnd true] in
  let* m12 := new [BeginKeywords (js "interface"); End_ (js "\{"); ExcludeEnd true;
      Keywords (KStr (js "interface extends"))] in
  let* m13 := new [Begin (js "\$[(.]")] in
  let* m14 := new [Begin (js "\." ++ IDENT_RE); Relevance 0] in
  lang (mkLP false [js "ts"] false) [Keywords KEYWORDS; Contains [CRef m3; CRef APOS_STRING_MODE;
      CRef QUOTE_STRING_MODE; CRef HTML_TEMPLATE; CRef CSS_TEMPLATE; CRef TEMPLATE_STRING; CRef C_LINE_COMMENT_MODE;
      CRef C_BLOCK_COMMENT_MODE; CRef NUMBER; CRef m6; CRef m8; CRef m9; CRef m10; CRef m11; CRef m12; CRef m13;
      CRef m14; CRef DECORATOR; CRef ARGS]].

(** vala *)
Definition lang_vala : M language :=
  let* m1 := new [ClassName (js "class"); BeginKeywords (js "class interface namespace"); End_ (js "{");
      ExcludeEnd true; Illegal (js "[^,:\n\s\.]"); Contains [CRef UNDERSCORE_TITLE_MODE]] in
  let* m2 := new [ClassName (js "string"); Begin (js "＂＂＂"); End_ (js "＂＂＂"); Relevance 5] in
  let* m3 := new [ClassName (js "meta"); Begin (js "^#"); End_ (js "$"); Relevance 2] in
  lang plain_lang [Keywords (KObj [(js "keyword", js "char uchar unichar int uint long ulong short ushort int8 int16 int32 int64 uint8 " ++
      js "uint16 uint32 uint64 float double bool struct enum string void " ++ js "weak unowned owned " ++
      js "async signal static abstract interface override virtual delegate " ++
      js "if while do for foreach else switch case break default return try catch " ++
      js "public private protected internal " ++ js "using new this get set const stdout stdin stderr var");
      (js "built_in", js "DBus GLib CCode Gee Object Gtk Posix"); (js "literal", js "false true null")]);
      Contains [CRef m1; CRef C_LINE_COMMENT_MODE; CRef C_BLOCK_COMMENT_MODE; CRef m2; CRef APOS_STRING_MODE;
      CRef QUOTE_STRING_MODE; CRef C_NUMBER_MODE; CRef m3]].

(** vbnet *)
Definition lang_vbnet : M language :=
  let* m1 := new [Begin (js "＂＂")] in
  let* m2 := inherit_mode QUOTE_STRING_MODE [Contains [CRef m1]] in
  let* m3 := new [ClassName (js "doctag"); Begin (js "'''|<!--|-->"); Contains [CRef PHRASAL_WORDS_MODE]] in
  let* m4 := new [ClassName (js "doctag"); Begin (js "</?"); End_ (js ">"); Contains [CRef PHRASAL_WORDS_MODE]] in
  let* m5 := COMMENT (js "'") (js "$") [ReturnBegin true; Contains [CRef m3; CRef m4]] in
  let* m6 := new [ClassName (js "meta"); Begin (js "#"); End_ (js "$");
      Keywords (KObj [(js "meta-keyword", js "if else elseif end region externalsource")])] in
  lang (mkLP true [js "vb"] false) [Keywords (KObj [(js "keyword", js "addhandler addressof alias and andalso aggregate ansi as assembly auto binary by byref byval " ++
      js "call case catch class compare const continue custom declare default delegate dim distinct do " ++
      js "each equals else elseif end enum erase error event exit explicit finally for friend from function " ++
      js "get global goto group handles if implements imports in inherits interface into is isfalse isnot istrue " ++
      js "join key let lib like loop me mid mod module mustinherit mustoverride mybase myclass " ++
      js "namespace narrowing new next not notinheritable notoverridable " ++
      js "of off on operator option optional or order orelse overloads overridable overrides " ++
      js "paramarray partial preserve private property protected public " ++
      js "raiseevent readonly redim rem removehandler resume return " ++
      js "select set shadows shared skip static step stop structure strict sub synclock " ++
      js "take text then throw to try unicode until using when where while widening with withevents writeonly " ++
      js "xor");
      (js "built_in", js "boolean byte cbool cbyte cchar cdate cdec cdbl char cint clng cobj csbyte cshort csng cstr ctype " ++
      js "date decimal directcast double gettype getxmlnamespace iif integer long object " ++
      js "sbyte short single string trycast typeof uinteger ulong ushort");
      (js "literal", js "true false nothing")]); Illegal (js "//|{|}|endif|gosub|variant|wend|^\$ ");
      Contains [CRef m2; CRef m5; CRef C_NUMBER_MODE; CRef m6]].

(** vbscript-html *)
Definition lang_vbscript_html : M language :=
  let* m1 := new [Begin (js "<%"); End_ (js "%>"); SubLanguage (inl (js "vbscript"))] in
  lang plain_lang [SubLanguage (inl (js "xml")); Contains [CRef m1]].

(** vbscript *)
Definition lang_vbscript : M language :=
  let* m1 := new [Begin (js "＂＂")] in
  let* m2 := inherit_mode QUOTE_STRING_MODE [Contains [CRef m1]] in
  let* m3 := COMMENT (js "'") (js "$") [Relevance 0] in
  lang (mkLP true [js "vbs"] false) [Keywords (KObj [(js "keyword", js "call class const dim do loop erase execute executeglobal exit for each next function " ++
      js "if then else on error option explicit new private property let get public randomize " ++
      js "redim rem select case set stop sub while wend with end to elseif is or xor and not " ++
      js "class_initialize class_terminate default preserve in me byval byref step resume goto");
      (js "built_in", js "lcase month vartype instrrev ubound setlocale getobject rgb getref string " ++
      js "weekdayname rnd dateadd monthname now day minute isarray cbool round formatcurrency " ++
      js "conversions csng timevalue second year space abs clng timeserial fixs len asc " ++
      js "isempty maths dateserial atn timer isobject filter weekday datevalue ccur isdate " ++
      js "instr datediff formatdatetime replace isnull right sgn array snumeric log cdbl hex " ++
      js "chr lbound msgbox ucase getlocale cos cdate cbyte rtrim join hour oct typename trim " ++
      js "strcomp int createobject loadpicture tan formatnumber mid scriptenginebuildversion " ++
      js "scriptengine split scriptengineminorversion cint sin datepart ltrim sqr " ++
      js "scriptenginemajorversion time derived eval date formatpercent exp inputbox left ascw " ++
      js "chrw regexp server response request cstr err"); (js "literal", js "true false null nothing empty")]);
      Illegal (js "//"); Contains [CRef m2; CRef m3; CRef C_NUMBER_MODE]].

(** verilog *)
Definition lang_verilog : M language :=
  let SV_KEYWORDS :=
      KObj [(js "keyword", js "accept_on alias always always_comb always_ff always_latch and assert assign " ++
      js "assume automatic before begin bind bins binsof bit break buf|0 bufif0 bufif1 " ++
      js "byte case casex casez cell chandle checker class clocking cmos config const " ++
      js "constraint context continue cover covergroup coverpoint cross deassign default " ++
      js "defparam design disable dist do edge else end endcase endchecker endclass " ++
      js "endclocking endconfig endfunction endgenerate endgroup endinterface endmodule " ++
      js "endpackage endprimitive endprogram endproperty endspecify endsequence endtable " ++
      js "endtask enum event eventually expect export extends extern final first_match for " ++
      js "force foreach forever fork forkjoin function generate|5 genvar global highz0 highz1 " ++
      js "if iff ifnone ignore_bins illegal_bins implements implies import incdir include " ++
      js "initial inout input inside instance int integer interconnect interface intersect " ++
      js "join join_any join_none large let liblist library local localparam logic longint " ++
      js "macromodule matches medium modport module nand negedge nettype new nexttime nmos " ++
      js "nor noshowcancelled not notif0 notif1 or output package packed parameter pmos " ++
      js "posedge primitive priority program property protected pull0 pull1 pulldown pullup " ++
      js "pulsestyle_ondetect pulsestyle_onevent pure rand randc randcase randsequence rcmos " ++
      js "real realtime ref reg reject_on release repeat restrict return rnmos rpmos rtran " ++
      js "rtranif0 rtranif1 s_always s_eventually s_nexttime s_until s_until_with scalared " ++
      js "sequence shortint shortreal showcancelled signed small soft solve specify specparam " ++
      js "static string strong strong0 strong1 struct super supply0 supply1 sync_accept_on " ++
      js "sync_reject_on table tagged task this throughout time timeprecision timeunit tran " ++
      js "tranif0 tranif1 tri tri0 tri1 triand trior trireg type typedef union unique unique0 " ++
      js "unsigned until until_with untyped use uwire var vectored virtual void wait wait_order " ++
      js "wand weak weak0 weak1 while wildcard wire with within wor xnor xor"); (js "literal", js "null");
      (js "built_in", js "$finish $stop $exit $fatal $error $warning $info $realtime $time $printtimescale " ++
      js "$bitstoreal $bitstoshortreal $itor $signed $cast $bits $stime $timeformat " ++
      js "$realtobits $shortrealtobits $rtoi $unsigned $asserton $assertkill $assertpasson " ++
      js "$assertfailon $assertnonvacuouson $assertoff $assertcontrol $assertpassoff " ++
      js "$assertfailoff $assertvacuousoff $isunbounded $sampled $fell $changed $past_gclk " ++
      js "$fell_gclk $changed_gclk $rising_gclk $steady_gclk $coverage_control " ++
      js "$coverage_get $coverage_save $set_coverage_db_name $rose $stable $past " ++
      js "$rose_gclk $stable_gclk $future_gclk $falling_gclk $changing_gclk $display " ++
      js "$coverage_get_max $coverage_merge $get_coverage $load_coverage_db $typename " ++
      js "$unpacked_dimensions $left $low $increment $clog2 $ln $log10 $exp $sqrt $pow " ++
      js "$floor $ceil $sin $cos $tan $countbits $onehot $isunknown $fatal $warning " ++
      js "$dimensions $right $high $size $asin $acos $atan $atan2 $hypot $sinh $cosh " ++
      js "$tanh $asinh $acosh $atanh $countones $onehot0 $error $info $random " ++
      js "$dist_chi_square $dist_erlang $dist_exponential $dist_normal $dist_poisson " ++
      js "$dist_t $dist_uniform $q_initialize $q_remove $q_exam $async$and$array " ++
      js "$async$nand$array $async$or$array $async$nor$array $sync$and$array " ++
      js "$sync$nand$array $sync$or$array $sync$nor$array $q_add $q_full $psprintf " ++
      js "$async$and$plane $async$nand$plane $async$or$plane $async$nor$plane " ++
      js "$sync$and$plane $sync$nand$plane $sync$or$plane $sync$nor$plane $system " ++
      js "$display $displayb $displayh $displayo $strobe $strobeb $strobeh $strobeo " ++
      js "$write $readmemb $readmemh $writememh $value$plusargs " ++
      js "$dumpvars $dumpon $dumplimit $dumpports $dumpportson $dumpportslimit " ++
      js "$writeb $writeh $writeo $monitor $monitorb $monitorh $monitoro $writememb " ++
      js "$dumpfile $dumpoff $dumpall $dumpflush $dumpportsoff $dumpportsall " ++
      js "$dumpportsflush $fclose $fdisplay $fdisplayb $fdisplayh $fdisplayo " ++
      js "$fstrobe $fstrobeb $fstrobeh $fstrobeo $swrite $swriteb $swriteh " ++
      js "$swriteo $fscanf $fread $fseek $fflush $feof $fopen $fwrite $fwriteb " ++
      js "$fwriteh $fwriteo $fmonitor $fmonitorb $fmonitorh $fmonitoro $sformat " ++
      js "$sformatf $fgetc $ungetc $fgets $sscanf $rewind $ftell $ferror")] in
  let* m1 := new [ClassName (js "number"); Contains [CRef BACKSLASH_ESCAPE];
      Variants [[Begin (js "\b((\d+'(b|h|o|d|B|H|O|D))[0-9xzXZa-fA-F_]+)")];
      [Begin (js "\B(('(b|h|o|d|B|H|O|D))[0-9xzXZa-fA-F_]+)")]; [Begin (js "\b([0-9_])+"); Relevance 0]]] in
  let* m2 := new [ClassName (js "variable"); Variants [[Begin (js "#\((?!parameter).+\)")]; [Begin (js "\.\w+");
      Relevance 0]]] in
  let* m3 := new [ClassName (js "meta"); Begin (js "`"); End_ (js "$");
      Keywords (KObj [(js "meta-keyword", js "define __FILE__ " ++
      js "__LINE__ begin_keywords celldefine default_nettype define " ++
      js "else elsif end_keywords endcelldefine endif ifdef ifndef " ++
      js "include line nounconnected_drive pragma resetall timescale " ++
      js "unconnected_drive undef undefineall")]); Relevance 0] in
  lang (mkLP false [js "v"; js "sv"; js "svh"] false) [Keywords SV_KEYWORDS; Lexemes (js "[\w\$]+");
      Contains [CRef C_BLOCK_COMMENT_MODE; CRef C_LINE_COMMENT_MODE; CRef QUOTE_STRING_MODE; CRef m1; CRef m2;
      CRef m3]].

(** vhdl *)
Definition lang_vhdl : M language :=
  let INTEGER_RE := js "\d(_|\d)*" in
  let EXPONENT_RE := js "[eE][-+]?" ++ INTEGER_RE in
  let DECIMAL_LITERAL_RE := INTEGER_RE ++ js "(\." ++ INTEGER_RE ++ js ")?" ++ js "(" ++ EXPONENT_RE ++ js ")?" in
  let BASED_INTEGER_RE := js "\w+" in
  let BASED_LITERAL_RE := INTEGER_RE ++ js "#" ++ BASED_INTEGER_RE ++ js "(\." ++ BASED_INTEGER_RE ++ js ")?" ++
      js "#" ++ js "(" ++ EXPONENT_RE ++ js ")?" in
  let NUMBER_RE' := js "\b(" ++ BASED_LITERAL_RE ++ js "|" ++ DECIMAL_LITERAL_RE ++ js ")" in
  let* m1 := COMMENT (js "--") (js "$") [] in
  let* m2 := new [ClassName (js "number"); Begin NUMBER_RE'; Relevance 0] in
  let* m3 := new [ClassName (js "string"); Begin (js "'(U|X|0|1|Z|W|L|H|-)'"); Contains [CRef BACKSLASH_ESCAPE]] in
  let* m4 := new [ClassName (js "symbol"); Begin (js "'[A-Za-z](_?[A-Za-z0-9])*");
      Contains [CRef BACKSLASH_ESCAPE]] in
  lang (mkLP true [] false) [Keywords (KObj [(js "keyword", js "abs access after alias all and architecture array assert assume assume_guarantee attribute " ++
      js "begin block body buffer bus case component configuration constant context cover disconnect " ++
      js "downto default else elsif end entity exit fairness file for force function generate " ++
      js "generic group guarded if impure in inertial inout is label library linkage literal " ++
      js "loop map mod nand new next nor not null of on open or others out package parameter port " ++
      js "postponed procedure process property protected pure range record register reject " ++
      js "release rem report restrict restrict_guarantee return rol ror select sequence " ++
      js "severity shared signal sla sll sra srl strong subtype then to transport type " ++
      js "unaffected units until use variable view vmode vprop vunit wait when while with xnor xor");
      (js "built_in", js "boolean bit character " ++ js "integer time delay_length natural positive " ++
      js "string bit_vector file_open_kind file_open_status " ++
      js "std_logic std_logic_vector unsigned signed boolean_vector integer_vector " ++
      js "std_ulogic std_ulogic_vector unresolved_unsigned u_unsigned unresolved_signed u_signed " ++
      js "real_vector time_vector"); (js "literal", js "false true note warning error failure " ++
      js "line text side width")]); Illegal (js "{"); Contains [CRef C_BLOCK_COMMENT_MODE; CRef m1;
      CRef QUOTE_STRING_MODE; CRef m2; CRef m3; CRef m4]].

(** vim *)
Definition lang_vim : M language :=
  let* m1 := new [ClassName (js "string"); Begin (js "'"); End_ (js "'"); Illegal (js "\n")] in
  let* m2 := new [ClassName (js "string"); Begin (js "＂(\\＂|\n\\|[^＂\n])*＂")] in
  let* m3 := COMMENT (js "＂") (js "$") [] in
  let* m4 := new [ClassName (js "variable"); Begin (js "[bwtglsav]:[\w\d_]*")] in
  let* m5 := new [ClassName (js "params"); Begin (js "\("); End_ (js "\)")] in
  let* m6 := new [ClassName (js "function"); BeginKeywords (js "function function!"); End_ (js "$"); Relevance 0;
      Contains [CRef TITLE_MODE; CRef m5]] in
  let* m7 := new [ClassName (js "symbol"); Begin (js "<[\w-]+>")] in
  lang plain_lang [Lexemes (js "[!#@\w]+");
      Keywords (KObj [(js "keyword", js "N|0 P|0 X|0 a|0 ab abc abo al am an|0 ar arga argd arge argdo argg argl argu as au aug aun b|0 bN ba " ++
      js "bad bd be bel bf bl bm bn bo bp br brea breaka breakd breakl bro bufdo buffers bun bw c|0 cN cNf ca " ++
      js "cabc caddb cad caddf cal cat cb cc ccl cd ce cex cf cfir cgetb cgete cg changes chd che checkt cl cla " ++
      js "clo cm cmapc cme cn cnew cnf cno cnorea cnoreme co col colo com comc comp con conf cope " ++
      js "cp cpf cq cr cs cst cu cuna cunme cw delm deb debugg delc delf dif diffg diffo diffp diffpu diffs diffthis " ++
      js "dig di dl dell dj dli do doautoa dp dr ds dsp e|0 ea ec echoe echoh echom echon el elsei em en endfo " ++
      js "endf endt endw ene ex exe exi exu f|0 files filet fin fina fini fir fix fo foldc foldd folddoc foldo " ++
      js "for fu go gr grepa gu gv ha helpf helpg helpt hi hid his ia iabc if ij il im imapc " ++
      js "ime ino inorea inoreme int is isp iu iuna iunme j|0 ju k|0 keepa kee keepj lN lNf l|0 lad laddb laddf " ++
      js "la lan lat lb lc lch lcl lcs le lefta let lex lf lfir lgetb lgete lg lgr lgrepa lh ll lla lli lmak lm " ++
      js "lmapc lne lnew lnf ln loadk lo loc lockv lol lope lp lpf lr ls lt lu lua luad luaf lv lvimgrepa lw m|0 " ++
      js "ma mak map mapc marks mat me menut mes mk mks mksp mkv mkvie mod mz mzf nbc nb nbs new nm nmapc nme " ++
      js "nn nnoreme noa no noh norea noreme norm nu nun nunme ol o|0 om omapc ome on ono onoreme opt ou ounme " ++
      js "ow p|0 " ++
      js "profd prof pro promptr pc ped pe perld po popu pp pre prev ps pt ptN ptf ptj ptl ptn ptp ptr pts pu " ++
      js "pw py3 python3 py3d py3f py pyd pyf quita qa rec red redi redr redraws reg res ret retu rew ri rightb " ++
      js "rub rubyd rubyf rund ru rv sN san sa sal sav sb sbN sba sbf sbl sbm sbn sbp sbr scrip scripte scs se " ++
      js "setf setg setl sf sfir sh sim sig sil sl sla sm smap smapc sme sn sni sno snor snoreme sor " ++
      js "so spelld spe spelli spellr spellu spellw sp spr sre st sta startg startr star stopi stj sts sun sunm " ++
      js "sunme sus sv sw sy synti sync tN tabN tabc tabdo tabe tabf tabfir tabl tabm tabnew " ++
      js "tabn tabo tabp tabr tabs tab ta tags tc tcld tclf te tf th tj tl tm tn to tp tr try ts tu u|0 undoj " ++
      js "undol una unh unl unlo unm unme uns up ve verb vert vim vimgrepa vi viu vie vm vmapc vme vne vn vnoreme " ++
      js "vs vu vunme windo w|0 wN wa wh wi winc winp wn wp wq wqa ws wu wv x|0 xa xmapc xm xme xn xnoreme xu " ++
      js "xunme y|0 z|0 ~ " ++
      js "Next Print append abbreviate abclear aboveleft all amenu anoremenu args argadd argdelete argedit argglobal " ++
      js "arglocal argument ascii autocmd augroup aunmenu buffer bNext ball badd bdelete behave belowright bfirst " ++
      js "blast bmodified bnext botright bprevious brewind break breakadd breakdel breaklist browse bunload " ++
      js "bwipeout change cNext cNfile cabbrev cabclear caddbuffer caddexpr caddfile call catch cbuffer cclose " ++
      js "center cexpr cfile cfirst cgetbuffer cgetexpr cgetfile chdir checkpath checktime clist clast close cmap " ++
      js "cmapclear cmenu cnext cnewer cnfile cnoremap cnoreabbrev cnoremenu copy colder colorscheme command comclear " ++
      js "compiler continue confirm copen cprevious cpfile cquit crewind cscope cstag cunmap " ++
      js "cunabbrev cunmenu cwindow delete delmarks debug debuggreedy delcommand delfunction diffupdate diffget " ++
      js "diffoff diffpatch diffput diffsplit digraphs display deletel djump dlist doautocmd doautoall deletep " ++
      js "drop dsearch dsplit edit earlier echo echoerr echohl echomsg else elseif emenu endif endfor " ++
      js "endfunction endtry endwhile enew execute exit exusage file filetype find finally finish first fixdel " ++
      js "fold foldclose folddoopen folddoclosed foldopen function global goto grep grepadd gui gvim hardcopy " ++
      js "help helpfind helpgrep helptags highlight hide history insert iabbrev iabclear ijump ilist imap " ++
      js "imapclear imenu inoremap inoreabbrev inoremenu intro isearch isplit iunmap iunabbrev iunmenu join jumps " ++
      js "keepalt keepmarks keepjumps lNext lNfile list laddexpr laddbuffer laddfile last language later lbuffer " ++
      js "lcd lchdir lclose lcscope left leftabove lexpr lfile lfirst lgetbuffer lgetexpr lgetfile lgrep lgrepadd " ++
      js "lhelpgrep llast llist lmake lmap lmapclear lnext lnewer lnfile lnoremap loadkeymap loadview " ++
      js "lockmarks lockvar lolder lopen lprevious lpfile lrewind ltag lunmap luado luafile lvimgrep lvimgrepadd " ++
      js "lwindow move mark make mapclear match menu menutranslate messages mkexrc mksession mkspell mkvimrc mkview " ++
      js "mode mzscheme mzfile nbclose nbkey nbsart next nmap nmapclear nmenu nnoremap " ++
      js "nnoremenu noautocmd noremap nohlsearch noreabbrev noremenu normal number nunmap nunmenu oldfiles open " ++
      js "omap omapclear omenu only onoremap onoremenu options ounmap ounmenu ownsyntax print profdel profile " ++
      js "promptfind promptrepl pclose pedit perl perldo pop popup ppop preserve previous psearch ptag ptNext " ++
      js "ptfirst ptjump ptlast ptnext ptprevious ptrewind ptselect put pwd py3do py3file python pydo pyfile quit " ++
      js "quitall qall read recover redo redir redraw redrawstatus registers resize retab return rewind right " ++
      js "rightbelow ruby rubydo rubyfile rundo runtime rviminfo substitute sNext sandbox sargument sall saveas " ++
      js "sbuffer sbNext sball sbfirst sblast sbmodified sbnext sbprevious sbrewind scriptnames scriptencoding " ++
      js "scscope set setfiletype setglobal setlocal sfind sfirst shell simalt sign silent sleep slast smagic " ++
      js "smapclear smenu snext sniff snomagic snoremap snoremenu sort source spelldump spellgood spellinfo spellrepall " ++
      js "spellundo spellwrong split sprevious srewind stop stag startgreplace startreplace " ++
      js "startinsert stopinsert stjump stselect sunhide sunmap sunmenu suspend sview swapname syntax syntime " ++
      js "syncbind tNext tabNext tabclose tabedit tabfind tabfirst tablast tabmove tabnext tabonly tabprevious " ++
      js "tabrewind tag tcl tcldo tclfile tearoff tfirst throw tjump tlast tmenu tnext topleft tprevious " ++
      js "trewind tselect tunmenu undo undojoin undolist unabbreviate unhide unlet unlockvar unmap unmenu unsilent " ++
      js "update vglobal version verbose vertical vimgrep vimgrepadd visual viusage view vmap vmapclear vmenu " ++
      js "vnew " ++
      js "vnoremap vnoremenu vsplit vunmap vunmenu write wNext wall while winsize wincmd winpos wnext wprevious " ++
      js "wqall wsverb wundo wviminfo xit xall xmapclear xmap xmenu xnoremap xnoremenu xunmap xunmenu yank");
      (js "built_in", js "synIDtrans atan2 range matcharg did_filetype asin feedkeys xor argv " ++
      js "complete_check add getwinposx getqflist getwinposy screencol " ++
      js "clearmatches empty extend getcmdpos mzeval garbagecollect setreg " ++
      js "ceil sqrt diff_hlID inputsecret get getfperm getpid filewritable " ++
      js "shiftwidth max sinh isdirectory synID system inputrestore winline " ++
      js "atan visualmode inputlist tabpagewinnr round getregtype mapcheck " ++
      js "hasmapto histdel argidx findfile sha256 exists toupper getcmdline " ++
      js "taglist string getmatches bufnr strftime winwidth bufexists " ++
      js "strtrans tabpagebuflist setcmdpos remote_read printf setloclist " ++
      js "getpos getline bufwinnr float2nr len getcmdtype diff_filler luaeval " ++
      js "resolve libcallnr foldclosedend reverse filter has_key bufname " ++
      js "str2float strlen setline getcharmod setbufvar index searchpos " ++
      js "shellescape undofile foldclosed setqflist buflisted strchars str2nr " ++
      js "virtcol floor remove undotree remote_expr winheight gettabwinvar " ++
      js "reltime cursor tabpagenr finddir localtime acos getloclist search " ++
      js "tanh matchend rename gettabvar strdisplaywidth type abs py3eval " ++
      js "setwinvar tolower wildmenumode log10 spellsuggest bufloaded " ++
      js "synconcealed nextnonblank server2client complete settabwinvar " ++
      js "executable input wincol setmatches getftype hlID inputsave " ++
      js "searchpair or screenrow line settabvar histadd deepcopy strpart " ++
      js "remote_peek and eval getftime submatch screenchar winsaveview " ++
      js "matchadd mkdir screenattr getfontname libcall reltimestr getfsize " ++
      js "winnr invert pow getbufline byte2line soundfold repeat fnameescape " ++
      js "tagfiles sin strwidth spellbadword trunc maparg log lispindent " ++
      js "hostname setpos globpath remote_foreground getchar synIDattr " ++
      js "fnamemodify cscope_connection stridx winbufnr indent min " ++
      js "complete_add nr2char searchpairpos inputdialog values matchlist " ++
      js "items hlexists strridx browsedir expand fmod pathshorten line2byte " ++
      js "argc count getwinvar glob foldtextresult getreg foreground cosh " ++
      js "matchdelete has char2nr simplify histget searchdecl iconv " ++
      js "winrestcmd pumvisible writefile foldlevel haslocaldir keys cos " ++
      js "matchstr foldtext histnr tan tempname getcwd byteidx getbufvar " ++
      js "islocked escape eventhandler remote_send serverlist winrestview " ++
      js "synstack pyeval prevnonblank readfile cindent filereadable changenr " ++ js "exp")]); Illegal (js ";");
      Contains [CRef NUMBER_MODE; CRef m1; CRef m2; CRef m3; CRef m4; CRef m6; CRef m7]].

(** x86asm *)
Definition lang_x86asm : M language :=
  let* m1 := COMMENT (js ";") (js "$") [Relevance 0] in
  let* m2 := new [ClassName (js "number"); Variants [[Begin (js "\b(?:([0-9][0-9_]*" ++
      js ")?\.[0-9_]*(?:[eE][+-]?[0-9_]+)?|" ++ js "(0[Xx])?[0-9][0-9_]*\.?[0-9_]*(?:[pP](?:[+-]?[0-9_]+)?)?)\b");
      Relevance 0]; [Begin (js "\$[0-9][0-9A-Fa-f]*"); Relevance 0];
      [Begin (js "\b(?:[0-9A-Fa-f][0-9A-Fa-f_]*[Hh]|[0-9][0-9_]*[DdTt]?|[0-7][0-7_]*[QqOo]|[0-1][0-1_]*[BbYy])\b")];
      [Begin (js "\b(?:0[Xx][0-9A-Fa-f_]+|0[DdTt][0-9_]+|0[QqOo][0-7_]+|0[BbYy][0-1_]+)\b")]]] in
  let* m3 := new [ClassName (js "string"); Variants [[Begin (js "'"); End_ (js "[^\\]'")]; [Begin (js "`");
      End_ (js "[^\\]`")]]; Relevance 0] in
  let* m4 := new [ClassName (js "symbol"); Variants [[Begin (js "^\s*[A-Za-z._?][A-Za-z0-9_$#@~.?]*(:|\s+label)")];
      [Begin (js "^\s*%%[A-Za-z0-9_$#@~.?]*:")]]; Relevance 0] in
  let* m5 := new [ClassName (js "subst"); Begin (js "%[0-9]+"); Relevance 0] in
  let* m6 := new [ClassName (js "subst"); Begin (js "%!S+"); Relevance 0] in
  let* m7 := new [ClassName (js "meta"); Begin (js "^\s*\.[\w_-]+")] in
  lang (mkLP true [] false) [Lexemes (js "[.%]?" ++ IDENT_RE);
      Keywords (KObj [(js "keyword", js "lock rep repe repz repne repnz xaquire xrelease bnd nobnd " ++
      js "aaa aad aam aas adc add and arpl bb0_reset bb1_reset bound bsf bsr bswap bt btc btr bts call cbw cdq " ++
      js "cdqe clc cld cli clts cmc cmp cmpsb cmpsd cmpsq cmpsw cmpxchg cmpxchg486 cmpxchg8b cmpxchg16b cpuid " ++
      js "cpu_read cpu_write cqo cwd cwde daa das dec div dmint emms enter equ f2xm1 fabs fadd faddp fbld fbstp " ++
      js "fchs fclex fcmovb fcmovbe fcmove fcmovnb fcmovnbe fcmovne fcmovnu fcmovu fcom fcomi fcomip fcomp fcompp " ++
      js "fcos fdecstp fdisi fdiv fdivp fdivr fdivrp femms feni ffree ffreep fiadd ficom ficomp fidiv fidivr fild " ++
      js "fimul fincstp finit fist fistp fisttp fisub fisubr fld fld1 fldcw fldenv fldl2e fldl2t fldlg2 fldln2 " ++
      js "fldpi fldz fmul fmulp fnclex fndisi fneni fninit fnop fnsave fnstcw fnstenv fnstsw fpatan fprem fprem1 " ++
      js "fptan frndint frstor fsave fscale fsetpm fsin fsincos fsqrt fst fstcw fstenv fstp fstsw fsub fsubp fsubr " ++
      js "fsubrp ftst fucom fucomi fucomip fucomp fucompp fxam fxch fxtract fyl2x fyl2xp1 hlt ibts icebp idiv " ++
      js "imul in inc incbin insb insd insw int int01 int1 int03 int3 into invd invpcid invlpg invlpga iret iretd " ++
      js "iretq iretw jcxz jecxz jrcxz jmp jmpe lahf lar lds lea leave les lfence lfs lgdt lgs lidt lldt lmsw " ++
      js "loadall loadall286 lodsb lodsd lodsq lodsw loop loope loopne loopnz loopz lsl lss ltr mfence monitor " ++
      js "mov movd movq movsb movsd movsq movsw movsx movsxd movzx mul mwait neg nop not or out outsb outsd outsw " ++
      js "packssdw packsswb packuswb paddb paddd paddsb paddsiw paddsw paddusb paddusw paddw pand pandn pause " ++
      js "paveb pavgusb pcmpeqb pcmpeqd pcmpeqw pcmpgtb pcmpgtd pcmpgtw pdistib pf2id pfacc pfadd pfcmpeq pfcmpge " ++
      js "pfcmpgt pfmax pfmin pfmul pfrcp pfrcpit1 pfrcpit2 pfrsqit1 pfrsqrt pfsub pfsubr pi2fd pmachriw pmaddwd " ++
      js "pmagw pmulhriw pmulhrwa pmulhrwc pmulhw pmullw pmvgezb pmvlzb pmvnzb pmvzb pop popa popad popaw popf " ++
      js "popfd popfq popfw por prefetch prefetchw pslld psllq psllw psrad psraw psrld psrlq psrlw psubb psubd " ++
      js "psubsb psubsiw psubsw psubusb psubusw psubw punpckhbw punpckhdq punpckhwd punpcklbw punpckldq punpcklwd " ++
      js "push pusha pushad pushaw pushf pushfd pushfq pushfw pxor rcl rcr rdshr rdmsr rdpmc rdtsc rdtscp ret " ++
      js "retf retn rol ror rdm rsdc rsldt rsm rsts sahf sal salc sar sbb scasb scasd scasq scasw sfence sgdt " ++
      js "shl shld shr shrd sidt sldt skinit smi smint smintold smsw stc std sti stosb stosd stosq stosw str sub " ++
      js "svdc svldt svts swapgs syscall sysenter sysexit sysret test ud0 ud1 ud2b ud2 ud2a umov verr verw fwait " ++
      js "wbinvd wrshr wrmsr xadd xbts xchg xlatb xlat xor cmove cmovz cmovne cmovnz cmova cmovnbe cmovae cmovnb " ++
      js "cmovb cmovnae cmovbe cmovna cmovg cmovnle cmovge cmovnl cmovl cmovnge cmovle cmovng cmovc cmovnc cmovo " ++
      js "cmovno cmovs cmovns cmovp cmovpe cmovnp cmovpo je jz jne jnz ja jnbe jae jnb jb jnae jbe jna jg jnle " ++
      js "jge jnl jl jnge jle jng jc jnc jo jno js jns jpo jnp jpe jp sete setz setne setnz seta setnbe setae " ++
      js "setnb setnc setb setnae setcset setbe setna setg setnle setge setnl setl setnge setle setng sets setns " ++
      js "seto setno setpe setp setpo setnp addps addss andnps andps cmpeqps cmpeqss cmpleps cmpless cmpltps cmpltss " ++
      js "cmpneqps cmpneqss cmpnleps cmpnless cmpnltps cmpnltss cmpordps cmpordss cmpunordps cmpunordss cmpps " ++
      js "cmpss comiss cvtpi2ps cvtps2pi cvtsi2ss cvtss2si cvttps2pi cvttss2si divps divss ldmxcsr maxps maxss " ++
      js "minps minss movaps movhps movlhps movlps movhlps movmskps movntps movss movups mulps mulss orps rcpps " ++
      js "rcpss rsqrtps rsqrtss shufps sqrtps sqrtss stmxcsr subps subss ucomiss unpckhps unpcklps xorps fxrstor " ++
      js "fxrstor64 fxsave fxsave64 xgetbv xsetbv xsave xsave64 xsaveopt xsaveopt64 xrstor xrstor64 prefetchnta " ++
      js "prefetcht0 prefetcht1 prefetcht2 maskmovq movntq pavgb pavgw pextrw pinsrw pmaxsw pmaxub pminsw pminub " ++
      js "pmovmskb pmulhuw psadbw pshufw pf2iw pfnacc pfpnacc pi2fw pswapd maskmovdqu clflush movntdq movnti movntpd " ++
      js "movdqa movdqu movdq2q movq2dq paddq pmuludq pshufd pshufhw pshuflw pslldq psrldq psubq punpckhqdq punpcklqdq " ++
      js "addpd addsd andnpd andpd cmpeqpd cmpeqsd cmplepd cmplesd cmpltpd cmpltsd cmpneqpd cmpneqsd cmpnlepd " ++
      js "cmpnlesd cmpnltpd cmpnltsd cmpordpd cmpordsd cmpunordpd cmpunordsd cmppd comisd cvtdq2pd cvtdq2ps cvtpd2dq " ++
      js "cvtpd2pi cvtpd2ps cvtpi2pd cvtps2dq cvtps2pd cvtsd2si cvtsd2ss cvtsi2sd cvtss2sd cvttpd2pi cvttpd2dq " ++
      js "cvttps2dq cvttsd2si divpd divsd maxpd maxsd minpd minsd movapd movhpd movlpd movmskpd movupd mulpd mulsd " ++
      js "orpd shufpd sqrtpd sqrtsd subpd subsd ucomisd unpckhpd unpcklpd xorpd addsubpd addsubps haddpd haddps " ++
      js "hsubpd hsubps lddqu movddup movshdup movsldup clgi stgi vmcall vmclear vmfunc vmlaunch vmload vmmcall " ++
      js "vmptrld vmptrst vmread vmresume vmrun vmsave vmwrite vmxoff vmxon invept invvpid pabsb pabsw pabsd palignr " ++
      js "phaddw phaddd phaddsw phsubw phsubd phsubsw pmaddubsw pmulhrsw pshufb psignb psignw psignd extrq insertq " ++
      js "movntsd movntss lzcnt blendpd blendps blendvpd blendvps dppd dpps extractps insertps movntdqa mpsadbw " ++
      js "packusdw pblendvb pblendw pcmpeqq pextrb pextrd pextrq phminposuw pinsrb pinsrd pinsrq pmaxsb pmaxsd " ++
      js "pmaxud pmaxuw pminsb pminsd pminud pminuw pmovsxbw pmovsxbd pmovsxbq pmovsxwd pmovsxwq pmovsxdq pmovzxbw " ++
      js "pmovzxbd pmovzxbq pmovzxwd pmovzxwq pmovzxdq pmuldq pmulld ptest roundpd roundps roundsd roundss crc32 " ++
      js "pcmpestri pcmpestrm pcmpistri pcmpistrm pcmpgtq popcnt getsec pfrcpv pfrsqrtv movbe aesenc aesenclast " ++
      js "aesdec aesdeclast aesimc aeskeygenassist vaesenc vaesenclast vaesdec vaesdeclast vaesimc vaeskeygenassist " ++
      js "vaddpd vaddps vaddsd vaddss vaddsubpd vaddsubps vandpd vandps vandnpd vandnps vblendpd vblendps vblendvpd " ++
      js "vblendvps vbroadcastss vbroadcastsd vbroadcastf128 vcmpeq_ospd vcmpeqpd vcmplt_ospd vcmpltpd vcmple_ospd " ++
      js "vcmplepd vcmpunord_qpd vcmpunordpd vcmpneq_uqpd vcmpneqpd vcmpnlt_uspd vcmpnltpd vcmpnle_uspd vcmpnlepd " ++
      js "vcmpord_qpd vcmpordpd vcmpeq_uqpd vcmpnge_uspd vcmpngepd vcmpngt_uspd vcmpngtpd vcmpfalse_oqpd vcmpfalsepd " ++
      js "vcmpneq_oqpd vcmpge_ospd vcmpgepd vcmpgt_ospd vcmpgtpd vcmptrue_uqpd vcmptruepd vcmplt_oqpd vcmple_oqpd " ++
      js "vcmpunord_spd vcmpneq_uspd vcmpnlt_uqpd vcmpnle_uqpd vcmpord_spd vcmpeq_uspd vcmpnge_uqpd vcmpngt_uqpd " ++
      js "vcmpfalse_ospd vcmpneq_ospd vcmpge_oqpd vcmpgt_oqpd vcmptrue_uspd vcmppd vcmpeq_osps vcmpeqps vcmplt_osps " ++
      js "vcmpltps vcmple_osps vcmpleps vcmpunord_qps vcmpunordps vcmpneq_uqps vcmpneqps vcmpnlt_usps vcmpnltps " ++
      js "vcmpnle_usps vcmpnleps vcmpord_qps vcmpordps vcmpeq_uqps vcmpnge_usps vcmpngeps vcmpngt_usps vcmpngtps " ++
      js "vcmpfalse_oqps vcmpfalseps vcmpneq_oqps vcmpge_osps vcmpgeps vcmpgt_osps vcmpgtps vcmptrue_uqps vcmptrueps " ++
      js "vcmplt_oqps vcmple_oqps vcmpunord_sps vcmpneq_usps vcmpnlt_uqps vcmpnle_uqps vcmpord_sps vcmpeq_usps " ++
      js "vcmpnge_uqps vcmpngt_uqps vcmpfalse_osps vcmpneq_osps vcmpge_oqps vcmpgt_oqps vcmptrue_usps vcmpps vcmpeq_ossd " ++
      js "vcmpeqsd vcmplt_ossd vcmpltsd vcmple_ossd vcmplesd vcmpunord_qsd vcmpunordsd vcmpneq_uqsd vcmpneqsd " ++
      js "vcmpnlt_ussd vcmpnltsd vcmpnle_ussd vcmpnlesd vcmpord_qsd vcmpordsd vcmpeq_uqsd vcmpnge_ussd vcmpngesd " ++
      js "vcmpngt_ussd vcmpngtsd vcmpfalse_oqsd vcmpfalsesd vcmpneq_oqsd vcmpge_ossd vcmpgesd vcmpgt_ossd vcmpgtsd " ++
      js "vcmptrue_uqsd vcmptruesd vcmplt_oqsd vcmple_oqsd vcmpunord_ssd vcmpneq_ussd vcmpnlt_uqsd vcmpnle_uqsd " ++
      js "vcmpord_ssd vcmpeq_ussd vcmpnge_uqsd vcmpngt_uqsd vcmpfalse_ossd vcmpneq_ossd vcmpge_oqsd vcmpgt_oqsd " ++
      js "vcmptrue_ussd vcmpsd vcmpeq_osss vcmpeqss vcmplt_osss vcmpltss vcmple_osss vcmpless vcmpunord_qss vcmpunordss " ++
      js "vcmpneq_uqss vcmpneqss vcmpnlt_usss vcmpnltss vcmpnle_usss vcmpnless vcmpord_qss vcmpordss vcmpeq_uqss " ++
      js "vcmpnge_usss vcmpngess vcmpngt_usss vcmpngtss vcmpfalse_oqss vcmpfalsess vcmpneq_oqss vcmpge_osss vcmpgess " ++
      js "vcmpgt_osss vcmpgtss vcmptrue_uqss vcmptruess vcmplt_oqss vcmple_oqss vcmpunord_sss vcmpneq_usss vcmpnlt_uqss " ++
      js "vcmpnle_uqss vcmpord_sss vcmpeq_usss vcmpnge_uqss vcmpngt_uqss vcmpfalse_osss vcmpneq_osss vcmpge_oqss " ++
      js "vcmpgt_oqss vcmptrue_usss vcmpss vcomisd vcomiss vcvtdq2pd vcvtdq2ps vcvtpd2dq vcvtpd2ps vcvtps2dq vcvtps2pd " ++
      js "vcvtsd2si vcvtsd2ss vcvtsi2sd vcvtsi2ss vcvtss2sd vcvtss2si vcvttpd2dq vcvttps2dq vcvttsd2si vcvttss2si " ++
      js "vdivpd vdivps vdivsd vdivss vdppd vdpps vextractf128 vextractps vhaddpd vhaddps vhsubpd vhsubps vinsertf128 " ++
      js "vinsertps vlddqu vldqqu vldmxcsr vmaskmovdqu vmaskmovps vmaskmovpd vmaxpd vmaxps vmaxsd vmaxss vminpd " ++
      js "vminps vminsd vminss vmovapd vmovaps vmovd vmovq vmovddup vmovdqa vmovqqa vmovdqu vmovqqu vmovhlps vmovhpd " ++
      js "vmovhps vmovlhps vmovlpd vmovlps vmovmskpd vmovmskps vmovntdq vmovntqq vmovntdqa vmovntpd vmovntps vmovsd " ++
      js "vmovshdup vmovsldup vmovss vmovupd vmovups vmpsadbw vmulpd vmulps vmulsd vmulss vorpd vorps vpabsb vpabsw " ++
      js "vpabsd vpacksswb vpackssdw vpackuswb vpackusdw vpaddb vpaddw vpaddd vpaddq vpaddsb vpaddsw vpaddusb " ++
      js "vpaddusw vpalignr vpand vpandn vpavgb vpavgw vpblendvb vpblendw vpcmpestri vpcmpestrm vpcmpistri vpcmpistrm " ++
      js "vpcmpeqb vpcmpeqw vpcmpeqd vpcmpeqq vpcmpgtb vpcmpgtw vpcmpgtd vpcmpgtq vpermilpd vpermilps vperm2f128 " ++
      js "vpextrb vpextrw vpextrd vpextrq vphaddw vphaddd vphaddsw vphminposuw vphsubw vphsubd vphsubsw vpinsrb " ++
      js "vpinsrw vpinsrd vpinsrq vpmaddwd vpmaddubsw vpmaxsb vpmaxsw vpmaxsd vpmaxub vpmaxuw vpmaxud vpminsb " ++
      js "vpminsw vpminsd vpminub vpminuw vpminud vpmovmskb vpmovsxbw vpmovsxbd vpmovsxbq vpmovsxwd vpmovsxwq " ++
      js "vpmovsxdq vpmovzxbw vpmovzxbd vpmovzxbq vpmovzxwd vpmovzxwq vpmovzxdq vpmulhuw vpmulhrsw vpmulhw vpmullw " ++
      js "vpmulld vpmuludq vpmuldq vpor vpsadbw vpshufb vpshufd vpshufhw vpshuflw vpsignb vpsignw vpsignd vpslldq " ++
      js "vpsrldq vpsllw vpslld vpsllq vpsraw vpsrad vpsrlw vpsrld vpsrlq vptest vpsubb vpsubw vpsubd vpsubq vpsubsb " ++
      js "vpsubsw vpsubusb vpsubusw vpunpckhbw vpunpckhwd vpunpckhdq vpunpckhqdq vpunpcklbw vpunpcklwd vpunpckldq " ++
      js "vpunpcklqdq vpxor vrcpps vrcpss vrsqrtps vrsqrtss vroundpd vroundps vroundsd vroundss vshufpd vshufps " ++
      js "vsqrtpd vsqrtps vsqrtsd vsqrtss vstmxcsr vsubpd vsubps vsubsd vsubss vtestps vtestpd vucomisd vucomiss " ++
      js "vunpckhpd vunpckhps vunpcklpd vunpcklps vxorpd vxorps vzeroall vzeroupper pclmullqlqdq pclmulhqlqdq " ++
      js "pclmullqhqdq pclmulhqhqdq pclmulqdq vpclmullqlqdq vpclmulhqlqdq vpclmullqhqdq vpclmulhqhqdq vpclmulqdq " ++
      js "vfmadd132ps vfmadd132pd vfmadd312ps vfmadd312pd vfmadd213ps vfmadd213pd vfmadd123ps vfmadd123pd vfmadd231ps " ++
      js "vfmadd231pd vfmadd321ps vfmadd321pd vfmaddsub132ps vfmaddsub132pd vfmaddsub312ps vfmaddsub312pd vfmaddsub213ps " ++
      js "vfmaddsub213pd vfmaddsub123ps vfmaddsub123pd vfmaddsub231ps vfmaddsub231pd vfmaddsub321ps vfmaddsub321pd " ++
      js "vfmsub132ps vfmsub132pd vfmsub312ps vfmsub312pd vfmsub213ps vfmsub213pd vfmsub123ps vfmsub123pd vfmsub231ps " ++
      js "vfmsub231pd vfmsub321ps vfmsub321pd vfmsubadd132ps vfmsubadd132pd vfmsubadd312ps vfmsubadd312pd vfmsubadd213ps " ++
      js "vfmsubadd213pd vfmsubadd123ps vfmsubadd123pd vfmsubadd231ps vfmsubadd231pd vfmsubadd321ps vfmsubadd321pd " ++
      js "vfnmadd132ps vfnmadd132pd vfnmadd312ps vfnmadd312pd vfnmadd213ps vfnmadd213pd vfnmadd123ps vfnmadd123pd " ++
      js "vfnmadd231ps vfnmadd231pd vfnmadd321ps vfnmadd321pd vfnmsub132ps vfnmsub132pd vfnmsub312ps vfnmsub312pd " ++
      js "vfnmsub213ps vfnmsub213pd vfnmsub123ps vfnmsub123pd vfnmsub231ps vfnmsub231pd vfnmsub321ps vfnmsub321pd " ++
      js "vfmadd132ss vfmadd132sd vfmadd312ss vfmadd312sd vfmadd213ss vfmadd213sd vfmadd123ss vfmadd123sd vfmadd231ss " ++
      js "vfmadd231sd vfmadd321ss vfmadd321sd vfmsub132ss vfmsub132sd vfmsub312ss vfmsub312sd vfmsub213ss vfmsub213sd " ++
      js "vfmsub123ss vfmsub123sd vfmsub231ss vfmsub231sd vfmsub321ss vfmsub321sd vfnmadd132ss vfnmadd132sd vfnmadd312ss " ++
      js "vfnmadd312sd vfnmadd213ss vfnmadd213sd vfnmadd123ss vfnmadd123sd vfnmadd231ss vfnmadd231sd vfnmadd321ss " ++
      js "vfnmadd321sd vfnmsub132ss vfnmsub132sd vfnmsub312ss vfnmsub312sd vfnmsub213ss vfnmsub213sd vfnmsub123ss " ++
      js "vfnmsub123sd vfnmsub231ss vfnmsub231sd vfnmsub321ss vfnmsub321sd rdfsbase rdgsbase rdrand wrfsbase wrgsbase " ++
      js "vcvtph2ps vcvtps2ph adcx adox rdseed clac stac xstore xcryptecb xcryptcbc xcryptctr xcryptcfb xcryptofb " ++
      js "montmul xsha1 xsha256 llwpcb slwpcb lwpval lwpins vfmaddpd vfmaddps vfmaddsd vfmaddss vfmaddsubpd vfmaddsubps " ++
      js "vfmsubaddpd vfmsubaddps vfmsubpd vfmsubps vfmsubsd vfmsubss vfnmaddpd vfnmaddps vfnmaddsd vfnmaddss " ++
      js "vfnmsubpd vfnmsubps vfnmsubsd vfnmsubss vfrczpd vfrczps vfrczsd vfrczss vpcmov vpcomb vpcomd vpcomq " ++
      js "vpcomub vpcomud vpcomuq vpcomuw vpcomw vphaddbd vphaddbq vphaddbw vphadddq vphaddubd vphaddubq vphaddubw " ++
      js "vphaddudq vphadduwd vphadduwq vphaddwd vphaddwq vphsubbw vphsubdq vphsubwd vpmacsdd vpmacsdqh vpmacsdql " ++
      js "vpmacssdd vpmacssdqh vpmacssdql vpmacsswd vpmacssww vpmacswd vpmacsww vpmadcsswd vpmadcswd vpperm vprotb " ++
      js "vprotd vprotq vprotw vpshab vpshad vpshaq vpshaw vpshlb vpshld vpshlq vpshlw vbroadcasti128 vpblendd " ++
      js "vpbroadcastb vpbroadcastw vpbroadcastd vpbroadcastq vpermd vpermpd vpermps vpermq vperm2i128 vextracti128 " ++
      js "vinserti128 vpmaskmovd vpmaskmovq vpsllvd vpsllvq vpsravd vpsrlvd vpsrlvq vgatherdpd vgatherqpd vgatherdps " ++
      js "vgatherqps vpgatherdd vpgatherqd vpgatherdq vpgatherqq xabort xbegin xend xtest andn bextr blci blcic " ++
      js "blsi blsic blcfill blsfill blcmsk blsmsk blsr blcs bzhi mulx pdep pext rorx sarx shlx shrx tzcnt tzmsk " ++
      js "t1mskc valignd valignq vblendmpd vblendmps vbroadcastf32x4 vbroadcastf64x4 vbroadcasti32x4 vbroadcasti64x4 " ++
      js "vcompresspd vcompressps vcvtpd2udq vcvtps2udq vcvtsd2usi vcvtss2usi vcvttpd2udq vcvttps2udq vcvttsd2usi " ++
      js "vcvttss2usi vcvtudq2pd vcvtudq2ps vcvtusi2sd vcvtusi2ss vexpandpd vexpandps vextractf32x4 vextractf64x4 " ++
      js "vextracti32x4 vextracti64x4 vfixupimmpd vfixupimmps vfixupimmsd vfixupimmss vgetexppd vgetexpps vgetexpsd " ++
      js "vgetexpss vgetmantpd vgetmantps vgetmantsd vgetmantss vinsertf32x4 vinsertf64x4 vinserti32x4 vinserti64x4 " ++
      js "vmovdqa32 vmovdqa64 vmovdqu32 vmovdqu64 vpabsq vpandd vpandnd vpandnq vpandq vpblendmd vpblendmq vpcmpltd " ++
      js "vpcmpled vpcmpneqd vpcmpnltd vpcmpnled vpcmpd vpcmpltq vpcmpleq vpcmpneqq vpcmpnltq vpcmpnleq vpcmpq " ++
      js "vpcmpequd vpcmpltud vpcmpleud vpcmpnequd vpcmpnltud vpcmpnleud vpcmpud vpcmpequq vpcmpltuq vpcmpleuq " ++
      js "vpcmpnequq vpcmpnltuq vpcmpnleuq vpcmpuq vpcompressd vpcompressq vpermi2d vpermi2pd vpermi2ps vpermi2q " ++
      js "vpermt2d vpermt2pd vpermt2ps vpermt2q vpexpandd vpexpandq vpmaxsq vpmaxuq vpminsq vpminuq vpmovdb vpmovdw " ++
      js "vpmovqb vpmovqd vpmovqw vpmovsdb vpmovsdw vpmovsqb vpmovsqd vpmovsqw vpmovusdb vpmovusdw vpmovusqb vpmovusqd " ++
      js "vpmovusqw vpord vporq vprold vprolq vprolvd vprolvq vprord vprorq vprorvd vprorvq vpscatterdd vpscatterdq " ++
      js "vpscatterqd vpscatterqq vpsraq vpsravq vpternlogd vpternlogq vptestmd vptestmq vptestnmd vptestnmq vpxord " ++
      js "vpxorq vrcp14pd vrcp14ps vrcp14sd vrcp14ss vrndscalepd vrndscaleps vrndscalesd vrndscaless vrsqrt14pd " ++
      js "vrsqrt14ps vrsqrt14sd vrsqrt14ss vscalefpd vscalefps vscalefsd vscalefss vscatterdpd vscatterdps vscatterqpd " ++
      js "vscatterqps vshuff32x4 vshuff64x2 vshufi32x4 vshufi64x2 kandnw kandw kmovw knotw kortestw korw kshiftlw " ++
      js "kshiftrw kunpckbw kxnorw kxorw vpbroadcastmb2q vpbroadcastmw2d vpconflictd vpconflictq vplzcntd vplzcntq " ++
      js "vexp2pd vexp2ps vrcp28pd vrcp28ps vrcp28sd vrcp28ss vrsqrt28pd vrsqrt28ps vrsqrt28sd vrsqrt28ss vgatherpf0dpd " ++
      js "vgatherpf0dps vgatherpf0qpd vgatherpf0qps vgatherpf1dpd vgatherpf1dps vgatherpf1qpd vgatherpf1qps vscatterpf0dpd " ++
      js "vscatterpf0dps vscatterpf0qpd vscatterpf0qps vscatterpf1dpd vscatterpf1dps vscatterpf1qpd vscatterpf1qps " ++
      js "prefetchwt1 bndmk bndcl bndcu bndcn bndmov bndldx bndstx sha1rnds4 sha1nexte sha1msg1 sha1msg2 sha256rnds2 " ++
      js "sha256msg1 sha256msg2 hint_nop0 hint_nop1 hint_nop2 hint_nop3 hint_nop4 hint_nop5 hint_nop6 hint_nop7 " ++
      js "hint_nop8 hint_nop9 hint_nop10 hint_nop11 hint_nop12 hint_nop13 hint_nop14 hint_nop15 hint_nop16 hint_nop17 " ++
      js "hint_nop18 hint_nop19 hint_nop20 hint_nop21 hint_nop22 hint_nop23 hint_nop24 hint_nop25 hint_nop26 hint_nop27 " ++
      js "hint_nop28 hint_nop29 hint_nop30 hint_nop31 hint_nop32 hint_nop33 hint_nop34 hint_nop35 hint_nop36 hint_nop37 " ++
      js "hint_nop38 hint_nop39 hint_nop40 hint_nop41 hint_nop42 hint_nop43 hint_nop44 hint_nop45 hint_nop46 hint_nop47 " ++
      js "hint_nop48 hint_nop49 hint_nop50 hint_nop51 hint_nop52 hint_nop53 hint_nop54 hint_nop55 hint_nop56 hint_nop57 " ++
      js "hint_nop58 hint_nop59 hint_nop60 hint_nop61 hint_nop62 hint_nop63"); (js "built_in", js "ip eip rip " ++
      js "al ah bl bh cl ch dl dh sil dil bpl spl r8b r9b r10b r11b r12b r13b r14b r15b " ++
      js "ax bx cx dx si di bp sp r8w r9w r10w r11w r12w r13w r14w r15w " ++
      js "eax ebx ecx edx esi edi ebp esp eip r8d r9d r10d r11d r12d r13d r14d r15d " ++
      js "rax rbx rcx rdx rsi rdi rbp rsp r8 r9 r10 r11 r12 r13 r14 r15 " ++ js "cs ds es fs gs ss " ++
      js "st st0 st1 st2 st3 st4 st5 st6 st7 " ++ js "mm0 mm1 mm2 mm3 mm4 mm5 mm6 mm7 " ++
      js "xmm0  xmm1  xmm2  xmm3  xmm4  xmm5  xmm6  xmm7  xmm8  xmm9 xmm10  xmm11 xmm12 xmm13 xmm14 xmm15 " ++
      js "xmm16 xmm17 xmm18 xmm19 xmm20 xmm21 xmm22 xmm23 xmm24 xmm25 xmm26 xmm27 xmm28 xmm29 xmm30 xmm31 " ++
      js "ymm0  ymm1  ymm2  ymm3  ymm4  ymm5  ymm6  ymm7  ymm8  ymm9 ymm10  ymm11 ymm12 ymm13 ymm14 ymm15 " ++
      js "ymm16 ymm17 ymm18 ymm19 ymm20 ymm21 ymm22 ymm23 ymm24 ymm25 ymm26 ymm27 ymm28 ymm29 ymm30 ymm31 " ++
      js "zmm0  zmm1  zmm2  zmm3  zmm4  zmm5  zmm6  zmm7  zmm8  zmm9 zmm10  zmm11 zmm12 zmm13 zmm14 zmm15 " ++
      js "zmm16 zmm17 zmm18 zmm19 zmm20 zmm21 zmm22 zmm23 zmm24 zmm25 zmm26 zmm27 zmm28 zmm29 zmm30 zmm31 " ++
      js "k0 k1 k2 k3 k4 k5 k6 k7 " ++ js "bnd0 bnd1 bnd2 bnd3 " ++
      js "cr0 cr1 cr2 cr3 cr4 cr8 dr0 dr1 dr2 dr3 dr8 tr3 tr4 tr5 tr6 tr7 " ++
      js "r0 r1 r2 r3 r4 r5 r6 r7 r0b r1b r2b r3b r4b r5b r6b r7b " ++
      js "r0w r1w r2w r3w r4w r5w r6w r7w r0d r1d r2d r3d r4d r5d r6d r7d " ++ js "r0h r1h r2h r3h " ++
      js "r0l r1l r2l r3l r4l r5l r6l r7l r8l r9l r10l r11l r12l r13l r14l r15l " ++
      js "db dw dd dq dt ddq do dy dz " ++ js "resb resw resd resq rest resdq reso resy resz " ++
      js "incbin equ times " ++ js "byte word dword qword nosplit rel abs seg wrt strict near far a32 ptr");
      (js "meta", js "%define %xdefine %+ %undef %defstr %deftok %assign %strcat %strlen %substr %rotate %elif %else %endif " ++
      js "%if %ifmacro %ifctx %ifidn %ifidni %ifid %ifnum %ifstr %iftoken %ifempty %ifenv %error %warning %fatal " ++
      js "%rep " ++
      js "%endrep %include %push %pop %repl %pathsearch %depend %use %arg %stacksize %local %line %comment %endcomment " ++
      js ".nolist " ++
      js "__FILE__ __LINE__ __SECT__  __BITS__ __OUTPUT_FORMAT__ __DATE__ __TIME__ __DATE_NUM__ __TIME_NUM__ " ++
      js "__UTC_DATE__ __UTC_TIME__ __UTC_DATE_NUM__ __UTC_TIME_NUM__  __PASS__ struc endstruc istruc at iend " ++
      js "align alignb sectalign daz nodaz up down zero default option assume public " ++
      js "bits use16 use32 use64 default section segment absolute extern global common cpu float " ++
      js "__utf16__ __utf16le__ __utf16be__ __utf32__ __utf32le__ __utf32be__ " ++
      js "__float8__ __float16__ __float32__ __float64__ __float80m__ __float80e__ __float128l__ __float128h__ " ++
      js "__Infinity__ __QNaN__ __SNaN__ Inf NaN QNaN SNaN float8 float16 float32 float64 float80m float80e " ++
      js "float128l float128h __FLOAT_DAZ__ __FLOAT_ROUND__ __FLOAT__")]); Contains [CRef m1; CRef m2;
      CRef QUOTE_STRING_MODE; CRef m3; CRef m4; CRef m5; CRef m6; CRef m7]].

(** xl *)
Definition lang_xl : M language :=
  let BUILTIN_MODULES :=
      js "ObjectLoader Animate MovieCredits Slides Filters Shading Materials LensFlare Mapping VLCAudioVideo " ++
      js "StereoDecoder PointCloud NetworkAccess RemoteControl RegExp ChromaKey Snowfall NodeJS Speech Charts" in
  let XL_KEYWORDS :=
      KObj [(js "keyword", js "if then else do while until for loop import with is as where when by data constant " ++
      js "integer real text name boolean symbol infix prefix postfix block tree");
      (js "literal", js "true false nil");
      (js "built_in", js "in mod rem and or xor not abs sign floor ceil sqrt sin cos tan asin " ++
      js "acos atan exp expm1 log log2 log10 log1p pi at text_length text_range " ++
      js "text_find text_replace contains page slide basic_slide title_slide " ++
      js "title subtitle fade_in fade_out fade_at clear_color color line_color " ++
      js "line_width texture_wrap texture_transform texture scale_?x scale_?y " ++
      js "scale_?z? translate_?x translate_?y translate_?z? rotate_?x rotate_?y " ++
      js "rotate_?z? rectangle circle ellipse sphere path line_to move_to " ++
      js "quad_to curve_to theme background contents locally time mouse_?x " ++ js "mouse_?y mouse_buttons " ++
      BUILTIN_MODULES)] in
  let* DOUBLE_QUOTE_TEXT := new [ClassName (js "string"); Begin (js "＂"); End_ (js "＂"); Illegal (js "\n")] in
  let* SINGLE_QUOTE_TEXT := new [ClassName (js "string"); Begin (js "'"); End_ (js "'"); Illegal (js "\n")] in
  let* LONG_TEXT := new [ClassName (js "string"); Begin (js "<<"); End_ (js ">>")] in
  let* BASED_NUMBER := new [ClassName (js "number");
      Begin (js "[0-9]+#[0-9A-Z_]+(\.[0-9-A-Z_]+)?#?([Ee][+-]?[0-9]+)?")] in
  let* IMPORT := new [BeginKeywords (js "import"); End_ (js "$"); Keywords XL_KEYWORDS;
      Contains [CRef DOUBLE_QUOTE_TEXT]] in
  let* m1 := new [EndsWithParent true; Keywords XL_KEYWORDS] in
  let* m2 := inherit_mode TITLE_MODE [Starts m1] in
  let* FUNCTION_DEFINITION := new [ClassName (js "function"); Begin (js "[a-z][^\n]*->"); ReturnBegin true;
      End_ (js "->"); Contains [CRef m2]] in
  lang (mkLP false [js "tao"] false) [Lexemes (js "[a-zA-Z][a-zA-Z0-9_?]*"); Keywords XL_KEYWORDS;
      Contains [CRef C_LINE_COMMENT_MODE; CRef C_BLOCK_COMMENT_MODE; CRef DOUBLE_QUOTE_TEXT; CRef SINGLE_QUOTE_TEXT;
      CRef LONG_TEXT; CRef FUNCTION_DEFINITION; CRef IMPORT; CRef BASED_NUMBER; CRef NUMBER_MODE]].

(** xml *)
Definition lang_xml : M language :=
  let XML_IDENT_RE := js "[A-Za-z0-9\._:-]+" in
  let* m1 := new [ClassName (js "attr"); Begin XML_IDENT_RE; Relevance 0] in
  let* m2 := new [ClassName (js "string"); EndsParent true; Variants [[Begin (js "＂"); End_ (js "＂")];
      [Begin (js "'"); End_ (js "'")]; [Begin (js "[^\s＂'=<>`]+")]]] in
  let* m3 := new [Begin (js "=\s*"); Relevance 0; Contains [CRef m2]] in
  let* TAG_INTERNALS := new [EndsWithParent true; Illegal (js "<"); Relevance 0; Contains [CRef m1; CRef m3]] in
  let* m4 := new [Begin (js "\["); End_ (js "\]")] in
  let* m5 := new [ClassName (js "meta"); Begin (js "<!DOCTYPE"); End_ (js ">"); Relevance 10; Contains [CRef m4]] in
  let* m6 := COMMENT (js "<!--") (js "-->") [Relevance 10] in
  let* m7 := new [Begin (js "<\!\[CDATA\["); End_ (js "\]\]>"); Relevance 10] in
  let* m8 := new [ClassName (js "meta"); Begin (js "<\?xml"); End_ (js "\?>"); Relevance 10] in
  let* m9 := new [Begin (js "/\*"); End_ (js "\*/"); Skip true] in
  let* m10 := new [Begin (js "b＂"); End_ (js "＂"); Skip true] in
  let* m11 := new [Begin (js "b'"); End_ (js "'"); Skip true] in
  let* m12 := inherit_mode APOS_STRING_MODE [Illegal []; ClassName []; Contains []; Skip true] in
  let* m13 := inherit_mode QUOTE_STRING_MODE [Illegal []; ClassName []; Contains []; Skip true] in
  let* m14 := new [Begin (js "<\?(php)?"); End_ (js "\?>"); SubLanguage (inl (js "php")); Contains [CRef m9;
      CRef m10; CRef m11; CRef m12; CRef m13]] in
  let* m15 := new [End_ (js "</style>"); ReturnEnd true; SubLanguage (inr [js "css"; js "xml"])] in
  let* m16 := new [ClassName (js "tag"); Begin (js "<style(?=\s|>|$)"); End_ (js ">");
      Keywords (KObj [(js "name", js "style")]); Contains [CRef TAG_INTERNALS]; Starts m15] in
  let* m17 := new [End_ (js "</script>"); ReturnEnd true; SubLanguage (inr [js "actionscript"; js "javascript";
      js "handlebars"; js "xml"; js "vbscript"])] in
  let* m18 := new [ClassName (js "tag"); Begin (js "<script(?=\s|>|$)"); End_ (js ">");
      Keywords (KObj [(js "name", js "script")]); Contains [CRef TAG_INTERNALS]; Starts m17] in
  let* m19 := new [ClassName (js "name"); Begin (js "[^\/><\s]+"); Relevance 0] in
  let* m20 := new [ClassName (js "tag"); Begin (js "</?"); End_ (js "/?>"); Contains [CRef m19;
      CRef TAG_INTERNALS]] in
  lang (mkLP true [js "html"; js "xhtml"; js "rss"; js "atom"; js "xjb"; js "xsd"; js "xsl"; js "plist";
      js "wsf"] false) [Contains [CRef m5; CRef m6; CRef m7; CRef m8; CRef m14; CRef m16; CRef m18; CRef m20]].

(** xquery *)
Definition lang_xquery : M language :=
  let KEYWORDS :=
      js "module schema namespace boundary-space preserve no-preserve strip default collation base-uri ordering " ++
      js "context decimal-format decimal-separator copy-namespaces empty-sequence except exponent-separator external " ++
      js "grouping-separator inherit no-inherit lax minus-sign per-mille percent schema-attribute schema-element " ++
      js "strict unordered zero-digit " ++ js "declare import option function validate variable " ++
      js "for at in let where order group by return if then else " ++
      js "tumbling sliding window start when only end previous next stable " ++
      js "ascending descending allowing empty greatest least some every satisfies switch case typeswitch try catch " ++
      js "and or to union intersect instance of treat as castable cast map array " ++
      js "delete insert into replace value rename copy modify update" in
  let TYPE :=
      js "item document-node node attribute document element comment namespace namespace-node processing-instruction " ++
      js "text construction " ++
      js "xs:anyAtomicType xs:untypedAtomic xs:duration xs:time xs:decimal xs:float xs:double xs:gYearMonth xs:gYear " ++
      js "xs:gMonthDay xs:gMonth xs:gDay xs:boolean xs:base64Binary xs:hexBinary xs:anyURI xs:QName xs:NOTATION " ++
      js "xs:dateTime xs:dateTimeStamp xs:date xs:string xs:normalizedString xs:token xs:language xs:NMTOKEN xs:Name " ++
      js "xs:NCName xs:ID xs:IDREF xs:ENTITY xs:integer xs:nonPositiveInteger xs:negativeInteger xs:long xs:int " ++
      js "xs:short xs:byte xs:nonNegativeInteger xs:unisignedLong xs:unsignedInt xs:unsignedShort xs:unsignedByte " ++
      js "xs:positiveInteger xs:yearMonthDuration xs:dayTimeDuration" in
  let LITERAL := js "eq ne lt le gt ge is " ++
      js "self:: child:: descendant:: descendant-or-self:: attribute:: following:: following-sibling:: parent:: " ++
      js "ancestor:: ancestor-or-self:: preceding:: preceding-sibling:: " ++ js "NaN" in
  let* BUILT_IN := new [ClassName (js "built_in"); Variants [[Begin (js "\barray\:");
      End_ (js "(?:append|filter|flatten|fold\-(?:left|right)|for-each(?:\-pair)?|get|head|insert\-before|join|put|remove|reverse|size|sort|subarray|tail)\b")];
      [Begin (js "\bmap\:"); End_ (js "(?:contains|entry|find|for\-each|get|keys|merge|put|remove|size)\b")];
      [Begin (js "\bmath\:"); End_ (js "(?:a(?:cos|sin|tan[2]?)|cos|exp(?:10)?|log(?:10)?|pi|pow|sin|sqrt|tan)\b")];
      [Begin (js "\bop\:"); End_ (js "\("); ExcludeEnd true]; [Begin (js "\bfn\:"); End_ (js "\(");
      ExcludeEnd true];
      [Begin (js "[^<\/\$\:'＂-]\b(?:abs|accumulator\-(?:after|before)|adjust\-(?:date(?:Time)?|time)\-to\-timezone|analyze\-string|apply|available\-(?:environment\-variables|system\-properties)|avg|base\-uri|boolean|ceiling|codepoints?\-(?:equal|to\-string)|collation\-key|collection|compare|concat|contains(?:\-token)?|copy\-of|count|current(?:\-)?(?:date(?:Time)?|time|group(?:ing\-key)?|output\-uri|merge\-(?:group|key))?data|dateTime|days?\-from\-(?:date(?:Time)?|duration)|deep\-equal|default\-(?:collation|language)|distinct\-values|document(?:\-uri)?|doc(?:\-available)?|element\-(?:available|with\-id)|empty|encode\-for\-uri|ends\-with|environment\-variable|error|escape\-html\-uri|exactly\-one|exists|false|filter|floor|fold\-(?:left|right)|for\-each(?:\-pair)?|format\-(?:date(?:Time)?|time|integer|number)|function\-(?:arity|available|lookup|name)|generate\-id|has\-children|head|hours\-from\-(?:dateTime|duration|time)|id(?:ref)?|implicit\-timezone|in\-scope\-prefixes|index\-of|innermost|insert\-before|iri\-to\-uri|json\-(?:doc|to\-xml)|key|lang|last|load\-xquery\-module|local\-name(?:\-from\-QName)?|(?:lower|upper)\-case|matches|max|minutes\-from\-(?:dateTime|duration|time)|min|months?\-from\-(?:date(?:Time)?|duration)|name(?:space\-uri\-?(?:for\-prefix|from\-QName)?)?|nilled|node\-name|normalize\-(?:space|unicode)|not|number|one\-or\-more|outermost|parse\-(?:ietf\-date|json)|path|position|(?:prefix\-from\-)?QName|random\-number\-generator|regex\-group|remove|replace|resolve\-(?:QName|uri)|reverse|root|round(?:\-half\-to\-even)?|seconds\-from\-(?:dateTime|duration|time)|snapshot|sort|starts\-with|static\-base\-uri|stream\-available|string\-?(?:join|length|to\-codepoints)?|subsequence|substring\-?(?:after|before)?|sum|system\-property|tail|timezone\-from\-(?:date(?:Time)?|time)|tokenize|trace|trans(?:form|late)|true|type\-available|unordered|unparsed\-(?:entity|text)?\-?(?:public\-id|uri|available|lines)?|uri\-collection|xml\-to\-json|years?\-from\-(?:date(?:Time)?|duration)|zero\-or\-one)\b")];
      [Begin (js "\blocal\:"); End_ (js "\("); ExcludeEnd true]; [Begin (js "\bzip\:");
      End_ (js "(?:zip\-file|(?:xml|html|text|binary)\-entry| (?:update\-)?entries)\b")];
      [Begin (js "\b(?:util|db|functx|app|xdmp|xmldb)\:"); End_ (js "\("); ExcludeEnd true]]] in
  let* TITLE := new [ClassName (js "title"); Begin (js "\bxquery version ＂[13]\.[01]＂\s?(?:encoding ＂.+＂)?");
      End_ (js ";")] in
  let* VAR := new [ClassName (js "variable"); Begin (js "[\$][\w-:]+")] in
  let* NUMBER := new [ClassName (js "number");
      Begin (js "(\b0[0-7_]+)|(\b0x[0-9a-fA-F_]+)|(\b[1-9][0-9_]*(\.[0-9_]+)?)|[0_]\b"); Relevance 0] in
  let* m1 := new [Begin (js "＂＂"); Relevance 0] in
  let* m2 := new [Begin (js "''"); Relevance 0] in
  let* STRING := new [ClassName (js "string"); Variants [[Begin (js "＂"); End_ (js "＂"); Contains [CRef m1]];
      [Begin (js "'"); End_ (js "'"); Contains [CRef m2]]]] in
  let* ANNOTATION := new [ClassName (js "meta"); Begin (js "%[\w-:]+")] in
  let* m3 := new [ClassName (js "doctag"); Begin (js "@\w+")] in
  let* COMMENT' := new [ClassName (js "comment"); Begin (js "\(:"); End_ (js ":\)"); Relevance 10;
      Contains [CRef m3]] in
  let* COMPUTED := new [BeginKeywords (js "element attribute comment document processing-instruction");
      End_ (js "{"); ExcludeEnd true] in
  let* m4 := new [Begin (js "{"); End_ (js "}"); SubLanguage (inl (js "xquery"))] in
  let* DIRECT := new [Begin (js "<([\w\._:\-]+)((\s*.*" ++ js ")=('|＂).*('|＂))?>"); End_ (js "(\/[\w\._:\-]+>)");
      SubLanguage (inl (js "xml")); Contains [CRef m4; CSelf]] in
  let CONTAINS := [CRef VAR; CRef BUILT_IN; CRef STRING; CRef NUMBER; CRef COMMENT'; CRef ANNOTATION; CRef TITLE;
      CRef COMPUTED; CRef DIRECT] in
  let* METHOD := new [Begin (js "{"); End_ (js "}"); Contains CONTAINS] in
  lang (mkLP false [js "xpath"; js "xq"] false) [Lexemes (js "[a-zA-Z\$][a-zA-Z0-9_:\-]*");
      Illegal (js "(proc)|(abstract)|(extends)|(until)|(#)"); Keywords (KObj [(js "keyword", KEYWORDS);
      (js "type", TYPE); (js "literal", LITERAL)]); Contains CONTAINS].

(** yaml *)
Definition lang_yaml : M language :=
  let LITERALS := js "true false yes no null" in
  let keyPrefix := js "^[ \-]*" in
  let keyName := js "[a-zA-Z_][\w\-]*" in
  let* KEY := new [ClassName (js "attr"); Variants [[Begin (keyPrefix ++ keyName ++ js ":")]; [Begin (keyPrefix ++
      js "＂" ++ keyName ++ js "＂" ++ js ":")]; [Begin (keyPrefix ++ js "'" ++ keyName ++ js "'" ++ js ":")]]] in
  let* TEMPLATE_VARIABLES := new [ClassName (js "template-variable"); Variants [[Begin (js "{{"); End_ (js "}}")];
      [Begin (js "%{"); End_ (js "}")]]] in
  let* STRING := new [ClassName (js "string"); Relevance 0; Variants [[Begin (js "'"); End_ (js "'")];
      [Begin (js "＂"); End_ (js "＂")]; [Begin (js "\S+")]]; Contains [CRef BACKSLASH_ESCAPE;
      CRef TEMPLATE_VARIABLES]] in
  let* m1 := new [ClassName (js "meta"); Begin (js "^---s*$"); Relevance 10] in
  let* m2 := get STRING in
  let* m3 := new [ClassName (js "string"); Begin (js "[\|>] *$"); ReturnEnd true; Contains (contains m2);
      End_ (keyPrefix ++ keyName ++ js ":")] in
  let* m4 := new [Begin (js "<%[%=-]?"); End_ (js "[%-]?%>"); SubLanguage (inl (js "ruby")); ExcludeBegin true;
      ExcludeEnd true; Relevance 0] in
  let* m5 := new [ClassName (js "type"); Begin (js "!" ++ UNDERSCORE_IDENT_RE)] in
  let* m6 := new [ClassName (js "type"); Begin (js "!!" ++ UNDERSCORE_IDENT_RE)] in
  let* m7 := new [ClassName (js "meta"); Begin (js "&" ++ UNDERSCORE_IDENT_RE ++ js "$")] in
  let* m8 := new [ClassName (js "meta"); Begin (js "\*" ++ UNDERSCORE_IDENT_RE ++ js "$")] in
  let* m9 := new [ClassName (js "bullet"); Begin (js "^ *-"); Relevance 0] in
  let* m10 := new [BeginKeywords LITERALS; Keywords (KObj [(js "literal", LITERALS)])] in
  lang (mkLP true [js "yml"; js "YAML"; js "yaml"] false) [Contains [CRef KEY; CRef m1; CRef m3; CRef m4; CRef m5;
      CRef m6; CRef m7; CRef m8; CRef m9; CRef HASH_COMMENT_MODE; CRef m10; CRef C_NUMBER_MODE; CRef STRING]].

(** zephir *)
Definition lang_zephir : M language :=
  let* m1 := inherit_mode APOS_STRING_MODE [Illegal []] in
  let* m2 := inherit_mode QUOTE_STRING_MODE [Illegal []] in
  let* STRING := new [ClassName (js "string"); Contains [CRef BACKSLASH_ESCAPE]; Variants [[Begin (js "b＂");
      End_ (js "＂")]; [Begin (js "b'"); End_ (js "'")]; [AllOf m1]; [AllOf m2]]] in
  let* NUMBER := new [Variants [[AllOf BINARY_NUMBER_MODE]; [AllOf C_NUMBER_MODE]]] in
  let* m3 := new [ClassName (js "doctag"); Begin (js "@[A-Za-z]+")] in
  let* m4 := COMMENT (js "/\*") (js "\*/") [Contains [CRef m3]] in
  let* m5 := COMMENT (js "__halt_compiler.+?;") [] [EndsWithParent true; Keywords (KStr (js "__halt_compiler"));
      Lexemes UNDERSCORE_IDENT_RE] in
  let* m6 := new [ClassName (js "string"); Begin (js "<<<['＂]?\w+['＂]?$"); End_ (js "^\w+;");
      Contains [CRef BACKSLASH_ESCAPE]] in
  let* m7 := new [Begin (js "(::|->)+[a-zA-Z_\x7f-\xff][a-zA-Z0-9_\x7f-\xff]*")] in
  let* m8 := new [ClassName (js "params"); Begin (js "\("); End_ (js "\)"); Contains [CSelf;
      CRef C_BLOCK_COMMENT_MODE; CRef STRING; CRef NUMBER]] in
  let* m9 := new [ClassName (js "function"); BeginKeywords (js "function"); End_ (js "[;{]"); ExcludeEnd true;
      Illegal (js "\$|\[|%"); Contains [CRef UNDERSCORE_TITLE_MODE; CRef m8]] in
  let* m10 := new [BeginKeywords (js "extends implements")] in
  let* m11 := new [ClassName (js "class"); BeginKeywords (js "class interface"); End_ (js "{"); ExcludeEnd true;
      Illegal (js "[:\(\$＂]"); Contains [CRef m10; CRef UNDERSCORE_TITLE_MODE]] in
  let* m12 := new [BeginKeywords (js "namespace"); End_ (js ";"); Illegal (js "[\.']");
      Contains [CRef UNDERSCORE_TITLE_MODE]] in
  let* m13 := new [BeginKeywords (js "use"); End_ (js ";"); Contains [CRef UNDERSCORE_TITLE_MODE]] in
  let* m14 := new [Begin (js "=>")] in
  lang (mkLP true [js "zep"] false) [Keywords (KStr (js "and include_once list abstract global private echo interface as static endswitch " ++
      js "array null if endwhile or const for endforeach self var let while isset public " ++
      js "protected exit foreach throw elseif include __FILE__ empty require_once do xor " ++
      js "return parent clone use __CLASS__ __LINE__ else break print eval new " ++
      js "catch __METHOD__ case exception default die require __FUNCTION__ " ++
      js "enddeclare final try switch continue endfor endif declare unset true false " ++
      js "trait goto instanceof insteadof __DIR__ __NAMESPACE__ " ++
      js "yield finally int uint long ulong char uchar double float bool boolean string" ++ js "likely unlikely"));
      Contains [CRef C_LINE_COMMENT_MODE; CRef HASH_COMMENT_MODE; CRef m4; CRef m5; CRef m6; CRef m7; CRef m9;
      CRef m11; CRef m12; CRef m13; CRef m14; CRef STRING; CRef NUMBER]].

Definition languagesSZ : list (jsstr * creator) :=
  [(js "sas", alone lang_sas);
   (js "scala", alone lang_scala);
   (js "scheme", alone lang_scheme);
   (js "scilab", alone lang_scilab);
   (js "scss", alone lang_scss);
   (js "shell", alone lang_shell);
   (js "smali", alone lang_smali);
   (js "smalltalk", alone lang_smalltalk);
   (js "sml", alone lang_sml);
   (js "sqf", lang_sqf);
   (js "sql", alone lang_sql);
   (js "stan", alone lang_stan);
   (js "stata", alone lang_stata);
   (js "step21", alone lang_step21);
   (js "stylus", alone lang_stylus);
   (js "subunit", alone lang_subunit);
   (js "swift", alone lang_swift);
   (js "taggerscript", alone lang_taggerscript);
   (js "tap", alone lang_tap);
   (js "tcl", alone lang_tcl);
   (js "tex", alone lang_tex);
   (js "thrift", alone lang_thrift);
   (js "tp", alone lang_tp);
   (js "twig", alone lang_twig);
   (js "typescript", alone lang_typescript);
   (js "vala", alone lang_vala);
   (js "vbnet", alone lang_vbnet);
   (js "vbscript-html", alone lang_vbscript_html);
   (js "vbscript", alone lang_vbscript);
   (js "verilog", alone lang_verilog);
   (js "vhdl", alone lang_vhdl);
   (js "vim", alone lang_vim);
   (js "x86asm", alone lang_x86asm);
   (js "xl", alone lang_xl);
   (js "xml", alone lang_xml);
   (js "xquery", alone lang_xquery);
   (js "yaml", alone lang_yaml);
   (js "zephir", alone lang_zephir)].
