(* ===== verification/Bundle.v ===== *)
(** * The bundled languages (module 15)

    The language definitions together, registered in the order of the bundle in one heap,
    so that they share the common modes and what one of them does to a shared mode is seen
    by the others.  Each can be created and compiled, the highlighter keeps the markup of
    all of them balanced, and for those that pass the check of plain languages it returns
    for every code and keeps the code exactly. *)

From S2P Require Import Prelude JsString JsRegExp RegExpFacts RegExpCounts MarkedInline HljsStreams HljsModes Hljs HljsLanguages HljsFacts HljsTotal.
From S2P Require Import LanguagesAC LanguagesDH LanguagesIM LanguagesNR LanguagesSZ.

(** The languages in the order of the bundle. *)
Definition bundle : list (jsstr * creator) :=
  languagesAC ++ languagesDH ++ languagesIM ++ languagesNR ++ languagesSZ.

(** Every language compiled once, as after a page that used them all. *)
Definition compile_all (reg : registry) : M unit :=
  mfold (fun '(_, l) _ => compileLanguage compile_fuel l) (languages reg) tt.

(** ** Checks *)

(** A registered language whose modes, compiled from the heap, pass the check. *)
Definition exact_in (reg : registry) (h : heap) (name : jsstr) : bool :=
  match getLanguage reg name with
  | Some l => match compileLanguage compile_fuel l h with
              | (h', Ok tt) => plain (reach h' (l_root l)) (l_root l) h'
              | _ => false
              end
  | None => false
  end.
Definition exact_names (reg : registry) (h : heap) : list jsstr := List.filter (exact_in reg h) (listLanguages reg).

(** The languages are compiled. *)
Definition settled (reg : registry) (h : heap) : bool :=
  forallb (fun '(_, l) => match h !! l_root l with Some m => compiled m | None => false end) (languages reg).

Definition sound (reg : registry) (h : heap) : bool := forallb mode_ok h && langs_ok reg h.

Lemma sound_ok reg h : sound reg h = true -> env_ok reg h.
Proof. intros [Hm Hl]%andb_prop. by apply sound_env. Qed.

(** Compilation keeps what the engine relies on. *)
Lemma compile_all_env reg h hc r : env_ok reg h -> compile_all reg h = (hc, r) -> env_ok reg hc.
Proof.
  unfold compile_all. generalize (languages reg) compile_fuel tt. intros ls f a. revert a h.
  induction ls as [|[n l] ls IH]; intros a h He; cbn [mfold]; [by intros [= <- _]|]. unfold bind.
  pose proof (compileMode_grows f (case_insensitive l) (l_root l) None h) as [G _].
  change (compileMode f (case_insensitive l) (l_root l) None h) with (compileLanguage f l h) in G.
  destruct (compileLanguage f l h) as [h1 [a'|e|]]; cbn [fst] in G; pose proof (env_grows _ _ _ G He) as He1;
    [by apply IH|by intros [= <- _]..].
Qed.

(** ** One language *)

Section Exact.
Context (opts : hl_options) (reg : registry) (fuel depth : nat).
Hypothesis Hopts : opts_ok opts = true.
Hypothesis Hfuel : compile_fuel <= fuel.

Lemma exact_highlight name value ig h : env_ok reg h -> exact_in reg h name = true -> enough (length value) <= fuel ->
  exists h' r ps, highlight opts reg fuel depth name value ig [] h = (h', Ok r) /\
    h_value r = hrender ps /\ hnest 0 ps = Some 0 /\ htext ps = value.
Proof using Hopts Hfuel.
  unfold exact_in. intros He H Hv. destruct (getLanguage reg name) as [l|] eqn:El; [|done].
  destruct (compileLanguage compile_fuel l h) as [h' [[]|e|]] eqn:Ec; [|done|done].
  exists h'. by eapply plain_total.
Qed.

Lemma settled_compile name l h : settled reg h = true -> getLanguage reg name = Some l ->
  compileLanguage compile_fuel l h = (h, Ok tt).
Proof using.
  intros Hs El. assert (H : match h !! l_root l with Some m => compiled m | None => false end = true).
  { unfold getLanguage in El. destruct (oget (toLowerCase name) (languages reg)) as [l'|] eqn:Eo; [injection El as <-|];
      by eapply oget_forallb in Hs; [|eassumption]. }
  unfold compileLanguage. change compile_fuel with (S 39). generalize 39. intros f. cbn [compileMode]. unfold bind at 1, get.
  destruct (h !! l_root l) as [m|]; [|done]. by rewrite H.
Qed.

(** Once the languages are compiled, highlighting changes no mode. *)
Lemma settled_highlight name value ig h : env_ok reg h -> settled reg h = true -> exact_in reg h name = true ->
  enough (length value) <= fuel ->
  exists r ps, highlight opts reg fuel depth name value ig [] h = (h, Ok r) /\
    h_value r = hrender ps /\ hnest 0 ps = Some 0 /\ htext ps = value.
Proof using Hopts Hfuel.
  unfold exact_in. intros He Hs H Hv. destruct (getLanguage reg name) as [l|] eqn:El; [|done].
  pose proof (settled_compile name l h Hs El) as Ec. rewrite Ec in H. by eapply plain_total.
Qed.

(** Detection among such languages. *)
Lemma settled_detection text subset h : env_ok reg h -> settled reg h = true ->
  Forall (fun name => exact_in reg h name = true) subset -> enough (length text) <= fuel ->
  exists r second ps, highlightAuto opts reg (highlight opts reg fuel depth) text (Some subset) h = (h, Ok (r, second)) /\
    h_value r = hrender ps /\ hnest 0 ps = Some 0 /\ htext ps = text.
Proof using Hopts Hfuel.
  intros Hs Hc Hn Hv. unfold highlightAuto.
  set (good := fun r : hres => exists ps, h_value r = hrender ps /\ hnest 0 ps = Some 0 /\ htext ps = text).
  set (start := mkHRes (Some 0%Z) (hl_escape text) None []).
  assert (Hstart : good start) by (exists [HText text]; split_and!; [by rewrite hrender_text|done|apply htext_text]).
  apply (Forall_bfilter _ (known reg)), (Forall_bfilter _ (autoDetection reg)) in Hn.
  enough (exists r s, mfold (fun name b => let* current := highlight opts reg fuel depth name text false [] in
                                            ret (consider (set_language name current) b))
      (List.filter (autoDetection reg) (List.filter (known reg) subset)) (start, start) h = (h, Ok (r, s)) /\ good r)
    as (r & s & E & Hr).
  { unfold bind at 1. rewrite E. destruct Hr as (ps & Hps). by eexists _, _, ps. }
  assert (Hb : good start /\ good start) by done. revert Hb. generalize start at 1 3 as b1. generalize start as b2.
  revert Hn. generalize (List.filter (autoDetection reg) (List.filter (known reg) subset)). intros names Hn.
  induction Hn as [|name names Hname _ IH]; intros b2 b1 [H1 H2]; [by exists b1, b2|]. cbn [mfold].
  destruct (settled_highlight name text false h Hs Hc Hname Hv) as (r & ps & E & Hps).
  unfold bind at 1 2. rewrite E. unfold ret at 1.
  assert (Hr : good (set_language name r)) by (by exists ps).
  destruct (consider (set_language name r) (b1, b2)) as [c1 c2] eqn:Ec.
  apply IH. unfold consider in Ec. by repeat case_match; simplify_eq.
Qed.
End Exact.

(** ** All languages *)

Definition bundle_check : bool :=
  match register_all bundle [] with
  | (h, Ok reg) =>
      match compile_all reg h with
      | (hc, Ok tt) =>
          bool_decide (map fst (languages reg) = map fst bundle) && sound reg h && settled reg hc
          && bool_decide (length (exact_names reg hc) = 102) && forallb (exact_in reg h) (exact_names reg hc)
      | _ => false
      end
  | _ => false
  end.

Lemma bundle_passes : bundle_check = true.
Proof. vm_cast_no_check (eq_refl true). Qed.

Lemma bundle_checked : exists h reg hc, register_all bundle [] = (h, Ok reg) /\ compile_all reg h = (hc, Ok tt) /\
  map fst (languages reg) = map fst bundle /\ sound reg h = true /\ settled reg hc = true /\
  length (exact_names reg hc) = 102 /\ forallb (exact_in reg h) (exact_names reg hc) = true.
Proof.
  generalize bundle_passes. unfold bundle_check. generalize bundle. intros ls.
  destruct (register_all ls []) as [h [reg|e|]]; [|done|done].
  destruct (compile_all reg h) as [hc [[]|e|]] eqn:Ec; [|done|done]. rewrite !andb_true_iff.
  intros [[[[H1%bool_decide_eq_true H2] H3] H4%bool_decide_eq_true] H5]. exists h, reg, hc. by split_and!.
Qed.

(** How many they are. *)
Example bundle_size : length bundle = 185.
Proof. reflexivity. Qed.


(** C19. All languages of the bundle registered together: for 102 of them, highlighting
    any code returns balanced markup whose text is exactly the code, for the first code of a
    page as well as when all languages have been used before, and then it changes no mode;
    detection of the language among any of them then returns too, with the same result for
    the text. *)
Theorem bundle_exact :
  exists h reg hc names, register_all bundle [] = (h, Ok reg) /\ compile_all reg h = (hc, Ok tt) /\
    names ⊆ map fst bundle /\ length names = 102 /\
    forall opts fuel depth, opts_ok opts = true -> compile_fuel <= fuel ->
      (forall name value ig, name ∈ names -> enough (length value) <= fuel ->
         (exists h' r ps, highlight opts reg fuel depth name value ig [] h = (h', Ok r) /\
            h_value r = hrender ps /\ hnest 0 ps = Some 0 /\ htext ps = value) /\
         (exists r ps, highlight opts reg fuel depth name value ig [] hc = (hc, Ok r) /\
            h_value r = hrender ps /\ hnest 0 ps = Some 0 /\ htext ps = value)) /\
      (forall subset value, subset ⊆ names -> enough (length value) <= fuel ->
         exists r second ps,
           highlightAuto opts reg (highlight opts reg fuel depth) value (Some subset) hc = (hc, Ok (r, second)) /\
           h_value r = hrender ps /\ hnest 0 ps = Some 0 /\ htext ps = value).
Proof.
  destruct bundle_checked as (h & reg & hc & E & Ec & Hn & Hs & Hset & H6 & H7). apply sound_ok in Hs.
  pose proof (compile_all_env reg h hc _ Hs Ec) as Hc.
  assert (Hex : forall name, name ∈ exact_names reg hc -> exact_in reg hc name = true)
    by (intros name Hin%list_elem_of_In; by apply filter_In in Hin as [_ Hin]).
  exists h, reg, hc, (exact_names reg hc).
  split; [exact E|]. split; [exact Ec|]. split; [|split; [exact H6|]].
  - intros name Hin%list_elem_of_In. apply filter_In in Hin as [Hin _]. unfold listLanguages in Hin. rewrite Hn in Hin.
    by apply list_elem_of_In.
  - intros opts fuel depth Ho Hf. split.
    + intros name value ig Hin Hv. split; [|by apply settled_highlight; auto]. apply exact_highlight; [done|done|done| |done].
      apply (proj1 (forallb_forall _ _) H7). by apply list_elem_of_In.
    + intros subset value Hsub Hv. apply settled_detection; auto. apply Forall_forall. intros name Hin. auto.
Qed.

(** The format mode of one language becomes part of the strings of all of them: the list
    that it is pushed on is that of the common mode. *)
Definition strings_of (ls : list (jsstr * creator)) : option (list child) :=
  match register_all ls [] with
  | (h, Ok _) => contains <$> h !! QUOTE_STRING_MODE
  | _ => None
  end.
Example strings_alone : strings_of [(js "json", alone json)] = Some [CRef BACKSLASH_ESCAPE].
Proof. vm_compute. reflexivity. Qed.
Example strings_shared : exists fmt, strings_of bundle = Some [CRef BACKSLASH_ESCAPE; CRef fmt].
Proof. eexists. vm_compute. reflexivity. Qed.

(** A language that builds on another cannot be registered without it. *)
Example arduino_needs_cpp : snd (register_all [(js "arduino", lang_arduino)] [])
  = Throw (TypeError (js "undefined language")).
Proof. vm_compute. reflexivity. Qed.
