(* ===== verification/SlideElement.v ===== *)
(** * The element of a slide (modules 26 and 27)

    [SlideView] creates the elements of a slide: the content and the notes are converted to
    markup, which the browser reads, and the code elements in the nodes are highlighted in
    the order of the document.  Markup is written and read through [Class Browser]; code
    elements are not nested. *)

From S2P Require Import Prelude JsString JsRegExp RegExpFacts RegExpCounts SlideParser SlideModel Slideshow Navigation Utils Views SlideView.
From S2P Require Import MarkedInline Converter HljsStreams HljsModes Hljs HljsLanguages HljsFacts HljsTotal HljsBlock Html CodeBlocks Bundle.

(** ** Nodes *)

Definition t_p : jsstr := Eval vm_compute in js "p".
Definition t_pre : jsstr := Eval vm_compute in js "pre".
Definition t_code : jsstr := Eval vm_compute in js "code".

Definition is_tag (t : jsstr) (n : enode) : bool := bool_decide (en_tag n = t).
Definition attr_class (n : enode) : jsstr := default [] (oget a_class (en_attrs n)).
Definition set_attr_class (c : jsstr) (n : enode) : enode := mkENode (en_id n) (en_tag n) (oset a_class c (en_attrs n)).

(** A code element as [highlightCodeBlocks] sees it. *)
Definition code_block (parent n : enode) (nodes : list dom) : block :=
  mkBlock (attr_class n) (is_tag t_pre parent) (attr_class parent) nodes.

(** The code elements, in the order of the document. *)
Fixpoint code_elements (parent : enode) (d : dom) : list block :=
  match d with
  | DElem n l => if is_tag t_code n then [code_block parent n l] else flat_map (code_elements n) l
  | _ => []
  end.

Section Elements.
Context `{Browser} (opts : hl_options) (reg : registry) (fuel depth : nat) (o : code_options).

(** [highlightCodeBlocks(content, slideshow)] on a node of the content *)
Fixpoint highlight_node (parent : enode) (d : dom) : M dom :=
  match d with
  | DElem n l =>
      if is_tag t_code n then
        let* b := highlightCodeBlock opts reg fuel depth o (code_block parent n l) in
        ret (DElem (set_attr_class (b_class b) n) (b_nodes b))
      else let* l := mmap (highlight_node n) l in ret (DElem n l)
  | d => ret d
  end.

(** The markup that is read back, and the only child when that is a paragraph. *)
Definition normalized (html : jsstr) : jsstr := innerHTML (parseHTML html).
Definition is_element (d : dom) : bool := match d with DElem _ _ => true | _ => false end.
Definition only_p (html : jsstr) : option jsstr :=
  match List.filter is_element (parseHTML html) with
  | [DElem n l] => if is_tag t_p n then Some (innerHTML l) else None
  | _ => None
  end.

(** A new element with a class. *)
Definition new_div (c : jsstr) : enode := mkENode 0 t_div [(a_class, c)].

Context (coin : nat -> bool) (highlightStyle : jsstr) (links : gmap jsstr link).

(** [element.innerHTML = converter.convertMarkdown(...)] and [highlightCodeBlocks] *)
Definition fill_element (class : jsstr) (content : list item) : M (list dom) :=
  let* html := lift (convertMarkdown normalized only_p coin content links false) in
  mmap (highlight_node (new_div class)) (parseHTML html).

Record content_element := mkContent {
  ce_id : option jsstr;
  ce_class : jsstr;
  ce_style : style;
  ce_nodes : list dom
}.

Definition no_style : style := mkStyle [] [] [] [].

Definition createContentElement (s : slide_vm) : M content_element :=
  let '(class, st) := styleContentElement (s_props s) highlightStyle no_style in
  let* nodes := fill_element class (s_content s) in
  ret (mkContent (content_id (s_props s)) class st nodes).

(** Notes that are a text are read character by character. *)
Definition notes_items (n : notesv) : list item :=
  match n with NStr s => map (fun c => IStr [c]) s | NItems l => l end.

Definition c_slide_notes : jsstr := js "remark-slide-notes".

Definition createNotesElement (n : notesv) : M (list dom) := fill_element c_slide_notes (notes_items n).

(** The elements of a slide: the container holds the scaling element and the notes, the
    scaling element holds the slide, and that the content with the number at its end. *)
Record slide_elements := mkElements {
  containerElement : jsstr;
  scalingElement : jsstr;
  element : jsstr;
  contentElement : content_element;
  notesElement : list dom
}.

Definition c_slide_number : jsstr := js "remark-slide-number".

(** [new SlideNumber(slide, slideshow)]; [format] gives the text for two numbers *)
Definition newSlideNumber (format : nat -> nat -> jsstr) (total : nat) (s : slide_vm) : dom :=
  DElem (new_div c_slide_number) (parseHTML (format (s_number s) total)).

Definition configureElements (format : nat -> nat -> jsstr) (total : nat) (s : slide_vm) : M slide_elements :=
  let* c := createContentElement s in
  let* notes := createNotesElement (s_notes s) in
  ret (mkElements c_container (js "remark-slide-scaler") (createSlideElement (s_props s))
         (mkContent (ce_id c) (ce_class c) (ce_style c) (ce_nodes c ++ [newSlideNumber format total s])) notes).

(** The slide views of [updateSlideViews], one for each slide. *)
Definition createSlideViews (format : nat -> nat -> jsstr) (total : nat) (slides : list slide_vm) : M (list slide_elements) :=
  mmap (configureElements format total) slides.
End Elements.

(** ** What is left as it is *)

(** The nodes without what is in the code elements and their classes. *)
Fixpoint skeleton (d : dom) : dom :=
  match d with
  | DElem n l => if is_tag t_code n then DElem (set_attr_class [] n) [] else DElem n (map skeleton l)
  | d => d
  end.

Fixpoint dom_nested (P : dom -> Prop) (Htext : forall s, P (DText s)) (Hother : P DOther)
    (Helem : forall n l, Forall P l -> P (DElem n l)) (d : dom) : P d :=
  match d with
  | DText s => Htext s
  | DOther => Hother
  | DElem n l => Helem n l ((fix go l := match l return Forall P l with
                                         | [] => Forall_nil_2 P
                                         | d :: l => Forall_cons_2 P d l (dom_nested P Htext Hother Helem d) (go l)
                                         end) l)
  end.

Section Code.
Context `{Browser} (reg : registry) (h : heap) (fuel depth : nat) (o : code_options).

(** A code element that is not in a PRE element, or whose text ends in a line feed, in no
    language or in one that passes the check. *)
Definition code_ok (b : block) : Prop :=
  b_pre b = true ->
  exists ls, b_nodes b = text_nodes (code_text ls) /\ Forall line_ok ls /\ enough (length (code_text ls)) <= fuel /\
    (effective_class o b <> [] -> exists name,
       blockLanguage reg (mkHBlock (effective_class o b) (Some (b_parent b)) []) = Some name /\
       highlights name = true /\ exact_in reg h name = true).

(** What is made of it: a line element for each line, or the class of inline code. *)
Definition code_shown (b b' : block) : Prop :=
  if b_pre b then exists ls, b_nodes b = text_nodes (code_text ls) /\ Forall line_ok ls /\
    map shown (b_nodes b') = map (line_shown (highlightLines o)) ls
  else b_nodes b' = b_nodes b /\ b_class b' = addClass (js "remark-inline-code") (effective_class o b).

Hypothesis Hsound : env_ok reg h.
Hypothesis Hsettled : settled reg h = true.
Hypothesis Hfuel : compile_fuel <= fuel.
Hypothesis Hspans : highlightSpans o = None.
Hypothesis Hinline : highlightInline o = false.

Lemma highlightCodeBlock_shown b : code_ok b ->
  exists b', highlightCodeBlock default_options reg fuel depth o b h = (h, Ok b') /\ code_shown b b'.
Proof using Hsound Hsettled Hfuel Hspans Hinline.
  unfold code_ok, code_shown. destruct (b_pre b) eqn:Ep; intros Hb.
  - destruct (Hb eq_refl) as (ls & Hn & Hl & Hv & Hlang).
    destruct (block_lines reg h h fuel depth o b ls) as (b' & E & Hs); try done.
    + intros Ne. destruct (Hlang Ne) as (name & H1 & H2 & H3). exists name. split_and!; [|done|done].
      intros value ig Hv'. by apply settled_highlight.
    + exists b'. split; [by destruct (bool_decide (effective_class o b = []))|]. by exists ls.
  - unfold highlightCodeBlock. rewrite Hinline. unfold effective_class. case_bool_decide; cbn [b_pre with_class b_class b_nodes];
      rewrite Ep; (eexists; split; [reflexivity|done]).
Qed.

Lemma set_attr_class_twice c c' n : set_attr_class c (set_attr_class c' n) = set_attr_class c n.
Proof using. unfold set_attr_class. cbn [en_id en_tag en_attrs]. by rewrite oset_oset. Qed.
Lemma attr_class_set c n : attr_class (set_attr_class c n) = c.
Proof using. unfold attr_class, set_attr_class. cbn [en_attrs]. by rewrite oget_oset_eq. Qed.

(** One node: only the code elements change. *)
Definition node_shown (parent : enode) (d d' : dom) : Prop :=
  skeleton d' = skeleton d /\ Forall2 code_shown (code_elements parent d) (code_elements parent d').

Lemma mmap_shown parent l : Forall (fun d => Forall code_ok (code_elements parent d) ->
    exists d', highlight_node default_options reg fuel depth o parent d h = (h, Ok d') /\ node_shown parent d d') l ->
  Forall code_ok (flat_map (code_elements parent) l) ->
  exists l', mmap (highlight_node default_options reg fuel depth o parent) l h = (h, Ok l') /\
    map skeleton l' = map skeleton l /\
    Forall2 code_shown (flat_map (code_elements parent) l) (flat_map (code_elements parent) l').
Proof using.
  induction 1 as [|d l Hd _ IH]; cbn [flat_map]; intros Hok; [by exists []|].
  apply Forall_app in Hok as [H1 H2]. destruct (Hd H1) as (d' & E & Hs & Hc). destruct (IH H2) as (l' & El & Hsl & Hcl).
  exists (d' :: l'). cbn [mmap]. unfold bind. rewrite E, El. split; [done|]. cbn [map flat_map]. rewrite Hs, Hsl.
  split; [done|]. by apply Forall2_app.
Qed.

Lemma highlight_node_shown d : forall parent, Forall code_ok (code_elements parent d) ->
  exists d', highlight_node default_options reg fuel depth o parent d h = (h, Ok d') /\ node_shown parent d d'.
Proof using Hsound Hsettled Hfuel Hspans Hinline.
  induction d as [s| |n l IH] using dom_nested; intros parent Hok; [by eexists; split|by eexists; split|].
  cbn [highlight_node]. cbn [code_elements] in Hok. unfold node_shown. cbn [code_elements skeleton].
  destruct (is_tag t_code n) eqn:Et.
  - apply Forall_cons in Hok as [Hb _]. destruct (highlightCodeBlock_shown _ Hb) as (b' & E & Hs).
    unfold bind. rewrite E. eexists. split; [reflexivity|]. cbn [skeleton code_elements].
    change (is_tag t_code (set_attr_class (b_class b') n)) with (is_tag t_code n). rewrite Et, set_attr_class_twice.
    split; [done|]. apply Forall2_cons; split; [|done]. unfold code_block. rewrite attr_class_set.
    unfold code_shown in *. cbn [code_block b_pre b_nodes b_class] in *. by destruct (is_tag t_pre parent).
  - destruct (mmap_shown n l) as (l' & E & Hs & Hc); [|done|].
    + eapply Forall_impl; [exact IH|]. intros d Hd. apply Hd.
    + unfold bind. rewrite E. eexists. split; [reflexivity|]. cbn [skeleton code_elements]. rewrite Et, Hs. done.
Qed.

Lemma fill_element_shown coin links class content html :
  convertMarkdown normalized only_p coin content links false = Ok html ->
  Forall code_ok (flat_map (code_elements (new_div class)) (parseHTML html)) ->
  exists nodes, fill_element default_options reg fuel depth o coin links class content h = (h, Ok nodes) /\
    map skeleton nodes = map skeleton (parseHTML html) /\
    Forall2 code_shown (flat_map (code_elements (new_div class)) (parseHTML html))
      (flat_map (code_elements (new_div class)) nodes).
Proof using Hsound Hsettled Hfuel Hspans Hinline.
  intros Eh Hok. unfold fill_element, bind at 1, lift. rewrite Eh. apply mmap_shown; [|done].
  apply Forall_forall. intros d _. apply highlight_node_shown.
Qed.

Context (coin : nat -> bool) (highlightStyle : jsstr) (links : gmap jsstr link).

(** The nodes of an element with the class [class], after [content] was converted. *)
Definition filled (class : jsstr) (content : list item) (nodes : list dom) : Prop :=
  exists html, convertMarkdown normalized only_p coin content links false = Ok html /\
    map skeleton nodes = map skeleton (parseHTML html) /\
    Forall2 code_shown (flat_map (code_elements (new_div class)) (parseHTML html))
      (flat_map (code_elements (new_div class)) nodes).

Definition fillable (class : jsstr) (content : list item) : Prop :=
  forall html, convertMarkdown normalized only_p coin content links false = Ok html ->
    Forall code_ok (flat_map (code_elements (new_div class)) (parseHTML html)).

Definition content_class (s : slide_vm) : jsstr := fst (styleContentElement (s_props s) highlightStyle no_style).

Definition slide_ok (s : slide_vm) : Prop :=
  fillable (content_class s) (s_content s) /\ fillable c_slide_notes (notes_items (s_notes s)).

Definition slide_shown (format : nat -> nat -> jsstr) (total : nat) (s : slide_vm) (e : slide_elements) : Prop :=
  ce_class (contentElement e) = content_class s /\
  (exists nodes, filled (content_class s) (s_content s) nodes /\
     ce_nodes (contentElement e) = nodes ++ [newSlideNumber format total s]) /\
  filled c_slide_notes (notes_items (s_notes s)) (notesElement e).

Lemma fill_element_filled class content : fillable class content ->
  exists nodes, fill_element default_options reg fuel depth o coin links class content h = (h, Ok nodes) /\ filled class content nodes.
Proof using Hsound Hsettled Hfuel Hspans Hinline.
  intros Hok. destruct (convertMarkdown_ok normalized only_p coin content links false) as (html & Eh).
  destruct (fill_element_shown coin links class content html Eh (Hok html Eh)) as (nodes & E & Hs & Hc).
  exists nodes. split; [done|]. by exists html.
Qed.

Lemma configureElements_shown format total s : slide_ok s ->
  exists e, configureElements default_options reg fuel depth o coin highlightStyle links format total s h = (h, Ok e) /\
    slide_shown format total s e.
Proof using Hsound Hsettled Hfuel Hspans Hinline.
  intros [Hc Hn]. unfold slide_shown, content_class in *. unfold configureElements, createContentElement, createNotesElement.
  destruct (styleContentElement _ _ _) as [class st]. cbn [fst] in *.
  destruct (fill_element_filled class (s_content s) Hc) as (nodes & E & Hf).
  destruct (fill_element_filled c_slide_notes (notes_items (s_notes s)) Hn) as (notes & En & Hfn).
  eexists. unfold bind, ret. rewrite E. cbn beta iota. rewrite En. split; [reflexivity|]. cbn [contentElement ce_class ce_nodes notesElement].
  split; [done|]. split; [by exists nodes|done].
Qed.
End Code.

(** ** Properties *)


(** ** A slide *)

(** JSON registered and compiled. *)
Definition json_page : registry * heap := Eval vm_compute in
  match register_all [(js "json", alone json)] [] with
  | (h, Ok r) => match compile_all r h with (hc, Ok _) => (r, hc) | _ => (mkReg [] [], []) end
  | _ => (mkReg [] [], [])
  end.

Definition nls (l : list jsstr) : jsstr := join nl l.
Definition code_slide : slide_vm :=
  mkVM 0 1 ∅ ∅ [IStr (nls [js "a"; js "```json"; js "[1,"; js "* 2]"; js "```"; js "`x`"])] (NStr []).
(** Its converted content, and the nodes of that. *)
Definition code_html : jsstr := Eval vm_compute in
  nls [js "<p>a</p>"; js "<pre><code class=＂json＂>[1,"; js "* 2]"; js "</code></pre>"; js "<p><code>x</code></p>"].
Lemma code_slide_html :
  @convertMarkdown (@normalized reader) (@only_p reader) (fun _ => true) (s_content code_slide) ∅ false = Ok code_html.
Proof. vm_compute. reflexivity. Qed.
Definition code_slide_nodes : list dom := Eval vm_compute in @parseHTML reader code_html.

(** What is shown of the slide. *)
Example code_slide_markup :
  match @createContentElement reader default_options (fst json_page) 200 0 marking (fun _ => true) (js "default") ∅
          code_slide (snd json_page) with
  | (_, Ok e) => Some (ce_class e, serialize (ce_nodes e))
  | _ => None
  end
  = Some (js "remark-slide-content hljs-default",
          js "<p>a</p>" ++ nl ++ js "<pre><code class=＂json hljs remark-code＂>"
          ++ js "<div class=＂remark-code-line＂>[<span class=＂hljs-number＂>1</span>,</div>"
          ++ js "<div class=＂remark-code-line remark-code-line-highlighted＂>  <span class=＂hljs-number＂>2</span>]</div>"
          ++ js "</code></pre>" ++ nl ++ js "<p><code class=＂remark-inline-code＂>x</code></p>").
Proof. vm_compute. reflexivity. Qed.

Lemma code_slide_ok : Forall (code_ok (fst json_page) (snd json_page) 200 marking)
  (flat_map (code_elements (new_div (js "remark-slide-content hljs-default"))) code_slide_nodes).
Proof.
  apply List.Forall_cons; [intros _; exists json_lines|apply List.Forall_cons; [done|apply List.Forall_nil]].
  split_and!; [vm_compute; reflexivity| |apply Nat.leb_le; vm_compute; reflexivity|].
  - apply List.Forall_cons; [|apply List.Forall_cons; [|apply List.Forall_nil]];
      (split; [by apply (bool_decide_unpack _)|vm_compute; reflexivity]).
  - intros _. exists (js "json"). split_and!; vm_compute; reflexivity.
Qed.

Lemma code_slide_fillable s : s_content s = s_content code_slide -> s_notes s = NStr [] ->
  content_class (js "default") s = js "remark-slide-content hljs-default" ->
  slide_ok (H := reader) (fst json_page) (snd json_page) 200 marking (fun _ => true) (js "default") ∅ s.
Proof.
  intros Hc Hn Hcl. unfold slide_ok. rewrite Hc, Hn, Hcl. split; intros html E.
  - rewrite code_slide_html in E. injection E as <-.
    replace (@parseHTML reader code_html) with code_slide_nodes by (vm_compute; reflexivity). exact code_slide_ok.
  - vm_compute in E. injection E as <-. constructor.
Qed.

(** The number of a slide out of how many. *)
Definition plain_number (n total : nat) : jsstr := dec (N.of_nat n) ++ js " / " ++ dec (N.of_nat total).

