(* ===== verification/Program.v ===== *)
(** * From the markdown to the screen

    The parts together: the deck is loaded from its source, the elements of its slides are
    created from their markdown by marked, the browser and the highlighter, and the session
    shows them.  [Session] leaves open what a slide is rendered as; here it is the markup of
    the elements that [SlideElement] creates. *)

From S2P Require Import Prelude JsString JsRegExp RegExpFacts RegExpCounts Events SlideParser SlideModel Slideshow.
From S2P Require Import Navigation Inputs Timer Utils Views SlideView Session Contents MarkedInline Converter HljsStreams HljsModes.
From S2P Require Import Hljs HljsLanguages HljsFacts HljsTotal HljsBlock Html CodeBlocks Bundle SlideElement.

Section Program.
Context `{Browser} (reg : registry) (h : heap) (fuel hdepth : nat) (o : code_options).
Context (coin : nat -> bool) (highlightStyle : jsstr) (links : gmap jsstr link) (format : nat -> nat -> jsstr) (total : nat).

(** The elements of a slide on a page with the languages of [reg]. *)
Definition elements (s : slide_vm) : option slide_elements :=
  match configureElements default_options reg fuel hdepth o coin highlightStyle links format total s h with
  | (_, Ok e) => Some e
  | _ => None
  end.

(** The markup of the content of a slide and of its notes. *)
Definition slide_html (s : slide_vm) : jsstr :=
  match elements s with Some e => serialize (ce_nodes (contentElement e)) | None => [] end.
Definition notes_html (s : slide_vm) : jsstr :=
  match elements s with Some e => serialize (notesElement e) | None => [] end.

Context {E : Type} `{Emitter E handler}.
Context (opts : nav_options) (topts : timer_options) (macros : macro_env) (depth : nat) (sopts : show_options).

End Program.

(** ** Witness *)

(** A deck of one slide with a block of code and inline code. *)
Definition code_source : jsstr := nls [js "a"; js "```json"; js "[1,"; js "* 2]"; js "```"; js "`x`"].
Definition page_html : slide_vm -> jsstr :=
  slide_html (H := reader) (fst json_page) (snd json_page) 200 0 marking (fun _ => true) (js "default") ∅ plain_number 1.
Definition page_notes : slide_vm -> jsstr :=
  notes_html (H := reader) (fst json_page) (snd json_page) 200 0 marking (fun _ => true) (js "default") ∅ plain_number 1.

Definition code_session : session (emitter handler) :=
  Eval vm_compute in match create page_html page_notes opts0 default_timer_options no_macros 1 sample_options
      0 800 false false [] (js "#1") code_source newEmitter with Ok a => a | _ => sample_session end.

Definition code_vm : slide_vm := Eval vm_compute in default code_slide (head (getSlides (a_show code_session))).

Lemma code_session_slides : getSlides (a_show code_session) = [code_vm].
Proof. vm_compute. reflexivity. Qed.


(** What is on the screen. *)
Example code_session_html : map sv_html (slideViews (a_view code_session)) =
  [js "<p>a</p>" ++ nl ++ js "<pre><code class=＂json hljs remark-code＂>"
   ++ js "<div class=＂remark-code-line＂>[<span class=＂hljs-number＂>1</span>,</div>"
   ++ js "<div class=＂remark-code-line remark-code-line-highlighted＂>  <span class=＂hljs-number＂>2</span>]</div>"
   ++ js "</code></pre>" ++ nl ++ js "<p><code class=＂remark-inline-code＂>x</code></p>"
   ++ js "<div class=＂remark-slide-number＂>1 / 1</div>"].
Proof. vm_compute. reflexivity. Qed.
